(* ===== verification/_CoqProject ===== *)
-Q . S2P
Prelude.v
Util.v
Wildcard.v
Calendar.v
Queue.v
LinkedList.v
SList.v
CbQueue.v
Crc.v
LibSm.v
Monitor.v
PosixQueue.v
PosixStream.v
PosixTimer.v
L2Policy.v
Os.v
LinuxBuf.v
Packet.v
Parts.v
Resources.v
TimerHandler.v
Device.v
Ping.v
Time.v
Configuration.v
ConfigStore.v
ConfigTypes.v
ConfigFlash.v
ConfigMsg.v
ConfigRemote.v
Neighbors.v
Topology.v
TopologyTable.v
TopologyList.v
TopologyWalk.v
TopologyLine.v
NeighborTable.v
TopologyNode.v
AlignedMalloc.v
Pcap.v
Adin.v
AdinBuffers.v
Dfu.v
DfuClient.v
DfuHost.v
DfuCore.v
DfuSafe.v
DfuTransfer.v
DfuSimulation.v
L2.v
BmLinux.v
Bcmp.v
Lwip.v
LwipBuffers.v
Middleware.v
PubSub.v
Subscriptions.v
Publish.v
Services.v
ServiceRegistry.v
ServiceNode.v
ServiceRequests.v
ServiceCall.v
SettingsMap.v
SettingsEncoded.v
NodeServices.v
NodeServicesSpec.v
Metrics.v
AdinMetrics.v
MetricsReport.v
PowerInfo.v
Spotter.v
Mavlink.v
MavlinkSpec.v
Bristlemouth.v
