(* ===== verification/Prelude.v ===== *)
(** * Bristlemouth core: a verification library

    The program is the core of a Bristlemouth node: a protocol stack for small
    sensors that hang together in a chain of point-to-point Ethernet links.  A
    node has a layer 2, which floods or forwards frames between its ports, an
    IPv6 stack, the control protocol BCMP, the update of the firmware over it, and
    a middleware on top.  This library translates the parts of the C code into
    definitions of the same names and proves what they do.

    ** Conventions

    A C function is a function of the same name.  One that keeps state is a
    computation of the monad [M S] below: from a state it gives a result and the
    next state, or [None] where the C program has undefined behaviour (an access
    outside a buffer or to freed memory, a null pointer, a division by zero).
    Theorems of total correctness therefore say, too, that none of this happens.
    An integer of [w] bits is a [Z], and arithmetic wraps with [wrap w]; buffers
    are lists of bytes, which are read and written through [read_at] and
    [write_at]; memory that pointers share is a finite map of locations ([loc]).
    [BmErr] is the code's error type.  What the code asks of the operating system
    is answered from the state: a list tells which of the next allocations
    succeed, so that a theorem about all states covers all failures.  Where the
    processor matters, the definitions take a [Platform]: its byte order and the
    width of [size_t].  Output for debugging and delays are left out.

    ** The files and the code that they model

    - [Prelude]: this header; integers, the monad with its rules of partial
      ([post]) and total ([total]) correctness, byte strings.
    - [Util], [Wildcard], [Calendar]: src/common/util.c; addresses and byte order,
      [bm_wildcard_match], the conversions between times and dates.
    - [Queue]: src/common/q.c, a ring buffer of items of any length.
    - [LinkedList]: src/common/ll.c, over a heap of items.
    - [CbQueue]: src/common/cb_queue.c, a queue of callbacks.
    - [Crc]: src/third_party/crc, the table-driven and shifted checksums.
    - [LibSm]: src/common/lib_state_machine.c, with the rule for invariants.
    - [L2Policy]: src/network/l2_policy.c, where frames go and how ports are
      written into their addresses.
    - [SList]: singly linked lists over a heap of nodes of any type.
    - [Monitor], [PosixQueue], [PosixStream], [PosixTimer]: src/common/bm_posix.c,
      the operating system on POSIX.  A call is cut into passes between its waits on
      conditions, and the passes of all tasks interleave.
    - [Os]: the operating system as the other components see it.
    - [LinuxBuf], [BmLinux]: src/network/bm_linux.c, reference-counted frame
      buffers; addresses, checksums, sending and delivering UDP and BCMP.
    - [L2]: src/network/l2.c, the task of the layer 2, the ports, the link
      changes and the renegotiation timers.  It uses the IP stack through a
      parameter that [BmLinux] instantiates.
    - [Packet]: src/bcmp/packet.c, the headers, the byte order of messages, the
      requests that wait for a reply, the dispatch to handlers.
    - [Bcmp]: src/bcmp/bcmp.c and heartbeat.c, the task and the transmission, on
      top of [Packet], [L2] and [BmLinux].
    - [Parts]: the interfaces between the handlers of BCMP and what they call.
      [Device]: src/common/device.c, what a node says of itself.  [TimerHandler]:
      src/common/timer_callback_handler.c, the task that runs the callbacks of timers.
    - [Resources]: src/bcmp/resource_discovery.c, the tables of topics.
    - [Neighbors]: src/bcmp/neighbors.c, info.c and the handler of heartbeat.c, the
      nodes at the ends of the links; [NeighborTable] proves what the list stands for.
    - [Topology]: src/integrations/topology.c, the task that links the tables of all
      nodes.  [TopologyTable] says what a table says, [TopologyList] what the list
      stands for, [TopologyWalk] what one event does; [TopologyLine] follows a whole
      run, and [TopologyNode] puts it on top of [Neighbors].
    - [Adin]: src/drivers/adin2111/bm_adin2111.c, the network device below the layer 2,
      on top of the vendor's driver; [AdinBuffers] proves who holds the buffers.
    - [AlignedMalloc]: src/common/aligned_malloc.c, memory at aligned addresses.
      [Pcap]: src/common/pcap.c, frames as records of a capture file, with a reader.
    - [Lwip]: src/network/bm_lwip.c, the IP stack on a microcontroller, on top of lwIP;
      [LwipBuffers] proves that its messages are a queue, and who holds their memory.
    - [Ping], [Time]: src/bcmp/ping.c and time.c.
    - [Configuration]: src/bcmp/configuration.c, the partitions of settings, over the
      CBOR library and the flash as classes; [ConfigStore] proves what the arrays stand
      for, [ConfigTypes] that the types of the keys are those of their values, and
      [ConfigFlash] that they survive a restart.  [ConfigMsg]: src/bcmp/config.c,
      the messages about settings; [ConfigRemote] follows them from node to node.
    - [Middleware], [PubSub]: src/middleware/middleware.c and pubsub.c, the
      applications on UDP ports, subscriptions and messages; [Subscriptions] proves
      what the lists stand for, [Publish] follows a message from end to end.
    - [Services]: src/middleware/bm_service.c and bm_service_request.c, services that
      are offered and asked for; [ServiceRegistry] and [ServiceRequests] prove what
      their lists stand for, [ServiceNode] puts them on top of [PubSub], [ServiceCall]
      follows a call from node to node.
    - [SettingsMap]: src/middleware/cbor_service_helper.c, all settings in one map, over
      the encoder of the CBOR library as a class; [SettingsEncoded] proves what it holds.
    - [NodeServices]: echo_service.c, sys_info_service.c and config_cbor_map_service.c of
      src/middleware, the services of every node; [NodeServicesSpec] what they answer.
    - [Metrics]: src/middleware/metrics_service.c, and [AdinMetrics]:
      src/drivers/adin2111/adin2111_network_metrics.c, the measurements of a node and of
      the ports of its network device; [MetricsReport] proves what a reply reports.
    - [PowerInfo]: src/middleware/power_info_service.c, the times of the bus power.
    - [Spotter]: spotter.c and file_ops.c of src/integrations, the messages that are
      printed, appended to files or sent to the shore.
    - [Mavlink]: src/middleware/bm_mavlink.c, MAVLink messages as an application of the
      middleware; [MavlinkSpec] proves who gets them.
    - [Bristlemouth]: src/middleware/bristlemouth.c, the order in which a node starts.
    - [Dfu], [DfuClient], [DfuHost], [DfuCore]: src/bcmp/dfu_*.c, the update of the
      firmware: the shared state and messages, the states of the node that is
      updated, those of the node that has the image, and the machine with its
      task.  Flash, reset and the image belong to the application; they are
      operations of the class [DfuPlatform].
    - [DfuSafe], [DfuTransfer]: what holds of an update, for every platform that
      keeps the laws of [DfuFlash] and [DfuWilling]; [DfuSimulation] is such a
      platform, and runs the examples.

    ** What is proved

    - Data structures refine what they stand for: the ring buffer a bounded FIFO
      of byte strings ([Queue.q_refines_fifo]), the linked list a sequence
      ([LinkedList.ll_refines_sequence], for removals at the ends: removing from
      the middle is wrong, see [ll_remove_dangling_tail]), the callback queue a
      FIFO, the checksums their bit-serial definitions, the wildcard match a
      declarative one; the dates are inverse to the times.
    - Frames: the forwarding decision ([L2Policy.rx_policy_spec]), what the ports
      send ([L2.process_tx_link_local], [L2.process_rx_flood]), link changes
      ([L2.link_change_spec]), the classification of what is received
      ([BmLinux.bm_l2_submit_spec]), a datagram from node to node
      ([BmLinux.udp_end_to_end]), the checksums.
    - The device: with a port enabled, the copies of frames are those that the driver holds,
      every receive buffer is with the driver or was refused by it, and each frame that comes
      in is handed on once ([AdinBuffers.adin_traffic]); a start that succeeds is complete
      ([AdinBuffers.adin_start]).  Captured frames are found again by a reader
      ([Pcap.pcap_round_trip]).  On lwIP, too, a message that comes in while there is room is
      queued once and given back with all of its memory, and a packet that was sent is freed
      when layer 2 is done with it ([LwipBuffers.lwip_traffic]).
    - BCMP: messages and replies go through ([Packet.message_round_trip],
      [Packet.reply_round_trip]), and a message gets from one node through the queue and the
      ports of its layer 2, and those of the neighbor, to the neighbor's handler
      ([Bcmp.bcmp_end_to_end]); requests expire
      ([Packet.timer_expires]), refusals leave nothing behind
      ([Bcmp.bcmp_tx_refused]).
    - Updates: only a checked image is activated, whatever arrives in whatever
      order, as long as no write to the flash has failed ([DfuSafe.dfu_activation_safe],
      an invariant of the whole machine; after a failed write it is not so, see
      [DfuSimulation.failed_write_activated]); a willing client gets the image
      ([DfuTransfer.client_receives_image]) from a host that is asked for the chunks of its
      own image in order ([DfuTransfer.host_sends_image]); the error
      state can be for ever ([DfuSafe.dfu_error_forever]).

    - The operating system: under every interleaving queues and stream buffers are
      bounded FIFO queues ([PosixQueue.posix_queue_fifo],
      [PosixStream.posix_stream_fifo]), no wake-up is lost unless the time of a woken task
      is over before it looks again ([PosixQueue.posix_queue_wakes],
      [PosixQueue.lost_wakeup]), semaphores exclude, timers that are left alone fire when
      they are due and not before ([PosixTimer.posix_timer_fires],
      [PosixTimer.posix_timer_fires_when_due]).
    - Other nodes: the chain of neighbors is a list that heartbeats and the passing time
      change ([NeighborTable.neighbor_table]); a ping comes back with its payload
      ([Ping.ping_round_trip]); the time that is set is the time that is answered, along a
      line of nodes that pass the messages on ([Time.time_round_trip]).
    - Settings: the partitions are lists of keys with typed values
      ([ConfigStore.config_store_refines]), well typed when no array comes in a message
      ([ConfigTypes.settings_typed]), that a restart finds again
      ([ConfigFlash.config_survives_restart]) and that other nodes read and change
      ([ConfigRemote.config_over_network]).
    - Services: the ones that are offered are a list of names with handlers, if no name
      begins with another and no subscription fails ([ServiceRegistry.service_registry]); each request is answered once
      ([ServiceRequests.service_requests_answered]), with what the handler of the other
      node answers ([ServiceCall.service_call]).  The services that every node offers have
      different names ([NodeServicesSpec.node_names_ok]); an echo comes back
      ([NodeServicesSpec.echo_service]), the map of the settings has all of them, if
      none is an array ([SettingsEncoded.settings_map]), measurements report every component
      ([MetricsReport.metrics_reported]), and the answers about the power are handed out
      in turn ([PowerInfo.power_info_in_turn]).
    - Other products: what is logged is what is read ([Spotter.spotter_log_read]), and the
      first MAVLink message of a datagram is handled once ([MavlinkSpec.mavlink_delivered]).
    - Memory that is aligned is inside of its block and freed with it
      ([AlignedMalloc.aligned_round_trip]).
    - Topics: the tables of resources are lists of names, if no name begins with another, and
      go from node to node ([Resources.resource_tables],
      [Resources.resource_table_round_trip]); subscriptions are a list of topics with
      callbacks, in the same case and when no callback is added again behind another one
      ([Subscriptions.pubsub_refines]); a message calls exactly the matching callbacks
      on every node ([Publish.publish_end_to_end]).

    The abstract specifications say what the code is meant to do, not what it does: where
    the two differ, the theorem names the condition under which they agree, and an example
    beside it runs the code outside of the condition.

    Loops that are not structural have fuel, and their theorems show that the fuel
    given is enough: a traversal of a list has the size of its heap, the wildcard
    match the product of the lengths, the conversion of dates the number of years,
    the division of an image into chunks its length.  The buffer for the map of the
    settings has four tries ([SettingsMap.map_fuel]), of which two are enough.

    ** Interfaces

    [Platform] (byte order, pointer width), [L2Os] below the layer 2, whose
    handling of received frames is a parameter that [BmLinux] instantiates, the
    callbacks of [Packet] towards its clients, [Part] (a component's state inside of
    a node's) with its laws, [BcmpApi] with [KeepsPart] (sending, for the handlers of
    BCMP), [DfuPlatform] with [DfuFlash] and [DfuWilling], [RtcApi] with [TimeLaws] (the
    clock, and what a node can send), [CborApi] with [CborLaws] and the [ConfigFlash] of [Configuration] with
    [FlashLaws], [PubSubApi] with [SubscribeLaws] and [KeepsServices] (publish and
    subscribe, for the services), which [PubSub] is proved to keep, [NeighborTables] and
    [TableNetwork] with its laws (tables of neighbors, for the topology), which
    [Neighbors] is proved to keep, [AdinDriver] with [AdinDriverLaws] (the vendor's
    driver), [CborEncoderApi] with [CborEncoderLaws] (the encoder of the CBOR library, for
    the map of the settings), [NodeCodec] (the encodings of the messages of the services),
    [LwipApi] with [LwipLaws] (the packets of lwIP), [PrintPublication] with
    [PrintPublicationLaws] (the head of a message that is printed), [MavlinkApi] with
    [MavlinkLaws] (packing and parsing of MAVLink).

    ** What is not modelled

    Tasks run in steps, one event after the other; a step is not interrupted (but for the
    passes of [Monitor]).  In
    [Packet], where a reply is found and taken off the list in two steps under a
    semaphore, the timer does not run in between.  Handlers are parameters, and do
    not change the frame that they are given.  The vendor's driver of the ADIN2111
    (adin2111.c and adi_*.c in src/drivers) is accesses to a chip's registers; [Adin]
    sees it as the answers to its calls.  bm_freertos.c, the operating system on a
    microcontroller, is one call of FreeRTOS for each function, and FreeRTOS is not in the
    repository; [PosixQueue] and its neighbors are the other implementation of the same
    interface.  The encodings of the messages of services are in a library as well.
    Functions that print are left out. *)
From stdpp Require Export base numbers list gmap option sets.
From Stdlib Require Export ZArith Lia.

#[global] Open Scope Z_scope.

Declare Scope bm_scope.
#[global] Open Scope bm_scope.

Create HintDb bm.
Create HintDb bm_rw.

(** ** Machine integers *)

(** A [w]-bit unsigned integer is a [Z] reduced modulo [2 ^ w]. *)
Definition wrap (w z : Z) : Z := z mod 2 ^ w.

Abbreviation u8 := (wrap 8).
Abbreviation u16 := (wrap 16).
Abbreviation u32 := (wrap 32).
Abbreviation u64 := (wrap 64).

(** Two's complement reading of the low 32 bits, as a cast to [int32_t]. *)
Definition s32 (z : Z) : Z := (z + 2 ^ 31) mod 2 ^ 32 - 2 ^ 31.

Lemma wrap_range w z : 0 <= w -> 0 <= wrap w z < 2 ^ w.
Proof. intros Hw. apply Z.mod_pos_bound. lia. Qed.

Lemma wrap_small w z : 0 <= z < 2 ^ w -> wrap w z = z.
Proof. apply Z.mod_small. Qed.

Lemma wrap_wrap w z : 0 <= w -> wrap w (wrap w z) = wrap w z.
Proof. intros Hw. apply wrap_small, wrap_range, Hw. Qed.

Lemma u8_range z : 0 <= u8 z < 256.
Proof. apply (wrap_range 8). lia. Qed.
Lemma u16_range z : 0 <= u16 z < 65536.
Proof. apply (wrap_range 16). lia. Qed.
Lemma u32_range z : 0 <= u32 z < 4294967296.
Proof. apply (wrap_range 32). lia. Qed.
Lemma u64_range z : 0 <= u64 z < 18446744073709551616.
Proof. apply (wrap_range 64). lia. Qed.

Lemma u8_small z : 0 <= z < 256 -> u8 z = z.
Proof. apply (wrap_small 8). Qed.
Lemma u16_small z : 0 <= z < 65536 -> u16 z = z.
Proof. apply (wrap_small 16). Qed.
Lemma u32_small z : 0 <= z < 4294967296 -> u32 z = z.
Proof. apply (wrap_small 32). Qed.
Lemma u64_small z : 0 <= z < 18446744073709551616 -> u64 z = z.
Proof. apply (wrap_small 64). Qed.

Lemma mod_add_congr a b c n : a mod n = b mod n -> (a + c) mod n = (b + c) mod n.
Proof. intros H. by rewrite <- (Zplus_mod_idemp_l a), H, Zplus_mod_idemp_l. Qed.

Lemma div_mod_add a n r : 0 <= r < n -> (a * n + r) / n = a /\ (a * n + r) mod n = r.
Proof.
  intros H. rewrite Z.div_add_l, (Z.div_small r) by lia. split; [lia|].
  rewrite Z.add_comm, Z.mod_add by lia. by apply Z.mod_small.
Qed.

#[export] Hint Resolve u8_range u16_range u32_range u64_range : bm.

(** Adds a fact to the context unless it is there already. *)
Ltac learn H :=
  let T := type of H in
  match goal with
  | _ : T |- _ => fail 1
  | _ => pose proof H
  end.

(** Puts the range of every wrapped integer of the goal and of the context in
    the context. *)
Ltac wrap_ranges :=
  repeat match goal with
  | |- context [wrap 8 ?z] => learn (u8_range z)
  | |- context [wrap 16 ?z] => learn (u16_range z)
  | |- context [wrap 32 ?z] => learn (u32_range z)
  | |- context [wrap 64 ?z] => learn (u64_range z)
  | _ : context [wrap 8 ?z] |- _ => learn (u8_range z)
  | _ : context [wrap 16 ?z] |- _ => learn (u16_range z)
  | _ : context [wrap 32 ?z] |- _ => learn (u32_range z)
  | _ : context [wrap 64 ?z] |- _ => learn (u64_range z)
  end.

(** Case analysis on the boolean comparisons of the goal. *)
Ltac bcase :=
  match goal with
  | |- context [Z.eqb ?a ?b] => destruct (Z.eqb_spec a b)
  | |- context [Z.ltb ?a ?b] => destruct (Z.ltb_spec a b)
  | |- context [Z.leb ?a ?b] => destruct (Z.leb_spec a b)
  | |- context [Nat.eqb ?a ?b] => destruct (Nat.eqb_spec a b)
  | |- context [Nat.ltb ?a ?b] => destruct (Nat.ltb_spec a b)
  | |- context [Nat.leb ?a ?b] => destruct (Nat.leb_spec a b)
  end.

(** Turns boolean hypotheses into propositions and destructs conjunctions. *)
Ltac bool_to_prop :=
  repeat match goal with
  | H : _ && _ = true |- _ => apply andb_true_iff in H; destruct H
  | H : _ || _ = false |- _ => apply orb_false_iff in H; destruct H
  | H : negb _ = true |- _ => apply negb_true_iff in H
  | H : negb _ = false |- _ => apply negb_false_iff in H
  | H : Z.eqb _ _ = true |- _ => apply Z.eqb_eq in H
  | H : Z.eqb _ _ = false |- _ => apply Z.eqb_neq in H
  | H : Z.ltb _ _ = true |- _ => apply Z.ltb_lt in H
  | H : Z.ltb _ _ = false |- _ => apply Z.ltb_ge in H
  | H : Z.leb _ _ = true |- _ => apply Z.leb_le in H
  | H : Z.leb _ _ = false |- _ => apply Z.leb_gt in H
  | H : Nat.eqb _ _ = true |- _ => apply Nat.eqb_eq in H
  | H : Nat.eqb _ _ = false |- _ => apply Nat.eqb_neq in H
  | H : Nat.ltb _ _ = true |- _ => apply Nat.ltb_lt in H
  | H : Nat.ltb _ _ = false |- _ => apply Nat.ltb_ge in H
  | H : Nat.leb _ _ = true |- _ => apply Nat.leb_le in H
  | H : Nat.leb _ _ = false |- _ => apply Nat.leb_gt in H
  end.

(** ** Error codes (src/common/util.h) *)

Inductive BmErr : Type :=
| BmOK | BmEPERM | BmENOENT | BmEIO | BmENXIO | BmEAGAIN | BmENOMEM
| BmEACCES | BmENODEV | BmEINVAL | BmENODATA | BmETIME | BmENONET | BmEBADMSG
| BmEMSGSIZE | BmENETDOWN | BmETIMEDOUT | BmECONNREFUSED | BmEHOSTDOWN
| BmEHOSTUNREACH | BmEALREADY | BmEINPROGRESS | BmECANCELED | BmENOTINTREC.

#[export] Instance BmErr_eq_dec : EqDecision BmErr.
Proof. solve_decision. Defined.

(** [e == BmOK] *)
Definition is_ok (e : BmErr) : bool :=
  match e with BmOK => true | _ => false end.

Lemma is_ok_true e : is_ok e = true <-> e = BmOK.
Proof. by destruct e. Qed.

Lemma is_ok_false e : is_ok e = false <-> e <> BmOK.
Proof. by destruct e. Qed.

(** The macro [bm_err_check(e, f)]: [f] runs only while no error occurred. *)
Definition bm_err_check {S : Type} (e : BmErr) (f : S -> BmErr * S) (s : S)
    : BmErr * S :=
  if is_ok e then f s else (e, s).

(** ** A state monad with undefined behaviour *)

(** [M St A]: a computation on the state [St]; [None] is undefined behaviour (an
    access outside an object, or to one that does not exist). *)
Definition M (St A : Type) : Type := St -> option (A * St).

#[export] Instance M_ret St : MRet (M St) := fun A a s => Some (a, s).
#[export] Instance M_bind St : MBind (M St) := fun A B k m s =>
  match m s with Some (a, s) => k a s | None => None end.

Definition get {St} : M St St := fun s => Some (s, s).
Definition gets {St A} (f : St -> A) : M St A := fun s => Some (f s, s).
Definition modify {St} (f : St -> St) : M St unit := fun s => Some (tt, f s).
Definition ub {St A} : M St A := fun _ => None.
Definition lift {St A} (o : option A) : M St A := fun s => (fun a => (a, s)) <$> o.
Definition when {St} (b : bool) (m : M St unit) : M St unit := if b then m else mret tt.
Definition unless_err {St} (e : BmErr) (m : M St BmErr) : M St BmErr :=
  if is_ok e then m else mret e.

(** Runs [f] on each element. *)
Fixpoint for_each {St A} (l : list A) (f : A -> M St unit) : M St unit :=
  match l with
  | [] => mret tt
  | a :: l => _ ← f a; for_each l f
  end.

(** A computation on a part of the state. *)
Definition zoom {St T A} (g : St -> T) (f : T -> St -> St) (m : M T A) : M St A := fun s =>
  match m (g s) with Some (a, t) => Some (a, f t s) | None => None end.

Lemma bind_some {St A B} (m : M St A) (k : A -> M St B) s a s' :
  m s = Some (a, s') -> (m ≫= k) s = k a s'.
Proof. intros E. unfold mbind, M_bind. by rewrite E. Qed.

Lemma bind_inv {St A B} (m : M St A) (k : A -> M St B) s b s'' :
  (m ≫= k) s = Some (b, s'') -> exists a s', m s = Some (a, s') /\ k a s' = Some (b, s'').
Proof. unfold mbind, M_bind. destruct (m s) as [[a s']|] eqn:E; eauto; done. Qed.

Lemma bind_lift {St A B} (o : option A) (k : A -> M St B) s :
  (lift o ≫= k) s = (o ≫= fun a => k a s).
Proof. by destruct o. Qed.

Lemma bind_none {St A B} (m : M St A) (k : A -> M St B) s : m s = None -> (m ≫= k) s = None.
Proof. intros E. unfold mbind, M_bind. by rewrite E. Qed.

Lemma bind_assoc {St A B C} (m : M St A) (k : A -> M St B) (k' : B -> M St C) s :
  ((m ≫= k) ≫= k') s = (m ≫= fun a => k a ≫= k') s.
Proof. unfold mbind, M_bind. by destruct (m s) as [[a s']|]. Qed.

Lemma for_each_app {St A} (l1 l2 : list A) (f : A -> M St unit) s :
  for_each (l1 ++ l2) f s = (for_each l1 f ≫= fun _ => for_each l2 f) s.
Proof.
  revert s. induction l1 as [|a l1 IH]; intros s; [done|].
  cbn. unfold mbind, M_bind. destruct (f a s) as [[[] s']|]; [|done].
  rewrite IH. done.
Qed.

(** *** What holds afterwards

    [post m Q s]: whatever [m] does from [s] without undefined behaviour, [Q]
    holds of its result and of the state that it leaves. *)
Definition post {St A} (m : M St A) (Q : A -> St -> Prop) (s : St) : Prop :=
  forall a s', m s = Some (a, s') -> Q a s'.

Lemma post_bind {St A B} (m : M St A) (k : A -> M St B) Q s :
  post m (fun a => post (k a) Q) s -> post (m ≫= k) Q s.
Proof. intros H b s'' (a & s' & E1 & E2)%bind_inv. by eapply H. Qed.

Lemma post_ret {St A} (a : A) (Q : A -> St -> Prop) s : Q a s -> post (mret a) Q s.
Proof. intros H a' s' [= <- <-]. done. Qed.

Lemma post_get {St} (Q : St -> St -> Prop) s : Q s s -> post get Q s.
Proof. intros H a s' [= <- <-]. done. Qed.

Lemma post_gets {St A} (f : St -> A) (Q : A -> St -> Prop) s : Q (f s) s -> post (gets f) Q s.
Proof. intros H a s' [= <- <-]. done. Qed.

Lemma post_modify {St} (f : St -> St) (Q : unit -> St -> Prop) s :
  Q tt (f s) -> post (modify f) Q s.
Proof. intros H a s' [= <- <-]. done. Qed.

Lemma post_lift {St A} (o : option A) (Q : A -> St -> Prop) s :
  (forall a, o = Some a -> Q a s) -> post (lift o) Q s.
Proof. intros H a s' E. unfold lift in E. destruct o; [|done]. injection E as <- <-. by apply H. Qed.

Lemma post_ub {St A} (Q : A -> St -> Prop) s : post ub Q s.
Proof. intros a s' [=]. Qed.

Lemma post_mono {St A} (m : M St A) (P Q : A -> St -> Prop) s :
  post m P s -> (forall a s', P a s' -> Q a s') -> post m Q s.
Proof. intros Hm H a s' E. by apply H, Hm. Qed.

Lemma post_zoom {St T A} (g : St -> T) (f : T -> St -> St) (m : M T A) (Q : A -> St -> Prop) s :
  post m (fun a t => Q a (f t s)) (g s) -> post (zoom g f m) Q s.
Proof.
  intros H a s' E. unfold zoom in E. destruct (m (g s)) as [[a' t]|] eqn:Em; [|done].
  injection E as <- <-. by apply H.
Qed.

(** Symbolic execution of a computation; stops at operations that it does not
    know, and at case analyses. *)
Ltac post_step :=
  match goal with
  | |- post (mbind _ _) _ _ => apply post_bind
  | |- post (mret _) _ _ => apply post_ret
  | |- post get _ _ => apply post_get
  | |- post (gets _) _ _ => apply post_gets
  | |- post (modify _) _ _ => apply post_modify
  | |- post (lift _) _ _ => apply post_lift; intros
  | |- post ub _ _ => apply post_ub
  | |- post (when ?b _) _ _ => unfold when
  | |- post (unless_err ?b _) _ _ => unfold unless_err
  | |- post (zoom _ _ _) _ _ => apply post_zoom
  | |- post (let '(_, _) := ?p in _) _ _ => destruct p
  end.

(** *** What a computation does

    [total m Q s]: [m] runs from [s] without undefined behaviour, and [Q] holds of
    its result and of the state that it leaves. *)
Definition total {St A} (m : M St A) (Q : A -> St -> Prop) (s : St) : Prop :=
  exists a s', m s = Some (a, s') /\ Q a s'.

Lemma total_bind {St A B} (m : M St A) (k : A -> M St B) Q s :
  total m (fun a => total (k a) Q) s -> total (m ≫= k) Q s.
Proof.
  intros (a & s1 & E1 & b & s2 & E2 & HQ). exists b, s2. split; [|done]. by rewrite (bind_some _ _ _ _ _ E1).
Qed.

Lemma total_assoc {St A B C} (m : M St A) (k : A -> M St B) (k' : B -> M St C) Q s :
  total ((m ≫= k) ≫= k') Q s -> total (m ≫= fun a => k a ≫= k') Q s.
Proof. unfold total. by rewrite bind_assoc. Qed.

Lemma total_ret {St A} (a : A) (Q : A -> St -> Prop) s : Q a s -> total (mret a) Q s.
Proof. intros H. by exists a, s. Qed.

Lemma total_get {St} (Q : St -> St -> Prop) s : Q s s -> total get Q s.
Proof. intros H. by exists s, s. Qed.

Lemma total_gets {St A} (f : St -> A) (Q : A -> St -> Prop) s : Q (f s) s -> total (gets f) Q s.
Proof. intros H. by exists (f s), s. Qed.

Lemma total_modify {St} (f : St -> St) (Q : unit -> St -> Prop) s :
  Q tt (f s) -> total (modify f) Q s.
Proof. intros H. by exists tt, (f s). Qed.

Lemma total_lift {St A} (o : option A) a (Q : A -> St -> Prop) s :
  o = Some a -> Q a s -> total (lift o) Q s.
Proof. intros -> H. by exists a, s. Qed.

Lemma total_mono {St A} (m : M St A) (P Q : A -> St -> Prop) s :
  total m P s -> (forall a s', P a s' -> Q a s') -> total m Q s.
Proof. intros (a & s' & E & HP) H. exists a, s'. auto. Qed.

Lemma total_zoom {St T A} (g : St -> T) (f : T -> St -> St) (m : M T A) (Q : A -> St -> Prop) s :
  total m (fun a t => Q a (f t s)) (g s) -> total (zoom g f m) Q s.
Proof. intros (a & t & E & HQ). exists a, (f t s). unfold zoom. by rewrite E. Qed.

Lemma total_post {St A} (m : M St A) (P Q : A -> St -> Prop) s :
  total m P s -> post m Q s -> total m (fun a s' => P a s' /\ Q a s') s.
Proof. intros (a & s' & E & HP) HQ. exists a, s'. auto. Qed.

(** As [post_step]; [lift] wants its value. *)
Ltac total_step :=
  match goal with
  | |- total (mbind _ _) _ _ => apply total_bind
  | |- total (mret _) _ _ => apply total_ret
  | |- total get _ _ => apply total_get
  | |- total (gets _) _ _ => apply total_gets
  | |- total (modify _) _ _ => apply total_modify
  | |- total (lift _) _ _ => eapply total_lift; [reflexivity|]
  | |- total (unless_err ?b _) _ _ => unfold unless_err
  | |- total (zoom _ _ _) _ _ => apply total_zoom
  end.

(** ** Byte strings *)

Abbreviation bytes := (list Z).

Definition byte_ok (b : Z) : Prop := 0 <= b < 256.

#[export] Instance byte_ok_dec b : Decision (byte_ok b).
Proof. unfold byte_ok. apply _. Defined.

Abbreviation bytes_ok := (Forall byte_ok).

(** Closed decidable facts, as the well-formedness of a concrete byte string. *)
Ltac decided := apply (bool_decide_unpack _); vm_compute; exact I.

(** [len] bytes at offset [off]. *)
Definition slice (off len : nat) (l : bytes) : bytes := take len (drop off l).

(** [memcpy (&l[off], d, length d)] for a copy that stays in the buffer. *)
Definition blit (off : nat) (d l : bytes) : bytes :=
  take off l ++ d ++ drop (off + length d) l.

(** Checked versions: [None] is an access outside the buffer. *)
Definition read_at (off len : nat) (l : bytes) : option bytes :=
  if (off + len <=? length l)%nat then Some (slice off len l) else None.

Definition write_at (off : nat) (d l : bytes) : option bytes :=
  if (off + length d <=? length l)%nat then Some (blit off d l) else None.

Lemma length_slice off len l :
  (off + len <= length l)%nat -> length (slice off len l) = len.
Proof. intros H. unfold slice. rewrite length_take, length_drop. lia. Qed.

Lemma length_blit off d l :
  (off + length d <= length l)%nat -> length (blit off d l) = length l.
Proof.
  intros H. unfold blit. rewrite !length_app, length_take, length_drop. lia.
Qed.

Lemma slice_blit_same off d l :
  (off + length d <= length l)%nat -> slice off (length d) (blit off d l) = d.
Proof.
  intros H. unfold slice, blit.
  rewrite drop_app_length', take_app_length by (rewrite length_take; lia).
  done.
Qed.

Lemma lookup_slice off len l i :
  (i < len)%nat -> slice off len l !! i = l !! (off + i)%nat.
Proof. intros H. unfold slice. rewrite lookup_take_lt, lookup_drop by lia. done. Qed.

Lemma lookup_blit_ne off d l i :
  (off + length d <= length l)%nat ->
  (i < off \/ off + length d <= i)%nat -> blit off d l !! i = l !! i.
Proof.
  intros H [Hi|Hi]; unfold blit.
  - rewrite lookup_app_l by (rewrite length_take; lia).
    by rewrite lookup_take_lt.
  - rewrite lookup_app_r by (rewrite length_take; lia).
    rewrite lookup_app_r by (rewrite length_take; lia).
    rewrite lookup_drop, length_take. f_equal. lia.
Qed.

Lemma lookup_blit_eq off d l i :
  (off + length d <= length l)%nat -> (i < length d)%nat ->
  blit off d l !! (off + i)%nat = d !! i.
Proof.
  intros H Hi. unfold blit.
  rewrite lookup_app_r by (rewrite length_take; lia).
  rewrite lookup_app_l by (rewrite length_take; lia).
  rewrite length_take. f_equal. lia.
Qed.

Lemma slice_blit_ne off len off' d l :
  (off' + length d <= length l)%nat ->
  (off + len <= off' \/ off' + length d <= off)%nat ->
  slice off len (blit off' d l) = slice off len l.
Proof.
  intros H Hd. apply list_eq. intros i.
  destruct (decide (i < len)%nat) as [Hi|Hi].
  - rewrite !lookup_slice by done. apply lookup_blit_ne; lia.
  - unfold slice. rewrite !lookup_take_ge by lia. done.
Qed.

Lemma blit_blit off d d' l :
  length d = length d' -> (off + length d <= length l)%nat ->
  blit off d' (blit off d l) = blit off d' l.
Proof.
  intros Hd Hl. apply list_eq. intros i.
  destruct (decide (off <= i < off + length d)%nat) as [Hi|Hi].
  - replace i with (off + (i - off))%nat by lia.
    rewrite !lookup_blit_eq by (rewrite ?length_blit; lia). done.
  - rewrite !lookup_blit_ne by (rewrite ?length_blit; lia). done.
Qed.

Lemma blit_slice_id off len l :
  (off + len <= length l)%nat -> blit off (slice off len l) l = l.
Proof.
  intros Hl. apply list_eq. intros i. pose proof (length_slice off len l Hl) as Hs.
  destruct (decide (off <= i < off + len)%nat) as [Hi|Hi].
  - replace i with (off + (i - off))%nat by lia.
    rewrite lookup_blit_eq, lookup_slice by lia. done.
  - by rewrite lookup_blit_ne by lia.
Qed.

Lemma blit_insert_ne off d l i b :
  (off + length d <= length l)%nat -> (i < off \/ off + length d <= i)%nat ->
  blit off d (<[i := b]> l) = <[i := b]> (blit off d l).
Proof.
  intros Hl Hi. apply list_eq. intros k.
  destruct (decide (off <= k < off + length d)%nat) as [Hk|Hk].
  - replace k with (off + (k - off))%nat by lia.
    rewrite list_lookup_insert_ne by lia.
    rewrite !lookup_blit_eq by (rewrite ?length_insert; lia). done.
  - rewrite lookup_blit_ne by (rewrite ?length_insert; lia).
    destruct (decide (i = k)) as [->|Hik].
    + destruct (decide (k < length l)%nat).
      * rewrite !list_lookup_insert_eq by (rewrite ?length_blit; lia). done.
      * rewrite !lookup_ge_None_2; [done|rewrite length_insert, length_blit; lia|
          rewrite length_insert; lia].
    + rewrite !list_lookup_insert_ne by done. by rewrite lookup_blit_ne by lia.
Qed.

Lemma slice_app_l off len l1 l2 :
  (off + len <= length l1)%nat -> slice off len (l1 ++ l2) = slice off len l1.
Proof.
  intros H. unfold slice. rewrite drop_app_le by lia.
  rewrite take_app_le by (rewrite length_drop; lia). done.
Qed.

Lemma bytes_ok_app l1 l2 : bytes_ok l1 -> bytes_ok l2 -> bytes_ok (l1 ++ l2).
Proof. apply Forall_app_2. Qed.

(** Reads and writes behind a known beginning. *)
Lemma read_at_app l1 d l2 n m :
  n = length l1 -> m = length d -> read_at n m (l1 ++ d ++ l2) = Some d.
Proof.
  intros -> ->. unfold read_at, slice. rewrite !length_app.
  destruct (Nat.leb_spec (length l1 + length d) (length l1 + (length d + length l2))); [|lia].
  by rewrite drop_app_length, take_app_length.
Qed.

Lemma read_at_head d l m : m = length d -> read_at 0 m (d ++ l) = Some d.
Proof. apply (read_at_app [] d l 0 m eq_refl). Qed.

Lemma write_at_app l1 d l2 n :
  n = length l1 -> (length d <= length l2)%nat ->
  write_at n d (l1 ++ l2) = Some (l1 ++ d ++ drop (length d) l2).
Proof.
  intros -> Hd. unfold write_at, blit. rewrite length_app.
  destruct (Nat.leb_spec (length l1 + length d) (length l1 + length l2)); [|lia].
  by rewrite take_app_length, drop_app_ge, Nat.add_comm, Nat.add_sub by lia.
Qed.

Lemma bytes_ok_blit off d l : bytes_ok d -> bytes_ok l -> bytes_ok (blit off d l).
Proof. intros. unfold blit. auto using Forall_app_2, Forall_take, Forall_drop. Qed.

Lemma bytes_ok_slice off len l : bytes_ok l -> bytes_ok (slice off len l).
Proof. intros. unfold slice. auto using Forall_take, Forall_drop. Qed.

#[export] Hint Resolve bytes_ok_app bytes_ok_blit bytes_ok_slice : bm.

(** ** Integers as byte strings *)

(** [n] bytes, least significant first. *)
Fixpoint le_enc (n : nat) (z : Z) : bytes :=
  match n with
  | O => []
  | S n => z mod 256 :: le_enc n (z / 256)
  end.

Fixpoint le_dec (l : bytes) : Z :=
  match l with
  | [] => 0
  | b :: l => b + 256 * le_dec l
  end.

(** Network byte order: most significant byte first. *)
Definition be_enc (n : nat) (z : Z) : bytes := rev (le_enc n z).
Definition be_dec (l : bytes) : Z := le_dec (rev l).

Lemma length_le_enc n z : length (le_enc n z) = n.
Proof. revert z. induction n as [|n IH]; intros z; simpl; [done|]. by rewrite IH. Qed.

Lemma length_be_enc n z : length (be_enc n z) = n.
Proof. unfold be_enc. by rewrite length_rev, length_le_enc. Qed.

Lemma le_enc_ok n z : bytes_ok (le_enc n z).
Proof.
  revert z. induction n as [|n IH]; intros z; simpl; constructor; auto.
  apply Z.mod_pos_bound. lia.
Qed.

Lemma be_enc_ok n z : bytes_ok (be_enc n z).
Proof. unfold be_enc. apply Forall_rev, le_enc_ok. Qed.

#[export] Hint Resolve le_enc_ok be_enc_ok : bm.

Lemma pow256_S n : 256 ^ Z.of_nat (S n) = 256 * 256 ^ Z.of_nat n.
Proof. rewrite Nat2Z.inj_succ, Z.pow_succ_r by lia. done. Qed.

Lemma le_dec_enc n z : le_dec (le_enc n z) = z mod 256 ^ Z.of_nat n.
Proof.
  revert z. induction n as [|n IH]; intros z; simpl le_enc; simpl le_dec.
  - by rewrite Z.mod_1_r.
  - rewrite IH, pow256_S, Z.rem_mul_r by lia. done.
Qed.

Lemma be_dec_enc n z : be_dec (be_enc n z) = z mod 256 ^ Z.of_nat n.
Proof. unfold be_dec, be_enc. by rewrite rev_involutive, le_dec_enc. Qed.

Lemma le_dec_range l : bytes_ok l -> 0 <= le_dec l < 256 ^ Z.of_nat (length l).
Proof.
  induction 1 as [|b l Hb _ IH]; simpl le_dec; [lia|].
  simpl length. rewrite pow256_S. unfold byte_ok in Hb. lia.
Qed.

Lemma be_dec_range l : bytes_ok l -> 0 <= be_dec l < 256 ^ Z.of_nat (length l).
Proof.
  intros H. unfold be_dec. rewrite <- length_rev. by apply le_dec_range, Forall_rev.
Qed.

Lemma le_enc_dec l : bytes_ok l -> le_enc (length l) (le_dec l) = l.
Proof.
  induction 1 as [|b l Hb _ IH]; [done|]. unfold byte_ok in Hb.
  simpl length. simpl le_dec. simpl le_enc. f_equal.
  - rewrite (Z.mul_comm 256), Z.mod_add by lia. apply Z.mod_small. lia.
  - rewrite (Z.mul_comm 256), Z.div_add, (Z.div_small b) by lia. apply IH.
Qed.

Lemma be_enc_dec l : bytes_ok l -> be_enc (length l) (be_dec l) = l.
Proof.
  intros H. unfold be_enc, be_dec. rewrite <- (length_rev l).
  rewrite le_enc_dec by (by apply Forall_rev). apply rev_involutive.
Qed.

(** ** Bit operations as arithmetic *)

Lemma land_ones_mod z n : 0 <= n -> Z.land z (2 ^ n - 1) = z mod 2 ^ n.
Proof.
  intros H. rewrite <- Z.land_ones by lia. f_equal.
  rewrite Z.ones_equiv. lia.
Qed.

(** Two numbers with no common bit: [lor] is [+]. *)
Lemma lor_shift_add a b n :
  0 <= n -> 0 <= a < 2 ^ n -> Z.lor a (Z.shiftl b n) = a + b * 2 ^ n.
Proof.
  intros Hn Ha. rewrite Z.shiftl_mul_pow2 by lia.
  assert (Hl : Z.land a (b * 2 ^ n) = 0).
  { apply Z.bits_inj'. intros i Hi. rewrite Z.land_spec, Z.bits_0.
    destruct (Z.ltb_spec i n).
    - rewrite Z.mul_pow2_bits_low by lia. apply andb_false_r.
    - rewrite <- (Z.mod_small a (2 ^ n)) by lia.
      rewrite Z.mod_pow2_bits_high by lia. done. }
  rewrite <- (Z.lxor_lor _ _ Hl). symmetry. by apply Z.add_nocarry_lxor.
Qed.

Lemma land_byte x k :
  0 <= k -> Z.land x (Z.shiftl 255 k) = ((x / 2 ^ k) mod 256) * 2 ^ k.
Proof.
  intros Hk. rewrite <- Z.shiftl_mul_pow2 by lia.
  rewrite <- (Z.shiftr_div_pow2 x k) by lia.
  change 256 with (2 ^ 8). rewrite <- Z.land_ones by lia. change (Z.ones 8) with 255.
  apply Z.bits_inj'. intros i Hi.
  rewrite Z.land_spec, !Z.shiftl_spec, Z.land_spec by lia.
  destruct (Z.ltb_spec i k).
  - rewrite !(Z.testbit_neg_r _ (i - k)) by lia. by rewrite andb_false_r.
  - rewrite Z.shiftr_spec by lia. by replace (i - k + k) with i by lia.
Qed.

Lemma lor_add_hi a b n :
  0 <= n -> a mod 2 ^ n = 0 -> 0 <= b < 2 ^ n -> Z.lor a b = a + b.
Proof.
  intros Hn Ha Hb.
  assert (Hs : a = Z.shiftl (a / 2 ^ n) n).
  { rewrite Z.shiftl_mul_pow2 by lia. pose proof (Z.div_mod a (2 ^ n)). lia. }
  rewrite Hs. rewrite Z.lor_comm, lor_shift_add by lia. rewrite Z.shiftl_mul_pow2 by lia. lia.
Qed.

Lemma land_range n z k : 0 <= n -> 0 <= k < 2 ^ n -> 0 <= Z.land z k < 2 ^ n.
Proof.
  intros Hn Hk. rewrite <- (Z.mod_small k (2 ^ n)) by done.
  rewrite <- Z.land_ones, Z.land_assoc, Z.land_ones by done.
  apply Z.mod_pos_bound. lia.
Qed.

(** One's complement. *)
Lemma lxor_range n a b : 0 <= n -> 0 <= a < 2 ^ n -> 0 <= b < 2 ^ n -> 0 <= Z.lxor a b < 2 ^ n.
Proof.
  intros Hn Ha Hb. replace (Z.lxor a b) with (Z.lxor a b mod 2 ^ n); [apply Z.mod_pos_bound; lia|].
  apply Z.bits_inj'. intros i Hi. destruct (Z.lt_ge_cases i n).
  - by rewrite Z.mod_pow2_bits_low.
  - rewrite Z.mod_pow2_bits_high, Z.lxor_spec by lia.
    by rewrite <- (Z.mod_small a (2 ^ n)), <- (Z.mod_small b (2 ^ n)), !Z.mod_pow2_bits_high by lia.
Qed.

Lemma lxor_ones_sub c n : 0 <= n -> 0 <= c < 2 ^ n -> Z.lxor c (Z.ones n) = Z.ones n - c.
Proof.
  intros Hn Hc. assert (Hs : c + Z.lxor c (Z.ones n) = Z.ones n); [|lia].
  rewrite Z.add_nocarry_lxor.
  - by rewrite <- Z.lxor_assoc, Z.lxor_nilpotent, Z.lxor_0_l.
  - apply Z.bits_inj'. intros i Hi. rewrite Z.land_spec, Z.lxor_spec, Z.bits_0.
    destruct (Z.ltb_spec i n).
    + rewrite Z.ones_spec_low by lia. by destruct (Z.testbit c i).
    + rewrite <- (Z.mod_small c (2 ^ n)) by lia.
      rewrite Z.mod_pow2_bits_high by lia. done.
Qed.

(** Evaluates the constant powers of two, then [lia] with division and modulo. *)
Ltac pow_consts :=
  repeat match goal with
  | |- context [Z.pow 2 ?n] =>
      let v := eval vm_compute in (Z.pow 2 n) in change (Z.pow 2 n) with v
  end.
Ltac plia := pow_consts; Z.to_euclidean_division_equations; lia.
(** Puts the ranges of the bytes of an explicit list in the context. *)
Ltac byte_bounds Hl :=
  repeat (let H := fresh in apply Forall_cons in Hl as [H Hl]; unfold byte_ok in H).

(** Folds [lor]s of byte fields, highest first, into a sum. *)
Ltac lor_fields :=
  repeat match goal with
  | |- context [Z.lor ?a (?b * 2 ^ ?n)] =>
      rewrite (lor_add_hi a (b * 2 ^ n) (n + 8)) by plia
  | |- context [Z.lor ?a ?b] => rewrite (lor_add_hi a b 8) by plia
  end.

Lemma le_dec_app l1 l2 :
  le_dec (l1 ++ l2) = le_dec l1 + 256 ^ Z.of_nat (length l1) * le_dec l2.
Proof.
  induction l1 as [|b l1 IH]; simpl le_dec; simpl app.
  - simpl length. lia.
  - simpl length. rewrite pow256_S. simpl le_dec. rewrite IH. lia.
Qed.

Lemma le_dec_take_drop l k :
  (k <= length l)%nat ->
  le_dec l = le_dec (take k l) + 256 ^ Z.of_nat k * le_dec (drop k l).
Proof.
  intros Hk. rewrite <- (take_drop k l) at 1. rewrite le_dec_app, length_take.
  by replace (k `min` length l)%nat with k by lia.
Qed.

Lemma le_dec_div_mod l k :
  bytes_ok l -> (k <= length l)%nat ->
  le_dec l / 256 ^ Z.of_nat k = le_dec (drop k l)
  /\ le_dec l mod 256 ^ Z.of_nat k = le_dec (take k l).
Proof.
  intros Hl Hk. rewrite (le_dec_take_drop l k Hk).
  pose proof (le_dec_range (take k l) (Forall_take _ _ _ Hl)) as Hr.
  rewrite length_take in Hr. replace (k `min` length l)%nat with k in Hr by lia.
  split.
  - rewrite Z.add_comm, Z.mul_comm, Z.div_add_l by lia. rewrite Z.div_small by lia. lia.
  - rewrite (Z.mul_comm (256 ^ _)), Z.mod_add by lia. by apply Z.mod_small.
Qed.

(** The byte at [k] of a value in memory order. *)
Lemma le_dec_byte l k :
  bytes_ok l -> (k < length l)%nat ->
  (le_dec l / 256 ^ Z.of_nat k) mod 256 = nth k l 0.
Proof.
  intros Hl Hk. destruct (le_dec_div_mod l k Hl) as [-> _]; [lia|].
  destruct (drop k l) as [|b r] eqn:E.
  { apply (f_equal length) in E. rewrite length_drop in E. simpl in E. lia. }
  assert (Hb : byte_ok b) by (apply (Forall_drop _ k) in Hl; rewrite E in Hl; by inversion Hl).
  unfold byte_ok in Hb. simpl le_dec. rewrite Z.mul_comm, Z.mod_add, Z.mod_small by lia.
  rewrite <- (take_drop k l), E, app_nth2; rewrite length_take;
    [|lia]. by replace (k - k `min` length l)%nat with 0%nat by lia.
Qed.

(** ** Lists *)

Lemma Forall_byte_lookup l i b : bytes_ok l -> l !! i = Some b -> 0 <= b < 256.
Proof. intros H Hi. apply (Forall_lookup_1 _ _ _ _ H Hi). Qed.

Lemma lookup_Some_lt {A} (l : list A) i x : l !! i = Some x -> (i < length l)%nat.
Proof. apply lookup_lt_Some. Qed.

(** ** Sequences of stores *)

(** The stores of the list in order; [None] when one leaves the buffer. *)
Fixpoint store_all (ws : list (nat * bytes)) (f : bytes) : option bytes :=
  match ws with
  | [] => Some f
  | (off, d) :: ws => f ← write_at off d f; store_all ws f
  end.

(** Chunks one behind the other from offset [o] on. *)
Fixpoint at_offsets (o : nat) (ds : list bytes) : list (nat * bytes) :=
  match ds with
  | [] => []
  | d :: ds => (o, d) :: at_offsets (o + length d) ds
  end.

Lemma store_chunks ds pre rest :
  (length (concat ds) <= length rest)%nat ->
  store_all (at_offsets (length pre) ds) (pre ++ rest)
  = Some (pre ++ concat ds ++ drop (length (concat ds)) rest).
Proof.
  revert pre rest. induction ds as [|d ds IH]; intros pre rest Hl; [done|].
  cbn [at_offsets store_all concat] in *. rewrite length_app in Hl.
  unfold write_at. rewrite length_app.
  destruct (Nat.leb_spec (length pre + length d) (length pre + length rest)); [|lia].
  cbn [mbind option_bind].
  assert (Hb : blit (length pre) d (pre ++ rest) = (pre ++ d) ++ drop (length d) rest).
  { unfold blit. rewrite take_app_length, <- app_assoc. do 2 f_equal.
    rewrite drop_app_ge by lia. f_equal. lia. }
  rewrite Hb, <- length_app, IH by (rewrite length_drop; lia).
  rewrite <- !app_assoc, drop_drop, length_app. done.
Qed.

(** ** Comparing *)

(** [memcmp(a, b, n) == 0] *)
Fixpoint memcmp_eq (n : nat) (a b : bytes) : option bool :=
  match n, a, b with
  | O, _, _ => Some true
  | S n, x :: a, y :: b => if x =? y then memcmp_eq n a b else Some false
  | S _, _, _ => None
  end.

Lemma memcmp_eq_spec n m :
  memcmp_eq (length n) n m
  = if decide (n `prefix_of` m) then Some true
    else if decide (m `prefix_of` n) then None else Some false.
Proof.
  revert m. induction n as [|x n IH]; intros m; cbn.
  { rewrite decide_True; [done|apply prefix_nil]. }
  destruct m as [|y m].
  { rewrite decide_False, decide_True; [done|apply prefix_nil|by intros ?%prefix_nil_not]. }
  destruct (Z.eqb_spec x y) as [->|Hne].
  - rewrite IH. repeat case_decide; try done; exfalso; eauto using prefix_cons, prefix_cons_inv_2.
  - rewrite !decide_False; [done|by intros ?%prefix_cons_inv_1..].
Qed.

Lemma memcmp_same n (a b : bytes) :
  length a = n -> length b = n -> memcmp_eq n a b = Some (bool_decide (a = b)).
Proof.
  intros <- Hb. rewrite memcmp_eq_spec. destruct (decide (a = b)) as [->|Hne].
  - by rewrite decide_True, bool_decide_eq_true_2.
  - assert (forall x y : bytes, x `prefix_of` y -> length x = length y -> x = y) as Hp.
    { intros x y [k ->] Hl. rewrite length_app in Hl. destruct k; [by rewrite app_nil_r|cbn in Hl; lia]. }
    rewrite !decide_False, bool_decide_eq_false_2; eauto; intros Hq; apply Hp in Hq; auto.
Qed.

(** A field behind a prefix. *)
Lemma read_behind l1 l2 d off n :
  length l1 = off -> length d = n -> read_at off n (l1 ++ d ++ l2) = Some d.
Proof. intros <- <-. by apply read_at_app. Qed.

Lemma read_at_all l : read_at 0 (length l) l = Some l.
Proof. rewrite <- (app_nil_r l) at 2. by apply read_at_head. Qed.

(** [strncmp(a, b, n) == 0] *)
Fixpoint strncmp_eq (n : nat) (a b : bytes) : option bool :=
  match n, a, b with
  | O, _, _ => Some true
  | S n, x :: a, y :: b =>
      if x =? y then if x =? 0 then Some true else strncmp_eq n a b else Some false
  | S _, _, _ => None
  end.

(** A string without a terminator against another one, which does not end first. *)
Lemma strncmp_prefix a r b :
  0 ∉ a -> (b `prefix_of` a -> b = a) ->
  strncmp_eq (length a) (a ++ r) b = Some (bool_decide (a `prefix_of` b)).
Proof.
  revert b. induction a as [|x a IH]; intros b Hx Hb.
  { cbn. rewrite bool_decide_eq_true_2; [done|apply prefix_nil]. }
  rewrite not_elem_of_cons in Hx. destruct Hx as [Hx0 Hx]. destruct b as [|y b].
  { discriminate (Hb (prefix_nil _)). }
  cbn [length strncmp_eq app]. destruct (Z.eqb_spec x y) as [<-|Hne].
  - destruct (Z.eqb_spec x 0) as [->|_]; [done|]. rewrite IH.
    + f_equal. apply bool_decide_ext. split; [apply prefix_cons|apply prefix_cons_inv_2].
    + done.
    + intros Hp. by injection (Hb (prefix_cons _ _ _ Hp)).
  - rewrite bool_decide_eq_false_2; [done|]. intros H. by apply Hne, (prefix_cons_inv_1 _ _ _ _ H).
Qed.
