(* ===== verification/Util.v ===== *)
(** * Utilities: src/common/util.c and src/common/util.h

    Addresses and their multicast tests, byte-order helpers, bounded string
    length and tick arithmetic.  The
    byte order of the processor, which [is_little_endian] probes at run time, and
    the width of [size_t] are the class [Platform]. *)
From S2P Require Import Prelude.

(** ** Platform *)

Class Platform : Type := {
  little_endian : bool;
  (** the width of [size_t] *)
  size_t_bits : Z
}.

(** The two platforms the code is built for: a 32-bit microcontroller and a
    64-bit Linux host. *)
Definition platform_mcu : Platform := {| little_endian := true; size_t_bits := 32 |}.
Definition platform_linux : Platform := {| little_endian := true; size_t_bits := 64 |}.

Definition is_little_endian `{Platform} : bool := little_endian.

(** Arithmetic on [size_t]. *)
Definition usize `{Platform} (z : Z) : Z := wrap size_t_bits z.

(** Native loads and stores of an [n]-byte integer. *)
Definition native_load `{Platform} (l : bytes) : Z :=
  if little_endian then le_dec l else be_dec l.

Definition native_store `{Platform} (n : nat) (z : Z) : bytes :=
  if little_endian then le_enc n z else be_enc n z.

(** ** IPv6 addresses *)

(** [BmIpAddr.addr]: 16 bytes in network order. *)
Definition BmIpAddr : Type := bytes.

Definition multicast_global_addr : BmIpAddr :=
  [0xFF; 0x03; 0x00; 0x00; 0x00; 0x00; 0x00; 0x00;
   0x00; 0x00; 0x00; 0x00; 0x00; 0x00; 0x00; 0x01].

Definition multicast_ll_addr : BmIpAddr :=
  [0xFF; 0x02; 0x00; 0x00; 0x00; 0x00; 0x00; 0x00;
   0x00; 0x00; 0x00; 0x00; 0x00; 0x00; 0x00; 0x01].

(** [addr[i]] of an address that has its 16 bytes. *)
Definition addr_byte (a : BmIpAddr) (i : nat) : Z := nth i a 0.

(** A null destination is [None]. *)
Definition is_global_multicast (dst_ip : option BmIpAddr) : bool :=
  match dst_ip with
  | None => false
  | Some a =>
      (addr_byte a 0 =? addr_byte multicast_global_addr 0)
      && (addr_byte a 1 =? addr_byte multicast_global_addr 1)
      && (addr_byte a 15 =? addr_byte multicast_global_addr 15)
  end.

Definition is_link_local_multicast (dst_ip : option BmIpAddr) : bool :=
  match dst_ip with
  | None => false
  | Some a =>
      (addr_byte a 0 =? addr_byte multicast_ll_addr 0)
      && (addr_byte a 1 =? addr_byte multicast_ll_addr 1)
  end.

Definition is_link_local_neighbor_multicast (dst_ip : option BmIpAddr) : bool :=
  match dst_ip with
  | None => false
  | Some a =>
      (addr_byte a 0 =? addr_byte multicast_ll_addr 0)
      && (addr_byte a 1 =? addr_byte multicast_ll_addr 1)
      && (addr_byte a 15 =? addr_byte multicast_ll_addr 15)
  end.

(** ** Byte swaps, on the value of the pointed-to integer *)

Definition swap_16bit (x : Z) : Z :=
  u16 (Z.lor (Z.shiftl x 8) (Z.shiftr x 8)).

Definition swap_32bit (x : Z) : Z :=
  Z.lor (Z.lor (Z.lor (u32 (Z.shiftl x 24))
                      (u32 (Z.shiftl (Z.land x 0xFF00) 8)))
               (Z.land (Z.shiftr x 8) 0xFF00))
        (Z.shiftr x 24).

Definition swap_64bit (x : Z) : Z :=
  Z.lor (Z.lor (Z.lor (Z.lor (Z.lor (Z.lor (Z.lor
    (u64 (Z.shiftl x 56))
    (u64 (Z.shiftl (Z.land x 0x0000FF00) 40)))
    (u64 (Z.shiftl (Z.land x 0x00FF0000) 24)))
    (u64 (Z.shiftl (Z.land x 0xFF000000) 8)))
    (Z.land (Z.shiftr x 8) 0xFF000000))
    (Z.land (Z.shiftr x 24) 0x00FF0000))
    (Z.land (Z.shiftr x 40) 0x0000FF00))
    (Z.shiftr x 56).

(** [uint8_to_uint16(buf)] and [uint8_to_uint32(buf)]: big-endian loads. *)
Definition uint8_to_uint16 (buf : bytes) : Z :=
  u16 (Z.lor (nth 1 buf 0) (Z.shiftl (nth 0 buf 0) 8)).

Definition uint8_to_uint32 (buf : bytes) : Z :=
  u32 (Z.lor (Z.lor (Z.lor (nth 3 buf 0) (Z.shiftl (nth 2 buf 0) 8))
                    (Z.shiftl (nth 1 buf 0) 16))
             (Z.shiftl (nth 0 buf 0) 24)).

(** The node id is the low half of the address; on a big-endian processor the
    words stay 0. *)
Definition ip_to_nodeid `{Platform} (ip : option BmIpAddr) : Z :=
  match ip with
  | Some a =>
      if is_little_endian then
        let high_word := swap_32bit (native_load (slice 8 4 a)) in
        let low_word := swap_32bit (native_load (slice 12 4 a)) in
        Z.lor (Z.shiftl high_word 32) low_word
      else 0
  | None => 0
  end.

(** ** Tick arithmetic *)

Definition time_remaining (start current timeout : Z) : Z :=
  let remaining := s32 (u32 (u32 (start + timeout) - current)) in
  let remaining := if remaining <? 0 then 0 else remaining in
  u32 remaining.

(** ** Strings *)

(** The bytes at [s] up to the end of the object they are in; reading past
    the object is [None]. *)
Fixpoint strnlen_loop (s : bytes) (max_length n : nat) {struct max_length} : option nat :=
  match max_length with
  | O => Some n
  | S m =>
      match s with
      | [] => None
      | c :: s' => if c =? 0 then Some n else strnlen_loop s' m (S n)
      end
  end.

Definition bm_strnlen (s : option bytes) (max_length : nat) : option nat :=
  match s with
  | None => Some 0%nat
  | Some s => strnlen_loop s max_length 0
  end.

(** ** Lemmas *)

Lemma usize_small `{Platform} z : 32 <= size_t_bits -> 0 <= z < 2 ^ 32 -> usize z = z.
Proof.
  intros Hb Hz. unfold usize. apply wrap_small. split; [lia|].
  apply (Z.lt_le_trans _ (2 ^ 32)); [lia|]. apply Z.pow_le_mono_r; lia.
Qed.

Lemma time_remaining_value start current timeout :
  0 <= timeout < 2 ^ 31 ->
  let elapsed := u32 (current - start) in
  elapsed <= timeout + 2 ^ 31 ->
  time_remaining start current timeout = Z.max 0 (timeout - elapsed).
Proof.
  intros Ht elapsed He. unfold time_remaining, elapsed in *. clear elapsed.
  assert (Hs : u32 (u32 (start + timeout) - current)
               = u32 (timeout - u32 (current - start))).
  { unfold wrap. rewrite Zminus_mod_idemp_l, Zminus_mod_idemp_r. f_equal. lia. }
  rewrite Hs. wrap_ranges. set (el := u32 (current - start)) in *.
  assert (Hv : s32 (u32 (timeout - el)) =
               if timeout - el <? - 2 ^ 31 then timeout - el + 2 ^ 32 else timeout - el).
  { unfold s32, wrap. rewrite Zplus_mod_idemp_l. bcase.
    - lia.
    - rewrite Z.mod_small by lia. lia. }
  rewrite Hv. destruct (Z.ltb_spec (timeout - el) (- 2 ^ 31)); [lia|].
  bcase; rewrite u32_small by lia; lia.
Qed.

Lemma strnlen_loop_spec s max n k :
  strnlen_loop s max n = Some k ->
  exists m, k = (n + m)%nat /\ (m <= max)%nat /\ (m <= length s)%nat
    /\ Forall (fun c => c <> 0) (take m s)
    /\ (m = max \/ s !! m = Some 0).
Proof.
  revert s n. induction max as [|max IH]; intros s n; simpl.
  - intros [= ?]; subst k. exists 0%nat. repeat split; auto; lia.
  - destruct s as [|c s]; [done|]. destruct (Z.eqb_spec c 0) as [->|Hc].
    + intros [= ?]; subst k. exists 0%nat. repeat split; auto; simpl; lia.
    + intros H. apply IH in H as (m & -> & Hm & Hl & Hf & He).
      exists (S m). repeat split; simpl; try lia; auto.
      destruct He as [->|He]; auto.
Qed.

(** *** Byte order *)

Lemma native_load_store `{Platform} n z :
  native_load (native_store n z) = z mod 256 ^ Z.of_nat n.
Proof.
  unfold native_load, native_store.
  destruct little_endian; [apply le_dec_enc|apply be_dec_enc].
Qed.

Lemma length_native_store `{Platform} n z : length (native_store n z) = n.
Proof. unfold native_store. destruct little_endian; auto using length_le_enc, length_be_enc. Qed.

Lemma native_store_ok `{Platform} n z : bytes_ok (native_store n z).
Proof. unfold native_store. destruct little_endian; auto with bm. Qed.

Lemma native_store_load `{Platform} l : bytes_ok l -> native_store (length l) (native_load l) = l.
Proof.
  intros Hl. unfold native_load, native_store.
  destruct little_endian; auto using le_enc_dec, be_enc_dec.
Qed.

#[export] Hint Resolve native_store_ok : bm.

Lemma land_shifted_byte l k m w :
  bytes_ok l -> (k < length l)%nat -> 0 <= m -> 8 * Z.of_nat k + 8 + m <= w ->
  wrap w (Z.shiftl (Z.land (le_dec l) (Z.shiftl 255 (8 * Z.of_nat k))) m)
  = nth k l 0 * 2 ^ (8 * Z.of_nat k + m).
Proof.
  intros Hl Hk Hm Hw. rewrite land_byte, Z.shiftl_mul_pow2 by lia.
  replace (2 ^ (8 * Z.of_nat k)) with (256 ^ Z.of_nat k) at 1
    by (change 256 with (2 ^ 8); rewrite <- Z.pow_mul_r by lia; done).
  rewrite le_dec_byte by done. rewrite <- Z.mul_assoc, <- Z.pow_add_r by lia.
  assert (Hb : 0 <= nth k l 0 < 256).
  { destruct (nth_lookup_or_length l k 0) as [E|E]; [|lia].
    by apply (Forall_byte_lookup l k). }
  apply wrap_small. split; [nia|].
  apply Z.lt_le_trans with (2 ^ 8 * 2 ^ (8 * Z.of_nat k + m)).
  { apply Z.mul_lt_mono_pos_r; lia. }
  rewrite <- Z.pow_add_r by lia. apply Z.pow_le_mono_r; lia.
Qed.

Lemma shl_low_byte l n m :
  bytes_ok l -> (0 < length l)%nat -> 0 <= m -> n = m + 8 ->
  wrap n (Z.shiftl (le_dec l) m) = nth 0 l 0 * 2 ^ m.
Proof.
  intros Hl Hk Hm ->. unfold wrap.
  rewrite Z.shiftl_mul_pow2, Z.pow_add_r, (Z.mul_comm (2 ^ m)) by lia.
  rewrite Z.mul_mod_distr_r by lia. f_equal.
  rewrite <- (le_dec_byte l 0 Hl Hk). by rewrite Z.div_1_r.
Qed.

Lemma shr_land_byte l k m :
  bytes_ok l -> 0 <= m -> 0 <= k -> (m + k) mod 8 = 0 ->
  (Z.to_nat ((m + k) / 8) < length l)%nat ->
  Z.land (Z.shiftr (le_dec l) m) (Z.shiftl 255 k)
  = nth (Z.to_nat ((m + k) / 8)) l 0 * 2 ^ k.
Proof.
  intros Hl Hm Hk Hd Hlen. rewrite land_byte, Z.shiftr_div_pow2 by lia. f_equal.
  rewrite Z.div_div, <- Z.pow_add_r by lia.
  rewrite <- (le_dec_byte l _ Hl Hlen). f_equal. f_equal.
  change 256 with (2 ^ 8). rewrite <- Z.pow_mul_r by lia. f_equal.
  rewrite Z2Nat.id by (apply Z.div_pos; lia).
  pose proof (Z.div_mod (m + k) 8). lia.
Qed.

Lemma shr_top_byte l m k :
  bytes_ok l -> length l = S k -> m = 8 * Z.of_nat k ->
  Z.shiftr (le_dec l) m = nth k l 0.
Proof.
  intros Hl Hlen ->. rewrite Z.shiftr_div_pow2 by lia.
  rewrite <- (le_dec_byte l k Hl) by lia.
  replace (2 ^ (8 * Z.of_nat k)) with (256 ^ Z.of_nat k)
    by (change 256 with (2 ^ 8); rewrite <- Z.pow_mul_r by lia; done).
  symmetry. apply Z.mod_small. split.
  - apply Z.div_pos; [apply (le_dec_range l Hl)|lia].
  - apply Z.div_lt_upper_bound; [lia|]. pose proof (le_dec_range l Hl) as H.
    rewrite Hlen, pow256_S in H. lia.
Qed.

Ltac swap_side Hlen :=
  first [done | reflexivity | lia | rewrite Hlen; apply Nat.ltb_lt; reflexivity].

Lemma swap_16bit_spec l : bytes_ok l -> length l = 2%nat ->
  swap_16bit (le_dec l) = be_dec l.
Proof.
  intros Hl Hlen. unfold swap_16bit, be_dec.
  destruct l as [|a [|b [|]]]; try done. clear Hlen.
  rewrite (shr_top_byte _ _ 1) by done.
  simpl. byte_bounds Hl. rewrite Z.shiftl_mul_pow2 by lia.
  lor_fields. unfold wrap. plia.
Qed.

Lemma swap_32bit_spec l : bytes_ok l -> length l = 4%nat ->
  swap_32bit (le_dec l) = be_dec l.
Proof.
  intros Hl Hlen. unfold swap_32bit, be_dec.
  change 0xFF00 with (Z.shiftl 255 (8 * Z.of_nat 1)).
  rewrite shl_low_byte, land_shifted_byte, shr_land_byte, (shr_top_byte _ _ 3)
    by swap_side Hlen.
  destruct l as [|a [|b [|c [|d [|]]]]]; try done. clear Hlen. byte_bounds Hl.
  simpl nth. simpl rev. simpl le_dec. simpl (Z.of_nat _). simpl (_ + _).
  lor_fields. plia.
Qed.

Lemma swap_64bit_spec l : bytes_ok l -> length l = 8%nat ->
  swap_64bit (le_dec l) = be_dec l.
Proof.
  intros Hl Hlen. unfold swap_64bit, be_dec.
  change 0x0000FF00 with (Z.shiftl 255 (8 * Z.of_nat 1)).
  change 0x00FF0000 with (Z.shiftl 255 (8 * Z.of_nat 2)).
  change 0xFF000000 with (Z.shiftl 255 (8 * Z.of_nat 3)).
  rewrite shl_low_byte, !land_shifted_byte, !shr_land_byte, (shr_top_byte _ _ 7)
    by swap_side Hlen.
  destruct l as [|a [|b [|c [|d [|e [|f [|g [|h [|]]]]]]]]]; try done. clear Hlen. byte_bounds Hl.
  simpl nth. simpl rev. simpl le_dec. simpl (Z.of_nat _). simpl (_ + _).
  lor_fields. plia.
Qed.

Lemma uint8_to_uint16_spec a b :
  0 <= a < 256 -> 0 <= b < 256 -> uint8_to_uint16 [a; b] = a * 256 + b.
Proof.
  intros. unfold uint8_to_uint16. simpl nth. rewrite Z.shiftl_mul_pow2, Z.lor_comm by lia.
  lor_fields. rewrite u16_small by plia. plia.
Qed.

Lemma uint8_to_uint32_spec a b c d :
  0 <= a < 256 -> 0 <= b < 256 -> 0 <= c < 256 -> 0 <= d < 256 ->
  uint8_to_uint32 [a; b; c; d] = be_dec [a; b; c; d].
Proof.
  intros. unfold uint8_to_uint32, be_dec. simpl nth. simpl rev. simpl le_dec.
  rewrite (lor_shift_add d c 8), (lor_shift_add _ b 16), (lor_shift_add _ a 24)
    by (pow_consts; lia). rewrite u32_small by (pow_consts; lia).
  pow_consts. lia.
Qed.

Lemma be_dec_app l1 l2 :
  be_dec (l1 ++ l2) = be_dec l1 * 256 ^ Z.of_nat (length l2) + be_dec l2.
Proof. unfold be_dec. rewrite rev_app_distr, le_dec_app, length_rev. lia. Qed.

(** On a little-endian processor the node id is the low half of the address,
    read in network order. *)
Lemma ip_to_nodeid_spec (P : Platform) a :
  @little_endian P = true -> bytes_ok a -> length a = 16%nat ->
  ip_to_nodeid (Some a) = be_dec (slice 8 8 a).
Proof.
  intros HP Ha Hlen. unfold ip_to_nodeid, is_little_endian, native_load.
  rewrite HP, !swap_32bit_spec
    by (auto with bm || (apply length_slice; lia)).
  pose proof (be_dec_range (slice 12 4 a)) as Hr. rewrite length_slice in Hr by lia.
  assert (Hs : slice 8 8 a = slice 8 4 a ++ slice 12 4 a).
  { unfold slice. rewrite <- (take_drop 4 (take 8 (drop 8 a))), take_take.
    by rewrite skipn_firstn_comm, drop_drop. }
  rewrite Hs, be_dec_app, length_slice by lia.
  rewrite Z.shiftl_mul_pow2, (lor_add_hi _ _ 32) by (auto with bm; plia).
  reflexivity.
Qed.
