(* ===== verification/Wildcard.v ===== *)
(** * Wildcard matching: [bm_wildcard_match] of src/common/util.c

    The greedy matcher with one backtracking point, and the declarative
    meaning of a pattern it is compared with. *)
From S2P Require Import Prelude.

(** ** Wildcard matching *)

Definition ch_star : Z := 42.
Definition ch_question : Z := 63.

(** The loop variables; [star_idx = -1] is [None]. *)
Record wc_state : Type := WcState {
  wc_i : nat;
  wc_j : nat;
  wc_star_idx : option nat;
  wc_match_idx : nat
}.

(** The main loop of [bm_wildcard_match]; [str] and [pattern] are the
    [str_len] and [pattern_len] bytes it may read.  [None]: out of fuel. *)
Fixpoint wildcard_loop (fuel : nat) (str pattern : bytes) (st : wc_state)
    : option wc_state :=
  match fuel with
  | O => None
  | S fuel =>
      let '(WcState i j star_idx match_idx) := st in
      if (i <? length str)%nat then
        if (j <? length pattern)%nat
           && ((nth j pattern 0 =? ch_question) || (nth i str 0 =? nth j pattern 0))
        then wildcard_loop fuel str pattern (WcState (S i) (S j) star_idx match_idx)
        else if (j <? length pattern)%nat && (nth j pattern 0 =? ch_star)
        then wildcard_loop fuel str pattern (WcState i (S j) (Some j) i)
        else
          match star_idx with
          | Some k =>
              wildcard_loop fuel str pattern
                (WcState (S match_idx) (S k) star_idx (S match_idx))
          | None => Some st
          end
      else Some st
  end.

(** [while (j < pattern_len && pattern[j] == '*') j++], on the bytes left. *)
Fixpoint skip_stars (rest : bytes) (j : nat) : nat :=
  match rest with
  | c :: rest => if c =? ch_star then skip_stars rest (S j) else j
  | [] => j
  end.

Definition wildcard_finish (pattern : bytes) (st : wc_state) : bool :=
  (skip_stars (drop (wc_j st) pattern) (wc_j st) =? length pattern)%nat.

Definition wildcard_fuel (str pattern : bytes) : nat :=
  (length str + 2) * (length str + length pattern + 1).

Definition bm_wildcard_match (str pattern : bytes) : option bool :=
  wildcard_finish pattern <$>
    wildcard_loop (wildcard_fuel str pattern) str pattern (WcState 0 0 None 0).

Example wildcard_aaaa : bm_wildcard_match [97; 97; 97; 97] [97; 42; 97] = Some true.
Proof. vm_compute. reflexivity. Qed.


(** ** Meaning of a pattern *)

(** [wmatch p s]: the whole string [s] is an instance of [p]. *)
Inductive wmatch : bytes -> bytes -> Prop :=
| wm_nil : wmatch [] []
| wm_char c p s : c <> ch_star -> c <> ch_question -> wmatch p s -> wmatch (c :: p) (c :: s)
| wm_any c p s : wmatch p s -> wmatch (ch_question :: p) (c :: s)
| wm_star_skip p s : wmatch p s -> wmatch (ch_star :: p) s
| wm_star_eat c p s : wmatch (ch_star :: p) s -> wmatch (ch_star :: p) (c :: s).

(** A pattern byte other than a star accepts the string byte. *)
Definition lit (c d : Z) : Prop := c <> ch_star /\ (c = ch_question \/ c = d).

(** What [bm_wildcard_match] answers for a string without star bytes: with a
    star in the pattern the whole string has to be an instance, without one
    any string that starts with an instance is accepted. *)
Definition match_spec (pattern str : bytes) : Prop :=
  if decide (ch_star ∈ pattern) then wmatch pattern str
  else exists s1 s2, str = s1 ++ s2 /\ wmatch pattern s1.

Lemma wmatch_lit c d p s : c <> ch_star -> wmatch (c :: p) (d :: s) <-> lit c d /\ wmatch p s.
Proof.
  intros Hc. split.
  - inversion 1; subst; try done; (split; [split; auto|done]).
  - intros [[_ [->| ->]] Hm]; [by constructor|].
    destruct (decide (d = ch_question)) as [->|]; by constructor.
Qed.

Lemma wmatch_seg seg p s :
  ch_star ∉ seg ->
  wmatch (seg ++ p) s <-> exists s1 s2, s = s1 ++ s2 /\ Forall2 lit seg s1 /\ wmatch p s2.
Proof.
  revert s. induction seg as [|c seg IH]; intros s Hseg; simpl.
  - split; [intros; exists [], s; auto|].
    intros (s1 & s2 & -> & H1 & H2). by inversion H1; subst.
  - apply not_elem_of_cons in Hseg as [Hc Hseg]. split.
    + intros Hm. destruct s as [|d s]; [inversion Hm; congruence|].
      apply wmatch_lit in Hm as [Hl Hm]; [|congruence].
      apply IH in Hm as (s1 & s2 & -> & H1 & H2); [|done].
      exists (d :: s1), s2. auto.
    + intros (s1 & s2 & -> & H1 & H2). inversion H1 as [|? d ? s1' Hl Hf]; subst.
      apply wmatch_lit; [congruence|]. split; [done|]. apply IH; eauto.
Qed.

Lemma wmatch_star p s :
  wmatch (ch_star :: p) s <-> exists m, (m <= length s)%nat /\ wmatch p (drop m s).
Proof.
  split.
  - intros H. remember (ch_star :: p) as q. induction H; simplify_eq.
    + exists 0%nat. rewrite drop_0. split; [lia|done].
    + destruct IHwmatch as (m & Hm & H'); [done|]. exists (S m). simpl. split; [lia|done].
  - intros (m & Hm & H). revert s Hm H. induction m as [|m IH]; intros s Hm H.
    + rewrite drop_0 in H. by constructor.
    + destruct s as [|c s]; simpl in *; [lia|]. apply wm_star_eat, IH; [lia|done].
Qed.

Lemma wmatch_nil_stars p : wmatch p [] <-> Forall (fun c => c = ch_star) p.
Proof.
  induction p as [|c p IH]; [split; constructor|]. split.
  - inversion 1; subst; constructor; try done; by apply IH.
  - inversion 1; subst. apply wm_star_skip, IH. done.
Qed.

Lemma skip_stars_spec rest j :
  (skip_stars rest j = j + length rest)%nat <-> Forall (fun c => c = ch_star) rest.
Proof.
  revert j. induction rest as [|c rest IH]; intros j; simpl.
  - split; [constructor|lia].
  - destruct (Z.eqb_spec c ch_star) as [->|Hc].
    + rewrite Forall_cons, <- (IH (S j)). intuition lia.
    + rewrite Forall_cons. intuition lia.
Qed.

Lemma wildcard_finish_spec pattern st :
  (wc_j st <= length pattern)%nat ->
  wildcard_finish pattern st = true <->
  Forall (fun c => c = ch_star) (drop (wc_j st) pattern).
Proof.
  intros Hj. unfold wildcard_finish. rewrite Nat.eqb_eq, <- skip_stars_spec.
  rewrite length_drop. f_equiv. lia.
Qed.

(** ** The loop *)

Section loop.
Context (str pattern : bytes).
Hypothesis no_star_in_str : ch_star ∉ str.

(** [pattern] from [k + 1] on matches the string from some index [>= m0] on. *)
Definition star_residual (k m0 : nat) : Prop :=
  exists m, (m0 <= m <= length str)%nat /\ wmatch (drop (S k) pattern) (drop m str).

(** What remains to be decided in a state of the loop. *)
Definition residual (st : wc_state) : Prop :=
  match wc_star_idx st with
  | None => match_spec (drop (wc_j st) pattern) (drop (wc_i st) str)
  | Some k => star_residual k (wc_match_idx st)
  end.

(** With a star seen, the bytes since it match one for one. *)
Definition loop_inv (st : wc_state) : Prop :=
  (wc_i st <= length str)%nat /\ (wc_j st <= length pattern)%nat /\
  match wc_star_idx st with
  | None => True
  | Some k =>
      (wc_match_idx st <= wc_i st)%nat /\ (S k <= wc_j st)%nat /\
      exists seg,
        drop (S k) pattern = seg ++ drop (wc_j st) pattern /\
        (ch_star ∉ seg) /\
        exists sseg,
          drop (wc_match_idx st) str = sseg ++ drop (wc_i st) str /\
          Forall2 lit seg sseg
  end.

Definition loop_measure (st : wc_state) : nat :=
  (match wc_star_idx st with
   | None => length str + 1
   | Some _ => length str - wc_match_idx st
   end * (length str + length pattern + 1)
   + (length str - wc_i st) + (length pattern - wc_j st))%nat.

Lemma drop_nth (l : bytes) i :
  (i < length l)%nat -> drop i l = nth i l 0 :: drop (S i) l.
Proof.
  intros Hi. apply drop_S.
  destruct (nth_lookup_or_length l i 0) as [H|H]; [done|lia].
Qed.

Lemma str_nth_ne i : (i < length str)%nat -> nth i str 0 <> ch_star.
Proof.
  intros Hi H. apply no_star_in_str. rewrite <- H.
  apply list_elem_of_In, nth_In, Hi.
Qed.

Lemma test_lit i j :
  (i < length str)%nat ->
  ((nth j pattern 0 =? ch_question) || (nth i str 0 =? nth j pattern 0)) = true <->
  lit (nth j pattern 0) (nth i str 0).
Proof.
  intros Hi. pose proof (str_nth_ne i Hi) as Hne. unfold lit.
  rewrite orb_true_iff, !Z.eqb_eq. split.
  - intros [H|H]; split; auto; rewrite ?H in *; [done|congruence].
  - intros [_ [H|H]]; auto.
Qed.

Lemma match_spec_lit c d p s :
  lit c d -> match_spec (c :: p) (d :: s) <-> match_spec p s.
Proof.
  intros Hl. pose proof Hl as [Hc _]. unfold match_spec.
  destruct (decide (ch_star ∈ p)) as [Hp|Hp].
  - rewrite decide_True by (by right). rewrite wmatch_lit by done. naive_solver.
  - rewrite decide_False by (intros [?|?]%elem_of_cons; congruence). split.
    + intros (s1 & s2 & E & H). destruct s1 as [|e s1]; [inversion H; congruence|].
      simpl in E. simplify_eq. apply wmatch_lit in H as [_ H]; eauto.
    + intros (s1 & s2 & -> & H). exists (d :: s1), s2.
      split; [done|]. by apply wmatch_lit.
Qed.

(** *** One step of the loop *)

Lemma step_literal i j star mi :
  loop_inv (WcState i j star mi) -> (i < length str)%nat -> (j < length pattern)%nat ->
  lit (nth j pattern 0) (nth i str 0) ->
  loop_inv (WcState (S i) (S j) star mi)
  /\ (residual (WcState (S i) (S j) star mi) <-> residual (WcState i j star mi)).
Proof.
  intros (Hi & Hj & Hs) Hi' Hj' Hl. unfold loop_inv, residual. simpl in *.
  destruct star as [k|].
  - split; [|done]. destruct Hs as (Hmi & Hk & seg & Hseg & Hns & sseg & Hss & Hf).
    repeat split; try lia.
    exists (seg ++ [nth j pattern 0]). rewrite <- app_assoc. simpl.
    rewrite <- drop_nth by done. split; [done|]. split.
    { destruct Hl. rewrite not_elem_of_app, list_elem_of_singleton. auto. }
    exists (sseg ++ [nth i str 0]). rewrite <- app_assoc. simpl.
    rewrite <- drop_nth by done. split; [done|].
    apply Forall2_app; auto.
  - split; [repeat split; lia|].
    rewrite (drop_nth str i), (drop_nth pattern j) by done.
    symmetry. by apply match_spec_lit.
Qed.

Lemma residual_star_here i j :
  (i <= length str)%nat -> (j < length pattern)%nat -> nth j pattern 0 = ch_star ->
  match_spec (drop j pattern) (drop i str) <-> star_residual j i.
Proof.
  intros Hi Hj Hc. rewrite (drop_nth pattern j), Hc by done.
  unfold match_spec. rewrite decide_True by left. rewrite wmatch_star.
  unfold star_residual. split.
  - intros (m & Hm & H). rewrite length_drop in Hm. rewrite drop_drop in H. exists (i + m)%nat.
    split; [lia|done].
  - intros (m & Hm & H). exists (m - i)%nat. rewrite length_drop, drop_drop.
    split; [lia|]. by replace (i + (m - i))%nat with m by lia.
Qed.

Lemma step_star i j star mi :
  loop_inv (WcState i j star mi) -> (j < length pattern)%nat ->
  nth j pattern 0 = ch_star ->
  loop_inv (WcState i (S j) (Some j) i)
  /\ (residual (WcState i (S j) (Some j) i) <-> residual (WcState i j star mi)).
Proof.
  intros (Hi & Hj & Hs) Hj' Hc. unfold loop_inv, residual. simpl in *. split.
  { repeat split; try lia. exists []. split; [done|]. split; [set_solver|].
    exists []. auto. }
  destruct star as [k|]; [|symmetry; by apply residual_star_here].
  destruct Hs as (Hmi & Hk & seg & Hseg & Hns & sseg & Hss & Hf).
  rewrite <- residual_star_here by done.
  assert (Hd : match_spec (drop j pattern) (drop i str)
               <-> wmatch (drop j pattern) (drop i str)).
  { unfold match_spec. rewrite decide_True; [done|].
    rewrite (drop_nth pattern j), Hc by done. left. }
  rewrite Hd. unfold star_residual. rewrite Hseg. split.
  - intros H. exists mi. split; [lia|]. rewrite Hss. apply wmatch_seg; eauto.
  - intros (m & Hm & H). apply wmatch_seg in H as (s1 & s2 & E & H1 & H2); [|done].
    rewrite (drop_nth pattern j), Hc in * by done.
    apply wmatch_star in H2 as (m2 & Hm2 & H2). apply wmatch_star.
    apply Forall2_length in Hf, H1. apply (f_equal length) in Hss as Hss'.
    rewrite length_app, !length_drop in Hss'.
    apply (f_equal length) in E as HE. rewrite length_app, length_drop in HE.
    assert (s2 = drop (m + length s1) str) as ->.
    { rewrite <- drop_drop, E, drop_app_length. done. }
    rewrite drop_drop in H2. rewrite length_drop in Hm2.
    exists (m + length s1 + m2 - i)%nat. rewrite length_drop, drop_drop. split; [lia|].
    replace (i + (m + length s1 + m2 - i))%nat with (m + length s1 + m2)%nat by lia.
    done.
Qed.

(** The residual of a star state excludes a match at [match_idx] itself when
    the next pattern byte does not accept the next string byte. *)
Lemma mismatch_here i j k mi :
  loop_inv (WcState i j (Some k) mi) -> (i < length str)%nat ->
  ((j < length pattern)%nat -> nth j pattern 0 <> ch_star
     /\ ~ lit (nth j pattern 0) (nth i str 0)) ->
  ~ wmatch (drop (S k) pattern) (drop mi str).
Proof.
  intros (Hi & Hj & Hmi & Hk & seg & Hseg & Hns & sseg & Hss & Hf) Hi' Hmm H.
  simpl in *. rewrite Hseg, Hss in H.
  apply wmatch_seg in H as (s1 & s2 & E & H1 & H2); [|done].
  apply app_inj_1 in E as [<- <-];
    [|apply Forall2_length in H1, Hf; congruence].
  rewrite (drop_nth str i) in H2 by done.
  destruct (decide (j < length pattern)%nat) as [Hj'|Hj'].
  - destruct (Hmm Hj') as [Hc Hl]. rewrite (drop_nth pattern j) in H2 by done.
    apply wmatch_lit in H2; naive_solver.
  - rewrite (drop_ge pattern) in H2 by lia. inversion H2.
Qed.

Lemma step_back i j k mi :
  loop_inv (WcState i j (Some k) mi) -> (i < length str)%nat ->
  ((j < length pattern)%nat -> nth j pattern 0 <> ch_star
     /\ ~ lit (nth j pattern 0) (nth i str 0)) ->
  loop_inv (WcState (S mi) (S k) (Some k) (S mi))
  /\ (residual (WcState (S mi) (S k) (Some k) (S mi))
      <-> residual (WcState i j (Some k) mi)).
Proof.
  intros Hinv Hi' Hmm. pose proof (mismatch_here _ _ _ _ Hinv Hi' Hmm) as Hno.
  destruct Hinv as (Hi & Hj & Hmi & Hk & _).
  unfold loop_inv, residual, star_residual. simpl in *. split.
  { repeat split; try lia. exists []. split; [done|]. split; [set_solver|].
    exists []. auto. }
  split; intros (m & Hm & H).
  - exists m. split; [lia|done].
  - destruct (decide (m = mi)) as [->|]; [done|]. exists m. split; [lia|done].
Qed.

(** *** The end of the loop *)

Lemma end_residual i j star mi :
  loop_inv (WcState i j star mi) -> i = length str ->
  Forall (fun c => c = ch_star) (drop j pattern) <-> residual (WcState i j star mi).
Proof.
  intros (Hi & Hj & Hs) ->. unfold residual. simpl in *. rewrite <- wmatch_nil_stars.
  destruct star as [k|].
  - destruct Hs as (Hmi & Hk & seg & Hseg & Hns & sseg & Hss & Hf).
    rewrite drop_all, app_nil_r in Hss.
    apply Forall2_length in Hf as Hlen. apply (f_equal length) in Hss as Hss'.
    rewrite length_drop in Hss'.
    unfold star_residual. rewrite Hseg. split.
    + intros H. exists mi. split; [lia|]. rewrite Hss.
      apply wmatch_seg; [done|]. exists sseg, []. rewrite app_nil_r. auto.
    + intros (m & Hm & H). apply wmatch_seg in H as (s1 & s2 & E & H1 & H2); [|done].
      apply Forall2_length in H1. apply (f_equal length) in E.
      rewrite length_app, length_drop in E.
      destruct s2; [done|simpl in E; lia].
  - rewrite drop_all. unfold match_spec. case_decide; [done|]. split.
    + intros. exists [], []. auto.
    + intros (s1 & s2 & E & H'). destruct s1; [done|discriminate].
Qed.

Lemma break_residual i j mi :
  (i < length str)%nat -> (j <= length pattern)%nat ->
  ((j < length pattern)%nat -> nth j pattern 0 <> ch_star
     /\ ~ lit (nth j pattern 0) (nth i str 0)) ->
  Forall (fun c => c = ch_star) (drop j pattern) <-> residual (WcState i j None mi).
Proof.
  intros Hi Hj Hmm. unfold residual. simpl. rewrite (drop_nth str i) by done.
  destruct (decide (j < length pattern)%nat) as [Hj'|Hj'].
  - destruct (Hmm Hj') as [Hc Hl]. rewrite (drop_nth pattern j), Forall_cons by done.
    split; [naive_solver|]. unfold match_spec. case_decide.
    + rewrite wmatch_lit by done. naive_solver.
    + intros (s1 & s2 & E & H'). destruct s1 as [|e s1]; [inversion H'; congruence|].
      simpl in E. simplify_eq. apply wmatch_lit in H'; naive_solver.
  - rewrite (drop_ge pattern) by lia. split; [|constructor].
    intros _. unfold match_spec. rewrite decide_False by set_solver.
    eexists [], _. split; [done|constructor].
Qed.

(** No byte accepted and no star: backtrack, or stop without a star. *)
Lemma loop_miss fuel i j star mi :
  (forall st, loop_inv st -> (loop_measure st < fuel)%nat ->
     exists st', wildcard_loop fuel str pattern st = Some st'
       /\ (wildcard_finish pattern st' = true <-> residual st)) ->
  loop_inv (WcState i j star mi) ->
  (loop_measure (WcState i j star mi) < S fuel)%nat ->
  (i < length str)%nat ->
  ((j < length pattern)%nat -> nth j pattern 0 <> ch_star
     /\ ~ lit (nth j pattern 0) (nth i str 0)) ->
  exists st',
    match star with
    | Some k => wildcard_loop fuel str pattern (WcState (S mi) (S k) star (S mi))
    | None => Some (WcState i j star mi)
    end = Some st'
    /\ (wildcard_finish pattern st' = true <-> residual (WcState i j star mi)).
Proof.
  intros IH Hinv Hf Hi Hmm. destruct star as [k|].
  - destruct (step_back i j k mi) as [Hinv' Hr]; [done..|].
    destruct (IH _ Hinv') as (st' & -> & H).
    { destruct Hinv as (? & ? & ? & ? & _). unfold loop_measure in *. simpl in *. nia. }
    exists st'. by rewrite H, Hr.
  - eexists. split; [done|]. destruct Hinv as (_ & Hj & _).
    rewrite wildcard_finish_spec by done. by apply break_residual.
Qed.

Lemma wildcard_loop_correct fuel st :
  loop_inv st -> (loop_measure st < fuel)%nat ->
  exists st', wildcard_loop fuel str pattern st = Some st'
    /\ (wildcard_finish pattern st' = true <-> residual st).
Proof.
  revert st. induction fuel as [|fuel IH]; intros [i j star mi] Hinv Hf; [lia|].
  pose proof Hinv as (Hi & Hj & Hs). simpl in Hi, Hj, Hs. simpl.
  destruct (Nat.ltb_spec i (length str)) as [Hi'|Hi'].
  2: { exists (WcState i j star mi). split; [done|].
       rewrite wildcard_finish_spec by done. apply end_residual; [done|lia]. }
  pose proof (test_lit i j Hi') as Htest.
  destruct ((nth j pattern 0 =? ch_question) || (nth i str 0 =? nth j pattern 0)).
  - destruct (Nat.ltb_spec j (length pattern)) as [Hj'|Hj']; simpl.
    + destruct (step_literal i j star mi) as [Hinv' Hr]; [done..|by apply Htest|].
      destruct (IH _ Hinv') as (st' & -> & H).
      { unfold loop_measure in *; destruct star; simpl in *; lia. }
      exists st'. by rewrite H, Hr.
    + apply (loop_miss fuel i j star mi); auto. lia.
  - destruct (Nat.ltb_spec j (length pattern)) as [Hj'|Hj']; simpl.
    2: { apply (loop_miss fuel i j star mi); auto. lia. }
    destruct (Z.eqb_spec (nth j pattern 0) ch_star) as [Hc|Hc].
    + destruct (step_star i j star mi) as [Hinv' Hr]; [done..|].
      destruct (IH _ Hinv') as (st' & -> & H).
      { unfold loop_measure in *; destruct star; simpl in *; nia. }
      exists st'. by rewrite H, Hr.
    + apply (loop_miss fuel i j star mi); auto. intros _. split; [done|].
      intros Hl. by apply Htest in Hl.
Qed.
End loop.

(** The loop ends within its fuel, and answers what the pattern means. *)
Lemma bm_wildcard_match_means str pattern :
  ch_star ∉ str ->
  exists b, bm_wildcard_match str pattern = Some b /\ (b = true <-> match_spec pattern str).
Proof.
  intros Hs.
  destruct (wildcard_loop_correct str pattern Hs (wildcard_fuel str pattern)
              (WcState 0 0 None 0)) as (st & Hst & H).
  - repeat split; simpl; lia.
  - unfold loop_measure, wildcard_fuel. simpl. nia.
  - unfold bm_wildcard_match. rewrite Hst. eexists. split; [done|]. exact H.
Qed.

(** C28: [bm_wildcard_match] always returns; for a string without star bytes it
    answers whether the string is an instance of the pattern when the pattern
    has a star, and whether some prefix of the string is an instance when the
    pattern has none. *)
Theorem bm_wildcard_match_spec str pattern :
  ch_star ∉ str ->
  exists b, bm_wildcard_match str pattern = Some b /\ (b = true <-> match_spec pattern str).
Proof. apply bm_wildcard_match_means. Qed.

Lemma bm_wildcard_match_spec_witness :
  (ch_star ∉ [97; 98; 99]) /\
  exists b, bm_wildcard_match [97; 98; 99] [97; 42] = Some b
    /\ (b = true <-> match_spec [97; 42] [97; 98; 99]).
Proof.
  assert (H : ch_star ∉ [97; 98; 99]) by (apply (bool_decide_unpack _); vm_compute; exact I).
  split; [exact H|]. exact (bm_wildcard_match_spec [97; 98; 99] [97; 42] H).
Defined.
