(* ===== verification/Calendar.v ===== *)
(** * Calendar conversion: [utc_from_date_time] and [date_time_from_utc] of
    src/common/util.c *)
From S2P Require Import Prelude.

(** ** Calendar *)

Record UtcDateTime : Type := MkUtcDateTime {
  year : Z; month : Z; day : Z; hour : Z; min : Z; sec : Z; usec : Z
}.

(** The macro takes the year as an offset from 1970. *)
Definition leap_year (Y : Z) : bool :=
  (0 <? 1970 + Y) && (Z.rem (1970 + Y) 4 =? 0)
  && (negb (Z.rem (1970 + Y) 100 =? 0) || (Z.rem (1970 + Y) 400 =? 0)).

Definition secs_per_min : Z := 60.
Definition secs_per_hour : Z := 3600.
Definition secs_per_day : Z := secs_per_hour * 24.
Definition microseconds_per_second : Z := 1000000.

Definition MONTH_DAYS : list Z := [31; 28; 31; 30; 31; 30; 31; 31; 30; 31; 30; 31].
Definition MONTH_DAYS_LEAP_YEAR : list Z :=
  [31; 29; 31; 30; 31; 30; 31; 31; 30; 31; 30; 31].

(** [for (i = 1970; i < year; i++)], [n] iterations left. *)
Fixpoint utc_year_loop (n : nat) (i seconds : Z) : Z :=
  match n with
  | O => seconds
  | S n =>
      utc_year_loop n (i + 1)
        (if leap_year (i - 1970) then u32 (seconds + secs_per_day) else seconds)
  end.

(** [for (i = 1; i < month; i++)]; [None]: a read past [MONTH_DAYS]. *)
Fixpoint utc_month_loop (n : nat) (year i seconds : Z) : option Z :=
  match n with
  | O => Some seconds
  | S n =>
      if (i =? 2) && leap_year (year - 1970) then
        utc_month_loop n year (i + 1) (u32 (seconds + secs_per_day * 29))
      else
        match MONTH_DAYS !! Z.to_nat (i - 1) with
        | Some d => utc_month_loop n year (i + 1) (u32 (seconds + secs_per_day * d))
        | None => None
        end
  end.

Definition utc_from_date_time (year month day hour minute second : Z) : option Z :=
  let seconds := u32 ((year - 1970) * (secs_per_day * 365)) in
  let seconds := utc_year_loop (Z.to_nat (year - 1970)) 1970 seconds in
  match utc_month_loop (Z.to_nat (month - 1)) year 1 seconds with
  | None => None
  | Some seconds =>
      let seconds := u32 (seconds + (day - 1) * secs_per_day) in
      let seconds := u32 (seconds + hour * secs_per_hour) in
      let seconds := u32 (seconds + minute * secs_per_min) in
      Some (u32 (seconds + second))
  end.

Definition days_per_year : Z := 365.
Definition days_per_leap_year : Z := days_per_year + 1.

Definition get_days_for_year (year : Z) : Z :=
  if leap_year (year - 1970) then days_per_leap_year else days_per_year.

Definition get_days_per_month (year : Z) : list Z :=
  if leap_year (year - 1970) then MONTH_DAYS_LEAP_YEAR else MONTH_DAYS.

(** The year loop of [date_time_from_utc]; [date_time->year] is 16 bits wide.
    [None]: out of fuel. *)
Fixpoint date_year_loop (fuel : nat) (days year : Z) : option (Z * Z) :=
  match fuel with
  | O => None
  | S fuel =>
      if get_days_for_year year <=? days
      then date_year_loop fuel (days - get_days_for_year year) (u16 (year + 1))
      else Some (days, year)
  end.

(** The month loop, on the entries of [monthDays] from [month - 1] on;
    [None]: a read past the table. *)
Fixpoint date_month_loop (monthDays : list Z) (days month : Z) : option (Z * Z) :=
  match monthDays with
  | [] => None
  | d :: monthDays =>
      if d <=? days then date_month_loop monthDays (days - d) (u8 (month + 1))
      else Some (days, month)
  end.

Definition date_year_fuel (days : Z) : nat := S (Z.to_nat (days / 365)).

Definition date_time_from_utc (utc_us : Z) : option UtcDateTime :=
  let days := utc_us / microseconds_per_second / secs_per_day in
  match date_year_loop (date_year_fuel days) days 1970 with
  | None => None
  | Some (days, year) =>
      match date_month_loop (get_days_per_month year) days 1 with
      | None => None
      | Some (days, month) =>
          let secondsRemaining :=
            (utc_us / microseconds_per_second) mod secs_per_day in
          Some {| year := year; month := month; day := u8 (days + 1);
                  hour := u8 (secondsRemaining / secs_per_hour);
                  min := u8 ((secondsRemaining / secs_per_min) mod secs_per_min);
                  sec := u8 (secondsRemaining mod secs_per_min);
                  usec := u32 (utc_us mod microseconds_per_second) |}
      end
  end.

(** The year 2023 of the test suite: 2023-01-01 00:00:00. *)
Example utc_2023 : utc_from_date_time 2023 1 1 0 0 0 = Some 1672531200.
Proof. reflexivity. Qed.

Example date_2023 :
  date_time_from_utc 1672531200123456
  = Some (MkUtcDateTime 2023 1 1 0 0 0 123456).
Proof. vm_compute. reflexivity. Qed.


(** ** Days and seconds *)

(** Days of the [n] years from [y] on. *)
Fixpoint ydays (y : Z) (n : nat) : Z :=
  match n with
  | O => 0
  | S n => get_days_for_year y + ydays (y + 1) n
  end.

Definition zsum (l : list Z) : Z := foldr Z.add 0 l.

(** Days from 1970-01-01 to the date. *)
Definition epoch_days (year month day : Z) : Z :=
  ydays 1970 (Z.to_nat (year - 1970))
  + zsum (take (Z.to_nat (month - 1)) (get_days_per_month year)) + (day - 1).

Definition valid_date (d : UtcDateTime) : Prop :=
  1970 <= year d < 2106 /\ 1 <= month d <= 12
  /\ 1 <= day d <= nth (Z.to_nat (month d - 1)) (get_days_per_month (year d)) 0
  /\ 0 <= hour d < 24 /\ 0 <= min d < 60 /\ 0 <= sec d < 60
  /\ 0 <= usec d < microseconds_per_second.

(** Seconds from the epoch to the date. *)
Definition epoch_seconds (d : UtcDateTime) : Z :=
  epoch_days (year d) (month d) (day d) * secs_per_day
  + hour d * 3600 + min d * 60 + sec d.

Lemma days_for_year_bounds y : 365 <= get_days_for_year y <= 366.
Proof. unfold get_days_for_year. destruct (leap_year _); done. Qed.

Lemma ydays_bounds y n : 365 * Z.of_nat n <= ydays y n.
Proof.
  revert y. induction n as [|n IH]; intros y; [done|]. cbn [ydays].
  pose proof (days_for_year_bounds y). specialize (IH (y + 1)). lia.
Qed.

Lemma ydays_app y n m : ydays y (n + m) = ydays y n + ydays (y + Z.of_nat n) m.
Proof.
  revert y. induction n as [|n IH]; intros y; cbn [ydays Nat.add].
  - by replace (y + Z.of_nat 0) with y by lia.
  - rewrite IH. replace (y + 1 + Z.of_nat n) with (y + Z.of_nat (S n)) by lia. lia.
Qed.

Lemma zsum_days_per_month y : zsum (get_days_per_month y) = get_days_for_year y.
Proof. unfold get_days_per_month, get_days_for_year. by destruct (leap_year _). Qed.

Lemma days_per_month_entry y k d :
  get_days_per_month y !! k = Some d -> (k < 12)%nat /\ 28 <= d <= 31.
Proof.
  intros H. assert (Hk : (k < 12)%nat).
  { apply lookup_lt_Some in H. unfold get_days_per_month in H.
    by destruct (leap_year _). }
  split; [done|]. revert H. unfold get_days_per_month.
  destruct (leap_year _); do 12 (destruct k as [|k]; [by intros [= <-]|]); done.
Qed.

(** ** The loops *)

Lemma utc_year_loop_spec n i s :
  utc_year_loop n i s mod 2 ^ 32
  = (s + secs_per_day * (ydays i n - 365 * Z.of_nat n)) mod 2 ^ 32.
Proof.
  revert i s. induction n as [|n IH]; intros i s; cbn [ydays utc_year_loop].
  - f_equal. lia.
  - rewrite IH. unfold get_days_for_year. destruct (leap_year (i - 1970)).
    + unfold wrap. rewrite Zplus_mod_idemp_l. f_equal.
      unfold days_per_leap_year, days_per_year. lia.
    + f_equal. unfold days_per_year. lia.
Qed.

Lemma utc_month_loop_spec n year i s :
  1 <= i -> (Z.to_nat (i - 1) + n <= 12)%nat ->
  exists r, utc_month_loop n year i s = Some r
    /\ r mod 2 ^ 32
       = (s + secs_per_day
              * zsum (take n (drop (Z.to_nat (i - 1)) (get_days_per_month year)))) mod 2 ^ 32.
Proof.
  revert i s. induction n as [|n IH]; intros i s Hi Hn; cbn [utc_month_loop].
  - exists s. split; [done|]. rewrite take_0. f_equal. cbn. lia.
  - assert (Hd : exists d, get_days_per_month year !! Z.to_nat (i - 1) = Some d
        /\ (if (i =? 2) && leap_year (year - 1970) then d = 29
            else MONTH_DAYS !! Z.to_nat (i - 1) = Some d)).
    { unfold get_days_per_month. assert (Hc : (Z.to_nat (i - 1) < 12)%nat) by lia.
      assert (E : (i =? 2) = (Z.to_nat (i - 1) =? 1)%nat) by (repeat bcase; lia).
      rewrite E. generalize dependent (Z.to_nat (i - 1)). intros k _ Hk _.
      destruct (leap_year _);
        do 12 (destruct k as [|k]; [eexists; split; reflexivity|]); lia. }
    destruct Hd as (d & Hd & Hc).
    assert (Hs : Z.to_nat (i + 1 - 1) = S (Z.to_nat (i - 1))) by lia.
    assert (Hz : zsum (take (S n) (drop (Z.to_nat (i - 1)) (get_days_per_month year)))
       = d + zsum (take n (drop (Z.to_nat (i + 1 - 1)) (get_days_per_month year)))).
    { rewrite (drop_S _ _ _ Hd), Hs. done. }
    assert (Hl : utc_month_loop (S n) year i s
                 = utc_month_loop n year (i + 1) (u32 (s + secs_per_day * d))).
    { cbn [utc_month_loop]. destruct ((i =? 2) && leap_year (year - 1970)).
      - by rewrite Hc.
      - by rewrite Hc. }
    cbn [utc_month_loop] in Hl. rewrite Hl.
    destruct (IH (i + 1) (u32 (s + secs_per_day * d))) as (r & Hr & Hm); [lia..|].
    exists r. split; [done|]. rewrite Hm, Hz. unfold wrap.
    rewrite Zplus_mod_idemp_l. f_equal. lia.
Qed.

Lemma date_year_loop_spec n fuel y r :
  (n < fuel)%nat -> 0 <= y -> y + Z.of_nat n < 65536 ->
  0 <= r < get_days_for_year (y + Z.of_nat n) ->
  date_year_loop fuel (ydays y n + r) y = Some (r, y + Z.of_nat n).
Proof.
  revert fuel y. induction n as [|n IH]; intros fuel y Hf Hy Hb Hr;
    (destruct fuel as [|fuel]; [lia|]); cbn [date_year_loop ydays].
  - replace (y + Z.of_nat 0) with y in * by lia. bcase; [lia|]. done.
  - pose proof (days_for_year_bounds (y + 1 + Z.of_nat n)).
    pose proof (ydays_bounds (y + 1) n).
    bcase; [|lia].
    rewrite u16_small by lia.
    replace (get_days_for_year y + ydays (y + 1) n + r - get_days_for_year y)
      with (ydays (y + 1) n + r) by lia.
    replace (y + Z.of_nat (S n)) with (y + 1 + Z.of_nat n) in * by lia.
    apply IH; lia.
Qed.

Lemma date_month_loop_spec l k d r m :
  Forall (fun d => 0 < d) l -> l !! k = Some d -> 0 <= r < d ->
  0 <= m -> m + Z.of_nat k < 256 ->
  date_month_loop l (zsum (take k l) + r) m = Some (r, m + Z.of_nat k).
Proof.
  revert l m. induction k as [|k IH]; intros l m Hl Hd Hr Hm Hb;
    (destruct l as [|e l]; [done|]); cbn [date_month_loop].
  - injection Hd as ->. cbn. bcase; [lia|]. by rewrite Z.add_0_r.
  - apply Forall_cons in Hl as [He Hl]. cbn [take]. unfold zsum. cbn [foldr].
    fold (zsum (take k l)).
    assert (0 <= zsum (take k l)).
    { clear -Hl. revert k. induction Hl as [|? l ? ? IH]; intros [|k]; cbn; try done.
      specialize (IH k). unfold zsum in IH. lia. }
    bcase; [|lia]. rewrite u8_small by lia.
    replace (e + zsum (take k l) + r - e) with (zsum (take k l) + r) by lia.
    rewrite (IH l (m + 1)) by (first [done|lia]). do 2 f_equal. lia.
Qed.

Lemma get_days_per_month_pos y : Forall (fun d => 0 < d) (get_days_per_month y).
Proof. unfold get_days_per_month. destruct (leap_year _); repeat constructor. Qed.

Lemma month_entry y m :
  1 <= m <= 12 ->
  get_days_per_month y !! Z.to_nat (m - 1)
  = Some (nth (Z.to_nat (m - 1)) (get_days_per_month y) 0).
Proof.
  intros Hm.
  destruct (nth_lookup_or_length (get_days_per_month y) (Z.to_nat (m - 1)) 0); [done|].
  exfalso. revert l. unfold get_days_per_month. destruct (leap_year _); cbn; lia.
Qed.

(** The day offset within the year. *)
Lemma year_offset_bounds d :
  valid_date d ->
  let off := zsum (take (Z.to_nat (month d - 1)) (get_days_per_month (year d)))
             + (day d - 1) in
  0 <= off < get_days_for_year (year d).
Proof.
  intros (Hy & Hm & Hd & _). cbn zeta. rewrite <- zsum_days_per_month.
  set (l := get_days_per_month (year d)) in *.
  assert (Hl : Forall (fun d => 0 < d) l) by apply get_days_per_month_pos.
  pose proof (month_entry (year d) (month d) Hm) as He. fold l in He.
  revert He Hd Hl. generalize (nth (Z.to_nat (month d - 1)) l 0).
  generalize (Z.to_nat (month d - 1)). intros k e He Hd Hl. clearbody l.
  revert k He. induction Hl as [|x l Hx Hl IH]; intros k He; [done|].
  destruct k as [|k].
  - injection He as ->. cbn.
    assert (0 <= zsum l) by (clear -Hl; induction Hl; cbn; [done|unfold zsum in *; lia]).
    unfold zsum in *. lia.
  - apply IH in He. cbn. unfold zsum in *. lia.
Qed.

Lemma epoch_seconds_bounds d :
  valid_date d -> 0 <= epoch_seconds d < 2 ^ 32.
Proof.
  intros Hv. pose proof (year_offset_bounds d Hv) as Ho. cbn zeta in Ho.
  destruct Hv as (Hy & Hm & Hd & Hh & Hmi & Hs & _).
  assert (Ht : ydays 1970 136 = 49673) by (vm_compute; reflexivity).
  replace 136%nat with (Z.to_nat (year d - 1970) + S (135 - Z.to_nat (year d - 1970)))%nat
    in Ht by lia.
  rewrite ydays_app in Ht. cbn [ydays] in Ht.
  replace (1970 + Z.of_nat (Z.to_nat (year d - 1970))) with (year d) in Ht by lia.
  pose proof (ydays_bounds 1970 (Z.to_nat (year d - 1970))).
  pose proof (ydays_bounds (year d + 1) (135 - Z.to_nat (year d - 1970))).
  unfold epoch_seconds, epoch_days, secs_per_day, secs_per_hour in *.
  change (2 ^ 32) with 4294967296. lia.
Qed.

Lemma utc_from_date_time_value d :
  valid_date d ->
  utc_from_date_time (year d) (month d) (day d) (hour d) (min d) (sec d)
  = Some (epoch_seconds d).
Proof.
  intros Hv. pose proof (epoch_seconds_bounds d Hv) as Hb.
  destruct Hv as (Hy & Hm & Hd & _).
  unfold utc_from_date_time. cbv zeta.
  set (s0 := utc_year_loop _ 1970 _).
  destruct (utc_month_loop_spec (Z.to_nat (month d - 1)) (year d) 1 s0)
    as (r & Hr & Hmod); [lia..|].
  rewrite Hr. f_equal. change (Z.to_nat (1 - 1)) with 0%nat in Hmod. rewrite drop_0 in Hmod.
  unfold wrap. repeat (rewrite <- ?Z.add_assoc; rewrite Zplus_mod_idemp_l).
  rewrite <- (Z.mod_small _ _ Hb).
  apply (mod_add_congr _ _ ((day d - 1) * secs_per_day + hour d * secs_per_hour
           + min d * secs_per_min + sec d)) in Hmod.
  etransitivity; [|etransitivity; [exact Hmod|]]; [f_equal; lia|].
  unfold s0. rewrite <- Z.add_assoc.
  rewrite (mod_add_congr _ _ _ _ (utc_year_loop_spec _ _ _)).
  unfold wrap. rewrite <- !Z.add_assoc, Zplus_mod_idemp_l. f_equal.
  unfold epoch_seconds, epoch_days, secs_per_hour, secs_per_min.
  rewrite Z2Nat.id by lia. unfold secs_per_day, secs_per_hour. lia.
Qed.

Lemma date_time_from_utc_value d :
  valid_date d ->
  date_time_from_utc (epoch_seconds d * microseconds_per_second + usec d) = Some d.
Proof.
  intros Hv. pose proof (epoch_seconds_bounds d Hv) as Hb.
  pose proof (year_offset_bounds d Hv) as Ho. cbn zeta in Ho.
  destruct Hv as (Hy & Hm & Hd & Hh & Hmi & Hs & Hu).
  unfold date_time_from_utc. cbv zeta.
  destruct (div_mod_add (epoch_seconds d) microseconds_per_second (usec d) Hu) as [-> ->].
  set (off := zsum _ + (day d - 1)) in Ho.
  set (tod := hour d * 3600 + min d * 60 + sec d).
  assert (He : epoch_seconds d
               = (ydays 1970 (Z.to_nat (year d - 1970)) + off) * secs_per_day + tod).
  { unfold epoch_seconds, epoch_days, tod, off. lia. }
  assert (Ht : 0 <= tod < secs_per_day)
    by (unfold tod, secs_per_day, secs_per_hour; lia).
  rewrite He. destruct (div_mod_add (ydays 1970 (Z.to_nat (year d - 1970)) + off) secs_per_day tod Ht) as [-> ->].
  pose proof (ydays_bounds 1970 (Z.to_nat (year d - 1970))).
  rewrite date_year_loop_spec.
  2: { unfold date_year_fuel. plia. }
  2-3: lia.
  2: { by replace (1970 + Z.of_nat (Z.to_nat (year d - 1970))) with (year d) by lia. }
  replace (1970 + Z.of_nat (Z.to_nat (year d - 1970))) with (year d) by lia.
  unfold off. pose proof (month_entry (year d) (month d) Hm) as Hent.
  pose proof (days_per_month_entry _ _ _ Hent) as [_ Hdm].
  rewrite (date_month_loop_spec _ _ _ _ 1 (get_days_per_month_pos _) Hent) by lia.
  rewrite Z2Nat.id by lia.
  destruct d as [y m dd h mi s us]; cbn [year month day hour min sec usec] in *.
  f_equal. unfold secs_per_hour, secs_per_min, tod, microseconds_per_second in *.
  f_equal; try lia.
  - rewrite u8_small; lia.
  - rewrite u8_small; plia.
  - rewrite u8_small; plia.
  - rewrite u8_small; plia.
  - rewrite u32_small; lia.
Qed.

(** C29: the two calendar conversions are inverse on every valid date from 1970
    to 2105: [utc_from_date_time] computes the seconds since the epoch without
    overflowing 32 bits, and [date_time_from_utc] turns these seconds and the
    microseconds back into the date. *)
Theorem date_time_round_trip d :
  valid_date d ->
  exists utc,
    utc_from_date_time (year d) (month d) (day d) (hour d) (min d) (sec d) = Some utc
    /\ utc = epoch_seconds d
    /\ date_time_from_utc (utc * microseconds_per_second + usec d) = Some d.
Proof.
  intros Hv. exists (epoch_seconds d).
  auto using utc_from_date_time_value, date_time_from_utc_value.
Qed.

Definition leap_day : UtcDateTime := MkUtcDateTime 2024 2 29 23 59 58 999999.

Lemma leap_day_valid : valid_date leap_day.
Proof. repeat split; vm_compute; congruence. Qed.

Lemma date_time_round_trip_witness :
  valid_date leap_day /\ exists utc,
    utc_from_date_time 2024 2 29 23 59 58 = Some utc
    /\ utc = epoch_seconds leap_day
    /\ date_time_from_utc (utc * microseconds_per_second + 999999) = Some leap_day.
Proof. split; [apply leap_day_valid|]. exact (date_time_round_trip leap_day leap_day_valid). Defined.

(** ** Totality *)

Lemma date_year_loop_total fuel days y :
  0 <= days -> (Z.to_nat (days / 365) < fuel)%nat ->
  exists r y', date_year_loop fuel days y = Some (r, y') /\ 0 <= r < get_days_for_year y'.
Proof.
  revert days y. induction fuel as [|fuel IH]; intros days y Hd Hf; [lia|].
  cbn [date_year_loop]. pose proof (days_for_year_bounds y) as Hdy.
  destruct (Z.leb_spec (get_days_for_year y) days).
  - assert (1 <= days / 365) by plia.
    assert ((days - get_days_for_year y) / 365 <= days / 365 - 1) by plia.
    apply IH; lia.
  - eauto.
Qed.

Lemma date_month_loop_total l days m :
  0 <= days < zsum l -> exists r m', date_month_loop l days m = Some (r, m').
Proof.
  revert days m. induction l as [|d l IH]; intros days m Hd; cbn in *; [lia|].
  bcase; [|eauto]. apply IH. unfold zsum. lia.
Qed.

Lemma date_time_total utc_us : 0 <= utc_us -> exists d, date_time_from_utc utc_us = Some d.
Proof.
  intros H0. unfold date_time_from_utc. cbv zeta.
  set (days := utc_us / microseconds_per_second / secs_per_day) in *.
  assert (0 <= days) by (unfold days, microseconds_per_second, secs_per_day, secs_per_hour; plia).
  destruct (date_year_loop_total (date_year_fuel days) days 1970) as (r & y' & -> & Hr);
    [lia | unfold date_year_fuel; lia |].
  rewrite <- zsum_days_per_month in Hr.
  destruct (date_month_loop_total (get_days_per_month y') r 1 Hr) as (r' & m' & ->).
  eauto.
Qed.

(** C30: [date_time_from_utc] terminates, and stays inside its month tables, for
    every count of microseconds, the year wrapping in sixteen bits behind 65,535. *)
Theorem date_time_from_utc_total utc_us :
  0 <= utc_us -> exists d, date_time_from_utc utc_us = Some d.
Proof. apply date_time_total. Qed.

Lemma date_time_from_utc_total_witness :
  0 <= 2 ^ 64 - 1 /\ exists d, date_time_from_utc (2 ^ 64 - 1) = Some d.
Proof. split; [done|]. exact (date_time_from_utc_total (2 ^ 64 - 1) ltac:(done)). Defined.
