(* ===== verification/Queue.v ===== *)
(** * Byte queue: src/common/q.c

    A ring buffer of length-prefixed elements, and its refinement of a
    first-in first-out queue of byte strings. *)
From S2P Require Import Prelude Util.

(** ** The queue *)

Record Q : Type := MkQ {
  q_cap : Z;  (** [size] *)
  q_head : Z;
  q_tail : Z;
  q_count : Z;
  q_buf : bytes
}.

(** [sizeof(QItem)]: the 32-bit size field. *)
Definition sizeof_QItem : nat := 4.

Definition q_get_free_space (queue : Q) : Z :=
  if q_head queue =? q_tail queue then
    if q_count queue =? 0 then q_cap queue else 0
  else if q_tail queue <? q_head queue then
    u32 (u32 (q_cap queue - q_head queue) + q_tail queue)
  else u32 (q_tail queue - q_head queue).

Definition q_increment (queue : Q) (idx : Z) : Z := u32 (idx + 1) mod q_cap queue.

(** [queue] and [buf] are what the two allocations return: whether the first one
    succeeds, and the (uninitialised) memory of the second one. *)
Definition q_create (queue : bool) (buf : option bytes) (size : Z) : option Q :=
  if size =? 0 then None
  else if negb queue then None
  else match buf with
       | Some b => Some (MkQ size 0 0 0 b)
       | None => None
       end.

Inductive q_freed : Type := FreedBuf | FreedQueue.

(** With the objects handed to [bm_free], in order. *)
Definition q_delete (queue : option Q) : BmErr * list q_freed :=
  match queue with
  | None => (BmEINVAL, [])
  | Some _ => (BmOK, [FreedBuf; FreedQueue])
  end.

(** [queue] is the caller's storage. *)
Definition q_create_static (queue : bool) (buf : option bytes) (size : Z)
    : BmErr * option Q :=
  match buf with
  | Some b =>
      if negb queue || (size =? 0) then (BmEINVAL, None)
      else (BmOK, Some (MkQ size 0 0 0 b))
  | None => (BmEINVAL, None)
  end.

Definition q_set_buf (queue : Q) (buf : bytes) (head : Z) : Q :=
  MkQ (q_cap queue) head (q_tail queue) (q_count queue) buf.

(** The copy loop of [q_enqueue]: the bytes of [l] at [head] on.  [None]: a
    write outside the buffer. *)
Fixpoint q_put_loop (queue : Q) (l : bytes) : option Q :=
  match l with
  | [] => Some queue
  | b :: l =>
      buf ← write_at (Z.to_nat (q_head queue)) [b] (q_buf queue);
      q_put_loop (q_set_buf queue buf (q_increment queue (q_head queue))) l
  end.

(** The copy loop of [q_dequeue]: [n] bytes from [idx] on, and the index after
    them. *)
Fixpoint q_get_loop (queue : Q) (n : nat) (idx : Z) : option (bytes * Z) :=
  match n with
  | O => Some ([], idx)
  | S n =>
      b ← q_buf queue !! Z.to_nat idx;
      '(l, idx) ← q_get_loop queue n (q_increment queue idx);
      Some (b :: l, idx)
  end.

(** [data] is the object the pointer is to, [None] the null pointer; [None] as
    the result is an access outside an object. *)
Definition q_enqueue `{Platform} (queue : option Q) (data : option bytes) (size : Z)
    : option (BmErr * option Q) :=
  match queue, data with
  | Some q, Some d =>
      if size =? 0 then Some (BmEINVAL, queue)
      else if q_get_free_space q <? usize (size + Z.of_nat sizeof_QItem) then
        Some (BmENOMEM, queue)
      else
        q ← q_put_loop q (native_store sizeof_QItem size);
        d ← read_at 0 (Z.to_nat size) d;
        q ← q_put_loop q d;
        Some (BmOK, Some (MkQ (q_cap q) (q_head q) (q_tail q)
                              (u32 (q_count q + 1)) (q_buf q)))
  | _, _ => Some (BmEINVAL, queue)
  end.

(** With the buffer [data] after the call. *)
Definition q_dequeue `{Platform} (queue : option Q) (data : option bytes) (size : Z)
    : option (BmErr * option Q * option bytes) :=
  match queue, data with
  | Some q, Some d =>
      if size =? 0 then Some (BmEINVAL, queue, data)
      else if q_count q =? 0 then Some (BmENODATA, queue, data)
      else
        '(item, tail_local) ← q_get_loop q sizeof_QItem (q_tail q);
        let item_size := native_load item in
        if size <? item_size then Some (BmENOMEM, queue, data)
        else
          '(l, tail) ← q_get_loop q (Z.to_nat item_size) tail_local;
          d ← write_at 0 l d;
          Some (BmOK, Some (MkQ (q_cap q) (q_head q) tail
                                (u32 (q_count q - 1)) (q_buf q)), Some d)
  | _, _ => Some (BmEINVAL, queue, data)
  end.

Definition q_size (queue : option Q) : Z :=
  match queue with None => 0 | Some q => q_count q end.

Definition q_clear (queue : option Q) : BmErr * option Q :=
  match queue with
  | None => (BmEINVAL, None)
  | Some q => (BmOK, Some (MkQ (q_cap q) 0 0 0 (q_buf q)))
  end.

(** ** The abstract queue *)

(** What an element occupies in the buffer. *)
Definition item_bytes `{Platform} (d : bytes) : bytes :=
  native_store sizeof_QItem (Z.of_nat (length d)) ++ d.

(** The [n] bytes of the ring from [start] on. *)
Definition ring_read (buf : bytes) (start : Z) (n : nat) : bytes :=
  (fun i => nth (Z.to_nat ((start + Z.of_nat i) mod Z.of_nat (length buf))) buf 0)
    <$> seq 0 n.

Definition item_ok (d : bytes) : Prop := bytes_ok d /\ d <> [].

(** The queue holds [items], oldest first. *)
Record q_repr `{Platform} (q : Q) (items : list bytes) : Prop := {
  qr_cap : 0 < q_cap q < 2 ^ 32;
  qr_buf : Z.of_nat (length (q_buf q)) = q_cap q;
  qr_tail : 0 <= q_tail q < q_cap q;
  qr_items : Forall item_ok items;
  qr_used : (length (concat (item_bytes <$> items)) <= length (q_buf q))%nat;
  qr_head : q_head q
            = (q_tail q + Z.of_nat (length (concat (item_bytes <$> items)))) mod q_cap q;
  qr_count : q_count q = Z.of_nat (length items);
  qr_content : ring_read (q_buf q) (q_tail q) (length (concat (item_bytes <$> items)))
               = concat (item_bytes <$> items)
}.

(** ** The ring *)

Lemma length_ring_read buf s n : length (ring_read buf s n) = n.
Proof. unfold ring_read. by rewrite length_fmap, length_seq. Qed.

Lemma ring_read_mod buf s n :
  ring_read buf (s mod Z.of_nat (length buf)) n = ring_read buf s n.
Proof.
  unfold ring_read. apply list_fmap_ext. intros i x _.
  by rewrite Zplus_mod_idemp_l.
Qed.

Lemma ring_read_app buf s n m :
  ring_read buf s (n + m) = ring_read buf s n ++ ring_read buf (s + Z.of_nat n) m.
Proof.
  unfold ring_read. rewrite seq_app, fmap_app. f_equal.
  rewrite (Nat.add_comm 0 n), <- fmap_add_seq, <- list_fmap_compose.
  apply list_fmap_ext. intros i x _. cbn. do 3 f_equal. lia.
Qed.

Lemma mod_neq a b n : 0 < n -> 0 < b - a < n -> a mod n <> b mod n.
Proof.
  intros Hn Hab E. assert (Hm : (b - a) mod n = 0).
  { rewrite Zminus_mod, E, Z.sub_diag. by apply Z.mod_0_l; lia. }
  rewrite Z.mod_small in Hm by lia. lia.
Qed.

(** One byte at the end of a stretch of the ring. *)
Lemma ring_put_byte buf s n b :
  (n < length buf)%nat ->
  ring_read (blit (Z.to_nat ((s + Z.of_nat n) mod Z.of_nat (length buf))) [b] buf) s (S n)
  = ring_read buf s n ++ [b].
Proof.
  intros Hn. remember (Z.of_nat (length buf)) as cap eqn:Hcap.
  pose proof (Z.mod_pos_bound (s + Z.of_nat n) cap) as Hp.
  set (p := (s + Z.of_nat n) mod cap) in *.
  assert (Hfit : (Z.to_nat p + length [b] <= length buf)%nat) by (cbn; lia).
  rewrite <- Nat.add_1_r, ring_read_app. unfold ring_read.
  rewrite length_blit by done. rewrite <- Hcap. f_equal.
  - apply list_fmap_ext. intros i x Hx. apply lookup_seq in Hx as [-> Hi].
    rewrite !nth_lookup, lookup_blit_ne; [done..|]. cbn [Nat.add length].
    pose proof (Z.mod_pos_bound (s + Z.of_nat i) cap).
    assert ((s + Z.of_nat i) mod cap <> p) by (apply mod_neq; lia). lia.
  - cbn [seq fmap list_fmap]. rewrite Z.add_0_r. fold p.
    rewrite nth_lookup, <- (Nat.add_0_r (Z.to_nat p)) at 1.
    by rewrite lookup_blit_eq by (cbn; lia).
Qed.

Lemma q_increment_mod queue idx :
  q_cap queue < 2 ^ 32 -> 0 <= idx < q_cap queue ->
  q_increment queue idx = (idx + 1) mod q_cap queue.
Proof. intros Hc Hi. unfold q_increment. rewrite wrap_small by lia. done. Qed.

Lemma q_put_loop_spec l q s n :
  0 < q_cap q < 2 ^ 32 -> Z.of_nat (length (q_buf q)) = q_cap q ->
  q_head q = (s + Z.of_nat n) mod q_cap q ->
  (n + length l <= length (q_buf q))%nat ->
  exists buf, q_put_loop q l
              = Some (q_set_buf q buf ((s + Z.of_nat (n + length l)) mod q_cap q))
    /\ length buf = length (q_buf q)
    /\ ring_read buf s (n + length l) = ring_read (q_buf q) s n ++ l.
Proof.
  revert q n. induction l as [|b l IH]; intros q n Hc Hb Hh Hl.
  - exists (q_buf q). cbn. rewrite Nat.add_0_r, app_nil_r, <- Hh. by destruct q.
  - cbn [length] in Hl. cbn [q_put_loop].
    pose proof (Z.mod_pos_bound (s + Z.of_nat n) (q_cap q)) as Hp.
    unfold write_at. rewrite Hh.
    destruct (Nat.leb_spec (Z.to_nat ((s + Z.of_nat n) mod q_cap q) + length [b])
                (length (q_buf q))) as [Hle|Hle]; [|cbn in Hle; lia]. cbn.
    set (buf1 := blit _ _ _).
    assert (Hlen : length buf1 = length (q_buf q)) by (by apply length_blit).
    destruct (IH (q_set_buf q buf1 (q_increment q ((s + Z.of_nat n) mod q_cap q))) (S n))
      as (buf & Hput & Hbl & Hr); cbn; try lia.
    + rewrite q_increment_mod, Zplus_mod_idemp_l by lia. f_equal. lia.
    + exists buf. rewrite Nat.add_succ_r. split; [exact Hput|].
      cbn [q_set_buf q_buf] in Hbl, Hr. split; [lia|].
      change (S (n + length l)) with (S n + length l)%nat. rewrite Hr. unfold buf1. rewrite <- Hb, ring_put_byte by lia.
      by rewrite <- app_assoc.
Qed.

Lemma q_get_loop_spec n q idx :
  0 < q_cap q < 2 ^ 32 -> Z.of_nat (length (q_buf q)) = q_cap q ->
  0 <= idx < q_cap q ->
  q_get_loop q n idx
  = Some (ring_read (q_buf q) idx n, (idx + Z.of_nat n) mod q_cap q).
Proof.
  intros Hc Hb. revert idx. induction n as [|n IH]; intros idx Hi; cbn [q_get_loop].
  - rewrite Z.add_0_r, Z.mod_small by done. done.
  - destruct (lookup_lt_is_Some_2 (q_buf q) (Z.to_nat idx)) as [b Hbyte]; [lia|].
    rewrite Hbyte. cbn [mbind option_bind]. rewrite q_increment_mod by lia.
    rewrite IH by (apply Z.mod_pos_bound; lia). cbn [mbind option_bind].
    assert (E : ring_read (q_buf q) idx (S n)
                = b :: ring_read (q_buf q) ((idx + 1) mod q_cap q) n).
    { rewrite (ring_read_app (q_buf q) idx 1 n : ring_read _ _ (S n) = _).
      rewrite <- Hb, ring_read_mod. unfold ring_read at 1.
      cbn [fmap list_fmap seq]. rewrite Z.add_0_r, Hb, (Z.mod_small idx) by lia.
      by rewrite nth_lookup, Hbyte. }
    rewrite E. do 2 f_equal. rewrite Zplus_mod_idemp_l. f_equal. lia.
Qed.

(** ** The operations refine a bounded first-in first-out queue *)

Section spec.
Context `{Platform}.

Definition used (items : list bytes) : nat := length (concat (item_bytes <$> items)).

Lemma used_cons d items : used (d :: items) = (sizeof_QItem + length d + used items)%nat.
Proof.
  unfold used, item_bytes. cbn. rewrite !length_app, length_native_store.
  unfold sizeof_QItem. lia.
Qed.

Lemma used_snoc items d : used (items ++ [d]) = (used items + sizeof_QItem + length d)%nat.
Proof.
  unfold used, item_bytes. rewrite fmap_app, concat_app. cbn.
  rewrite app_nil_r, !length_app, length_native_store. unfold sizeof_QItem. lia.
Qed.

Lemma used_pos items : items <> [] -> (0 < used items)%nat.
Proof. destruct items; [done|]. rewrite used_cons. unfold sizeof_QItem. lia. Qed.

Lemma used_length items : (sizeof_QItem * length items <= used items)%nat.
Proof.
  induction items as [|d items IH]; [cbn; lia|]. rewrite used_cons.
  cbn [length]. lia.
Qed.

Lemma q_get_free_space_spec q items :
  q_repr q items -> q_get_free_space q = q_cap q - Z.of_nat (used items).
Proof.
  intros [Hc Hb Ht _ Hu Hh Hn _]. fold (used items) in *. unfold q_get_free_space.
  assert (Hused : (used items = 0)%nat <-> items = []).
  { split; [|by intros ->]. destruct items as [|b l]; [done|]. intros E.
    rewrite used_cons in E. discriminate. }
  assert (Hcnt : q_count q = 0 <-> (used items = 0)%nat)
    by (rewrite Hused, Hn; destruct items; cbn; split; intros; (done || lia)).
  destruct (Z.ltb_spec (q_tail q + Z.of_nat (used items)) (q_cap q)) as [Hlt|Hge].
  - rewrite Z.mod_small in Hh by lia. rewrite Hh.
    repeat bcase; try lia. unfold wrap. rewrite Zplus_mod_idemp_l, Z.mod_small; lia.
  - assert (Hh' : q_head q = q_tail q + Z.of_nat (used items) - q_cap q).
    { rewrite Hh. symmetry. apply (Z.mod_unique_pos _ _ 1); lia. }
    rewrite Hh'. repeat bcase; try lia.
    unfold wrap. rewrite Z.mod_small; lia.
Qed.

Lemma item_bytes_ok d : bytes_ok d -> bytes_ok (item_bytes d).
Proof. intros. unfold item_bytes. auto with bm. Qed.

Lemma q_enqueue_ok q items d rest :
  q_repr q items -> item_ok d ->
  Z.of_nat (used items + sizeof_QItem + length d) <= q_cap q ->
  Z.of_nat (length d) + 4 < 2 ^ size_t_bits ->
  exists q', q_enqueue (Some q) (Some (d ++ rest)) (Z.of_nat (length d)) = Some (BmOK, Some q')
    /\ q_cap q' = q_cap q /\ q_repr q' (items ++ [d]).
Proof.
  intros Hr Hd Hfit Hsz. pose proof (q_get_free_space_spec q items Hr) as Hfree.
  pose proof Hr as [Hc Hb Ht Hi Hu Hh Hn Hcont]. fold (used items) in *.
  unfold q_enqueue. destruct Hd as [Hdb Hd0].
  assert (0 < length d)%nat by (destruct d; [done|cbn; lia]).
  unfold sizeof_QItem in *.
  destruct (Z.eqb_spec (Z.of_nat (length d)) 0); [lia|].
  unfold usize. rewrite wrap_small by lia. rewrite Hfree.
  destruct (Z.ltb_spec (q_cap q - Z.of_nat (used items)) (Z.of_nat (length d) + Z.of_nat 4));
    [lia|].
  destruct (q_put_loop_spec (native_store 4 (Z.of_nat (length d))) q (q_tail q) (used items))
    as (buf1 & -> & Hl1 & Hr1); [done..| rewrite length_native_store; lia |].
  rewrite length_native_store in Hr1 |- *. cbn [mbind option_bind].
  unfold read_at. rewrite length_app.
  destruct (Nat.leb_spec (0 + Z.to_nat (Z.of_nat (length d))) (length d + length rest)); [|lia].
  cbn [mbind option_bind]. unfold slice. rewrite drop_0, Nat2Z.id, take_app_length.
  set (q1 := q_set_buf q buf1 _).
  destruct (q_put_loop_spec d q1 (q_tail q) (used items + 4)) as (buf2 & -> & Hl2 & Hr2);
    [done | cbn; lia | done | cbn; lia |].
  cbn in Hl2, Hr2. cbn [mbind option_bind]. eexists. split; [done|]. split; [done|].
  assert (Hused : used (items ++ [d]) = (used items + 4 + length d)%nat) by apply used_snoc.
  split; cbn; try fold (used (items ++ [d])).
  - done.
  - lia.
  - done.
  - apply Forall_app. split; [done|]. by constructor.
  - lia.
  - by rewrite Hused.
  - pose proof (used_length items) as Hlen. unfold sizeof_QItem in Hlen.
    rewrite u32_small by lia. rewrite length_app. cbn. lia.
  - rewrite Hused, Hr2, Hr1, Hcont, fmap_app, concat_app. cbn [fmap list_fmap concat].
    by rewrite app_nil_r, <- app_assoc.
Qed.

Lemma q_enqueue_full q items d rest :
  q_repr q items -> d <> [] ->
  q_cap q < Z.of_nat (used items + sizeof_QItem + length d) ->
  Z.of_nat (length d) + 4 < 2 ^ size_t_bits ->
  q_enqueue (Some q) (Some (d ++ rest)) (Z.of_nat (length d)) = Some (BmENOMEM, Some q).
Proof.
  intros Hr Hd Hfit Hsz. unfold q_enqueue.
  assert (0 < length d)%nat by (destruct d; [done|cbn; lia]).
  destruct (Z.eqb_spec (Z.of_nat (length d)) 0); [lia|].
  unfold usize. unfold sizeof_QItem in *. rewrite wrap_small by lia.
  rewrite (q_get_free_space_spec q items Hr).
  destruct (Z.ltb_spec (q_cap q - Z.of_nat (used items))
              (Z.of_nat (length d) + Z.of_nat 4)); [done|lia].
Qed.

(** The element at the front of the ring. *)
Lemma q_front q d items :
  q_repr q (d :: items) ->
  ring_read (q_buf q) (q_tail q) sizeof_QItem
    = native_store sizeof_QItem (Z.of_nat (length d))
  /\ ring_read (q_buf q) ((q_tail q + 4) mod q_cap q) (length d) = d
  /\ ring_read (q_buf q) ((q_tail q + 4 + Z.of_nat (length d)) mod q_cap q) (used items)
    = concat (item_bytes <$> items).
Proof.
  intros [Hc Hb Ht Hi Hu Hh Hn Hcont]. fold (used (d :: items)) in *.
  rewrite used_cons, <- Nat.add_assoc, !ring_read_app in Hcont.
  cbn [fmap list_fmap concat] in Hcont. unfold item_bytes at 1 in Hcont.
  rewrite <- app_assoc in Hcont.
  apply app_inj_1 in Hcont as [E1 E2]; [|by rewrite length_ring_read, length_native_store].
  apply app_inj_1 in E2 as [E2 E3]; [|by rewrite length_ring_read].
  rewrite <- Hb, !ring_read_mod. done.
Qed.

Lemma item_size_load d :
  item_ok d -> Z.of_nat (length d) < 2 ^ 32 ->
  native_load (native_store sizeof_QItem (Z.of_nat (length d))) = Z.of_nat (length d).
Proof. intros _ Hd. rewrite native_load_store. apply Z.mod_small. unfold sizeof_QItem. lia. Qed.

Lemma q_dequeue_front q d items buf :
  q_repr q (d :: items) -> buf <> [] ->
  if (length d <=? length buf)%nat then
    exists q', q_dequeue (Some q) (Some buf) (Z.of_nat (length buf))
               = Some (BmOK, Some q', Some (d ++ drop (length d) buf))
      /\ q_cap q' = q_cap q /\ q_repr q' items
  else q_dequeue (Some q) (Some buf) (Z.of_nat (length buf))
       = Some (BmENOMEM, Some q, Some buf).
Proof.
  intros Hr Hbuf. destruct (q_front q d items Hr) as (E1 & E2 & E3).
  pose proof Hr as [Hc Hb Ht Hi Hu Hh Hn _]. fold (used (d :: items)) in *.
  rewrite used_cons in *. apply Forall_cons in Hi as [Hd Hi]. unfold sizeof_QItem in *.
  unfold q_dequeue.
  destruct (Z.eqb_spec (Z.of_nat (length buf)) 0); [destruct buf; done|].
  destruct (Z.eqb_spec (q_count q) 0); [cbn in Hn; lia|].
  rewrite q_get_loop_spec by done. cbn [mbind option_bind].
  assert (Hl : native_load (native_store 4 (Z.of_nat (length d))) = Z.of_nat (length d))
    by (apply item_size_load; [done|lia]).
  unfold sizeof_QItem. rewrite E1, Hl.
  destruct (Nat.leb_spec (length d) (length buf)) as [Hle|Hlt];
    (destruct (Z.ltb_spec (Z.of_nat (length buf)) (Z.of_nat (length d))); [try lia|try lia]); [|done].
  rewrite q_get_loop_spec by (try done; apply Z.mod_pos_bound; lia).
  rewrite Nat2Z.id. change (Z.of_nat 4) with 4. rewrite E2. cbn [mbind option_bind].
  unfold write_at. destruct (Nat.leb_spec (0 + length d) (length buf)); [|lia].
  cbn [mbind option_bind]. unfold blit. rewrite take_0.
  eexists. split; [reflexivity|]. split; [done|].
  rewrite Zplus_mod_idemp_l.
  split; cbn [q_cap q_head q_tail q_count q_buf]; fold (used items); try done.
  - apply Z.mod_pos_bound. lia.
  - lia.
  - rewrite Hh, Zplus_mod_idemp_l. f_equal. lia.
  - cbn in Hn. rewrite u32_small; [lia|].
    pose proof (used_length items). unfold sizeof_QItem in *. lia.
Qed.

Lemma q_dequeue_empty q buf :
  q_repr q [] -> buf <> [] ->
  q_dequeue (Some q) (Some buf) (Z.of_nat (length buf)) = Some (BmENODATA, Some q, Some buf).
Proof.
  intros [_ _ _ _ _ _ Hn _] Hbuf. unfold q_dequeue.
  destruct (Z.eqb_spec (Z.of_nat (length buf)) 0); [destruct buf; done|].
  by rewrite Hn.
Qed.

Lemma q_empty_repr cap buf :
  0 < cap < 2 ^ 32 -> Z.of_nat (length buf) = cap -> q_repr (MkQ cap 0 0 0 buf) [].
Proof. intros Hc Hb. split; cbn; try done; lia. Qed.
End spec.

(** ** Runs *)

(** The operations of a client; buffers are passed with their own length. *)
Inductive q_op : Type :=
| OpEnqueue (data : bytes)
| OpDequeue (data : bytes)
| OpSize
| OpClear.

Inductive q_out : Type :=
| OutErr (e : BmErr)
| OutData (e : BmErr) (data : bytes)
| OutSize (n : Z).

Definition q_step `{Platform} (q : Q) (op : q_op) : option (q_out * Q) :=
  match op with
  | OpEnqueue d =>
      r ← q_enqueue (Some q) (Some d) (Z.of_nat (length d));
      match r with (e, Some q) => Some (OutErr e, q) | _ => None end
  | OpDequeue d =>
      r ← q_dequeue (Some q) (Some d) (Z.of_nat (length d));
      match r with (e, Some q, Some d) => Some (OutData e d, q) | _ => None end
  | OpSize => Some (OutSize (q_size (Some q)), q)
  | OpClear =>
      match q_clear (Some q) with (e, Some q) => Some (OutErr e, q) | _ => None end
  end.

Fixpoint q_run `{Platform} (q : Q) (ops : list q_op) : option (list q_out) :=
  match ops with
  | [] => Some []
  | op :: ops =>
      '(out, q) ← q_step q op;
      outs ← q_run q ops;
      Some (out :: outs)
  end.

(** The abstract queue: a list of byte strings, each of which takes four bytes
    more than its length of the capacity. *)
Definition fifo_used (items : list bytes) : Z :=
  foldr (fun d n => Z.of_nat (length d) + 4 + n) 0 items.

Definition fifo_step (cap : Z) (items : list bytes) (op : q_op) : q_out * list bytes :=
  match op with
  | OpEnqueue d =>
      if (length d =? 0)%nat then (OutErr BmEINVAL, items)
      else if fifo_used (items ++ [d]) <=? cap then (OutErr BmOK, items ++ [d])
      else (OutErr BmENOMEM, items)
  | OpDequeue buf =>
      if (length buf =? 0)%nat then (OutData BmEINVAL buf, items)
      else match items with
           | [] => (OutData BmENODATA buf, items)
           | d :: rest =>
               if (length d <=? length buf)%nat
               then (OutData BmOK (d ++ drop (length d) buf), rest)
               else (OutData BmENOMEM buf, items)
           end
  | OpSize => (OutSize (Z.of_nat (length items)), items)
  | OpClear => (OutErr BmOK, [])
  end.

Fixpoint fifo_run (cap : Z) (items : list bytes) (ops : list q_op) : list q_out :=
  match ops with
  | [] => []
  | op :: ops => let '(out, items) := fifo_step cap items op in out :: fifo_run cap items ops
  end.

(** Enqueued data are bytes, and shorter than the address space. *)
Definition q_op_ok `{Platform} (op : q_op) : Prop :=
  match op with
  | OpEnqueue d => bytes_ok d /\ Z.of_nat (length d) + 4 < 2 ^ size_t_bits
  | _ => True
  end.

Lemma fifo_used_spec `{Platform} items : fifo_used items = Z.of_nat (used items).
Proof.
  induction items as [|d items IH]; [done|]. rewrite used_cons. cbn [fifo_used foldr].
  fold (fifo_used items). rewrite IH. unfold sizeof_QItem. lia.
Qed.

Lemma q_step_refines `{Platform} q items op :
  q_repr q items -> q_op_ok op ->
  exists q', q_step q op = Some (fst (fifo_step (q_cap q) items op), q')
    /\ q_cap q' = q_cap q /\ q_repr q' (snd (fifo_step (q_cap q) items op)).
Proof.
  intros Hr Hop. destruct op as [d|buf| |]; cbn [q_step fifo_step].
  - destruct Hop as [Hd Hsz]. destruct (Nat.eqb_spec (length d) 0) as [E|E].
    { destruct d; [|done]. exists q. by unfold q_enqueue. }
    assert (d <> []) by by destruct d.
    rewrite fifo_used_spec, used_snoc.
    pose proof (q_enqueue_ok q items d [] Hr) as Hok.
    pose proof (q_enqueue_full q items d [] Hr) as Hfull. rewrite app_nil_r in Hok, Hfull.
    destruct (Z.leb_spec (Z.of_nat (used items + sizeof_QItem + length d)) (q_cap q)).
    + destruct Hok as (q' & -> & Hq'); [done..|]. exists q'. by destruct Hq'.
    + rewrite Hfull by done. by exists q.
  - destruct (Nat.eqb_spec (length buf) 0) as [E|E].
    { destruct buf; [|done]. exists q. by unfold q_dequeue. }
    assert (buf <> []) by by destruct buf.
    destruct items as [|d items].
    + rewrite q_dequeue_empty by done. by exists q.
    + pose proof (q_dequeue_front q d items buf Hr) as Hf.
      destruct (length d <=? length buf)%nat.
      * destruct Hf as (q' & -> & Hq'); [done|]. exists q'. by destruct Hq'.
      * rewrite Hf by done. by exists q.
  - exists q. split; [|done]. cbn. by rewrite (qr_count _ _ Hr).
  - eexists. split; [reflexivity|]. split; [done|]. destruct Hr.
    by apply q_empty_repr.
Qed.

(** C8: the ring buffer refines a bounded first-in first-out queue of byte
    strings: on a queue from [q_create], every sequence of enqueue, dequeue,
    size and clear operations stays inside the buffer and answers, error codes
    and copied bytes included, as the abstract queue does. *)
Theorem q_refines_fifo `{Platform} mem size ops :
  0 < size < 2 ^ 32 -> Z.of_nat (length mem) = size -> Forall q_op_ok ops ->
  exists q, q_create true (Some mem) size = Some q
    /\ q_run q ops = Some (fifo_run size [] ops).
Proof.
  intros Hs Hm Hops. exists (MkQ size 0 0 0 mem). split.
  { unfold q_create. by destruct (Z.eqb_spec size 0); [lia|]. }
  assert (Hr : q_repr (MkQ size 0 0 0 mem) []) by by apply q_empty_repr.
  assert (Hc : q_cap (MkQ size 0 0 0 mem) = size) by done.
  revert Hr Hc. generalize (@nil bytes), (MkQ size 0 0 0 mem).
  induction Hops as [|op ops Hop _ IH]; intros items q Hr Hc; [done|].
  destruct (q_step_refines q items op Hr Hop) as (q' & Hq & Hc' & Hr').
  cbn [q_run fifo_run]. rewrite Hq. cbn [mbind option_bind]. rewrite Hc in *.
  destruct (fifo_step size items op) as [out items']. cbn [fst snd] in *.
  by rewrite (IH items' q' Hr' Hc').
Qed.

Definition sample_ops : list q_op :=
  [OpEnqueue [1; 2; 3]; OpEnqueue [4; 5]; OpEnqueue [6]; OpDequeue [0]; OpDequeue [0; 0; 0; 9];
   OpEnqueue [7; 8; 9]; OpSize; OpDequeue [0; 0]; OpDequeue [0; 0; 0]; OpDequeue [0]; OpClear].

Lemma q_refines_fifo_witness :
  exists q, q_create true (Some (repeat 0 16)) 16 = Some q
    /\ @q_run platform_mcu q sample_ops = Some (fifo_run 16 [] sample_ops).
Proof.
  apply (@q_refines_fifo platform_mcu (repeat 0 16) 16 sample_ops).
  - lia.
  - reflexivity.
  - unfold sample_ops. repeat constructor; vm_compute; congruence.
Defined.
