(* ===== verification/LinkedList.v ===== *)
(** * Linked list: src/common/ll.c

    The intrusive doubly linked list over an explicit heap of items, with the
    sequence it represents as its abstract value. *)
From S2P Require Import Prelude.

Abbreviation loc := positive.

Section linked_list.
(** What the [data] pointer of an item is to. *)
Context {D : Type}.

Record LLItem : Type := MkLLItem {
  next : option loc;
  previous : option loc;
  data : option D;
  id : Z;
  dynamic : bool
}.

#[local] Abbreviation item_heap := (gmap loc LLItem).

Definition set_next (n : option loc) (i : LLItem) : LLItem :=
  MkLLItem n (previous i) (data i) (id i) (dynamic i).
Definition set_previous (p : option loc) (i : LLItem) : LLItem :=
  MkLLItem (next i) p (data i) (id i) (dynamic i).

(** Stores through an item pointer; [None]: the item does not exist. *)
Definition store_item (f : LLItem -> LLItem) (l : option loc) (h : item_heap)
    : option item_heap :=
  l ← l; i ← h !! l; Some (<[l := f i]> h).

Record LL : Type := MkLL {
  head : option loc;
  tail : option loc;
  cursor : option loc
}.

Definition LL_empty : LL := MkLL None None None.

(** The result carries [*data]. *)
Definition ll_advance_cursor (h : item_heap) (ll : LL)
    : option (BmErr * option D * LL) :=
  let cur := match cursor ll with None => head ll | c => c end in
  match cur with
  | None => Some (BmENODEV, None, MkLL (head ll) (tail ll) None)
  | Some l =>
      i ← h !! l;
      Some (BmOK, data i, MkLL (head ll) (tail ll) (next i))
  end.

Definition ll_reset_cursor (ll : LL) : LL := MkLL (head ll) (tail ll) None.

(** [item] is the caller's storage. *)
Definition ll_create_item_static (item : option loc) (d : option D) (i : Z) (h : item_heap)
    : option (BmErr * item_heap) :=
  match item with
  | None => Some (BmEINVAL, h)
  | Some l =>
      it ← h !! l;
      Some (BmOK, <[l := MkLLItem (next it) (previous it) d i false]> h)
  end.

(** [alloc] is what the allocation of the item returns, with the bytes of its
    uninitialised links; [alloc_data] tells whether the second one succeeds. *)
Definition ll_create_item (alloc : option (loc * (option loc * option loc)))
    (alloc_data : bool) (d : option D) (i : Z) (h : item_heap)
    : option loc * item_heap :=
  match alloc with
  | None => (None, h)
  | Some (l, (n, p)) =>
      match d with
      | None => (Some l, <[l := MkLLItem n p None i true]> h)
      | Some _ =>
          if alloc_data then (Some l, <[l := MkLLItem n p d i true]> h) else (None, h)
      end
  end.

Definition ll_delete_item (item : option loc) (h : item_heap) : option (BmErr * item_heap) :=
  match item with
  | None => Some (BmEINVAL, h)
  | Some l =>
      i ← h !! l;
      Some (BmOK, if dynamic i then delete l h else h)
  end.

Definition ll_item_add (ll : option LL) (node : option loc) (h : item_heap)
    : option (BmErr * option LL * item_heap) :=
  match ll, node with
  | Some l, Some n =>
      match head l with
      | Some _ =>
          h ← store_item (set_previous (tail l)) node h;
          h ← store_item (set_next node) (tail l) h;
          h ← store_item (set_next None) node h;
          Some (BmOK, Some (MkLL (head l) node (cursor l)), h)
      | None =>
          h ← store_item (set_previous None) node h;
          h ← store_item (set_next None) node h;
          Some (BmOK, Some (MkLL node node (cursor l)), h)
      end
  | _, _ => Some (BmEINVAL, ll, h)
  end.

(** The search loop of [ll_get_item] and [ll_remove]: the item with the id and
    the one before it.  [fuel] bounds the iterations; [None]: the pointer is
    dangling, or the fuel is used up. *)
Fixpoint ll_find_loop (fuel : nat) (i : Z) (prev cur : option loc) (h : item_heap)
    : option (option loc * option loc) :=
  match fuel, cur with
  | O, _ => None
  | S fuel, None => Some (prev, None)
  | S fuel, Some l =>
      it ← h !! l;
      if id it =? i then Some (prev, cur) else ll_find_loop fuel i cur (next it) h
  end.

(** A list without a cycle has at most as many items as the heap. *)
Definition ll_fuel (h : item_heap) : nat := S (size h).

Definition ll_get_item (ll : option LL) (i : Z) (h : item_heap)
    : option (BmErr * option (option D)) :=
  match ll with
  | None => Some (BmEINVAL, None)
  | Some l =>
      '(_, cur) ← ll_find_loop (ll_fuel h) i None (head l) h;
      match cur with
      | None => Some (BmENODEV, None)
      | Some c => it ← h !! c; Some (BmOK, Some (data it))
      end
  end.

Definition ll_remove (ll : option LL) (i : Z) (h : item_heap)
    : option (BmErr * option LL * item_heap) :=
  match ll with
  | None => Some (BmEINVAL, None, h)
  | Some l =>
      '(prev, cur) ← ll_find_loop (ll_fuel h) i None (head l) h;
      match cur with
      | None => Some (BmENODEV, ll, h)
      | Some c =>
          it ← h !! c;
          if bool_decide (cur = head l) then
            let tl := if bool_decide (cur = tail l) then None else tail l in
            '(ret, h) ← ll_delete_item cur h;
            Some (ret, Some (MkLL (next it) tl (cursor l)), h)
          else
            let tl := if bool_decide (cur = tail l) then previous it else tail l in
            h ← store_item (set_next (next it)) prev h;
            '(ret, h) ← ll_delete_item cur h;
            Some (ret, Some (MkLL (head l) tl (cursor l)), h)
      end
  end.

(** The [do]-[while] loop of [ll_traverse]; the callback changes the state
    [arg] points to. *)
Fixpoint ll_traverse_loop {A} (fuel : nat) (cb : option D -> A -> BmErr * A) (arg : A)
    (h : item_heap) (ll : LL) : option (BmErr * LL * A) :=
  match fuel with
  | O => None
  | S fuel =>
      '(ret, d, ll) ← ll_advance_cursor h ll;
      let '(ret, arg) := if is_ok ret then cb d arg else (ret, arg) in
      match cursor ll with
      | Some _ => if is_ok ret then ll_traverse_loop fuel cb arg h ll else Some (ret, ll, arg)
      | None => Some (ret, ll, arg)
      end
  end.

Definition ll_traverse {A} (ll : option LL) (cb : option (option D -> A -> BmErr * A)) (arg : A)
    (h : item_heap) : option (BmErr * option LL * A) :=
  match ll, cb with
  | Some l, Some cb =>
      '(ret, l, arg) ← ll_traverse_loop (ll_fuel h) cb arg h (ll_reset_cursor l);
      Some (ret, Some l, arg)
  | _, _ => Some (BmEINVAL, ll, arg)
  end.

(** ** The sequence a list represents *)

(** The items [xs] are chained from [p] on. *)
Fixpoint chain (h : item_heap) (p : option loc) (xs : list loc) : Prop :=
  match xs with
  | [] => p = None
  | x :: xs => p = Some x /\ exists it, h !! x = Some it /\ chain h (next it) xs
  end.

(** Each of [xs] points back to the one before it, the first one to [p]. *)
Fixpoint back_chain (h : item_heap) (p : loc) (xs : list loc) : Prop :=
  match xs with
  | [] => True
  | x :: xs => (exists it, h !! x = Some it /\ previous it = Some p) /\ back_chain h x xs
  end.

Record ll_seq (h : item_heap) (ll : LL) (xs : list loc) : Prop := {
  ls_chain : chain h (head ll) xs;
  ls_nodup : NoDup xs;
  ls_tail : tail ll = last xs
}.

(** The back links are right too; those of the first item are not used. *)
Definition ll_linked (h : item_heap) (xs : list loc) : Prop :=
  match xs with [] => True | x :: xs => back_chain h x xs end.

(** What the list holds: the ids and data in order. *)
Definition entry (h : item_heap) (x : loc) : Z * option D :=
  match h !! x with Some it => (id it, data it) | None => (0, None) end.
Definition entries (h : item_heap) (xs : list loc) : list (Z * option D) := entry h <$> xs.

(** ** Lemmas *)

Lemma chain_frame h h' p xs :
  chain h p xs -> (forall x, x ∈ xs -> h' !! x = h !! x) -> chain h' p xs.
Proof.
  revert p. induction xs as [|x xs IH]; intros p; [done|].
  intros [-> (it & Hx & Hc)] Hf. split; [done|]. exists it. split.
  - rewrite Hf; [done|]. by left.
  - apply IH; [done|]. intros y Hy. apply Hf. by right.
Qed.

(** The frames need not agree on the links they do not look at. *)
Lemma back_chain_frame h h' p xs :
  back_chain h p xs ->
  (forall x, x ∈ xs -> previous <$> h' !! x = previous <$> h !! x) -> back_chain h' p xs.
Proof.
  revert p. induction xs as [|x xs IH]; intros p; [done|].
  intros [(it & Hx & Hp) Hb] Hf. split.
  - specialize (Hf x (list_elem_of_here x xs)). rewrite Hx in Hf. cbn in Hf.
    destruct (h' !! x) as [it'|]; [|done]. injection Hf as Hf. exists it'. by rewrite Hf.
  - apply IH; [done|]. intros y Hy. apply Hf. by right.
Qed.

Lemma entries_frame h h' xs :
  (forall x, x ∈ xs -> (fun i => (id i, data i)) <$> h' !! x = (fun i => (id i, data i)) <$> h !! x) ->
  entries h' xs = entries h xs.
Proof.
  intros Hf. apply list_fmap_ext. intros i x Hx. unfold entry.
  specialize (Hf x (list_elem_of_lookup_2 _ _ _ Hx)).
  destruct (h' !! x), (h !! x); cbn in Hf; congruence.
Qed.

Lemma entries_app h xs ys : entries h (xs ++ ys) = entries h xs ++ entries h ys.
Proof. apply fmap_app. Qed.

Lemma chain_lookup h p xs x : chain h p xs -> x ∈ xs -> is_Some (h !! x).
Proof.
  revert p. induction xs as [|y xs IH]; intros p Hc Hx; [by apply not_elem_of_nil in Hx|].
  destruct Hc as [_ (it & Hy & Hc)]. apply elem_of_cons in Hx as [->|Hx]; eauto.
Qed.

Lemma chain_size h p xs : chain h p xs -> NoDup xs -> (length xs <= size h)%nat.
Proof.
  intros Hc Hn. rewrite <- (size_list_to_set (C := gset loc) xs Hn), <- (size_dom (D := gset loc) h).
  apply subseteq_size. intros x Hx. apply elem_of_list_to_set in Hx.
  apply elem_of_dom. eauto using chain_lookup.
Qed.

(** A chain cut at an item. *)
Lemma chain_cut h p l1 x l2 :
  chain h p (l1 ++ x :: l2) <->
  exists it, h !! x = Some it /\ chain h (next it) l2
    /\ forall h', (forall y, y ∈ l1 -> h' !! y = h !! y) ->
         forall l3, chain h' (Some x) (x :: l3) -> chain h' p (l1 ++ x :: l3).
Proof.
  revert p. induction l1 as [|y l1 IH]; intros p; cbn [app].
  - split.
    + intros [-> (it & Hx & Hc)]. exists it. split_and!; [done..|]. intros h' _ l3 Hl3. apply Hl3.
    + intros (it & Hx & Hc & Hh). apply Hh; [done|]. split; [done|]. eauto.
  - split.
    + intros [-> (it & Hy & Hc)]. apply IH in Hc as (ix & Hx & Hc & Hh).
      exists ix. split_and!; [done..|]. intros h' Hf l3 Hc3. split; [done|].
      exists it. split; [rewrite Hf; [done|by left]|].
      apply Hh; [|done]. intros z Hz. apply Hf. by right.
    + intros (ix & Hx & Hc & Hh). apply Hh; [done|]. split; [done|]. eauto.
Qed.

(** The search stops at the first item with the id. *)
Lemma ll_find_loop_hit fuel h i prev cur l1 x l2 it :
  chain h cur (l1 ++ x :: l2) -> (length l1 < fuel)%nat ->
  Forall (fun e => fst e <> i) (entries h l1) -> h !! x = Some it -> id it = i ->
  ll_find_loop fuel i prev cur h
  = Some (match last l1 with Some y => Some y | None => prev end, Some x).
Proof.
  revert prev cur fuel. induction l1 as [|y l1 IH]; intros prev cur [|fuel] Hc Hf Hn Hx Hi;
    cbn [length] in Hf; try lia; cbn [app] in Hc; destruct Hc as [-> (iy & Hy & Hc)].
  - cbn. rewrite Hy. cbn. simplify_eq. by rewrite Z.eqb_refl.
  - cbn [ll_find_loop]. rewrite Hy. cbn [mbind option_bind].
    apply Forall_cons in Hn as [Hny Hn]. unfold entry in Hny. rewrite Hy in Hny.
    destruct (Z.eqb_spec (id iy) i); [done|].
    rewrite (IH (Some y) (next iy)) by (done || lia).
    rewrite last_cons. by destruct (last l1).
Qed.

Lemma ll_find_loop_miss fuel h i prev cur xs :
  chain h cur xs -> (length xs < fuel)%nat -> Forall (fun e => fst e <> i) (entries h xs) ->
  exists prev', ll_find_loop fuel i prev cur h = Some (prev', None).
Proof.
  revert prev cur fuel. induction xs as [|y xs IH]; intros prev cur [|fuel] Hc Hf Hn;
    cbn [length] in Hf; try lia.
  - cbn in Hc. subst. cbn. eauto.
  - destruct Hc as [-> (iy & Hy & Hc)]. cbn [ll_find_loop]. rewrite Hy. cbn [mbind option_bind].
    apply Forall_cons in Hn as [Hny Hn]. unfold entry in Hny. rewrite Hy in Hny.
    destruct (Z.eqb_spec (id iy) i); [done|]. apply IH; [done|lia|done].
Qed.

Lemma back_chain_snoc h p xs n it :
  back_chain h p xs -> h !! n = Some it ->
  previous it = Some (default p (last xs)) -> back_chain h p (xs ++ [n]).
Proof.
  revert p. induction xs as [|x xs IH]; intros p Hb Hn Hp.
  - split; [eauto|done].
  - destruct Hb as [Hx Hb]. split; [done|]. apply IH; [done..|].
    rewrite last_cons in Hp. destruct (last xs); done.
Qed.

(** *** Adding *)

(** A fresh allocation leaves an existing list as it is. *)
Lemma ll_create_item_fresh h l jn jp d i :
  ll_create_item (Some (l, (jn, jp))) true d i h
  = (Some l, <[l := MkLLItem jn jp d i true]> h).
Proof. unfold ll_create_item. by destruct d. Qed.

Lemma ll_item_add_spec h ll xs n it :
  ll_seq h ll xs -> n ∉ xs -> h !! n = Some it ->
  exists h' ll',
    ll_item_add (Some ll) (Some n) h = Some (BmOK, Some ll', h')
    /\ cursor ll' = cursor ll
    /\ ll_seq h' ll' (xs ++ [n])
    /\ (ll_linked h xs -> ll_linked h' (xs ++ [n]))
    /\ entries h' (xs ++ [n]) = entries h xs ++ [(id it, data it)]
    /\ (forall l, l <> n -> l ∉ xs -> h' !! l = h !! l).
Proof.
  intros [Hc Hnd Ht] Hn Hit. unfold ll_item_add.
  destruct xs as [|t ys _] using rev_ind.
  - cbn in Hc, Ht. rewrite Hc. cbn. rewrite Hit. cbn. rewrite lookup_insert_eq. cbn.
    rewrite insert_insert_eq. do 2 eexists. split; [done|]. split; [done|]. split_and!.
    + split; cbn; [|by constructor; [apply not_elem_of_nil|constructor]|done].
      split; [done|]. rewrite lookup_insert_eq. eauto.
    + intros _. done.
    + cbn. unfold entry. by rewrite lookup_insert_eq.
    + intros l Hl _. by rewrite lookup_insert_ne.
  - rewrite last_snoc in Ht. pose proof Hc as Hcut.
    apply chain_cut in Hcut as (tit & Htt & Hnext & Hre). cbn in Hnext.
    apply NoDup_app in Hnd as (Hnd1 & Hnd2 & Hnd3).
    assert (Hnt : n <> t) by (intros ->; apply Hn; apply elem_of_app; right; by left).
    assert (Htys : t ∉ ys) by (intros Hin; apply (Hnd2 t Hin); by left).
    destruct (head ll) as [hd|] eqn:Ehd.
    2: { destruct ys; cbn in Hc; destruct Hc; done. }
    cbn. rewrite Hit. cbn. rewrite Ht. cbn. rewrite lookup_insert_ne by done.
    rewrite Htt. cbn. rewrite lookup_insert_ne by done. rewrite lookup_insert_eq. cbn.
    set (h' := <[n:=_]> (<[t:=_]> _)).
    assert (Hn' : h' !! n = Some (MkLLItem None (Some t) (data it) (id it) (dynamic it)))
      by (unfold h'; by rewrite lookup_insert_eq).
    assert (Ht' : h' !! t = Some (set_next (Some n) tit))
      by (unfold h'; by rewrite lookup_insert_ne, lookup_insert_eq).
    assert (Ho : forall l, l <> n -> l <> t -> h' !! l = h !! l)
      by (intros l Hl1 Hl2; unfold h'; by rewrite !lookup_insert_ne).
    assert (Hys : forall y, y ∈ ys -> h' !! y = h !! y).
    { intros y Hy. apply Ho; intros ->; [|done]. apply Hn, elem_of_app. by left. }
    do 2 eexists. split; [done|]. split; [done|]. split_and!.
    + split; cbn.
      * rewrite <- app_assoc. apply Hre; [done|]. cbn. split; [done|].
        eexists. split; [done|]. cbn. split; [done|]. eauto.
      * apply NoDup_app. split; [by apply NoDup_app|]. split; [|apply NoDup_singleton].
        intros y Hy Hyn. apply list_elem_of_singleton in Hyn as ->. done.
      * by rewrite last_snoc.
    + intros Hb. destruct ys as [|y ys].
      * cbn in *. split; [|done]. eauto.
      * cbn [app ll_linked] in *.
        apply back_chain_snoc with (MkLLItem None (Some t) (data it) (id it) (dynamic it));
          [|done|by rewrite last_snoc].
        apply back_chain_frame with h; [done|]. intros z Hz. apply elem_of_app in Hz as [Hz|Hz].
        -- rewrite Hys; [done|by right].
        -- apply list_elem_of_singleton in Hz as ->. by rewrite Ht', Htt.
    + rewrite !entries_app, (entries_frame h h' ys) by (intros; by rewrite Hys). cbn. unfold entry.
      by rewrite Hn', Ht', Htt.
    + intros l Hl1 Hl2. apply Ho; [done|]. intros ->. apply Hl2, elem_of_app. right. by left.
Qed.
(** *** Removing *)

Lemma chain_head h p x xs : chain h p (x :: xs) -> p = Some x.
Proof. by intros [-> _]. Qed.

(** The heap after [ll_delete_item]. *)
Definition freed (it : LLItem) (x : loc) (h : item_heap) : item_heap :=
  if dynamic it then delete x h else h.

Lemma freed_ne it x h l : l <> x -> freed it x h !! l = h !! l.
Proof. intros Hl. unfold freed. destruct (dynamic it); [by rewrite lookup_delete_ne|done]. Qed.

Lemma freed_eq it x h :
  h !! x = Some it -> freed it x h !! x = if dynamic it then None else Some it.
Proof. intros Hx. unfold freed. destruct (dynamic it); [by rewrite lookup_delete_eq|done]. Qed.

Lemma ll_remove_head h ll x l2 it :
  ll_seq h ll (x :: l2) -> h !! x = Some it ->
  ll_remove (Some ll) (id it) h
    = Some (BmOK, Some (MkLL (next it) (last l2) (cursor ll)), freed it x h)
  /\ ll_seq (freed it x h) (MkLL (next it) (last l2) (cursor ll)) l2
  /\ (ll_linked h (x :: l2) -> ll_linked (freed it x h) l2).
Proof.
  intros [Hc Hnd Ht] Hx. pose proof (chain_size h (head ll) (x :: l2) Hc Hnd) as Hsz.
  pose proof (chain_head _ _ _ _ Hc) as Hh. cbn in Hc.
  destruct Hc as [_ (it' & E & Hc)]. rewrite Hx in E. injection E as <-.
  apply NoDup_cons in Hnd as [Hxn Hnd].
  assert (Hf : forall y, y ∈ l2 -> freed it x h !! y = h !! y)
    by (intros y Hy; apply freed_ne; congruence).
  split_and!.
  - unfold ll_remove.
    rewrite (ll_find_loop_hit _ h _ None (head ll) [] x l2 it);
      [|by split; eauto|unfold ll_fuel; cbn; lia|by constructor|done|done].
    cbn. rewrite Hx, Hh. cbn. rewrite bool_decide_eq_true_2 by done.
    cbn. rewrite Ht. unfold freed. do 4 f_equal.
    rewrite last_cons. destruct (last l2) as [y|] eqn:El.
    + rewrite bool_decide_eq_false_2; [done|]. intros [= ->].
      apply last_Some in El as (k & ->). apply Hxn, elem_of_app. right. by left.
    + by rewrite bool_decide_eq_true_2.
  - split; cbn; [|done..]. by apply chain_frame with h.
  - intros Hb. destruct l2 as [|y l2]; [done|]. destruct Hb as [_ Hb]. cbn.
    apply back_chain_frame with h; [done|]. intros z Hz. rewrite Hf; [done|by right].
Qed.

Lemma ll_remove_inner h ll l1 p x l2 it :
  ll_seq h ll ((l1 ++ [p]) ++ x :: l2) -> h !! x = Some it ->
  Forall (fun e => fst e <> id it) (entries h (l1 ++ [p])) ->
  (l2 = [] -> previous it = Some p) ->
  exists h' ll',
    ll_remove (Some ll) (id it) h = Some (BmOK, Some ll', h')
    /\ cursor ll' = cursor ll
    /\ ll_seq h' ll' ((l1 ++ [p]) ++ l2)
    /\ (forall l, l <> p -> l <> x -> h' !! l = h !! l)
    /\ h' !! p = set_next (next it) <$> h !! p
    /\ h' !! x = if dynamic it then None else Some it.
Proof.
  intros [Hc Hnd Ht] Hx Hids Hback.
  pose proof (chain_size h (head ll) _ Hc Hnd) as Hsz. rewrite length_app in Hsz.
  apply NoDup_app in Hnd as (Hnd1 & Hdis & Hnd2). apply NoDup_cons in Hnd2 as [Hxl2 Hnd2].
  assert (Hp : p ∈ l1 ++ [p]) by (apply elem_of_app; right; by left).
  assert (Hpx : p <> x) by (intros ->; apply (Hdis x Hp); by left).
  assert (Hpl2 : p ∉ l2) by (intros Hin; apply (Hdis p Hp); by right).
  assert (Hpl1 : p ∉ l1).
  { apply NoDup_app in Hnd1 as (_ & Hd & _). intros Hin. apply (Hd p Hin). by left. }
  assert (Hhx : Some x <> head ll).
  { intros E. apply (Hdis x); [|by left].
    destruct l1 as [|y l1]; cbn in Hc; destruct Hc as [E' _]; rewrite <- E in E';
      injection E' as ->; by left. }
  assert (Hxl1 : x ∉ l1).
  { intros Hin. apply (Hdis x); [apply elem_of_app; by left|by left]. }
  pose proof Hc as Hcx. apply chain_cut in Hcx as (it' & E & Hcl2 & _).
  rewrite Hx in E. injection E as <-.
  pose proof Hc as Hcp. rewrite <- app_assoc in Hcp. cbn in Hcp.
  apply chain_cut in Hcp as (pit & Hpit & _ & Hre).
  set (h1 := <[p := set_next (next it) pit]> h).
  assert (Ht' : (if bool_decide (Some x = tail ll) then previous it else tail ll)
                = last ((l1 ++ [p]) ++ l2)).
  { rewrite Ht, last_app_cons, last_cons, (last_app _ l2). destruct (last l2) as [y|] eqn:El.
    - rewrite bool_decide_eq_false_2; [done|]. intros [= ->].
      apply last_Some in El as (k & ->). apply Hxl2, elem_of_app. right. by left.
    - rewrite bool_decide_eq_true_2, last_snoc by done. apply Hback. by apply last_None. }
  exists (freed it x h1), (MkLL (head ll) (last ((l1 ++ [p]) ++ l2)) (cursor ll)).
  assert (Hx1 : h1 !! x = Some it) by (unfold h1; by rewrite lookup_insert_ne).
  split_and!; try done.
  - unfold ll_remove. rewrite (ll_find_loop_hit _ h _ None (head ll) (l1 ++ [p]) x l2 it);
      [|done|unfold ll_fuel; rewrite length_app in *; cbn in *; lia|done..].
    rewrite last_snoc. cbn. rewrite Hx. cbn. rewrite bool_decide_eq_false_2 by done.
    rewrite Hpit. cbn. fold h1. rewrite Hx1. cbn. by rewrite Ht'.
  - split; cbn [head tail]; [|by apply NoDup_app; split_and!; [done|set_solver|done]|done].
    rewrite <- app_assoc. cbn. apply Hre.
    + intros y Hy. rewrite freed_ne by congruence. unfold h1. rewrite lookup_insert_ne; congruence.
    + split; [done|]. exists (set_next (next it) pit). split.
      * rewrite freed_ne by done. unfold h1. by rewrite lookup_insert_eq.
      * apply chain_frame with h; [done|]. intros y Hy. rewrite freed_ne by congruence.
        unfold h1. rewrite lookup_insert_ne; [done|congruence].
  - intros l Hl1 Hl2. rewrite freed_ne by done. unfold h1. by rewrite lookup_insert_ne.
  - rewrite freed_ne by done. unfold h1. by rewrite lookup_insert_eq, Hpit.
  - by apply freed_eq.
Qed.

Lemma ll_remove_miss h ll xs i :
  ll_seq h ll xs -> Forall (fun e => fst e <> i) (entries h xs) ->
  ll_remove (Some ll) i h = Some (BmENODEV, Some ll, h).
Proof.
  intros [Hc Hnd Ht] Hi. pose proof (chain_size h (head ll) _ Hc Hnd).
  destruct (ll_find_loop_miss (ll_fuel h) h i None (head ll) xs) as [p E];
    [done|unfold ll_fuel; lia|done|]. unfold ll_remove. by rewrite E.
Qed.

(** *** Looking up *)

Lemma ll_get_item_hit h ll l1 x l2 it :
  ll_seq h ll (l1 ++ x :: l2) -> h !! x = Some it ->
  Forall (fun e => fst e <> id it) (entries h l1) ->
  ll_get_item (Some ll) (id it) h = Some (BmOK, Some (data it)).
Proof.
  intros [Hc Hnd Ht] Hx Hids. pose proof (chain_size h (head ll) _ Hc Hnd) as Hsz.
  unfold ll_get_item. rewrite (ll_find_loop_hit _ h _ None (head ll) l1 x l2 it);
    [|done|unfold ll_fuel; rewrite length_app in *; cbn in *; lia|done..].
  cbn. by rewrite Hx.
Qed.

Lemma ll_get_item_miss h ll xs i :
  ll_seq h ll xs -> Forall (fun e => fst e <> i) (entries h xs) ->
  ll_get_item (Some ll) i h = Some (BmENODEV, None).
Proof.
  intros [Hc Hnd Ht] Hi. pose proof (chain_size h (head ll) _ Hc Hnd).
  destruct (ll_find_loop_miss (ll_fuel h) h i None (head ll) xs) as [p E];
    [done|unfold ll_fuel; lia|done|]. unfold ll_get_item. by rewrite E.
Qed.

(** *** Traversing *)

(** The callback on the data in order, up to the first error. *)
Fixpoint traverse_data {A} (cb : option D -> A -> BmErr * A) (ds : list (option D)) (arg : A)
    : BmErr * A :=
  match ds with
  | [] => (BmENODEV, arg)
  | [d] => cb d arg
  | d :: ds => let '(ret, arg) := cb d arg in
               if is_ok ret then traverse_data cb ds arg else (ret, arg)
  end.

Lemma ll_traverse_loop_spec {A} fuel (cb : option D -> A -> BmErr * A) arg h ll x xs :
  chain h (match cursor ll with None => head ll | c => c end) (x :: xs) ->
  (length (x :: xs) <= fuel)%nat ->
  exists c, ll_traverse_loop fuel cb arg h ll
    = Some (fst (traverse_data cb (snd <$> entries h (x :: xs)) arg),
            MkLL (head ll) (tail ll) c,
            snd (traverse_data cb (snd <$> entries h (x :: xs)) arg)).
Proof.
  revert arg ll x xs. induction fuel as [|fuel IH]; intros arg ll x xs Hc Hf; [cbn in Hf; lia|].
  destruct Hc as [Hcur (it & Hx & Hc)].
  assert (Ha : ll_advance_cursor h ll
               = Some (BmOK, data it, MkLL (head ll) (tail ll) (next it))).
  { unfold ll_advance_cursor. cbn zeta. rewrite Hcur, Hx. done. }
  cbn [ll_traverse_loop]. rewrite Ha. cbn [mbind option_bind is_ok cursor].
  assert (He : snd (entry h x) = data it) by (unfold entry; by rewrite Hx).
  destruct xs as [|y xs].
  - cbn in Hc. rewrite Hc. cbn. rewrite He. destruct (cb (data it) arg). eauto.
  - pose proof Hc as Hc'. destruct Hc' as [Hy _]. rewrite Hy. cbn [fmap list_fmap entries traverse_data].
    rewrite He. destruct (cb (data it) arg) as [ret arg'].
    destruct (is_ok ret); [|by eauto].
    destruct (IH arg' (MkLL (head ll) (tail ll) (Some y)) y xs) as [c E].
    + cbn [cursor]. by rewrite <- Hy.
    + cbn [length] in *. lia.
    + exists c. exact E.
Qed.

(** ** The list operations on sequences *)

(** Removes the first entry with the id. *)
Fixpoint remove_id (i : Z) (es : list (Z * option D)) : list (Z * option D) :=
  match es with
  | [] => []
  | e :: es => if fst e =? i then es else e :: remove_id i es
  end.

Lemma remove_id_hit i l1 d l2 :
  Forall (fun e => fst e <> i) l1 -> remove_id i (l1 ++ (i, d) :: l2) = l1 ++ l2.
Proof.
  induction 1 as [|e l1 He _ IH]; cbn; [by rewrite Z.eqb_refl|].
  destruct (Z.eqb_spec (fst e) i); [done|]. by rewrite IH.
Qed.

Lemma remove_id_miss i es : Forall (fun e => fst e <> i) es -> remove_id i es = es.
Proof.
  induction 1 as [|e es He _ IH]; cbn; [done|].
  destruct (Z.eqb_spec (fst e) i); [done|]. by rewrite IH.
Qed.

(** The items before the first one with the id. *)
Lemma split_at_id h ll xs i :
  ll_seq h ll xs ->
  Forall (fun e => fst e <> i) (entries h xs)
  \/ exists l1 x l2 it, xs = l1 ++ x :: l2 /\ h !! x = Some it /\ id it = i
       /\ Forall (fun e => fst e <> i) (entries h l1).
Proof.
  intros [Hc _ _]. assert (Hl : forall x, x ∈ xs -> is_Some (h !! x))
    by (intros; by eapply chain_lookup). clear Hc. induction xs as [|x xs IH]; [by left|].
  destruct (Hl x) as [it Hx]; [by left|].
  destruct (Z.eq_dec (id it) i) as [E|E].
  - right. exists [], x, xs, it. repeat split; try done; by constructor.
  - assert (fst (entry h x) <> i) by (unfold entry; by rewrite Hx).
    destruct IH as [Hall|(l1 & y & l2 & it' & -> & Hy & Hi & Hn)].
    + intros y Hy. apply Hl. by right.
    + left. by constructor.
    + right. exists (x :: l1), y, l2, it'. repeat split; try done. by constructor.
Qed.

Lemma linked_snoc_previous h y l1 p x it :
  ll_linked h ((y :: l1) ++ [x]) -> last (y :: l1) = Some p -> h !! x = Some it ->
  previous it = Some p.
Proof.
  cbn [ll_linked app]. revert y. induction l1 as [|z l1 IH]; intros y Hb Hp Hx; cbn in *.
  - destruct Hb as [(it' & E & Hpr) _]. congruence.
  - destruct Hb as [_ Hb]. by apply IH with z.
Qed.

Lemma back_chain_prefix h p l1 l2 : back_chain h p (l1 ++ l2) -> back_chain h p l1.
Proof.
  revert p. induction l1 as [|x l1 IH]; intros p; [done|]. cbn. intros [? ?]. eauto.
Qed.

(** ** Runs *)

(** The operations of a client whose items are allocated; [cb] is the callback
    it traverses the list with. *)
Inductive ll_op : Type :=
| OpAdd (d : option D) (i : Z) (junk : option loc * option loc)
| OpGet (i : Z)
| OpRemove (i : Z)
| OpTraverse.

Inductive ll_out (A : Type) : Type :=
| OutErr (e : BmErr)
| OutData (e : BmErr) (d : option (option D))
| OutArg (e : BmErr) (a : A).
Arguments OutErr {A} _.
Arguments OutData {A} _ _.
Arguments OutArg {A} _ _.

Context {A : Type} (cb : option D -> A -> BmErr * A) (arg : A).

Definition ll_step (h : item_heap) (ll : LL) (op : ll_op) : option (ll_out A * item_heap * LL) :=
  match op with
  | OpAdd d i junk =>
      let '(item, h) := ll_create_item (Some (fresh (dom h), junk)) true d i h in
      '(e, ll, h) ← ll_item_add (Some ll) item h;
      ll ← ll; Some (OutErr e, h, ll)
  | OpGet i => '(e, d) ← ll_get_item (Some ll) i h; Some (OutData e d, h, ll)
  | OpRemove i =>
      '(e, ll, h) ← ll_remove (Some ll) i h; ll ← ll; Some (OutErr e, h, ll)
  | OpTraverse =>
      '(e, ll, a) ← ll_traverse (Some ll) (Some cb) arg h; ll ← ll; Some (OutArg e a, h, ll)
  end.

Fixpoint ll_run (h : item_heap) (ll : LL) (ops : list ll_op) : option (list (ll_out A)) :=
  match ops with
  | [] => Some []
  | op :: ops =>
      '(out, h, ll) ← ll_step h ll op;
      outs ← ll_run h ll ops;
      Some (out :: outs)
  end.

(** The same operations on the sequence of ids and data. *)
Fixpoint find_id (i : Z) (es : list (Z * option D)) : option (option D) :=
  match es with
  | [] => None
  | e :: es => if fst e =? i then Some (snd e) else find_id i es
  end.

Definition seq_step (es : list (Z * option D)) (op : ll_op)
    : ll_out A * list (Z * option D) :=
  match op with
  | OpAdd d i _ => (OutErr BmOK, es ++ [(i, d)])
  | OpGet i =>
      (match find_id i es with Some d => OutData BmOK (Some d) | None => OutData BmENODEV None end,
       es)
  | OpRemove i =>
      (OutErr match find_id i es with Some _ => BmOK | None => BmENODEV end, remove_id i es)
  | OpTraverse => let '(e, a) := traverse_data cb (snd <$> es) arg in (OutArg e a, es)
  end.

Fixpoint seq_run (es : list (Z * option D)) (ops : list ll_op) : list (ll_out A) :=
  match ops with
  | [] => []
  | op :: ops => let '(out, es) := seq_step es op in out :: seq_run es ops
  end.

(** No item strictly between the first and the last one is removed. *)
Fixpoint at_last (i : Z) (es : list (Z * option D)) : bool :=
  match es with
  | [] => true
  | e :: es' => if fst e =? i then match es' with [] => true | _ => false end else at_last i es'
  end.

Definition at_end (i : Z) (es : list (Z * option D)) : bool :=
  match es with
  | [] => true
  | e :: es' => (fst e =? i) || at_last i es'
  end.

Fixpoint removes_at_ends (es : list (Z * option D)) (ops : list ll_op) : bool :=
  match ops with
  | [] => true
  | op :: ops =>
      match op with OpRemove i => at_end i es | _ => true end
      && removes_at_ends (snd (seq_step es op)) ops
  end.

Lemma find_id_hit i l1 d l2 :
  Forall (fun e => fst e <> i) l1 -> find_id i (l1 ++ (i, d) :: l2) = Some d.
Proof.
  induction 1 as [|e l1 He _ IH]; cbn; [by rewrite Z.eqb_refl|].
  by destruct (Z.eqb_spec (fst e) i).
Qed.

Lemma find_id_miss i es : Forall (fun e => fst e <> i) es -> find_id i es = None.
Proof.
  induction 1 as [|e es He _ IH]; cbn; [done|]. by destruct (Z.eqb_spec (fst e) i).
Qed.

Lemma at_last_inv i e l1 d l2 :
  Forall (fun e => fst e <> i) (e :: l1) -> at_end i (e :: l1 ++ (i, d) :: l2) = true -> l2 = [].
Proof.
  intros Hf. apply Forall_cons in Hf as [He Hf]. unfold at_end.
  destruct (Z.eqb_spec (fst e) i); [done|]. cbn.
  induction Hf as [|e' l1 He' _ IH]; cbn.
  - rewrite Z.eqb_refl. by destruct l2.
  - by destruct (Z.eqb_spec (fst e') i).
Qed.

Definition ll_inv (h : item_heap) (ll : LL) (es : list (Z * option D)) : Prop :=
  exists xs, ll_seq h ll xs /\ ll_linked h xs /\ entries h xs = es.

Lemma entry_lookup h x it : h !! x = Some it -> entry h x = (id it, data it).
Proof. intros Hx. unfold entry. by rewrite Hx. Qed.

Lemma ll_linked_frame h h' xs :
  ll_linked h xs -> (forall x, x ∈ xs -> previous <$> h' !! x = previous <$> h !! x) ->
  ll_linked h' xs.
Proof.
  destruct xs as [|x xs]; [done|]. cbn. intros Hb Hf.
  apply back_chain_frame with h; [done|]. intros y Hy. apply Hf. by right.
Qed.

Lemma ll_remove_refines h ll es i :
  ll_inv h ll es -> at_end i es = true ->
  exists ll' h',
    ll_remove (Some ll) i h
      = Some (match find_id i es with Some _ => BmOK | None => BmENODEV end, Some ll', h')
    /\ ll_inv h' ll' (remove_id i es).
Proof.
  intros (xs & Hs & Hl & <-) Hend.
  destruct (split_at_id h ll xs i Hs) as [Hm|(l1 & x & l2 & it & -> & Hx & <- & Hn)].
  - rewrite (ll_remove_miss h ll xs i Hs Hm), find_id_miss, remove_id_miss by done.
    do 2 eexists. split; [done|]. by exists xs.
  - rewrite entries_app in *. cbn [entries fmap list_fmap] in *. rewrite (entry_lookup h x it Hx) in *.
    fold (entries h l2) in *. rewrite find_id_hit, remove_id_hit by done.
    pose proof (ls_nodup _ _ _ Hs) as Hnd. apply NoDup_app in Hnd as (Hnd1 & Hdis & Hnd2).
    apply NoDup_cons in Hnd2 as [Hxl2 _].
    destruct l1 as [|p l1 _] using rev_ind.
    + destruct (ll_remove_head h ll x l2 it Hs Hx) as (-> & Hs' & Hl').
      do 2 eexists. split; [done|]. exists l2. split_and!; [done|by apply Hl'|].
      cbn. apply entries_frame. intros y Hy. rewrite freed_ne by congruence. done.
    + assert (l2 = []) as ->.
      { destruct (entries h (l1 ++ [p])) as [|e es] eqn:E.
        - apply (f_equal length) in E. unfold entries in E.
          rewrite length_fmap, length_app in E. cbn in E. lia.
        - apply (at_last_inv _ e es _ _ Hn) in Hend. by destruct l2. }
      assert (Hpx : p <> x).
      { intros ->. apply (Hdis x); [apply elem_of_app; right|]; by left. }
      assert (Hxl1 : x ∉ l1).
      { intros Hin. apply (Hdis x); [apply elem_of_app; by left|by left]. }
      assert (Hpl1 : p ∉ l1).
      { apply NoDup_app in Hnd1 as (_ & Hd & _). intros Hin. apply (Hd p Hin). by left. }
      destruct (ll_remove_inner h ll l1 p x [] it Hs Hx Hn) as (h' & ll' & -> & _ & Hs' & Ho & Hp & _).
      { intros _. destruct l1 as [|z l1]; cbn in Hl.
        - destruct Hl as [(it' & E & Hpr) _]. congruence.
        - apply (linked_snoc_previous h z (l1 ++ [p]) p x it); [done| |done].
          by rewrite app_comm_cons, last_snoc. }
      rewrite app_nil_r in *. assert (Hfr : forall y, y ∈ l1 ++ [p] ->
        h' !! y = h !! y \/ (y = p /\ h' !! y = set_next (next it) <$> h !! y)).
      { intros y Hy. apply elem_of_app in Hy as [Hy|Hy].
        - left. apply Ho; congruence.
        - apply list_elem_of_singleton in Hy as ->. by right. }
      do 2 eexists. split; [done|]. exists (l1 ++ [p]). split_and!; [done| |].
      * apply ll_linked_frame with h.
        -- destruct (l1 ++ [p]); [done|]. by apply back_chain_prefix in Hl.
        -- intros y Hy. destruct (Hfr y Hy) as [->|[-> ->]]; [done|]. by destruct (h !! p).
      * apply entries_frame. intros y Hy.
        destruct (Hfr y Hy) as [->|[-> ->]]; [done|]. by destruct (h !! p).
Qed.

(** In a list of at most two items every item is at an end. *)
Lemma at_end_short i es : (length es <= 2)%nat -> at_end i es = true.
Proof.
  intros Hl. destruct es as [|a [|b [|]]]; cbn in *; [done| | |lia].
  - apply orb_true_r.
  - destruct (fst b =? i); apply orb_true_r.
Qed.

Lemma find_id_none i es : find_id i es = None -> Forall (fun e => fst e <> i) es.
Proof.
  induction es as [|e es IH]; [constructor|]. cbn. destruct (Z.eqb_spec (fst e) i); [done|].
  intros Hf. constructor; auto.
Qed.

(** A new id at the end of the list. *)
Lemma find_id_snoc i d es : find_id i es = None -> find_id i (es ++ [(i, d)]) = Some d.
Proof. intros Hf. by apply find_id_hit, find_id_none. Qed.

Lemma remove_id_snoc i d es : find_id i es = None -> remove_id i (es ++ [(i, d)]) = es.
Proof. intros Hf. rewrite remove_id_hit by (by apply find_id_none). apply app_nil_r. Qed.

Lemma at_end_snoc i d es : find_id i es = None -> at_end i (es ++ [(i, d)]) = true.
Proof.
  intros Hf. apply find_id_none in Hf. destruct Hf as [|e es He Hes]; cbn.
  - by rewrite Z.eqb_refl.
  - apply orb_true_iff. right. clear He.
    induction Hes as [|e' es He' _ IH]; cbn; [by rewrite Z.eqb_refl|].
    by destruct (Z.eqb_spec (fst e') i).
Qed.

Lemma ll_get_refines h ll es i :
  ll_inv h ll es ->
  ll_get_item (Some ll) i h
  = Some (match find_id i es with Some d => (BmOK, Some d) | None => (BmENODEV, None) end).
Proof.
  intros (xs & Hs & _ & <-).
  destruct (split_at_id h ll xs i Hs) as [Hm|(l1 & x & l2 & it & -> & Hx & <- & Hn)].
  - by rewrite (ll_get_item_miss h ll xs i Hs Hm), find_id_miss.
  - rewrite (ll_get_item_hit h ll l1 x l2 it Hs Hx Hn), entries_app.
    cbn [entries fmap list_fmap]. rewrite (entry_lookup h x it Hx).
    by rewrite find_id_hit.
Qed.

Lemma ll_traverse_refines h ll es :
  ll_inv h ll es ->
  exists ll', ll_traverse (Some ll) (Some cb) arg h
    = Some (fst (traverse_data cb (snd <$> es) arg), Some ll',
            snd (traverse_data cb (snd <$> es) arg))
    /\ ll_inv h ll' es.
Proof.
  intros (xs & Hs & Hl & <-). unfold ll_traverse.
  pose proof (chain_size _ _ _ (ls_chain _ _ _ Hs) (ls_nodup _ _ _ Hs)) as Hsz.
  destruct xs as [|x xs].
  - pose proof (ls_chain _ _ _ Hs) as Hc. cbn in Hc.
    unfold ll_fuel, ll_reset_cursor, ll_traverse_loop, ll_advance_cursor. cbn. rewrite Hc. cbn.
    eexists. split; [done|]. exists []. destruct Hs. by split_and!.
  - destruct (ll_traverse_loop_spec (ll_fuel h) cb arg h (ll_reset_cursor ll) x xs)
      as [c E]; [exact (ls_chain _ _ _ Hs)|unfold ll_fuel; lia|].
    rewrite E. cbn [mbind option_bind]. eexists. split; [done|].
    exists (x :: xs). destruct Hs. split_and!; [by split|done|done].
Qed.

(** A new item is added to the list, wherever the allocator puts it. *)
Lemma ll_create_add_refines h ll es l jn jp d i :
  ll_inv h ll es -> h !! l = None ->
  exists ll' h',
    ll_item_add (Some ll) (Some l) (<[l := MkLLItem jn jp d i true]> h) = Some (BmOK, Some ll', h')
    /\ ll_inv h' ll' (es ++ [(i, d)]).
Proof.
  intros (xs & Hs & Hl & <-) Hfr.
  set (it := MkLLItem jn jp d i true). set (h1 := <[l := it]> h).
  assert (Hxs : l ∉ xs).
  { intros Hin. destruct (chain_lookup _ _ _ _ (ls_chain _ _ _ Hs) Hin). congruence. }
  assert (Hsame : forall y, y ∈ xs -> h1 !! y = h !! y).
  { intros y Hy. unfold h1. rewrite lookup_insert_ne; congruence. }
  assert (Hs1 : ll_seq h1 ll xs) by (destruct Hs; split; eauto using chain_frame).
  assert (Hl1 : ll_linked h1 xs)
    by (apply ll_linked_frame with h; [done|]; intros y Hy; by rewrite Hsame).
  destruct (ll_item_add_spec h1 ll xs l it Hs1 Hxs) as (h' & ll' & E & _ & Hs' & Hl' & He & _);
    [unfold h1; by rewrite lookup_insert_eq|].
  do 2 eexists. split; [done|].
  exists (xs ++ [l]). split_and!; [done|by apply Hl'|]. rewrite He. f_equal.
  apply entries_frame. intros y Hy. by rewrite Hsame.
Qed.

Lemma ll_add_refines h ll es d i junk :
  ll_inv h ll es ->
  exists ll' h',
    ll_step h ll (OpAdd d i junk) = Some (OutErr BmOK, h', ll')
    /\ ll_inv h' ll' (es ++ [(i, d)]).
Proof.
  intros Hinv. destruct junk as [jn jp]. cbn [ll_step]. rewrite ll_create_item_fresh.
  destruct (ll_create_add_refines h ll es (fresh (dom h)) jn jp d i Hinv) as (ll' & h' & E & ?);
    [apply not_elem_of_dom, is_fresh|].
  rewrite E. cbn [mbind option_bind]. eauto.
Qed.

Lemma ll_step_refines h ll es op :
  ll_inv h ll es -> match op with OpRemove i => at_end i es = true | _ => True end ->
  exists h' ll', ll_step h ll op = Some (fst (seq_step es op), h', ll')
    /\ ll_inv h' ll' (snd (seq_step es op)).
Proof.
  intros Hinv Hop. destruct op as [d i junk|i|i|]; cbn [seq_step].
  - destruct (ll_add_refines h ll es d i junk Hinv) as (ll' & h' & ? & ?). eauto.
  - cbn [ll_step]. rewrite (ll_get_refines h ll es i Hinv).
    exists h, ll. split; [|done]. by destruct (find_id i es).
  - destruct (ll_remove_refines h ll es i Hinv Hop) as (ll' & h' & E & ?).
    cbn [ll_step]. rewrite E. cbn. eauto.
  - destruct (ll_traverse_refines h ll es Hinv) as (ll' & E & ?).
    cbn [ll_step]. rewrite E. destruct (traverse_data _ _ _). cbn. eauto.
Qed.

Lemma ll_inv_empty h : ll_inv h LL_empty [].
Proof. exists []. split_and!; [|done..]. split; cbn; [done|constructor|done]. Qed.

(** C10: the linked list refines a sequence of ids and data: from an empty list,
    any run of additions, look-ups, traversals and removals accesses no item
    that does not exist and answers as the sequence does, provided that no item
    strictly between the first and the last one is removed. *)
Theorem ll_refines_sequence h ops :
  removes_at_ends [] ops = true ->
  ll_run h LL_empty ops = Some (seq_run [] ops).
Proof.
  pose proof (ll_inv_empty h) as Hinv. revert Hinv. generalize (@nil (Z * option D)), LL_empty, h.
  induction ops as [|op ops IH]; intros es ll h0 Hinv Hends; [done|].
  cbn [removes_at_ends] in Hends. apply andb_true_iff in Hends as [Hop Hends].
  destruct (ll_step_refines h0 ll es op Hinv) as (h' & ll' & E & Hinv'); [by destruct op|].
  cbn [ll_run seq_run]. rewrite E. cbn [mbind option_bind].
  destruct (seq_step es op) as [out es']. cbn [fst snd] in *.
  by rewrite (IH es' ll' h' Hinv' Hends).
Qed.
End linked_list.

Arguments LLItem : clear implicits.

Abbreviation item_heap D := (gmap loc (LLItem D)).

#[global] Arguments ll_create_item : simpl never.
#[global] Arguments ll_item_add : simpl never.
#[global] Arguments ll_get_item : simpl never.
#[global] Arguments ll_remove : simpl never.
#[global] Arguments ll_traverse : simpl never.

Arguments OutErr {D A} _.
Arguments OutData {D A} _ _.
Arguments OutArg {D A} _ _.

(** A callback that adds the data up. *)
Definition sum_cb (d : option Z) (a : Z) : BmErr * Z := (BmOK, a + default 0 d).

Definition sample_ops : list (@ll_op Z) :=
  [OpAdd (Some 10) 1 (Some 7%positive, None); OpAdd (Some 20) 2 (None, None); OpTraverse;
   OpAdd (Some 30) 3 (None, None); OpGet 3; OpRemove 3; OpRemove 1; OpGet 1; OpTraverse;
   OpAdd None 4 (None, None); OpRemove 4; OpRemove 2; OpRemove 2].

Lemma ll_refines_sequence_witness :
  removes_at_ends sum_cb 0 [] sample_ops = true
  /\ ll_run sum_cb 0 ∅ LL_empty sample_ops = Some (seq_run sum_cb 0 [] sample_ops).
Proof.
  split; [reflexivity|]. apply (ll_refines_sequence sum_cb 0 ∅ sample_ops). reflexivity.
Defined.

(** The heap and the list after a run. *)
Definition ll_after {D A} (cb : option D -> A -> BmErr * A) (arg : A) (ops : list (@ll_op D))
    : option (item_heap D * LL) :=
  foldl (fun st op => '(h, ll) ← st; '(_, h, ll) ← ll_step cb arg h ll op; Some (h, ll))
        (Some (∅, LL_empty)) ops.

(** [ll_remove] does not restore the back link of the item that follows: when
    the middle one of three items is removed and then the last one, [tail]
    points to the freed middle item, to which the next addition writes. *)
Example ll_remove_dangling_tail :
  exists h ll l,
    ll_after sum_cb 0
      [OpAdd None 1 (None, None); OpAdd None 2 (None, None); OpAdd None 3 (None, None);
       OpRemove 2; OpRemove 3] = Some (h, ll)
    /\ is_Some (head ll) /\ tail ll = Some l /\ h !! l = None.
Proof. do 3 eexists. split; [vm_compute; reflexivity|]. vm_compute. eauto. Qed.
