(* ===== verification/SList.v ===== *)
(** * Singly linked lists in memory

    The tables of src/bcmp/resource_discovery.c, src/middleware/pubsub.c and
    src/bcmp/neighbors.c are chains of nodes, which the code walks from a first
    pointer on.  A node is a location of a heap; [next_of] is its link. *)
From S2P Require Import Prelude LinkedList.

Section slist.
Context {N : Type} (next_of : N -> option loc).

(** ** Walks

    [None]: a link is dangling, or the fuel is used up. *)

(** The nodes that a loop from [p] visits. *)
Fixpoint nodes_loop (fuel : nat) (h : gmap loc N) (p : option loc) : option (list (loc * N)) :=
  match fuel, p with
  | O, _ => None
  | S _, None => Some []
  | S fuel, Some l => n ← h !! l; ns ← nodes_loop fuel h (next_of n); Some ((l, n) :: ns)
  end.

Definition walk_fuel (h : gmap loc N) : nat := S (size h).
Definition nodes (h : gmap loc N) (p : option loc) : option (list (loc * N)) :=
  nodes_loop (walk_fuel h) h p.

(** The first node that passes the test, and the one before it, which is [prev]
    for the first node. *)
Fixpoint find_loop (fuel : nat) (h : gmap loc N) (test : N -> option bool) (prev p : option loc)
    : option (option loc * option loc) :=
  match fuel, p with
  | O, _ => None
  | S _, None => Some (prev, None)
  | S fuel, Some l =>
      n ← h !! l; b ← test n;
      if b : bool then Some (prev, p) else find_loop fuel h test p (next_of n)
  end.

Definition find_node (h : gmap loc N) (test : N -> option bool) (p : option loc)
    : option (option loc * option loc) := find_loop (walk_fuel h) h test None p.

(** ** Segments: the nodes [xs] lead from [p] to [q] *)

Fixpoint segment (h : gmap loc N) (p q : option loc) (xs : list (loc * N)) : Prop :=
  match xs with
  | [] => p = q
  | (l, n) :: xs => p = Some l /\ h !! l = Some n /\ segment h (next_of n) q xs
  end.

Record slist (h : gmap loc N) (p : option loc) (xs : list (loc * N)) : Prop := {
  sl_segment : segment h p None xs;
  sl_nodup : NoDup xs.*1
}.

Lemma segment_app h p q xs ys :
  segment h p q (xs ++ ys) <-> exists r, segment h p r xs /\ segment h r q ys.
Proof.
  revert p. induction xs as [|[l n] xs IH]; intros p; cbn.
  - split; [by exists p|]. by intros (r & -> & ?).
  - rewrite IH. split.
    + intros (-> & Hl & r & H1 & H2). eauto 6.
    + intros (r & (-> & Hl & H1) & H2). eauto 6.
Qed.

Lemma segment_lookup h p q xs l n : segment h p q xs -> (l, n) ∈ xs -> h !! l = Some n.
Proof.
  revert p. induction xs as [|[l' n'] xs IH]; intros p Hs Hx; [by apply not_elem_of_nil in Hx|].
  destruct Hs as (_ & Hl & Hs). apply elem_of_cons in Hx as [[= -> ->]|Hx]; eauto.
Qed.

Lemma segment_frame h h' p q xs :
  segment h p q xs -> (forall l, l ∈ xs.*1 -> h' !! l = h !! l) -> segment h' p q xs.
Proof.
  revert p. induction xs as [|[l n] xs IH]; intros p; [done|]. intros (-> & Hl & Hs) Hf.
  split_and!; [done| |].
  - rewrite Hf; [done|]. by left.
  - apply IH; [done|]. intros l' Hl'. apply Hf. by right.
Qed.

Lemma slist_size h p xs : slist h p xs -> (length xs <= size h)%nat.
Proof.
  intros [Hs Hn]. rewrite <- (length_fmap fst).
  rewrite <- (size_list_to_set (C := gset loc) xs.*1 Hn), <- (size_dom (D := gset loc) h).
  apply subseteq_size. intros l Hl. apply elem_of_list_to_set, list_elem_of_fmap in Hl as ([? n] & -> & Hx).
  apply elem_of_dom. exists n. by eapply segment_lookup.
Qed.

Lemma slist_fresh h p xs l : slist h p xs -> h !! l = None -> l ∉ xs.*1.
Proof.
  intros [Hs _] Hl Hx. apply list_elem_of_fmap in Hx as ([? n] & -> & Hx).
  apply (segment_lookup _ _ _ _ _ _ Hs) in Hx. cbn in Hl. congruence.
Qed.

Lemma nodes_spec h p xs : slist h p xs -> nodes h p = Some xs.
Proof.
  intros H. pose proof (slist_size _ _ _ H) as Hsz. destruct H as [H _].
  unfold nodes, walk_fuel. assert (Hf : (length xs < S (size h))%nat) by lia. revert Hf.
  generalize (S (size h)) as fuel. clear Hsz. revert p H.
  induction xs as [|[l n] xs IH]; intros p Hs [|fuel] Hf; cbn in Hf; try lia.
  - cbn in Hs. by subst.
  - destruct Hs as (-> & Hl & Hs). cbn. rewrite Hl. cbn. rewrite (IH _ Hs) by lia. done.
Qed.

(** The search stops at the first node that passes. *)
Lemma find_loop_spec fuel h test prev p xs :
  segment h p None xs -> (length xs < fuel)%nat ->
  forall ys, (forall l n, (l, n) ∈ ys -> test n = Some false) ->
  (xs = ys -> find_loop fuel h test prev p = Some (last (option_list prev ++ ys.*1), None))
  /\ (forall l n zs, xs = ys ++ (l, n) :: zs -> test n = Some true ->
        find_loop fuel h test prev p = Some (last (option_list prev ++ ys.*1), Some l)).
Proof.
  revert prev p xs. induction fuel as [|fuel IH]; intros prev p xs Hs Hf ys Hys; [lia|]. split.
  - intros ->. destruct ys as [|[l n] ys]; cbn in Hs, Hf |- *; [subst; by destruct prev|].
    destruct Hs as (-> & Hl & Hs). rewrite Hl. cbn. rewrite (Hys l n) by (by left). cbn.
    destruct (IH (Some l) _ _ Hs ltac:(lia) ys) as [E _].
    + intros l' n' H. apply (Hys l' n'). by right.
    + rewrite E by done. by destruct prev.
  - intros l n zs -> Hn. destruct ys as [|[l' n'] ys]; cbn in Hs, Hf |- *.
    + destruct Hs as (-> & Hl & Hs). rewrite Hl. cbn. rewrite Hn. by destruct prev.
    + destruct Hs as (-> & Hl & Hs). rewrite Hl. cbn. rewrite (Hys l' n') by (by left). cbn.
      destruct (IH (Some l') _ _ Hs ltac:(lia) ys) as [_ E].
      * intros l1 n1 H. apply (Hys l1 n1). by right.
      * rewrite (E l n zs) by done. by destruct prev.
Qed.

Lemma find_node_miss h test p xs :
  slist h p xs -> (forall l n, (l, n) ∈ xs -> test n = Some false) ->
  find_node h test p = Some (last xs.*1, None).
Proof.
  intros H Ht. pose proof (slist_size _ _ _ H).
  by destruct (find_loop_spec (walk_fuel h) h test None p xs (sl_segment _ _ _ H)
    ltac:(unfold walk_fuel; lia) xs Ht) as [E _]; apply E.
Qed.

Lemma find_node_hit h test p xs l n ys :
  slist h p (xs ++ (l, n) :: ys) -> (forall l n, (l, n) ∈ xs -> test n = Some false) ->
  test n = Some true -> find_node h test p = Some (last xs.*1, Some l).
Proof.
  intros H Ht Hn. pose proof (slist_size _ _ _ H).
  by destruct (find_loop_spec (walk_fuel h) h test None p _ (sl_segment _ _ _ H)
    ltac:(unfold walk_fuel; lia) xs Ht) as [_ E]; eapply E.
Qed.

(** A test that goes wrong nowhere: something is found, or the test fails for all. *)
Lemma find_node_total h test f p xs :
  slist h p xs -> (forall l n, (l, n) ∈ xs -> test n = Some (f n)) ->
  exists prev ptr, find_node h test p = Some (prev, ptr)
    /\ (ptr = None -> forall l n, (l, n) ∈ xs -> f n = false).
Proof.
  intros H Ht. destruct (list_find (fun x => f (snd x) = true) xs) as [[i [l n]]|] eqn:E.
  - apply list_find_Some in E as (Hi & Hn & Hbefore). eexists _, (Some l). split; [|done].
    rewrite <- (take_drop_middle _ _ _ Hi) in H. eapply find_node_hit; [exact H| |].
    + intros l' n' Hx. pose proof Hx as Hx'. apply list_elem_of_lookup_1 in Hx' as [j Hj].
      apply lookup_take_Some in Hj as [Hj Hlt]. rewrite (Ht l' n') by (by eapply list_elem_of_lookup_2).
      specialize (Hbefore j _ Hj Hlt). cbn in Hbefore. by destruct (f n').
    + rewrite (Ht l n) by (by eapply list_elem_of_lookup_2). cbn in Hn. by rewrite Hn.
  - apply list_find_None in E. rewrite Forall_forall in E.
    assert (Hf : forall l n, (l, n) ∈ xs -> f n = false).
    { intros l n Hx. specialize (E _ Hx). cbn in E. by destruct (f n). }
    eexists _, None. split; [|done]. eapply find_node_miss; [exact H|].
    intros l n Hx. rewrite (Ht l n Hx). by rewrite (Hf l n Hx).
Qed.

(** ** Changes *)

(** A fresh node elsewhere. *)
Lemma slist_insert h p xs l n : slist h p xs -> l ∉ xs.*1 -> slist (<[l := n]> h) p xs.
Proof.
  intros [Hs Hn] Hl. split; [|done]. eapply segment_frame; [done|].
  intros l' Hl'. rewrite lookup_insert_ne; [done|]. by intros ->.
Qed.

(** Links after a node: the list up to it is kept, its next link is changed. *)
Lemma slist_relink h p xs l n zs n' h' ws :
  slist h p (xs ++ (l, n) :: zs) ->
  h' !! l = Some n' -> (forall l', l' ∈ xs.*1 -> h' !! l' = h !! l') ->
  segment h' (next_of n') None ws -> NoDup (xs.*1 ++ l :: ws.*1) ->
  slist h' p (xs ++ (l, n') :: ws).
Proof.
  intros [Hs _] Hl Hf Hw Hnd. apply segment_app in Hs as (r & H1 & -> & Hl0 & _).
  split; [|by rewrite fmap_app].
  apply segment_app. exists (Some l). split; [by eapply segment_frame|]. done.
Qed.
(** A new node at the end. *)
Lemma slist_snoc h p xs e n l n' m :
  slist h p (xs ++ [(e, n)]) -> h !! l = None -> next_of n' = Some l -> next_of m = None ->
  slist (<[e := n']> (<[l := m]> h)) p (xs ++ [(e, n'); (l, m)]).
Proof.
  intros Hs Hl Hn' Hm. pose proof (slist_fresh _ _ _ _ Hs Hl) as Hlx.
  pose proof (sl_nodup _ _ _ Hs) as Hnd. rewrite fmap_app in Hlx, Hnd. cbn in Hlx, Hnd.
  assert (Hle : l <> e) by (intros ->; apply Hlx, elem_of_app; right; by left).
  eapply slist_relink; [exact Hs|by rewrite lookup_insert_eq| | |].
  - intros l' Hl'. rewrite !lookup_insert_ne; [done| |].
    + intros <-. apply Hlx, elem_of_app. by left.
    + intros <-. apply NoDup_app in Hnd as (_ & Hnd & _). apply (Hnd e Hl'). by left.
  - rewrite Hn'. cbn. by rewrite lookup_insert_ne, lookup_insert_eq by done.
  - cbn. change [e; l] with ([e] ++ [l]). rewrite app_assoc. apply NoDup_app.
    split_and!; [done| |apply NoDup_singleton]. by intros x Hx ->%list_elem_of_singleton.
Qed.

Lemma slist_one h l m : next_of m = None -> slist (<[l := m]> h) (Some l) [(l, m)].
Proof.
  intros Hm. split; [|apply NoDup_singleton]. cbn. by rewrite lookup_insert_eq.
Qed.

(** A node goes. *)
Lemma slist_delete_head h l n xs : slist h (Some l) ((l, n) :: xs) -> slist (delete l h) (next_of n) xs.
Proof.
  intros [(_ & _ & Hs) Hn]. cbn in Hn. apply NoDup_cons in Hn as [Hl Hn]. split; [|done].
  eapply segment_frame; [done|]. intros l' Hl'. rewrite lookup_delete_ne; [done|]. by intros ->.
Qed.

Lemma slist_delete h p xs e m l n m' ys :
  slist h p (xs ++ (e, m) :: (l, n) :: ys) -> next_of m' = next_of n ->
  slist (delete l (<[e := m']> h)) p (xs ++ (e, m') :: ys).
Proof.
  intros Hs Hm'. pose proof (sl_nodup _ _ _ Hs) as Hnd. rewrite fmap_app in Hnd. cbn in Hnd.
  apply NoDup_app in Hnd as (H1 & H2 & H3). apply NoDup_cons in H3 as [H3 H4].
  apply NoDup_cons in H4 as [H4 H5]. rewrite not_elem_of_cons in H3.
  pose proof (sl_segment _ _ _ Hs) as Hseg. apply segment_app in Hseg as (r & _ & -> & _ & _ & _ & Hseg).
  eapply slist_relink; [exact Hs|rewrite lookup_delete_ne by naive_solver; by rewrite lookup_insert_eq| | |].
  - intros l' Hl'. rewrite lookup_delete_ne, lookup_insert_ne; [done| |].
    + intros <-. apply (H2 e Hl'). by left.
    + intros <-. apply (H2 l Hl'). right. by left.
  - rewrite Hm'. eapply segment_frame; [done|]. intros l' Hl'.
    rewrite lookup_delete_ne, lookup_insert_ne; [done| |].
    + intros <-. by apply H3.
    + by intros ->.
  - apply NoDup_app. split_and!; [done| |].
    + intros x Hx [->|Hy]%elem_of_cons; [apply (H2 e Hx); by left|].
      apply (H2 x Hx). right. by right.
    + apply NoDup_cons. split; [naive_solver|done].
Qed.

(** A node that keeps its link. *)
Lemma slist_update h p xs l n ys n' :
  slist h p (xs ++ (l, n) :: ys) -> next_of n' = next_of n ->
  slist (<[l := n']> h) p (xs ++ (l, n') :: ys).
Proof.
  intros Hs Hn'. pose proof (sl_nodup _ _ _ Hs) as Hnd. rewrite fmap_app in Hnd. cbn in Hnd.
  pose proof Hnd as (_ & H2 & [H3 _]%NoDup_cons)%NoDup_app.
  pose proof (sl_segment _ _ _ Hs) as (r & _ & -> & _ & Hseg)%segment_app.
  eapply slist_relink; [exact Hs|by rewrite lookup_insert_eq| | |exact Hnd].
  - intros l' Hl'. rewrite lookup_insert_ne; [done|]. intros <-. apply (H2 l Hl'). by left.
  - rewrite Hn'. eapply segment_frame; [done|]. intros l' Hl'. rewrite lookup_insert_ne; [done|].
    by intros ->.
Qed.

Lemma slist_head h p l n xs : slist h p ((l, n) :: xs) -> p = Some l.
Proof. by intros [[-> _] _]. Qed.

Lemma slist_lookup h p xs l n : slist h p xs -> (l, n) ∈ xs -> h !! l = Some n.
Proof. intros [Hs _]. by eapply segment_lookup. Qed.

Lemma slist_frame h h' p xs :
  slist h p xs -> (forall l, l ∈ xs.*1 -> h' !! l = h !! l) -> slist h' p xs.
Proof. intros [Hs Hn] Hf. split; [by eapply segment_frame|done]. Qed.
(** *** Nodes that only get another link

    [upd] sets the link of a node. *)
Definition relinked (upd : N -> N) (xs ys : list (loc * N)) : Prop :=
  Forall2 (fun x y => y = x \/ y = (fst x, upd (snd x))) xs ys.

Lemma relinked_refl upd xs : relinked upd xs xs.
Proof. apply Forall_Forall2_diag, Forall_true. by left. Qed.

(** What the nodes stand for stays when it does not depend on the link. *)
Lemma relinked_Forall2 {B} (P : loc * N -> B -> Prop) upd xs ys zs :
  relinked upd xs ys -> (forall x b, P x b -> P (fst x, upd (snd x)) b) -> Forall2 P xs zs -> Forall2 P ys zs.
Proof.
  intros Hr HP. revert zs. induction Hr as [|x y xs ys [->| ->] _ IH]; intros zs H; inversion H; subst;
    constructor; auto.
Qed.

Lemma relinked_last upd xs e n : relinked upd (xs ++ [(e, n)]) (xs ++ [(e, upd n)]).
Proof. apply Forall2_app; [apply relinked_refl|]. constructor; [by right|constructor]. Qed.

Lemma slist_append h p xs l m upd :
  slist h p xs -> h !! l = None -> next_of m = None -> (forall k, next_of (upd k) = Some l) ->
  exists p' h' ys, slist h' p' (ys ++ [(l, m)]) /\ relinked upd xs ys
    /\ match p with
       | None => p' = Some l /\ h' = <[l := m]> h
       | Some _ => p' = p /\ exists e k, nodes (<[l := m]> h) p = Some xs /\ last xs = Some (e, k)
           /\ h' = <[e := upd k]> (<[l := m]> h)
       end.
Proof.
  intros Hs Hl Hm Hu. pose proof (slist_fresh _ _ _ _ Hs Hl) as Hlx.
  pose proof (nodes_spec _ _ _ (slist_insert _ _ _ _ m Hs Hlx)) as En.
  destruct xs as [|[e k] xs _] using rev_ind.
  - destruct Hs as [Hs _]. cbn in Hs. subst p. eexists _, _, []. split; [by apply slist_one|].
    split; [by constructor|done].
  - destruct p as [q|]; [|destruct Hs as [Hs _]; destruct xs as [|[? ?] ?]; cbn in Hs; naive_solver].
    eexists _, _, (xs ++ [(e, upd k)]). split; [|split; [apply relinked_last|split; [reflexivity|]]].
    + rewrite <- app_assoc. cbn [app]. by eapply slist_snoc.
    + exists e, k. split; [exact En|]. split; [by rewrite last_snoc|done].
Qed.

Lemma slist_unlink h p xs l n ys upd :
  slist h p (xs ++ (l, n) :: ys) -> (forall k, next_of (upd k) = next_of n) ->
  h !! l = Some n
  /\ exists p' h' zs, slist h' p' (zs ++ ys) /\ relinked upd xs zs
    /\ (forall c, c ∉ l :: xs.*1 -> h' !! c = h !! c)
    /\ match last xs.*1 with
       | None => p = Some l /\ p' = next_of n /\ h' = delete l h
       | Some q => p <> Some l /\ p' = p /\ exists k, h !! q = Some k /\ next_of k = Some l
           /\ h' = delete l (<[q := upd k]> h)
       end.
Proof.
  intros Hs Hu. split; [eapply slist_lookup; [exact Hs|]; rewrite elem_of_app, elem_of_cons; tauto|].
  destruct xs as [|[q k] xs _] using rev_ind.
  - pose proof (slist_head _ _ _ _ _ Hs) as Hp. cbn [app] in Hs. rewrite Hp in Hs.
    eexists _, _, []. split; [by eapply slist_delete_head|]. split; [by constructor|]. split; [|done].
    intros c Hc. rewrite lookup_delete_ne; [done|]. intros ->. apply Hc. by left.
  - rewrite <- app_assoc in Hs. cbn [app] in Hs.
    assert (last (xs ++ [(q, k)]).*1 = Some q) as -> by (rewrite fmap_app; apply last_snoc).
    eexists _, _, (xs ++ [(q, upd k)]). split; [|split; [apply relinked_last|split; [|split; [|split; [reflexivity|exists k; split; [|split; [|reflexivity]]]]]]].
    + rewrite <- app_assoc. cbn [app]. by eapply slist_delete.
    + intros c Hc. rewrite fmap_app in Hc. cbn in Hc. rewrite not_elem_of_cons, not_elem_of_app, list_elem_of_singleton in Hc.
      rewrite lookup_delete_ne, lookup_insert_ne; [done|naive_solver..].
    + intros ->. pose proof (sl_nodup _ _ _ Hs) as Hnd. pose proof (sl_segment _ _ _ Hs) as Hseg.
      destruct xs as [|[l' n'] xs]; cbn in Hseg, Hnd.
      * destruct Hseg as ([= <-] & _). rewrite NoDup_cons, elem_of_cons in Hnd. tauto.
      * destruct Hseg as ([= <-] & _). rewrite fmap_app in Hnd. cbn in Hnd.
        rewrite NoDup_cons, elem_of_app, !elem_of_cons in Hnd. tauto.
    + eapply slist_lookup; [exact Hs|]. rewrite elem_of_app. right. by left.
    + destruct Hs as [Hs _]. apply segment_app in Hs as (r & _ & _ & _ & Hs). by destruct Hs as [Hs _].
Qed.

(** The node before another one is the first whose link leads to it. *)
Lemma slist_find_prev h p xs q k l n ys :
  slist h p (xs ++ (q, k) :: (l, n) :: ys) ->
  find_node h (fun m => Some (bool_decide (next_of m = Some l))) p = Some (last xs.*1, Some q).
Proof.
  intros Hs. pose proof (sl_nodup _ _ _ Hs) as Hnd. pose proof (sl_segment _ _ _ Hs) as Hseg.
  eapply find_node_hit; [exact Hs| |].
  - intros l' n' Hx. rewrite bool_decide_eq_false_2; [done|]. intros Hl.
    apply list_elem_of_split in Hx as (us & zs & ->). rewrite <- app_assoc in Hseg. cbn in Hseg.
    apply segment_app in Hseg as (r & _ & -> & _ & Hseg). rewrite Hl in Hseg.
    assert (Hin : l ∈ (zs ++ [(q, k)]).*1).
    { destruct zs as [|[z m] zs]; destruct Hseg as ([= <-] & _); rewrite fmap_app; [by apply elem_of_app; right; left|].
      by left. }
    rewrite <- app_assoc, !fmap_app in Hnd. cbn in Hnd. rewrite fmap_app in Hin.
    apply NoDup_app in Hnd as (_ & _ & Hnd). apply NoDup_cons in Hnd as [_ Hnd].
    change (q :: l :: ys.*1) with ([q] ++ (l :: ys.*1)) in Hnd. rewrite app_assoc in Hnd.
    apply NoDup_app in Hnd as (_ & Hnd & _). apply (Hnd l Hin). by left.
  - apply segment_app in Hseg as (r & _ & -> & _ & Hr & _). by rewrite bool_decide_eq_true_2.
Qed.

(** Links lead to what follows. *)
Lemma slist_start h p xs : slist h p xs -> p = fst <$> hd_error xs.
Proof. intros [Hs _]. destruct xs as [|[l n] xs]; [done|]. by destruct Hs. Qed.

Lemma slist_next h p xs l n ys : slist h p (xs ++ (l, n) :: ys) -> next_of n = fst <$> hd_error ys.
Proof.
  intros [(r & _ & _ & _ & Hs)%segment_app _]. destruct ys as [|[l' n'] ys]; [done|]. by destruct Hs.
Qed.

(** What a function that does not look at links says of the nodes. *)
Lemma relinked_fmap {B} (f : N -> B) upd xs ys :
  relinked upd xs ys -> (forall k, f (upd k) = f k) -> f <$> ys.*2 = f <$> xs.*2.
Proof.
  intros Hr Hf. induction Hr as [|x y xs ys [->| ->] _ IH]; [done| |]; cbn; rewrite IH; [done|]. by rewrite Hf.
Qed.
End slist.
Arguments nodes {N} next_of h p. Arguments find_node {N} next_of h test p.
Arguments slist {N} next_of h p xs. Arguments relinked {N} upd xs ys. Arguments segment {N} next_of h p q xs.
