(* ===== verification/CbQueue.v ===== *)
(** * Callback queue: src/common/cb_queue.c

    A queue of callbacks on top of the linked list: the add and get counters
    number the items, and the queue refines a first-in first-out queue. *)
From S2P Require Import Prelude LinkedList.

Section cb_queue.
(** Callbacks, and what a callback does to the state its argument points to. *)
Context {Cb St : Type} (call : Cb -> St -> BmErr * St).

(** The list stores function pointers, which may be null. *)
#[local] Abbreviation heap := (item_heap (option Cb)).

Record BmCbQueue : Type := MkBmCbQueue { cb_list : LL; add_id : Z; get_id : Z }.

(** What the two allocations of [ll_create_item] return. *)
Record alloc_result : Type := MkAlloc {
  alloc_item : option (loc * (option loc * option loc));
  alloc_data : bool
}.

Definition queue_cb_enqueue (q : option BmCbQueue) (cb : option Cb) (al : alloc_result) (h : heap)
    : option (BmErr * option BmCbQueue * heap) :=
  match q with
  | None => Some (BmEINVAL, None, h)
  | Some qq =>
      let '(cb_item, h) := ll_create_item (alloc_item al) (alloc_data al) (Some cb) (add_id qq) h in
      match cb_item with
      | None => Some (BmENOMEM, q, h)
      | Some _ =>
          '(err, ll, h) ← ll_item_add (Some (cb_list qq)) cb_item h;
          ll ← ll;
          Some (err,
                Some (MkBmCbQueue ll (if is_ok err then u32 (add_id qq + 1) else add_id qq)
                                  (get_id qq)), h)
      end
  end.

(** [None] is also the dereference of a null data pointer. *)
Definition queue_cb_dequeue (q : option BmCbQueue) (arg : St) (invoke : bool) (h : heap)
    : option (BmErr * option BmCbQueue * St * heap) :=
  match q with
  | None => Some (BmEINVAL, None, arg, h)
  | Some qq =>
      if add_id qq =? get_id qq then Some (BmECANCELED, q, arg, h)
      else
        '(err, data) ← ll_get_item (Some (cb_list qq)) (get_id qq) h;
        if is_ok err then
          cb ← data; cb ← cb;
          let '(err, arg) :=
            match cb with
            | Some f => if invoke then call f arg else (err, arg)
            | None => (err, arg)
            end in
          '(_, ll, h) ← ll_remove (Some (cb_list qq)) (get_id qq) h;
          ll ← ll;
          Some (err, Some (MkBmCbQueue ll (add_id qq) (u32 (get_id qq + 1))), arg, h)
        else Some (err, Some (MkBmCbQueue (cb_list qq) (add_id qq) (u32 (get_id qq + 1))), arg, h)
  end.

(** ** The queue represents a list of callbacks, oldest first *)

(** The entries of the list: the callbacks under consecutive ids. *)
Fixpoint numbered (i : Z) (cbs : list (option Cb)) : list (Z * option (option Cb)) :=
  match cbs with
  | [] => []
  | cb :: cbs => (i, Some cb) :: numbered (u32 (i + 1)) cbs
  end.

Record cbq_repr (h : heap) (q : BmCbQueue) (cbs : list (option Cb)) : Prop := {
  cr_list : ll_inv h (cb_list q) (numbered (get_id q) cbs);
  cr_get : 0 <= get_id q < 2 ^ 32;
  cr_add : add_id q = u32 (get_id q + Z.of_nat (length cbs));
  cr_bound : Z.of_nat (length cbs) < 2 ^ 32
}.

Lemma numbered_snoc i cbs cb :
  0 <= i < 2 ^ 32 ->
  numbered i (cbs ++ [cb]) = numbered i cbs ++ [(u32 (i + Z.of_nat (length cbs)), Some cb)].
Proof.
  revert i. induction cbs as [|c cbs IH]; intros i Hi; cbn [numbered app length].
  - rewrite Z.add_0_r, u32_small by done. done.
  - rewrite IH by apply u32_range. do 3 f_equal.
    unfold wrap. rewrite Zplus_mod_idemp_l. do 2 f_equal. lia.
Qed.

(** The allocator returns an item that is not in use. *)
Definition alloc_ok (al : alloc_result) (h : heap) : Prop :=
  match alloc_item al with Some (l, _) => h !! l = None | None => True end.

Lemma queue_cb_enqueue_spec q cbs cb al h :
  cbq_repr h q cbs -> alloc_ok al h -> Z.of_nat (length cbs) + 1 < 2 ^ 32 ->
  exists q' h',
    queue_cb_enqueue (Some q) cb al h
    = Some (if bool_decide (is_Some (alloc_item al)) && alloc_data al then BmOK else BmENOMEM,
            Some q', h')
    /\ cbq_repr h' q'
         (if bool_decide (is_Some (alloc_item al)) && alloc_data al then cbs ++ [cb] else cbs).
Proof.
  intros Hr Hal Hlen. destruct al as [[[l [jn jp]]|] ad]; cbn; [|by eauto].
  destruct ad; cbn; [|unfold ll_create_item; by eauto].
  destruct Hr as [Hinv Hg Ha Hb]. cbn in Hal.
  destruct (ll_create_add_refines h (cb_list q) _ l jn jp (Some cb) (add_id q) Hinv Hal)
    as (ll' & h' & E & Hinv').
  rewrite ll_create_item_fresh, E. cbn. do 2 eexists. split; [done|]. split; cbn.
  - by rewrite numbered_snoc, <- Ha.
  - done.
  - rewrite Ha, length_app. cbn. unfold wrap. rewrite Zplus_mod_idemp_l. f_equal. lia.
  - rewrite length_app. cbn. lia.
Qed.

Lemma queue_cb_dequeue_empty q arg invoke h :
  cbq_repr h q [] -> queue_cb_dequeue (Some q) arg invoke h = Some (BmECANCELED, Some q, arg, h).
Proof.
  intros [_ Hg Ha _]. unfold queue_cb_dequeue. cbn in Ha.
  rewrite Z.add_0_r, u32_small in Ha by done. by rewrite Ha, Z.eqb_refl.
Qed.

Definition invoked (cb : option Cb) (invoke : bool) (arg : St) : BmErr * St :=
  match cb with Some f => if invoke then call f arg else (BmOK, arg) | None => (BmOK, arg) end.

Lemma queue_cb_dequeue_front q cb cbs arg invoke h :
  cbq_repr h q (cb :: cbs) ->
  exists q' h',
    queue_cb_dequeue (Some q) arg invoke h
    = Some (fst (invoked cb invoke arg), Some q', snd (invoked cb invoke arg), h')
    /\ cbq_repr h' q' cbs.
Proof.
  intros [Hl Hg Ha Hb]. cbn [length] in *. unfold queue_cb_dequeue.
  assert (Hne : add_id q <> get_id q).
  { rewrite Ha. unfold wrap. intros E.
    assert (Hm : (get_id q + Z.of_nat (S (length cbs)) - get_id q) mod 2 ^ 32 = 0)
      by (rewrite Zminus_mod, E, Zminus_mod_idemp_r, Z.sub_diag; done).
    rewrite Z.mod_small in Hm by lia. lia. }
  destruct (Z.eqb_spec (add_id q) (get_id q)); [done|].
  rewrite (ll_get_refines h (cb_list q) _ (get_id q) Hl).
  cbn [numbered find_id fst snd]. rewrite Z.eqb_refl. cbn.
  destruct (ll_remove_refines h (cb_list q) _ (get_id q) Hl) as (ll' & h' & E & Hl').
  { cbn. by rewrite Z.eqb_refl. }
  rewrite E. cbn in Hl' |- *. rewrite Z.eqb_refl in Hl'.
  assert (Hr : cbq_repr h' (MkBmCbQueue ll' (add_id q) (u32 (get_id q + 1))) cbs).
  { split; cbn [cb_list get_id add_id]; [done|apply u32_range| |lia].
    rewrite Ha. unfold wrap. rewrite Zplus_mod_idemp_l. f_equal. lia. }
  exists (MkBmCbQueue ll' (add_id q) (u32 (get_id q + 1))), h'. split; [|done].
  unfold invoked. destruct cb as [f|]; [|done].
  destruct invoke; [|done]. by destruct (call f arg).
Qed.

(** ** Runs *)

Inductive cbq_op : Type :=
| OpEnqueue (cb : option Cb) (ok_item ok_data : bool) (junk : option loc * option loc)
| OpDequeue (invoke : bool).

Definition cbq_step (h : heap) (q : BmCbQueue) (arg : St) (op : cbq_op)
    : option (BmErr * heap * BmCbQueue * St) :=
  match op with
  | OpEnqueue cb ok1 ok2 junk =>
      let al := MkAlloc (if ok1 : bool then Some (fresh (dom h), junk) else None) ok2 in
      '(e, q, h) ← queue_cb_enqueue (Some q) cb al h; q ← q; Some (e, h, q, arg)
  | OpDequeue invoke =>
      '(e, q, arg, h) ← queue_cb_dequeue (Some q) arg invoke h; q ← q; Some (e, h, q, arg)
  end.

Fixpoint cbq_run (h : heap) (q : BmCbQueue) (arg : St) (ops : list cbq_op)
    : option (list BmErr * St) :=
  match ops with
  | [] => Some ([], arg)
  | op :: ops =>
      '(e, h, q, arg) ← cbq_step h q arg op;
      '(es, arg) ← cbq_run h q arg ops;
      Some (e :: es, arg)
  end.

Definition fifo_step (cbs : list (option Cb)) (arg : St) (op : cbq_op)
    : BmErr * list (option Cb) * St :=
  match op with
  | OpEnqueue cb ok1 ok2 _ =>
      if (ok1 && ok2)%bool then (BmOK, cbs ++ [cb], arg) else (BmENOMEM, cbs, arg)
  | OpDequeue invoke =>
      match cbs with
      | [] => (BmECANCELED, [], arg)
      | cb :: cbs => let '(e, arg) := invoked cb invoke arg in (e, cbs, arg)
      end
  end.

Fixpoint fifo_run (cbs : list (option Cb)) (arg : St) (ops : list cbq_op) : list BmErr * St :=
  match ops with
  | [] => ([], arg)
  | op :: ops =>
      let '(e, cbs, arg) := fifo_step cbs arg op in
      let '(es, arg) := fifo_run cbs arg ops in (e :: es, arg)
  end.

Lemma cbq_step_refines h q cbs arg op :
  cbq_repr h q cbs -> Z.of_nat (length cbs) + 1 < 2 ^ 32 ->
  exists h' q',
    cbq_step h q arg op
      = Some (fst (fst (fifo_step cbs arg op)), h', q', snd (fifo_step cbs arg op))
    /\ cbq_repr h' q' (snd (fst (fifo_step cbs arg op))).
Proof.
  intros Hr Hlen. destruct op as [cb ok1 ok2 junk|invoke]; cbn [cbq_step fifo_step].
  - set (al := MkAlloc _ ok2).
    assert (Hal : alloc_ok al h).
    { unfold alloc_ok, al. cbn. destruct ok1; [|done]. apply not_elem_of_dom, is_fresh. }
    destruct (queue_cb_enqueue_spec q cbs cb al h Hr Hal Hlen) as (q' & h' & E & Hr').
    rewrite E. cbn [mbind option_bind]. exists h', q'.
    assert (Hok : bool_decide (is_Some (alloc_item al)) && alloc_data al = ok1 && ok2)
      by (unfold al; cbn; by destruct ok1).
    rewrite Hok in *. by destruct (ok1 && ok2)%bool.
  - destruct cbs as [|cb cbs].
    + rewrite queue_cb_dequeue_empty by done. cbn. eauto.
    + destruct (queue_cb_dequeue_front q cb cbs arg invoke h Hr) as (q' & h' & E & Hr').
      rewrite E. cbn [mbind option_bind]. exists h', q'. by destruct (invoked cb invoke arg).
Qed.

(** The callback queue refines a first-in first-out queue: from an empty
    queue, any run of fewer than 2^32 - 1 enqueue and dequeue operations, with
    allocations that fail or not, reports the same errors and calls the same
    callbacks in the same order as the queue of callbacks does; the counters
    may wrap around. *)
Theorem cb_queue_refines_fifo h start arg ops :
  0 <= start < 2 ^ 32 -> Z.of_nat (length ops) + 1 < 2 ^ 32 ->
  cbq_run h (MkBmCbQueue LL_empty start start) arg ops = Some (fifo_run [] arg ops).
Proof.
  intros Hst Hlen.
  assert (Hr : cbq_repr h (MkBmCbQueue LL_empty start start) []).
  { split; cbn; [|done|by rewrite Z.add_0_r, u32_small|done].
    exists []. split_and!; [|done..]. by split; cbn; [|constructor|]. }
  assert (Hb : Z.of_nat (length (@nil (option Cb)) + length ops) + 1 < 2 ^ 32) by done.
  clear Hst Hlen. revert Hr Hb.
  generalize (@nil (option Cb)), (MkBmCbQueue LL_empty start start), h, arg.
  induction ops as [|op ops IH]; intros cbs q h0 arg0 Hr Hb; [done|].
  destruct (cbq_step_refines h0 q cbs arg0 op Hr) as (h' & q' & E & Hr').
  { cbn [length] in Hb. lia. }
  cbn [cbq_run fifo_run]. rewrite E. cbn [mbind option_bind].
  assert (Hg : (length (snd (fst (fifo_step cbs arg0 op))) <= S (length cbs))%nat).
  { destruct op as [cb ok1 ok2 junk|invoke]; cbn.
    - destruct (ok1 && ok2)%bool; cbn; rewrite ?length_app; cbn; lia.
    - destruct cbs as [|c cbs]; cbn; [lia|]. destruct (invoked _ _ _); cbn. lia. }
  destruct (fifo_step cbs arg0 op) as [[e cbs'] arg']. cbn [fst snd] in *.
  rewrite (IH cbs' q' h' arg' Hr') by (cbn [length] in Hb; lia). cbn [mbind option_bind].
  by destruct (fifo_run cbs' arg' ops).
Qed.
End cb_queue.

Arguments cbq_op : clear implicits.

(** Callbacks that append a number to a log; the callback 0 fails. *)
Definition log_call (n : Z) (log : list Z) : BmErr * list Z :=
  (if n =? 0 then BmEIO else BmOK, log ++ [n]).

Definition sample_ops : list (cbq_op Z) :=
  [OpDequeue true; OpEnqueue (Some 5) true true (None, None); OpEnqueue (Some 0) true true (None, None);
   OpEnqueue (Some 7) true false (None, None); OpEnqueue None true true (None, None);
   OpDequeue true; OpDequeue true; OpDequeue true; OpDequeue true].

Lemma cb_queue_refines_fifo_witness :
  0 <= 2 ^ 32 - 2 < 2 ^ 32 /\
  cbq_run log_call ∅ (MkBmCbQueue LL_empty (2 ^ 32 - 2) (2 ^ 32 - 2)) [] sample_ops
  = Some (fifo_run log_call [] [] sample_ops).
Proof. split; [lia|]. apply (cb_queue_refines_fifo log_call); cbn; lia. Defined.
