(* ===== verification/Crc.v ===== *)
(** * Checksums: src/third_party/crc/crc16.c and crc32.c

    The table-driven and the shift-based checksum of configuration partitions
    and firmware images, and their equality with the bit-serial division. *)
From S2P Require Import Prelude.

(** ** The source's checksums *)

Definition crc32_table : list Z :=
  [0x00000000; 0x1db71064; 0x3b6e20c8; 0x26d930ac;
   0x76dc4190; 0x6b6b51f4; 0x4db26158; 0x5005713c;
   0xedb88320; 0xf00f9344; 0xd6d6a3e8; 0xcb61b38c;
   0x9b64c2b0; 0x86d3d2d4; 0xa00ae278; 0xbdbdf21c].

(** [crc = (crc >> 4) ^ table[(crc ^ b) & 0x0f]] *)
Definition crc32_nibble (crc b : Z) : Z :=
  Z.lxor (Z.shiftr crc 4) (nth (Z.to_nat (Z.land (Z.lxor crc b) 0x0f)) crc32_table 0).

Definition crc32_byte (crc byte : Z) : Z :=
  crc32_nibble (crc32_nibble crc byte) (Z.shiftr byte 4).

(** [~crc] on 32 bits. *)
Definition not32 (z : Z) : Z := Z.lxor z (Z.ones 32).

Definition crc32_ieee_update (crc : Z) (data : bytes) : Z :=
  not32 (fold_left crc32_byte data (not32 crc)).

Definition crc32_ieee (data : bytes) : Z := crc32_ieee_update 0 data.

Definition crc16_byte (seed byte : Z) : Z :=
  let e := u8 (Z.lxor seed byte) in
  let f := u8 (Z.lxor e (Z.shiftl e 4)) in
  u16 (Z.lxor (Z.lxor (Z.lxor (Z.shiftr seed 8) (Z.shiftl f 8)) (Z.shiftl f 3))
              (Z.shiftr f 4)).

Definition crc16_ccitt (seed : Z) (src : bytes) : Z := fold_left crc16_byte src seed.

Lemma crc32_nibble_range crc b : 0 <= crc < 2 ^ 32 -> 0 <= crc32_nibble crc b < 2 ^ 32.
Proof.
  intros Hc. apply lxor_range; [done| |].
  - rewrite Z.shiftr_div_pow2 by done. plia.
  - set (n := Z.to_nat _). clearbody n. do 16 (destruct n as [|n]; [done|]). by destruct n.
Qed.

Lemma crc32_range data : 0 <= crc32_ieee data < 2 ^ 32.
Proof.
  unfold crc32_ieee, crc32_ieee_update, not32. apply lxor_range; [done| |done].
  assert (Hc : 0 <= Z.lxor 0 (Z.ones 32) < 2 ^ 32) by done. revert Hc. generalize (Z.lxor 0 (Z.ones 32)).
  induction data as [|b data IH]; intros c Hc; [done|]. cbn [fold_left].
  apply IH. by apply crc32_nibble_range, crc32_nibble_range.
Qed.

(** The check value of the CRC-32 catalogue: the checksum of "123456789". *)
Example crc32_check :
  crc32_ieee [49; 50; 51; 52; 53; 54; 55; 56; 57] = 0xCBF43926.
Proof. vm_compute. reflexivity. Qed.

(** ** Bit-serial division *)

(** One step of the division by the polynomial [poly] (reflected). *)
Definition crc_bit (poly c : Z) : Z :=
  Z.lxor (Z.shiftr c 1) (if Z.testbit c 0 then poly else 0).

Definition crc_bits (poly : Z) (n : nat) (c : Z) : Z := Nat.iter n (crc_bit poly) c.

(** The next byte is added to the remainder and eight bits are divided out. *)
Definition crc_serial (poly : Z) (crc : Z) (data : bytes) : Z :=
  fold_left (fun c b => crc_bits poly 8 (Z.lxor c b)) data crc.

Lemma crc_bit_lxor poly a b :
  crc_bit poly (Z.lxor a b) = Z.lxor (crc_bit poly a) (crc_bit poly b).
Proof.
  unfold crc_bit. rewrite Z.lxor_spec, Z.shiftr_lxor.
  apply Z.bits_inj'. intros i _. rewrite !Z.lxor_spec.
  destruct (Z.testbit a 0), (Z.testbit b 0); cbn [xorb];
    destruct (Z.testbit (Z.shiftr a 1) i), (Z.testbit (Z.shiftr b 1) i);
    rewrite ?Z.bits_0; cbn; try done; by destruct (Z.testbit poly i).
Qed.

Lemma crc_bits_lxor poly n a b :
  crc_bits poly n (Z.lxor a b) = Z.lxor (crc_bits poly n a) (crc_bits poly n b).
Proof.
  unfold crc_bits. induction n as [|n IH]; [done|]. by rewrite !Nat.iter_succ, IH, crc_bit_lxor.
Qed.

Lemma crc_bit_even poly c : crc_bit poly (2 * c) = c.
Proof.
  unfold crc_bit. rewrite Z.testbit_even_0, Z.lxor_0_r, Z.shiftr_div_pow2 by lia.
  rewrite Z.mul_comm. by apply Z.div_mul.
Qed.

Lemma crc_bits_shiftl poly n c : crc_bits poly n (Z.shiftl c (Z.of_nat n)) = c.
Proof.
  unfold crc_bits. revert c. induction n as [|n IH]; intros c; [by rewrite Z.shiftl_0_r|].
  rewrite Nat.iter_succ_r, Nat2Z.inj_succ, Z.shiftl_mul_pow2, Z.pow_succ_r by lia.
  rewrite (Z.mul_comm 2), Z.mul_assoc, Z.mul_comm, crc_bit_even.
  rewrite <- Z.shiftl_mul_pow2 by lia. apply IH.
Qed.

Lemma crc_bits_add poly n m c : crc_bits poly (n + m) c = crc_bits poly n (crc_bits poly m c).
Proof. apply Nat.iter_add. Qed.

(** The low [n] bits decide what is added; the others move down. *)
Lemma crc_bits_split poly n c :
  crc_bits poly n c
  = Z.lxor (Z.shiftr c (Z.of_nat n)) (crc_bits poly n (Z.land c (Z.ones (Z.of_nat n)))).
Proof.
  rewrite <- (crc_bits_shiftl poly n (Z.shiftr c (Z.of_nat n))), <- crc_bits_lxor.
  f_equal. apply Z.bits_inj'. intros i Hi.
  rewrite Z.lxor_spec, Z.land_spec, Z.shiftl_spec by lia.
  destruct (Z.ltb_spec i (Z.of_nat n)).
  - rewrite (Z.testbit_neg_r _ (i - Z.of_nat n)), Z.ones_spec_low by lia.
    by rewrite andb_true_r.
  - rewrite Z.shiftr_spec, Z.ones_spec_high, andb_false_r by lia.
    rewrite xorb_false_r. f_equal. lia.
Qed.

(** ** The two checksums are divisions *)

Definition poly32 : Z := 0xedb88320.
Definition poly16 : Z := 0x8408.

Lemma crc32_table_bits k :
  (k < 16)%nat -> nth k crc32_table 0 = crc_bits poly32 4 (Z.of_nat k).
Proof. intros Hk. do 16 (destruct k as [|k]; [reflexivity|]). lia. Qed.

Lemma crc32_nibble_bits crc b :
  crc32_nibble crc b = Z.lxor (crc_bits poly32 4 (Z.lxor crc b)) (Z.shiftr b 4).
Proof.
  unfold crc32_nibble. rewrite crc_bits_split. change (Z.ones (Z.of_nat 4)) with 0x0f.
  assert (Hr : 0 <= Z.land (Z.lxor crc b) 0x0f < 16).
  { change 0x0f with (Z.ones 4). rewrite Z.land_ones by lia. apply Z.mod_pos_bound. lia. }
  rewrite crc32_table_bits, Z2Nat.id by lia. change (Z.of_nat 4) with 4.
  rewrite Z.shiftr_lxor, !Z.lxor_assoc. f_equal.
  rewrite (Z.lxor_comm (crc_bits _ _ _) (Z.shiftr b 4)), <- Z.lxor_assoc, Z.lxor_nilpotent.
  by rewrite Z.lxor_0_l.
Qed.

Lemma crc32_byte_bits crc byte :
  byte_ok byte -> crc32_byte crc byte = crc_bits poly32 8 (Z.lxor crc byte).
Proof.
  intros Hb. unfold crc32_byte. rewrite !crc32_nibble_bits.
  rewrite Z.shiftr_shiftr by lia.
  replace (Z.shiftr byte (4 + 4)) with 0
    by (rewrite Z.shiftr_div_pow2, Z.div_small by (unfold byte_ok in Hb; lia); done).
  rewrite Z.lxor_0_r, Z.lxor_assoc, Z.lxor_nilpotent, Z.lxor_0_r.
  symmetry. apply (crc_bits_add poly32 4 4).
Qed.

#[local] Opaque crc_bits.

Lemma crc_serial_cons poly c b data :
  crc_serial poly c (b :: data) = crc_serial poly (crc_bits poly 8 (Z.lxor c b)) data.
Proof. reflexivity. Qed.

Lemma bit_serial_byte poly step (Hstep : forall c b, byte_ok b ->
    step c b = crc_bits poly 8 (Z.lxor c b)) data c :
  bytes_ok data -> fold_left step data c = crc_serial poly c data.
Proof.
  intros Hd. revert c. induction Hd as [|b data Hb _ IH]; intros c; [done|].
  rewrite crc_serial_cons, <- Hstep by done. apply IH.
Qed.

#[local] Transparent crc_bits.

Lemma crc16_table_bits :
  forallb (fun k => let e := Z.of_nat k in let f := u8 (Z.lxor e (Z.shiftl e 4)) in
    crc_bits poly16 8 e
    =? u16 (Z.lxor (Z.lxor (Z.shiftl f 8) (Z.shiftl f 3)) (Z.shiftr f 4))) (seq 0 256) = true.
Proof. vm_compute. reflexivity. Qed.

#[local] Opaque crc_bits.

Lemma crc16_byte_bits seed byte :
  0 <= seed < 65536 -> byte_ok byte ->
  crc16_byte seed byte = crc_bits poly16 8 (Z.lxor seed byte).
Proof.
  intros Hs Hb. unfold byte_ok in Hb. rewrite crc_bits_split. change (Z.of_nat 8) with 8.
  unfold crc16_byte. cbn zeta.
  assert (He : u8 (Z.lxor seed byte) = Z.land (Z.lxor seed byte) (Z.ones 8))
    by (by rewrite Z.land_ones by lia).
  pose proof (u8_range (Z.lxor seed byte)) as Hr. rewrite <- He.
  set (e := u8 (Z.lxor seed byte)) in *.
  pose proof crc16_table_bits as Ht. rewrite forallb_forall in Ht.
  specialize (Ht (Z.to_nat e)). rewrite Z2Nat.id in Ht by lia.
  apply Z.eqb_eq in Ht; [|apply in_seq; lia]. cbn zeta in Ht. rewrite Ht.
  set (f := u8 (Z.lxor e (Z.shiftl e 4))).
  assert (Hsh : Z.shiftr (Z.lxor seed byte) 8 = u16 (Z.shiftr seed 8)).
  { rewrite Z.shiftr_lxor, (Z.shiftr_div_pow2 byte), (Z.div_small byte), Z.lxor_0_r by lia.
    rewrite Z.shiftr_div_pow2 by lia. rewrite u16_small by plia. done. }
  rewrite Hsh. unfold wrap. rewrite <- !Z.land_ones by lia.
  apply Z.bits_inj'. intros i Hi. rewrite !Z.land_spec, !Z.lxor_spec, !Z.land_spec, !Z.lxor_spec.
  destruct (Z.testbit (Z.ones 16) i); [|by rewrite !andb_false_r].
  rewrite !andb_true_r.
  destruct (Z.testbit (Z.shiftr seed 8) i), (Z.testbit (Z.shiftl f 8) i),
    (Z.testbit (Z.shiftl f 3) i), (Z.testbit (Z.shiftr f 4) i); done.
Qed.

Lemma crc16_byte_range seed byte : 0 <= crc16_byte seed byte < 65536.
Proof. apply u16_range. Qed.

(** C27: the nibble-table CRC-32 and the shift-based CRC-16 of the source are
    the bit-serial division of the message by their polynomials, and a checksum
    can be computed piecewise: continuing over a second piece gives the
    checksum of the whole. *)
Theorem crc_correct crc seed data1 data2 :
  0 <= crc < 2 ^ 32 -> 0 <= seed < 2 ^ 16 -> bytes_ok data1 -> bytes_ok data2 ->
  crc32_ieee_update crc data1 = not32 (crc_serial poly32 (not32 crc) data1)
  /\ crc16_ccitt seed data1 = crc_serial poly16 seed data1
  /\ crc32_ieee_update (crc32_ieee_update crc data1) data2
     = crc32_ieee_update crc (data1 ++ data2)
  /\ crc16_ccitt (crc16_ccitt seed data1) data2 = crc16_ccitt seed (data1 ++ data2).
Proof.
  intros Hc Hs H1 H2. split_and!.
  - unfold crc32_ieee_update. f_equal. apply bit_serial_byte; [apply crc32_byte_bits|done].
  - clear H2 data2. revert seed Hs.
    induction H1 as [|b data Hb _ IH]; intros seed Hs; [done|].
    rewrite crc_serial_cons, <- crc16_byte_bits by done. apply IH, crc16_byte_range.
  - unfold crc32_ieee_update, not32. rewrite fold_left_app. f_equal. f_equal.
    by rewrite Z.lxor_assoc, Z.lxor_nilpotent, Z.lxor_0_r.
  - unfold crc16_ccitt. by rewrite fold_left_app.
Qed.

Lemma crc_correct_witness :
  crc32_ieee_update (crc32_ieee_update 0 [1; 2]) [3; 255] = crc32_ieee [1; 2; 3; 255].
Proof.
  apply (crc_correct 0 0xffff [1; 2] [3; 255]);
    first [done | repeat constructor; vm_compute; congruence].
Defined.
