(* ===== verification/LibSm.v ===== *)
(** * State machines: src/common/lib_state_machine.c

    A state machine runs inside a larger state [S], which its states' functions
    change too.  Pointers to states and to the function that looks for
    transitions are values of [P] and [F], which the sections below follow. *)
From S2P Require Import Prelude.

Record LibSmState (S : Type) : Type := MkSmState {
  state_enum : Z;
  run : option (M S BmErr);
  on_state_exit : option (M S BmErr);
  on_state_entry : option (M S BmErr)
}.
Arguments MkSmState {S}. Arguments state_enum {S}. Arguments run {S}.
Arguments on_state_exit {S}. Arguments on_state_entry {S}.

(** [None] is a null pointer. *)
Record LibSmContext (P F : Type) : Type := MkSmContext {
  current_state : option P;
  check_transitions_for_next_state : option F;
  sm_name : option bytes
}.
Arguments MkSmContext {P F}. Arguments current_state {P F}.
Arguments check_transitions_for_next_state {P F}. Arguments sm_name {P F}.

Definition set_current_state {P F} (p : P) (c : LibSmContext P F) : LibSmContext P F :=
  MkSmContext (Some p) (check_transitions_for_next_state c) (sm_name c).

Definition lib_sm_init {P F} (ctx : option (LibSmContext P F)) (init_state : option P)
    (check : option F) (name : option bytes) : BmErr * option (LibSmContext P F) :=
  match check, ctx, init_state, name with
  | Some f, Some _, Some p, Some n => (BmOK, Some (MkSmContext (Some p) (Some f) (Some n)))
  | _, _, _, _ => (BmEINVAL, ctx)
  end.

Section run.
Context {S P F : Type} `{EqDecision P}.
Context (sm : S -> LibSmContext P F) (set_sm : LibSmContext P F -> S -> S).
(** What the pointers point to. *)
Context (deref : P -> option (LibSmState S)) (call : F -> Z -> M S (option P)).

(** [ctx->current_state], dereferenced. *)
Definition current : M S (P * LibSmState S) :=
  p ← gets (fun s => current_state (sm s));
  p ← lift p;
  st ← lift (deref p);
  mret (p, st).

(** The errors of the functions of the states are reported only. *)
Definition run_opt (f : option (M S BmErr)) : M S unit :=
  match f with None => mret tt | Some f => _ ← f; mret tt end.

Definition lib_sm_run : M S BmErr :=
  p ← gets (fun s => current_state (sm s));
  match p with
  | None => mret BmEINVAL
  | Some p =>
      st ← lift (deref p);
      match run st with
      | None => mret BmEINVAL
      | Some f =>
          _ ← f;
          '(_, st) ← current;
          check ← gets (fun s => check_transitions_for_next_state (sm s));
          check ← lift check;
          next ← call check (state_enum st);
          match next with
          | None => mret BmENODEV
          | Some n =>
              '(p, st) ← current;
              if decide (p = n) then mret BmOK
              else
                _ ← run_opt (on_state_exit st);
                _ ← modify (fun s => set_sm (set_current_state n (sm s)) s);
                '(_, st) ← current;
                _ ← run_opt (on_state_entry st);
                mret BmOK
          end
      end
  end.

Definition get_current_state_enum : M S Z := '(_, st) ← current; mret (state_enum st).

(** ** How a step goes *)

Lemma post_current Q s :
  (forall p st, current_state (sm s) = Some p -> deref p = Some st -> Q (p, st) s) ->
  post current Q s.
Proof. intros H. unfold current. repeat post_step. by apply H. Qed.

Lemma post_run_opt f Q s :
  (f = None -> Q tt s) -> (forall m, f = Some m -> post m (fun _ => Q tt) s) ->
  post (run_opt f) Q s.
Proof.
  intros Hn Hm. destruct f as [m|]; cbn; [|by apply post_ret, Hn].
  apply post_bind. eapply post_mono; [by apply Hm|]. intros e s' HQ. by apply post_ret.
Qed.

(** The rule for invariants.  [R p] holds between the steps in the state [p],
    [Q p] when the state's function has run, and [T p n] when the machine leaves
    [p] for [n]. *)
Lemma lib_sm_run_invariant (R Q : P -> S -> Prop) (T : P -> P -> S -> Prop) s :
  (forall p s, R p s -> current_state (sm s) = Some p) ->
  (forall p st s, deref p = Some st -> R p s ->
     match run st with
     | Some f => post f (fun _ s => current_state (sm s) = Some p /\ Q p s) s
     | None => True
     end) ->
  (forall p st c s, deref p = Some st -> Q p s -> current_state (sm s) = Some p ->
     post (call c (state_enum st)) (fun n s => match n with
       | None => R p s
       | Some n => if decide (p = n) then R p s else current_state (sm s) = Some p /\ T p n s
       end) s) ->
  (forall p n st s, deref p = Some st -> T p n s -> current_state (sm s) = Some p ->
     post (run_opt (on_state_exit st))
       (fun _ s => current_state (sm (set_sm (set_current_state n (sm s)) s)) = Some n
          /\ forall st', deref n = Some st' ->
               post (run_opt (on_state_entry st')) (fun _ => R n)
                 (set_sm (set_current_state n (sm s)) s)) s) ->
  forall p, R p s -> post lib_sm_run (fun _ s => exists p, R p s) s.
Proof.
  intros HR Hrun Hcall Hexit p Hp. unfold lib_sm_run. repeat post_step. rewrite (HR p s Hp).
  repeat post_step. rename a into st. pose proof (Hrun p st s H Hp) as Hf.
  destruct (run st) as [f|]; [|apply post_ret; by exists p].
  post_step. eapply post_mono; [exact Hf|]. intros e s1 [H1c H1]. cbv beta.
  post_step. apply post_current. intros p1 st1 E1 D1. rewrite H1c in E1.
  injection E1 as <-. repeat post_step.
  eapply post_mono; [by apply (Hcall p)|]. intros [n|] s2 H2; cbv beta iota in H2.
  2: { apply post_ret. by exists p. }
  assert (Hc : current_state (sm s2) = Some p) by (case_decide; [by apply HR|by apply H2]).
  post_step. apply post_current. intros p2 st2 E2 D2. rewrite Hc in E2. injection E2 as <-.
  destruct (decide (p = n)) as [->|Hne]; [apply post_ret; by exists n|].
  post_step. eapply post_mono; [apply (Hexit p n); [done|apply H2|done]|]. intros [] s3 [H3c H3]. cbv beta.
  repeat post_step. apply post_current. intros p4 st4 E4 D4. rewrite H3c in E4. injection E4 as <-.
  post_step. eapply post_mono; [by apply H3|]. intros [] s5 H5. apply post_ret. by exists n.
Qed.
End run.
