(* ===== verification/Monitor.v ===== *)
(** * Monitors: the way src/common/bm_posix.c synchronizes tasks

    An operation of a queue, a stream buffer or a semaphore takes the object's lock,
    looks at the object, and either returns or waits for a condition variable,
    which gives the lock back; when it is woken it looks again.  What it does
    between taking and giving back the lock is a pass, and passes of different
    tasks do not overlap.

    The steps below are those of any number of tasks.  A signal wakes one of the
    tasks that wait, any of them; a task may wake up without a signal, and its time
    may run out: while it waits, or after it has been woken and before it has the lock, in
    which case the signal is used up ([pthread_cond_timedwait] may answer that the time is
    over although the task was the one that the signal woke, and the function then returns
    without looking again). *)
From S2P Require Import Prelude.

(** How a pass ends: the function returns, or the task waits for a condition, to
    go on with the next pass. *)
Inductive pass_end (O R : Type) : Type := Return (r : R) | Wait (c : nat) (o : O).
Arguments Return {O R}. Arguments Wait {O R}.

(** The object afterwards, the conditions that the pass signals, and what the
    outside sees of it. *)
Record pass_out (S O R V : Type) : Type := MkPass {
  p_shared : S; p_signals : list nat; p_events : list V; p_end : pass_end O R
}.
Arguments MkPass {S O R V}. Arguments p_shared {S O R V}. Arguments p_signals {S O R V}.
Arguments p_events {S O R V}. Arguments p_end {S O R V}.

Section monitor.
Context {S O R V : Type}.
(** [None] is undefined behaviour. *)
Context (pass : O -> S -> option (pass_out S O R V)).
(** Does a wait of this operation end when its time has run out? *)
Context (times_out : O -> bool).
(** The calls that are made. *)
Context (legal : O -> Prop).

(** [ready] are the tasks that want the lock, with the condition that they have
    been woken from. *)
Record monitor : Type := MkMonitor {
  shared : S; ready : list (option nat * O); waiting : list (nat * O); history : list V
}.

Definition monitor_start (s : S) : monitor := MkMonitor s [] [] [].

(** [pthread_cond_signal] *)
Inductive signal (c : nat) : list (nat * O) -> list (nat * O) -> list (option nat * O) -> Prop :=
| signal_none w : (forall o, (c, o) ∉ w) -> signal c w w []
| signal_one w1 o w2 : signal c (w1 ++ (c, o) :: w2) (w1 ++ w2) [(Some c, o)].

Inductive signals : list nat -> list (nat * O) -> list (nat * O) -> list (option nat * O) -> Prop :=
| signals_nil w : signals [] w w []
| signals_cons c cs w w1 w2 k1 k2 :
    signal c w w1 k1 -> signals cs w1 w2 k2 -> signals (c :: cs) w w2 (k1 ++ k2).

Definition now_waits (e : pass_end O R) : list (nat * O) :=
  match e with Return _ => [] | Wait c o => [(c, o)] end.

(** [late]: also the time of tasks that have been woken may run out. *)
Inductive monitor_step (late : bool) : monitor -> monitor -> Prop :=
| step_call m o :
    legal o ->
    monitor_step late m (MkMonitor (shared m) (ready m ++ [(None, o)]) (waiting m) (history m))
| step_run m r1 from o r2 out w woken :
    ready m = r1 ++ (from, o) :: r2 -> pass o (shared m) = Some out ->
    signals (p_signals out) (waiting m) w woken ->
    monitor_step late m (MkMonitor (p_shared out) (r1 ++ r2 ++ woken) (w ++ now_waits (p_end out))
                      (history m ++ p_events out))
| step_spurious m w1 c o w2 :
    waiting m = w1 ++ (c, o) :: w2 ->
    monitor_step late m (MkMonitor (shared m) (ready m ++ [(Some c, o)]) (w1 ++ w2) (history m))
| step_timeout m w1 c o w2 :
    waiting m = w1 ++ (c, o) :: w2 -> times_out o = true ->
    monitor_step late m (MkMonitor (shared m) (ready m) (w1 ++ w2) (history m))
| step_late m r1 c o r2 :
    late = true -> ready m = r1 ++ (Some c, o) :: r2 -> times_out o = true ->
    monitor_step late m (MkMonitor (shared m) (r1 ++ r2) (waiting m) (history m)).

Definition reaches (s : S) (m : monitor) : Prop := rtc (monitor_step true) (monitor_start s) m.

(** The runs in which every task that is woken looks at the object again. *)
Definition reaches_promptly (s : S) (m : monitor) : Prop := rtc (monitor_step false) (monitor_start s) m.

(** ** What every pass keeps holds always *)
Section invariant.
Context (I : S -> list V -> Prop).
Context (I_pass : forall o s h out, legal o -> I s h -> pass o s = Some out ->
  I (p_shared out) (h ++ p_events out) /\ match p_end out with Wait _ o' => legal o' | Return _ => True end).

Record holds (m : monitor) : Prop := {
  hd_inv : I (shared m) (history m);
  hd_ready : forall t, t ∈ ready m -> legal (snd t);
  hd_waiting : forall t, t ∈ waiting m -> legal (snd t)
}.

Lemma signals_legal cs w w' k :
  signals cs w w' k -> (forall t, t ∈ w -> legal (snd t)) ->
  (forall t, t ∈ w' -> legal (snd t)) /\ forall t, t ∈ k -> legal (snd t).
Proof.
  induction 1 as [w|c cs w w1 w2 k1 k2 H1 _ IH]; intros Hw.
  - split; [done|by intros t ?%not_elem_of_nil].
  - assert (Hw1 : (forall t, t ∈ w1 -> legal (snd t)) /\ forall t, t ∈ k1 -> legal (snd t)).
    { destruct H1 as [w0 _|w1 o w3]; split; try done; [by intros t ?%not_elem_of_nil|..].
      - intros t Ht. apply Hw. rewrite elem_of_app, elem_of_cons in *. tauto.
      - intros t ->%list_elem_of_singleton. apply (Hw (c, o)).
        rewrite elem_of_app, elem_of_cons. tauto. }
    destruct Hw1 as [Hw1 Hk1], (IH Hw1) as [Hw2 Hk2]. split; [done|].
    intros t [Ht|Ht]%elem_of_app; auto.
Qed.

Lemma monitor_step_holds late m m' : monitor_step late m m' -> holds m -> holds m'.
Proof.
  intros [m0 o Ho|m0 r1 from o r2 out w k Er Ep Hs|m0 w1 c o w2 Ew|m0 w1 c o w2 Ew _|m0 r1 c o r2 _ Er _] [A1 A2 A3].
  - split; cbn; [done| |done]. intros t [Ht|Ht]%elem_of_app; [auto|].
    by apply list_elem_of_singleton in Ht as ->.
  - assert (Ho : legal o) by (apply (A2 (from, o)); rewrite Er, elem_of_app, elem_of_cons; tauto).
    destruct (I_pass _ _ _ _ Ho A1 Ep) as [HI HW], (signals_legal _ _ _ _ Hs A3) as [S1 S2].
    split; cbn; [done|..].
    + intros t. rewrite !elem_of_app. intros [Ht|[Ht|Ht]]; [..|auto];
        apply A2; rewrite Er, elem_of_app, elem_of_cons; tauto.
    + intros t [Ht|Ht]%elem_of_app; [auto|]. destruct (p_end out); cbn in Ht; [by apply not_elem_of_nil in Ht|].
      by apply list_elem_of_singleton in Ht as ->.
  - rewrite Ew in A3. split; cbn; [done|..].
    + intros t [Ht|Ht]%elem_of_app; [auto|]. apply list_elem_of_singleton in Ht as ->.
      apply (A3 (c, o)). rewrite elem_of_app, elem_of_cons. tauto.
    + intros t Ht. apply A3. rewrite elem_of_app, elem_of_cons in *. tauto.
  - rewrite Ew in A3. split; cbn; [done..|].
    intros t Ht. apply A3. rewrite elem_of_app, elem_of_cons in *. tauto.
  - rewrite Er in A2. split; cbn; [done|..|done].
    intros t Ht. apply A2. rewrite elem_of_app, elem_of_cons in *. tauto.
Qed.

Lemma start_holds s : I s [] -> holds (monitor_start s).
Proof. split; cbn; [done|by intros t ?%not_elem_of_nil..]. Qed.

Lemma steps_hold late s m : I s [] -> rtc (monitor_step late) (monitor_start s) m -> holds m.
Proof.
  intros Hs Hr. remember (monitor_start s) as m0 eqn:E0.
  assert (H0 : holds m0) by (subst; by apply start_holds).
  clear E0 Hs. induction Hr; [done|]. apply IHHr. by eapply monitor_step_holds.
Qed.

Lemma monitor_invariant s m : I s [] -> reaches s m -> holds m.
Proof. apply steps_hold. Qed.

(** Tasks whose waits have no end always look again. *)
Lemma patient_prompt s m :
  (forall o, legal o -> times_out o = false) -> I s [] -> reaches s m -> reaches_promptly s m.
Proof.
  intros Hp HI Hr. unfold reaches, reaches_promptly in *. pose proof (start_holds s HI) as H0.
  induction Hr as [|m1 m2 m3 Hst _ IH]; [done|]. eapply rtc_l; [|eapply IH, monitor_step_holds; eauto].
  destruct Hst as [m o Ho|m r1 from o r2 out w k Er Ep Hs|m w1 c o w2 Ew|m w1 c o w2 Ew Et|m r1 c o r2 _ Er Et].
  - by apply step_call.
  - by eapply step_run.
  - by eapply step_spurious.
  - by eapply step_timeout.
  - assert (Hl : legal o). { apply (hd_ready _ H0 (Some c, o)). rewrite Er, elem_of_app, elem_of_cons. tauto. }
    by rewrite Hp in Et.
Qed.

(** ** No wake-up is lost

    [avail c s] tells how many tasks that wait for [c] could go on, [waits_for o]
    what the operation may wait for. *)
Section wakeups.
Context (avail : nat -> S -> nat) (waits_for : O -> option nat).

Definition signalled (c : nat) (cs : list nat) : nat := length (filter (fun d => d = c) cs).

(** A pass that returns uses up one of what it may wait for; a pass that waits has
    found nothing; and what becomes available is signalled. *)
Definition pass_wakes : Prop := forall o s h out, legal o -> I s h -> pass o s = Some out ->
  match p_end out with
  | Return _ => forall c, (avail c (p_shared out) + (if decide (waits_for o = Some c) then 1 else 0)
                 <= avail c s + signalled c (p_signals out))%nat
  | Wait c o' => waits_for o = Some c /\ waits_for o' = Some c /\ avail c (p_shared out) = 0%nat
      /\ forall d, (avail d (p_shared out) <= avail d s + signalled d (p_signals out))%nat
  end.

Definition woken (c : nat) (r : list (option nat * O)) : nat :=
  length (filter (fun t => fst t = Some c) r).

(** Tasks that wait for what is there are outnumbered by those on their way. *)
Record awake (m : monitor) : Prop := {
  aw_ready : forall c o, (Some c, o) ∈ ready m -> waits_for o = Some c;
  aw_waiting : forall c o, (c, o) ∈ waiting m -> waits_for o = Some c;
  aw_avail : forall c o, (c, o) ∈ waiting m -> (avail c (shared m) <= woken c (ready m))%nat
}.

Lemma woken_app c r1 r2 : woken c (r1 ++ r2) = (woken c r1 + woken c r2)%nat.
Proof. unfold woken. by rewrite filter_app, length_app. Qed.

Lemma woken_cons c f o r :
  woken c ((f, o) :: r) = ((if decide (f = Some c) then 1 else 0) + woken c r)%nat.
Proof. unfold woken. rewrite filter_cons. cbn. by case_decide. Qed.

Lemma signalled_cons c d cs :
  signalled c (d :: cs) = ((if decide (d = c) then 1 else 0) + signalled c cs)%nat.
Proof. unfold signalled. rewrite filter_cons. by case_decide. Qed.

Lemma signal_spec c w w' k :
  signal c w w' k ->
  (forall t, t ∈ w' -> t ∈ w) /\ (forall d o, (d, o) ∈ k -> exists c', d = Some c' /\ (c', o) ∈ w)
  /\ forall d o, (d, o) ∈ w' -> woken d k = if decide (c = d) then 1%nat else 0%nat.
Proof.
  intros [w0 Hn|w1 o w2].
  - split_and!; [done|by intros d o ?%not_elem_of_nil|].
    intros d o Ho. cbn. case_decide; [|done]. subst. by destruct (Hn o).
  - split_and!.
    + intros t. rewrite !elem_of_app, elem_of_cons. tauto.
    + intros d o' Ho. apply list_elem_of_singleton in Ho. injection Ho as -> ->.
      exists c. split; [done|]. rewrite elem_of_app, elem_of_cons. tauto.
    + intros d o' _. rewrite woken_cons. cbn. repeat case_decide; simplify_eq; done.
Qed.

Lemma signals_spec cs w w' k :
  signals cs w w' k ->
  (forall t, t ∈ w' -> t ∈ w) /\ (forall d o, (d, o) ∈ k -> exists c', d = Some c' /\ (c', o) ∈ w)
  /\ forall d o, (d, o) ∈ w' -> woken d k = signalled d cs.
Proof.
  induction 1 as [w|c cs w w1 w2 k1 k2 H1 _ (I1 & I2 & I3)].
  - split_and!; [done|by intros d o ?%not_elem_of_nil|done].
  - destruct (signal_spec _ _ _ _ H1) as (J1 & J2 & J3). split_and!.
    + auto.
    + intros d o [Ho|Ho]%elem_of_app; [by apply J2|]. destruct (I2 _ _ Ho) as (c' & -> & Hc).
      exists c'. auto.
    + intros d o Ho. rewrite woken_app, signalled_cons, (I3 _ _ Ho), (J3 _ _ (I1 _ Ho)). done.
Qed.

Lemma awake_run m r1 from o r2 out w k :
  pass_wakes -> holds m -> awake m -> ready m = r1 ++ (from, o) :: r2 -> pass o (shared m) = Some out ->
  signals (p_signals out) (waiting m) w k ->
  awake (MkMonitor (p_shared out) (r1 ++ r2 ++ k) (w ++ now_waits (p_end out))
           (history m ++ p_events out)).
Proof.
  intros Hpw [HI HL _] [A1 A2 A3] Er Ep Hs. destruct (signals_spec _ _ _ _ Hs) as (S1 & S2 & S3).
  assert (Hlo : legal o) by (apply (HL (from, o)); rewrite Er, elem_of_app, elem_of_cons; tauto).
  pose proof (Hpw _ _ _ _ Hlo HI Ep) as Hp.
  assert (Hfrom : forall c, from = Some c -> waits_for o = Some c).
  { intros c ->. apply (A1 c o). rewrite Er, elem_of_app, elem_of_cons. tauto. }
  (* of those that waited before *)
  assert (Hold : forall c o', (c, o') ∈ w ->
    (avail c (p_shared out) + (if decide (waits_for o = Some c) then 1 else 0)
       <= avail c (shared m) + signalled c (p_signals out))%nat ->
    (avail c (p_shared out) <= woken c (r1 ++ r2 ++ k))%nat).
  { intros c o' Hc Ha. pose proof (A3 _ _ (S1 _ Hc)) as Hm. rewrite Er in Hm.
    rewrite !woken_app, ?woken_cons in *. rewrite (S3 _ _ Hc).
    destruct (decide (from = Some c)) as [Ef|]; [|repeat case_decide; lia].
    rewrite decide_True in Ha by auto. lia. }
  split; cbn [ready waiting shared].
  - intros c o'. rewrite !elem_of_app. intros [Ho|[Ho|Ho]].
    + apply A1. rewrite Er, elem_of_app. tauto.
    + apply A1. rewrite Er, elem_of_app, elem_of_cons. tauto.
    + destruct (S2 _ _ Ho) as (c' & [= <-] & Hc). by apply A2.
  - intros c o' [Ho|Ho]%elem_of_app; [by apply A2, S1|].
    destruct (p_end out) as [|c1 o1]; [by apply not_elem_of_nil in Ho|].
    apply list_elem_of_singleton in Ho. injection Ho as -> ->. apply Hp.
  - intros c o' Ho. destruct (p_end out) as [r|c1 o1].
    + rewrite app_nil_r in Ho. by eapply Hold.
    + destruct Hp as (H1 & H2 & H3 & H4). destruct (decide (c = c1)) as [->|Hne]; [lia|].
      apply elem_of_app in Ho as [Ho|Ho].
      * eapply Hold; [exact Ho|]. rewrite decide_False by congruence. specialize (H4 c). lia.
      * apply list_elem_of_singleton in Ho. by simplify_eq.
Qed.

Lemma monitor_awake s m : pass_wakes -> I s [] -> reaches_promptly s m -> awake m.
Proof.
  intros Hpw HI Hr. unfold reaches_promptly in Hr. remember (monitor_start s) as m0 eqn:E0.
  assert (Hh : holds m0) by (subst; split; cbn; [done|by intros t ?%not_elem_of_nil..]).
  assert (H0 : awake m0) by (subst; split; cbn; intros c o ?%not_elem_of_nil; done).
  clear E0 HI. induction Hr as [|m1 m2 m3 Hst _ IH]; [done|].
  apply IH; [by eapply monitor_step_holds|]. clear IH.
  destruct Hst as [m o Ho|m r1 from o r2 out w k Er Ep Hs|m w1 c o w2 Ew|m w1 c o w2 Ew _|m r1 c o r2 [=]].
  - destruct H0 as [A1 A2 A3]. split; cbn [ready waiting shared].
    + intros c o' [Hc|Hc]%elem_of_app; [by apply A1|]. by apply list_elem_of_singleton in Hc.
    + done.
    + intros c o' Hc. rewrite woken_app, woken_cons. cbn. specialize (A3 _ _ Hc). lia.
  - by eapply awake_run.
  - destruct H0 as [A1 A2 A3]. rewrite Ew in A2, A3. split; cbn [ready waiting shared].
    + intros d o' [Ho|Ho]%elem_of_app; [by apply A1|]. apply list_elem_of_singleton in Ho.
      simplify_eq. apply A2. rewrite elem_of_app, elem_of_cons. tauto.
    + intros d o' Ho. apply A2. rewrite elem_of_app, elem_of_cons in *. tauto.
    + intros d o' Ho. rewrite woken_app.
      assert (Ho' : (d, o') ∈ w1 ++ (c, o) :: w2) by (rewrite elem_of_app, elem_of_cons in *; tauto).
      specialize (A3 _ _ Ho'). lia.
  - destruct H0 as [A1 A2 A3]. rewrite Ew in A2, A3. split; cbn [ready waiting shared].
    + done.
    + intros d o' Ho. apply A2. rewrite elem_of_app, elem_of_cons in *. tauto.
    + intros d o' Ho. apply (A3 d o'). rewrite elem_of_app, elem_of_cons in *. tauto.
Qed.
End wakeups.
End invariant.
End monitor.
Arguments monitor : clear implicits.

(** To build runs: a task calls, and the first task that is ready runs. *)
Ltac monitor_call o := eapply rtc_l; [apply (step_call _ _ _ _ _ o)|cbn].
Ltac monitor_signals :=
  cbn; first
    [ apply signals_nil
    | eapply signals_cons;
        [first [apply (signal_one _ []) | apply signal_none; by intros ? ?%not_elem_of_nil]
        | monitor_signals] ].
Ltac monitor_run :=
  eapply rtc_l; [eapply (step_run _ _ _ _ _ []); [reflexivity|vm_compute; reflexivity|monitor_signals]|cbn].
