(* ===== verification/PosixQueue.v ===== *)
(** * The operating system on POSIX, queues and semaphores: src/common/bm_posix.c

    The passes of the operations of queues, stream buffers and semaphores, in the
    sense of [Monitor], and what any number of tasks that use them observe.  A time
    of 0 never waits, one of [UINT32_MAX] waits for ever; when the time of another
    wait is over the function returns without looking at the object again, which
    is [step_timeout], or [step_late] if the task had been woken. *)
From S2P Require Import Prelude Monitor.

Definition UINT32_MAX : Z := 0xFFFFFFFF.

Definition not_empty : nat := 0.
Definition not_full : nat := 1.

Definition time_ends (timeout_ms : Z) : bool := negb (timeout_ms =? 0) && negb (timeout_ms =? UINT32_MAX).

(** [(i + 1) % capacity]; [None] divides by zero. *)
Definition next_index (capacity i : Z) : option Z :=
  if capacity =? 0 then None else Some (u32 (i + 1) mod capacity).

(** ** Queues *)

Record PosixQueue : Type := MkPosixQueue {
  pq_storage : bytes; pq_item_size : Z; pq_capacity : Z; pq_count : Z; pq_head : Z; pq_tail : Z
}.

(** The flags tell whether the two allocations succeed; [calloc] clears. *)
Definition bm_queue_create (queue_ok storage_ok : bool) (queue_length item_size : Z)
    : option PosixQueue :=
  if negb queue_ok then None
  else if negb storage_ok then None
  else Some (MkPosixQueue (replicate (Z.to_nat (queue_length * item_size)) 0) item_size queue_length
               0 0 0).

(** An item is [None] when the pointer is null.  To receive, the flag tells whether
    there is a place for the item. *)
Inductive queue_op : Type :=
| OpReceive (item : bool) (timeout_ms : Z)
| OpSend (item : option bytes) (timeout_ms : Z)
| OpSendFront (item : option bytes).

(** What is seen of a queue: the items that go through, and that it is empty or full
    when a task will not wait. *)
Inductive queue_event : Type :=
| Received (item : bytes) | SawEmpty | Sent (item : bytes) | SentFront (item : bytes) | SawFull.

Definition queue_pass : Type := pass_out (option PosixQueue) queue_op BmErr queue_event.

(** A null pointer, which is seen before the lock is taken. *)
Definition invalid (q : option PosixQueue) : option queue_pass :=
  Some (MkPass q [] [] (Return BmEINVAL)).

Definition slot_offset (q : PosixQueue) (i : Z) : nat := Z.to_nat (u32 (i * pq_item_size q)).

Definition bm_queue_receive (queue : option PosixQueue) (item : bool) (timeout_ms : Z)
    : option queue_pass :=
  match queue with
  | Some q =>
      if negb item then invalid queue
      else if pq_count q =? 0 then
        if timeout_ms =? 0 then Some (MkPass queue [] [SawEmpty] (Return BmETIMEDOUT))
        else Some (MkPass queue [] [] (Wait not_empty (OpReceive item timeout_ms)))
      else
        it ← read_at (slot_offset q (pq_head q)) (Z.to_nat (pq_item_size q)) (pq_storage q);
        hd ← next_index (pq_capacity q) (pq_head q);
        Some (MkPass (Some (MkPosixQueue (pq_storage q) (pq_item_size q) (pq_capacity q)
                              (u32 (pq_count q - 1)) hd (pq_tail q)))
                [not_full] [Received it] (Return BmOK))
  | None => invalid queue
  end.

Definition bm_queue_send (queue : option PosixQueue) (item : option bytes) (timeout_ms : Z)
    : option queue_pass :=
  match queue, item with
  | Some q, Some d =>
      if pq_count q =? pq_capacity q then
        if timeout_ms =? 0 then Some (MkPass queue [] [SawFull] (Return BmENOMEM))
        else Some (MkPass queue [] [] (Wait not_full (OpSend item timeout_ms)))
      else
        it ← read_at 0 (Z.to_nat (pq_item_size q)) d;
        st ← write_at (slot_offset q (pq_tail q)) it (pq_storage q);
        tl ← next_index (pq_capacity q) (pq_tail q);
        Some (MkPass (Some (MkPosixQueue st (pq_item_size q) (pq_capacity q)
                              (u32 (pq_count q + 1)) (pq_head q) tl))
                [not_empty] [Sent it] (Return BmOK))
  | _, _ => invalid queue
  end.

Definition bm_queue_send_to_front_from_isr (queue : option PosixQueue) (item : option bytes)
    : option queue_pass :=
  match queue, item with
  | Some q, Some d =>
      if pq_count q =? pq_capacity q then Some (MkPass queue [] [SawFull] (Return BmENOMEM))
      else
        let hd := if pq_head q =? 0 then u32 (pq_capacity q - 1) else u32 (pq_head q - 1) in
        it ← read_at 0 (Z.to_nat (pq_item_size q)) d;
        st ← write_at (slot_offset q hd) it (pq_storage q);
        Some (MkPass (Some (MkPosixQueue st (pq_item_size q) (pq_capacity q)
                              (u32 (pq_count q + 1)) hd (pq_tail q)))
                [not_empty] [SentFront it] (Return BmOK))
  | _, _ => invalid queue
  end.

Definition queue_call (o : queue_op) (q : option PosixQueue) : option queue_pass :=
  match o with
  | OpReceive item t => bm_queue_receive q item t
  | OpSend item t => bm_queue_send q item t
  | OpSendFront item => bm_queue_send_to_front_from_isr q item
  end.

Definition queue_times_out (o : queue_op) : bool :=
  match o with OpReceive _ t | OpSend _ t => time_ends t | OpSendFront _ => false end.

(** *** What a queue stands for *)

(** A bounded sequence. *)
Definition fifo_event (capacity : nat) (l : list bytes) (e : queue_event) : option (list bytes) :=
  match e with
  | Sent x => if (length l <? capacity)%nat then Some (l ++ [x]) else None
  | SentFront x => if (length l <? capacity)%nat then Some (x :: l) else None
  | SawFull => if (length l =? capacity)%nat then Some l else None
  | SawEmpty => match l with [] => Some [] | _ => None end
  | Received x => match l with y :: l => if decide (x = y) then Some l else None | [] => None end
  end.

Definition fifo_replay (capacity : nat) (h : list queue_event) : option (list bytes) :=
  foldl (fun l e => l ← l; fifo_event capacity l e) (Some []) h.

(** *** Rings

    [n] slots from [head] on. *)
Section ring.
Context {X : Type} (cap : Z).

Lemma mod_close a b : 0 < cap -> - cap < a - b < cap -> a mod cap = b mod cap -> a = b.
Proof.
  intros Hc Hab E. rewrite (Z.div_mod a cap), (Z.div_mod b cap) in Hab |- * by lia.
  rewrite E in Hab |- *. destruct (Z.lt_trichotomy (a / cap) (b / cap)) as [?|[->|?]]; [nia|done|nia].
Qed.

Definition ring_items (slot : Z -> X) (head n : Z) : list X :=
  (fun k => slot ((head + k) mod cap)) <$> seqZ 0 n.

Lemma length_ring slot head n : 0 <= n -> length (ring_items slot head n) = Z.to_nat n.
Proof. intros Hn. unfold ring_items. by rewrite length_fmap, length_seqZ. Qed.

Lemma ring_ext slot slot' head n :
  (forall k, 0 <= k < n -> slot' ((head + k) mod cap) = slot ((head + k) mod cap)) ->
  ring_items slot' head n = ring_items slot head n.
Proof.
  intros Hs. apply list_fmap_ext. intros i k Hk. apply lookup_seqZ in Hk as [-> ?].
  apply Hs. lia.
Qed.

Lemma ring_pop slot head n :
  0 < cap -> 0 <= head < cap -> 0 < n ->
  ring_items slot head n = slot head :: ring_items slot ((head + 1) mod cap) (n - 1).
Proof.
  intros Hc Hh Hn. unfold ring_items. rewrite seqZ_cons by lia. cbn [fmap list_fmap].
  rewrite Z.add_0_r, Z.mod_small by lia. f_equal.
  change (Z.succ 0) with (1 + 0). rewrite <- (fmap_add_seqZ 1 0 (Z.pred n)), <- list_fmap_compose.
  replace (n - 1) with (Z.pred n) by lia. apply list_fmap_ext. intros i k _. unfold compose.
  f_equal. rewrite Zplus_mod_idemp_l. f_equal. lia.
Qed.

Lemma ring_push slot slot' head n x :
  0 < cap -> 0 <= head < cap -> 0 <= n < cap -> slot' ((head + n) mod cap) = x ->
  (forall i, i <> (head + n) mod cap -> 0 <= i < cap -> slot' i = slot i) ->
  ring_items slot' head (n + 1) = ring_items slot head n ++ [x].
Proof.
  intros Hc Hh Hn Hx Hs. unfold ring_items at 1. rewrite seqZ_app, fmap_app by lia.
  rewrite (seqZ_cons _ 1), (seqZ_nil _ (Z.pred 1)) by lia. cbn [fmap list_fmap]. rewrite Z.add_0_l, Hx. f_equal. apply ring_ext. intros k Hk. apply Hs; [|by apply Z.mod_pos_bound].
  intros E. apply mod_close in E; lia.
Qed.

Lemma ring_push_front slot slot' head n x :
  0 < cap -> 0 <= head < cap -> 0 <= n < cap -> slot' ((head - 1) mod cap) = x ->
  (forall i, i <> (head - 1) mod cap -> 0 <= i < cap -> slot' i = slot i) ->
  ring_items slot' ((head - 1) mod cap) (n + 1) = x :: ring_items slot head n.
Proof.
  intros Hc Hh Hn Hx Hs. rewrite ring_pop by (try apply Z.mod_pos_bound; lia). rewrite Hx. f_equal.
  replace (((head - 1) mod cap + 1) mod cap) with head.
  - replace (n + 1 - 1) with n by lia. apply ring_ext. intros k Hk.
    apply Hs; [|by apply Z.mod_pos_bound]. intros E. apply mod_close in E; lia.
  - rewrite Zplus_mod_idemp_l. replace (head - 1 + 1) with head by lia. symmetry. by apply Z.mod_small.
Qed.
End ring.

(** *** Queues are bounded sequences *)
Section queue.
Context (n size : Z).

Definition slot_of (st : bytes) (i : Z) : bytes := slice (Z.to_nat (i * size)) (Z.to_nat size) st.

Record queue_ok (q : PosixQueue) (l : list bytes) : Prop := {
  qo_size : pq_item_size q = size;
  qo_cap : pq_capacity q = n;
  qo_count : pq_count q = Z.of_nat (length l);
  qo_max : Z.of_nat (length l) <= n;
  qo_head : 0 <= pq_head q < n;
  qo_tail : pq_tail q = (pq_head q + pq_count q) mod n;
  qo_storage : length (pq_storage q) = Z.to_nat (n * size);
  qo_items : l = ring_items n (slot_of (pq_storage q)) (pq_head q) (pq_count q)
}.

(** The caller's item is long enough. *)
Definition item_ok (o : queue_op) : Prop :=
  match o with
  | OpSend (Some d) _ | OpSendFront (Some d) => (Z.to_nat size <= length d)%nat
  | _ => True
  end.

Context (n_ok : 0 < n < 2 ^ 32) (size_ok : 0 <= size) (total_ok : n * size < 2 ^ 32).

Lemma slot_bounds i : 0 <= i < n -> 0 <= i * size /\ i * size + size <= n * size.
Proof. nia. Qed.

Lemma slot_write i x st :
  0 <= i < n -> length x = Z.to_nat size -> length st = Z.to_nat (n * size) ->
  exists st', write_at (Z.to_nat (u32 (i * size))) x st = Some st'
    /\ length st' = length st /\ slot_of st' i = x
    /\ forall j, j <> i -> 0 <= j < n -> slot_of st' j = slot_of st j.
Proof.
  intros Hi Hx Hst. pose proof (slot_bounds i Hi). rewrite u32_small by lia. unfold write_at.
  destruct (Nat.leb_spec (Z.to_nat (i * size) + length x) (length st)); [|lia].
  eexists. split; [reflexivity|]. split_and!.
  - rewrite length_blit; lia.
  - unfold slot_of. rewrite <- Hx at 1. by apply slice_blit_same.
  - intros j Hj Hjn. pose proof (slot_bounds j Hjn). unfold slot_of. apply slice_blit_ne; [lia|].
    rewrite Hx. assert (j * size + size <= i * size \/ i * size + size <= j * size) by nia. lia.
Qed.

Lemma slot_read i st :
  0 <= i < n -> length st = Z.to_nat (n * size) ->
  read_at (Z.to_nat (u32 (i * size))) (Z.to_nat size) st = Some (slot_of st i).
Proof.
  intros Hi Hst. pose proof (slot_bounds i Hi). rewrite u32_small by lia. unfold read_at.
  destruct (Nat.leb_spec (Z.to_nat (i * size) + Z.to_nat size) (length st)); [done|lia].
Qed.

Lemma item_read d :
  (Z.to_nat size <= length d)%nat -> read_at 0 (Z.to_nat size) d = Some (take (Z.to_nat size) d).
Proof. intros Hd. unfold read_at. cbn [Nat.add]. by destruct (Nat.leb_spec (Z.to_nat size) (length d)); [|lia]. Qed.

Lemma next_index_ok i : 0 <= i < n -> next_index n i = Some ((i + 1) mod n).
Proof.
  intros Hi. unfold next_index. destruct (Z.eqb_spec n 0); [lia|]. f_equal.
  destruct (decide (i + 1 < 2 ^ 32)); [by rewrite u32_small by lia|].
  lia.
Qed.

(** What a pass does to the sequence. *)
Definition queue_goes (out : option queue_pass) (l : list bytes) : Prop :=
  exists o q' l', out = Some o /\ p_shared o = Some q' /\ queue_ok q' l'
    /\ foldl (fun l e => l ← l; fifo_event (Z.to_nat n) l e) (Some l) (p_events o) = Some l'.

Lemma queue_same q l sig e :
  queue_ok q l -> queue_goes (Some (MkPass (Some q) sig [] e)) l.
Proof. intros Hq. by eexists _, _, _. Qed.

Lemma receive_goes q l item t : queue_ok q l -> queue_goes (bm_queue_receive (Some q) item t) l.
Proof.
  intros Hq. pose proof Hq as [Hs Hc Hn Hm Hh Ht Hst Hl]. unfold bm_queue_receive, invalid.
  destruct item; [|by apply queue_same]. cbn [negb].
  destruct (Z.eqb_spec (pq_count q) 0) as [E0|Hne].
  - destruct (t =? 0); [|by apply queue_same]. eexists _, _, _. split; [reflexivity|].
    split; [reflexivity|]. split; [exact Hq|]. destruct l; [done|cbn in Hn; lia].
  - unfold slot_offset. rewrite Hs, slot_read by done. cbn [mbind option_bind]. rewrite Hc.
    rewrite next_index_ok by done. cbn [mbind option_bind].
    assert (Hpop := ring_pop n (slot_of (pq_storage q)) (pq_head q) (pq_count q) ltac:(lia) Hh ltac:(lia)).
    rewrite <- Hl in Hpop. destruct l as [|x l]; [done|]. injection Hpop as <- Hl'.
    cbn [length] in Hn, Hm. rewrite u32_small by lia.
    eexists _, _, l. split; [reflexivity|]. split; [reflexivity|]. split.
    + split; cbn; try done; try lia.
      * by apply Z.mod_pos_bound; lia.
      * rewrite Ht, Zplus_mod_idemp_l. f_equal. lia.
    + cbn. by rewrite decide_True.
Qed.

Lemma send_goes q l item t :
  queue_ok q l -> item_ok (OpSend item t) -> queue_goes (bm_queue_send (Some q) item t) l.
Proof.
  intros Hq Hi. pose proof Hq as [Hs Hc Hn Hm Hh Ht Hst Hl]. unfold bm_queue_send, invalid.
  destruct item as [d|]; [|by apply queue_same]. cbn in Hi.
  destruct (Z.eqb_spec (pq_count q) (pq_capacity q)) as [E0|Hne].
  - destruct (t =? 0); [|by apply queue_same]. eexists _, _, _. split; [reflexivity|].
    split; [reflexivity|]. split; [exact Hq|]. cbn. destruct (Nat.eqb_spec (length l) (Z.to_nat n)); [done|lia].
  - unfold slot_offset. rewrite Hs, item_read by done. cbn [mbind option_bind].
    assert (Htl : 0 <= pq_tail q < n) by (rewrite Ht; apply Z.mod_pos_bound; lia).
    destruct (slot_write (pq_tail q) (take (Z.to_nat size) d) (pq_storage q)) as (st & -> & Hlen & Hsl & Hot);
      [done|rewrite length_take; lia|done|].
    cbn [mbind option_bind]. rewrite Hc, next_index_ok by done. cbn [mbind option_bind].
    rewrite u32_small by lia.
    eexists _, _, (l ++ [take (Z.to_nat size) d]). split; [reflexivity|]. split; [reflexivity|]. split.
    + split; cbn; try done; try lia.
      * rewrite length_app. cbn. lia.
      * rewrite length_app. cbn. lia.
      * rewrite Ht, Zplus_mod_idemp_l. f_equal. lia.
      * rewrite Hl at 1. symmetry. apply ring_push; try lia; rewrite <- Ht; [exact Hsl|exact Hot].
    + cbn [foldl p_events mbind option_bind fifo_event].
      destruct (Nat.ltb_spec (length l) (Z.to_nat n)); [done|lia].
Qed.

Lemma send_front_goes q l item :
  queue_ok q l -> item_ok (OpSendFront item) ->
  queue_goes (bm_queue_send_to_front_from_isr (Some q) item) l.
Proof.
  intros Hq Hi. pose proof Hq as [Hs Hc Hn Hm Hh Ht Hst Hl].
  unfold bm_queue_send_to_front_from_isr, invalid.
  destruct item as [d|]; [|by apply queue_same]. cbn in Hi.
  destruct (Z.eqb_spec (pq_count q) (pq_capacity q)) as [E0|Hne].
  - eexists _, _, _. split; [reflexivity|].
    split; [reflexivity|]. split; [exact Hq|]. cbn. destruct (Nat.eqb_spec (length l) (Z.to_nat n)); [done|lia].
  - assert (Hhd : (if pq_head q =? 0 then u32 (pq_capacity q - 1) else u32 (pq_head q - 1))
      = (pq_head q - 1) mod n).
    { rewrite Hc. destruct (Z.eqb_spec (pq_head q) 0) as [->|]; rewrite u32_small by lia.
      - apply (Z.mod_unique _ _ (-1)); lia.
      - symmetry. apply Z.mod_small. lia. }
    cbv zeta. rewrite Hhd. unfold slot_offset. rewrite Hs, item_read by done. cbn [mbind option_bind].
    assert (Hb : 0 <= (pq_head q - 1) mod n < n) by (apply Z.mod_pos_bound; lia).
    destruct (slot_write ((pq_head q - 1) mod n) (take (Z.to_nat size) d) (pq_storage q)) as (st & -> & Hlen & Hsl & Hot);
      [done|rewrite length_take; lia|done|].
    cbn [mbind option_bind]. rewrite u32_small by lia.
    eexists _, _, (take (Z.to_nat size) d :: l). split; [reflexivity|]. split; [reflexivity|]. split.
    + split; cbn; try done; try lia.
      * rewrite Ht, Zplus_mod_idemp_l. f_equal. lia.
      * rewrite Hl at 1. symmetry. apply ring_push_front; done || lia.
    + cbn [foldl p_events mbind option_bind fifo_event].
      destruct (Nat.ltb_spec (length l) (Z.to_nat n)); [done|lia].
Qed.

Lemma queue_call_goes q l o : queue_ok q l -> item_ok o -> queue_goes (queue_call o (Some q)) l.
Proof.
  intros Hq Hi. destruct o; cbn [queue_call]; [by apply receive_goes|by apply send_goes|by apply send_front_goes].
Qed.

Lemma queue_created :
  exists q, bm_queue_create true true n size = Some q /\ queue_ok q [].
Proof.
  eexists. split; [reflexivity|]. split; cbn; try done; try lia.
  by rewrite length_replicate.
Qed.
End queue.

Section queues.
Context (n size : Z) (q0 : option PosixQueue).
Context (n_ok : 0 < n < 2 ^ 32) (size_ok : 0 <= size) (total_ok : n * size < 2 ^ 32).
Context (created : q0 = bm_queue_create true true n size).

Definition queue_inv (s : option PosixQueue) (h : list queue_event) : Prop :=
  exists q l, s = Some q /\ queue_ok n size q l /\ fifo_replay (Z.to_nat n) h = Some l.

Lemma queue_inv_pass o s h out :
  item_ok size o -> queue_inv s h -> queue_call o s = Some out ->
  queue_inv (p_shared out) (h ++ p_events out)
  /\ match p_end out with Wait _ o' => item_ok size o' | Return _ => True end.
Proof.
  intros Hi (q & l & -> & Hq & Hh) Ho.
  destruct (queue_call_goes n size n_ok size_ok total_ok q l o Hq Hi)
    as (o' & q' & l' & E & Es & Hq' & Hl').
  rewrite E in Ho. injection Ho as ->. split.
  - exists q', l'. split_and!; [done|done|]. unfold fifo_replay in *. by rewrite foldl_app, Hh.
  - destruct o as [it t|[d|] t|[d|]]; cbn [queue_call] in E;
      unfold bm_queue_receive, bm_queue_send, bm_queue_send_to_front_from_isr, invalid in E;
      repeat match type of E with
      | (if ?b then _ else _) = _ => destruct b
      | (_ ≫= _) = Some _ => apply bind_Some in E as (? & ? & E)
      end; by simplify_eq.
Qed.

Lemma queue_inv_start : queue_inv q0 [].
Proof.
  destruct (queue_created n size n_ok) as (q & E & Hq). subst q0. exists q, []. by rewrite E.
Qed.

(** How many tasks a queue lets go on. *)
Definition queue_avail (c : nat) (s : option PosixQueue) : nat :=
  match s with
  | Some q => Z.to_nat (if (c =? not_empty)%nat then pq_count q
                        else if (c =? not_full)%nat then pq_capacity q - pq_count q else 0)
  | None => 0
  end.

Definition queue_waits (o : queue_op) : option nat :=
  match o with
  | OpReceive true t => if t =? 0 then None else Some not_empty
  | OpSend (Some _) t => if t =? 0 then None else Some not_full
  | _ => None
  end.

Lemma queue_wakes :
  pass_wakes queue_call (item_ok size) queue_inv queue_avail queue_waits.
Proof.
  intros o s h out _ Hs Ho. destruct Hs as (q & l & -> & [Hsz Hc Hn Hm Hh Ht Hst Hl] & _).
  destruct o as [[] t|[d|] t|[d|]]; cbn [queue_call] in Ho;
    unfold bm_queue_receive, bm_queue_send, bm_queue_send_to_front_from_isr, invalid in Ho;
    cbn [negb] in Ho;
    repeat match type of Ho with
    | (if ?b then _ else _) = _ => destruct b eqn:?
    | (_ ≫= _) = Some _ => apply bind_Some in Ho as (? & ? & Ho)
    end; simplify_eq; cbn [p_end p_shared p_signals queue_waits queue_avail pq_count pq_capacity];
    bool_to_prop.
  all: try rewrite !u32_small by lia.
  all: try (destruct (Z.eqb_spec t 0); [lia|]).
  all: try (split_and!; [done|done|cbn; lia|intros [|[|c]]; cbn; lia]).
  all: intros [|[|c]]; rewrite ?signalled_cons; cbn; try destruct (Z.eqb_spec t 0); repeat case_decide;
    simplify_eq; lia.
Qed.
Lemma queues_hold m :
  reaches queue_call queue_times_out (item_ok size) q0 m -> holds (item_ok size) queue_inv m.
Proof.
  apply monitor_invariant; [|exact queue_inv_start]. intros o s h out. apply queue_inv_pass.
Qed.

(** A pass that waits goes on with the same operation. *)
Lemma queue_waits_again o s out c o' : queue_call o s = Some out -> p_end out = Wait c o' -> o' = o.
Proof.
  destruct s as [q|], o as [[] t|[d|] t|[d|]]; cbn [queue_call];
    unfold bm_queue_receive, bm_queue_send, bm_queue_send_to_front_from_isr, invalid; cbn [negb]; intros E Ew;
    repeat match type of E with
    | (if ?b then _ else _) = _ => destruct b
    | (_ ≫= _) = Some _ => apply bind_Some in E as (? & ? & E)
    end; simplify_eq; cbn in Ew; by simplify_eq.
Qed.

(** What waits without an end. *)
Definition patient (o : queue_op) : Prop := item_ok size o /\ queue_times_out o = false.

Lemma patient_run m :
  reaches queue_call queue_times_out patient q0 m -> reaches_promptly queue_call queue_times_out (item_ok size) q0 m.
Proof.
  intros Hr. assert (Hp : reaches_promptly queue_call queue_times_out patient q0 m).
  { apply (patient_prompt _ _ _ queue_inv) in Hr; [done| |by intros o [_ ?]|exact queue_inv_start].
    intros o s h out [Ho Ht] Hi E. destruct (queue_inv_pass o s h out Ho Hi E) as [HI HW]. split; [done|].
    destruct (p_end out) as [r|c o'] eqn:Ew; [done|]. split; [done|]. by rewrite (queue_waits_again _ _ _ _ _ E Ew). }
  eapply rtc_subrel; [|exact Hp]. intros m1 m2 Hst.
  destruct Hst as [m0 o [Ho _]|m0 r1 from o r2 out w k Er Ep Hs|m0 w1 c o w2 Ew|m0 w1 c o w2 Ew Et|m0 r1 c o r2 [=]].
  - by apply step_call.
  - by eapply step_run.
  - by eapply step_spurious.
  - by eapply step_timeout.
Qed.

Lemma queues_awake m :
  reaches_promptly queue_call queue_times_out (item_ok size) q0 m ->
  awake queue_avail queue_waits m /\ holds (item_ok size) queue_inv m.
Proof.
  intros Hr. assert (Hpass := fun o s h out => queue_inv_pass o s h out). split.
  - exact (monitor_awake queue_call queue_times_out (item_ok size) queue_inv Hpass queue_avail queue_waits q0 m
      queue_wakes queue_inv_start Hr).
  - exact (steps_hold queue_call queue_times_out (item_ok size) queue_inv Hpass false q0 m queue_inv_start Hr).
Qed.
End queues.

(** C31: a queue of the operating system is a bounded FIFO queue, whatever tasks
    use it.  In every interleaving of any number of tasks that receive, send, and
    send to the front, with every choice of who is woken and whose time runs out,
    what the tasks have seen is a run of a sequence of at most [n] items: a
    received item is the first one, a task that will not wait sees the queue
    empty or full only when it is.  No operation reads or writes outside of the
    storage. *)
Theorem posix_queue_fifo n size q m :
  0 < n < 2 ^ 32 -> 0 <= size -> n * size < 2 ^ 32 ->
  bm_queue_create true true n size = Some q ->
  reaches queue_call queue_times_out (item_ok size) (Some q) m ->
  exists l, fifo_replay (Z.to_nat n) (history m) = Some l /\ Z.of_nat (length l) <= n
    /\ forall o, item_ok size o -> is_Some (queue_call o (shared m)).
Proof.
  intros Hn Hs Ht Hq Hr. rewrite <- Hq in Hr.
  destruct (queues_hold n size _ Hn Hs Ht eq_refl m Hr) as [(q' & l & E & Hok & Hl) _ _].
  exists l. split_and!; [done|apply Hok|]. intros o Ho. rewrite E.
  destruct (queue_call_goes n size Hn Hs Ht q' l o Hok Ho) as (out & _ & _ & -> & _). done.
Qed.

(** C32: no wake-up of a queue is lost, as long as every task that is woken looks at the
    queue again.  Whenever a task waits to receive, at least as many tasks are on their way to
    the queue, having been woken, as there are items in it; and whenever a task waits to
    send, as there are free places.  In particular no task sleeps at a queue that has
    something for it unless another one is about to take it.  This holds of the runs in
    which no task's time is over between its being woken and its having the lock, and of all
    runs of tasks whose waits have no end ([UINT32_MAX] or 0).  In other runs a wake-up can be
    lost: [lost_wakeup]. *)
Theorem posix_queue_wakes n size q m :
  0 < n < 2 ^ 32 -> 0 <= size -> n * size < 2 ^ 32 ->
  bm_queue_create true true n size = Some q ->
  reaches_promptly queue_call queue_times_out (item_ok size) (Some q) m
  \/ reaches queue_call queue_times_out (patient size) (Some q) m ->
  exists q', shared m = Some q'
    /\ (forall o, (not_empty, o) ∈ waiting m ->
          (Z.to_nat (pq_count q') <= woken not_empty (ready m))%nat)
    /\ (forall o, (not_full, o) ∈ waiting m ->
          (Z.to_nat (pq_capacity q' - pq_count q') <= woken not_full (ready m))%nat).
Proof.
  intros Hn Hs Ht Hq Hr. rewrite <- Hq in Hr.
  assert (Hr' : reaches_promptly queue_call queue_times_out (item_ok size) (bm_queue_create true true n size) m).
  { destruct Hr as [Hr|Hr]; [done|]. by apply (patient_run n size _ Hn Hs Ht eq_refl). }
  destruct (queues_awake n size _ Hn Hs Ht eq_refl m Hr') as [[_ _ A] [(q' & l & E & _) _ _]].
  exists q'. split; [done|]. rewrite E in A.
  split; intros o Ho; [exact (A not_empty o Ho)|exact (A not_full o Ho)].
Qed.

(** ** Runs *)

(** Two places for items of two bytes; a task waits for an item, another one brings
    two, one of which the first one takes. *)
Definition pair_queue : PosixQueue := MkPosixQueue [0; 0; 0; 0] 2 2 0 0 0.

Definition pair_queue_run : monitor (option PosixQueue) queue_op queue_event :=
  MkMonitor (Some (MkPosixQueue [1; 2; 3; 4] 2 2 1 1 0)) [] []
    [Sent [1; 2]; Sent [3; 4]; Received [1; 2]].

Lemma posix_queue_fifo_witness :
  reaches queue_call queue_times_out (item_ok 2) (Some pair_queue) pair_queue_run
  /\ exists l, fifo_replay 2 (history pair_queue_run) = Some l /\ Z.of_nat (length l) <= 2
    /\ forall o, item_ok 2 o -> is_Some (queue_call o (shared pair_queue_run)).
Proof.
  refine ((fun Hr => conj Hr (posix_queue_fifo 2 2 pair_queue pair_queue_run ltac:(lia) ltac:(lia)
    ltac:(lia) eq_refl Hr)) _).
  monitor_call (OpReceive true UINT32_MAX); [exact I|]. monitor_run.
  monitor_call (OpSend (Some [1; 2]) 0); [vm_compute; intuition lia|]. monitor_run.
  monitor_call (OpSend (Some [3; 4]) 0); [vm_compute; intuition lia|].
  eapply rtc_l; [eapply (step_run _ _ _ _ _ [(Some not_empty, OpReceive true UINT32_MAX)]);
    [reflexivity|vm_compute; reflexivity|monitor_signals]|cbn].
  monitor_run. apply rtc_refl.
Defined.

(** The task that waits has been woken when there is an item for it; a second one, which
    waits for ten milliseconds, waits on. *)
Definition two_receivers : monitor (option PosixQueue) queue_op queue_event :=
  MkMonitor (Some (MkPosixQueue [1; 2; 0; 0] 2 2 1 0 1))
    [(Some not_empty, OpReceive true UINT32_MAX)] [(not_empty, OpReceive true 10)] [Sent [1; 2]].

Lemma posix_queue_wakes_witness :
  reaches_promptly queue_call queue_times_out (item_ok 2) (Some pair_queue) two_receivers
  /\ exists q', shared two_receivers = Some q'
    /\ (forall o, (not_empty, o) ∈ waiting two_receivers ->
          (Z.to_nat (pq_count q') <= woken not_empty (ready two_receivers))%nat)
    /\ (forall o, (not_full, o) ∈ waiting two_receivers ->
          (Z.to_nat (pq_capacity q' - pq_count q') <= woken not_full (ready two_receivers))%nat).
Proof.
  refine ((fun Hr => conj Hr (posix_queue_wakes 2 2 pair_queue two_receivers ltac:(lia) ltac:(lia)
    ltac:(lia) eq_refl (or_introl Hr))) _).
  monitor_call (OpReceive true UINT32_MAX); [exact I|]. monitor_run.
  monitor_call (OpReceive true 10); [exact I|]. monitor_run.
  monitor_call (OpSend (Some [1; 2]) 0); [vm_compute; intuition lia|]. monitor_run. apply rtc_refl.
Defined.

(** One task waits for ten milliseconds and another one without an end; the item that comes
    wakes the first one, whose time is over before it has the lock.  It returns, and the
    other one sleeps on at a queue with an item, with no task on its way. *)
Definition slept_over : monitor (option PosixQueue) queue_op queue_event :=
  MkMonitor (Some (MkPosixQueue [1; 2; 0; 0] 2 2 1 0 1)) [] [(not_empty, OpReceive true UINT32_MAX)] [Sent [1; 2]].

Example lost_wakeup : reaches queue_call queue_times_out (item_ok 2) (Some pair_queue) slept_over.
Proof.
  monitor_call (OpReceive true 10); [exact I|]. monitor_run.
  monitor_call (OpReceive true UINT32_MAX); [exact I|]. monitor_run.
  monitor_call (OpSend (Some [1; 2]) 0); [vm_compute; intuition lia|]. monitor_run.
  eapply rtc_l; [eapply (step_late _ _ _ _ _ []); reflexivity|cbn]. apply rtc_refl.
Qed.
