(* ===== verification/PosixStream.v ===== *)
(** * The operating system on POSIX, stream buffers and semaphores:
    src/common/bm_posix.c

    As [PosixQueue]: the passes of the operations, and what any number of tasks
    observe. *)
From S2P Require Import Prelude Monitor PosixQueue.

(** ** Stream buffers *)

Record PosixStreamBuffer : Type := MkStream {
  sb_storage : bytes; sb_capacity : Z; sb_count : Z; sb_head : Z; sb_tail : Z
}.

(** [junk] is what new memory holds. *)
Definition bm_stream_buffer_create (sb_ok storage_ok : bool) (junk : nat -> Z) (max_size : Z)
    : option PosixStreamBuffer :=
  if negb sb_ok then None
  else if negb storage_ok then None
  else Some (MkStream (junk <$> seq 0 (Z.to_nat max_size)) max_size 0 0 0).

(** The loop that stores bytes at the tail; [count] follows later. *)
Fixpoint stream_put (d : bytes) (sb : PosixStreamBuffer) : option PosixStreamBuffer :=
  match d with
  | [] => Some sb
  | b :: d =>
      st ← write_at (Z.to_nat (sb_tail sb)) [b] (sb_storage sb);
      tl ← next_index (sb_capacity sb) (sb_tail sb);
      stream_put d (MkStream st (sb_capacity sb) (sb_count sb) (sb_head sb) tl)
  end.

(** The loop that reads [n] bytes from the head. *)
Fixpoint stream_get (n : nat) (sb : PosixStreamBuffer) : option (bytes * PosixStreamBuffer) :=
  match n with
  | O => Some ([], sb)
  | S n =>
      b ← sb_storage sb !! Z.to_nat (sb_head sb);
      hd ← next_index (sb_capacity sb) (sb_head sb);
      '(d, sb) ← stream_get n (MkStream (sb_storage sb) (sb_capacity sb) (sb_count sb) hd (sb_tail sb));
      Some (b :: d, sb)
  end.

Definition stream_set_count (n : Z) (sb : PosixStreamBuffer) : PosixStreamBuffer :=
  MkStream (sb_storage sb) (sb_capacity sb) n (sb_head sb) (sb_tail sb).

(** [written] counts the bytes that earlier passes of the call have stored.  To
    receive, the flag and the size tell which pointers are not null. *)
Inductive stream_op : Type :=
| StreamSend (data : option bytes) (size timeout_ms written : Z)
| StreamReceive (data : bool) (size : option Z) (timeout_ms : Z).

Inductive stream_event : Type := Wrote (d : bytes) | Read (d : bytes).

Definition stream_pass : Type := pass_out (option PosixStreamBuffer) stream_op BmErr stream_event.

(** The outer loop of [bm_stream_buffer_send]: a pass goes round it at most three
    times, to store what there is room for and to see that it is done, or that the
    buffer is full. *)
Fixpoint stream_send_loop (fuel : nat) (data : bytes) (size timeout_ms written : Z)
    (sigs : list nat) (evs : list stream_event) (sb : PosixStreamBuffer) : option stream_pass :=
  match fuel with
  | O => None
  | S fuel =>
      if written <? size then
        if sb_count sb =? sb_capacity sb then
          Some (MkPass (Some sb) sigs evs
                  (if timeout_ms =? 0 then Return BmENOMEM
                   else Wait not_full (StreamSend (Some data) size timeout_ms written)))
        else
          let avail := u32 (sb_capacity sb - sb_count sb) in
          let to_write := if avail <? u32 (size - written) then avail else u32 (size - written) in
          d ← read_at (Z.to_nat written) (Z.to_nat to_write) data;
          sb ← stream_put d sb;
          stream_send_loop fuel data size timeout_ms (u32 (written + to_write))
            (sigs ++ [not_empty]) (evs ++ [Wrote d])
            (stream_set_count (u32 (sb_count sb + to_write)) sb)
      else Some (MkPass (Some sb) sigs evs (Return BmOK))
  end.

Definition stream_invalid (s : option PosixStreamBuffer) : option stream_pass :=
  Some (MkPass s [] [] (Return BmEINVAL)).

Definition bm_stream_buffer_send (buf : option PosixStreamBuffer) (data : option bytes)
    (size timeout_ms written : Z) : option stream_pass :=
  match buf, data with
  | Some sb, Some d => stream_send_loop 3 d size timeout_ms written [] [] sb
  | _, _ => stream_invalid buf
  end.

Definition bm_stream_buffer_receive (buf : option PosixStreamBuffer) (data : bool) (size : option Z)
    (timeout_ms : Z) : option stream_pass :=
  match buf, data, size with
  | Some sb, true, Some max_read =>
      if sb_count sb =? 0 then
        Some (MkPass buf [] [] (if timeout_ms =? 0 then Return BmETIMEDOUT
                                else Wait not_empty (StreamReceive data size timeout_ms)))
      else
        let to_read := if max_read <? sb_count sb then max_read else sb_count sb in
        '(d, sb) ← stream_get (Z.to_nat to_read) sb;
        Some (MkPass (Some (stream_set_count (u32 (sb_count sb - to_read)) sb)) [not_full] [Read d]
                (Return BmOK))
  | _, _, _ => stream_invalid buf
  end.

Definition stream_call (o : stream_op) (s : option PosixStreamBuffer) : option stream_pass :=
  match o with
  | StreamSend d n t w => bm_stream_buffer_send s d n t w
  | StreamReceive d n t => bm_stream_buffer_receive s d n t
  end.

Definition stream_times_out (o : stream_op) : bool :=
  match o with StreamSend _ _ t _ | StreamReceive _ _ t => time_ends t end.

(** *** What a stream buffer stands for *)

(** At most [capacity] bytes. *)
Definition stream_apply (capacity : nat) (l : bytes) (e : stream_event) : option bytes :=
  match e with
  | Wrote d => if (length l + length d <=? capacity)%nat then Some (l ++ d) else None
  | Read d => if decide (take (length d) l = d) then Some (drop (length d) l) else None
  end.

Definition stream_replay (capacity : nat) (h : list stream_event) : option bytes :=
  foldl (fun l e => l ← l; stream_apply capacity l e) (Some []) h.

Section stream.
Context (n : Z) (n_ok : 0 < n < 2 ^ 32).

Definition byte_at (st : bytes) (i : Z) : Z := nth (Z.to_nat i) st 0.

(** [k] more bytes have been stored, or [- k] read, than the count tells. *)
Record stream_ok (k : Z) (sb : PosixStreamBuffer) (l : bytes) : Prop := {
  so_cap : sb_capacity sb = n;
  so_count : sb_count sb + k = Z.of_nat (length l);
  so_max : Z.of_nat (length l) <= n;
  so_head : 0 <= sb_head sb < n;
  so_tail : sb_tail sb = (sb_head sb + Z.of_nat (length l)) mod n;
  so_storage : length (sb_storage sb) = Z.to_nat n;
  so_items : l = ring_items n (byte_at (sb_storage sb)) (sb_head sb) (Z.of_nat (length l))
}.

Lemma stream_put_ok d k sb l :
  stream_ok k sb l -> Z.of_nat (length l + length d) <= n ->
  exists sb', stream_put d sb = Some sb' /\ stream_ok (k + Z.of_nat (length d)) sb' (l ++ d)
    /\ sb_count sb' = sb_count sb.
Proof.
  revert k sb l. induction d as [|b d IH]; intros k sb l Hs Hl.
  - exists sb. rewrite app_nil_r. cbn. by rewrite Z.add_0_r.
  - cbn [length] in Hl. pose proof Hs as [Hc Hn Hm Hh Ht Hst Hi]. cbn [stream_put].
    assert (Htl : 0 <= sb_tail sb < n) by (rewrite Ht; apply Z.mod_pos_bound; lia).
    unfold write_at. cbn [length]. destruct (Nat.leb_spec (Z.to_nat (sb_tail sb) + 1) (length (sb_storage sb))); [|lia].
    cbn [mbind option_bind]. rewrite Hc, (next_index_ok n n_ok) by lia. cbn [mbind option_bind].
    set (sb1 := MkStream _ _ _ _ _).
    assert (H1 : stream_ok (k + 1) sb1 (l ++ [b])).
    { split; cbn; rewrite ?length_app; cbn; try done; try lia.
      - rewrite Ht, Zplus_mod_idemp_l. f_equal. lia.
      - rewrite length_blit; cbn; lia.
      - rewrite Nat2Z.inj_add. cbn. rewrite Hi at 1. symmetry. apply ring_push; try lia; rewrite <- Ht.
        + pose proof (lookup_blit_eq (Z.to_nat (sb_tail sb)) [b] (sb_storage sb) 0 ltac:(cbn; lia)
            ltac:(cbn; lia)) as Hb. rewrite Nat.add_0_r in Hb.
          exact (nth_lookup_Some _ _ _ b Hb).
        + intros j Hj Hjn. unfold byte_at. rewrite !nth_lookup, lookup_blit_ne by (cbn; lia). done. }
    destruct (IH (k + 1) sb1 (l ++ [b]) H1) as (sb' & E & H' & Ec); [rewrite length_app; cbn; lia|].
    exists sb'. rewrite <- app_assoc in H'. cbn [app length] in *. split_and!; [exact E| |by rewrite Ec].
    replace (k + Z.of_nat (S (length d))) with (k + 1 + Z.of_nat (length d)) by lia. exact H'.
Qed.

Lemma stream_get_ok m k sb l :
  stream_ok k sb l -> (m <= length l)%nat ->
  exists sb', stream_get m sb = Some (take m l, sb') /\ stream_ok (k - Z.of_nat m) sb' (drop m l)
    /\ sb_count sb' = sb_count sb.
Proof.
  revert k sb l. induction m as [|m IH]; intros k sb l Hs Hm'.
  - exists sb. by rewrite drop_0, Z.sub_0_r.
  - destruct l as [|b l]; [cbn in Hm'; lia|]. cbn [length] in Hm'.
    pose proof Hs as [Hc Hn Hm Hh Ht Hst Hi]. cbn [length] in *. cbn [stream_get].
    assert (Hp := ring_pop n (byte_at (sb_storage sb)) (sb_head sb) (Z.of_nat (S (length l))) ltac:(lia) Hh ltac:(lia)).
    rewrite <- Hi in Hp. injection Hp as Hb Hl.
    destruct (lookup_lt_is_Some_2 (sb_storage sb) (Z.to_nat (sb_head sb))) as [x Hx]; [lia|].
    assert (x = b) as -> by (rewrite Hb; unfold byte_at; by rewrite (nth_lookup_Some _ _ _ x Hx)).
    rewrite Hx. cbn [mbind option_bind]. rewrite Hc, (next_index_ok n n_ok) by lia. cbn [mbind option_bind].
    set (sb1 := MkStream _ _ _ _ _).
    assert (H1 : stream_ok (k - 1) sb1 l).
    { split; cbn; try done; try lia.
      - apply Z.mod_pos_bound. lia.
      - rewrite Ht, Zplus_mod_idemp_l. f_equal. lia.
      - rewrite Hl at 1. f_equal. lia. }
    destruct (IH (k - 1) sb1 l H1) as (sb' & E & H' & Ec); [lia|]. rewrite E. cbn [mbind option_bind].
    exists sb'. cbn [take drop]. split_and!; [done| |by rewrite Ec].
    replace (k - Z.of_nat (S m)) with (k - 1 - Z.of_nat m) by lia. exact H'.
Qed.

(** The call's buffers have the bytes that it tells of. *)
Definition stream_args (o : stream_op) : Prop :=
  match o with
  | StreamSend (Some d) size _ written => 0 <= written <= size /\ size <= Z.of_nat (length d) /\ size < 2 ^ 32
  | StreamReceive _ (Some m) _ => 0 <= m < 2 ^ 32
  | _ => True
  end.

Definition end_legal (e : pass_end stream_op BmErr) : Prop :=
  match e with Wait _ o => stream_args o | Return _ => True end.

(** What a pass does to the bytes. *)
Definition stream_goes (out : option stream_pass) (l : bytes) : Prop :=
  exists o sb l', out = Some o /\ p_shared o = Some sb /\ stream_ok 0 sb l'
    /\ foldl (fun l e => l ← l; stream_apply (Z.to_nat n) l e) (Some l) (p_events o) = Some l'
    /\ end_legal (p_end o).

Lemma set_count_ok k sb l :
  stream_ok k sb l -> stream_ok 0 (stream_set_count (sb_count sb + k) sb) l.
Proof. intros []. split; cbn; try done. lia. Qed.

(** The loop ends: after a part that fills the buffer or is the last one, it goes
    round once more. *)
Lemma stream_send_loop_goes fuel data size t written sigs evs sb l l0 :
  stream_ok 0 sb l -> 0 <= written <= size -> size <= Z.of_nat (length data) -> size < 2 ^ 32 ->
  foldl (fun l e => l ← l; stream_apply (Z.to_nat n) l e) (Some l0) evs = Some l ->
  (3 <= fuel)%nat \/ ((1 <= fuel)%nat /\ (written = size \/ sb_count sb = n)) ->
  exists o sb' l', stream_send_loop fuel data size t written sigs evs sb = Some o
    /\ p_shared o = Some sb' /\ stream_ok 0 sb' l'
    /\ foldl (fun l e => l ← l; stream_apply (Z.to_nat n) l e) (Some l0) (p_events o) = Some l'
    /\ end_legal (p_end o).
Proof.
  revert written sigs evs sb l. induction fuel as [|fuel IH]; intros written sigs evs sb l Hs Hw Hsz Hsz' Hev Hf; [lia|].
  pose proof Hs as [Hc Hn Hm Hh Ht Hst Hi]. cbn [stream_send_loop].
  destruct (Z.ltb_spec written size) as [Hlt|Hge]; [|by eexists _, _, _].
  destruct (Z.eqb_spec (sb_count sb) (sb_capacity sb)) as [Hfull|Hroom].
  { eexists _, _, _. split; [reflexivity|]. split_and!; try done. by destruct (t =? 0). }
  rewrite !(u32_small (sb_capacity sb - _)), !(u32_small (size - written)) by lia.
  set (k := if _ <? _ then _ else _).
  assert (Hk : 0 < k /\ k <= size - written /\ k <= n - sb_count sb
    /\ (k = size - written \/ k = n - sb_count sb)).
  { subst k. rewrite Hc. destruct (Z.ltb_spec (n - sb_count sb) (size - written)); lia. }
  clearbody k. destruct Hk as (Hk1 & Hk2 & Hk3 & Hk4). unfold read_at.
  destruct (Nat.leb_spec (Z.to_nat written + Z.to_nat k) (length data)) as [Hle|]; [|lia].
  cbn [mbind option_bind]. set (d := slice _ _ data).
  assert (Hd : length d = Z.to_nat k) by (by apply length_slice).
  destruct (stream_put_ok d 0 sb l Hs) as (sb1 & -> & H1 & Ec1); [lia|]. cbn [mbind option_bind].
  rewrite u32_small by lia. rewrite Ec1, u32_small by lia.
  apply set_count_ok in H1. rewrite Ec1, Hd in H1.
  replace (sb_count sb + (0 + Z.of_nat (Z.to_nat k))) with (sb_count sb + k) in H1 by lia.
  eapply IH; [exact H1|lia|lia|lia| |].
  - rewrite foldl_app, Hev. cbn [foldl mbind option_bind stream_apply].
    destruct (Nat.leb_spec (length l + length d) (Z.to_nat n)); [done|lia].
  - right. cbn [stream_set_count sb_count]. lia.
Qed.

Lemma stream_call_goes sb l o : stream_ok 0 sb l -> stream_args o -> stream_goes (stream_call o (Some sb)) l.
Proof.
  intros Hs Ha. pose proof Hs as [Hc Hn Hm Hh Ht Hst Hi].
  destruct o as [[d|] size t w|data size t]; cbn [stream_call bm_stream_buffer_send stream_args] in *.
  - destruct Ha as (Hw & Hd & Hsz).
    destruct (stream_send_loop_goes 3 d size t w [] [] sb l l) as (o & sb' & l' & ?); try done; [lia|].
    by exists o, sb', l'.
  - by eexists _, _, _.
  - unfold bm_stream_buffer_receive. destruct data; [|by eexists _, _, _].
    destruct size as [m|]; [|by eexists _, _, _].
    destruct (Z.eqb_spec (sb_count sb) 0).
    { eexists _, _, _. split; [reflexivity|]. split_and!; try done. by destruct (t =? 0). }
    set (k := if m <? _ then _ else _).
    assert (Hk : 0 <= k <= sb_count sb) by (subst k; destruct (Z.ltb_spec m (sb_count sb)); lia).
    clearbody k. destruct (stream_get_ok (Z.to_nat k) 0 sb l Hs) as (sb1 & -> & H1 & Ec); [lia|].
    cbn [mbind option_bind]. apply set_count_ok in H1. rewrite Ec in *.
    replace (sb_count sb + (0 - Z.of_nat (Z.to_nat k))) with (sb_count sb - k) in H1 by lia.
    rewrite u32_small by lia. eexists _, _, _. split; [reflexivity|]. split; [reflexivity|].
    split; [exact H1|]. split; [|done]. cbn [p_events foldl mbind option_bind stream_apply].
    rewrite length_take_le by lia. by rewrite decide_True.
Qed.

Lemma stream_created junk :
  exists sb, bm_stream_buffer_create true true junk n = Some sb /\ stream_ok 0 sb [].
Proof.
  eexists. split; [reflexivity|]. split; cbn; try done; try lia.
  by rewrite length_fmap, length_seq.
Qed.
End stream.

Section streams.
Context (n : Z) (junk : nat -> Z) (n_ok : 0 < n < 2 ^ 32).

Definition stream_inv (s : option PosixStreamBuffer) (h : list stream_event) : Prop :=
  exists sb l, s = Some sb /\ stream_ok n 0 sb l /\ stream_replay (Z.to_nat n) h = Some l.

Lemma streams_hold m :
  reaches stream_call stream_times_out stream_args (bm_stream_buffer_create true true junk n) m ->
  holds stream_args stream_inv m.
Proof.
  apply monitor_invariant.
  - intros o s h out Ho (sb & l & -> & Hs & Hh) E.
    destruct (stream_call_goes n n_ok sb l o Hs Ho) as (o' & sb' & l' & E' & Es & Hs' & Hl & He).
    rewrite E in E'. injection E' as <-. split; [|exact He].
    exists sb', l'. split_and!; [done|done|]. unfold stream_replay in *. by rewrite foldl_app, Hh.
  - destruct (stream_created n n_ok junk) as (sb & -> & Hs). by exists sb, [].
Qed.
End streams.

(** A stream buffer is a bounded FIFO queue of bytes.  In every interleaving of
    any number of tasks, the bytes that are read are the ones that were written, in
    order, at most [n] of them are in the buffer, and nothing outside of the
    storage is read or written; a call that waits for room goes on where it
    stopped. *)
Theorem posix_stream_fifo n junk sb m :
  0 < n < 2 ^ 32 -> bm_stream_buffer_create true true junk n = Some sb ->
  reaches stream_call stream_times_out stream_args (Some sb) m ->
  exists l, stream_replay (Z.to_nat n) (history m) = Some l /\ Z.of_nat (length l) <= n
    /\ forall o, stream_args o -> is_Some (stream_call o (shared m)).
Proof.
  intros Hn Hsb Hr. rewrite <- Hsb in Hr.
  destruct (streams_hold n junk Hn m Hr) as [(sb' & l & E & Hok & Hl) _ _].
  exists l. split_and!; [done|apply Hok|]. intros o Ho. rewrite E.
  destruct (stream_call_goes n Hn sb' l o Hok Ho) as (out & _ & _ & -> & _). done.
Qed.

(** ** Semaphores *)

Record PosixSemaphore : Type := MkPosixSemaphore { ps_count : Z }.

(** The flag tells whether the allocation succeeds. *)
Definition bm_mutex_create (ok : bool) : option PosixSemaphore :=
  if ok then Some (MkPosixSemaphore 1) else None.
Definition bm_semaphore_create (ok : bool) : option PosixSemaphore :=
  if ok then Some (MkPosixSemaphore 0) else None.

Inductive semaphore_op : Type := SemGive | SemTake (timeout_ms : Z).
Inductive semaphore_event : Type := Gave | Took | SawTaken.

Definition semaphore_pass : Type :=
  pass_out (option PosixSemaphore) semaphore_op BmErr semaphore_event.

Definition sem_free : nat := 0.

Definition bm_semaphore_give (semaphore : option PosixSemaphore) : option semaphore_pass :=
  match semaphore with
  | None => Some (MkPass semaphore [] [] (Return BmEINVAL))
  | Some s =>
      if ps_count s =? 0
      then Some (MkPass (Some (MkPosixSemaphore 1)) [sem_free] [Gave] (Return BmOK))
      else Some (MkPass semaphore [] [Gave] (Return BmOK))
  end.

Definition bm_semaphore_take (semaphore : option PosixSemaphore) (timeout_ms : Z)
    : option semaphore_pass :=
  match semaphore with
  | None => Some (MkPass semaphore [] [] (Return BmEINVAL))
  | Some s =>
      if ps_count s =? 0 then
        if timeout_ms =? 0 then Some (MkPass semaphore [] [SawTaken] (Return BmETIMEDOUT))
        else Some (MkPass semaphore [] [] (Wait sem_free (SemTake timeout_ms)))
      else Some (MkPass (Some (MkPosixSemaphore 0)) [] [Took] (Return BmOK))
  end.

Definition semaphore_call (o : semaphore_op) (s : option PosixSemaphore) : option semaphore_pass :=
  match o with SemGive => bm_semaphore_give s | SemTake t => bm_semaphore_take s t end.

Definition semaphore_times_out (o : semaphore_op) : bool :=
  match o with SemTake t => time_ends t | SemGive => false end.

(** Free or taken; giving a free one changes nothing. *)
Definition semaphore_apply (free : bool) (e : semaphore_event) : option bool :=
  match e with
  | Gave => Some true
  | Took => if free then Some false else None
  | SawTaken => if free then None else Some free
  end.

Definition semaphore_replay (free : bool) (h : list semaphore_event) : option bool :=
  foldl (fun b e => b ← b; semaphore_apply b e) (Some free) h.

Definition semaphore_inv (b0 : bool) (s : option PosixSemaphore) (h : list semaphore_event) : Prop :=
  exists b, s = Some (MkPosixSemaphore (if b : bool then 1 else 0)) /\ semaphore_replay b0 h = Some b.

Definition sem_avail (c : nat) (s : option PosixSemaphore) : nat :=
  match s with Some s => if (c =? sem_free)%nat then Z.to_nat (ps_count s) else 0 | None => 0 end.
Definition sem_waits (o : semaphore_op) : option nat :=
  match o with SemTake t => if t =? 0 then None else Some sem_free | SemGive => None end.

Lemma semaphore_inv_pass b0 o s h out :
  semaphore_inv b0 s h -> semaphore_call o s = Some out ->
  semaphore_inv b0 (p_shared out) (h ++ p_events out)
  /\ match p_end out with Wait _ _ => True | Return _ => True end.
Proof.
  intros (b & -> & Hh) Ho. split; [|by destruct (p_end out)].
  unfold semaphore_inv, semaphore_replay in *.
  destruct o as [|t], b; cbn in Ho; repeat case_match; simplify_eq; cbn [p_shared p_events];
    rewrite foldl_app, Hh; first [by exists true | by exists false].
Qed.

Lemma semaphore_wakes b0 :
  pass_wakes semaphore_call (fun _ => True) (semaphore_inv b0) sem_avail sem_waits.
Proof.
  intros o s h out _ (b & -> & _) Ho.
  destruct o as [|t], b; cbn in Ho; try destruct (Z.eqb_spec t 0); simplify_eq;
    cbn [p_end p_shared p_signals sem_waits sem_avail ps_count].
  all: try (destruct (Z.eqb_spec t 0); [done|]; split_and!; [done|done|done|intros [|c]; cbn; lia]).
  all: intros [|c]; rewrite ?signalled_cons; cbn; try destruct (Z.eqb_spec t 0); repeat case_decide;
    simplify_eq; lia.
Qed.

(** A semaphore excludes and wakes.  In every interleaving of any number of
    tasks, a semaphore is taken only when it is free, so that between two tasks
    that take it one has given it; a task that will not wait sees it taken only
    when it is; and when it is free, no task waits for it unless a task that has
    been woken is about to take it, in the runs in which every task that is woken looks
    again ([reaches_promptly]).  [free] tells a mutex from a semaphore, which
    starts taken. *)
Theorem posix_semaphore_spec (free : bool) s m :
  (if free then bm_mutex_create true else bm_semaphore_create true) = Some s ->
  reaches semaphore_call semaphore_times_out (fun _ => True) (Some s) m ->
  exists b, semaphore_replay free (history m) = Some b
    /\ shared m = Some (MkPosixSemaphore (if b : bool then 1 else 0))
    /\ (reaches_promptly semaphore_call semaphore_times_out (fun _ => True) (Some s) m -> b = true ->
        forall o, (sem_free, o) ∈ waiting m -> (1 <= woken sem_free (ready m))%nat).
Proof.
  intros Hs Hr.
  assert (H0 : semaphore_inv free (Some s) []) by (exists free; destruct free; by injection Hs as <-).
  assert (Hpass : forall o s h out, True -> semaphore_inv free s h -> semaphore_call o s = Some out ->
    semaphore_inv free (p_shared out) (h ++ p_events out)
    /\ match p_end out with Wait _ _ => True | Return _ => True end)
    by (intros; by eapply semaphore_inv_pass).
  destruct (monitor_invariant _ _ _ _ Hpass _ m H0 Hr) as [(b & E & Hb) _ _].
  exists b. split_and!; [done|done|]. intros Hp -> o Ho.
  destruct (monitor_awake _ _ _ _ Hpass _ _ _ m (semaphore_wakes free) H0 Hp) as [_ _ A]. rewrite E in A. exact (A sem_free o Ho).
Qed.

(** ** Runs *)

(** A sender that waits for room goes on when a reader has made some. *)
Definition stream_run : monitor (option PosixStreamBuffer) stream_op stream_event :=
  MkMonitor (Some (MkStream [3; 2] 2 1 0 1)) [] [] [Wrote [1; 2]; Read [1; 2]; Wrote [3]].

Lemma posix_stream_fifo_witness :
  reaches stream_call stream_times_out stream_args (Some (MkStream [7; 7] 2 0 0 0)) stream_run
  /\ exists l, stream_replay 2 (history stream_run) = Some l /\ Z.of_nat (length l) <= 2
    /\ forall o, stream_args o -> is_Some (stream_call o (shared stream_run)).
Proof.
  refine ((fun Hr => conj Hr (posix_stream_fifo 2 (fun _ => 7) (MkStream [7; 7] 2 0 0 0) stream_run
    ltac:(lia) eq_refl Hr)) _).
  monitor_call (StreamSend (Some [1; 2; 3]) 3 UINT32_MAX 0); [cbn; lia|]. monitor_run.
  monitor_call (StreamReceive true (Some 5) 0); [cbn; lia|]. monitor_run.
  monitor_run. apply rtc_refl.
Defined.

(** One task has the mutex, another one waits for it. *)
Definition mutex_run : monitor (option PosixSemaphore) semaphore_op semaphore_event :=
  MkMonitor (Some (MkPosixSemaphore 1)) [(Some sem_free, SemTake UINT32_MAX)]
    [] [Took; SawTaken; Gave].

Lemma posix_semaphore_spec_witness :
  reaches semaphore_call semaphore_times_out (fun _ => True) (Some (MkPosixSemaphore 1)) mutex_run
  /\ exists b, semaphore_replay true (history mutex_run) = Some b
    /\ shared mutex_run = Some (MkPosixSemaphore (if b : bool then 1 else 0))
    /\ (reaches_promptly semaphore_call semaphore_times_out (fun _ => True) (Some (MkPosixSemaphore 1)) mutex_run ->
        b = true -> forall o, (sem_free, o) ∈ waiting mutex_run -> (1 <= woken sem_free (ready mutex_run))%nat).
Proof.
  refine ((fun Hr => conj Hr (posix_semaphore_spec true (MkPosixSemaphore 1) mutex_run eq_refl Hr)) _).
  monitor_call (SemTake 0); [done|]. monitor_run.
  monitor_call (SemTake 0); [done|]. monitor_run.
  monitor_call (SemTake UINT32_MAX); [done|]. monitor_run.
  monitor_call SemGive; [done|]. monitor_run. apply rtc_refl.
Defined.
