(* ===== verification/PosixTimer.v ===== *)
(** * The operating system on POSIX, timers, tasks and time: src/common/bm_posix.c

    Every timer has a thread of its own.  As in [Monitor], what the thread does
    between taking and giving back the timer's lock is a pass, and so is every
    operation on the timer; the callback runs without the lock.  The clock, which the
    code takes to be [CLOCK_REALTIME], does not go backwards here. *)
From S2P Require Import Prelude PosixQueue.

(** ** Time *)

Record timespec : Type := MkTime { tv_sec : Z; tv_nsec : Z }.

Definition deadline_from_ms (now : timespec) (timeout_ms : Z) : timespec :=
  let ns := u64 (timeout_ms * 1000000) in
  let sec := tv_sec now + ns / 1000000000 in
  let nsec := tv_nsec now + ns mod 1000000000 in
  if 1000000000 <=? nsec then MkTime (sec + 1) (nsec - 1000000000) else MkTime sec nsec.

Definition bm_get_tick_count (now : timespec) : Z :=
  u32 (tv_sec now * 1000 + tv_nsec now / 1000000).
Definition bm_ms_to_ticks (ms : Z) : Z := ms.
Definition bm_ticks_to_ms (ticks : Z) : Z := ticks.
(** For how long the task sleeps. *)
Definition bm_delay (ms : Z) : timespec := MkTime (ms / 1000) (ms mod 1000 * 1000000).

Definition time_reached (now deadline : timespec) : bool :=
  (tv_sec deadline <? tv_sec now)
  || ((tv_sec now =? tv_sec deadline) && (tv_nsec deadline <=? tv_nsec now)).

(** What happens when the lock is tried: whether it is free, and the time
    afterwards.  [None] is still trying. *)
Fixpoint timed_lock_loop (tries : list (bool * timespec)) (deadline : timespec) : option bool :=
  match tries with
  | [] => None
  | (free, now) :: tries =>
      if free : bool then Some true
      else if time_reached now deadline then Some false
      else timed_lock_loop tries deadline
  end.

(** Is the lock taken?  [now] is the time of the call. *)
Definition timed_mutex_lock (now : timespec) (tries : list (bool * timespec)) (timeout_ms : Z)
    : option bool :=
  if timeout_ms =? UINT32_MAX then Some true
  else if timeout_ms =? 0 then match tries with [] => None | (free, _) :: _ => Some free end
  else timed_lock_loop tries (deadline_from_ms now timeout_ms).

(** *** Facts *)

Definition ns_of (t : timespec) : Z := tv_sec t * 1000000000 + tv_nsec t.
Definition time_ok (t : timespec) : Prop := 0 <= tv_nsec t < 1000000000.

Lemma deadline_ns now ms :
  time_ok now -> 0 <= ms < 2 ^ 32 ->
  ns_of (deadline_from_ms now ms) = ns_of now + ms * 1000000 /\ time_ok (deadline_from_ms now ms).
Proof.
  intros Ht Hms. unfold deadline_from_ms, ns_of, time_ok, u64, wrap in *.
  rewrite (Z.mod_small _ (2 ^ 64)) by lia.
  pose proof (Z.div_mod (ms * 1000000) 1000000000).
  pose proof (Z.mod_pos_bound (ms * 1000000) 1000000000).
  destruct (Z.leb_spec 1000000000 (tv_nsec now + (ms * 1000000) mod 1000000000)); cbn; lia.
Qed.

Lemma time_reached_ns now d :
  time_ok now -> time_ok d -> time_reached now d = (ns_of d <=? ns_of now).
Proof.
  unfold time_ok, time_reached, ns_of. intros. 
  destruct (Z.ltb_spec (tv_sec d) (tv_sec now)), (Z.eqb_spec (tv_sec now) (tv_sec d)),
    (Z.leb_spec (tv_nsec d) (tv_nsec now)); cbn; symmetry;
    first [apply Z.leb_le; lia | apply Z.leb_gt; lia].
Qed.

Lemma delay_ns ms : 0 <= ms -> ns_of (bm_delay ms) = ms * 1000000 /\ time_ok (bm_delay ms).
Proof. unfold ns_of, time_ok, bm_delay. cbn. intros. plia. Qed.

(** ** Timers *)

Record PosixTimer : Type := MkPosixTimer {
  running : bool; auto_reload : bool; delete_requested : bool; self_delete : bool;
  needs_reset : bool; period_ms : Z; timer_id : Z
}.

Definition set_running (b : bool) (t : PosixTimer) : PosixTimer :=
  MkPosixTimer b (auto_reload t) (delete_requested t) (self_delete t) (needs_reset t) (period_ms t)
    (timer_id t).
Definition set_needs_reset (b : bool) (t : PosixTimer) : PosixTimer :=
  MkPosixTimer (running t) (auto_reload t) (delete_requested t) (self_delete t) b (period_ms t)
    (timer_id t).
Definition set_period_ms (p : Z) (t : PosixTimer) : PosixTimer :=
  MkPosixTimer (running t) (auto_reload t) (delete_requested t) (self_delete t) (needs_reset t) p
    (timer_id t).
Definition set_delete_requested (t : PosixTimer) : PosixTimer :=
  MkPosixTimer (running t) (auto_reload t) true (self_delete t) (needs_reset t) (period_ms t)
    (timer_id t).
Definition set_self_delete (t : PosixTimer) : PosixTimer :=
  MkPosixTimer (running t) (auto_reload t) (delete_requested t) true (needs_reset t) (period_ms t)
    (timer_id t).

(** The flags tell whether there is memory, and a thread. *)
Definition bm_timer_create (ok thread_ok : bool) (period : Z) (reload : bool) (id : Z)
    : option PosixTimer :=
  if negb ok then None
  else if negb thread_ok then None
  else Some (MkPosixTimer false reload false false false period id).

(** *** The thread *)

(** Where the thread waits: to be started, for a deadline, for the callback to
    return; or it has ended. *)
Inductive thread_at : Type := AtStopped | AtSleep (ts : timespec) | AtCallback | AtExit.

(** The timer is [None] when it has been freed. *)
Definition thread_out : Type := option PosixTimer * thread_at.

Definition thread_exit (t : PosixTimer) : thread_out :=
  (if self_delete t then None else Some t, AtExit).

(** From the head of the outer loop on. *)
Definition thread_phase1 (now : timespec) (t : PosixTimer) : thread_out :=
  if negb (running t) && negb (delete_requested t) then (Some t, AtStopped)
  else if delete_requested t then thread_exit t
  else (Some (set_needs_reset false t), AtSleep (deadline_from_ms now (period_ms t))).

(** The timed wait for [ts] has ended. *)
Definition thread_woken (now : timespec) (timed_out : bool) (ts : timespec) (t : PosixTimer)
    : thread_out :=
  if delete_requested t then thread_exit t
  else if negb (running t) then thread_phase1 now t
  else if needs_reset t then
    (Some (set_needs_reset false t), AtSleep (deadline_from_ms now (period_ms t)))
  else if timed_out then (Some t, AtCallback)
  else (Some t, AtSleep ts).

(** The callback has returned. *)
Definition thread_returned (now : timespec) (t : PosixTimer) : thread_out :=
  if auto_reload t && running t && negb (delete_requested t)
  then (Some t, AtSleep (deadline_from_ms now (period_ms t)))
  else thread_phase1 now (set_running false t).

(** *** The operations

    [lock] is what [timed_mutex_lock] answers, [None] a null pointer; [true] signals
    the thread. *)
Definition timer_out : Type := BmErr * option PosixTimer * bool.

Definition with_lock (lock : bool) (timer : option PosixTimer) (f : PosixTimer -> PosixTimer)
    : timer_out :=
  match timer with
  | None => (BmEINVAL, timer, false)
  | Some t => if lock then (BmOK, Some (f t), true) else (BmETIMEDOUT, timer, false)
  end.

Definition bm_timer_reset (lock : bool) (timer : option PosixTimer) : timer_out :=
  with_lock lock timer (fun t => set_needs_reset true (set_running true t)).
Definition bm_timer_start (lock : bool) (timer : option PosixTimer) : timer_out :=
  with_lock lock timer (fun t => set_needs_reset true (set_running true t)).
Definition bm_timer_stop (lock : bool) (timer : option PosixTimer) : timer_out :=
  with_lock lock timer (set_running false).
Definition bm_timer_change_period (period : Z) (lock : bool) (timer : option PosixTimer) : timer_out :=
  with_lock lock timer (fun t => set_needs_reset true (set_running true (set_period_ms period t))).

(** [bm_timer_delete] in the timer's own callback: the thread frees the timer. *)
Definition bm_timer_delete_self (lock : bool) (timer : option PosixTimer) : option PosixTimer :=
  match timer with
  | None => None
  | Some t => Some (if lock then set_self_delete (set_running false (set_delete_requested t)) else t)
  end.

(** In another task: when the lock was taken, the task frees the timer a
    millisecond later. *)
Definition bm_timer_delete_other (lock : bool) (timer : option PosixTimer) : option PosixTimer * bool :=
  match timer with
  | None => (None, false)
  | Some t => if lock then (Some (set_delete_requested t), true) else (timer, false)
  end.

Definition bm_timer_get_id (timer : option PosixTimer) : Z :=
  match timer with None => 0 | Some t => u32 (timer_id t) end.

(** ** Tasks *)

(** The thread's start: it takes the function and its argument out of the block that
    it then frees. *)
Definition posix_task_trampoline {F A} (t : F * A) : F * A := t.

(** The error, the call that the new thread makes, whether a handle is stored, and
    how many blocks of memory stay allocated besides the one for the thread's start.
    The flags tell whether there is memory for the start and for the handle, and a
    thread; [want] whether the caller wants a handle. *)
Definition bm_task_create {F A} (start_ok handle_ok thread_ok want : bool) (task : F) (arg : A)
    : BmErr * option (F * A) * bool * nat :=
  if negb start_ok then (BmENOMEM, None, false, 0%nat)
  else if negb handle_ok then (BmENOMEM, None, false, 0%nat)
  else if negb thread_ok then (BmEINVAL, None, false, 0%nat)
  else (BmOK, Some (posix_task_trampoline (task, arg)), want, if want then 1%nat else 0%nat).

(** ** A timer, its thread and the tasks that use it *)

Inductive timer_event : Type :=
| Started (at_ns period : Z) | Stopped | Fired (at_ns : Z) | Ended (at_ns : Z) | Deleted.

(** [woken]: the thread has been signalled since it began to wait. *)
Record timer_system : Type := MkSystem {
  sys_timer : option PosixTimer; sys_at : thread_at; sys_woken : bool; sys_clock : timespec;
  sys_events : list timer_event
}.

Definition system_start (t : PosixTimer) (now : timespec) : timer_system :=
  MkSystem (Some t) AtStopped true now [].

(** The next pass of the thread; [None] is undefined behaviour or an ended thread. *)
Definition thread_pass (timed_out : bool) (s : timer_system) : option timer_system :=
  t ← sys_timer s;
  let now := sys_clock s in
  match sys_at s with
  | AtStopped =>
      let '(t', a) := thread_phase1 now t in Some (MkSystem t' a false now (sys_events s))
  | AtSleep ts =>
      let '(t', a) := thread_woken now timed_out ts t in
      let fires := match a with AtCallback => [Fired (ns_of now)] | _ => [] end in
      Some (MkSystem t' a false now (sys_events s ++ fires))
  | AtCallback =>
      let '(t', a) := thread_returned now t in
      Some (MkSystem t' a false now (sys_events s ++ [Ended (ns_of now)]))
  | AtExit => None
  end.

Definition time_is_up (s : timer_system) : bool :=
  match sys_at s with AtSleep ts => time_reached (sys_clock s) ts | _ => false end.

Inductive timer_op : Type := OpStart | OpReset | OpStop | OpChangePeriod (period : Z).

Definition timer_op_ok (o : timer_op) : Prop :=
  match o with OpChangePeriod p => 0 <= p < 2 ^ 32 | _ => True end.

Definition timer_call (o : timer_op) (lock : bool) (t : option PosixTimer) : timer_out :=
  match o with
  | OpStart => bm_timer_start lock t
  | OpReset => bm_timer_reset lock t
  | OpStop => bm_timer_stop lock t
  | OpChangePeriod p => bm_timer_change_period p lock t
  end.

(** What is seen of a call that succeeds. *)
Definition timer_call_event (o : timer_op) (now : Z) (t : PosixTimer) : timer_event :=
  match o with
  | OpStart | OpReset => Started now (period_ms t)
  | OpStop => Stopped
  | OpChangePeriod p => Started now p
  end.

(** A signal is lost on a thread that does not wait. *)
Definition waits (a : thread_at) : bool :=
  match a with AtStopped | AtSleep _ => true | AtCallback | AtExit => false end.

(** The thread may wake up without a signal; the tasks call when they like, in the
    callback too, but not after the timer has been deleted. *)
Inductive timer_step : timer_system -> timer_system -> Prop :=
| timer_time s now :
    time_ok now -> ns_of (sys_clock s) <= ns_of now ->
    timer_step s (MkSystem (sys_timer s) (sys_at s) (sys_woken s) now (sys_events s))
| timer_thread s timed_out s' :
    (timed_out = true -> time_is_up s = true) -> thread_pass timed_out s = Some s' -> timer_step s s'
| timer_called s t o lock err t' signal :
    sys_timer s = Some t -> delete_requested t = false -> timer_op_ok o ->
    timer_call o lock (Some t) = (err, t', signal) ->
    timer_step s (MkSystem t' (sys_at s) (sys_woken s || (signal && waits (sys_at s))) (sys_clock s)
      (sys_events s ++ if signal then [timer_call_event o (ns_of (sys_clock s)) t] else []))
| timer_deleted s t lock :
    sys_timer s = Some t -> delete_requested t = false -> sys_at s = AtCallback ->
    timer_step s (MkSystem (bm_timer_delete_self lock (Some t)) AtCallback (sys_woken s) (sys_clock s)
      (sys_events s ++ if lock then [Deleted] else [])).

(** *** What a timer stands for *)

(** Since when it is armed, for how long, and whether its callback runs. *)
Record armed : Type := MkArmed { armed_since : option Z; armed_period : Z; armed_busy : bool }.

(** A timer fires only when it is armed, its period after it was armed at the
    earliest, and not while its callback runs.  When the callback has returned, a
    timer that reloads and is still armed is armed anew, another one is not. *)
Definition armed_event (reload : bool) (a : armed) (e : timer_event) : option armed :=
  match e with
  | Started now p => Some (MkArmed (Some now) p (armed_busy a))
  | Stopped | Deleted => Some (MkArmed None (armed_period a) (armed_busy a))
  | Fired now =>
      since ← armed_since a;
      if negb (armed_busy a) && (since + armed_period a * 1000000 <=? now)
      then Some (MkArmed (Some since) (armed_period a) true) else None
  | Ended now =>
      if armed_busy a then
        Some (MkArmed (if reload then since ← armed_since a; Some now else None) (armed_period a) false)
      else None
  end.

Definition armed_replay (reload : bool) (p : Z) (h : list timer_event) : option armed :=
  foldl (fun a e => a ← a; armed_event reload a e) (Some (MkArmed None p false)) h.

Section timers.
Context (reload : bool) (p : Z).

(** How the timer stands to it. *)
Record timer_core (t : PosixTimer) (now : timespec) (a : armed) : Prop := {
  tc_reload : auto_reload t = reload;
  tc_self : delete_requested t = self_delete t;
  tc_running : armed_since a = None <-> running t = false;
  tc_period : armed_period a = period_ms t;
  tc_range : 0 <= period_ms t < 2 ^ 32;
  tc_past : forall since, armed_since a = Some since -> since <= ns_of now
}.

(** How its thread does. *)
Record thread_ok (t : PosixTimer) (s : timer_system) (a : armed) : Prop := {
  th_deleted : delete_requested t = true -> sys_at s = AtCallback /\ running t = false;
  th_due : forall ts, sys_at s = AtSleep ts -> time_ok ts
    /\ (needs_reset t = false -> forall since, armed_since a = Some since ->
          since + period_ms t * 1000000 <= ns_of ts)
    /\ (needs_reset t = false \/ sys_woken s = false ->
          ns_of ts <= ns_of (sys_clock s) + period_ms t * 1000000)
    /\ (running t = false -> sys_woken s = true);
  th_stopped : sys_at s = AtStopped -> running t = true -> sys_woken s = true
}.

Definition calls_back (at_ : thread_at) : bool := match at_ with AtCallback => true | _ => false end.

Record system_ok (s : timer_system) : Prop := {
  sok_clock : time_ok (sys_clock s);
  sok_alive : sys_timer s = None <-> sys_at s = AtExit;
  sok_armed : exists a, armed_replay reload p (sys_events s) = Some a
    /\ armed_busy a = calls_back (sys_at s)
    /\ forall t, sys_timer s = Some t -> timer_core t (sys_clock s) a /\ thread_ok t s a
}.

Lemma armed_replay_snoc h e a :
  armed_replay reload p h = Some a -> armed_replay reload p (h ++ [e]) = armed_event reload a e.
Proof. intros H. unfold armed_replay in *. by rewrite foldl_app, H. Qed.

Lemma timer_core_later t now now' a :
  timer_core t now a -> ns_of now <= ns_of now' -> timer_core t now' a.
Proof. intros [] Hn. split; try done. intros since H. specialize (tc_past0 since H). lia. Qed.

Lemma thread_ok_later t s a now :
  thread_ok t s a -> ns_of (sys_clock s) <= ns_of now ->
  thread_ok t (MkSystem (sys_timer s) (sys_at s) (sys_woken s) now (sys_events s)) a.
Proof.
  intros [] Hn. split; cbn; try done.
  intros ts H. destruct (th_due0 ts H) as (H1 & H2 & H3 & H4). split_and!; try done.
  intros H'. specialize (H3 H'). lia.
Qed.

(** A new deadline. *)
Lemma sleep_ok t b now a ev :
  time_ok now -> timer_core t now a -> armed_busy a = false -> armed_replay reload p ev = Some a ->
  running t = true -> delete_requested t = false ->
  system_ok (MkSystem (Some (set_needs_reset b t)) (AtSleep (deadline_from_ms now (period_ms t)))
               false now ev).
Proof.
  intros Hn [] Hb He Hr Hd. destruct (deadline_ns now (period_ms t) Hn tc_range0) as [Ens Hok].
  split; [done|done|]. exists a. split_and!; [done|done|]. cbn. intros ? [= <-]. split; [by split|].
  split; cbn; [by rewrite Hd| |done]. intros ts [= <-]. rewrite Ens. split_and!; [done| |lia|by rewrite Hr].
  intros _ since Hs. specialize (tc_past0 since Hs). lia.
Qed.

Lemma phase1_ok t now a ev t' at_ :
  time_ok now -> timer_core t now a -> armed_busy a = false -> armed_replay reload p ev = Some a ->
  thread_phase1 now t = (t', at_) -> system_ok (MkSystem t' at_ false now ev).
Proof.
  intros Hn Hc Hb He. unfold thread_phase1, thread_exit.
  destruct (delete_requested t) eqn:Ed, (running t) eqn:Er; cbn; intros [= <- <-].
  1, 2: rewrite <- (tc_self _ _ _ Hc), Ed; split; [done|done|]; exists a; by split_and!.
  - by apply (sleep_ok t false now a).
  - split; [done|done|]. exists a. split_and!; [done|done|]. cbn. intros ? [= <-]. split; [done|].
    split; cbn; [by rewrite Ed|done|by rewrite Er].
Qed.

Lemma woken_ok timed_out ts s s' :
  system_ok s -> (timed_out = true -> time_is_up s = true) -> sys_at s = AtSleep ts ->
  thread_pass timed_out s = Some s' -> system_ok s'.
Proof.
  intros [Hn Ha (a & He & Hb & Ht)] Htime Eat. unfold thread_pass, thread_woken.
  destruct (sys_timer s) as [t|] eqn:Et; [|done]. cbn [mbind option_bind].
  destruct (Ht t eq_refl) as [Hc Hth]. rewrite Eat in *. cbn in Hb.
  destruct (delete_requested t) eqn:Ed; [by destruct (th_deleted _ _ _ Hth Ed) as [? _]; congruence|].
  destruct (running t) eqn:Er; cbn [negb].
  2: { unfold thread_phase1. rewrite Er, Ed. cbn. intros [= <-]. rewrite app_nil_r.
       eapply phase1_ok; try done. unfold thread_phase1. by rewrite Er, Ed. }
  destruct (needs_reset t) eqn:Enr.
  { intros [= <-]. cbn. rewrite app_nil_r. by apply (sleep_ok t false _ a). }
  destruct (th_due _ _ _ Hth ts Eat) as (Hts & Hdue & Hle & _).
  destruct timed_out; intros [= <-].
  - specialize (Htime eq_refl). unfold time_is_up in Htime. rewrite Eat, time_reached_ns in Htime by done.
    apply Z.leb_le in Htime. destruct (armed_since a) as [since|] eqn:Es;
      [|by rewrite (proj1 (tc_running _ _ _ Hc) Es) in Er].
    specialize (Hdue Enr since eq_refl).
    split; [done|done|]. exists (MkArmed (Some since) (armed_period a) true).
    cbn [sys_events sys_at sys_timer].
    rewrite (armed_replay_snoc _ _ _ He). cbn. rewrite Es, Hb, (tc_period _ _ _ Hc). cbn.
    destruct (Z.leb_spec (since + period_ms t * 1000000) (ns_of (sys_clock s))); [|lia].
    split_and!; [done|done|]. intros ? [= <-]. split; [|by split; cbn; rewrite ?Ed].
    destruct Hc. split; cbn; try done; [by rewrite Er|by rewrite <- Es].
  - split; [done|done|]. exists a. cbn. rewrite app_nil_r. split_and!; [done|done|].
    intros ? [= <-]. split; [done|]. split; cbn; [by rewrite Ed| |done].
    intros ? [= <-]. split_and!; [done|done|by auto|by rewrite Er].
Qed.

Lemma returned_ok timed_out s s' :
  system_ok s -> sys_at s = AtCallback -> thread_pass timed_out s = Some s' -> system_ok s'.
Proof.
  intros [Hn Ha (a & He & Hb & Ht)] Eat. unfold thread_pass, thread_returned.
  destruct (sys_timer s) as [t|] eqn:Et; [|done]. cbn [mbind option_bind]. rewrite Eat in *.
  destruct (Ht t eq_refl) as [Hc Hth]. cbn in Hb.
  set (ev := sys_events s ++ _).
  assert (Hev : armed_replay reload p ev = armed_event reload a (Ended (ns_of (sys_clock s))))
    by (by apply armed_replay_snoc).
  cbn in Hev. rewrite Hb in Hev. pose proof (th_deleted _ _ _ Hth) as Hdel.
  destruct (auto_reload t && running t && negb (delete_requested t)) eqn:Ec.
  - intros [= <-]. rewrite !andb_true_iff, negb_true_iff in Ec. destruct Ec as [[E1 E2] E3].
    assert (Er : reload = true) by (by rewrite <- (tc_reload _ _ _ Hc)). rewrite Er in Hev at 2.
    replace t with (set_needs_reset (needs_reset t) t) at 1 by (by destruct t).
    refine (sleep_ok _ _ _ _ _ Hn _ _ Hev E2 E3); [|done].
    destruct Hc. split; cbn; try done.
    + rewrite <- tc_running0. by destruct (armed_since a).
    + intros since. destruct (armed_since a); cbn; intros [= <-]. lia.
  - assert (Hn' : (if reload then (armed_since a ≫= fun _ => Some (ns_of (sys_clock s))) else None) = None).
    { destruct Hc. rewrite tc_reload0 in Ec. destruct reload; [|done]. cbn in Ec.
      destruct (running t) eqn:Er; [|by rewrite (proj2 tc_running0 eq_refl)].
      cbn in Ec. apply negb_false_iff in Ec. by destruct (Hdel Ec). }
    rewrite Hn' in Hev. destruct (thread_phase1 _ _) as [t' at_] eqn:E1. intros [= <-].
    refine (phase1_ok _ _ _ _ _ _ Hn _ _ Hev E1); [|done]. destruct Hc. by split.
Qed.

Lemma thread_pass_ok timed_out s s' :
  system_ok s -> (timed_out = true -> time_is_up s = true) -> thread_pass timed_out s = Some s' ->
  system_ok s'.
Proof.
  intros Hs Ht Hp. destruct (sys_at s) as [|ts| |] eqn:Eat.
  - revert Hp. destruct Hs as [Hn Ha (a & He & Hb & Hth)]. unfold thread_pass. rewrite Eat in *.
    destruct (sys_timer s) as [t|]; [|done]. cbn.
    destruct (thread_phase1 _ _) as [t' at_] eqn:E1. intros [= <-].
    eapply phase1_ok; try done. by apply Hth.
  - by eapply woken_ok.
  - by eapply returned_ok.
  - revert Hp. unfold thread_pass. rewrite Eat. by destruct (sys_timer s).
Qed.

Lemma timer_called_ok s t o lock err t' signal :
  system_ok s -> sys_timer s = Some t -> delete_requested t = false -> timer_op_ok o ->
  timer_call o lock (Some t) = (err, t', signal) ->
  system_ok (MkSystem t' (sys_at s) (sys_woken s || (signal && waits (sys_at s))) (sys_clock s)
    (sys_events s ++ if signal then [timer_call_event o (ns_of (sys_clock s)) t] else [])).
Proof.
  intros [Hn Ha (a & He & Hb & Hth)] Et Ed Ho Hcall. destruct (Hth t Et) as [Hc [Hdel Hdue Hst]].
  destruct lock.
  2: { assert (t' = Some t /\ signal = false) as [-> ->] by (destruct o; cbn in Hcall; by simplify_eq).
       split; cbn; [done|by rewrite <- Ha, Et|]. exists a. rewrite app_nil_r, orb_false_r.
       split_and!; [done|done|]. intros ? [= <-]. split; [done|by split]. }
  assert (Hat : sys_at s <> AtExit) by (intros H; apply Ha in H; congruence).
  destruct Hc, o; cbn in Hcall, Ho; simplify_eq; (split; [done|split; [done|intros H; by destruct Hat]|]);
    eexists; cbn [sys_events]; rewrite (armed_replay_snoc _ _ _ He); (split; [reflexivity|]);
    (split; [done|]); cbn; intros ? [= <-]; (split; [split; cbn; try done; intros ? [= <-]; lia|]);
    (split; cbn; [by rewrite Ed| |try done; intros ->; by rewrite orb_true_r]);
    intros ts Ets; destruct (Hdue ts Ets) as (D1 & D2 & D3 & D4); rewrite Ets; cbn;
    rewrite orb_true_r; (split_and!; [done|try done|intros [?|?]; first [done|by auto]|done]).
Qed.

Lemma timer_step_ok s s' : timer_step s s' -> system_ok s -> system_ok s'.
Proof.
  intros [s0 now Hn Hle|s0 timed_out s1 Ht Hp|s0 t o lock err t' signal Et Ed Ho Hcall|s0 t lock Et Ed Eat] Hs.
  - destruct Hs as [H1 H2 (a & He & Hb & Hth)]. split; cbn; [done|done|]. exists a.
    split_and!; [done|done|]. intros t Et. destruct (Hth t Et).
    split; [by eapply timer_core_later|by apply thread_ok_later].
  - by eapply thread_pass_ok.
  - by eapply timer_called_ok.
  - destruct Hs as [H1 H2 (a & He & Hb & Hth)]. destruct (Hth t Et) as [Hc [Hdel Hdue Hst]].
    rewrite Eat in *. destruct lock.
    + split; [done|done|]. exists (MkArmed None (armed_period a) (armed_busy a)).
      cbn [sys_events sys_at sys_timer]. rewrite (armed_replay_snoc _ _ _ He). split_and!; [done|done|]. intros ? [= <-].
      split; [by destruct Hc; split|by split].
    + split; cbn; [done|done|]. exists a. rewrite app_nil_r. split_and!; [done|done|].
      intros ? [= <-]. split; [done|by split].
Qed.

Lemma system_start_ok t now :
  time_ok now -> 0 <= p < 2 ^ 32 ->
  forall id, bm_timer_create true true p reload id = Some t -> system_ok (system_start t now).
Proof.
  intros Hn Hp id [= <-]. split; [done|done|]. exists (MkArmed None p false).
  split_and!; [done|done|]. intros ? [= <-]. by split; split.
Qed.

Lemma timers_ok t now id s :
  time_ok now -> 0 <= p < 2 ^ 32 -> bm_timer_create true true p reload id = Some t ->
  rtc timer_step (system_start t now) s -> system_ok s.
Proof.
  intros Hn Hp Ht Hr. assert (H0 : system_ok (system_start t now)) by (by eapply system_start_ok).
  induction Hr as [|s1 s2 s3 Hst _ IH]; [done|]. by apply IH, (timer_step_ok s1).
Qed.
End timers.

(** A timer fires when it should only, and is freed once.  Whatever the tasks
    do, in the callback too, and whenever the thread runs: the timer fires only when
    it was started and not stopped since, not before its period has passed since it
    was last started, reset or given a new period, or since its callback last
    returned, and not while its callback runs; a timer that does not reload
    fires once.  Deleted in its callback, it is freed when the callback has
    returned, and the thread does not touch it any more: the thread's next pass is
    defined unless the thread has ended. *)
Theorem posix_timer_fires_when_due reload p id t now s :
  time_ok now -> 0 <= p < 2 ^ 32 -> bm_timer_create true true p reload id = Some t ->
  rtc timer_step (system_start t now) s ->
  is_Some (armed_replay reload p (sys_events s))
  /\ (sys_timer s = None <-> sys_at s = AtExit)
  /\ (sys_at s <> AtExit -> forall timed_out, is_Some (thread_pass timed_out s)).
Proof.
  intros Hn Hp Ht Hr. destruct (timers_ok reload p t now id s Hn Hp Ht Hr) as [_ Ha (a & He & _)].
  split; [by eexists|split; [exact Ha|]]. intros Hat timed_out. unfold thread_pass.
  destruct (sys_timer s); [|by destruct Hat; apply Ha].
  destruct (sys_at s); cbn; try done; by destruct (_ : thread_out).
Qed.

(** *** Left alone

    When no task interferes and the thread runs at once: it runs when it has been
    signalled or its time is up, and otherwise time passes until its deadline. *)
Definition alone_step (s : timer_system) : option timer_system :=
  match sys_at s with
  | AtStopped => if sys_woken s then thread_pass false s else None
  | AtSleep ts =>
      if sys_woken s || time_reached (sys_clock s) ts then thread_pass (time_reached (sys_clock s) ts) s
      else Some (MkSystem (sys_timer s) (sys_at s) (sys_woken s) ts (sys_events s))
  | AtCallback | AtExit => None
  end.

Fixpoint alone (n : nat) (s : timer_system) : option timer_system :=
  match n with
  | O => Some s
  | S n => s ← alone_step s; alone n s
  end.

Definition fires_within (d : Z) (s : timer_system) : Prop :=
  exists n s', alone n s = Some s' /\ sys_at s' = AtCallback
    /\ sys_events s' = sys_events s ++ [Fired (ns_of (sys_clock s'))]
    /\ ns_of (sys_clock s') <= ns_of (sys_clock s) + d.

Lemma fires_within_step d e s s1 :
  alone_step s = Some s1 -> sys_events s1 = sys_events s ->
  ns_of (sys_clock s1) <= ns_of (sys_clock s) + e -> fires_within d s1 -> fires_within (e + d) s.
Proof.
  intros E Ev Ec (n & s' & H1 & H2 & H3 & H4). exists (S n), s'. cbn. rewrite E.
  split_and!; [done|done|by rewrite <- Ev|lia].
Qed.

Section alone.
Context (tm : PosixTimer) (tm_running : running tm = true) (tm_kept : delete_requested tm = false).

Lemma fires_due ts w now ev :
  needs_reset tm = false -> time_reached now ts = true ->
  fires_within 0 (MkSystem (Some tm) (AtSleep ts) w now ev).
Proof.
  intros Hnr Ht. eexists 1%nat, _. cbn. unfold alone_step, thread_pass. cbn.
  rewrite Ht, orb_true_r. unfold thread_woken. rewrite tm_kept, tm_running, Hnr. cbn.
  split_and!; [reflexivity|done|done|cbn; lia].
Qed.

(** The thread sleeps until its deadline. *)
Lemma fires_sleep ts w now ev d :
  needs_reset tm = false -> time_ok now -> time_ok ts -> ns_of ts <= ns_of now + d -> 0 <= d ->
  fires_within d (MkSystem (Some tm) (AtSleep ts) w now ev).
Proof.
  intros Hnr Hn Hts Hd Hd0. destruct (time_reached now ts) eqn:Er.
  { destruct (fires_due ts w now ev Hnr Er) as (n & s' & ? & ? & ? & ?). exists n, s'. by split_and!; try lia. }
  assert (Hw : fires_within d (MkSystem (Some tm) (AtSleep ts) false now ev)).
  { replace d with (d + 0) by lia.
    refine (fires_within_step 0 d _ (MkSystem (Some tm) (AtSleep ts) false ts ev) _ _ _ _);
      [|done|done|apply fires_due; [done|rewrite time_reached_ns by done; apply Z.leb_refl]].
    unfold alone_step. cbn. by rewrite Er. }
  destruct w; [|done]. replace d with (0 + d) by lia.
  eapply (fires_within_step d 0); [..|exact Hw]; [|done|cbn; lia].
  unfold alone_step, thread_pass, thread_woken. cbn. rewrite Er, tm_kept, tm_running, Hnr. cbn.
  by rewrite app_nil_r.
Qed.
End alone.

(** A new deadline. *)
Lemma fires_fresh tm now ev :
  running tm = true -> delete_requested tm = false -> 0 <= period_ms tm < 2 ^ 32 -> time_ok now ->
  fires_within (period_ms tm * 1000000)
    (MkSystem (Some (set_needs_reset false tm)) (AtSleep (deadline_from_ms now (period_ms tm))) false now ev).
Proof.
  intros Hr Hd Hp Hn. destruct (deadline_ns now (period_ms tm) Hn Hp) as [E Hok].
  apply fires_sleep; try done; lia.
Qed.

Lemma fires_ok reload p s tm :
  system_ok reload p s -> sys_timer s = Some tm -> running tm = true -> sys_at s <> AtCallback ->
  fires_within (2 * period_ms tm * 1000000) s.
Proof.
  intros [Hn Ha (a & _ & _ & Hth)] Et Hr Hat. destruct (Hth tm Et) as [[] [Hdel Hdue Hst]]. clear Hth.
  assert (Hd : delete_requested tm = false)
    by (destruct (delete_requested tm); [by destruct (Hdel eq_refl); congruence|done]).
  pose proof (fires_fresh tm) as Hfresh.
  destruct s as [tm' at_ w now ev]. cbn in *. subst tm'.
  replace (2 * period_ms tm * 1000000) with (period_ms tm * 1000000 + period_ms tm * 1000000) by lia.
  destruct at_ as [|ts| |]; try done; [..|by destruct Ha as [_ Ha]; specialize (Ha eq_refl)].
  - eapply fires_within_step; [..|by apply Hfresh]; [|done|cbn; lia].
    unfold alone_step, thread_pass, thread_phase1. cbn. by rewrite Hst, Hr, Hd.
  - destruct (Hdue ts eq_refl) as (Hts & _ & Hle & _). destruct (needs_reset tm) eqn:Enr.
    2: { destruct (fires_sleep tm Hr Hd ts w now ev (period_ms tm * 1000000)) as (n & s' & ? & ? & ? & ?);
         [done|done|done|auto|lia|]. exists n, s'. by split_and!; try lia. }
    assert (Hpass : forall w' now', time_ok now' -> w' || time_reached now' ts = true ->
      fires_within (0 + period_ms tm * 1000000) (MkSystem (Some tm) (AtSleep ts) w' now' ev)).
    { intros w' now' Hn' Hw'. eapply fires_within_step; [..|by apply Hfresh]; [|done|cbn; lia].
      unfold alone_step, thread_pass, thread_woken. cbn. rewrite Hw', Hd, Hr, Enr. cbn. by rewrite app_nil_r. }
    destruct (w || time_reached now ts) eqn:Ew.
    + destruct (Hpass w now Hn Ew) as (n & s' & ? & ? & ? & ?). exists n, s'. by split_and!; try lia.
    + apply orb_false_iff in Ew as [-> Ew].
      refine (fires_within_step _ _ _ (MkSystem (Some tm) (AtSleep ts) false ts ev) _ _ _ _);
        [|done|by auto|].
      * unfold alone_step. cbn. by rewrite Ew.
      * apply (Hpass false ts Hts). rewrite time_reached_ns by done. apply Z.leb_refl.
Qed.

(** C33: a timer that runs and is left alone fires.  From every state that the tasks can
    bring about in which the timer runs and its callback does not, its thread is woken up or
    has a deadline, and calls the callback within two periods of the clock, if no task calls
    an operation of the timer in the meantime and the clock is not put back.  (The code reads
    [CLOCK_REALTIME]: a timer whose deadline was computed before that clock is put back by an
    hour waits for an hour, [clock_put_back]; one that is started while its callback runs
    is late or lost, [restart_in_callback], [one_shot_restart_lost].) *)
Theorem posix_timer_fires reload p id t now s tm :
  time_ok now -> 0 <= p < 2 ^ 32 -> bm_timer_create true true p reload id = Some t ->
  rtc timer_step (system_start t now) s -> sys_timer s = Some tm -> running tm = true ->
  sys_at s <> AtCallback ->
  exists n s', alone n s = Some s' /\ sys_at s' = AtCallback
    /\ sys_events s' = sys_events s ++ [Fired (ns_of (sys_clock s'))]
    /\ ns_of (sys_clock s') <= ns_of (sys_clock s) + 2 * period_ms tm * 1000000.
Proof.
  intros Hn Hp Ht Hr. apply (fires_ok reload p). by eapply timers_ok.
Qed.

(** ** Runs *)

Definition T0 : timespec := MkTime 1 999000000.

(** A timer that reloads and is started again in its callback does not fire after
    its period, 5 ms, but after two: the flag that asks for a new deadline is seen
    when the next one has passed. *)
Example restart_in_callback :
  let t := MkPosixTimer true true false false false 5 0 in
  (s ← thread_pass true (MkSystem (Some t) (AtSleep T0) false T0 []);
   let '(_, t', _) := bm_timer_start true (sys_timer s) in
   s ← thread_pass false (MkSystem t' (sys_at s) false (sys_clock s) (sys_events s));
   s ← alone 2 s;
   let busy := calls_back (sys_at s) in
   s ← alone 2 s;
   Some (busy, sys_events s)) =
  Some (false, [Fired 1999000000; Ended 1999000000; Fired 2009000000]).
Proof. vm_compute. reflexivity. Qed.

(** One that does not reload, started in its callback, is not armed. *)
Example one_shot_restart_lost :
  let t := MkPosixTimer true false false false false 5 0 in
  (s ← thread_pass true (MkSystem (Some t) (AtSleep T0) false T0 []);
   let '(_, t', _) := bm_timer_start true (sys_timer s) in
   s ← thread_pass false (MkSystem t' (sys_at s) false (sys_clock s) (sys_events s));
   t ← sys_timer s; Some (sys_at s, running t)) = Some (AtStopped, false).
Proof. vm_compute. reflexivity. Qed.

(** The deadline was computed, and then the clock was put back by an hour: the thread sleeps
    until the clock shows the deadline, an hour and five milliseconds later. *)
Example clock_put_back :
  let s := MkSystem (Some (MkPosixTimer true true false false false 5 0)) (AtSleep (MkTime 3602 4000000)) false T0 [] in
  (fun s' => (sys_at s', ns_of (sys_clock s') - ns_of (sys_clock s))) <$> alone 2 s
  = Some (AtCallback, (3600 * 1000 + 5) * 1000000).
Proof. vm_compute. reflexivity. Qed.

(** Deleted by another task while its callback runs, for longer than a millisecond:
    the thread goes on with freed memory. *)
Example delete_during_callback :
  let t := MkPosixTimer true false false false false 5 0 in
  exists s, thread_pass true (MkSystem (Some t) (AtSleep T0) false T0 []) = Some s
    /\ fst (bm_timer_delete_other true (sys_timer s)) <> None
    /\ thread_pass false (MkSystem None (sys_at s) false (bm_delay 2) (sys_events s)) = None.
Proof. eexists. split; [reflexivity|done]. Qed.

Definition run_of_timer : timer_system :=
  MkSystem (Some (MkPosixTimer true true false false false 5 7)) (AtSleep (MkTime 2 4000000)) false
    T0 [Started 1999000000 5].

Lemma run_of_timer_reached :
  rtc timer_step (system_start (MkPosixTimer false true false false false 5 7) T0) run_of_timer.
Proof.
  eapply rtc_l; [by eapply (timer_called _ _ OpStart true)|].
  eapply rtc_l; [eapply (timer_thread _ false); [done|vm_compute; reflexivity]|].
  apply rtc_refl.
Qed.

Lemma posix_timer_fires_when_due_witness :
  is_Some (armed_replay true 5 (sys_events run_of_timer))
  /\ (sys_timer run_of_timer = None <-> sys_at run_of_timer = AtExit)
  /\ (sys_at run_of_timer <> AtExit -> forall timed_out, is_Some (thread_pass timed_out run_of_timer)).
Proof.
  apply (posix_timer_fires_when_due true 5 7 (MkPosixTimer false true false false false 5 7) T0);
    [vm_compute; intuition done|done|done|exact run_of_timer_reached].
Defined.

Lemma posix_timer_fires_witness :
  exists n s', alone n run_of_timer = Some s' /\ sys_at s' = AtCallback
    /\ sys_events s' = sys_events run_of_timer ++ [Fired (ns_of (sys_clock s'))]
    /\ ns_of (sys_clock s') <= ns_of T0 + 2 * 5 * 1000000.
Proof.
  apply (posix_timer_fires true 5 7 (MkPosixTimer false true false false false 5 7) T0 run_of_timer
    (MkPosixTimer true true false false false 5 7));
    [vm_compute; intuition done|done|done|exact run_of_timer_reached|done|done|done].
Defined.
