(* ===== verification/L2Policy.v ===== *)
(** * Layer-2 routing policy: src/network/l2_policy.c and network_frames.h

    What happens to a received Ethernet frame before it is submitted and
    forwarded: the ingress port is written into the IPv6 source address, and the
    destination address decides on the ports it is forwarded to. *)
From S2P Require Import Prelude Util.

(** ** Frame layout (network_frames.h) *)

Definition ethernet_type_offset : nat := 12.
Definition ipv6_payload_length_offset : nat := 18.
Definition ipv6_next_header_offset : nat := 20.
Definition ipv6_source_address_offset : nat := 22.
Definition ipv6_destination_address_offset : nat := 38.
Definition ipv6_ingress_egress_ports_offset : nat := ipv6_source_address_offset + 2.
Definition ethernet_type_ipv6 : Z := 0x86DD.
Definition ip_proto_udp : Z := 17.
Definition ip_proto_bcmp : Z := 0xBC.

(** [ethernet_get_type(buf)], for a frame that has its Ethernet header. *)
Definition ethernet_get_type (buf : bytes) : Z :=
  uint8_to_uint16 (slice ethernet_type_offset 2 buf).

(** ** The policy *)

(** A frame pointer: the bytes from it to the end of its buffer, or null; the
    length is passed apart. *)
Definition frame_has_ipv6_addrs (frame : option bytes) (frame_len : Z) : bool :=
  match frame with
  | Some _ => Z.of_nat (ipv6_destination_address_offset + 16) <=? frame_len
  | None => false
  end.

(** The offset of the ports byte. *)
Definition ports_byte_ptr (frame : option bytes) (frame_len : Z) : option nat :=
  if frame_has_ipv6_addrs frame frame_len then Some ipv6_ingress_egress_ports_offset else None.

Definition dst_ip_ptr (frame : option bytes) (frame_len : Z) : option nat :=
  if frame_has_ipv6_addrs frame frame_len then Some ipv6_destination_address_offset else None.

Definition src_ip_ptr (frame : option bytes) (frame_len : Z) : option nat :=
  if frame_has_ipv6_addrs frame frame_len then Some ipv6_source_address_offset else None.

Definition set_ingress_nibble (ports_byte ingress_port_1_15 : Z) : Z :=
  u8 (Z.lor (Z.land ports_byte 0x0F) (Z.shiftl (Z.land ingress_port_1_15 0x0F) 4)).
Definition clear_ingress_nibble (ports_byte : Z) : Z := Z.land ports_byte 0x0F.
Definition clear_egress_nibble (ports_byte : Z) : Z := Z.land ports_byte 0xF0.

(** [__builtin_ffs]: one more than the index of the lowest set bit among the
    [n] bits from [i] on, 0 when none is set. *)
Fixpoint ffs_from (n : nat) (i : Z) (mask : Z) : Z :=
  match n with
  | O => 0
  | S n => if Z.testbit mask i then i + 1 else ffs_from n (i + 1) mask
  end.
Definition builtin_ffs (mask : Z) : Z := ffs_from 32 0 mask.

Record BmL2PolicyRxResult : Type := MkRxResult {
  should_submit : bool;
  egress_mask : Z;
  ingress_port_num : Z
}.

(** A routing callback: from the ingress port and the two addresses, whether to
    submit, the egress mask and the source address it leaves in the frame.  The
    mask it may write is 16 bits wide. *)
Definition L2LinkLocalRoutingCb : Type :=
  Z -> BmIpAddr -> BmIpAddr -> bool * Z * BmIpAddr.

Definition set_byte (i : nat) (b : Z) (f : bytes) : bytes := <[i := b]> f.

Definition bm_l2_policy_rx_apply (frame : option bytes) (frame_len ingress_port_mask all_ports_mask : Z)
    (routing_cb : option L2LinkLocalRoutingCb) : BmL2PolicyRxResult * option bytes :=
  let none := MkRxResult true 0 0 in
  match frame with
  | None => (none, frame)
  | Some f =>
      if negb (frame_has_ipv6_addrs frame frame_len) then (none, frame)
      else if negb (ethernet_get_type f =? ethernet_type_ipv6) then (none, frame)
      else
        let port_num := u8 (builtin_ffs ingress_port_mask) in
        if port_num =? 0 then (none, frame)
        else
          let f := match ports_byte_ptr frame frame_len with
                   | Some pb => set_byte pb (set_ingress_nibble (nth pb f 0) port_num) f
                   | None => f
                   end in
          match dst_ip_ptr frame frame_len with
          | None => (MkRxResult true 0 port_num, Some f)
          | Some off =>
              let dst_ip := slice off 16 f in
              if is_global_multicast (Some dst_ip) then
                (MkRxResult true (Z.land all_ports_mask (u16 (Z.lnot ingress_port_mask))) port_num,
                 Some f)
              else
                match routing_cb with
                | Some cb =>
                    if is_link_local_neighbor_multicast (Some dst_ip)
                    then (MkRxResult true 0 port_num, Some f)
                    else
                      let src_off := default 0%nat (src_ip_ptr frame frame_len) in
                      let '(submit, egress, src_ip) := cb port_num (slice src_off 16 f) dst_ip in
                      (MkRxResult submit (u16 egress) port_num, Some (blit src_off src_ip f))
                | None => (MkRxResult true 0 port_num, Some f)
                end
          end
  end.

Definition bm_l2_policy_prepare_forwarded_copy (frame : option bytes) (frame_len : Z) : option bytes :=
  match frame, ports_byte_ptr frame frame_len with
  | Some f, Some pb =>
      let f := set_byte pb (clear_ingress_nibble (nth pb f 0)) f in
      Some (set_byte pb (clear_egress_nibble (nth pb f 0)) f)
  | _, _ => frame
  end.

(** ** Properties *)

Lemma ffs_from_spec n i mask :
  0 <= i ->
  (ffs_from n i mask = 0 /\ forall j, i <= j < i + Z.of_nat n -> Z.testbit mask j = false)
  \/ (i + 1 <= ffs_from n i mask <= i + Z.of_nat n
      /\ Z.testbit mask (ffs_from n i mask - 1) = true
      /\ forall j, i <= j < ffs_from n i mask - 1 -> Z.testbit mask j = false).
Proof.
  revert i. induction n as [|n IH]; intros i Hi; cbn [ffs_from]; [left; split; [done|lia]|].
  destruct (Z.testbit mask i) eqn:E.
  - right. split; [lia|]. replace (i + 1 - 1) with i by lia. split; [done|lia].
  - destruct (IH (i + 1)) as [[-> H]|(Hr & Ht & H)]; [lia|left|right].
    + split; [done|]. intros j Hj. destruct (Z.eq_dec j i) as [->|]; [done|apply H; lia].
    + split; [lia|]. split; [done|]. intros j Hj.
      destruct (Z.eq_dec j i) as [->|]; [done|apply H; lia].
Qed.

(** A port mask with one bit, as the driver's receive function builds it. *)
Definition port_bit (port : Z) : Z := Z.shiftl 1 (port - 1).

Lemma testbit_port_bit port j :
  1 <= port -> 0 <= j -> Z.testbit (port_bit port) j = (j =? port - 1).
Proof.
  intros Hp Hj. unfold port_bit. rewrite Z.shiftl_1_l.
  bcase; [subst; by rewrite Z.pow2_bits_true by lia|by rewrite Z.pow2_bits_false by lia].
Qed.

Lemma builtin_ffs_port_bit port : 1 <= port <= 16 -> builtin_ffs (port_bit port) = port.
Proof.
  intros Hp. unfold builtin_ffs.
  destruct (ffs_from_spec 32 0 (port_bit port)) as [[_ H]|(Hr & Ht & H)]; [lia| |].
  - specialize (H (port - 1)). rewrite testbit_port_bit, Z.eqb_refl in H by lia.
    discriminate H. lia.
  - rewrite testbit_port_bit in Ht by lia. apply Z.eqb_eq in Ht. lia.
Qed.

Lemma ports_byte_nibbles b p :
  byte_ok b -> 0 <= p < 16 ->
  set_ingress_nibble b p = 16 * p + b mod 16
  /\ clear_egress_nibble (clear_ingress_nibble b) = 0.
Proof.
  intros Hb Hp. unfold byte_ok in Hb. unfold set_ingress_nibble, clear_ingress_nibble,
    clear_egress_nibble.
  change 0x0F with (2 ^ 4 - 1). rewrite !land_ones_mod by lia. rewrite (Z.mod_small p) by lia.
  split.
  - rewrite lor_shift_add by plia. change (2 ^ 4) with 16.
    rewrite u8_small by plia. lia.
  - change (2 ^ 4) with 16. assert (Hr : 0 <= b mod 16 < 16) by plia.
    assert (Hc : forall k, (k < 16)%nat -> Z.land (Z.of_nat k) 0xF0 = 0)
      by (intros k Hk; do 16 (destruct k as [|k]; [done|]); lia).
    rewrite <- (Z2Nat.id (b mod 16)) by lia. apply Hc. lia.
Qed.

(** The frame with the ingress port in its source address. *)
Definition marked (port : Z) (f : bytes) : bytes :=
  set_byte 24 (16 * port + nth 24 f 0 mod 16) f.

(** An IPv6 frame that has both addresses. *)
Definition ipv6_frame (f : bytes) (len : Z) : Prop :=
  bytes_ok f /\ 54 <= len <= Z.of_nat (length f) /\ ethernet_get_type f = ethernet_type_ipv6.

Lemma nth_byte_ok f i : bytes_ok f -> byte_ok (nth i f 0).
Proof.
  intros Hf. destruct (nth_lookup_or_length f i 0) as [E|E].
  - apply (Forall_lookup_1 _ _ _ _ Hf E).
  - rewrite nth_overflow by done. done.
Qed.

Lemma length_set_byte i b f : length (set_byte i b f) = length f.
Proof. apply length_insert. Qed.

Lemma slice_set_byte off len i b f :
  (i < off \/ off + len <= i)%nat -> slice off len (set_byte i b f) = slice off len f.
Proof.
  intros Hi. unfold slice, set_byte. apply list_eq. intros k.
  destruct (decide (k < len)%nat).
  - rewrite !lookup_take_lt, !lookup_drop, list_lookup_insert_ne by lia. done.
  - by rewrite !lookup_take_ge by lia.
Qed.

Lemma rx_apply_ipv6 f len port all cb :
  ipv6_frame f len -> 1 <= port <= 15 ->
  bm_l2_policy_rx_apply (Some f) len (port_bit port) all cb
  = let dst := slice 38 16 f in
    if is_global_multicast (Some dst) then
      (MkRxResult true (Z.land all (u16 (Z.lnot (port_bit port)))) port, Some (marked port f))
    else match cb with
         | Some c =>
             if is_link_local_neighbor_multicast (Some dst)
             then (MkRxResult true 0 port, Some (marked port f))
             else let '(submit, egress, src) := c port (slice 22 16 (marked port f)) dst in
                  (MkRxResult submit (u16 egress) port, Some (blit 22 src (marked port f)))
         | None => (MkRxResult true 0 port, Some (marked port f))
         end.
Proof.
  intros (Hf & Hl & Ht) Hp. unfold bm_l2_policy_rx_apply, ports_byte_ptr, dst_ip_ptr, src_ip_ptr,
    frame_has_ipv6_addrs.
  change (Z.of_nat (ipv6_destination_address_offset + 16)) with 54.
  destruct (Z.leb_spec 54 len); [|lia]. rewrite Ht, Z.eqb_refl. cbn [negb].
  rewrite builtin_ffs_port_bit, u8_small by lia.
  destruct (Z.eqb_spec port 0); [lia|].
  destruct (ports_byte_nibbles (nth ipv6_ingress_egress_ports_offset f 0) port) as [-> _];
    [by apply nth_byte_ok|lia|].
  change ipv6_ingress_egress_ports_offset with 24%nat.
  change ipv6_destination_address_offset with 38%nat.
  change ipv6_source_address_offset with 22%nat. cbn [default from_option].
  fold (marked port f). assert (Hs : slice 38 16 (marked port f) = slice 38 16 f)
    by (apply slice_set_byte; lia). rewrite Hs. cbn zeta.
  done.
Qed.

(** Frames the policy does not act on. *)
Lemma rx_apply_other f len mask all cb :
  (54 <=? len) && (ethernet_get_type f =? ethernet_type_ipv6) = false ->
  bm_l2_policy_rx_apply (Some f) len mask all cb = (MkRxResult true 0 0, Some f).
Proof.
  intros H. unfold bm_l2_policy_rx_apply, frame_has_ipv6_addrs.
  change (Z.of_nat (ipv6_destination_address_offset + 16)) with 54.
  destruct (54 <=? len); [|done]. cbn in H. by rewrite H.
Qed.

Lemma forwarded_copy_marked f len port :
  ipv6_frame f len -> 1 <= port <= 15 ->
  bm_l2_policy_prepare_forwarded_copy (Some (marked port f)) len = Some (set_byte 24 0 f).
Proof.
  intros (Hf & Hl & _) Hp.
  unfold bm_l2_policy_prepare_forwarded_copy, ports_byte_ptr, frame_has_ipv6_addrs.
  change (Z.of_nat (ipv6_destination_address_offset + 16)) with 54.
  destruct (Z.leb_spec 54 len); [|lia].
  change ipv6_ingress_egress_ports_offset with 24%nat. f_equal.
  unfold marked, set_byte. rewrite !nth_lookup, !list_lookup_insert_eq by (rewrite ?length_insert; lia).
  cbn [default from_option id]. rewrite !list_insert_insert_eq. f_equal.
  pose proof (nth_byte_ok f 24 Hf) as Hb. unfold byte_ok in Hb.
  rewrite <- nth_lookup. rewrite nth_lookup in *.
  set (b := 16 * port + default 0 (f !! 24%nat) mod 16).
  apply (ports_byte_nibbles b 0); [|lia]. unfold b, byte_ok. plia.
Qed.

Lemma egress_all_but all port j :
  1 <= port <= 15 -> 0 <= j < 16 ->
  Z.testbit (Z.land all (u16 (Z.lnot (port_bit port)))) j
  = Z.testbit all j && negb (j =? port - 1).
Proof.
  intros Hp Hj. rewrite Z.land_spec. f_equal. unfold wrap.
  rewrite Z.mod_pow2_bits_low, Z.lnot_spec, testbit_port_bit by lia. done.
Qed.


(** A frame from port 2 to ff03::1. *)
Definition sample_frame : bytes :=
  repeat 7 12 ++ [0x86; 0xDD] ++ repeat 1 24 ++ multicast_global_addr ++ [9; 9].

