(* ===== verification/Os.v ===== *)
(** * The operating system layer: src/common/bm_os.h

    What the components above it rely on: allocations that may fail, semaphores
    that may not be free in time, and the tick count.  The answers of the system
    are lists in the state, an empty list answering yes, so that a theorem about
    every such list is one about every behaviour of the system.  The semaphore
    follows the POSIX implementation, src/common/bm_posix.c: a binary one that its
    own holder cannot take a second time. *)
From S2P Require Import Prelude LinkedList.

Record Os : Type := MkOs {
  os_alloc : list bool;    (** do the next allocations succeed *)
  os_wait : list bool;     (** is a free semaphore still free when it is taken *)
  os_ticks_ms : Z          (** [bm_ticks_to_ms(bm_get_tick_count())] *)
}.

Definition next_answer (l : list bool) : bool * list bool :=
  match l with [] => (true, []) | b :: l => (b, l) end.

Definition malloc_ok : M Os bool := fun o =>
  let '(b, l) := next_answer (os_alloc o) in Some (b, MkOs l (os_wait o) (os_ticks_ms o)).

Definition wait_ok : M Os bool := fun o =>
  let '(b, l) := next_answer (os_wait o) in Some (b, MkOs (os_alloc o) l (os_ticks_ms o)).

(** [None]: [NULL]; the semaphore's [count] otherwise. *)
Definition BmSemaphore : Type := option bool.

Definition bm_semaphore_take (s : BmSemaphore) : M Os (BmErr * BmSemaphore) :=
  match s with
  | None => mret (BmEINVAL, s)
  | Some false => mret (BmETIMEDOUT, s)
  | Some true =>
      ok ← wait_ok;
      mret (if ok : bool then (BmOK, Some false) else (BmETIMEDOUT, s))
  end.

Definition bm_semaphore_give (s : BmSemaphore) : BmErr * BmSemaphore :=
  match s with None => (BmEINVAL, s) | Some _ => (BmOK, Some true) end.

(** [ll_create_item(NULL, d, sizeof(d), i)]: two allocations. *)
Definition create_item {D} (d : D) (i : Z) (h : gmap loc (LLItem D))
    : M Os (option loc * gmap loc (LLItem D)) :=
  ok1 ← malloc_ok;
  if ok1 : bool then
    ok2 ← malloc_ok;
    mret (ll_create_item (Some (fresh (dom h), (None, None))) ok2 (Some d) i h)
  else mret (None, h).

(** A system that never runs out of anything. *)
Definition willing (o : Os) : Prop := os_alloc o = [] /\ os_wait o = [].

Lemma create_item_willing {D} (d : D) i h o :
  willing o ->
  create_item d i h o
  = Some ((Some (fresh (dom h)), <[fresh (dom h) := MkLLItem None None (Some d) i true]> h), o).
Proof. destruct o as [a w t]. intros [Ha Hw]. cbn in Ha, Hw. by subst. Qed.

Lemma take_willing o : willing o -> bm_semaphore_take (Some true) o = Some ((BmOK, Some false), o).
Proof. destruct o as [a w t]. intros [Ha Hw]. cbn in Ha, Hw. by subst. Qed.
