(* ===== verification/LinuxBuf.v ===== *)
(** * Reference-counted network buffers: the buffer half of src/network/bm_linux.c

    [bm_l2_new], [bm_l2_tx_prep], [bm_l2_free] and the accessors, on an explicit
    heap of buffers. *)
From S2P Require Import Prelude.
From S2P Require Import LinkedList.

Record LinuxBuf : Type := MkLinuxBuf {
  ref : Z;
  alloc_size : Z;
  len : Z;
  payload : bytes
}.

(** The buffers that exist, which of the coming allocations succeed (all of
    them once the list is used up), and the bytes of uninitialised memory. *)
Record buf_heap : Type := MkBufHeap {
  bufs : gmap loc LinuxBuf;
  alloc_ok : list bool;
  junk : nat -> Z
}.

Definition set_bufs (b : gmap loc LinuxBuf) (h : buf_heap) : buf_heap :=
  MkBufHeap b (alloc_ok h) (junk h).

(** Whether the next allocation succeeds. *)
Definition next_alloc : M buf_heap bool := fun h =>
  match alloc_ok h with
  | [] => Some (true, h)
  | b :: l => Some (b, MkBufHeap (bufs h) l (junk h))
  end.

(** A fresh buffer with one reference. *)
Definition insert_new (size : Z) : M buf_heap (option loc) := fun h =>
  let l := fresh (dom (bufs h)) in
  let b := MkLinuxBuf 1 size size (junk h <$> seq 0 (Z.to_nat size)) in
  Some (Some l, set_bufs (<[l := b]> (bufs h)) h).

Definition bm_l2_new (size : Z) : M buf_heap (option loc) :=
  ok ← next_alloc;
  if ok : bool then insert_new size else mret None.

(** The buffer behind a pointer; null pointers and freed buffers are undefined. *)
Definition get_buf (buf : option loc) : M buf_heap LinuxBuf := fun h =>
  match buf ≫= fun l => bufs h !! l with
  | Some b => Some (b, h)
  | None => None
  end.

Definition put_buf (buf : option loc) (b : LinuxBuf) : M buf_heap unit := fun h =>
  match buf with
  | Some l => Some (tt, set_bufs (<[l := b]> (bufs h)) h)
  | None => None
  end.

(** The bytes behind [bm_l2_get_payload(buf)], for a caller that reads them. *)
Definition bm_l2_get_payload (buf : option loc) : M buf_heap bytes :=
  b ← get_buf buf; mret (payload b).

(** Stores to the payload; [f] gives the new bytes, [None] when it writes
    outside of them. *)
Definition payload_store (buf : option loc) (f : bytes -> option bytes) : M buf_heap unit :=
  b ← get_buf buf;
  p ← lift (f (payload b));
  put_buf buf (MkLinuxBuf (ref b) (alloc_size b) (len b) p).

Definition bm_l2_tx_prep (buf : option loc) (size : Z) : M buf_heap unit :=
  match buf with
  | None => mret tt
  | Some _ =>
      b ← get_buf buf;
      put_buf buf (MkLinuxBuf (u32 (ref b + 1)) (alloc_size b) (len b) (payload b))
  end.

Definition bm_l2_free (buf : option loc) : M buf_heap unit :=
  match buf with
  | None => mret tt
  | Some l =>
      b ← get_buf buf;
      let r := u32 (ref b - 1) in
      if r =? 0 then modify (fun h => set_bufs (delete l (bufs h)) h)
      else put_buf buf (MkLinuxBuf r (alloc_size b) (len b) (payload b))
  end.

Definition bm_ip_buf_shrink (buf : option loc) (size : Z) : M buf_heap unit :=
  match buf with
  | None => mret tt
  | Some _ =>
      b ← get_buf buf;
      put_buf buf (MkLinuxBuf (ref b) (alloc_size b) size (payload b))
  end.

Definition bm_udp_new (size : Z) : M buf_heap (option loc) := bm_l2_new size.
Definition bm_udp_get_payload (buf : option loc) : M buf_heap bytes := bm_l2_get_payload buf.

Definition bm_udp_reference_update (buf : option loc) : M buf_heap BmErr :=
  match buf with
  | None => mret BmEINVAL
  | Some _ => _ ← bm_l2_tx_prep buf 0; mret BmOK
  end.

Definition bm_udp_cleanup (buf : option loc) : M buf_heap unit := bm_l2_free buf.
Definition bm_ip_rx_cleanup (payload : option loc) : M buf_heap unit := bm_l2_free payload.
Definition bm_ip_tx_cleanup (payload : option loc) : M buf_heap unit :=
  match payload with None => mret tt | Some _ => bm_l2_free payload end.

(** ** Lemmas *)

Lemma bm_l2_free_last h l b :
  bufs h !! l = Some b -> ref b = 1 ->
  bm_l2_free (Some l) h = Some (tt, set_bufs (delete l (bufs h)) h).
Proof.
  intros Hb Hr. unfold bm_l2_free, get_buf, mbind, M_bind. cbn. rewrite Hb. by rewrite Hr.
Qed.

Lemma bm_l2_free_shared h l b :
  bufs h !! l = Some b -> 1 < ref b < 2 ^ 32 ->
  bm_l2_free (Some l) h
  = Some (tt, set_bufs (<[l := MkLinuxBuf (ref b - 1) (alloc_size b) (len b) (payload b)]> (bufs h)) h).
Proof.
  intros Hb Hr. unfold bm_l2_free, get_buf, mbind, M_bind. cbn. rewrite Hb.
  rewrite u32_small by lia. destruct (Z.eqb_spec (ref b - 1) 0); [lia|]. done.
Qed.

Lemma bm_l2_free_dangling h l : bufs h !! l = None -> bm_l2_free (Some l) h = None.
Proof. intros Hb. unfold bm_l2_free, get_buf, mbind, M_bind. cbn. by rewrite Hb. Qed.

Lemma bm_l2_tx_prep_shared h l b size :
  bufs h !! l = Some b -> 0 <= ref b < 2 ^ 32 - 1 ->
  bm_l2_tx_prep (Some l) size h
  = Some (tt, set_bufs (<[l := MkLinuxBuf (ref b + 1) (alloc_size b) (len b) (payload b)]> (bufs h)) h).
Proof.
  intros Hb Hr. unfold bm_l2_tx_prep, get_buf, put_buf, mbind, M_bind. cbn. rewrite Hb.
  by rewrite u32_small by lia.
Qed.

(** A reference that is taken and given back leaves the buffer as it was. *)
Lemma bm_l2_prep_free h l b size :
  bufs h !! l = Some b -> 0 < ref b < 2 ^ 32 - 1 ->
  (bm_l2_tx_prep (Some l) size ≫= fun _ => bm_l2_free (Some l)) h = Some (tt, h).
Proof.
  intros Hb Hr. erewrite bind_some by (apply bm_l2_tx_prep_shared; [done|lia]).
  erewrite bm_l2_free_shared; [|cbn; by rewrite lookup_insert_eq|cbn; lia].
  destruct h as [bs ok j]. cbn in *. unfold set_bufs. cbn. do 3 f_equal.
  rewrite insert_insert_eq. replace (ref b + 1 - 1) with (ref b) by lia.
  destruct b. by apply insert_id.
Qed.

Definition set_payload (p : bytes) (b : LinuxBuf) : LinuxBuf :=
  MkLinuxBuf (ref b) (alloc_size b) (len b) p.

Lemma get_buf_some h l b : bufs h !! l = Some b -> get_buf (Some l) h = Some (b, h).
Proof. intros Hb. unfold get_buf. cbn. by rewrite Hb. Qed.

Lemma bm_l2_get_payload_some h l b :
  bufs h !! l = Some b -> bm_l2_get_payload (Some l) h = Some (payload b, h).
Proof.
  intros Hb. unfold bm_l2_get_payload. erewrite bind_some by (by apply get_buf_some). done.
Qed.

Lemma payload_store_some h l b f p :
  bufs h !! l = Some b -> f (payload b) = Some p ->
  payload_store (Some l) f h = Some (tt, set_bufs (<[l := set_payload p b]> (bufs h)) h).
Proof.
  intros Hb Hf. unfold payload_store. erewrite bind_some by (by apply get_buf_some).
  unfold lift, mbind, M_bind. rewrite Hf. done.
Qed.

Lemma set_bufs_twice b1 b2 h : set_bufs b2 (set_bufs b1 h) = set_bufs b2 h.
Proof. done. Qed.

Lemma set_bufs_same h : set_bufs (bufs h) h = h.
Proof. by destruct h. Qed.
