(* ===== verification/Packet.v ===== *)
(** * The BCMP packet layer: src/bcmp/packet.c

    The wire format of messages, their serialization and their reception, with
    the list of packet types and the list of outstanding requests.  The frame
    accessors are callbacks that give offsets in the frame; packet handlers and
    reply callbacks are named by numbers, and act on the whole state. *)
From S2P Require Import Prelude Util LinkedList Os.

(** ** Messages *)

Definition BcmpAckMessage : Z := 0x00.
Definition BcmpHeartbeatMessage : Z := 0x01.
Definition BcmpEchoRequestMessage : Z := 0x02.
Definition BcmpEchoReplyMessage : Z := 0x03.
Definition BcmpDeviceInfoRequestMessage : Z := 0x04.
Definition BcmpDeviceInfoReplyMessage : Z := 0x05.
Definition BcmpProtocolCapsRequestMessage : Z := 0x06.
Definition BcmpProtocolCapsReplyMessage : Z := 0x07.
Definition BcmpNeighborTableRequestMessage : Z := 0x08.
Definition BcmpNeighborTableReplyMessage : Z := 0x09.
Definition BcmpResourceTableRequestMessage : Z := 0x0A.
Definition BcmpResourceTableReplyMessage : Z := 0x0B.
Definition BcmpNeighborProtoRequestMessage : Z := 0x0C.
Definition BcmpNeighborProtoReplyMessage : Z := 0x0D.
Definition BcmpSystemTimeRequestMessage : Z := 0x10.
Definition BcmpSystemTimeResponseMessage : Z := 0x11.
Definition BcmpSystemTimeSetMessage : Z := 0x12.
Definition BcmpNetStateRequestMessage : Z := 0xB0.
Definition BcmpNetStateReplyMessage : Z := 0xB1.
Definition BcmpPowerStateRequestMessage : Z := 0xB2.
Definition BcmpPowerStateReplyMessage : Z := 0xB3.
Definition BcmpRebootRequestMessage : Z := 0xC0.
Definition BcmpRebootReplyMessage : Z := 0xC1.
Definition BcmpNetAssertQuietMessage : Z := 0xC2.
Definition BcmpHeaderMessage : Z := 0xFFFF.

(** The stores of [check_endianness] by message type, in the order of the code:
    the offset of the field in its packed struct, and how many bytes are swapped
    there.  Types that are not listed have none. *)
Definition endian_fields : list (Z * list (nat * nat)) :=
  [(BcmpHeartbeatMessage, [(0, 8); (8, 4)]);
   (BcmpEchoRequestMessage, [(0, 8); (8, 2); (10, 4); (12, 2)]);
   (BcmpEchoReplyMessage, [(0, 8); (8, 2); (10, 2); (12, 2)]);
   (BcmpDeviceInfoRequestMessage, [(0, 8)]);
   (BcmpDeviceInfoReplyMessage, [(0, 8); (8, 2); (10, 2); (28, 4)]);
   (BcmpProtocolCapsRequestMessage, [(0, 8); (8, 2)]);
   (BcmpProtocolCapsReplyMessage, [(0, 8); (8, 2); (10, 2)]);
   (BcmpNeighborTableRequestMessage, [(0, 8)]);
   (BcmpNeighborTableReplyMessage, [(0, 8); (9, 2)]);
   (BcmpResourceTableRequestMessage, [(0, 8)]);
   (BcmpResourceTableReplyMessage, [(0, 8); (8, 2); (10, 2)]);
   (BcmpNeighborProtoRequestMessage, [(0, 8); (8, 2)]);
   (BcmpNeighborProtoReplyMessage, [(0, 8); (8, 2)]);
   (BcmpSystemTimeRequestMessage, [(0, 8); (8, 8)]);
   (BcmpSystemTimeResponseMessage, [(0, 8); (8, 8); (16, 8)]);
   (BcmpSystemTimeSetMessage, [(0, 8); (8, 8); (16, 8)]);
   (BcmpNetStateRequestMessage, [(0, 8)]);
   (BcmpNetStateReplyMessage, [(0, 8)]);
   (BcmpPowerStateRequestMessage, [(0, 8)]);
   (BcmpPowerStateReplyMessage, [(0, 8)]);
   (BcmpRebootRequestMessage, [(0, 8)]);
   (BcmpRebootReplyMessage, [(0, 8)]);
   (BcmpNetAssertQuietMessage, [(0, 8)]);
   (BcmpHeaderMessage, [(0, 2); (2, 2); (6, 4)])]%nat.

Fixpoint fields_of (type : Z) (t : list (Z * list (nat * nat))) : list (nat * nat) :=
  match t with
  | [] => []
  | (ty, fs) :: t => if type =? ty then fs else fields_of type t
  end.

(** [swap_16bit], [swap_32bit] and [swap_64bit] through a pointer. *)
Definition swap_width (n : nat) (v : Z) : Z :=
  match n with 2%nat => swap_16bit v | 4%nat => swap_32bit v | _ => swap_64bit v end.

Definition swap_at `{Platform} (off n : nat) (buf : bytes) : option bytes :=
  w ← read_at off n buf;
  write_at off (native_store n (swap_width n (native_load w))) buf.

Fixpoint swap_fields `{Platform} (fs : list (nat * nat)) (buf : bytes) : option bytes :=
  match fs with
  | [] => Some buf
  | (off, n) :: fs => buf ← swap_at off n buf; swap_fields fs buf
  end.

(** [None]: the message is shorter than its struct. *)
Definition check_endianness `{Platform} (type : Z) (buf : bytes) : option bytes :=
  if is_little_endian then Some buf else swap_fields (fields_of type endian_fields) buf.

(** ** The header *)

Record BcmpHeader : Type := MkHeader {
  h_type : Z; h_checksum : Z; h_flags : Z; h_reserved : Z; h_seq_num : Z;
  h_frag_total : Z; h_frag_id : Z; h_next_header : Z
}.

Definition sizeof_BcmpHeader : nat := 13.

Definition header_store `{Platform} (h : BcmpHeader) : bytes :=
  native_store 2 (h_type h) ++ native_store 2 (h_checksum h) ++ [u8 (h_flags h); u8 (h_reserved h)]
  ++ native_store 4 (h_seq_num h) ++ [u8 (h_frag_total h); u8 (h_frag_id h); u8 (h_next_header h)].

Definition header_load `{Platform} (b : bytes) : BcmpHeader :=
  MkHeader (native_load (slice 0 2 b)) (native_load (slice 2 2 b)) (nth 4 b 0) (nth 5 b 0)
    (native_load (slice 6 4 b)) (nth 10 b 0) (nth 11 b 0) (nth 12 b 0).

(** ** State *)

Record BcmpProcessData : Type := MkProcessData {
  pd_header : BcmpHeader; pd_payload : bytes; pd_size : Z;
  pd_src : BmIpAddr; pd_dst : BmIpAddr; pd_ingress_port : Z
}.

(** The callbacks of [packet_init]: where the addresses and the message are in
    the frame ([None]: a null pointer), and the checksum ([None]: it reads outside
    the frame). *)
Record PacketCb : Type := MkPacketCb {
  cb_src_ip : bytes -> option nat;
  cb_dst_ip : bytes -> option nat;
  cb_data : bytes -> option nat;
  cb_checksum : bytes -> Z -> option Z
}.

Record BcmpPacketCfg : Type := MkCfg {
  sequenced_reply : bool; sequenced_request : bool; process : option nat
}.

Record BcmpRequestElement : Type := MkRequest {
  re_type : Z; re_timestamp_ms : Z; re_timeout_ms : Z; re_seq_num : Z; re_cb : option nat
}.

Definition default_message_timeout_ms : Z := 24.

Record PacketInfo : Type := MkPacketInfo {
  pk_cb : option PacketCb;
  initialized : bool;
  sequence_list_semaphore : BmSemaphore;
  pk_timer : bool;
  sequence_list : LL;
  packet_list : LL
}.

(** [message_count] is the static variable of [serialize]; [world] is the state
    of the handlers. *)
Record packet_state (W : Type) : Type := MkPacketState {
  pk : PacketInfo;
  message_count : Z;
  requests : gmap loc (LLItem BcmpRequestElement);
  packets : gmap loc (LLItem BcmpPacketCfg);
  pk_os : Os;
  world : W
}.
Arguments MkPacketState {W}. Arguments pk {W}. Arguments message_count {W}.
Arguments requests {W}. Arguments packets {W}. Arguments pk_os {W}. Arguments world {W}.

Definition PACKET_zero : PacketInfo := MkPacketInfo None false None false LL_empty LL_empty.

Section packet.
Context {W : Type} `{Platform}.
#[local] Abbreviation st := (packet_state W).
(** The handlers of packet types, and the callbacks of requests, which get
    [None] when the request times out. *)
Context (call_process : nat -> BcmpProcessData -> M st BmErr).
Context (call_reply : nat -> option bytes -> M st BmErr).

Definition set_pk (f : PacketInfo -> PacketInfo) (s : st) : st :=
  MkPacketState (f (pk s)) (message_count s) (requests s) (packets s) (pk_os s) (world s).
Definition set_sem (b : BmSemaphore) : st -> st :=
  set_pk (fun p => MkPacketInfo (pk_cb p) (initialized p) b (pk_timer p) (sequence_list p)
                     (packet_list p)).
Definition set_requests (ll : LL) (h : gmap loc (LLItem BcmpRequestElement)) (s : st) : st :=
  let p := pk s in
  MkPacketState (MkPacketInfo (pk_cb p) (initialized p) (sequence_list_semaphore p) (pk_timer p)
                   ll (packet_list p)) (message_count s) h (packets s) (pk_os s) (world s).
Definition set_packets (ll : LL) (h : gmap loc (LLItem BcmpPacketCfg)) (s : st) : st :=
  let p := pk s in
  MkPacketState (MkPacketInfo (pk_cb p) (initialized p) (sequence_list_semaphore p) (pk_timer p)
                   (sequence_list p) ll) (message_count s) (requests s) h (pk_os s) (world s).
Definition set_message_count (n : Z) (s : st) : st :=
  MkPacketState (pk s) n (requests s) (packets s) (pk_os s) (world s).
Definition set_os (o : Os) (s : st) : st :=
  MkPacketState (pk s) (message_count s) (requests s) (packets s) o (world s).
Definition set_world (w : W) (s : st) : st :=
  MkPacketState (pk s) (message_count s) (requests s) (packets s) (pk_os s) w.

Definition with_os {A} (m : M Os A) : M st A := zoom pk_os set_os m.

Definition take_semaphore : M st BmErr :=
  s ← get;
  '(err, sem) ← with_os (bm_semaphore_take (sequence_list_semaphore (pk s)));
  _ ← modify (set_sem sem);
  mret err.

Definition give_semaphore : M st unit :=
  modify (fun s => set_sem (snd (bm_semaphore_give (sequence_list_semaphore (pk s)))) s).

(** ** Operations *)

Definition sequence_list_add_message (message : BcmpRequestElement) (seq_num : Z) : M st bool :=
  err ← take_semaphore;
  if is_ok err then
    s ← get;
    '(item, h) ← with_os (create_item message seq_num (requests s));
    match item with
    | Some _ =>
        '(_, ll, h) ← lift (ll_item_add (Some (sequence_list (pk s))) item h);
        ll ← lift ll;
        _ ← modify (set_requests ll h);
        _ ← give_semaphore;
        mret true
    | None => _ ← give_semaphore; mret false
    end
  else mret false.

Definition sequence_remove (seq_num : Z) : M st BmErr :=
  s ← get;
  '(err, ll, h) ← lift (ll_remove (Some (sequence_list (pk s))) seq_num (requests s));
  ll ← lift ll;
  _ ← modify (set_requests ll h);
  mret err.

Definition sequence_list_remove_message (seq_num : Z) : M st bool :=
  err ← sequence_remove seq_num; mret (is_ok err).

Definition new_sequence_list_item (type timeout_ms seq_num : Z) (cb : option nat)
    : M st BcmpRequestElement :=
  now ← gets (fun s => os_ticks_ms (pk_os s));
  mret (MkRequest (u16 type) now timeout_ms seq_num cb).

Definition expired (now : Z) (e : BcmpRequestElement) : bool :=
  re_timeout_ms e <? u32 (now - re_timestamp_ms e).

Definition timer_traverse_cb (data : option BcmpRequestElement) : M st BmErr :=
  match data with
  | None => mret BmEINVAL
  | Some element =>
      now ← gets (fun s => os_ticks_ms (pk_os s));
      if expired now element then
        _ ← match re_cb element with
            | Some cb => _ ← call_reply cb None; mret tt
            | None => mret tt
            end;
        sequence_remove (re_seq_num element)
      else mret BmOK
  end.

(** [ll_traverse] of the sequence list with a callback that changes the list;
    nothing can be added while the semaphore is held, so the items that the list
    starts with bound the iterations. *)
Fixpoint sequence_traverse_loop (fuel : nat) : M st BmErr :=
  match fuel with
  | O => ub
  | S fuel =>
      s ← get;
      '(ret, d, ll) ← lift (ll_advance_cursor (requests s) (sequence_list (pk s)));
      _ ← modify (set_requests ll (requests s));
      ret ← (if is_ok ret then timer_traverse_cb d else mret ret);
      s ← get;
      match cursor (sequence_list (pk s)) with
      | Some _ => if is_ok ret then sequence_traverse_loop fuel else mret ret
      | None => mret ret
      end
  end.

Definition sequence_traverse : M st BmErr :=
  s ← get;
  _ ← modify (set_requests (ll_reset_cursor (sequence_list (pk s))) (requests s));
  sequence_traverse_loop (ll_fuel (requests s)).

Definition sequence_list_timer_callback : M st unit :=
  err ← take_semaphore;
  if is_ok err then
    _ ← sequence_traverse;
    give_semaphore
  else mret tt.

Definition sequence_list_find_message (seq_num : Z) : M st (option BcmpRequestElement) :=
  err ← take_semaphore;
  if is_ok err then
    s ← get;
    '(_, element) ← lift (ll_get_item (Some (sequence_list (pk s))) seq_num (requests s));
    _ ← give_semaphore;
    mret (mjoin element)
  else mret None.

(** [timer_start] is what creating and starting the timer returns, [None] when it
    is not created. *)
Definition packet_init (cbs : option PacketCb) (sem_ok : bool) (timer_start : option BmErr)
    : M st BmErr :=
  match cbs with
  | None => mret BmEINVAL
  | Some c =>
      _ ← modify (set_pk (fun p => MkPacketInfo (Some c) true
             (if sem_ok then Some true else None)
             (if sem_ok then bool_decide (timer_start <> None) else pk_timer p)
             (sequence_list p) (packet_list p)));
      mret (if sem_ok then default BmENOMEM timer_start else BmENOMEM)
  end.

Definition packet_add (cfg : option BcmpPacketCfg) (type : Z) : M st BmErr :=
  match cfg with
  | None => mret BmEINVAL
  | Some cfg =>
      s ← get;
      '(item, h) ← with_os (create_item cfg type (packets s));
      match item with
      | None => mret BmEINVAL
      | Some _ =>
          '(err, ll, h) ← lift (ll_item_add (Some (packet_list (pk s))) item h);
          ll ← lift ll;
          _ ← modify (set_packets ll h);
          mret err
      end
  end.

Definition packet_remove (type : Z) : M st BmErr :=
  s ← get;
  '(err, ll, h) ← lift (ll_remove (Some (packet_list (pk s))) type (packets s));
  ll ← lift ll;
  _ ← modify (set_packets ll h);
  mret err.

Definition callbacks : M st PacketCb := s ← get; lift (pk_cb (pk s)).

Definition packet_checksum (payload : option bytes) (size : Z) : M st Z :=
  match payload with
  | None => mret 0
  | Some f => c ← callbacks; lift (u16 <$> cb_checksum c f size)
  end.

Definition packet_cfg (type : Z) : M st (BmErr * option BcmpPacketCfg) :=
  s ← get;
  '(err, cfg) ← lift (ll_get_item (Some (packet_list (pk s))) type (packets s));
  mret (err, mjoin cfg).

(** [clear_ports_legacy] and [clear_ingress_port] on the source address, which is
    at [off] in the frame. *)
Definition clear_ports_legacy (off : nat) (f : bytes) : option bytes :=
  w ← read_at (off + 4) 4 f;
  write_at (off + 4) (native_store 4 (Z.land (native_load w) (u32 (Z.lnot 0xFFFF)))) f.

Definition clear_ingress_port (off : nat) (f : bytes) : option bytes :=
  b ← f !! (off + 2)%nat; write_at (off + 2) [Z.land b 0xF] f.

(** The reply callback of the request that a message answers, which is then no
    longer outstanding. *)
Definition take_reply_cb (cfg : BcmpPacketCfg) (seq_num : Z) : M st (option nat) :=
  if sequenced_reply cfg && negb (sequenced_request cfg) then
    request_message ← sequence_list_find_message seq_num;
    match request_message with
    | None => mret None
    | Some r =>
        err ← take_semaphore;
        if is_ok err then
          _ ← sequence_list_remove_message seq_num;
          _ ← give_semaphore;
          mret (re_cb r)
        else mret None
    end
  else mret None.

(** The last part of [process_received_message], from the look-up of the type. *)
Definition dispatch (data : BcmpProcessData) : M st BmErr :=
  '(err, cfg) ← packet_cfg (h_type (pd_header data));
  match cfg with
  | Some cfg =>
      if is_ok err then
        payload ← lift (check_endianness (h_type (pd_header data)) (pd_payload data));
        cb ← take_reply_cb cfg (h_seq_num (pd_header data));
        match cb with
        | Some cb => call_reply cb (Some payload)
        | None =>
            match process cfg with
            | Some p =>
                call_process p (MkProcessData (pd_header data) payload (pd_size data) (pd_src data)
                                  (pd_dst data) (pd_ingress_port data))
            | None => mret BmOK
            end
        end
      else mret err
  | None => mret err
  end.

Definition process_received_message (payload : option bytes) (size : Z) : M st BmErr :=
  s ← get;
  match payload with
  | Some f =>
      if initialized (pk s) then
        c ← callbacks;
        match cb_data c f with
        | None => mret BmEINVAL
        | Some d =>
            src ← lift (cb_src_ip c f);
            dst ← lift (cb_dst_ip c f);
            ports ← lift (f !! (src + 2)%nat);
            f ← lift (clear_ports_legacy src f);
            f ← lift (clear_ingress_port src f);
            checksum ← lift (read_at (d + 2) 2 f);
            f ← lift (write_at (d + 2) (native_store 2 0) f);
            checksum_calc ← lift (cb_checksum c f (u32 (size + Z.of_nat sizeof_BcmpHeader)));
            if negb (u16 checksum_calc =? native_load checksum) then mret BmEBADMSG
            else
              f ← lift (write_at (d + 2) checksum f);
              header ← lift (read_at d sizeof_BcmpHeader f);
              header ← lift (check_endianness BcmpHeaderMessage header);
              f ← lift (write_at d header f);
              src_ip ← lift (read_at src 16 f);
              dst_ip ← lift (read_at dst 16 f);
              dispatch (MkProcessData (header_load header) (drop (d + sizeof_BcmpHeader) f) size
                          src_ip dst_ip (Z.land (Z.shiftr ports 4) 0xF))
        end
      else mret BmEINVAL
  | None => mret BmEINVAL
  end.

(** The number of a message, and the request that is remembered for it. *)
Definition next_seq_num (cfg : BcmpPacketCfg) (type seq_num : Z) (cb : option nat) : M st Z :=
  if sequenced_reply cfg then mret seq_num
  else if sequenced_request cfg then
    n ← gets message_count;
    _ ← modify (set_message_count (u32 (n + 1)));
    request_message ← new_sequence_list_item type default_message_timeout_ms n cb;
    _ ← sequence_list_add_message request_message n;
    mret n
  else mret 0.

(** The result carries the frame afterwards.  [data] is not [NULL]; it is swapped
    in place, which matters to a caller on a big-endian processor only, and is
    part of the result too. *)
Definition serialize (payload data : option bytes) (size type seq_num : Z) (cb : option nat)
    : M st (BmErr * option bytes * option bytes) :=
  s ← get;
  match payload, data with
  | Some f, Some d =>
      if initialized (pk s) then
        d ← lift (check_endianness type d);
        '(err, cfg) ← packet_cfg type;
        match cfg with
        | Some cfg =>
            if is_ok err then
              c ← callbacks;
              off ← lift (cb_data c f);
              seq ← next_seq_num cfg type seq_num cb;
              header ← lift (check_endianness BcmpHeaderMessage
                         (header_store (MkHeader type 0 0 0 seq 0 0 0)));
              body ← lift (read_at 0 (Z.to_nat size) d);
              f ← lift (write_at off header f);
              f ← lift (write_at (off + sizeof_BcmpHeader) body f);
              checksum ← packet_checksum (Some f) (u32 (size + Z.of_nat sizeof_BcmpHeader));
              f ← lift (write_at (off + 2) (native_store 2 checksum) f);
              mret (BmOK, Some f, Some d)
            else mret (err, Some f, Some d)
        | None => mret (err, Some f, Some d)
        end
      else mret (BmEINVAL, payload, data)
  | _, _ => mret (BmEINVAL, payload, data)
  end.
End packet.

(** ** Byte order *)

(** Where the byte that [check_endianness] puts at [i] comes from. *)
Fixpoint mirror (fs : list (nat * nat)) (i : nat) : nat :=
  match fs with
  | [] => i
  | (off, n) :: fs => if (off <=? i)%nat && (i <? off + n)%nat then off + off + n - 1 - i
                      else mirror fs i
  end.

(** Fields one behind the other, of the widths that are swapped. *)
Fixpoint ascending (lo : nat) (fs : list (nat * nat)) : bool :=
  match fs with
  | [] => true
  | (off, n) :: fs =>
      (lo <=? off)%nat && existsb (Nat.eqb n) [2; 4; 8]%nat && ascending (off + n) fs
  end.

Definition fields_end (fs : list (nat * nat)) : nat :=
  foldr (fun '(off, n) m => Nat.max (off + n) m) 0%nat fs.

Lemma lookup_rev_slice off n (f : bytes) i :
  (off + n <= length f)%nat -> (i < n)%nat -> rev (slice off n f) !! i = f !! (off + n - 1 - i)%nat.
Proof.
  intros Hl Hi. pose proof (length_slice off n f Hl) as Hs.
  rewrite rev_alt. change (rev_append (slice off n f) []) with (reverse (slice off n f)).
  rewrite reverse_lookup by lia. rewrite Hs, lookup_slice by lia. f_equal. lia.
Qed.

Lemma swap_at_be (P : Platform) off n buf :
  little_endian = false -> bytes_ok buf -> (off + n <= length buf)%nat ->
  existsb (Nat.eqb n) [2; 4; 8]%nat = true ->
  swap_at off n buf = Some (blit off (rev (slice off n buf)) buf).
Proof.
  intros HP Hok Hl Hn. unfold swap_at, read_at, native_load, native_store. rewrite HP.
  destruct (Nat.leb_spec (off + n) (length buf)); [|lia]. cbn [mbind option_bind].
  pose proof (length_slice off n buf Hl) as Hs.
  set (w := slice off n buf) in *. assert (Hw : bytes_ok w) by (by apply bytes_ok_slice).
  assert (Hr : length (rev w) = n) by (by rewrite length_rev).
  assert (Hrok : bytes_ok (rev w)) by (by apply Forall_rev).
  assert (E : swap_width n (be_dec w) = be_dec (rev w)).
  { unfold be_dec at 1. cbn in Hn. rewrite !orb_true_iff in Hn.
    repeat (destruct Hn as [Hn|Hn]; [apply Nat.eqb_eq in Hn; subst n|]); [..|done].
    - by apply swap_16bit_spec.
    - by apply swap_32bit_spec.
    - by apply swap_64bit_spec. }
  rewrite E. rewrite <- Hr at 1. rewrite be_enc_dec by done.
  unfold write_at. rewrite Hr. destruct (Nat.leb_spec (off + n) (length buf)); [done|lia].
Qed.

Lemma mirror_low fs lo i : ascending lo fs = true -> (i < lo)%nat -> mirror fs i = i.
Proof.
  revert lo. induction fs as [|[off n] fs IH]; intros lo Ha Hi; [done|]. cbn [mirror ascending] in *.
  bool_to_prop. destruct (Nat.leb_spec off i);
    cbn [andb]; [lia|]. apply (IH (off + n)%nat); [done|lia].
Qed.

Lemma mirror_ge fs lo i : ascending lo fs = true -> (lo <= i)%nat -> (lo <= mirror fs i)%nat.
Proof.
  revert lo. induction fs as [|[off n] fs IH]; intros lo Ha Hi; [done|]. cbn [mirror ascending] in *.
  bool_to_prop. destruct (Nat.leb_spec off i); cbn [andb].
  - destruct (Nat.ltb_spec i (off + n)); [lia|].
    specialize (IH (off + n)%nat ltac:(done) ltac:(lia)). lia.
  - by rewrite (mirror_low fs (off + n)) by (done || lia).
Qed.

Lemma mirror_mirror fs lo i : ascending lo fs = true -> mirror fs (mirror fs i) = i.
Proof.
  revert lo. induction fs as [|[off n] fs IH]; intros lo Ha; [done|]. cbn [mirror ascending] in *.
  bool_to_prop. destruct (Nat.leb_spec off i) as [Ho|Ho]; cbn [andb].
  - destruct (Nat.ltb_spec i (off + n)).
    + destruct (Nat.leb_spec off (off + off + n - 1 - i)); [|lia].
      destruct (Nat.ltb_spec (off + off + n - 1 - i) (off + n)); [|lia]. cbn [andb]. lia.
    + pose proof (mirror_ge fs (off + n) i ltac:(done) ltac:(done)) as Hg.
      destruct (Nat.ltb_spec (mirror fs i) (off + n)); [lia|]. rewrite andb_false_r.
      by apply (IH (off + n)%nat).
  - rewrite (mirror_low fs (off + n) i) by (done || lia).
    destruct (Nat.leb_spec off i);
    cbn [andb]; [lia|]. by rewrite (mirror_low fs (off + n) i) by (done || lia).
Qed.

Lemma bytes_ok_rev_slice off n f : bytes_ok f -> bytes_ok (rev (slice off n f)).
Proof. intros Hf. by apply Forall_rev, bytes_ok_slice. Qed.

Lemma swap_fields_be (P : Platform) fs lo buf :
  little_endian = false -> bytes_ok buf -> ascending lo fs = true ->
  (fields_end fs <= length buf)%nat ->
  exists buf', swap_fields fs buf = Some buf' /\ length buf' = length buf /\ bytes_ok buf'
    /\ forall i, buf' !! i = buf !! mirror fs i.
Proof.
  intros HP. unfold fields_end. revert lo buf.
  induction fs as [|[off n] fs IH]; intros lo buf Hok Ha Hl; [by eauto|].
  cbn [ascending foldr] in Ha, Hl. bool_to_prop. cbn [swap_fields].
  rewrite swap_at_be by first [done|lia]. cbn [mbind option_bind].
  pose proof (length_slice off n buf ltac:(lia)) as Hs.
  assert (Hrl : length (rev (slice off n buf)) = n) by (by rewrite length_rev).
  destruct (IH (off + n)%nat (blit off (rev (slice off n buf)) buf)) as (buf' & E & El & Eok & Hi).
  - apply bytes_ok_blit; [by apply bytes_ok_rev_slice|done].
  - done.
  - rewrite length_blit by lia. lia.
  - exists buf'. split_and!; [done|by rewrite El, length_blit by lia|done|].
    intros i. rewrite Hi. cbn [mirror].
    destruct (Nat.leb_spec off i); cbn [andb].
    + destruct (Nat.ltb_spec i (off + n)).
      * rewrite (mirror_low fs (off + n) i) by (done || lia).
        replace i with (off + (i - off))%nat at 1 by lia.
        rewrite lookup_blit_eq, lookup_rev_slice by lia. f_equal. lia.
      * rewrite lookup_blit_ne; [done|lia|]. right. rewrite Hrl. apply (mirror_ge fs); done.
    + rewrite (mirror_low fs (off + n) i) by (done || lia). rewrite lookup_blit_ne by lia. done.
Qed.

(** The bytes of a message that [check_endianness] looks at. *)
Definition swapped_size (type : Z) : nat := fields_end (fields_of type endian_fields).

Lemma fields_of_in type t :
  fields_of type t = [] \/ In (type, fields_of type t) t.
Proof.
  induction t as [|[ty fs] t IH]; cbn; [by left|].
  destruct (Z.eqb_spec type ty) as [->|]; [right; by left|]. destruct IH; auto.
Qed.

Lemma endian_fields_ascending type :
  type <> BcmpEchoRequestMessage -> ascending 0 (fields_of type endian_fields) = true.
Proof.
  intros Hne. assert (Hall : forallb (fun '(ty, fs) => (ty =? BcmpEchoRequestMessage)
    || ascending 0 fs) endian_fields = true) by (vm_compute; reflexivity).
  rewrite forallb_forall in Hall. destruct (fields_of_in type endian_fields) as [->|Hin]; [done|].
  apply Hall in Hin. apply orb_true_iff in Hin as [Hin|Hin]; [|done]. by apply Z.eqb_eq in Hin.
Qed.

(** What [check_endianness] does on a big-endian processor, and that it is its
    own inverse there. *)
Lemma check_endianness_be (P : Platform) type buf :
  little_endian = false -> type <> BcmpEchoRequestMessage -> bytes_ok buf ->
  (swapped_size type <= length buf)%nat ->
  exists buf', check_endianness type buf = Some buf' /\ length buf' = length buf /\ bytes_ok buf'
    /\ (forall i, buf' !! i = buf !! mirror (fields_of type endian_fields) i)
    /\ check_endianness type buf' = Some buf.
Proof.
  intros HP Hne Hok Hl. pose proof (endian_fields_ascending type Hne) as Ha.
  unfold check_endianness, is_little_endian, swapped_size in *. rewrite HP.
  set (fs := fields_of type endian_fields) in *.
  destruct (swap_fields_be P fs 0 buf HP Hok Ha Hl) as (b & E & El & Eok & Hi).
  exists b. split_and!; [done..|].
  destruct (swap_fields_be P fs 0 b HP Eok Ha ltac:(lia)) as (b' & E' & _ & _ & Hi').
  rewrite E'. f_equal. apply list_eq. intros i. by rewrite Hi', Hi, (mirror_mirror fs 0).
Qed.

Lemma check_endianness_inverse (P : Platform) type buf :
  type <> BcmpEchoRequestMessage -> bytes_ok buf -> (swapped_size type <= length buf)%nat ->
  exists buf', check_endianness type buf = Some buf' /\ length buf' = length buf /\ bytes_ok buf'
    /\ check_endianness type buf' = Some buf.
Proof.
  intros Hne Hok Hl. destruct little_endian eqn:HP.
  - unfold check_endianness, is_little_endian. rewrite HP. by exists buf.
  - destruct (check_endianness_be P type buf) as (b & E & El & Eok & _ & E'); eauto 6.
Qed.

(** [check_endianness] is its own inverse, so that what is serialized is what
    is handed to the handler of the message, for every type of message but the
    echo request and every buffer that has the fixed part of the message.  On a
    little-endian processor it changes nothing; on a big-endian one it reverses
    the bytes of each field and leaves the others alone. *)
Theorem check_endianness_round_trip (P : Platform) type buf :
  type <> BcmpEchoRequestMessage -> bytes_ok buf -> (swapped_size type <= length buf)%nat ->
  exists buf', check_endianness type buf = Some buf' /\ length buf' = length buf
    /\ check_endianness type buf' = Some buf
    /\ forall i, buf' !! i
         = buf !! (if little_endian then i else mirror (fields_of type endian_fields) i).
Proof.
  intros Hne Hok Hl. destruct little_endian eqn:HP.
  - unfold check_endianness, is_little_endian. rewrite HP. by exists buf.
  - destruct (check_endianness_be P type buf) as (b & E & El & Eok & Hi & E'); eauto 6.
Qed.

(** A big-endian processor. *)
Definition platform_be : Platform := {| little_endian := false; size_t_bits := 32 |}.

Lemma check_endianness_round_trip_witness :
  exists buf', @check_endianness platform_be BcmpHeartbeatMessage [0; 1; 2; 3; 4; 5; 6; 7; 8; 9; 10; 11] = Some buf'
    /\ buf' !! 0%nat = Some 7 /\ buf' !! 11%nat = Some 8.
Proof.
  destruct (check_endianness_round_trip platform_be BcmpHeartbeatMessage [0; 1; 2; 3; 4; 5; 6; 7; 8; 9; 10; 11])
    as (b & E & _ & _ & Hi); [done|decided|vm_compute; lia|].
  exists b. split; [done|]. by rewrite !Hi.
Defined.

(** The echo request is the exception: its sixteen-bit sequence number is swapped
    as one of thirty-two bits, which takes in the length of the payload, and the
    two stores together do not undo each other. *)
Example echo_request_endianness :
  let request := [1; 0; 0; 0; 0; 0; 0; 0; 2; 0; 3; 0; 4; 0] in
  @check_endianness platform_be BcmpEchoRequestMessage request
  = Some [0; 0; 0; 0; 0; 0; 0; 1; 0; 2; 0; 4; 3; 0]
  /\ (b ← @check_endianness platform_be BcmpEchoRequestMessage request;
      @check_endianness platform_be BcmpEchoRequestMessage b) <> Some request.
Proof. split; vm_compute; [reflexivity|congruence]. Qed.

(** ** The header on the wire *)

(** Little-endian on every processor, but for the checksum, whose two bytes are
    stored as the processor stores them. *)
Definition wire_header (type seq : Z) (checksum : bytes) : bytes :=
  le_enc 2 type ++ checksum ++ [0; 0] ++ le_enc 4 seq ++ [0; 0; 0].

Lemma length_wire_header type seq ck : length ck = 2%nat -> length (wire_header type seq ck) = 13%nat.
Proof. intros Hc. unfold wire_header. rewrite !length_app, !length_le_enc, Hc. done. Qed.

Lemma wire_header_ok type seq ck : bytes_ok ck -> bytes_ok (wire_header type seq ck).
Proof.
  intros Hc. unfold wire_header.
  repeat apply bytes_ok_app; try done; try apply le_enc_ok; decided.
Qed.

Lemma list_2 (l : bytes) : length l = 2%nat -> exists a b, l = [a; b].
Proof. destruct l as [|a [|b [|]]]; try done. by exists a, b. Qed.

Lemma list_4 (l : bytes) : length l = 4%nat -> exists a b c d, l = [a; b; c; d].
Proof. destruct l as [|a [|b [|c [|d [|]]]]]; try done. by exists a, b, c, d. Qed.

(** Swapping the header reverses its type, checksum and sequence number. *)
Lemma swap_header (P : Platform) t c x s y :
  little_endian = false -> length t = 2%nat -> length c = 2%nat -> length s = 4%nat ->
  length x = 2%nat ->
  bytes_ok (t ++ c ++ x ++ s ++ y) ->
  check_endianness BcmpHeaderMessage (t ++ c ++ x ++ s ++ y)
  = Some (rev t ++ rev c ++ x ++ rev s ++ y).
Proof.
  intros HP Ht Hc Hs Hx Hok.
  destruct (list_2 t Ht) as (t1 & t2 & ->). destruct (list_2 c Hc) as (c1 & c2 & ->).
  destruct (list_2 x Hx) as (x1 & x2 & ->). destruct (list_4 s Hs) as (s1 & s2 & s3 & s4 & ->).
  cbn [app] in Hok |- *.
  unfold check_endianness, is_little_endian. rewrite HP.
  change (fields_of BcmpHeaderMessage endian_fields) with [(0, 2); (2, 2); (6, 4)]%nat.
  cbn [swap_fields].
  rewrite swap_at_be by (first [done|cbn; lia]). cbn [mbind option_bind].
  change (blit _ _ _) with (t2 :: t1 :: c1 :: c2 :: x1 :: x2 :: s1 :: s2 :: s3 :: s4 :: y).
  assert (Hok1 : bytes_ok (t2 :: t1 :: c1 :: c2 :: x1 :: x2 :: s1 :: s2 :: s3 :: s4 :: y)).
  { rewrite !Forall_cons in Hok |- *. tauto. }
  rewrite swap_at_be by (first [done|cbn; lia]). cbn [mbind option_bind].
  change (blit _ _ _) with (t2 :: t1 :: c2 :: c1 :: x1 :: x2 :: s1 :: s2 :: s3 :: s4 :: y).
  assert (Hok2 : bytes_ok (t2 :: t1 :: c2 :: c1 :: x1 :: x2 :: s1 :: s2 :: s3 :: s4 :: y)).
  { rewrite !Forall_cons in Hok |- *. tauto. }
  rewrite swap_at_be by (first [done|cbn; lia]). cbn [mbind option_bind].
  reflexivity.
Qed.

Lemma header_on_wire (P : Platform) type seq :
  check_endianness BcmpHeaderMessage (header_store (MkHeader type 0 0 0 seq 0 0 0))
  = Some (wire_header type seq [0; 0]).
Proof.
  unfold header_store. cbn [h_type h_checksum h_flags h_reserved h_seq_num h_frag_total h_frag_id
    h_next_header]. change (u8 0) with 0. destruct little_endian eqn:HP.
  - unfold check_endianness, is_little_endian, native_store. rewrite HP. reflexivity.
  - rewrite swap_header.
    + unfold native_store. rewrite HP. unfold be_enc. rewrite !rev_involutive. reflexivity.
    + done.
    + apply length_native_store.
    + apply length_native_store.
    + apply length_native_store.
    + done.
    + repeat apply bytes_ok_app; try apply native_store_ok; decided.
Qed.

(** What a receiver reads from it: the fields, and the two bytes of the checksum
    as a little-endian number. *)
Lemma header_from_wire (P : Platform) type seq ck :
  0 <= type < 2 ^ 16 -> 0 <= seq < 2 ^ 32 -> length ck = 2%nat -> bytes_ok ck ->
  exists b, check_endianness BcmpHeaderMessage (wire_header type seq ck) = Some b
    /\ length b = 13%nat
    /\ header_load b = MkHeader type (le_dec ck) 0 0 seq 0 0 0.
Proof.
  intros Ht Hs Hc Hok.
  assert (Et : le_dec (le_enc 2 type) = type) by (rewrite le_dec_enc; by apply Z.mod_small).
  assert (Es : le_dec (le_enc 4 seq) = seq) by (rewrite le_dec_enc; by apply Z.mod_small).
  pose proof (length_le_enc 2 type) as Lt. pose proof (length_le_enc 4 seq) as Ls.
  pose proof (wire_header_ok type seq ck Hok) as Hwok. unfold wire_header in *.
  destruct (list_2 ck Hc) as (c1 & c2 & ->).
  destruct (list_2 _ Lt) as (t1 & t2 & Et'). destruct (list_4 _ Ls) as (s1 & s2 & s3 & s4 & Es').
  rewrite Et' in *. rewrite Es' in *. destruct little_endian eqn:HP.
  - unfold check_endianness, is_little_endian. rewrite HP. eexists. split; [reflexivity|].
    split; [done|]. unfold header_load, native_load. rewrite HP.
    rewrite <- Et, <- Es. reflexivity.
  - rewrite swap_header by done. eexists. split; [reflexivity|]. split; [done|].
    unfold header_load, native_load. rewrite HP.
    rewrite <- Et, <- Es. reflexivity.
Qed.

Section specs.
Context {W : Type} `{Platform}.
#[local] Abbreviation st := (packet_state W).
Context (call_process : nat -> BcmpProcessData -> M st BmErr).
Context (call_reply : nat -> option bytes -> M st BmErr).

(** The outstanding requests and the packet types, as lists. *)
Definition requests_are (s : st) (es : list (Z * option BcmpRequestElement)) : Prop :=
  ll_inv (requests s) (sequence_list (pk s)) es.
Definition packets_are (s : st) (ps : list (Z * option BcmpPacketCfg)) : Prop :=
  ll_inv (packets s) (packet_list (pk s)) ps.

(** A state whose semaphore is free and whose system does not fail. *)
Definition ready (s : st) : Prop :=
  sequence_list_semaphore (pk s) = Some true /\ willing (pk_os s).

Lemma with_os_some {A} (m : M Os A) (s : st) a :
  m (pk_os s) = Some (a, pk_os s) -> with_os m s = Some (a, s).
Proof. intros E. unfold with_os, zoom. rewrite E. by destruct s. Qed.

Lemma take_ready (s : st) : ready s -> take_semaphore s = Some (BmOK, set_sem (Some false) s).
Proof.
  intros [Hs Ho]. unfold take_semaphore, get. erewrite bind_some by reflexivity.
  erewrite bind_some by (apply with_os_some; rewrite Hs; by apply take_willing). done.
Qed.

Lemma add_message_ready (s : st) es m n :
  ready s -> requests_are s es ->
  exists ll h, sequence_list_add_message m n s = Some (true, set_requests ll h s)
    /\ ll_inv h ll (es ++ [(n, Some m)]).
Proof.
  intros Hr He. pose proof Hr as [Hs Ho]. unfold sequence_list_add_message.
  erewrite bind_some by (by apply take_ready). cbn [is_ok]. unfold get.
  erewrite bind_some by reflexivity. cbn [requests set_sem set_pk pk sequence_list].
  erewrite bind_some by (apply with_os_some; by apply create_item_willing). cbv iota.
  destruct (ll_create_add_refines (requests s) (sequence_list (pk s)) es (fresh (dom (requests s)))
              None None (Some m) n He) as (ll & h & E & Hinv).
  { apply not_elem_of_dom, is_fresh. }
  erewrite bind_some by (rewrite E; reflexivity). cbn [lift fmap option_fmap option_map].
  exists ll, h. split; [|done]. destruct s as [[] ? ? ? ? ?]. cbn in Hs. by subst.
Qed.

(** The number that a message of the type gets. *)
Definition seq_of (cfg : BcmpPacketCfg) (seq_num : Z) (s : st) : Z :=
  if sequenced_reply cfg then seq_num
  else if sequenced_request cfg then message_count s else 0.

Lemma next_seq_num_ready (s : st) es cfg type seq_num cb :
  ready s -> requests_are s es ->
  exists ll h,
    next_seq_num cfg type seq_num cb s
    = Some (seq_of cfg seq_num s,
        if negb (sequenced_reply cfg) && sequenced_request cfg
        then set_requests ll h (set_message_count (u32 (message_count s + 1)) s) else s)
    /\ (negb (sequenced_reply cfg) && sequenced_request cfg = true ->
        ll_inv h ll (es ++ [(message_count s,
          Some (MkRequest (u16 type) (os_ticks_ms (pk_os s)) default_message_timeout_ms
                  (message_count s) cb))])).
Proof.
  intros Hr He. unfold next_seq_num, seq_of.
  destruct (sequenced_reply cfg); [exists LL_empty, ∅; done|].
  destruct (sequenced_request cfg); [|exists LL_empty, ∅; done].
  unfold gets, modify, new_sequence_list_item. erewrite bind_some by reflexivity.
  erewrite bind_some by reflexivity. erewrite bind_some by reflexivity.
  edestruct (add_message_ready (set_message_count (u32 (message_count s + 1)) s) es)
    as (ll & h & E & Hinv); [exact Hr|exact He|].
  exists ll, h. erewrite bind_some by exact E. split; [done|]. intros _. exact Hinv.
Qed.

(** Where the callbacks find the parts of a frame. *)
Record layout (c : PacketCb) (src dst d : nat) : Prop := {
  lay_src : forall f, cb_src_ip c f = Some src;
  lay_dst : forall f, cb_dst_ip c f = Some dst;
  lay_data : forall f, cb_data c f = Some d;
  lay_order : (src + 16 <= dst /\ dst + 16 <= d)%nat;
  lay_checksum : forall f n, bytes_ok f -> 0 <= n < 65536 -> Z.of_nat d + n <= Z.of_nat (length f) ->
    exists v, cb_checksum c f n = Some v /\ 0 <= v < 65536
}.

(** A frame with this header and this message. *)
Definition packet_frame (pre : bytes) (type seq : Z) (ck body : bytes) : bytes :=
  pre ++ wire_header type seq ck ++ body.

Lemma length_packet_frame pre type seq ck body :
  length ck = 2%nat -> length (packet_frame pre type seq ck body) = (length pre + 13 + length body)%nat.
Proof. intros Hc. unfold packet_frame. rewrite !length_app, length_wire_header by done. lia. Qed.

Lemma packet_frame_ok pre type seq ck body :
  bytes_ok pre -> bytes_ok ck -> bytes_ok body -> bytes_ok (packet_frame pre type seq ck body).
Proof. intros. unfold packet_frame. eauto using bytes_ok_app, wire_header_ok. Qed.

Lemma blit_middle pre old new post :
  length new = length old -> blit (length pre) new (pre ++ old ++ post) = pre ++ new ++ post.
Proof.
  intros Hl. unfold blit. rewrite take_app_length. do 2 f_equal.
  rewrite drop_app_ge by lia. replace (length pre + length new - length pre)%nat with (length old) by lia.
  apply drop_app_length.
Qed.

Lemma write_middle pre old new post :
  length new = length old ->
  write_at (length pre) new (pre ++ old ++ post) = Some (pre ++ new ++ post).
Proof.
  intros Hl. unfold write_at. rewrite !length_app, <- Hl.
  destruct (Nat.leb_spec (length pre + length new) (length pre + (length new + length post))); [|lia].
  by rewrite blit_middle.
Qed.

Lemma read_middle pre mid post :
  read_at (length pre) (length mid) (pre ++ mid ++ post) = Some mid.
Proof.
  unfold read_at. rewrite !length_app.
  destruct (Nat.leb_spec (length pre + length mid) (length pre + (length mid + length post))); [|lia].
  unfold slice. by rewrite drop_app_length, take_app_length.
Qed.

Lemma read_header d n pre mid post :
  length pre = d -> length mid = n -> read_at d n (pre ++ mid ++ post) = Some mid.
Proof. intros <- <-. apply read_middle. Qed.

Lemma write_header d pre old new post :
  length pre = d -> length new = length old ->
  write_at d new (pre ++ old ++ post) = Some (pre ++ new ++ post).
Proof. intros <-. apply write_middle. Qed.

(** The checksum's place in the frame. *)
Lemma packet_frame_checksum pre type seq ck body :
  packet_frame pre type seq ck body
  = (pre ++ le_enc 2 type) ++ ck ++ ([0; 0] ++ le_enc 4 seq ++ [0; 0; 0] ++ body).
Proof. unfold packet_frame, wire_header. by rewrite <- !app_assoc. Qed.

Lemma write_checksum pre type seq ck ck' body :
  length ck = 2%nat -> length ck' = 2%nat ->
  write_at (length pre + 2) ck' (packet_frame pre type seq ck body)
  = Some (packet_frame pre type seq ck' body).
Proof.
  intros Hc Hc'. rewrite !packet_frame_checksum.
  assert (E : (length pre + 2)%nat = length (pre ++ le_enc 2 type))
    by (rewrite length_app, length_le_enc; done).
  rewrite E, write_middle by congruence. done.
Qed.

Lemma read_checksum pre type seq ck body :
  length ck = 2%nat ->
  read_at (length pre + 2) 2 (packet_frame pre type seq ck body) = Some ck.
Proof.
  intros Hc. rewrite packet_frame_checksum.
  assert (E : (length pre + 2)%nat = length (pre ++ le_enc 2 type))
    by (rewrite length_app, length_le_enc; done).
  rewrite E. rewrite <- Hc at 2. apply read_middle.
Qed.

(** [serialize] of a message of a known type: the header on the wire, the
    message in wire order, and the checksum over both. *)
Lemma serialize_known (s : st) es ps c src dst d f d0 d1 type cfg seq_num cb :
  ready s -> initialized (pk s) = true -> pk_cb (pk s) = Some c -> layout c src dst d ->
  requests_are s es -> packets_are s ps -> find_id type ps = Some (Some cfg) ->
  check_endianness type d0 = Some d1 -> bytes_ok d1 -> bytes_ok f ->
  length f = (d + 13 + length d1)%nat -> Z.of_nat (length d1) < 65000 ->
  exists v s',
    let g := packet_frame (take d f) type (seq_of cfg seq_num s) in
    cb_checksum c (g [0; 0] d1) (Z.of_nat (length d1) + 13) = Some v /\ 0 <= v < 65536
    /\ next_seq_num cfg type seq_num cb s = Some (seq_of cfg seq_num s, s')
    /\ serialize (Some f) (Some d0) (Z.of_nat (length d1)) type seq_num cb s
       = Some ((BmOK, Some (g (native_store 2 v) d1), Some d1), s').
Proof.
  intros Hr Hi Hc Hlay He Hp Hcfg Hd1 Hok Hfok Hlen Hsz.
  destruct (next_seq_num_ready s es cfg type seq_num cb Hr He) as (ll & h & Hseq & _).
  set (seq := seq_of cfg seq_num s) in *.
  set (s' := if _ && _ then _ else s) in Hseq.
  assert (Hc' : pk_cb (pk s') = Some c) by (unfold s'; by destruct (negb _ && _)).
  assert (Htl : length (take d f) = d) by (rewrite length_take; lia).
  destruct (lay_checksum _ _ _ _ Hlay (packet_frame (take d f) type seq [0; 0] d1)
              (Z.of_nat (length d1) + 13)) as (v & Hv & Hvr).
  { apply packet_frame_ok; [by apply Forall_take|decided|done]. }
  { lia. }
  { rewrite length_packet_frame, Htl by done. lia. }
  exists v, s'. split_and!; [done|lia|lia|done|].
  unfold serialize, get. erewrite bind_some by reflexivity. rewrite Hi, Hd1.
  erewrite bind_some by reflexivity. unfold packet_cfg, get.
  rewrite (bind_some _ _ s (BmOK, Some cfg) s).
  2: { erewrite bind_some by reflexivity. rewrite (ll_get_refines _ _ _ _ Hp), Hcfg. done. }
  cbn [is_ok]. unfold callbacks, get.
  rewrite (bind_some _ _ s c s) by (erewrite bind_some by reflexivity; by rewrite Hc).
  rewrite (lay_data _ _ _ _ Hlay). erewrite bind_some by reflexivity.
  erewrite bind_some by exact Hseq. rewrite header_on_wire. erewrite bind_some by reflexivity.
  unfold read_at. rewrite Nat2Z.id, Nat.leb_refl. unfold slice. rewrite drop_0, firstn_all.
  erewrite bind_some by reflexivity.
  assert (Hf : f = take d f ++ slice d 13 f ++ drop (d + 13) f).
  { unfold slice. rewrite <- drop_drop. by rewrite !take_drop. }
  assert (Hs13 : length (slice d 13 f) = 13%nat) by (apply length_slice; lia).
  rewrite Hf at 1. rewrite <- Htl at 1. rewrite write_middle by (by rewrite Hs13).
  erewrite bind_some by reflexivity.
  assert (Hdl : length (drop (d + 13) f) = length d1) by (rewrite length_drop; lia).
  rewrite (app_assoc (take d f)), <- (app_nil_r (drop (d + 13) f)).
  assert (Eo : (d + sizeof_BcmpHeader)%nat = length (take d f ++ wire_header type seq [0; 0])).
  { rewrite length_app, length_wire_header, Htl by done. done. }
  rewrite Eo at 1. rewrite write_middle by done. erewrite bind_some by reflexivity.
  rewrite app_nil_r, <- app_assoc. change (take d f ++ wire_header type seq [0; 0] ++ d1)
    with (packet_frame (take d f) type seq [0; 0] d1).
  unfold packet_checksum, callbacks, get.
  rewrite (bind_some _ _ s' v s').
  2: { rewrite (bind_some _ _ s' c s') by (erewrite bind_some by reflexivity; by rewrite Hc').
       change (Z.of_nat sizeof_BcmpHeader) with 13. rewrite u32_small by lia. rewrite Hv.
       unfold lift. cbn [fmap option_fmap option_map]. by rewrite u16_small by lia. }
  rewrite <- Htl at 1. rewrite write_checksum by (done || apply length_native_store).
  erewrite bind_some by reflexivity. done.
Qed.

Lemma insert_pre i (b : Z) pre post : (i < length pre)%nat -> <[i := b]> (pre ++ post) = <[i := b]> pre ++ post.
Proof. intros Hi. by apply insert_app_l. Qed.

(** The bytes of the source address that reception clears. *)
Definition plain_source (src : nat) (e : Z) (pre : bytes) : Prop :=
  pre !! (src + 2)%nat = Some e /\ slice (src + 4) 4 pre = [0; 0; 0; 0].

Lemma clear_ports_legacy_zero src f :
  slice (src + 4) 4 f = [0; 0; 0; 0] -> (src + 8 <= length f)%nat ->
  clear_ports_legacy src f = Some f.
Proof.
  intros Hz Hl. unfold clear_ports_legacy, read_at. rewrite Hz.
  destruct (Nat.leb_spec (src + 4 + 4) (length f)); [|lia]. cbn [mbind option_bind].
  assert (E : native_store 4 (Z.land (native_load [0; 0; 0; 0]) (u32 (Z.lnot 0xFFFF))) = [0; 0; 0; 0]).
  { unfold native_store, native_load. by destruct little_endian. }
  rewrite E. unfold write_at. cbn [length].
  destruct (Nat.leb_spec (src + 4 + 4) (length f)); [|lia].
  rewrite <- Hz. by rewrite blit_slice_id by lia.
Qed.

Lemma clear_ingress_nibble_of src e ingress f :
  0 <= e < 16 -> 0 <= ingress < 16 -> (src + 2 < length f)%nat -> f !! (src + 2)%nat = Some e ->
  clear_ingress_port src (<[(src + 2)%nat := 16 * ingress + e]> f) = Some f.
Proof.
  intros He Hg Hl Hf. unfold clear_ingress_port. rewrite list_lookup_insert_eq by lia.
  cbn [mbind option_bind]. unfold write_at. rewrite length_insert. cbn [length].
  destruct (Nat.leb_spec (src + 2 + 1) (length f)); [|lia]. f_equal.
  change 0xF with (2 ^ 4 - 1). rewrite land_ones_mod by lia. change (2 ^ 4) with 16.
  rewrite Z.add_comm, Z.mul_comm, Z.mod_add, Z.mod_small by lia.
  unfold blit. cbn [length app]. apply list_eq. intros i.
  destruct (decide (i = src + 2)%nat) as [->|Hi].
  - rewrite lookup_app_r by (rewrite length_take, length_insert; lia).
    rewrite length_take, length_insert. replace (src + 2 - _)%nat with 0%nat by lia. by cbn.
  - destruct (decide (i < src + 2)%nat).
    + rewrite lookup_app_l by (rewrite length_take, length_insert; lia).
      rewrite lookup_take_lt by lia. by rewrite list_lookup_insert_ne by lia.
    + rewrite lookup_app_r by (rewrite length_take, length_insert; lia).
      rewrite length_take, length_insert, Nat.min_l by lia.
      destruct (i - (src + 2))%nat as [|k] eqn:Ek; [lia|]. etransitivity; [apply lookup_drop|].
      rewrite list_lookup_insert_ne by lia. f_equal. lia.
Qed.

(** Reception of a frame with a well-formed header: the checksum decides. *)
Lemma process_frame (s : st) c src dst d pre type seq ck body e ingress v :
  initialized (pk s) = true -> pk_cb (pk s) = Some c -> layout c src dst d ->
  length pre = d -> plain_source src e pre -> 0 <= e < 16 -> 0 <= ingress < 16 ->
  0 <= type < 2 ^ 16 -> 0 <= seq < 2 ^ 32 -> length ck = 2%nat -> bytes_ok ck ->
  Z.of_nat (length body) < 2 ^ 31 ->
  cb_checksum c (packet_frame pre type seq [0; 0] body) (Z.of_nat (length body) + 13) = Some v ->
  0 <= v < 65536 ->
  let g := packet_frame pre type seq ck body in
  process_received_message call_process call_reply
    (Some (<[(src + 2)%nat := 16 * ingress + e]> g)) (Z.of_nat (length body)) s
  = if v =? native_load ck then
      dispatch call_process call_reply
        (MkProcessData (MkHeader type (le_dec ck) 0 0 seq 0 0 0) body (Z.of_nat (length body))
           (slice src 16 pre) (slice dst 16 pre) ingress) s
    else Some (BmEBADMSG, s).
Proof.
  intros Hi Hc Hlay Hpre [He Hz] Her Hir Ht Hs Hck Hckok Hsz Hv Hvr g.
  pose proof (lay_order _ _ _ _ Hlay) as [Ho1 Ho2].
  assert (Hgl : (d <= length g)%nat) by (unfold g; rewrite length_packet_frame by done; lia).
  assert (Hge : g !! (src + 2)%nat = Some e)
    by (unfold g, packet_frame; rewrite lookup_app_l by lia; done).
  assert (Hgz : slice (src + 4) 4 (<[(src + 2)%nat := 16 * ingress + e]> g) = [0; 0; 0; 0]).
  { unfold g, packet_frame. rewrite insert_pre, slice_app_l by (rewrite ?length_insert; lia).
    rewrite <- Hz. apply list_eq. intros i. destruct (decide (i < 4)%nat).
    - rewrite !lookup_slice by done. by rewrite list_lookup_insert_ne by lia.
    - unfold slice. by rewrite !lookup_take_ge by lia. }
  unfold process_received_message, get, callbacks, get. erewrite bind_some by reflexivity.
  rewrite Hi. rewrite (bind_some _ _ s c s) by (erewrite bind_some by reflexivity; by rewrite Hc).
  rewrite (lay_data _ _ _ _ Hlay), (lay_src _ _ _ _ Hlay), (lay_dst _ _ _ _ Hlay).
  erewrite bind_some by reflexivity. erewrite bind_some by reflexivity.
  rewrite list_lookup_insert_eq by lia. erewrite bind_some by reflexivity.
  rewrite clear_ports_legacy_zero by (first [done|rewrite length_insert; lia]).
  erewrite bind_some by reflexivity.
  rewrite clear_ingress_nibble_of by (first [done|lia]). erewrite bind_some by reflexivity.
  unfold g. rewrite <- Hpre at 1. rewrite read_checksum by done. erewrite bind_some by reflexivity.
  rewrite <- Hpre at 1. rewrite write_checksum by (done || apply length_native_store).
  erewrite bind_some by reflexivity.
  assert (En : native_store 2 0 = [0; 0]) by (unfold native_store; by destruct little_endian).
  rewrite En. change (Z.of_nat sizeof_BcmpHeader) with 13. rewrite u32_small by lia. rewrite Hv.
  erewrite bind_some by reflexivity. rewrite u16_small by lia.
  destruct (v =? native_load ck); [|done]. cbn [negb].
  rewrite <- Hpre at 1. rewrite write_checksum by done. erewrite bind_some by reflexivity.
  destruct (header_from_wire _ type seq ck Ht Hs Hck Hckok) as (b & Eb & Lb & Hb).
  pose proof (length_wire_header type seq ck Hck) as Hwl.
  change sizeof_BcmpHeader with 13%nat. unfold packet_frame.
  rewrite read_header by done. erewrite bind_some by reflexivity.
  rewrite Eb. erewrite bind_some by reflexivity.
  rewrite write_header by (first [done|congruence]).
  erewrite bind_some by reflexivity. rewrite Hb.
  unfold read_at. rewrite !length_app, Lb, Hpre.
  destruct (Nat.leb_spec (src + 16) (d + (13 + length body))); [|lia].
  erewrite bind_some by reflexivity.
  destruct (Nat.leb_spec (dst + 16) (d + (13 + length body))); [|lia].
  erewrite bind_some by reflexivity. rewrite !slice_app_l by lia.
  assert (Ed : drop (d + 13) (pre ++ b ++ body) = body).
  { rewrite app_assoc. apply drop_app_length'. rewrite length_app, Lb, Hpre. done. }
  rewrite Ed. do 2 f_equal.
  replace (16 * ingress + e) with (e + ingress * 16) by lia.
  rewrite Z.shiftr_div_pow2 by lia. change (2 ^ 4) with 16.
  rewrite Z.div_add, Z.div_small by lia. change 0xF with (2 ^ 4 - 1).
  rewrite land_ones_mod by lia. by apply Z.mod_small.
Qed.

Lemma give_free (s : st) b : sequence_list_semaphore (pk s) = Some true ->
  give_semaphore (set_sem (Some b) s) = Some (tt, s).
Proof. destruct s as [[] ? ? ? ? ?]. cbn. intros ->. done. Qed.

Lemma find_message_ready (s : st) es seq :
  ready s -> requests_are s es ->
  sequence_list_find_message seq s = Some (mjoin (find_id seq es), s).
Proof.
  intros Hr He. unfold sequence_list_find_message.
  erewrite bind_some by (by apply take_ready). cbn [is_ok]. unfold get.
  erewrite bind_some by reflexivity. cbn [requests set_sem set_pk pk sequence_list].
  rewrite (ll_get_refines _ _ _ _ He).
  destruct (find_id seq es) as [[e|]|]; unfold lift; cbn [fmap option_fmap option_map];
    erewrite bind_some by reflexivity; cbv beta iota;
    erewrite bind_some by (apply give_free, Hr); done.
Qed.

(** Nobody waits for the message: its handler gets it. *)
Lemma take_reply_cb_none (s : st) es cfg seq :
  ready s -> requests_are s es ->
  sequenced_reply cfg && negb (sequenced_request cfg) = false \/ find_id seq es = None ->
  take_reply_cb cfg seq s = Some (None, s).
Proof.
  intros Hr He Hor. unfold take_reply_cb.
  destruct (_ && _) eqn:Eb; [|done]. destruct Hor as [Hor|Hor]; [congruence|].
  erewrite bind_some by (by apply find_message_ready). by rewrite Hor.
Qed.

(** It answers a request: the request is taken off the list. *)
Lemma take_reply_cb_some (s : st) es cfg seq r :
  ready s -> requests_are s es ->
  sequenced_reply cfg = true -> sequenced_request cfg = false ->
  find_id seq es = Some (Some r) -> at_end seq es = true ->
  exists ll h, take_reply_cb cfg seq s = Some (re_cb r, set_requests ll h s)
    /\ ll_inv h ll (remove_id seq es).
Proof.
  intros Hr He Hrep Hreq Hf Hend. unfold take_reply_cb. rewrite Hrep, Hreq. cbn [andb negb].
  erewrite bind_some by (by apply find_message_ready). rewrite Hf. cbn [mjoin option_join].
  erewrite bind_some by (by apply take_ready). cbn [is_ok].
  destruct (ll_remove_refines _ _ _ seq He Hend) as (ll & h & E & Hinv).
  unfold sequence_list_remove_message, sequence_remove, get.
  exists ll, h. rewrite (bind_some _ _ _ true (set_requests ll h (set_sem (Some false) s))).
  - destruct Hr as [Hs _]. destruct s as [[] ? ? ? ? ?]. cbn in Hs |- *. by subst.
  - rewrite (bind_some _ _ _ BmOK (set_requests ll h (set_sem (Some false) s))); [done|].
    erewrite bind_some by reflexivity. cbn [requests set_sem set_pk pk sequence_list].
    rewrite E, Hf. reflexivity.
Qed.

Lemma dispatch_known (s : st) ps data cfg d0 :
  packets_are s ps -> find_id (h_type (pd_header data)) ps = Some (Some cfg) ->
  check_endianness (h_type (pd_header data)) (pd_payload data) = Some d0 ->
  dispatch call_process call_reply data s
  = (cb ← take_reply_cb cfg (h_seq_num (pd_header data));
     match cb with
     | Some cb => call_reply cb (Some d0)
     | None =>
         match process cfg with
         | Some p => call_process p (MkProcessData (pd_header data) d0 (pd_size data) (pd_src data)
                                       (pd_dst data) (pd_ingress_port data))
         | None => mret BmOK
         end
     end) s.
Proof.
  intros Hp Hcfg Hd. unfold dispatch, packet_cfg, get.
  rewrite (bind_some _ _ s (BmOK, Some cfg) s).
  2: { erewrite bind_some by reflexivity. by rewrite (ll_get_refines _ _ _ _ Hp), Hcfg. }
  cbn [is_ok]. rewrite Hd. by erewrite bind_some by reflexivity.
Qed.

(** A node that can send: it knows the type, and its frames have this layout. *)
Record can_send (s : st) (c : PacketCb) (es : list (Z * option BcmpRequestElement))
    (type : Z) (cfg : BcmpPacketCfg) : Prop := {
  cs_ready : ready s;
  cs_init : initialized (pk s) = true;
  cs_cb : pk_cb (pk s) = Some c;
  cs_requests : requests_are s es;
  cs_packet : exists ps, packets_are s ps /\ find_id type ps = Some (Some cfg)
}.

(** A message that fits its type, and a frame for it. *)
Record can_carry (type : Z) (d0 f : bytes) (src d : nat) : Prop := {
  cc_type : 0 <= type < 2 ^ 16 /\ type <> BcmpEchoRequestMessage;
  cc_data : bytes_ok d0 /\ (swapped_size type <= length d0)%nat /\ Z.of_nat (length d0) < 65000;
  cc_frame : bytes_ok f /\ length f = (d + 13 + length d0)%nat;
  cc_source : plain_source src 0 (take d f)
}.

Lemma can_send_world (s : st) c es type cfg w :
  can_send s c es type cfg -> can_send (set_world w s) c es type cfg.
Proof. intros []. by split. Qed.

(** What is serialized arrives, whatever port it comes in by. *)
Lemma transfer (s : st) c src dst d es type cfg d0 f seq_num cb :
  layout c src dst d -> can_send s c es type cfg -> can_carry type d0 f src d ->
  0 <= seq_of cfg seq_num s < 2 ^ 32 ->
  exists g d1 s' ck,
    serialize (Some f) (Some d0) (Z.of_nat (length d0)) type seq_num cb s
      = Some ((BmOK, Some g, Some d1), s')
    /\ forall (r : st) es' cfg' ingress,
         can_send r c es' type cfg' -> 0 <= ingress < 16 ->
         process_received_message call_process call_reply
           (Some (<[(src + 2)%nat := 16 * ingress]> g)) (Z.of_nat (length d0)) r
         = (cb ← take_reply_cb cfg' (seq_of cfg seq_num s);
            match cb with
            | Some cb => call_reply cb (Some d0)
            | None =>
                match process cfg' with
                | Some p => call_process p
                    (MkProcessData (MkHeader type ck 0 0 (seq_of cfg seq_num s) 0 0 0)
                       d0 (Z.of_nat (length d0)) (slice src 16 f) (slice dst 16 f) ingress)
                | None => mret BmOK
                end
            end) r.
Proof.
  intros Hlay [Hr Hi Hc He (ps & Hp & Hcfg)] [[Ht Hne] (Hdok & Hds & Hdl) [Hfok Hfl] Hsrc] Hseq.
  destruct (check_endianness_inverse _ type d0 Hne Hdok Hds) as (d1 & E1 & L1 & O1 & E0).
  destruct (serialize_known s es ps c src dst d f d0 d1 type cfg seq_num cb)
    as (v & s' & Hv & Hvr & _ & Es); try done; [by rewrite L1|by rewrite L1|].
  set (g := packet_frame _ _ _ (native_store 2 v) d1) in Es.
  exists g, d1, s', (le_dec (native_store 2 v)). split; [by rewrite <- L1|].
  intros r es' cfg' ingress [Hr' Hi' Hc' He' (ps' & Hp' & Hcfg')] Hin.
  pose proof (lay_order _ _ _ _ Hlay) as [Ho1 Ho2].
  pose proof (process_frame r c src dst d (take d f) type (seq_of cfg seq_num s)
    (native_store 2 v) d1 0 ingress v) as Hpf.
  rewrite Z.add_0_r, L1 in Hpf. unfold g. rewrite L1 in Hv.
  rewrite Hpf; clear Hpf; try first [done|lia|apply length_native_store|apply native_store_ok].
  2: { rewrite length_take. lia. }
  rewrite native_load_store, Z.mod_small, Z.eqb_refl by (change (256 ^ Z.of_nat 2) with 65536; lia).
  assert (Hsl : forall k, (k + 16 <= d)%nat -> slice k 16 (take d f) = slice k 16 f).
  { intros k Hk. rewrite <- (take_drop d f) at 2. rewrite slice_app_l; [done|].
    rewrite length_take. lia. }
  rewrite (dispatch_known r ps' _ cfg' d0) by done. cbn [pd_header h_seq_num pd_size pd_src pd_dst
    pd_ingress_port]. by rewrite !Hsl by lia.
Qed.

(** A message goes through: what [serialize] puts in a frame,
    [process_received_message] takes out of it on another node with the same kind
    of processor.  Whatever port the frame comes in by, its checksum is accepted
    and the handler of its type is called once, with the type, the sequence
    number, the sender's bytes, the addresses of the frame and the port. *)
Theorem message_round_trip (s : st) c src dst d es type cfg d0 f seq_num cb :
  layout c src dst d -> can_send s c es type cfg -> can_carry type d0 f src d ->
  0 <= seq_of cfg seq_num s < 2 ^ 32 ->
  exists g d1 s' ck,
    serialize (Some f) (Some d0) (Z.of_nat (length d0)) type seq_num cb s
      = Some ((BmOK, Some g, Some d1), s')
    /\ forall (r : st) es' cfg' p ingress,
         can_send r c es' type cfg' -> process cfg' = Some p -> 0 <= ingress < 16 ->
         sequenced_reply cfg' && negb (sequenced_request cfg') = false
           \/ find_id (seq_of cfg seq_num s) es' = None ->
         process_received_message call_process call_reply
           (Some (<[(src + 2)%nat := 16 * ingress]> g)) (Z.of_nat (length d0)) r
         = call_process p
             (MkProcessData (MkHeader type ck 0 0 (seq_of cfg seq_num s) 0 0 0)
                d0 (Z.of_nat (length d0)) (slice src 16 f) (slice dst 16 f) ingress) r.
Proof.
  intros Hlay Hs Hc Hseq.
  destruct (transfer s c src dst d es type cfg d0 f seq_num cb Hlay Hs Hc Hseq)
    as (g & d1 & s' & ck & E & Hrx).
  exists g, d1, s', ck. split; [done|]. intros r es' cfg' p ingress Hr Hp Hin Hor.
  rewrite (Hrx r es' cfg' ingress Hr Hin).
  erewrite bind_some by (eapply take_reply_cb_none; [apply Hr|apply Hr|done]). by rewrite Hp.
Qed.

(** C6: a reply finds its request.  A node sends a request with a reply callback
    and gets the reply, a message with the request's sequence number: the callback
    is called once, with the responder's bytes, and the request is no longer
    outstanding.  A second copy of the reply then goes to the handler of its type
    as any other message does. *)
Theorem reply_round_trip (q : st) c src dst d es qtype qcfg q0 qf qcb
    (s : st) es2 type cfg cfg' d0 f :
  layout c src dst d ->
  can_send q c es qtype qcfg -> can_carry qtype q0 qf src d ->
  sequenced_reply qcfg = false -> sequenced_request qcfg = true ->
  find_id (message_count q) es = None -> 0 <= message_count q < 2 ^ 32 ->
  can_send s c es2 type cfg -> can_carry type d0 f src d -> sequenced_reply cfg = true ->
  (exists ps, packets_are q ps /\ find_id type ps = Some (Some cfg')) ->
  sequenced_reply cfg' = true -> sequenced_request cfg' = false ->
  exists qg qd q' g d1 s' ck,
    serialize (Some qf) (Some q0) (Z.of_nat (length q0)) qtype 0 (Some qcb) q
      = Some ((BmOK, Some qg, Some qd), q')
    /\ serialize (Some f) (Some d0) (Z.of_nat (length d0)) type (message_count q) None s
      = Some ((BmOK, Some g, Some d1), s')
    /\ forall ingress, 0 <= ingress < 16 ->
         let receive := process_received_message call_process call_reply
           (Some (<[(src + 2)%nat := 16 * ingress]> g)) (Z.of_nat (length d0)) in
         exists q2,
           receive q' = call_reply qcb (Some d0) q2
           /\ can_send q2 c es type cfg' /\ world q2 = world q
           /\ forall q3 p, can_send q3 c es type cfg' -> process cfg' = Some p ->
                receive q3 = call_process p
                  (MkProcessData (MkHeader type ck 0 0 (message_count q) 0 0 0)
                     d0 (Z.of_nat (length d0)) (slice src 16 f) (slice dst 16 f) ingress) q3.
Proof.
  intros Hlay Hq Hqc Hqr Hqs Hnew Hn Hs Hc Hcr (ps & Hps & Hcfg') Hr' Hs'.
  assert (Hseq : seq_of cfg (message_count q) s = message_count q) by (unfold seq_of; by rewrite Hcr).
  destruct (transfer s c src dst d es2 type cfg d0 f (message_count q) None Hlay Hs Hc)
    as (g & d1 & s' & ck & E & Hrx); [by rewrite Hseq|]. rewrite Hseq in Hrx.
  destruct Hq as [Hqrd Hqi Hqcb Hqe (qps & Hqps & Hqcfg)].
  destruct Hqc as [[Ht Hne] (Hdok & Hds & Hdl) [Hfok Hfl] Hsrc].
  destruct (check_endianness_inverse _ qtype q0 Hne Hdok Hds) as (qd & E1 & L1 & O1 & _).
  destruct (serialize_known q es qps c src dst d qf q0 qd qtype qcfg 0 (Some qcb))
    as (v & q' & _ & _ & Hns & Es); try done; [by rewrite L1|by rewrite L1|].
  destruct (next_seq_num_ready q es qcfg qtype 0 (Some qcb) Hqrd Hqe) as (ll & h & Hns' & Hinv).
  rewrite Hqr, Hqs in Hns', Hinv. cbn [negb andb] in Hns', Hinv. specialize (Hinv eq_refl).
  rewrite Hns in Hns'. injection Hns' as Eq'.
  exists (packet_frame (take d qf) qtype (seq_of qcfg 0 q) (native_store 2 v) qd), qd, q', g, d1, s', ck.
  split; [by rewrite <- L1|]. split; [done|]. intros ingress Hin receive.
  set (m := MkRequest _ _ _ _ (Some qcb)) in Hinv.
  assert (Hready : forall ll h n, ready (set_requests ll h (set_message_count n q))) by (intros; exact Hqrd).
  assert (Hcan : forall ll h n es', ll_inv h ll es' ->
            can_send (set_requests ll h (set_message_count n q)) c es' type cfg').
  { intros ll' h' n' es' Hi'. split; [apply Hready|exact Hqi|exact Hqcb|exact Hi'|by exists ps]. }
  destruct (take_reply_cb_some q' (es ++ [(message_count q, Some m)]) cfg' (message_count q) m)
    as (ll2 & h2 & Et & Hinv2); try done.
  { rewrite Eq'. apply Hready. }
  { by rewrite Eq'. }
  { by apply find_id_snoc. }
  { by apply at_end_snoc. }
  rewrite remove_id_snoc in Hinv2 by done.
  exists (set_requests ll2 h2 q').
  split_and!; [|rewrite Eq'; apply (Hcan ll2 h2 _ es Hinv2)|by rewrite Eq'|].
  - unfold receive. rewrite (Hrx q' (es ++ [(message_count q, Some m)]) cfg' ingress) by
      (first [done|rewrite Eq'; by apply Hcan]).
    by erewrite bind_some by exact Et.
  - intros q3 p Hc3 Hp. unfold receive. rewrite (Hrx _ es cfg' ingress Hc3 Hin).
    erewrite bind_some by (eapply take_reply_cb_none; [apply Hc3|apply Hc3|by right]).
    by rewrite Hp.
Qed.

(** ** Expiry *)

Definition entries_of (rs : list BcmpRequestElement) : list (Z * option BcmpRequestElement) :=
  (fun r => (re_seq_num r, Some r)) <$> rs.

(** What the callbacks of expired requests do to the state of the handlers. *)
Definition timeouts (on_timeout : nat -> W -> W) (rs : list BcmpRequestElement) (w : W) : W :=
  fold_left (fun w r => match re_cb r with Some k => on_timeout k w | None => w end) rs w.

Definition with_cursor (c : option loc) (ll : LL) : LL := MkLL (head ll) (tail ll) c.

Lemma advance_some {D} (h : gmap loc (LLItem D)) ll x it :
  cursor ll = Some x \/ cursor ll = None /\ head ll = Some x -> h !! x = Some it ->
  ll_advance_cursor h ll = Some (BmOK, data it, with_cursor (next it) ll).
Proof.
  intros [Hc|[Hc Hh]] Hx; unfold ll_advance_cursor, with_cursor; rewrite Hc, ?Hh; cbv zeta; rewrite Hx; reflexivity.
Qed.

Lemma entries_cons_inv {D} (h : gmap loc (LLItem D)) x xs i d es :
  entries h (x :: xs) = (i, d) :: es -> is_Some (h !! x) ->
  exists it, h !! x = Some it /\ id it = i /\ data it = d /\ entries h xs = es.
Proof.
  intros E [it Hx]. cbn in E. rewrite (entry_lookup h x it Hx) in E. injection E as E1 E2 E3.
  by exists it.
Qed.

(** A traversal starts at the head. *)
Lemma traverse_start fuel (s : st) :
  (cursor (sequence_list (pk s)) = None
   \/ cursor (sequence_list (pk s)) = head (sequence_list (pk s))) ->
  sequence_traverse_loop call_reply fuel s
  = sequence_traverse_loop call_reply fuel
      (set_requests (with_cursor (head (sequence_list (pk s))) (sequence_list (pk s)))
         (requests s) s).
Proof.
  intros Hc. destruct s as [[cb i sem t [hd tl cur] pl] n rq pa os w].
  cbn in Hc. destruct Hc as [->| ->]; [|done]. destruct hd as [x|]; [|done].
  destruct fuel as [|fuel]; [done|]. cbn [sequence_traverse_loop]. unfold get.
  erewrite bind_some by reflexivity. symmetry. erewrite bind_some by reflexivity. symmetry.
  unfold ll_advance_cursor.
  cbn [cursor head tail with_cursor sequence_list set_requests pk requests].
  destruct (rq !! x); reflexivity.
Qed.

(** The rest of the list when nothing more has expired. *)
Lemma traverse_kept fuel K xs (s : st) p :
  chain (requests s) p xs -> entries (requests s) xs = entries_of K -> p <> None ->
  cursor (sequence_list (pk s)) = p ->
  Forall (fun r => expired (os_ticks_ms (pk_os s)) r = false) K -> (length K <= fuel)%nat ->
  exists ret c, sequence_traverse_loop call_reply fuel s
    = Some (ret, set_requests (with_cursor c (sequence_list (pk s))) (requests s) s).
Proof.
  revert K xs s p. induction fuel as [|fuel IH]; intros K xs s p Hc He Hp Hcur HK Hf.
  { destruct K; [|cbn in Hf; lia]. destruct xs; [by cbn in Hc|done]. }
  destruct xs as [|x xs]; [by cbn in Hc|]. destruct K as [|r K]; [done|].
  destruct Hc as [-> (it & Hx & Hc)]. apply Forall_cons in HK as [Hr HK].
  destruct (entries_cons_inv _ _ _ _ _ _ He) as (it' & Hx' & _ & Hd & He'); [by eexists|].
  rewrite Hx in Hx'. injection Hx' as <-.
  cbn [sequence_traverse_loop]. unfold get. erewrite bind_some by reflexivity.
  rewrite (advance_some _ _ x it) by (done || by left). rewrite Hd.
  erewrite bind_some by reflexivity. cbv beta iota.
  erewrite bind_some by reflexivity. cbn [is_ok].
  set (s1 := set_requests _ _ s).
  rewrite (bind_some _ _ s1 BmOK s1).
  2: { unfold timer_traverse_cb, gets. erewrite bind_some by reflexivity.
       change (os_ticks_ms (pk_os s1)) with (os_ticks_ms (pk_os s)). by rewrite Hr. }
  erewrite bind_some by reflexivity. change (cursor (sequence_list (pk s1))) with (next it).
  destruct (next it) as [y|] eqn:Hy; [|by do 2 eexists].
  cbn [is_ok]. destruct (IH K xs s1 (Some y)) as (ret & c & E); try done.
  { cbn in Hf. lia. }
  rewrite E. by exists ret, c.
Qed.

Context (on_timeout : nat -> W -> W).
Context (call_timeout : forall k (s : st),
  exists e, call_reply k None s = Some (e, set_world (on_timeout k (world s)) s)).

Lemma traverse_expired fuel E K xs (s : st) :
  ll_seq (requests s) (sequence_list (pk s)) xs -> ll_linked (requests s) xs ->
  entries (requests s) xs = entries_of (E ++ K) -> E ++ K <> [] ->
  (cursor (sequence_list (pk s)) = None
   \/ cursor (sequence_list (pk s)) = head (sequence_list (pk s))) ->
  Forall (fun r => expired (os_ticks_ms (pk_os s)) r = true) E ->
  Forall (fun r => expired (os_ticks_ms (pk_os s)) r = false) K ->
  (length (E ++ K) <= fuel)%nat ->
  exists ret ll h, sequence_traverse_loop call_reply fuel s
    = Some (ret, set_requests ll h (set_world (timeouts on_timeout E (world s)) s))
    /\ ll_inv h ll (entries_of K).
Proof.
  revert E xs s. induction fuel as [|fuel IH]; intros E xs s Hs Hl He Hne Hcur HE HK Hf.
  { destruct (E ++ K); [done|cbn in Hf; lia]. }
  destruct E as [|r E].
  - (* nothing has expired *)
    destruct xs as [|x xs]; [by destruct K|].
    pose proof (chain_head _ _ _ _ (ls_chain _ _ _ Hs)) as Hh.
    destruct (traverse_kept (S fuel) K (x :: xs) (set_requests (with_cursor (Some x)
      (sequence_list (pk s))) (requests s) s) (Some x)) as (ret & c & E); try done.
    { rewrite <- Hh. apply Hs. }
    assert (E2 : sequence_traverse_loop call_reply (S fuel) s
      = Some (ret, set_requests (with_cursor c (sequence_list (pk s))) (requests s) s)).
    { rewrite traverse_start, Hh by done. exact E. }
    exists ret, (with_cursor c (sequence_list (pk s))), (requests s). split.
    + rewrite E2. by destruct s as [[] ? ? ? ? ?].
    + exists (x :: xs). split_and!; [|done|done]. destruct Hs. by split.
  - destruct xs as [|x xs]; [done|].
    pose proof (ls_chain _ _ _ Hs) as Hc. pose proof (chain_head _ _ _ _ Hc) as Hh.
    destruct Hc as [_ (it & Hx & Hc)]. cbn [app entries_of fmap list_fmap] in He.
    destruct (entries_cons_inv _ _ _ _ _ _ He) as (it' & Hx' & Hid & Hd & He'); [by eexists|].
    rewrite Hx in Hx'. injection Hx' as <-. apply Forall_cons in HE as [Hr HE].
    cbn [sequence_traverse_loop]. unfold get. erewrite bind_some by reflexivity.
    rewrite (advance_some _ _ x it) by
      (first [done|destruct Hcur; [right; split|left]; congruence]).
    rewrite Hd. erewrite bind_some by reflexivity. cbv beta iota.
    erewrite bind_some by reflexivity. cbn [is_ok]. set (s1 := set_requests _ _ s).
    destruct (ll_remove_head (requests s) (with_cursor (next it) (sequence_list (pk s))) x xs it)
      as (Erm & Hs' & Hl'); [destruct Hs; by split|done|].
    rewrite Hid in Erm.
    set (w := match re_cb r with Some k => on_timeout k (world s) | None => world s end).
    set (s2 := set_requests (MkLL (next it) (last xs) (next it)) (freed it x (requests s))
                 (set_world w s)).
    rewrite (bind_some _ _ s1 BmOK s2).
    2: { unfold timer_traverse_cb, gets. erewrite bind_some by reflexivity.
         change (os_ticks_ms (pk_os s1)) with (os_ticks_ms (pk_os s)). rewrite Hr.
         rewrite (bind_some _ _ s1 tt (set_world w s1)).
         - unfold sequence_remove, get. erewrite bind_some by reflexivity.
           cbn [requests set_world set_requests pk sequence_list s1]. rewrite Erm. reflexivity.
         - unfold w. destruct (re_cb r) as [k|]; [|reflexivity].
           destruct (call_timeout k s1) as [e Ee]. erewrite bind_some by exact Ee. done. }
    erewrite bind_some by reflexivity. cbn [cursor sequence_list pk set_requests s2 is_ok].
    destruct (next it) as [y|] eqn:Hy.
    + destruct (IH E xs s2) as (ret & ll & h & Ei & Hinv); try done.
      * by apply Hl'.
      * etransitivity; [|exact He']. apply entries_frame. intros z Hz. f_equal. apply freed_ne.
        pose proof (ls_nodup _ _ _ Hs) as Hnd. apply NoDup_cons in Hnd as [Hn _]. congruence.
      * intros Hnil. rewrite Hnil in He'. destruct xs; [|done]. by cbn in Hc.
      * by right.
      * cbn in Hf. lia.
      * exists ret, ll, h. split; [|done]. rewrite Ei. reflexivity.
    + assert (xs = []) as -> by (destruct xs; [done|by destruct Hc]).
      destruct (E ++ K) as [|r' rs] eqn:EK; [|done]. apply app_eq_nil in EK as [-> ->].
      do 3 eexists. split; [reflexivity|]. exists []. split_and!; [|done|done]. exact Hs'.
Qed.

(** C23: the expiry timer.  Requests are remembered in the order they were sent in;
    when those that have waited longer than their timeout, on the tick counter's
    thirty-two bits, are the first ones, a run of the timer calls the callback of
    each of them once, in order and without a message, takes exactly these off the
    list, and gives the semaphore back. *)
Theorem timer_expires (s : st) E K :
  ready s -> requests_are s (entries_of (E ++ K)) ->
  Forall (fun r => expired (os_ticks_ms (pk_os s)) r = true) E ->
  Forall (fun r => expired (os_ticks_ms (pk_os s)) r = false) K ->
  exists ll h, sequence_list_timer_callback call_reply s
    = Some (tt, set_requests ll h (set_world (timeouts on_timeout E (world s)) s))
    /\ ll_inv h ll (entries_of K).
Proof.
  intros Hr (xs & Hs & Hl & He) HE HK. pose proof Hr as [Hsem _].
  unfold sequence_list_timer_callback. erewrite bind_some by (by apply take_ready).
  cbn [is_ok]. unfold sequence_traverse, get.
  set (s1 := set_requests (ll_reset_cursor (sequence_list (pk s))) (requests s)
               (set_sem (Some false) s)).
  destruct (decide (E ++ K = [])) as [Hnil|Hne].
  - apply app_eq_nil in Hnil as [-> ->]. destruct xs as [|x xs]; [|done].
    pose proof (ls_chain _ _ _ Hs) as Hh. cbn in Hh.
    destruct s as [[? ? ? ? [hd tl cur] ?] ? ? ? ? ?]. cbn in Hh, Hsem. subst.
    do 2 eexists. split; [reflexivity|]. exists []. split_and!; [|done|done].
    destruct Hs. by split.
  - destruct (traverse_expired (ll_fuel (requests s)) E K xs s1) as (ret & ll & h & Et & Hinv);
      try done.
    { destruct Hs. by split. }
    { by left. }
    { pose proof (chain_size _ _ _ (ls_chain _ _ _ Hs) (ls_nodup _ _ _ Hs)) as Hsz.
      apply (f_equal length) in He. unfold entries, entries_of in He. rewrite !length_fmap in He.
      unfold ll_fuel. lia. }
    exists ll, h. split; [|done].
    rewrite (bind_some _ _ _ ret (set_requests ll h (set_world (timeouts on_timeout E (world s)) s1))).
    + destruct s as [[] ? ? ? ? ?]. cbn in Hsem. by subst.
    + erewrite bind_some by reflexivity. erewrite bind_some by reflexivity. exact Et.
Qed.
End specs.

(** ** Concrete nodes *)

(** Frames with the addresses in front; the checksum adds the bytes up. *)
Definition sample_cb : PacketCb :=
  MkPacketCb (fun _ => Some 0%nat) (fun _ => Some 16%nat) (fun _ => Some 32%nat)
    (fun f _ => Some (u16 (foldr Z.add 0 f))).

Lemma sample_layout : layout sample_cb 0 16 32.
Proof.
  split; try done; intros f n _ _ _. eexists. split; [reflexivity|]. apply u16_range.
Qed.

(** The handlers write down what they are called with. *)
Definition log : Type := list (nat * option bytes).
Definition log_process (p : nat) (d : BcmpProcessData) : M (packet_state log) BmErr := fun s =>
  Some (BmOK, set_world (world s ++ [(p, Some (pd_payload d))]) s).
Definition log_reply (k : nat) (b : option bytes) : M (packet_state log) BmErr := fun s =>
  Some (BmOK, set_world (world s ++ [(k, b)]) s).

Definition sample_packets : list (Z * option BcmpPacketCfg) :=
  [(BcmpNeighborTableRequestMessage, Some (MkCfg false true (Some 1%nat)));
   (BcmpNeighborTableReplyMessage, Some (MkCfg true false (Some 2%nat)))].

Definition state_of {St A} (m : M St A) (s : St) : St :=
  match m s with Some (_, s) => s | None => s end.

Definition sample_node : packet_state log :=
  state_of (_ ← packet_init (Some sample_cb) true (Some BmOK);
            _ ← packet_add (Some (MkCfg false true (Some 1%nat))) BcmpNeighborTableRequestMessage;
            packet_add (Some (MkCfg true false (Some 2%nat))) BcmpNeighborTableReplyMessage)
    (MkPacketState PACKET_zero 7 ∅ ∅ (MkOs [] [] 1000) []).

Definition sample_frame (n : nat) : bytes := repeat 0 32 ++ repeat 170 (13 + n).
Definition sample_request : bytes := [1; 2; 3; 4; 5; 6; 7; 8].
Definition sample_reply : bytes := [1; 2; 3; 4; 5; 6; 7; 8; 2; 0; 0].

Lemma sample_packets_are : packets_are sample_node sample_packets.
Proof.
  exists [1%positive; 2%positive]. split_and!; [|by repeat eexists|reflexivity].
  split; [split; [reflexivity|]; eexists; split; [reflexivity|]; split; [reflexivity|];
          eexists; split; [reflexivity|done]| |done].
  apply NoDup_cons. split; [set_solver|]. apply NoDup_cons. split; [set_solver|constructor].
Qed.

Lemma sample_requests_are : requests_are sample_node [].
Proof. exists []. split_and!; [|done..]. split; cbn; [done|constructor|done]. Qed.

Lemma sample_can_send type cfg :
  find_id type sample_packets = Some (Some cfg) -> can_send sample_node sample_cb [] type cfg.
Proof.
  intros Hf. split; [by split|reflexivity..|apply sample_requests_are|].
  exists sample_packets. split; [apply sample_packets_are|done].
Qed.

Lemma message_round_trip_witness :
  exists g d1,
    option_map fst (@serialize log platform_be (Some (sample_frame 8)) (Some sample_request) 8
      BcmpNeighborTableRequestMessage 0 None sample_node) = Some (BmOK, Some g, Some d1)
    /\ option_map (fun r => world (snd r))
         (@process_received_message log platform_be log_process log_reply
            (Some (<[2%nat := 16 * 3]> g)) 8 sample_node) = Some [(1%nat, Some sample_request)].
Proof.
  destruct (@message_round_trip log platform_be log_process log_reply sample_node sample_cb 0 16 32
      [] BcmpNeighborTableRequestMessage (MkCfg false true (Some 1%nat)) sample_request
      (sample_frame 8) 0 None) as (g & d1 & s' & ck & E & Hrx).
  - apply sample_layout.
  - by apply sample_can_send.
  - split; [by vm_compute|split; [decided|vm_compute; split; [lia|done]]|split; [decided|done]|done].
  - vm_compute. split; congruence.
  - exists g, d1. split; [exact (f_equal (option_map fst) E)|].
    pose proof (sample_can_send BcmpNeighborTableRequestMessage (MkCfg false true (Some 1%nat))
      eq_refl) as Hs.
    pose proof (Hrx sample_node [] _ 1%nat 3 Hs eq_refl ltac:(lia) (or_introl eq_refl)) as Hp.
    exact (f_equal (option_map (fun r => world (snd r))) Hp).
Defined.

(** A request and its reply: the callback gets the reply once; a second copy goes
    to the handler. *)
Lemma reply_round_trip_witness :
  exists q' g,
    option_map snd (@serialize log platform_mcu (Some (sample_frame 8)) (Some sample_request) 8
      BcmpNeighborTableRequestMessage 0 (Some 9%nat) sample_node) = Some q'
    /\ option_map (fun r => world (snd r))
         ((_ ← @process_received_message log platform_mcu log_process log_reply
                 (Some (<[2%nat := 16 * 3]> g)) 11;
           @process_received_message log platform_mcu log_process log_reply
             (Some (<[2%nat := 16 * 3]> g)) 11) q')
       = Some [(9%nat, Some sample_reply); (2%nat, Some sample_reply)].
Proof.
  destruct (@reply_round_trip log platform_mcu log_process log_reply sample_node sample_cb 0 16 32
      [] BcmpNeighborTableRequestMessage (MkCfg false true (Some 1%nat)) sample_request
      (sample_frame 8) 9 sample_node [] BcmpNeighborTableReplyMessage (MkCfg true false (Some 2%nat))
      (MkCfg true false (Some 2%nat)) sample_reply (sample_frame 11))
    as (qg & qd & q' & g & d1 & s' & ck & Eq & E & Hrx); try done.
  - apply sample_layout.
  - by apply sample_can_send.
  - split; [by vm_compute|split; [decided|vm_compute; split; [lia|done]]|split; [decided|done]|done].
  - by apply sample_can_send.
  - split; [by vm_compute|split; [decided|vm_compute; split; [lia|done]]|split; [decided|done]|done].
  - exists sample_packets. split; [apply sample_packets_are|done].
  - exists q', g. split; [exact (f_equal (option_map snd) Eq)|].
    destruct (Hrx 3 ltac:(lia)) as (q2 & E1 & Hc2 & Hw & E2).
    rewrite (bind_some _ _ q' BmOK (set_world (world q2 ++ [(9%nat, Some sample_reply)]) q2))
      by exact E1.
    pose proof (E2 (set_world (world q2 ++ [(9%nat, Some sample_reply)]) q2) 2%nat
      (can_send_world _ _ _ _ _ _ Hc2) eq_refl) as Hp.
    etransitivity; [exact (f_equal (option_map (fun r => world (snd r))) Hp)|].
    cbn. by rewrite Hw.
Defined.

(** Three requests at tick 1000; the ticks of the third one are from before the
    counter wrapped around. *)
Definition sample_outstanding : packet_state log :=
  state_of (_ ← sequence_list_add_message (MkRequest 8 900 24 5 (Some 3%nat)) 5;
            _ ← sequence_list_add_message (MkRequest 8 (2 ^ 32 - 10) 24 6 (Some 4%nat)) 6;
            sequence_list_add_message (MkRequest 8 980 24 7 (Some 5%nat)) 7)
    sample_node.

Lemma timer_expires_witness :
  exists ll h,
    sequence_list_timer_callback log_reply sample_outstanding
    = Some (tt, set_requests ll h (set_world [(3%nat, None); (4%nat, None)] sample_outstanding))
    /\ ll_inv h ll [(7, Some (MkRequest 8 980 24 7 (Some 5%nat)))].
Proof.
  apply (@timer_expires log log_reply (fun k w => w ++ [(k, None)]) (fun k s => ex_intro _ _ eq_refl)
    sample_outstanding [MkRequest 8 900 24 5 (Some 3%nat); MkRequest 8 (2 ^ 32 - 10) 24 6 (Some 4%nat)]
    [MkRequest 8 980 24 7 (Some 5%nat)]).
  - by split.
  - exists [1%positive; 2%positive; 3%positive]. split_and!; [|by repeat eexists|reflexivity].
    split; [| |done].
    + split; [reflexivity|]. eexists. split; [reflexivity|].
      split; [reflexivity|]. eexists. split; [reflexivity|].
      split; [reflexivity|]. eexists. split; [reflexivity|done].
    + apply (bool_decide_unpack _). vm_compute. exact I.
  - by repeat constructor.
  - by repeat constructor.
Defined.

(** The three requests again: the second one is answered first, which leaves the
    third one's back link to an item that does not exist any more; when the third
    one is answered the list ends in that item.  The next request goes behind it,
    here into the same memory, and is not found in the list. *)
Example out_of_order_replies :
  option_map fst
    ((_ ← sequence_list_remove_message 6;
      _ ← sequence_list_remove_message 7;
      added ← sequence_list_add_message (MkRequest 8 1000 24 8 None) 8;
      found ← sequence_list_find_message 8;
      mret (added, found)) sample_outstanding) = Some (true, None).
Proof. vm_compute. reflexivity. Qed.
