(* ===== verification/Parts.v ===== *)
(** * The parts of a node, and what BCMP offers them

    The files of src/bcmp that handle messages keep their state in variables of
    their own and send with [bcmp_tx].  They are modelled over any state that has
    theirs as a part, and over any implementation of what they call. *)
From S2P Require Import Prelude Util Packet.

(** [T] is a part of [St]. *)
Class Part (T St : Type) : Type := { part : St -> T; set_part : T -> St -> St }.

Class PartLaws (T St : Type) `{Part T St} : Prop := {
  part_set t s : part (set_part t s) = t;
  set_part_same s : set_part (part s) s = s;
  set_part_twice t u s : set_part t (set_part u s) = set_part t s
}.

Definition on_part {T St A} `{Part T St} (m : M T A) : M St A := zoom part set_part m.

#[export] Instance part_self (T : Type) : Part T T := { part s := s; set_part t _ := t }.
#[export] Instance part_self_laws (T : Type) : PartLaws T T.
Proof. by split. Qed.

#[export] Instance part_fst (T U : Type) : Part T (T * U) :=
  { part s := fst s; set_part t s := (t, snd s) }.
#[export] Instance part_fst_laws (T U : Type) : PartLaws T (T * U).
Proof. split; by intros; repeat match goal with x : T * U |- _ => destruct x end. Qed.

Lemma on_part_some {T St A} `{Part T St} (m : M T A) s a t :
  m (part s) = Some (a, t) -> on_part m s = Some (a, set_part t s).
Proof. intros E. unfold on_part, zoom. by rewrite E. Qed.

(** A computation that leaves the part as it was. *)
Lemma on_part_pure {T St A} `{PartLaws T St} (m : M T A) s a :
  m (part s) = Some (a, part s) -> on_part m s = Some (a, s).
Proof. intros E. rewrite (on_part_some _ _ _ _ E). by rewrite set_part_same. Qed.

(** [bcmp_tx] of src/bcmp/bcmp.c and [packet_add] of src/bcmp/packet.c. *)
Class BcmpApi (St : Type) : Type := {
  bcmp_tx : option BmIpAddr -> Z -> bytes -> Z -> Z -> option nat -> M St BmErr;
  packet_add : BcmpPacketCfg -> Z -> M St BmErr
}.

(** Sending does not touch the part. *)
Class KeepsPart (T St : Type) `{Part T St} `{BcmpApi St} : Prop := {
  bcmp_tx_keeps dst type d n seq cb s :
    post (bcmp_tx dst type d n seq cb) (fun _ s' => part s' = part s) s;
  packet_add_keeps cfg type s : post (packet_add cfg type) (fun _ s' => part s' = part s) s
}.
