(* ===== verification/Resources.v ===== *)
(** * Resource discovery: src/bcmp/resource_discovery.c

    The tables of the topics that a node publishes and subscribes to, and the
    messages that ask for them.  [memcmp] stops at the first difference; going on
    behind the end of a name is undefined. *)
From S2P Require Import Prelude Util LinkedList SList Os Packet Parts.

Inductive ResourceType : Type := PUB | SUB.

Record BcmpResourceNode : Type := MkResource { resource : bytes; rn_next : option loc }.

Record BcmpResourceList : Type := MkResourceList {
  rl_start : option loc; rl_end : option loc; num_resources : Z; rl_lock : BmSemaphore
}.

Record resources : Type := MkResources {
  PUB_LIST : BcmpResourceList;
  SUB_LIST : BcmpResourceList;
  RESOURCE_REQUEST_LIST : LL;
  rs_nodes : gmap loc BcmpResourceNode;
  rs_requests : gmap loc (LLItem (option nat));
  rs_os : Os
}.

Definition res_list (type : ResourceType) (r : resources) : BcmpResourceList :=
  match type with SUB => SUB_LIST r | PUB => PUB_LIST r end.
Definition set_res_list (type : ResourceType) (l : BcmpResourceList) (r : resources) : resources :=
  match type with
  | PUB => MkResources l (SUB_LIST r) (RESOURCE_REQUEST_LIST r) (rs_nodes r) (rs_requests r) (rs_os r)
  | SUB => MkResources (PUB_LIST r) l (RESOURCE_REQUEST_LIST r) (rs_nodes r) (rs_requests r) (rs_os r)
  end.
Definition set_rs_nodes (h : gmap loc BcmpResourceNode) (r : resources) : resources :=
  MkResources (PUB_LIST r) (SUB_LIST r) (RESOURCE_REQUEST_LIST r) h (rs_requests r) (rs_os r).
Definition set_rs_requests (ll : LL) (h : gmap loc (LLItem (option nat))) (r : resources) : resources :=
  MkResources (PUB_LIST r) (SUB_LIST r) ll (rs_nodes r) h (rs_os r).
Definition set_rs_os (o : Os) (r : resources) : resources :=
  MkResources (PUB_LIST r) (SUB_LIST r) (RESOURCE_REQUEST_LIST r) (rs_nodes r) (rs_requests r) o.

Definition with_rs_os {A} (m : M Os A) : M resources A := zoom rs_os set_rs_os m.

Definition default_resource_add_timeout_ms : Z := 100.

Definition set_lock (s : BmSemaphore) (l : BcmpResourceList) : BcmpResourceList :=
  MkResourceList (rl_start l) (rl_end l) (num_resources l) s.

(** [bm_semaphore_take(res_list->lock, timeout)] *)
Definition take_lock (type : ResourceType) : M resources BmErr :=
  l ← gets (res_list type);
  '(err, s) ← with_rs_os (bm_semaphore_take (rl_lock l));
  _ ← modify (fun r => set_res_list type (set_lock s (res_list type r)) r);
  mret err.

Definition give_lock (type : ResourceType) : M resources unit :=
  modify (fun r => set_res_list type
    (set_lock (snd (bm_semaphore_give (rl_lock (res_list type r)))) (res_list type r)) r).

Definition bcmp_resource_discovery_find_resource_priv (res : bytes) (resource_len : Z)
    (type : ResourceType) (r : resources) : option bool :=
  '(_, cur) ← find_node rn_next (rs_nodes r)
      (fun n => memcmp_eq (Z.to_nat resource_len) res (resource n)) (rl_start (res_list type r));
  Some (bool_decide (is_Some cur)).

(** The node that holds the new resource becomes the last one. *)
Definition link_resource (type : ResourceType) (l : loc) (r : resources) : option resources :=
  let t := res_list type r in
  h ← match rl_start t with
      | None => Some (rs_nodes r)
      | Some _ =>
          e ← rl_end t; n ← rs_nodes r !! e;
          Some (<[e := MkResource (resource n) (Some l)]> (rs_nodes r))
      end;
  let start := match rl_start t with None => Some l | Some s => Some s end in
  Some (set_res_list type (MkResourceList start (Some l) (u16 (num_resources t + 1)) (rl_lock t))
          (set_rs_nodes h r)).

(** The name is written without looking whether there is memory for it. *)
Definition bcmp_resource_discovery_add_resource (res : bytes) (resource_len : Z)
    (type : ResourceType) : M resources BmErr :=
  e ← take_lock type;
  if is_ok e then
    r ← get;
    found ← lift (bcmp_resource_discovery_find_resource_priv res resource_len type r);
    err ←
      (if found : bool then mret BmEAGAIN
       else
         resource_ok ← with_rs_os malloc_ok;
         if negb resource_ok then ub
         else
           name ← lift (read_at 0 (Z.to_nat resource_len) res);
           node_ok ← with_rs_os malloc_ok;
           if node_ok : bool then
             r ← get;
             let l := fresh (dom (rs_nodes r)) in
             r ← lift (link_resource type l (set_rs_nodes (<[l := MkResource name None]> (rs_nodes r)) r));
             _ ← modify (fun _ => r);
             mret BmOK
           else mret BmENOMEM);
    _ ← give_lock type;
    mret err
  else mret BmETIMEDOUT.

(** The number, when the lock was taken. *)
Definition bcmp_resource_discovery_get_num_resources (type : ResourceType)
    : M resources (BmErr * option Z) :=
  e ← take_lock type;
  if is_ok e then
    n ← gets (fun r => num_resources (res_list type r));
    _ ← give_lock type;
    mret (BmOK, Some n)
  else mret (BmETIMEDOUT, None).

Definition bcmp_resource_discovery_find_resource (res : bytes) (resource_len : Z) (type : ResourceType)
    : M resources (BmErr * option bool) :=
  e ← take_lock type;
  if is_ok e then
    r ← get;
    found ← lift (bcmp_resource_discovery_find_resource_priv res resource_len type r);
    _ ← give_lock type;
    mret (BmOK, Some found)
  else mret (BmETIMEDOUT, None).

(** The first lines of [bcmp_resource_discovery_init]; the flags tell whether there
    is memory for the locks. *)
Definition init_lists (pub_ok sub_ok : bool) (r : resources) : resources :=
  let list (ok : bool) := MkResourceList None None 0 (if ok then Some true else None) in
  MkResources (list pub_ok) (list sub_ok) (RESOURCE_REQUEST_LIST r) (rs_nodes r) (rs_requests r)
    (rs_os r).

(** ** The table as a message *)

Section messages.
Context `{Platform}.

(** [sizeof(BcmpResource)], [sizeof(BcmpResourceTableReply)] *)
Definition sizeof_BcmpResource : Z := 2.
Definition sizeof_BcmpResourceTableReply : Z := 12.

(** A [BcmpResource] in memory. *)
Definition resource_bytes (name : bytes) : bytes :=
  native_store 2 (Z.of_nat (length name)) ++ name.

(** The new [*msg_len], and whether it was computed. *)
Definition bcmp_resource_compute_list_size (type : ResourceType) (msg_len : Z)
    : M resources (bool * Z) :=
  e ← take_lock type;
  if is_ok e then
    r ← get;
    ns ← lift (nodes rn_next (rs_nodes r) (rl_start (res_list type r)));
    let n := foldl (fun a x => usize (a + (sizeof_BcmpResource + Z.of_nat (length (resource (snd x))))))
               msg_len ns in
    _ ← give_lock type;
    mret (true, n)
  else mret (false, msg_len).

(** The loop that copies the resources behind [data_offset]. *)
Fixpoint populate_loop (ns : list (loc * BcmpResourceNode)) (repl : bytes) (data_offset : Z)
    : option (bytes * Z) :=
  match ns with
  | [] => Some (repl, data_offset)
  | (_, n) :: ns =>
      let d := resource_bytes (resource n) in
      repl ← write_at (Z.to_nat (sizeof_BcmpResourceTableReply + data_offset)) d repl;
      populate_loop ns repl (u32 (data_offset + Z.of_nat (length d)))
  end.

Definition num_offset (type : ResourceType) : nat :=
  match type with PUB => 8 | SUB => 10 end.

Definition bcmp_resource_populate_msg_data (type : ResourceType) (repl : bytes) (data_offset : Z)
    : M resources (bool * bytes * Z) :=
  e ← take_lock type;
  if is_ok e then
    r ← get;
    repl ← lift (write_at (num_offset type) (native_store 2 (num_resources (res_list type r))) repl);
    ns ← lift (nodes rn_next (rs_nodes r) (rl_start (res_list type r)));
    '(repl, off) ← lift (populate_loop ns repl data_offset);
    _ ← give_lock type;
    mret (true, repl, off)
  else mret (false, repl, data_offset).

(** [junk] is what new memory holds. *)
Context (node_id : Z) (junk : nat -> Z).

(** The sizes of both tables, and a buffer of that size with both tables.  The
    error is that of the caller when a lock is not free. *)
Definition table_size : M resources (option Z) :=
  '(ok, n) ← bcmp_resource_compute_list_size PUB sizeof_BcmpResourceTableReply;
  if negb ok then mret None
  else
    '(ok, n) ← bcmp_resource_compute_list_size SUB n;
    mret (if ok : bool then Some n else None).

Definition populate_tables (msg_len : Z) : M resources (option bytes) :=
  repl ← lift (write_at 0 (native_store 8 node_id) (junk <$> seq 0 (Z.to_nat msg_len)));
  '(ok, repl, off) ← bcmp_resource_populate_msg_data PUB repl 0;
  if negb ok then mret None
  else
    '(ok, repl, _) ← bcmp_resource_populate_msg_data SUB repl off;
    mret (if ok : bool then Some repl else None).

Definition bcmp_resource_discovery_get_local_resources : M resources (option bytes) :=
  n ← table_size;
  match n with
  | None => mret None
  | Some n =>
      ok ← with_rs_os malloc_ok;
      if ok : bool then populate_tables n else mret None
  end.

(** *** Requests and replies *)

Definition BcmpResourceTableRequestMessage : Z := 0x0A.
Definition BcmpResourceTableReplyMessage : Z := 0x0B.

Context {St : Type} `{Part resources St} `{BcmpApi St}.
(** A callback is given the reply. *)
Context (call_resource_cb : nat -> bytes -> M St unit).

Definition bcmp_process_resource_discovery_request (data : BcmpProcessData) : M St BmErr :=
  target ← lift (read_at 0 8 (pd_payload data));
  if negb (native_load target =? node_id) then mret BmEBADMSG
  else
    n ← on_part table_size;
    match n with
    | None => mret BmEBADMSG
    | Some n =>
        ok ← on_part (with_rs_os malloc_ok);
        if negb ok then mret BmENOMEM
        else
          repl ← on_part (populate_tables n);
          match repl with
          | None => mret BmEBADMSG
          | Some repl => bcmp_tx (Some (pd_dst data)) BcmpResourceTableReplyMessage repl n 0 None
          end
    end.

(** The loops that print [n] resources, as the names that they print. *)
Fixpoint print_loop (n : nat) (resource_list : bytes) (offset : nat) : option (list bytes * nat) :=
  match n with
  | O => Some ([], offset)
  | S n =>
      len ← read_at offset 2 resource_list;
      let resource_len := Z.to_nat (native_load len) in
      name ← read_at (offset + 2) resource_len resource_list;
      '(names, off) ← print_loop n resource_list (offset + 2 + resource_len);
      Some (name :: names, off)
  end.

Definition print_tables (repl : bytes) : option (list bytes * list bytes) :=
  num_pubs ← read_at 8 2 repl;
  num_subs ← read_at 10 2 repl;
  '(pubs, off) ← print_loop (Z.to_nat (native_load num_pubs)) (drop 12 repl) 0;
  '(subs, _) ← print_loop (Z.to_nat (native_load num_subs)) (drop 12 repl) off;
  Some (pubs, subs).

(** The error, and the names that are printed for a request without a callback.
    The ids of a list have 32 bits. *)
Definition bcmp_process_resource_discovery_reply (data : BcmpProcessData)
    : M St (BmErr * option (list bytes * list bytes)) :=
  let repl := pd_payload data in
  let src_node_id := ip_to_nodeid (Some (pd_src data)) in
  id ← lift (read_at 0 8 repl);
  if native_load id =? src_node_id then
    r ← gets part;
    '(err, cb) ← lift (ll_get_item (Some (RESOURCE_REQUEST_LIST r)) (u32 src_node_id) (rs_requests r));
    printed ← match cb with
              | Some cb =>
                  cb ← lift cb;
                  match cb with
                  | Some f => _ ← call_resource_cb f repl; mret None
                  | None => t ← lift (print_tables repl); mret (Some t)
                  end
              | None => mret None
              end;
    r ← gets part;
    '(_, ll, h) ← lift (ll_remove (Some (RESOURCE_REQUEST_LIST r)) (u32 src_node_id) (rs_requests r));
    ll ← lift ll;
    _ ← on_part (modify (set_rs_requests ll h));
    mret (err, printed)
  else mret (BmOK, None).

Definition bcmp_resource_discovery_send_request (target_node_id : Z) (fp : option nat) : M St BmErr :=
  err ← bcmp_tx (Some multicast_ll_addr) BcmpResourceTableRequestMessage
          (native_store 8 target_node_id) 8 0 None;
  if is_ok err then
    r ← gets part;
    '(item, h) ← on_part (with_rs_os (create_item fp (u32 target_node_id) (rs_requests r)));
    match item with
    | None => mret BmENOMEM
    | Some _ =>
        '(e, ll, h) ← lift (ll_item_add (Some (RESOURCE_REQUEST_LIST r)) item h);
        ll ← lift ll;
        _ ← on_part (modify (set_rs_requests ll h));
        mret (if is_ok e then BmOK else BmENOMEM)
    end
  else mret err.

(** The handlers have the numbers [request] and [reply]. *)
Definition bcmp_resource_discovery_init (request reply : nat) (pub_ok sub_ok : bool) : M St BmErr :=
  _ ← on_part (modify (init_lists pub_ok sub_ok));
  err ← unless_err (if pub_ok && sub_ok then BmOK else BmENOMEM)
          (packet_add (MkCfg false false (Some request)) BcmpResourceTableRequestMessage);
  unless_err err (packet_add (MkCfg false false (Some reply)) BcmpResourceTableReplyMessage).
End messages.

(** ** What the tables stand for *)

#[export] Instance ResourceType_eq_dec : EqDecision ResourceType.
Proof. solve_decision. Defined.

(** What the comparison of the code finds: a name that begins with the topic counts,
    and a name that the topic begins with makes it run behind that name's end. *)
Fixpoint topic_find (n : bytes) (names : list bytes) : option bool :=
  match names with
  | [] => Some false
  | m :: names =>
      if decide (n `prefix_of` m) then Some true
      else if decide (m `prefix_of` n) then None
      else topic_find n names
  end.

(** The topic and the names of a table are not proper beginnings of each other. *)
Definition apart_from (n : bytes) (names : list bytes) : Prop :=
  Forall (fun m => n `prefix_of` m \/ m `prefix_of` n -> n = m) names.
Definition apart (names : list bytes) : Prop := Forall (fun n => apart_from n names) names.

#[export] Instance apart_from_dec n names : Decision (apart_from n names).
Proof. unfold apart_from. apply _. Defined.
#[export] Instance apart_dec names : Decision (apart names).
Proof. unfold apart. apply _. Defined.

(** Then it finds the name itself. *)
Lemma topic_find_apart n names :
  apart_from n names -> topic_find n names = Some (bool_decide (n ∈ names)).
Proof.
  induction 1 as [|m names Hm _ IH]; cbn [topic_find]; [done|].
  destruct (decide (n `prefix_of` m)) as [H1|H1];
    [|destruct (decide (m `prefix_of` n)) as [H2|H2]].
  - rewrite (Hm (or_introl H1)). f_equal. symmetry. apply bool_decide_eq_true_2. by left.
  - destruct H1. by rewrite <- (Hm (or_intror H2)).
  - rewrite IH. f_equal. apply bool_decide_ext. rewrite elem_of_cons.
    split; [by right|]. intros [->|]; [by destruct H1|done].
Qed.

Lemma apart_elem n names : apart names -> n ∈ names -> apart_from n names.
Proof. intros Ha Hn. unfold apart in Ha. rewrite Forall_forall in Ha. auto. Qed.

Lemma apart_sub names names' : (forall n, n ∈ names' -> n ∈ names) -> apart names -> apart names'.
Proof.
  intros Hs Ha. apply Forall_forall. intros n Hn. apply Forall_forall. intros m Hm.
  pose proof (apart_elem n names Ha (Hs n Hn)) as H. unfold apart_from in H.
  rewrite Forall_forall in H. auto.
Qed.

(** The search of the code, over the nodes of a table. *)
Lemma find_priv_spec h p xs n :
  slist rn_next h p xs ->
  (r ← find_node rn_next h (fun m => memcmp_eq (length n) n (resource m)) p;
   Some (bool_decide (is_Some (snd r)))) = topic_find n (resource <$> xs.*2).
Proof.
  intros Hs. unfold find_node.
  assert (Hf : (length xs < walk_fuel h)%nat)
    by (pose proof (slist_size rn_next h p xs Hs); unfold walk_fuel; lia).
  destruct Hs as [Hs _]. enough (forall fuel prev, (length xs < fuel)%nat ->
    (r ← find_loop rn_next fuel h (fun m => memcmp_eq (length n) n (resource m)) prev p;
     Some (bool_decide (is_Some (snd r)))) = topic_find n (resource <$> xs.*2)) by auto. clear Hf.
  revert p Hs. induction xs as [|[l m] xs IH]; intros p Hs [|fuel] prev Hf; cbn in Hf; try lia; cbn in Hs.
  - subst. done.
  - destruct Hs as (-> & Hl & Hs). cbn. rewrite Hl. cbn. rewrite memcmp_eq_spec.
    repeat case_decide; cbn; try done. apply IH; [done|lia].
Qed.

Record table_at (h : gmap loc BcmpResourceNode) (t : BcmpResourceList)
    (xs : list (loc * BcmpResourceNode)) : Prop := {
  ta_slist : slist rn_next h (rl_start t) xs;
  ta_end : rl_end t = last xs.*1;
  ta_num : num_resources t = u16 (Z.of_nat (length xs))
}.

(** The names [nm] of the two tables; their locks are free, and the operating
    system is willing. *)
Record res_inv (r : resources) (nm : ResourceType -> list bytes)
    (xs : ResourceType -> list (loc * BcmpResourceNode)) : Prop := {
  ri_table t : table_at (rs_nodes r) (res_list t r) (xs t);
  ri_names t : resource <$> (xs t).*2 = nm t;
  ri_disjoint : (xs PUB).*1 ## (xs SUB).*1;
  ri_lock t : rl_lock (res_list t r) = Some true;
  ri_os : willing (rs_os r)
}.

Definition upd {A} (t : ResourceType) (a : A) (f : ResourceType -> A) : ResourceType -> A :=
  fun u => if decide (u = t) then a else f u.

Lemma upd_eq {A} t (a : A) f : upd t a f t = a.
Proof. unfold upd. by rewrite decide_True. Qed.
Lemma upd_ne {A} t u (a : A) f : u <> t -> upd t a f u = f u.
Proof. intros. unfold upd. by rewrite decide_False. Qed.

Lemma res_list_set t u l r : res_list u (set_res_list t l r) = if decide (u = t) then l else res_list u r.
Proof. by destruct t, u. Qed.

(** What holds while a lock is held. *)
Definition hold (t : ResourceType) (r : resources) : resources :=
  set_res_list t (set_lock (Some false) (res_list t r)) r.

Lemma take_lock_free t r :
  rl_lock (res_list t r) = Some true -> willing (rs_os r) -> take_lock t r = Some (BmOK, hold t r).
Proof.
  intros Hl Hw. unfold take_lock, gets, mbind, M_bind, with_rs_os, zoom. rewrite Hl, take_willing by done.
  by destruct t, r.
Qed.

Lemma hold_set_same t r : rl_lock (res_list t r) = Some true ->
  set_res_list t (set_lock (Some true) (res_list t (hold t r))) (hold t r) = r.
Proof.
  intros Hl. destruct t, r as [[a b c d] [a' b' c' d'] ? ? ? ?]; cbn in *; by subst.
Qed.

Lemma give_lock_hold t r :
  rl_lock (res_list t r) = Some true -> give_lock t (hold t r) = Some (tt, r).
Proof.
  intros Hl. unfold give_lock, modify.
  assert (snd (bm_semaphore_give (rl_lock (res_list t (hold t r)))) = Some true) as -> by (by destruct t).
  by rewrite hold_set_same.
Qed.

Lemma find_priv_hold n len t u r :
  bcmp_resource_discovery_find_resource_priv n len u (hold t r)
  = bcmp_resource_discovery_find_resource_priv n len u r.
Proof. by destruct t, u. Qed.

Lemma find_priv_inv n t r nm xs :
  res_inv r nm xs ->
  bcmp_resource_discovery_find_resource_priv n (Z.of_nat (length n)) t r = topic_find n (nm t).
Proof.
  intros Hr. rewrite <- (ri_names _ _ _ Hr t). unfold bcmp_resource_discovery_find_resource_priv.
  rewrite Nat2Z.id. rewrite <- (find_priv_spec _ _ _ n (ta_slist _ _ _ (ri_table _ _ _ Hr t))).
  unfold mbind, option_bind. by destruct (find_node _ _ _ _) as [[]|].
Qed.

(** *** Adding *)

Lemma link_table h t xs l name :
  table_at h t xs -> h !! l = None ->
  exists h' n', (match rl_start t with
     | None => Some (<[l := MkResource name None]> h)
     | Some _ =>
         e ← rl_end t; n ← <[l := MkResource name None]> h !! e;
         Some (<[e := MkResource (resource n) (Some l)]> (<[l := MkResource name None]> h))
     end) = Some h'
    /\ table_at h' (MkResourceList (match rl_start t with None => Some l | Some s => Some s end) (Some l)
                      (u16 (num_resources t + 1)) (rl_lock t)) n'
    /\ n'.*1 = xs.*1 ++ [l]
    /\ resource <$> n'.*2 = (resource <$> xs.*2) ++ [name]
    /\ forall l', l' <> l -> l' ∉ xs.*1 -> h' !! l' = h !! l'.
Proof.
  intros [Hsl He Hn] Hl. pose proof (slist_fresh _ _ _ _ _ Hsl Hl) as Hlx.
  assert (Hnum : u16 (num_resources t + 1) = u16 (Z.of_nat (length xs + 1))).
  { rewrite Hn. unfold wrap. rewrite Zplus_mod_idemp_l. f_equal. lia. }
  rewrite Hnum. destruct xs as [|[e n] xs0 _] using rev_ind.
  - assert (rl_start t = None) as -> by exact (sl_segment _ _ _ _ Hsl). eexists _, [(l, MkResource name None)].
    split; [reflexivity|]. split_and!; [|done|done|].
    + split; [|done|done]. split; [|apply NoDup_singleton]. cbn. by rewrite lookup_insert_eq.
    + intros l' Hne _. by rewrite lookup_insert_ne.
  - rewrite fmap_app in *. cbn in *. rewrite last_snoc in He.
    assert (Hle : l <> e) by (intros ->; apply Hlx, elem_of_app; right; by left).
    pose proof (sl_nodup _ _ _ _ Hsl) as Hnd. rewrite fmap_app in Hnd. cbn in Hnd.
    assert (Hle' : h !! e = Some n).
    { eapply segment_lookup; [apply Hsl|]. apply elem_of_app. right. by left. }
    destruct (rl_start t) as [s|] eqn:Es.
    2: { apply sl_segment in Hsl. by destruct xs0 as [|[]]; cbn in Hsl; destruct Hsl. }
    rewrite He. cbn. rewrite lookup_insert_ne, Hle' by done. cbn.
    eexists _, (xs0 ++ [(e, MkResource (resource n) (Some l)); (l, MkResource name None)]).
    split; [reflexivity|]. rewrite fmap_app. cbn. split_and!.
    + split; cbn; [by eapply slist_snoc|by rewrite ?fmap_app, last_app|rewrite !length_app; cbn; do 2 f_equal; lia].
    + by rewrite <- app_assoc.
    + rewrite !fmap_app. cbn. by rewrite <- app_assoc.
    + intros l' Hne Hx. rewrite !lookup_insert_ne; [done|done|].
      intros <-. apply Hx, elem_of_app. right. by left.
Qed.

Lemma link_resource_inv t r nm xs name :
  res_inv r nm xs ->
  let l := fresh (dom (rs_nodes r)) in
  exists r' xs', link_resource t l (set_rs_nodes (<[l := MkResource name None]> (rs_nodes r)) r) = Some r'
    /\ res_inv r' (upd t (nm t ++ [name]) nm) xs' /\ rs_os r' = rs_os r
    /\ RESOURCE_REQUEST_LIST r' = RESOURCE_REQUEST_LIST r /\ rs_requests r' = rs_requests r.
Proof.
  intros Hr l. assert (Hl : rs_nodes r !! l = None) by (apply not_elem_of_dom, is_fresh).
  destruct (link_table _ _ _ l name (ri_table _ _ _ Hr t) Hl) as (h' & ys & E & Ht & Hloc & Hnm & Hf).
  unfold link_resource.
  replace (res_list t (set_rs_nodes _ r)) with (res_list t r) by (by destruct t).
  cbn [rs_nodes set_rs_nodes]. rewrite E. cbn [mbind option_bind].
  eexists _, (upd t ys xs). split; [reflexivity|]. split; [|by destruct t].
  assert (Hother : forall u, u <> t -> forall l', l' ∈ (xs u).*1 -> l' <> l /\ l' ∉ (xs t).*1).
  { intros u Hu l' Hl'. split; [by intros ->; eapply slist_fresh in Hl'; [done|apply (ri_table _ _ _ Hr u)|]|].
    intros Hlt. pose proof (ri_disjoint _ _ _ Hr) as Hd. destruct t, u; try done; eapply Hd; eauto. }
  split.
  - intros u. rewrite res_list_set. unfold upd. case_decide as Hu.
    + subst. by destruct t.
    + destruct (ri_table _ _ _ Hr u) as [[Hs Hnd] He Hn].
      replace (rs_nodes _) with h' by (by destruct t).
      replace (res_list u _) with (res_list u r) by (by destruct u).
      split; [split; [|done]|done|done]. eapply segment_frame; [done|].
      intros l' Hl'. destruct (Hother u Hu l' Hl'). by apply Hf.
  - intros u. unfold upd. case_decide; [by rewrite Hnm, (ri_names _ _ _ Hr)|apply Hr].
  - pose proof (ri_disjoint _ _ _ Hr) as Hd. destruct t; rewrite upd_eq, upd_ne, Hloc by done.
    + intros l' [Hl'| ->%list_elem_of_singleton]%elem_of_app Hs; [by eapply Hd|].
      by destruct (Hother SUB ltac:(done) l Hs).
    + intros l' Hp [Hl'| ->%list_elem_of_singleton]%elem_of_app; [by eapply Hd|].
      by destruct (Hother PUB ltac:(done) l Hp).
  - intros u. rewrite res_list_set. case_decide as Hu; [subst; cbn; apply Hr|].
    replace (res_list u _) with (res_list u r) by (by destruct u). apply Hr.
  - replace (rs_os _) with (rs_os r) by (by destruct t). apply Hr.
Qed.

Lemma init_lists_inv r : willing (rs_os r) -> res_inv (init_lists true true r) (fun _ => []) (fun _ => []).
Proof.
  intros Hw. split; [|done|by intros ? ?%not_elem_of_nil|by intros []|done].
  intros t. split; [split; [by destruct t|apply NoDup_nil_2]|by destruct t..].
Qed.

(** *** Runs *)

Inductive res_op : Type :=
| OpAdd (t : ResourceType) (n : bytes) | OpFind (t : ResourceType) (n : bytes) | OpNum (t : ResourceType).
Inductive res_out : Type := OutErr (e : BmErr) | OutFound (e : BmErr) (b : option bool)
| OutNum (e : BmErr) (n : option Z).

Definition res_step (o : res_op) : M resources res_out :=
  match o with
  | OpAdd t n => e ← bcmp_resource_discovery_add_resource n (Z.of_nat (length n)) t; mret (OutErr e)
  | OpFind t n =>
      '(e, b) ← bcmp_resource_discovery_find_resource n (Z.of_nat (length n)) t; mret (OutFound e b)
  | OpNum t => '(e, n) ← bcmp_resource_discovery_get_num_resources t; mret (OutNum e n)
  end.

Fixpoint res_run (ops : list res_op) : M resources (list res_out) :=
  match ops with
  | [] => mret []
  | o :: ops => out ← res_step o; outs ← res_run ops; mret (out :: outs)
  end.

(** The same on two lists of names. *)
Definition names_step (o : res_op) (nm : ResourceType -> list bytes)
    : res_out * (ResourceType -> list bytes) :=
  match o with
  | OpAdd t n =>
      if decide (n ∈ nm t) then (OutErr BmEAGAIN, nm) else (OutErr BmOK, upd t (nm t ++ [n]) nm)
  | OpFind t n => (OutFound BmOK (Some (bool_decide (n ∈ nm t))), nm)
  | OpNum t => (OutNum BmOK (Some (u16 (Z.of_nat (length (nm t))))), nm)
  end.

Fixpoint names_run (ops : list res_op) (nm : ResourceType -> list bytes)
    : list res_out * (ResourceType -> list bytes) :=
  match ops with
  | [] => ([], nm)
  | o :: ops =>
      let '(out, nm) := names_step o nm in
      let '(outs, nm) := names_run ops nm in
      (out :: outs, nm)
  end.

(** The names that a run adds to a table or looks up in it. *)
Definition op_names (t : ResourceType) (o : res_op) : list bytes :=
  match o with OpAdd u n | OpFind u n => if decide (u = t) then [n] else [] | OpNum _ => [] end.
Definition run_names (t : ResourceType) (ops : list res_op) : list bytes :=
  concat (op_names t <$> ops).

Lemma hold_inv_os t r nm xs : res_inv r nm xs -> with_rs_os malloc_ok (hold t r) = Some (true, hold t r).
Proof.
  intros Hr. destruct (ri_os _ _ _ Hr) as [Ha _]. unfold with_rs_os, zoom, malloc_ok.
  replace (rs_os (hold t r)) with (rs_os r) by (by destruct t). rewrite Ha. cbn.
  destruct r as [? ? ? ? ? [a b c]]; cbn in Ha; subst. by destruct t.
Qed.

Lemma link_resource_hold t l r r' :
  link_resource t l r = Some r' -> link_resource t l (hold t r) = Some (hold t r').
Proof.
  unfold link_resource. replace (rl_start (res_list t (hold t r))) with (rl_start (res_list t r)) by (by destruct t).
  replace (rl_end (res_list t (hold t r))) with (rl_end (res_list t r)) by (by destruct t).
  replace (rs_nodes (hold t r)) with (rs_nodes r) by (by destruct t).
  intros (h & E & [= <-])%bind_Some. rewrite E. cbn. by destruct t.
Qed.

Lemma add_resource_spec t n r nm xs :
  res_inv r nm xs ->
  match topic_find n (nm t) with
  | None => bcmp_resource_discovery_add_resource n (Z.of_nat (length n)) t r = None
  | Some true => bcmp_resource_discovery_add_resource n (Z.of_nat (length n)) t r = Some (BmEAGAIN, r)
  | Some false => exists r' xs',
      bcmp_resource_discovery_add_resource n (Z.of_nat (length n)) t r = Some (BmOK, r')
      /\ res_inv r' (upd t (nm t ++ [n]) nm) xs'
  end.
Proof.
  intros Hr. pose proof (ri_lock _ _ _ Hr t) as Hl. unfold bcmp_resource_discovery_add_resource.
  rewrite (bind_some _ _ _ _ _ (take_lock_free t r Hl (ri_os _ _ _ Hr))). cbn [is_ok].
  erewrite bind_some by reflexivity. rewrite bind_lift, find_priv_hold, (find_priv_inv _ _ _ _ _ Hr).
  destruct (topic_find n (nm t)) as [[]|]; cbn [mbind option_bind]; [..|done].
  - erewrite bind_some by reflexivity. by erewrite bind_some by (by apply give_lock_hold).
  - destruct (link_resource_inv t r nm xs n Hr) as (r' & xs' & E & Hr' & _).
    exists r', xs'. split; [|done].
    erewrite bind_some.
    2: { erewrite bind_some by (by eapply hold_inv_os). cbn [negb].
         erewrite bind_some by (unfold lift; by rewrite Nat2Z.id, read_at_all).
         erewrite bind_some by (by eapply hold_inv_os). cbv iota.
         erewrite bind_some by reflexivity. rewrite bind_lift.
         replace (link_resource _ _ _) with (Some (hold t r')); [reflexivity|].
         apply link_resource_hold in E. rewrite <- E. by destruct t. }
    erewrite bind_some by (apply give_lock_hold, Hr'). done.
Qed.

Lemma find_resource_spec t n r nm xs :
  res_inv r nm xs ->
  bcmp_resource_discovery_find_resource n (Z.of_nat (length n)) t r
  = (fun b => ((BmOK, Some b), r)) <$> topic_find n (nm t).
Proof.
  intros Hr. pose proof (ri_lock _ _ _ Hr t) as Hl. unfold bcmp_resource_discovery_find_resource.
  rewrite (bind_some _ _ _ _ _ (take_lock_free t r Hl (ri_os _ _ _ Hr))). cbn [is_ok].
  erewrite bind_some by reflexivity. rewrite bind_lift, find_priv_hold, (find_priv_inv _ _ _ _ _ Hr).
  destruct (topic_find n (nm t)) as [b|]; cbn [mbind option_bind]; [|done].
  by erewrite bind_some by (by apply give_lock_hold).
Qed.

Lemma num_resources_spec t r nm xs :
  res_inv r nm xs ->
  bcmp_resource_discovery_get_num_resources t r
  = Some ((BmOK, Some (u16 (Z.of_nat (length (nm t))))), r).
Proof.
  intros Hr. pose proof (ri_lock _ _ _ Hr t) as Hl. unfold bcmp_resource_discovery_get_num_resources.
  rewrite (bind_some _ _ _ _ _ (take_lock_free t r Hl (ri_os _ _ _ Hr))). cbn [is_ok].
  erewrite bind_some by reflexivity. erewrite bind_some by (by apply give_lock_hold).
  rewrite <- (ri_names _ _ _ Hr t), !length_fmap.
  replace (num_resources (res_list t (hold t r))) with (num_resources (res_list t r)) by (by destruct t).
  by rewrite (ta_num _ _ _ (ri_table _ _ _ Hr t)).
Qed.

(** What the step has to do with the tables. *)
Lemma res_step_inv o r nm xs :
  res_inv r nm xs -> (forall t n, n ∈ op_names t o -> apart_from n (nm t)) ->
  exists r' xs', res_step o r = Some (fst (names_step o nm), r') /\ res_inv r' (snd (names_step o nm)) xs'.
Proof.
  intros Hr Ha. destruct o as [t n|t n|t]; cbn [names_step res_step].
  - pose proof (add_resource_spec t n r nm xs Hr) as H.
    rewrite topic_find_apart in H by (apply Ha; cbn; rewrite decide_True by done; by left).
    destruct (decide (n ∈ nm t)) as [Hn|Hn].
    + rewrite bool_decide_eq_true_2 in H by done. exists r, xs. by erewrite bind_some by exact H.
    + rewrite bool_decide_eq_false_2 in H by done. destruct H as (r' & xs' & E & Hr').
      exists r', xs'. by erewrite bind_some by exact E.
  - pose proof (find_resource_spec t n r nm xs Hr) as H.
    rewrite topic_find_apart in H by (apply Ha; cbn; rewrite decide_True by done; by left).
    exists r, xs. by erewrite bind_some by exact H.
  - exists r, xs. by erewrite bind_some by (by eapply num_resources_spec).
Qed.

Lemma run_names_cons t o ops : run_names t (o :: ops) = op_names t o ++ run_names t ops.
Proof. done. Qed.

Lemma names_step_elem o nm t n :
  n ∈ snd (names_step o nm) t -> n ∈ nm t ++ op_names t o.
Proof.
  rewrite elem_of_app. destruct o as [u m|u m|u]; cbn; [|tauto..].
  case_decide; [tauto|]. cbn. unfold upd. rewrite (decide_ext (t = u) (u = t)) by done.
  case_decide; [subst; rewrite elem_of_app; tauto|tauto].
Qed.

Lemma res_run_inv ops r nm xs :
  res_inv r nm xs -> (forall t, apart (nm t ++ run_names t ops)) ->
  exists r' xs', res_run ops r = Some (fst (names_run ops nm), r')
    /\ res_inv r' (snd (names_run ops nm)) xs'.
Proof.
  revert r nm xs. induction ops as [|o ops IH]; intros r nm xs Hr Ha; cbn [names_run res_run].
  { by exists r, xs. }
  destruct (res_step_inv o r nm xs Hr) as (r1 & xs1 & E1 & Hr1).
  { intros t n Hn. eapply apart_elem in Ha; [|rewrite run_names_cons, !elem_of_app; right; left; done].
    apply Forall_app in Ha as [Ha _]. exact Ha. }
  destruct (IH r1 _ xs1 Hr1) as (r2 & xs2 & E2 & Hr2).
  { intros t. eapply apart_sub; [|apply (Ha t)]. intros n. rewrite run_names_cons, !elem_of_app.
    intros [Hn%names_step_elem|]; [rewrite elem_of_app in Hn; tauto|tauto]. }
  rewrite (bind_some _ _ _ _ _ E1), (bind_some _ _ _ _ _ E2).
  destruct (names_step o nm) as [out nm1]. cbn [fst snd] in *.
  destruct (names_run ops nm1) as [outs nm2]. by exists r2, xs2.
Qed.

(** C18: the tables of resources are lists of names.  From [init_lists] on, while the
    operating system gives memory and locks, and as long as no name that a table is
    asked to add or to find is a proper beginning of another one, every sequence of
    additions, look-ups and counts succeeds, and answers as two lists of names do: a
    name is added at the end of its list unless it is there already, a look-up tells
    whether it is there, and the count is their number, in sixteen bits.  With names
    that begin with one another the search goes wrong: see [prefix_topic_not_added]
    and [longer_topic_read_behind]. *)
Theorem resource_tables r ops :
  willing (rs_os r) -> (forall t, apart (run_names t ops)) ->
  exists r' xs,
    res_run ops (init_lists true true r) = Some (fst (names_run ops (fun _ => [])), r')
    /\ res_inv r' (snd (names_run ops (fun _ => []))) xs.
Proof. intros Hw Ha. by apply (res_run_inv _ _ (fun _ => []) (fun _ => []) (init_lists_inv r Hw)). Qed.

(** *** The tables in a message *)

Section encoding.
Context (P : Platform) (size_t_ok : 32 <= size_t_bits).

Definition encode_names (names : list bytes) : bytes := concat (resource_bytes <$> names).

(** A [BcmpResourceTableReply]. *)
Definition table_message (node_id : Z) (nm : ResourceType -> list bytes) : bytes :=
  native_store 8 node_id ++ native_store 2 (Z.of_nat (length (nm PUB)))
  ++ native_store 2 (Z.of_nat (length (nm SUB))) ++ encode_names (nm PUB) ++ encode_names (nm SUB).

Lemma encode_cons n ns : encode_names (n :: ns) = resource_bytes n ++ encode_names ns.
Proof. done. Qed.

Lemma length_resource_bytes n : length (resource_bytes n) = (2 + length n)%nat.
Proof. unfold resource_bytes. by rewrite length_app, length_native_store. Qed.

Lemma usize_id z : 0 <= z < 2 ^ 32 -> usize z = z.
Proof. by apply usize_small. Qed.

Lemma list_size_spec (ns : list (loc * BcmpResourceNode)) n :
  0 <= n -> n + Z.of_nat (length (encode_names (resource <$> ns.*2))) < 2 ^ 32 ->
  foldl (fun a x => usize (a + (sizeof_BcmpResource + Z.of_nat (length (resource (snd x)))))) n ns
  = n + Z.of_nat (length (encode_names (resource <$> ns.*2))).
Proof.
  revert n. induction ns as [|[l x] ns IH]; intros n Hn Hl; cbn [foldl fmap list_fmap fst snd] in *; [cbn; lia|].
  rewrite encode_cons, length_app, length_resource_bytes in *. unfold sizeof_BcmpResource in *.
  rewrite usize_id by lia. rewrite IH by lia. lia.
Qed.

Lemma populate_loop_spec (ns : list (loc * BcmpResourceNode)) pre rest off :
  0 <= off -> Z.of_nat (length pre) = 12 + off ->
  (length (encode_names (resource <$> ns.*2)) <= length rest)%nat ->
  12 + off + Z.of_nat (length rest) < 2 ^ 32 ->
  populate_loop ns (pre ++ rest) off
  = Some (pre ++ encode_names (resource <$> ns.*2)
            ++ drop (length (encode_names (resource <$> ns.*2))) rest,
          off + Z.of_nat (length (encode_names (resource <$> ns.*2)))).
Proof.
  revert pre rest off. induction ns as [|[l x] ns IH]; intros pre rest off Ho Hp Hr Hs;
    cbn [populate_loop fmap list_fmap fst snd] in *; [cbn; rewrite drop_0; do 2 f_equal; lia|].
  rewrite encode_cons in *. rewrite length_app, length_resource_bytes in *.
  rewrite write_at_app by (rewrite ?length_resource_bytes; unfold sizeof_BcmpResourceTableReply; lia).
  cbn [mbind option_bind]. rewrite app_assoc, length_resource_bytes, u32_small by lia.
  rewrite IH; rewrite ?length_app, ?length_drop, ?length_resource_bytes; try lia.
  rewrite drop_drop, <- !app_assoc. do 2 f_equal. lia.
Qed.

Lemma print_loop_spec names pre post :
  Forall (fun n => Z.of_nat (length n) < 65536) names ->
  print_loop (length names) (pre ++ encode_names names ++ post) (length pre)
  = Some (names, (length pre + length (encode_names names))%nat).
Proof.
  revert pre. induction names as [|n names IH]; intros pre Hn; cbn [length print_loop].
  { cbn. do 2 f_equal. lia. }
  apply Forall_cons in Hn as [Hn Hns].
  rewrite encode_cons, length_app, length_resource_bytes. unfold resource_bytes. rewrite <- !app_assoc.
  rewrite read_at_app by (by rewrite ?length_native_store). cbn [mbind option_bind].
  rewrite native_load_store. change (256 ^ Z.of_nat 2) with 65536. rewrite Z.mod_small, Nat2Z.id by lia.
  rewrite (app_assoc pre), read_at_app by (rewrite ?length_app, ?length_native_store; lia).
  cbn [mbind option_bind].
  replace (length pre + 2 + length n)%nat with (length ((pre ++ native_store 2 (Z.of_nat (length n))) ++ n))
    by (rewrite !length_app, length_native_store; lia).
  rewrite (app_assoc _ n), IH by done. cbn. do 2 f_equal.
  rewrite !length_app, length_native_store. lia.
Qed.

Definition names_ok (nm : ResourceType -> list bytes) : Prop := forall t,
  Z.of_nat (length (nm t)) < 65536 /\ Forall (fun n => Z.of_nat (length n) < 65536) (nm t).

(** The loops that print a table of a message. *)
Lemma print_tables_spec node_id nm :
  names_ok nm -> print_tables (table_message node_id nm) = Some (nm PUB, nm SUB).
Proof.
  intros Hn. destruct (Hn PUB) as [Hp Hps], (Hn SUB) as [Hs Hss].
  unfold print_tables, table_message.
  rewrite (read_at_app (native_store 8 node_id) _ _ 8) by (by rewrite length_native_store).
  cbn [mbind option_bind]. rewrite (app_assoc (native_store 8 node_id)).
  rewrite read_at_app by (by rewrite ?length_app, !length_native_store). cbn [mbind option_bind].
  rewrite !native_load_store. change (256 ^ Z.of_nat 2) with 65536. rewrite !Z.mod_small, !Nat2Z.id by lia.
  rewrite (app_assoc _ (native_store 2 (Z.of_nat (length (nm SUB))))), drop_app_length'
    by (by rewrite !length_app, !length_native_store).
  pose proof (print_loop_spec (nm PUB) [] (encode_names (nm SUB)) Hps) as E1. cbn [app length Nat.add] in E1.
  rewrite E1. cbn [mbind option_bind].
  pose proof (print_loop_spec (nm SUB) (encode_names (nm PUB)) [] Hss) as E.
  rewrite app_nil_r in E. by rewrite E.
Qed.
End encoding.

Section replies.
Context (P : Platform) (size_t_ok : 32 <= size_t_bits).

Lemma compute_list_size_spec t n r nm xs :
  res_inv r nm xs -> 0 <= n -> n + Z.of_nat (length (encode_names P (nm t))) < 2 ^ 32 ->
  bcmp_resource_compute_list_size t n r
  = Some ((true, n + Z.of_nat (length (encode_names P (nm t)))), r).
Proof.
  intros Hr Hn Hl. pose proof (ri_lock _ _ _ Hr t) as Hk. unfold bcmp_resource_compute_list_size.
  rewrite (bind_some _ _ _ _ _ (take_lock_free t r Hk (ri_os _ _ _ Hr))). cbn [is_ok].
  erewrite bind_some by reflexivity. rewrite bind_lift.
  replace (nodes _ _ _) with (nodes rn_next (rs_nodes r) (rl_start (res_list t r))) by (by destruct t).
  rewrite (nodes_spec _ _ _ _ (ta_slist _ _ _ (ri_table _ _ _ Hr t))). cbn [mbind option_bind].
  erewrite bind_some by (by apply give_lock_hold). rewrite <- (ri_names _ _ _ Hr t) in *.
  by rewrite list_size_spec.
Qed.

Lemma populate_msg_data_spec t repl pre rest off r nm xs :
  res_inv r nm xs ->
  write_at (num_offset t) (native_store 2 (u16 (Z.of_nat (length (nm t))))) repl = Some (pre ++ rest) ->
  0 <= off -> Z.of_nat (length pre) = 12 + off ->
  (length (encode_names P (nm t)) <= length rest)%nat ->
  12 + off + Z.of_nat (length rest) < 2 ^ 32 ->
  bcmp_resource_populate_msg_data t repl off r
  = Some ((true, pre ++ encode_names P (nm t) ++ drop (length (encode_names P (nm t))) rest,
           off + Z.of_nat (length (encode_names P (nm t)))), r).
Proof.
  intros Hr Hw Ho Hp Hl Hs. pose proof (ri_lock _ _ _ Hr t) as Hk. unfold bcmp_resource_populate_msg_data.
  rewrite (bind_some _ _ _ _ _ (take_lock_free t r Hk (ri_os _ _ _ Hr))). cbn [is_ok].
  erewrite bind_some by reflexivity. rewrite bind_lift.
  replace (num_resources (res_list t (hold t r))) with (u16 (Z.of_nat (length (nm t)))).
  2: { rewrite <- (ri_names _ _ _ Hr t), !length_fmap, <- (ta_num _ _ _ (ri_table _ _ _ Hr t)). by destruct t. }
  rewrite Hw. cbn [mbind option_bind]. rewrite bind_lift.
  replace (nodes _ _ _) with (nodes rn_next (rs_nodes r) (rl_start (res_list t r))) by (by destruct t).
  rewrite (nodes_spec _ _ _ _ (ta_slist _ _ _ (ri_table _ _ _ Hr t))). cbn [mbind option_bind].
  rewrite bind_lift. rewrite <- (ri_names _ _ _ Hr t) in *. rewrite populate_loop_spec by done.
  cbn [mbind option_bind]. by erewrite bind_some by (by apply give_lock_hold).
Qed.

Definition message_size (nm : ResourceType -> list bytes) : Z :=
  12 + Z.of_nat (length (encode_names P (nm PUB))) + Z.of_nat (length (encode_names P (nm SUB))).

Lemma length_table_message node_id nm :
  Z.of_nat (length (table_message P node_id nm)) = message_size nm.
Proof. unfold table_message, message_size. rewrite !length_app, !length_native_store. lia. Qed.

Lemma table_size_spec r nm xs :
  res_inv r nm xs -> message_size nm < 2 ^ 32 -> table_size r = Some (Some (message_size nm), r).
Proof.
  intros Hr Hm. unfold message_size in *. unfold table_size.
  erewrite bind_some by (eapply compute_list_size_spec; [done|done|unfold sizeof_BcmpResourceTableReply; lia]).
  cbn [negb]. erewrite bind_some
    by (eapply compute_list_size_spec; [done|unfold sizeof_BcmpResourceTableReply; lia..]).
  reflexivity.
Qed.

Lemma u16_names nm t : names_ok nm -> u16 (Z.of_nat (length (nm t))) = Z.of_nat (length (nm t)).
Proof. intros Hn. destruct (Hn t) as [H _]. apply u16_small. lia. Qed.

Lemma populate_tables_spec node_id junk r nm xs :
  res_inv r nm xs -> names_ok nm -> message_size nm < 2 ^ 32 ->
  populate_tables node_id junk (message_size nm) r = Some (Some (table_message P node_id nm), r).
Proof.
  intros Hr Hn Hm. pose proof Hm as Hm'. unfold message_size in Hm'. unfold populate_tables.
  set (mem := junk <$> seq 0 (Z.to_nat (message_size nm))).
  assert (Hmem : Z.of_nat (length mem) = message_size nm)
    by (unfold mem; rewrite length_fmap, length_seq; unfold message_size; lia).
  unfold message_size in Hmem. clearbody mem. rewrite bind_lift.
  set (ep := encode_names P (nm PUB)) in *. set (es := encode_names P (nm SUB)) in *.
  rewrite (write_at_app [] _ mem 0 eq_refl) by (rewrite length_native_store; lia).
  cbn [mbind option_bind app]. rewrite length_native_store.
  set (id := native_store 8 node_id). set (np := native_store 2 (Z.of_nat (length (nm PUB)))).
  set (ns := native_store 2 (Z.of_nat (length (nm SUB)))).
  assert (Hid : length id = 8%nat) by apply length_native_store.
  assert (Hnp : length np = 2%nat) by apply length_native_store.
  assert (Hns : length ns = 2%nat) by apply length_native_store.
  set (rest := drop 12 mem).
  assert (Hrest : Z.of_nat (length rest) = Z.of_nat (length ep) + Z.of_nat (length es))
    by (unfold rest; rewrite length_drop; lia).
  assert (Hj : exists j, length j = 2%nat /\ drop 8 mem = take 2 (drop 8 mem) ++ j ++ rest).
  { exists (take 2 (drop 10 mem)). split; [rewrite length_take, length_drop; lia|].
    rewrite <- (take_drop 2 (drop 8 mem)) at 1. f_equal. rewrite drop_drop. cbn [Nat.add].
    rewrite <- (take_drop 2 (drop 10 mem)) at 1. unfold rest. by rewrite drop_drop. }
  destruct Hj as (j & Hj & ->). set (j0 := take 2 (drop 8 mem)).
  assert (Hj0 : length j0 = 2%nat) by (unfold j0; rewrite length_take, length_drop; lia).
  clearbody rest j0. clear Hmem.
  erewrite bind_some.
  2: { eapply (populate_msg_data_spec PUB _ (id ++ np ++ j) rest 0); [done| |done| |fold ep; lia|lia].
       - rewrite u16_names by done. fold np. cbn [num_offset].
         rewrite (write_at_app id np) by (rewrite ?length_app; lia).
         rewrite Hnp, drop_app_length' by done. by rewrite <- !app_assoc.
       - rewrite !length_app. lia. }
  cbn [negb]. fold ep.
  erewrite bind_some.
  2: { eapply (populate_msg_data_spec SUB _ (id ++ np ++ ns ++ ep) (drop (length ep) rest));
         [done| |lia| |fold es; rewrite length_drop; lia|rewrite length_drop; lia].
       - rewrite u16_names by done. fold ns. cbn [num_offset].
         replace ((id ++ np ++ j) ++ ep ++ drop (length ep) rest)
           with ((id ++ np) ++ j ++ ep ++ drop (length ep) rest) by (by rewrite <- !app_assoc).
         rewrite (write_at_app (id ++ np) ns) by (rewrite ?length_app; lia).
         rewrite Hns, drop_app_length' by done. by rewrite <- !app_assoc.
       - rewrite !length_app. fold ep. lia. }
  cbn [mret M_ret]. do 3 f_equal. fold es. unfold table_message. fold id np ns ep es.
  rewrite drop_drop, <- !app_assoc. do 4 f_equal.
  rewrite drop_ge by lia. by rewrite app_nil_r.
Qed.

Lemma malloc_inv r nm xs : res_inv r nm xs -> with_rs_os malloc_ok r = Some (true, r).
Proof.
  intros Hr. destruct (ri_os _ _ _ Hr) as [Ha _]. unfold with_rs_os, zoom, malloc_ok. rewrite Ha.
  destruct r as [? ? ? ? ? [a b c]]; cbn in Ha; by subst.
Qed.

Lemma get_local_resources_spec node_id junk r nm xs :
  res_inv r nm xs -> names_ok nm -> message_size nm < 2 ^ 32 ->
  bcmp_resource_discovery_get_local_resources node_id junk r
  = Some (Some (table_message P node_id nm), r).
Proof.
  intros Hr Hn Hm. unfold bcmp_resource_discovery_get_local_resources.
  erewrite bind_some by (by eapply table_size_spec). cbv iota.
  erewrite bind_some by (by eapply malloc_inv). by eapply populate_tables_spec.
Qed.

(** A node gets the tables of another one.  A node that is asked for its tables
    answers with one message, and takes and gives back its locks; the node that asked
    reads from that message exactly the names of the other node's two tables, in
    order, without reading behind its end, and its request is done. *)
Theorem resource_table_round_trip {St : Type} `{PartLaws resources St} `{BcmpApi St}
    (node_id : Z) (junk : nat -> Z) (call_cb : nat -> bytes -> M St unit)
    (s : St) nm xs data :
  0 <= node_id < 2 ^ 64 -> res_inv (part s) nm xs -> names_ok nm -> message_size nm < 2 ^ 32 ->
  read_at 0 8 (pd_payload data) = Some (native_store 8 node_id) ->
  let msg := table_message P node_id nm in
  bcmp_process_resource_discovery_request node_id junk data s
  = bcmp_tx (Some (pd_dst data)) BcmpResourceTableReplyMessage msg (Z.of_nat (length msg)) 0 None s
  /\ forall (s' : St) data' es,
       pd_payload data' = msg -> ip_to_nodeid (Some (pd_src data')) = node_id ->
       ll_inv (rs_requests (part s')) (RESOURCE_REQUEST_LIST (part s')) es ->
       find_id (u32 node_id) es = Some (Some None) -> at_end (u32 node_id) es = true ->
       exists s'', bcmp_process_resource_discovery_reply call_cb data' s'
                   = Some ((BmOK, Some (nm PUB, nm SUB)), s'')
         /\ ll_inv (rs_requests (part s'')) (RESOURCE_REQUEST_LIST (part s'')) (remove_id (u32 node_id) es).
Proof.
  intros Hid Hr Hn Hm Hreq msg. assert (Hmod : node_id mod 256 ^ Z.of_nat 8 = node_id)
    by (by apply Z.mod_small). split.
  - unfold bcmp_process_resource_discovery_request. rewrite bind_lift, Hreq. cbn [mbind option_bind].
    rewrite native_load_store, Hmod, Z.eqb_refl. cbn [negb].
    erewrite bind_some by (eapply on_part_pure, table_size_spec; done). cbv iota.
    erewrite bind_some by (by eapply on_part_pure, malloc_inv). cbn [negb].
    erewrite bind_some by (eapply on_part_pure, populate_tables_spec; done). cbv iota.
    unfold msg. by rewrite length_table_message.
  - intros s' data' es Hpay Hsrc Hll Hfind Hend. unfold bcmp_process_resource_discovery_reply.
    assert (Hhead : read_at 0 8 msg = Some (native_store 8 node_id))
      by (apply read_at_head; by rewrite length_native_store).
    rewrite bind_lift, Hpay, Hhead. cbn [mbind option_bind].
    rewrite native_load_store, Hmod, Hsrc, Z.eqb_refl. erewrite bind_some by reflexivity.
    rewrite bind_lift, (ll_get_refines _ _ _ (u32 node_id) Hll), Hfind. cbn [mbind option_bind].
    erewrite bind_some.
    2: { erewrite bind_some by reflexivity. cbv iota. rewrite bind_lift.
         unfold msg. rewrite print_tables_spec by done. reflexivity. }
    erewrite bind_some by reflexivity. rewrite bind_lift.
    destruct (ll_remove_refines _ _ _ (u32 node_id) Hll Hend) as (ll' & h' & -> & Hll').
    cbn [mbind option_bind]. rewrite bind_lift. cbn [mbind option_bind].
    erewrite bind_some by (by apply on_part_some). eexists. split; [reflexivity|].
    by rewrite part_set.
Qed.
End replies.

(** ** Runs *)

Definition willing_os : Os := MkOs [] [] 0.
Definition resources_zero : resources :=
  MkResources (MkResourceList None None 0 None) (MkResourceList None None 0 None) LL_empty ∅ ∅ willing_os.

(** Two topics, one of which the node also listens to. *)
Definition sample_names_run : list res_op :=
  [OpAdd PUB [115; 47; 97]; OpAdd PUB [115; 47; 98]; OpAdd SUB [115; 47; 97]; OpAdd PUB [115; 47; 98];
   OpFind SUB [115; 47; 97]; OpNum PUB].

Lemma resource_tables_witness :
  exists r' xs,
    res_run sample_names_run (init_lists true true resources_zero)
    = Some ([OutErr BmOK; OutErr BmOK; OutErr BmOK; OutErr BmEAGAIN; OutFound BmOK (Some true);
             OutNum BmOK (Some 2)], r')
    /\ res_inv r' (snd (names_run sample_names_run (fun _ => []))) xs.
Proof.
  apply (resource_tables resources_zero sample_names_run).
  - done.
  - intros []; apply (bool_decide_unpack _); vm_compute; exact I.
Defined.

(** The topic "s/" is taken for one that is in the table, because another one
    begins with it. *)
Example prefix_topic_not_added :
  fst <$> res_run [OpAdd PUB [115; 47; 97]; OpAdd PUB [115; 47]; OpNum PUB]
            (init_lists true true resources_zero)
  = Some [OutErr BmOK; OutErr BmEAGAIN; OutNum BmOK (Some 1)].
Proof. vm_compute. reflexivity. Qed.

(** A topic that goes on behind another one makes the code read behind the end of
    that one. *)
Example longer_topic_read_behind :
  res_run [OpAdd PUB [115]; OpAdd PUB [115; 47; 97]] (init_lists true true resources_zero) = None.
Proof. vm_compute. reflexivity. Qed.

(** A topic that another task adds between the computation of the size and the
    copy is written behind the buffer. *)
Example table_grows_in_between :
  (let P := platform_mcu in
   n ← table_size;
   _ ← bcmp_resource_discovery_add_resource [115] 1 PUB;
   match n with Some n => populate_tables 7 (fun _ => 0) n | None => mret None end)
    (init_lists true true resources_zero) = None.
Proof. vm_compute. reflexivity. Qed.

#[local] Instance recording_api : BcmpApi (resources * list (Z * bytes)) := {
  bcmp_tx _ type d _ _ _ := fun s => Some (BmOK, (fst s, snd s ++ [(type, d)]));
  packet_add _ _ := mret BmOK
}.

(** A node that has been asked for its tables, by a node that has asked it. *)
Definition sample_tables : ResourceType -> list bytes :=
  fun t => match t with PUB => [[115; 47; 97]; [115; 47; 98]] | SUB => [[115; 47; 97]] end.

Definition sample_asking : resources :=
  MkResources (MkResourceList None None 0 (Some true)) (MkResourceList None None 0 (Some true))
    (MkLL (Some 1%positive) (Some 1%positive) None) ∅
    {[1%positive := MkLLItem None None (Some None) 7 true]} willing_os.

Definition sample_message (payload : bytes) (src : BmIpAddr) : BcmpProcessData :=
  MkProcessData (MkHeader 0 0 0 0 0 0 0 0) payload 8 src multicast_ll_addr 1.

#[local] Abbreviation call_nothing :=
  (fun (_ : nat) (_ : bytes) => mret tt : M (resources * list (Z * bytes)) unit).

Lemma resource_table_round_trip_witness :
  exists (r : resources) s'',
    let P := platform_linux in
    let msg := table_message P 7 sample_tables in
    bcmp_process_resource_discovery_request 7 (fun _ => 0) (sample_message (native_store 8 7) []) (r, [])
    = Some (BmOK, (r, [(BcmpResourceTableReplyMessage, msg)]))
    /\ bcmp_process_resource_discovery_reply call_nothing
         (sample_message msg (be_enc 4 0xFE800000 ++ be_enc 4 0 ++ be_enc 8 7)) (sample_asking, [])
       = Some ((BmOK, Some (sample_tables PUB, sample_tables SUB)), s'').
Proof.
  pose proof (res_run_inv [OpAdd PUB [115; 47; 97]; OpAdd PUB [115; 47; 98]; OpAdd SUB [115; 47; 97]]
    _ _ _ (init_lists_inv resources_zero ltac:(done))) as H.
  destruct H as (r & xs & _ & Hr); [intros []; apply (bool_decide_unpack _); vm_compute; exact I|].
  assert (Hr' : res_inv r sample_tables xs) by (destruct Hr; split; [done|by intros []|done..]).
  destruct (resource_table_round_trip platform_linux ltac:(done) 7 (fun _ => 0) call_nothing (r, []) sample_tables xs
    (sample_message (@native_store platform_linux 8 7) [])) as [E1 E2];
    [lia|exact Hr'|intros []; split; [done|repeat constructor|done|repeat constructor]
    |vm_compute; done|vm_compute; done|].
  destruct (E2 (sample_asking, []) (sample_message (table_message platform_linux 7 sample_tables)
      (be_enc 4 0xFE800000 ++ be_enc 4 0 ++ be_enc 8 7)) [(7, Some None)]) as (s'' & E & _);
    [reflexivity|vm_compute; reflexivity| |reflexivity|reflexivity|].
  { exists [1%positive]. split; [|done]. split; [|apply NoDup_singleton|done].
    cbn. split; [done|]. eexists. split; [reflexivity|done]. }
  exists r, s''. split; [exact E1|exact E].
Defined.
