(* ===== verification/TimerHandler.v ===== *)
(** * The task that runs the callbacks of timers: src/common/timer_callback_handler.c

    A timer's callback only puts a function into the queue, which a task of its own
    takes out and calls.  A function is a number, whose meaning is a parameter, and
    so is the argument.  Nobody takes from a full queue while one waits for room. *)
From S2P Require Import Prelude Os Parts.

Definition TIMER_CB_QUEUE_LEN : nat := 10.

Record TimerCallbackHandlerEvent : Type := MkTimerEvent { te_cb : option nat; te_arg : nat }.

(** [None]: [NULL]. *)
Record timer_handler : Type := MkTimerHandler {
  cb_queue : option (list TimerCallbackHandlerEvent);
  th_os : Os
}.

Definition set_cb_queue (q : option (list TimerCallbackHandlerEvent)) (s : timer_handler) : timer_handler :=
  MkTimerHandler q (th_os s).
Definition with_th_os {A} (m : M Os A) : M timer_handler A :=
  zoom th_os (fun o s => MkTimerHandler (cb_queue s) o) m.

(** The creation of the queue and of the task. *)
Definition timer_callback_handler_init : M timer_handler BmErr :=
  ok ← with_th_os malloc_ok;
  _ ← modify (set_cb_queue (if ok : bool then Some [] else None));
  if ok : bool then
    task ← with_th_os malloc_ok;
    mret (if task : bool then BmOK else BmENOMEM)
  else mret BmENOMEM.

Definition timer_callback_handler_send_cb (cb : option nat) (arg : nat) : M timer_handler bool :=
  s ← get;
  match cb_queue s with
  | Some q =>
      if (length q <? TIMER_CB_QUEUE_LEN)%nat then
        _ ← modify (set_cb_queue (Some (q ++ [MkTimerEvent cb arg]))); mret true
      else mret false
  | None => mret false
  end.

(** [bm_queue_receive]: nothing for an empty queue. *)
Definition receive_event : M timer_handler (option TimerCallbackHandlerEvent) :=
  s ← get;
  match cb_queue s with
  | Some (e :: q) => _ ← modify (set_cb_queue (Some q)); mret (Some e)
  | _ => mret None
  end.

(** One round of the task's loop. *)
Definition timer_callback_handler_step {St} `{Part timer_handler St} (call : nat -> nat -> M St unit) : M St unit :=
  e ← on_part receive_event;
  match e with
  | Some e => match te_cb e with Some cb => call cb (te_arg e) | None => mret tt end
  | None => mret tt
  end.
