(* ===== verification/Device.v ===== *)
(** * The node itself: src/common/device.c

    What the application says about the node. *)
From S2P Require Import Prelude.

(** The strings are the bytes before their terminator; [None]: a null pointer. *)
Record DeviceCfg : Type := MkDeviceCfg {
  node_id : Z;
  git_sha : Z;
  device_name : option bytes;
  version_string : option bytes;
  vendor_id : Z;
  product_id : Z;
  hw_ver : Z;
  ver_major : Z;
  ver_minor : Z;
  ver_patch : Z;
  sn : bytes
}.

Definition mac_address_size_bytes : Z := 6.

Section device.
Context (CFG : DeviceCfg).

(** The bytes of the buffer after the call. *)
Definition mac_address (mac : bytes) (size : Z) : BmErr * bytes :=
  if mac_address_size_bytes <=? size then
    let id := node_id CFG in
    (BmOK, blit 0 [0; 0; Z.land (Z.shiftr id 24) 0xFF; Z.land (Z.shiftr id 16) 0xFF;
                   Z.land (Z.shiftr id 8) 0xFF; Z.land (Z.shiftr id 0) 0xFF] mac)
  else (BmEINVAL, mac).

(** The pointers are not null. *)
Definition firmware_version : BmErr * (Z * Z * Z) := (BmOK, (ver_major CFG, ver_minor CFG, ver_patch CFG)).

Definition serial_number (buf : bytes) (size : Z) : BmErr * bytes :=
  if 16 <=? size then (BmOK, blit 0 (sn CFG) buf) else (BmEINVAL, buf).
End device.
