(* ===== verification/Ping.v ===== *)
(** * Pings: src/bcmp/ping.c

    Requests that carry a payload and the replies that bring it back.  A tick is a
    millisecond, as on POSIX; what a reply prints is left out, but for the bytes
    that are read for it. *)
From S2P Require Import Prelude Util Os Packet Parts Device.

Record ping : Type := MkPing {
  PING_REQUEST_TIMEOUT : Z;
  BCMP_SEQ : Z;
  EXPECTED_PAYLOAD : option bytes;
  EXPECTED_PAYLOAD_LEN : Z;
  pg_os : Os
}.

Definition set_timeout (t : Z) (p : ping) : ping :=
  MkPing t (BCMP_SEQ p) (EXPECTED_PAYLOAD p) (EXPECTED_PAYLOAD_LEN p) (pg_os p).
Definition set_seq (n : Z) (p : ping) : ping :=
  MkPing (PING_REQUEST_TIMEOUT p) n (EXPECTED_PAYLOAD p) (EXPECTED_PAYLOAD_LEN p) (pg_os p).
Definition set_expected (d : option bytes) (n : Z) (p : ping) : ping :=
  MkPing (PING_REQUEST_TIMEOUT p) (BCMP_SEQ p) d n (pg_os p).
Definition set_pg_os (o : Os) (p : ping) : ping :=
  MkPing (PING_REQUEST_TIMEOUT p) (BCMP_SEQ p) (EXPECTED_PAYLOAD p) (EXPECTED_PAYLOAD_LEN p) o.
Definition with_pg_os {A} (m : M Os A) : M ping A := zoom pg_os set_pg_os m.

(** Both messages: the node id, the id, the sequence number, the payload's length. *)
Definition sizeof_BcmpEchoRequest : Z := 14.
Definition sizeof_BcmpEchoReply : Z := 14.

Section ping.
Context {St : Type} `{Part ping St} `{BcmpApi St} `{Platform} (CFG : DeviceCfg).

(** The fields of the request, of [echo_len] bytes. *)
Definition echo_request (node seq_num payload_len echo_len : Z) : option bytes :=
  write_at 0 (native_store 8 node ++ native_store 2 (u16 (node_id CFG)) ++ native_store 2 seq_num
              ++ native_store 2 payload_len) (replicate (Z.to_nat echo_len) 0).

(** The copy of the payload into the request and the one that is kept; the memory
    for the latter is used without a look whether there is any. *)
Definition keep_payload (payload : option bytes) (payload_len : Z) (req : bytes) : M ping bytes :=
  match payload with
  | Some d =>
      if 0 <? payload_len then
        d ← lift (read_at 0 (Z.to_nat payload_len) d);
        req ← lift (write_at 14 d req);
        ok ← with_pg_os malloc_ok;
        if ok : bool then _ ← modify (set_expected (Some d) payload_len); mret req else ub
      else mret req
  | None => mret req
  end.

(** What is done before the request is sent: the request, and its length. *)
Definition new_request (node : Z) (payload : option bytes) (payload_len : Z) : M ping (option (bytes * Z)) :=
  let payload_len := match payload with None => 0 | Some _ => payload_len end in
  let echo_len := u16 (sizeof_BcmpEchoRequest + payload_len) in
  ok ← with_pg_os malloc_ok;
  if ok : bool then
    p ← get;
    req ← lift (echo_request node (u16 (BCMP_SEQ p)) payload_len echo_len);
    _ ← modify (set_seq (u32 (BCMP_SEQ p + 1)));
    _ ← match EXPECTED_PAYLOAD p with Some _ => modify (set_expected None 0) | None => mret tt end;
    req ← keep_payload payload payload_len req;
    mret (Some (req, echo_len))
  else mret None.

Definition bcmp_send_ping_request (node : Z) (addr : option BmIpAddr) (payload : option bytes)
    (payload_len : Z) : M St BmErr :=
  req ← on_part (new_request node payload payload_len);
  match req with
  | None => mret BmENOMEM
  | Some (req, echo_len) =>
      err ← bcmp_tx addr BcmpEchoRequestMessage req echo_len 0 None;
      _ ← on_part (modify (fun p => set_timeout (os_ticks_ms (pg_os p)) p));
      mret err
  end.

(** The message is sent from the memory that it was received in; [bcmp_tx] reads as
    many bytes as the size says. *)
Definition bcmp_send_ping_reply (echo_reply : bytes) (addr : option BmIpAddr) (seq_num : Z) : M St BmErr :=
  n ← lift (read_at 12 2 echo_reply);
  bcmp_tx addr BcmpEchoReplyMessage echo_reply (u16 (sizeof_BcmpEchoReply + native_load n)) seq_num None.

Definition bcmp_process_ping_request (data : BcmpProcessData) : M St BmErr :=
  let echo_req := pd_payload data in
  target ← lift (read_at 0 8 echo_req);
  if (native_load target =? 0) || (node_id CFG =? native_load target) then
    echo_req ← lift (write_at 0 (native_store 8 (node_id CFG)) echo_req);
    seq_num ← lift (read_at 10 2 echo_req);
    bcmp_send_ping_reply echo_req (Some (pd_dst data)) (native_load seq_num)
  else mret BmENOTINTREC.

Definition bcmp_process_ping_reply (data : BcmpProcessData) : M St BmErr :=
  let echo_reply := pd_payload data in
  p ← gets part;
  n ← lift (read_at 12 2 echo_reply);
  id ← lift (read_at 8 2 echo_reply);
  let payload_len := native_load n in
  if (EXPECTED_PAYLOAD_LEN p =? payload_len) && (u16 (node_id CFG) =? native_load id) then
    same ← lift (match EXPECTED_PAYLOAD p with
                 | Some d => memcmp_eq (Z.to_nat payload_len) d (drop 14 echo_reply)
                 | None => Some true
                 end);
    if same : bool then
      _ ← lift (read_at 14 (Z.to_nat payload_len) echo_reply);
      mret BmOK
    else mret BmENOTINTREC
  else mret BmENOTINTREC.

(** The handlers have the numbers [request] and [reply]. *)
Definition ping_init (request reply : nat) : M St BmErr :=
  err ← packet_add (MkCfg false false (Some request)) BcmpEchoRequestMessage;
  unless_err err (packet_add (MkCfg false false (Some reply)) BcmpEchoReplyMessage).
End ping.

(** ** What a ping asks and which replies it takes *)

(** A message of either type. *)
Definition echo_message `{Platform} (node id seq_num : Z) (d : bytes) : bytes :=
  native_store 8 node ++ native_store 2 id ++ native_store 2 seq_num
  ++ native_store 2 (Z.of_nat (length d)) ++ d.

Definition sent_payload (payload : option bytes) (payload_len : Z) : bytes :=
  default [] (take (Z.to_nat payload_len) <$> payload).

(** The variables when the last request had the payload [d]. *)
Definition expecting (d : bytes) (p : ping) : Prop :=
  EXPECTED_PAYLOAD p = match d with [] => None | _ => Some d end
  /\ EXPECTED_PAYLOAD_LEN p = Z.of_nat (length d).

Section fields.
Context `{Platform}.

Lemma length_echo_message node id seq_num d : length (echo_message node id seq_num d) = (14 + length d)%nat.
Proof. unfold echo_message. rewrite !length_app, !length_native_store. lia. Qed.

Lemma echo_node node id seq_num d : read_at 0 8 (echo_message node id seq_num d) = Some (native_store 8 node).
Proof. apply read_at_head. by rewrite length_native_store. Qed.

Lemma echo_id node id seq_num d : read_at 8 2 (echo_message node id seq_num d) = Some (native_store 2 id).
Proof. apply read_behind; by rewrite length_native_store. Qed.

Lemma echo_seq node id seq_num d : read_at 10 2 (echo_message node id seq_num d) = Some (native_store 2 seq_num).
Proof.
  unfold echo_message. rewrite app_assoc. apply read_behind; by rewrite ?length_app, !length_native_store.
Qed.

Lemma echo_len node id seq_num d :
  read_at 12 2 (echo_message node id seq_num d) = Some (native_store 2 (Z.of_nat (length d))).
Proof.
  unfold echo_message. rewrite !app_assoc, <- (app_assoc _ _ d).
  apply read_behind; by rewrite ?length_app, !length_native_store.
Qed.

Lemma echo_payload node id seq_num d : drop 14 (echo_message node id seq_num d) = d.
Proof.
  unfold echo_message. rewrite !app_assoc. apply drop_app_length'. by rewrite !length_app, !length_native_store.
Qed.

Lemma echo_renamed node node' id seq_num d :
  write_at 0 (native_store 8 node') (echo_message node id seq_num d) = Some (echo_message node' id seq_num d).
Proof.
  unfold write_at. rewrite length_echo_message, length_native_store. cbn [Nat.leb Nat.add].
  unfold blit, echo_message. by rewrite take_0, drop_app_length' by (by rewrite !length_native_store).
Qed.

End fields.

Section round_trip.
Context {St : Type} `{PartLaws ping St} `{BcmpApi St} `{!KeepsPart ping St} `{Platform}.

Lemma echo_request_spec CFG node seq_num n :
  0 <= n < 65522 ->
  echo_request CFG node seq_num n (u16 (14 + n))
  = Some (native_store 8 node ++ native_store 2 (u16 (node_id CFG)) ++ native_store 2 seq_num
          ++ native_store 2 n ++ replicate (Z.to_nat n) 0).
Proof.
  intros Hn. rewrite u16_small by lia. unfold echo_request, write_at.
  rewrite !length_app, !length_native_store, length_replicate.
  destruct (Nat.leb_spec (0 + (8 + (2 + (2 + 2)))) (Z.to_nat (14 + n))); [|lia].
  unfold blit. rewrite take_0, !length_app, !length_native_store, drop_replicate. cbn [app].
  rewrite <- !app_assoc. do 6 f_equal. lia.
Qed.

(** What a request leaves in the variables, before its time is written. *)
Definition asked (d : bytes) (p : ping) : ping :=
  set_expected (match d with [] => None | _ => Some d end) (Z.of_nat (length d)) (set_seq (u32 (BCMP_SEQ p + 1)) p).

Lemma pg_malloc p : willing (pg_os p) -> with_pg_os malloc_ok p = Some (true, p).
Proof. destruct p as [? ? ? ? [a w t]]. intros [Ha Hw]. cbn in Ha, Hw. by subst. Qed.

Lemma keep_payload_spec p head payload payload_len :
  length head = 14%nat -> willing (pg_os p) -> EXPECTED_PAYLOAD p = None -> EXPECTED_PAYLOAD_LEN p = 0 ->
  let n := match payload with None => 0 | Some _ => payload_len end in
  0 <= n -> (forall b, payload = Some b -> payload_len <= Z.of_nat (length b)) ->
  let d := sent_payload payload payload_len in
  keep_payload payload n (head ++ replicate (Z.to_nat n) 0) p
  = Some (head ++ d, set_expected (match d with [] => None | _ => Some d end) (Z.of_nat (length d)) p).
Proof.
  intros Hh Hw He Hl n Hn Hb d. subst n d. unfold sent_payload, keep_payload.
  assert (Hno : set_expected None 0 p = p) by (destruct p; cbn in *; by subst).
  destruct payload as [b|]; cbn -[set_expected]. 2:{ change (Z.of_nat 0) with 0. by rewrite Hno. }
  specialize (Hb b eq_refl). destruct (Z.ltb_spec 0 payload_len) as [Hpos|].
  2: { replace payload_len with 0 by lia. change (Z.to_nat 0) with 0%nat. rewrite take_0. cbn -[set_expected].
       change (Z.of_nat 0) with 0. by rewrite Hno. }
  unfold read_at. destruct (Nat.leb_spec (0 + Z.to_nat payload_len) (length b)); [|lia].
  rewrite bind_lift. cbn [mbind option_bind]. unfold slice. rewrite drop_0.
  assert (Hlen : length (take (Z.to_nat payload_len) b) = Z.to_nat payload_len)
    by (rewrite length_take; lia).
  rewrite bind_lift. unfold write_at. rewrite length_app, length_replicate, Hlen, Hh, Nat.leb_refl.
  cbn [mbind option_bind]. rewrite (bind_some _ _ _ _ _ (pg_malloc _ Hw)). cbv iota.
  assert (Hblit : blit 14 (take (Z.to_nat payload_len) b) (head ++ replicate (Z.to_nat payload_len) 0)
    = head ++ take (Z.to_nat payload_len) b).
  { unfold blit. rewrite Hlen, <- Hh at 1. rewrite take_app_length, drop_ge, app_nil_r; [done|].
    rewrite length_app, length_replicate. lia. }
  rewrite Hblit, Z2Nat.id by lia. erewrite bind_some by reflexivity.
  by destruct (take (Z.to_nat payload_len) b) eqn:E; [cbn in Hlen; lia|].
Qed.

Lemma new_request_spec CFG p d0 node payload payload_len :
  willing (pg_os p) -> expecting d0 p -> 0 <= payload_len < 65522 ->
  (forall b, payload = Some b -> payload_len <= Z.of_nat (length b)) ->
  let d := sent_payload payload payload_len in
  new_request CFG node payload payload_len p
  = Some (Some (echo_message node (u16 (node_id CFG)) (u16 (BCMP_SEQ p)) d, 14 + Z.of_nat (length d)), asked d p).
Proof.
  intros Hw [He Hl] Hn Hb d. unfold new_request. rewrite (bind_some _ _ _ _ _ (pg_malloc _ Hw)). cbv iota.
  set (n := match payload with Some _ => payload_len | None => 0 end).
  assert (Hlen : Z.of_nat (length d) = n).
  { unfold d, n, sent_payload. destruct payload as [b|]; cbn; [|done]. specialize (Hb b eq_refl).
    rewrite length_take. lia. }
  assert (0 <= n < 65522) by (unfold n; destruct payload; lia).
  erewrite bind_some by reflexivity. rewrite bind_lift.
  unfold sizeof_BcmpEchoRequest. rewrite echo_request_spec by done. cbn [mbind option_bind].
  erewrite bind_some by reflexivity.
  set (p1 := set_seq (u32 (BCMP_SEQ p + 1)) p).
  assert (Hc : (match EXPECTED_PAYLOAD p with Some _ => modify (set_expected None 0) | None => mret tt end) p1
    = Some (tt, set_expected None 0 p1)).
  { rewrite He. unfold p1. destruct p; cbn in *. destruct d0; cbn in *; [|done]. by subst. }
  rewrite (bind_some _ _ _ _ _ Hc). rewrite !app_assoc.
  erewrite bind_some.
  2: { apply keep_payload_spec; try done; [|lia]. by rewrite !length_app, !length_native_store. }
  fold d. unfold echo_message. rewrite Hlen, <- !app_assoc.
  rewrite (u16_small (14 + _)) by lia. unfold asked. by rewrite Hlen.
Qed.

(** C22: a ping brings back what it was sent with.  For every payload that fits, a
    request goes out with the node's id, the next sequence number and the payload,
    without memory being overrun; the node that it is for (or every node, for 0)
    answers, from any state, with its own id and everything else as it was; and the
    node that has asked takes a reply exactly when it has the id of the request and
    the payload, byte for byte. *)
Theorem ping_round_trip CFG (s s1 : St) d0 node addr payload payload_len err :
  let p := part (T := ping) s in
  willing (pg_os p) -> expecting d0 p -> 0 <= payload_len < 65522 -> 0 <= node < 2 ^ 64 ->
  (forall b, payload = Some b -> payload_len <= Z.of_nat (length b)) ->
  let d := sent_payload payload payload_len in
  let id := u16 (node_id CFG) in
  let req := echo_message node id (u16 (BCMP_SEQ p)) d in
  bcmp_tx addr BcmpEchoRequestMessage req (14 + Z.of_nat (length d)) 0 None (set_part (asked d p) s) = Some (err, s1) ->
  exists s', bcmp_send_ping_request CFG node addr payload payload_len s = Some (err, s')
    /\ part s' = set_timeout (os_ticks_ms (pg_os p)) (asked d p)
    /\ (forall CFG' (t : St) data, pd_payload data = req -> 0 <= node_id CFG' < 2 ^ 64 ->
         bcmp_process_ping_request CFG' data t
         = if bool_decide (node = 0 \/ node = node_id CFG') then
             bcmp_tx (Some (pd_dst data)) BcmpEchoReplyMessage
               (echo_message (node_id CFG') id (u16 (BCMP_SEQ p)) d) (14 + Z.of_nat (length d))
               (u16 (BCMP_SEQ p)) None t
           else Some (BmENOTINTREC, t))
    /\ forall (t : St) data node' id' seq' d',
         part t = part (T := ping) s' -> pd_payload data = echo_message node' id' seq' d' ->
         Z.of_nat (length d') < 65536 -> 0 <= id' < 65536 ->
         bcmp_process_ping_reply CFG data t
         = Some (if bool_decide (id' = id /\ d' = d) then BmOK else BmENOTINTREC, t).
Proof.
  intros p Hw He Hn Hnode Hb d id req Htx.
  assert (Hd : Z.of_nat (length d) < 65522).
  { unfold d, sent_payload. destruct payload as [b|]; cbn; [rewrite length_take|]; lia. }
  eexists. split.
  { unfold bcmp_send_ping_request.
    erewrite bind_some by (apply on_part_some; by eapply new_request_spec). cbv iota beta.
    erewrite bind_some by exact Htx. erewrite bind_some by (by apply on_part_some). reflexivity. }
  pose proof (bcmp_tx_keeps (T := ping) _ _ _ _ _ _ _ _ _ Htx) as Hk. cbn in Hk. rewrite part_set in Hk.
  split; [by rewrite part_set, Hk|split].
  - intros CFG' t data Hp Hid. unfold bcmp_process_ping_request. cbv zeta. rewrite Hp.
    unfold req. rewrite bind_lift, echo_node. cbn [mbind option_bind].
    rewrite native_load_store, Z.mod_small by done.
    case_bool_decide as Hfor.
    2: { destruct (Z.eqb_spec node 0), (Z.eqb_spec (node_id CFG') node); [tauto| tauto|naive_solver|done]. }
    replace ((node =? 0) || (node_id CFG' =? node)) with true
      by (symmetry; rewrite orb_true_iff, !Z.eqb_eq; naive_solver).
    rewrite bind_lift, echo_renamed. cbn [mbind option_bind].
    rewrite bind_lift, echo_seq. cbn [mbind option_bind]. unfold bcmp_send_ping_reply.
    rewrite bind_lift, echo_len. cbn [mbind option_bind]. unfold sizeof_BcmpEchoReply.
    rewrite !native_load_store, !Z.mod_small by (pose proof (u16_range (BCMP_SEQ p)); lia).
    by rewrite (u16_small (14 + _)) by lia.
  - intros t data node' id' seq' d' Ht Hp Hl' Hid'. unfold bcmp_process_ping_reply. cbv zeta. rewrite Hp.
    erewrite bind_some by reflexivity. rewrite bind_lift, echo_len. cbn [mbind option_bind].
    rewrite bind_lift, echo_id. cbn [mbind option_bind].
    rewrite !native_load_store, !Z.mod_small by lia. rewrite Ht, part_set, Hk.
    unfold asked. cbn [set_timeout set_expected EXPECTED_PAYLOAD EXPECTED_PAYLOAD_LEN].
    destruct (Z.eqb_spec (Z.of_nat (length d)) (Z.of_nat (length d'))) as [Hlen|Hlen]; cbn [andb].
    2: { rewrite bool_decide_eq_false_2; [done|]. intros [_ ->]. done. }
    rewrite echo_payload. fold id. destruct (Z.eqb_spec id id') as [<-|Hne].
    2: { rewrite bool_decide_eq_false_2; [done|]. intros [-> _]. done. }
    rewrite bind_lift.
    assert (Hm : match (match d with [] => None | _ => Some d end) with
                 | Some e => memcmp_eq (Z.to_nat (Z.of_nat (length d'))) e d'
                 | None => Some true end = Some (bool_decide (d' = d))).
    { rewrite Nat2Z.id. destruct d as [|x d1] eqn:E; [by destruct d'|]. rewrite memcmp_same by lia.
      f_equal. apply bool_decide_ext. naive_solver. }
    rewrite Hm. cbn [mbind option_bind]. case_bool_decide as Hdd.
    + rewrite bool_decide_eq_true_2 by done. rewrite bind_lift. unfold read_at.
      rewrite length_echo_message, Nat2Z.id, Nat.leb_refl. done.
    + rewrite bool_decide_eq_false_2; [done|]. tauto.
Qed.
End round_trip.

(** ** Concrete runs *)

(** A node that records what it sends. *)
#[local] Instance recording_ping : BcmpApi (ping * list (Z * bytes)) := {
  bcmp_tx _ type d _ _ _ := fun s => Some (BmOK, (fst s, snd s ++ [(type, d)]));
  packet_add _ _ := mret BmOK
}.
#[local] Instance recording_ping_keeps : KeepsPart ping (ping * list (Z * bytes)).
Proof. split; by intros; intros a s' [= <- <-]. Qed.

Definition ping_zero : ping := MkPing 0 0 None 0 (MkOs [] [] 7).
Definition sample_cfg (id : Z) : DeviceCfg := MkDeviceCfg id 0 None None 0 0 0 0 0 0 (replicate 16 0).
Definition sample_ping_data (payload : bytes) : BcmpProcessData :=
  MkProcessData (MkHeader 0 0 0 0 0 0 0 0) payload 17 multicast_ll_addr multicast_ll_addr 1.

Lemma ping_round_trip_witness :
  let P := platform_linux in
  exists s', bcmp_send_ping_request (sample_cfg 5) 6 None (Some [1; 2; 3]) 3 (ping_zero, []) = Some (BmOK, s')
    /\ bcmp_process_ping_request (sample_cfg 6) (sample_ping_data (echo_message 6 5 0 [1; 2; 3])) (ping_zero, [])
       = Some (BmOK, (ping_zero, [(BcmpEchoReplyMessage, echo_message 6 5 0 [1; 2; 3])]))
    /\ bcmp_process_ping_reply (sample_cfg 5) (sample_ping_data (echo_message 6 5 0 [1; 2; 3])) s' = Some (BmOK, s')
    /\ bcmp_process_ping_reply (sample_cfg 5) (sample_ping_data (echo_message 6 5 0 [1; 2; 4])) s'
       = Some (BmENOTINTREC, s').
Proof.
  destruct (@ping_round_trip (ping * list (Z * bytes)) _ _ _ recording_ping_keeps platform_linux (sample_cfg 5)
    (ping_zero, []) (asked [1; 2; 3] ping_zero, [(BcmpEchoRequestMessage, @echo_message platform_linux 6 5 0 [1; 2; 3])])
    [] 6 None (Some [1; 2; 3]) 3 BmOK) as (s' & E & Hs & Hreq & Hrep);
    [done|done|lia|lia|by intros b [= <-]|reflexivity|].
  exists s'. split; [exact E|]. split; [|split].
  - rewrite (Hreq (sample_cfg 6) (ping_zero, []) (sample_ping_data _)) by (done || (cbn; lia)). reflexivity.
  - rewrite (Hrep s' (sample_ping_data _) 6 5 0 [1; 2; 3]) by (done || (cbn; lia)). reflexivity.
  - rewrite (Hrep s' (sample_ping_data _) 6 5 0 [1; 2; 4]) by (done || (cbn; lia)). reflexivity.
Defined.

(** Without memory for the payload that is expected, the null pointer is written to. *)
Example expected_payload_without_memory :
  @bcmp_send_ping_request _ _ _ platform_linux (sample_cfg 5) 6 None (Some [1]) 1
    (set_pg_os (MkOs [true; false] [] 7) ping_zero, []) = None.
Proof. reflexivity. Qed.

(** The request's length wraps in sixteen bits, and its fields are behind its memory. *)
Example ping_length_wraps :
  @bcmp_send_ping_request _ _ _ platform_linux (sample_cfg 5) 6 None (Some (replicate 65530 0)) 65530 (ping_zero, []) = None.
Proof. vm_compute. reflexivity. Qed.

(** A reply that is shorter than it says is read behind its end. *)
Example reply_shorter_than_it_says :
  (let P := platform_linux in
   '(_, s) ← bcmp_send_ping_request (sample_cfg 5) 6 None (Some [1; 2]) 2 (ping_zero, []);
   bcmp_process_ping_reply (sample_cfg 5) (sample_ping_data (take 15 (echo_message 6 5 0 [1; 2]))) s) = None.
Proof. reflexivity. Qed.
