(* ===== verification/Time.v ===== *)
(** * The time of other nodes: src/bcmp/time.c

    Messages that set a node's clock and ask for it, which nodes pass on along the
    chain of links until they reach the one that they are for.  The clock,
    bm_rtc.h, belongs to the platform. *)
From S2P Require Import Prelude Util Calendar Packet Parts Device.

(** The [RtcTimeAndDate] of src/bcmp/bm_rtc.h. *)
Record RtcTimeAndDate : Type := MkRtc {
  rtc_year : Z; rtc_month : Z; rtc_day : Z; rtc_hour : Z; rtc_minute : Z; rtc_second : Z; rtc_ms : Z
}.

(** What the platform offers of a clock. *)
Class RtcApi (St : Type) : Type := {
  bm_rtc_set : RtcTimeAndDate -> M St BmErr;
  bm_rtc_get : M St (BmErr * RtcTimeAndDate);
  bm_rtc_get_micro_seconds : RtcTimeAndDate -> Z
}.

Definition sizeof_BcmpSystemTimeRequest : Z := 16.
Definition sizeof_BcmpSystemTimeResponse : Z := 24.
Definition sizeof_BcmpSystemTimeSet : Z := 24.

Section time.
Context {St : Type} `{BcmpApi St} `{RtcApi St} `{Platform} (CFG : DeviceCfg).
(** [bcmp_ll_forward] of src/bcmp/bcmp.c. *)
Context (bcmp_ll_forward : BcmpHeader -> bytes -> Z -> Z -> M St BmErr).

(** A [BcmpSystemTimeHeader]. *)
Definition time_header (target_node_id source_node_id : Z) : bytes :=
  native_store 8 target_node_id ++ native_store 8 source_node_id.

Definition bcmp_time_set_time (target_node_id utc_us : Z) : M St BmErr :=
  err ← bcmp_tx (Some multicast_ll_addr) BcmpSystemTimeSetMessage
          (time_header target_node_id (node_id CFG) ++ native_store 8 utc_us) sizeof_BcmpSystemTimeSet 0 None;
  mret (if is_ok err then BmOK else BmEINVAL).

Definition bcmp_time_get_time (target_node_id : Z) : M St BmErr :=
  err ← bcmp_tx (Some multicast_ll_addr) BcmpSystemTimeRequestMessage
          (time_header target_node_id (node_id CFG)) sizeof_BcmpSystemTimeRequest 0 None;
  mret (if is_ok err then BmOK else BmEINVAL).

Definition bcmp_time_send_response (target_node_id utc_us : Z) : M St unit :=
  _ ← bcmp_tx (Some multicast_ll_addr) BcmpSystemTimeResponseMessage
        (time_header target_node_id (node_id CFG) ++ native_store 8 utc_us) sizeof_BcmpSystemTimeResponse 0 None;
  mret tt.

Definition bcmp_time_process_time_request_msg (msg : bytes) : M St unit :=
  '(err, time) ← bm_rtc_get;
  if is_ok err then
    source ← lift (read_at 8 8 msg);
    bcmp_time_send_response (native_load source) (bm_rtc_get_micro_seconds time)
  else mret tt.

(** The microseconds are cut to milliseconds. *)
Definition rtc_of (d : UtcDateTime) : RtcTimeAndDate :=
  MkRtc (year d) (month d) (day d) (hour d) (min d) (sec d) (u16 (usec d / 1000)).

Definition bcmp_time_process_time_set_msg (msg : bytes) : M St unit :=
  utc ← lift (read_at 16 8 msg);
  datetime ← lift (date_time_from_utc (native_load utc));
  err ← bm_rtc_set (rtc_of datetime);
  if is_ok err then
    source ← lift (read_at 8 8 msg);
    bcmp_time_send_response (native_load source) (native_load utc)
  else mret tt.

(** A response is printed; the date that is computed for it stays. *)
Definition bcmp_time_process_time_message (data : BcmpProcessData) : M St BmErr :=
  let type := h_type (pd_header data) in
  target ← lift (read_at 0 8 (pd_payload data));
  let target := native_load target in
  if negb (target =? node_id CFG) && negb (target =? 0) then
    bcmp_ll_forward (pd_header data) (pd_payload data) (pd_size data) (pd_ingress_port data)
  else if type =? BcmpSystemTimeRequestMessage then
    if target =? node_id CFG then
      _ ← bcmp_time_process_time_request_msg (pd_payload data); mret BmOK
    else mret BmEINVAL
  else if type =? BcmpSystemTimeResponseMessage then
    if target =? node_id CFG then
      utc ← lift (read_at 16 8 (pd_payload data));
      _ ← lift (date_time_from_utc (native_load utc));
      mret BmOK
    else mret BmEINVAL
  else if type =? BcmpSystemTimeSetMessage then
    _ ← bcmp_time_process_time_set_msg (pd_payload data); mret BmOK
  else mret BmEINVAL.

(** The handler has the number [handler]. *)
Definition time_init (handler : nat) : M St BmErr :=
  let time_request := MkCfg false false (Some handler) in
  err ← packet_add time_request BcmpSystemTimeRequestMessage;
  err ← unless_err err (packet_add time_request BcmpSystemTimeResponseMessage);
  unless_err err (packet_add time_request BcmpSystemTimeSetMessage).
End time.

(** ** Nodes on a line *)

(** A message of time.c that was sent, out of every port but [tp_not_on] (0: out of all). *)
Record TimePacket : Type := MkTimePacket { tp_type : Z; tp_payload : bytes; tp_not_on : Z }.

(** What the theorem needs of the platform and of the network: the node shows [rtc_clock],
    which setting it changes and sending does not; [bm_rtc_get_micro_seconds] gives the time
    since the epoch; and of [time_room] messages to come the node surely sends each one.
    What it has sent along the line is [time_sent]; a message that cannot be sent out of
    every port may be there or not, and the node may answer either way. *)
Class TimeLaws (St : Type) `{BcmpApi St} `{RtcApi St} `{Platform}
    (bcmp_ll_forward : BcmpHeader -> bytes -> Z -> Z -> M St BmErr) : Type := {
  rtc_clock : St -> RtcTimeAndDate;
  rtc_works : St -> bool;
  time_room : St -> nat;
  time_sent : St -> list TimePacket;
  may_send (m : TimePacket) (s : St) (err : BmErr) (s' : St) : Prop :=
    rtc_clock s' = rtc_clock s /\ rtc_works s' = rtc_works s /\ (time_room s <= S (time_room s'))%nat
    /\ exists out, time_sent s' = time_sent s ++ out /\ (out = [] \/ out = [m])
                  /\ ((0 < time_room s)%nat -> err = BmOK /\ out = [m]);
  time_tx_spec type d s :
    total (bcmp_tx (Some multicast_ll_addr) type d (Z.of_nat (length d)) 0 None) (may_send (MkTimePacket type d 0) s) s;
  time_forward_spec h d port s :
    total (bcmp_ll_forward h d (Z.of_nat (length d)) port) (may_send (MkTimePacket (h_type h) d port) s) s;
  rtc_get_spec s :
    total bm_rtc_get (fun r s' =>
      rtc_clock s' = rtc_clock s /\ rtc_works s' = rtc_works s /\ time_room s' = time_room s /\ time_sent s' = time_sent s
      /\ (rtc_works s = true -> r = (BmOK, rtc_clock s))) s;
  rtc_set_spec t s :
    total (bm_rtc_set t) (fun err s' =>
      rtc_works s' = rtc_works s /\ time_room s' = time_room s /\ time_sent s' = time_sent s
      /\ (rtc_works s = true -> err = BmOK /\ rtc_clock s' = t)) s;
  rtc_micro_seconds t sec :
    utc_from_date_time (rtc_year t) (rtc_month t) (rtc_day t) (rtc_hour t) (rtc_minute t) (rtc_second t) = Some sec ->
    bm_rtc_get_micro_seconds t = sec * microseconds_per_second + rtc_ms t * 1000
}.

(** The time of a date in microseconds. *)
Definition utc_of (d : UtcDateTime) : Z := epoch_seconds d * microseconds_per_second + usec d.

Section line.
Context {St : Type} `{BcmpApi St} `{!RtcApi St} `{Platform}.
Context (forward : BcmpHeader -> bytes -> Z -> Z -> M St BmErr) `{!TimeLaws St forward}.
(** The rest of a message's header, and its addresses. *)
Context (header_of : TimePacket -> BcmpHeader) (src dst : BmIpAddr).
Context (header_type : forall m, h_type (header_of m) = tp_type m).

(** What a call sends. *)
Definition sends {A} (m : M St A) (s : St) : option (A * St * list TimePacket) :=
  '(a, s') ← m s; Some (a, s', drop (length (time_sent s)) (time_sent s')).

(** The message [m] comes in on [port]. *)
Definition time_receive (CFG : DeviceCfg) (port : Z) (m : TimePacket) : M St BmErr :=
  bcmp_time_process_time_message CFG forward
    (MkProcessData (header_of m) (tp_payload m) (Z.of_nat (length (tp_payload m))) src dst port).

(** The message goes through [nodes], in on their port [i] and out on their port [o], as far
    as they pass it on. *)
Fixpoint relay (i o : Z) (m : TimePacket) (nodes : list (DeviceCfg * St))
    : option (list (DeviceCfg * St) * option TimePacket) :=
  match nodes with
  | [] => Some ([], Some m)
  | (CFG, s) :: nodes =>
      '(_, s', out) ← sends (time_receive CFG i m) s;
      match out with
      | [m'] =>
          if tp_not_on m' =? o then Some ((CFG, s') :: nodes, None)
          else '(nodes', r) ← relay i o m' nodes; Some ((CFG, s') :: nodes', r)
      | _ => Some ((CFG, s') :: nodes, None)
      end
  end.

(** A node asks with [start]; the message goes through the nodes of a line, whose port 1 is
    on the asker's side, to the node at its end; its answer goes the same way back.  The
    states afterwards, and the answer that arrived with what its handler answered. *)
Definition exchange (start : M St BmErr) (CFG : DeviceCfg) (s : St) (nodes : list (DeviceCfg * St))
    (CFG' : DeviceCfg) (s' : St) : option (St * list (DeviceCfg * St) * St * option (TimePacket * BmErr)) :=
  '(_, s1, out) ← sends start s;
  match out with
  | [m] =>
      '(nodes1, arrived) ← relay 1 2 m nodes;
      match arrived with
      | Some m1 =>
          '(_, s2, out) ← sends (time_receive CFG' 1 m1) s';
          match out with
          | [a] =>
              '(nodes2, arrived) ← relay 2 1 a (reverse nodes1);
              match arrived with
              | Some a1 => '(err, s3) ← time_receive CFG 2 a1 s1; Some (s3, reverse nodes2, s2, Some (a1, err))
              | None => Some (s1, reverse nodes2, s2, None)
              end
          | _ => Some (s1, nodes1, s2, None)
          end
      | None => Some (s1, nodes1, s', None)
      end
  | _ => Some (s1, nodes, s', None)
  end.

Lemma read_target target source l : read_at 0 8 (time_header target source ++ l) = Some (native_store 8 target).
Proof. unfold time_header. rewrite <- app_assoc. apply read_at_head. by rewrite length_native_store. Qed.

Lemma read_source target source l : read_at 8 8 (time_header target source ++ l) = Some (native_store 8 source).
Proof. unfold time_header. rewrite <- app_assoc. apply read_behind; by rewrite length_native_store. Qed.

Lemma read_utc target source utc :
  read_at 16 8 (time_header target source ++ native_store 8 utc) = Some (native_store 8 utc).
Proof.
  rewrite <- (app_nil_r (native_store 8 utc)) at 1. unfold time_header.
  apply read_behind; by rewrite ?length_app, !length_native_store.
Qed.

Lemma node_id_stored id : 0 <= id < 2 ^ 64 -> native_load (native_store 8 id) = id.
Proof. intros Hid. rewrite native_load_store. by apply Z.mod_small. Qed.

Lemma epoch_of_utc d : valid_date d -> 0 <= utc_of d < 2 ^ 64.
Proof.
  intros Hv. pose proof (epoch_seconds_bounds d Hv). destruct Hv as (_ & _ & _ & _ & _ & _ & Hu).
  unfold utc_of, microseconds_per_second in *. lia.
Qed.

(** What the clock of [rtc_of] says in microseconds: the date's, without the last three
    digits. *)
Lemma micro_seconds_of d :
  valid_date d -> bm_rtc_get_micro_seconds (rtc_of d) = utc_of d - usec d mod 1000.
Proof.
  intros Hv. rewrite (rtc_micro_seconds _ (epoch_seconds d)).
  - destruct Hv as (_ & _ & _ & _ & _ & _ & Hu). unfold utc_of, rtc_of, microseconds_per_second in *.
    cbn [rtc_ms]. rewrite u16_small by plia. plia.
  - pose proof (epoch_seconds_bounds d Hv). cbn. rewrite utc_from_date_time_value by done.
    done.
Qed.

(** A call that sends at most [m]. *)
Lemma sends_spec {A} (c : M St A) m (s : St) Q :
  total c (fun a s' => Q a s' /\ exists out, time_sent s' = time_sent s ++ out /\ (out = [] \/ out = [m])
                                        /\ ((0 < time_room s)%nat -> out = [m])) s ->
  exists a s' out, sends c s = Some (a, s', out) /\ Q a s' /\ (out = [] \/ out = [m]) /\ ((0 < time_room s)%nat -> out = [m]).
Proof.
  intros (a & s' & E & HQ & out & Eo & Ho). exists a, s', out. split; [|done].
  unfold sends. rewrite E. cbn. by rewrite Eo, drop_app_length.
Qed.

(** A node that the message is not for, and what is the same of it afterwards. *)
Definition same_relay (n n' : DeviceCfg * St) : Prop := n'.1 = n.1 /\ rtc_clock n'.2 = rtc_clock n.2.

#[local] Instance same_relay_preorder : PreOrder same_relay.
Proof. split; [by split|]. intros x y z [A1 A2] [B1 B2]. split; congruence. Qed.

(** Passing on. *)
Lemma receive_other CFG port m target source l s :
  tp_payload m = time_header target source ++ l -> 0 < target < 2 ^ 64 -> target <> node_id CFG ->
  exists err s' out,
    sends (time_receive CFG port m) s = Some (err, s', out)
    /\ (rtc_clock s' = rtc_clock s /\ (time_room s <= S (time_room s'))%nat)
    /\ (out = [] \/ out = [MkTimePacket (tp_type m) (tp_payload m) port])
    /\ ((0 < time_room s)%nat -> out = [MkTimePacket (tp_type m) (tp_payload m) port]).
Proof.
  intros Em Ht Hn. apply sends_spec. unfold time_receive, bcmp_time_process_time_message.
  cbn [pd_payload pd_header pd_size pd_ingress_port]. total_step. rewrite Em. eapply total_lift; [apply read_target|].
  cbn zeta. rewrite node_id_stored by lia.
  replace (negb _ && negb _) with true by (destruct (Z.eqb_spec target (node_id CFG)), (Z.eqb_spec target 0); (done || lia)).
  rewrite <- Em. eapply total_mono; [apply time_forward_spec|]. rewrite header_type.
  intros err s' (C & _ & R & out & E & Ho & Hr). split; [done|]. exists out. split_and!; [done..|].
  intros Hx. by apply Hr.
Qed.

Lemma relay_spec i o nodes : forall m target source l,
  i <> o -> 0 < target < 2 ^ 64 -> tp_payload m = time_header target source ++ l ->
  Forall (fun n => target <> node_id n.1) nodes ->
  exists nodes' r,
    relay i o m nodes = Some (nodes', r)
    /\ Forall2 same_relay nodes nodes'
    /\ (forall k, Forall (fun n => S k <= time_room n.2)%nat nodes -> Forall (fun n => k <= time_room n.2)%nat nodes')
    /\ (r = None \/ exists m', r = Some m' /\ tp_type m' = tp_type m /\ tp_payload m' = tp_payload m)
    /\ (Forall (fun n => 0 < time_room n.2)%nat nodes -> r <> None).
Proof.
  induction nodes as [|[CFG s] nodes IH]; intros m target source l Hio Ht Em Hn.
  { exists [], (Some m). split_and!; eauto. }
  apply Forall_cons in Hn as [Hn Hns].
  destruct (receive_other CFG i m target source l s Em Ht Hn) as (err & s' & out & E & (C & R) & Ho & Hr).
  cbn [relay]. rewrite E. cbn. destruct Ho as [-> | ->].
  - exists ((CFG, s') :: nodes), None. split; [done|]. split; [by repeat constructor|]. split; [|split; [by left|]].
    + intros k [Hk Hks]%Forall_cons. constructor; [cbn in *; lia|]. eapply Forall_impl; [exact Hks|]. cbn. intros; lia.
    + intros [Hk _]%Forall_cons. by specialize (Hr Hk).
  - cbn. rewrite (proj2 (Z.eqb_neq i o)) by done.
    destruct (IH (MkTimePacket (tp_type m) (tp_payload m) i) target source l Hio Ht Em Hns)
      as (nodes' & r & -> & HF & Hk & Hm & Hs).
    exists ((CFG, s') :: nodes'), r. split; [done|]. split; [by constructor|]. split; [|split; [done|]].
    + intros k [Hk1 Hks]%Forall_cons. constructor; [cbn in *; lia|auto].
    + intros [_ Hks]%Forall_cons. auto.
Qed.

(** The asker takes the answer. *)
Lemma receive_answer CFG port m target source utc s :
  tp_type m = BcmpSystemTimeResponseMessage -> tp_payload m = time_header target source ++ native_store 8 utc ->
  target = node_id CFG -> 0 <= target < 2 ^ 64 -> 0 <= utc < 2 ^ 64 -> time_receive CFG port m s = Some (BmOK, s).
Proof.
  intros Hty Hp -> Ht Hu. unfold time_receive, bcmp_time_process_time_message. cbn [pd_payload pd_header].
  rewrite header_type, Hty, Hp, bind_lift, read_target. cbn [mbind option_bind].
  rewrite node_id_stored by done. rewrite Z.eqb_refl. cbn [negb andb].
  change (BcmpSystemTimeResponseMessage =? BcmpSystemTimeRequestMessage) with false. rewrite Z.eqb_refl.
  rewrite bind_lift, read_utc. cbn [mbind option_bind]. rewrite node_id_stored, bind_lift by done.
  destruct (date_time_total utc) as [x ->]; [lia|done].
Qed.

(** A response is sent. *)
Lemma send_response_spec CFG target utc (s : St) (Q : unit -> St -> Prop) :
  (forall err s', may_send (MkTimePacket BcmpSystemTimeResponseMessage
                    (time_header target (node_id CFG) ++ native_store 8 utc) 0) s err s' -> Q tt s') ->
  total (bcmp_time_send_response CFG target utc) Q s.
Proof.
  intros HQ. unfold bcmp_time_send_response. total_step.
  replace sizeof_BcmpSystemTimeResponse
    with (Z.of_nat (length (time_header target (node_id CFG) ++ native_store 8 utc)))
    by (unfold time_header; by rewrite !length_app, !length_native_store).
  eapply total_mono; [apply time_tx_spec|]. intros err s' Hs. total_step. eauto.
Qed.

(** The node sets its clock and confirms. *)
Lemma receive_set CFG port m target source d s :
  tp_type m = BcmpSystemTimeSetMessage -> tp_payload m = time_header target source ++ native_store 8 (utc_of d) ->
  target = node_id CFG \/ target = 0 -> 0 <= target < 2 ^ 64 -> 0 <= source < 2 ^ 64 -> valid_date d -> rtc_works s = true ->
  let a := MkTimePacket BcmpSystemTimeResponseMessage (time_header source (node_id CFG) ++ native_store 8 (utc_of d)) 0 in
  exists err s' out, sends (time_receive CFG port m) s = Some (err, s', out)
    /\ (err = BmOK /\ rtc_clock s' = rtc_of d) /\ (out = [] \/ out = [a]) /\ ((0 < time_room s)%nat -> out = [a]).
Proof.
  intros Hty Hp Ht Ht' Hs Hv Hw a. pose proof (epoch_of_utc d Hv) as Hu. apply sends_spec.
  unfold time_receive, bcmp_time_process_time_message. cbn [pd_payload pd_header]. rewrite header_type, Hty, Hp.
  total_step. eapply total_lift; [apply read_target|]. cbn zeta. rewrite node_id_stored by done.
  replace (negb (target =? node_id CFG) && negb (target =? 0)) with false
    by (destruct Ht as [-> | ->]; [by rewrite Z.eqb_refl|by rewrite andb_false_r]).
  change (BcmpSystemTimeSetMessage =? BcmpSystemTimeRequestMessage) with false.
  change (BcmpSystemTimeSetMessage =? BcmpSystemTimeResponseMessage) with false.
  rewrite Z.eqb_refl. total_step. unfold bcmp_time_process_time_set_msg. total_step. eapply total_lift; [apply read_utc|].
  rewrite node_id_stored by done. total_step. eapply total_lift; [exact (date_time_from_utc_value d Hv)|].
  total_step. eapply total_mono; [apply rtc_set_spec|]. intros e s1 (_ & R1 & S1 & Hok). destruct (Hok Hw) as [-> C1].
  cbn [is_ok]. total_step. eapply total_lift; [apply read_source|]. rewrite node_id_stored by done.
  apply send_response_spec. intros e s2 (C2 & _ & _ & out & Eo & Ho & Hr). total_step.
  split; [split; congruence|]. exists out. rewrite Eo, S1. split_and!; [done..|]. intros Hx. apply Hr. lia.
Qed.

(** The node tells the time. *)
Lemma receive_request CFG port m source d s :
  tp_type m = BcmpSystemTimeRequestMessage -> tp_payload m = time_header (node_id CFG) source ->
  0 <= node_id CFG < 2 ^ 64 -> 0 <= source < 2 ^ 64 -> valid_date d -> rtc_works s = true -> rtc_clock s = rtc_of d ->
  let a := MkTimePacket BcmpSystemTimeResponseMessage
             (time_header source (node_id CFG) ++ native_store 8 (utc_of d - usec d mod 1000)) 0 in
  exists err s' out, sends (time_receive CFG port m) s = Some (err, s', out)
    /\ (err = BmOK /\ rtc_clock s' = rtc_of d) /\ (out = [] \/ out = [a]) /\ ((0 < time_room s)%nat -> out = [a]).
Proof.
  intros Hty Hp Ht Hs Hv Hw Hc a. apply sends_spec.
  unfold time_receive, bcmp_time_process_time_message. cbn [pd_payload pd_header].
  rewrite header_type, Hty, Hp, <- (app_nil_r (time_header _ _)).
  total_step. eapply total_lift; [apply read_target|]. cbn zeta. rewrite node_id_stored by done.
  rewrite !Z.eqb_refl. cbn [negb andb]. total_step. unfold bcmp_time_process_time_request_msg. total_step.
  eapply total_mono; [apply rtc_get_spec|]. intros r s1 (C1 & _ & R1 & S1 & Hok). rewrite (Hok Hw). cbn [is_ok].
  total_step. eapply total_lift; [apply read_source|]. rewrite node_id_stored, Hc, micro_seconds_of by done.
  apply send_response_spec. intros e s2 (C2 & _ & _ & out & Eo & Ho & Hr). total_step.
  split; [split; congruence|]. exists out. rewrite Eo, S1. split_and!; [done..|]. intros Hx. apply Hr. lia.
Qed.

(** A call of the asker sends [m]. *)
Lemma asker_sends type d n s :
  n = Z.of_nat (length d) ->
  exists err s' out,
    sends (err ← bcmp_tx (Some multicast_ll_addr) type d n 0 None; mret (if is_ok err then BmOK else BmEINVAL)) s
    = Some (err, s', out)
    /\ rtc_clock s' = rtc_clock s /\ (out = [] \/ out = [MkTimePacket type d 0])
    /\ ((0 < time_room s)%nat -> out = [MkTimePacket type d 0]).
Proof.
  intros ->. apply sends_spec. total_step. eapply total_mono; [apply time_tx_spec|].
  intros err s' (C & _ & _ & out & Eo & Ho & Hr). total_step. split; [done|]. exists out. split_and!; [done..|].
  intros Hx. by apply Hr.
Qed.

(** The way there and back. *)
Lemma exchange_spec start CFG s nodes CFG' s' m a l utc (Q : St -> Prop) :
  let id := node_id CFG in let id' := node_id CFG' in
  0 < id < 2 ^ 64 -> 0 < id' < 2 ^ 64 -> Forall (fun n => id <> node_id n.1 /\ id' <> node_id n.1) nodes ->
  (exists err s1 out, sends start s = Some (err, s1, out) /\ rtc_clock s1 = rtc_clock s
     /\ (out = [] \/ out = [m]) /\ ((0 < time_room s)%nat -> out = [m])) ->
  tp_payload m = time_header id' id ++ l ->
  (forall m1, tp_type m1 = tp_type m -> tp_payload m1 = tp_payload m ->
     exists err s2 out, sends (time_receive CFG' 1 m1) s' = Some (err, s2, out)
       /\ (err = BmOK /\ Q s2) /\ (out = [] \/ out = [a]) /\ ((0 < time_room s')%nat -> out = [a])) ->
  tp_type a = BcmpSystemTimeResponseMessage -> tp_payload a = time_header id id' ++ native_store 8 utc -> 0 <= utc < 2 ^ 64 ->
  exists s3 nodes' s2 r,
    exchange start CFG s nodes CFG' s' = Some (s3, nodes', s2, r)
    /\ rtc_clock s3 = rtc_clock s /\ Forall2 same_relay nodes nodes'
    /\ (r = None \/ exists a1, r = Some (a1, BmOK) /\ tp_payload a1 = tp_payload a /\ Q s2)
    /\ ((0 < time_room s)%nat -> (0 < time_room s')%nat -> Forall (fun n => 2 <= time_room n.2)%nat nodes -> r <> None).
Proof.
  intros id id' Hid Hid' Hn (err & s1 & out & E1 & C1 & Ho1 & Hr1) Hm Hh Ha Hpa Hu.
  unfold exchange. rewrite E1. cbn. destruct Ho1 as [-> | ->].
  { exists s1, nodes, s', None. split_and!; [done..|by left|]. intros Hx. by specialize (Hr1 Hx). }
  destruct (relay_spec 1 2 nodes m id' id l ltac:(done) Hid' Hm) as (nodes1 & r1 & E2 & HF & Hk & Hr & Hw).
  { eapply Forall_impl; [exact Hn|]. by intros n [_ ?]. }
  cbn. rewrite E2. cbn. destruct Hr as [-> | (m1 & -> & Et & Ep)].
  { exists s1, nodes1, s', None. split_and!; [done..|by left|]. intros _ _ Hx. exfalso. apply Hw; [|done].
    eapply Forall_impl; [exact Hx|]. cbn. intros; lia. }
  destruct (Hh m1 Et Ep) as (e & s2 & out & E3 & (_ & HQ) & Ho & Hro). rewrite E3. cbn. destruct Ho as [-> | ->].
  { exists s1, nodes1, s2, None. split_and!; [done..|by left|]. intros _ Hx. by specialize (Hro Hx). }
  destruct (relay_spec 2 1 (reverse nodes1) a id id' _ ltac:(done) Hid Hpa) as (nodes2 & r2 & E4 & HF2 & _ & Hr2 & Hw2).
  { apply Forall_reverse. eapply Forall2_Forall_r; [exact HF|]. eapply Forall_impl; [exact Hn|]. intros n [? _] n' [-> _]. done. }
  assert (HF' : Forall2 same_relay nodes (reverse nodes2)).
  { apply Forall2_reverse in HF2. rewrite reverse_involutive in HF2. by transitivity nodes1. }
  rewrite E4. cbn. destruct Hr2 as [-> | (a1 & -> & Et2 & Ep2)].
  - exists s1, (reverse nodes2), s2, None. split_and!; [done..|by left|]. intros _ _ Hx. exfalso. apply Hw2; [|done].
    apply Forall_reverse. apply Hk. eapply Forall_impl; [exact Hx|]. cbn. intros; lia.
  - rewrite (receive_answer CFG 2 a1 id id' utc s1) by (congruence || lia || done). cbn.
    exists s1, (reverse nodes2), s2, (Some (a1, BmOK)). split_and!; [done..|right; by exists a1|done].
Qed.

(** [start] is answered with [utc] by a node whose clock then shows [d], if every message
    gets through, which is so if the nodes have room; the clocks of the other nodes stay as
    they are. *)
Definition answered (start : M St BmErr) (utc : Z) (d : UtcDateTime) (CFG : DeviceCfg) (s : St)
    (nodes : list (DeviceCfg * St)) (CFG' : DeviceCfg) (s' : St) : Prop :=
  exists s3 nodes' s2 r,
    exchange start CFG s nodes CFG' s' = Some (s3, nodes', s2, r)
    /\ rtc_clock s3 = rtc_clock s /\ Forall2 same_relay nodes nodes'
    /\ (r = None \/ exists a, r = Some (a, BmOK) /\ tp_payload a = time_header (node_id CFG) (node_id CFG') ++ native_store 8 utc
                            /\ rtc_clock s2 = rtc_of d)
    /\ ((0 < time_room s)%nat -> (0 < time_room s')%nat -> Forall (fun n => 2 <= time_room n.2)%nat nodes -> r <> None).

(** C21: a node's clock is set from afar and asked for, along a line of any number of other
    nodes.  Take any date until 2105.  The message that sets it is passed on by each node
    that it is not for, in the direction away from the asker; the node that it is for sets its
    clock to that date and confirms the very time; and while its clock shows this it answers
    a request with that time up to the millisecond.  The answer goes back through the same
    nodes, whose clocks stay as they are, and the node that asked takes it.  All of this
    unless a message is lost on the way because a node could not send it: with room for one
    message at both ends and for two on the way none is.  A message for the node 0 sets the
    clock of every node that gets it, which confirms it and does not pass it on; a request
    for 0 is answered by nobody. *)
Theorem time_round_trip CFG CFG' d s nodes s' :
  let id := node_id CFG in let id' := node_id CFG' in
  0 < id < 2 ^ 64 -> 0 < id' < 2 ^ 64 -> Forall (fun n => id <> node_id n.1 /\ id' <> node_id n.1) nodes ->
  valid_date d -> rtc_works s' = true ->
  let confirm := MkTimePacket BcmpSystemTimeResponseMessage (time_header id id' ++ native_store 8 (utc_of d)) 0 in
  answered (bcmp_time_set_time CFG id' (utc_of d)) (utc_of d) d CFG s nodes CFG' s'
  /\ (rtc_clock s' = rtc_of d -> answered (bcmp_time_get_time CFG id') (utc_of d - usec d mod 1000) d CFG s nodes CFG' s')
  /\ (forall port m, tp_type m = BcmpSystemTimeSetMessage -> tp_payload m = time_header 0 id ++ native_store 8 (utc_of d) ->
       exists s2 out, sends (time_receive CFG' port m) s' = Some (BmOK, s2, out) /\ rtc_clock s2 = rtc_of d
         /\ (out = [] \/ out = [confirm]) /\ ((0 < time_room s')%nat -> out = [confirm]))
  /\ (forall port m, tp_type m = BcmpSystemTimeRequestMessage -> tp_payload m = time_header 0 id ->
       time_receive CFG' port m s' = Some (BmEINVAL, s')).
Proof.
  intros id id' Hid Hid' Hn Hv Hw confirm. pose proof (epoch_of_utc d Hv) as Hu.
  split; [|split; [|split]].
  - eapply (exchange_spec _ _ _ _ _ _ _ confirm _ (utc_of d) (fun s2 => rtc_clock s2 = rtc_of d)); [done..| | | |done|done|done].
    + apply asker_sends. by unfold time_header; rewrite !length_app, !length_native_store.
    + done.
    + intros m1 Et Ep. by apply (receive_set CFG' 1 m1 id' id); auto; lia.
  - intros Hc. eapply (exchange_spec _ _ _ _ _ _ _ (MkTimePacket BcmpSystemTimeResponseMessage
      (time_header id id' ++ native_store 8 (utc_of d - usec d mod 1000)) 0) [] _ (fun s2 => rtc_clock s2 = rtc_of d));
      [done..| | | | | |].
    + apply asker_sends. by unfold time_header; rewrite length_app, !length_native_store.
    + symmetry. apply app_nil_r.
    + intros m1 Et Ep. apply (receive_request CFG' 1 m1 id d); auto; lia.
    + done.
    + done.
    + pose proof (epoch_seconds_bounds d Hv). destruct Hv as (_ & _ & _ & _ & _ & _ & Hx). unfold utc_of, microseconds_per_second in *. plia.
  - intros port m Et Ep. destruct (receive_set CFG' port m 0 id d s' Et Ep) as (err & s2 & out & E & (-> & Hc) & Ho & Hr);
      [by right|lia|lia|done|done|]. exists s2, out. done.
  - intros port m Et Ep. unfold time_receive, bcmp_time_process_time_message. cbn [pd_payload pd_header].
    rewrite header_type, Ep, Et, <- (app_nil_r (time_header 0 id)), bind_lift, read_target. cbn [mbind option_bind].
    rewrite node_id_stored by lia. destruct (Z.eqb_spec 0 (node_id CFG')); [unfold id' in *; lia|done].
Qed.
End line.

(** ** A concrete run *)

(** A node with a clock, what it has sent, and how much it can still send. *)
Definition clock_node : Type := RtcTimeAndDate * list TimePacket * nat.

Definition clock_sends (m : TimePacket) : M clock_node BmErr := fun s =>
  let '(t, l, n) := s in
  match n with 0%nat => Some (BmENOMEM, s) | S n => Some (BmOK, (t, l ++ [m], n)) end.

#[local] Instance clock_api : BcmpApi clock_node := {
  bcmp_tx _ type d _ _ _ := clock_sends (MkTimePacket type d 0);
  packet_add _ _ := mret BmOK
}.
Definition clock_forward (h : BcmpHeader) (d : bytes) (_ port : Z) : M clock_node BmErr :=
  clock_sends (MkTimePacket (h_type h) d port).
#[local] Instance clock_rtc : RtcApi clock_node := {
  bm_rtc_set t := fun s => Some (BmOK, (t, s.1.2, s.2));
  bm_rtc_get := fun s => Some ((BmOK, s.1.1), s);
  bm_rtc_get_micro_seconds t :=
    default 0 (utc_from_date_time (rtc_year t) (rtc_month t) (rtc_day t) (rtc_hour t) (rtc_minute t) (rtc_second t))
    * microseconds_per_second + rtc_ms t * 1000
}.

Section run.
#[local] Instance clock_platform : Platform := platform_linux.

#[local] Instance clock_laws : TimeLaws clock_node clock_forward.
Proof.
  refine {| rtc_clock s := s.1.1; rtc_works _ := true; time_room s := s.2; time_sent s := s.1.2 |}.
  - intros type d [[t l] [|n]]; (eexists _, _; split; [reflexivity|]); cbn; split_and!; try done; try lia;
      [exists []|exists [MkTimePacket type d 0]]; rewrite ?app_nil_r; split_and!; auto; lia.
  - intros h d port [[t l] [|n]]; (eexists _, _; split; [reflexivity|]); cbn; split_and!; try done; try lia;
      [exists []|exists [MkTimePacket (h_type h) d port]]; rewrite ?app_nil_r; split_and!; auto; lia.
  - intros s. by eexists _, _.
  - intros t s. by eexists _, _.
  - intros t sec Hs. cbn. by rewrite Hs.
Defined.

Definition sample_time_cfg (id : Z) : DeviceCfg := MkDeviceCfg id 0 None None 0 0 0 0 0 0 (replicate 16 0).
Definition sample_date : UtcDateTime := MkUtcDateTime 2024 2 29 23 59 58 123456.
Definition sample_header (m : TimePacket) : BcmpHeader := MkHeader (tp_type m) 0 0 0 0 0 0 0.
Definition clock_zero : clock_node := (MkRtc 1970 1 1 0 0 0 0, [], 2%nat).
Definition sample_relays : list (DeviceCfg * clock_node) := [(sample_time_cfg 8, clock_zero); (sample_time_cfg 9, clock_zero)].

(** The node 5 sets the clock of the node 6 through the nodes 8 and 9, and asks for it. *)
Lemma time_round_trip_witness :
  valid_date sample_date
  /\ answered clock_forward sample_header multicast_ll_addr multicast_ll_addr
       (bcmp_time_set_time (sample_time_cfg 5) 6 (utc_of sample_date)) 1709251198123456 sample_date
       (sample_time_cfg 5) clock_zero sample_relays (sample_time_cfg 6) clock_zero
  /\ answered clock_forward sample_header multicast_ll_addr multicast_ll_addr
       (bcmp_time_get_time (sample_time_cfg 5) 6) 1709251198123000 sample_date
       (sample_time_cfg 5) clock_zero sample_relays (sample_time_cfg 6) (rtc_of sample_date, [], 1%nat).
Proof.
  assert (Hv : valid_date sample_date) by (vm_compute; repeat split; discriminate).
  assert (Hn : Forall (fun n : DeviceCfg * clock_node => 5 <> node_id n.1 /\ 6 <> node_id n.1) sample_relays)
    by (by repeat constructor).
  split; [exact Hv|]. split.
  - destruct (time_round_trip clock_forward sample_header multicast_ll_addr multicast_ll_addr (fun _ => eq_refl)
      (sample_time_cfg 5) (sample_time_cfg 6) sample_date clock_zero sample_relays clock_zero
      ltac:(done) ltac:(done) Hn Hv eq_refl) as (Hset & _). exact Hset.
  - destruct (time_round_trip clock_forward sample_header multicast_ll_addr multicast_ll_addr (fun _ => eq_refl)
      (sample_time_cfg 5) (sample_time_cfg 6) sample_date clock_zero sample_relays (rtc_of sample_date, [], 1%nat)
      ltac:(done) ltac:(done) Hn Hv eq_refl) as (_ & Hget & _). exact (Hget eq_refl).
Defined.

(** The clock that was set, those on the way, and what the asker's handler answered. *)
Definition clocks_after (r : option (clock_node * list (DeviceCfg * clock_node) * clock_node * option (TimePacket * BmErr)))
    : option (RtcTimeAndDate * list RtcTimeAndDate * option BmErr) :=
  match r with
  | Some (_, nodes, s2, a) => Some (s2.1.1, map (fun n => n.2.1.1) nodes, option_map snd a)
  | None => None
  end.

Definition time_set_run (relays : list (DeviceCfg * clock_node)) :=
  clocks_after (exchange clock_forward sample_header multicast_ll_addr multicast_ll_addr
    (bcmp_time_set_time (sample_time_cfg 5) 6 (utc_of sample_date))
    (sample_time_cfg 5) clock_zero relays (sample_time_cfg 6) clock_zero).

Example set_arrives :
  time_set_run sample_relays
  = Some (MkRtc 2024 2 29 23 59 58 123, [MkRtc 1970 1 1 0 0 0 0; MkRtc 1970 1 1 0 0 0 0], Some BmOK).
Proof. by vm_compute. Qed.

(** A node on the way that has no memory for the answer: the clock is set, and the asker is
    not told. *)
Example answer_lost :
  time_set_run [(sample_time_cfg 8, (clock_zero.1, 1%nat))]
  = Some (MkRtc 2024 2 29 23 59 58 123, [MkRtc 1970 1 1 0 0 0 0], None).
Proof. by vm_compute. Qed.
End run.
