(* ===== verification/Configuration.v ===== *)
(** * The store of settings: src/bcmp/configuration.c

    Partitions of keys with values in CBOR, in memory, and their copies in flash.
    The CBOR library is not part of the repository and the flash belongs to the
    platform: both are classes.  Of the memory of a partition only the part that the
    struct takes is kept; the rest is never used.  [getter]s give what they write
    through their pointers; an out-parameter that is not written is no result. *)
From S2P Require Import Prelude Util Crc Os Parts.

Definition CONFIG_START_OFFSET_IN_BYTES : Z := 0.
Definition CONFIG_LOAD_TIMEOUT_MS : Z := 5000.
Definition MAX_NUM_KV : nat := 50.
Definition MAX_KEY_LEN_BYTES : nat := 32.
Definition MAX_CONFIG_BUFFER_SIZE_BYTES : nat := 50.
Definition CONFIG_VERSION : Z := 0.
Definition BM_CFG_PARTITION_COUNT : Z := 3.

Inductive ConfigDataTypes : Type := UINT32 | INT32 | FLOAT | STR | BYTES | ARRAY.

#[export] Instance ConfigDataTypes_eq_dec : EqDecision ConfigDataTypes.
Proof. solve_decision. Defined.

Definition config_type_num (t : ConfigDataTypes) : Z :=
  match t with UINT32 => 0 | INT32 => 1 | FLOAT => 2 | STR => 3 | BYTES => 4 | ARRAY => 5 end.

Record ConfigKey : Type := MkConfigKey { key_buf : bytes; key_len : Z; value_type : Z }.

Record ConfigPartition : Type := MkConfigPartition {
  header_crc32 : Z;
  header_version : Z;
  numKeys : Z;
  keys : list ConfigKey;
  values : list bytes
}.

Record ConfigInfo : Type := MkConfigInfo { ram_buffer : ConfigPartition; ci_needs_commit : bool }.

(** The variables, and the operating system as this file and config.c see it. *)
Record configs : Type := MkConfigs { CONFIGS : list ConfigInfo; cf_os : Os }.

Definition set_CONFIGS (l : list ConfigInfo) (c : configs) : configs := MkConfigs l (cf_os c).
Definition set_cf_os (o : Os) (c : configs) : configs := MkConfigs (CONFIGS c) o.
Definition with_cf_os {A} (m : M Os A) : M configs A := zoom cf_os set_cf_os m.

(** What is used of the CBOR library.  A parser is set up on the bytes of a buffer;
    copying a string gives whether it went well, the buffer afterwards and the length
    that is reported; an encoder gives whether the item fitted, and the buffer. *)
Class CborApi : Type := {
  CborValue : Type;
  cbor_parser_init : bytes -> option CborValue;
  cbor_value_is_valid : CborValue -> bool;
  cbor_value_is_unsigned_integer : CborValue -> bool;
  cbor_value_is_integer : CborValue -> bool;
  cbor_value_is_float : CborValue -> bool;
  cbor_value_is_text_string : CborValue -> bool;
  cbor_value_is_byte_string : CborValue -> bool;
  cbor_value_is_array : CborValue -> bool;
  cbor_value_get_uint64 : CborValue -> option Z;
  cbor_value_get_int64 : CborValue -> option Z;
  cbor_value_get_float : CborValue -> option Z;
  cbor_value_copy_text_string : CborValue -> bytes -> Z -> bool * bytes * Z;
  cbor_value_copy_byte_string : CborValue -> bytes -> Z -> bool * bytes * Z;
  cbor_value_get_string_length : CborValue -> option Z;
  cbor_value_get_array_length : CborValue -> option Z;
  cbor_encode_uint : Z -> bytes -> bool * bytes;
  cbor_encode_int : Z -> bytes -> bool * bytes;
  cbor_encode_float : Z -> bytes -> bool * bytes;
  cbor_encode_text_string : bytes -> bytes -> bool * bytes;
  cbor_encode_byte_string : bytes -> bytes -> bool * bytes
}.

(** bm_configs_generic.h: partition, offset and buffer (the bytes that are in it before
    and after a read), or the bytes that are written. *)
Class ConfigFlash (St : Type) : Type := {
  bm_config_read : Z -> Z -> bytes -> Z -> M St (bool * bytes);
  bm_config_write : Z -> Z -> bytes -> Z -> M St bool;
  bm_config_reset : M St unit
}.

(** ** The bytes of a partition *)

Section layout.
Context `{Platform}.

Definition size_of_size_t : nat := Z.to_nat (size_t_bits / 8).
Definition sizeof_ConfigKey : nat := MAX_KEY_LEN_BYTES + size_of_size_t + 4.
Definition sizeof_ConfigPartitionHeader : nat := 9.
Definition sizeof_ConfigPartition : nat :=
  sizeof_ConfigPartitionHeader + MAX_NUM_KV * sizeof_ConfigKey + MAX_NUM_KV * MAX_CONFIG_BUFFER_SIZE_BYTES.

Definition key_store (k : ConfigKey) : bytes :=
  key_buf k ++ native_store size_of_size_t (key_len k) ++ native_store 4 (value_type k).
Definition key_load (b : bytes) : ConfigKey :=
  MkConfigKey (slice 0 32 b) (native_load (slice 32 size_of_size_t b)) (native_load (slice (32 + size_of_size_t) 4 b)).

(** From the version on, which is what the checksum is about. *)
Definition partition_body (p : ConfigPartition) : bytes :=
  native_store 4 (header_version p) ++ [numKeys p] ++ concat (key_store <$> keys p) ++ concat (values p).
Definition partition_store (p : ConfigPartition) : bytes := native_store 4 (header_crc32 p) ++ partition_body p.
Definition partition_load (b : bytes) : ConfigPartition :=
  MkConfigPartition (native_load (slice 0 4 b)) (native_load (slice 4 4 b)) (nth 8 b 0)
    ((fun i => key_load (slice (9 + i * sizeof_ConfigKey) sizeof_ConfigKey b)) <$> seq 0 MAX_NUM_KV)
    ((fun i => slice (9 + MAX_NUM_KV * sizeof_ConfigKey + i * MAX_CONFIG_BUFFER_SIZE_BYTES) MAX_CONFIG_BUFFER_SIZE_BYTES b)
       <$> seq 0 MAX_NUM_KV).
End layout.

Definition set_header (crc version n : Z) (p : ConfigPartition) : ConfigPartition :=
  MkConfigPartition crc version n (keys p) (values p).
Definition set_numKeys (n : Z) (p : ConfigPartition) : ConfigPartition :=
  MkConfigPartition (header_crc32 p) (header_version p) n (keys p) (values p).
Definition set_keys (l : list ConfigKey) (p : ConfigPartition) : ConfigPartition :=
  MkConfigPartition (header_crc32 p) (header_version p) (numKeys p) l (values p).
Definition set_values (l : list bytes) (p : ConfigPartition) : ConfigPartition :=
  MkConfigPartition (header_crc32 p) (header_version p) (numKeys p) (keys p) l.

(** ** The store *)

(** [CONFIGS[partition]]; nothing keeps a partition from a message in its bounds. *)
Definition get_info (partition : Z) : M configs ConfigInfo :=
  c ← get; lift (if 0 <=? partition then CONFIGS c !! Z.to_nat partition else None).
Definition put_info (partition : Z) (i : ConfigInfo) : M configs unit :=
  modify (fun c => set_CONFIGS (<[Z.to_nat partition := i]> (CONFIGS c)) c).
Definition get_partition (partition : Z) : M configs ConfigPartition :=
  i ← get_info partition; mret (ram_buffer i).
Definition put_partition (partition : Z) (p : ConfigPartition) : M configs unit :=
  i ← get_info partition; put_info partition (MkConfigInfo p (ci_needs_commit i)).
Definition set_needs_commit (partition : Z) (b : bool) : M configs unit :=
  i ← get_info partition; put_info partition (MkConfigInfo (ram_buffer i) b).

(** The loop from index [i] on. *)
Fixpoint find_key_loop (fuel i : nat) (p : ConfigPartition) (key : bytes) (len : Z) : option (option nat) :=
  match fuel with
  | O => Some None
  | S fuel =>
      k ← keys p !! i;
      same ← (if key_len k =? len then strncmp_eq (Z.to_nat len) key (key_buf k) else Some false);
      if same : bool then Some (Some i) else find_key_loop fuel (S i) p key len
  end.

(** [key] is the memory from the pointer on. *)
Definition find_key_idx (p : ConfigPartition) (key : bytes) (len : Z) : option (option nat) :=
  find_key_loop (Z.to_nat (numKeys p)) 0 p key len.

Definition is_key_char (c : Z) : bool :=
  ((48 <=? c) && (c <=? 57)) || ((97 <=? c) && (c <=? 122)) || ((65 <=? c) && (c <=? 90)) || (c =? 95) || (c =? 0).

(** Character by character, up to the first one that is improper. *)
Fixpoint is_key_valid (key : bytes) (key_len : nat) : option bool :=
  match key_len, key with
  | O, _ => Some true
  | S _, [] => None
  | S n, c :: key => if is_key_char c then is_key_valid key n else Some false
  end.

(** The string up to its terminator; [None]: there is none. *)
Fixpoint c_string (s : bytes) : option bytes :=
  match s with
  | [] => None
  | c :: s => if c =? 0 then Some [] else (fun t => c :: t) <$> c_string s
  end.

(** [snprintf(key_buf, sizeof(key_buf), "%s", key)]: it goes through the whole string,
    and keeps what fits. *)
Definition print_key (buf key : bytes) : option bytes :=
  s ← c_string key; write_at 0 (take (length buf - 1) s ++ [0]) buf.

Definition write_key (p : ConfigPartition) (key_idx : nat) (key : bytes) : option ConfigPartition :=
  k ← keys p !! key_idx;
  buf ← print_key (key_buf k) key;
  Some (set_keys (<[key_idx := MkConfigKey buf (key_len k) (value_type k)]> (keys p)) p).

(** The index of the key and whether it was there; the encoder is set up on its value. *)
Definition prepare_cbor_encoder (partition : Z) (key : option bytes) (key_len : Z) : M configs (option (nat * bool)) :=
  p ← get_partition partition;
  match key with
  | None => mret None
  | Some key =>
      if Z.of_nat MAX_KEY_LEN_BYTES <? key_len then mret None
      else if Z.of_nat MAX_NUM_KV <=? numKeys p then mret None
      else
        found ← lift (find_key_idx p key key_len);
        valid ← lift (match found with Some _ => Some true | None => is_key_valid key (Z.to_nat key_len) end);
        if valid : bool then
          let key_idx := match found with Some i => i | None => Z.to_nat (numKeys p) end in
          p ← lift (write_key p key_idx key);
          _ ← put_partition partition p;
          mret (Some (key_idx, match found with Some _ => true | None => false end))
        else mret None
  end.

Section cbor.
Context `{CborApi}.

Definition prepare_cbor_parser (partition : Z) (key : option bytes) (key_len : Z) : M configs (option CborValue) :=
  p ← get_partition partition;
  match key with
  | None => mret None
  | Some key =>
      if Z.of_nat MAX_KEY_LEN_BYTES <? key_len then mret None
      else
        found ← lift (find_key_idx p key key_len);
        match found with
        | None => mret None
        | Some i => v ← lift (values p !! i); mret (cbor_parser_init v)
        end
  end.

(** A getter: the value that a parser set up on the key's value gives. *)
Definition get_config_with {A} (f : CborValue -> option A) (partition : Z) (key : option bytes) (key_len : Z)
    : M configs (option A) :=
  match key with
  | None => mret None
  | Some _ => it ← prepare_cbor_parser partition key key_len; mret (it ≫= f)
  end.

Definition get_config_uint : Z -> option bytes -> Z -> M configs (option Z) :=
  get_config_with (fun it => if cbor_value_is_unsigned_integer it then u32 <$> cbor_value_get_uint64 it else None).
Definition get_config_int : Z -> option bytes -> Z -> M configs (option Z) :=
  get_config_with (fun it => if cbor_value_is_integer it then s32 <$> cbor_value_get_int64 it else None).
Definition get_config_float : Z -> option bytes -> Z -> M configs (option Z) :=
  get_config_with (fun it => if cbor_value_is_float it then cbor_value_get_float it else None).

(** The buffers: whether all went well, the buffer and the length afterwards. *)
Definition get_config_bytes (is_type : CborValue -> bool) (copy : CborValue -> bytes -> Z -> bool * bytes * Z)
    (partition : Z) (key : option bytes) (key_len : Z) (value : option bytes) (value_len : Z)
    : M configs (bool * bytes * Z) :=
  match key, value with
  | Some _, Some buf =>
      it ← prepare_cbor_parser partition key key_len;
      mret (match it with
            | Some it => if is_type it then copy it buf value_len else (false, buf, value_len)
            | None => (false, buf, value_len)
            end)
  | _, _ => mret (false, default [] value, value_len)
  end.

Definition get_config_string := get_config_bytes cbor_value_is_text_string cbor_value_copy_text_string.
Definition get_config_buffer := get_config_bytes cbor_value_is_byte_string cbor_value_copy_byte_string.

Definition get_config_cbor (partition : Z) (key : option bytes) (key_len : Z) (value : option bytes) (value_len : Z)
    : M configs (bool * bytes * Z) :=
  match key, value with
  | Some k, Some buf =>
      it ← prepare_cbor_parser partition key key_len;
      p ← get_partition partition;
      found ← lift (match it with
                    | Some it => if cbor_value_is_valid it then find_key_idx p k key_len else Some None
                    | None => Some None
                    end);
      match found with
      | None => mret (false, buf, value_len)
      | Some i =>
          if value_len <? Z.of_nat MAX_CONFIG_BUFFER_SIZE_BYTES then mret (false, buf, value_len)
          else
            v ← lift (values p !! i);
            buf ← lift (write_at 0 v buf);
            mret (true, buf, Z.of_nat MAX_CONFIG_BUFFER_SIZE_BYTES)
      end
  | _, _ => mret (false, default [] value, value_len)
  end.

(** What a setter writes once the value is encoded. *)
Definition finish_key (partition : Z) (key_idx : nat) (key_exists : bool) (type : ConfigDataTypes) (key_len : Z)
    : M configs unit :=
  p ← get_partition partition;
  k ← lift (keys p !! key_idx);
  let p := set_keys (<[key_idx := MkConfigKey (key_buf k) key_len (config_type_num type)]> (keys p)) p in
  _ ← put_partition partition (if key_exists then p else set_numKeys (u8 (numKeys p + 1)) p);
  set_needs_commit partition true.

(** A setter; an encoder that runs out of room has written to the value, too. *)
Definition set_config_with (encode : bytes -> bool * bytes) (type : ConfigDataTypes) (partition : Z)
    (key : option bytes) (key_len : Z) : M configs bool :=
  match key with
  | None => mret false
  | Some _ =>
      enc ← prepare_cbor_encoder partition key key_len;
      match enc with
      | None => mret false
      | Some (key_idx, key_exists) =>
          p ← get_partition partition;
          v ← lift (values p !! key_idx);
          let '(ok, v) := encode v in
          _ ← put_partition partition (set_values (<[key_idx := v]> (values p)) p);
          if ok : bool then _ ← finish_key partition key_idx key_exists type key_len; mret true
          else mret false
      end
  end.

Definition set_config_uint (partition : Z) (key : option bytes) (key_len value : Z) : M configs bool :=
  set_config_with (cbor_encode_uint value) UINT32 partition key key_len.
Definition set_config_int (partition : Z) (key : option bytes) (key_len value : Z) : M configs bool :=
  set_config_with (cbor_encode_int value) INT32 partition key key_len.
Definition set_config_float (partition : Z) (key : option bytes) (key_len value : Z) : M configs bool :=
  set_config_with (cbor_encode_float value) FLOAT partition key key_len.
(** The value has [value_len] bytes. *)
Definition set_config_string (partition : Z) (key : option bytes) (key_len : Z) (value : bytes) (value_len : Z)
    : M configs bool :=
  value ← lift (read_at 0 (Z.to_nat value_len) value);
  set_config_with (cbor_encode_text_string value) STR partition key key_len.
Definition set_config_buffer (partition : Z) (key : option bytes) (key_len : Z) (value : bytes) (value_len : Z)
    : M configs bool :=
  value ← lift (read_at 0 (Z.to_nat value_len) value);
  set_config_with (cbor_encode_byte_string value) BYTES partition key key_len.

Definition cbor_type_to_config (value : CborValue) : option ConfigDataTypes :=
  if cbor_value_is_integer value then
    if cbor_value_is_unsigned_integer value then Some UINT32 else Some INT32
  else if cbor_value_is_byte_string value then Some BYTES
  else if cbor_value_is_text_string value then Some STR
  else if cbor_value_is_float value then Some FLOAT
  else if cbor_value_is_array value then Some ARRAY
  else None.

(** The index that a value goes to; a new key is written there. *)
Definition cbor_key_index (partition : Z) (key : bytes) (key_len : Z) : M configs (option nat) :=
  p ← get_partition partition;
  found ← lift (find_key_idx p key key_len);
  match found with
  | Some i => mret (Some i)
  | None =>
      valid ← lift (is_key_valid key (Z.to_nat key_len));
      if negb valid then mret None
      else if Z.of_nat MAX_NUM_KV <=? numKeys p then mret None
      else
        p' ← lift (write_key p (Z.to_nat (numKeys p)) key);
        _ ← put_partition partition p';
        mret (Some (Z.to_nat (numKeys p)))
  end.

Definition set_config_cbor (partition : Z) (key : option bytes) (key_len : Z) (value : option bytes) (value_len : Z)
    : M configs bool :=
  match key, value with
  | Some k, Some v =>
      if Z.of_nat MAX_KEY_LEN_BYTES <? key_len then mret false
      else if (Z.of_nat MAX_CONFIG_BUFFER_SIZE_BYTES <? value_len) || (value_len =? 0) then mret false
      else
        v ← lift (read_at 0 (Z.to_nat value_len) v);
        match cbor_parser_init v with
        | None => mret false
        | Some it =>
            if negb (cbor_value_is_valid it) then mret false
            else
              idx ← cbor_key_index partition k key_len;
              match idx, cbor_type_to_config it with
              | Some key_idx, Some type =>
                  p ← get_partition partition;
                  old ← lift (values p !! key_idx);
                  new ← lift (write_at 0 v old);
                  _ ← put_partition partition (set_values (<[key_idx := new]> (values p)) p);
                  _ ← finish_key partition key_idx (negb (Z.of_nat key_idx =? numKeys p)) type key_len;
                  mret true
              | _, _ => mret false
              end
        end
  | _, _ => mret false
  end.

Definition get_value_size (partition : Z) (key : option bytes) (key_len : Z) : M configs (option Z) :=
  match key with
  | None => mret None
  | Some _ =>
      it ← prepare_cbor_parser partition key key_len;
      mret (it ← it;
            type ← cbor_type_to_config it;
            match type with
            | UINT32 | INT32 | FLOAT => Some 4
            | STR | BYTES => cbor_value_get_string_length it
            | ARRAY => cbor_value_get_array_length it
            end)
  end.
End cbor.

Definition get_stored_keys (partition : Z) : M configs (list ConfigKey * Z) :=
  p ← get_partition partition; mret (keys p, numKeys p).

(** [memmove(&l[i], &l[i + 1], n * sizeof(l[0]))]; [None]: outside the array. *)
Definition move_up {A} (i n : nat) (l : list A) : option (list A) :=
  if (i + 1 + n <=? length l)%nat then Some (take i l ++ take n (drop (i + 1) l) ++ drop (i + n) l) else None.

Definition remove_key (partition : Z) (key : option bytes) (key_len : Z) : M configs bool :=
  match key with
  | None => mret false
  | Some key =>
      p ← get_partition partition;
      found ← lift (find_key_idx p key key_len);
      match found with
      | None => mret false
      | Some i =>
          let n := Z.to_nat (numKeys p - 1 - Z.of_nat i) in
          p ← lift (if Z.of_nat i <? numKeys p - 1 then
                      ks ← move_up i n (keys p);
                      vs ← move_up i n (values p);
                      Some (set_values vs (set_keys ks p))
                    else Some p);
          _ ← put_partition partition (set_numKeys (u8 (numKeys p - 1)) p);
          _ ← set_needs_commit partition true;
          mret true
      end
  end.

Definition data_type_enum_to_str (type : ConfigDataTypes) : bytes :=
  match type with
  | UINT32 => [117; 105; 110; 116; 51; 50]
  | INT32 => [105; 110; 116; 51; 50]
  | FLOAT => [102; 108; 111; 97; 116]
  | STR => [115; 116; 114]
  | BYTES => [98; 121; 116; 101; 115]
  | ARRAY => [97; 114; 114; 97; 121]
  end.

(** All zeros. *)
Definition zero_partition : ConfigPartition :=
  MkConfigPartition 0 0 0 (replicate MAX_NUM_KV (MkConfigKey (replicate MAX_KEY_LEN_BYTES 0) 0 0))
    (replicate MAX_NUM_KV (replicate MAX_CONFIG_BUFFER_SIZE_BYTES 0)).

Definition clear_partition (partition : Z) : M configs bool :=
  if (0 <=? partition) && (partition <? BM_CFG_PARTITION_COUNT) then
    _ ← put_partition partition (set_header 0 CONFIG_VERSION 0 zero_partition);
    _ ← set_needs_commit partition true;
    mret true
  else mret false.

Definition needs_commit (partition : Z) : M configs bool :=
  if (0 <=? partition) && (partition <? BM_CFG_PARTITION_COUNT) then
    i ← get_info partition; mret (ci_needs_commit i)
  else mret false.

(** ** Flash *)

Section flash.
Context {St : Type} `{Part configs St} `{ConfigFlash St} `{Platform}.

(** What is read goes to the partition's own memory, good or not. *)
Definition load_and_verify_nvm_config (partition : Z) : M St bool :=
  p ← on_part (get_partition partition);
  '(ok, b) ← bm_config_read partition CONFIG_START_OFFSET_IN_BYTES (partition_store p) CONFIG_LOAD_TIMEOUT_MS;
  let p := partition_load b in
  _ ← on_part (put_partition partition p);
  mret (ok && (header_crc32 p =? crc32_ieee (drop 4 b))).

Definition config_init : M St unit :=
  for_each [0; 1; 2] (fun i =>
    ok ← load_and_verify_nvm_config i;
    if ok : bool then mret tt
    else on_part (p ← get_partition i;
                  put_partition i (set_header (header_crc32 p) CONFIG_VERSION 0 p))).

Definition save_config (partition : Z) (restart : bool) : M St bool :=
  p ← on_part (get_partition partition);
  let p := set_header (crc32_ieee (drop 4 (partition_store p))) (header_version p) (numKeys p) p in
  _ ← on_part (put_partition partition p);
  ok ← bm_config_write partition CONFIG_START_OFFSET_IN_BYTES (partition_store p) CONFIG_LOAD_TIMEOUT_MS;
  if ok : bool then
    _ ← when restart bm_config_reset;
    _ ← on_part (set_needs_commit partition false);
    mret true
  else mret false.
End flash.
