(* ===== verification/ConfigStore.v ===== *)
(** * What the store of settings holds: src/bcmp/configuration.c

    The partitions stand for lists of keys with typed values; setters, getters and
    removals do on the arrays what they do on these lists.  What is needed of the CBOR
    library is the class [CborLaws]. *)
From S2P Require Import Prelude Util Crc Os Parts Configuration.

(** What a value says to the ones who read it. *)
Inductive cbor_item : Type :=
  | CborInt (z : Z)
  | CborFloat (f : Z)
  | CborText (s : bytes)
  | CborBytes (s : bytes).

Section items.
Context `{CborApi}.

Definition is_int (i : cbor_item) : bool := match i with CborInt _ => true | _ => false end.
Definition is_unsigned (i : cbor_item) : bool := match i with CborInt z => 0 <=? z | _ => false end.
Definition is_float (i : cbor_item) : bool := match i with CborFloat _ => true | _ => false end.
Definition is_text (i : cbor_item) : bool := match i with CborText _ => true | _ => false end.
Definition is_bytes (i : cbor_item) : bool := match i with CborBytes _ => true | _ => false end.

(** Copying [s] to a buffer that has room for it. *)
Definition copies (copy : bytes -> Z -> bool * bytes * Z) (s : bytes) : Prop :=
  forall buf, (length s <= length buf)%nat -> exists buf',
    copy buf (Z.of_nat (length buf)) = (true, buf', Z.of_nat (length s)) /\ take (length s) buf' = s
    /\ length buf' = length buf.

(** The getters on a value that is read as [i]. *)
Definition reads (v : CborValue) (i : cbor_item) : Prop :=
  match i with
  | CborInt z => (0 <= z -> cbor_value_get_uint64 v = Some z) /\ cbor_value_get_int64 v = Some z
  | CborFloat f => cbor_value_get_float v = Some f
  | CborText s => copies (cbor_value_copy_text_string v) s
  | CborBytes s => copies (cbor_value_copy_byte_string v) s
  end.

(** The bytes begin with the item [i]. *)
Definition shows (buf : bytes) (i : cbor_item) : Prop := exists v,
  cbor_parser_init buf = Some v /\ cbor_value_is_valid v = true
  /\ cbor_value_is_unsigned_integer v = is_unsigned i /\ cbor_value_is_integer v = is_int i
  /\ cbor_value_is_float v = is_float i /\ cbor_value_is_text_string v = is_text i
  /\ cbor_value_is_byte_string v = is_bytes i /\ cbor_value_is_array v = false /\ reads v i.

(** The encoder writes the item to a buffer of the size of a value. *)
Definition encodes (encode : bytes -> bool * bytes) (i : cbor_item) : Prop :=
  forall buf, length buf = MAX_CONFIG_BUFFER_SIZE_BYTES -> exists buf',
    encode buf = (true, buf') /\ length buf' = MAX_CONFIG_BUFFER_SIZE_BYTES /\ shows buf' i.

Class CborLaws : Prop := {
  cbor_uint z : 0 <= z < 2 ^ 32 -> encodes (cbor_encode_uint z) (CborInt z);
  cbor_int z : - 2 ^ 31 <= z < 2 ^ 31 -> encodes (cbor_encode_int z) (CborInt z);
  cbor_float f : 0 <= f < 2 ^ 32 -> encodes (cbor_encode_float f) (CborFloat f);
  (** a string's head has two bytes at most *)
  cbor_text s : bytes_ok s -> (length s <= 48)%nat -> encodes (cbor_encode_text_string s) (CborText s);
  cbor_bytes s : bytes_ok s -> (length s <= 48)%nat -> encodes (cbor_encode_byte_string s) (CborBytes s);
  (** what comes behind an item does not matter *)
  cbor_behind d rest i : shows d i -> shows (d ++ rest) i
}.
End items.

(** ** Keys *)

Definition key_ok (k : bytes) : Prop :=
  (length k < MAX_KEY_LEN_BYTES)%nat /\ Forall (fun c => is_key_char c = true /\ c <> 0) k.

Lemma strncmp_keys k k' r r' :
  Forall (fun c => is_key_char c = true /\ c <> 0) k -> length k = length k' ->
  strncmp_eq (length k) (k ++ r) (k' ++ r') = Some (bool_decide (k = k')).
Proof.
  revert k'. induction k as [|c k IH]; intros [|c' k'] Hk Hl; try done; cbn in *.
  apply Forall_cons in Hk as [[Hc Hz] Hk]. destruct (Z.eqb_spec c c') as [<-|Hne].
  - destruct (Z.eqb_spec c 0); [done|]. rewrite IH by (done || lia). f_equal. apply bool_decide_ext. naive_solver.
  - rewrite bool_decide_eq_false_2; [done|congruence].
Qed.

Lemma key_valid k r : key_ok k -> is_key_valid (k ++ r) (length k) = Some true.
Proof.
  intros [_ Hk]. induction k as [|c k IH]; cbn; [by destruct r|]. apply Forall_cons in Hk as [[Hc _] Hk].
  rewrite Hc. auto.
Qed.

Lemma c_string_key k r : key_ok k -> c_string (k ++ r) = (fun t => k ++ t) <$> c_string r.
Proof.
  intros [_ Hk]. induction k as [|c k IH]; cbn; [by destruct (c_string r)|]. apply Forall_cons in Hk as [[_ Hc] Hk].
  destruct (Z.eqb_spec c 0); [done|]. rewrite IH by done. by destruct (c_string r).
Qed.

(** The string that begins with a key leaves the key in front. *)
Lemma print_key_spec k r t buf :
  key_ok k -> c_string r = Some t -> length buf = MAX_KEY_LEN_BYTES ->
  exists rest, print_key buf (k ++ r) = Some (k ++ rest) /\ length (k ++ rest) = MAX_KEY_LEN_BYTES.
Proof.
  intros Hk Ht Hl. unfold print_key. rewrite c_string_key, Ht by done. cbn [fmap option_fmap option_map mbind option_bind].
  destruct Hk as [Hk _]. rewrite Hl. unfold MAX_KEY_LEN_BYTES in *.
  rewrite take_app_ge by lia. rewrite <- app_assoc. set (tl := take _ t ++ [0]).
  assert (Hlen : (length (k ++ tl) <= 32)%nat).
  { unfold tl. rewrite !length_app, length_take. cbn [length]. lia. }
  unfold write_at. destruct (Nat.leb_spec (0 + length (k ++ tl)) (length buf)); [|lia].
  exists (tl ++ drop (length (k ++ tl)) buf). rewrite app_assoc. split.
  - unfold blit. by rewrite take_0.
  - rewrite length_app, length_drop. lia.
Qed.

(** ** Partitions *)

Abbreviation entry := (bytes * cbor_item)%type.

(** The place of a key. *)
Fixpoint key_place (k : bytes) (es : list entry) : option nat :=
  match es with
  | [] => None
  | e :: es => if bool_decide (fst e = k) then Some 0%nat else S <$> key_place k es
  end.

Section store.
Context `{CborApi}.

(** Strings that a getter's buffer of fifty bytes has room for. *)
Definition item_fits (i : cbor_item) : Prop :=
  match i with CborText s | CborBytes s => (length s <= MAX_CONFIG_BUFFER_SIZE_BYTES)%nat | _ => True end.

(** One place of the arrays. *)
Definition slot_ok (k : ConfigKey) (v : bytes) (e : entry) : Prop :=
  key_ok (fst e) /\ key_len k = Z.of_nat (length (fst e))
  /\ (exists rest, key_buf k = fst e ++ rest) /\ shows v (snd e) /\ item_fits (snd e).

Record partition_ok (p : ConfigPartition) (es : list entry) : Prop := {
  po_keys : length (keys p) = MAX_NUM_KV;
  po_values : length (values p) = MAX_NUM_KV;
  po_bufs : Forall (fun k => length (key_buf k) = MAX_KEY_LEN_BYTES) (keys p);
  po_vals : Forall (fun v => length v = MAX_CONFIG_BUFFER_SIZE_BYTES) (values p);
  po_num : numKeys p = Z.of_nat (length es);
  po_max : (length es <= MAX_NUM_KV)%nat;
  po_nodup : NoDup (fst <$> es);
  po_slots i e : es !! i = Some e -> exists k v, keys p !! i = Some k /\ values p !! i = Some v /\ slot_ok k v e
}.

Lemma find_key_loop_spec p es n i k r :
  (forall j e, drop i es !! j = Some e -> exists kk v, keys p !! (i + j)%nat = Some kk
     /\ values p !! (i + j)%nat = Some v /\ slot_ok kk v e) ->
  key_ok k -> n = length (drop i es) ->
  find_key_loop n i p (k ++ r) (Z.of_nat (length k))
  = Some ((fun j => (i + j)%nat) <$> key_place k (drop i es)).
Proof.
  revert i. induction n as [|n IH]; intros i Hs Hk Hn; cbn.
  { symmetry in Hn. apply nil_length_inv in Hn. by rewrite Hn. }
  destruct (drop i es) as [|e l] eqn:E; [done|]. cbn [length] in Hn.
  assert (Hd : drop (S i) es = l) by (rewrite <- Nat.add_1_r, <- drop_drop, E; done).
  destruct (Hs 0%nat e eq_refl) as (kk & v & Hkk & _ & (Hke & Hlen & (rest & Hbuf) & _)).
  rewrite Nat.add_0_r in Hkk. rewrite Hkk. cbn [mbind option_bind key_place].
  assert (Hnext : find_key_loop n (S i) p (k ++ r) (Z.of_nat (length k))
    = Some ((fun j => (i + j)%nat) <$> (S <$> key_place k l))).
  { rewrite IH, Hd.
    - f_equal. rewrite <- option_fmap_compose. apply option_fmap_ext. intros j. cbn. lia.
    - rewrite Hd. intros j e' Hj. specialize (Hs (S j) e' Hj). by rewrite <- Nat.add_succ_comm in Hs.
    - done.
    - rewrite Hd. lia. }
  rewrite Hlen. destruct (Z.eqb_spec (Z.of_nat (length (fst e))) (Z.of_nat (length k))) as [Hl|Hl].
  - rewrite Nat2Z.id, Hbuf, strncmp_keys by (destruct Hk; done || lia). cbn [mbind option_bind].
    destruct (decide (fst e = k)) as [He|He].
    + rewrite !bool_decide_eq_true_2 by done. cbn. by rewrite Nat.add_0_r.
    + rewrite !bool_decide_eq_false_2 by congruence. exact Hnext.
  - cbn [mbind option_bind]. rewrite bool_decide_eq_false_2 by congruence. exact Hnext.
Qed.

Lemma find_key_spec p es k r :
  partition_ok p es -> key_ok k ->
  find_key_idx p (k ++ r) (Z.of_nat (length k)) = Some (key_place k es).
Proof.
  intros Hp Hk. unfold find_key_idx. rewrite (po_num _ _ Hp), Nat2Z.id.
  rewrite (find_key_loop_spec p es _ 0) by (done || (rewrite drop_0; first [done|apply (po_slots _ _ Hp)])).
  rewrite drop_0. f_equal. by destruct (key_place k es).
Qed.

Lemma place_some k es j : key_place k es = Some j -> exists i, es !! j = Some (k, i).
Proof.
  revert j. induction es as [|[k' i'] es IH]; intros j; cbn; [done|]. case_bool_decide as E; cbn in E.
  - intros [= <-]. subst. by exists i'.
  - destruct (key_place k es); [|done]. intros [= <-]. by apply IH.
Qed.

Lemma place_none k es : key_place k es = None -> k ∉ fst <$> es.
Proof.
  induction es as [|[k' i'] es IH]; cbn; [by intros _ ?%not_elem_of_nil|]. case_bool_decide as E; [done|].
  destruct (key_place k es); [done|]. intros _ [<-|?]%elem_of_cons; [done|by apply IH].
Qed.

(** The list with a key set, and with a key removed. *)
Definition put_item (k : bytes) (i : cbor_item) (es : list entry) : list entry :=
  match key_place k es with Some j => <[j := (k, i)]> es | None => es ++ [(k, i)] end.
Definition drop_key (k : bytes) (es : list entry) : list entry :=
  match key_place k es with Some j => delete j es | None => es end.
(** The place that a key is written to. *)
Definition place_for (k : bytes) (es : list entry) : nat := default (length es) (key_place k es).

Lemma put_item_lookup k i es j :
  put_item k i es !! j = if decide (j = place_for k es) then Some (k, i) else es !! j.
Proof.
  unfold put_item, place_for. destruct (key_place k es) as [n|] eqn:E; cbn.
  - apply place_some in E as [i0 E]. apply lookup_lt_Some in E. case_decide as Hj.
    + subst. by apply list_lookup_insert_eq.
    + by apply list_lookup_insert_ne.
  - case_decide as Hj.
    + subst j. by apply list_lookup_middle.
    + destruct (decide (j < length es)%nat); [by rewrite lookup_app_l|].
      transitivity (@None entry); [|symmetry]; apply lookup_ge_None_2; rewrite ?length_app; cbn; lia.
Qed.

Lemma put_item_length k i es :
  length (put_item k i es) = match key_place k es with Some _ => length es | None => S (length es) end.
Proof. unfold put_item. destruct (key_place k es); [by rewrite length_insert|rewrite length_app; cbn; lia]. Qed.

Lemma put_item_nodup k i es : NoDup (fst <$> es) -> NoDup (fst <$> put_item k i es).
Proof.
  intros Hn. unfold put_item. destruct (key_place k es) as [n|] eqn:E.
  - apply place_some in E as [i0 E]. rewrite list_fmap_insert. cbn.
    rewrite list_insert_id; [done|]. by rewrite list_lookup_fmap, E.
  - apply place_none in E. rewrite fmap_app. apply NoDup_app. cbn. split; [done|split; [|apply NoDup_singleton]].
    intros x Hx ->%list_elem_of_singleton. done.
Qed.

Lemma place_le k es : (place_for k es <= length es)%nat.
Proof.
  unfold place_for. destruct (key_place k es) eqn:E; cbn; [|lia].
  apply place_some in E as [i E]. apply lookup_lt_Some in E. lia.
Qed.

(** A key and its value written to their place. *)
Lemma slot_overwritten p es k i kk v :
  partition_ok p es -> (place_for k es < MAX_NUM_KV)%nat ->
  length (key_buf kk) = MAX_KEY_LEN_BYTES -> length v = MAX_CONFIG_BUFFER_SIZE_BYTES -> slot_ok kk v (k, i) ->
  let j := place_for k es in
  partition_ok (MkConfigPartition (header_crc32 p) (header_version p) (Z.of_nat (length (put_item k i es)))
                  (<[j := kk]> (keys p)) (<[j := v]> (values p))) (put_item k i es).
Proof.
  intros [] Hlt Hb Hv Hs j. pose proof (place_le k es) as Hj. fold j in Hj, Hlt.
  split; cbn [keys values numKeys]; rewrite ?length_insert; try done.
  - by apply Forall_insert.
  - by apply Forall_insert.
  - rewrite put_item_length. unfold j, place_for in Hlt. destruct (key_place k es); cbn in Hlt; lia.
  - by apply put_item_nodup.
  - intros n e. rewrite put_item_lookup. fold j. case_decide as Hn.
    + intros [= <-]. subst n. exists kk, v. rewrite !list_lookup_insert_eq by lia. done.
    + intros He. rewrite !list_lookup_insert_ne by done. eauto.
Qed.

Lemma move_up_spec {A} i n (l : list A) :
  (i + 1 + n <= length l)%nat ->
  exists l', move_up i n l = Some l' /\ length l' = length l
    /\ (forall j, (j < i + n)%nat -> l' !! j = delete i l !! j) /\ (forall P, Forall P l -> Forall P l').
Proof.
  intros Hl. unfold move_up. destruct (Nat.leb_spec (i + 1 + n) (length l)); [|lia].
  eexists. split; [done|split; [|split]].
  - rewrite !length_app, !length_take, !length_drop. lia.
  - intros j Hj. rewrite list_lookup_delete. destruct (decide (j < i)%nat) as [Hi|Hi].
    + rewrite lookup_app_l by (rewrite length_take; lia). by rewrite lookup_take_lt.
    + rewrite lookup_app_r by (rewrite length_take; lia). rewrite length_take, Nat.min_l by lia.
      rewrite lookup_app_l by (rewrite length_take, length_drop; lia).
      rewrite lookup_take_lt, lookup_drop by lia. f_equal. lia.
  - intros P HP. rewrite !Forall_app. repeat split; repeat first [apply Forall_take|apply Forall_drop|done].
Qed.

(** The arrays with a place closed. *)
Lemma slot_removed p es k j ks vs :
  partition_ok p es -> key_place k es = Some j ->
  length ks = MAX_NUM_KV -> length vs = MAX_NUM_KV ->
  Forall (fun k => length (key_buf k) = MAX_KEY_LEN_BYTES) ks ->
  Forall (fun v => length v = MAX_CONFIG_BUFFER_SIZE_BYTES) vs ->
  (forall n, (n < length es - 1)%nat -> ks !! n = delete j (keys p) !! n /\ vs !! n = delete j (values p) !! n) ->
  partition_ok (MkConfigPartition (header_crc32 p) (header_version p) (u8 (numKeys p - 1)) ks vs) (drop_key k es).
Proof.
  intros [] Hj Hk Hv Hkb Hvb Hn. unfold drop_key. rewrite Hj.
  apply place_some in Hj as [i Hj]. pose proof (lookup_lt_Some _ _ _ Hj).
  assert (Hlen : S (length (delete j es)) = length es).
  { pose proof (length_delete es j ltac:(by eexists)). lia. }
  unfold MAX_NUM_KV in *. split; cbn [keys values numKeys]; try done.
  - rewrite po_num0, u8_small by lia. lia.
  - unfold MAX_NUM_KV. lia.
  - rewrite list_fmap_delete. eapply sublist_NoDup; [exact po_nodup0|apply sublist_delete].
  - intros n e He. pose proof (lookup_lt_Some _ _ _ He). destruct (Hn n ltac:(lia)) as [-> ->].
    rewrite (list_lookup_delete es j n) in He. rewrite !list_lookup_delete. eauto.
Qed.

(** ** The operations on one partition *)

Definition info_at (n : Z) (c : configs) : option ConfigInfo := if 0 <=? n then CONFIGS c !! Z.to_nat n else None.
Definition with_info (n : Z) (i : ConfigInfo) (c : configs) : configs :=
  set_CONFIGS (<[Z.to_nat n := i]> (CONFIGS c)) c.

Lemma info_at_with n i i' c : info_at n c = Some i -> info_at n (with_info n i' c) = Some i'.
Proof.
  unfold info_at. destruct (0 <=? n); [|done]. intros E%lookup_lt_Some. by apply list_lookup_insert_eq.
Qed.

Lemma with_info_twice n i i' c : with_info n i (with_info n i' c) = with_info n i c.
Proof. unfold with_info, set_CONFIGS. cbn. by rewrite list_insert_insert_eq. Qed.

Lemma with_info_same n i c : info_at n c = Some i -> with_info n i c = c.
Proof.
  unfold info_at. destruct (0 <=? n); [|done]. intros E. unfold with_info, set_CONFIGS.
  rewrite list_insert_id by done. by destruct c.
Qed.

Lemma get_info_at n i c : info_at n c = Some i -> get_info n c = Some (i, c).
Proof. intros E. unfold get_info. erewrite bind_some by reflexivity. unfold info_at in E. unfold lift. by rewrite E. Qed.

Lemma get_partition_at n i c : info_at n c = Some i -> get_partition n c = Some (ram_buffer i, c).
Proof. intros E. unfold get_partition. by rewrite (bind_some _ _ _ _ _ (get_info_at _ _ _ E)). Qed.

Lemma put_partition_at n i p c :
  info_at n c = Some i -> put_partition n p c = Some (tt, with_info n (MkConfigInfo p (ci_needs_commit i)) c).
Proof. intros E. unfold put_partition. by rewrite (bind_some _ _ _ _ _ (get_info_at _ _ _ E)). Qed.

Lemma set_needs_commit_at n i b c :
  info_at n c = Some i -> set_needs_commit n b c = Some (tt, with_info n (MkConfigInfo (ram_buffer i) b) c).
Proof. intros E. unfold set_needs_commit. by rewrite (bind_some _ _ _ _ _ (get_info_at _ _ _ E)). Qed.

Lemma place_in_arrays p es k :
  partition_ok p es -> (length es < MAX_NUM_KV)%nat ->
  exists kk v, keys p !! place_for k es = Some kk /\ values p !! place_for k es = Some v
    /\ length (key_buf kk) = MAX_KEY_LEN_BYTES /\ length v = MAX_CONFIG_BUFFER_SIZE_BYTES.
Proof.
  intros [] Hlt. pose proof (place_le k es).
  destruct (lookup_lt_is_Some_2 (keys p) (place_for k es)) as [kk Hk]; [lia|].
  destruct (lookup_lt_is_Some_2 (values p) (place_for k es)) as [v Hv]; [lia|].
  exists kk, v. split; [done|split; [done|split]].
  - exact (Forall_lookup_1 _ _ _ _ po_bufs0 Hk).
  - exact (Forall_lookup_1 _ _ _ _ po_vals0 Hv).
Qed.

Lemma key_len_fits k : key_ok k -> (Z.of_nat MAX_KEY_LEN_BYTES <? Z.of_nat (length k)) = false.
Proof. intros [Hk _]. apply Z.ltb_ge. lia. Qed.

Lemma full_spec p es : partition_ok p es -> (Z.of_nat MAX_NUM_KV <=? numKeys p) = bool_decide (length es = MAX_NUM_KV).
Proof.
  intros [_ _ _ _ -> Hm _ _]. destruct (Z.leb_spec (Z.of_nat MAX_NUM_KV) (Z.of_nat (length es)));
    [rewrite bool_decide_eq_true_2|rewrite bool_decide_eq_false_2]; (done || lia).
Qed.

Lemma write_key_spec p es k r t :
  partition_ok p es -> key_ok k -> c_string r = Some t -> (length es < MAX_NUM_KV)%nat ->
  exists kk rest, keys p !! place_for k es = Some kk /\ length (k ++ rest) = MAX_KEY_LEN_BYTES
    /\ write_key p (place_for k es) (k ++ r)
       = Some (set_keys (<[place_for k es := MkConfigKey (k ++ rest) (key_len kk) (value_type kk)]> (keys p)) p).
Proof.
  intros Hp Hk Ht Hlt. destruct (place_in_arrays _ _ k Hp Hlt) as (kk & v & Ek & _ & Hl & _).
  destruct (print_key_spec k r t (key_buf kk) Hk Ht Hl) as (rest & E & Hr).
  exists kk, rest. split; [done|split; [done|]]. unfold write_key. rewrite Ek. cbn [mbind option_bind].
  by rewrite E.
Qed.

Lemma prepare_spec n i es k r c :
  info_at n c = Some i -> partition_ok (ram_buffer i) es -> key_ok k ->
  prepare_cbor_encoder n (Some (k ++ r)) (Z.of_nat (length k)) c
  = if bool_decide (length es = MAX_NUM_KV) then Some (None, c)
    else (fun p => (Some (place_for k es, if key_place k es is Some _ then true else false),
                    with_info n (MkConfigInfo p (ci_needs_commit i)) c))
         <$> write_key (ram_buffer i) (place_for k es) (k ++ r).
Proof.
  intros Hi Hp Hk. unfold prepare_cbor_encoder. rewrite (bind_some _ _ _ _ _ (get_partition_at _ _ _ Hi)).
  rewrite key_len_fits, (full_spec _ _ Hp) by done. case_bool_decide as Hf; [done|].
  rewrite bind_lift, (find_key_spec _ _ _ _ Hp Hk). cbn [mbind option_bind].
  rewrite bind_lift, Nat2Z.id.
  assert (Hv : match key_place k es with Some _ => Some true | None => is_key_valid (k ++ r) (length k) end
    = Some true) by (destruct (key_place k es); [done|by apply key_valid]).
  rewrite Hv. cbn [mbind option_bind]. cbv iota zeta.
  assert (Hj : match key_place k es with Some i0 => i0 | None => Z.to_nat (numKeys (ram_buffer i)) end = place_for k es)
    by (unfold place_for; destruct (key_place k es); [done|cbn; rewrite (po_num _ _ Hp); lia]).
  rewrite Hj, bind_lift. destruct (write_key (ram_buffer i) (place_for k es) (k ++ r)) as [p|]; [|done].
  cbn [mbind option_bind]. by rewrite (bind_some _ _ _ _ _ (put_partition_at _ _ _ _ Hi)).
Qed.

Lemma finish_spec n i kk j ex type len c :
  info_at n c = Some i -> keys (ram_buffer i) !! j = Some kk ->
  let p := ram_buffer i in
  finish_key n j ex type len c
  = Some (tt, with_info n (MkConfigInfo
      (MkConfigPartition (header_crc32 p) (header_version p) (if ex then numKeys p else u8 (numKeys p + 1))
         (<[j := MkConfigKey (key_buf kk) len (config_type_num type)]> (keys p)) (values p)) true) c).
Proof.
  intros Hi Hk p. unfold finish_key. rewrite (bind_some _ _ _ _ _ (get_partition_at _ _ _ Hi)).
  rewrite bind_lift, Hk. cbn [mbind option_bind]. cbv zeta.
  rewrite (bind_some _ _ _ _ _ (put_partition_at _ _ _ _ Hi)).
  rewrite (set_needs_commit_at _ _ _ _ (info_at_with _ _ _ _ Hi)), with_info_twice. by destruct ex.
Qed.

(** The number of keys after a key has been written. *)
Lemma next_num p es k i :
  partition_ok p es -> (length es < MAX_NUM_KV)%nat ->
  (if (if key_place k es is Some _ then true else false) then numKeys p else u8 (numKeys p + 1))
  = Z.of_nat (length (put_item k i es)).
Proof.
  intros Hp Hlt. rewrite put_item_length, (po_num _ _ Hp). unfold MAX_NUM_KV in Hlt.
  destruct (key_place k es); [done|]. rewrite u8_small by lia. lia.
Qed.

(** The key's place in the array has a new type; the others stay. *)
Definition type_written (k : bytes) (es : list entry) (type : ConfigDataTypes) (p p' : ConfigPartition) : Prop :=
  exists buf len, keys p' = <[place_for k es := MkConfigKey buf len (config_type_num type)]> (keys p).

Lemma set_with_spec n i es k r t c encode type item :
  info_at n c = Some i -> partition_ok (ram_buffer i) es -> key_ok k -> c_string r = Some t -> encodes encode item -> item_fits item ->
  exists i', set_config_with encode type n (Some (k ++ r)) (Z.of_nat (length k)) c
    = Some (negb (bool_decide (length es = MAX_NUM_KV)), with_info n i' c)
  /\ if bool_decide (length es = MAX_NUM_KV) then i' = i
     else partition_ok (ram_buffer i') (put_item k item es) /\ ci_needs_commit i' = true
       /\ type_written k es type (ram_buffer i) (ram_buffer i').
Proof.
  intros Hi Hp Hk Ht He Hfit. unfold set_config_with. pose proof (prepare_spec n i es k r c Hi Hp Hk) as Hprep.
  case_bool_decide as Hf.
  { exists i. rewrite (bind_some _ _ _ _ _ Hprep), (with_info_same n i c) by done. done. }
  assert (Hlt : (length es < MAX_NUM_KV)%nat) by (pose proof (po_max _ _ Hp); lia).
  destruct (write_key_spec _ _ k r t Hp Hk Ht Hlt) as (kk & rest & Ek & Hr & Ew).
  destruct (place_in_arrays _ _ k Hp Hlt) as (kk' & v & Ek' & Ev & Hb & Hv).
  rewrite Ek in Ek'. injection Ek' as <-. rewrite Ew in Hprep. cbn [fmap option_fmap option_map] in Hprep.
  rewrite (bind_some _ _ _ _ _ Hprep). cbv iota beta. set (j := place_for k es) in *.
  set (p := ram_buffer i) in *. set (c1 := with_info n _ c).
  pose proof (info_at_with _ _ _ _ Hi : info_at n c1 = _) as H1.
  rewrite (bind_some _ _ _ _ _ (get_partition_at _ _ _ H1)). cbn [ram_buffer set_keys values].
  rewrite bind_lift, Ev. cbn [mbind option_bind]. destruct (He v Hv) as (v' & -> & Hv' & Hs). cbv iota beta.
  rewrite (bind_some _ _ _ _ _ (put_partition_at _ _ _ _ H1)). cbn [ci_needs_commit].
  set (c2 := with_info n _ c1). pose proof (info_at_with _ _ _ _ H1 : info_at n c2 = _) as H2.
  assert (Hj : (j < length (keys p))%nat) by (by eapply lookup_lt_Some).
  erewrite bind_some by (apply (finish_spec _ _ (MkConfigKey (k ++ rest) (key_len kk) (value_type kk)) _ _ _ _ _ H2);
    cbn; by apply list_lookup_insert_eq).
  eexists. split.
  { unfold c2, c1. rewrite !with_info_twice. reflexivity. }
  split; [|split; [done|]]; cbn [ram_buffer set_values set_keys header_crc32 header_version keys values numKeys key_buf];
    rewrite list_insert_insert_eq; [|by do 2 eexists].
  rewrite (next_num p es k item Hp Hlt). apply slot_overwritten; try done; [pose proof (place_le k es); lia|]. split; [done|split; [done|split; [by eexists|done]]].
Qed.

(** The parser on the value of a key. *)
Lemma parser_spec n i es k r c :
  info_at n c = Some i -> partition_ok (ram_buffer i) es -> key_ok k ->
  match snd <$> (key_place k es ≫= (fun j => es !! j)) with
  | None => prepare_cbor_parser n (Some (k ++ r)) (Z.of_nat (length k)) c = Some (None, c)
  | Some item => exists v j, key_place k es = Some j /\ values (ram_buffer i) !! j = Some v /\ shows v item /\ item_fits item
      /\ prepare_cbor_parser n (Some (k ++ r)) (Z.of_nat (length k)) c = Some (cbor_parser_init v, c)
  end.
Proof.
  intros Hi Hp Hk. unfold prepare_cbor_parser. rewrite (bind_some _ _ _ _ _ (get_partition_at _ _ _ Hi)).
  rewrite key_len_fits by done. rewrite bind_lift, (find_key_spec _ _ _ _ Hp Hk).
  destruct (key_place k es) as [j|] eqn:Hj; [|done]. cbn [mbind option_bind].
  pose proof (place_some _ _ _ Hj) as [item E]. rewrite E. cbn.
  destruct (po_slots _ _ Hp _ _ E) as (kk & v & _ & Hv & _ & _ & _ & Hs & Hf).
  exists v, j. rewrite Hv. done.
Qed.

Lemma remove_spec n i es k r c :
  info_at n c = Some i -> partition_ok (ram_buffer i) es -> key_ok k ->
  match key_place k es with
  | None => remove_key n (Some (k ++ r)) (Z.of_nat (length k)) c = Some (false, c)
  | Some _ => exists i', remove_key n (Some (k ++ r)) (Z.of_nat (length k)) c = Some (true, with_info n i' c)
      /\ partition_ok (ram_buffer i') (drop_key k es) /\ ci_needs_commit i' = true
      /\ forall m, (m < length es - 1)%nat ->
           keys (ram_buffer i') !! m = delete (place_for k es) (keys (ram_buffer i)) !! m
  end.
Proof.
  intros Hi Hp Hk. unfold remove_key. rewrite (bind_some _ _ _ _ _ (get_partition_at _ _ _ Hi)).
  rewrite bind_lift, (find_key_spec _ _ _ _ Hp Hk). set (p := ram_buffer i) in *.
  destruct (key_place k es) as [j|] eqn:Hj; [|done]. cbn [mbind option_bind]. cbv zeta.
  pose proof (place_some _ _ _ Hj) as [item E]. apply lookup_lt_Some in E as Hlt.
  pose proof (po_max _ _ Hp) as Hm. pose proof (po_keys _ _ Hp) as Hks. pose proof (po_values _ _ Hp) as Hvs.
  assert (Hmove : exists ks vs,
    (if Z.of_nat j <? numKeys p - 1 then
       ks ← move_up j (Z.to_nat (numKeys p - 1 - Z.of_nat j)) (keys p);
       vs ← move_up j (Z.to_nat (numKeys p - 1 - Z.of_nat j)) (values p);
       Some (set_values vs (set_keys ks p))
     else Some p) = Some (set_values vs (set_keys ks p))
    /\ partition_ok (MkConfigPartition (header_crc32 p) (header_version p) (u8 (numKeys p - 1)) ks vs) (drop_key k es)
    /\ forall m, (m < length es - 1)%nat -> ks !! m = delete j (keys p) !! m).
  { rewrite (po_num _ _ Hp). destruct (Z.ltb_spec (Z.of_nat j) (Z.of_nat (length es) - 1)).
    - destruct (move_up_spec j (Z.to_nat (Z.of_nat (length es) - 1 - Z.of_nat j)) (keys p)) as (ks & Ek & Lk & Gk & Fk); [lia|].
      destruct (move_up_spec j (Z.to_nat (Z.of_nat (length es) - 1 - Z.of_nat j)) (values p)) as (vs & Ev & Lv & Gv & Fv); [lia|].
      exists ks, vs. rewrite Ek, Ev. split; [done|]. split; [|intros m Hmm; apply Gk; lia].
      rewrite <- (po_num _ _ Hp). apply (slot_removed p es k j); try done.
      + lia.
      + lia.
      + apply Fk, (po_bufs _ _ Hp).
      + apply Fv, (po_vals _ _ Hp).
      + intros m Hmm. split; [apply Gk|apply Gv]; lia.
    - assert (Hdel : forall A (l : list A) m, (m < length es - 1)%nat -> l !! m = delete j l !! m)
        by (intros A l m Hmm; rewrite list_lookup_delete; by rewrite decide_True by lia).
      exists (keys p), (values p). split; [by destruct p|]. split; [|by apply Hdel]. rewrite <- (po_num _ _ Hp).
      apply (slot_removed p es k j); try done; [apply (po_bufs _ _ Hp)|apply (po_vals _ _ Hp)|].
      intros m Hmm. split; by apply Hdel. }
  destruct Hmove as (ks & vs & Em & Hok & Hkeys). rewrite bind_lift, Em. cbn [mbind option_bind].
  rewrite (bind_some _ _ _ _ _ (put_partition_at _ _ _ _ Hi)).
  rewrite (bind_some _ _ _ _ _ (set_needs_commit_at _ _ _ _ (info_at_with _ _ _ _ Hi))), with_info_twice.
  eexists. split; [done|]. split; [done|]. split; [done|]. unfold place_for. by rewrite Hj.
Qed.

(** The keys that are listed. *)
Lemma keys_spec p es :
  partition_ok p es -> (fun k => take (Z.to_nat (key_len k)) (key_buf k)) <$> take (Z.to_nat (numKeys p)) (keys p) = fst <$> es.
Proof.
  intros Hp. rewrite (po_num _ _ Hp), Nat2Z.id. apply list_eq. intros n.
  rewrite !list_lookup_fmap. destruct (decide (n < length es)%nat) as [Hn|Hn].
  - rewrite lookup_take_lt by done. apply lookup_lt_is_Some_2 in Hn as [e He].
    destruct (po_slots _ _ Hp _ _ He) as (kk & v & -> & _ & _ & Hl & (rest & Hb) & _).
    rewrite He. cbn. by rewrite Hl, Hb, Nat2Z.id, take_app_length.
  - rewrite lookup_take_ge by lia. by rewrite (proj2 (lookup_ge_None es n)) by lia.
Qed.

Lemma zero_ok v n : n = 0 -> partition_ok (set_header 0 v n zero_partition) [].
Proof.
  intros ->. split; cbn [keys values numKeys set_header zero_partition]; try done.
  - by apply Forall_replicate.
  - by apply Forall_replicate.
  - unfold MAX_NUM_KV. cbn. lia.
  - apply NoDup_nil_2.
Qed.
End store.

(** ** Sequences of operations *)

Inductive setting : Type :=
  | SetUint (z : Z) | SetInt (z : Z) | SetFloat (f : Z) | SetText (s : bytes) | SetBytes (s : bytes).
Inductive getter : Type := GetUint | GetInt | GetFloat | GetText | GetBytes.

(** Operations on a partition; keys have their terminator. *)
Inductive cfg_op : Type :=
  | CfgSet (n : Z) (k : bytes) (s : setting)
  | CfgGet (n : Z) (k : bytes) (g : getter)
  | CfgRemove (n : Z) (k : bytes)
  | CfgKeys (n : Z)
  | CfgClear (n : Z)
  | CfgDirty (n : Z).

Inductive cfg_out : Type :=
  | OutBool (b : bool)
  | OutNum (z : option Z)
  | OutBytes (s : option bytes)
  | OutKeys (l : list bytes).

Definition setting_item (s : setting) : cbor_item :=
  match s with
  | SetUint z | SetInt z => CborInt z
  | SetFloat f => CborFloat f
  | SetText s => CborText s
  | SetBytes s => CborBytes s
  end.

Definition setting_type (s : setting) : ConfigDataTypes :=
  match s with SetUint _ => UINT32 | SetInt _ => INT32 | SetFloat _ => FLOAT | SetText _ => STR | SetBytes _ => BYTES end.

Definition setting_ok (s : setting) : Prop :=
  match s with
  | SetUint z => 0 <= z < 2 ^ 32
  | SetInt z => - 2 ^ 31 <= z < 2 ^ 31
  | SetFloat f => 0 <= f < 2 ^ 32
  | SetText s | SetBytes s => bytes_ok s /\ (length s <= 48)%nat
  end.

(** What a getter makes of the value of a key. *)
Definition get_item (g : getter) (i : option cbor_item) : cfg_out :=
  match g, i with
  | GetUint, Some (CborInt z) => OutNum (if 0 <=? z then Some (u32 z) else None)
  | GetInt, Some (CborInt z) => OutNum (Some (s32 z))
  | GetFloat, Some (CborFloat f) => OutNum (Some f)
  | GetText, Some (CborText s) | GetBytes, Some (CborBytes s) => OutBytes (Some s)
  | (GetUint | GetInt | GetFloat), _ => OutNum None
  | _, _ => OutBytes None
  end.

Definition item_at (k : bytes) (es : list entry) : option cbor_item := snd <$> (key_place k es ≫= (fun j => es !! j)).

(** ** Laws of the lists *)

Lemma item_at_cons k e es : item_at k (e :: es) = if bool_decide (fst e = k) then Some (snd e) else item_at k es.
Proof. unfold item_at. cbn. case_bool_decide; [done|]. by destruct (key_place k es). Qed.

Lemma put_item_cons k i e es :
  put_item k i (e :: es) = if bool_decide (fst e = k) then (k, i) :: es else e :: put_item k i es.
Proof. unfold put_item. cbn. case_bool_decide; [done|]. by destruct (key_place k es). Qed.

Lemma drop_key_cons k e es : drop_key k (e :: es) = if bool_decide (fst e = k) then es else e :: drop_key k es.
Proof. unfold drop_key. cbn. case_bool_decide; [done|]. by destruct (key_place k es). Qed.

Lemma item_at_nodup es j e : NoDup (fst <$> es) -> es !! j = Some e -> item_at (fst e) es = Some (snd e).
Proof.
  revert j. induction es as [|e' es IH]; intros j Hn Hj; [done|]. rewrite item_at_cons.
  cbn in Hn. apply NoDup_cons in Hn as [Hn Hd]. destruct j as [|j].
  - injection Hj as <-. by rewrite bool_decide_eq_true_2.
  - rewrite bool_decide_eq_false_2; [by eapply IH|]. intros E. apply Hn. rewrite E.
    apply list_elem_of_fmap_2. by eapply list_elem_of_lookup_2.
Qed.

(** A key that is set has the value, and no other key changes. *)
Lemma item_at_put k k' i es : item_at k' (put_item k i es) = if bool_decide (k = k') then Some i else item_at k' es.
Proof.
  induction es as [|e es IH].
  - unfold put_item. cbn [key_place app]. rewrite item_at_cons. cbn. by case_bool_decide.
  - rewrite put_item_cons. destruct (decide (fst e = k)) as [<-|Hne].
    + rewrite bool_decide_eq_true_2, !item_at_cons by done. cbn. by case_bool_decide.
    + rewrite bool_decide_eq_false_2, !item_at_cons, IH by done.
      repeat case_bool_decide; congruence || done.
Qed.

(** A key that is removed has none, and no other key changes. *)
Lemma item_at_drop k k' es :
  NoDup (fst <$> es) -> item_at k' (drop_key k es) = if bool_decide (k = k') then None else item_at k' es.
Proof.
  induction es as [|e es IH]; intros Hn.
  - cbn. by case_bool_decide.
  - rewrite drop_key_cons. cbn in Hn. apply NoDup_cons in Hn as [Hni Hn]. destruct (decide (fst e = k)) as [<-|Hne].
    + rewrite bool_decide_eq_true_2 by done. case_bool_decide as E; [|by rewrite item_at_cons, bool_decide_eq_false_2].
      subst k'. unfold item_at. destruct (key_place (fst e) es) eqn:E; [|done]. exfalso. apply Hni.
      apply place_some in E as [i E]. apply list_elem_of_lookup. exists n. by rewrite list_lookup_fmap, E.
    + rewrite bool_decide_eq_false_2, !item_at_cons, IH by done. repeat case_bool_decide; congruence || done.
Qed.

Section runs.
Context `{CborApi}.

Definition c_key (k : bytes) : option bytes := Some (k ++ [0]).

Definition run_setting (n : Z) (k : bytes) (s : setting) : M configs bool :=
  let len := Z.of_nat (length k) in
  match s with
  | SetUint z => set_config_uint n (c_key k) len z
  | SetInt z => set_config_int n (c_key k) len z
  | SetFloat f => set_config_float n (c_key k) len f
  | SetText s => set_config_string n (c_key k) len s (Z.of_nat (length s))
  | SetBytes s => set_config_buffer n (c_key k) len s (Z.of_nat (length s))
  end.

(** Strings are got with a buffer of fifty bytes. *)
Definition run_getter (n : Z) (k : bytes) (g : getter) : M configs cfg_out :=
  let len := Z.of_nat (length k) in
  let buf := Some (replicate 50 0) in
  let out (r : bool * bytes * Z) :=
    let '(ok, b, l) := r in OutBytes (if ok : bool then Some (take (Z.to_nat l) b) else None) in
  match g with
  | GetUint => v ← get_config_uint n (c_key k) len; mret (OutNum v)
  | GetInt => v ← get_config_int n (c_key k) len; mret (OutNum v)
  | GetFloat => v ← get_config_float n (c_key k) len; mret (OutNum v)
  | GetText => r ← get_config_string n (c_key k) len buf 50; mret (out r)
  | GetBytes => r ← get_config_buffer n (c_key k) len buf 50; mret (out r)
  end.

Definition cfg_step (o : cfg_op) : M configs cfg_out :=
  match o with
  | CfgSet n k s => b ← run_setting n k s; mret (OutBool b)
  | CfgGet n k g => run_getter n k g
  | CfgRemove n k => b ← remove_key n (c_key k) (Z.of_nat (length k)); mret (OutBool b)
  | CfgKeys n =>
      '(ks, num) ← get_stored_keys n;
      mret (OutKeys ((fun k => take (Z.to_nat (key_len k)) (key_buf k)) <$> take (Z.to_nat num) ks))
  | CfgClear n => b ← clear_partition n; mret (OutBool b)
  | CfgDirty n => b ← needs_commit n; mret (OutBool b)
  end.

Fixpoint cfg_run (ops : list cfg_op) : M configs (list cfg_out) :=
  match ops with
  | [] => mret []
  | o :: ops => out ← cfg_step o; outs ← cfg_run ops; mret (out :: outs)
  end.
End runs.

(** The specification: for each partition the list, and whether it has been changed. *)
Abbreviation stores := (list (list entry * bool)).
(** The same with the settings themselves: the keys in the order in which they came, each
    with the setting that it was given last. *)
Abbreviation typed_stores := (list (list (bytes * setting) * bool)).

Definition cfg_spec (o : cfg_op) (ss : stores) : cfg_out * stores :=
  match o with
  | CfgSet n k s =>
      match ss !! Z.to_nat n with
      | Some (es, _) =>
          if bool_decide (length es = MAX_NUM_KV) then (OutBool false, ss)
          else (OutBool true, <[Z.to_nat n := (put_item k (setting_item s) es, true)]> ss)
      | None => (OutBool false, ss)
      end
  | CfgGet n k g => (get_item g (ss !! Z.to_nat n ≫= (fun x : list entry * bool => item_at k (fst x))), ss)
  | CfgRemove n k =>
      match ss !! Z.to_nat n with
      | Some (es, _) =>
          if key_place k es is Some _ then (OutBool true, <[Z.to_nat n := (drop_key k es, true)]> ss)
          else (OutBool false, ss)
      | None => (OutBool false, ss)
      end
  | CfgKeys n => (OutKeys (default [] ((fun x : list entry * bool => fst <$> fst x) <$> ss !! Z.to_nat n)), ss)
  | CfgClear n =>
      if n <? BM_CFG_PARTITION_COUNT then (OutBool true, <[Z.to_nat n := ([], true)]> ss) else (OutBool false, ss)
  | CfgDirty n =>
      (OutBool (if n <? BM_CFG_PARTITION_COUNT then default false (snd <$> ss !! Z.to_nat n) else false), ss)
  end.

Fixpoint cfg_spec_run (ops : list cfg_op) (ss : stores) : list cfg_out * stores :=
  match ops with
  | [] => ([], ss)
  | o :: ops => let '(out, ss) := cfg_spec o ss in let '(outs, ss) := cfg_spec_run ops ss in (out :: outs, ss)
  end.

Definition cfg_op_ok (o : cfg_op) : Prop :=
  match o with
  | CfgSet n k s => 0 <= n < BM_CFG_PARTITION_COUNT /\ key_ok k /\ setting_ok s
  | CfgGet n k _ | CfgRemove n k => 0 <= n < BM_CFG_PARTITION_COUNT /\ key_ok k
  | CfgKeys n => 0 <= n < BM_CFG_PARTITION_COUNT
  | CfgClear n | CfgDirty n => 0 <= n
  end.

(** ** The store does what the lists say *)

Section refinement.
Context `{CborApi} `{!CborLaws}.

Definition info_ok (i : ConfigInfo) (x : list entry * bool) : Prop :=
  partition_ok (ram_buffer i) (fst x) /\ ci_needs_commit i = snd x.

Definition store_holds (c : configs) (ss : stores) : Prop := Forall2 info_ok (CONFIGS c) ss /\ length ss = 3%nat.

Lemma holds_at c ss n :
  store_holds c ss -> 0 <= n < BM_CFG_PARTITION_COUNT ->
  exists i es d, info_at n c = Some i /\ ss !! Z.to_nat n = Some (es, d)
    /\ partition_ok (ram_buffer i) es /\ ci_needs_commit i = d.
Proof.
  intros [Hf Hl] Hn. destruct (lookup_lt_is_Some_2 ss (Z.to_nat n)) as [[es d] Hs].
  { unfold BM_CFG_PARTITION_COUNT in Hn. lia. }
  destruct (Forall2_lookup_r _ _ _ _ _ Hf Hs) as (i & Hi & Hp & Hd).
  exists i, es, d. unfold info_at. destruct (Z.leb_spec 0 n); [done|lia].
Qed.

Lemma holds_with c ss n i es d :
  store_holds c ss -> partition_ok (ram_buffer i) es -> ci_needs_commit i = d ->
  store_holds (with_info n i c) (<[Z.to_nat n := (es, d)]> ss).
Proof. intros [Hf Hl] Hp Hd. split; [|by rewrite length_insert]. by apply Forall2_insert. Qed.

Lemma run_setting_spec n k s c i es :
  info_at n c = Some i -> partition_ok (ram_buffer i) es -> key_ok k -> setting_ok s ->
  exists i', run_setting n k s c = Some (negb (bool_decide (length es = MAX_NUM_KV)), with_info n i' c)
  /\ if bool_decide (length es = MAX_NUM_KV) then i' = i
     else partition_ok (ram_buffer i') (put_item k (setting_item s) es) /\ ci_needs_commit i' = true
       /\ type_written k es (setting_type s) (ram_buffer i) (ram_buffer i').
Proof.
  intros Hi Hp Hk Hs. pose proof (set_with_spec n i es k [0] [] c) as Hset.
  assert (Hread : forall l : bytes, read_at 0 (Z.to_nat (Z.of_nat (length l))) l = Some l)
    by (intros l; rewrite Nat2Z.id; apply read_at_all).
  destruct s; cbn in Hs; cbn [run_setting setting_item];
    unfold set_config_uint, set_config_int, set_config_float, set_config_string, set_config_buffer;
    try (rewrite bind_lift, Hread; cbn [mbind option_bind]);
    apply Hset; try done; try (cbn; unfold MAX_CONFIG_BUFFER_SIZE_BYTES; lia); first [by apply cbor_uint|by apply cbor_int|by apply cbor_float|by apply cbor_text
      |by apply cbor_bytes|destruct Hs; by apply cbor_text|destruct Hs; by apply cbor_bytes].
Qed.

Lemma copied copy s (n : nat) :
  copies copy s -> (length s <= n)%nat ->
  (let '(ok, b, l) := copy (replicate n 0) (Z.of_nat n) in
   OutBytes (if ok : bool then Some (take (Z.to_nat l) b) else None)) = OutBytes (Some s).
Proof.
  intros Hc Hs. destruct (Hc (replicate n 0)) as (b & E & Ht & _); [by rewrite length_replicate|].
  rewrite length_replicate in E. rewrite E. by rewrite Nat2Z.id, Ht.
Qed.

Lemma run_getter_spec n k g c i es :
  info_at n c = Some i -> partition_ok (ram_buffer i) es -> key_ok k ->
  run_getter n k g c = Some (get_item g (item_at k es), c).
Proof.
  intros Hi Hp Hk. pose proof (parser_spec n i es k [0] c Hi Hp Hk) as Hpar. fold (item_at k es) in Hpar.
  assert (Hg : forall (A B : Type) (f : CborValue -> option A) (out : option A -> B) o,
    prepare_cbor_parser n (c_key k) (Z.of_nat (length k)) c = Some (o, c) ->
    (v ← get_config_with f n (c_key k) (Z.of_nat (length k)); mret (out v)) c = Some (out (o ≫= f), c)).
  { intros A B f out o E. unfold get_config_with, c_key in *. cbv iota.
    rewrite (bind_some _ _ _ _ _ (bind_some _ _ _ _ _ E)). done. }
  assert (Hb : forall is_type copy (out : bool * bytes * Z -> cfg_out) o,
    prepare_cbor_parser n (c_key k) (Z.of_nat (length k)) c = Some (o, c) ->
    (r ← get_config_bytes is_type copy n (c_key k) (Z.of_nat (length k)) (Some (replicate 50 0)) 50; mret (out r)) c
    = Some (out (match o with
                 | Some it => if is_type it then copy it (replicate 50 0) 50 else (false, replicate 50 0, 50)
                 | None => (false, replicate 50 0, 50) end), c)).
  { intros is_type copy out o E. unfold get_config_bytes, c_key in *. cbv iota.
    rewrite (bind_some _ _ _ _ _ (bind_some _ _ _ _ _ E)). done. }
  destruct (item_at k es) as [item|].
  2: { destruct g; cbn [run_getter get_item]; unfold get_config_uint, get_config_int, get_config_float,
         get_config_string, get_config_buffer; rewrite ?(Hg _ _ _ _ _ Hpar), ?(Hb _ _ _ _ Hpar); done. }
  destruct Hpar as (v & j & _ & _ & (cv & Ep & _ & Hu & Hint & Hf & Ht & Hby & _ & Hr) & Hfit & Hpar).
  rewrite Ep in Hpar.
  destruct g; cbn [run_getter]; unfold get_config_uint, get_config_int, get_config_float, get_config_string,
    get_config_buffer; rewrite ?(Hg _ _ _ _ _ Hpar), ?(Hb _ _ _ _ Hpar); cbn [mbind option_bind];
    rewrite ?Hu, ?Hint, ?Hf, ?Ht, ?Hby; destruct item; cbn in Hr, Hfit |- *; try done.
  - destruct (Z.leb_spec 0 z); [|done]. by rewrite (proj1 Hr).
  - by rewrite (proj2 Hr).
  - by rewrite Hr.
  - f_equal. f_equal. exact (copied _ _ 50 Hr Hfit).
  - f_equal. f_equal. exact (copied _ _ 50 Hr Hfit).
Qed.

Lemma cfg_step_refined o c ss :
  store_holds c ss -> cfg_op_ok o ->
  exists c', cfg_step o c = Some (fst (cfg_spec o ss), c') /\ store_holds c' (snd (cfg_spec o ss)).
Proof.
  intros Hc Ho. destruct o as [n k s|n k g|n k|n|n|n]; cbn [cfg_op_ok] in Ho.
  - destruct Ho as (Hn & Hk & Hs). destruct (holds_at _ _ _ Hc Hn) as (i & es & d & Hi & Hss & Hp & Hd).
    destruct (run_setting_spec n k s c i es Hi Hp Hk Hs) as (i' & E & Hi').
    exists (with_info n i' c). cbn [cfg_step cfg_spec]. rewrite (bind_some _ _ _ _ _ E), Hss.
    case_bool_decide; cbn [negb fst snd]; (split; [done|]).
    + subst i'. by rewrite with_info_same.
    + destruct Hi' as (? & ? & _). by apply holds_with.
  - destruct Ho as (Hn & Hk). destruct (holds_at _ _ _ Hc Hn) as (i & es & d & Hi & Hss & Hp & Hd).
    exists c. cbn [cfg_step cfg_spec fst snd]. rewrite (run_getter_spec _ _ _ _ _ _ Hi Hp Hk), Hss. done.
  - destruct Ho as (Hn & Hk). destruct (holds_at _ _ _ Hc Hn) as (i & es & d & Hi & Hss & Hp & Hd).
    pose proof (remove_spec n i es k [0] c Hi Hp Hk) as Hr. cbn [cfg_step cfg_spec]. rewrite Hss.
    destruct (key_place k es).
    + destruct Hr as (i' & E & Hp' & Hd' & _). exists (with_info n i' c). rewrite (bind_some _ _ _ _ _ E).
      split; [done|]. by apply holds_with.
    + exists c. by rewrite (bind_some _ _ _ _ _ Hr).
  - destruct (holds_at _ _ _ Hc Ho) as (i & es & d & Hi & Hss & Hp & Hd).
    exists c. cbn [cfg_step cfg_spec fst snd]. rewrite Hss. cbn [fmap option_fmap option_map default].
    unfold get_stored_keys. rewrite (bind_some _ _ _ _ _ (bind_some _ _ _ _ _ (get_partition_at _ _ _ Hi))).
    cbn [fst]. by rewrite (keys_spec _ _ Hp).
  - cbn [cfg_step cfg_spec]. unfold clear_partition.
    destruct (Z.leb_spec 0 n); [|lia]. cbn [andb]. destruct (Z.ltb_spec n BM_CFG_PARTITION_COUNT); [|by exists c].
    destruct (holds_at _ _ n Hc ltac:(lia)) as (i & es & d & Hi & Hss & Hp & Hd).
    eexists. split.
    { erewrite bind_some; [reflexivity|]. rewrite (bind_some _ _ _ _ _ (put_partition_at _ _ _ _ Hi)).
      by rewrite (bind_some _ _ _ _ _ (set_needs_commit_at _ _ _ _ (info_at_with _ _ _ _ Hi))). }
    rewrite with_info_twice. apply holds_with; [done|by apply zero_ok|done].
  - exists c. cbn [cfg_step cfg_spec fst snd]. unfold needs_commit.
    destruct (Z.leb_spec 0 n); [|lia]. cbn [andb]. destruct (Z.ltb_spec n BM_CFG_PARTITION_COUNT); [|done].
    destruct (holds_at _ _ n Hc ltac:(lia)) as (i & es & d & Hi & Hss & Hp & Hd).
    rewrite (bind_some _ _ _ _ _ (bind_some _ _ _ _ _ (get_info_at _ _ _ Hi))), Hss. by subst.
Qed.

(** *** Settings with their types *)

Fixpoint find_setting (k : bytes) (xs : list (bytes * setting)) : option setting :=
  match xs with
  | [] => None
  | x :: xs => if decide (fst x = k) then Some (snd x) else find_setting k xs
  end.

Fixpoint put_setting (k : bytes) (s : setting) (xs : list (bytes * setting)) : list (bytes * setting) :=
  match xs with
  | [] => [(k, s)]
  | x :: xs => if decide (fst x = k) then (k, s) :: xs else x :: put_setting k s xs
  end.

Definition drop_setting (k : bytes) (xs : list (bytes * setting)) : list (bytes * setting) :=
  filter (fun x => fst x <> k) xs.

(** A getter gives the value of a setting of its own type only. *)
Definition get_setting (g : getter) (s : option setting) : cfg_out :=
  match g, s with
  | GetUint, Some (SetUint z) | GetInt, Some (SetInt z) | GetFloat, Some (SetFloat z) => OutNum (Some z)
  | GetText, Some (SetText s) | GetBytes, Some (SetBytes s) => OutBytes (Some s)
  | (GetUint | GetInt | GetFloat), _ => OutNum None
  | (GetText | GetBytes), _ => OutBytes None
  end.

Definition set_spec (o : cfg_op) (ss : typed_stores) : cfg_out * typed_stores :=
  match o with
  | CfgSet n k s =>
      match ss !! Z.to_nat n with
      | Some (xs, _) =>
          if decide (k ∉ xs.*1 /\ length xs = MAX_NUM_KV) then (OutBool false, ss)
          else (OutBool true, <[Z.to_nat n := (put_setting k s xs, true)]> ss)
      | None => (OutBool false, ss)
      end
  | CfgGet n k g =>
      (get_setting g (ss !! Z.to_nat n ≫= (fun x : list (bytes * setting) * bool => find_setting k (fst x))), ss)
  | CfgRemove n k =>
      match ss !! Z.to_nat n with
      | Some (xs, _) =>
          if decide (k ∈ xs.*1) then (OutBool true, <[Z.to_nat n := (drop_setting k xs, true)]> ss)
          else (OutBool false, ss)
      | None => (OutBool false, ss)
      end
  | CfgKeys n =>
      (OutKeys (default [] ((fun x : list (bytes * setting) * bool => (fst x).*1) <$> ss !! Z.to_nat n)), ss)
  | CfgClear n =>
      if n <? BM_CFG_PARTITION_COUNT then (OutBool true, <[Z.to_nat n := ([], true)]> ss) else (OutBool false, ss)
  | CfgDirty n =>
      (OutBool (if n <? BM_CFG_PARTITION_COUNT then default false (snd <$> ss !! Z.to_nat n) else false), ss)
  end.

Fixpoint set_run (ops : list cfg_op) (ss : typed_stores) : list cfg_out * typed_stores :=
  match ops with
  | [] => ([], ss)
  | o :: ops => let '(out, ss) := set_spec o ss in let '(outs, ss) := set_run ops ss in (out :: outs, ss)
  end.

(** The cases in which the code does something else: the getter of one of the integer
    types on a setting of the other one, and a change of a setting in a full partition. *)
Definition op_fits (o : cfg_op) (ss : typed_stores) : Prop :=
  match o with
  | CfgSet n k _ =>
      forall xs d, ss !! Z.to_nat n = Some (xs, d) -> k ∈ xs.*1 -> length xs <> MAX_NUM_KV
  | CfgGet n k g =>
      forall xs d s, ss !! Z.to_nat n = Some (xs, d) -> find_setting k xs = Some s ->
        match s, g with SetUint _, GetInt | SetInt _, GetUint => False | _, _ => True end
  | _ => True
  end.

Fixpoint run_fits (ops : list cfg_op) (ss : typed_stores) : Prop :=
  match ops with
  | [] => True
  | o :: ops => op_fits o ss /\ run_fits ops (snd (set_spec o ss))
  end.

(** What the settings of the store are. *)
Definition setting_range (s : setting) : Prop :=
  match s with
  | SetUint z => 0 <= z < 2 ^ 32
  | SetInt z => - 2 ^ 31 <= z < 2 ^ 31
  | SetFloat f => 0 <= f < 2 ^ 32
  | SetText s | SetBytes s => (length s < 50)%nat
  end.

Definition setting_entry (x : bytes * setting) : entry := (fst x, setting_item (snd x)).
Definition items (ss : typed_stores) : stores :=
  (fun x : list (bytes * setting) * bool => (setting_entry <$> fst x, snd x)) <$> ss.

Definition store_keeps (c : configs) (ss : typed_stores) : Prop :=
  store_holds c (items ss) /\ Forall (fun x : list (bytes * setting) * bool => Forall (fun y => setting_range (snd y)) (fst x)) ss.

Lemma place_setting k xs : key_place k (setting_entry <$> xs) = None <-> k ∉ xs.*1.
Proof.
  induction xs as [|x xs IH]; cbn; [split; [intros _; apply not_elem_of_nil|done]|].
  rewrite not_elem_of_cons. case_bool_decide as Hx; [split; [done|naive_solver]|].
  destruct (key_place k _); cbn; naive_solver.
Qed.

Lemma item_at_setting k xs : item_at k (setting_entry <$> xs) = setting_item <$> find_setting k xs.
Proof.
  induction xs as [|x xs IH]; [done|]. rewrite fmap_cons, item_at_cons. cbn [find_setting fst setting_entry].
  by case_bool_decide; case_decide.
Qed.

Lemma put_item_setting k s xs :
  put_item k (setting_item s) (setting_entry <$> xs) = setting_entry <$> put_setting k s xs.
Proof.
  induction xs as [|x xs IH]; [done|]. rewrite fmap_cons, put_item_cons. cbn [put_setting fst setting_entry].
  case_bool_decide; case_decide; try done. by rewrite IH.
Qed.

Lemma drop_other k (xs : list (bytes * setting)) : k ∉ xs.*1 -> drop_setting k xs = xs.
Proof.
  unfold drop_setting. induction xs as [|x xs IH]; [done|]. rewrite fmap_cons, not_elem_of_cons.
  intros [Hx Hxs]. rewrite filter_cons_True by congruence. by rewrite IH.
Qed.

Lemma drop_key_setting k xs :
  NoDup xs.*1 -> drop_key k (setting_entry <$> xs) = setting_entry <$> drop_setting k xs.
Proof.
  induction xs as [|x xs IH]; [done|]. rewrite fmap_cons. intros [Hx Hd]%NoDup_cons.
  rewrite fmap_cons, drop_key_cons. cbn [fst setting_entry]. unfold drop_setting.
  case_bool_decide as E.
  - subst k. rewrite filter_cons_False by tauto. fold (drop_setting (fst x) xs). by rewrite drop_other.
  - rewrite filter_cons_True by done. fold (drop_setting k xs). by rewrite IH.
Qed.

Lemma setting_keys xs : fst <$> (setting_entry <$> xs) = xs.*1.
Proof. rewrite <- list_fmap_compose. by apply list_fmap_ext. Qed.

Lemma find_setting_ok k xs s :
  Forall (fun y : bytes * setting => setting_range (snd y)) xs -> find_setting k xs = Some s -> setting_range s.
Proof. induction 1; cbn; [done|]. case_decide; [|done]. by intros [= <-]. Qed.

Lemma setting_ok_range s : setting_ok s -> setting_range s.
Proof. destruct s; cbn; try lia; intros [_ ?]; lia. Qed.

Lemma put_setting_ok k s xs :
  setting_range s -> Forall (fun y : bytes * setting => setting_range (snd y)) xs ->
  Forall (fun y : bytes * setting => setting_range (snd y)) (put_setting k s xs).
Proof. intros Hs. induction 1; cbn; [by constructor|]. case_decide; by constructor. Qed.

(** The getters on settings of the right range. *)
Lemma get_item_setting g s :
  (forall z, s = Some z -> setting_range z) ->
  (forall z, s = Some z -> match z, g with SetUint _, GetInt | SetInt _, GetUint => False | _, _ => True end) ->
  get_item g (setting_item <$> s) = get_setting g s.
Proof.
  intros Hok Hf. destruct s as [s|]; [|by destruct g]. specialize (Hok _ eq_refl). specialize (Hf _ eq_refl).
  destruct s, g; cbn in *; try done.
  - destruct (Z.leb_spec 0 z); [|lia]. by rewrite u32_small.
  - unfold s32. rewrite Z.mod_small by lia. do 2 f_equal. lia.
Qed.

Lemma items_lookup ss n :
  items ss !! n
  = (fun x : list (bytes * setting) * bool => (setting_entry <$> fst x, snd x)) <$> ss !! n.
Proof. apply list_lookup_fmap. Qed.

(** The two specifications say the same on the runs that fit. *)
Lemma set_spec_items o c ss :
  store_keeps c ss -> cfg_op_ok o -> op_fits o ss ->
  cfg_spec o (items ss) = (fst (set_spec o ss), items (snd (set_spec o ss)))
  /\ Forall (fun x : list (bytes * setting) * bool => Forall (fun y => setting_range (snd y)) (fst x)) (snd (set_spec o ss)).
Proof.
  intros [Hc Hok] Ho Hf.
  assert (Hat : forall n xs d, 0 <= n < BM_CFG_PARTITION_COUNT -> ss !! Z.to_nat n = Some (xs, d) ->
    NoDup xs.*1 /\ Forall (fun y : bytes * setting => setting_range (snd y)) xs).
  { intros n xs d Hn E. destruct (holds_at _ _ _ Hc Hn) as (i & es & d' & _ & Es & Hp & _).
    rewrite items_lookup, E in Es. injection Es as <- <-. split; [|exact (Forall_lookup_1 _ _ _ _ Hok E)].
    pose proof (po_nodup _ _ Hp) as Hnd. by rewrite setting_keys in Hnd. }
  assert (Hset : forall n xs d', Forall (fun y : bytes * setting => setting_range (snd y)) xs ->
    Forall (fun x : list (bytes * setting) * bool => Forall (fun y => setting_range (snd y)) (fst x)) (<[Z.to_nat n := (xs, d')]> ss))
    by (intros; by apply Forall_insert).
  assert (Hins : forall n xs d', <[Z.to_nat n := (setting_entry <$> xs, d')]> (items ss)
    = items (<[Z.to_nat n := (xs, d')]> ss)) by (intros; unfold items; by rewrite list_fmap_insert).
  destruct o as [n k s|n k g|n k|n|n|n]; cbn [cfg_spec set_spec cfg_op_ok op_fits] in *; rewrite ?items_lookup.
  - destruct Ho as (Hn & _ & Hs). destruct (ss !! Z.to_nat n) as [[xs d]|] eqn:E; [|done].
    cbn [fmap option_fmap option_map fst snd]. destruct (Hat n xs d Hn E) as [Hnd Hxs].
    rewrite length_fmap. specialize (Hf xs d eq_refl). destruct (decide (length xs = MAX_NUM_KV)) as [Hl|Hl].
    + rewrite bool_decide_eq_true_2, decide_True by tauto. done.
    + rewrite bool_decide_eq_false_2, decide_False by tauto.
      rewrite put_item_setting. cbn [fst snd]. split; [by rewrite Hins|]. by apply Hset, put_setting_ok; [apply setting_ok_range|].
  - destruct Ho as (Hn & _). split; [|done]. cbn [fst snd]. f_equal.
    destruct (ss !! Z.to_nat n) as [[xs d]|] eqn:E; cbn [fmap option_fmap option_map mbind option_bind fst snd];
      [|by destruct g]. destruct (Hat n xs d Hn E) as [Hnd Hxs]. rewrite item_at_setting.
    apply get_item_setting; intros z Hz; [by eapply find_setting_ok|by eapply Hf].
  - destruct Ho as (Hn & _). destruct (ss !! Z.to_nat n) as [[xs d]|] eqn:E; [|done].
    cbn [fmap option_fmap option_map fst snd]. destruct (Hat n xs d Hn E) as [Hnd Hxs].
    pose proof (place_setting k xs) as Hpl. destruct (key_place k (setting_entry <$> xs)) eqn:Ep;
      case_decide as Hk; try (by apply Hpl in Hk); try (by destruct Hk; apply Hpl).
    rewrite drop_key_setting by done. split; [by rewrite Hins|]. apply Hset, Forall_forall.
    intros y [_ Hy]%list_elem_of_filter. rewrite Forall_forall in Hxs. auto.
  - split; [|done]. cbn [fst snd]. do 2 f_equal. destruct (ss !! Z.to_nat n) as [[xs d]|]; [|done].
    cbn. by rewrite setting_keys.
  - destruct (n <? BM_CFG_PARTITION_COUNT); [|done]. cbn [fst snd].
    split; [by rewrite <- (Hins n [] true)|]. by apply Hset.
  - split; [|done]. cbn [fst snd]. do 2 f_equal. by destruct (ss !! Z.to_nat n) as [[]|].
Qed.

(** C14: the store is a list of keys with typed settings.  From any state that holds such
    lists, a sequence of operations on the three partitions answers as on the lists: a
    setting is got back as it was set, and only by the getter of its own type; a key
    that is set again keeps its place and takes the new value and type, and no other key
    changes; a key that is removed is gone and the others stay in order; the keys are
    listed in order; a partition with fifty keys takes no new one; and the arrays are not
    left.  The keys have up to thirty-one of the characters of a key, and the strings
    and buffers that are set have up to forty-eight bytes.  Two kinds of calls are left
    out, in which the code does something else: a getter of one integer type on a setting
    of the other one ([other_integer_getter]), and a new value for a key of a partition
    with fifty keys ([full_store_refuses_changes]). *)
Theorem config_store_refines c ss ops :
  store_keeps c ss -> Forall cfg_op_ok ops -> run_fits ops ss ->
  exists c', cfg_run ops c = Some (fst (set_run ops ss), c') /\ store_keeps c' (snd (set_run ops ss)).
Proof.
  intros Hc Ho. revert c ss Hc. induction Ho as [|o ops Ho _ IH]; intros c ss Hc Hf; cbn; [by exists c|].
  destruct Hf as [Hf Hfs]. destruct (set_spec_items o c ss Hc Ho Hf) as [Es Hok].
  destruct (cfg_step_refined o c (items ss) (proj1 Hc) Ho) as (c1 & E & Hc1). rewrite Es in E, Hc1.
  rewrite (bind_some _ _ _ _ _ E). destruct (IH c1 _ (conj Hc1 Hok) Hfs) as (c2 & E2 & Hc2).
  rewrite (bind_some _ _ _ _ _ E2). destruct (set_spec o ss) as [out ss1]. cbn [fst snd] in *.
  destruct (set_run ops ss1) as [outs ss2]. by exists c2.
Qed.

End refinement.

(** ** Values that come encoded *)

Section encoded.
Context `{CborApi} `{!CborLaws}.

Definition item_config_type (item : cbor_item) : ConfigDataTypes :=
  match item with
  | CborInt z => if 0 <=? z then UINT32 else INT32
  | CborFloat _ => FLOAT
  | CborText _ => STR
  | CborBytes _ => BYTES
  end.

Lemma shown_type v item :
  cbor_value_is_unsigned_integer v = is_unsigned item -> cbor_value_is_integer v = is_int item ->
  cbor_value_is_float v = is_float item -> cbor_value_is_text_string v = is_text item ->
  cbor_value_is_byte_string v = is_bytes item -> cbor_type_to_config v = Some (item_config_type item).
Proof.
  intros Hu Hi Hf Ht Hb. unfold cbor_type_to_config. rewrite Hu, Hi, Hf, Ht, Hb.
  destruct item; cbn; try done. by destruct (0 <=? z).
Qed.

(** The place of a key in the arrays, once the key is there. *)
Lemma cbor_key_index_spec n i es k r c :
  info_at n c = Some i -> partition_ok (ram_buffer i) es -> key_ok k ->
  (key_place k es = None -> exists t, c_string r = Some t) ->
  exists i', cbor_key_index n (k ++ r) (Z.of_nat (length k)) c
    = Some (if bool_decide (key_place k es = None /\ length es = MAX_NUM_KV) then None else Some (place_for k es),
            with_info n i' c)
  /\ ci_needs_commit i' = ci_needs_commit i /\ values (ram_buffer i') = values (ram_buffer i)
  /\ numKeys (ram_buffer i') = numKeys (ram_buffer i)
  /\ (header_crc32 (ram_buffer i') = header_crc32 (ram_buffer i) /\ header_version (ram_buffer i') = header_version (ram_buffer i))
  /\ if bool_decide (key_place k es = None /\ length es = MAX_NUM_KV) then i' = i
     else exists kk, keys (ram_buffer i') = <[place_for k es := kk]> (keys (ram_buffer i))
       /\ length (key_buf kk) = MAX_KEY_LEN_BYTES /\ exists rest, key_buf kk = k ++ rest.
Proof.
  intros Hi Hp Hk Ht. unfold cbor_key_index. rewrite (bind_some _ _ _ _ _ (get_partition_at _ _ _ Hi)).
  rewrite bind_lift, (find_key_spec _ _ _ _ Hp Hk). cbn [mbind option_bind].
  destruct (key_place k es) as [j|] eqn:Hj.
  - exists i. rewrite (with_info_same n i c Hi). rewrite bool_decide_eq_false_2 by naive_solver.
    unfold place_for. rewrite Hj. do 5 (split; [done|]). cbn [default].
    pose proof (place_some _ _ _ Hj) as [item E].
    destruct (po_slots _ _ Hp _ _ E) as (kk & v & Hkk & _ & _ & _ & (rest & Hbuf) & _).
    exists kk. split; [by rewrite list_insert_id|split; [|by exists rest]].
    exact (Forall_lookup_1 _ _ _ _ (po_bufs _ _ Hp) Hkk).
  - rewrite bind_lift, Nat2Z.id, key_valid by done. cbn [mbind option_bind negb].
    rewrite (full_spec _ _ Hp). case_bool_decide as Hf.
    { exists i. rewrite (with_info_same n i c Hi), bool_decide_eq_true_2 by done. done. }
    rewrite bool_decide_eq_false_2 by (by intros [_ ?]). pose proof (po_max _ _ Hp).
    destruct (Ht eq_refl) as [t Hs].
    destruct (write_key_spec _ _ k r t Hp Hk Hs ltac:(lia)) as (kk & rest & Ek & Hr & Ew).
    assert (Hpl : place_for k es = Z.to_nat (numKeys (ram_buffer i)))
      by (unfold place_for; rewrite Hj, (po_num _ _ Hp); cbn; lia).
    rewrite <- Hpl, bind_lift, Ew. cbn [mbind option_bind].
    rewrite (bind_some _ _ _ _ _ (put_partition_at _ _ _ _ Hi)).
    eexists. split; [reflexivity|]. cbn [ram_buffer set_keys values numKeys keys ci_needs_commit header_crc32 header_version].
    do 4 (split; [done|]). eexists. split; [done|]. split; [done|by exists rest].
Qed.

(** A new key that does not end is read behind its end. *)
Lemma set_cbor_open n i es k r c d more item :
  info_at n c = Some i -> partition_ok (ram_buffer i) es -> key_ok k -> key_place k es = None ->
  (length es < MAX_NUM_KV)%nat -> c_string r = None ->
  (0 < length d <= MAX_CONFIG_BUFFER_SIZE_BYTES)%nat -> shows d item ->
  set_config_cbor n (Some (k ++ r)) (Z.of_nat (length k)) (Some (d ++ more)) (Z.of_nat (length d)) c = None.
Proof.
  intros Hi Hp Hk Hj Hl Ht Hd Hs. unfold set_config_cbor. rewrite key_len_fits by done.
  destruct (Z.ltb_spec (Z.of_nat MAX_CONFIG_BUFFER_SIZE_BYTES) (Z.of_nat (length d))); [lia|].
  destruct (Z.eqb_spec (Z.of_nat (length d)) 0); [lia|]. cbn [orb].
  rewrite bind_lift, read_at_head by lia. cbn [mbind option_bind].
  destruct Hs as (v & Ep & Hv & _). rewrite Ep, Hv. cbn [negb].
  assert (E : cbor_key_index n (k ++ r) (Z.of_nat (length k)) c = None); [|unfold mbind, M_bind; by rewrite E].
  unfold cbor_key_index. rewrite (bind_some _ _ _ _ _ (get_partition_at _ _ _ Hi)).
  rewrite bind_lift, (find_key_spec _ _ _ _ Hp Hk), Hj. cbn [mbind option_bind].
  rewrite bind_lift, Nat2Z.id, key_valid by done. cbn [mbind option_bind negb].
  rewrite (full_spec _ _ Hp), bool_decide_eq_false_2 by lia.
  rewrite bind_lift. unfold write_key, print_key. rewrite c_string_key, Ht by done.
  by destruct (keys (ram_buffer i) !! Z.to_nat (numKeys (ram_buffer i))).
Qed.

Lemma set_cbor_spec n i es k r c d more item :
  info_at n c = Some i -> partition_ok (ram_buffer i) es -> key_ok k ->
  (key_place k es = None -> exists t, c_string r = Some t) ->
  (0 < length d <= MAX_CONFIG_BUFFER_SIZE_BYTES)%nat -> shows d item -> item_fits item ->
  exists i', set_config_cbor n (Some (k ++ r)) (Z.of_nat (length k)) (Some (d ++ more)) (Z.of_nat (length d)) c
    = Some (negb (bool_decide (key_place k es = None /\ length es = MAX_NUM_KV)), with_info n i' c)
  /\ if bool_decide (key_place k es = None /\ length es = MAX_NUM_KV) then i' = i
     else partition_ok (ram_buffer i') (put_item k item es) /\ ci_needs_commit i' = true
       /\ type_written k es (item_config_type item) (ram_buffer i) (ram_buffer i').
Proof.
  intros Hi Hp Hk Ht Hd Hs Hfit. unfold set_config_cbor. rewrite key_len_fits by done.
  destruct (Z.ltb_spec (Z.of_nat MAX_CONFIG_BUFFER_SIZE_BYTES) (Z.of_nat (length d))); [lia|].
  destruct (Z.eqb_spec (Z.of_nat (length d)) 0); [lia|]. cbn [orb].
  rewrite bind_lift, read_at_head by lia. cbn [mbind option_bind].
  pose proof Hs as (v & Ep & Hv & Hu & Hint & Hf & Htx & Hb & _ & _). rewrite Ep, Hv. cbn [negb].
  pose proof (shown_type v item Hu Hint Hf Htx Hb) as Ety.
  destruct (cbor_key_index_spec n i es k r c Hi Hp Hk Ht) as (i1 & Eidx & Hnc & Hvals & Hnum & [Hcrc Hver] & Hrest).
  rewrite (bind_some _ _ _ _ _ Eidx). case_bool_decide as Hfull; [by exists i1|].
  destruct Hrest as (kk & Hkeys & Hkl & (rest & Hkb)). rewrite Ety. set (j := place_for k es) in *.
  assert (Hlt : (place_for k es < MAX_NUM_KV)%nat).
  { unfold place_for. destruct (key_place k es) as [j'|] eqn:Hj; cbn.
    - apply place_some in Hj as [x Hj]. apply lookup_lt_Some in Hj. pose proof (po_max _ _ Hp). lia.
    - pose proof (po_max _ _ Hp). destruct (decide (length es = MAX_NUM_KV)); [tauto|lia]. }
  set (c1 := with_info n i1 c). pose proof (info_at_with n i i1 c Hi : info_at n c1 = _) as Hc1.
  rewrite (bind_some _ _ _ _ _ (get_partition_at _ _ _ Hc1)).
  destruct (lookup_lt_is_Some_2 (values (ram_buffer i)) j) as [old Hold]; [rewrite (po_values _ _ Hp); done|].
  rewrite Hvals, bind_lift, Hold. cbn [mbind option_bind].
  pose proof (Forall_lookup_1 _ _ _ _ (po_vals _ _ Hp) Hold) as Hol. cbv beta in Hol.
  rewrite bind_lift. unfold write_at. destruct (Nat.leb_spec (0 + length d) (length old)); [|lia].
  cbn [mbind option_bind]. rewrite (bind_some _ _ _ _ _ (put_partition_at _ _ _ _ Hc1)).
  set (c2 := with_info n _ c1). pose proof (info_at_with _ _ _ _ Hc1 : info_at n c2 = _) as Hc2.
  assert (Hjk : keys (ram_buffer i1) !! j = Some kk)
    by (rewrite Hkeys; apply list_lookup_insert_eq; rewrite (po_keys _ _ Hp); done).
  erewrite bind_some by (apply (finish_spec _ _ kk _ _ _ _ _ Hc2); exact Hjk).
  eexists. split.
  { unfold c2, c1. rewrite !with_info_twice. reflexivity. }
  split; [|split; [done|]]; cbn [ram_buffer set_values header_crc32 header_version keys values numKeys];
    rewrite Hkeys, list_insert_insert_eq; [|by do 2 eexists]. rewrite Hnum, Hcrc, Hver.
  assert (Hn : (if negb (Z.of_nat j =? numKeys (ram_buffer i)) then numKeys (ram_buffer i)
                else u8 (numKeys (ram_buffer i) + 1)) = Z.of_nat (length (put_item k item es))).
  { rewrite put_item_length, (po_num _ _ Hp). unfold j, place_for in *. destruct (key_place k es) as [j'|] eqn:Hj; cbn in *.
    - apply place_some in Hj as [x Hj]. apply lookup_lt_Some in Hj. by destruct (Z.eqb_spec (Z.of_nat j') (Z.of_nat (length es))); [lia|].
    - rewrite Z.eqb_refl. cbn. unfold MAX_NUM_KV in Hlt. rewrite u8_small by lia. lia. }
  rewrite Hn. apply slot_overwritten; try done.
  - by rewrite length_blit by lia.
  - split; [done|split; [done|split; [by exists rest|split; [|done]]]].
    unfold blit. rewrite take_0. cbn [app snd]. by apply cbor_behind.
Qed.
End encoded.

(** ** Concrete runs *)

(** A codec that keeps the laws: a byte for the type, then the value, or the length and
    the bytes of a string. *)
Definition plain_encode (i : cbor_item) : bytes :=
  match i with
  | CborInt z => 0 :: le_enc 8 (wrap 64 z)
  | CborFloat f => 1 :: le_enc 4 f
  | CborText s => 2 :: Z.of_nat (length s) :: s
  | CborBytes s => 3 :: Z.of_nat (length s) :: s
  end.

Definition plain_parse (b : bytes) : option cbor_item :=
  match b with
  | 0 :: b => (fun d => CborInt ((le_dec d + 2 ^ 63) mod 2 ^ 64 - 2 ^ 63)) <$> read_at 0 8 b
  | 1 :: b => (fun d => CborFloat (le_dec d)) <$> read_at 0 4 b
  | 2 :: n :: b => CborText <$> read_at 0 (Z.to_nat n) b
  | 3 :: n :: b => CborBytes <$> read_at 0 (Z.to_nat n) b
  | _ => None
  end.

Definition plain_copy (s buf : bytes) (n : Z) : bool * bytes * Z :=
  if Z.of_nat (length s) <=? n then (true, blit 0 s buf, Z.of_nat (length s)) else (false, buf, Z.of_nat (length s)).

Definition plain_fill (i : cbor_item) (buf : bytes) : bool * bytes :=
  if (length (plain_encode i) <=? length buf)%nat then (true, blit 0 (plain_encode i) buf) else (false, buf).

Definition plain_cbor : CborApi := {|
  CborValue := cbor_item;
  cbor_parser_init := plain_parse;
  cbor_value_is_valid _ := true;
  cbor_value_is_unsigned_integer := is_unsigned;
  cbor_value_is_integer := is_int;
  cbor_value_is_float := is_float;
  cbor_value_is_text_string := is_text;
  cbor_value_is_byte_string := is_bytes;
  cbor_value_is_array _ := false;
  cbor_value_get_uint64 i := match i with CborInt z => if 0 <=? z then Some z else None | _ => None end;
  cbor_value_get_int64 i := match i with CborInt z => Some z | _ => None end;
  cbor_value_get_float i := match i with CborFloat f => Some f | _ => None end;
  cbor_value_copy_text_string i buf n := match i with CborText s => plain_copy s buf n | _ => (false, buf, n) end;
  cbor_value_copy_byte_string i buf n := match i with CborBytes s => plain_copy s buf n | _ => (false, buf, n) end;
  cbor_value_get_string_length i :=
    match i with CborText s | CborBytes s => Some (Z.of_nat (length s)) | _ => None end;
  cbor_value_get_array_length _ := None;
  cbor_encode_uint z := plain_fill (CborInt z);
  cbor_encode_int z := plain_fill (CborInt z);
  cbor_encode_float f := plain_fill (CborFloat f);
  cbor_encode_text_string s := plain_fill (CborText s);
  cbor_encode_byte_string s := plain_fill (CborBytes s)
|}.

Definition plain_ok (i : cbor_item) : Prop :=
  match i with CborInt z => - 2 ^ 31 <= z < 2 ^ 32 | CborFloat f => 0 <= f < 2 ^ 32 | _ => True end.

Lemma plain_copies s : copies (plain_copy s) s.
Proof.
  intros buf Hl. unfold plain_copy. destruct (Z.leb_spec (Z.of_nat (length s)) (Z.of_nat (length buf))); [|lia].
  exists (blit 0 s buf). split; [done|split; [|by apply length_blit]]. unfold blit. rewrite take_0. cbn [app]. apply take_app_length.
Qed.

Lemma plain_copies_inj s s' : copies (plain_copy s) s' -> s = s'.
Proof.
  intros Hc. destruct (Hc (replicate (length s + length s') 0)) as (b & E & Ht & _); [rewrite length_replicate; lia|].
  unfold plain_copy in E. rewrite length_replicate in E.
  destruct (Z.leb_spec (Z.of_nat (length s)) (Z.of_nat (length s + length s'))); [|lia].
  injection E as <- E. assert (El : length s' = length s) by lia. rewrite El in Ht. rewrite <- Ht. unfold blit.
  rewrite take_0. cbn [app]. by rewrite take_app_length.
Qed.

Lemma plain_parse_encode i rest : plain_ok i -> plain_parse (plain_encode i ++ rest) = Some i.
Proof.
  destruct i as [z|f|s|s]; cbn [plain_ok plain_encode plain_parse app]; intros Hi.
  - rewrite read_at_head by (by rewrite length_le_enc). cbn [fmap option_fmap option_map]. do 2 f_equal.
    rewrite le_dec_enc. change (256 ^ Z.of_nat 8) with (2 ^ 64). unfold wrap. rewrite Zmod_mod. plia.
  - rewrite read_at_head by (by rewrite length_le_enc). cbn [fmap option_fmap option_map]. do 2 f_equal.
    rewrite le_dec_enc. by apply Z.mod_small.
  - by rewrite read_at_head by lia.
  - by rewrite read_at_head by lia.
Qed.

Lemma plain_reads i buf : plain_parse buf = Some i -> @shows plain_cbor buf i.
Proof.
  intros E. exists i. cbn. do 8 (split; [done|]). destruct i as [z|f|s|s]; cbn.
  - split; [|done]. intros Hz. by destruct (Z.leb_spec 0 z); [|lia].
  - done.
  - apply plain_copies.
  - apply plain_copies.
Qed.

Lemma plain_encodes i :
  plain_ok i -> (length (plain_encode i) <= MAX_CONFIG_BUFFER_SIZE_BYTES)%nat -> @encodes plain_cbor (plain_fill i) i.
Proof.
  intros Hi Hl buf Hb. unfold plain_fill. destruct (Nat.leb_spec (length (plain_encode i)) (length buf)); [|lia].
  eexists. split; [done|split].
  - by rewrite length_blit by lia.
  - apply plain_reads. unfold blit. rewrite take_0. by apply plain_parse_encode.
Qed.

Lemma plain_more b rest i : plain_parse b = Some i -> plain_parse (b ++ rest) = Some i.
Proof.
  assert (Hread : forall n l d, read_at 0 n l = Some d -> read_at 0 n (l ++ rest) = Some d).
  { intros n l d. unfold read_at. destruct (Nat.leb_spec (0 + n) (length l)); [|done]. intros [= <-].
    rewrite length_app. destruct (Nat.leb_spec (0 + n) (length l + length rest)); [|lia].
    unfold slice. rewrite !drop_0. by rewrite take_app_le. }
  unfold plain_parse. destruct b as [|x b]; [done|]. cbn [app].
  repeat (match goal with |- context [match ?y with _ => _ end] => destruct y end; cbn [app]); try done;
    intros (d & E & ->)%fmap_Some; apply Hread in E; cbn [app] in *; by rewrite E.
Qed.

Lemma plain_laws : @CborLaws plain_cbor.
Proof.
  split; cbn [cbor_encode_uint cbor_encode_int cbor_encode_float cbor_encode_text_string cbor_encode_byte_string plain_cbor].
  - intros z Hz. apply plain_encodes; cbn [plain_ok plain_encode length]; [lia|].
    rewrite length_le_enc. unfold MAX_CONFIG_BUFFER_SIZE_BYTES. lia.
  - intros z Hz. apply plain_encodes; cbn [plain_ok plain_encode length]; [lia|].
    rewrite length_le_enc. unfold MAX_CONFIG_BUFFER_SIZE_BYTES. lia.
  - intros f Hf. apply plain_encodes; cbn [plain_ok plain_encode length]; [lia|].
    rewrite length_le_enc. unfold MAX_CONFIG_BUFFER_SIZE_BYTES. lia.
  - intros s _ Hs. apply plain_encodes; [done|]. cbn. unfold MAX_CONFIG_BUFFER_SIZE_BYTES. lia.
  - intros s _ Hs. apply plain_encodes; [done|]. cbn. unfold MAX_CONFIG_BUFFER_SIZE_BYTES. lia.
  - intros d rest i (v & E & _ & _ & Hi & Hf & Ht & Hb & _ & Hr). cbn in E, Hi, Hf, Ht, Hb, Hr, v.
    apply plain_reads, plain_more. rewrite E. f_equal.
    destruct v, i; try done; cbn in Hr; [|by injection Hr as ->|f_equal; by apply plain_copies_inj..].
    destruct Hr as [_ [= ->]]. done.
Qed.

Definition zero_configs : configs := MkConfigs (replicate 3 (MkConfigInfo zero_partition false)) (MkOs [] [] 0).

Lemma zero_holds : @store_holds plain_cbor zero_configs (replicate 3 ([], false)).
Proof. split; [|done]. repeat constructor; apply (zero_ok 0 0 eq_refl). Qed.

(** "a" and "b_1". *)
Definition key_a : bytes := [97].
Definition key_b : bytes := [98; 95; 49].

Definition sample_cfg_run : list cfg_op :=
  [CfgSet 0 key_a (SetUint 7); CfgSet 0 key_b (SetText [120; 121]); CfgSet 1 key_a (SetInt (-3));
   CfgSet 0 key_a (SetInt (-5)); CfgGet 0 key_a GetFloat; CfgGet 0 key_a GetInt; CfgGet 0 key_b GetText;
   CfgGet 1 key_a GetInt; CfgKeys 0; CfgRemove 0 key_a; CfgRemove 0 key_a; CfgKeys 0; CfgGet 0 key_b GetText;
   CfgDirty 0; CfgDirty 2; CfgClear 0; CfgKeys 0; CfgClear 3].

Definition sample_cfg_outs : list cfg_out :=
  [OutBool true; OutBool true; OutBool true; OutBool true; OutNum None; OutNum (Some (-5));
   OutBytes (Some [120; 121]); OutNum (Some (-3)); OutKeys [key_a; key_b]; OutBool true; OutBool false;
   OutKeys [key_b]; OutBytes (Some [120; 121]); OutBool true; OutBool false; OutBool true; OutKeys []; OutBool false].

Lemma zero_keeps : @store_keeps plain_cbor zero_configs (replicate 3 ([], false)).
Proof. split; [apply zero_holds|]. repeat constructor. Qed.

Lemma config_store_refines_witness :
  exists c', @cfg_run plain_cbor sample_cfg_run zero_configs = Some (sample_cfg_outs, c').
Proof.
  destruct (@config_store_refines plain_cbor plain_laws _ _ sample_cfg_run zero_keeps) as (c' & E & _).
  - assert (Ha : key_ok key_a) by (split; [cbn; unfold MAX_KEY_LEN_BYTES; lia|repeat constructor; done]).
    assert (Hb : key_ok key_b) by (split; [cbn; unfold MAX_KEY_LEN_BYTES; lia|repeat constructor; done]).
    repeat apply Forall_cons_2; try done; cbn; split_and?; try done; first [lia|decided].
  - cbn. split_and!; try done; intros *;
      (intros Es; vm_compute in Es; injection Es as <- <-);
      first [by intros _|intros Ef; vm_compute in Ef; by injection Ef as <-].
  - exists c'. rewrite E. reflexivity.
Defined.

#[local] Abbreviation set_uint key n v := (@set_config_uint plain_cbor 0 (Some key) n v).

(** The largest number of the one integer type is got as -1 with the getter of the
    other one. *)
Example other_integer_getter :
  (fst <$> @cfg_run plain_cbor [CfgSet 0 key_a (SetUint (2 ^ 32 - 1)); CfgGet 0 key_a GetInt] zero_configs)
  = Some [OutBool true; OutNum (Some (-1))].
Proof. vm_compute. reflexivity. Qed.

(** A key of thirty-two characters is cut when it is stored, and is never found again. *)
Example longest_key_not_found :
  (let k := replicate 32 97 ++ [0] in
   (a ← set_uint k 32 1; b ← set_uint k 32 2; v ← @get_config_uint plain_cbor 0 (Some k) 32; mret (a, b, v))
     zero_configs)
  ≫= (fun r => n ← get_stored_keys 0 (snd r); Some (fst r, snd (fst n)))
  = Some (true, true, None, 2).
Proof. vm_compute. reflexivity. Qed.

(** With fifty keys the value of none of them can be changed. *)
Example full_store_refuses_changes :
  (let k (i : nat) := [97 + Z.of_nat i / 10; 48 + Z.of_nat i mod 10; 0] in
   fst <$> (_ ← for_each (seq 0 50) (fun i => _ ← set_uint (k i) 2 1; mret tt); set_uint (k 7%nat) 2 5) zero_configs)
  = Some false.
Proof. vm_compute. reflexivity. Qed.

(** The partition of a message is used as an index without a look at its size. *)
Example partition_out_of_bounds :
  @get_config_cbor plain_cbor 3 (Some [97; 0]) 1 (Some (replicate 50 0)) 50 zero_configs = None.
Proof. reflexivity. Qed.

(** A key and a value without a zero byte between or behind them, as they come in a
    message, are read behind their end. *)
Example key_without_terminator :
  @set_config_cbor plain_cbor 0 (Some [97; 2; 1; 120]) 1 (Some [2; 1; 120]) 3 zero_configs = None.
Proof. vm_compute. reflexivity. Qed.
