(* ===== verification/ConfigTypes.v ===== *)
(** * The types of the settings: src/bcmp/configuration.c

    A key is listed with a type, and its value is memory that anything can be read from.
    Every operation keeps the types true: the getter of the type that a key is listed with
    gives the value that was set. *)
From S2P Require Import Prelude Util Crc Os Parts Configuration ConfigStore.

(** The type of a key says how its value is read. *)
Definition typed (t : Z) (i : cbor_item) : Prop :=
  match i with
  | CborInt z => (t = 0 /\ 0 <= z < 2 ^ 32) \/ (t = 1 /\ - 2 ^ 31 <= z < 2 ^ 31)
  | CborFloat f => t = 2 /\ 0 <= f < 2 ^ 32
  | CborText s => t = 3 /\ (length s < 50)%nat
  | CborBytes s => t = 4 /\ (length s < 50)%nat
  end.

Definition types_ok (p : ConfigPartition) (es : list entry) : Prop :=
  forall i e, es !! i = Some e -> exists k, keys p !! i = Some k /\ typed (value_type k) (snd e).

(** The keys of a partition have the types of the settings that they were given. *)
Definition types_are (p : ConfigPartition) (xs : list (bytes * setting)) : Prop :=
  forall i x, xs !! i = Some x ->
    exists k, keys p !! i = Some k /\ value_type k = config_type_num (setting_type (snd x)).

Lemma setting_typed s : setting_range s -> typed (config_type_num (setting_type s)) (setting_item s).
Proof. destruct s; cbn; intros Hs; (by left) || (by right) || (split; [done|lia]) || done. Qed.

Lemma types_are_ok p xs :
  types_are p xs -> Forall (fun x => setting_range (snd x)) xs -> types_ok p (setting_entry <$> xs).
Proof.
  intros Ht Hr i e. rewrite list_lookup_fmap. intros (x & E & ->)%fmap_Some.
  destruct (Ht i x E) as (k & Hk & Hv). exists k. split; [done|]. rewrite Hv.
  apply setting_typed. exact (Forall_lookup_1 _ _ _ _ Hr E).
Qed.

Lemma put_setting_lookup k s xs i :
  put_setting k s xs !! i
  = if decide (i = place_for k (setting_entry <$> xs)) then Some (k, s) else xs !! i.
Proof.
  unfold place_for. revert i. induction xs as [|x xs IH]; intros i.
  - cbn. destruct i; [done|]. by rewrite decide_False.
  - cbn [put_setting fmap list_fmap key_place fst setting_entry]. destruct (decide (fst x = k)) as [E|E].
    + rewrite bool_decide_eq_true_2 by done. cbn. by destruct i.
    + rewrite bool_decide_eq_false_2 by done. destruct i as [|i].
      * rewrite decide_False; [done|]. by destruct (key_place k _).
      * cbn. rewrite IH. replace (default _ (S <$> _))
          with (S (default (length (setting_entry <$> xs)) (key_place k (setting_entry <$> xs))))
          by (by destruct (key_place k _)).
        repeat case_decide; done || lia.
Qed.

Lemma types_put p p' xs k s :
  types_are p xs -> (place_for k (setting_entry <$> xs) < length (keys p))%nat ->
  type_written k (setting_entry <$> xs) (setting_type s) p p' -> types_are p' (put_setting k s xs).
Proof.
  intros Ht Hj (buf & len & Hk) n x. rewrite put_setting_lookup, Hk.
  destruct (decide (n = place_for k (setting_entry <$> xs))) as [->|Hn].
  - intros [= <-]. eexists. by rewrite list_lookup_insert_eq.
  - rewrite list_lookup_insert_ne by done. apply Ht.
Qed.

Lemma drop_setting_delete k xs j :
  NoDup xs.*1 -> key_place k (setting_entry <$> xs) = Some j -> drop_setting k xs = delete j xs.
Proof.
  revert j. induction xs as [|x xs IH]; intros j; [done|]. rewrite fmap_cons. intros [Hx Hd]%NoDup_cons.
  cbn [fmap list_fmap key_place fst setting_entry]. unfold drop_setting. case_bool_decide as E.
  - intros [= <-]. subst k. rewrite filter_cons_False by tauto. exact (drop_other _ _ Hx).
  - destruct (key_place k _) as [m|] eqn:Em; [|done]. intros [= <-]. rewrite filter_cons_True by done.
    cbn. f_equal. by apply IH.
Qed.

Lemma types_drop p p' xs k :
  NoDup xs.*1 -> types_are p xs -> is_Some (key_place k (setting_entry <$> xs)) ->
  (forall m, (m < length (setting_entry <$> xs) - 1)%nat ->
     keys p' !! m = delete (place_for k (setting_entry <$> xs)) (keys p) !! m) ->
  types_are p' (drop_setting k xs).
Proof.
  intros Hnd Ht [j Hj] Hk n x. rewrite (drop_setting_delete k xs j) by done. unfold place_for in Hk.
  rewrite Hj in Hk. cbn [default] in Hk. pose proof (place_some _ _ _ Hj) as [i Ei].
  assert (Hlt : is_Some (xs !! j)) by (rewrite list_lookup_fmap in Ei; by destruct (xs !! j)).
  pose proof (length_delete xs j Hlt) as Hd. rewrite length_fmap in Hk.
  intros E. pose proof (lookup_lt_Some _ _ _ E). rewrite Hk by lia. rewrite !list_lookup_delete in *. by apply Ht.
Qed.

(** ** Operations, with values that come encoded *)

Section types.
Context `{CborApi} `{!CborLaws}.

(** The ones of [cfg_op], and a value from a message: its bytes, and the setting that
    they are. *)
Inductive type_op : Type := TypeOp (o : cfg_op) | TypeCbor (n : Z) (k d : bytes) (s : setting).

Definition type_step (o : type_op) : M configs cfg_out :=
  match o with
  | TypeOp o => cfg_step o
  | TypeCbor n k d _ =>
      b ← set_config_cbor n (c_key k) (Z.of_nat (length k)) (Some d) (Z.of_nat (length d)); mret (OutBool b)
  end.

Fixpoint type_run (ops : list type_op) : M configs (list cfg_out) :=
  match ops with
  | [] => mret []
  | o :: ops => out ← type_step o; outs ← type_run ops; mret (out :: outs)
  end.

(** A value from a message is a setting like another one. *)
Definition plain_op (o : type_op) : cfg_op :=
  match o with TypeOp o => o | TypeCbor n k _ s => CfgSet n k s end.

(** A value of a message is a number of its type's size, or a string or a buffer that fits;
    a number that is not negative is one without a sign. *)
Definition type_op_ok (o : type_op) : Prop :=
  match o with
  | TypeOp o => cfg_op_ok o
  | TypeCbor n k d s =>
      0 <= n < BM_CFG_PARTITION_COUNT /\ key_ok k /\ (0 < length d <= MAX_CONFIG_BUFFER_SIZE_BYTES)%nat
      /\ shows d (setting_item s) /\ setting_range s /\ match s with SetInt z => z < 0 | _ => True end
  end.

(** A message may change a setting of a full partition. *)
Fixpoint types_fit (ops : list type_op) (ss : typed_stores) : Prop :=
  match ops with
  | [] => True
  | o :: ops =>
      match o with TypeOp o => op_fits o ss | TypeCbor _ _ _ _ => True end
      /\ types_fit ops (snd (set_spec (plain_op o) ss))
  end.

(** The settings, with types that are theirs. *)
Definition info_typed (i : ConfigInfo) (x : list (bytes * setting) * bool) : Prop :=
  types_are (ram_buffer i) (fst x).
Definition store_typed (c : configs) (ss : typed_stores) : Prop :=
  store_keeps c ss /\ Forall2 info_typed (CONFIGS c) ss.

Lemma typed_at c ss n :
  store_typed c ss -> 0 <= n < BM_CFG_PARTITION_COUNT ->
  exists i xs d, info_at n c = Some i /\ ss !! Z.to_nat n = Some (xs, d)
    /\ partition_ok (ram_buffer i) (setting_entry <$> xs) /\ types_are (ram_buffer i) xs
    /\ Forall (fun x => setting_range (snd x)) xs /\ NoDup xs.*1.
Proof.
  intros [[Hc Hr] Hf] Hn. destruct (holds_at _ _ _ Hc Hn) as (i & es & d & Hi & Hs & Hp & _).
  rewrite items_lookup in Hs. destruct (ss !! Z.to_nat n) as [[xs d']|] eqn:E; [|done].
  injection Hs as <- <-. exists i, xs, d'. do 3 (split; [done|]).
  pose proof (po_nodup _ _ Hp) as Hnd. rewrite setting_keys in Hnd.
  split; [|split; [exact (Forall_lookup_1 _ _ _ _ Hr E)|done]].
  unfold info_at in Hi. destruct (0 <=? n); [|done]. exact (Forall2_lookup_lr _ _ _ _ _ _ Hf Hi E).
Qed.

Lemma typed_with c ss n i xs :
  Forall2 info_typed (CONFIGS c) ss -> types_are (ram_buffer i) xs ->
  Forall2 info_typed (CONFIGS (with_info n i c)) (<[Z.to_nat n := (xs, true)]> ss).
Proof. intros Hf Ht. by apply Forall2_insert. Qed.

Lemma fits_place k xs (i : ConfigInfo) :
  partition_ok (ram_buffer i) (setting_entry <$> xs) ->
  (k ∉ xs.*1 -> length xs <> MAX_NUM_KV) ->
  (place_for k (setting_entry <$> xs) < length (keys (ram_buffer i)))%nat.
Proof.
  intros Hp Hf. rewrite (po_keys _ _ Hp). pose proof (po_max _ _ Hp) as Hm. rewrite length_fmap in Hm.
  unfold place_for. destruct (key_place k (setting_entry <$> xs)) as [j|] eqn:Hj; cbn.
  - apply place_some in Hj as [x Hj]. apply lookup_lt_Some in Hj. rewrite length_fmap in Hj. lia.
  - apply place_setting in Hj. specialize (Hf Hj). rewrite length_fmap. lia.
Qed.

(** What a step does to the types. *)
Lemma cfg_step_types o c ss :
  store_typed c ss -> cfg_op_ok o -> op_fits o ss ->
  exists c', cfg_step o c = Some (fst (set_spec o ss), c') /\ store_typed c' (snd (set_spec o ss)).
Proof.
  intros Hc Ho Hfit. destruct (set_spec_items o c ss (proj1 Hc) Ho Hfit) as [Es Hr].
  destruct (cfg_step_refined o c (items ss) (proj1 (proj1 Hc)) Ho) as (c' & E & Hh).
  rewrite Es in E, Hh. cbn [fst snd] in E, Hh. exists c'. split; [done|]. split; [by split|].
  clear Es Hh Hr. pose proof (proj2 Hc) as Hf.
  destruct o as [n k s|n k g|n k|n|n|n]; cbn [cfg_op_ok op_fits cfg_step set_spec] in *.
  - destruct Ho as (Hn & Hk & Hs).
    destruct (typed_at _ _ _ Hc Hn) as (i & xs & d & Hi & Hss & Hp & Ht & _ & _). rewrite Hss in *.
    specialize (Hfit xs d eq_refl). destruct (run_setting_spec n k s c i _ Hi Hp Hk Hs) as (i' & Er & Hi').
    rewrite (bind_some _ _ _ _ _ Er) in E. rewrite length_fmap in *. injection E as _ <-.
    case_bool_decide as Hl.
    + subst i'. rewrite with_info_same by done. rewrite decide_True; [done|]. tauto.
    + rewrite decide_False by tauto. apply typed_with; [done|]. destruct Hi' as (_ & _ & Hw).
      eapply types_put; [exact Ht| |exact Hw]. by eapply fits_place.
  - destruct Ho as (Hn & Hk). destruct (typed_at _ _ _ Hc Hn) as (i & xs & d & Hi & Hss & Hp & _).
    rewrite (run_getter_spec _ _ _ _ _ _ Hi Hp Hk) in E. by injection E as _ <-.
  - destruct Ho as (Hn & Hk).
    destruct (typed_at _ _ _ Hc Hn) as (i & xs & d & Hi & Hss & Hp & Ht & _ & Hnd). rewrite Hss in *.
    pose proof (remove_spec n i _ k [0] c Hi Hp Hk) as Hrm. pose proof (place_setting k xs) as Hpl.
    destruct (key_place k (setting_entry <$> xs)) as [j|] eqn:Hj.
    + destruct Hrm as (i' & Er & _ & _ & Hks). rewrite (bind_some _ _ _ _ _ Er) in E. injection E as _ <-.
      rewrite decide_True by (destruct (decide (k ∈ xs.*1)) as [|Hni]; [done|by apply Hpl in Hni]).
      apply typed_with; [done|]. eapply types_drop; [done|exact Ht|by rewrite Hj|exact Hks].
    + rewrite (bind_some _ _ _ _ _ Hrm) in E. injection E as _ <-.
      by rewrite decide_False by (by apply Hpl).
  - destruct (typed_at _ _ _ Hc Ho) as (i & xs & d & Hi & Hss & Hp & _).
    unfold get_stored_keys in E. rewrite (bind_some _ _ _ _ _ (bind_some _ _ _ _ _ (get_partition_at _ _ _ Hi))) in E.
    by injection E as _ <-.
  - unfold clear_partition in E. destruct (Z.leb_spec 0 n); [|lia]. cbn [andb] in E.
    destruct (Z.ltb_spec n BM_CFG_PARTITION_COUNT); [|by injection E as <-].
    destruct (typed_at _ _ n Hc ltac:(lia)) as (i & xs & d & Hi & Hss & Hp & _).
    erewrite bind_some in E; [|rewrite (bind_some _ _ _ _ _ (put_partition_at _ _ _ _ Hi));
      by rewrite (bind_some _ _ _ _ _ (set_needs_commit_at _ _ _ _ (info_at_with _ _ _ _ Hi)))].
    injection E as <-. rewrite with_info_twice. apply typed_with; [done|by intros ??].
  - unfold needs_commit in E. destruct (Z.leb_spec 0 n); [|lia]. cbn [andb] in E.
    destruct (Z.ltb_spec n BM_CFG_PARTITION_COUNT); [|by injection E as <-].
    destruct (typed_at _ _ n Hc ltac:(lia)) as (i & xs & d & Hi & Hss & Hp & _).
    rewrite (bind_some _ _ _ _ _ (bind_some _ _ _ _ _ (get_info_at _ _ _ Hi))) in E. by injection E as _ <-.
Qed.

Lemma range_fits s : setting_range s -> item_fits (setting_item s).
Proof. destruct s; cbn; unfold MAX_CONFIG_BUFFER_SIZE_BYTES; try done; lia. Qed.

Lemma plain_type s :
  setting_range s -> match s with SetInt z => z < 0 | _ => True end ->
  item_config_type (setting_item s) = setting_type s.
Proof. destruct s; cbn; intros Hr Hs; try done; destruct (Z.leb_spec 0 z); lia || done. Qed.

Lemma items_insert ss n xs d :
  items (<[n := (xs, d)]> ss) = <[n := (setting_entry <$> xs, d)]> (items ss).
Proof. unfold items. by rewrite list_fmap_insert. Qed.

Lemma type_step_typed o c ss :
  store_typed c ss -> type_op_ok o -> match o with TypeOp o => op_fits o ss | TypeCbor _ _ _ _ => True end ->
  exists c', type_step o c = Some (fst (set_spec (plain_op o) ss), c')
    /\ store_typed c' (snd (set_spec (plain_op o) ss)).
Proof.
  intros Hc Ho Hfit. destruct o as [o|n k d s]; cbn [type_op_ok type_step plain_op] in *;
    [by apply cfg_step_types|].
  destruct Ho as (Hn & Hk & Hd & Hs & Hr & Hsg).
  destruct (typed_at _ _ _ Hc Hn) as (i & xs & dirty & Hi & Hss & Hp & Ht & Hrs & Hnd).
  destruct (set_cbor_spec n i _ k [0] c d [] _ Hi Hp Hk ltac:(by eexists) Hd Hs (range_fits s Hr))
    as (i' & E & Hi').
  rewrite app_nil_r in E. unfold c_key. rewrite (bind_some _ _ _ _ _ E). cbn [set_spec]. rewrite Hss.
  exists (with_info n i' c). rewrite length_fmap in *.
  pose proof (place_setting k xs) as Hpl.
  rewrite (decide_ext (k ∉ xs.*1 /\ length xs = MAX_NUM_KV)
    (key_place k (setting_entry <$> xs) = None /\ length xs = MAX_NUM_KV)) by tauto.
  case_bool_decide as Hf; case_decide; try tauto; cbn [fst snd negb]; (split; [done|]).
  - subst i'. by rewrite with_info_same.
  - destruct Hi' as (Hp' & Hd' & Hw). destruct Hc as [[Hh Hrg] Hf2]. split; [split|].
    + rewrite items_insert, <- put_item_setting. by apply holds_with.
    + apply Forall_insert; [done|]. by apply put_setting_ok.
    + apply typed_with; [done|]. rewrite plain_type in Hw by done.
      eapply types_put; [exact Ht| |exact Hw]. eapply fits_place; [done|]. intros Hni Hl.
      apply Hf. split; [by apply Hpl|done].
Qed.

(** ** Types that are listed *)

(** The getter for a type, and what it gives. *)
Definition getter_of (type : Z) : option getter :=
  match type with
  | 0 => Some GetUint | 1 => Some GetInt | 2 => Some GetFloat | 3 => Some GetText | 4 => Some GetBytes | _ => None
  end.

Definition value_of (s : setting) : cfg_out :=
  match s with
  | SetUint z | SetInt z | SetFloat z => OutNum (Some z)
  | SetText s | SetBytes s => OutBytes (Some s)
  end.

(** Every key that is listed has the type of its setting, and is got with the getter of
    that type: [xs] are the settings. *)
Definition listed_typed (n : Z) (xs : list (bytes * setting)) (c : configs) : Prop :=
  exists ks num, get_stored_keys n c = Some ((ks, num), c)
    /\ Forall2 (fun kk x =>
         take (Z.to_nat (key_len kk)) (key_buf kk) = fst x
         /\ value_type kk = config_type_num (setting_type (snd x))
         /\ exists g, getter_of (value_type kk) = Some g /\ run_getter n (fst x) g c = Some (value_of (snd x), c))
         (take (Z.to_nat num) ks) xs.

Lemma getter_gives s :
  setting_range s -> exists g, getter_of (config_type_num (setting_type s)) = Some g
    /\ get_item g (Some (setting_item s)) = value_of s.
Proof.
  intros Hr. destruct s; (eexists; split; [reflexivity|]);
    first [apply (get_item_setting GetUint (Some (SetUint z)))|apply (get_item_setting GetInt (Some (SetInt z)))|done];
    by intros ? [= <-].
Qed.

Lemma keys_typed n i xs c :
  info_at n c = Some i -> partition_ok (ram_buffer i) (setting_entry <$> xs) -> types_are (ram_buffer i) xs ->
  Forall (fun x => setting_range (snd x)) xs -> NoDup xs.*1 -> listed_typed n xs c.
Proof.
  intros Hi Hp Ht Hr Hnd. exists (keys (ram_buffer i)), (numKeys (ram_buffer i)).
  split; [unfold get_stored_keys; by rewrite (bind_some _ _ _ _ _ (get_partition_at _ _ _ Hi))|].
  pose proof (po_max _ _ Hp) as Hm. pose proof (po_keys _ _ Hp). rewrite (po_num _ _ Hp), Nat2Z.id.
  rewrite length_fmap in *.
  apply Forall2_same_length_lookup_2; [rewrite length_take; lia|]. intros j kk x Hkk Hx.
  rewrite lookup_take_lt in Hkk by (by eapply lookup_lt_Some).
  assert (He : (setting_entry <$> xs) !! j = Some (setting_entry x)) by (by rewrite list_lookup_fmap, Hx).
  destruct (po_slots _ _ Hp _ _ He) as (k1 & v & E1 & _ & Hok & Hl & (rest & Hb) & _).
  rewrite Hkk in E1. injection E1 as <-. destruct (Ht _ _ Hx) as (k2 & E2 & Hty). rewrite Hkk in E2. injection E2 as <-.
  cbn [fst setting_entry] in *. split; [by rewrite Hl, Hb, Nat2Z.id, take_app_length|]. split; [done|].
  destruct (getter_gives (snd x) (Forall_lookup_1 _ _ _ _ Hr Hx)) as (g & Hg & Ev).
  exists g. rewrite Hty. split; [done|].
  rewrite (run_getter_spec _ _ _ _ _ _ Hi Hp Hok).
  pose proof (item_at_nodup _ j _ (po_nodup _ _ Hp) He) as Hat. cbn [fst snd setting_entry] in Hat.
  by rewrite Hat, Ev.
Qed.

End types.

(** ** Concrete runs *)

Lemma zero_typed : @store_typed plain_cbor zero_configs (replicate 3 ([], false)).
Proof. split; [apply zero_keeps|]. repeat constructor; by intros ??. Qed.

(** "c". *)
Definition key_c : bytes := [99].

(** "a" changes its type, "b_1" comes encoded, and "a" is removed. *)
Definition type_sample : list type_op :=
  [TypeOp (CfgSet 0 key_a (SetUint 7)); TypeCbor 0 key_b (plain_encode (CborInt (-2))) (SetInt (-2));
   TypeOp (CfgSet 0 key_a (SetText [120])); TypeCbor 0 key_c (plain_encode (CborBytes [1; 2])) (SetBytes [1; 2]);
   TypeOp (CfgRemove 0 key_a)].


(** An integer of a message is taken with any size, is listed as one of 32 bits, and is cut
    by the getter. *)
Example wide_integer_cut :
  (fst <$> @type_run plain_cbor
    [TypeCbor 0 key_a (plain_encode (CborInt (2 ^ 32 + 5))) (SetUint (2 ^ 32 + 5)); TypeOp (CfgGet 0 key_a GetUint)] zero_configs)
  = Some [OutBool true; OutNum (Some 5)].
Proof. vm_compute. reflexivity. Qed.
