(* ===== verification/ConfigFlash.v ===== *)
(** * Settings over a restart: src/bcmp/configuration.c

    The bytes of a partition, and what comes up from them.  What is needed of the
    platform's flash is the class [FlashLaws]. *)
From S2P Require Import Prelude Util Crc Os Parts Configuration ConfigStore.

(** ** Restarts *)

Section restart.
Context `{CborApi} `{Platform} (size_t_ok : size_t_bits = 32 \/ size_t_bits = 64).

Lemma size_of_size_t_value : Z.of_nat size_of_size_t = size_t_bits / 8.
Proof. unfold size_of_size_t. destruct size_t_ok as [-> | ->]; reflexivity. Qed.

Lemma size_of_size_t_pos : (4 <= size_of_size_t)%nat.
Proof. pose proof size_of_size_t_value. destruct size_t_ok as [E | E]; rewrite E in *; plia. Qed.

Lemma length_key_store k : length (key_buf k) = MAX_KEY_LEN_BYTES -> length (key_store k) = sizeof_ConfigKey.
Proof. intros Hk. unfold key_store, sizeof_ConfigKey. rewrite !length_app, !length_native_store, Hk. lia. Qed.

Lemma key_load_store k :
  length (key_buf k) = MAX_KEY_LEN_BYTES -> 0 <= key_len k < 2 ^ 32 ->
  key_buf (key_load (key_store k)) = key_buf k /\ key_len (key_load (key_store k)) = key_len k.
Proof.
  intros Hk Hl. unfold key_load, key_store. cbn [key_buf key_len]. split.
  - unfold slice. rewrite drop_0. change 32%nat with MAX_KEY_LEN_BYTES. rewrite <- Hk. apply take_app_length.
  - unfold slice. change 32%nat with MAX_KEY_LEN_BYTES. rewrite <- Hk, drop_app_length.
    rewrite <- (length_native_store size_of_size_t (key_len k)) at 1. rewrite take_app_length, native_load_store.
    apply Z.mod_small. pose proof size_of_size_t_pos.
    assert (2 ^ 32 <= 256 ^ Z.of_nat size_of_size_t); [|lia].
    change (2 ^ 32) with (256 ^ 4). apply Z.pow_le_mono_r; lia.
Qed.

(** One of equally long chunks. *)
Lemma slice_concat (l : list bytes) sz i x rest :
  Forall (fun d => length d = sz) l -> l !! i = Some x -> slice (i * sz) sz (concat l ++ rest) = x.
Proof.
  revert i. induction l as [|d l IH]; intros i Hl Hi; [done|]. apply Forall_cons in Hl as [Hd Hl].
  cbn [concat]. rewrite <- app_assoc. destruct i as [|i]; cbn in Hi.
  - injection Hi as ->. unfold slice. rewrite drop_0. rewrite <- Hd. apply take_app_length.
  - transitivity (slice (i * sz) sz (concat l ++ rest)); [|by apply IH]. unfold slice. f_equal.
    cbn [Nat.mul]. by rewrite <- drop_drop, <- Hd, drop_app_length.
Qed.

Lemma length_concat_same (l : list bytes) sz : Forall (fun d => length d = sz) l -> length (concat l) = (length l * sz)%nat.
Proof. induction 1 as [|d l Hd _ IH]; [done|]. cbn. rewrite length_app, IH, Hd. done. Qed.

Lemma length_partition_store p es : partition_ok p es -> length (partition_store p) = sizeof_ConfigPartition.
Proof.
  intros Hp. unfold partition_store, partition_body. rewrite !length_app, !length_native_store. cbn [length].
  rewrite (length_concat_same (key_store <$> keys p) sizeof_ConfigKey), length_fmap, (po_keys _ _ Hp).
  2: { apply Forall_fmap. eapply Forall_impl; [apply (po_bufs _ _ Hp)|]. intros kk. apply length_key_store. }
  rewrite (length_concat_same (values p) MAX_CONFIG_BUFFER_SIZE_BYTES), (po_values _ _ Hp) by apply (po_vals _ _ Hp).
  unfold sizeof_ConfigPartition, sizeof_ConfigPartitionHeader. lia.
Qed.

(** What is loaded has the arrays' lengths, whatever has been read. *)
Lemma load_empty b :
  length b = sizeof_ConfigPartition -> forall v,
  partition_ok (set_header (header_crc32 (partition_load b)) v 0 (partition_load b)) [].
Proof.
  intros Hb v. split; cbn [keys values numKeys set_header partition_load]; try done.
  - apply Forall_fmap, Forall_forall. intros n Hn%elem_of_seq. unfold compose, key_load. cbv beta. cbn [key_buf].
    assert (n * sizeof_ConfigKey + sizeof_ConfigKey <= MAX_NUM_KV * sizeof_ConfigKey)%nat by nia.
    assert (32 <= sizeof_ConfigKey)%nat by (unfold sizeof_ConfigKey, MAX_KEY_LEN_BYTES; lia).
    unfold sizeof_ConfigPartition, sizeof_ConfigPartitionHeader in Hb.
    rewrite length_slice; [done|]. rewrite length_slice by lia. lia.
  - apply Forall_fmap, Forall_forall. intros n Hn%elem_of_seq. unfold compose. cbv beta.
    unfold sizeof_ConfigPartition, sizeof_ConfigPartitionHeader in Hb. apply length_slice.
    assert (n * MAX_CONFIG_BUFFER_SIZE_BYTES + MAX_CONFIG_BUFFER_SIZE_BYTES
      <= MAX_NUM_KV * MAX_CONFIG_BUFFER_SIZE_BYTES)%nat by nia. lia.
  - unfold MAX_NUM_KV. cbn. lia.
  - apply NoDup_nil_2.
Qed.

(** The struct is read back from its bytes. *)
Lemma load_store p es : partition_ok p es -> partition_ok (partition_load (partition_store p)) es.
Proof.
  intros Hp. pose proof (length_partition_store _ _ Hp) as Hl.
  pose proof (load_empty _ Hl 0) as [H1 H2 H3 H4 _ _ _ _].
  assert (Hkeys : forall i kk, keys p !! i = Some kk -> keys (partition_load (partition_store p)) !! i
    = Some (key_load (key_store kk))).
  { intros i kk Hi. assert (Hlt : (i < MAX_NUM_KV)%nat) by (rewrite <- (po_keys _ _ Hp); by eapply lookup_lt_Some).
    cbn [partition_load keys]. rewrite list_lookup_fmap, lookup_seq_lt by done. cbn [fmap option_fmap option_map].
    do 2 f_equal. rewrite <- (slice_concat (key_store <$> keys p) sizeof_ConfigKey i (key_store kk) (concat (values p))).
    - unfold partition_store, partition_body. rewrite !app_assoc, <- app_assoc.
      unfold slice. f_equal. rewrite <- drop_drop. f_equal. apply drop_app_length'.
      by rewrite !length_app, !length_native_store.
    - apply Forall_fmap. eapply Forall_impl; [apply (po_bufs _ _ Hp)|]. intros k'. apply length_key_store.
    - by rewrite list_lookup_fmap, Hi. }
  assert (Hvals : forall i v, values p !! i = Some v -> values (partition_load (partition_store p)) !! i = Some v).
  { intros i v Hi. assert (Hlt : (i < MAX_NUM_KV)%nat) by (rewrite <- (po_values _ _ Hp); by eapply lookup_lt_Some).
    cbn [partition_load values]. rewrite list_lookup_fmap, lookup_seq_lt by done. cbn [fmap option_fmap option_map].
    f_equal. rewrite <- (slice_concat (values p) MAX_CONFIG_BUFFER_SIZE_BYTES i v [] (po_vals _ _ Hp) Hi).
    rewrite app_nil_r. unfold partition_store, partition_body. rewrite !app_assoc.
    unfold slice. f_equal. rewrite <- drop_drop. f_equal. apply drop_app_length'.
    rewrite !length_app, !length_native_store. cbn [length].
    rewrite (length_concat_same (key_store <$> keys p) sizeof_ConfigKey), length_fmap, (po_keys _ _ Hp); [lia|].
    apply Forall_fmap. eapply Forall_impl; [apply (po_bufs _ _ Hp)|]. intros k'. apply length_key_store. }
  split; try done.
  - cbn [numKeys partition_load]. rewrite <- (po_num _ _ Hp). unfold partition_store, partition_body.
    rewrite app_assoc, app_nth2; rewrite length_app, !length_native_store; [done|lia].
  - apply (po_max _ _ Hp).
  - apply (po_nodup _ _ Hp).
  - intros i e He. destruct (po_slots _ _ Hp _ _ He) as (kk & v & Hk & Hv & Hke & Hlen & (rest & Hbuf) & Hs).
    assert (length (key_buf kk) = MAX_KEY_LEN_BYTES) by exact (Forall_lookup_1 _ _ _ _ (po_bufs _ _ Hp) Hk).
    destruct (key_load_store kk) as [Eb El]; [done| |].
    { rewrite Hlen. destruct Hke as [Hke _]. unfold MAX_KEY_LEN_BYTES in Hke. lia. }
    exists (key_load (key_store kk)), v. split; [auto|split; [auto|]]. split; [done|split; [congruence|split; [|done]]].
    exists rest. congruence.
Qed.

(** The checksum that is stored is the one of the bytes behind it. *)
Lemma stored_crc p es :
  partition_ok p es -> header_crc32 p = crc32_ieee (partition_body p) ->
  (header_crc32 (partition_load (partition_store p)) =? crc32_ieee (drop 4 (partition_store p))) = true.
Proof.
  intros Hp Hc. apply Z.eqb_eq. unfold partition_store at 2. rewrite drop_app_length' by (by rewrite length_native_store).
  cbn [header_crc32 partition_load]. unfold partition_store, slice. rewrite drop_0.
  rewrite take_app_length' by (by rewrite length_native_store). rewrite native_load_store, Hc.
  apply Z.mod_small. apply (crc32_range (partition_body p)).
Qed.

(** A flash that works: partitions of bytes that keep what is written, also over a
    reset, and whatever happens to the variables. *)
Class FlashLaws (St : Type) `{Part configs St} `{ConfigFlash St} : Type := {
  nvm : Z -> St -> bytes;
  nvm_read n buf t s : (length buf <= length (nvm n s))%nat ->
    bm_config_read n 0 buf t s = Some ((true, take (length buf) (nvm n s)), s);
  nvm_write n b t s : (length b <= length (nvm n s))%nat -> exists s',
    bm_config_write n 0 b t s = Some (true, s') /\ nvm n s' = b ++ drop (length b) (nvm n s)
    /\ (forall m, m <> n -> nvm m s' = nvm m s) /\ part s' = part (T := configs) s;
  nvm_reset s : exists s', bm_config_reset s = Some (tt, s') /\ (forall n, nvm n s' = nvm n s)
    /\ part s' = part (T := configs) s;
  nvm_set_part n (c : configs) s : nvm n (set_part c s) = nvm n s
}.

Context {St : Type} `{PartLaws configs St} `{!ConfigFlash St} `{!FlashLaws St}.

(** The flash of a partition: its settings, or bytes that do not pass the check. *)
Definition image (n : Z) (s : St) : bytes := take sizeof_ConfigPartition (nvm n s).
Definition flash_holds (n : Z) (s : St) (f : option (list entry)) : Prop :=
  match f with
  | Some es => exists p, image n s = partition_store p /\ partition_ok p es
                 /\ header_crc32 p = crc32_ieee (partition_body p)
  | None => (header_crc32 (partition_load (image n s)) =? crc32_ieee (drop 4 (image n s))) = false
  end.

Lemma load_one n (s : St) ss f es d :
  store_holds (part s) ss -> 0 <= n < BM_CFG_PARTITION_COUNT -> ss !! Z.to_nat n = Some (es, d) ->
  (sizeof_ConfigPartition <= length (nvm n s))%nat -> flash_holds n s f ->
  exists c', (ok ← load_and_verify_nvm_config n;
     if ok : bool then mret tt
     else on_part (p ← get_partition n; put_partition n (set_header (header_crc32 p) CONFIG_VERSION 0 p))) s
    = Some (tt, set_part c' s) /\ store_holds c' (<[Z.to_nat n := (default [] f, d)]> ss).
Proof.
  intros Hs Hn Hss Hl Hf. destruct (holds_at _ _ _ Hs Hn) as (i & es' & d' & Hi & Hss' & Hp & Hd).
  rewrite Hss in Hss'. injection Hss' as <- <-. unfold load_and_verify_nvm_config.
  pose proof (length_partition_store _ _ Hp) as Hlp.
  assert (Hlb : length (image n s) = sizeof_ConfigPartition) by (unfold image; rewrite length_take; lia).
  set (p' := partition_load (image n s)).
  assert (Hload : forall (k : bool -> M St unit) ,
    ((p ← on_part (get_partition n);
     '(ok, b) ← bm_config_read n CONFIG_START_OFFSET_IN_BYTES (partition_store p) CONFIG_LOAD_TIMEOUT_MS;
     let p := partition_load b in
     _ ← on_part (put_partition n p);
     mret (ok && (header_crc32 p =? crc32_ieee (drop 4 b)))) ≫= k) s
    = k (header_crc32 p' =? crc32_ieee (drop 4 (image n s)))
        (set_part (with_info n (MkConfigInfo p' (ci_needs_commit i)) (part s)) s)).
  { intros k. erewrite bind_some; [reflexivity|].
    rewrite (bind_some _ _ _ _ _ (on_part_pure _ _ _ (get_partition_at _ _ _ Hi))).
    erewrite bind_some by (apply nvm_read; by rewrite Hlp). cbv beta iota.
    rewrite Hlp. change (take sizeof_ConfigPartition (nvm n s)) with (image n s). cbv zeta.
    by erewrite bind_some by (apply on_part_some, put_partition_at, Hi). }
  rewrite Hload. clear Hload. set (i' := MkConfigInfo p' _).
  destruct f as [fs|]; cbn [flash_holds default] in *.
  - destruct Hf as (p & Eim & Hpo & Hcrc). unfold p'. rewrite Eim, (stored_crc p fs Hpo Hcrc).
    eexists. split; [reflexivity|]. apply holds_with; [done| |exact Hd]. cbn [ram_buffer i'].
    unfold i', p'. rewrite Eim. by apply load_store.
  - fold p' in Hf. rewrite Hf.
    pose proof (info_at_with n i i' (part s) Hi) as Hi'.
    eexists. split.
    { erewrite on_part_some; [by rewrite set_part_twice|]. rewrite part_set.
      rewrite (bind_some _ _ _ _ _ (get_partition_at _ _ _ Hi')). by apply put_partition_at. }
    rewrite with_info_twice. apply holds_with; [done| |exact Hd]. cbn [ram_buffer i'].
    by apply load_empty.
Qed.

Lemma save_spec n restart (s : St) ss es d :
  store_holds (part s) ss -> 0 <= n < BM_CFG_PARTITION_COUNT -> ss !! Z.to_nat n = Some (es, d) ->
  (sizeof_ConfigPartition <= length (nvm n s))%nat ->
  exists s', save_config n restart s = Some (true, s') /\ store_holds (part s') (<[Z.to_nat n := (es, false)]> ss)
    /\ flash_holds n s' (Some es) /\ length (nvm n s') = length (nvm n s)
    /\ forall m, m <> n -> nvm m s' = nvm m s.
Proof.
  intros Hs Hn Hss Hl. destruct (holds_at _ _ _ Hs Hn) as (i & es' & d' & Hi & Hss' & Hp & Hd).
  rewrite Hss in Hss'. injection Hss' as <- <-. unfold save_config.
  rewrite (bind_some _ _ _ _ _ (on_part_pure _ _ _ (get_partition_at _ _ _ Hi))). cbv zeta.
  assert (Hbody : drop 4 (partition_store (ram_buffer i)) = partition_body (ram_buffer i))
    by (unfold partition_store; apply drop_app_length'; by rewrite length_native_store).
  rewrite Hbody. set (p := set_header _ _ _ (ram_buffer i)).
  assert (Hpo : partition_ok p es) by (destruct Hp; by split).
  pose proof (length_partition_store _ _ Hpo) as Hlp.
  erewrite bind_some by (apply on_part_some, put_partition_at, Hi). set (s1 := set_part _ s).
  assert (Hi1 : info_at n (part s1) = Some (MkConfigInfo p (ci_needs_commit i)))
    by (unfold s1; rewrite part_set; by eapply info_at_with).
  assert (Hn1 : forall m, nvm m s1 = nvm m s) by (intros m; apply nvm_set_part).
  destruct (nvm_write n (partition_store p) CONFIG_LOAD_TIMEOUT_MS s1) as (s2 & Ew & Hw & Hother & Hpart);
    [by rewrite Hn1, Hlp|].
  rewrite (bind_some _ _ _ _ _ Ew). cbv iota.
  assert (Hreset : exists s3, (when restart bm_config_reset : M St unit) s2 = Some (tt, s3)
    /\ (forall m, nvm m s3 = nvm m s2) /\ part s3 = part (T := configs) s2).
  { destruct restart; [|by exists s2]. destruct (nvm_reset s2) as (s3 & E & Hr & Hp3). by exists s3. }
  destruct Hreset as (s3 & Er & Hr & Hp3). rewrite (bind_some _ _ _ _ _ Er).
  assert (Hi3 : info_at n (part s3) = Some (MkConfigInfo p (ci_needs_commit i))) by (by rewrite Hp3, Hpart).
  erewrite bind_some by (apply on_part_some, set_needs_commit_at, Hi3). eexists. split; [reflexivity|].
  unfold flash_holds, image. rewrite part_set. setoid_rewrite nvm_set_part. rewrite Hr, Hw.
  split; [|split; [|split]].
  - apply holds_with; [|done|done]. rewrite Hp3, Hpart. unfold s1. rewrite part_set.
    rewrite <- (list_insert_id ss (Z.to_nat n) (es, d)) by done. apply holds_with; [done|done|exact Hd].
  - exists p. rewrite <- Hlp, take_app_length. done.
  - rewrite Hn1, length_app, length_drop. lia.
  - intros m Hm. by rewrite Hr, Hother, Hn1.
Qed.

Lemma init_spec (s : St) ss (fs : list (option (list entry))) :
  store_holds (part s) ss -> length fs = 3%nat ->
  (forall n f, fs !! Z.to_nat n = Some f -> 0 <= n -> flash_holds n s f /\ (sizeof_ConfigPartition <= length (nvm n s))%nat) ->
  exists c', config_init s = Some (tt, set_part c' s)
    /\ store_holds c' (zip_with (fun f (x : list entry * bool) => (default [] f, snd x)) fs ss).
Proof.
  intros Hs Hlf Hf. pose proof (proj2 Hs) as Hl.
  destruct fs as [|f0 [|f1 [|f2 [|]]]]; try done. destruct ss as [|[e0 d0] [|[e1 d1] [|[e2 d2] [|]]]]; try done.
  assert (Hc : forall c n, nvm n (set_part c s) = nvm n s) by (intros; apply nvm_set_part).
  assert (Hstep : forall n f c ss es d, [f0; f1; f2] !! Z.to_nat n = Some f -> 0 <= n < BM_CFG_PARTITION_COUNT ->
    store_holds c ss -> ss !! Z.to_nat n = Some (es, d) ->
    exists c', (ok ← load_and_verify_nvm_config n;
       if ok : bool then mret tt
       else on_part (p ← get_partition n; put_partition n (set_header (header_crc32 p) CONFIG_VERSION 0 p)))
      (set_part c s) = Some (tt, set_part c' s) /\ store_holds c' (<[Z.to_nat n := (default [] f, d)]> ss)).
  { intros n f c ss es d Hnf Hn Hsc Hss. destruct (Hf n f Hnf ltac:(lia)) as [Hfl Hsz].
    destruct (load_one n (set_part c s) ss f es d) as (c' & E & Hc').
    - by rewrite part_set.
    - done.
    - done.
    - by rewrite Hc.
    - unfold flash_holds, image in *. by rewrite !Hc.
    - exists c'. by rewrite set_part_twice in E. }
  unfold config_init. cbn [for_each].
  destruct (Hstep 0 f0 (part s) _ e0 d0 eq_refl ltac:(done) Hs eq_refl) as (c0 & E0 & Hs0).
  rewrite set_part_same in E0. rewrite (bind_some _ _ _ _ _ E0).
  destruct (Hstep 1 f1 c0 _ e1 d1 eq_refl ltac:(done) Hs0 eq_refl) as (c1 & E1 & Hs1).
  rewrite (bind_some _ _ _ _ _ E1).
  destruct (Hstep 2 f2 c1 _ e2 d2 eq_refl ltac:(done) Hs1 eq_refl) as (c2 & E2 & Hs2).
  rewrite (bind_some _ _ _ _ _ E2). exists c2. split; [done|exact Hs2].
Qed.

(** C17: settings survive a restart, and damaged ones are not used.  Saving a partition
    that holds any settings writes an image of it to its place in flash and clears its
    mark, and touches no other partition; and whenever the node starts, whatever is in
    its memory, each partition comes up with exactly the settings of its image, or
    empty when what is in flash does not have the checksum that it says. *)
Theorem config_survives_restart (s : St) ss :
  store_holds (part s) ss ->
  (forall n, 0 <= n < BM_CFG_PARTITION_COUNT -> (sizeof_ConfigPartition <= length (nvm n s))%nat) ->
  (forall n restart es d, 0 <= n < BM_CFG_PARTITION_COUNT -> ss !! Z.to_nat n = Some (es, d) ->
     exists s', save_config n restart s = Some (true, s') /\ store_holds (part s') (<[Z.to_nat n := (es, false)]> ss)
       /\ flash_holds n s' (Some es) /\ forall m, m <> n -> nvm m s' = nvm m s)
  /\ (forall fs, length fs = 3%nat -> (forall n f, fs !! Z.to_nat n = Some f -> 0 <= n -> flash_holds n s f) ->
       exists s', config_init s = Some (tt, s')
         /\ store_holds (part s') (zip_with (fun f (x : list entry * bool) => (default [] f, snd x)) fs ss)).
Proof.
  intros Hs Hl. split.
  - intros n restart es d Hn Hss. destruct (save_spec n restart s ss es d Hs Hn Hss (Hl n Hn)) as (s' & E & Hh & Hf & _ & Ho).
    by exists s'.
  - intros fs Hf Hfl. destruct (init_spec s ss fs Hs Hf) as (c' & E & Hc).
    + intros n f Hnf Hn. split; [by apply Hfl|]. apply Hl. apply lookup_lt_Some in Hnf.
      unfold BM_CFG_PARTITION_COUNT. lia.
    + exists (set_part c' s). by rewrite part_set.
Qed.
End restart.

(** ** A concrete run *)

(** A node whose flash is three arrays of bytes. *)
Definition flash_node : Type := configs * (Z -> bytes).

#[local] Instance array_flash : ConfigFlash flash_node := {
  bm_config_read n _ buf _ := fun s =>
    Some (if (length buf <=? length (snd s n))%nat then (true, take (length buf) (snd s n)) else (false, buf), s);
  bm_config_write n _ b _ := fun s =>
    if (length b <=? length (snd s n))%nat
    then Some (true, (fst s, fun m => if m =? n then b ++ drop (length b) (snd s n) else snd s m))
    else Some (false, s);
  bm_config_reset := mret tt
}.

#[local] Instance array_flash_laws : FlashLaws flash_node.
Proof.
  refine {| nvm n s := snd s n |}.
  - intros n buf t s Hl. cbn. by destruct (Nat.leb_spec (length buf) (length (snd s n))); [|lia].
  - intros n b t s Hl. cbn. destruct (Nat.leb_spec (length b) (length (snd s n))); [|lia].
    eexists. split; [done|]. cbn. rewrite Z.eqb_refl. split; [done|split; [|done]].
    intros m Hm. by destruct (Z.eqb_spec m n).
  - intros s. by exists s.
  - done.
Defined.

Definition empty_flash (_ : Z) : bytes := replicate 5000 0.

Lemma empty_flash_size n : (@sizeof_ConfigPartition platform_linux <= length (empty_flash n))%nat.
Proof. apply Nat.leb_le. vm_compute. reflexivity. Qed.

(** The bytes of an empty flash do not pass the check. *)
Lemma empty_flash_bad (c : configs) n :
  @flash_holds plain_cbor platform_linux flash_node _ _ _ n (c, empty_flash) None.
Proof. unfold flash_holds, image. cbn [nvm array_flash_laws snd]. vm_compute. reflexivity. Qed.

Lemma config_survives_restart_witness :
  exists (s s' t : flash_node),
    @save_config flash_node _ _ platform_linux 0 true s = Some (true, s')
    /\ @config_init flash_node _ _ platform_linux (zero_configs, snd s') = Some (tt, t)
    /\ @run_getter plain_cbor 0 key_a GetUint (fst t) = Some (OutNum (Some 7), fst t).
Proof.
  assert (Ha : key_ok key_a) by (split; [cbn; unfold MAX_KEY_LEN_BYTES; lia|repeat constructor; done]).
  destruct (@cfg_step_refined plain_cbor plain_laws (CfgSet 0 key_a (SetUint 7)) _ _ zero_holds) as (c & _ & Hc).
  { split; [done|split; [done|cbn; lia]]. }
  destruct (@config_survives_restart plain_cbor platform_linux ltac:(by right) flash_node _ _ _ array_flash_laws
    (c, empty_flash) _ Hc (fun n _ => empty_flash_size n)) as [Hsave _].
  destruct (Hsave 0 true _ _ ltac:(done) eq_refl) as (s' & E & _ & Hf & Ho).
  destruct (@config_survives_restart plain_cbor platform_linux ltac:(by right) flash_node _ _ _ array_flash_laws
    (zero_configs, snd s') _ zero_holds) as [_ Hinit].
  { intros n Hn. destruct (decide (n = 0)) as [->|Hne].
    - destruct Hf as (p & Him & Hp & _). pose proof (@length_partition_store plain_cbor platform_linux p _ Hp) as Hl.
      rewrite <- Him in Hl. unfold image in Hl. rewrite length_take in Hl. cbn [nvm array_flash_laws snd] in *.
      clear -Hl. lia.
    - cbn. pose proof (Ho n Hne) as Hon. cbn in Hon. rewrite Hon. apply (empty_flash_size 0). }
  destruct (Hinit [Some [(key_a, CborInt 7)]; None; None] eq_refl) as (t & Et & Ht).
  { intros n f Hnf Hn. destruct (decide (n = 0)) as [->|Hne].
    - injection Hnf as <-. exact Hf.
    - assert (f = None) as -> 
        by (destruct (Z.to_nat n) as [|[|[|k]]] eqn:En; cbn in Hnf; [lia|congruence|congruence|done]).
      pose proof (Ho n Hne) as Hon. pose proof (empty_flash_bad c n) as Hb. unfold flash_holds, image in *. cbn in Hon.
      cbn [nvm array_flash_laws snd] in *. by rewrite Hon. }
  exists (c, empty_flash), s', t. split; [exact E|split; [exact Et|]].
  destruct (@holds_at plain_cbor _ _ 0 Ht ltac:(done)) as (i & es & d & Hi & Hss & Hp & _). injection Hss as <- _.
  exact (@run_getter_spec plain_cbor 0 key_a GetUint _ _ _ Hi Hp Ha).
Defined.
