(* ===== verification/ConfigMsg.v ===== *)
(** * Settings of other nodes: src/bcmp/config.c

    Messages that get, set, remove and list the settings of a node and save them, over
    the store of [Configuration].  What is printed is left out, with the memory that is
    asked for it.  A key or a value in a message is the memory from there to the end of
    the message; where the CBOR library is given a length, it may read that much. *)
From S2P Require Import Prelude Util Os Packet Parts Device Configuration.

Definition BcmpConfigGetMessage : Z := 0xA0.
Definition BcmpConfigValueMessage : Z := 0xA1.
Definition BcmpConfigSetMessage : Z := 0xA2.
Definition BcmpConfigCommitMessage : Z := 0xA3.
Definition BcmpConfigStatusRequestMessage : Z := 0xA4.
Definition BcmpConfigStatusResponseMessage : Z := 0xA5.
Definition BcmpConfigDeleteRequestMessage : Z := 0xA6.
Definition BcmpConfigDeleteResponseMessage : Z := 0xA7.
Definition BcmpConfigClearRequestMessage : Z := 0xA8.
Definition BcmpConfigClearResponseMessage : Z := 0xA9.

Definition sizeof_BmConfigGet : Z := 18.
Definition sizeof_BmConfigValue : Z := 21.
Definition sizeof_BmConfigSet : Z := 22.
Definition sizeof_BmConfigCommit : Z := 17.
Definition sizeof_BmConfigStatusRequest : Z := 17.
Definition sizeof_BmConfigStatusKeyData : Z := 1.
Definition sizeof_BmConfigStatusResponse : Z := 19.
Definition sizeof_BmConfigDeleteKeyRequest : Z := 18.
Definition sizeof_BmConfigDeleteKeyResponse : Z := 19.
Definition sizeof_BmConfigClearRequest : Z := 17.
Definition sizeof_BmConfigClearResponse : Z := 18.
Definition bcmp_max_payload_size_bytes : Z := 1500.

Definition bool_byte (b : bool) : Z := if b then 1 else 0.

(** [None] for a length: it is not written. *)
Definition bcmp_config_decode_value `{CborApi} `{Platform} (type : ConfigDataTypes) (data : option bytes)
    (data_length : Z) (buf : option bytes) (buf_length : Z) : option (BmErr * bytes * Z) :=
  match data, buf with
  | Some d, Some b =>
      if (data_length =? 0) || (buf_length =? 0) then Some (BmEINVAL, b, buf_length)
      else
        d ← read_at 0 (Z.to_nat data_length) d;
        match cbor_parser_init d with
        | None => Some (BmEBADMSG, b, buf_length)
        | Some it =>
            if cbor_value_is_valid it then
              match cbor_type_to_config it with
              | None => Some (BmEBADMSG, b, buf_length)
              | Some type_cmp =>
                  if decide (type_cmp = type) then
                    match type with
                    | UINT32 =>
                        if 4 <=? buf_length then
                          match cbor_value_get_uint64 it with
                          | Some z => b ← write_at 0 (native_store 4 (u32 z)) b; Some (BmOK, b, buf_length)
                          | None => Some (BmEBADMSG, b, buf_length)
                          end
                        else Some (BmEBADMSG, b, buf_length)
                    | INT32 =>
                        if 4 <=? buf_length then
                          match cbor_value_get_int64 it with
                          | Some z => b ← write_at 0 (native_store 4 (u32 z)) b; Some (BmOK, b, buf_length)
                          | None => Some (BmEBADMSG, b, buf_length)
                          end
                        else Some (BmEBADMSG, b, buf_length)
                    | FLOAT =>
                        if 4 <=? buf_length then
                          match cbor_value_get_float it with
                          | Some z => b ← write_at 0 (native_store 4 z) b; Some (BmOK, b, buf_length)
                          | None => Some (BmEBADMSG, b, buf_length)
                          end
                        else Some (BmEBADMSG, b, buf_length)
                    | STR =>
                        let init_length := u32 buf_length in
                        let '(ok, b, n) := cbor_value_copy_text_string it b buf_length in
                        if ok : bool then
                          if init_length <? n then Some (BmEBADMSG, b, n)
                          else b ← write_at (Z.to_nat n) [0] b; Some (BmOK, b, n)
                        else Some (BmEBADMSG, b, n)
                    | BYTES =>
                        let '(ok, b, n) := cbor_value_copy_byte_string it b buf_length in
                        Some (if ok : bool then BmOK else BmEBADMSG, b, n)
                    | ARRAY => Some (BmOK, b, buf_length)
                    end
                  else Some (BmEIO, b, buf_length)
              end
            else Some (BmEBADMSG, b, buf_length)
        end
  | _, _ => Some (BmEINVAL, default [] buf, buf_length)
  end.

Section messages.
Context {St : Type} `{Part configs St} `{BcmpApi St} `{CborApi} `{ConfigFlash St} `{Platform} (CFG : DeviceCfg).
(** [bcmp_ll_forward] of src/bcmp/bcmp.c. *)
Context (bcmp_ll_forward : BcmpHeader -> bytes -> Z -> Z -> M St BmErr).

(** A [BmConfigHeader] and the partition. *)
Definition config_header (target_node_id source_node_id : Z) : bytes :=
  native_store 8 target_node_id ++ native_store 8 source_node_id.

(** What is sent to all neighbors. *)
Definition config_tx (type : Z) (msg : bytes) (size seq_num : Z) (reply_cb : option nat) : M St BmErr :=
  bcmp_tx (Some multicast_ll_addr) type msg size seq_num reply_cb.

(** The functions that ask give whether the message was sent, and the error when it is
    written. *)
Definition bcmp_config_get (target_node_id partition key_len : Z) (key : option bytes) (reply_cb : option nat)
    : M St (bool * option BmErr) :=
  match key with
  | None => mret (false, None)
  | Some key =>
      let msg_size := usize (sizeof_BmConfigGet + key_len) in
      ok ← on_part (with_cf_os malloc_ok);
      if ok : bool then
        msg ← lift (write_at 0 (config_header target_node_id (node_id CFG) ++ [u8 partition])
                      (replicate (Z.to_nat msg_size) 0));
        if Z.of_nat MAX_KEY_LEN_BYTES <? key_len then mret (false, Some BmEINVAL)
        else
          k ← lift (read_at 0 (Z.to_nat key_len) key);
          msg ← lift (store_all [(17%nat, [u8 key_len]); (18%nat, k)] msg);
          err ← config_tx BcmpConfigGetMessage msg (u16 msg_size) 0 reply_cb;
          mret (is_ok err, Some err)
      else mret (false, Some BmEINVAL)
  end.

Definition bcmp_config_set (target_node_id partition key_len : Z) (key : option bytes) (value_size : Z) (val : bytes)
    (reply_cb : option nat) : M St (bool * option BmErr) :=
  match key with
  | None => mret (false, None)
  | Some key =>
      let msg_len := usize (sizeof_BmConfigSet + key_len + value_size) in
      ok ← on_part (with_cf_os malloc_ok);
      if ok : bool then
        msg ← lift (write_at 0 (config_header target_node_id (node_id CFG) ++ [u8 partition])
                      (replicate (Z.to_nat msg_len) 0));
        if Z.of_nat MAX_KEY_LEN_BYTES <? key_len then mret (false, Some BmEINVAL)
        else
          k ← lift (read_at 0 (Z.to_nat key_len) key);
          v ← lift (read_at 0 (Z.to_nat value_size) val);
          msg ← lift (store_all
            [(17%nat, [u8 key_len]); (22%nat, k); (18%nat, native_store 4 (u32 value_size));
             ((22 + Z.to_nat key_len)%nat, v)] msg);
          err ← config_tx BcmpConfigSetMessage msg (u16 msg_len) 0 reply_cb;
          mret (is_ok err, Some err)
      else mret (false, Some BmEINVAL)
  end.

Definition bcmp_config_commit (target_node_id partition : Z) : M St (bool * BmErr) :=
  ok ← on_part (with_cf_os malloc_ok);
  if ok : bool then
    err ← config_tx BcmpConfigCommitMessage (config_header target_node_id (node_id CFG) ++ [u8 partition])
            sizeof_BmConfigCommit 0 None;
    mret (is_ok err, err)
  else mret (false, BmEINVAL).

Definition bcmp_config_status_request (target_node_id partition : Z) (reply_cb : option nat) : M St (bool * BmErr) :=
  ok ← on_part (with_cf_os malloc_ok);
  if ok : bool then
    err ← config_tx BcmpConfigStatusRequestMessage (config_header target_node_id (node_id CFG) ++ [u8 partition])
            sizeof_BmConfigStatusRequest 0 reply_cb;
    mret (is_ok err, err)
  else mret (false, BmEINVAL).

Definition bcmp_config_del_key (target_node_id partition key_len : Z) (key : option bytes) (reply_cb : option nat)
    : M St bool :=
  match key with
  | None => mret false
  | Some key =>
      let msg_size := usize (sizeof_BmConfigDeleteKeyRequest + key_len) in
      ok ← on_part (with_cf_os malloc_ok);
      if ok : bool then
        k ← lift (read_at 0 (Z.to_nat key_len) key);
        msg ← lift (store_all
          [(0%nat, config_header target_node_id (node_id CFG) ++ [u8 partition; u8 key_len]); (18%nat, k)]
          (replicate (Z.to_nat msg_size) 0));
        err ← config_tx BcmpConfigDeleteRequestMessage msg (u16 msg_size) 0 reply_cb;
        mret (is_ok err)
      else mret false
  end.

Definition bcmp_config_clear_partition (target_node_id partition : Z) (reply_cb : option nat) : M St bool :=
  if partition <? BM_CFG_PARTITION_COUNT then
    err ← config_tx BcmpConfigClearRequestMessage (config_header target_node_id (node_id CFG) ++ [u8 partition])
            sizeof_BmConfigClearRequest 0 reply_cb;
    mret (is_ok err)
  else mret false.

(** ** Answers *)

(** The keys as the answer has them; a key of the store takes its length in one byte. *)
Fixpoint status_keys (ks : list ConfigKey) : option (list bytes) :=
  match ks with
  | [] => Some []
  | k :: ks =>
      d ← read_at 0 (Z.to_nat (key_len k)) (key_buf k);
      ds ← status_keys ks;
      Some ([u8 (key_len k)] :: d :: ds)
  end.

Definition status_size (ks : list ConfigKey) : Z :=
  foldl (fun n k => usize (usize (n + sizeof_BmConfigStatusKeyData) + key_len k)) sizeof_BmConfigStatusResponse ks.

(** The first [num_keys] of the keys. *)
Definition bcmp_config_status_response (target_node_id partition : Z) (commited : bool) (num_keys : Z)
    (keys : list ConfigKey) (seq_num : Z) : M St (bool * BmErr) :=
  ks ← lift (if (Z.to_nat num_keys <=? length keys)%nat then Some (take (Z.to_nat num_keys) keys) else None);
  let msg_size := status_size ks in
  if bcmp_max_payload_size_bytes <? msg_size then mret (false, BmEINVAL)
  else
    ok ← on_part (with_cf_os malloc_ok);
    if ok : bool then
      ds ← lift (status_keys ks);
      msg ← lift (store_all
        ((0%nat, config_header target_node_id (node_id CFG) ++ [u8 partition; bool_byte commited; num_keys])
         :: at_offsets 19 ds) (replicate (Z.to_nat msg_size) 0));
      err ← config_tx BcmpConfigStatusResponseMessage msg (u16 msg_size) seq_num None;
      mret (is_ok err, err)
    else mret (false, BmEINVAL).

Definition bcmp_config_send_value (target_node_id partition data_length : Z) (data : bytes) (seq_num : Z)
    : M St (bool * BmErr) :=
  let msg_len := usize (data_length + sizeof_BmConfigValue) in
  ok ← on_part (with_cf_os malloc_ok);
  if ok : bool then
    d ← lift (read_at 0 (Z.to_nat data_length) data);
    msg ← lift (store_all
      [(0%nat, config_header target_node_id (node_id CFG) ++ [u8 partition] ++ native_store 4 data_length); (21%nat, d)]
      (replicate (Z.to_nat msg_len) 0));
    err ← config_tx BcmpConfigValueMessage msg (u16 msg_len) seq_num None;
    mret (is_ok err, err)
  else mret (false, BmEINVAL).

Definition bcmp_config_send_del_key_response (target_node_id partition key_len : Z) (key : option bytes)
    (success : bool) (seq_num : Z) : M St bool :=
  match key with
  | None => mret false
  | Some key =>
      let msg_size := usize (sizeof_BmConfigDeleteKeyResponse + key_len) in
      ok ← on_part (with_cf_os malloc_ok);
      if ok : bool then
        k ← lift (read_at 0 (Z.to_nat key_len) key);
        msg ← lift (store_all
          [(0%nat, config_header target_node_id (node_id CFG) ++ [bool_byte success; u8 partition; u8 key_len]); (19%nat, k)]
          (replicate (Z.to_nat msg_size) 0));
        err ← config_tx BcmpConfigDeleteResponseMessage msg (u16 msg_size) seq_num None;
        mret (is_ok err)
      else mret false
  end.

Definition bcmp_send_clear_response_message (target_node_id partition : Z) (success : bool) (seq_num : Z) : M St bool :=
  err ← config_tx BcmpConfigClearResponseMessage
          (config_header target_node_id (node_id CFG) ++ [bool_byte success; u8 partition])
          sizeof_BmConfigClearResponse seq_num None;
  mret (is_ok err).

(** ** Handlers *)

(** A byte, and the source, of a message. *)
Definition msg_byte (i : nat) (msg : bytes) : M St Z := lift (msg !! i).
Definition msg_source (msg : bytes) : M St Z := d ← lift (read_at 8 8 msg); mret (native_load d).

Definition bcmp_config_process_commit_msg (msg : bytes) : M St unit :=
  partition ← msg_byte 16 msg; _ ← save_config partition true; mret tt.

Definition bcmp_config_process_status_request_msg (msg : bytes) (seq_num : Z) : M St unit :=
  partition ← msg_byte 16 msg;
  '(ks, num_keys) ← on_part (get_stored_keys partition);
  source ← msg_source msg;
  dirty ← on_part (needs_commit partition);
  _ ← bcmp_config_status_response source partition dirty num_keys ks seq_num;
  mret tt.

Definition bcmp_config_process_config_get_msg (msg : bytes) (seq_num : Z) : M St unit :=
  ok ← on_part (with_cf_os malloc_ok);
  when ok
    (partition ← msg_byte 16 msg;
     key_length ← msg_byte 17 msg;
     '(found, buffer, buffer_len) ← on_part (get_config_cbor partition (Some (drop 18 msg)) key_length
        (Some (replicate MAX_CONFIG_BUFFER_SIZE_BYTES 0)) (Z.of_nat MAX_CONFIG_BUFFER_SIZE_BYTES));
     when found
       (source ← msg_source msg;
        _ ← bcmp_config_send_value source partition (u32 buffer_len) buffer seq_num;
        mret tt)).

Definition bcmp_config_process_config_set_msg (msg : bytes) (seq_num : Z) : M St unit :=
  data_length ← lift (read_at 18 4 msg);
  let data_length := native_load data_length in
  when (negb ((Z.of_nat MAX_CONFIG_BUFFER_SIZE_BYTES <? data_length) || (data_length =? 0)))
    (partition ← msg_byte 16 msg;
     key_length ← msg_byte 17 msg;
     let data := drop (22 + Z.to_nat key_length) msg in
     ok ← on_part (set_config_cbor partition (Some (drop 22 msg)) key_length (Some data) data_length);
     when ok
       (source ← msg_source msg;
        _ ← bcmp_config_send_value source partition data_length data seq_num;
        mret tt)).

(** What is done besides printing: for a string, a buffer is asked for. *)
Definition bcmp_process_value_message (msg : bytes) : M St unit :=
  data_length ← lift (read_at 17 4 msg);
  data ← lift (read_at 21 (Z.to_nat (native_load data_length)) msg);
  match cbor_parser_init data with
  | Some it =>
      if cbor_value_is_valid it then
        match cbor_type_to_config it with
        | Some (STR | BYTES | ARRAY) => _ ← on_part (with_cf_os malloc_ok); mret tt
        | _ => mret tt
        end
      else mret tt
  | None => mret tt
  end.

Definition bcmp_process_del_request_message (msg : bytes) (seq_num : Z) : M St unit :=
  partition ← msg_byte 16 msg;
  key_length ← msg_byte 17 msg;
  success ← on_part (remove_key partition (Some (drop 18 msg)) key_length);
  source ← msg_source msg;
  _ ← bcmp_config_send_del_key_response source partition key_length (Some (drop 18 msg)) success seq_num;
  mret tt.

Definition bcmp_process_del_response_message (msg : bytes) : M St unit :=
  key_length ← msg_byte 18 msg;
  ok ← on_part (with_cf_os malloc_ok);
  when ok (_ ← lift (read_at 19 (Z.to_nat key_length) msg); mret tt).

Definition bcmp_process_clear_request_message (msg : bytes) (seq_num : Z) : M St unit :=
  partition ← msg_byte 16 msg;
  success ← on_part (clear_partition partition);
  source ← msg_source msg;
  _ ← bcmp_send_clear_response_message source partition success seq_num;
  mret tt.

Definition bcmp_process_clear_response_message (msg : bytes) : M St unit :=
  _ ← msg_source msg; _ ← msg_byte 16 msg; _ ← msg_byte 17 msg; mret tt.

(** The keys of an answer, which are printed; without memory for one, the pointer stays. *)
Fixpoint print_status_keys (num_keys : nat) (off : nat) (msg : bytes) : M St unit :=
  match num_keys with
  | O => mret tt
  | S n =>
      key_length ← msg_byte off msg;
      ok ← on_part (with_cf_os malloc_ok);
      if ok : bool then
        _ ← lift (read_at (off + 1) (Z.to_nat key_length) msg);
        print_status_keys n (off + (Z.to_nat key_length + 1)) msg
      else print_status_keys n off msg
  end.

Definition process_status_response (msg : bytes) : M St unit :=
  _ ← msg_source msg; _ ← msg_byte 16 msg; _ ← msg_byte 17 msg;
  num_keys ← msg_byte 18 msg;
  print_status_keys (Z.to_nat num_keys) 19 msg.

(** The sequence number of a message is handed on in sixteen bits. *)
Definition bcmp_process_config_message (data : BcmpProcessData) : M St BmErr :=
  let msg := pd_payload data in
  let type := h_type (pd_header data) in
  let seq_num := u16 (h_seq_num (pd_header data)) in
  target ← lift (read_at 0 8 msg);
  if negb (native_load target =? node_id CFG) then
    bcmp_ll_forward (pd_header data) msg (pd_size data) (pd_ingress_port data)
  else
    _ ← (if type =? BcmpConfigGetMessage then bcmp_config_process_config_get_msg msg seq_num
         else if type =? BcmpConfigSetMessage then bcmp_config_process_config_set_msg msg seq_num
         else if type =? BcmpConfigCommitMessage then bcmp_config_process_commit_msg msg
         else if type =? BcmpConfigStatusRequestMessage then bcmp_config_process_status_request_msg msg seq_num
         else if type =? BcmpConfigStatusResponseMessage then process_status_response msg
         else if type =? BcmpConfigValueMessage then bcmp_process_value_message msg
         else if type =? BcmpConfigDeleteRequestMessage then bcmp_process_del_request_message msg seq_num
         else if type =? BcmpConfigDeleteResponseMessage then bcmp_process_del_response_message msg
         else if type =? BcmpConfigClearRequestMessage then bcmp_process_clear_request_message msg seq_num
         else if type =? BcmpConfigClearResponseMessage then bcmp_process_clear_response_message msg
         else mret tt);
    mret BmOK.

(** The handler has the number [handler]. *)
Definition bcmp_config_init (handler : nat) : M St BmErr :=
  let cfg (reply request : bool) := MkCfg reply request (Some handler) in
  err ← packet_add (cfg false true) BcmpConfigGetMessage;
  err ← unless_err err (packet_add (cfg false true) BcmpConfigSetMessage);
  err ← unless_err err (packet_add (cfg false false) BcmpConfigCommitMessage);
  err ← unless_err err (packet_add (cfg false true) BcmpConfigStatusRequestMessage);
  err ← unless_err err (packet_add (cfg true false) BcmpConfigStatusResponseMessage);
  err ← unless_err err (packet_add (cfg false true) BcmpConfigDeleteRequestMessage);
  err ← unless_err err (packet_add (cfg true false) BcmpConfigDeleteResponseMessage);
  err ← unless_err err (packet_add (cfg false true) BcmpConfigClearRequestMessage);
  err ← unless_err err (packet_add (cfg true false) BcmpConfigClearResponseMessage);
  unless_err err (packet_add (cfg true false) BcmpConfigValueMessage).
End messages.
