(* ===== verification/ConfigRemote.v ===== *)
(** * Settings over the network: src/bcmp/config.c

    What the messages of another node do to the store, and what goes back. *)
From S2P Require Import Prelude Util Crc Os Packet Parts Device Configuration ConfigStore ConfigFlash ConfigMsg.

Section format.
Context `{Platform}.

(** The messages; [target] is the node that they are for. *)
Definition config_get_msg (target source n : Z) (k : bytes) : bytes :=
  config_header target source ++ [n; Z.of_nat (length k)] ++ k.
Definition config_set_msg (target source n : Z) (k d : bytes) : bytes :=
  config_header target source ++ [n; Z.of_nat (length k)] ++ native_store 4 (Z.of_nat (length d)) ++ k ++ d.
Definition config_value_msg (target source n : Z) (d : bytes) : bytes :=
  config_header target source ++ [n] ++ native_store 4 (Z.of_nat (length d)) ++ d.
Definition config_del_reply (target source n : Z) (k : bytes) (success : bool) : bytes :=
  config_header target source ++ [bool_byte success; n; Z.of_nat (length k)] ++ k.

Lemma length_config_header t s : length (config_header t s) = 16%nat.
Proof. unfold config_header. by rewrite length_app, !length_native_store. Qed.

Lemma read_config_target t s l : read_at 0 8 (config_header t s ++ l) = Some (native_store 8 t).
Proof. unfold config_header. rewrite <- app_assoc. apply read_at_head. by rewrite length_native_store. Qed.

Lemma read_config_source {St} t s l (x : St) :
  0 <= s < 2 ^ 64 -> msg_source (config_header t s ++ l) x = Some (s, x).
Proof.
  intros Hs. unfold msg_source, config_header. rewrite <- app_assoc, bind_lift.
  rewrite (read_behind (native_store 8 t) l (native_store 8 s)) by (by rewrite length_native_store).
  cbn [mbind option_bind]. rewrite native_load_store, Z.mod_small by done. done.
Qed.

Lemma read_config_byte {St} t s l i (x : St) : msg_byte (16 + i) (config_header t s ++ l) x = (fun b => (b, x)) <$> l !! i.
Proof.
  unfold msg_byte, lift. rewrite lookup_app_r, length_config_header by (rewrite length_config_header; lia).
  by replace (16 + i - 16)%nat with i by lia.
Qed.

Lemma drop_config_header t s l i : drop (16 + i) (config_header t s ++ l) = drop i l.
Proof. by rewrite <- drop_drop, drop_app_length' by (by rewrite length_config_header). Qed.
End format.

Section remote.
Context `{CborApi} `{!CborLaws} `{Platform} (size_t_ok : size_t_bits = 32 \/ size_t_bits = 64).
Context {St : Type} `{PartLaws configs St} `{BcmpApi St} `{!ConfigFlash St}.
Context (CFG : DeviceCfg) (forward : BcmpHeader -> bytes -> Z -> Z -> M St BmErr).

Lemma cf_malloc (c : configs) : willing (cf_os c) -> with_cf_os malloc_ok c = Some (true, c).
Proof. destruct c as [l [a w t]]. intros [Ha Hw]. cbn in Ha, Hw. by subst. Qed.

Lemma cf_malloc_part (s : St) :
  willing (cf_os (part s)) -> on_part (with_cf_os malloc_ok) s = Some (true, s).
Proof. intros Hw. by apply on_part_pure, cf_malloc. Qed.

Lemma usize_message z : 0 <= z < 2 ^ 16 -> usize z = z.
Proof. intros Hz. unfold usize. apply wrap_small. destruct size_t_ok as [-> | ->]; lia. Qed.

(** Stores that fill a buffer. *)
Lemma store_two (h d : bytes) n m :
  length h = n -> m = (n + length d)%nat -> store_all [(0%nat, h); (n, d)] (replicate m 0) = Some (h ++ d).
Proof.
  intros <- ->. pose proof (store_chunks [h; d] [] (replicate (length h + length d) 0)) as Hs.
  cbn [at_offsets length Nat.add concat app] in Hs. rewrite Hs.
  - rewrite app_nil_r, drop_ge, app_nil_r; [done|]. rewrite length_replicate, !length_app. lia.
  - rewrite length_replicate, !length_app. cbn. lia.
Qed.

Lemma send_value_spec source n d more seq (s : St) :
  willing (cf_os (part s)) -> 0 <= n < BM_CFG_PARTITION_COUNT -> (length d <= MAX_CONFIG_BUFFER_SIZE_BYTES)%nat ->
  bcmp_config_send_value CFG source n (Z.of_nat (length d)) (d ++ more) seq s
  = (err ← bcmp_tx (Some multicast_ll_addr) BcmpConfigValueMessage (config_value_msg source (node_id CFG) n d)
             (21 + Z.of_nat (length d)) seq None;
     mret (is_ok err, err)) s.
Proof.
  intros Hw Hn Hd. unfold bcmp_config_send_value, sizeof_BmConfigValue, config_tx. unfold BM_CFG_PARTITION_COUNT in Hn.
  unfold MAX_CONFIG_BUFFER_SIZE_BYTES in Hd. rewrite usize_message by lia.
  rewrite (bind_some _ _ _ _ _ (cf_malloc_part s Hw)). cbv iota.
  rewrite Nat2Z.id, bind_lift, read_at_head by done. cbn [mbind option_bind].
  rewrite bind_lift, store_two.
  - cbn [mbind option_bind]. rewrite u8_small, u16_small, (Z.add_comm _ 21) by lia.
    unfold config_value_msg. by rewrite <- !app_assoc.
  - by rewrite !length_app, length_config_header, length_native_store.
  - lia.
Qed.

Lemma send_value_done source n d more seq (s : St) :
  willing (cf_os (part s)) -> 0 <= n < BM_CFG_PARTITION_COUNT -> (length d <= MAX_CONFIG_BUFFER_SIZE_BYTES)%nat ->
  (_ ← bcmp_config_send_value CFG source n (Z.of_nat (length d)) (d ++ more) seq; mret tt) s
  = (_ ← bcmp_tx (Some multicast_ll_addr) BcmpConfigValueMessage (config_value_msg source (node_id CFG) n d)
           (21 + Z.of_nat (length d)) seq None; mret tt : M St unit) s.
Proof.
  intros Hw Hn Hd. pose proof (send_value_spec source n d more seq s Hw Hn Hd) as E.
  unfold mbind, M_bind in *. rewrite E. by destruct (bcmp_tx _ _ _ _ _ _ s) as [[a x]|].
Qed.

(** A message for another node is passed on. *)
Lemma other_node data (s : St) target source l :
  0 <= target < 2 ^ 64 -> target <> node_id CFG -> pd_payload data = config_header target source ++ l ->
  bcmp_process_config_message CFG forward data s
  = forward (pd_header data) (pd_payload data) (pd_size data) (pd_ingress_port data) s.
Proof.
  intros Ht Hne Hp. unfold bcmp_process_config_message. cbv zeta. rewrite Hp, bind_lift, read_config_target.
  cbn [mbind option_bind]. rewrite native_load_store, Z.mod_small by done.
  by destruct (Z.eqb_spec target (node_id CFG)).
Qed.

(** What is done with a message for the node itself. *)
Lemma own_message data (s : St) source l (h : M St unit) :
  0 <= node_id CFG < 2 ^ 64 -> pd_payload data = config_header (node_id CFG) source ++ l ->
  (let seq_num := u16 (h_seq_num (pd_header data)) in
   let type := h_type (pd_header data) in
   h = if type =? BcmpConfigGetMessage then bcmp_config_process_config_get_msg CFG (pd_payload data) seq_num
       else if type =? BcmpConfigSetMessage then bcmp_config_process_config_set_msg CFG (pd_payload data) seq_num
       else if type =? BcmpConfigCommitMessage then bcmp_config_process_commit_msg (pd_payload data)
       else if type =? BcmpConfigStatusRequestMessage
       then bcmp_config_process_status_request_msg CFG (pd_payload data) seq_num
       else if type =? BcmpConfigStatusResponseMessage then process_status_response (pd_payload data)
       else if type =? BcmpConfigValueMessage then bcmp_process_value_message (pd_payload data)
       else if type =? BcmpConfigDeleteRequestMessage
       then bcmp_process_del_request_message CFG (pd_payload data) seq_num
       else if type =? BcmpConfigDeleteResponseMessage then bcmp_process_del_response_message (pd_payload data)
       else if type =? BcmpConfigClearRequestMessage
       then bcmp_process_clear_request_message CFG (pd_payload data) seq_num
       else if type =? BcmpConfigClearResponseMessage then bcmp_process_clear_response_message (pd_payload data)
       else mret tt) ->
  bcmp_process_config_message CFG forward data s = (_ ← h; mret BmOK) s.
Proof.
  intros Hid Hp ->. unfold bcmp_process_config_message. cbv zeta. rewrite Hp, bind_lift, read_config_target.
  cbn [mbind option_bind]. rewrite native_load_store, Z.mod_small, Z.eqb_refl by done. done.
Qed.

Lemma key_length_byte k : key_ok k -> 0 <= Z.of_nat (length k) < 256.
Proof. intros [Hk _]. unfold MAX_KEY_LEN_BYTES in Hk. lia. Qed.

(** What a request to set a value calls. *)
Lemma process_set_calls source n k d seq (s : St) :
  0 <= n < BM_CFG_PARTITION_COUNT -> key_ok k -> (0 < length d <= MAX_CONFIG_BUFFER_SIZE_BYTES)%nat ->
  let msg := config_set_msg (node_id CFG) source n k d in
  bcmp_config_process_config_set_msg CFG msg seq s
  = (ok ← on_part (set_config_cbor n (Some (k ++ d)) (Z.of_nat (length k)) (Some d) (Z.of_nat (length d)));
     when ok (source ← msg_source msg;
              _ ← bcmp_config_send_value CFG source n (Z.of_nat (length d)) d seq; mret tt)) s.
Proof.
  intros Hn Hk Hd msg. pose proof (key_length_byte k Hk). unfold MAX_CONFIG_BUFFER_SIZE_BYTES in Hd.
  unfold bcmp_config_process_config_set_msg, msg, config_set_msg.
  set (h := config_header (node_id CFG) source). set (kd := k ++ d).
  assert (Hlen : read_at 18 4 (h ++ [n; Z.of_nat (length k)] ++ native_store 4 (Z.of_nat (length d)) ++ kd)
    = Some (native_store 4 (Z.of_nat (length d)))).
  { rewrite app_assoc. apply read_behind; [|by rewrite length_native_store].
    unfold h. by rewrite length_app, length_config_header. }
  rewrite bind_lift, Hlen. cbn [mbind option_bind]. rewrite native_load_store, Z.mod_small by lia.
  unfold MAX_CONFIG_BUFFER_SIZE_BYTES. destruct (Z.ltb_spec (Z.of_nat 50) (Z.of_nat (length d))); [lia|].
  destruct (Z.eqb_spec (Z.of_nat (length d)) 0); [lia|]. cbn [orb negb when].
  pose proof (fun l i => read_config_byte (node_id CFG) source l i s) as Hbyte. fold h in Hbyte.
  rewrite (bind_some _ _ _ _ _ (Hbyte _ 0%nat)) || (erewrite bind_some; [|by rewrite (Hbyte _ 0%nat)]).
  erewrite bind_some; [|by rewrite (Hbyte _ 1%nat)]. cbv zeta.
  assert (Hdrop : drop 22 (h ++ [n; Z.of_nat (length k)] ++ native_store 4 (Z.of_nat (length d)) ++ kd) = kd).
  { rewrite !app_assoc. apply drop_app_length'. unfold h. by rewrite !length_app, length_config_header, length_native_store. }
  rewrite Nat2Z.id, <- drop_drop, Hdrop. unfold kd. by rewrite drop_app_length.
Qed.

(** A new key whose message has no terminator. *)
Lemma process_set_open source n k d item seq (s : St) ss es dirty :
  store_holds (part s) ss -> ss !! Z.to_nat n = Some (es, dirty) ->
  0 <= n < BM_CFG_PARTITION_COUNT -> key_ok k -> key_place k es = None -> (length es < MAX_NUM_KV)%nat -> c_string d = None ->
  (0 < length d <= MAX_CONFIG_BUFFER_SIZE_BYTES)%nat -> shows d item ->
  bcmp_config_process_config_set_msg CFG (config_set_msg (node_id CFG) source n k d) seq s = None.
Proof.
  intros Hs Hss Hn Hk Hj Hl Ht Hd Hshow.
  destruct (holds_at _ _ _ Hs Hn) as (i & es' & d' & Hi & Hss' & Hp & _). rewrite Hss in Hss'. injection Hss' as <- <-.
  rewrite process_set_calls by done. unfold on_part, zoom, mbind at 1, M_bind at 1.
  pose proof (set_cbor_open n i es k d (part s) d [] item Hi Hp Hk Hj Hl Ht Hd Hshow) as E. rewrite app_nil_r in E. by rewrite E.
Qed.

(** A request to set a value. *)
Lemma process_set_spec source n k d item seq (s : St) ss es dirty :
  store_holds (part s) ss -> ss !! Z.to_nat n = Some (es, dirty) -> willing (cf_os (part s)) ->
  0 <= n < BM_CFG_PARTITION_COUNT -> 0 <= source < 2 ^ 64 -> key_ok k ->
  (key_place k es = None -> exists t, c_string d = Some t) ->
  (0 < length d <= MAX_CONFIG_BUFFER_SIZE_BYTES)%nat -> shows d item -> item_fits item ->
  let full := bool_decide (key_place k es = None /\ length es = MAX_NUM_KV) in
  exists c', store_holds c' (if full then ss else <[Z.to_nat n := (put_item k item es, true)]> ss)
    /\ (full = true -> c' = part s)
    /\ bcmp_config_process_config_set_msg CFG (config_set_msg (node_id CFG) source n k d) seq s
       = if full then Some (tt, set_part c' s)
         else (_ ← bcmp_tx (Some multicast_ll_addr) BcmpConfigValueMessage (config_value_msg source (node_id CFG) n d)
                     (21 + Z.of_nat (length d)) seq None; mret tt) (set_part c' s).
Proof.
  intros Hs Hss Hw Hn Hsrc Hk Ht Hd Hshow Hfit full.
  destruct (holds_at _ _ _ Hs Hn) as (i & es' & d' & Hi & Hss' & Hp & _). rewrite Hss in Hss'. injection Hss' as <- <-.
  destruct (set_cbor_spec n i es k d (part s) d [] item Hi Hp Hk Ht Hd Hshow Hfit) as (i' & E & Hi'). fold full in E, Hi'.
  exists (with_info n i' (part s)). split; [|split].
  { destruct full; [by subst i'; rewrite with_info_same|]. destruct Hi' as (? & ? & _). by apply holds_with. }
  { intros Hfull. rewrite Hfull in Hi'. subst i'. by apply with_info_same. }
  rewrite process_set_calls by done. cbv zeta.
  rewrite app_nil_r in E. rewrite (bind_some _ _ _ _ _ (on_part_some _ _ _ _ E)).
  destruct full; [done|]. cbn [negb when].
  erewrite bind_some by (by apply read_config_source).
  pose proof (send_value_done source n d [] seq (set_part (with_info n i' (part s)) s)) as Hsend.
  rewrite app_nil_r in Hsend. rewrite part_set in Hsend. apply Hsend; [done|done|unfold MAX_CONFIG_BUFFER_SIZE_BYTES in *; lia].
Qed.

(** The bytes of a value, and what they show. *)
Lemma get_cbor_spec n i es k r c :
  info_at n c = Some i -> partition_ok (ram_buffer i) es -> key_ok k ->
  match item_at k es with
  | None => get_config_cbor n (Some (k ++ r)) (Z.of_nat (length k)) (Some (replicate 50 0)) 50 c
            = Some ((false, replicate 50 0, 50), c)
  | Some item => exists v, length v = MAX_CONFIG_BUFFER_SIZE_BYTES /\ shows v item
      /\ get_config_cbor n (Some (k ++ r)) (Z.of_nat (length k)) (Some (replicate 50 0)) 50 c
         = Some ((true, v, 50), c)
  end.
Proof.
  intros Hi Hp Hk. pose proof (parser_spec n i es k r c Hi Hp Hk) as Hpar. fold (item_at k es) in Hpar.
  unfold get_config_cbor. destruct (item_at k es) as [item|].
  - destruct Hpar as (v & j & Hj & Hv & Hs & _ & E).
    pose proof (Forall_lookup_1 _ _ _ _ (po_vals _ _ Hp) Hv) as Hl. cbv beta in Hl.
    exists v. split; [done|split; [done|]]. rewrite (bind_some _ _ _ _ _ E).
    rewrite (bind_some _ _ _ _ _ (get_partition_at _ _ _ Hi)).
    destruct Hs as (cv & -> & -> & _). rewrite bind_lift, (find_key_spec _ _ _ _ Hp Hk), Hj.
    cbn [mbind option_bind]. change (50 <? Z.of_nat MAX_CONFIG_BUFFER_SIZE_BYTES) with false. cbv iota.
    rewrite bind_lift, Hv. cbn [mbind option_bind]. rewrite bind_lift. unfold write_at.
    rewrite length_replicate, Hl. cbn [MAX_CONFIG_BUFFER_SIZE_BYTES Nat.add Nat.leb mbind option_bind].
    unfold blit. rewrite take_0, drop_ge by (rewrite length_replicate, Hl; unfold MAX_CONFIG_BUFFER_SIZE_BYTES; lia).
    cbn [app]. by rewrite app_nil_r.
  - rewrite (bind_some _ _ _ _ _ Hpar). by rewrite (bind_some _ _ _ _ _ (get_partition_at _ _ _ Hi)).
Qed.

(** A request for a value. *)
Lemma process_get_spec source n k seq (s : St) ss es dirty :
  store_holds (part s) ss -> ss !! Z.to_nat n = Some (es, dirty) -> willing (cf_os (part s)) ->
  0 <= n < BM_CFG_PARTITION_COUNT -> 0 <= source < 2 ^ 64 -> key_ok k ->
  match item_at k es with
  | None => bcmp_config_process_config_get_msg CFG (config_get_msg (node_id CFG) source n k) seq s = Some (tt, s)
  | Some item => exists v, length v = MAX_CONFIG_BUFFER_SIZE_BYTES /\ shows v item
      /\ bcmp_config_process_config_get_msg CFG (config_get_msg (node_id CFG) source n k) seq s
         = (_ ← bcmp_tx (Some multicast_ll_addr) BcmpConfigValueMessage (config_value_msg source (node_id CFG) n v)
                  71 seq None; mret tt) s
  end.
Proof.
  intros Hs Hss Hw Hn Hsrc Hk. pose proof (key_length_byte k Hk).
  destruct (holds_at _ _ _ Hs Hn) as (i & es' & d' & Hi & Hss' & Hp & _). rewrite Hss in Hss'. injection Hss' as <- <-.
  pose proof (get_cbor_spec n i es k [] (part s) Hi Hp Hk) as Hg. rewrite app_nil_r in Hg.
  assert (Hrun : forall found v, get_config_cbor n (Some k) (Z.of_nat (length k)) (Some (replicate 50 0)) 50 (part s)
      = Some ((found, v, 50), part s) ->
    bcmp_config_process_config_get_msg CFG (config_get_msg (node_id CFG) source n k) seq s
    = when found (_ ← bcmp_config_send_value CFG source n 50 v seq; mret tt) s).
  { intros found v E. unfold bcmp_config_process_config_get_msg, config_get_msg.
    rewrite (bind_some _ _ _ _ _ (cf_malloc_part s Hw)). cbn [when].
    erewrite bind_some; [|by rewrite (read_config_byte _ _ _ 0%nat)].
    erewrite bind_some; [|by rewrite (read_config_byte _ _ _ 1%nat)].
    rewrite (drop_config_header _ _ _ 2). cbn [app drop].
    rewrite (bind_some _ _ _ _ _ (on_part_pure _ _ _ E)). destruct found; cbn [when]; [|done].
    by erewrite bind_some by (by apply read_config_source). }
  destruct (item_at k es) as [item|]; [|exact (Hrun _ _ Hg)].
  destruct Hg as (v & Hl & Hshow & E). exists v. split; [done|split; [done|]]. rewrite (Hrun _ _ E). cbn [when].
  pose proof (send_value_done source n v [] seq s Hw Hn ltac:(lia)) as Hsend. rewrite app_nil_r, Hl in Hsend. exact Hsend.
Qed.

(** A request to remove a key. *)
Lemma process_del_spec source n k seq (s : St) ss es dirty :
  store_holds (part s) ss -> ss !! Z.to_nat n = Some (es, dirty) -> willing (cf_os (part s)) ->
  0 <= n < BM_CFG_PARTITION_COUNT -> 0 <= source < 2 ^ 64 -> key_ok k ->
  let found := if key_place k es is Some _ then true else false in
  exists c', store_holds c' (if found then <[Z.to_nat n := (drop_key k es, true)]> ss else ss)
    /\ bcmp_process_del_request_message CFG (config_get_msg (node_id CFG) source n k) seq s
       = (_ ← bcmp_tx (Some multicast_ll_addr) BcmpConfigDeleteResponseMessage
                (config_del_reply source (node_id CFG) n k found) (19 + Z.of_nat (length k)) seq None; mret tt)
         (set_part c' s).
Proof.
  intros Hs Hss Hw Hn Hsrc Hk found. pose proof (key_length_byte k Hk).
  destruct (holds_at _ _ _ Hs Hn) as (i & es' & d' & Hi & Hss' & Hp & _). rewrite Hss in Hss'. injection Hss' as <- <-.
  pose proof (remove_spec n i es k [] (part s) Hi Hp Hk) as Hr. rewrite app_nil_r in Hr.
  assert (Hc : exists c', remove_key n (Some k) (Z.of_nat (length k)) (part s) = Some (found, c')
    /\ store_holds c' (if found then <[Z.to_nat n := (drop_key k es, true)]> ss else ss) /\ cf_os c' = cf_os (part s)).
  { unfold found. destruct (key_place k es).
    - destruct Hr as (i' & E & Hp' & Hd' & _). exists (with_info n i' (part s)). split; [done|split; [|done]].
      by apply holds_with.
    - by exists (part s). }
  destruct Hc as (c' & E & Hc' & Hos). exists c'. split; [done|].
  unfold bcmp_process_del_request_message, config_get_msg.
  erewrite bind_some; [|by rewrite (read_config_byte _ _ _ 0%nat)].
  erewrite bind_some; [|by rewrite (read_config_byte _ _ _ 1%nat)].
  rewrite (drop_config_header _ _ _ 2). cbn [app drop].
  rewrite (bind_some _ _ _ _ _ (on_part_some _ _ _ _ E)).
  erewrite bind_some by (by apply read_config_source).
  unfold bcmp_config_send_del_key_response, sizeof_BmConfigDeleteKeyResponse, config_tx.
  assert (Hsend : forall (k2 : bool -> M St unit) (s2 : St), willing (cf_os (part s2)) ->
    ((ok ← on_part (with_cf_os malloc_ok);
      if ok : bool then
        d ← lift (read_at 0 (Z.to_nat (Z.of_nat (length k))) k);
        msg ← lift (store_all [(0%nat, config_header source (node_id CFG) ++ [bool_byte found; u8 n; u8 (Z.of_nat (length k))]);
          (19%nat, d)] (replicate (Z.to_nat (usize (19 + Z.of_nat (length k)))) 0));
        err ← bcmp_tx (Some multicast_ll_addr) BcmpConfigDeleteResponseMessage msg
                (u16 (usize (19 + Z.of_nat (length k)))) seq None;
        mret (is_ok err)
      else mret false) ≫= k2) s2
    = (err ← bcmp_tx (Some multicast_ll_addr) BcmpConfigDeleteResponseMessage
               (config_del_reply source (node_id CFG) n k found) (19 + Z.of_nat (length k)) seq None;
       k2 (is_ok err)) s2).
  { intros k2 s2 Hw2. unfold mbind at 1, M_bind at 1.
    rewrite (bind_some _ _ _ _ _ (cf_malloc_part s2 Hw2)). cbv iota.
    rewrite Nat2Z.id, bind_lift, read_at_all. cbn [mbind option_bind].
    rewrite usize_message by lia. unfold BM_CFG_PARTITION_COUNT in Hn. rewrite !u8_small, u16_small by lia.
    rewrite bind_lift, store_two by (rewrite ?length_app, ?length_config_header; cbn [length]; lia).
    cbn [mbind option_bind]. unfold config_del_reply. rewrite <- app_assoc.
    unfold mbind, M_bind. by destruct (bcmp_tx _ _ _ _ _ _ s2) as [[e x]|]. }
  rewrite Hsend; [|by rewrite part_set, Hos].
  unfold mbind, M_bind. by destruct (bcmp_tx _ _ _ _ _ _ _) as [[e x]|].
Qed.

(** What a node makes of the value that it has asked for, in a buffer of its own. *)
Definition decoded (item : cbor_item) (buf : bytes) (r : BmErr * bytes * Z) : Prop :=
  let '(err, b, n) := r in
  err = BmOK /\ match item with
  | CborInt z => b = blit 0 (native_store 4 (u32 z)) buf /\ n = Z.of_nat (length buf)
  | CborFloat f => b = blit 0 (native_store 4 f) buf /\ n = Z.of_nat (length buf)
  | CborText s => take (length s + 1) b = s ++ [0] /\ n = Z.of_nat (length s)
  | CborBytes s => take (length s) b = s /\ n = Z.of_nat (length s)
  end.

Definition room_for (item : cbor_item) (buf : bytes) : Prop :=
  match item with
  | CborInt _ | CborFloat _ => (4 <= length buf)%nat
  | CborText s => (length s < length buf)%nat
  | CborBytes s => (0 < length buf)%nat /\ (length s <= length buf)%nat
  end.

Lemma decode_spec v item buf type :
  shows v item -> (0 < length v)%nat -> room_for item buf -> Z.of_nat (length buf) < 2 ^ 32 ->
  exists r, bcmp_config_decode_value type (Some v) (Z.of_nat (length v)) (Some buf) (Z.of_nat (length buf)) = Some r
    /\ if decide (type = item_config_type item) then decoded item buf r
       else r = (BmEIO, buf, Z.of_nat (length buf)).
Proof.
  intros (cv & Ep & Hv & Hu & Hi & Hf & Ht & Hb & _ & Hr) Hl Hroom H32. unfold bcmp_config_decode_value.
  assert (Hbuf : (0 < length buf)%nat) by (destruct item; cbn in Hroom; lia).
  destruct (Z.eqb_spec (Z.of_nat (length v)) 0); [lia|]. destruct (Z.eqb_spec (Z.of_nat (length buf)) 0); [lia|].
  cbn [orb]. rewrite Nat2Z.id, read_at_all. cbn [mbind option_bind]. rewrite Ep, Hv, (shown_type _ _ Hu Hi Hf Ht Hb).
  destruct (decide (type = item_config_type item)) as [->|Hne].
  2: { rewrite decide_False by done. by eexists. }
  rewrite decide_True by done.
  assert (Hw : forall d, length d = 4%nat -> (4 <= length buf)%nat -> write_at 0 d buf = Some (blit 0 d buf)).
  { intros d Hd Hb4. unfold write_at. by destruct (Nat.leb_spec (0 + length d) (length buf)); [|lia]. }
  destruct item as [z|f|s|s]; cbn in Hr, Hroom; cbn [item_config_type decoded].
  - destruct Hr as [Hru Hri]. destruct (Z.leb_spec 0 z); (destruct (Z.leb_spec 4 (Z.of_nat (length buf))); [|lia]);
      [rewrite (Hru ltac:(done))|rewrite Hri]; rewrite Hw by (done || apply length_native_store); by eexists.
  - destruct (Z.leb_spec 4 (Z.of_nat (length buf))); [|lia]. rewrite Hr, Hw by (done || apply length_native_store).
    by eexists.
  - destruct (Hr buf ltac:(lia)) as (b & E & Htake & Hlb). rewrite E, u32_small by lia.
    destruct (Z.ltb_spec (Z.of_nat (length buf)) (Z.of_nat (length s))); [lia|].
    unfold write_at. cbn [length]. rewrite Nat2Z.id, Hlb. destruct (Nat.leb_spec (length s + 1) (length buf)); [|lia].
    cbn [mbind option_bind]. eexists. split; [done|]. split; [done|split; [|done]].
    unfold blit. rewrite Htake. cbn [length].
    rewrite app_assoc, take_app_le by (rewrite length_app; cbn; lia). rewrite take_ge; [done|rewrite length_app; cbn; lia].
  - destruct (Hr buf ltac:(lia)) as (b & E & Htake & Hlb). rewrite E. by eexists.
Qed.

(** C16: settings over the network.  A node that is asked to set a value, for a key that
    it has, or for a new one when there is a zero byte among the bytes of the value, puts
    it into its store and sends it back, or, when the key is new and the store is full,
    does nothing.  For a new key without a zero byte in the value the code's behaviour is
    undefined: the key of a message has no terminator, and printing it to the store goes
    on through the value and behind the message ([ConfigStore.key_without_terminator]).  A
    node that is asked for a value sends the bytes that show it, and nothing when it has
    none; one that is asked to remove a key does so and says whether it was there; a
    message for another node is passed on.  The node that has asked gets from the bytes the
    very value, when it names the right type, and otherwise is told so. *)
Theorem config_over_network source n k (s : St) ss es dirty :
  store_holds (part s) ss -> ss !! Z.to_nat n = Some (es, dirty) -> willing (cf_os (part s)) ->
  0 <= n < BM_CFG_PARTITION_COUNT -> 0 <= source < 2 ^ 64 -> 0 <= node_id CFG < 2 ^ 64 -> key_ok k ->
  let id := node_id CFG in
  let handle data := bcmp_process_config_message CFG forward data in
  let reply type msg size seq : M St BmErr :=
    _ ← bcmp_tx (Some multicast_ll_addr) type msg size seq None; mret BmOK in
  (forall data d item, h_type (pd_header data) = BcmpConfigSetMessage ->
     pd_payload data = config_set_msg id source n k d -> (key_place k es = None -> exists t, c_string d = Some t) ->
     (0 < length d <= MAX_CONFIG_BUFFER_SIZE_BYTES)%nat -> shows d item -> item_fits item ->
     if bool_decide (key_place k es = None /\ length es = MAX_NUM_KV) then handle data s = Some (BmOK, s)
     else exists c', store_holds c' (<[Z.to_nat n := (put_item k item es, true)]> ss)
       /\ handle data s = reply BcmpConfigValueMessage (config_value_msg source id n d) (21 + Z.of_nat (length d))
                           (u16 (h_seq_num (pd_header data))) (set_part c' s))
  /\ (forall data d item, h_type (pd_header data) = BcmpConfigSetMessage ->
       pd_payload data = config_set_msg id source n k d ->
       key_place k es = None -> (length es < MAX_NUM_KV)%nat -> c_string d = None ->
       (0 < length d <= MAX_CONFIG_BUFFER_SIZE_BYTES)%nat -> shows d item -> handle data s = None)
  /\ (forall data, h_type (pd_header data) = BcmpConfigGetMessage -> pd_payload data = config_get_msg id source n k ->
       match item_at k es with
       | None => handle data s = Some (BmOK, s)
       | Some item => exists v, shows v item
           /\ (forall buf type, room_for item buf -> Z.of_nat (length buf) < 2 ^ 32 ->
                 exists r, bcmp_config_decode_value type (Some v) (Z.of_nat (length v)) (Some buf) (Z.of_nat (length buf))
                           = Some r
                   /\ if decide (type = item_config_type item) then decoded item buf r
                      else r = (BmEIO, buf, Z.of_nat (length buf)))
           /\ handle data s = reply BcmpConfigValueMessage (config_value_msg source id n v) 71
                               (u16 (h_seq_num (pd_header data))) s
       end)
  /\ (forall data, h_type (pd_header data) = BcmpConfigDeleteRequestMessage ->
       pd_payload data = config_get_msg id source n k ->
       let found := if key_place k es is Some _ then true else false in
       exists c', store_holds c' (if found then <[Z.to_nat n := (drop_key k es, true)]> ss else ss)
         /\ handle data s = reply BcmpConfigDeleteResponseMessage (config_del_reply source id n k found)
                             (19 + Z.of_nat (length k)) (u16 (h_seq_num (pd_header data))) (set_part c' s))
  /\ (forall data target l, 0 <= target < 2 ^ 64 -> target <> id -> pd_payload data = config_header target source ++ l ->
       handle data s = forward (pd_header data) (pd_payload data) (pd_size data) (pd_ingress_port data) s).
Proof.
  intros Hs Hss Hw Hn Hsrc Hid Hk id handle reply. subst id.
  assert (Hdone : forall (h : M St unit) type msg size seq (x : St),
    h s = (_ ← bcmp_tx (Some multicast_ll_addr) type msg size seq None; mret tt) x ->
    (_ ← h; mret BmOK) s = reply type msg size seq x).
  { intros h type msg size seq x E. unfold reply, mbind, M_bind in *. rewrite E.
    by destruct (bcmp_tx _ _ _ _ _ _ x) as [[e y]|]. }
  split; [|split; [|split; [|split]]].
  - intros data d item Hty Hp Ht Hd Hshow Hfit. unfold handle.
    destruct (process_set_spec source n k d item (u16 (h_seq_num (pd_header data))) s ss es dirty
      Hs Hss Hw Hn Hsrc Hk Ht Hd Hshow Hfit) as (c' & Hc & Hfull & E). rewrite <- Hp in E.
    pose proof (own_message data s source _ (bcmp_config_process_config_set_msg CFG (pd_payload data)
      (u16 (h_seq_num (pd_header data)))) Hid Hp ltac:(by rewrite Hty)) as ->.
    case_bool_decide.
    + rewrite (bind_some _ _ _ _ _ E), Hfull by done. by rewrite set_part_same.
    + exists c'. split; [done|]. by apply Hdone.
  - intros data d item Hty Hp Hj Hl Ht Hd Hshow. unfold handle.
    pose proof (process_set_open source n k d item (u16 (h_seq_num (pd_header data))) s ss es dirty
      Hs Hss Hn Hk Hj Hl Ht Hd Hshow) as E. rewrite <- Hp in E.
    pose proof (own_message data s source _ (bcmp_config_process_config_set_msg CFG (pd_payload data)
      (u16 (h_seq_num (pd_header data)))) Hid Hp ltac:(by rewrite Hty)) as ->.
    unfold mbind, M_bind. by rewrite E.
  - intros data Hty Hp. unfold handle.
    pose proof (process_get_spec source n k (u16 (h_seq_num (pd_header data))) s ss es dirty Hs Hss Hw Hn Hsrc Hk) as Hg.
    rewrite <- Hp in Hg.
    pose proof (own_message data s source _ (bcmp_config_process_config_get_msg CFG (pd_payload data)
      (u16 (h_seq_num (pd_header data)))) Hid Hp ltac:(by rewrite Hty)) as ->.
    destruct (item_at k es) as [item|]; [|by rewrite (bind_some _ _ _ _ _ Hg)].
    destruct Hg as (v & Hl & Hshow & E). exists v. split; [done|split; [|by apply Hdone]].
    intros buf type Hroom H32. apply decode_spec; try done. rewrite Hl. unfold MAX_CONFIG_BUFFER_SIZE_BYTES. lia.
  - intros data Hty Hp found. unfold handle.
    destruct (process_del_spec source n k (u16 (h_seq_num (pd_header data))) s ss es dirty Hs Hss Hw Hn Hsrc Hk)
      as (c' & Hc & E). rewrite <- Hp in E.
    pose proof (own_message data s source _ (bcmp_process_del_request_message CFG (pd_payload data)
      (u16 (h_seq_num (pd_header data)))) Hid Hp ltac:(by rewrite Hty)) as ->.
    exists c'. split; [done|]. by apply Hdone.
  - intros data target l Ht Hne Hp. by eapply other_node.
Qed.
End remote.

(** ** A concrete run *)

(** A node that records what it sends, with a flash that fails. *)
#[local] Instance recording_configs : BcmpApi (configs * list (Z * bytes)) := {
  bcmp_tx _ type d _ _ _ := fun s => Some (BmOK, (fst s, snd s ++ [(type, d)]));
  packet_add _ _ := mret BmOK
}.
#[local] Instance no_flash : ConfigFlash (configs * list (Z * bytes)) := {
  bm_config_read _ _ buf _ := mret (false, buf);
  bm_config_write _ _ _ _ := mret false;
  bm_config_reset := mret tt
}.

Definition config_cfg (id : Z) : DeviceCfg := MkDeviceCfg id 0 None None 0 0 0 0 0 0 (replicate 16 0).
Definition config_data (type : Z) (d : bytes) : BcmpProcessData :=
  MkProcessData (MkHeader type 0 0 0 9 0 0 0) d (Z.of_nat (length d)) multicast_ll_addr multicast_ll_addr 1.
Definition seven : bytes := plain_encode (CborInt 7).

#[local] Abbreviation handle_config :=
  (@bcmp_process_config_message (configs * list (Z * bytes)) _ _ plain_cbor _ platform_linux (config_cfg 6)
     (fun _ _ _ _ => mret BmENOTINTREC)).

Lemma config_over_network_witness :
  let P := platform_linux in
  (exists c', handle_config (config_data BcmpConfigSetMessage (config_set_msg 6 5 0 key_a seven)) (zero_configs, [])
     = Some (BmOK, (c', [(BcmpConfigValueMessage, config_value_msg 5 6 0 seven)])))
  /\ exists c v, @shows plain_cbor v (CborInt 7)
     /\ handle_config (config_data BcmpConfigGetMessage (config_get_msg 6 5 0 key_a)) (c, [])
        = Some (BmOK, (c, [(BcmpConfigValueMessage, config_value_msg 5 6 0 v)])).
Proof.
  intros P.
  assert (Ha : key_ok key_a) by (split; [cbn; unfold MAX_KEY_LEN_BYTES; lia|repeat constructor; done]).
  assert (H7 : @shows plain_cbor seven (CborInt 7)) by (apply plain_reads; vm_compute; reflexivity).
  split.
  - destruct (@config_over_network plain_cbor plain_laws P ltac:(by right) (configs * list (Z * bytes)) (part_fst _ _)
      (part_fst_laws _ _) recording_configs no_flash
      (config_cfg 6) (fun _ _ _ _ => mret BmENOTINTREC) 5 0 key_a (zero_configs, []) (replicate 3 ([], false)) [] false zero_holds eq_refl
      ltac:(done) ltac:(done) ltac:(done) ltac:(done) Ha) as (Hset & _).
    pose proof (Hset (config_data BcmpConfigSetMessage (config_set_msg 6 5 0 key_a seven)) seven (CborInt 7)
      eq_refl eq_refl ltac:(by eexists) ltac:(vm_compute; lia) H7 I) as Hrun.
    rewrite bool_decide_eq_false_2 in Hrun by (by intros [_ ?]). destruct Hrun as (c' & _ & E).
    exists c'. exact (eq_trans E eq_refl).
  - destruct (@run_setting_spec plain_cbor plain_laws 0 key_a (SetUint 7) zero_configs (MkConfigInfo zero_partition false) []
      eq_refl (zero_ok 0 0 eq_refl) Ha ltac:(cbn; lia)) as (i' & _ & Hp & _).
    set (c := with_info 0 i' zero_configs).
    assert (Hc : @store_holds plain_cbor c (<[0%nat := ([(key_a, CborInt 7)], ci_needs_commit i')]> (replicate 3 ([], false))))
      by (eapply (@holds_with plain_cbor _ _ 0); [exact zero_holds|exact Hp|done]).
    destruct (@config_over_network plain_cbor plain_laws P ltac:(by right) (configs * list (Z * bytes)) (part_fst _ _)
      (part_fst_laws _ _) recording_configs no_flash
      (config_cfg 6) (fun _ _ _ _ => mret BmENOTINTREC) 5 0 key_a (c, []) (<[0%nat := ([(key_a, CborInt 7)], ci_needs_commit i')]> (replicate 3 ([], false))) _ _ Hc eq_refl
      ltac:(done) ltac:(done) ltac:(done) ltac:(done) Ha) as (_ & _ & Hget & _).
    pose proof (Hget (config_data BcmpConfigGetMessage (config_get_msg 6 5 0 key_a)) eq_refl eq_refl) as Hrun.
    assert (Hat : item_at key_a [(key_a, CborInt 7)] = Some (CborInt 7)) by reflexivity.
    rewrite Hat in Hrun. destruct Hrun as (v & Hv & _ & E).
    exists c, v. split; [exact Hv|]. exact (eq_trans E eq_refl).
Defined.

(** The answer to a request has the low sixteen bits of the request's number. *)
Example reply_number_truncated :
  let P := platform_linux in
  let data := MkProcessData (MkHeader BcmpConfigDeleteRequestMessage 0 0 0 65541 0 0 0) (config_get_msg 6 5 0 key_a) 19
                multicast_ll_addr multicast_ll_addr 1 in
  @bcmp_process_config_message configs _
    {| bcmp_tx _ _ _ _ seq _ := fun s => if seq =? 5 then Some (BmOK, s) else None; packet_add _ _ := mret BmOK |}
    plain_cbor {| bm_config_read _ _ b _ := mret (false, b); bm_config_write _ _ _ _ := mret false; bm_config_reset := mret tt |}
    P (config_cfg 6) (fun _ _ _ _ => mret BmENOTINTREC) data zero_configs = Some (BmOK, zero_configs).
Proof. vm_compute. reflexivity. Qed.
