(* ===== verification/Neighbors.v ===== *)
(** * Neighbors: src/bcmp/neighbors.c, info.c and heartbeat.c

    The table of the nodes at the other ends of a node's links, which heartbeats
    keep up, and the information about them.  Callbacks are numbers; the calls of
    the discovery callback are recorded with the neighbor that they are given, and
    it does not change the table.  A tick is a millisecond, as on POSIX. *)
From S2P Require Import Prelude Util LinkedList SList Os Packet Parts Device.

Definition bcmp_neighbor_timer_timeout_s : Z := 1.
Definition bcmp_table_max_len : Z := 1024.

(** [nb_info] is the [BcmpDeviceInfo]; its first eight bytes are a node id. *)
Record BcmpNeighbor : Type := MkNeighbor {
  nb_next : option loc;
  nb_node_id : Z;
  nb_port : Z;
  last_heartbeat_ticks : Z;
  last_time_since_boot_us : Z;
  heartbeat_period_s : Z;
  online : bool;
  nb_info : bytes;
  version_str : option bytes;
  nb_device_name : option bytes
}.

Definition set_nb_next (p : option loc) (n : BcmpNeighbor) : BcmpNeighbor :=
  MkNeighbor p (nb_node_id n) (nb_port n) (last_heartbeat_ticks n) (last_time_since_boot_us n)
    (heartbeat_period_s n) (online n) (nb_info n) (version_str n) (nb_device_name n).
Definition set_online (b : bool) (n : BcmpNeighbor) : BcmpNeighbor :=
  MkNeighbor (nb_next n) (nb_node_id n) (nb_port n) (last_heartbeat_ticks n) (last_time_since_boot_us n)
    (heartbeat_period_s n) b (nb_info n) (version_str n) (nb_device_name n).
(** What a heartbeat writes. *)
Definition set_times (us period ticks : Z) (n : BcmpNeighbor) : BcmpNeighbor :=
  MkNeighbor (nb_next n) (nb_node_id n) (nb_port n) ticks us period true (nb_info n) (version_str n)
    (nb_device_name n).

(** The request timer: the function that is called, and whether it runs. *)
Record request_timer : Type := MkRequestTimer { rt_timeout : option nat; rt_running : bool }.

Record neighbors : Type := MkNeighbors {
  NEIGHBORS : option loc;
  NUM_NEIGHBORS : Z;
  NEIGHBOR_DISCOVERY_CB : option nat;
  NEIGHBOR_REQUEST_CB : option nat;
  TARGET_NODE_ID : Z;
  NUM_PORTS : Z;
  NEIGHBOR_TIMER : option request_timer;
  INFO_EXPECT_NODE_ID : Z;
  INFO_REQUEST_LIST : LL;
  nb_heap : gmap loc BcmpNeighbor;
  nb_requests : gmap loc (LLItem (option nat));
  nb_os : Os;
  nb_events : list (nat * bool * BcmpNeighbor)
}.

Definition set_table (p : option loc) (h : gmap loc BcmpNeighbor) (s : neighbors) : neighbors :=
  MkNeighbors p (NUM_NEIGHBORS s) (NEIGHBOR_DISCOVERY_CB s) (NEIGHBOR_REQUEST_CB s) (TARGET_NODE_ID s)
    (NUM_PORTS s) (NEIGHBOR_TIMER s) (INFO_EXPECT_NODE_ID s) (INFO_REQUEST_LIST s) h (nb_requests s)
    (nb_os s) (nb_events s).
Definition set_num (n : Z) (s : neighbors) : neighbors :=
  MkNeighbors (NEIGHBORS s) n (NEIGHBOR_DISCOVERY_CB s) (NEIGHBOR_REQUEST_CB s) (TARGET_NODE_ID s)
    (NUM_PORTS s) (NEIGHBOR_TIMER s) (INFO_EXPECT_NODE_ID s) (INFO_REQUEST_LIST s) (nb_heap s)
    (nb_requests s) (nb_os s) (nb_events s).
Definition set_discovery_cb (cb : option nat) (s : neighbors) : neighbors :=
  MkNeighbors (NEIGHBORS s) (NUM_NEIGHBORS s) cb (NEIGHBOR_REQUEST_CB s) (TARGET_NODE_ID s)
    (NUM_PORTS s) (NEIGHBOR_TIMER s) (INFO_EXPECT_NODE_ID s) (INFO_REQUEST_LIST s) (nb_heap s)
    (nb_requests s) (nb_os s) (nb_events s).
(** The variables of a request for a table. *)
Definition set_request (cb : option nat) (target : Z) (t : option request_timer) (s : neighbors) : neighbors :=
  MkNeighbors (NEIGHBORS s) (NUM_NEIGHBORS s) (NEIGHBOR_DISCOVERY_CB s) cb target
    (NUM_PORTS s) t (INFO_EXPECT_NODE_ID s) (INFO_REQUEST_LIST s) (nb_heap s)
    (nb_requests s) (nb_os s) (nb_events s).
Definition set_num_ports (n : Z) (s : neighbors) : neighbors :=
  MkNeighbors (NEIGHBORS s) (NUM_NEIGHBORS s) (NEIGHBOR_DISCOVERY_CB s) (NEIGHBOR_REQUEST_CB s)
    (TARGET_NODE_ID s) n (NEIGHBOR_TIMER s) (INFO_EXPECT_NODE_ID s) (INFO_REQUEST_LIST s) (nb_heap s)
    (nb_requests s) (nb_os s) (nb_events s).
(** The variables of info.c. *)
Definition set_info (expect : Z) (ll : LL) (h : gmap loc (LLItem (option nat))) (s : neighbors) : neighbors :=
  MkNeighbors (NEIGHBORS s) (NUM_NEIGHBORS s) (NEIGHBOR_DISCOVERY_CB s) (NEIGHBOR_REQUEST_CB s)
    (TARGET_NODE_ID s) (NUM_PORTS s) (NEIGHBOR_TIMER s) expect ll (nb_heap s) h (nb_os s) (nb_events s).
Definition set_nb_os (o : Os) (s : neighbors) : neighbors :=
  MkNeighbors (NEIGHBORS s) (NUM_NEIGHBORS s) (NEIGHBOR_DISCOVERY_CB s) (NEIGHBOR_REQUEST_CB s)
    (TARGET_NODE_ID s) (NUM_PORTS s) (NEIGHBOR_TIMER s) (INFO_EXPECT_NODE_ID s) (INFO_REQUEST_LIST s)
    (nb_heap s) (nb_requests s) o (nb_events s).
Definition add_event (e : nat * bool * BcmpNeighbor) (s : neighbors) : neighbors :=
  MkNeighbors (NEIGHBORS s) (NUM_NEIGHBORS s) (NEIGHBOR_DISCOVERY_CB s) (NEIGHBOR_REQUEST_CB s)
    (TARGET_NODE_ID s) (NUM_PORTS s) (NEIGHBOR_TIMER s) (INFO_EXPECT_NODE_ID s) (INFO_REQUEST_LIST s)
    (nb_heap s) (nb_requests s) (nb_os s) (nb_events s ++ [e]).

Definition with_nb_os {A} (m : M Os A) : M neighbors A := zoom nb_os set_nb_os m.

(** ** The table *)

Definition get_neighbor (l : loc) : M neighbors BcmpNeighbor := s ← get; lift (nb_heap s !! l).
Definition put_neighbor (l : loc) (n : BcmpNeighbor) : M neighbors unit :=
  modify (fun s => set_table (NEIGHBORS s) (<[l := n]> (nb_heap s)) s).

Definition bcmp_neighbor_invoke_discovery_cb (discovered : bool) (neighbor : loc) : M neighbors unit :=
  s ← get;
  match NEIGHBOR_DISCOVERY_CB s with
  | Some cb => n ← get_neighbor neighbor; modify (add_event (cb, discovered, n))
  | None => mret tt
  end.

Definition bcmp_find_neighbor (node_id : Z) : M neighbors (option loc) :=
  s ← get;
  '(_, neighbor) ← lift (find_node nb_next (nb_heap s)
    (fun n => Some (negb (node_id =? 0) && (node_id =? nb_node_id n))) (NEIGHBORS s));
  mret neighbor.

(** The loop; the link is read after the call. *)
Fixpoint foreach_loop (fuel : nat) (cb : loc -> M neighbors unit) (neighbor : option loc) : M neighbors unit :=
  match fuel, neighbor with
  | O, _ => ub
  | S _, None => mret tt
  | S fuel, Some l =>
      _ ← cb l;
      _ ← modify (fun s => set_num (u8 (NUM_NEIGHBORS s + 1)) s);
      n ← get_neighbor l;
      foreach_loop fuel cb (nb_next n)
  end.

Definition bcmp_neighbor_foreach (cb : loc -> M neighbors unit) : M neighbors unit :=
  s ← get;
  _ ← modify (set_num 0);
  foreach_loop (walk_fuel (nb_heap s)) cb (NEIGHBORS s).

(** The time is computed in thirty-two bits. *)
Definition heartbeat_expired (now : Z) (n : BcmpNeighbor) : bool :=
  time_remaining (last_heartbeat_ticks n) now (u32 (2 * heartbeat_period_s n * 1000)) =? 0.

Definition neighbor_check (neighbor : loc) : M neighbors unit :=
  n ← get_neighbor neighbor;
  now ← gets (fun s => os_ticks_ms (nb_os s));
  when (online n && heartbeat_expired now n)
    (_ ← bcmp_neighbor_invoke_discovery_cb false neighbor;
     put_neighbor neighbor (set_online false n)).

Definition bcmp_check_neighbors : M neighbors unit := bcmp_neighbor_foreach neighbor_check.

Definition bcmp_get_neighbors : M neighbors (option loc * Z) :=
  _ ← bcmp_check_neighbors;
  s ← get;
  mret (NEIGHBORS s, NUM_NEIGHBORS s).

(** The strings are freed with the neighbor. *)
Definition bcmp_free_neighbor (neighbor : option loc) : M neighbors bool :=
  match neighbor with
  | Some l => _ ← modify (fun s => set_table (NEIGHBORS s) (delete l (nb_heap s)) s); mret true
  | None => mret false
  end.

Definition bcmp_remove_neighbor_from_table (neighbor : option loc) : M neighbors bool :=
  match neighbor with
  | None => mret false
  | Some l =>
      n ← get_neighbor l;
      s ← get;
      _ ← (if bool_decide (NEIGHBORS s = Some l) then modify (set_table (nb_next n) (nb_heap s))
           else
             first ← lift (NEIGHBORS s);
             '(_, prev) ← lift (find_node nb_next (nb_heap s)
                (fun m => Some (bool_decide (nb_next m = Some l))) (Some first));
             match prev with
             | Some p => m ← get_neighbor p; put_neighbor p (set_nb_next (nb_next n) m)
             | None => mret tt
             end);
      bcmp_free_neighbor neighbor
  end.

(** The loop that removes the neighbor of a port: behind a removed neighbor it goes
    on with the one after the next. *)
Fixpoint evict_loop (fuel : nat) (port : Z) (neighbor : loc) : M neighbors unit :=
  match fuel with
  | O => ub
  | S fuel =>
      n ← get_neighbor neighbor;
      node_id ← match nb_next n with
                | Some x => m ← get_neighbor x; mret (nb_node_id m)
                | None => mret (nb_node_id n)
                end;
      cur ← (if nb_port n =? port then
               _ ← bcmp_remove_neighbor_from_table (Some neighbor);
               bcmp_find_neighbor node_id
             else mret (Some neighbor));
      match cur with
      | None => mret tt
      | Some c =>
          m ← get_neighbor c;
          match nb_next m with Some x => evict_loop fuel port x | None => mret tt end
      end
  end.

(** The last neighbor; none when one before it has the node id. *)
Fixpoint append_loop (fuel : nat) (h : gmap loc BcmpNeighbor) (node_id : Z) (neighbor : loc)
    : option (option loc) :=
  match fuel with
  | O => None
  | S fuel =>
      n ← h !! neighbor;
      match nb_next n with
      | None => Some (Some neighbor)
      | Some x => if node_id =? nb_node_id n then Some None else append_loop fuel h node_id x
      end
  end.

Definition new_neighbor (node_id port : Z) : BcmpNeighbor :=
  MkNeighbor None node_id port 0 0 0 false (replicate 36 0) None None.

Definition bcmp_add_neighbor (node_id port : Z) : M neighbors (option loc) :=
  ok ← with_nb_os malloc_ok;
  if negb ok then mret None
  else
    s ← get;
    let l := fresh (dom (nb_heap s)) in
    _ ← put_neighbor l (new_neighbor node_id port);
    _ ← match NEIGHBORS s with
        | Some first => evict_loop (walk_fuel (nb_heap s)) port first
        | None => mret tt
        end;
    s ← get;
    match NEIGHBORS s with
    | None => _ ← modify (set_table (Some l) (nb_heap s)); mret (Some l)
    | Some first =>
        last ← lift (append_loop (walk_fuel (nb_heap s)) (nb_heap s) node_id first);
        match last with
        | Some e => m ← get_neighbor e; _ ← put_neighbor e (set_nb_next (Some l) m); mret (Some l)
        | None => _ ← modify (set_table (NEIGHBORS s) (delete l (nb_heap s))); mret None
        end
    end.

Fixpoint replay_loop (fuel : nat) (cb : nat) (neighbor : option loc) : M neighbors unit :=
  match fuel, neighbor with
  | O, _ => ub
  | S _, None => mret tt
  | S fuel, Some l =>
      n ← get_neighbor l;
      _ ← modify (add_event (cb, true, n));
      replay_loop fuel cb (nb_next n)
  end.

Definition bcmp_neighbor_register_discovery_callback (cb : option nat) : M neighbors unit :=
  _ ← modify (set_discovery_cb cb);
  match cb with
  | Some f => s ← get; replay_loop (walk_fuel (nb_heap s)) f (NEIGHBORS s)
  | None => mret tt
  end.

Definition bcmp_expect_info_from_node_id (node_id : Z) : M neighbors unit :=
  modify (fun s => set_info node_id (INFO_REQUEST_LIST s) (nb_requests s) s).

(** [ll_remove(&INFO_REQUEST_LIST, id)]; the ids of a list have 32 bits. *)
Definition remove_request (id : Z) : M neighbors unit :=
  s ← get;
  '(_, ll, h) ← lift (ll_remove (Some (INFO_REQUEST_LIST s)) (u32 id) (nb_requests s));
  ll ← lift ll;
  modify (set_info (INFO_EXPECT_NODE_ID s) ll h).

(** ** Information about a node *)

Section messages.
Context {St : Type} `{Part neighbors St} `{BcmpApi St} `{Platform} (CFG : DeviceCfg).
(** The callbacks of requests, and what the layer 2 says of a port. *)
Context (call_info_cb : nat -> bytes -> M St unit) (call_request_cb : nat -> bytes -> M St BmErr)
  (bm_l2_get_port_state : Z -> M St bool).

Definition bcmp_request_info (target_node_id : Z) (addr : option BmIpAddr) (cb : option nat) : M St BmErr :=
  s ← gets part;
  '(item, h) ← on_part (with_nb_os (create_item cb (u32 target_node_id) (nb_requests s)));
  match item with
  | None => mret BmENOMEM
  | Some _ =>
      '(err, ll, h) ← lift (ll_item_add (Some (INFO_REQUEST_LIST s)) item h);
      ll ← lift ll;
      _ ← on_part (modify (set_info (INFO_EXPECT_NODE_ID s) ll h));
      err ← unless_err err
        (bcmp_tx addr BcmpDeviceInfoRequestMessage (native_store 8 target_node_id) 8 0 None);
      _ ← when (negb (is_ok err)) (on_part (remove_request target_node_id));
      mret err
  end.

Definition sizeof_BcmpDeviceInfo : Z := 36.
Definition sizeof_BcmpDeviceInfoReply : Z := 38.

(** The string, or nothing for a null pointer, and its length in eight bits. *)
Definition string_len (s : option bytes) : Z :=
  match s with Some s => u8 (Z.of_nat (length s)) | None => 0 end.
Definition string_bytes (s : option bytes) : bytes :=
  match s with Some s => take (Z.to_nat (string_len (Some s))) s | None => [] end.

(** The [BcmpDeviceInfo] of the node. *)
Definition device_info : bytes :=
  native_store 8 (node_id CFG) ++ native_store 2 (vendor_id CFG) ++ native_store 2 (product_id CFG)
  ++ sn CFG ++ native_store 4 (git_sha CFG) ++ [ver_major CFG; ver_minor CFG; ver_patch CFG; hw_ver CFG].

Definition bcmp_send_info (dst : option BmIpAddr) : M St BmErr :=
  let version_string_len := string_len (version_string CFG) in
  let device_name_len := string_len (device_name CFG) in
  let info_len := u16 (sizeof_BcmpDeviceInfoReply + version_string_len + device_name_len) in
  ok ← on_part (with_nb_os malloc_ok);
  if ok : bool then
    dev_info ← lift (store_all
      [(38%nat, string_bytes (version_string CFG));
       ((38 + Z.to_nat version_string_len)%nat, string_bytes (device_name CFG));
       (0%nat, device_info); (36%nat, [version_string_len; device_name_len])]
      (replicate (Z.to_nat info_len) 0));
    bcmp_tx dst BcmpDeviceInfoReplyMessage dev_info info_len 0 None
  else mret BmENOMEM.

Definition bcmp_process_info_request (data : BcmpProcessData) : M St BmErr :=
  target ← lift (read_at 0 8 (pd_payload data));
  if (native_load target =? 0) || (node_id CFG =? native_load target)
  then bcmp_send_info (Some (pd_dst data)) else mret BmOK.

(** A string of the message, in memory of its own; without memory there is none. *)
Definition copy_string (off : nat) (len : Z) (info : bytes) (old : option bytes) : M neighbors (option bytes) :=
  if len =? 0 then mret old
  else
    ok ← with_nb_os malloc_ok;
    if ok : bool then d ← lift (read_at off (Z.to_nat len) info); mret (Some d) else mret None.

(** What is written to a neighbor. *)
Definition populate_neighbor_info (n : BcmpNeighbor) (dev_info : bytes) : M neighbors BcmpNeighbor :=
  info ← lift (read_at 0 36 dev_info);
  ver_str_len ← lift (dev_info !! 36%nat);
  ver ← copy_string 38 ver_str_len dev_info (version_str n);
  dev_name_len ← lift (dev_info !! 37%nat);
  name ← copy_string (38 + Z.to_nat ver_str_len) dev_name_len dev_info (nb_device_name n);
  mret (MkNeighbor (nb_next n) (native_load (take 8 info)) (nb_port n) (last_heartbeat_ticks n)
          (last_time_since_boot_us n) (heartbeat_period_s n) (online n) info ver name).

(** The neighbor with the id of the information. *)
Definition update_neighbor_info (id : Z) (dev_info : bytes) (err : BmErr) : M neighbors BmErr :=
  neighbor ← bcmp_find_neighbor id;
  match neighbor with
  | Some l =>
      n ← get_neighbor l;
      n ← populate_neighbor_info n dev_info;
      _ ← put_neighbor l n;
      mret err
  | None =>
      s ← get;
      if negb (INFO_EXPECT_NODE_ID s =? 0) && (id =? INFO_EXPECT_NODE_ID s) then
        _ ← bcmp_expect_info_from_node_id 0;
        ok ← with_nb_os malloc_ok;
        if ok : bool then _ ← populate_neighbor_info (new_neighbor 0 0) dev_info; mret BmOK
        else mret BmENOMEM
      else mret err
  end.

Definition bcmp_process_info_reply (data : BcmpProcessData) : M St BmErr :=
  let info := pd_payload data in
  id ← lift (read_at 0 8 info);
  let id := native_load id in
  s ← gets part;
  '(err, cb) ← lift (ll_get_item (Some (INFO_REQUEST_LIST s)) (u32 id) (nb_requests s));
  err ← match cb with
        | Some cb =>
            cb ← lift cb;
            match cb with
            | Some f => _ ← call_info_cb f info; mret err
            | None => on_part (update_neighbor_info id info err)
            end
        | None => mret err
        end;
  _ ← on_part (remove_request id);
  mret err.

(** The handlers have the numbers [request] and [reply]. *)
Definition bcmp_device_info_init (request reply : nat) : M St BmErr :=
  err ← packet_add (MkCfg false false (Some request)) BcmpDeviceInfoRequestMessage;
  unless_err err (packet_add (MkCfg false false (Some reply)) BcmpDeviceInfoReplyMessage).

(** ** Neighbors that are heard of *)

Definition bcmp_update_neighbor (node_id port : Z) : M St (option loc) :=
  neighbor ← on_part (bcmp_find_neighbor node_id);
  match neighbor with
  | Some l => mret (Some l)
  | None =>
      neighbor ← on_part (bcmp_add_neighbor node_id port);
      match neighbor with
      | Some l =>
          _ ← on_part (bcmp_neighbor_invoke_discovery_cb true l);
          _ ← bcmp_request_info node_id (Some multicast_ll_addr) None;
          mret (Some l)
      | None => mret None
      end
  end.

Definition bcmp_process_heartbeat (data : BcmpProcessData) : M St BmErr :=
  neighbor ← bcmp_update_neighbor (ip_to_nodeid (Some (pd_src data))) (pd_ingress_port data);
  match neighbor with
  | None => mret BmEINVAL
  | Some l =>
      us ← lift (read_at 0 8 (pd_payload data));
      lease ← lift (read_at 8 4 (pd_payload data));
      let us := native_load us in
      n ← on_part (get_neighbor l);
      let neighbor_reset := us <? last_time_since_boot_us n in
      _ ← when (negb (online n) || neighbor_reset)
            (on_part (bcmp_neighbor_invoke_discovery_cb true l));
      _ ← when neighbor_reset
            (_ ← bcmp_request_info (native_load (take 8 (nb_info n))) (Some multicast_ll_addr) None; mret tt);
      n ← on_part (get_neighbor l);
      now ← gets (fun s => os_ticks_ms (nb_os (part s)));
      _ ← on_part (put_neighbor l (set_times us (native_load lease) now n));
      mret BmOK
  end.

(** ** Tables of neighbors *)

Definition sizeof_BcmpNeighborTableReply : Z := 11.
Definition sizeof_BcmpPortInfo : Z := 2.
Definition sizeof_BcmpNeighborInfo : Z := 10.

(** One [BcmpNeighborInfo]. *)
Definition neighbor_info (n : BcmpNeighbor) : bytes :=
  native_store 8 (nb_node_id n) ++ [nb_port n; if online n then 1 else 0].

Definition assemble_neighbor_info_list (ns : list (loc * BcmpNeighbor)) (num_neighbors : Z) : bytes :=
  concat ((fun x => neighbor_info (snd x)) <$> take (Z.to_nat num_neighbors) ns).

(** The port list; the type of a port stays 0. *)
Fixpoint port_list (ports : list nat) : M St bytes :=
  match ports with
  | [] => mret []
  | p :: ports =>
      state ← bm_l2_get_port_state (Z.of_nat p);
      rest ← port_list ports;
      mret ((if state : bool then 1 else 0) :: 0 :: rest)
  end.

Definition bcmp_send_neighbor_table (addr : option BmIpAddr) : M St BmErr :=
  '(neighbor, num_neighbors) ← on_part bcmp_get_neighbors;
  s ← gets part;
  let neighbor_table_len := u16 (sizeof_BcmpNeighborTableReply + sizeof_BcmpPortInfo * NUM_PORTS s
                                 + sizeof_BcmpNeighborInfo * num_neighbors) in
  if bcmp_table_max_len <? neighbor_table_len then mret BmEINVAL
  else
    ok ← on_part (with_nb_os malloc_ok);
    if ok : bool then
      ports ← port_list (seq 0 (Z.to_nat (NUM_PORTS s)));
      ns ← lift (nodes nb_next (nb_heap s) neighbor);
      reply ← lift (store_all
        [(0%nat, native_store 8 (node_id CFG) ++ [NUM_PORTS s] ++ native_store 2 num_neighbors);
         (11%nat, ports);
         ((11 + 2 * Z.to_nat (NUM_PORTS s))%nat, assemble_neighbor_info_list ns num_neighbors)]
        (replicate (Z.to_nat neighbor_table_len) 0));
      bcmp_tx addr BcmpNeighborTableReplyMessage reply neighbor_table_len 0 None
    else mret BmENOMEM.

Definition bcmp_process_neighbor_table_request (data : BcmpProcessData) : M St BmErr :=
  target ← lift (read_at 0 8 (pd_payload data));
  if (native_load target =? 0) || (node_id CFG =? native_load target)
  then bcmp_send_neighbor_table (Some (pd_dst data)) else mret BmENOTINTREC.

(** [bm_timer_stop] and [bm_timer_start]: the timers' task may not take the command
    in time. *)
Definition timer_command (running : bool) : M neighbors BmErr :=
  s ← get;
  match NEIGHBOR_TIMER s with
  | None => mret BmEINVAL
  | Some t =>
      ok ← with_nb_os wait_ok;
      if ok : bool then
        _ ← modify (fun s => set_request (NEIGHBOR_REQUEST_CB s) (TARGET_NODE_ID s)
              (Some (MkRequestTimer (rt_timeout t) running)) s);
        mret BmOK
      else mret BmETIMEDOUT
  end.

Definition bcmp_process_neighbor_table_reply (data : BcmpProcessData) : M St BmErr :=
  id ← lift (read_at 0 8 (pd_payload data));
  s ← gets part;
  if TARGET_NODE_ID s =? native_load id then
    err ← on_part (timer_command false);
    match NEIGHBOR_REQUEST_CB s with
    | Some cb =>
        err ← unless_err err (call_request_cb cb (pd_payload data));
        _ ← on_part (modify (fun s => set_request None (TARGET_NODE_ID s) (NEIGHBOR_TIMER s) s));
        mret err
    | None => mret err
    end
  else mret BmENOTINTREC.

Definition bcmp_request_neighbor_table (target_node_id : Z) (addr : option BmIpAddr)
    (request timeout : option nat) : M St BmErr :=
  _ ← on_part (modify (fun s => set_request (NEIGHBOR_REQUEST_CB s) target_node_id None s));
  ok ← on_part (with_nb_os malloc_ok);
  if ok : bool then
    _ ← on_part (modify (fun s => set_request (NEIGHBOR_REQUEST_CB s) target_node_id
          (Some (MkRequestTimer timeout false)) s));
    err ← on_part (timer_command true);
    err ← unless_err err
      (bcmp_tx addr BcmpNeighborTableRequestMessage (native_store 8 target_node_id) 8 0 None);
    _ ← on_part (modify (fun s => set_request request (TARGET_NODE_ID s) (NEIGHBOR_TIMER s) s));
    mret err
  else mret BmENOMEM.

Definition bcmp_neighbor_init (num_ports : Z) (request reply : nat) : M St BmErr :=
  _ ← on_part (modify (set_num_ports num_ports));
  err ← packet_add (MkCfg false false (Some request)) BcmpNeighborTableRequestMessage;
  unless_err err (packet_add (MkCfg false false (Some reply)) BcmpNeighborTableReplyMessage).
End messages.
