(* ===== verification/Topology.v ===== *)
(** * The topology of the network: src/integrations/topology.c

    A task that asks one node after the other for its table of neighbors and links
    the tables into a list, in the order in which the nodes hang together.  The list
    is doubly linked, and the node whose neighbors are looked at is its cursor.
    Callbacks are numbers; what they are called with is recorded.  [None] is, besides
    undefined behaviour, a loop without end. *)
From S2P Require Import Prelude Util LinkedList SList Os Packet Parts Device Neighbors.

(** Two's complement, as a cast to [int16_t] and [int8_t]. *)
Definition s16 (z : Z) : Z := (z + 2 ^ 15) mod 2 ^ 16 - 2 ^ 15.
Definition s8 (z : Z) : Z := (z + 2 ^ 7) mod 2 ^ 8 - 2 ^ 7.

Definition topology_retries : Z := 3.
Definition bcmp_topo_evt_queue_len : nat := 32.

(** [neighbor_table_reply] is the memory of the table. *)
Record NeighborTableEntry : Type := MkEntry {
  prevNode : option loc; nextNode : option loc; ports_explored : Z; is_root : bool;
  neighbor_table_reply : bytes
}.

Record NetworkTopology : Type := MkNetworkTopology {
  nt_front : option loc; nt_back : option loc; nt_cursor : option loc; nt_length : Z; nt_index : Z
}.

Inductive BcmpTopoQueueType : Type :=
| BcmpTopoEvtStart | BcmpTopoEvtCheckNode | BcmpTopoEvtAddNode | BcmpTopoEvtTimeout | BcmpTopoEvtRestart
| BcmpTopoEvtEnd.

Record BcmpTopoQueueItem : Type := MkTopoItem {
  ti_type : BcmpTopoQueueType; ti_entry : option loc; ti_callback : option nat
}.

(** [topo_task]: the task exists.  A call of a callback is recorded with the list that
    it is given and the entries. *)
Record topology : Type := MkTopology {
  topo_queue : option (list BcmpTopoQueueItem);
  network_topology : option NetworkTopology;
  in_progress : bool;
  topo_callback : option nat;
  topo_num_ports : Z;
  topo_task : bool;
  SENT_REQUEST : bool;
  INSERT_BEFORE : bool;
  RETRY_COUNT : Z;
  topo_entries : gmap loc NeighborTableEntry;
  topo_os : Os;
  topo_calls : list (nat * option NetworkTopology * gmap loc NeighborTableEntry)
}.

Definition set_topo_queue (q : option (list BcmpTopoQueueItem)) (s : topology) : topology :=
  MkTopology q (network_topology s) (in_progress s) (topo_callback s) (topo_num_ports s) (topo_task s)
    (SENT_REQUEST s) (INSERT_BEFORE s) (RETRY_COUNT s) (topo_entries s) (topo_os s) (topo_calls s).
Definition set_network (t : option NetworkTopology) (h : gmap loc NeighborTableEntry) (s : topology) : topology :=
  MkTopology (topo_queue s) t (in_progress s) (topo_callback s) (topo_num_ports s) (topo_task s)
    (SENT_REQUEST s) (INSERT_BEFORE s) (RETRY_COUNT s) h (topo_os s) (topo_calls s).
(** The variables of a run. *)
Definition set_run (progress : bool) (cb : option nat) (sent : bool) (s : topology) : topology :=
  MkTopology (topo_queue s) (network_topology s) progress cb (topo_num_ports s) (topo_task s)
    sent (INSERT_BEFORE s) (RETRY_COUNT s) (topo_entries s) (topo_os s) (topo_calls s).
Definition set_insert_before (b : bool) (s : topology) : topology :=
  MkTopology (topo_queue s) (network_topology s) (in_progress s) (topo_callback s) (topo_num_ports s) (topo_task s)
    (SENT_REQUEST s) b (RETRY_COUNT s) (topo_entries s) (topo_os s) (topo_calls s).
Definition set_retry_count (n : Z) (s : topology) : topology :=
  MkTopology (topo_queue s) (network_topology s) (in_progress s) (topo_callback s) (topo_num_ports s) (topo_task s)
    (SENT_REQUEST s) (INSERT_BEFORE s) n (topo_entries s) (topo_os s) (topo_calls s).
Definition set_topo_num_ports (n : Z) (s : topology) : topology :=
  MkTopology (topo_queue s) (network_topology s) (in_progress s) (topo_callback s) n (topo_task s)
    (SENT_REQUEST s) (INSERT_BEFORE s) (RETRY_COUNT s) (topo_entries s) (topo_os s) (topo_calls s).
Definition set_topo_task (b : bool) (s : topology) : topology :=
  MkTopology (topo_queue s) (network_topology s) (in_progress s) (topo_callback s) (topo_num_ports s) b
    (SENT_REQUEST s) (INSERT_BEFORE s) (RETRY_COUNT s) (topo_entries s) (topo_os s) (topo_calls s).
Definition set_topo_os (o : Os) (s : topology) : topology :=
  MkTopology (topo_queue s) (network_topology s) (in_progress s) (topo_callback s) (topo_num_ports s) (topo_task s)
    (SENT_REQUEST s) (INSERT_BEFORE s) (RETRY_COUNT s) (topo_entries s) o (topo_calls s).
(** [callback(network_topology)] *)
Definition call_back (cb : nat) (t : option NetworkTopology) : M topology unit :=
  modify (fun s => MkTopology (topo_queue s) (network_topology s) (in_progress s) (topo_callback s)
    (topo_num_ports s) (topo_task s) (SENT_REQUEST s) (INSERT_BEFORE s) (RETRY_COUNT s) (topo_entries s)
    (topo_os s) (topo_calls s ++ [(cb, t, topo_entries s)])).

Definition with_topo_os {A} (m : M Os A) : M topology A := zoom topo_os set_topo_os m.

(** [bm_queue_send(CTX.evt_queue, &item, 0)] *)
Definition send_item (type : BcmpTopoQueueType) (entry : option loc) (cb : option nat) : M topology BmErr :=
  s ← get;
  match topo_queue s with
  | None => mret BmEINVAL
  | Some q =>
      if (length q <? bcmp_topo_evt_queue_len)%nat then
        _ ← modify (set_topo_queue (Some (q ++ [MkTopoItem type entry cb]))); mret BmOK
      else mret BmENOMEM
  end.

Definition topology_end : M topology unit := _ ← send_item BcmpTopoEvtEnd None None; mret tt.
Definition check_node : M topology unit := _ ← send_item BcmpTopoEvtCheckNode None None; mret tt.

Definition topology_timer_handler : M topology unit := _ ← send_item BcmpTopoEvtTimeout None None; mret tt.

(** ** The list *)

Definition put_network (t : NetworkTopology) : M topology unit :=
  modify (fun s => set_network (Some t) (topo_entries s) s).
Definition get_entry (l : loc) : M topology NeighborTableEntry := s ← get; lift (topo_entries s !! l).
Definition put_entry (l : loc) (e : NeighborTableEntry) : M topology unit :=
  modify (fun s => set_network (network_topology s) (<[l := e]> (topo_entries s)) s).
Definition set_prev (l : loc) (p : option loc) : M topology unit :=
  e ← get_entry l; put_entry l (MkEntry p (nextNode e) (ports_explored e) (is_root e) (neighbor_table_reply e)).
Definition set_next (l : loc) (p : option loc) : M topology unit :=
  e ← get_entry l; put_entry l (MkEntry (prevNode e) p (ports_explored e) (is_root e) (neighbor_table_reply e)).

(** What is done when there is a list. *)
Definition with_network {A} (d : A) (f : NetworkTopology -> M topology A) : M topology A :=
  s ← get; match network_topology s with Some t => f t | None => mret d end.

Definition network_topology_move_to_front : M topology unit :=
  with_network tt (fun t =>
    if nt_length t =? 0 then mret tt
    else put_network (MkNetworkTopology (nt_front t) (nt_back t) (nt_front t) (nt_length t) 0)).

Definition network_topology_move_prev : M topology unit :=
  with_network tt (fun t =>
    if 0 <? nt_index t then
      c ← lift (nt_cursor t); e ← get_entry c;
      put_network (MkNetworkTopology (nt_front t) (nt_back t) (prevNode e) (nt_length t) (s16 (nt_index t - 1)))
    else mret tt).

Definition network_topology_move_next : M topology unit :=
  with_network tt (fun t =>
    if nt_index t <? nt_length t - 1 then
      c ← lift (nt_cursor t); e ← get_entry c;
      put_network (MkNetworkTopology (nt_front t) (nt_back t) (nextNode e) (nt_length t) (s16 (nt_index t + 1)))
    else mret tt).

(** Into an empty list, the index is incremented twice. *)
Definition network_topology_prepend (entry : loc) : M topology unit :=
  with_network tt (fun t =>
    if nt_length t =? 0 then
      _ ← set_prev entry None; _ ← set_next entry None;
      let index := s16 (nt_index t + 1) in
      put_network (MkNetworkTopology (Some entry) (Some entry) (nt_cursor t) (u8 (nt_length t + 1))
        (if 0 <=? index then s16 (index + 1) else index))
    else
      _ ← set_next entry (nt_front t);
      f ← lift (nt_front t); _ ← set_prev f (Some entry);
      put_network (MkNetworkTopology (Some entry) (nt_back t) (nt_cursor t) (u8 (nt_length t + 1))
        (if 0 <=? nt_index t then s16 (nt_index t + 1) else nt_index t))).

Definition network_topology_append (entry : loc) : M topology unit :=
  with_network tt (fun t =>
    if nt_length t =? 0 then
      _ ← set_prev entry None; _ ← set_next entry None;
      put_network (MkNetworkTopology (Some entry) (Some entry) (nt_cursor t) (u8 (nt_length t + 1))
        (s16 (nt_index t + 1)))
    else
      _ ← set_prev entry (nt_back t);
      b ← lift (nt_back t); _ ← set_next b (Some entry);
      put_network (MkNetworkTopology (nt_front t) (Some entry) (nt_cursor t) (u8 (nt_length t + 1)) (nt_index t))).

Definition network_topology_insert_after (entry : loc) : M topology unit :=
  with_network tt (fun t =>
    if nt_length t =? 0 then network_topology_append entry
    else if nt_index t =? nt_length t - 1 then network_topology_append entry
    else
      c ← lift (nt_cursor t); e ← get_entry c;
      _ ← set_next entry (nextNode e);
      n ← lift (nextNode e); _ ← set_prev n (Some entry);
      _ ← set_prev entry (Some c);
      _ ← set_next c (Some entry);
      put_network (MkNetworkTopology (nt_front t) (nt_back t) (nt_cursor t) (u8 (nt_length t + 1)) (nt_index t))).

Definition network_topology_insert_before (entry : loc) : M topology unit :=
  with_network tt (fun t =>
    if nt_length t =? 0 then network_topology_prepend entry
    else if nt_index t =? 0 then network_topology_prepend entry
    else
      c ← lift (nt_cursor t); e ← get_entry c;
      p ← lift (prevNode e); _ ← set_next p (Some entry);
      _ ← set_next entry (Some c);
      _ ← set_prev entry (prevNode e);
      _ ← set_prev c (Some entry);
      put_network (MkNetworkTopology (nt_front t) (nt_back t) (nt_cursor t) (u8 (nt_length t + 1))
        (s16 (nt_index t + 1)))).

(** The table is freed with its entry. *)
Definition free_neighbor_table_entry (entry : option loc) : M topology unit :=
  match entry with
  | Some l => _ ← get_entry l; modify (fun s => set_network (network_topology s) (delete l (topo_entries s)) s)
  | None => mret tt
  end.

Definition network_topology_delete_back : M topology unit :=
  with_network tt (fun t =>
    if nt_length t =? 0 then mret tt
    else
      _ ← (if 1 <? nt_length t then
             b ← lift (nt_back t); e ← get_entry b;
             p ← lift (prevNode e); _ ← set_next p None;
             put_network (MkNetworkTopology (nt_front t) (Some p)
               (if nt_index t =? nt_length t - 1 then Some p else nt_cursor t) (u8 (nt_length t - 1)) (nt_index t))
           else put_network (MkNetworkTopology None None None (u8 (nt_length t - 1)) (-1)));
      free_neighbor_table_entry (nt_back t)).

(** As often as the length says. *)
Fixpoint delete_loop (fuel : nat) : M topology unit :=
  match fuel with O => mret tt | S fuel => _ ← network_topology_delete_back; delete_loop fuel end.

Definition network_topology_clear : M topology unit :=
  with_network tt (fun t => delete_loop (Z.to_nat (nt_length t))).

Definition new_network_topology : M topology (option NetworkTopology) :=
  ok ← with_topo_os malloc_ok;
  mret (if ok : bool then Some (MkNetworkTopology None None None 0 (-1)) else None).

Definition free_network_topology : M topology unit :=
  with_network tt (fun _ =>
    _ ← network_topology_clear; modify (fun s => set_network None (topo_entries s) s)).

Definition network_topology_increment_port_count : M topology unit :=
  with_network tt (fun t =>
    match nt_cursor t with
    | Some c =>
        e ← get_entry c;
        put_entry c (MkEntry (prevNode e) (nextNode e) (u8 (ports_explored e + 1)) (is_root e) (neighbor_table_reply e))
    | None => mret tt
    end).

Definition network_topology_get_port_count : M topology Z :=
  with_network (-1) (fun t =>
    match nt_cursor t with Some c => e ← get_entry c; mret (s8 (ports_explored e)) | None => mret (-1) end).

Definition network_topology_is_root : M topology bool :=
  with_network false (fun t =>
    match nt_cursor t with Some c => e ← get_entry c; mret (is_root e) | None => mret false end).

Section tables.
Context `{Platform}.

(** ** Tables *)

Definition table_node_id (table : bytes) : option Z := native_load <$> read_at 0 8 table.
Definition table_port_len (table : bytes) : option Z := table !! 8%nat.
Definition table_neighbor_len (table : bytes) : option Z := native_load <$> read_at 9 2 table.

(** The offset of a [BcmpNeighborInfo]. *)
Definition neighbor_offset (port_len : Z) (i : nat) : nat := (11 + 2 * Z.to_nat port_len + 10 * i)%nat.

Definition network_topology_node_id_in_topology (node_id : Z) : M topology bool :=
  with_network false (fun t =>
    s ← get;
    '(_, found) ← lift (find_node nextNode (topo_entries s)
      (fun e => id ← table_node_id (neighbor_table_reply e); Some (id =? node_id)) (nt_front t));
    mret (bool_decide (is_Some found))).

(** The counter has eight bits: behind 255 known neighbors the loop starts again, for
    ever. *)
Fixpoint check_ids_loop (fuel : nat) (neighbors_count : Z) (table : bytes) : M topology Z :=
  match fuel with
  | O => ub
  | S fuel =>
      len ← lift (table_neighbor_len table);
      if neighbors_count <? len then
        port_len ← lift (table_port_len table);
        id ← lift (read_at (neighbor_offset port_len (Z.to_nat neighbors_count)) 8 table);
        known ← network_topology_node_id_in_topology (native_load id);
        if negb known then mret (native_load id)
        else check_ids_loop fuel (u8 (neighbors_count + 1)) table
      else mret 0
  end.

Definition cursor_table (t : NetworkTopology) : M topology bytes :=
  c ← lift (nt_cursor t); e ← get_entry c; mret (neighbor_table_reply e).

Definition network_topology_check_neighbor_node_ids : M topology Z :=
  with_network 0 (fun t => table ← cursor_table t; check_ids_loop 257 0 table).

(** The neighbors whose port is up; a port is looked up without a look at the number
    of ports. *)
Fixpoint online_loop (n i : nat) (port_len : Z) (table : bytes) : option Z :=
  match n with
  | O => Some 0
  | S n =>
      p ← table !! (neighbor_offset port_len i + 8)%nat;
      state ← table !! (11 + 2 * Z.to_nat (u8 (p - 1)))%nat;
      rest ← online_loop n (S i) port_len table;
      Some (u16 ((if state =? 0 then 0 else 1) + rest))
  end.

Definition network_topology_check_all_ports_explored : M topology bool :=
  with_network false (fun t =>
    c ← lift (nt_cursor t); e ← get_entry c;
    let table := neighbor_table_reply e in
    num_ports ← lift (table_port_len table);
    len ← lift (table_neighbor_len table);
    online ← lift (online_loop (Z.to_nat len) 0 num_ports table);
    mret (online =? ports_explored e)).

(** A new entry with a table. *)
Definition new_entry (root : bool) (table : bytes) : M topology loc :=
  s ← get;
  let l := fresh (dom (topo_entries s)) in
  _ ← put_entry l (MkEntry None None 0 root table);
  mret l.

Definition sizeof_table (port_len neighbor_len : Z) : Z :=
  sizeof_BcmpNeighborTableReply + sizeof_BcmpPortInfo * port_len + sizeof_BcmpNeighborInfo * neighbor_len.

(** [reply] is the memory from the table on; the size that is copied is computed in
    sixteen bits. *)
Definition neighbor_request_cb (reply : bytes) : M topology BmErr :=
  s ← get;
  if SENT_REQUEST s then
    entry_ok ← with_topo_os malloc_ok;
    if entry_ok : bool then
      port_len ← lift (table_port_len reply);
      neighbor_len ← lift (table_neighbor_len reply);
      table_ok ← with_topo_os malloc_ok;
      if table_ok : bool then
        table ← lift (read_at 0 (Z.to_nat (u16 (sizeof_table port_len neighbor_len))) reply);
        neighbor_entry ← new_entry false table;
        _ ← modify (set_retry_count 0);
        _ ← network_topology_increment_port_count;
        send_item BcmpTopoEvtAddNode (Some neighbor_entry) None
      else _ ← topology_end; mret BmENOMEM
    else _ ← topology_end; mret BmENOMEM
  else mret BmENOMEM.
End tables.

(** What the task asks of src/bcmp/neighbors.c: the node's own neighbors, with their
    number, and the table of another node. *)
Class NeighborTables (St : Type) : Type := {
  own_neighbors : M St (list (loc * BcmpNeighbor) * Z);
  request_neighbor_table : Z -> option BmIpAddr -> option nat -> option nat -> M St BmErr
}.

(** The implementation of [Neighbors]. *)
#[export] Instance neighbors_tables {St} `{Part neighbors St} `{BcmpApi St} `{Platform} : NeighborTables St := {
  own_neighbors :=
    on_part ('(neighbor, num) ← bcmp_get_neighbors;
             s ← get;
             ns ← lift (nodes nb_next (nb_heap s) neighbor);
             mret (ns, num));
  request_neighbor_table := bcmp_request_neighbor_table
}.

Section task.
Context {St : Type} `{Part topology St} `{NeighborTables St} `{Platform} (CFG : DeviceCfg).
Context (bm_l2_get_port_state : Z -> M St bool).
(** The numbers of [neighbor_request_cb] and [topology_timer_handler], and the bytes
    of memory that is not cleared. *)
Context (neighbor_request_id timer_handler_id : nat) (junk : nat -> Z).

(** The states of the ports, each with the offset that it is written to. *)
Fixpoint port_states (ports : list nat) : M St (list (nat * bytes)) :=
  match ports with
  | [] => mret []
  | p :: ports =>
      state ← bm_l2_get_port_state (Z.of_nat p);
      rest ← port_states ports;
      mret (((11 + 2 * p)%nat, [if state : bool then 1 else 0]) :: rest)
  end.

(** The node's own table; the types of the ports are not written. *)
Definition own_table (num_ports num_neighbors : Z) (ns : list (loc * BcmpNeighbor)) : M St bytes :=
  ports ← port_states (seq 0 (Z.to_nat num_ports));
  lift (store_all
    ([(0%nat, native_store 8 (node_id CFG)); (8%nat, [num_ports]); (9%nat, native_store 2 num_neighbors)]
     ++ ports ++ [(neighbor_offset num_ports 0, assemble_neighbor_info_list ns num_neighbors)])
    (junk <$> seq 0 (Z.to_nat (u32 (sizeof_table num_ports num_neighbors))))).

Definition process_start_topology_event : M St bool :=
  t ← on_part new_network_topology;
  _ ← on_part (modify (fun s => set_network t (topo_entries s) s));
  match t with
  | None => mret false
  | Some _ =>
      num_ports ← gets (fun s => topo_num_ports (part s));
      '(ns, num_neighbors) ← own_neighbors;
      entry_ok ← on_part (with_topo_os malloc_ok);
      table_ok ← (if entry_ok : bool then on_part (with_topo_os malloc_ok) else mret false);
      if table_ok : bool then
        table ← own_table num_ports num_neighbors ns;
        entry ← on_part (new_entry true table);
        _ ← on_part (network_topology_append entry);
        _ ← on_part network_topology_move_to_front;
        _ ← on_part check_node;
        mret true
      else _ ← on_part free_network_topology; mret false
  end.

(** The cursor goes back towards the root. *)
Definition move_back : M topology unit :=
  s ← get; if INSERT_BEFORE s then network_topology_move_next else network_topology_move_prev.

Definition process_check_node_event : M St unit :=
  explored ← on_part network_topology_check_all_ports_explored;
  root ← on_part network_topology_is_root;
  if explored : bool then
    if root : bool then on_part topology_end
    else _ ← on_part move_back; on_part check_node
  else
    count ← on_part network_topology_get_port_count;
    _ ← on_part (when (root && (count =? 1)) (modify (set_insert_before true)));
    new_node ← on_part network_topology_check_neighbor_node_ids;
    if negb (new_node =? 0) then
      err ← request_neighbor_table new_node (Some multicast_global_addr) (Some neighbor_request_id)
              (Some timer_handler_id);
      if is_ok err then mret tt else on_part topology_end
    else _ ← on_part move_back; on_part check_node.

Definition add_node (entry : option loc) : M topology unit :=
  _ ← match entry with
      | Some l =>
          e ← get_entry l;
          id ← lift (table_node_id (neighbor_table_reply e));
          known ← network_topology_node_id_in_topology id;
          if negb known then
            s ← get;
            _ ← (if INSERT_BEFORE s
                 then _ ← network_topology_insert_before l; network_topology_move_prev
                 else _ ← network_topology_insert_after l; network_topology_move_next);
            network_topology_increment_port_count
          else free_neighbor_table_entry entry
      | None => mret tt
      end;
  check_node.

(** The end of a run: the callback, and everything is given back. *)
Definition end_topology : M topology unit :=
  s ← get;
  _ ← match topo_callback s with Some cb => call_back cb (network_topology s) | None => mret tt end;
  _ ← free_network_topology;
  modify (fun s => set_insert_before false (set_retry_count 0 (set_run false (topo_callback s) false s))).

Definition topology_timeout : M topology unit :=
  _ ← modify (fun s => set_retry_count (u8 (RETRY_COUNT s + 1)) s);
  s ← get;
  _ ← when (topology_retries <=? RETRY_COUNT s) (_ ← network_topology_increment_port_count; move_back);
  check_node.

Definition process_item (item : BcmpTopoQueueItem) : M St unit :=
  match ti_type item with
  | BcmpTopoEvtStart =>
      busy ← gets (fun s => in_progress (part s));
      started ← (if busy : bool then mret false else process_start_topology_event);
      if started : bool then on_part (modify (set_run true (ti_callback item) true))
      else match ti_callback item with Some cb => on_part (call_back cb None) | None => ub end
  | BcmpTopoEvtAddNode => on_part (add_node (ti_entry item))
  | BcmpTopoEvtCheckNode => process_check_node_event
  | BcmpTopoEvtEnd => on_part end_topology
  | BcmpTopoEvtTimeout => on_part topology_timeout
  | BcmpTopoEvtRestart => mret tt
  end.

Definition receive_item : M topology (option BcmpTopoQueueItem) :=
  s ← get;
  match topo_queue s with
  | Some (item :: q) => _ ← modify (set_topo_queue (Some q)); mret (Some item)
  | _ => mret None
  end.

(** One item that the task takes off its queue, when there is one. *)
Definition bcmp_topology_thread_step : M St unit :=
  item ← on_part receive_item;
  match item with Some item => process_item item | None => mret tt end.
End task.

Definition topology_init (num_ports : Z) : M topology BmErr :=
  _ ← modify (set_topo_num_ports num_ports); mret BmOK.

Definition bcmp_topology_start (callback : option nat) : M topology BmErr :=
  s ← get;
  err ← (if topo_task s then mret BmOK
         else
           queue_ok ← with_topo_os malloc_ok;
           _ ← modify (set_topo_queue (if queue_ok : bool then Some [] else None));
           if queue_ok : bool then
             task_ok ← with_topo_os malloc_ok;
             if task_ok : bool then _ ← modify (set_topo_task true); mret BmOK else mret BmENOMEM
           else mret BmENOMEM);
  unless_err err (send_item BcmpTopoEvtStart None callback).
