(* ===== verification/TopologyTable.v ===== *)
(** * The tables that the topology is made of

    What a table of neighbors says, the bytes that it is sent as, and that the
    topology reads there what src/bcmp/neighbors.c put there. *)
From S2P Require Import Prelude Util LinkedList SList Os Packet Parts Device Neighbors Topology.

(** The states and the types of the ports, and for each neighbor its id, the number of
    the port that it was seen on, counted from 1, and whether it is online. *)
Record NodeTable : Type := MkNodeTable {
  tb_id : Z; tb_ports : list (Z * Z); tb_neighbors : list (Z * Z * Z)
}.

Definition neighbor_ids (t : NodeTable) : list Z := (fun n => fst (fst n)) <$> tb_neighbors t.

Section tables.
Context `{Platform}.

Definition info_bytes (n : Z * Z * Z) : bytes := let '(id, port, online) := n in native_store 8 id ++ [port; online].
Definition port_bytes (p : Z * Z) : bytes := [fst p; snd p].

Definition table_head (t : NodeTable) : bytes :=
  native_store 8 (tb_id t) ++ [Z.of_nat (length (tb_ports t))] ++ native_store 2 (Z.of_nat (length (tb_neighbors t))).

Definition table_bytes (t : NodeTable) : bytes :=
  table_head t ++ concat (port_bytes <$> tb_ports t) ++ concat (info_bytes <$> tb_neighbors t).

(** The sizes fit into their fields, and every neighbor was seen on a port that the
    table has. *)
Record node_table_ok (t : NodeTable) : Prop := {
  tk_id : 0 <= tb_id t < 2 ^ 64;
  tk_ports : (length (tb_ports t) <= 255)%nat;
  tk_neighbors : (length (tb_neighbors t) <= 255)%nat;
  tk_infos : Forall (fun n => 0 <= fst (fst n) < 2 ^ 64 /\ 1 <= snd (fst n) <= Z.of_nat (length (tb_ports t)))
    (tb_neighbors t)
}.

Lemma concat_length_eq {A} n (ls : list (list A)) :
  Forall (fun l => length l = n) ls -> length (concat ls) = (n * length ls)%nat.
Proof. induction 1 as [|l ls Hl Hs IH]; cbn; [lia|]. rewrite length_app, IH. lia. Qed.

(** The [i]th of chunks of the same length. *)
Lemma concat_chunk {A} n (ls : list (list A)) i d :
  Forall (fun l => length l = n) ls -> ls !! i = Some d ->
  exists l1 l2, concat ls = l1 ++ d ++ l2 /\ length l1 = (n * i)%nat.
Proof.
  intros Hall Hi. exists (concat (take i ls)), (concat (drop (S i) ls)). split.
  - rewrite <- (take_drop_middle _ _ _ Hi) at 1. by rewrite concat_app.
  - rewrite (concat_length_eq n) by by apply Forall_take. rewrite length_take_le; [done|].
    apply lookup_lt_Some in Hi. lia.
Qed.

Lemma length_table_head t : length (table_head t) = 11%nat.
Proof. unfold table_head. by rewrite !length_app, !length_native_store. Qed.

Lemma port_chunks t : Forall (fun l => length l = 2%nat) (port_bytes <$> tb_ports t).
Proof. by apply Forall_fmap, Forall_true. Qed.

Lemma info_chunks t : Forall (fun l => length l = 10%nat) (info_bytes <$> tb_neighbors t).
Proof.
  apply Forall_fmap, Forall_true. intros [[id p] o]. cbn. by rewrite length_app, length_native_store.
Qed.

Lemma length_ports t : length (concat (port_bytes <$> tb_ports t)) = (2 * length (tb_ports t))%nat.
Proof. rewrite (concat_length_eq 2) by apply port_chunks. by rewrite length_fmap. Qed.

Lemma length_table t :
  length (table_bytes t) = Z.to_nat (sizeof_table (Z.of_nat (length (tb_ports t))) (Z.of_nat (length (tb_neighbors t)))).
Proof.
  unfold table_bytes, sizeof_table, sizeof_BcmpNeighborTableReply, sizeof_BcmpPortInfo, sizeof_BcmpNeighborInfo.
  rewrite !length_app, length_table_head, length_ports, (concat_length_eq 10) by apply info_chunks.
  rewrite length_fmap. lia.
Qed.

(** *** Reading a table, whatever is behind it *)

Lemma read_table_id t m : node_table_ok t -> table_node_id (table_bytes t ++ m) = Some (tb_id t).
Proof.
  intros Hok. unfold table_node_id, table_bytes, table_head. rewrite <- !app_assoc.
  rewrite read_at_head by (by rewrite length_native_store). cbn [fmap option_fmap option_map].
  rewrite native_load_store, Z.mod_small; [done|]. exact (tk_id _ Hok).
Qed.

Lemma read_table_port_len t m : table_port_len (table_bytes t ++ m) = Some (Z.of_nat (length (tb_ports t))).
Proof.
  unfold table_port_len, table_bytes, table_head. rewrite <- !app_assoc.
  by rewrite lookup_app_r, length_native_store by (by rewrite length_native_store).
Qed.

Lemma read_table_neighbor_len t m :
  node_table_ok t -> table_neighbor_len (table_bytes t ++ m) = Some (Z.of_nat (length (tb_neighbors t))).
Proof.
  intros Hok. unfold table_neighbor_len, table_bytes, table_head. rewrite <- !app_assoc, app_assoc.
  rewrite read_behind by (by rewrite ?length_app, !length_native_store). cbn [fmap option_fmap option_map].
  rewrite native_load_store, Z.mod_small; [done|]. pose proof (tk_neighbors _ Hok). lia.
Qed.

Lemma port_at t m j st ty :
  tb_ports t !! j = Some (st, ty) -> (table_bytes t ++ m) !! (11 + 2 * j)%nat = Some st.
Proof.
  intros Hj. destruct (concat_chunk 2 (port_bytes <$> tb_ports t) j [st; ty]) as (l1 & l2 & E & Hl);
    [apply port_chunks|by rewrite list_lookup_fmap, Hj|].
  unfold table_bytes. rewrite E, <- !app_assoc, app_assoc.
  rewrite lookup_app_r; rewrite length_app, length_table_head, Hl; [|lia].
  by rewrite Nat.sub_diag.
Qed.

Lemma neighbor_at t m i n :
  tb_neighbors t !! i = Some n ->
  exists l1 l2, table_bytes t ++ m = l1 ++ info_bytes n ++ l2
    /\ length l1 = neighbor_offset (Z.of_nat (length (tb_ports t))) i.
Proof.
  intros Hi. destruct (concat_chunk 10 (info_bytes <$> tb_neighbors t) i (info_bytes n)) as (l1 & l2 & E & Hl);
    [apply info_chunks|by rewrite list_lookup_fmap, Hi|].
  exists (table_head t ++ concat (port_bytes <$> tb_ports t) ++ l1), (l2 ++ m). unfold table_bytes. rewrite E.
  split; [by rewrite <- !app_assoc|]. rewrite !length_app, length_table_head, length_ports, Hl.
  unfold neighbor_offset. lia.
Qed.

Lemma read_neighbor_id t m i id p o :
  node_table_ok t -> tb_neighbors t !! i = Some (id, p, o) ->
  native_load <$> read_at (neighbor_offset (Z.of_nat (length (tb_ports t))) i) 8 (table_bytes t ++ m) = Some id.
Proof.
  intros Hok Hi. destruct (neighbor_at t m i _ Hi) as (l1 & l2 & -> & Hl). cbn [info_bytes]. rewrite <- app_assoc.
  rewrite read_behind by (done || by rewrite length_native_store). cbn [fmap option_fmap option_map].
  rewrite native_load_store, Z.mod_small; [done|].
  by destruct (Forall_lookup_1 _ _ _ _ (tk_infos _ Hok) Hi).
Qed.

Lemma read_neighbor_port t m i id p o :
  tb_neighbors t !! i = Some (id, p, o) ->
  (table_bytes t ++ m) !! (neighbor_offset (Z.of_nat (length (tb_ports t))) i + 8)%nat = Some p.
Proof.
  intros Hi. destruct (neighbor_at t m i _ Hi) as (l1 & l2 & -> & <-). cbn [info_bytes]. rewrite <- app_assoc.
  rewrite lookup_app_r by lia. replace (length l1 + 8 - length l1)%nat with 8%nat by lia.
  by rewrite lookup_app_r, length_native_store by (by rewrite length_native_store).
Qed.

(** *** The neighbors whose port is up *)

Definition port_up (t : NodeTable) (port : Z) : bool :=
  match tb_ports t !! Z.to_nat (port - 1) with Some (st, _) => negb (st =? 0) | None => false end.

Definition online_neighbors (t : NodeTable) : list (Z * Z * Z) :=
  List.filter (fun n => port_up t (snd (fst n))) (tb_neighbors t).

Lemma online_loop_spec t m n i :
  node_table_ok t -> (i + n = length (tb_neighbors t))%nat ->
  online_loop n i (Z.of_nat (length (tb_ports t))) (table_bytes t ++ m)
  = Some (Z.of_nat (length (List.filter (fun n => port_up t (snd (fst n))) (drop i (tb_neighbors t))))).
Proof.
  intros Hok. revert i. induction n as [|n IH]; intros i Hn; cbn [online_loop].
  { by rewrite drop_ge by lia. }
  destruct (lookup_lt_is_Some_2 (tb_neighbors t) i) as [[[id p] o] Hi]; [lia|].
  rewrite (read_neighbor_port _ _ _ _ _ _ Hi). cbn [mbind option_bind].
  destruct (Forall_lookup_1 _ _ _ _ (tk_infos _ Hok) Hi) as [_ Hp]. cbn in Hp.
  pose proof (tk_ports _ Hok). pose proof (tk_neighbors _ Hok).
  destruct (lookup_lt_is_Some_2 (tb_ports t) (Z.to_nat (p - 1))) as [[st ty] Hst]; [lia|].
  rewrite u8_small by lia. rewrite (port_at _ _ _ _ _ Hst). cbn [mbind option_bind].
  rewrite IH by lia. cbn [mbind option_bind]. rewrite (drop_S _ _ _ Hi). cbn [List.filter fst snd].
  unfold port_up at 2. rewrite Hst.
  pose proof (List.filter_length_le (fun n => port_up t (snd (fst n))) (drop (S i) (tb_neighbors t))) as Hle.
  rewrite length_drop in Hle. rewrite u16_small by (destruct (st =? 0); lia).
  destruct (st =? 0); cbn [negb length]; f_equal; lia.
Qed.

(** *** Writing one *)

Definition state_byte (up : bool) : Z := if up then 1 else 0.

Definition info_of (x : loc * BcmpNeighbor) : Z * Z * Z :=
  (nb_node_id (snd x), nb_port (snd x), state_byte (online (snd x))).

Lemma assemble_spec ns n :
  assemble_neighbor_info_list ns n = concat (info_bytes <$> (info_of <$> take (Z.to_nat n) ns)).
Proof. unfold assemble_neighbor_info_list. by rewrite <- list_fmap_compose. Qed.

Lemma store_all_app ws1 ws2 f : store_all (ws1 ++ ws2) f = store_all ws1 f ≫= store_all ws2.
Proof.
  revert f. induction ws1 as [|[off d] ws1 IH]; intros f; [done|]. cbn [app store_all].
  by destruct (write_at off d f) as [g|]; [apply IH|].
Qed.

(** The states of the ports go between the types, which stay. *)
Lemma ports_store k sts pre rest :
  length pre = (11 + 2 * k)%nat -> (2 * length sts <= length rest)%nat ->
  exists tys, length tys = length sts /\ (forall i ty, tys !! i = Some ty -> rest !! (2 * i + 1)%nat = Some ty)
    /\ store_all (imap (fun i st => ((11 + 2 * (k + i))%nat, [st])) sts) (pre ++ rest)
       = Some (pre ++ concat (port_bytes <$> zip sts tys) ++ drop (2 * length sts) rest).
Proof.
  revert k pre rest. induction sts as [|st sts IH]; intros k pre rest Hp Hr; [by exists []|].
  destruct rest as [|x [|y rest]]; cbn [length] in Hr; [lia..|].
  destruct (IH (S k) (pre ++ [st; y]) rest) as (tys & Ht & Hy & E); [rewrite length_app; cbn; lia|lia|].
  exists (y :: tys). split; [cbn; lia|]. split.
  { intros [|i] ty Hi; [done|]. replace (2 * S i + 1)%nat with (S (S (2 * i + 1))) by lia. exact (Hy i ty Hi). } cbn [imap store_all]. rewrite Nat.add_0_r, <- Hp.
  unfold write_at. rewrite length_app. cbn [length].
  destruct (Nat.leb_spec (length pre + 1) (length pre + S (S (length rest)))) as [_|?]; [|lia].
  cbn [mbind option_bind].
  assert (Hb : blit (length pre) [st] (pre ++ x :: y :: rest) = pre ++ st :: y :: rest).
  { unfold blit. rewrite take_app_length. cbn [length]. rewrite drop_app_ge by lia.
    by replace (length pre + 1 - length pre)%nat with 1%nat by lia. }
  rewrite Hb. rewrite <- app_assoc in E. etransitivity; [|etransitivity; [exact E|]].
  - f_equal. apply imap_ext. intros i z _. unfold compose. by rewrite Nat.add_succ_r.
  - rewrite <- !app_assoc. cbn [length].
    replace (2 * S (length sts))%nat with (S (S (2 * length sts))) by lia. reflexivity.
Qed.

Section writing.
Context {St : Type} `{PartLaws topology St} `{NeighborTables St} (CFG : DeviceCfg).
Context (bm_l2_get_port_state : Z -> M St bool) (junk : nat -> Z) (up : nat -> bool).
Context (port_state_law : forall p s, bm_l2_get_port_state (Z.of_nat p) s = Some (up p, s)).

Lemma port_states_spec k n s :
  port_states bm_l2_get_port_state (seq k n) s
  = Some (imap (fun i st => ((11 + 2 * (k + i))%nat, [st])) ((fun p => state_byte (up p)) <$> seq k n), s).
Proof.
  revert k. induction n as [|n IH]; intros k; [done|]. cbn [seq port_states].
  rewrite (bind_some _ _ _ _ _ (port_state_law k s)), (bind_some _ _ _ _ _ (IH (S k))).
  cbn [fmap list_fmap imap]. rewrite Nat.add_0_r.
  set (l := (fun p => state_byte (up p)) <$> seq (S k) n).
  assert (E : imap ((fun i (st : Z) => ((11 + 2 * (k + i))%nat, [st])) ∘ S) l
    = imap (fun i (st : Z) => ((11 + 2 * (S k + i))%nat, [st])) l).
  { apply imap_ext. intros i z _. unfold compose. by rewrite Nat.add_succ_r. }
  by rewrite E.
Qed.

(** What the node's own table says; the types of its ports are what was in the memory. *)
Definition own_node_table (num_ports : Z) (ns : list (loc * BcmpNeighbor)) : NodeTable :=
  MkNodeTable (node_id CFG)
    (zip ((fun p => state_byte (up p)) <$> seq 0 (Z.to_nat num_ports))
         ((fun p => junk (12 + 2 * p)%nat) <$> seq 0 (Z.to_nat num_ports)))
    (info_of <$> ns).

Lemma own_table_spec num_ports ns s :
  0 <= num_ports <= 255 -> (length ns <= 255)%nat ->
  own_table CFG bm_l2_get_port_state junk num_ports (Z.of_nat (length ns)) ns s
  = Some (table_bytes (own_node_table num_ports ns), s).
Proof.
  intros Hp Hns. unfold own_node_table. set (sts := (fun p => state_byte (up p)) <$> seq 0 (Z.to_nat num_ports)).
  assert (Hsts : length sts = Z.to_nat num_ports) by (unfold sts; by rewrite length_fmap, length_seq).
  unfold own_table. rewrite (bind_some _ _ _ _ _ (port_states_spec 0 _ s)).
  fold sts. unfold lift.
  set (junks := junk <$> seq 0 (Z.to_nat (u32 (sizeof_table num_ports (Z.of_nat (length ns)))))).
  assert (Hj : length junks = (11 + (2 * Z.to_nat num_ports + 10 * length ns))%nat).
  { unfold junks, sizeof_table, sizeof_BcmpNeighborTableReply, sizeof_BcmpPortInfo, sizeof_BcmpNeighborInfo.
    rewrite length_fmap, length_seq, u32_small by lia. lia. }
  assert (Hlook : forall i ty, (i < Z.to_nat num_ports)%nat -> drop 11 junks !! (2 * i + 1)%nat = Some ty ->
    ((fun p => junk (12 + 2 * p)%nat) <$> seq 0 (Z.to_nat num_ports)) !! i = Some ty).
  { intros i ty Hi. unfold junks. rewrite lookup_drop, !list_lookup_fmap, !lookup_seq_lt;
      [intros [= <-]; cbn; do 2 f_equal; lia|lia|].
    unfold junks in Hj. rewrite length_fmap, length_seq in Hj. lia. }
  clearbody junks.
  set (hd := native_store 8 (node_id CFG) ++ [num_ports] ++ native_store 2 (Z.of_nat (length ns))).
  assert (Hhd : length hd = 11%nat) by (unfold hd; by rewrite !length_app, !length_native_store).
  assert (E1 : store_all [(0%nat, native_store 8 (node_id CFG)); (8%nat, [num_ports]);
      (9%nat, native_store 2 (Z.of_nat (length ns)))] junks = Some (hd ++ drop 11 junks)).
  { pose proof (store_chunks [native_store 8 (node_id CFG); [num_ports]; native_store 2 (Z.of_nat (length ns))] [] junks) as E.
    cbn [at_offsets concat] in E. rewrite !length_app, !length_native_store, app_nil_r in E. apply E. cbn. lia. }
  set (infos := info_bytes <$> (info_of <$> ns)).
  assert (Hinfos : length (concat infos) = (10 * length ns)%nat).
  { unfold infos. rewrite (concat_length_eq 10).
    - by rewrite !length_fmap.
    - exact (info_chunks (MkNodeTable 0 [] (info_of <$> ns))). }
  destruct (ports_store 0 sts hd (drop 11 junks)) as (tys & Ht & Hy & E2); [done|rewrite length_drop; lia|].
  assert (Etys : (fun p => junk (12 + 2 * p)%nat) <$> seq 0 (Z.to_nat num_ports) = tys).
  { symmetry. apply (list_eq_same_length _ _ (Z.to_nat num_ports)); [by rewrite length_fmap, length_seq|lia|].
    intros i x y Hi Hx Hyy. apply Hy, Hlook in Hx; [congruence|done]. }
  rewrite Etys. rewrite !store_all_app, E1. cbn [mbind option_bind].
  rewrite store_all_app, E2. cbn [mbind option_bind store_all].
  rewrite assemble_spec, Nat2Z.id, take_ge by done. fold infos. rewrite app_assoc.
  assert (Hlz : length (concat (port_bytes <$> zip sts tys)) = (2 * Z.to_nat num_ports)%nat).
  { pose proof (length_ports (MkNodeTable 0 (zip sts tys) [])) as E. cbn [tb_ports] in E. rewrite E, length_zip. lia. }
  rewrite write_at_app.
  - cbn [mbind option_bind fmap option_fmap option_map]. do 2 f_equal.
    rewrite drop_drop, drop_ge by (rewrite length_drop; lia). rewrite app_nil_r, <- app_assoc. unfold table_bytes. f_equal.
    unfold table_head, hd. cbn [tb_id tb_ports tb_neighbors]. rewrite length_zip, length_fmap.
    repeat f_equal. lia.
  - rewrite length_app, Hhd, Hlz. unfold neighbor_offset. lia.
  - rewrite !length_drop. lia.
Qed.
End writing.
End tables.
