(* ===== verification/TopologyList.v ===== *)
(** * What the list of the topology stands for

    A sequence of entries with a place in it: those before the cursor, the cursor and
    those behind it. *)
From S2P Require Import Prelude Util LinkedList SList Os Packet Parts Device Neighbors Topology.

(** An entry without its links: the ports that were explored, whether it is the root,
    and its table. *)
Definition content : Type := Z * bool * bytes.
Definition content_of (e : NeighborTableEntry) : content := (ports_explored e, is_root e, neighbor_table_reply e).
Definition entry_of (p n : option loc) (c : content) : NeighborTableEntry :=
  let '(k, r, t) := c in MkEntry p n k r t.

Abbreviation contents := (list (loc * content)).

Definition first_ptr (xs : contents) (n : option loc) : option loc :=
  match xs with [] => n | (l, _) :: _ => Some l end.
Definition last_ptr (p : option loc) (xs : contents) : option loc :=
  match last xs with None => p | Some (l, _) => Some l end.

(** The entries of [xs] are linked, behind [p] and before [n]. *)
Fixpoint linked (h : gmap loc NeighborTableEntry) (p : option loc) (xs : contents) (n : option loc) : Prop :=
  match xs with
  | [] => True
  | (l, c) :: ys => h !! l = Some (entry_of p (first_ptr ys n) c) /\ linked h (Some l) ys n
  end.

Lemma last_ptr_cons p l c xs : last_ptr p ((l, c) :: xs) = last_ptr (Some l) xs.
Proof. unfold last_ptr. rewrite last_cons. by destruct (last xs) as [[? ?]|]. Qed.

Lemma last_ptr_snoc p xs l c : last_ptr p (xs ++ [(l, c)]) = Some l.
Proof. unfold last_ptr. by rewrite last_snoc. Qed.

Lemma linked_app h p xs ys n :
  linked h p (xs ++ ys) n <-> linked h p xs (first_ptr ys n) /\ linked h (last_ptr p xs) ys n.
Proof.
  revert p. induction xs as [|[l c] xs IH]; intros p; [cbn; tauto|].
  cbn [app linked]. rewrite IH, last_ptr_cons.
  replace (first_ptr (xs ++ ys) n) with (first_ptr xs (first_ptr ys n)) by (by destruct xs as [|[? ?] ?]). tauto.
Qed.

Lemma linked_frame h h' p xs n :
  linked h p xs n -> (forall l, l ∈ xs.*1 -> h' !! l = h !! l) -> linked h' p xs n.
Proof.
  revert p. induction xs as [|[l c] xs IH]; intros p; [done|]. intros [Hl Hs] Hf. split.
  - rewrite Hf; [done|]. by left.
  - apply IH; [done|]. intros l' Hl'. apply Hf. by right.
Qed.

Lemma linked_fresh h p xs n l : linked h p xs n -> h !! l = None -> l ∉ xs.*1.
Proof.
  revert p. induction xs as [|[l' c] xs IH]; intros p Hs Hl; [apply not_elem_of_nil|].
  destruct Hs as [H1 H2]. cbn. apply not_elem_of_cons. split; [congruence|exact (IH _ H2 Hl)].
Qed.

(** Another link at an end. *)
Lemma linked_next h p xs e c n n' :
  linked h p (xs ++ [(e, c)]) n -> NoDup (xs ++ [(e, c)]).*1 ->
  h !! e = Some (entry_of (last_ptr p xs) n c)
  /\ linked (<[e := entry_of (last_ptr p xs) n' c]> h) p (xs ++ [(e, c)]) n'.
Proof.
  intros [H1 [H2 _]]%linked_app Hnd. split; [exact H2|]. apply linked_app. split.
  - eapply linked_frame; [exact H1|]. intros l Hl. rewrite lookup_insert_ne; [done|]. intros <-.
    rewrite fmap_app in Hnd. apply NoDup_app in Hnd as (_ & Hnd & _). apply (Hnd e Hl). by left.
  - split; [by rewrite lookup_insert_eq|done].
Qed.

Lemma linked_prev h p p' e c xs n :
  linked h p ((e, c) :: xs) n -> NoDup ((e, c) :: xs).*1 ->
  h !! e = Some (entry_of p (first_ptr xs n) c)
  /\ linked (<[e := entry_of p' (first_ptr xs n) c]> h) p' ((e, c) :: xs) n.
Proof.
  intros [H1 H2] Hnd. split; [exact H1|]. split; [by rewrite lookup_insert_eq|].
  eapply linked_frame; [exact H2|]. intros l Hl. rewrite lookup_insert_ne; [done|]. intros <-.
  cbn in Hnd. apply NoDup_cons in Hnd as [Hnd _]. done.
Qed.

(** ** The list with its cursor *)

Record zip (s : topology) (ls : contents) (c : loc * content) (rs : contents) : Prop := {
  zp_network : network_topology s = Some (MkNetworkTopology (first_ptr (ls ++ c :: rs) None)
    (last_ptr None (ls ++ c :: rs)) (Some (fst c)) (Z.of_nat (length (ls ++ c :: rs))) (Z.of_nat (length ls)));
  zp_linked : linked (topo_entries s) None (ls ++ c :: rs) None;
  zp_nodup : NoDup (ls ++ c :: rs).*1;
  zp_length : (length (ls ++ c :: rs) <= 255)%nat
}.

(** The entries are those of the list, and these others. *)
Definition owns (s : topology) (xs : contents) (others : list loc) : Prop :=
  dom (topo_entries s) = list_to_set (xs.*1 ++ others) /\ NoDup (xs.*1 ++ others).

Lemma s16_small z : - 2 ^ 15 <= z < 2 ^ 15 -> s16 z = z.
Proof. intros Hz. unfold s16. rewrite Z.mod_small by lia. lia. Qed.

Lemma zip_cursor s ls l k rs :
  zip s ls (l, k) rs -> topo_entries s !! l = Some (entry_of (last_ptr None ls) (first_ptr rs None) k).
Proof. intros [_ [_ [H _]]%linked_app _ _]. exact H. Qed.

Lemma zip_entry s ls c rs : zip s ls c rs ->
  get_entry (fst c) s = Some (entry_of (last_ptr None ls) (first_ptr rs None) (snd c), s).
Proof.
  destruct c as [l k]. intros Hz. cbn [fst snd]. unfold get_entry. erewrite bind_some by reflexivity. unfold lift.
  by rewrite (zip_cursor _ _ _ _ _ Hz).
Qed.

Lemma with_network_some {A} (d : A) f s t : network_topology s = Some t -> with_network d f s = f t s.
Proof. intros E. unfold with_network. erewrite bind_some by reflexivity. by rewrite E. Qed.

(** The state with another list. *)
Definition relisted (t : NetworkTopology) (h : gmap loc NeighborTableEntry) (s : topology) : topology :=
  set_network (Some t) h s.

Lemma move_prev_spec s ls d c rs :
  zip s (ls ++ [d]) c rs ->
  exists t, network_topology_move_prev s = Some (tt, relisted t (topo_entries s) s)
    /\ zip (relisted t (topo_entries s) s) ls d (c :: rs).
Proof.
  intros Hz. pose proof (zp_network _ _ _ _ Hz) as Hn. unfold network_topology_move_prev.
  rewrite (with_network_some _ _ _ _ Hn). cbn [nt_index nt_cursor nt_front nt_back nt_length].
  rewrite length_app, Nat2Z.inj_add. destruct (Z.ltb_spec 0 (Z.of_nat (length ls) + Z.of_nat (length [d]))) as [_|H]; [|cbn in H; lia].
  rewrite bind_lift. cbn [mbind option_bind]. rewrite (bind_some _ _ _ _ _ (zip_entry _ _ _ _ Hz)).
  pose proof (zp_length _ _ _ _ Hz) as Hl. rewrite !length_app in Hl.
  rewrite s16_small by (cbn [length] in *; lia).
  eexists. split; [reflexivity|]. destruct Hz as [_ H2 H3 H4]. rewrite <- app_assoc in *.
  destruct d as [dl dk], c as [cl [[k1 k2] k3]]. split; cbn [relisted set_network network_topology topo_entries]; try done.
  cbn [entry_of prevNode snd]. rewrite last_ptr_snoc. do 2 f_equal. cbn [length]. lia.
Qed.

Lemma move_next_spec s ls c d rs :
  zip s ls c (d :: rs) ->
  exists t, network_topology_move_next s = Some (tt, relisted t (topo_entries s) s)
    /\ zip (relisted t (topo_entries s) s) (ls ++ [c]) d rs.
Proof.
  intros Hz. pose proof (zp_network _ _ _ _ Hz) as Hn. unfold network_topology_move_next.
  rewrite (with_network_some _ _ _ _ Hn). cbn [nt_index nt_cursor nt_front nt_back nt_length].
  pose proof (zp_length _ _ _ _ Hz) as Hl. rewrite !length_app in Hl |- *. cbn [length] in Hl |- *.
  destruct (Z.ltb_spec (Z.of_nat (length ls)) (Z.of_nat (length ls + S (S (length rs))) - 1)) as [_|H]; [|lia].
  rewrite bind_lift. cbn [mbind option_bind]. rewrite (bind_some _ _ _ _ _ (zip_entry _ _ _ _ Hz)).
  rewrite s16_small by lia.
  eexists. split; [reflexivity|]. destruct Hz as [_ H2 H3 H4].
  destruct d as [dl dk], c as [cl [[k1 k2] k3]].
  split; cbn [relisted set_network network_topology topo_entries]; rewrite <- app_assoc; cbn [app]; try done.
  cbn [entry_of nextNode snd first_ptr fst]. do 2 f_equal; rewrite !length_app; cbn [length]; lia.
Qed.

(** *** Insertion at the ends *)

Lemma set_prev_spec l p e s :
  topo_entries s !! l = Some e ->
  set_prev l p s = Some (tt, set_network (network_topology s)
    (<[l := entry_of p (nextNode e) (content_of e)]> (topo_entries s)) s).
Proof.
  intros E. unfold set_prev, get_entry. rewrite bind_assoc. erewrite bind_some by reflexivity.
  by rewrite bind_lift, E.
Qed.

Lemma set_next_spec l p e s :
  topo_entries s !! l = Some e ->
  set_next l p s = Some (tt, set_network (network_topology s)
    (<[l := entry_of (prevNode e) p (content_of e)]> (topo_entries s)) s).
Proof.
  intros E. unfold set_next, get_entry. rewrite bind_assoc. erewrite bind_some by reflexivity.
  by rewrite bind_lift, E.
Qed.

Lemma content_entry p n c : content_of (entry_of p n c) = c.
Proof. by destruct c as [[? ?] ?]. Qed.
Lemma prev_entry p n c : prevNode (entry_of p n c) = p.
Proof. by destruct c as [[? ?] ?]. Qed.
Lemma next_entry p n c : nextNode (entry_of p n c) = n.
Proof. by destruct c as [[? ?] ?]. Qed.

Lemma owns_insert s t xs others l e h :
  owns s xs others -> l ∈ xs.*1 ++ others -> h = <[l := e]> (topo_entries s) ->
  owns (set_network t h s) xs others.
Proof.
  intros [Hd Hn] Hl ->. split; [|exact Hn]. cbn. rewrite dom_insert_L, Hd. set_solver.
Qed.

(** A new entry behind the last one, which is the cursor. *)
Lemma insert_after_spec s ls c l k others :
  zip s ls c [] -> owns s (ls ++ [c]) (l :: others) -> topo_entries s !! l = Some (entry_of None None k) ->
  (length (ls ++ [c; (l, k)]) <= 255)%nat ->
  exists t h, network_topology_insert_after l s = Some (tt, set_network (Some t) h s)
    /\ zip (set_network (Some t) h s) ls c [(l, k)]
    /\ owns (set_network (Some t) h s) (ls ++ [c; (l, k)]) others.
Proof.
  intros Hz [Hd Hnd] Hl Hlen. pose proof (zp_network _ _ _ _ Hz) as Hn. destruct c as [cl ck].
  unfold network_topology_insert_after. rewrite (with_network_some _ _ _ _ Hn).
  cbn [nt_index nt_cursor nt_front nt_back nt_length].
  rewrite !length_app in *. cbn [length] in *.
  destruct (Z.eqb_spec (Z.of_nat (length ls + 1)) 0) as [?|_]; [lia|].
  destruct (Z.eqb_spec (Z.of_nat (length ls)) (Z.of_nat (length ls + 1) - 1)) as [_|?]; [|lia].
  unfold network_topology_append. rewrite (with_network_some _ _ _ _ Hn).
  cbn [nt_index nt_cursor nt_front nt_back nt_length].
  destruct (Z.eqb_spec (Z.of_nat (length ls + 1)) 0) as [?|_]; [lia|].
  rewrite last_ptr_snoc. rewrite (bind_some _ _ _ _ _ (set_prev_spec l (Some cl) _ s Hl)).
  rewrite content_entry, next_entry. set (s1 := set_network _ _ s).
  rewrite bind_lift. cbn [mbind option_bind].
  assert (Hlc : l ∉ (ls ++ [(cl, ck)]).*1).
  { intros Hx. apply NoDup_app in Hnd as (_ & Hnd & _). apply (Hnd l Hx). by left. }
  assert (Hcl : cl <> l) by (intros ->; apply Hlc; rewrite fmap_app, elem_of_app; right; by left).
  destruct Hz as [_ Hlk Hnz _].
  destruct (linked_next _ _ _ _ _ _ (Some l) Hlk Hnz) as [Hc Hlk'].
  assert (Hc1 : topo_entries s1 !! cl = Some (entry_of (last_ptr None ls) None ck))
    by (cbn; by rewrite lookup_insert_ne by done).
  rewrite (bind_some _ _ _ _ _ (set_next_spec cl (Some l) _ s1 Hc1)). rewrite content_entry, prev_entry.
  eexists _, _. split; [reflexivity|]. rewrite u8_small by lia. split.
  - split; cbn [relisted set_network network_topology topo_entries fst].
    + change (ls ++ [(cl, ck); (l, k)]) with (ls ++ [(cl, ck)] ++ [(l, k)]). rewrite app_assoc, last_ptr_snoc.
      do 2 f_equal; [by destruct ls as [|[? ?] ?]|rewrite !length_app; cbn; lia].
    + change (ls ++ [(cl, ck); (l, k)]) with (ls ++ [(cl, ck)] ++ [(l, k)]). rewrite app_assoc.
      apply linked_app. rewrite last_ptr_snoc. cbn [first_ptr linked]. split.
      * eapply linked_frame; [exact Hlk'|]. intros x Hx. cbn. rewrite !lookup_insert. repeat case_decide; subst; try done.
      * cbn; by rewrite lookup_insert_ne, lookup_insert_eq by done.
    + change (ls ++ [(cl, ck); (l, k)]) with (ls ++ [(cl, ck)] ++ [(l, k)]). rewrite app_assoc, fmap_app.
      apply NoDup_app. split; [exact Hnz|]. split; [|apply NoDup_singleton].
      intros x Hx ->%list_elem_of_singleton. by apply Hlc.
    + rewrite length_app. cbn. lia.
  - split.
    + cbn. rewrite !dom_insert_L, Hd, !fmap_app. cbn. set_solver.
    + rewrite !fmap_app in Hnd |- *. cbn in Hnd |- *. by rewrite <- app_assoc in Hnd |- *.
Qed.

(** A new entry before the first one, which is the cursor. *)
Lemma insert_before_spec s c rs l k others :
  zip s [] c rs -> owns s (c :: rs) (l :: others) -> topo_entries s !! l = Some (entry_of None None k) ->
  (length ((l, k) :: c :: rs) <= 255)%nat ->
  exists t h, network_topology_insert_before l s = Some (tt, set_network (Some t) h s)
    /\ zip (set_network (Some t) h s) [(l, k)] c rs
    /\ owns (set_network (Some t) h s) ((l, k) :: c :: rs) others.
Proof.
  intros Hz [Hd Hnd] Hl Hlen. pose proof (zp_network _ _ _ _ Hz) as Hn. destruct c as [cl ck].
  unfold network_topology_insert_before. rewrite (with_network_some _ _ _ _ Hn).
  cbn [nt_index nt_cursor nt_front nt_back nt_length app length] in *.
  destruct (Z.eqb_spec (Z.of_nat (S (length rs))) 0) as [?|_]; [lia|]. change (Z.of_nat 0 =? 0) with true. cbv iota.
  unfold network_topology_prepend. rewrite (with_network_some _ _ _ _ Hn).
  cbn [nt_index nt_cursor nt_front nt_back nt_length app length first_ptr].
  destruct (Z.eqb_spec (Z.of_nat (S (length rs))) 0) as [?|_]; [lia|].
  rewrite (bind_some _ _ _ _ _ (set_next_spec l (Some cl) _ s Hl)).
  rewrite content_entry, prev_entry. set (s1 := set_network _ _ s).
  rewrite bind_lift. cbn [mbind option_bind].
  assert (Hlc : l ∉ ((cl, ck) :: rs).*1).
  { intros Hx. apply NoDup_app in Hnd as (_ & Hnd & _). apply (Hnd l Hx). by left. }
  assert (Hcl : cl <> l) by (intros ->; apply Hlc; by left).
  destruct Hz as [_ Hlk Hnz _]. cbn [app] in Hlk, Hnz.
  destruct (linked_prev _ _ (Some l) _ _ _ _ Hlk Hnz) as [Hc Hlk'].
  assert (Hc1 : topo_entries s1 !! cl = Some (entry_of None (first_ptr rs None) ck))
    by (cbn; by rewrite lookup_insert_ne by done).
  rewrite (bind_some _ _ _ _ _ (set_prev_spec cl (Some l) _ s1 Hc1)). rewrite content_entry, next_entry.
  eexists _, _. split; [reflexivity|]. rewrite u8_small by lia.
  change (0 <=? Z.of_nat 0) with true. cbv iota. rewrite s16_small by lia. split.
  - split; cbn [relisted set_network network_topology topo_entries fst app].
    + rewrite !last_ptr_cons. do 2 f_equal. cbn [length]. lia.
    + split; [cbn; by rewrite lookup_insert_ne, lookup_insert_eq by done|].
      eapply linked_frame; [exact Hlk'|]. intros x Hx. cbn. rewrite !lookup_insert. repeat case_decide; subst; try done.
    + rewrite fmap_cons. by apply NoDup_cons_2.
    + cbn [length]. lia.
  - split.
    + cbn. rewrite !dom_insert_L, Hd. cbn. set_solver.
    + cbn in Hnd |- *.
      assert (E : l :: cl :: rs.*1 ++ others ≡ₚ cl :: rs.*1 ++ l :: others)
        by (rewrite <- Permutation_middle; apply perm_swap).
      by rewrite E.
Qed.

(** *** The cursor's entry *)

Lemma is_root_spec s ls l k r t rs : zip s ls (l, (k, r, t)) rs -> network_topology_is_root s = Some (r, s).
Proof.
  intros Hz. unfold network_topology_is_root.
  rewrite (with_network_some _ _ _ _ (zp_network _ _ _ _ Hz)). cbn [nt_cursor fst].
  by rewrite (bind_some _ _ _ _ _ (zip_entry _ _ _ _ Hz)).
Qed.

Lemma port_count_spec s ls l k r t rs : zip s ls (l, (k, r, t)) rs -> network_topology_get_port_count s = Some (s8 k, s).
Proof.
  intros Hz. unfold network_topology_get_port_count.
  rewrite (with_network_some _ _ _ _ (zp_network _ _ _ _ Hz)). cbn [nt_cursor fst].
  by rewrite (bind_some _ _ _ _ _ (zip_entry _ _ _ _ Hz)).
Qed.

(** The contents of the cursor's entry are replaced. *)
Lemma zip_put s ls l k k' rs others :
  zip s ls (l, k) rs -> owns s (ls ++ (l, k) :: rs) others ->
  let s' := set_network (network_topology s) (<[l := entry_of (last_ptr None ls) (first_ptr rs None) k']> (topo_entries s)) s in
  zip s' ls (l, k') rs /\ owns s' (ls ++ (l, k') :: rs) others.
Proof.
  intros Hz Ho s'. pose proof (zip_cursor _ _ _ _ _ Hz) as Hc. destruct Hz as [H1 H2 H3 H4].
  assert (Hf : forall q, (ls ++ (l, q) :: rs).*1 = ls.*1 ++ l :: rs.*1) by (intros q; by rewrite fmap_app).
  assert (Hfp : first_ptr (ls ++ (l, k') :: rs) None = first_ptr (ls ++ (l, k) :: rs) None) by (by destruct ls as [|[? ?] ?]).
  assert (Hlp : last_ptr None (ls ++ (l, k') :: rs) = last_ptr None (ls ++ (l, k) :: rs)).
  { unfold last_ptr. rewrite !last_app, !last_cons. by destruct (last rs) as [[? ?]|]. }
  assert (Hlen : length (ls ++ (l, k') :: rs) = length (ls ++ (l, k) :: rs)) by (by rewrite !length_app).
  split.
  - split.
    + cbn [s' set_network network_topology fst]. by rewrite Hfp, Hlp, Hlen.
    + cbn [s' set_network topo_entries]. rewrite Hf in H3. apply linked_app in H2 as [Ha [_ Hb]].
      apply linked_app. split.
      * eapply linked_frame; [exact Ha|]. intros x Hx. rewrite lookup_insert_ne; [done|]. intros <-.
        apply NoDup_app in H3 as (_ & H3 & _). apply (H3 l Hx). by left.
      * split; [by rewrite lookup_insert_eq|]. eapply linked_frame; [exact Hb|]. intros x Hx.
        rewrite lookup_insert_ne; [done|]. intros <-. apply NoDup_app in H3 as (_ & _ & H3).
        by apply NoDup_cons in H3 as [H3 _].
    + by rewrite Hf in H3 |- *.
    + by rewrite Hlen.
  - destruct Ho as [Hd Hn]. unfold owns. rewrite Hf in Hd, Hn |- *. split; [|exact Hn].
    cbn [s' set_network topo_entries]. rewrite dom_insert_L, Hd. set_solver.
Qed.

Lemma increment_spec s ls l k r t rs others :
  zip s ls (l, (k, r, t)) rs -> owns s (ls ++ (l, (k, r, t)) :: rs) others ->
  exists h, network_topology_increment_port_count s = Some (tt, set_network (network_topology s) h s)
    /\ zip (set_network (network_topology s) h s) ls (l, (u8 (k + 1), r, t)) rs
    /\ owns (set_network (network_topology s) h s) (ls ++ (l, (u8 (k + 1), r, t)) :: rs) others
    /\ (forall x, x ∈ others -> h !! x = topo_entries s !! x).
Proof.
  intros Hz Ho. unfold network_topology_increment_port_count.
  rewrite (with_network_some _ _ _ _ (zp_network _ _ _ _ Hz)). cbn [nt_cursor fst].
  rewrite (bind_some _ _ _ _ _ (zip_entry _ _ _ _ Hz)). eexists. split; [reflexivity|].
  destruct (zip_put s ls l _ (u8 (k + 1), r, t) rs others Hz Ho) as [Hz' Ho']. split; [exact Hz'|]. split; [exact Ho'|].
  intros x Hx. cbn. rewrite lookup_insert_ne; [done|]. intros <-.
  destruct Ho as [_ Ho]. apply NoDup_app in Ho as (_ & Ho & _). apply (Ho l); [|done].
  rewrite fmap_app. apply elem_of_app. right. by left.
Qed.

(** *** The end of the list *)

(** The list, wherever its cursor is. *)
Record listed (s : topology) (xs : contents) : Prop := {
  ls_network : exists cur idx, network_topology s
    = Some (MkNetworkTopology (first_ptr xs None) (last_ptr None xs) cur (Z.of_nat (length xs)) idx);
  ls_linked : linked (topo_entries s) None xs None;
  ls_nodup : NoDup xs.*1;
  ls_length : (length xs <= 255)%nat
}.

Lemma zip_listed s ls c rs : zip s ls c rs -> listed s (ls ++ c :: rs).
Proof. intros []. split; eauto. Qed.

Lemma owns_delete s t xs l k others :
  owns s (xs ++ [(l, k)]) others -> owns (set_network t (delete l (topo_entries s)) s) xs others.
Proof.
  intros [Hd Hn]. rewrite fmap_app in Hd, Hn. cbn in Hd, Hn. split.
  - cbn. rewrite dom_delete_L, Hd. rewrite <- app_assoc in Hn. cbn in Hn. apply NoDup_app in Hn as (_ & Hx & Hn).
    assert (l ∉ xs.*1) by (intros H; apply (Hx l H); by left). apply NoDup_cons in Hn as [Ho _]. set_solver.
  - rewrite <- app_assoc in Hn. apply NoDup_app in Hn as (H1 & H2 & H3). cbn in H3. apply NoDup_cons in H3 as [_ H3].
    apply NoDup_app. split; [done|]. split; [|done]. intros x Hx Ho. apply (H2 x Hx). by right.
Qed.

Lemma delete_back_spec s xs l k others :
  listed s (xs ++ [(l, k)]) -> owns s (xs ++ [(l, k)]) others ->
  exists t h, network_topology_delete_back s = Some (tt, set_network (Some t) h s)
    /\ listed (set_network (Some t) h s) xs /\ owns (set_network (Some t) h s) xs others.
Proof.
  intros [(cur & idx & Hn) Hl Hnd Hlen] Ho. unfold network_topology_delete_back.
  rewrite (with_network_some _ _ _ _ Hn). cbn [nt_length nt_back nt_index nt_cursor nt_front].
  rewrite length_app in *. cbn [length] in *. rewrite last_ptr_snoc.
  destruct (Z.eqb_spec (Z.of_nat (length xs + 1)) 0) as [?|_]; [lia|].
  apply linked_app in Hl as [Hl Hk]. cbn [first_ptr linked] in Hl, Hk. destruct Hk as [Hk _].
  assert (Hlx : l ∉ xs.*1).
  { intros Hx. rewrite fmap_app in Hnd. apply NoDup_app in Hnd as (_ & Hnd & _). apply (Hnd l Hx). by left. }
  assert (Hnx : NoDup xs.*1) by (rewrite fmap_app in Hnd; by apply NoDup_app in Hnd as (Hnd & _)).
  destruct xs as [|[dl dk] xs _] using rev_ind.
  - change (1 <? Z.of_nat (length (A := loc * content) [] + 1)) with false. cbv iota.
    erewrite bind_some by reflexivity. unfold free_neighbor_table_entry, get_entry. rewrite bind_assoc.
    erewrite bind_some by reflexivity. rewrite bind_lift. cbn [set_network topo_entries]. rewrite Hk. cbn [mbind option_bind].
    eexists _, _. split; [reflexivity|]. split; [|by apply (owns_delete s _ [] l k)].
    split; cbn; [by eexists _, _|done|done|lia].
  - rewrite length_app in *. cbn [length] in *.
    destruct (Z.ltb_spec 1 (Z.of_nat (length xs + 1 + 1))) as [_|?]; [|lia].
    rewrite bind_assoc, bind_lift. cbn [mbind option_bind]. rewrite bind_assoc. unfold get_entry at 1. rewrite bind_assoc.
    erewrite bind_some by reflexivity. rewrite bind_lift, Hk. cbn [mbind option_bind].
    rewrite prev_entry, last_ptr_snoc, bind_assoc, bind_lift. cbn [mbind option_bind].
    destruct (linked_next _ _ _ _ _ _ None Hl Hnx) as [Hd Hl']. rewrite bind_assoc.
    rewrite (bind_some _ _ _ _ _ (set_next_spec dl None _ s Hd)). rewrite content_entry, prev_entry.
    erewrite bind_some by reflexivity. unfold free_neighbor_table_entry, get_entry. rewrite bind_assoc.
    erewrite bind_some by reflexivity. rewrite bind_lift. cbn [set_network topo_entries].
    assert (Hdl : dl <> l) by (intros ->; apply Hlx; rewrite fmap_app; apply elem_of_app; right; by left).
    rewrite lookup_insert_ne by done. rewrite Hk. cbn [mbind option_bind].
    eexists _, _. split; [reflexivity|]. split.
    + split; cbn [set_network network_topology topo_entries].
      * rewrite u8_small by lia. rewrite last_ptr_snoc, length_app. cbn [length]. eexists _, _. do 2 f_equal.
        -- by destruct xs as [|[? ?] ?].
        -- lia.
      * eapply linked_frame; [exact Hl'|]. intros x Hx. rewrite lookup_delete_ne; [done|]. by intros <-.
      * done.
      * rewrite length_app. cbn. lia.
    + apply (owns_delete (set_network (network_topology s) _ s) _ _ l k).
      apply (owns_insert s _ _ _ dl (entry_of (last_ptr None xs) None dk) _ Ho); [|done].
      rewrite !fmap_app. set_solver.
Qed.

Lemma delete_loop_spec s xs others :
  listed s xs -> owns s xs others ->
  exists t h, delete_loop (length xs) s = Some (tt, set_network t h s) /\ owns (set_network t h s) [] others.
Proof.
  revert s. induction xs as [|[l k] xs IH] using rev_ind; intros s Hl Ho.
  - exists (network_topology s), (topo_entries s). by destruct s.
  - rewrite length_app, Nat.add_1_r. cbn [delete_loop].
    destruct (delete_back_spec _ _ _ _ _ Hl Ho) as (t & h & E & Hl' & Ho'). rewrite (bind_some _ _ _ _ _ E).
    destruct (IH _ Hl' Ho') as (t' & h' & E' & Ho2). eexists _, _. split; [exact E'|exact Ho2].
Qed.

(** Every entry of the list is freed. *)
Lemma free_network_spec s xs :
  listed s xs -> owns s xs [] -> free_network_topology s = Some (tt, set_network None ∅ s).
Proof.
  intros Hl Ho. pose proof (ls_network _ _ Hl) as (cur & idx & Hn). unfold free_network_topology, network_topology_clear.
  rewrite (with_network_some _ _ _ _ Hn). unfold mbind, M_bind. rewrite (with_network_some _ _ _ _ Hn).
  cbn [nt_length]. rewrite Nat2Z.id. destruct (delete_loop_spec _ _ _ Hl Ho) as (t & h & -> & [Hd _]).
  cbn in Hd |- *. apply dom_empty_inv_L in Hd. by subst.
Qed.

(** *** New entries *)

Lemma new_entry_spec root table s xs others :
  owns s xs others ->
  exists l, new_entry root table s
      = Some (l, set_network (network_topology s) (<[l := entry_of None None (0, root, table)]> (topo_entries s)) s)
    /\ topo_entries s !! l = None
    /\ owns (set_network (network_topology s) (<[l := entry_of None None (0, root, table)]> (topo_entries s)) s) xs (l :: others).
Proof.
  intros [Hd Hn]. exists (fresh (dom (topo_entries s))).
  assert (Hf : fresh (dom (topo_entries s)) ∉ dom (topo_entries s)) by apply is_fresh.
  split; [reflexivity|]. split; [by apply not_elem_of_dom|]. split.
  - cbn. rewrite dom_insert_L, Hd. clear. set_solver.
  - rewrite Hd in Hf. apply not_elem_of_list_to_set in Hf. rewrite Hd.
    rewrite <- Permutation_middle. by apply NoDup_cons_2.
Qed.

(** An entry that is not in the list keeps its place when the list changes elsewhere. *)
Lemma zip_insert s ls c rs l e t :
  zip s ls c rs -> topo_entries s !! l = None -> network_topology s = t -> zip (set_network t (<[l := e]> (topo_entries s)) s) ls c rs.
Proof.
  intros [H1 H2 H3 H4] Hl <-. split; [exact H1| |exact H3|exact H4].
  cbn. eapply linked_frame; [exact H2|]. intros x Hx. rewrite lookup_insert_ne; [done|]. intros <-.
  by apply (linked_fresh _ _ _ _ _ H2 Hl).
Qed.

(** The first entry. *)
Lemma first_entry_spec s l k :
  network_topology s = Some (MkNetworkTopology None None None 0 (-1)) ->
  topo_entries s = {[l := entry_of None None k]} ->
  exists t h, (_ ← network_topology_append l; network_topology_move_to_front) s = Some (tt, set_network (Some t) h s)
    /\ zip (set_network (Some t) h s) [] (l, k) [] /\ owns (set_network (Some t) h s) [(l, k)] [].
Proof.
  intros Hn He.
  assert (Ha : exists h, h = {[l := entry_of None None k]} /\ network_topology_append l s
    = Some (tt, set_network (Some (MkNetworkTopology (Some l) (Some l) None 1 0)) h s)).
  { assert (Hl : topo_entries s !! l = Some (entry_of None None k)) by (by rewrite He, lookup_singleton_eq).
    unfold network_topology_append. rewrite (with_network_some _ _ _ _ Hn). cbn [nt_length Z.eqb].
    rewrite (bind_some _ _ _ _ _ (set_prev_spec l None _ s Hl)). rewrite content_entry, next_entry.
    erewrite bind_some by (eapply set_next_spec; cbn; by rewrite lookup_insert_eq). rewrite content_entry, prev_entry.
    eexists. split; [|reflexivity]. cbn. by rewrite insert_insert_eq, He, insert_singleton_eq. }
  destruct Ha as (h & -> & Ha). rewrite (bind_some _ _ _ _ _ Ha). eexists _, _. split; [reflexivity|].
  split.
  - split; cbn; [done|by rewrite lookup_singleton_eq|by apply NoDup_singleton|lia].
  - split; [cbn; rewrite dom_singleton_L; set_solver|by apply NoDup_singleton].
Qed.
