(* ===== verification/TopologyWalk.v ===== *)
(** * A step of the exploration

    What one event does to the list, in either direction: the entries between the
    cursor and the other end of the list lie inside of the cursor, those that are
    beyond it lie outside. *)
From S2P Require Import Prelude Util LinkedList SList Os Packet Parts Device Neighbors Topology TopologyTable TopologyList.

(** [inner] starts next to the cursor, and so does [outer]. *)
Definition line_of {A} (before : bool) (inner : list A) (c : A) (outer : list A) : list A :=
  if before then reverse outer ++ c :: inner else reverse inner ++ c :: outer.

Definition facing (before : bool) (s : topology) (inner : contents) (c : loc * content) (outer : contents) : Prop :=
  if before then zip s (reverse outer) c inner else zip s (reverse inner) c outer.

Lemma facing_listed before s inner c outer : facing before s inner c outer -> listed s (line_of before inner c outer).
Proof. destruct before; apply zip_listed. Qed.

Lemma zip_same s s' ls c rs :
  network_topology s' = network_topology s -> topo_entries s' = topo_entries s -> zip s ls c rs -> zip s' ls c rs.
Proof. intros E1 E2 []. split; by rewrite ?E1, ?E2. Qed.

Lemma owns_same s s' xs others : topo_entries s' = topo_entries s -> owns s xs others -> owns s' xs others.
Proof. intros E []. split; by rewrite ?E. Qed.

Lemma line_of_inwards {A} before (d : A) inner c outer :
  line_of before (d :: inner) c outer = line_of before inner d (c :: outer).
Proof. destruct before; unfold line_of; by rewrite reverse_cons, <- app_assoc. Qed.

Lemma elem_of_line_of {A} before inner (c : A) outer x :
  x ∈ line_of before inner c outer <-> x = c \/ x ∈ inner \/ x ∈ outer.
Proof. destruct before; unfold line_of; rewrite elem_of_app, elem_of_cons, elem_of_reverse; tauto. Qed.

Lemma line_of_fmap {A B} (f : A -> B) before inner c outer :
  f <$> line_of before inner c outer = line_of before (f <$> inner) (f c) (f <$> outer).
Proof. destruct before; unfold line_of; by rewrite fmap_app, fmap_reverse, fmap_cons. Qed.

Lemma Forall2_line_of {A B} (R : A -> B -> Prop) before inner c outer inner' c' outer' :
  Forall2 R inner inner' -> R c c' -> Forall2 R outer outer' ->
  Forall2 R (line_of before inner c outer) (line_of before inner' c' outer').
Proof.
  intros Hi Hc Ho. destruct before; unfold line_of; apply Forall2_app; try apply Forall2_cons; try done; by apply Forall2_reverse.
Qed.

Section walk.
Context `{Platform} (T : Z -> NodeTable) (root : Z).

(** The contents of a node's entry. *)
Definition explored (id k : Z) : content := (k, id =? root, table_bytes (T id)).
Definition holds (x : loc * content) (id : Z) : Prop := exists k, snd x = explored id k.

(** A table that can be relied on. *)
Record good (id : Z) : Prop := {
  gd_ok : node_table_ok (T id);
  gd_id : tb_id (T id) = id;
  gd_up : Forall (fun n => port_up (T id) (snd (fst n)) = true) (tb_neighbors (T id))
}.

Lemma good_table_id id m : good id -> table_node_id (table_bytes (T id) ++ m) = Some id.
Proof. intros [Ho Hi _]. rewrite read_table_id by done. by rewrite Hi. Qed.

(** *** The state of a run *)

Definition run_vars (s : topology) :=
  (in_progress s, topo_callback s, topo_num_ports s, topo_task s, SENT_REQUEST s, topo_os s, topo_calls s).

Record walking (b s : topology) (q : list BcmpTopoQueueItem) (before : bool) (inner : contents)
    (c : loc * content) (outer : contents) (others : list loc) : Prop := {
  wk_facing : facing before s inner c outer;
  wk_owns : owns s (line_of before inner c outer) others;
  wk_queue : topo_queue s = Some q;
  wk_dir : INSERT_BEFORE s = before;
  wk_vars : run_vars s = run_vars b
}.

Lemma walking_same b s s' q q' before inner c outer others :
  walking b s q before inner c outer others ->
  network_topology s' = network_topology s -> topo_entries s' = topo_entries s -> topo_queue s' = Some q' ->
  INSERT_BEFORE s' = before -> run_vars s' = run_vars s -> walking b s' q' before inner c outer others.
Proof.
  intros [Hf Ho Hq Hd Hv] E1 E2 E3 E4 E5. split; [|by eapply owns_same|done|done|congruence].
  destruct before; by eapply zip_same.
Qed.

Lemma send_item_spec type entry cb s q :
  topo_queue s = Some q -> (length q < 32)%nat ->
  send_item type entry cb s = Some (BmOK, set_topo_queue (Some (q ++ [MkTopoItem type entry cb])) s).
Proof.
  intros Hq Hl. unfold send_item. erewrite bind_some by reflexivity. rewrite Hq.
  by destruct (Nat.ltb_spec (length q) bcmp_topo_evt_queue_len) as [_|Hb]; [|unfold bcmp_topo_evt_queue_len in Hb; lia].
Qed.

Lemma check_node_spec b s before inner c outer others :
  walking b s [] before inner c outer others ->
  exists s', check_node s = Some (tt, s')
    /\ walking b s' [MkTopoItem BcmpTopoEvtCheckNode None None] before inner c outer others.
Proof.
  intros Hw. unfold check_node. erewrite bind_some by (apply send_item_spec; [exact (wk_queue _ _ _ _ _ _ _ _ Hw)|cbn; lia]).
  eexists. split; [reflexivity|]. eapply walking_same; [exact Hw|done..|exact (wk_dir _ _ _ _ _ _ _ _ Hw)|done].
Qed.

(** The cursor goes inwards. *)
Lemma move_back_spec b s q before d inner c outer others :
  walking b s q before (d :: inner) c outer others ->
  exists s', move_back s = Some (tt, s') /\ walking b s' q before inner d (c :: outer) others.
Proof.
  intros [Hf Ho Hq Hd Hv]. unfold move_back. erewrite bind_some by reflexivity. rewrite Hd.
  destruct before; cbn [facing] in Hf.
  - destruct (move_next_spec _ _ _ _ _ Hf) as (t & E & Hz). rewrite E. eexists. split; [reflexivity|].
    split; [unfold facing; by rewrite reverse_cons|by rewrite <- line_of_inwards|done..].
  - rewrite reverse_cons in Hf. destruct (move_prev_spec _ _ _ _ _ Hf) as (t & E & Hz). rewrite E. eexists. split; [reflexivity|].
    split; [done|by rewrite <- line_of_inwards|done..].
Qed.

(** A new entry next to the cursor, which moves there. *)
Lemma advance_spec b s before inner c l k others :
  walking b s [] before inner c [] (l :: others) -> topo_entries s !! l = Some (entry_of None None k) ->
  (length inner < 254)%nat ->
  exists s', (if before then _ ← network_topology_insert_before l; network_topology_move_prev
              else _ ← network_topology_insert_after l; network_topology_move_next) s = Some (tt, s')
    /\ walking b s' [] before (c :: inner) (l, k) [] others.
Proof.
  intros [Hf Ho Hq Hd Hv] Hl Hlen. destruct before; cbn [facing line_of reverse rev_append app] in *.
  - destruct (insert_before_spec _ _ _ _ _ _ Hf Ho Hl) as (t & h & E & Hz & Ho'); [cbn; lia|].
    rewrite (bind_some _ _ _ _ _ E). destruct (move_prev_spec _ [] _ _ _ Hz) as (t' & E' & Hz'). rewrite E'.
    eexists. split; [reflexivity|]. by split.
  - destruct (insert_after_spec _ _ _ _ _ _ Hf Ho Hl) as (t & h & E & Hz & Ho');
      [rewrite length_app, length_reverse; cbn; lia|].
    rewrite (bind_some _ _ _ _ _ E). destruct (move_next_spec _ _ _ _ _ Hz) as (t' & E' & Hz'). rewrite E'.
    eexists. split; [reflexivity|]. split; try done; unfold facing, line_of; rewrite reverse_cons; [done|].
    by rewrite <- app_assoc.
Qed.

Lemma increment_walk b s q before inner l id k outer others :
  walking b s q before inner (l, explored id k) outer others -> 0 <= k < 255 ->
  exists s', network_topology_increment_port_count s = Some (tt, s')
    /\ walking b s' q before inner (l, explored id (k + 1)) outer others
    /\ (forall x, x ∈ others -> topo_entries s' !! x = topo_entries s !! x).
Proof.
  intros [Hf Ho Hq Hd Hv] Hk.
  assert (Hx : forall ls rs, zip s ls (l, explored id k) rs -> owns s (ls ++ (l, explored id k) :: rs) others ->
    exists h, network_topology_increment_port_count s = Some (tt, set_network (network_topology s) h s)
    /\ zip (set_network (network_topology s) h s) ls (l, explored id (k + 1)) rs
    /\ owns (set_network (network_topology s) h s) (ls ++ (l, explored id (k + 1)) :: rs) others
    /\ (forall x, x ∈ others -> h !! x = topo_entries s !! x)).
  { intros ls rs Hz Ho'. destruct (increment_spec _ _ _ _ _ _ _ _ Hz Ho') as (h & E & Hz' & Ho2 & Hf').
    rewrite u8_small in Hz', Ho2 by lia. by exists h. }
  destruct before; destruct (Hx _ _ Hf Ho) as (h & E & Hz & Ho' & Hf'); rewrite E; eexists; (split; [reflexivity|]); by split.
Qed.

(** *** Which nodes are known *)

Fixpoint linked_entries (p : option loc) (xs : contents) (n : option loc) : list (loc * NeighborTableEntry) :=
  match xs with
  | [] => []
  | (l, c) :: ys => (l, entry_of p (first_ptr ys n) c) :: linked_entries (Some l) ys n
  end.

Lemma linked_segment h p xs : linked h p xs None -> segment nextNode h (first_ptr xs None) None (linked_entries p xs None).
Proof.
  revert p. induction xs as [|[l c] xs IH]; intros p; [done|]. intros [Hl Hs]. cbn. split_and!; [done|done|].
  rewrite next_entry. by apply IH.
Qed.

Lemma linked_entries_keys p xs n : (linked_entries p xs n).*1 = xs.*1.
Proof. revert p. induction xs as [|[l c] xs IH]; intros p; [done|]. cbn. by rewrite IH. Qed.

Lemma reply_entry p n c : neighbor_table_reply (entry_of p n c) = snd c.
Proof. by destruct c as [[? ?] ?]. Qed.

(** The tables of the list are those of these nodes. *)
Definition shows (xs : contents) (ids : list Z) : Prop := Forall2 holds xs ids.

Lemma linked_tables xs ids p n l e :
  shows xs ids -> (l, e) ∈ linked_entries p xs n -> exists id, id ∈ ids /\ neighbor_table_reply e = table_bytes (T id).
Proof.
  intros Hs. revert p. induction Hs as [|[l' c] id xs ids [k Hk] Hs IH]; intros p Hx; [by apply not_elem_of_nil in Hx|].
  cbn in Hx. apply elem_of_cons in Hx as [[= -> ->]|Hx].
  - exists id. split; [by left|]. cbn in Hk. by rewrite reply_entry, Hk.
  - destruct (IH _ Hx) as (id' & Hid & E). exists id'. split; [by right|done].
Qed.

Lemma linked_table_of xs ids p n id :
  shows xs ids -> id ∈ ids -> exists l e, (l, e) ∈ linked_entries p xs n /\ neighbor_table_reply e = table_bytes (T id).
Proof.
  intros Hs. revert p. induction Hs as [|[l' c] id' xs ids [k Hk] Hs IH]; intros p Hx; [by apply not_elem_of_nil in Hx|].
  apply elem_of_cons in Hx as [->|Hx].
  - eexists _, _. split; [by left|]. cbn in Hk. by rewrite reply_entry, Hk.
  - destruct (IH (Some l') Hx) as (l & e & Hid & E). exists l, e. split; [by right|done].
Qed.

Lemma known_spec s xs ids id :
  listed s xs -> shows xs ids -> Forall good ids ->
  network_topology_node_id_in_topology id s = Some (bool_decide (id ∈ ids), s).
Proof.
  intros [(cur & idx & Hn) Hl Hnd _] Hs Hg. unfold network_topology_node_id_in_topology.
  rewrite (with_network_some _ _ _ _ Hn). cbn [nt_front]. erewrite bind_some by reflexivity.
  rewrite bind_lift. rewrite Forall_forall in Hg.
  assert (Hsl : slist nextNode (topo_entries s) (first_ptr xs None) (linked_entries None xs None)).
  { split; [by apply linked_segment|by rewrite linked_entries_keys]. }
  set (test := fun e => id' ← table_node_id (neighbor_table_reply e); Some (id' =? id)).
  assert (Htest : forall l e, (l, e) ∈ linked_entries None xs None ->
    exists id', id' ∈ ids /\ neighbor_table_reply e = table_bytes (T id') /\ test e = Some (id' =? id)).
  { intros l e Hx. destruct (linked_tables _ _ _ _ _ _ Hs Hx) as (id' & Hid & E). exists id'.
    split_and!; [done|done|]. unfold test. rewrite E, <- (app_nil_r (table_bytes _)), good_table_id by auto. done. }
  case_bool_decide as Hin.
  - destruct (find_node_total nextNode (topo_entries s) test (fun e => match test e with Some b => b | None => false end) _ _ Hsl)
      as (prev & ptr & E & Hnone).
    { intros l e Hx. destruct (Htest l e Hx) as (id' & _ & _ & ->). done. }
    rewrite E. cbn [mbind option_bind]. destruct ptr as [ptr|]; [done|]. exfalso.
    destruct (linked_table_of xs ids None None id Hs Hin) as (l & e & Hx & Et).
    specialize (Hnone eq_refl l e Hx). unfold test in Hnone.
    rewrite Et, <- (app_nil_r (table_bytes _)), good_table_id in Hnone by auto. cbn in Hnone. by rewrite Z.eqb_refl in Hnone.
  - rewrite (find_node_miss _ _ test _ _ Hsl); [done|]. intros l e Hx.
    destruct (Htest l e Hx) as (id' & Hid & _ & ->). destruct (Z.eqb_spec id' id) as [->|]; done.
Qed.

(** The first neighbor that is not known. *)
Definition first_unknown (ids neighbors : list Z) : Z := default 0 (hd_error (filter (fun id => id ∉ ids) neighbors)).

Lemma check_ids_spec s xs ids id fuel i :
  listed s xs -> shows xs ids -> Forall good ids -> good id ->
  (length (tb_neighbors (T id)) < i + fuel)%nat -> (i <= length (tb_neighbors (T id)))%nat ->
  check_ids_loop fuel (Z.of_nat i) (table_bytes (T id)) s
  = Some (first_unknown ids (drop i (neighbor_ids (T id))), s).
Proof.
  intros Hl Hs Hg Hid. rewrite <- (app_nil_r (table_bytes (T id))). pose proof (tk_neighbors _ (gd_ok _ Hid)) as Hb.
  revert i. induction fuel as [|fuel IH]; intros i Hf Hi; [lia|]. cbn [check_ids_loop].
  rewrite bind_lift, read_table_neighbor_len by apply (gd_ok _ Hid). cbn [mbind option_bind].
  destruct (Z.ltb_spec (Z.of_nat i) (Z.of_nat (length (tb_neighbors (T id))))) as [Hlt|Hge].
  - destruct (lookup_lt_is_Some_2 (tb_neighbors (T id)) i) as [[[n p] o] Hn]; [lia|].
    rewrite bind_lift, read_table_port_len. cbn [mbind option_bind]. rewrite bind_lift, Nat2Z.id.
    pose proof (read_neighbor_id _ [] _ _ _ _ (gd_ok _ Hid) Hn) as Hr.
    destruct (read_at _ 8 _) as [w|]; [|done]. injection Hr as Hr. cbn [mbind option_bind]. rewrite Hr.
    rewrite (bind_some _ _ _ _ _ (known_spec s xs ids n Hl Hs Hg)).
    assert (Hd : drop i (neighbor_ids (T id)) = n :: drop (S i) (neighbor_ids (T id)))
      by (apply drop_S; unfold neighbor_ids; by rewrite list_lookup_fmap, Hn).
    rewrite Hd. unfold first_unknown. rewrite filter_cons. case_bool_decide as Hin; cbn [negb].
    + rewrite decide_False by (intros H'; by apply H'). rewrite u8_small by lia. rewrite Z.add_1_r, <- Nat2Z.inj_succ.
      apply IH; lia.
    + by rewrite decide_True.
  - assert (Hd : drop i (neighbor_ids (T id)) = []) by (apply drop_ge; unfold neighbor_ids; rewrite length_fmap; lia).
    by rewrite Hd.
Qed.

Lemma facing_zip before s inner c outer :
  facing before s inner c outer -> exists ls rs, zip s ls c rs /\ line_of before inner c outer = ls ++ c :: rs.
Proof. destruct before; intros Hz; eexists _, _; (split; [exact Hz|done]). Qed.

Lemma unknown_neighbor_spec b s q before inner l id k outer others ids :
  walking b s q before inner (l, explored id k) outer others ->
  shows (line_of before inner (l, explored id k) outer) ids -> Forall good ids -> good id ->
  network_topology_check_neighbor_node_ids s = Some (first_unknown ids (neighbor_ids (T id)), s).
Proof.
  intros Hw Hs Hg Hid. pose proof (facing_listed _ _ _ _ _ (wk_facing _ _ _ _ _ _ _ _ Hw)) as Hl.
  destruct (facing_zip _ _ _ _ _ (wk_facing _ _ _ _ _ _ _ _ Hw)) as (ls & rs & Hz & _).
  unfold network_topology_check_neighbor_node_ids.
  rewrite (with_network_some _ _ _ _ (zp_network _ _ _ _ Hz)). unfold cursor_table. cbn [nt_cursor fst].
  rewrite bind_assoc, bind_lift. cbn [mbind option_bind]. rewrite bind_assoc, (bind_some _ _ _ _ _ (zip_entry _ _ _ _ Hz)).
  erewrite bind_some by reflexivity. cbn [neighbor_table_reply entry_of snd explored].
  pose proof (tk_neighbors _ (gd_ok _ Hid)). apply (check_ids_spec _ _ _ _ 257 0 Hl Hs Hg Hid); lia.
Qed.

Lemma check_explored_spec b s q before inner l id k outer others :
  walking b s q before inner (l, explored id k) outer others -> good id ->
  network_topology_check_all_ports_explored s = Some (Z.of_nat (length (tb_neighbors (T id))) =? k, s).
Proof.
  intros Hw Hid. destruct (facing_zip _ _ _ _ _ (wk_facing _ _ _ _ _ _ _ _ Hw)) as (ls & rs & Hz & _).
  unfold network_topology_check_all_ports_explored.
  rewrite (with_network_some _ _ _ _ (zp_network _ _ _ _ Hz)). cbn [nt_cursor fst].
  rewrite bind_lift. cbn [mbind option_bind]. rewrite (bind_some _ _ _ _ _ (zip_entry _ _ _ _ Hz)).
  cbn [neighbor_table_reply ports_explored entry_of snd explored]. rewrite bind_lift.
  rewrite <- (app_nil_r (table_bytes (T id))), read_table_port_len. cbn [mbind option_bind].
  rewrite bind_lift, read_table_neighbor_len by apply (gd_ok _ Hid). cbn [mbind option_bind].
  rewrite bind_lift, Nat2Z.id, online_loop_spec by (apply (gd_ok _ Hid) || lia). cbn [mbind option_bind]. rewrite drop_0.
  pose proof (gd_up _ Hid) as Hup. rewrite List.forallb_filter_id; [done|].
  apply List.forallb_forall. intros x Hx. rewrite Forall_forall in Hup. apply Hup. by apply list_elem_of_In.
Qed.

Lemma at_root_spec b s q before inner l id k outer others :
  walking b s q before inner (l, explored id k) outer others ->
  network_topology_is_root s = Some (id =? root, s) /\ network_topology_get_port_count s = Some (s8 k, s).
Proof.
  intros Hw. destruct (facing_zip _ _ _ _ _ (wk_facing _ _ _ _ _ _ _ _ Hw)) as (ls & rs & Hz & _).
  split; [exact (is_root_spec _ _ _ _ _ _ _ Hz)|exact (port_count_spec _ _ _ _ _ _ _ Hz)].
Qed.

(** *** The events *)

Lemma receive_spec b s i before inner c outer others :
  walking b s [i] before inner c outer others ->
  exists s', receive_item s = Some (Some i, s') /\ walking b s' [] before inner c outer others
    /\ topo_entries s' = topo_entries s.
Proof.
  intros Hw. unfold receive_item. erewrite bind_some by reflexivity. rewrite (wk_queue _ _ _ _ _ _ _ _ Hw).
  eexists. split; [reflexivity|]. split; [|done].
  eapply walking_same; [exact Hw|done..|exact (wk_dir _ _ _ _ _ _ _ _ Hw)|done].
Qed.

Lemma topo_malloc s : willing (topo_os s) -> with_topo_os malloc_ok s = Some (true, s).
Proof.
  intros [Ha _]. unfold with_topo_os, zoom, malloc_ok. rewrite Ha.
  destruct s as [? ? ? ? ? ? ? ? ? ? [a w t] ?]; cbn in Ha; by subst.
Qed.

(** The table that was asked for arrives: the port is counted, and the table waits in
    an entry of its own. *)
Lemma table_arrives_spec b s before inner l id k outer nid m :
  walking b s [] before inner (l, explored id k) outer [] -> SENT_REQUEST b = true -> willing (topo_os b) ->
  0 <= k < 255 -> good nid -> nid <> root ->
  exists s' l', neighbor_request_cb (table_bytes (T nid) ++ m) s = Some (BmOK, s')
    /\ walking b s' [MkTopoItem BcmpTopoEvtAddNode (Some l') None] before inner (l, explored id (k + 1)) outer [l']
    /\ topo_entries s' !! l' = Some (entry_of None None (explored nid 0)).
Proof.
  intros Hw Hsent Hos Hk Hg Hr. unfold neighbor_request_cb. erewrite bind_some by reflexivity.
  pose proof (wk_vars _ _ _ _ _ _ _ _ Hw) as Hv. unfold run_vars in Hv. injection Hv as _ _ _ _ Hs Ho _.
  rewrite Hs, Hsent. rewrite (bind_some _ _ _ _ _ (topo_malloc s ltac:(by rewrite Ho))).
  rewrite bind_lift, read_table_port_len. cbn [mbind option_bind].
  rewrite bind_lift, read_table_neighbor_len by apply (gd_ok _ Hg). cbn [mbind option_bind].
  rewrite (bind_some _ _ _ _ _ (topo_malloc s ltac:(by rewrite Ho))). rewrite bind_lift.
  pose proof (length_table (T nid)) as Hlt. pose proof (tk_ports _ (gd_ok _ Hg)). pose proof (tk_neighbors _ (gd_ok _ Hg)).
  rewrite u16_small, read_at_head by
    (done || (unfold sizeof_table, sizeof_BcmpNeighborTableReply, sizeof_BcmpPortInfo, sizeof_BcmpNeighborInfo; lia)).
  cbn [mbind option_bind].
  destruct (new_entry_spec false (table_bytes (T nid)) s _ [] (wk_owns _ _ _ _ _ _ _ _ Hw)) as (l' & E & Hfresh & Hown).
  rewrite (bind_some _ _ _ _ _ E). erewrite bind_some by reflexivity.
  set (s1 := set_retry_count 0 _).
  assert (Hw1 : walking b s1 [] before inner (l, explored id k) outer [l']).
  { split; try exact (wk_queue _ _ _ _ _ _ _ _ Hw); try exact (wk_dir _ _ _ _ _ _ _ _ Hw); try exact (wk_vars _ _ _ _ _ _ _ _ Hw).
    - pose proof (wk_facing _ _ _ _ _ _ _ _ Hw) as Hf. destruct before; cbn [facing] in *;
        (eapply zip_same; [| |exact (zip_insert _ _ _ _ l' (entry_of None None (0, false, table_bytes (T nid))) _ Hf Hfresh eq_refl)];
         reflexivity).
    - by eapply owns_same, Hown. }
  destruct (increment_walk _ _ _ _ _ _ _ _ _ _ Hw1 Hk) as (s2 & E2 & Hw2 & Hx). rewrite (bind_some _ _ _ _ _ E2).
  rewrite (send_item_spec _ _ _ _ _ (wk_queue _ _ _ _ _ _ _ _ Hw2)) by (cbn; lia).
  eexists _, l'. split; [reflexivity|]. split.
  - eapply walking_same; [exact Hw2|done..|exact (wk_dir _ _ _ _ _ _ _ _ Hw2)|done].
  - cbn [set_topo_queue topo_entries]. rewrite Hx by by left. cbn. rewrite lookup_insert_eq.
    unfold explored. by rewrite (proj2 (Z.eqb_neq nid root) Hr).
Qed.

(** The entry is put behind the cursor's, seen from the root. *)
Lemma add_node_spec b s before inner c l nid ids :
  walking b s [] before inner c [] [l] -> topo_entries s !! l = Some (entry_of None None (explored nid 0)) ->
  shows (line_of before inner c []) ids -> Forall good ids -> good nid -> nid ∉ ids -> (length inner < 254)%nat ->
  exists s', add_node (Some l) s = Some (tt, s')
    /\ walking b s' [MkTopoItem BcmpTopoEvtCheckNode None None] before (c :: inner) (l, explored nid 1) [] [].
Proof.
  intros Hw Hl Hs Hg Hid Hn Hlen. unfold add_node. rewrite bind_assoc. unfold get_entry. rewrite bind_assoc.
  erewrite bind_some by reflexivity. rewrite bind_lift, Hl. cbn [mbind option_bind].
  rewrite bind_assoc, bind_lift. cbn [neighbor_table_reply entry_of explored].
  rewrite <- (app_nil_r (table_bytes (T nid))), good_table_id by done. cbn [mbind option_bind]. rewrite bind_assoc.
  rewrite (bind_some _ _ _ _ _ (known_spec s _ ids nid (facing_listed _ _ _ _ _ (wk_facing _ _ _ _ _ _ _ _ Hw)) Hs Hg)).
  rewrite bool_decide_eq_false_2 by done. cbn [negb]. rewrite bind_assoc. erewrite bind_some by reflexivity.
  rewrite (wk_dir _ _ _ _ _ _ _ _ Hw), bind_assoc.
  destruct (advance_spec _ _ _ _ _ _ _ _ Hw Hl Hlen) as (s1 & E1 & Hw1). rewrite (bind_some _ _ _ _ _ E1).
  destruct (increment_walk _ _ _ _ _ _ _ _ _ _ Hw1 ltac:(lia)) as (s2 & E2 & Hw2 & _). rewrite (bind_some _ _ _ _ _ E2).
  by apply check_node_spec.
Qed.
End walk.
