(* ===== verification/TopologyLine.v ===== *)
(** * The topology of a line of nodes

    The run that explores a network in which the nodes hang on a line: it ends, and the
    callback gets the nodes in the order in which they hang together. *)
From S2P Require Import Prelude Util LinkedList SList Os Packet Parts Device Neighbors Topology TopologyTable TopologyList TopologyWalk.

(** The network around the node: the handler of the tables that arrive, the node that
    a table was asked from last and has not come yet, and when all of this works. *)
Class TableNetwork (St : Type) : Type := {
  table_reply : bytes -> M St BmErr;
  asked : St -> option Z;
  ready : St -> Prop
}.

(** [own]: the node's neighbors. *)
Class TableNetworkLaws (St : Type) `{Part topology St} `{NeighborTables St} `{TableNetwork St} `{Platform}
    (request timeout : nat) (own : list (loc * BcmpNeighbor)) : Prop := {
  asked_part t s : asked (set_part t s) = asked s;
  ready_part t s : ready s -> ready (set_part t s);
  own_law s : ready s -> asked s = None ->
    exists s', own_neighbors s = Some ((own, Z.of_nat (length own)), s') /\ part s' = part s /\ ready s' /\ asked s' = None;
  request_law id s : ready s -> asked s = None ->
    exists s', request_neighbor_table id (Some multicast_global_addr) (Some request) (Some timeout) s = Some (BmOK, s')
      /\ part s' = part s /\ ready s' /\ asked s' = Some id;
  reply_law id table s e t : ready s -> asked s = Some id -> table_node_id table = Some id ->
    neighbor_request_cb table (part s) = Some (e, t) ->
    exists s', table_reply table s = Some (e, s') /\ part s' = t /\ ready s' /\ asked s' = None
}.

Section line.
Context {St : Type} `{PartLaws topology St} `{NeighborTables St} `{TableNetwork St} `{Platform}.
Context (CFG : DeviceCfg) (bm_l2_get_port_state : Z -> M St bool) (request timeout : nat) (junk : nat -> Z).
Context (own : list (loc * BcmpNeighbor)) `{!TableNetworkLaws St request timeout own}.
(** What the nodes say, and what is behind the tables in the memory. *)
Context (T : Z -> NodeTable) (behind : Z -> bytes).

Abbreviation root := (node_id CFG).
Abbreviation thread_step := (bcmp_topology_thread_step CFG bm_l2_get_port_state request timeout junk).

(** The task takes what is on its queue; when nothing is, a table that was asked for
    arrives. *)
Definition explore_step : M St bool :=
  s ← get;
  match topo_queue (part s), asked s with
  | Some (_ :: _), _ => _ ← thread_step; mret true
  | _, Some id => _ ← table_reply (table_bytes (T id) ++ behind id); mret true
  | _, None => mret false
  end.

(** [true]: nothing is left to do. *)
Fixpoint explore (fuel : nat) : M St bool :=
  match fuel with
  | O => mret false
  | S fuel => more ← explore_step; if more : bool then explore fuel else mret true
  end.

Definition leads (s s' : St) : Prop := exists n, forall m, explore (n + m) s = explore m s'.

Lemma leads_refl s : leads s s.
Proof. by exists 0%nat. Qed.

Lemma leads_trans s1 s2 s3 : leads s1 s2 -> leads s2 s3 -> leads s1 s3.
Proof. intros [n Hn] [m Hm]. exists (n + m)%nat. intros k. by rewrite <- Nat.add_assoc, Hn, Hm. Qed.

Lemma leads_step s s' : explore_step s = Some (true, s') -> leads s s'.
Proof. intros E. exists 1%nat. intros m. cbn [Nat.add explore]. by rewrite (bind_some _ _ _ _ _ E). Qed.

Abbreviation explored := (explored T root).
Abbreviation good := (good T).
Abbreviation check_item := (MkTopoItem BcmpTopoEvtCheckNode None None).

(** A run at a node; [b] has its variables. *)
Record at_node (b : topology) (s : St) (q : list BcmpTopoQueueItem) (w : option Z) (before : bool) (inner : contents)
    (c : loc * content) (outer : contents) (others : list loc) : Prop := {
  an_walk : walking b (part s) q before inner c outer others;
  an_ready : ready s;
  an_asked : asked s = w
}.

Lemma step_item b s i before inner c outer others w :
  at_node b s [i] w before inner c outer others ->
  exists s', at_node b s' [] w before inner c outer others /\ topo_entries (part s') = topo_entries (part s)
    /\ explore_step s = (_ ← process_item CFG bm_l2_get_port_state request timeout junk i; mret true) s'.
Proof.
  intros [Hw Hr Ha]. destruct (receive_spec _ _ _ _ _ _ _ _ Hw) as (t & E & Hw' & Ht).
  exists (set_part t s). split; [|split].
  - split; [by rewrite part_set|by apply ready_part|by rewrite asked_part].
  - by rewrite part_set.
  - unfold explore_step. erewrite bind_some by reflexivity. rewrite (wk_queue _ _ _ _ _ _ _ _ Hw).
    unfold bcmp_topology_thread_step. rewrite bind_assoc. by rewrite (bind_some _ _ _ _ _ (on_part_some _ _ _ _ E)).
Qed.

(** The last part of an event that changes the topology only. *)
Lemma finish_step b s (m : M topology unit) t q before inner c outer others w :
  ready s -> asked s = w -> m (part s) = Some (tt, t) -> walking b t q before inner c outer others ->
  exists s', (_ ← on_part m; mret true) s = Some (true, s') /\ at_node b s' q w before inner c outer others.
Proof.
  intros Hr Ha E Hw. exists (set_part t s). rewrite (bind_some _ _ _ _ _ (on_part_some _ _ _ _ E)). split; [done|].
  split; [by rewrite part_set|by apply ready_part|by rewrite asked_part].
Qed.

(** A node whose ports are explored is left towards the root. *)
Lemma retreat b s before d inner l id outer :
  at_node b s [check_item] None before (d :: inner) (l, explored id (Z.of_nat (length (tb_neighbors (T id))))) outer [] ->
  good id -> id <> root ->
  exists s', leads s s'
    /\ at_node b s' [check_item] None before inner d ((l, explored id (Z.of_nat (length (tb_neighbors (T id))))) :: outer) [].
Proof.
  intros Ha Hg Hid. destruct (step_item _ _ _ _ _ _ _ _ _ Ha) as (s1 & [Hw Hr Hq] & _ & E).
  cbn [process_item ti_type] in E. unfold process_check_node_event in E. rewrite bind_assoc in E.
  rewrite (bind_some _ _ _ _ _ (on_part_pure _ _ _ (check_explored_spec _ _ _ _ _ _ _ _ _ _ _ _ Hw Hg))) in E.
  rewrite bind_assoc in E.
  destruct (at_root_spec _ _ _ _ _ _ _ _ _ _ _ _ Hw) as [Eroot _].
  rewrite (bind_some _ _ _ _ _ (on_part_pure _ _ _ Eroot)) in E. rewrite Z.eqb_refl in E.
  rewrite (proj2 (Z.eqb_neq id root) Hid) in E. cbv iota in E. rewrite bind_assoc in E.
  destruct (move_back_spec _ _ _ _ _ _ _ _ _ Hw) as (t & Et & Hw').
  rewrite (bind_some _ _ _ _ _ (on_part_some _ _ _ _ Et)) in E.
  destruct (check_node_spec _ _ _ _ _ _ _ Hw') as (t' & Et' & Hw2).
  destruct (finish_step b (set_part t s1) check_node t' [check_item] before inner d _ [] None
    ltac:(by apply ready_part) ltac:(by rewrite asked_part) ltac:(by rewrite part_set) Hw2) as (s' & Es & Ha').
  rewrite Es in E. exists s'. split; [by apply leads_step|done].
Qed.

(** Where the list grows: on the one side of the root first, then on the other. *)
Definition turned (id k : Z) (before : bool) (inner outer : contents) (before' : bool) (inner' : contents) : Prop :=
  if (id =? root) && (s8 k =? 1) then before = false /\ inner = [] /\ outer = inner' /\ before' = true
  else before = before' /\ inner = inner' /\ outer = [].

Lemma turn_walk b s id k l before inner outer before' inner' :
  walking b s [] before inner (l, explored id k) outer [] -> turned id k before inner outer before' inner' ->
  exists s', when ((id =? root) && (s8 k =? 1)) (modify (set_insert_before true)) s = Some (tt, s')
    /\ walking b s' [] before' inner' (l, explored id k) [] [].
Proof.
  unfold turned. intros Hw Ht. destruct ((id =? root) && (s8 k =? 1)).
  - destruct Ht as (-> & -> & -> & ->). eexists. split; [reflexivity|]. destruct Hw as [Hf Ho Hq Hd Hv].
    split; try done. by eapply zip_same, Hf.
  - destruct Ht as (-> & -> & ->). by exists s.
Qed.

(** A node with a neighbor that is not known asks it for its table. *)
Lemma ask b s id k l before inner outer before' inner' ids nid :
  at_node b s [check_item] None before inner (l, explored id k) outer [] ->
  turned id k before inner outer before' inner' -> good id ->
  Z.of_nat (length (tb_neighbors (T id))) <> k ->
  shows T root (line_of before' inner' (l, explored id k) []) ids -> Forall good ids ->
  first_unknown ids (neighbor_ids (T id)) = nid -> nid <> 0 ->
  exists s', leads s s' /\ at_node b s' [] (Some nid) before' inner' (l, explored id k) [] [].
Proof.
  intros Ha Ht Hg Hk Hs Hgs Hnid Hnz. destruct (step_item _ _ _ _ _ _ _ _ _ Ha) as (s1 & [Hw Hr Hq] & _ & E).
  cbn [process_item ti_type] in E. unfold process_check_node_event in E. rewrite bind_assoc in E.
  rewrite (bind_some _ _ _ _ _ (on_part_pure _ _ _ (check_explored_spec _ _ _ _ _ _ _ _ _ _ _ _ Hw Hg))) in E.
  rewrite bind_assoc in E. destruct (at_root_spec _ _ _ _ _ _ _ _ _ _ _ _ Hw) as [Eroot Ecount].
  rewrite (bind_some _ _ _ _ _ (on_part_pure _ _ _ Eroot)) in E. rewrite (proj2 (Z.eqb_neq _ _) Hk) in E.
  cbv iota in E. rewrite bind_assoc, (bind_some _ _ _ _ _ (on_part_pure _ _ _ Ecount)) in E.
  destruct (turn_walk _ _ _ _ _ _ _ _ _ _ Hw Ht) as (t & Et & Hw').
  rewrite bind_assoc, (bind_some _ _ _ _ _ (on_part_some _ _ _ _ Et)) in E.
  set (s2 := set_part t s1) in E. assert (Hp : part s2 = t) by apply part_set.
  pose proof (unknown_neighbor_spec _ _ _ _ _ _ _ _ _ _ _ _ ids Hw' Hs Hgs Hg) as Eids. rewrite Hnid in Eids.
  rewrite bind_assoc in E. rewrite (bind_some _ _ s2 nid s2) in E by (apply on_part_pure; by rewrite Hp).
  rewrite (proj2 (Z.eqb_neq _ _) Hnz) in E. cbn [negb] in E. rewrite bind_assoc in E.
  destruct (request_law nid s2 ltac:(by apply ready_part) ltac:(unfold s2; by rewrite asked_part)) as (s3 & E3 & Hp3 & Hr3 & Ha3).
  rewrite (bind_some _ _ _ _ _ E3) in E. exists s3. split; [by apply leads_step|]. split; [|done|done].
  by rewrite Hp3, Hp.
Qed.

(** The table arrives, and the neighbor becomes the node that is looked at. *)
Lemma arrive b s id k l before inner ids nid :
  at_node b s [] (Some nid) before inner (l, explored id k) [] [] ->
  SENT_REQUEST b = true -> willing (topo_os b) -> 0 <= k < 255 -> good nid -> nid <> root ->
  shows T root (line_of before inner (l, explored id (k + 1)) []) ids -> Forall good ids -> nid ∉ ids ->
  (length inner < 254)%nat ->
  exists s' l', leads s s'
    /\ at_node b s' [check_item] None before ((l, explored id (k + 1)) :: inner) (l', explored nid 1) [] [].
Proof.
  intros [Hw Hr Hq] Hsent Hos Hk Hg Hnr Hs Hgs Hn Hlen.
  destruct (table_arrives_spec _ _ _ _ _ _ _ _ _ _ _ (behind nid) Hw Hsent Hos Hk Hg Hnr) as (t & l' & Et & Hw1 & Hl').
  destruct (reply_law nid _ s _ _ Hr Hq (good_table_id _ _ _ Hg) Et) as (s1 & E1 & Hp1 & Hr1 & Hq1).
  assert (Hstep : explore_step s = Some (true, s1)).
  { unfold explore_step. erewrite bind_some by reflexivity. rewrite (wk_queue _ _ _ _ _ _ _ _ Hw), Hq.
    by rewrite (bind_some _ _ _ _ _ E1). }
  assert (Ha1 : at_node b s1 [MkTopoItem BcmpTopoEvtAddNode (Some l') None] None before inner (l, explored id (k + 1)) [] [l'])
    by (split; [by rewrite Hp1|done|done]).
  destruct (step_item _ _ _ _ _ _ _ _ _ Ha1) as (s2 & [Hw2 Hr2 Hq2] & Hen & E2).
  cbn [process_item ti_type ti_entry] in E2. rewrite <- Hp1, <- Hen in Hl'.
  destruct (add_node_spec _ _ _ _ _ _ _ _ _ ids Hw2 Hl' Hs Hgs Hg Hn Hlen) as (t' & Et' & Hw3).
  destruct (finish_step b s2 (add_node (Some l')) t' _ _ _ _ _ _ None Hr2 Hq2 Et' Hw3) as (s3 & E3 & Ha3).
  rewrite E3 in E2. exists s3, l'. split; [|done]. eapply leads_trans; by apply leads_step.
Qed.

(** ** One side of the root *)

(** The nodes [ns] hang behind [p], away from the root, and nothing else. *)
Fixpoint side (p : Z) (ns : list Z) : Prop :=
  match ns with
  | [] => True
  | n :: ns =>
      good n /\ n <> root /\ n <> 0 /\ neighbor_ids (T n) ≡ₚ p :: option_list (hd_error ns) /\ side n ns
  end.

Lemma first_unknown_behind ids p n l :
  l ≡ₚ p :: [n] -> p ∈ ids -> n ∉ ids -> first_unknown ids l = n.
Proof.
  intros Hl Hp Hn. unfold first_unknown.
  assert (E : filter (fun id => id ∉ ids) l ≡ₚ [n]).
  { rewrite Hl, filter_cons_False, filter_cons_True by auto. done. }
  symmetry in E. apply Permutation_length_1_inv in E. by rewrite E.
Qed.

Lemma length_neighbors id l : neighbor_ids (T id) ≡ₚ l -> length (tb_neighbors (T id)) = length l.
Proof. intros E. rewrite <- E. unfold neighbor_ids. by rewrite length_fmap. Qed.

Lemma not_on_line before (ids : list Z) id n ns : NoDup (ids ++ id :: n :: ns) -> n ∉ line_of before ids id [].
Proof.
  intros (_ & Ha & [Hb _]%NoDup_cons)%NoDup_app. rewrite elem_of_line_of. intros [->|[Hx|Hx]].
  - apply Hb. by left.
  - apply (Ha n Hx). right. by left.
  - by apply not_elem_of_nil in Hx.
Qed.

(** The next node is asked for its table, and is the one that is looked at then. *)
Lemma visit b s id k l n ns before inner outer before' inner' iids :
  SENT_REQUEST b = true -> willing (topo_os b) ->
  at_node b s [check_item] None before inner (l, explored id k) outer [] ->
  turned id k before inner outer before' inner' ->
  good id -> 0 <= k < 254 -> Z.of_nat (length (tb_neighbors (T id))) <> k ->
  shows T root inner' iids -> Forall good iids -> good n -> n <> root -> n <> 0 ->
  NoDup (iids ++ id :: n :: ns) -> (length iids < 254)%nat ->
  first_unknown (line_of before' iids id []) (neighbor_ids (T id)) = n ->
  exists s' l', leads s s'
    /\ at_node b s' [check_item] None before' ((l, explored id (k + 1)) :: inner') (l', explored n 1) [] [].
Proof.
  intros Hsent Hos Ha Ht Hg Hk Hkn Hs Hgs Hgn Hnr Hnz Hnd Hlen Hfirst.
  assert (Hsh : forall k', shows T root (line_of before' inner' (l, explored id k') []) (line_of before' iids id []))
    by (intros k'; apply Forall2_line_of; [done|by exists k'|constructor]).
  assert (Hgl : Forall good (line_of before' iids id [])).
  { apply Forall_forall. intros x Hx. rewrite elem_of_line_of in Hx. rewrite Forall_forall in Hgs.
    destruct Hx as [->|[Hx|Hx]]; [done|by apply Hgs|by apply not_elem_of_nil in Hx]. }
  assert (Hli : length inner' = length iids) by (by eapply Forall2_length).
  destruct (ask _ _ _ _ _ _ _ _ _ _ _ _ Ha Ht Hg Hkn (Hsh k) Hgl Hfirst Hnz) as (s1 & L1 & Ha1).
  destruct (arrive _ _ _ _ _ _ _ _ _ Ha1 Hsent Hos ltac:(lia) Hgn Hnr (Hsh (k + 1)) Hgl
    (not_on_line _ _ _ _ _ Hnd) ltac:(lia)) as (s2 & l' & L2 & Ha2).
  exists s2, l'. split; [by eapply leads_trans|done].
Qed.

Lemma go_back b s before d inner l id k outer ids :
  at_node b s [check_item] None before (d :: inner) (l, explored id k) outer [] ->
  good id -> id <> root -> k = Z.of_nat (length (tb_neighbors (T id))) -> shows T root outer ids ->
  exists s' outer', leads s s' /\ at_node b s' [check_item] None before inner d outer' [] /\ shows T root outer' (id :: ids).
Proof.
  intros Ha Hg Hr -> Hs. destruct (retreat _ _ _ _ _ _ _ _ Ha Hg Hr) as (s' & L & Ha').
  eexists s', _. split; [done|]. split; [exact Ha'|]. constructor; [by eexists|done].
Qed.

(** The nodes of a side are visited, and the run is back where it started. *)
Lemma tour b n ns : SENT_REQUEST b = true -> willing (topo_os b) ->
  forall s id k l before inner outer before' inner' iids,
  at_node b s [check_item] None before inner (l, explored id k) outer [] ->
  turned id k before inner outer before' inner' ->
  good id -> 0 <= k < 254 -> Z.of_nat (length (tb_neighbors (T id))) <> k ->
  shows T root inner' iids -> Forall good iids ->
  side id (n :: ns) -> NoDup (iids ++ id :: n :: ns) -> (length iids + length (n :: ns) <= 254)%nat ->
  first_unknown (line_of before' iids id []) (neighbor_ids (T id)) = n ->
  exists s' outer', leads s s'
    /\ at_node b s' [check_item] None before' inner' (l, explored id (k + 1)) outer' [] /\ shows T root outer' (n :: ns).
Proof.
  intros Hsent Hos. revert n. induction ns as [|n2 ns IH];
    intros n s id k l before inner outer before' inner' iids Ha Ht Hg Hk Hkn Hs Hgs (Hgn & Hnr & Hnz & Hnn & Hside) Hnd Hlen Hfirst;
    pose proof (length_neighbors _ _ Hnn) as Hlb; cbn [length option_list hd_error] in Hlb, Hlen;
    destruct (visit _ _ _ _ _ _ _ _ _ _ _ _ _ Hsent Hos Ha Ht Hg Hk Hkn Hs Hgs Hgn Hnr Hnz Hnd ltac:(lia) Hfirst)
      as (s2 & l' & L2 & Ha2).
  - destruct (go_back _ _ _ _ _ _ _ _ _ [] Ha2 Hgn Hnr ltac:(by rewrite Hlb) ltac:(constructor)) as (s3 & outer' & L3 & Ha3).
    exists s3, outer'. split; [by eapply leads_trans|done].
  - assert (Hnd' : NoDup ((id :: iids) ++ n :: n2 :: ns)) by (by rewrite <- Permutation_middle in Hnd).
    assert (Hn2 : n2 ∉ line_of before' (id :: iids) n []) by (by eapply not_on_line).
    destruct (IH n2 s2 n 1 l' before' ((l, explored id (k + 1)) :: inner') [] before' ((l, explored id (k + 1)) :: inner')
      (id :: iids) Ha2) as (s3 & outer' & L3 & Ha3 & Hs3).
    + unfold turned. by rewrite (proj2 (Z.eqb_neq n root) Hnr).
    + done.
    + lia.
    + by rewrite Hlb.
    + constructor; [by eexists|done].
    + by constructor.
    + done.
    + exact Hnd'.
    + cbn [length]. lia.
    + apply (first_unknown_behind _ id); [exact Hnn| |exact Hn2]. rewrite elem_of_line_of. right. left. by left.
    + destruct (go_back _ _ _ _ _ _ _ _ _ _ Ha3 Hgn Hnr ltac:(by rewrite Hlb) Hs3) as (s4 & outer2 & L4 & Ha4).
      exists s4, outer2. split; [exact (leads_trans _ _ _ L2 (leads_trans _ _ _ L3 L4))|done].
Qed.

(** ** A check without a list *)

(** After the end of a run, a check of a node is followed by the next one, for ever. *)
Lemma check_spins s :
  topo_queue (part s) = Some [check_item] -> network_topology (part s) = None -> INSERT_BEFORE (part s) = false ->
  explore_step s = Some (true, s).
Proof.
  intros Hq Hn Hi. unfold explore_step. erewrite bind_some by reflexivity. rewrite Hq.
  unfold bcmp_topology_thread_step. rewrite bind_assoc.
  set (t := set_topo_queue (Some []) (part s)).
  rewrite (bind_some _ _ s (Some check_item) (set_part t s))
    by (apply on_part_some; unfold receive_item; erewrite bind_some by reflexivity; by rewrite Hq).
  cbn [process_item ti_type]. unfold process_check_node_event.
  assert (Hpure : forall A (m : M topology A) a, m t = Some (a, t) -> on_part m (set_part t s) = Some (a, set_part t s)).
  { intros A m a E. apply on_part_pure. by rewrite part_set. }
  assert (Hd : forall A (d : A) f, with_network d f t = Some (d, t)).
  { intros A d f. unfold with_network. erewrite bind_some by reflexivity.
    change (network_topology t) with (network_topology (part s)). by rewrite Hn. }
  rewrite bind_assoc, (bind_some _ _ _ _ _ (Hpure _ network_topology_check_all_ports_explored _ (Hd bool false _))).
  rewrite bind_assoc, (bind_some _ _ _ _ _ (Hpure _ network_topology_is_root _ (Hd bool false _))). cbv iota.
  rewrite bind_assoc, (bind_some _ _ _ _ _ (Hpure _ network_topology_get_port_count _ (Hd Z (-1) _))).
  rewrite bind_assoc, (bind_some _ _ _ _ _ (Hpure _ (when (false && (-1 =? 1)) (modify (set_insert_before true))) tt eq_refl)).
  rewrite bind_assoc, (bind_some _ _ _ _ _ (Hpure _ network_topology_check_neighbor_node_ids _ (Hd Z 0 _))). cbn [negb Z.eqb].
  assert (Hb : move_back t = Some (tt, t)).
  { unfold move_back. erewrite bind_some by reflexivity. change (INSERT_BEFORE t) with (INSERT_BEFORE (part s)). rewrite Hi. apply Hd. }
  rewrite bind_assoc, (bind_some _ _ _ _ _ (Hpure _ _ _ Hb)).
  rewrite (bind_some _ _ _ tt s); [done|].
  rewrite (on_part_some _ _ tt (part s)); [by rewrite set_part_twice, set_part_same|].
  rewrite part_set. unfold check_node. erewrite bind_some by (apply send_item_spec; [reflexivity|cbn; lia]).
  cbn. rewrite <- Hq. by destruct (part s).
Qed.

Lemma check_spins_on s n :
  topo_queue (part s) = Some [check_item] -> network_topology (part s) = None -> INSERT_BEFORE (part s) = false ->
  explore n s = Some (false, s).
Proof.
  intros Hq Hn Hi. induction n as [|n IH]; [done|]. cbn [explore].
  by rewrite (bind_some _ _ _ _ _ (check_spins s Hq Hn Hi)).
Qed.

(** ** The end of a run *)

Lemma shows_tables xs ids p n :
  shows T root xs ids -> Forall good ids ->
  (fun x : loc * NeighborTableEntry => table_node_id (neighbor_table_reply (snd x))) <$> linked_entries p xs n = Some <$> ids.
Proof.
  intros Hs. revert p. induction Hs as [|[l c] id xs ids [k Hk] Hs IH]; intros p Hg; [done|].
  apply Forall_cons in Hg as [Hid Hg]. cbn. cbn in Hk. rewrite Hk, reply_entry, (IH _ Hg). cbn.
  rewrite <- (app_nil_r (table_bytes _)). by rewrite good_table_id.
Qed.

(** The callback [cb] was given the nodes [ids], everything was given back, and another
    run may start. *)
Record topology_told (t0 : topology) (cb : nat) (ids : list Z) (t : topology) : Prop := {
  told_call : exists nt h es, topo_calls t = topo_calls t0 ++ [(cb, Some nt, h)]
    /\ nodes nextNode h (nt_front nt) = Some es
    /\ (fun x => table_node_id (neighbor_table_reply (snd x))) <$> es = Some <$> ids
    /\ nt_length nt = Z.of_nat (length ids);
  told_freed : topo_entries t = ∅ /\ network_topology t = None;
  told_idle : topo_queue t = Some [] /\ topo_task t = true /\ in_progress t = false /\ SENT_REQUEST t = false
    /\ INSERT_BEFORE t = false /\ RETRY_COUNT t = 0;
  told_os : topo_os t = topo_os t0;
  told_ports : topo_num_ports t = topo_num_ports t0
}.

Lemma end_spec b t before inner c outer ids cb :
  walking b t [] before inner c outer [] -> topo_callback b = Some cb -> topo_task b = true ->
  shows T root (line_of before inner c outer) ids -> Forall good ids ->
  exists t', end_topology t = Some (tt, t') /\ topology_told b cb ids t'.
Proof.
  intros Hw Hcb Htask Hs Hg. pose proof (wk_vars _ _ _ _ _ _ _ _ Hw) as Hv. unfold run_vars in Hv.
  injection Hv as Hp Hc Hports Ht Hsent Hos Hcalls.
  pose proof (facing_listed _ _ _ _ _ (wk_facing _ _ _ _ _ _ _ _ Hw)) as Hl.
  pose proof (ls_network _ _ Hl) as (cur & idx & Hn).
  unfold end_topology. erewrite bind_some by reflexivity. rewrite Hc, Hcb. erewrite bind_some by reflexivity.
  set (t1 := MkTopology _ _ _ _ _ _ _ _ _ _ _ _).
  assert (Hl1 : listed t1 (line_of before inner c outer)).
  { destruct Hl as [Ha Hb Hc' Hd]. by split. }
  rewrite (bind_some _ _ _ _ _ (free_network_spec _ _ Hl1 (owns_same t t1 _ _ eq_refl (wk_owns _ _ _ _ _ _ _ _ Hw)))).
  eexists. split; [reflexivity|]. split; cbn; try done.
  - rewrite Hcalls, Hn. eexists _, _, (linked_entries None (line_of before inner c outer) None).
    split; [reflexivity|]. cbn [nt_front nt_length]. split_and!.
    + apply nodes_spec. split; [by apply linked_segment, (ls_linked _ _ Hl)|].
      rewrite linked_entries_keys. exact (ls_nodup _ _ Hl).
    + by apply shows_tables.
    + f_equal. by eapply Forall2_length.
  - rewrite (wk_queue _ _ _ _ _ _ _ _ Hw), Ht. split_and!; done.
Qed.

(** When the ports of the root are explored, the run ends. *)
Lemma finish b s before inner l outer ids cb :
  at_node b s [check_item] None before inner (l, explored root (Z.of_nat (length (tb_neighbors (T root))))) outer [] ->
  topo_callback b = Some cb -> topo_task b = true -> good root ->
  shows T root (line_of before inner (l, explored root (Z.of_nat (length (tb_neighbors (T root))))) outer) ids ->
  Forall good ids ->
  exists s', leads s s' /\ topology_told b cb ids (part s') /\ ready s' /\ asked s' = None.
Proof.
  intros Ha Hcb Htask Hg Hs Hgs. destruct (step_item _ _ _ _ _ _ _ _ _ Ha) as (s1 & [Hw Hr Hq] & _ & E).
  cbn [process_item ti_type] in E. unfold process_check_node_event in E. rewrite bind_assoc in E.
  rewrite (bind_some _ _ _ _ _ (on_part_pure _ _ _ (check_explored_spec _ _ _ _ _ _ _ _ _ _ _ _ Hw Hg))) in E.
  rewrite bind_assoc in E. destruct (at_root_spec _ _ _ _ _ _ _ _ _ _ _ _ Hw) as [Eroot _].
  rewrite (bind_some _ _ _ _ _ (on_part_pure _ _ _ Eroot)) in E. rewrite !Z.eqb_refl in E. cbv iota in E.
  assert (Hend : exists t, topology_end (part s1) = Some (tt, t)
    /\ walking b t [MkTopoItem BcmpTopoEvtEnd None None] before inner
         (l, explored root (Z.of_nat (length (tb_neighbors (T root))))) outer []).
  { unfold topology_end. erewrite bind_some by (apply send_item_spec; [exact (wk_queue _ _ _ _ _ _ _ _ Hw)|cbn; lia]).
    eexists. split; [reflexivity|]. eapply walking_same; [exact Hw|done..|exact (wk_dir _ _ _ _ _ _ _ _ Hw)|done]. }
  destruct Hend as (t & Et & Hw1). destruct (finish_step b s1 topology_end t _ _ _ _ _ _ None Hr Hq Et Hw1) as (s2 & E2 & Ha2).
  rewrite E2 in E. destruct (step_item _ _ _ _ _ _ _ _ _ Ha2) as (s3 & [Hw3 Hr3 Hq3] & _ & E3).
  cbn [process_item ti_type] in E3. destruct (end_spec _ _ _ _ _ _ _ _ Hw3 Hcb Htask Hs Hgs) as (t' & Et' & Htold).
  rewrite (bind_some _ _ _ _ _ (on_part_some _ _ _ _ Et')) in E3. exists (set_part t' s3).
  split; [eapply leads_trans; by apply leads_step|]. split; [by rewrite part_set|].
  split; [by apply ready_part|by rewrite asked_part].
Qed.

(** ** The start of a run *)

Context (up : nat -> bool) (port_state_law : forall p s, bm_l2_get_port_state (Z.of_nat p) s = Some (up p, s)).

Record idle (t : topology) : Prop := {
  id_entries : topo_entries t = ∅;
  id_insert : INSERT_BEFORE t = false;
  id_progress : in_progress t = false;
  id_queue : topo_task t = true -> topo_queue t = Some [];
  id_os : willing (topo_os t);
  id_ports : 0 <= topo_num_ports t <= 255
}.

(** The run that [cb] waits for. *)
Record running (t0 : topology) (cb : nat) (b : topology) : Prop := {
  rn_sent : SENT_REQUEST b = true;
  rn_callback : topo_callback b = Some cb;
  rn_task : topo_task b = true;
  rn_calls : topo_calls b = topo_calls t0;
  rn_os : topo_os b = topo_os t0;
  rn_ports : topo_num_ports b = topo_num_ports t0
}.

Lemma start_item_spec t cb : idle t ->
  exists t1, bcmp_topology_start (Some cb) t = Some (BmOK, t1)
    /\ topo_queue t1 = Some [MkTopoItem BcmpTopoEvtStart None (Some cb)] /\ topo_task t1 = true
    /\ topo_entries t1 = ∅ /\ INSERT_BEFORE t1 = false /\ in_progress t1 = false
    /\ topo_os t1 = topo_os t /\ topo_num_ports t1 = topo_num_ports t /\ topo_calls t1 = topo_calls t.
Proof.
  intros [He Hi Hp Hq Hos _]. unfold bcmp_topology_start. erewrite bind_some by reflexivity.
  destruct (topo_task t) eqn:Ht.
  - erewrite bind_some by reflexivity. unfold unless_err. cbn [is_ok].
    rewrite (send_item_spec _ _ _ _ [] (Hq eq_refl)) by (cbn; lia). eexists. split; [reflexivity|]. by cbn.
  - rewrite bind_assoc, (bind_some _ _ _ _ _ (topo_malloc t Hos)). rewrite bind_assoc. erewrite bind_some by reflexivity.
    cbv iota. set (t1 := set_topo_queue _ t). rewrite bind_assoc, (bind_some _ _ _ _ _ (topo_malloc t1 Hos)). cbv iota.
    rewrite bind_assoc. erewrite bind_some by reflexivity. erewrite bind_some by reflexivity. unfold unless_err. cbn [is_ok].
    rewrite (send_item_spec _ _ _ _ []) by (done || (cbn; lia)). eexists. split; [reflexivity|]. by cbn.
Qed.

Lemma first_check_spec t l k :
  network_topology t = Some (MkNetworkTopology None None None 0 (-1)) ->
  topo_entries t = {[l := entry_of None None k]} -> topo_queue t = Some [] -> INSERT_BEFORE t = false ->
  exists t1 t2 t3, network_topology_append l t = Some (tt, t1) /\ network_topology_move_to_front t1 = Some (tt, t2)
    /\ check_node t2 = Some (tt, t3) /\ walking t t3 [check_item] false [] (l, k) [] [].
Proof.
  intros Hn He Hq Hi. destruct (first_entry_spec t l k Hn He) as (nt & h & E & Hz & Ho).
  destruct (bind_inv _ _ _ _ _ E) as ([] & t1 & E1 & E2).
  assert (Hw : walking t (set_network (Some nt) h t) [] false [] (l, k) [] []) by by split.
  destruct (check_node_spec _ _ _ _ _ _ _ Hw) as (t3 & E3 & Hw3). by exists t1, (set_network (Some nt) h t), t3.
Qed.

Lemma on_part_at {A} (m : M topology A) (s : St) t a t' :
  part s = t -> m t = Some (a, t') -> on_part m s = Some (a, set_part t' s).
Proof. intros <-. apply on_part_some. Qed.

Lemma start_event_spec s :
  ready s -> asked s = None -> topo_entries (part s) = ∅ -> topo_queue (part s) = Some [] ->
  INSERT_BEFORE (part s) = false -> willing (topo_os (part s)) -> 0 <= topo_num_ports (part s) <= 255 ->
  T root = own_node_table CFG junk up (topo_num_ports (part s)) own -> good root ->
  exists s' l, process_start_topology_event CFG bm_l2_get_port_state junk s = Some (true, s')
    /\ at_node (part s) s' [check_item] None false [] (l, explored root 0) [] [].
Proof.
  intros Hr Ha He Hq Hi Hos Hports HT Hg.
  assert (Hown : (length own <= 255)%nat).
  { pose proof (tk_neighbors _ (gd_ok _ _ Hg)) as Hb. rewrite HT in Hb. cbn in Hb. by rewrite length_fmap in Hb. }
  unfold process_start_topology_event, new_network_topology.
  rewrite (bind_some _ _ s (Some (MkNetworkTopology None None None 0 (-1))) s)
    by (apply on_part_pure; by rewrite (bind_some _ _ _ _ _ (topo_malloc _ Hos))).
  set (t1 := set_network (Some (MkNetworkTopology None None None 0 (-1))) (topo_entries (part s)) (part s)).
  erewrite bind_some by (apply on_part_some; reflexivity). fold t1. set (s1 := set_part t1 s).
  assert (Hp : part s1 = t1) by apply part_set. assert (Hr1 : ready s1) by by apply ready_part.
  rewrite (bind_some _ _ s1 (topo_num_ports (part s)) s1) by (unfold gets; by rewrite Hp).
  destruct (own_law s1 Hr1 ltac:(unfold s1; by rewrite asked_part)) as (s0 & E0 & Hp0 & Hr0 & Ha0).
  rewrite (bind_some _ _ _ _ _ E0). cbv beta iota. rewrite Hp in Hp0. clear dependent s1. rename s0 into s1, Hp0 into Hp.
  assert (Hm : on_part (with_topo_os malloc_ok) s1 = Some (true, s1)) by (apply on_part_pure; rewrite Hp; by apply topo_malloc).
  rewrite (bind_some _ _ _ _ _ Hm). cbv iota. rewrite (bind_some _ _ _ _ _ Hm). cbv iota.
  rewrite (bind_some _ _ _ _ _ (own_table_spec CFG _ junk up port_state_law _ _ s1 Hports Hown)), <- HT.
  set (l := fresh (dom (topo_entries t1))).
  set (t2 := set_network (network_topology t1) (<[l := entry_of None None (0, true, table_bytes (T root))]> (topo_entries t1)) t1).
  rewrite (bind_some _ _ _ _ _ (on_part_at (new_entry true (table_bytes (T root))) _ _ l t2 Hp eq_refl)).
  destruct (first_check_spec t2 l (explored root 0)) as (t3 & t4 & t5 & E3 & E4 & E5 & Hw).
  - done.
  - cbn. rewrite He, insert_empty. unfold TopologyWalk.explored. by rewrite Z.eqb_refl.
  - done.
  - done.
  - rewrite (bind_some _ _ _ _ _ (on_part_at _ _ _ _ _ (part_set _ _) E3)), set_part_twice.
    rewrite (bind_some _ _ _ _ _ (on_part_at _ _ _ _ _ (part_set _ _) E4)), set_part_twice.
    rewrite (bind_some _ _ _ _ _ (on_part_at _ _ _ _ _ (part_set _ _) E5)), set_part_twice.
    eexists _, l. split; [reflexivity|]. split.
    + rewrite part_set. destruct Hw as [H1' H2' H3' H4' H5']. by split.
    + by apply ready_part.
    + by rewrite !asked_part.
Qed.

Lemma start_spec s cb : idle (part s) -> ready s -> asked s = None ->
  T root = own_node_table CFG junk up (topo_num_ports (part s)) own -> good root ->
  exists s1 s2 b l, on_part (bcmp_topology_start (Some cb)) s = Some (BmOK, s1) /\ leads s1 s2
    /\ at_node b s2 [check_item] None false [] (l, explored root 0) [] [] /\ running (part s) cb b.
Proof.
  intros Hi Hr Ha HT Hg.
  destruct (start_item_spec _ cb Hi) as (t1 & E1 & Hq1 & Ht1 & He1 & Hi1 & Hp1 & Ho1 & Hn1 & Hc1).
  exists (set_part t1 s). pose proof (id_os _ Hi) as Hos. pose proof (id_ports _ Hi) as Hports.
  set (t2 := set_topo_queue (Some []) t1).
  assert (Estep : explore_step (set_part t1 s)
    = (_ ← process_item CFG bm_l2_get_port_state request timeout junk (MkTopoItem BcmpTopoEvtStart None (Some cb)); mret true)
        (set_part t2 s)).
  { unfold explore_step. erewrite bind_some by reflexivity. rewrite part_set, Hq1. unfold bcmp_topology_thread_step.
    rewrite bind_assoc. erewrite bind_some; [|apply on_part_some; rewrite part_set; unfold receive_item;
      erewrite bind_some by reflexivity; rewrite Hq1; reflexivity]. by rewrite set_part_twice. }
  destruct (start_event_spec (set_part t2 s)) as (s3 & l & E3 & [Hw3 Hr3 Ha3]);
    rewrite ?part_set, ?asked_part; cbn; try done; try congruence; [by apply ready_part|].
  rewrite part_set in Hw3.
  cbn [process_item ti_type ti_callback] in Estep. rewrite bind_assoc in Estep.
  erewrite bind_some in Estep by reflexivity. rewrite part_set in Estep.
  replace (in_progress t2) with false in Estep by (symmetry; exact Hp1). rewrite bind_assoc in Estep.
  rewrite (bind_some _ _ _ _ _ E3) in Estep.
  rewrite (bind_some _ _ s3 tt (set_part (set_run true (Some cb) true (part s3)) s3)) in Estep
    by (by apply on_part_some).
  eexists _, (set_run true (Some cb) true t2), l. split; [by apply on_part_some|].
  split; [apply leads_step; exact Estep|]. split.
  - split; [rewrite part_set|by apply ready_part|by rewrite asked_part].
    destruct Hw3 as [H1' H2' H3' H4' H5']. split; [by eapply zip_same, H1'|by eapply owns_same, H2'|done|done|].
    unfold run_vars in H5' |- *. cbn. cbn in H5'. congruence.
  - by split.
Qed.

(** ** Both sides *)

(** Two sides of the root, in the order in which its neighbors are looked at. *)
Lemma both_sides b s l cb A B :
  at_node b s [check_item] None false [] (l, explored root 0) [] [] ->
  SENT_REQUEST b = true -> willing (topo_os b) -> topo_callback b = Some cb -> topo_task b = true ->
  good root -> Forall good A -> Forall good B ->
  neighbor_ids (T root) = option_list (hd_error A) ++ option_list (hd_error B) -> (A = [] -> B = []) ->
  side root A -> side root B -> NoDup (A ++ root :: B) -> (length A + length B <= 254)%nat ->
  exists s', leads s s' /\ topology_told b cb (reverse B ++ root :: A) (part s') /\ ready s' /\ asked s' = None.
Proof.
  intros Ha Hsent Hos Hcb Htask Hg HgA HgB Hn HAB HsA HsB Hnd Hlen.
  assert (Hk : Z.of_nat (length (tb_neighbors (T root))) = Z.of_nat (length (option_list (hd_error A)) + length (option_list (hd_error B)))).
  { rewrite <- length_app, <- Hn. unfold neighbor_ids. by rewrite length_fmap. }
  assert (Hnd' : NoDup ([] ++ root :: A)).
  { cbn. rewrite <- Permutation_middle in Hnd. rewrite app_comm_cons in Hnd. by apply NoDup_app in Hnd as (Hnd & _). }
  destruct A as [|a A].
  - rewrite (HAB eq_refl) in *. cbn in Hk. replace 0 with (Z.of_nat (length (tb_neighbors (T root)))) in Ha by by rewrite Hk.
    apply (finish _ _ _ _ _ _ [root] cb Ha Hcb Htask Hg); [|by apply Forall_singleton].
    constructor; [by eexists|constructor].
  - destruct (tour b a A Hsent Hos s root 0 l false [] [] false [] [] Ha) as (s1 & oA & L1 & Ha1 & HoA); try done.
    { unfold turned. by rewrite andb_false_r. }
    { rewrite Hk. change (length (option_list (hd_error (a :: A)))) with 1%nat. lia. }
    { constructor. }
    { cbn [length] in Hlen |- *. lia. }
    { unfold first_unknown. rewrite Hn.
      change (option_list (hd_error (a :: A))) with [a]. cbn [app]. rewrite filter_cons_True; [done|].
      apply NoDup_cons in Hnd' as [Hnd' _]. intros ->%list_elem_of_singleton. apply Hnd'. by left. }
    destruct B as [|c B].
    + cbn in Hk. replace (0 + 1) with (Z.of_nat (length (tb_neighbors (T root)))) in Ha1 by by rewrite Hk.
      destruct (finish _ _ _ _ _ _ (root :: a :: A) cb Ha1 Hcb Htask Hg) as (s2 & L2 & Hs2).
      * constructor; [by eexists|done].
      * by constructor.
      * exists s2. split; [by eapply leads_trans|done].
    + destruct (tour b c B Hsent Hos s1 root (0 + 1) l false [] oA true oA (a :: A) Ha1) as (s2 & oB & L2 & Ha2 & HoB); try done.
      { unfold turned. by rewrite Z.eqb_refl. }
      { rewrite Hk. change (Z.of_nat 2 <> 1). done. }
      { unfold first_unknown. rewrite Hn.
        change (option_list (hd_error (a :: A)) ++ option_list (hd_error (c :: B))) with [a; c].
        rewrite filter_cons_False, filter_cons_True; [done| |].
        - by apply not_on_line with (ns := B).
        - intros Hx. apply Hx. rewrite elem_of_line_of. right. left. by left. }
      cbn in Hk. replace (0 + 1 + 1) with (Z.of_nat (length (tb_neighbors (T root)))) in Ha2 by by rewrite Hk.
      destruct (finish _ _ _ _ _ _ (reverse (c :: B) ++ root :: a :: A) cb Ha2 Hcb Htask Hg) as (s3 & L3 & Hs3).
      * apply (Forall2_line_of _ true); [done|by eexists|done].
      * apply Forall_app. split; [by apply Forall_reverse|by constructor].
      * exists s3. split; [by eapply leads_trans, leads_trans|done].
Qed.

(** The neighbors of every node are the nodes next to it on the line. *)
Definition hangs (line : list Z) : Prop :=
  forall m1 id m2, line = m1 ++ id :: m2 -> neighbor_ids (T id) ≡ₚ option_list (last m1) ++ option_list (hd_error m2).

Lemma hd_error_reverse {A} (l : list A) : hd_error (reverse l) = last l.
Proof. destruct l as [|x l _] using rev_ind; [done|]. by rewrite reverse_snoc, last_snoc. Qed.

Lemma last_reverse {A} (l : list A) : last (reverse l) = hd_error l.
Proof. by rewrite <- (reverse_involutive l) at 2; rewrite hd_error_reverse. Qed.

Lemma hangs_reverse line : hangs line -> hangs (reverse line).
Proof.
  intros Hh m1 id m2 E. rewrite (Hh (reverse m2) id (reverse m1)).
  - rewrite last_reverse, hd_error_reverse. apply Permutation_app_comm.
  - rewrite <- (reverse_involutive line), E, reverse_app, reverse_cons. by rewrite <- app_assoc.
Qed.

Lemma side_of line m1 p ns :
  hangs line -> NoDup line -> 0 ∉ line -> Forall good line -> line = m1 ++ p :: ns -> root ∈ m1 ++ [p] -> side p ns.
Proof.
  intros Hh Hnd Hz Hg. revert m1 p. induction ns as [|n ns IH]; intros m1 p E Hr; [done|].
  assert (E' : line = (m1 ++ [p]) ++ n :: ns) by (by rewrite <- app_assoc). cbn [side]. split_and!.
  - rewrite Forall_forall in Hg. apply Hg. rewrite E'. apply elem_of_app. right. by left.
  - intros ->. rewrite E' in Hnd. apply NoDup_app in Hnd as (_ & Hnd & _). apply (Hnd root Hr). by left.
  - intros ->. apply Hz. rewrite E'. apply elem_of_app. right. by left.
  - rewrite (Hh _ _ _ E'). by rewrite last_snoc.
  - apply (IH (m1 ++ [p]) n E'). apply elem_of_app. by left.
Qed.

(** How the sides come in the root's table. *)
Lemma sides_order (l1 l2 : list Z) (nbs : list Z) :
  nbs ≡ₚ option_list (last l1) ++ option_list (hd_error l2) ->
  exists A B, nbs = option_list (hd_error A) ++ option_list (hd_error B) /\ (A = [] -> B = [])
    /\ ((A = l2 /\ B = reverse l1) \/ (A = reverse l1 /\ B = l2)).
Proof.
  intros Hp. rewrite <- hd_error_reverse in Hp. remember (reverse l1) as r. clear Heqr l1.
  destruct r as [|x r], l2 as [|y l]; cbn in Hp.
  - apply Permutation_nil_r in Hp as ->. exists [], []. split; [done|]. split; [done|auto].
  - symmetry in Hp. apply Permutation_length_1_inv in Hp as ->. exists (y :: l), []. split; [done|]. split; [done|auto].
  - symmetry in Hp. apply Permutation_length_1_inv in Hp as ->. exists (x :: r), []. split; [done|]. split; [done|auto].
  - symmetry in Hp. apply Permutation_length_2_inv in Hp as [->| ->].
    + exists (x :: r), (y :: l). split; [done|]. split; [done|auto].
    + exists (y :: l), (x :: r). split; [done|]. split; [done|auto].
Qed.

(** A line is two sides of the root. *)
Lemma sides_of_line l1 l2 :
  let line := l1 ++ root :: l2 in
  hangs line -> NoDup line -> 0 ∉ line -> Forall good line -> (length line <= 255)%nat ->
  exists A B, neighbor_ids (T root) = option_list (hd_error A) ++ option_list (hd_error B) /\ (A = [] -> B = [])
    /\ Forall good A /\ Forall good B /\ side root A /\ side root B /\ NoDup (A ++ root :: B)
    /\ (length A + length B <= 254)%nat
    /\ (reverse B ++ root :: A = line \/ reverse B ++ root :: A = reverse line).
Proof.
  intros line Hh Hnd Hz Hg Hlen. destruct (sides_order l1 l2 _ (Hh l1 root l2 eq_refl)) as (A & B & Hn & HAB & Hcase).
  assert (Hroot : forall l, root ∈ l ++ [root]) by (intros l; apply elem_of_app; right; by left).
  assert (Erev : reverse line = reverse l2 ++ root :: reverse l1) by (unfold line; by rewrite reverse_app, reverse_cons, <- app_assoc).
  assert (HR : side root l2) by (by apply (side_of line l1)).
  assert (HL : side root (reverse l1)).
  { apply (side_of (reverse line) (reverse l2)); try done; try by rewrite reverse_Permutation. by apply hangs_reverse. }
  assert (Hgs : Forall good (reverse l1) /\ Forall good l2).
  { apply Forall_app in Hg as [Hg1 Hg2]. apply Forall_cons in Hg2 as [_ Hg2]. split; [by apply Forall_reverse|done]. }
  destruct Hgs as [HgL HgR]. unfold line in Hlen. rewrite length_app in Hlen. cbn [length] in Hlen.
  exists A, B. destruct Hcase as [[-> ->]|[-> ->]]; split_and!; try done; rewrite ?length_reverse, ?reverse_involutive; try lia.
  - unfold line in Hnd. rewrite <- (reverse_Permutation l1) in Hnd. rewrite <- !Permutation_middle in *.
    by rewrite Permutation_app_comm.
  - by left.
  - by rewrite (reverse_Permutation l1).
  - by right.
Qed.

(** C34: The topology finds out how the network hangs together.  When the nodes hang on a line,
    every node's table names the nodes next to it, in any order, on ports that are up, every
    request for a table is answered, and no memory runs out, then the run that
    [bcmp_topology_start] begins ends by itself: the callback is called once, with the nodes
    in the order of the line from one end or from the other; all entries have been freed,
    and the module is idle again. *)
Theorem topology_of_line l1 l2 cb s :
  idle (part s) -> ready s -> asked s = None ->
  T root = own_node_table CFG junk up (topo_num_ports (part s)) own ->
  Forall good (l1 ++ root :: l2) -> hangs (l1 ++ root :: l2) ->
  NoDup (l1 ++ root :: l2) -> 0 ∉ l1 ++ root :: l2 -> (length (l1 ++ root :: l2) <= 255)%nat ->
  exists s1 n s2 ids, on_part (bcmp_topology_start (Some cb)) s = Some (BmOK, s1)
    /\ explore n s1 = Some (true, s2)
    /\ (ids = l1 ++ root :: l2 \/ ids = reverse (l1 ++ root :: l2))
    /\ topology_told (part s) cb ids (part s2).
Proof.
  intros Hi Hr Ha HT Hg Hh Hnd Hz Hlen.
  assert (Hgr : good root) by (rewrite Forall_forall in Hg; apply Hg, elem_of_app; right; by left).
  destruct (start_spec s cb Hi Hr Ha HT Hgr) as (s1 & s2 & b & l & E1 & L1 & Ha2 & []).
  destruct (sides_of_line l1 l2 Hh Hnd Hz Hg Hlen) as (A & B & Hn & HAB & HgA & HgB & HA & HB & HAB' & Hl & Hline).
  destruct (both_sides b s2 l cb A B Ha2) as (s3 & L3 & Htold & _ & Ha3); try done.
  - rewrite rn_os0. exact (id_os _ Hi).
  - destruct (leads_trans _ _ _ L1 L3) as [n Hn'].
    exists s1, (n + 1)%nat, s3, (reverse B ++ root :: A). split; [done|]. split; [|split; [done|]].
    + rewrite Hn'. cbn [explore]. unfold explore_step. rewrite bind_assoc. erewrite bind_some by reflexivity.
      destruct (told_idle _ _ _ _ Htold) as (Hq & _). by rewrite Hq, Ha3.
    + destruct Htold as [Hc Hf Hidle Ho Hp]. split; [|done|done|congruence|congruence]. by rewrite <- rn_calls0.
Qed.
End line.
