(* ===== verification/NeighborTable.v ===== *)
(** * The table of neighbors

    What the chain of src/bcmp/neighbors.c stands for: a list of neighbors with
    distinct node ids and distinct ports. *)
From S2P Require Import Prelude Util LinkedList SList Os Packet Parts Device Neighbors.

(** A neighbor without its link. *)
Definition strip (n : BcmpNeighbor) : BcmpNeighbor := set_nb_next None n.
Definition entries_of (xs : list (loc * BcmpNeighbor)) : list BcmpNeighbor := strip <$> xs.*2.

Lemma strip_link p n : strip (set_nb_next p n) = strip n.
Proof. done. Qed.
Lemma strip_strip n : strip (strip n) = strip n.
Proof. done. Qed.

Abbreviation ids_of xs := (nb_node_id <$> entries_of xs).
Abbreviation ports_of xs := (nb_port <$> entries_of xs).

Lemma entries_of_app xs ys : entries_of (xs ++ ys) = entries_of xs ++ entries_of ys.
Proof. unfold entries_of. by rewrite !fmap_app. Qed.

Lemma entries_cons x xs : entries_of (x :: xs) = strip (snd x) :: entries_of xs.
Proof. done. Qed.

(** Nodes elsewhere are as they were. *)
Definition others_kept (xs : list (loc * BcmpNeighbor)) (h h' : gmap loc BcmpNeighbor) : Prop :=
  forall c, c ∉ xs.*1 -> h' !! c = h !! c.

Lemma get_neighbor_some s l n : nb_heap s !! l = Some n -> get_neighbor l s = Some (n, s).
Proof. intros E. unfold get_neighbor. erewrite bind_some by reflexivity. unfold lift. by rewrite E. Qed.

Lemma get_in_list s p xs l n :
  slist nb_next (nb_heap s) p xs -> (l, n) ∈ xs -> get_neighbor l s = Some (n, s).
Proof. intros Hs Hx. apply get_neighbor_some. by eapply slist_lookup. Qed.

Lemma set_table_same s : set_table (NEIGHBORS s) (nb_heap s) s = s.
Proof. by destruct s. Qed.

(** ** Searching *)

Definition id_test (id : Z) (n : BcmpNeighbor) : bool := negb (id =? 0) && (id =? nb_node_id n).

Lemma find_neighbor_hit s xs1 l n xs2 :
  slist nb_next (nb_heap s) (NEIGHBORS s) (xs1 ++ (l, n) :: xs2) -> nb_node_id n <> 0 ->
  nb_node_id n ∉ ids_of xs1 ->
  bcmp_find_neighbor (nb_node_id n) s = Some (Some l, s).
Proof.
  intros Hs Hid Hn. unfold bcmp_find_neighbor. erewrite bind_some by reflexivity.
  rewrite bind_lift. erewrite find_node_hit; [reflexivity|exact Hs| |].
  - intros l' n' Hx. destruct (Z.eqb_spec (nb_node_id n) (nb_node_id n')) as [E|_]; [|by rewrite andb_false_r].
    exfalso. apply Hn. rewrite E. unfold entries_of. rewrite <- !list_fmap_compose.
    apply list_elem_of_fmap. by exists (l', n').
  - by rewrite Z.eqb_refl, (proj2 (Z.eqb_neq _ _) Hid).
Qed.

Lemma find_neighbor_miss s xs id :
  slist nb_next (nb_heap s) (NEIGHBORS s) xs -> id ∉ ids_of xs -> bcmp_find_neighbor id s = Some (None, s).
Proof.
  intros Hs Hn. unfold bcmp_find_neighbor. erewrite bind_some by reflexivity.
  rewrite bind_lift. erewrite find_node_miss; [reflexivity|exact Hs|].
  intros l' n' Hx. destruct (Z.eqb_spec id (nb_node_id n')) as [E|_]; [|by rewrite andb_false_r].
  exfalso. apply Hn. rewrite E. unfold entries_of. rewrite <- !list_fmap_compose.
  apply list_elem_of_fmap. by exists (l', n').
Qed.

(** A node id is in the table at one place, or not there. *)
Lemma split_id xs id :
  id ∉ ids_of xs \/ exists xs1 l n xs2, xs = xs1 ++ (l, n) :: xs2 /\ nb_node_id n = id /\ id ∉ ids_of xs1.
Proof.
  induction xs as [|[l n] xs IH]; [left; apply not_elem_of_nil|].
  destruct (decide (nb_node_id n = id)) as [E|E].
  - right. exists [], l, n, xs. split_and!; [done|done|apply not_elem_of_nil].
  - destruct IH as [IH|(xs1 & l' & n' & xs2 & -> & E' & IH)]; [left|right].
    + cbn. rewrite not_elem_of_cons. naive_solver.
    + exists ((l, n) :: xs1), l', n', xs2. split_and!; [done|done|].
      cbn. rewrite not_elem_of_cons. naive_solver.
Qed.

(** ** Removing *)

Lemma remove_neighbor_spec s xs1 l n xs2 :
  slist nb_next (nb_heap s) (NEIGHBORS s) (xs1 ++ (l, n) :: xs2) ->
  exists p h xs1', bcmp_remove_neighbor_from_table (Some l) s = Some (true, set_table p h s)
    /\ slist nb_next h p (xs1' ++ xs2) /\ entries_of xs1' = entries_of xs1
    /\ others_kept (xs1 ++ (l, n) :: xs2) (nb_heap s) h.
Proof.
  intros Hs. unfold bcmp_remove_neighbor_from_table.
  destruct (slist_unlink _ _ _ _ _ _ _ (set_nb_next (nb_next n)) Hs ltac:(done)) as (Hl & p & h & xs1' & Hs' & Hr & Hk & Hc).
  exists p, h, xs1'. split; [|split; [exact Hs'|split]].
  - erewrite bind_some by (by apply get_neighbor_some). erewrite bind_some by reflexivity.
    destruct xs1 as [|[e m] xs1 _] using rev_ind.
    + destruct Hc as (Hp & -> & ->). by rewrite bool_decide_eq_true_2.
    + rewrite fmap_app in Hc. cbn [fmap list_fmap] in Hc. rewrite last_snoc in Hc.
      destruct Hc as (Hp & -> & k & Hk' & _ & ->). rewrite bool_decide_eq_false_2 by done.
      rewrite <- app_assoc in Hs. cbn [app] in Hs. pose proof (slist_start _ _ _ _ Hs) as Hf.
      assert (exists first, NEIGHBORS s = Some first) as [first Hfirst]
        by (rewrite Hf; destruct xs1 as [|[z y] xs1]; eexists; reflexivity).
      erewrite bind_some.
      2: { rewrite bind_lift, Hfirst. cbn [mbind option_bind].
           rewrite bind_lift, <- Hfirst, (slist_find_prev _ _ _ _ _ _ _ _ _ Hs). cbn [mbind option_bind].
           erewrite bind_some by (by apply get_neighbor_some). reflexivity. }
      reflexivity.
  - unfold entries_of. by apply (relinked_fmap strip (set_nb_next (nb_next n))).
  - intros c Hx. apply Hk. rewrite fmap_app, not_elem_of_app in Hx. cbn in Hx.
    rewrite not_elem_of_cons in Hx |- *. tauto.
Qed.

(** ** Making room for a port *)

Definition not_port (port : Z) (n : BcmpNeighbor) : Prop := nb_port n <> port.
#[local] Instance not_port_dec port n : Decision (not_port port n).
Proof. unfold not_port. apply _. Defined.

Definition evicted (port : Z) (l : list BcmpNeighbor) : list BcmpNeighbor := filter (not_port port) l.

Lemma evicted_none port l : port ∉ nb_port <$> l -> evicted port l = l.
Proof.
  unfold evicted. induction l as [|n l IH]; [done|]. rewrite fmap_cons, not_elem_of_cons. intros [H1 H2].
  rewrite filter_cons_True by (unfold not_port; congruence). by rewrite IH.
Qed.

Lemma evicted_app port l1 l2 : evicted port (l1 ++ l2) = evicted port l1 ++ evicted port l2.
Proof. apply filter_app. Qed.

Lemma evicted_hit port n l : nb_port n = port -> evicted port (n :: l) = evicted port l.
Proof. intros E. unfold evicted. by rewrite filter_cons_False by (intros Hx; by apply Hx). Qed.

Lemma evict_none port s xs1 l n xs2 fuel :
  slist nb_next (nb_heap s) (NEIGHBORS s) (xs1 ++ (l, n) :: xs2) -> port ∉ ports_of ((l, n) :: xs2) ->
  (length xs2 < fuel)%nat -> evict_loop fuel port l s = Some (tt, s).
Proof.
  revert xs1 l n fuel. induction xs2 as [|[x m] xs2 IH]; intros xs1 l n [|fuel] Hs Hp Hf; cbn in Hf; try lia.
  all: pose proof (sl_segment _ _ _ _ Hs) as Hseg; apply segment_app in Hseg as (r & _ & -> & Hl & Hseg).
  all: cbn in Hp; rewrite not_elem_of_cons in Hp; destruct Hp as [Hp1 Hp2].
  all: pose proof (get_neighbor_some s l n Hl) as Eg; cbn [evict_loop]; rewrite (bind_some _ _ _ _ _ Eg).
  - cbn in Hseg. rewrite Hseg. erewrite bind_some by reflexivity.
    destruct (Z.eqb_spec (nb_port n) port) as [?|_]; [congruence|].
    erewrite bind_some by reflexivity. cbv iota. rewrite (bind_some _ _ _ _ _ Eg). by rewrite Hseg.
  - destruct Hseg as (Hnx & Hx & Hseg). rewrite Hnx.
    erewrite bind_some by (erewrite bind_some by (by apply get_neighbor_some); reflexivity).
    destruct (Z.eqb_spec (nb_port n) port) as [?|_]; [congruence|].
    erewrite bind_some by reflexivity. cbv iota. rewrite (bind_some _ _ _ _ _ Eg), Hnx.
    apply (IH (xs1 ++ [(l, n)]) x m); [by rewrite <- app_assoc|exact Hp2|lia].
Qed.

Record table_ok (l : list BcmpNeighbor) : Prop := {
  to_ids : NoDup (nb_node_id <$> l);
  to_nonzero : 0 ∉ nb_node_id <$> l;
  to_ports : NoDup (nb_port <$> l)
}.

(** The neighbor of the port goes. *)
Lemma evict_here port s xs1 l n xs2 fuel :
  slist nb_next (nb_heap s) (NEIGHBORS s) (xs1 ++ (l, n) :: xs2) ->
  table_ok (entries_of (xs1 ++ (l, n) :: xs2)) -> nb_port n = port -> (length xs2 <= fuel)%nat ->
  exists p h xs', evict_loop (S fuel) port l s = Some (tt, set_table p h s)
    /\ slist nb_next h p xs' /\ entries_of xs' = entries_of (xs1 ++ xs2)
    /\ others_kept (xs1 ++ (l, n) :: xs2) (nb_heap s) h.
Proof.
  intros Hs [Hids Hnz Hports] Hp Hf. pose proof (sl_segment _ _ _ _ Hs) as Hseg.
  apply segment_app in Hseg as (r & _ & -> & Hl & Hseg).
  destruct (remove_neighbor_spec s xs1 l n xs2 Hs) as (p & h & xs1' & Er & Hs' & He & Hk).
  rewrite entries_of_app in Hids, Hports, Hnz. cbn [entries_of fmap list_fmap snd] in Hids, Hports, Hnz.
  fold (entries_of xs2) in Hids, Hports, Hnz. rewrite fmap_app, fmap_cons in Hids, Hports, Hnz.
  rewrite <- He in Hids, Hnz. cbn in Hnz.
  exists p, h, (xs1' ++ xs2). split; [|split_and!; [done|by rewrite !entries_of_app, He|done]].
  cbn [evict_loop]. rewrite (bind_some _ _ _ _ _ (get_neighbor_some s l n Hl)).
  destruct xs2 as [|[x m] xs2].
  - cbn in Hseg. rewrite Hseg. erewrite bind_some by reflexivity. rewrite (proj2 (Z.eqb_eq _ _) Hp).
    erewrite (bind_some _ _ _ None); [reflexivity|]. rewrite (bind_some _ _ _ _ _ Er).
    eapply find_neighbor_miss; [exact Hs'|]. rewrite app_nil_r.
    apply NoDup_app in Hids as (_ & Hids & _). intros Hin. apply (Hids _ Hin). by left.
  - destruct Hseg as (Hnx & Hx & Hseg). rewrite Hnx.
    erewrite bind_some by (erewrite bind_some by (by apply get_neighbor_some); reflexivity).
    rewrite (proj2 (Z.eqb_eq _ _) Hp). erewrite bind_some.
    2: { rewrite (bind_some _ _ _ _ _ Er). eapply find_neighbor_hit; [exact Hs'| |].
         - intros E. apply Hnz. rewrite <- E. cbn. rewrite elem_of_app, !elem_of_cons. tauto.
         - apply NoDup_app in Hids as (_ & Hids & _). intros Hin. apply (Hids _ Hin). right. by left. }
    cbv iota. pose proof (sl_segment _ _ _ _ Hs') as Hseg'.
    apply segment_app in Hseg' as (r' & _ & -> & Hx' & Hseg').
    erewrite bind_some by (apply get_neighbor_some; exact Hx').
    destruct xs2 as [|[y k] xs2]; cbn in Hseg'; [by rewrite Hseg'|]. destruct Hseg' as (Hny & Hy & _). rewrite Hny.
    apply (evict_none port _ (xs1' ++ [(x, m)]) y k xs2); [by rewrite <- app_assoc| |cbn in Hf |- *; lia].
    apply NoDup_app in Hports as (_ & _ & Hports). apply NoDup_cons in Hports as [Hports _].
    cbn in Hports |- *. rewrite Hp in Hports. rewrite !not_elem_of_cons in Hports. rewrite not_elem_of_cons. tauto.
Qed.

Lemma evict_spec port s xs1 l n xs2 fuel :
  slist nb_next (nb_heap s) (NEIGHBORS s) (xs1 ++ (l, n) :: xs2) ->
  table_ok (entries_of (xs1 ++ (l, n) :: xs2)) -> port ∉ ports_of xs1 -> (length xs2 < fuel)%nat ->
  exists p h xs', evict_loop fuel port l s = Some (tt, set_table p h s)
    /\ slist nb_next h p xs' /\ entries_of xs' = evicted port (entries_of (xs1 ++ (l, n) :: xs2))
    /\ others_kept (xs1 ++ (l, n) :: xs2) (nb_heap s) h.
Proof.
  revert xs1 l n fuel. induction xs2 as [|[x m] xs2 IH]; intros xs1 l n [|fuel] Hs Hok Hp Hf; cbn in Hf; try lia.
  all: destruct (decide (nb_port n = port)) as [E|E].
  1,3: destruct (evict_here port s xs1 l n _ fuel Hs Hok E) as (p & h & xs' & E1 & Hs' & He & Hk); [cbn; lia|].
  1,2: exists p, h, xs'; split_and!; [done|done| |done]; rewrite He, !entries_of_app, evicted_app;
       rewrite (evicted_none port (entries_of xs1)) by done; f_equal;
       rewrite (entries_cons (l, n)), evicted_hit by done;
       symmetry; apply evicted_none; destruct Hok as [_ _ Hports];
       rewrite entries_of_app, fmap_app in Hports; apply NoDup_app in Hports as (_ & _ & Hports);
       apply NoDup_cons in Hports as [Hports _]; by rewrite <- E.
  - exists (NEIGHBORS s), (nb_heap s), (xs1 ++ [(l, n)]). rewrite set_table_same. split_and!; [|done| |done].
    + eapply evict_none; [exact Hs| |cbn; lia]. cbn. rewrite not_elem_of_cons.
      split; [congruence|apply not_elem_of_nil].
    + rewrite evicted_none; [done|]. rewrite entries_of_app, fmap_app. cbn.
      rewrite not_elem_of_app, not_elem_of_cons. split_and!; [done|congruence|apply not_elem_of_nil].
  - pose proof (sl_segment _ _ _ _ Hs) as Hseg. apply segment_app in Hseg as (r & _ & -> & Hl & Hnx & Hx & _).
    pose proof (get_neighbor_some s l n Hl) as Eg. cbn [evict_loop]. rewrite (bind_some _ _ _ _ _ Eg), Hnx.
    erewrite bind_some by (erewrite bind_some by (by apply get_neighbor_some); reflexivity).
    destruct (Z.eqb_spec (nb_port n) port) as [?|_]; [congruence|].
    erewrite bind_some by reflexivity. cbv iota. rewrite (bind_some _ _ _ _ _ Eg), Hnx.
    destruct (IH (xs1 ++ [(l, n)]) x m fuel) as (p & h & xs' & E1 & Hs' & He & Hk).
    + by rewrite <- app_assoc.
    + by rewrite <- app_assoc.
    + rewrite entries_of_app, fmap_app. cbn. rewrite not_elem_of_app, not_elem_of_cons.
      split_and!; [done|congruence|apply not_elem_of_nil].
    + lia.
    + exists p, h, xs'. rewrite <- app_assoc in He, Hk. done.
Qed.

(** ** Adding *)

Lemma append_loop_spec h id e n xs fuel first :
  slist nb_next h (Some first) (xs ++ [(e, n)]) -> id ∉ ids_of xs -> (length xs < fuel)%nat ->
  append_loop fuel h id first = Some (Some e).
Proof.
  intros [Hs _]. revert first fuel Hs.
  induction xs as [|[x m] xs IH]; intros first [|fuel] Hs Hid Hf; cbn in Hf; try lia;
    destruct Hs as ([= ->] & Hx & Hs); cbn [append_loop]; rewrite Hx; cbn [mbind option_bind].
  - cbn in Hs. by rewrite Hs.
  - cbn in Hid. rewrite not_elem_of_cons in Hid. destruct Hid as [Hid1 Hid2].
    destruct (nb_next m) as [y|] eqn:E; [|by destruct xs as [|[]]; destruct Hs].
    destruct (Z.eqb_spec id (nb_node_id m)) as [?|_]; [congruence|]. apply IH; [done|done|lia].
Qed.

Lemma malloc_nb s : willing (nb_os s) -> with_nb_os malloc_ok s = Some (true, s).
Proof.
  intros [Ha _]. unfold with_nb_os, zoom, malloc_ok. rewrite Ha.
  destruct s as [? ? ? ? ? ? ? ? ? ? ? [a b c] ?]; cbn in Ha; by subst.
Qed.

Lemma evicted_subset port l n : n ∈ evicted port l -> n ∈ l.
Proof. unfold evicted. by intros [_ H]%list_elem_of_filter. Qed.

Lemma add_neighbor_spec s xs id port :
  slist nb_next (nb_heap s) (NEIGHBORS s) xs -> table_ok (entries_of xs) -> id ∉ ids_of xs ->
  willing (nb_os s) ->
  exists p h xs' l, bcmp_add_neighbor id port s = Some (Some l, set_table p h s)
    /\ slist nb_next h p (xs' ++ [(l, new_neighbor id port)])
    /\ entries_of xs' = evicted port (entries_of xs).
Proof.
  intros Hs Hok Hid Hw. unfold bcmp_add_neighbor. rewrite (bind_some _ _ _ _ _ (malloc_nb s Hw)). cbn [negb].
  erewrite bind_some by reflexivity. set (l := fresh (dom (nb_heap s))).
  assert (Hl : nb_heap s !! l = None) by (apply not_elem_of_dom, is_fresh).
  pose proof (slist_fresh _ _ _ _ _ Hs Hl) as Hlx.
  set (h1 := <[l := new_neighbor id port]> (nb_heap s)). erewrite bind_some by reflexivity.
  pose proof (slist_insert nb_next _ _ _ l (new_neighbor id port) Hs Hlx) as Hs1. fold h1 in Hs1.
  assert (Hev : exists p h xs', (match NEIGHBORS s with
        | Some first => evict_loop (walk_fuel (nb_heap s)) port first | None => mret tt end)
      (set_table (NEIGHBORS s) h1 s) = Some (tt, set_table p h s)
      /\ slist nb_next h p xs' /\ entries_of xs' = evicted port (entries_of xs)
      /\ h !! l = Some (new_neighbor id port) /\ l ∉ xs'.*1).
  { assert (Hlh1 : h1 !! l = Some (new_neighbor id port)) by apply lookup_insert_eq.
    destruct xs as [|[x n] xs].
    - pose proof (sl_segment _ _ _ _ Hs) as Hseg. cbn in Hseg. rewrite Hseg.
      exists None, h1, []. rewrite Hseg in Hs1. split_and!; [reflexivity|exact Hs1|done|done|apply not_elem_of_nil].
    - pose proof (slist_head _ _ _ _ _ _ Hs) as Hp. rewrite Hp.
      destruct (evict_spec port (set_table (Some x) h1 s) [] x n xs (walk_fuel (nb_heap s)))
        as (p & h & xs' & E & Hs' & He & Hk); [by rewrite <- Hp|exact Hok|apply not_elem_of_nil| |].
      { pose proof (slist_size _ _ _ _ Hs). unfold walk_fuel. cbn in *. lia. }
      cbn [app] in He, Hk. pose proof (Hk l Hlx) as Hkl. cbn in Hkl.
      exists p, h, xs'. split_and!; [exact E|done|exact He|by rewrite Hkl|].
      intros ([l' n'] & E' & Hn')%list_elem_of_fmap. cbn in E'. subst l'.
      pose proof (slist_lookup _ _ _ _ _ _ Hs' Hn') as Hln. rewrite Hkl, Hlh1 in Hln. injection Hln as <-.
      apply Hid. change id with (nb_node_id (strip (new_neighbor id port))).
      apply (list_elem_of_fmap_2 nb_node_id). eapply evicted_subset. rewrite <- He.
      apply list_elem_of_fmap. exists (new_neighbor id port). split; [done|].
      apply list_elem_of_fmap. by exists (l, new_neighbor id port). }
  destruct Hev as (p & h & xs' & E & Hs' & He & Hlh & Hlx'). rewrite (bind_some _ _ _ _ _ E).
  erewrite bind_some by reflexivity. cbn [NEIGHBORS nb_heap set_table].
  assert (Hid' : id ∉ ids_of xs').
  { rewrite He. intros (n' & -> & Hn')%list_elem_of_fmap. apply Hid.
    apply (list_elem_of_fmap_2 nb_node_id). by eapply evicted_subset. }
  destruct xs' as [|[e n] xs' _] using rev_ind.
  - pose proof (sl_segment _ _ _ _ Hs') as Hseg. cbn in Hseg. rewrite Hseg.
    exists (Some l), h, [], l. split; [reflexivity|]. split; [|done].
    rewrite <- (insert_id h l (new_neighbor id port)) by done. by apply slist_one.
  - assert (Hp : exists first, p = Some first).
    { destruct xs' as [|[x m] xs']; eexists; by eapply slist_head. }
    destruct Hp as [first ->]. cbv iota.
    rewrite entries_of_app, fmap_app, not_elem_of_app in Hid'. destruct Hid' as [Hid1 _].
    rewrite bind_lift, (append_loop_spec h id e n xs'); [|done|done|].
    2: { pose proof (slist_size _ _ _ _ Hs') as Hz. rewrite length_app in Hz. unfold walk_fuel. cbn in Hz. lia. }
    cbn [mbind option_bind].
    assert (Hen : h !! e = Some n) by (eapply slist_lookup; [exact Hs'|apply elem_of_app; right; by left]).
    erewrite bind_some by (apply get_neighbor_some; exact Hen).
    exists (Some first), (<[e := set_nb_next (Some l) n]> h), (xs' ++ [(e, set_nb_next (Some l) n)]), l.
    split; [reflexivity|]. split; [|rewrite <- He, !entries_of_app; done].
    rewrite <- app_assoc. cbn [app]. eapply slist_relink; [exact Hs'|apply lookup_insert_eq| | |].
    + pose proof (sl_nodup _ _ _ _ Hs') as Hnd. rewrite fmap_app in Hnd. apply NoDup_app in Hnd as (_ & Hnd & _).
      intros c Hc. rewrite lookup_insert_ne; [done|]. intros <-. apply (Hnd e Hc). by left.
    + cbn. rewrite lookup_insert_ne; [done|]. intros <-. apply Hlx'. rewrite fmap_app. apply elem_of_app. right. by left.
    + cbn. rewrite fmap_app in Hlx'. pose proof (sl_nodup _ _ _ _ Hs') as Hnd. rewrite fmap_app in Hnd.
      change [e; l] with ([e] ++ [l]). rewrite app_assoc. apply NoDup_app. split_and!; [done| |apply NoDup_singleton].
      intros c Hc ->%list_elem_of_singleton. by apply Hlx'.
Qed.

(** ** What the variables stand for *)

Record table : Type := MkTable {
  t_entries : list BcmpNeighbor;
  t_cb : option nat;
  t_now : Z;
  t_events : list (nat * bool * BcmpNeighbor);
  t_requests : list Z;
  t_num : Z
}.

Definition strip_event (e : nat * bool * BcmpNeighbor) : nat * bool * BcmpNeighbor := (fst e, strip (snd e)).
Definition info_entries (ids : list Z) : list (Z * option (option nat)) := (fun i => (i, Some None)) <$> ids.

(** The chain is [xs]. *)
Record rep_at (xs : list (loc * BcmpNeighbor)) (s : neighbors) (a : table) : Prop := {
  ra_list : slist nb_next (nb_heap s) (NEIGHBORS s) xs;
  ra_entries : entries_of xs = t_entries a;
  ra_ok : table_ok (t_entries a);
  ra_os : willing (nb_os s);
  ra_cb : NEIGHBOR_DISCOVERY_CB s = t_cb a;
  ra_now : os_ticks_ms (nb_os s) = t_now a;
  ra_events : strip_event <$> nb_events s = t_events a;
  ra_requests : ll_inv (nb_requests s) (INFO_REQUEST_LIST s) (info_entries (t_requests a));
  ra_num : NUM_NEIGHBORS s = t_num a
}.

Definition represents (s : neighbors) (a : table) : Prop := exists xs, rep_at xs s a.

(** *** The operations on a list *)

Definition set_entries (l : list BcmpNeighbor) (a : table) : table :=
  MkTable l (t_cb a) (t_now a) (t_events a) (t_requests a) (t_num a).

(** The discovery callback is called, when there is one. *)
Definition note (discovered : bool) (n : BcmpNeighbor) (a : table) : table :=
  MkTable (t_entries a) (t_cb a) (t_now a)
    (t_events a ++ match t_cb a with Some cb => [(cb, discovered, n)] | None => [] end)
    (t_requests a) (t_num a).

(** A node is asked for its information. *)
Definition ask (id : Z) (a : table) : table :=
  MkTable (t_entries a) (t_cb a) (t_now a) (t_events a) (t_requests a ++ [u32 id]) (t_num a).

Definition with_id (id : Z) (l : list BcmpNeighbor) : option BcmpNeighbor :=
  snd <$> list_find (fun n => nb_node_id n = id) l.

(** A neighbor that is not known is added, in place of the one on its port. *)
Definition learn_neighbor (id port : Z) (a : table) : table :=
  match with_id id (t_entries a) with
  | Some _ => a
  | None =>
      ask id (note true (new_neighbor id port)
        (set_entries (evicted port (t_entries a) ++ [new_neighbor id port]) a))
  end.

Definition change_id (id : Z) (f : BcmpNeighbor -> BcmpNeighbor) (l : list BcmpNeighbor) : list BcmpNeighbor :=
  (fun n => if nb_node_id n =? id then f n else n) <$> l.

Definition heard `{Platform} (id port us lease : Z) (a : table) : table :=
  let a := learn_neighbor id port a in
  match with_id id (t_entries a) with
  | Some n =>
      let reset := us <? last_time_since_boot_us n in
      let a := if negb (online n) || reset then note true n a else a in
      let a := if reset then ask (native_load (take 8 (nb_info n))) a else a in
      set_entries (change_id id (set_times us lease (t_now a)) (t_entries a)) a
  | None => a
  end.

(** The neighbors that have not been heard of in time go offline. *)
Definition late (now : Z) (n : BcmpNeighbor) : bool := online n && heartbeat_expired now n.
Definition check_entry (now : Z) (n : BcmpNeighbor) : BcmpNeighbor :=
  if late now n then set_online false n else n.

Definition checked (a : table) : table :=
  let a' := foldl (fun a n => if late (t_now a) n then note false n a else a) a (t_entries a) in
  MkTable (check_entry (t_now a) <$> t_entries a) (t_cb a) (t_now a) (t_events a') (t_requests a)
    (u8 (Z.of_nat (length (t_entries a)))).

Definition registered (cb : option nat) (a : table) : table :=
  MkTable (t_entries a) cb (t_now a)
    (t_events a ++ match cb with Some f => (fun n => (f, true, n)) <$> t_entries a | None => [] end)
    (t_requests a) (t_num a).

(** *** Single steps *)

Lemma with_id_none id l : with_id id l = None <-> id ∉ nb_node_id <$> l.
Proof.
  unfold with_id. destruct (list_find _ l) as [[i n]|] eqn:E; cbn.
  - split; [done|]. intros Hn. exfalso. apply Hn. apply list_find_Some in E as (Hi & <- & _).
    apply (list_elem_of_fmap_2 nb_node_id). by eapply list_elem_of_lookup_2.
  - split; [|done]. intros _ (n & -> & Hn)%list_elem_of_fmap. apply list_find_None in E.
    rewrite Forall_forall in E. by apply (E n Hn).
Qed.

Lemma with_id_split xs1 l n xs2 :
  nb_node_id n ∉ ids_of xs1 ->
  with_id (nb_node_id n) (entries_of (xs1 ++ (l, n) :: xs2)) = Some (strip n).
Proof.
  intros Hn. unfold with_id. rewrite entries_of_app, entries_cons.
  destruct (list_find _ _) as [[i m]|] eqn:E; cbn.
  - apply list_find_Some in E as (Hi & Hm & Hb). apply lookup_app_Some in Hi as [Hi|[Hle Hi]].
    + exfalso. apply Hn. rewrite <- Hm. apply (list_elem_of_fmap_2 nb_node_id). by eapply list_elem_of_lookup_2.
    + destruct (i - length (entries_of xs1))%nat as [|k] eqn:Ek; [by injection Hi as <-|].
      exfalso. apply (Hb (length (entries_of xs1)) (strip n)); [by apply list_lookup_middle|lia|done].
  - apply list_find_None in E. rewrite Forall_app, Forall_cons in E. by destruct E as (_ & E & _).
Qed.

Lemma invoke_spec xs s a b l n :
  rep_at xs s a -> (l, n) ∈ xs ->
  exists s', bcmp_neighbor_invoke_discovery_cb b l s = Some (tt, s') /\ rep_at xs s' (note b (strip n) a).
Proof.
  intros Hr Hx. destruct Hr. unfold bcmp_neighbor_invoke_discovery_cb. erewrite bind_some by reflexivity.
  rewrite ra_cb0. unfold note. destruct (t_cb a) as [cb|] eqn:Ecb.
  - erewrite bind_some by (by eapply get_in_list). eexists. split; [reflexivity|].
    split; cbn; first [done|by rewrite fmap_app, ra_events0|congruence].
  - exists s. split; [done|]. rewrite app_nil_r. split; cbn; first [done|congruence].
Qed.

Lemma table_ok_same l l' :
  nb_node_id <$> l' = nb_node_id <$> l -> nb_port <$> l' = nb_port <$> l -> table_ok l -> table_ok l'.
Proof. intros E1 E2 [H1 H2 H3]. by split; rewrite ?E1, ?E2. Qed.

Lemma put_spec xs1 l n xs2 s a n' :
  rep_at (xs1 ++ (l, n) :: xs2) s a -> nb_next n' = nb_next n -> nb_node_id n' = nb_node_id n ->
  nb_port n' = nb_port n ->
  exists s', put_neighbor l n' s = Some (tt, s')
    /\ rep_at (xs1 ++ (l, n') :: xs2) s' (set_entries (entries_of (xs1 ++ (l, n') :: xs2)) a).
Proof.
  intros [] E1 E2 E3. eexists. split; [reflexivity|]. split; cbn; try done.
  - by eapply slist_update.
  - eapply table_ok_same; [..|exact ra_ok0]; rewrite <- ra_entries0, !entries_of_app, !entries_cons, !fmap_app; cbn;
      by rewrite ?E2, ?E3.
Qed.

Lemma change_id_other id f l : id ∉ nb_node_id <$> l -> change_id id f l = l.
Proof.
  unfold change_id. induction l as [|n l IH]; [done|]. rewrite fmap_cons, not_elem_of_cons. intros [H1 H2].
  cbn. rewrite (proj2 (Z.eqb_neq _ _)) by congruence. f_equal. by apply IH.
Qed.

Lemma change_id_here xs1 l n xs2 f :
  table_ok (entries_of (xs1 ++ (l, n) :: xs2)) -> (forall m, strip (f m) = f (strip m)) ->
  change_id (nb_node_id n) f (entries_of (xs1 ++ (l, n) :: xs2)) = entries_of (xs1 ++ (l, f n) :: xs2).
Proof.
  intros [H _ _] Hf. rewrite entries_of_app, entries_cons, fmap_app in *. cbn in H.
  apply NoDup_app in H as (_ & H1 & [H2 _]%NoDup_cons).
  unfold change_id. rewrite fmap_app, fmap_cons. cbn [snd]. rewrite Z.eqb_refl.
  fold (change_id (nb_node_id n) f (entries_of xs1)). fold (change_id (nb_node_id n) f (entries_of xs2)).
  rewrite (change_id_other _ _ (entries_of xs2)) by done.
  rewrite (change_id_other _ _ (entries_of xs1)) by (intros Hin; apply (H1 _ Hin); by left).
  by rewrite entries_of_app, entries_cons, <- Hf.
Qed.

(** *** Checking *)

Lemma check_one xs1 l n xs2 s a :
  rep_at (xs1 ++ (l, n) :: xs2) s a ->
  let n' := check_entry (t_now a) n in
  exists s', neighbor_check l s = Some (tt, s')
    /\ rep_at (xs1 ++ (l, n') :: xs2) s'
         (set_entries (entries_of (xs1 ++ (l, n') :: xs2))
            (if late (t_now a) (strip n) then note false (strip n) a else a)).
Proof.
  intros Hr n'. pose proof Hr as []. unfold neighbor_check, n', check_entry.
  assert (Hx : (l, n) ∈ xs1 ++ (l, n) :: xs2) by (apply elem_of_app; right; left).
  erewrite bind_some by (by eapply get_in_list). erewrite bind_some by reflexivity.
  rewrite ra_now0. fold (late (t_now a) n). change (late (t_now a) (strip n)) with (late (t_now a) n).
  destruct (late (t_now a) n); cbn [when].
  - destruct (invoke_spec _ _ _ false l n Hr Hx) as (s1 & E & Hr1). rewrite (bind_some _ _ _ _ _ E).
    by apply (put_spec xs1 l n xs2 s1).
  - exists s. split; [done|]. rewrite ra_entries0. by destruct a.
Qed.

Lemma set_num_rep xs s a m :
  rep_at xs s a -> rep_at xs (set_num m s) (MkTable (t_entries a) (t_cb a) (t_now a) (t_events a) (t_requests a) m).
Proof. intros []. by split. Qed.

Definition check_events (a : table) (l : list BcmpNeighbor) : table :=
  foldl (fun a n => if late (t_now a) n then note false n a else a) a l.

Lemma check_events_frame a l e m :
  let f (a : table) := MkTable e (t_cb a) (t_now a) (t_events a) (t_requests a) m in
  check_events (f a) l = f (check_events a l).
Proof.
  cbv zeta. unfold check_events. revert a. induction l as [|n l IH]; intros a; [done|]. cbn.
  destruct (late (t_now a) n); [|apply IH]. rewrite <- (IH (note false n a)). done.
Qed.

Lemma check_events_fields a l :
  t_cb (check_events a l) = t_cb a /\ t_now (check_events a l) = t_now a
  /\ t_requests (check_events a l) = t_requests a /\ t_entries (check_events a l) = t_entries a
  /\ t_num (check_events a l) = t_num a.
Proof.
  unfold check_events. revert a. induction l as [|n l IH]; intros a; [done|]. cbn.
  destruct (late (t_now a) n); [|apply IH]. destruct (IH (note false n a)) as (-> & -> & -> & -> & ->). done.
Qed.

Lemma foreach_check xs1 xs2 s a fuel p :
  rep_at (xs1 ++ xs2) s a -> segment nb_next (nb_heap s) p None xs2 -> (length xs2 < fuel)%nat ->
  0 <= t_num a < 256 ->
  let ys := xs1 ++ ((fun x => (fst x, check_entry (t_now a) (snd x))) <$> xs2) in
  exists s', foreach_loop fuel neighbor_check p s = Some (tt, s')
    /\ rep_at ys s'
         (let a' := check_events a (entries_of xs2) in
          MkTable (entries_of ys) (t_cb a) (t_now a) (t_events a') (t_requests a)
            (u8 (t_num a + Z.of_nat (length xs2)))).
Proof.
  revert xs1 s a fuel p. induction xs2 as [|[l n] xs2 IH]; intros xs1 s a [|fuel] p Hr Hseg Hf Hnum ys; cbn in Hf; try lia.
  - cbn in Hseg. subst p. exists s. split; [done|]. unfold ys. cbn. rewrite app_nil_r in *.
    rewrite Z.add_0_r, u8_small by done. pose proof (ra_entries _ _ _ Hr) as ->. by destruct a.
  - destruct Hseg as (-> & Hl & Hseg). cbn [foreach_loop].
    destruct (check_one xs1 l n xs2 s a Hr) as (s1 & E1 & Hr1). rewrite (bind_some _ _ _ _ _ E1).
    set (n' := check_entry (t_now a) n) in *.
    assert (Hnx : nb_next n' = nb_next n) by (unfold n', check_entry; by destruct (late _ _)).
    erewrite bind_some by reflexivity.
    pose proof Hr1 as Hr1'. apply (set_num_rep _ _ _ (u8 (NUM_NEIGHBORS s1 + 1))) in Hr1.
    pose proof (ra_list _ _ _ Hr1) as Hs1. cbn in Hs1.
    erewrite bind_some by (eapply get_in_list; [exact Hs1|apply elem_of_app; right; left]).
    set (b := if late (t_now a) (strip n) then note false (strip n) a else a) in *.
    assert (Hb : t_now b = t_now a /\ t_cb b = t_cb a /\ t_requests b = t_requests a /\ t_num b = t_num a)
      by (unfold b; by destruct (late _ _)).
    destruct Hb as (B1 & B2 & B3 & B4).
    assert (Hnum1 : NUM_NEIGHBORS s1 = t_num a) by (rewrite <- B4; exact (ra_num _ _ _ Hr1')).
    pose proof (sl_segment _ _ _ _ Hs1) as Hseg1. apply segment_app in Hseg1 as (r & _ & -> & _ & Hseg1).
    rewrite Hnum1 in *. change (xs1 ++ (l, n') :: xs2) with (xs1 ++ [(l, n')] ++ xs2) in Hr1. rewrite app_assoc in Hr1.
    destruct (IH _ _ _ fuel _ Hr1 Hseg1 ltac:(lia) (u8_range _)) as (s2 & E2 & Hr2).
    exists s2. split; [exact E2|]. cbn [t_entries t_now t_cb t_events t_requests t_num set_entries] in Hr2.
    rewrite (check_events_frame b) in Hr2. cbn [t_events] in Hr2. rewrite B1, B2, B3, <- app_assoc in Hr2. unfold ys. cbn [fmap list_fmap fst snd app] in Hr2 |- *. fold n'.
    replace (u8 (u8 (t_num a + 1) + Z.of_nat (length xs2))) with (u8 (t_num a + Z.of_nat (length ((l, n) :: xs2)))) in Hr2
      by (cbn [length]; unfold wrap; rewrite Zplus_mod_idemp_l; f_equal; lia).
    exact Hr2.
Qed.

Lemma length_entries xs : length (entries_of xs) = length xs.
Proof. unfold entries_of. by rewrite !length_fmap. Qed.

Lemma entries_check now xs :
  entries_of ((fun x => (fst x, check_entry now (snd x))) <$> xs) = check_entry now <$> entries_of xs.
Proof.
  induction xs as [|[l n] xs IH]; [done|]. cbn [fmap list_fmap]. rewrite !entries_cons, IH. cbn. f_equal.
  unfold check_entry. change (late now (strip n)) with (late now n). by destruct (late now n).
Qed.

Lemma check_neighbors_spec s a :
  represents s a -> exists s', bcmp_check_neighbors s = Some (tt, s') /\ represents s' (checked a).
Proof.
  intros [xs Hr]. unfold bcmp_check_neighbors, bcmp_neighbor_foreach. erewrite bind_some by reflexivity.
  erewrite bind_some by reflexivity. pose proof (ra_list _ _ _ Hr) as Hs. pose proof (slist_size _ _ _ _ Hs).
  apply (set_num_rep _ _ _ 0) in Hr.
  destruct (foreach_check [] xs _ _ (walk_fuel (nb_heap s)) (NEIGHBORS s) Hr (sl_segment _ _ _ _ Hs))
    as (s' & E & Hr'); [unfold walk_fuel; lia|done|].
  exists s'. split; [exact E|]. eexists. cbn [app t_entries t_cb t_now t_events t_requests t_num] in Hr'.
  rewrite entries_check in Hr'. unfold checked. pose proof (ra_entries _ _ _ Hr) as He. cbn in He.
  rewrite <- He at 1 2 3. rewrite Z.add_0_l in Hr'.
  change (check_events _ (entries_of xs)) with
    (check_events (MkTable (t_entries a) (t_cb a) (t_now a) (t_events a) (t_requests a) 0) (entries_of xs)) in Hr'.
  rewrite (check_events_frame a) in Hr'. cbn in Hr'. unfold check_events in Hr'.
  rewrite length_entries. exact Hr'.
Qed.

(** *** Registering *)

Lemma replay_spec cb xs1 xs2 s a fuel p :
  rep_at (xs1 ++ xs2) s a -> segment nb_next (nb_heap s) p None xs2 -> (length xs2 < fuel)%nat ->
  exists s', replay_loop fuel cb p s = Some (tt, s')
    /\ rep_at (xs1 ++ xs2) s' (MkTable (t_entries a) (t_cb a) (t_now a)
         (t_events a ++ ((fun n => (cb, true, n)) <$> entries_of xs2)) (t_requests a) (t_num a)).
Proof.
  revert xs1 s a fuel p. induction xs2 as [|[l n] xs2 IH]; intros xs1 s a [|fuel] p Hr Hseg Hf; cbn in Hf; try lia.
  - cbn in Hseg. subst p. exists s. split; [done|]. cbn. rewrite !app_nil_r in *. by destruct a.
  - destruct Hseg as (-> & Hl & Hseg). cbn [replay_loop].
    rewrite (bind_some _ _ _ _ _ (get_neighbor_some s l n Hl)). erewrite bind_some by reflexivity.
    change (xs1 ++ (l, n) :: xs2) with (xs1 ++ [(l, n)] ++ xs2) in Hr. rewrite app_assoc in Hr.
    assert (Hr1 : rep_at ((xs1 ++ [(l, n)]) ++ xs2) (add_event (cb, true, n) s)
      (MkTable (t_entries a) (t_cb a) (t_now a) (t_events a ++ [(cb, true, strip n)]) (t_requests a) (t_num a))).
    { destruct Hr. split; try done. cbn. by rewrite fmap_app, ra_events0. }
    destruct (IH _ _ _ fuel _ Hr1 Hseg ltac:(lia)) as (s' & E & Hr'). exists s'. split; [exact E|].
    cbn in Hr'. rewrite <- !app_assoc in Hr'. exact Hr'.
Qed.

Lemma register_spec cb s a :
  represents s a ->
  exists s', bcmp_neighbor_register_discovery_callback cb s = Some (tt, s') /\ represents s' (registered cb a).
Proof.
  intros [xs Hr]. unfold bcmp_neighbor_register_discovery_callback, registered. erewrite bind_some by reflexivity.
  assert (Hr1 : rep_at ([] ++ xs) (set_discovery_cb cb s)
    (MkTable (t_entries a) cb (t_now a) (t_events a) (t_requests a) (t_num a))) by (destruct Hr; by split).
  destruct cb as [f|].
  - erewrite bind_some by reflexivity. pose proof (ra_list _ _ _ Hr) as Hs. pose proof (slist_size _ _ _ _ Hs).
    destruct (replay_spec f [] xs _ _ (walk_fuel (nb_heap s)) (NEIGHBORS s) Hr1 (sl_segment _ _ _ _ Hs))
      as (s' & E & Hr'); [unfold walk_fuel; lia|].
    exists s'. split; [exact E|]. exists xs. cbn in Hr'. by rewrite (ra_entries _ _ _ Hr) in Hr'.
  - eexists. split; [reflexivity|]. exists xs. by rewrite app_nil_r.
Qed.

(** *** Asking for information *)

Section network.
Context {St : Type} `{PartLaws neighbors St} `{BcmpApi St} `{!KeepsPart neighbors St} `{Platform}.
(** The network takes what is sent. *)
Context (tx_ok : forall dst type d n seq cb (s : St), exists s', bcmp_tx dst type d n seq cb s = Some (BmOK, s')).

Lemma tx_keeps dst type d n seq cb (s : St) :
  exists s', bcmp_tx dst type d n seq cb s = Some (BmOK, s') /\ part s' = part (T := neighbors) s.
Proof.
  destruct (tx_ok dst type d n seq cb s) as [s' E]. exists s'. split; [done|].
  pose proof (bcmp_tx_keeps (T := neighbors) dst type d n seq cb s) as Hk. unfold post in Hk. by apply (Hk BmOK s').
Qed.

Lemma create_nb s (cb : option nat) i h :
  willing (nb_os s) ->
  with_nb_os (Os.create_item cb i h) s
  = Some ((Some (fresh (dom h)), <[fresh (dom h) := MkLLItem None None (Some cb) i true]> h), s).
Proof.
  intros Hw. unfold with_nb_os, zoom. rewrite (create_item_willing cb i h _ Hw). by destruct s.
Qed.

Lemma request_info_spec xs (s : St) a id addr :
  rep_at xs (part s) a ->
  exists s', bcmp_request_info id addr None s = Some (BmOK, s') /\ rep_at xs (part s') (ask id a).
Proof.
  intros Hr. unfold bcmp_request_info. erewrite bind_some by reflexivity.
  rewrite (bind_some _ _ _ _ _ (on_part_pure _ _ _ (create_nb _ None (u32 id) _ (ra_os _ _ _ Hr)))). cbv iota.
  destruct (ll_create_add_refines _ _ _ (fresh (dom (nb_requests (part s)))) None None (Some None) (u32 id)
    (ra_requests _ _ _ Hr)) as (ll & h & E & Hll); [apply not_elem_of_dom, is_fresh|].
  rewrite bind_lift, E. cbn [mbind option_bind]. rewrite bind_lift. cbn [mbind option_bind].
  erewrite bind_some by (by apply on_part_some). cbn [unless_err is_ok].
  set (s1 := set_part _ s).
  destruct (tx_keeps addr BcmpDeviceInfoRequestMessage (native_store 8 id) 8 0 None s1) as (s2 & E2 & Hp).
  erewrite bind_some by (unfold unless_err; exact E2). exists s2. split; [done|].
  rewrite Hp. unfold s1. rewrite part_set. destruct Hr. split; try done.
  cbn. unfold info_entries. rewrite fmap_app. exact Hll.
Qed.

Lemma on_part_rep {A} (m : M neighbors A) (s : St) a t b xs :
  m (part s) = Some (a, t) -> rep_at xs t b ->
  exists s', on_part m s = Some (a, s') /\ rep_at xs (part s') b /\ part s' = t.
Proof. intros E Hr. exists (set_part t s). rewrite part_set. split; [by apply on_part_some|done]. Qed.

Lemma evicted_fmap {B} (f : BcmpNeighbor -> B) port l : NoDup (f <$> l) -> NoDup (f <$> evicted port l).
Proof.
  induction l as [|n l IH]; [done|]. rewrite fmap_cons. intros [Hn Hl]%NoDup_cons. unfold evicted.
  destruct (decide (not_port port n)) as [E|E].
  - rewrite filter_cons_True by done. rewrite fmap_cons. apply NoDup_cons. split; [|by apply IH].
    intros (m & Em & Hm)%list_elem_of_fmap. apply Hn. rewrite Em. apply (list_elem_of_fmap_2 f).
    by eapply evicted_subset.
  - rewrite filter_cons_False by done. by apply IH.
Qed.

Lemma table_ok_learn l id port :
  table_ok l -> id <> 0 -> id ∉ nb_node_id <$> l -> table_ok (evicted port l ++ [new_neighbor id port]).
Proof.
  intros [K1 K2 K3] Hid Hn.
  assert (Hsub : forall z, z ∈ nb_node_id <$> evicted port l -> z ∈ nb_node_id <$> l).
  { intros z (n & -> & Hx)%list_elem_of_fmap. apply (list_elem_of_fmap_2 nb_node_id). by eapply evicted_subset. }
  split; rewrite fmap_app; cbn.
  - apply NoDup_app. split_and!; [by apply evicted_fmap| |apply NoDup_singleton].
    intros z Hz ->%list_elem_of_singleton. by apply Hn, Hsub.
  - rewrite not_elem_of_app, list_elem_of_singleton. split; [by intros Hz%Hsub|congruence].
  - apply NoDup_app. split_and!; [by apply evicted_fmap| |apply NoDup_singleton].
    intros z (n & -> & Hx)%list_elem_of_fmap E%list_elem_of_singleton.
    unfold evicted in Hx. apply list_elem_of_filter in Hx as [Hx _]. by apply Hx.
Qed.

Lemma update_neighbor_spec xs (s : St) a id port :
  rep_at xs (part s) a -> id <> 0 ->
  exists s' xs1 l n xs2, bcmp_update_neighbor id port s = Some (Some l, s')
    /\ rep_at (xs1 ++ (l, n) :: xs2) (part s') (learn_neighbor id port a)
    /\ nb_node_id n = id /\ id ∉ ids_of xs1.
Proof.
  intros Hr Hid. unfold bcmp_update_neighbor, learn_neighbor. pose proof (ra_list _ _ _ Hr) as Hs.
  destruct (split_id xs id) as [Hn|(xs1 & l & n & xs2 & -> & <- & Hn)].
  - rewrite (bind_some _ _ _ _ _ (on_part_pure _ _ _ (find_neighbor_miss _ xs id Hs Hn))). cbv iota.
    pose proof Hn as Hw. rewrite (ra_entries _ _ _ Hr) in Hw. apply with_id_none in Hw. rewrite Hw.
    destruct (add_neighbor_spec (part s) xs id port Hs) as (p & h & xs' & l & E & Hs' & He);
      [rewrite (ra_entries _ _ _ Hr); apply Hr|done|apply Hr|].
    set (b := set_entries (evicted port (t_entries a) ++ [new_neighbor id port]) a).
    assert (Hr1 : rep_at (xs' ++ [(l, new_neighbor id port)]) (set_table p h (part s)) b).
    { rewrite (ra_entries _ _ _ Hr) in He, Hn. destruct Hr. split; try done.
      - by rewrite entries_of_app, He.
      - by apply table_ok_learn. }
    destruct (on_part_rep _ s _ _ _ _ E Hr1) as (s1 & E1 & Hr1' & _). rewrite (bind_some _ _ _ _ _ E1).
    destruct (invoke_spec _ _ _ true l (new_neighbor id port) Hr1') as (t2 & E2 & Hr2);
      [apply elem_of_app; right; by left|].
    destruct (on_part_rep _ s1 _ _ _ _ E2 Hr2) as (s2 & E2' & Hr2' & _). rewrite (bind_some _ _ _ _ _ E2').
    destruct (request_info_spec _ s2 _ id (Some multicast_ll_addr) Hr2') as (s3 & E3 & Hr3).
    rewrite (bind_some _ _ _ _ _ E3). exists s3, xs', l, (new_neighbor id port), []. split; [done|].
    split; [exact Hr3|]. split; [done|]. rewrite He, (ra_entries _ _ _ Hr).
    intros (m & -> & Hm)%list_elem_of_fmap. apply Hn. rewrite (ra_entries _ _ _ Hr).
    apply (list_elem_of_fmap_2 nb_node_id). by eapply evicted_subset.
  - pose proof (find_neighbor_hit _ xs1 l n xs2 Hs Hid Hn) as Ef.
    rewrite (bind_some _ _ _ _ _ (on_part_pure _ _ _ Ef)). cbv iota.
    pose proof (with_id_split xs1 l n xs2 Hn) as Hw. rewrite (ra_entries _ _ _ Hr) in Hw. rewrite Hw.
    by exists s, xs1, l, n, xs2.
Qed.

Lemma put_times xs1 l n xs2 s a us lease :
  rep_at (xs1 ++ (l, n) :: xs2) s a ->
  exists s', put_neighbor l (set_times us lease (t_now a) n) s = Some (tt, s')
    /\ represents s' (set_entries (change_id (nb_node_id n) (set_times us lease (t_now a)) (t_entries a)) a).
Proof.
  intros Hr. destruct (put_spec xs1 l n xs2 s a (set_times us lease (t_now a) n) Hr) as (s' & E & Hr'); try done.
  exists s'. split; [exact E|]. eexists. rewrite <- (ra_entries _ _ _ Hr), change_id_here; [exact Hr'| |done].
  rewrite (ra_entries _ _ _ Hr). apply Hr.
Qed.

Lemma heartbeat_spec (s : St) a data us lease :
  represents (part s) a -> ip_to_nodeid (Some (pd_src data)) <> 0 ->
  0 <= us < 2 ^ 64 -> 0 <= lease < 2 ^ 32 -> pd_payload data = native_store 8 us ++ native_store 4 lease ->
  exists s', bcmp_process_heartbeat data s = Some (BmOK, s')
    /\ represents (part s') (heard (ip_to_nodeid (Some (pd_src data))) (pd_ingress_port data) us lease a).
Proof.
  intros [xs Hr] Hid Hus Hle Hpay. unfold bcmp_process_heartbeat. set (id := ip_to_nodeid _) in *.
  destruct (update_neighbor_spec xs s a id (pd_ingress_port data) Hr Hid) as (s1 & xs1 & l & n & xs2 & E1 & Hr1 & Hn & Hn1).
  rewrite (bind_some _ _ _ _ _ E1). cbv iota. unfold heard.
  set (a1 := learn_neighbor id (pd_ingress_port data) a) in *.
  pose proof (with_id_split xs1 l n xs2) as Hw. rewrite Hn, (ra_entries _ _ _ Hr1) in Hw. rewrite (Hw Hn1). clear Hw.
  rewrite bind_lift, Hpay, read_at_head by (by rewrite length_native_store). cbn [mbind option_bind].
  rewrite bind_lift, <- (app_nil_r (native_store 4 lease)), read_at_app by (by rewrite length_native_store).
  cbn [mbind option_bind]. rewrite !native_load_store.
  change (256 ^ Z.of_nat 8) with (2 ^ 64). change (256 ^ Z.of_nat 4) with (2 ^ 32). rewrite !Z.mod_small by done.
  assert (Hx : (l, n) ∈ xs1 ++ (l, n) :: xs2) by (apply elem_of_app; right; left).
  pose proof (get_in_list _ _ _ _ _ (ra_list _ _ _ Hr1) Hx) as Eg.
  rewrite (bind_some _ _ _ _ _ (on_part_pure _ _ _ Eg)).
  change (online (strip n)) with (online n). change (last_time_since_boot_us (strip n)) with (last_time_since_boot_us n).
  change (nb_info (strip n)) with (nb_info n). set (reset := us <? last_time_since_boot_us n).
  set (a2 := if negb (online n) || reset then note true (strip n) a1 else a1).
  assert (Hstep2 : exists s2, when (negb (online n) || reset)
      (on_part (bcmp_neighbor_invoke_discovery_cb true l)) s1 = Some (tt, s2)
      /\ rep_at (xs1 ++ (l, n) :: xs2) (part s2) a2).
  { unfold a2. destruct (negb (online n) || reset); cbn [when]; [|by exists s1].
    destruct (invoke_spec _ _ _ true l n Hr1 Hx) as (t2 & E2 & Hr2).
    destruct (on_part_rep _ s1 _ _ _ _ E2 Hr2) as (s2 & E2' & Hr2' & _). by exists s2. }
  destruct Hstep2 as (s2 & E2 & Hr2). rewrite (bind_some _ _ _ _ _ E2).
  set (a3 := if reset then ask (native_load (take 8 (nb_info n))) a2 else a2).
  assert (Hstep3 : exists s3, when reset (_ ← bcmp_request_info (native_load (take 8 (nb_info n)))
      (Some multicast_ll_addr) None; mret tt) s2 = Some (tt, s3)
      /\ rep_at (xs1 ++ (l, n) :: xs2) (part s3) a3).
  { unfold a3. destruct reset; cbn [when]; [|by exists s2].
    destruct (request_info_spec _ s2 _ (native_load (take 8 (nb_info n))) (Some multicast_ll_addr) Hr2) as (s3 & E3 & Hr3).
    rewrite (bind_some _ _ _ _ _ E3). by exists s3. }
  destruct Hstep3 as (s3 & E3 & Hr3). rewrite (bind_some _ _ _ _ _ E3).
  pose proof (get_in_list _ _ _ _ _ (ra_list _ _ _ Hr3) Hx) as Eg3.
  rewrite (bind_some _ _ _ _ _ (on_part_pure _ _ _ Eg3)). erewrite bind_some by reflexivity.
  assert (Hnow : t_now a3 = t_now a1) by (unfold a3, a2; by destruct reset, (negb (online n))).
  rewrite (ra_now _ _ _ Hr3).
  destruct (put_times xs1 l n xs2 _ _ us lease Hr3) as (t4 & E4 & Hr4).
  erewrite bind_some by (by apply on_part_some). eexists. split; [reflexivity|].
  rewrite part_set, <- Hn. exact Hr4.
Qed.
End network.

(** ** Runs *)

Inductive nb_op : Type :=
  | OpHeartbeat (data : BcmpProcessData) (us lease : Z)
  | OpCheck
  | OpRegister (cb : option nat)
  | OpTime (ms : Z).  (** the time that the system shows from now on *)

Section runs.
Context {St : Type} `{PartLaws neighbors St} `{BcmpApi St} `{!KeepsPart neighbors St} `{Platform}.

Definition set_time (ms : Z) (s : neighbors) : neighbors :=
  set_nb_os (MkOs (os_alloc (nb_os s)) (os_wait (nb_os s)) ms) s.

Definition nb_step (o : nb_op) : M St unit :=
  match o with
  | OpHeartbeat data _ _ => _ ← bcmp_process_heartbeat data; mret tt
  | OpCheck => on_part bcmp_check_neighbors
  | OpRegister cb => on_part (bcmp_neighbor_register_discovery_callback cb)
  | OpTime ms => on_part (modify (set_time ms))
  end.

Definition nb_spec (o : nb_op) (a : table) : table :=
  match o with
  | OpHeartbeat data us lease => heard (ip_to_nodeid (Some (pd_src data))) (pd_ingress_port data) us lease a
  | OpCheck => checked a
  | OpRegister cb => registered cb a
  | OpTime ms => MkTable (t_entries a) (t_cb a) ms (t_events a) (t_requests a) (t_num a)
  end.

(** A heartbeat has a source and the bytes of a [BcmpHeartbeat]. *)
Definition nb_op_ok (o : nb_op) : Prop :=
  match o with
  | OpHeartbeat data us lease =>
      ip_to_nodeid (Some (pd_src data)) <> 0 /\ 0 <= us < 2 ^ 64 /\ 0 <= lease < 2 ^ 32
      /\ pd_payload data = native_store 8 us ++ native_store 4 lease
  | _ => True
  end.

(** The variables at the start. *)
Record fresh_neighbors (s : neighbors) : Prop := {
  fn_table : NEIGHBORS s = None;
  fn_num : NUM_NEIGHBORS s = 0;
  fn_cb : NEIGHBOR_DISCOVERY_CB s = None;
  fn_requests : INFO_REQUEST_LIST s = LL_empty;
  fn_events : nb_events s = [];
  fn_os : willing (nb_os s)
}.

Definition table_start (now : Z) : table := MkTable [] None now [] [] 0.

Lemma fresh_table s : fresh_neighbors s -> represents s (table_start (os_ticks_ms (nb_os s))).
Proof.
  intros []. exists []. split; try done.
  - rewrite fn_table0. by split; [|apply NoDup_nil_2].
  - split; [apply NoDup_nil_2|apply not_elem_of_nil|apply NoDup_nil_2].
  - by rewrite fn_events0.
  - rewrite fn_requests0. apply ll_inv_empty.
Qed.

Context (tx_ok : forall dst type d n seq cb (s : St), exists s', bcmp_tx dst type d n seq cb s = Some (BmOK, s')).

Lemma nb_step_refined o (s : St) a :
  represents (part s) a -> nb_op_ok o ->
  exists s', nb_step o s = Some (tt, s') /\ represents (part s') (nb_spec o a).
Proof.
  intros Hr Ho. destruct o as [data us lease| |cb|ms]; cbn [nb_step nb_spec].
  - destruct Ho as (O1 & O2 & O3 & O4).
    destruct (heartbeat_spec tx_ok s a data us lease Hr O1 O2 O3 O4) as (s' & E & Hr').
    exists s'. by rewrite (bind_some _ _ _ _ _ E).
  - destruct (check_neighbors_spec _ _ Hr) as (t & E & Hr'). exists (set_part t s).
    rewrite part_set. split; [by apply on_part_some|done].
  - destruct (register_spec cb _ _ Hr) as (t & E & Hr'). exists (set_part t s).
    rewrite part_set. split; [by apply on_part_some|done].
  - eexists. split; [by apply on_part_some|]. rewrite part_set. destruct Hr as [xs []]. exists xs. by split.
Qed.

(** C20: the table of neighbors.  From the start, and while there is memory and the
    network takes what is sent, every sequence of heartbeats, checks, registrations
    and passing time does on the chain in memory what it does on a list: a neighbor
    that was not known takes the place of the one on its port, is announced and asked
    for its information; one that was offline or has restarted is announced again;
    one that has not been heard of for two of its periods is reported once and goes
    offline.  The node ids in the table are distinct, none is 0, and no two
    neighbors have the same port. *)
Theorem neighbor_table (s : St) ops :
  fresh_neighbors (part s) -> Forall nb_op_ok ops ->
  let a := foldl (fun a o => nb_spec o a) (table_start (os_ticks_ms (nb_os (part s)))) ops in
  exists s', for_each ops nb_step s = Some (tt, s') /\ represents (part s') a
    /\ NoDup (nb_node_id <$> t_entries a) /\ 0 ∉ nb_node_id <$> t_entries a
    /\ NoDup (nb_port <$> t_entries a).
Proof.
  intros Hs Ho. pose proof (fresh_table _ Hs) as Hr. revert Hr. generalize (table_start (os_ticks_ms (nb_os (part s)))).
  clear Hs. revert s. induction ops as [|o ops IH]; intros s a Hr; cbn.
  - exists s. split; [done|]. split; [done|]. destruct Hr as [xs []]. by destruct ra_ok0.
  - apply Forall_cons in Ho as [Ho Hos]. destruct (nb_step_refined o s a Hr Ho) as (s1 & E & Hr1).
    rewrite (bind_some _ _ _ _ _ E). by apply IH.
Qed.
End runs.

(** ** A concrete run *)

(** A node that records what it sends. *)
#[local] Instance recording_neighbors : BcmpApi (neighbors * list (Z * bytes)) := {
  bcmp_tx _ type d _ _ _ := fun s => Some (BmOK, (fst s, snd s ++ [(type, d)]));
  packet_add _ _ := mret BmOK
}.
#[local] Instance recording_keeps : KeepsPart neighbors (neighbors * list (Z * bytes)).
Proof. split; by intros; intros a s' [= <- <-]. Qed.

Definition neighbors_zero : neighbors :=
  MkNeighbors None 0 None None 0 0 None 0 LL_empty ∅ ∅ (MkOs [] [] 0) [].

Definition sample_heartbeat_from (id port us : Z) : nb_op :=
  OpHeartbeat (MkProcessData (MkHeader 0 0 0 0 0 0 0 0) (le_enc 8 us ++ le_enc 4 10) 12
    (be_enc 4 0xFE800000 ++ be_enc 4 0 ++ be_enc 8 id) multicast_ll_addr port) us 10.

(** Two neighbors; the first is replaced by another one on its port; the second
    is silent for too long. *)
Definition sample_nb_run : list nb_op :=
  [OpRegister (Some 9%nat); sample_heartbeat_from 5 1 100; sample_heartbeat_from 6 2 100; OpTime 15000; OpCheck;
   sample_heartbeat_from 7 1 100; OpTime 20000; OpCheck; OpCheck].

Lemma neighbor_table_witness :
  exists s', @for_each _ _ sample_nb_run (@nb_step _ _ _ platform_linux) (neighbors_zero, []) = Some (tt, s')
    /\ exists xs, slist nb_next (nb_heap (fst s')) (NEIGHBORS (fst s')) xs
       /\ (fun n => (nb_node_id n, nb_port n, online n)) <$> entries_of xs = [(6, 2, false); (7, 1, true)]
    /\ (fun e => (fst e, nb_node_id (snd e))) <$> (strip_event <$> nb_events (fst s'))
       = [(9%nat, true, 5); (9%nat, true, 5); (9%nat, true, 6); (9%nat, true, 6); (9%nat, true, 7); (9%nat, true, 7);
          (9%nat, false, 6)].
Proof.
  destruct (@neighbor_table (neighbors * list (Z * bytes)) _ _ _ recording_keeps platform_linux) with
    (s := (neighbors_zero, [] : list (Z * bytes))) (ops := sample_nb_run) as (s' & E & [xs []] & _).
  - intros. by eexists.
  - by split.
  - repeat apply Forall_cons_2; try done; split_and!; first [done|vm_compute; done].
  - exists s'. split; [exact E|]. exists xs. split; [exact ra_list0|].
    change (part s') with (fst s') in *. rewrite ra_entries0, ra_events0.
    split; vm_compute; reflexivity.
Defined.

#[local] Abbreviation nb_run ops := (@for_each _ _ ops (@nb_step _ _ _ platform_linux) (neighbors_zero, [])).

(** A new neighbor is announced twice: when it is added, and again because it is not
    online yet. *)
Example new_neighbor_announced_twice :
  (fun r => (fun e => (fst e, nb_node_id (snd e))) <$> nb_events (fst (snd r)))
  <$> nb_run [OpRegister (Some 9%nat); sample_heartbeat_from 5 1 100]
  = Some [(9%nat, true, 5); (9%nat, true, 5)].
Proof. vm_compute. reflexivity. Qed.

(** A neighbor that restarts before its information has come: the node that is asked
    is the one of the information, 0, which means all nodes. *)
Example restart_asks_everyone :
  (fun r => snd (snd r)) <$> nb_run [sample_heartbeat_from 5 1 100; sample_heartbeat_from 5 1 50]
  = Some [(BcmpDeviceInfoRequestMessage, le_enc 8 5); (BcmpDeviceInfoRequestMessage, le_enc 8 0)].
Proof. vm_compute. reflexivity. Qed.

(** A neighbor that is heard on another port stays on its first one in the table, and
    the neighbor that is found there takes its place. *)
Example moved_neighbor_dropped :
  (fun r => (fun n => (nb_node_id n, nb_port n)) <$> (snd <$> map_to_list (nb_heap (fst (snd r)))))
  <$> nb_run [sample_heartbeat_from 5 1 100; sample_heartbeat_from 5 2 200; sample_heartbeat_from 6 1 100]
  = Some [(6, 1)].
Proof. vm_compute. reflexivity. Qed.
