(* ===== verification/TopologyNode.v ===== *)
(** * The topology over the module of the neighbors

    The requests for tables and the handler of the replies are those of
    src/bcmp/neighbors.c; what is sent is taken by the network. *)
From S2P Require Import Prelude Util LinkedList SList Os Packet Parts Device Neighbors Topology TopologyTable TopologyList TopologyWalk TopologyLine NeighborTable.

Definition explorer : Type := topology * neighbors.

#[export] Instance explorer_neighbors : Part neighbors explorer :=
  { part s := snd s; set_part t s := (fst s, t) }.
#[export] Instance explorer_neighbors_laws : PartLaws neighbors explorer.
Proof. by split; intros; repeat match goal with x : explorer |- _ => destruct x end. Qed.

#[export] Instance explorer_api : BcmpApi explorer :=
  { bcmp_tx _ _ _ _ _ _ := mret BmOK; packet_add _ _ := mret BmOK }.

(** A message with a table. *)
Definition table_message (table : bytes) : BcmpProcessData :=
  MkProcessData (MkHeader BcmpNeighborTableReplyMessage 0 0 0 0 0 0 0) table (Z.of_nat (length table))
    (replicate 16 0) (replicate 16 0) 1.

Lemma neighbors_call {A} (m : M neighbors A) t n a n' :
  m n = Some (a, n') -> on_part (St := explorer) m (t, n) = Some (a, (t, n')).
Proof. intros E. unfold on_part, zoom. cbn. by rewrite E. Qed.

Lemma topology_call {A} (m : M topology A) t n a t' :
  m t = Some (a, t') -> on_part (St := explorer) m (t, n) = Some (a, (t', n)).
Proof. intros E. unfold on_part, zoom. cbn. by rewrite E. Qed.

Section node.
Context `{Platform} (request timeout : nat) (own : list (loc * BcmpNeighbor)).

(** The callback that [bcmp_request_neighbor_table] was given. *)
Definition call_table_cb (cb : nat) (table : bytes) : M explorer BmErr :=
  if decide (cb = request) then on_part (T := topology) (neighbor_request_cb table) else mret BmOK.

(** The neighbors' chain is [own], and none of them is late. *)
Record explorer_ready (s : explorer) : Prop := {
  er_list : slist nb_next (nb_heap (snd s)) (NEIGHBORS (snd s)) own;
  er_online : Forall (fun x => late (os_ticks_ms (nb_os (snd s))) (snd x) = false) own;
  er_length : (length own <= 255)%nat;
  er_os : willing (nb_os (snd s));
  er_timer : NEIGHBOR_REQUEST_CB (snd s) = None
             \/ NEIGHBOR_REQUEST_CB (snd s) = Some request /\ is_Some (NEIGHBOR_TIMER (snd s))
}.

#[export] Instance explorer_network : TableNetwork explorer := {
  table_reply table := bcmp_process_neighbor_table_reply call_table_cb (table_message table);
  asked s := match NEIGHBOR_REQUEST_CB (snd s) with Some _ => Some (TARGET_NODE_ID (snd s)) | None => None end;
  ready := explorer_ready
}.

(** Nobody is late: only the number of the neighbors is computed anew. *)
Lemma check_none_late s xs :
  slist nb_next (nb_heap s) (NEIGHBORS s) xs ->
  Forall (fun x => late (os_ticks_ms (nb_os s)) (snd x) = false) xs -> (length xs <= 255)%nat ->
  bcmp_check_neighbors s = Some (tt, set_num (Z.of_nat (length xs)) s).
Proof.
  intros Hs Hon Hlen. unfold bcmp_check_neighbors, bcmp_neighbor_foreach. erewrite bind_some by reflexivity.
  erewrite bind_some by reflexivity. pose proof (slist_size _ _ _ _ Hs) as Hsz. destruct Hs as [Hs _].
  assert (Hf : (length xs < walk_fuel (nb_heap s))%nat) by (unfold walk_fuel; lia). clear Hsz.
  assert (Hgo : forall fuel m p, segment nb_next (nb_heap s) p None xs -> (length xs < fuel)%nat ->
    (m + length xs <= 255)%nat ->
    foreach_loop fuel neighbor_check p (set_num (Z.of_nat m) s) = Some (tt, set_num (Z.of_nat (m + length xs)) s)).
  2: exact (Hgo _ 0%nat _ Hs Hf Hlen).
  clear Hs Hf Hlen. induction xs as [|[l n] xs IH]; intros [|fuel] m p Hs Hf Hm; cbn [length] in Hf, Hm; try lia.
  - cbn in Hs. subst p. by rewrite Nat.add_0_r.
  - apply Forall_cons in Hon as [Hn Hon]. destruct Hs as (-> & Hl & Hs). cbn [foreach_loop].
    assert (Hc : neighbor_check l (set_num (Z.of_nat m) s) = Some (tt, set_num (Z.of_nat m) s)).
    { unfold neighbor_check. erewrite bind_some by (by apply get_neighbor_some). erewrite bind_some by reflexivity.
      cbn [snd] in Hn. unfold late in Hn. cbn [set_num nb_os]. by rewrite Hn. }
    rewrite (bind_some _ _ _ _ _ Hc). erewrite bind_some by reflexivity. cbn [set_num NUM_NEIGHBORS].
    erewrite bind_some by (by apply get_neighbor_some). rewrite u8_small by lia.
    replace (Z.of_nat m + 1) with (Z.of_nat (S m)) by lia.
    etransitivity; [exact (IH Hon fuel (S m) (nb_next n) Hs ltac:(lia) ltac:(lia))|]. do 3 f_equal. cbn [length]. lia.
Qed.

Lemma timer_spec running n t :
  willing (nb_os n) -> NEIGHBOR_TIMER n = Some t ->
  timer_command running n
  = Some (BmOK, set_request (NEIGHBOR_REQUEST_CB n) (TARGET_NODE_ID n) (Some (MkRequestTimer (rt_timeout t) running)) n).
Proof.
  intros [_ Hw] Ht. unfold timer_command. erewrite bind_some by reflexivity. rewrite Ht.
  assert (E : with_nb_os wait_ok n = Some (true, n)).
  { unfold with_nb_os, zoom, wait_ok. rewrite Hw. destruct n as [? ? ? ? ? ? ? ? ? ? ? [a b c] ?]; cbn in Hw; by subst. }
  by rewrite (bind_some _ _ _ _ _ E).
Qed.

#[export] Instance explorer_laws : TableNetworkLaws explorer request timeout own.
Proof.
  split.
  - done.
  - intros t s []. by split.
  - intros [t n] [Hl Ho Hlen Hos Htm] Ha. cbn [snd] in *. exists (t, set_num (Z.of_nat (length own)) n). split; [|by split].
    unfold own_neighbors, neighbors_tables.
    assert (E : ('(neighbor, num) ← bcmp_get_neighbors; s ← get; ns ← lift (nodes nb_next (nb_heap s) neighbor);
      mret (ns, num)) n = Some ((own, Z.of_nat (length own)), set_num (Z.of_nat (length own)) n)).
    { unfold bcmp_get_neighbors. rewrite bind_assoc, (bind_some _ _ _ _ _ (check_none_late n own Hl Ho Hlen)).
      unfold mbind, M_bind, get, lift. cbn -[nodes]. by rewrite (nodes_spec _ _ _ _ Hl). }
    exact (neighbors_call _ t n _ _ E).
  - intros id [t n] [Hl Ho Hlen Hos Htm] Ha. cbn [snd] in *.
    set (n1 := set_request (NEIGHBOR_REQUEST_CB n) id (Some (MkRequestTimer (Some timeout) false)) n).
    set (n2 := set_request (NEIGHBOR_REQUEST_CB n) id (Some (MkRequestTimer (Some timeout) true)) n).
    exists (t, set_request (Some request) id (Some (MkRequestTimer (Some timeout) true)) n). split; [|split; [done|]].
    + unfold request_neighbor_table, neighbors_tables, bcmp_request_neighbor_table.
      erewrite bind_some by reflexivity.
      set (n0 := set_request (NEIGHBOR_REQUEST_CB n) id None n).
      rewrite (bind_some _ _ _ _ _ (neighbors_call (with_nb_os malloc_ok) t n0 true n0 (malloc_nb n0 Hos))).
      erewrite bind_some by reflexivity.
      rewrite (bind_some _ _ _ _ _ (neighbors_call _ t n1 _ n2 (timer_spec true n1 _ Hos eq_refl))). done.
    + split; [|done]. split; try done. by right.
  - intros id table [t n] e t' [Hl Ho Hlen Hos Htm] Ha Hid Hcb. cbn [snd asked explorer_network] in *.
    destruct Htm as [E|[E [tm Etm]]]; rewrite E in Ha; [done|]. injection Ha as Ha.
    unfold table_reply, explorer_network, bcmp_process_neighbor_table_reply. cbn [pd_payload table_message].
    unfold table_node_id in Hid. destruct (read_at 0 8 table) as [w|] eqn:Ew; [|done]. injection Hid as Hid.
    rewrite bind_lift. cbn [mbind option_bind]. erewrite bind_some by reflexivity. cbn [part explorer_neighbors snd].
    rewrite Ha, Hid, Z.eqb_refl.
    rewrite (bind_some _ _ _ _ _ (neighbors_call _ t n _ _ (timer_spec false n tm Hos Etm))). rewrite E.
    unfold unless_err. cbn [is_ok]. unfold call_table_cb. rewrite decide_True by done.
    rewrite (bind_some _ _ _ _ _ (topology_call (neighbor_request_cb table) t _ _ _ Hcb)).
    erewrite bind_some by reflexivity. eexists. split; [reflexivity|]. split; [done|]. split; [|done].
    split; try done. by left.
Qed.
End node.

(** ** A line of four nodes *)

(** Node 7 with its neighbors 9 and 5; behind 9 hangs 11. *)
Definition line_cfg : DeviceCfg := MkDeviceCfg 7 0 None None 0 0 0 0 0 0 (replicate 16 0).
Definition line_own : list (loc * BcmpNeighbor) :=
  [(1%positive, MkNeighbor (Some 2%positive) 9 2 0 0 10 true [] None None);
   (2%positive, MkNeighbor None 5 1 0 0 10 true [] None None)].
Definition line_up (p : nat) : bool := bool_decide (p < 2)%nat.
Definition line_port_state (p : Z) : M explorer bool := mret (line_up (Z.to_nat p)).
Definition line_junk (_ : nat) : Z := 90.
Definition line_tables (id : Z) : NodeTable :=
  if id =? 7 then own_node_table line_cfg line_junk line_up 3 line_own
  else if id =? 9 then MkNodeTable 9 [(1, 0); (0, 0); (1, 0)] [(11, 3, 1); (7, 1, 1)]
  else if id =? 5 then MkNodeTable 5 [(1, 0)] [(7, 1, 1)]
  else MkNodeTable 11 [(0, 0); (1, 0)] [(9, 2, 0)].
Definition line_topology : topology :=
  MkTopology None None false None 3 false false false 0 ∅ (MkOs [] [] 0) [].
Definition line_neighbors : neighbors :=
  MkNeighbors (Some 1%positive) 2 None None 0 3 None 0 (MkLL None None None)
    (<[1%positive := MkNeighbor (Some 2%positive) 9 2 0 0 10 true [] None None]>
      (<[2%positive := MkNeighbor None 5 1 0 0 10 true [] None None]> ∅)) ∅ (MkOs [] [] 0) [].

Lemma line_good id : id ∈ [5; 7; 9; 11] -> good line_tables id.
Proof.
  intros Hid. repeat (apply elem_of_cons in Hid as [->|Hid]); [..|by apply not_elem_of_nil in Hid].
  all: split; [split|done|]; apply (bool_decide_eq_true_1 _); vm_compute; reflexivity.
Qed.

Lemma line_hangs : hangs line_tables [5; 7; 9; 11].
Proof.
  intros m1 id m2 E. destruct m1 as [|a1 [|a2 [|a3 [|a4 [|]]]]]; simplify_eq/=; try reflexivity; try apply Permutation_swap.
Qed.

#[local] Instance line_platform : Platform := platform_linux.
#[local] Instance line_network : TableNetwork explorer := explorer_network 21%nat line_own.

Lemma topology_of_line_witness :
  exists s1 n s2 ids, on_part (bcmp_topology_start (Some 4%nat)) (line_topology, line_neighbors) = Some (BmOK, s1)
    /\ explore line_cfg line_port_state 21%nat 22%nat line_junk line_tables (fun _ => []) n s1 = Some (true, s2)
    /\ (ids = [5; 7; 9; 11] \/ ids = reverse [5; 7; 9; 11])
    /\ topology_told line_topology 4%nat ids (fst s2).
Proof.
  apply (@topology_of_line explorer _ _ _ line_network line_platform line_cfg line_port_state
    21%nat 22%nat line_junk line_own (explorer_laws 21%nat 22%nat line_own) line_tables (fun _ => []) line_up
    ltac:(intros p s; unfold line_port_state; by rewrite Nat2Z.id) [5] [9; 11] 4%nat (line_topology, line_neighbors)).
  - by split.
  - split; [|by repeat (apply List.Forall_cons; [vm_compute; reflexivity|]); apply List.Forall_nil|cbn; lia|done|by left].
    split; [by cbn|]. cbn. apply (bool_decide_eq_true_1 _). vm_compute. reflexivity.
  - done.
  - done.
  - apply Forall_forall. intros id Hid. by apply line_good.
  - apply line_hangs.
  - apply (bool_decide_eq_true_1 _). vm_compute. reflexivity.
  - apply (bool_decide_eq_true_1 _). vm_compute. reflexivity.
  - cbn. lia.
Defined.

(** ** What goes wrong *)

(** A timeout that was queued before the end of the run is handled after it: the task
    never rests again. *)
Definition timeout_after_end : topology :=
  set_topo_queue (Some [MkTopoItem BcmpTopoEvtTimeout None None]) line_topology.

Example late_timeout_spins n :
  exists s, fst s = set_topo_queue (Some [MkTopoItem BcmpTopoEvtCheckNode None None]) (set_retry_count 1 line_topology)
    /\ explore line_cfg line_port_state 21%nat 22%nat line_junk line_tables (fun _ => []) (S n)
         ((timeout_after_end, line_neighbors) : explorer) = Some (false, s).
Proof.
  exists (set_topo_queue (Some [MkTopoItem BcmpTopoEvtCheckNode None None]) (set_retry_count 1 line_topology), line_neighbors).
  split; [done|]. cbn [explore]. erewrite bind_some by reflexivity. cbv iota. by apply check_spins_on.
Qed.

(** A topology whose list is one entry with this table. *)
Definition listing (table : bytes) : topology :=
  set_run true (Some 4%nat) true
    (set_network (Some (MkNetworkTopology (Some 1%positive) (Some 1%positive) (Some 1%positive) 1 0))
       {[1%positive := MkEntry None None 0 true table]} (set_topo_queue (Some []) line_topology)).

(** A neighbor on port 0: the state of port 255 is looked up, behind the table. *)
Example port_zero_outside :
  network_topology_check_all_ports_explored
    (listing (table_bytes (MkNodeTable 7 [(1, 0)] [(9, 0, 1)]))) = None.
Proof. vm_compute. reflexivity. Qed.

(** The counter of the neighbors has eight bits, their number sixteen: behind 256 known
    neighbors the search starts again. *)
Example known_neighbors_loop :
  network_topology_check_neighbor_node_ids
    (listing (table_bytes (MkNodeTable 7 [(1, 0)] (replicate 300 (7, 1, 1))))) = None.
Proof. vm_compute. reflexivity. Qed.

(** The numbers in a reply are not compared with its size. *)
Example short_reply_read :
  neighbor_request_cb (table_head (MkNodeTable 9 [] [(7, 1, 1)])) (listing (table_bytes (MkNodeTable 7 [] []))) = None.
Proof. vm_compute. reflexivity. Qed.

(** The size of the copy has sixteen bits: of a table with 6553 neighbors five bytes
    are kept, and the node's id is read behind them. *)
Example wrapped_size_read :
  match neighbor_request_cb (native_store 8 9 ++ [0] ++ native_store 2 6553) (listing (table_bytes (MkNodeTable 7 [] []))) with
  | Some (BmOK, t) =>
      match topo_queue t with Some [MkTopoItem BcmpTopoEvtAddNode (Some l) None] => add_node (Some l) t = None | _ => False end
  | _ => False
  end.
Proof. vm_compute. reflexivity. Qed.

(** A second request while a run is under way needs a callback: [item.callback(NULL)]. *)
Example busy_without_callback :
  process_item line_cfg line_port_state 21%nat 22%nat line_junk (MkTopoItem BcmpTopoEvtStart None None)
    ((listing [], line_neighbors) : explorer) = None.
Proof. vm_compute. reflexivity. Qed.

(** The first entry that is put before nothing: the index is 1, one behind the last. *)
Example prepend_counts_twice :
  match network_topology_prepend 1%positive
    (set_network (Some (MkNetworkTopology None None None 0 (-1))) {[1%positive := MkEntry None None 0 true []]} line_topology) with
  | Some (_, t) => nt_index <$> network_topology t = Some 1
  | None => False
  end.
Proof. vm_compute. reflexivity. Qed.
