(* ===== verification/AlignedMalloc.v ===== *)
(** * Aligned memory: src/common/aligned_malloc.c

    Memory at an address that is a multiple of a power of two, inside of a larger block;
    the distance to the block's start is kept in the two bytes before it. *)
From S2P Require Import Prelude Util.

(** Blocks with their sizes, and the bytes at addresses. *)
Record memory : Type := MkMemory { blocks : gmap Z Z; cells : gmap Z Z }.

Definition sizeof_offset_t : Z := 2.

Section aligned.
Context `{Platform}.

Definition align_up (num align : Z) : Z := Z.land (usize (num + (align - 1))) (Z.lnot (align - 1)).

(** Two bytes of a block; [None]: they are not all inside of one. *)
Definition store_offset (base ptr offset : Z) (m : memory) : option memory :=
  n ← blocks m !! base;
  if (base <=? ptr) && (ptr + 2 <=? base + n) then
    match native_store 2 offset with
    | [a; b] => Some (MkMemory (blocks m) (<[ptr := a]> (<[ptr + 1 := b]> (cells m))))
    | _ => None
    end
  else None.

Definition load_offset (ptr : Z) (m : memory) : option Z :=
  a ← cells m !! ptr;
  b ← cells m !! (ptr + 1);
  Some (native_load [a; b]).

(** [p]: what [bm_malloc] returns.  The result is [None] for [NULL]. *)
Definition aligned_malloc (align size : Z) (p : option Z) (m : memory) : option (option Z * memory) :=
  if negb (align =? 0) && negb (size =? 0) && (Z.land align (align - 1) =? 0) then
    let hdr_size := u32 (sizeof_offset_t + (align - 1)) in
    match p with
    | None => Some (None, m)
    | Some p =>
        let m := MkMemory (<[p := usize (size + hdr_size)]> (blocks m)) (cells m) in
        let ptr := align_up (usize (p + sizeof_offset_t)) align in
        m ← store_offset p (ptr - sizeof_offset_t) (u16 (usize (ptr - p))) m;
        Some (Some ptr, m)
    end
  else Some (None, m).

(** [bm_free]; only blocks can be freed. *)
Definition free_block (p : Z) (m : memory) : option memory :=
  _ ← blocks m !! p;
  Some (MkMemory (delete p (blocks m)) (cells m)).

Definition aligned_free (ptr : option Z) (m : memory) : option memory :=
  match ptr with
  | None => Some m
  | Some ptr =>
      offset ← load_offset (ptr - sizeof_offset_t) m;
      free_block (usize (ptr - offset)) m
  end.

(** ** Where the memory is *)

Lemma align_up_spec num k :
  0 <= k -> 0 <= num -> num + 2 ^ k <= 2 ^ size_t_bits ->
  align_up num (2 ^ k) mod 2 ^ k = 0 /\ num <= align_up num (2 ^ k) < num + 2 ^ k.
Proof.
  intros Hk Hn Hb. pose proof (Z.pow_pos_nonneg 2 k ltac:(lia) Hk) as Hp.
  unfold align_up, usize. rewrite wrap_small by lia.
  rewrite <- Z.ldiff_land. replace (2 ^ k - 1) with (Z.ones k) by (rewrite Z.ones_equiv; lia).
  rewrite Z.ldiff_ones_r, Z.shiftl_mul_pow2, Z.shiftr_div_pow2 by lia.
  set (x := num + (2 ^ k - 1)). pose proof (Z.div_mod x (2 ^ k) ltac:(lia)) as E.
  pose proof (Z.mod_pos_bound x (2 ^ k) Hp) as Hm.
  replace (num + Z.ones k) with x by (unfold x; rewrite Z.ones_equiv; lia).
  split; [apply Z.mod_mul; lia|]. unfold x in *. lia.
Qed.

Lemma pow_no_common k : 0 <= k -> Z.land (2 ^ k) (2 ^ k - 1) = 0.
Proof.
  intros Hk. replace (2 ^ k - 1) with (Z.ones k) by (rewrite Z.ones_equiv; lia). rewrite Z.land_ones by lia. apply Z.mod_same. lia.
Qed.

(** What a program may do to the memory before it frees it: it writes to its own bytes,
    and leaves the block. *)
Definition used (base ptr size : Z) (m m' : memory) : Prop :=
  blocks m' !! base = blocks m !! base
  /\ (forall a, (a < ptr \/ ptr + size <= a) -> cells m' !! a = cells m !! a).

(** C37: aligned memory is aligned, inside of its block, and freed with it.  For an
    alignment of [2 ^ k] with [k] up to 15, and a block that does not wrap around the end
    of the address space, the address is a multiple of the alignment, the block has room
    for the distance before it and for all the bytes behind it; and whatever the program
    does with its bytes, [aligned_free] frees exactly the block. *)
Theorem aligned_round_trip k size p m :
  0 <= k <= 15 -> 0 < size -> 0 <= p -> 32 <= size_t_bits -> p + size + 2 ^ k + 1 < 2 ^ size_t_bits ->
  exists ptr m1,
    aligned_malloc (2 ^ k) size (Some p) m = Some (Some ptr, m1)
    /\ ptr mod 2 ^ k = 0 /\ p + sizeof_offset_t <= ptr
    /\ blocks m1 = <[p := size + 2 ^ k + 1]> (blocks m) /\ ptr + size <= p + (size + 2 ^ k + 1)
    /\ forall m2, used p ptr size m1 m2 ->
         aligned_free (Some ptr) m2 = Some (MkMemory (delete p (blocks m2)) (cells m2)).
Proof.
  intros Hk Hs Hp Hb Hw. assert (H2 : 0 < 2 ^ k <= 2 ^ 15).
  { split; [apply Z.pow_pos_nonneg; lia|apply Z.pow_le_mono_r; lia]. }
  assert (E15 : 2 ^ 15 = 32768) by done. assert (E16 : 2 ^ 16 = 65536) by done.
  assert (Hpow : 2 ^ 32 <= 2 ^ size_t_bits) by (apply Z.pow_le_mono_r; lia).
  destruct (align_up_spec (p + 2) k) as [Hm Hr]; [lia..|]. set (ptr := align_up (p + 2) (2 ^ k)) in *.
  unfold aligned_malloc. rewrite pow_no_common by lia.
  destruct (Z.eqb_spec (2 ^ k) 0); [lia|]. destruct (Z.eqb_spec size 0); [lia|]. cbn [negb andb].
  change (0 =? 0) with true. cbv iota. unfold sizeof_offset_t.
  rewrite u32_small by lia. replace (size + (2 + (2 ^ k - 1))) with (size + 2 ^ k + 1) by lia.
  unfold usize. rewrite !(wrap_small size_t_bits) by lia. fold ptr.
  rewrite u16_small by lia. unfold store_offset. cbn [blocks cells]. rewrite lookup_insert_eq. cbn [mbind option_bind].
  destruct (Z.leb_spec p (ptr - 2)); [|lia]. destruct (Z.leb_spec (ptr - 2 + 2) (p + (size + 2 ^ k + 1))); [|lia]. cbn [andb].
  pose proof (length_native_store 2 (ptr - p)) as Hl. pose proof (native_load_store 2 (ptr - p)) as Hload.
  change (256 ^ Z.of_nat 2) with 65536 in Hload. rewrite Z.mod_small in Hload by lia.
  destruct (native_store 2 (ptr - p)) as [|a [|b [|]]]; try done. cbn [mbind option_bind].
  eexists ptr, _. split; [reflexivity|]. split; [done|]. split; [lia|]. split; [done|]. split; [lia|].
  intros m2 [Hblk Hcell]. unfold aligned_free, load_offset, sizeof_offset_t.
  rewrite !Hcell by lia. cbn [cells]. rewrite lookup_insert_eq. cbn [mbind option_bind].
  replace (ptr - 2 + 1) with (ptr - 1) by lia. rewrite lookup_insert_ne by lia. rewrite lookup_insert_eq. cbn [mbind option_bind].
  rewrite Hload. unfold free_block, usize. rewrite (wrap_small size_t_bits) by lia.
  replace (ptr - (ptr - p)) with p by lia. rewrite Hblk. cbn [blocks]. by rewrite lookup_insert_eq.
Qed.
End aligned.

(** The memory for a frame of 100 bytes, at an address that is not aligned. *)
Lemma aligned_round_trip_witness :
  let P := platform_mcu in
  exists ptr m1,
    aligned_malloc (2 ^ 2) 100 (Some 1001) (MkMemory ∅ ∅) = Some (Some ptr, m1)
    /\ ptr mod 2 ^ 2 = 0 /\ 1001 + sizeof_offset_t <= ptr
    /\ blocks m1 = <[1001 := 100 + 2 ^ 2 + 1]> (blocks (MkMemory ∅ ∅)) /\ ptr + 100 <= 1001 + (100 + 2 ^ 2 + 1)
    /\ forall m2, used 1001 ptr 100 m1 m2 ->
         aligned_free (Some ptr) m2 = Some (MkMemory (delete 1001 (blocks m2)) (cells m2)).
Proof. intros P. apply (aligned_round_trip 2 100 1001 (MkMemory ∅ ∅)); cbn; lia. Defined.

(** With an alignment of 65,536 the distance does not always fit its two bytes: here it
    is 65,537, and what is freed is not the block. *)
Example distance_too_long :
  (let P := platform_mcu in
   '(ptr, m) ← aligned_malloc (2 ^ 16) 100 (Some 65535) (MkMemory ∅ ∅);
   Some (ptr, aligned_free ptr m)) = Some (Some 131072, None).
Proof. by vm_compute. Qed.

(** An alignment that is not a power of two is refused. *)
Example no_power_of_two :
  (let P := platform_mcu in fst <$> aligned_malloc 12 100 (Some 1000) (MkMemory ∅ ∅)) = Some None.
Proof. by vm_compute. Qed.
