(* ===== verification/Pcap.v ===== *)
(** * Packet capture: src/common/pcap.c

    Frames are written as records of a capture file, through a function of the
    application.  A reader of such files, written after their description, finds the frames
    again; but a record is two calls of that function. *)
From S2P Require Import Prelude Util.

Record PcapHeader : Type := MkPcapHeader {
  magic_number : Z; version_major : Z; version_minor : Z; thiszone : Z; sigfigs : Z; snaplen : Z; network : Z
}.
Record PcapRecordHeader : Type := MkPcapRecordHeader { ts_sec : Z; ts_usec : Z; incl_len : Z; orig_len : Z }.

(** [written]: the calls of the function, which is a number, with its context and the
    bytes.  [pc_ticks_ms]: [bm_ticks_to_ms(bm_get_tick_count())]. *)
Record pcap : Type := MkPcap {
  s_write_cb : option nat;
  s_write_ctx : nat;
  written : list (nat * nat * bytes);
  pc_ticks_ms : Z
}.

Definition pcap_zero : pcap := MkPcap None 0 [] 0.
Definition set_pc_ticks (ms : Z) (s : pcap) : pcap := MkPcap (s_write_cb s) (s_write_ctx s) (written s) ms.

Section pcap.
Context `{Platform}.

(** The packed structures, as they are in memory. *)
Definition pcap_header_bytes (h : PcapHeader) : bytes :=
  native_store 4 (magic_number h) ++ native_store 2 (version_major h) ++ native_store 2 (version_minor h)
  ++ native_store 4 (thiszone h) ++ native_store 4 (sigfigs h) ++ native_store 4 (snaplen h)
  ++ native_store 4 (network h).
Definition record_header_bytes (r : PcapRecordHeader) : bytes :=
  native_store 4 (ts_sec r) ++ native_store 4 (ts_usec r) ++ native_store 4 (incl_len r) ++ native_store 4 (orig_len r).

Definition pcap_header : PcapHeader := MkPcapHeader 0xA1B2C3D4 2 4 0 0 65535 1.

(** [s_write_cb(data, len, s_write_ctx)] *)
Definition write_out (data : bytes) : M pcap unit :=
  s ← get;
  f ← lift (s_write_cb s);
  modify (fun s => MkPcap (s_write_cb s) (s_write_ctx s) (written s ++ [(f, s_write_ctx s, data)]) (pc_ticks_ms s)).

Definition pcap_init (write_cb : option nat) (ctx : nat) : M pcap unit :=
  _ ← modify (fun s => MkPcap write_cb ctx (written s) (pc_ticks_ms s));
  write_out (pcap_header_bytes pcap_header).

(** The two pieces of a record. *)
Definition record_pieces (frame : bytes) (len : Z) (ms : Z) : list bytes :=
  [record_header_bytes (MkPcapRecordHeader (ms / 1000) (ms mod 1000 * 1000) (u32 len) (u32 len)); frame].

(** [frame]: the memory behind the pointer. *)
Definition pcap_write_packet (frame : option bytes) (len : Z) : M pcap unit :=
  s ← get;
  match s_write_cb s, frame with
  | Some _, Some b =>
      if len =? 0 then mret tt
      else
        d ← lift (read_at 0 (Z.to_nat len) b);
        for_each (record_pieces d len (pc_ticks_ms s)) write_out
  | _, _ => mret tt
  end.
End pcap.

(** ** A reader of capture files

    The byte order is known from the number at the beginning. *)
Record captured : Type := MkCaptured { cp_header : PcapRecordHeader; cp_frame : bytes }.

Fixpoint read_records (num : bytes -> Z) (fuel : nat) (l : bytes) : option (list captured) :=
  match fuel, l with
  | _, [] => Some []
  | O, _ => None
  | S fuel, _ =>
      h ← read_at 0 16 l;
      let r := MkPcapRecordHeader (num (slice 0 4 h)) (num (slice 4 4 h)) (num (slice 8 4 h)) (num (slice 12 4 h)) in
      let n := Z.to_nat (incl_len r) in
      d ← read_at 16 n l;
      rest ← read_records num fuel (drop (16 + n) l);
      Some (MkCaptured r d :: rest)
  end.

Definition byte_order (magic : bytes) : option (bytes -> Z) :=
  if le_dec magic =? 0xA1B2C3D4 then Some le_dec
  else if be_dec magic =? 0xA1B2C3D4 then Some be_dec else None.

(** The version and the kind of link have to be known. *)
Definition read_capture (l : bytes) : option (list captured) :=
  h ← read_at 0 24 l;
  num ← byte_order (slice 0 4 h);
  if (num (slice 4 2 h) =? 2) && (num (slice 6 2 h) =? 4) && (num (slice 20 4 h) =? 1)
  then read_records num (length l) (drop 24 l) else None.

(** ** What is written *)

(** A task sets the time and writes a frame. *)
Record capture_op : Type := MkCaptureOp { op_ms : Z; op_frame : option bytes; op_len : Z }.

Definition op_ok (o : capture_op) : Prop :=
  0 <= op_ms o < 2 ^ 32 /\ 0 <= op_len o < 2 ^ 32
  /\ match op_frame o with Some b => op_len o <= Z.of_nat (length b) | None => True end.

#[export] Instance op_ok_dec o : Decision (op_ok o).
Proof. unfold op_ok. destruct (op_frame o); apply _. Defined.

(** The record of a frame that there is. *)
Definition capture_of (o : capture_op) : option captured :=
  match op_frame o with
  | Some b =>
      if op_len o =? 0 then None
      else Some (MkCaptured (MkPcapRecordHeader (op_ms o / 1000) (op_ms o mod 1000 * 1000) (op_len o) (op_len o))
                   (take (Z.to_nat (op_len o)) b))
  | None => None
  end.

Definition stream (s : pcap) : bytes := concat (snd <$> written s).

Section streams.
Context `{Platform}.

Definition write_all (ops : list capture_op) : M pcap unit :=
  for_each ops (fun o => _ ← modify (set_pc_ticks (op_ms o)); pcap_write_packet (op_frame o) (op_len o)).

Definition num : bytes -> Z := if little_endian then le_dec else be_dec.

Lemma num_stored n z : 0 <= z < 256 ^ Z.of_nat n -> num (native_store n z) = z.
Proof.
  intros Hz. unfold num, native_store. destruct little_endian; [rewrite le_dec_enc|rewrite be_dec_enc];
    by apply Z.mod_small.
Qed.

(** The bytes of a record. *)
Definition record_bytes (c : captured) : bytes := record_header_bytes (cp_header c) ++ cp_frame c.

Definition captured_ok (c : captured) : Prop :=
  0 <= ts_sec (cp_header c) < 2 ^ 32 /\ 0 <= ts_usec (cp_header c) < 2 ^ 32
  /\ incl_len (cp_header c) = Z.of_nat (length (cp_frame c)) /\ 0 <= incl_len (cp_header c) < 2 ^ 32
  /\ 0 <= orig_len (cp_header c) < 2 ^ 32.

Lemma length_record_header r : length (record_header_bytes r) = 16%nat.
Proof. unfold record_header_bytes. by rewrite !length_app, !length_native_store. Qed.

Lemma record_header_read r :
  0 <= ts_sec r < 2 ^ 32 -> 0 <= ts_usec r < 2 ^ 32 -> 0 <= incl_len r < 2 ^ 32 -> 0 <= orig_len r < 2 ^ 32 ->
  let h := record_header_bytes r in
  num (slice 0 4 h) = ts_sec r /\ num (slice 4 4 h) = ts_usec r
  /\ num (slice 8 4 h) = incl_len r /\ num (slice 12 4 h) = orig_len r.
Proof.
  intros H1 H2 H3 H4. unfold record_header_bytes, slice. cbn zeta.
  rewrite <- (num_stored 4 (ts_sec r)) at 2 by done. rewrite <- (num_stored 4 (ts_usec r)) at 3 by done.
  rewrite <- (num_stored 4 (incl_len r)) at 4 by done. rewrite <- (num_stored 4 (orig_len r)) at 5 by done.
  pose proof (fun z => length_native_store 4 z) as Hl. repeat split; f_equal.
  all: repeat (rewrite drop_app_ge by (rewrite Hl; lia); rewrite Hl; cbn [Nat.sub]); rewrite drop_0, ?take_app_length'; auto.
  by rewrite take_ge by (by rewrite Hl).
Qed.

Lemma read_records_all cs fuel :
  Forall captured_ok cs -> (length cs <= fuel)%nat ->
  read_records num fuel (concat (record_bytes <$> cs)) = Some cs.
Proof.
  revert fuel. induction cs as [|c cs IH]; intros fuel Hok Hf; [by destruct fuel|].
  apply Forall_cons in Hok as [(H1 & H2 & H3 & H4 & H5) Hok]. destruct fuel as [|fuel]; [cbn in Hf; lia|].
  destruct (record_header_read (cp_header c)) as (E1 & E2 & E3 & E4); [done..|].
  cbn [fmap list_fmap concat]. unfold record_bytes at 1. rewrite <- app_assoc.
  pose proof (length_record_header (cp_header c)) as Hl. cbn [read_records].
  destruct (record_header_bytes (cp_header c) ++ _) as [|b l'] eqn:E.
  { apply app_eq_nil in E as [E _]. rewrite E in Hl. done. }
  rewrite <- E. clear E b l'. rewrite read_at_head by done. cbn [mbind option_bind].
  rewrite E1, E2, E3, E4. cbn [incl_len]. rewrite H3, Nat2Z.id.
  rewrite (read_at_app _ _ _ 16) by done. cbn [mbind option_bind].
  rewrite (app_assoc _ (cp_frame c)), drop_app_length' by (rewrite length_app, Hl; lia).
  rewrite IH by (done || cbn in Hf; lia). cbn. destruct c as [[a1 a2 a3 a4] f]. cbn in *. by subst.
Qed.

(** What is written to one function with one context. *)
Definition written_to (f ctx : nat) (pieces : list bytes) : list (nat * nat * bytes) :=
  (fun d => (f, ctx, d)) <$> pieces.

Lemma pieces_written f ds s :
  s_write_cb s = Some f ->
  for_each ds write_out s
  = Some (tt, MkPcap (Some f) (s_write_ctx s) (written s ++ written_to f (s_write_ctx s) ds) (pc_ticks_ms s)).
Proof.
  revert s. induction ds as [|d ds IH]; intros [cb c w ms] E; cbn in E; subst cb; cbn [for_each].
  { cbn. by rewrite app_nil_r. }
  erewrite bind_some by done. rewrite IH by done. cbn. by rewrite <- app_assoc.
Qed.

(** The pieces of the records. *)
Definition pieces_of (cs : list captured) : list bytes :=
  concat ((fun c => [record_header_bytes (cp_header c); cp_frame c]) <$> cs).

Lemma concat_pieces cs : concat (pieces_of cs) = concat (record_bytes <$> cs).
Proof. unfold pieces_of. induction cs as [|c cs IH]; [done|]. cbn. rewrite IH. unfold record_bytes. by rewrite <- app_assoc. Qed.

Lemma packet_written o s f :
  op_ok o -> s_write_cb s = Some f ->
  (modify (set_pc_ticks (op_ms o)) ≫= fun _ => pcap_write_packet (op_frame o) (op_len o)) s
  = Some (tt, MkPcap (Some f) (s_write_ctx s)
               (written s ++ written_to f (s_write_ctx s) (pieces_of (option_list (capture_of o)))) (op_ms o)).
Proof.
  intros (Hms & Hl & Hb) E. destruct s as [cb c w ms]. cbn in E. subst cb.
  erewrite bind_some by done. unfold pcap_write_packet, capture_of. erewrite bind_some by done.
  destruct (op_frame o) as [b|]; cbn [s_write_cb set_pc_ticks]; [|cbn; by rewrite app_nil_r].
  destruct (Z.eqb_spec (op_len o) 0) as [E0|E0]; [cbn; by rewrite app_nil_r|].
  erewrite bind_some; [|unfold lift, read_at; rewrite (proj2 (Nat.leb_le _ _)) by lia; reflexivity].
  rewrite (pieces_written f) by done. cbn. rewrite !u32_small by lia. unfold slice. by rewrite drop_0.
Qed.

Lemma capture_ok o c : op_ok o -> capture_of o = Some c -> captured_ok c.
Proof.
  intros (Hms & Hl & Hb). unfold capture_of. destruct (op_frame o) as [b|]; [|done].
  destruct (Z.eqb_spec (op_len o) 0); [done|]. intros [= <-]. unfold captured_ok. cbn.
  rewrite length_take_le, Z2Nat.id by lia.
  pose proof (Z.mod_pos_bound (op_ms o) 1000 ltac:(lia)). pose proof (Z.div_pos (op_ms o) 1000 ltac:(lia) ltac:(lia)).
  pose proof (Z.div_le_upper_bound (op_ms o) 1000 (op_ms o) ltac:(lia) ltac:(lia)). lia.
Qed.

Lemma all_written ops s f :
  Forall op_ok ops -> s_write_cb s = Some f ->
  exists ms, write_all ops s
  = Some (tt, MkPcap (Some f) (s_write_ctx s)
               (written s ++ written_to f (s_write_ctx s) (pieces_of (omap capture_of ops))) ms).
Proof.
  revert s. induction ops as [|o ops IH]; intros s Hok E.
  { exists (pc_ticks_ms s). destruct s; cbn in E; subst. cbn. by rewrite app_nil_r. }
  apply Forall_cons in Hok as [Ho Hok].
  destruct (IH (MkPcap (Some f) (s_write_ctx s) (written s ++ written_to f (s_write_ctx s) (pieces_of (option_list (capture_of o)))) (op_ms o)) Hok eq_refl) as [ms Hr]. exists ms.
  unfold write_all in *. cbn [for_each]. rewrite (bind_some _ _ _ _ _ (packet_written o s f Ho E)), Hr.
  cbn [s_write_ctx written omap list_omap]. rewrite <- app_assoc. unfold written_to. rewrite <- fmap_app.
  do 5 f_equal. by destruct (capture_of o).
Qed.

Lemma records_long cs n : (length cs <= n + length (concat (record_bytes <$> cs)))%nat.
Proof.
  induction cs as [|c cs IH]; [cbn; lia|]. cbn. rewrite length_app. unfold record_bytes at 1.
  rewrite length_app, length_record_header. lia.
Qed.

Lemma capture_read cs :
  Forall captured_ok cs ->
  read_capture (pcap_header_bytes pcap_header ++ concat (record_bytes <$> cs)) = Some cs.
Proof.
  intros Hok. unfold read_capture. rewrite read_at_head by (unfold pcap_header_bytes; by rewrite !length_app, !length_native_store).
  cbn [mbind option_bind].
  assert (byte_order (slice 0 4 (pcap_header_bytes pcap_header)) = Some num
          /\ num (slice 4 2 (pcap_header_bytes pcap_header)) = 2 /\ num (slice 6 2 (pcap_header_bytes pcap_header)) = 4
          /\ num (slice 20 4 (pcap_header_bytes pcap_header)) = 1) as (-> & E1 & E2 & E3).
  { unfold num, pcap_header_bytes, native_store, byte_order. by destruct little_endian. }
  cbn [mbind option_bind]. rewrite E1, E2, E3. cbn [Z.eqb Pos.eqb andb].
  rewrite drop_app_length' by (unfold pcap_header_bytes; by rewrite !length_app, !length_native_store).
  apply read_records_all; [done|]. rewrite length_app. apply records_long.
Qed.

(** C40: what was captured is read again.  Frames are written one after the other, at any
    times, in the byte order of the machine, among them null pointers and empty ones.
    Everything goes to the function and the context that [pcap_init] was given, and a reader
    of capture files finds in it exactly the frames that have bytes, in their order, with
    their lengths and times.  *)
Theorem pcap_round_trip ops s f ctx :
  written s = [] -> Forall op_ok ops ->
  total (_ ← pcap_init (Some f) ctx; write_all ops) (fun _ s' =>
    Forall (fun w => fst w = (f, ctx)) (written s')
    /\ read_capture (stream s') = Some (omap capture_of ops)) s.
Proof.
  intros Hw Hok. unfold pcap_init. set (header := pcap_header_bytes pcap_header).
  destruct (all_written ops (MkPcap (Some f) ctx [(f, ctx, header)] (pc_ticks_ms s)) f Hok eq_refl) as [ms Hr].
  eexists tt, _. split.
  { rewrite bind_assoc. erewrite bind_some by done. erewrite bind_some; [|cbn; rewrite Hw; reflexivity]. exact Hr. }
  cbn [written s_write_ctx]. split.
  { apply Forall_app. split; [by constructor|]. apply Forall_fmap, Forall_true. done. }
  unfold stream, written_to. cbn [written]. rewrite fmap_app, <- list_fmap_compose. unfold compose. cbn [snd].
  rewrite list_fmap_id, concat_app, concat_pieces. cbn [fmap list_fmap concat snd].
  rewrite app_nil_r. apply capture_read. eapply Forall_forall. intros c (o & Ho & Hc)%list_elem_of_omap.
  rewrite Forall_forall in Hok. eauto using capture_ok.
Qed.
End streams.

(** ** Examples *)

Definition frame_a : bytes := [0xFF; 0x01; 0x02].
Definition frame_b : bytes := [0x33; 0x33; 0x07; 0x08].
Definition capture_ops : list capture_op :=
  [MkCaptureOp 1500 (Some (frame_a ++ [9; 9])) 3; MkCaptureOp 1501 None 10; MkCaptureOp 1502 (Some frame_b) 0;
   MkCaptureOp 4294967295 (Some frame_b) 4].

Lemma pcap_round_trip_witness :
  Forall op_ok capture_ops
  /\ omap capture_of capture_ops
     = [MkCaptured (MkPcapRecordHeader 1 500000 3 3) frame_a;
        MkCaptured (MkPcapRecordHeader 4294967 295000 4 4) frame_b]
  /\ total (_ ← @pcap_init platform_mcu (Some 7%nat) 1; @write_all platform_mcu capture_ops) (fun _ s' =>
       Forall (fun w => fst w = (7, 1)%nat) (written s')
       /\ read_capture (stream s') = Some (omap capture_of capture_ops)) pcap_zero.
Proof.
  assert (Hok : Forall op_ok capture_ops) by decided. split; [exact Hok|]. split; [reflexivity|].
  apply (@pcap_round_trip platform_mcu capture_ops pcap_zero 7 1); [reflexivity|exact Hok].
Defined.

(** A frame that comes in and one that goes out are written by two tasks.  A record is two
    calls of the function: even when no call is interrupted, the calls of the tasks can
    alternate, and then the frames are not found again. *)
Definition two_tasks (order : list bytes) : M pcap unit :=
  _ ← @pcap_init platform_mcu (Some 7%nat) 1; for_each order write_out.

Example records_interleaved :
  let a := @record_pieces platform_mcu frame_a 3 1500 in
  let b := @record_pieces platform_mcu frame_b 4 1500 in
  match a, b with
  | [a1; a2], [b1; b2] =>
      (fun r => read_capture (stream (snd r))) <$> two_tasks [a1; a2; b1; b2] pcap_zero
        = Some (Some [MkCaptured (MkPcapRecordHeader 1 500000 3 3) frame_a;
                      MkCaptured (MkPcapRecordHeader 1 500000 4 4) frame_b])
      /\ (fun r => read_capture (stream (snd r))) <$> two_tasks [a1; b1; a2; b2] pcap_zero = Some None
  | _, _ => False
  end.
Proof. vm_compute. by split. Qed.

(** Without a start nothing is written. *)
Example not_started : @pcap_write_packet platform_mcu (Some frame_a) 3 pcap_zero = Some (tt, pcap_zero).
Proof. reflexivity. Qed.
