(* ===== verification/Adin.v ===== *)
(** * The network device: src/drivers/adin2111/bm_adin2111.c

    The ports of a node are those of an ADIN2111, a switch with two ports on an SPI
    bus.  This file makes a network device of the vendor's driver: it gives the driver
    buffers to receive into, copies the frames that are sent into buffers of their
    own, which are freed when the driver is done with them, and tells the layer 2 of
    received frames and of links that go up or down.

    The vendor's driver is an interface.  Ports are counted from 0 there.  Descriptors
    of received frames are numbered, those of sent frames have locations. *)
From S2P Require Import Prelude Util LinkedList Os Parts.

Definition ADIN2111_PORT_NUM : Z := 2.
Definition RX_QUEUE_NUM_ENTRIES : nat := 8.
Definition MAX_FRAME_BUF_SIZE : Z := 1524.
Definition DMA_ALIGN_SIZE : Z := 4.

(** [driver_tx_port], [driver_port]; 3 is both ports, 2 is no port. *)
Definition driver_tx_port (port_num : Z) : Z := if port_num =? 1 then 0 else if port_num =? 2 then 1 else 3.
Definition driver_port (port_num : Z) : Z := if port_num =? 1 then 0 else if port_num =? 2 then 1 else ADIN2111_PORT_NUM.

Definition ADI_PHY_EVT_LINK_STAT_CHANGE : Z := Z.shiftl 1 (1 + 16).

Inductive adi_phy_AnMsResolution_e : Type :=
| ADI_PHY_AN_MS_RESOLUTION_NOT_RUN
| ADI_PHY_AN_MS_RESOLUTION_FAULT
| ADI_PHY_AN_MS_RESOLUTION_SLAVE
| ADI_PHY_AN_MS_RESOLUTION_MASTER.
Record adi_phy_AnStatus_t : Type := MkAnStatus {
  anComplete : bool; anLinkStatus : Z; anMsResolution : adi_phy_AnMsResolution_e; anTxMode : Z
}.

(** The counters of a port. *)
Record adi_phy_MseLinkQuality_t : Type := MkQuality { mseVal : Z; linkQuality : Z; sqi : Z }.
Record adi_phy_FrameChkErrorCounters_t : Type := MkErrorCounters {
  LEN_ERR_CNT : Z; ALGN_ERR_CNT : Z; SYMB_ERR_CNT : Z; OSZ_CNT : Z; USZ_CNT : Z; ODD_CNT : Z; ODD_PRE_CNT : Z;
  FALSE_CARRIER_CNT : Z
}.
Record adi_eth_MacStatCounters_t : Type := MkMacCounters {
  RX_FRM_CNT : Z; RX_BCAST_CNT : Z; RX_MCAST_CNT : Z; RX_UCAST_CNT : Z; RX_CRC_ERR_CNT : Z; RX_ALGN_ERR_CNT : Z;
  RX_LS_ERR_CNT : Z; RX_PHY_ERR_CNT : Z; TX_FRM_CNT : Z; TX_BCAST_CNT : Z; TX_MCAST_CNT : Z; TX_UCAST_CNT : Z;
  RX_DROP_FULL_CNT : Z; RX_DROP_FILT_CNT : Z
}.
Record Adin2111PortStats : Type := MkPortStats {
  mse_link_quality : adi_phy_MseLinkQuality_t; frame_check_error_counters : adi_phy_FrameChkErrorCounters_t;
  frame_check_rx_error_count : Z; frame_check_frame_count : Z;
  mac_stats : adi_eth_MacStatCounters_t; link_status : Z
}.

(** What the driver calls back from its interrupt: a change of the links with the status
    of both ports, a frame that has been sent, a frame in a buffer. *)
Inductive driver_event : Type :=
| LinkChange (p1StatusMasked p2StatusMasked : Z)
| TxComplete (desc : loc)
| Receive (desc : nat) (port : Z) (data : bytes).

(** The functions of adin2111.c and of its PHY driver; [true] is [ADI_ETH_SUCCESS].
    [driver_interrupt] starts the function that the driver registers for its interrupt
    and answers how often at most it calls back; [driver_next] goes on to its next call
    back, if there is one. *)
Class AdinDriver (St : Type) : Type := {
  adin2111_Init : M St bool;
  adin2111_RegisterCallback : M St bool;
  adin2111_SubmitRxBuffer : nat -> M St bool;
  adin2111_SyncConfig : M St bool;
  adin2111_EnablePort : Z -> M St bool;
  adin2111_DisablePort : Z -> M St bool;
  adin2111_SubmitTxBuffer : Z -> loc -> bytes -> M St bool;
  phy_GetAnStatus : Z -> M St (bool * adi_phy_AnStatus_t);
  phy_Renegotiate : Z -> M St bool;
  adin2111_GetLinkStatus : Z -> M St (bool * Z);
  adin2111_GetMseLinkQuality : Z -> M St (bool * adi_phy_MseLinkQuality_t);
  adin2111_FrameChkReadRxErrCnt : Z -> M St (bool * Z);
  adin2111_FrameChkReadErrorCnt : Z -> M St (bool * adi_phy_FrameChkErrorCounters_t);
  adin2111_FrameChkReadFrameCnt : Z -> M St (bool * Z);
  adin2111_GetStatCounters : Z -> M St (bool * adi_eth_MacStatCounters_t);
  driver_interrupt : M St nat;
  driver_next : M St (option driver_event)
}.

(** The callbacks of the device: which ones there are. *)
Record NetworkDeviceCallbacks : Type := MkCallbacks {
  cb_power : bool; cb_link_change : bool; cb_receive : bool; cb_debug_packet_dump : bool
}.

(** A call of a callback. *)
Inductive device_call : Type :=
| CallPower (on : bool)
| CallLinkChange (port_index : Z) (is_up : bool)
| CallReceive (port_num : Z) (data : bytes)
| CallDump (data : bytes).

(** [ad_callbacks]: [None] before [create_network_device].  [ad_rx]: the buffers that are
    allocated.  [ad_tx]: the descriptors and buffers of frames on their way.
    [ad_interrupt]: the driver has registered its function.  [lc_device]: the handle is
    not [NULL]. *)
Record adin : Type := MkAdin {
  ad_callbacks : option NetworkDeviceCallbacks;
  ad_initialized : bool;
  ad_rx : list bool;
  ad_tx : gmap loc bytes;
  ad_interrupt : bool;
  lc_device : bool;
  lc_port_mask : Z;
  ad_calls : list device_call;
  ad_os : Os
}.

Definition set_ad_callbacks (c : option NetworkDeviceCallbacks) (s : adin) : adin :=
  MkAdin c (ad_initialized s) (ad_rx s) (ad_tx s) (ad_interrupt s) (lc_device s) (lc_port_mask s) (ad_calls s) (ad_os s).
Definition set_ad_rx (b : bool) (rx : list bool) (s : adin) : adin :=
  MkAdin (ad_callbacks s) b rx (ad_tx s) (ad_interrupt s) (lc_device s) (lc_port_mask s) (ad_calls s) (ad_os s).
Definition set_ad_tx (h : gmap loc bytes) (s : adin) : adin :=
  MkAdin (ad_callbacks s) (ad_initialized s) (ad_rx s) h (ad_interrupt s) (lc_device s) (lc_port_mask s) (ad_calls s)
    (ad_os s).
Definition set_ad_interrupt (b : bool) (s : adin) : adin :=
  MkAdin (ad_callbacks s) (ad_initialized s) (ad_rx s) (ad_tx s) b (lc_device s) (lc_port_mask s) (ad_calls s) (ad_os s).
Definition set_link_change (d : bool) (mask : Z) (s : adin) : adin :=
  MkAdin (ad_callbacks s) (ad_initialized s) (ad_rx s) (ad_tx s) (ad_interrupt s) d mask (ad_calls s) (ad_os s).
Definition add_device_call (c : device_call) (s : adin) : adin :=
  MkAdin (ad_callbacks s) (ad_initialized s) (ad_rx s) (ad_tx s) (ad_interrupt s) (lc_device s) (lc_port_mask s)
    (ad_calls s ++ [c]) (ad_os s).
Definition set_ad_os (o : Os) (s : adin) : adin :=
  MkAdin (ad_callbacks s) (ad_initialized s) (ad_rx s) (ad_tx s) (ad_interrupt s) (lc_device s) (lc_port_mask s)
    (ad_calls s) o.

Definition with_ad_os {A} (m : M Os A) : M adin A := zoom ad_os set_ad_os m.

(** [NETWORK_DEVICE.callbacks->f]: when there is one, it is called. *)
Definition call_device (f : NetworkDeviceCallbacks -> bool) (c : device_call) : M adin unit :=
  s ← get;
  cbs ← lift (ad_callbacks s);
  when (f cbs) (modify (add_device_call c)).

(** [aligned_malloc(DMA_ALIGN_SIZE, size)]: nothing is allocated for no bytes. *)
Definition dma_malloc_ok (size : Z) : M adin bool :=
  if size =? 0 then mret false else with_ad_os malloc_ok.

(** ** Callbacks of the driver *)

Definition link_change_callback_ (p1 p2 : Z) : M adin unit :=
  s ← get;
  cbs ← lift (ad_callbacks s);
  when (cb_link_change cbs)
    (_ ← when (p1 =? ADI_PHY_EVT_LINK_STAT_CHANGE) (modify (fun s => set_link_change true (Z.lor (lc_port_mask s) 1) s));
     when (p2 =? ADI_PHY_EVT_LINK_STAT_CHANGE) (modify (fun s => set_link_change true (Z.lor (lc_port_mask s) 2) s))).

(** The descriptor is freed with its buffer. *)
Definition free_tx_buffer (desc : loc) : M adin unit :=
  s ← get;
  _ ← lift (ad_tx s !! desc);
  modify (set_ad_tx (delete desc (ad_tx s))).

Definition tx_complete (desc : loc) : M adin unit := free_tx_buffer desc.

(** [HAL_RegisterCallback] *)
Definition HAL_RegisterCallback : M adin bool := _ ← modify (set_ad_interrupt true); mret true.

Section device.
Context {St : Type} `{Part adin St} `{AdinDriver St}.
(** [adin2111_network_metrics_init], when [bm_metrics_enabled] is set. *)
Context (metrics_init : M St BmErr).

Definition receive_callback (desc : nat) (port : Z) (data : bytes) : M St unit :=
  _ ← on_part (call_device cb_receive (CallReceive (u8 (port + 1)) data));
  _ ← on_part (call_device cb_debug_packet_dump (CallDump data));
  _ ← adin2111_SubmitRxBuffer desc;
  mret tt.

Definition call_driver_back (e : driver_event) : M St unit :=
  match e with
  | LinkChange p1 p2 => on_part (link_change_callback_ p1 p2)
  | TxComplete desc => on_part (tx_complete desc)
  | Receive desc port data => receive_callback desc port data
  end.

(** The function that [HAL_RegisterCallback] was given. *)
Fixpoint driver_events (n : nat) : M St unit :=
  match n with
  | O => mret tt
  | S n =>
      e ← driver_next;
      match e with None => mret tt | Some e => _ ← call_driver_back e; driver_events n end
  end.

Definition ADIN2111_MAC_INT_CALLBACK : M St unit := n ← driver_interrupt; driver_events n.

(** ** Ports *)

Definition adin2111_Renegotiate (port : Z) : M St bool :=
  if negb (port =? 0) && negb (port =? 1) then mret false else phy_Renegotiate port.

(** Without a status when the port is none. *)
Definition adin2111_AutoNegotiateStatus (port : Z) (status : adi_phy_AnStatus_t) : M St (bool * adi_phy_AnStatus_t) :=
  if negb (port =? 0) && negb (port =? 1) then mret (false, status) else phy_GetAnStatus port.

Definition adin2111_netdevice_enable_port (port_num : Z) : M St BmErr :=
  let enable_port := driver_port port_num in
  if (enable_port =? 0) || (enable_port =? 1) then
    ok ← adin2111_EnablePort enable_port;
    mret (if ok : bool then BmOK else BmENODEV)
  else mret BmEINVAL.

Definition adin2111_netdevice_disable_port (port_num : Z) : M St BmErr :=
  let disable_port := driver_port port_num in
  if (disable_port =? 0) || (disable_port =? 1) then
    ok ← adin2111_DisablePort disable_port;
    mret (if ok : bool then BmOK else BmENODEV)
  else mret BmEINVAL.

(** One port after the other, until an error. *)
Fixpoint ports_loop (f : Z -> M St BmErr) (err : BmErr) (ports : list Z) : M St BmErr :=
  match ports with
  | [] => mret err
  | i :: ports => err ← f i; if is_ok err then ports_loop f err ports else mret err
  end.

(** The buffers that must have been allocated, one after the other. *)
Fixpoint submit_loop (rx : list bool) (i : nat) : M St BmErr :=
  match rx with
  | [] => mret BmOK
  | allocated :: rx =>
      if allocated : bool then
        ok ← adin2111_SubmitRxBuffer i;
        if ok : bool then submit_loop rx (S i) else mret BmENODEV
      else mret BmENODEV
  end.

Definition adin2111_netdevice_enable : M St BmErr :=
  _ ← on_part (call_device cb_power (CallPower true));
  ok ← adin2111_Init;
  err ← (if ok : bool then
           ok ← adin2111_RegisterCallback;
           if ok : bool then
             rx ← gets (fun s => ad_rx (part s));
             err ← submit_loop rx 0;
             if is_ok err then
               ok ← adin2111_SyncConfig;
               if ok : bool then ports_loop adin2111_netdevice_enable_port BmOK [1; 2] else mret BmENODEV
             else mret err
           else mret BmENODEV
         else mret BmENODEV);
  _ ← when (negb (is_ok err)) (on_part (call_device cb_power (CallPower false)));
  mret err.

Definition adin2111_netdevice_disable : M St BmErr :=
  err ← ports_loop adin2111_netdevice_disable_port BmEINVAL [1; 2];
  _ ← when (is_ok err) (on_part (call_device cb_power (CallPower false)));
  mret err.

Definition is_resolved (r : adi_phy_AnMsResolution_e) : bool :=
  match r with ADI_PHY_AN_MS_RESOLUTION_SLAVE | ADI_PHY_AN_MS_RESOLUTION_MASTER => true | _ => false end.

(** [None]: [*renegotiated] is not written. *)
Definition adin2111_netdevice_renegotiate (port_num : Z) : M St (BmErr * option bool) :=
  let port := driver_port port_num in
  if (port =? 0) || (port =? 1) then
    '(ok, status) ← adin2111_AutoNegotiateStatus port (MkAnStatus false 0 ADI_PHY_AN_MS_RESOLUTION_NOT_RUN 0);
    if ok && (anComplete status && negb (is_resolved (anMsResolution status))) then
      ok ← adin2111_Renegotiate port;
      mret (if ok : bool then BmOK else BmENODEV, Some true)
    else mret (if ok : bool then BmOK else BmENODEV, Some false)
  else mret (BmEINVAL, None).

(** ** Sending *)

(** That the driver refuses the frame is not reported. *)
Definition adin2111_netdevice_send (data : bytes) (port : Z) : M St BmErr :=
  ok ← on_part (with_ad_os malloc_ok);
  if ok : bool then
    ok ← on_part (dma_malloc_ok (Z.of_nat (length data)));
    if ok : bool then
      s ← gets part;
      let desc := fresh (dom (ad_tx s)) in
      _ ← on_part (modify (set_ad_tx (<[desc := data]> (ad_tx s))));
      ok ← adin2111_SubmitTxBuffer (driver_tx_port port) desc data;
      if ok : bool then
        _ ← on_part (call_device cb_debug_packet_dump (CallDump data)); mret BmOK
      else _ ← on_part (free_tx_buffer desc); mret BmOK
    else mret BmENOMEM
  else mret BmENOMEM.

(** ** Interrupts and statistics *)

(** The ports of the mask; a port whose status can be read is reported. *)
Fixpoint link_status_loop (mask : Z) (ports : list Z) : M St unit :=
  match ports with
  | [] => mret tt
  | i :: ports =>
      _ ← (if Z.testbit mask i then
             '(ok, status) ← adin2111_GetLinkStatus i;
             if ok : bool then
               cbs ← on_part (s ← get; lift (ad_callbacks s));
               if cb_link_change cbs then on_part (modify (add_device_call (CallLinkChange i (negb (status =? 0))))) else ub
             else mret tt
           else mret tt);
      link_status_loop mask ports
  end.

Definition adin2111_handle_interrupt : M St BmErr :=
  registered ← gets (fun s => ad_interrupt (part s));
  if registered : bool then
    _ ← ADIN2111_MAC_INT_CALLBACK;
    s ← gets part;
    _ ← when (lc_device s)
          (_ ← link_status_loop (lc_port_mask s) [0; 1];
           on_part (modify (fun s => set_link_change false (lc_port_mask s) s)));
    mret BmOK
  else mret BmENODEV.

Definition adin2111_num_ports : Z := ADIN2111_PORT_NUM.

Definition error_counters_zero : adi_phy_FrameChkErrorCounters_t := MkErrorCounters 0 0 0 0 0 0 0 0.
Definition mac_counters_zero : adi_eth_MacStatCounters_t := MkMacCounters 0 0 0 0 0 0 0 0 0 0 0 0 0 0.

(** [stats]: the pointer is not [NULL].  With an error the statistics are those that have
    been read so far. *)
Definition adin2111_port_stats (port_index : Z) (stats : bool) : M St (BmErr * option Adin2111PortStats) :=
  if stats then
    '(ok, quality) ← adin2111_GetMseLinkQuality port_index;
    if ok : bool then
      '(ok, rx_err) ← adin2111_FrameChkReadRxErrCnt port_index;
      if ok : bool then
        '(ok, errs) ← adin2111_FrameChkReadErrorCnt port_index;
        if ok : bool then
          '(ok, count) ← adin2111_FrameChkReadFrameCnt port_index;
          if ok : bool then
            '(ok, mac) ← adin2111_GetStatCounters port_index;
            if ok : bool then
              '(ok, status) ← adin2111_GetLinkStatus port_index;
              mret (if ok : bool then BmOK else BmENODEV, Some (MkPortStats quality errs rx_err count mac status))
            else mret (BmENODEV, Some (MkPortStats quality errs rx_err count mac 0))
          else mret (BmENODEV, Some (MkPortStats quality errs rx_err count mac_counters_zero 0))
        else mret (BmENODEV, Some (MkPortStats quality errs rx_err 0 mac_counters_zero 0))
      else mret (BmENODEV, Some (MkPortStats quality error_counters_zero rx_err 0 mac_counters_zero 0))
    else mret (BmENODEV, Some (MkPortStats quality error_counters_zero 0 0 mac_counters_zero 0))
  else mret (BmEINVAL, None).

(** ** The start *)

(** Twice the device has the same callbacks. *)
Definition create_network_device : M adin unit :=
  modify (fun s => match ad_callbacks s with
                   | Some _ => s
                   | None => set_ad_callbacks (Some (MkCallbacks false false false false)) s
                   end).

(** The buffers from the [i]th on, until there is no memory. *)
Fixpoint allocate_loop (n i : nat) : M adin bool :=
  match n with
  | O => _ ← modify (fun s => set_ad_rx true (ad_rx s) s); mret true
  | S n =>
      ok ← dma_malloc_ok MAX_FRAME_BUF_SIZE;
      _ ← modify (fun s => set_ad_rx (ad_initialized s) (<[i := ok]> (ad_rx s)) s);
      if ok : bool then allocate_loop n (S i) else mret false
  end.

Definition adin2111_init : M St BmErr :=
  initialized ← gets (fun s => ad_initialized (part s));
  ok ← (if initialized : bool then mret true else on_part (allocate_loop RX_QUEUE_NUM_ENTRIES 0));
  if ok : bool then
    _ ← on_part create_network_device;
    err ← adin2111_netdevice_enable;
    unless_err err metrics_init
  else mret BmENOMEM.

Definition adin2111_network_device : M adin NetworkDeviceCallbacks :=
  _ ← create_network_device;
  s ← get;
  lift (ad_callbacks s).
End device.
