(* ===== verification/AdinBuffers.v ===== *)
(** * The buffers of the network device

    Who holds the buffers of src/drivers/adin2111/bm_adin2111.c: whatever is sent and
    whatever the driver does in its interrupts, the frames in memory are those that the
    driver holds, every buffer to receive into goes back to the driver, and the layer
    above sees every received frame once. *)
From S2P Require Import Prelude Util LinkedList Os Parts Adin.

(** What the driver promises.  [tx_held]: the frames that it was given and has not
    completed; [rx_held]: the buffers that it may receive into; [rx_refused]: those that it
    was given and did not take; [happened]: what it has called back; [some_port]: one of its
    ports is enabled.  A frame that it accepts it holds until it has called back, as long as
    a port is enabled: with no port enabled it answers that all went well and does not take
    the frame. *)
Class AdinDriverLaws (St : Type) `{Part adin St} `{AdinDriver St} : Type := {
  tx_held : St -> gmap loc bytes;
  rx_held : St -> gset nat;
  rx_refused : St -> gset nat;
  happened : St -> list driver_event;
  some_port : St -> bool;
  keeps_tx s s' : Prop := tx_held s' = tx_held s /\ happened s' = happened s /\ some_port s' = some_port s;
  keeps_rx s s' : Prop := rx_held s' = rx_held s /\ rx_refused s' = rx_refused s;
  held_part p s : keeps_tx s (set_part p s) /\ keeps_rx s (set_part p s);
  init_spec s :
    total adin2111_Init (fun ok s' =>
      if ok : bool then
        part s' = set_ad_interrupt true (part s) /\ tx_held s' = ∅ /\ rx_held s' = ∅ /\ rx_refused s' = ∅
      else exists b, part s' = set_ad_interrupt b (part s)) s;
  register_spec s :
    total adin2111_RegisterCallback (fun _ s' => part s' = part s /\ keeps_tx s s' /\ keeps_rx s s') s;
  sync_spec s :
    total adin2111_SyncConfig (fun _ s' => part s' = part s /\ keeps_tx s s' /\ keeps_rx s s') s;
  enable_port_spec port s :
    total (adin2111_EnablePort port) (fun ok s' =>
      part s' = part s /\ tx_held s' = tx_held s /\ happened s' = happened s /\ keeps_rx s s'
      /\ (ok = true -> some_port s' = true)) s;
  link_status_spec port s :
    total (adin2111_GetLinkStatus port) (fun _ s' => part s' = part s /\ keeps_tx s s' /\ keeps_rx s s') s;
  submit_rx_spec i s :
    (i < RX_QUEUE_NUM_ENTRIES)%nat -> i ∉ rx_held s ->
    total (adin2111_SubmitRxBuffer i) (fun ok s' =>
      part s' = part s /\ keeps_tx s s'
      /\ if ok : bool then rx_held s' = {[i]} ∪ rx_held s /\ rx_refused s' = rx_refused s
         else rx_held s' = rx_held s /\ rx_refused s' = {[i]} ∪ rx_refused s) s;
  submit_tx_spec port desc data s :
    desc ∉ dom (tx_held s) ->
    total (adin2111_SubmitTxBuffer port desc data) (fun ok s' =>
      part s' = part s /\ keeps_rx s s' /\ happened s' = happened s /\ some_port s' = some_port s
      /\ tx_held s' = if ok && some_port s then <[desc := data]> (tx_held s) else tx_held s) s;
  interrupt_spec s :
    total driver_interrupt (fun _ s' => part s' = part s /\ keeps_tx s s' /\ keeps_rx s s') s;
  next_spec s :
    total driver_next (fun e s' =>
      part s' = part s /\ happened s' = happened s ++ option_list e
      /\ some_port s' = some_port s /\ rx_refused s' = rx_refused s
      /\ match e with
         | Some (TxComplete desc) =>
             desc ∈ dom (tx_held s) /\ tx_held s' = delete desc (tx_held s) /\ rx_held s' = rx_held s
         | Some (Receive i port data) =>
             i ∈ rx_held s /\ (i < RX_QUEUE_NUM_ENTRIES)%nat /\ 0 <= port < ADIN2111_PORT_NUM
             /\ tx_held s' = tx_held s /\ rx_held s' = rx_held s ∖ {[i]}
         | _ => tx_held s' = tx_held s /\ rx_held s' = rx_held s
         end) s
}.

(** The frames that the layer above was given, and those that came in. *)
Definition received (cs : list device_call) : list (Z * bytes) :=
  omap (fun c => match c with CallReceive port data => Some (port, data) | _ => None end) cs.
Definition frames (es : list driver_event) : list (Z * bytes) :=
  omap (fun e => match e with Receive _ port data => Some (port + 1, data) | _ => None end) es.

(** What can be done with the device. *)
Inductive adin_op : Type :=
| OpSend (data : bytes) (port : Z)
| OpInterrupt.

Section buffers.
Context {St : Type} `{PartLaws adin St} `{!AdinDriver St} `{!AdinDriverLaws St}.

Definition adin_run (ops : list adin_op) : M St unit :=
  for_each ops (fun o => match o with
                         | OpSend data port => _ ← adin2111_netdevice_send data port; mret tt
                         | OpInterrupt => _ ← adin2111_handle_interrupt; mret tt
                         end).

(** Layer 2 has set its callbacks, the driver has its interrupt and a port, and the frames
    in memory are those that the driver holds. *)
Record ready (s : St) : Prop := MkReady {
  ready_callbacks : exists cbs, ad_callbacks (part s) = Some cbs /\ cb_receive cbs = true /\ cb_link_change cbs = true;
  ready_interrupt : ad_interrupt (part s) = true;
  ready_port : some_port s = true;
  ready_tx : ad_tx (part s) = tx_held s
}.

(** The buffers to receive into that the driver was given. *)
Definition rx_buffers (s : St) : gset nat := rx_held s ∪ rx_refused s.

(** Still ready, with the same buffers; the frames that came in have been handed on. *)
Definition goes_on (s s' : St) : Prop :=
  ready s' /\ rx_buffers s' = rx_buffers s /\ ad_rx (part s') = ad_rx (part s)
  /\ exists new, happened s' = happened s ++ new
                 /\ received (ad_calls (part s')) = received (ad_calls (part s)) ++ frames new.

Lemma goes_on_refl s : ready s -> goes_on s s.
Proof. intros Hr. split; [done|]. split; [done|]. split; [done|]. exists []. by rewrite !app_nil_r. Qed.

Lemma goes_on_trans s1 s2 s3 : goes_on s1 s2 -> goes_on s2 s3 -> goes_on s1 s3.
Proof.
  intros (_ & Hx & Hr & n1 & Hh & Hc) (R & Hx' & Hr' & n2 & Hh' & Hc').
  split; [done|]. split; [congruence|]. split; [congruence|]. exists (n1 ++ n2). unfold frames in *.
  rewrite omap_app, Hh', Hh, Hc', Hc, !app_assoc. done.
Qed.

Lemma keeps_tx_trans s1 s2 s3 : keeps_tx s1 s2 -> keeps_tx s2 s3 -> keeps_tx s1 s3.
Proof. intros (A & B & C) (A' & B' & C'). split_and!; congruence. Qed.
Lemma keeps_rx_trans s1 s2 s3 : keeps_rx s1 s2 -> keeps_rx s2 s3 -> keeps_rx s1 s3.
Proof. intros (A & B) (A' & B'). split; congruence. Qed.
Lemma keeps_buffers s s' : keeps_rx s s' -> rx_buffers s' = rx_buffers s.
Proof. intros [E1 E2]. unfold rx_buffers. by rewrite E1, E2. Qed.

(** A step of the device that does not touch what matters here. *)
Lemma goes_on_same s s' :
  ready s -> ad_callbacks (part s') = ad_callbacks (part s) -> ad_interrupt (part s') = ad_interrupt (part s) ->
  ad_tx (part s') = ad_tx (part s) -> ad_rx (part s') = ad_rx (part s) ->
  received (ad_calls (part s')) = received (ad_calls (part s)) ->
  keeps_tx s s' -> keeps_rx s s' -> goes_on s s'.
Proof.
  intros [Hc Hi Hp Ht] E1 E2 E3 E4 E5 (E6 & E8 & E9) E7. split; [|split; [by apply keeps_buffers|split; [done|]]].
  - split; [by rewrite E1|by rewrite E2|congruence|congruence].
  - exists []. by rewrite !app_nil_r.
Qed.

Lemma total_goes {A B} (m : M St A) (k : A -> M St B) s :
  total m (fun _ s' => goes_on s s') s ->
  (forall a s', ready s' -> total (k a) (fun _ s'' => goes_on s' s'') s') ->
  total (m ≫= k) (fun _ s' => goes_on s s') s.
Proof.
  intros Hm Hk. apply total_bind. eapply total_mono; [exact Hm|]. intros a s1 H1.
  eapply total_mono; [apply Hk, H1|]. intros b s2 H2. exact (goes_on_trans _ _ _ H1 H2).
Qed.

(** Calls of a callback. *)
Lemma call_device_spec f c s cbs :
  ad_callbacks (part s) = Some cbs ->
  on_part (call_device f c) s = Some (tt, if f cbs then set_part (add_device_call c (part s)) s else s).
Proof.
  intros E. destruct (f cbs) eqn:Ef.
  - apply on_part_some. unfold call_device, mbind, M_bind, get, lift. rewrite E. cbn. by rewrite Ef.
  - apply on_part_pure. unfold call_device, mbind, M_bind, get, lift. rewrite E. cbn. by rewrite Ef.
Qed.

Lemma call_device_goes f c s :
  ready s -> received [c] = [] -> total (on_part (call_device f c)) (fun _ s' => goes_on s s') s.
Proof.
  intros Hr Hc. pose proof Hr as [(cbs & E & _) _ _ _]. exists tt. eexists. split; [by apply call_device_spec|].
  destruct (held_part (add_device_call c (part s)) s) as [H1 H2].
  destruct (f cbs); [|by apply goes_on_refl].
  apply goes_on_same; rewrite ?part_set; try done. cbn. unfold received in *. by rewrite omap_app, Hc, app_nil_r.
Qed.

Lemma links_goes ports mask s :
  ready s -> total (link_status_loop mask ports) (fun _ s' => goes_on s s') s.
Proof.
  revert s. induction ports as [|i ports IH]; intros s Hr; [by apply total_ret, goes_on_refl|].
  cbn [link_status_loop]. apply total_goes; [|by intros ? ? ?; apply IH].
  destruct (Z.testbit mask i); [|by apply total_ret, goes_on_refl].
  apply total_bind. eapply total_mono; [apply link_status_spec|]. intros [ok st] s1 (E1 & E2 & E3).
  assert (G : goes_on s s1) by (by apply goes_on_same; rewrite ?E1).
  destruct ok; [|by apply total_ret]. destruct (proj1 G) as [(cbs & E & _ & El) _ _ _].
  unfold on_part. repeat total_step. eapply total_lift; [exact E|]. rewrite El, set_part_same.
  repeat total_step. destruct (held_part (add_device_call (CallLinkChange i (negb (st =? 0))) (part s1)) s1) as [H1 H2].
  apply goes_on_same; rewrite ?part_set; try (by cbn; rewrite E1);
    [done| |exact (keeps_tx_trans _ _ _ E2 H1)|exact (keeps_rx_trans _ _ _ E3 H2)]. cbn. rewrite E1.
  unfold received. by rewrite omap_app, app_nil_r.
Qed.

(** The driver has called back [e], from [s] to [s1]. *)
Definition called_back (e : driver_event) (s s1 : St) : Prop :=
  part s1 = part s /\ happened s1 = happened s ++ [e]
  /\ some_port s1 = some_port s /\ rx_refused s1 = rx_refused s
  /\ match e with
     | TxComplete desc => desc ∈ dom (tx_held s) /\ tx_held s1 = delete desc (tx_held s) /\ rx_held s1 = rx_held s
     | Receive i port data =>
         i ∈ rx_held s /\ (i < RX_QUEUE_NUM_ENTRIES)%nat /\ 0 <= port < ADIN2111_PORT_NUM
         /\ tx_held s1 = tx_held s /\ rx_held s1 = rx_held s ∖ {[i]}
     | _ => tx_held s1 = tx_held s /\ rx_held s1 = rx_held s
     end.

Lemma link_change_goes p1 p2 s s1 :
  ready s -> called_back (LinkChange p1 p2) s s1 ->
  total (call_driver_back (LinkChange p1 p2)) (fun _ s2 => goes_on s s2) s1.
Proof.
  intros [(cbs & Ec & Er & El) Hi Hp Ht] (Ep & Eh & Eo & Ef & Et & Ex). cbn [call_driver_back]. unfold on_part, link_change_callback_.
  repeat total_step. eapply total_lift; [by rewrite Ep|]. rewrite El. cbn [when]. rewrite Ep.
  assert (G : forall p, ad_callbacks p = ad_callbacks (part s) -> ad_interrupt p = ad_interrupt (part s) ->
                ad_tx p = ad_tx (part s) -> ad_rx p = ad_rx (part s) -> ad_calls p = ad_calls (part s) ->
                goes_on s (set_part p s1)).
  { intros p G1 G2 G3 G4 G5. destruct (held_part p s1) as [(H1 & H3 & H4) H2].
    split; [split; rewrite ?part_set; [exists cbs; by rewrite G1|by rewrite G2|congruence..]|].
    split; [rewrite (keeps_buffers _ _ H2); by apply keeps_buffers|]. rewrite part_set. split; [done|]. exists [LinkChange p1 p2].
    rewrite H3, G5, app_nil_r. done. }
  apply total_bind. destruct (p1 =? _), (p2 =? _); cbn [when];
    (apply total_modify || apply total_ret); (apply total_modify || apply total_ret); by apply G.
Qed.

Lemma tx_complete_goes desc s s1 :
  ready s -> called_back (TxComplete desc) s s1 ->
  total (call_driver_back (TxComplete desc)) (fun _ s2 => goes_on s s2) s1.
Proof.
  intros [(cbs & Ec & Er & El) Hi Hp Ht] (Ep & Eh & Eo & Ef & Hd & Et & Ex). cbn [call_driver_back].
  unfold on_part, tx_complete, free_tx_buffer. rewrite elem_of_dom in Hd. destruct Hd as [data Hd].
  repeat total_step. eapply total_lift; [rewrite Ep, Ht; exact Hd|]. total_step. rewrite Ep.
  destruct (held_part (set_ad_tx (delete desc (ad_tx (part s))) (part s)) s1) as [(H1 & H3 & H4) H2].
  split; [split; rewrite ?part_set; [by exists cbs|done|cbn; congruence..]|].
  split; [rewrite (keeps_buffers _ _ H2); by apply keeps_buffers|]. rewrite part_set. split; [done|]. exists [TxComplete desc]. by rewrite H3, app_nil_r.
Qed.

Lemma frame_goes i port data s s1 :
  ready s -> called_back (Receive i port data) s s1 ->
  total (call_driver_back (Receive i port data)) (fun _ s2 => goes_on s s2) s1.
Proof.
  intros [(cbs & Ec & Er & El) Hi Ho Ht] (Ep & Eh & Eo & Ef & Hx & Hl & Hp & Et & Ex). cbn [call_driver_back].
  unfold receive_callback. total_step. exists tt. eexists. split; [apply call_device_spec; by rewrite Ep|].
  rewrite Er, Ep. total_step.
  set (p2 := add_device_call _ (part s)). set (s2 := set_part p2 s1).
  destruct (held_part p2 s1) as [(T2 & H2 & O2) [X2 F2]]. fold s2 in T2, H2, O2, X2, F2.
  assert (P2 : part s2 = p2) by apply part_set.
  exists tt. eexists. split; [apply call_device_spec; by rewrite P2|]. total_step.
  set (s3 := if _ : bool then _ else _).
  assert (Q : keeps_tx s2 s3 /\ keeps_rx s2 s3 /\ ad_callbacks (part s3) = ad_callbacks (part s) /\ ad_rx (part s3) = ad_rx (part s)
              /\ ad_interrupt (part s3) = true /\ ad_tx (part s3) = ad_tx (part s)
              /\ received (ad_calls (part s3)) = received (ad_calls p2)).
  { unfold s3. destruct (cb_debug_packet_dump cbs); [|by rewrite P2].
    destruct (held_part (add_device_call (CallDump data) (part s2)) s2) as [K1 K2].
    split; [exact K1|]. split; [exact K2|]. rewrite part_set, P2. split_and!; try done.
    change (received (ad_calls p2 ++ [CallDump data]) = received (ad_calls p2)).
    unfold received. rewrite omap_app. by rewrite app_nil_r. }
  clearbody s3. destruct Q as ((T3 & H3 & O3) & (X3 & F3) & C3 & R3 & I3 & U3 & D3).
  eapply total_mono; [apply submit_rx_spec; [done|rewrite X3, X2, Ex, elem_of_difference, elem_of_singleton; tauto]|].
  intros ok s4 (P4 & (T4 & H4 & O4) & X4). total_step.
  split; [split; rewrite ?P4; [exists cbs; by rewrite C3|done|congruence..]|]. split.
  { assert (Hd : {[i]} ∪ rx_held s ∖ {[i]} = rx_held s) by by (symmetry; apply union_difference_L; intros j ->%elem_of_singleton; done).
    unfold rx_buffers. destruct ok, X4 as [-> ->]; rewrite X3, F3, X2, F2, Ex, Ef; [by rewrite Hd|].
    rewrite (assoc_L _), (comm_L _ _ {[i]}), Hd. done. }
  rewrite P4, R3. split; [done|]. exists [Receive i port data].
  rewrite H4, H3, H2, Eh. split; [done|]. rewrite D3. unfold p2. cbn -[u8]. unfold received.
  rewrite omap_app. cbn -[u8]. rewrite u8_small by (unfold ADIN2111_PORT_NUM in Hp; lia). done.
Qed.

Lemma events_goes n s : ready s -> total (driver_events n) (fun _ s' => goes_on s s') s.
Proof.
  revert s. induction n as [|n IH]; intros s Hr; [by apply total_ret, goes_on_refl|].
  cbn [driver_events]. apply total_bind. eapply total_mono; [apply next_spec|].
  intros [e|] s1 (Ep & Eh & Eo & Ef & He).
  - apply total_bind. apply (total_mono _ (fun _ s2 => goes_on s s2)).
    + destruct e; [by apply link_change_goes|by apply tx_complete_goes|by apply frame_goes].
    + intros [] s2 G. eapply total_mono; [apply IH, G|]. intros [] s3 G'. exact (goes_on_trans _ _ _ G G').
  - apply total_ret. destruct He. cbn in Eh. rewrite app_nil_r in Eh. by apply goes_on_same; rewrite ?Ep.
Qed.

Lemma interrupt_goes s :
  ready s -> total adin2111_handle_interrupt (fun err s' => err = BmOK /\ goes_on s s') s.
Proof.
  intros Hr. unfold adin2111_handle_interrupt. total_step. total_step. rewrite (ready_interrupt _ Hr).
  total_step. unfold ADIN2111_MAC_INT_CALLBACK. total_step. eapply total_mono; [apply interrupt_spec|].
  intros n s1 (E1 & E2 & E3). assert (G1 : goes_on s s1) by (by apply goes_on_same; rewrite ?E1).
  eapply total_mono; [apply events_goes, G1|]. intros [] s2 G2. pose proof (goes_on_trans _ _ _ G1 G2) as G.
  do 2 total_step. total_step. apply (total_mono _ (fun _ s3 => goes_on s2 s3)).
  - destruct (lc_device (part s2)); cbn [when]; [|apply total_ret, goes_on_refl, G].
    apply total_goes; [apply links_goes, G|]. intros [] s3 Hr3. unfold on_part. repeat total_step.
    match goal with |- goes_on _ (set_part ?p _) => destruct (held_part p s3) as [H1 H2] end.
    by apply goes_on_same; rewrite ?part_set.
  - intros [] s3 G3. total_step. split; [done|]. exact (goes_on_trans _ _ _ G G3).
Qed.

Lemma malloc_goes s : ready s -> total (on_part (with_ad_os malloc_ok)) (fun _ s' => goes_on s s') s.
Proof.
  intros Hr. unfold on_part, with_ad_os. do 2 total_step. unfold malloc_ok.
  destruct (next_answer (os_alloc (ad_os (part s)))) as [b l] eqn:E. exists b. eexists. split; [by rewrite E|].
  match goal with |- goes_on _ (set_part ?p _) => destruct (held_part p s) as [H1 H2] end.
  by apply goes_on_same; rewrite ?part_set.
Qed.

Lemma dma_malloc_goes size s : ready s -> total (on_part (dma_malloc_ok size)) (fun _ s' => goes_on s s') s.
Proof.
  intros Hr. unfold dma_malloc_ok. destruct (size =? 0); [|by apply malloc_goes].
  unfold on_part. repeat total_step. rewrite set_part_same. by apply goes_on_refl.
Qed.

(** The copy of the frame, from its allocation on. *)
Lemma submit_goes data port s :
  ready s ->
  let desc := fresh (dom (ad_tx (part s))) in
  total (_ ← on_part (modify (set_ad_tx (<[desc := data]> (ad_tx (part s)))));
         ok ← adin2111_SubmitTxBuffer (driver_tx_port port) desc data;
         if ok : bool then _ ← on_part (call_device cb_debug_packet_dump (CallDump data)); mret BmOK
         else _ ← on_part (free_tx_buffer desc); mret BmOK)
    (fun err s' => err = BmOK /\ goes_on s s') s.
Proof.
  intros Hr desc. pose proof Hr as [Hc Hi Ho Ht]. assert (Hf : desc ∉ dom (ad_tx (part s))) by apply is_fresh.
  total_step. apply total_zoom. total_step. total_step. set (p1 := set_ad_tx (<[desc:=data]> (ad_tx (part s))) (part s)). set (s1 := set_part p1 s).
  destruct (held_part p1 s) as [(H1 & H3 & H4) H2]. fold s1 in H1, H2, H3, H4.
  assert (P1 : part s1 = p1) by apply part_set.
  eapply total_mono; [apply submit_tx_spec; by rewrite H1, <- Ht|].
  intros ok s2 (E1 & E2 & E3 & E4 & E5). rewrite H4, Ho, H1, <- Ht, andb_true_r in E5. rewrite P1 in E1.
  pose proof (keeps_rx_trans _ _ _ H2 E2) as Kx. destruct ok.
  - assert (G : goes_on s s2).
    { split; [split; rewrite ?E1; [done..|congruence|by rewrite E5]|]. split; [by apply keeps_buffers|]. rewrite E1. split; [done|].
      exists []. rewrite !app_nil_r. split; [congruence|done]. }
    total_step. eapply total_mono; [apply call_device_goes; [apply G|done]|]. intros [] s3 G'. total_step.
    split; [done|]. exact (goes_on_trans _ _ _ G G').
  - total_step. apply total_zoom. unfold free_tx_buffer. repeat total_step.
    eapply total_lift; [rewrite E1; apply lookup_insert_eq|]. repeat total_step. rewrite E1. split; [done|].
    match goal with |- goes_on _ (set_part ?p _) => destruct (held_part p s2) as [(G1 & G3 & G4) G2] end.
    assert (Ed : delete desc (<[desc:=data]> (ad_tx (part s))) = ad_tx (part s)).
    { apply delete_insert_id. by apply not_elem_of_dom. }
    apply goes_on_same; rewrite ?part_set; try done; [split_and!; congruence|exact (keeps_rx_trans _ _ _ Kx G2)].
Qed.

Lemma device_send_goes data port s :
  ready s -> total (adin2111_netdevice_send data port) (fun _ s' => goes_on s s') s.
Proof.
  intros Hr. unfold adin2111_netdevice_send. apply total_goes; [by apply malloc_goes|].
  intros [] s1 R1; [|by apply total_ret, goes_on_refl]. apply total_goes; [by apply dma_malloc_goes|].
  intros [] s2 R2; [|by apply total_ret, goes_on_refl]. total_step. total_step.
  eapply total_mono; [by apply submit_goes|]. by intros e s3 [_ G].
Qed.

(** C19: who holds the buffers of the network device once it has started with a port
    enabled.  Whatever is sent, whatever the driver does in its interrupts, which frames and
    buffers it refuses and whichever allocations fail, the device runs without undefined
    behaviour; afterwards the copies of sent frames in memory are those that the driver
    still holds, with their bytes as they were given; every buffer to receive into is held
    by the driver or among those that the driver refused when it was given back; and the
    layer above has been given the frames that came in meanwhile, in their order, with
    their ports counted from 1.  Not so without a port: the driver then answers that all
    went well without taking the frame, whose copy is lost ([no_port_leaks]); and a
    refused buffer is not offered again ([refused_buffer_is_lost]). *)
Theorem adin_traffic ops s :
  ready s ->
  total (adin_run ops) (fun _ s' =>
    ready s' /\ ad_tx (part s') = tx_held s' /\ rx_buffers s' = rx_buffers s
    /\ exists new, happened s' = happened s ++ new
                   /\ received (ad_calls (part s')) = received (ad_calls (part s)) ++ frames new) s.
Proof.
  intros Hr. apply (total_mono _ (fun _ s' => goes_on s s')).
  - revert s Hr. induction ops as [|o ops IH]; intros s Hr; [by apply total_ret, goes_on_refl|].
    unfold adin_run. cbn [for_each]. apply total_goes; [|by intros [] s1 R1; apply IH].
    destruct o as [data port|]; apply total_bind; eapply total_mono;
      [by apply device_send_goes|by intros; apply total_ret|by apply interrupt_goes|].
    intros err s1 [_ G]. by apply total_ret.
  - intros [] s' (R & X & _ & new & N). split; [done|]. split; [apply R|]. split; [done|]. by exists new.
Qed.

(** ** The start *)

Definition unchanged (s s' : St) : Prop := part s' = part s /\ keeps_tx s s' /\ keeps_rx s s'.

Definition all_buffers : gset nat := set_seq 0 RX_QUEUE_NUM_ENTRIES.

Lemma submit_loop_spec n i s :
  (i + n <= RX_QUEUE_NUM_ENTRIES)%nat -> rx_held s = set_seq 0 i ->
  total (submit_loop (replicate n true) i)
    (fun err s' => part s' = part s /\ tx_held s' = tx_held s
                   /\ (err = BmOK -> rx_held s' = set_seq 0 (i + n) /\ rx_refused s' = rx_refused s)) s.
Proof.
  revert i s. induction n as [|n IH]; intros i s Hn Hx; cbn [replicate submit_loop].
  { apply total_ret. by rewrite Nat.add_0_r. }
  total_step. eapply total_mono; [apply submit_rx_spec; [lia|rewrite Hx, elem_of_set_seq; lia]|].
  intros [] s1 (E1 & (E2 & _) & E3 & E4); [|by apply total_ret]. eapply total_mono; [apply IH; [lia|]|].
  - rewrite E3, Hx. rewrite set_seq_S_end_union_L. done.
  - intros err s2 (F1 & F2 & F3). rewrite F1, F2, E1, E2. split; [done|]. split; [done|]. intros He.
    destruct (F3 He) as [-> ->]. split; [f_equal; lia|done].
Qed.

Lemma enable_ports_spec ports err s :
  total (ports_loop adin2111_netdevice_enable_port err ports)
    (fun err' s' => part s' = part s /\ tx_held s' = tx_held s /\ keeps_rx s s'
                    /\ (err' = BmOK -> ports <> [] -> some_port s' = true)) s.
Proof.
  revert err s. induction ports as [|i ports IH]; intros err s; [by apply total_ret|].
  cbn [ports_loop]. total_step. unfold adin2111_netdevice_enable_port. cbn zeta.
  destruct (_ || _).
  - total_step. eapply total_mono; [apply enable_port_spec|]. intros ok s1 (E1 & E2 & _ & E3 & E4). total_step.
    destruct ok; cbn [is_ok]; [|by apply total_ret]. destruct ports as [|i' ports].
    { cbn [ports_loop]. apply total_ret. split_and!; auto. }
    eapply total_mono; [apply IH|]. intros e s2 (F1 & F2 & F3 & F4).
    split; [congruence|]. split; [congruence|]. split; [exact (keeps_rx_trans _ _ _ E3 F3)|auto].
  - total_step. by apply total_ret.
Qed.

(** What the interrupt is does not matter for the rest of the device. *)
Definition same_device (p p' : adin) : Prop :=
  ad_callbacks p' = ad_callbacks p /\ ad_rx p' = ad_rx p /\ ad_tx p' = ad_tx p /\ ad_initialized p' = ad_initialized p.

(** The driver can be given frames, has all the buffers, its interrupt and a port. *)
Definition started (s : St) : Prop :=
  ad_interrupt (part s) = true /\ ad_rx (part s) = replicate RX_QUEUE_NUM_ENTRIES true
  /\ rx_held s = all_buffers /\ rx_refused s = ∅ /\ tx_held s = ∅ /\ some_port s = true.

Lemma power_spec b s cbs :
  ad_callbacks (part s) = Some cbs ->
  total (on_part (call_device cb_power (CallPower b)))
    (fun _ s' => same_device (part s) (part s') /\ ad_interrupt (part s') = ad_interrupt (part s)
                 /\ keeps_rx s s' /\ tx_held s' = tx_held s
                 /\ (cb_power cbs = true -> last (ad_calls (part s')) = Some (CallPower b))) s.
Proof.
  intros E. exists tt. eexists. split; [by apply call_device_spec|].
  destruct (held_part (add_device_call (CallPower b) (part s)) s) as [(H1 & _ & H3) H2].
  destruct (cb_power cbs); [|by repeat split].
  rewrite part_set. split_and!; try done. intros _. cbn. by rewrite last_snoc.
Qed.

Lemma driver_start_spec s :
  ad_rx (part s) = replicate RX_QUEUE_NUM_ENTRIES true ->
  total (ok ← adin2111_Init;
         if ok : bool then
           ok ← adin2111_RegisterCallback;
           if ok : bool then
             rx ← gets (fun s => ad_rx (part s));
             err ← submit_loop rx 0;
             if is_ok err then
               ok ← adin2111_SyncConfig;
               if ok : bool then ports_loop adin2111_netdevice_enable_port BmOK [1; 2] else mret BmENODEV
             else mret err
           else mret BmENODEV
         else mret BmENODEV)
    (fun err s' => same_device (part s) (part s') /\ (err = BmOK -> started s')) s.
Proof.
  intros Hrx. total_step. eapply total_mono; [apply init_spec|]. intros [] s1; cycle 1.
  { intros [b E]. total_step. by rewrite E. }
  intros (E1 & E2 & E3 & E4). total_step. eapply total_mono; [apply register_spec|].
  intros [] s2 (F1 & (F2 & _) & F3 & F4); cycle 1.
  { total_step. by rewrite F1, E1. }
  do 2 total_step. total_step. rewrite F1, E1. cbn [ad_rx set_ad_interrupt]. rewrite Hrx.
  eapply total_mono; [apply submit_loop_spec; [lia|by rewrite F3, E3]|]. intros err s3 (G1 & G2 & G3).
  destruct (is_ok err) eqn:Ee; [|total_step; rewrite G1, F1, E1; by split; [|intros ->]].
  destruct err; try discriminate Ee. destruct (G3 eq_refl) as [G4 G5].
  total_step. eapply total_mono; [apply sync_spec|]. intros [] s4 (I1 & (I2 & _) & I3 & I4); cycle 1.
  { total_step. by rewrite I1, G1, F1, E1. }
  eapply total_mono; [apply enable_ports_spec|]. intros err s5 (J1 & J2 & (J3 & J4) & J5). rewrite J1, I1, G1, F1, E1.
  split; [done|]. intros He. unfold started.
  rewrite (J5 He), J1, J2, J3, J4, I1, I2, I3, I4, G1, G2, G4, G5, F1, F2, F4, E1, E2, E4 by done. done.
Qed.

Lemma enable_spec s cbs :
  ad_callbacks (part s) = Some cbs -> ad_rx (part s) = replicate RX_QUEUE_NUM_ENTRIES true ->
  total adin2111_netdevice_enable (fun err s' =>
    same_device (part s) (part s') /\ (err = BmOK -> started s')
    /\ (err <> BmOK -> cb_power cbs = true -> last (ad_calls (part s')) = Some (CallPower false))) s.
Proof.
  intros Ec Hrx. unfold adin2111_netdevice_enable. total_step. eapply total_mono; [by apply power_spec|].
  intros [] s1 ((C1 & R1 & T1 & I1) & _). apply total_assoc. total_step.
  eapply total_mono; [apply driver_start_spec; congruence|]. intros err s2 ((C2 & R2 & T2 & I2) & Hs).
  assert (D : same_device (part s) (part s2)) by (repeat split; congruence).
  total_step. destruct (is_ok err) eqn:Ee; cbn [negb when].
  - do 2 total_step. split; [done|]. split; [done|]. by destruct err.
  - eapply total_mono; [apply power_spec; by rewrite C2, C1|]. intros [] s3 ((C3 & R3 & T3 & I3) & _ & _ & _ & Hp).
    total_step. split; [repeat split; congruence|]. by destruct err.
Qed.

(** The buffers are allocated one after the other; an earlier start may have allocated some. *)
Lemma allocate_spec n i p rest :
  ad_rx p = replicate i true ++ rest -> length rest = n ->
  total (allocate_loop n i) (fun ok p' =>
    ad_callbacks p' = ad_callbacks p /\ ad_tx p' = ad_tx p
    /\ (ok = true -> ad_rx p' = replicate (i + n) true)) p.
Proof.
  revert i p rest. induction n as [|n IH]; intros i p rest Hr Hl; cbn [allocate_loop].
  { repeat total_step. split; [done|]. split; [done|]. intros _. cbn. destruct rest; [|done].
    by rewrite Hr, app_nil_r, Nat.add_0_r. }
  destruct rest as [|b rest]; [done|]. injection Hl as Hl. total_step. unfold dma_malloc_ok, MAX_FRAME_BUF_SIZE.
  cbn [Z.eqb]. apply total_zoom. unfold malloc_ok. destruct (next_answer (os_alloc (ad_os p))) as [ok l] eqn:E.
  exists ok. eexists. split; [by rewrite E|]. repeat total_step. destruct ok; [|by apply total_ret].
  eapply total_mono; [apply (IH _ _ rest)|]; [|done|].
  - cbn. rewrite Hr, insert_app_r_alt by (by rewrite length_replicate). rewrite length_replicate, Nat.sub_diag. cbn.
    by rewrite app_comm_cons, replicate_cons_app, <- app_assoc.
  - intros ok p' (C & T & R). split; [done|]. split; [done|]. intros Ho. rewrite (R Ho). f_equal. lia.
Qed.
(** A start that succeeds leaves the device complete.  [adin2111_init] runs without
    undefined behaviour whatever the driver answers and whichever allocations fail, also
    when it has run before.  When it answers [BmOK], all buffers to receive into are
    allocated and held by the driver, the driver has no frame to send, its interrupt
    is registered and its ports are enabled; and it leaves the frames in memory as they were, which the driver then
    no longer knows. *)
Theorem adin_start metrics_init s :
  length (ad_rx (part s)) = RX_QUEUE_NUM_ENTRIES ->
  (ad_initialized (part s) = true -> ad_rx (part s) = replicate RX_QUEUE_NUM_ENTRIES true) ->
  (forall s, total metrics_init (fun _ s' => unchanged s s') s) ->
  total (adin2111_init metrics_init) (fun err s' =>
    ad_tx (part s') = ad_tx (part s)
    /\ (err = BmOK ->
        ad_rx (part s') = replicate RX_QUEUE_NUM_ENTRIES true /\ rx_held s' = all_buffers /\ tx_held s' = ∅
        /\ some_port s' = true /\ ad_interrupt (part s') = true /\ is_Some (ad_callbacks (part s')))) s.
Proof.
  intros Hl Hi Hm. unfold adin2111_init. do 3 total_step.
  apply (total_mono _ (fun ok s1 => ad_callbacks (part s1) = ad_callbacks (part s) /\ ad_tx (part s1) = ad_tx (part s)
                                    /\ (ok = true -> ad_rx (part s1) = replicate RX_QUEUE_NUM_ENTRIES true))).
  { destruct (ad_initialized (part s)); [apply total_ret; auto|]. apply total_zoom.
    eapply total_mono; [by apply (allocate_spec _ 0 _ (ad_rx (part s)))|]. intros ok p. by rewrite part_set. }
  intros [] s1 (C1 & T1 & R1); [|by apply total_ret]. specialize (R1 eq_refl). total_step. apply total_zoom.
  unfold create_network_device. total_step. set (p := match ad_callbacks _ with None => _ | _ => _ end).
  assert (P : ad_rx p = ad_rx (part s1) /\ ad_tx p = ad_tx (part s1) /\ exists cbs, ad_callbacks p = Some cbs).
  { unfold p. destruct (ad_callbacks (part s1)) eqn:E; repeat split; eauto. }
  destruct P as (R2 & T2 & cbs & C2). total_step.
  eapply total_mono; [apply (enable_spec _ cbs); rewrite part_set; congruence|]. rewrite part_set.
  intros err s2 ((C3 & R3 & T3 & _) & Hs & _). unfold unless_err. destruct (is_ok err) eqn:Ee.
  - destruct err; try discriminate Ee. destruct (Hs eq_refl) as (A1 & A2 & A3 & A4 & A5 & A6).
    eapply total_mono; [apply Hm|]. intros e s3 (E1 & (E2 & _ & E4) & (E3 & E5)). rewrite E1, E2, E3, E4.
    split; [congruence|]. intros _. split_and!; try done. rewrite C3, C2. eauto.
  - apply total_ret. split; [congruence|]. by intros ->.
Qed.
End buffers.

(** ** A driver

    Four frames can be on their way; what happens on the wires is a list; receive buffers
    are refused while the bus is out of order.  A frame that is sent while no port is enabled
    goes nowhere, and the answer is that all went well. *)
Inductive wire : Type := WireSent | WireFrame (port : Z) (data : bytes) | WireLink (p1 p2 : Z).

Record chip : Type := MkChip {
  chip_tx : gmap loc bytes; chip_rx : gset nat; chip_refused : gset nat; chip_ports : bool; chip_bus : list bool;
  chip_wires : list wire; chip_happened : list driver_event; chip_links : list Z
}.

Definition set_chip_tx (tx : gmap loc bytes) (c : chip) : chip :=
  MkChip tx (chip_rx c) (chip_refused c) (chip_ports c) (chip_bus c) (chip_wires c) (chip_happened c) (chip_links c).
Definition set_chip_ports (b : bool) (c : chip) : chip :=
  MkChip (chip_tx c) (chip_rx c) (chip_refused c) b (chip_bus c) (chip_wires c) (chip_happened c) (chip_links c).
Definition set_chip_wires (ws : list wire) (links : list Z) (c : chip) : chip :=
  MkChip (chip_tx c) (chip_rx c) (chip_refused c) (chip_ports c) (chip_bus c) ws (chip_happened c) links.

Definition chip_node : Type := adin * chip.

Definition on_chip {A} (f : chip -> A * chip) : M chip_node A := fun s => let '(a, c) := f s.2 in Some (a, (s.1, c)).

(** The chip is given a buffer to receive into. *)
Definition chip_submit_rx (i : nat) (c : chip) : bool * chip :=
  let '(ok, bus) := next_answer (chip_bus c) in
  if ok then (true, MkChip (chip_tx c) ({[i]} ∪ chip_rx c) (chip_refused c) (chip_ports c) bus (chip_wires c) (chip_happened c) (chip_links c))
  else (false, MkChip (chip_tx c) (chip_rx c) ({[i]} ∪ chip_refused c) (chip_ports c) bus (chip_wires c) (chip_happened c) (chip_links c)).

Definition chip_submit_tx (desc : loc) (data : bytes) (c : chip) : bool * chip :=
  if negb (chip_ports c) then (true, c)
  else if (size (chip_tx c) <? 4)%nat then (true, set_chip_tx (<[desc := data]> (chip_tx c)) c) else (false, c).

(** What happens next. *)
Definition chip_event (c : chip) : option driver_event * chip :=
  let '(w, ws) := match chip_wires c with [] => (None, []) | w :: ws => (Some w, ws) end in
  let '(e, tx, rx) :=
    match w with
    | None => (None, chip_tx c, chip_rx c)
    | Some (WireLink p1 p2) => (Some (LinkChange p1 p2), chip_tx c, chip_rx c)
    | Some WireSent =>
        match map_to_list (chip_tx c) with
        | [] => (None, chip_tx c, chip_rx c)
        | (d, _) :: _ => (Some (TxComplete d), delete d (chip_tx c), chip_rx c)
        end
    | Some (WireFrame port data) =>
        match filter (fun i => i ∈ chip_rx c) (seq 0 RX_QUEUE_NUM_ENTRIES) with
        | [] => (None, chip_tx c, chip_rx c)
        | i :: _ => (Some (Receive i (port mod 2) data), chip_tx c, chip_rx c ∖ {[i]})
        end
    end in
  (e, MkChip tx rx (chip_refused c) (chip_ports c) (chip_bus c) ws (chip_happened c ++ option_list e) (chip_links c)).

#[local] Instance chip_driver : AdinDriver chip_node := {
  adin2111_Init := fun s =>
    Some (true, (set_ad_interrupt true s.1,
                 MkChip ∅ ∅ ∅ false (chip_bus s.2) (chip_wires s.2) (chip_happened s.2) (chip_links s.2)));
  adin2111_RegisterCallback := mret true;
  adin2111_SubmitRxBuffer i := on_chip (chip_submit_rx i);
  adin2111_SyncConfig := mret true;
  adin2111_EnablePort _ := on_chip (fun c => (true, set_chip_ports true c));
  adin2111_DisablePort _ := on_chip (fun c => (true, set_chip_ports false c));
  adin2111_SubmitTxBuffer _ desc data := on_chip (chip_submit_tx desc data);
  phy_GetAnStatus _ := mret (true, MkAnStatus true 0 ADI_PHY_AN_MS_RESOLUTION_FAULT 0);
  phy_Renegotiate _ := mret true;
  adin2111_GetLinkStatus port := on_chip (fun c => ((true, default 0 (chip_links c !! Z.to_nat port)), c));
  adin2111_GetMseLinkQuality _ := mret (true, MkQuality 0 0 0);
  adin2111_FrameChkReadRxErrCnt _ := mret (true, 0);
  adin2111_FrameChkReadErrorCnt _ := mret (true, error_counters_zero);
  adin2111_FrameChkReadFrameCnt _ := mret (true, 0);
  adin2111_GetStatCounters _ := mret (true, mac_counters_zero);
  driver_interrupt := on_chip (fun c => (length (chip_wires c), c));
  driver_next := on_chip chip_event
}.

Lemma on_chip_total {A} (f : chip -> A * chip) (Q : A -> chip_node -> Prop) s :
  Q (f s.2).1 (s.1, (f s.2).2) -> total (on_chip f) Q s.
Proof. intros HQ. unfold total, on_chip. destruct (f s.2) as [a c]. eauto. Qed.

#[local] Instance chip_laws : AdinDriverLaws chip_node.
Proof.
  refine {| tx_held s := chip_tx s.2; rx_held s := chip_rx s.2; rx_refused s := chip_refused s.2;
            happened s := chip_happened s.2; some_port s := chip_ports s.2 |};
    try (intros; apply total_ret; done); try (intros; apply on_chip_total; done).
  - done.
  - intros i s _ _. apply on_chip_total. unfold chip_submit_rx.
    by destruct (next_answer (chip_bus s.2)) as [[] bus].
  - intros port desc data s _. apply on_chip_total. unfold chip_submit_tx.
    destruct (chip_ports s.2) eqn:E; cbn; [|by rewrite E].
    case_match; cbn; by rewrite ?E.
  - intros [p [tx rx rf po bus ws es links]]. apply on_chip_total. cbn. unfold chip_event. cbn [chip_wires chip_tx chip_rx].
    destruct ws as [|[|port data|p1 p2] ws]; [done| | |done].
    + destruct (map_to_list tx) as [|[d x] l] eqn:E; [done|]. do 4 (split; [done|]). cbn.
      split; [|done]. apply elem_of_dom. exists x. apply elem_of_map_to_list. rewrite E. apply list_elem_of_here.
    + destruct (filter _ _) as [|i l] eqn:E; [done|]. do 4 (split; [done|]). cbn.
      assert (Hi : i ∈ filter (fun i => i ∈ rx) (seq 0 RX_QUEUE_NUM_ENTRIES)) by (rewrite E; apply list_elem_of_here).
      apply list_elem_of_filter in Hi as [Hi Hs]. apply elem_of_seq in Hs. split; [done|]. split; [unfold RX_QUEUE_NUM_ENTRIES in *; lia|].
      split; [|done]. apply Z.mod_pos_bound. done.
Defined.

Definition adin_zero : adin :=
  MkAdin None false (replicate RX_QUEUE_NUM_ENTRIES false) ∅ false false 0 [] (MkOs [] [] 0).

(** Layer 2 has started the device. *)
Definition adin_up (tx_buffers : gmap loc bytes) (calls : list device_call) (mask : Z) : adin :=
  MkAdin (Some (MkCallbacks false true true false)) true (replicate RX_QUEUE_NUM_ENTRIES true) tx_buffers true false
    mask calls (MkOs [] [] 0).

Definition chip_up (ws : list wire) (links : list Z) : chip :=
  MkChip ∅ (set_seq 0 RX_QUEUE_NUM_ENTRIES) ∅ true [] ws [] links.

Definition ready_node (ws : list wire) (links : list Z) : chip_node := (adin_up ∅ [] 0, chip_up ws links).

Lemma ready_node_ready ws links : ready (ready_node ws links).
Proof. split; [by eexists|done..]. Qed.

(** Two frames are sent, one of them is on its way; one comes in; a link changes. *)
Definition traffic : list adin_op := [OpSend [1; 2; 3] 1; OpSend [4] 0; OpInterrupt; OpSend [] 2].
Definition traffic_wires : list wire := [WireSent; WireFrame 1 [7; 8]; WireLink ADI_PHY_EVT_LINK_STAT_CHANGE 0].

Lemma adin_traffic_witness :
  ready (ready_node traffic_wires [1; 0])
  /\ total (adin_run traffic) (fun _ s' =>
       ready s' /\ ad_tx (part s') = tx_held s' /\ rx_buffers s' = rx_buffers (ready_node traffic_wires [1; 0])
       /\ exists new, happened s' = happened (ready_node traffic_wires [1; 0]) ++ new
                      /\ received (ad_calls (part s'))
                         = received (ad_calls (part (ready_node traffic_wires [1; 0]))) ++ frames new)
       (ready_node traffic_wires [1; 0]).
Proof.
  split; [apply ready_node_ready|]. apply (adin_traffic traffic). apply ready_node_ready.
Defined.

(** What is left of it. *)
Example traffic_result :
  (fun r => (ad_calls r.2.1, size (ad_tx r.2.1))) <$> adin_run traffic (ready_node traffic_wires [1; 0])
  = Some ([CallReceive 2 [7; 8]; CallLinkChange 0 true], 1%nat).
Proof. by vm_compute. Qed.

Lemma adin_start_witness :
  length (ad_rx (part (adin_zero, chip_up [] []))) = RX_QUEUE_NUM_ENTRIES
  /\ total (adin2111_init (mret BmOK)) (fun err s' =>
       ad_tx (part s') = ad_tx (part (adin_zero, chip_up [] []))
       /\ (err = BmOK ->
           ad_rx (part s') = replicate RX_QUEUE_NUM_ENTRIES true /\ rx_held s' = all_buffers /\ tx_held s' = ∅
           /\ some_port s' = true /\ ad_interrupt (part s') = true /\ is_Some (ad_callbacks (part s')))) (adin_zero, chip_up [] []).
Proof.
  split; [reflexivity|]. apply (adin_start (mret BmOK)); [reflexivity|discriminate|].
  intros s. apply total_ret. repeat split.
Defined.

(** ** Defects *)

(** A frame that the driver refuses, for lack of room, is sent as far as the caller can
    see. *)
Definition full_node : chip_node :=
  default (ready_node [] []) (snd <$> adin_run (replicate 4 (OpSend [1] 1)) (ready_node [] [])).

Example refused_frame_is_ok :
  (fun r => (r.1, size (ad_tx r.2.1), size (chip_tx r.2.2))) <$> adin2111_netdevice_send [2] 1 full_node
  = Some (BmOK, 4%nat, 4%nat).
Proof. by vm_compute. Qed.

(** With no port enabled the driver answers that all went well and does not take the
    frame: the caller sees a frame that is sent, and its copy stays in memory for good. *)
Example no_port_leaks :
  (fun r => (r.1, size (ad_tx r.2.1), size (chip_tx r.2.2)))
  <$> adin2111_netdevice_send [1; 2] 0 (adin_up ∅ [] 0, set_chip_ports false (chip_up [] []))
  = Some (BmOK, 1%nat, 0%nat).
Proof. by vm_compute. Qed.

(** A buffer that the driver refuses when it is given back is never offered again: of the
    eight buffers seven are left. *)
Definition bus_fails : chip_node :=
  (adin_up ∅ [] 0, MkChip ∅ (set_seq 0 RX_QUEUE_NUM_ENTRIES) ∅ true [false] [WireFrame 0 [1]; WireFrame 1 [2]] [] []).

Example refused_buffer_is_lost :
  (fun r => (received (ad_calls r.2.1), size (chip_rx r.2.2), elements (chip_refused r.2.2)))
  <$> adin2111_handle_interrupt bus_fails
  = Some ([(1, [1]); (2, [2])], 7%nat, [0]%nat).
Proof. by vm_compute. Qed.

(** The mask of changed ports is never cleared: after a change of the first port, a
    change of the second one reports the first again. *)
Definition two_changes : chip_node := ready_node [WireLink ADI_PHY_EVT_LINK_STAT_CHANGE 0] [1; 1].
Definition next_change (s : chip_node) : chip_node :=
  (s.1, set_chip_wires [WireLink 0 ADI_PHY_EVT_LINK_STAT_CHANGE] [1; 0] s.2).

Example stale_port_reported :
  (fun r => ad_calls r.2.1)
  <$> (_ ← adin2111_handle_interrupt; _ ← modify next_change; adin2111_handle_interrupt) two_changes
  = Some [CallLinkChange 0 true; CallLinkChange 0 true; CallLinkChange 1 false].
Proof. by vm_compute. Qed.

(** A change that comes with another event of the port is not seen: bit 12 is a
    reset of the port. *)
Example change_with_other_event :
  (fun r => ad_calls r.2.1)
  <$> adin2111_handle_interrupt (ready_node [WireLink (Z.lor ADI_PHY_EVT_LINK_STAT_CHANGE (Z.shiftl 1 12)) 0] [1; 1])
  = Some [].
Proof. by vm_compute. Qed.

(** When the device is powered again, the frames that it had not sent stay in memory. *)
Example power_cycle_leaks :
  (fun r => (r.1, size (ad_tx r.2.1), size (chip_tx r.2.2)))
  <$> (_ ← adin2111_netdevice_disable; adin2111_netdevice_enable) full_node = Some (BmOK, 4%nat, 0%nat).
Proof. by vm_compute. Qed.

(** Without a memory for the last buffer nothing is started, and the next start allocates
    all buffers again: fifteen allocations for eight buffers. *)
Definition short_node : chip_node :=
  (set_ad_os (MkOs (replicate 7 true ++ [false] ++ replicate 8 true ++ [false]) [] 0) adin_zero, chip_up [] []).

Example second_start_allocates_again :
  (fun r => (r.1, ad_rx r.2.1, os_alloc (ad_os r.2.1)))
  <$> (_ ← adin2111_init (mret BmOK); adin2111_init (mret BmOK)) short_node
  = Some (BmOK, replicate 8 true, [false]).
Proof. by vm_compute. Qed.
