(* ===== verification/Dfu.v ===== *)
(** * Firmware updates, the shared part: src/bcmp/dfu.h, dfu_message_structs.h
    and the functions of dfu_core.c that the client and the host call

    The state of the three files, the messages, the event queue with the buffers
    that the events own, and the platform's functions of bm_dfu_generic.h, which
    are not part of the repository and are operations of the environment [E]. *)
From S2P Require Import Prelude Util LinkedList Os Packet LibSm.

(** ** Constants and messages *)

Definition bm_dfu_max_chunk_size : Z := 1024.
Definition bm_dfu_max_chunk_retries : Z := 5.
Definition bm_img_page_length : Z := 2048.
Definition DFU_REBOOT_MAGIC : Z := 0xBADC0FFE.
Definition BM_DFU_IMG_INFO_FORCE_UPDATE : Z := 0x4CEDc0fe.
Definition dfu_event_queue_len : nat := 5.

(** [BmDfuErr]: a number, since errors arrive in messages too. *)
Definition BmDfuErrNone : Z := 0.
Definition BmDfuErrTooLarge : Z := 1.
Definition BmDfuErrSameVer : Z := 2.
Definition BmDfuErrMismatchLen : Z := 3.
Definition BmDfuErrBadCrc : Z := 4.
Definition BmDfuErrImgChunkAccess : Z := 5.
Definition BmDfuErrTimeout : Z := 6.
Definition BmDfuErrBmFrame : Z := 7.
Definition BmDfuErrAborted : Z := 8.
Definition BmDfuErrWrongVer : Z := 9.
Definition BmDfuErrInProgress : Z := 10.
Definition BmDfuErrChunkSize : Z := 11.
Definition BmDfuErrConfirmationAbort : Z := 13.
Definition BmDfuErrFlashAccess : Z := 14.

Definition BcmpDFUStartMessage : Z := 0xD0.
Definition BcmpDFUPayloadReqMessage : Z := 0xD1.
Definition BcmpDFUPayloadMessage : Z := 0xD2.
Definition BcmpDFUEndMessage : Z := 0xD3.
Definition BcmpDFUAckMessage : Z := 0xD4.
Definition BcmpDFUAbortMessage : Z := 0xD5.
Definition BcmpDFUHeartbeatMessage : Z := 0xD6.
Definition BcmpDFURebootReqMessage : Z := 0xD7.
Definition BcmpDFURebootMessage : Z := 0xD8.
Definition BcmpDFUBootCompleteMessage : Z := 0xD9.
Definition BcmpDFULastMessageMessage : Z := BcmpDFUBootCompleteMessage.

Inductive BmDfuHfsmStates : Type :=
| BmDfuStateInit | BmDfuStateIdle | BmDfuStateError
| BmDfuStateClientReceiving | BmDfuStateClientValidating | BmDfuStateClientRebootReq
| BmDfuStateClientRebootDone | BmDfuStateClientActivating
| BmDfuStateHostReqUpdate | BmDfuStateHostUpdate.

#[export] Instance BmDfuHfsmStates_eq_dec : EqDecision BmDfuHfsmStates.
Proof. solve_decision. Defined.

Inductive BmDfuEvtType : Type :=
| DfuEventNone | DfuEventInitSuccess | DfuEventReceivedUpdateRequest | DfuEventChunkRequest
| DfuEventImageChunk | DfuEventUpdateEnd | DfuEventAckReceived | DfuEventAckTimeout
| DfuEventChunkTimeout | DfuEventHeartbeat | DfuEventAbort | DfuEventBeginHost
| DfuEventRebootRequest | DfuEventReboot | DfuEventBootComplete.

Record BmDfuImgInfo : Type := MkImgInfo {
  ii_image_size : Z; ii_chunk_size : Z; ii_crc16 : Z;
  ii_major_ver : Z; ii_minor_ver : Z; ii_filter_key : Z; ii_gitSHA : Z
}.

Definition sizeof_BmDfuImgInfo : nat := 18.
Definition DFU_IMG_START_OFFSET_BYTES : Z := Z.of_nat sizeof_BmDfuImgInfo.

Record BmDfuEvent : Type := MkDfuEvent {
  ev_type : BmDfuEvtType; ev_buf : option loc; ev_len : Z
}.

(** What an event's buffer holds: a message, followed in a [DfuHostStartEvent] by
    the callback and the time-out of the host. *)
Record DfuBuf : Type := MkDfuBuf {
  db_frame : bytes; db_finish_cb : option nat; db_timeout_ms : Z
}.

Record ReboootClientUpdateInfo : Type := MkRebootInfo {
  ri_magic : Z; ri_major : Z; ri_minor : Z; ri_host_node_id : Z; ri_gitSHA : Z
}.

Definition reboot_info_zero : ReboootClientUpdateInfo := MkRebootInfo 0 0 0 0 0.

(** Offsets in the packed messages: the header is followed by the addresses, and
    those by the message's own fields. *)
Definition frame_type_offset : nat := 0.
Definition src_node_id_offset : nat := 1.
Definition dst_node_id_offset : nat := 9.
Definition fields_offset : nat := 17.

Section messages.
Context `{Platform}.

(** [BmDfuFrameHeader] and [BmDfuEventAddress]. *)
Definition dfu_header (frame_type src dst : Z) : bytes :=
  [u8 frame_type] ++ native_store 8 src ++ native_store 8 dst.

Definition img_info_store (i : BmDfuImgInfo) : bytes :=
  native_store 4 (ii_image_size i) ++ native_store 2 (ii_chunk_size i)
  ++ native_store 2 (ii_crc16 i) ++ [u8 (ii_major_ver i); u8 (ii_minor_ver i)]
  ++ native_store 4 (ii_filter_key i) ++ native_store 4 (ii_gitSHA i).

Definition img_info_load (b : bytes) : BmDfuImgInfo :=
  MkImgInfo (native_load (slice 0 4 b)) (native_load (slice 4 2 b)) (native_load (slice 6 2 b))
    (nth 8 b 0) (nth 9 b 0) (native_load (slice 10 4 b)) (native_load (slice 14 4 b)).

(** [BmDfuEventResult]: of an acknowledgement, an end or an abort. *)
Definition dfu_result (frame_type src dst success err_code : Z) : bytes :=
  dfu_header frame_type src dst ++ [u8 success; u8 err_code].

Definition dfu_payload_req (src dst seq_num : Z) : bytes :=
  dfu_header BcmpDFUPayloadReqMessage src dst ++ native_store 2 seq_num.

Definition dfu_payload (src dst : Z) (chunk : bytes) : bytes :=
  dfu_header BcmpDFUPayloadMessage src dst ++ native_store 2 (Z.of_nat (length chunk)) ++ chunk.

Definition dfu_start (src dst : Z) (i : BmDfuImgInfo) : bytes :=
  dfu_header BcmpDFUStartMessage src dst ++ img_info_store i.

(** A field of a message, an unsigned integer of [n] octets; [None] outside the
    buffer. *)
Definition field (off n : nat) (f : bytes) : option Z :=
  (fun b => wrap (8 * Z.of_nat n) (native_load b)) <$> read_at off n f.
End messages.

(** ** The platform *)

Class DfuPlatform (E : Type) : Type := {
  dfu_bcmp_tx : option BmIpAddr -> Z -> option bytes -> Z -> Z -> option nat -> M E BmErr;
  dfu_ll_forward : option BcmpHeader -> option bytes -> Z -> Z -> M E BmErr;
  bm_dfu_client_set_confirmed : M E unit;
  bm_dfu_client_set_pending_and_reset : M E unit;
  bm_dfu_client_fail_update_and_reset : M E unit;
  bm_dfu_client_flash_area_open : M E (BmErr * option loc);
  bm_dfu_client_flash_area_close : option loc -> M E unit;
  bm_dfu_client_flash_area_write : option loc -> Z -> bytes -> M E BmErr;
  bm_dfu_client_flash_area_erase : option loc -> Z -> Z -> M E BmErr;
  bm_dfu_client_flash_area_get_size : option loc -> M E Z;
  (** the offset, the length and the time-out; as many bytes when it succeeds *)
  bm_dfu_host_get_chunk : Z -> Z -> Z -> M E (BmErr * bytes);
  bm_dfu_core_lpm_peripheral_active : M E unit;
  bm_dfu_core_lpm_peripheral_inactive : M E unit;
  (** the configuration's [dfu_confirm], and setting and saving it *)
  dfu_confirm_get : M E (option Z);
  dfu_confirm_set : Z -> M E unit;
  (** the callback of an update *)
  dfu_update_finish : nat -> bool -> Z -> Z -> M E unit;
  (** the stream buffer of an image that comes from outside *)
  dfu_stream_create : Z -> M E (option loc);
  dfu_stream_delete : loc -> M E unit;
  dfu_stream_receive : loc -> Z -> Z -> M E (BmErr * bytes);
  dfu_stream_send : loc -> bytes -> Z -> M E BmErr;
  (** queueing [send_hb_timer_cb] for the task of the timer callbacks *)
  dfu_timer_cb_send : M E bool;
  (** what a new buffer holds *)
  dfu_uninit : nat -> Z;
  (** [git_sha] of the running image, [node_id] *)
  git_sha : Z;
  dfu_node_id : Z
}.

(** A timer: [None] when it could not be created, else whether it runs. *)
Definition BmTimer : Type := option bool.

(** ** State *)

Record dfu_core_ctx_t : Type := MkDfuCore {
  sm_ctx : LibSmContext BmDfuHfsmStates unit;
  current_event : BmDfuEvent;
  pending_state_change : bool;
  new_state : BmDfuHfsmStates;
  error : Z;
  self_node_id : Z;
  client_node_id : Z;
  update_finish_callback : option nat;
  internal : bool
}.

(** [dfu_event_queue] and the buffers of its events belong to the whole. *)
Record DfuClientCtx : Type := MkDfuClient {
  c_image_size : Z; c_num_chunks : Z; c_crc16 : Z; c_running_crc16 : Z;
  c_chunk_length : Z;
  c_fa : option loc; c_img_page_byte_counter : Z; c_img_flash_offset : Z;
  c_img_page_buf : bytes;
  c_chunk_retry_num : Z; c_current_chunk : Z; c_chunk_timer : BmTimer;
  c_self_node_id : Z; c_host_node_id : Z
}.

Record dfu_host_ctx_t : Type := MkDfuHost {
  h_ack_timer : BmTimer; h_ack_retry_num : Z; h_heartbeat_timer : BmTimer;
  h_img_info : BmDfuImgInfo; h_self_node_id : Z; h_client_node_id : Z;
  h_bytes_remaining : Z; h_update_complete_callback : option nat;
  h_update_timer : BmTimer; h_host_timeout_ms : Z; h_data_queue : option loc
}.

(** The operating system: whether the next allocations succeed, and what the next
    operations on timers that exist answer. *)
Record DfuOs : Type := MkDfuOs { do_alloc : list bool; do_timer : list BmErr }.

Record dfu_state (E : Type) : Type := MkDfu {
  dfu_ctx : dfu_core_ctx_t;
  CLIENT_CTX : DfuClientCtx;
  host_ctx : dfu_host_ctx_t;
  client_update_reboot_info : ReboootClientUpdateInfo;
  dfu_event_queue : option (list BmDfuEvent);
  dfu_heap : gmap loc DfuBuf;
  dfu_os : DfuOs;
  dfu_env : E
}.
Arguments MkDfu {E}. Arguments dfu_ctx {E}. Arguments CLIENT_CTX {E}. Arguments host_ctx {E}.
Arguments client_update_reboot_info {E}. Arguments dfu_event_queue {E}.
Arguments dfu_heap {E}. Arguments dfu_os {E}. Arguments dfu_env {E}.

Section dfu.
Context {E : Type} `{Platform} `{DfuPlatform E}.
#[local] Abbreviation st := (dfu_state E).

Definition set_core (f : dfu_core_ctx_t -> dfu_core_ctx_t) (s : st) : st :=
  MkDfu (f (dfu_ctx s)) (CLIENT_CTX s) (host_ctx s) (client_update_reboot_info s)
    (dfu_event_queue s) (dfu_heap s) (dfu_os s) (dfu_env s).
Definition set_client (f : DfuClientCtx -> DfuClientCtx) (s : st) : st :=
  MkDfu (dfu_ctx s) (f (CLIENT_CTX s)) (host_ctx s) (client_update_reboot_info s)
    (dfu_event_queue s) (dfu_heap s) (dfu_os s) (dfu_env s).
Definition set_host (f : dfu_host_ctx_t -> dfu_host_ctx_t) (s : st) : st :=
  MkDfu (dfu_ctx s) (CLIENT_CTX s) (f (host_ctx s)) (client_update_reboot_info s)
    (dfu_event_queue s) (dfu_heap s) (dfu_os s) (dfu_env s).
Definition set_reboot_info (r : ReboootClientUpdateInfo) (s : st) : st :=
  MkDfu (dfu_ctx s) (CLIENT_CTX s) (host_ctx s) r
    (dfu_event_queue s) (dfu_heap s) (dfu_os s) (dfu_env s).
Definition set_dfu_queue (q : option (list BmDfuEvent)) (s : st) : st :=
  MkDfu (dfu_ctx s) (CLIENT_CTX s) (host_ctx s) (client_update_reboot_info s)
    q (dfu_heap s) (dfu_os s) (dfu_env s).
Definition set_dfu_heap (h : gmap loc DfuBuf) (s : st) : st :=
  MkDfu (dfu_ctx s) (CLIENT_CTX s) (host_ctx s) (client_update_reboot_info s)
    (dfu_event_queue s) h (dfu_os s) (dfu_env s).
Definition set_dfu_os (o : DfuOs) (s : st) : st :=
  MkDfu (dfu_ctx s) (CLIENT_CTX s) (host_ctx s) (client_update_reboot_info s)
    (dfu_event_queue s) (dfu_heap s) o (dfu_env s).
Definition set_dfu_env (e : E) (s : st) : st :=
  MkDfu (dfu_ctx s) (CLIENT_CTX s) (host_ctx s) (client_update_reboot_info s)
    (dfu_event_queue s) (dfu_heap s) (dfu_os s) e.

Definition env {A} (m : M E A) : M st A := zoom dfu_env set_dfu_env m.

(** *** Memory, timers and the event queue *)

Definition dfu_malloc (b : DfuBuf) : M st (option loc) := fun s =>
  let '(ok, l) := next_answer (do_alloc (dfu_os s)) in
  let s := set_dfu_os (MkDfuOs l (do_timer (dfu_os s))) s in
  if ok : bool then
    let p := fresh (dom (dfu_heap s)) in
    Some (Some p, set_dfu_heap (<[p := b]> (dfu_heap s)) s)
  else Some (None, s).

(** Freeing what is not allocated is undefined. *)
Definition dfu_free (p : loc) : M st unit := fun s =>
  match dfu_heap s !! p with
  | Some _ => Some (tt, set_dfu_heap (delete p (dfu_heap s)) s)
  | None => None
  end.

Definition deref_buf (p : loc) : M st DfuBuf := s ← get; lift (dfu_heap s !! p).

(** [bm_timer_start], [bm_timer_stop] and, with a time that is not followed,
    [bm_timer_change_period], which starts the timer. *)
Definition timer_set (running : bool) (t : BmTimer) : M st (BmErr * BmTimer) := fun s =>
  match t with
  | None => Some ((BmEINVAL, t), s)
  | Some _ =>
      let '(err, l) := match do_timer (dfu_os s) with [] => (BmOK, []) | e :: l => (e, l) end in
      Some ((err, if is_ok err then Some running else t),
            set_dfu_os (MkDfuOs (do_alloc (dfu_os s)) l) s)
  end.

Definition bm_queue_send (evt : BmDfuEvent) : M st BmErr := fun s =>
  match dfu_event_queue s with
  | None => Some (BmEINVAL, s)
  | Some q => if (length q <? dfu_event_queue_len)%nat
              then Some (BmOK, set_dfu_queue (Some (q ++ [evt])) s)
              else Some (BmENOMEM, s)
  end.

(** *** Functions of dfu_core.c that the client and the host call *)

Definition bm_dfu_send_nop_event : M st unit :=
  _ ← bm_queue_send (MkDfuEvent DfuEventNone None 0); mret tt.

Definition bm_dfu_get_current_event : M st BmDfuEvent := gets (fun s => current_event (dfu_ctx s)).

Definition bm_dfu_set_error (err : Z) : M st unit :=
  modify (set_core (fun c => MkDfuCore (sm_ctx c) (current_event c) (pending_state_change c)
    (new_state c) err (self_node_id c) (client_node_id c) (update_finish_callback c) (internal c))).

Definition bm_dfu_set_pending_state_change (new : BmDfuHfsmStates) : M st unit :=
  _ ← modify (set_core (fun c => MkDfuCore (sm_ctx c) (current_event c) true
        new (error c) (self_node_id c) (client_node_id c) (update_finish_callback c) (internal c)));
  bm_dfu_send_nop_event.

Definition bm_dfu_internal : M st bool := gets (fun s => internal (dfu_ctx s)).

(** The common part of the functions that send a message: what [bcmp_tx] answers
    is printed only. *)
Definition dfu_send (frame_type : Z) (message : bytes) : M st BmErr :=
  env (dfu_bcmp_tx (Some multicast_global_addr) frame_type (Some message)
         (u16 (Z.of_nat (length message))) 0 None).

Definition bm_dfu_send_ack (dst_node_id success err_code : Z) : M st unit :=
  self ← gets (fun s => self_node_id (dfu_ctx s));
  _ ← dfu_send BcmpDFUAckMessage (dfu_result BcmpDFUAckMessage self dst_node_id success err_code);
  mret tt.

Definition bm_dfu_req_next_chunk (dst_node_id chunk_num : Z) : M st unit :=
  self ← gets (fun s => self_node_id (dfu_ctx s));
  _ ← dfu_send BcmpDFUPayloadReqMessage (dfu_payload_req self dst_node_id chunk_num);
  mret tt.

Definition bm_dfu_update_end (dst_node_id success err_code : Z) : M st unit :=
  self ← gets (fun s => self_node_id (dfu_ctx s));
  _ ← dfu_send BcmpDFUEndMessage (dfu_result BcmpDFUEndMessage self dst_node_id success err_code);
  mret tt.

Definition bm_dfu_send_heartbeat (dst_node_id : Z) : M st unit :=
  self ← gets (fun s => self_node_id (dfu_ctx s));
  _ ← dfu_send BcmpDFUHeartbeatMessage (dfu_header BcmpDFUHeartbeatMessage self dst_node_id);
  mret tt.
End dfu.
