(* ===== verification/DfuClient.v ===== *)
(** * Firmware updates, the client: src/bcmp/dfu_client.c

    The functions of the client's states, which receive an image in chunks, write
    it to flash page by page and have it activated. *)
From S2P Require Import Prelude Util LinkedList Crc Os Packet LibSm Dfu.

Section client.
Context {E : Type} `{Platform} `{DfuPlatform E}.
#[local] Abbreviation st := (dfu_state E).

Definition client : M st DfuClientCtx := gets CLIENT_CTX.

(** Updates of fields of [CLIENT_CTX]. *)
Definition set_c_chunk_timer (t : BmTimer) : M st unit :=
  modify (set_client (fun c => MkDfuClient (c_image_size c) (c_num_chunks c) (c_crc16 c)
    (c_running_crc16 c) (c_chunk_length c) (c_fa c) (c_img_page_byte_counter c)
    (c_img_flash_offset c) (c_img_page_buf c) (c_chunk_retry_num c) (c_current_chunk c) t
    (c_self_node_id c) (c_host_node_id c))).
Definition set_c_host_node_id (n : Z) : M st unit :=
  modify (set_client (fun c => MkDfuClient (c_image_size c) (c_num_chunks c) (c_crc16 c)
    (c_running_crc16 c) (c_chunk_length c) (c_fa c) (c_img_page_byte_counter c)
    (c_img_flash_offset c) (c_img_page_buf c) (c_chunk_retry_num c) (c_current_chunk c)
    (c_chunk_timer c) (c_self_node_id c) n)).
Definition set_c_retry (n : Z) : M st unit :=
  modify (set_client (fun c => MkDfuClient (c_image_size c) (c_num_chunks c) (c_crc16 c)
    (c_running_crc16 c) (c_chunk_length c) (c_fa c) (c_img_page_byte_counter c)
    (c_img_flash_offset c) (c_img_page_buf c) n (c_current_chunk c) (c_chunk_timer c)
    (c_self_node_id c) (c_host_node_id c))).
Definition set_c_image (size chunks crc : Z) : M st unit :=
  modify (set_client (fun c => MkDfuClient size chunks crc
    (c_running_crc16 c) (c_chunk_length c) (c_fa c) (c_img_page_byte_counter c)
    (c_img_flash_offset c) (c_img_page_buf c) (c_chunk_retry_num c) (c_current_chunk c)
    (c_chunk_timer c) (c_self_node_id c) (c_host_node_id c))).
Definition set_c_fa (fa : option loc) : M st unit :=
  modify (set_client (fun c => MkDfuClient (c_image_size c) (c_num_chunks c) (c_crc16 c)
    (c_running_crc16 c) (c_chunk_length c) fa (c_img_page_byte_counter c)
    (c_img_flash_offset c) (c_img_page_buf c) (c_chunk_retry_num c) (c_current_chunk c)
    (c_chunk_timer c) (c_self_node_id c) (c_host_node_id c))).
Definition set_c_page (counter offset : Z) (buf : bytes) : M st unit :=
  modify (set_client (fun c => MkDfuClient (c_image_size c) (c_num_chunks c) (c_crc16 c)
    (c_running_crc16 c) (c_chunk_length c) (c_fa c) counter offset buf
    (c_chunk_retry_num c) (c_current_chunk c) (c_chunk_timer c)
    (c_self_node_id c) (c_host_node_id c))).
Definition set_c_running (crc len : Z) : M st unit :=
  modify (set_client (fun c => MkDfuClient (c_image_size c) (c_num_chunks c) (c_crc16 c)
    crc len (c_fa c) (c_img_page_byte_counter c) (c_img_flash_offset c) (c_img_page_buf c)
    (c_chunk_retry_num c) (c_current_chunk c) (c_chunk_timer c)
    (c_self_node_id c) (c_host_node_id c))).
Definition set_c_chunk (current retry : Z) : M st unit :=
  modify (set_client (fun c => MkDfuClient (c_image_size c) (c_num_chunks c) (c_crc16 c)
    (c_running_crc16 c) (c_chunk_length c) (c_fa c) (c_img_page_byte_counter c)
    (c_img_flash_offset c) (c_img_page_buf c) retry current (c_chunk_timer c)
    (c_self_node_id c) (c_host_node_id c))).

(** [bm_timer_start(CLIENT_CTX.chunk_timer, 10)], and the same with stop. *)
Definition chunk_timer_set (running : bool) : M st BmErr :=
  c ← client;
  '(err, t) ← timer_set running (c_chunk_timer c);
  _ ← set_c_chunk_timer t;
  mret err.

(** ** Messages *)

Definition bm_dfu_client_abort (err_code : Z) : M st unit :=
  c ← client;
  _ ← dfu_send BcmpDFUAbortMessage
        (dfu_result BcmpDFUAbortMessage (c_self_node_id c) (c_host_node_id c) 0 err_code);
  mret tt.

Definition bm_dfu_client_send_reboot_request : M st unit :=
  c ← client;
  _ ← dfu_send BcmpDFURebootReqMessage
        (dfu_header BcmpDFURebootReqMessage (c_self_node_id c) (c_host_node_id c));
  mret tt.

Definition bm_dfu_client_send_boot_complete (host_node_id : Z) : M st unit :=
  c ← client;
  _ ← dfu_send BcmpDFUBootCompleteMessage
        (dfu_header BcmpDFUBootCompleteMessage (c_self_node_id c) host_node_id);
  mret tt.

Definition bm_dfu_client_confirm_is_enabled : M st bool :=
  v ← env dfu_confirm_get; mret (default 1 v =? 1).

Definition bm_dfu_client_confirm_enable (en : bool) : M st unit :=
  env (dfu_confirm_set (if en then 1 else 0)).

Definition chunk_timer_handler : M st unit :=
  _ ← bm_queue_send (MkDfuEvent DfuEventChunkTimeout None 0); mret tt.

Definition bm_dfu_client_transition_to_error (err : Z) : M st unit :=
  _ ← chunk_timer_set false;
  _ ← bm_dfu_set_error err;
  bm_dfu_set_pending_state_change BmDfuStateError.

Definition bm_dfu_client_fail_update_and_reboot : M st unit :=
  _ ← modify (set_reboot_info reboot_info_zero);
  env bm_dfu_client_fail_update_and_reset.

(** The macro of the same name: [None] when the function goes on, with [err]
    [BmOK]. *)
Definition timer_err_check_and_return (m : M st BmErr) (k : M st BmErr) : M st BmErr :=
  err ← m;
  if is_ok err then k
  else _ ← bm_dfu_client_transition_to_error BmDfuErrAborted; mret err.

(** ** Writing the image *)

(** [bm_dfu_client_flash_area_write] of a full page; true when it fails. *)
Definition write_page : M st bool :=
  c ← client;
  _ ← set_c_page 0 (c_img_flash_offset c) (c_img_page_buf c);
  err ← env (bm_dfu_client_flash_area_write (c_fa c) (c_img_flash_offset c)
               (take (Z.to_nat bm_img_page_length) (c_img_page_buf c)));
  if is_ok err then
    _ ← set_c_page 0 (u32 (c_img_flash_offset c + bm_img_page_length)) (c_img_page_buf c);
    mret false
  else mret true.

(** [memcpy] to the page buffer at the counter, which moves on. *)
Definition page_append (d : bytes) : M st unit :=
  c ← client;
  b ← lift (write_at (Z.to_nat (c_img_page_byte_counter c)) d (c_img_page_buf c));
  set_c_page (u16 (c_img_page_byte_counter c + Z.of_nat (length d))) (c_img_flash_offset c) b.

(** True when it fails.  [buf] has the [len] bytes; it is not [NULL]. *)
Definition bm_dfu_process_payload (len : Z) (buf : bytes) : M st bool :=
  if len =? 0 then mret true
  else
    c ← client;
    if len + c_img_page_byte_counter c <? bm_img_page_length then
      _ ← page_append buf;
      c ← client;
      if c_img_page_byte_counter c =? bm_img_page_length then write_page else mret false
    else
      let remaining := u16 (bm_img_page_length - c_img_page_byte_counter c) in
      d ← lift (read_at 0 (Z.to_nat remaining) buf);
      _ ← page_append d;
      c ← client;
      failed ← (if c_img_page_byte_counter c =? bm_img_page_length then write_page
                else mret false);
      if failed : bool then mret true
      else
        _ ← page_append (drop (Z.to_nat remaining) buf);
        mret false.

Definition bm_dfu_process_end : M st bool :=
  c ← client;
  failed ← (if c_img_page_byte_counter c =? 0 then mret false
            else
              err ← env (bm_dfu_client_flash_area_write (c_fa c) (c_img_flash_offset c)
                           (take (Z.to_nat (c_img_page_byte_counter c)) (c_img_page_buf c)));
              if is_ok err then
                _ ← set_c_page (c_img_page_byte_counter c)
                      (u32 (c_img_flash_offset c + c_img_page_byte_counter c)) (c_img_page_buf c);
                mret false
              else mret true);
  _ ← env (bm_dfu_client_flash_area_close (c_fa c));
  mret (failed : bool).

(** ** The request for an update *)

(** The image fits: the flash is erased and the client starts to receive. *)
Definition accept_update (i : BmDfuImgInfo) : M st unit :=
  c ← client;
  size ← env (bm_dfu_client_flash_area_get_size (c_fa c));
  if ii_image_size i <? size then
    size ← env (bm_dfu_client_flash_area_get_size (c_fa c));
    err ← env (bm_dfu_client_flash_area_erase (c_fa c) 0 size);
    if is_ok err then
      _ ← bm_dfu_send_ack (c_host_node_id c) 1 BmDfuErrNone;
      _ ← modify (set_reboot_info (MkRebootInfo DFU_REBOOT_MAGIC (ii_major_ver i)
            (ii_minor_ver i) (c_host_node_id c) (ii_gitSHA i)));
      bm_dfu_set_pending_state_change BmDfuStateClientReceiving
    else
      _ ← bm_dfu_send_ack (c_host_node_id c) 0 BmDfuErrFlashAccess;
      bm_dfu_client_transition_to_error BmDfuErrFlashAccess
  else bm_dfu_send_ack (c_host_node_id c) 0 BmDfuErrTooLarge.

(** [image_size / chunk_size], rounded up, as sixteen bits; dividing by 0 is
    undefined. *)
Definition number_of_chunks (image_size chunk_size : Z) : option Z :=
  if chunk_size =? 0 then None
  else Some (u16 (image_size / chunk_size + (if image_size mod chunk_size =? 0 then 0 else 1))).

Definition bm_dfu_client_process_update_request : M st unit :=
  evt ← bm_dfu_get_current_event;
  match ev_buf evt with
  | None => mret tt
  | Some p =>
      b ← deref_buf p;
      info ← lift (read_at fields_offset sizeof_BmDfuImgInfo (db_frame b));
      let i := img_info_load info in
      src ← lift (field src_node_id_offset 8 (db_frame b));
      _ ← set_c_host_node_id src;
      if negb (ii_gitSHA i =? git_sha) || (ii_filter_key i =? BM_DFU_IMG_INFO_FORCE_UPDATE) then
        if bm_dfu_max_chunk_size <? ii_chunk_size i then
          _ ← bm_dfu_client_abort BmDfuErrAborted;
          bm_dfu_client_transition_to_error BmDfuErrChunkSize
        else
          n ← lift (number_of_chunks (ii_image_size i) (ii_chunk_size i));
          _ ← set_c_image (ii_image_size i) n (ii_crc16 i);
          '(err, fa) ← env bm_dfu_client_flash_area_open;
          _ ← set_c_fa fa;
          if is_ok err then accept_update i
          else
            _ ← bm_dfu_send_ack src 0 BmDfuErrFlashAccess;
            bm_dfu_client_transition_to_error BmDfuErrFlashAccess
      else bm_dfu_send_ack src 0 BmDfuErrSameVer
  end.

(** ** The states *)

Definition s_client_validating_run : M st BmErr := mret BmOK.
Definition s_client_activating_run : M st BmErr := mret BmOK.

(** Reception starts from chunk 0. *)
Definition restart_reception : M st unit :=
  c ← client;
  _ ← set_c_chunk 0 0;
  _ ← set_c_page 0 0 (c_img_page_buf c);
  set_c_running 0 (c_chunk_length c).

Definition s_client_receiving_entry : M st BmErr :=
  _ ← restart_reception;
  c ← client;
  _ ← bm_dfu_req_next_chunk (c_host_node_id c) (c_current_chunk c);
  chunk_timer_set true.

(** What follows a chunk: the next one is asked for, or the image is complete. *)
Definition after_chunk : M st BmErr :=
  c ← client;
  _ ← set_c_chunk (u16 (c_current_chunk c + 1)) 0;
  c ← client;
  if c_current_chunk c <? c_num_chunks c then
    _ ← bm_dfu_req_next_chunk (c_host_node_id c) (c_current_chunk c);
    timer_err_check_and_return (chunk_timer_set true) (mret BmOK)
  else
    failed ← bm_dfu_process_end;
    _ ← (if failed : bool then bm_dfu_client_transition_to_error BmDfuErrBmFrame
         else bm_dfu_set_pending_state_change BmDfuStateClientValidating);
    mret BmOK.

Definition receive_chunk (f : bytes) : M st BmErr :=
  n ← lift (field fields_offset 2 f);
  if bm_dfu_max_chunk_size <? n then mret BmEINVAL
  else
    timer_err_check_and_return (chunk_timer_set false)
      (c ← client;
       d ← lift (read_at (fields_offset + 2) (Z.to_nat n) f);
       _ ← set_c_running (crc16_ccitt (c_running_crc16 c) d) n;
       failed ← bm_dfu_process_payload n d;
       _ ← (if failed : bool then bm_dfu_client_transition_to_error BmDfuErrBmFrame
            else mret tt);
       after_chunk).

(** The retry counter is an octet. *)
Definition count_retry : M st Z :=
  c ← client;
  _ ← set_c_retry (u8 (c_chunk_retry_num c + 1));
  mret (u8 (c_chunk_retry_num c + 1)).

Definition s_client_receiving_run : M st BmErr :=
  evt ← bm_dfu_get_current_event;
  match ev_type evt, ev_buf evt with
  | DfuEventImageChunk, Some p => b ← deref_buf p; receive_chunk (db_frame b)
  | DfuEventChunkTimeout, _ =>
      n ← count_retry;
      if bm_dfu_max_chunk_retries <=? n then
        _ ← bm_dfu_client_abort BmDfuErrAborted;
        _ ← bm_dfu_client_transition_to_error BmDfuErrTimeout;
        mret BmEINVAL
      else
        c ← client;
        _ ← bm_dfu_req_next_chunk (c_host_node_id c) (c_current_chunk c);
        timer_err_check_and_return (chunk_timer_set true) (mret BmOK)
  | DfuEventReceivedUpdateRequest, _ =>
      timer_err_check_and_return (chunk_timer_set false)
        (c ← client;
         _ ← bm_dfu_send_ack (c_host_node_id c) 1 BmDfuErrNone;
         _ ← restart_reception;
         c ← client;
         _ ← bm_dfu_req_next_chunk (c_host_node_id c) (c_current_chunk c);
         timer_err_check_and_return (chunk_timer_set true) (mret BmOK))
  | DfuEventHeartbeat, _ => timer_err_check_and_return (chunk_timer_set true) (mret BmOK)
  | _, _ => mret BmEINVAL
  end.

Definition s_client_validating_entry : M st BmErr :=
  c ← client;
  _ ← (if c_image_size c =? c_img_flash_offset c then
         if c_crc16 c =? c_running_crc16 c
         then bm_dfu_set_pending_state_change BmDfuStateClientRebootReq
         else
           _ ← bm_dfu_update_end (c_host_node_id c) 0 BmDfuErrBadCrc;
           bm_dfu_client_transition_to_error BmDfuErrBadCrc
       else
         _ ← bm_dfu_update_end (c_host_node_id c) 0 BmDfuErrMismatchLen;
         bm_dfu_client_transition_to_error BmDfuErrMismatchLen);
  mret BmOK.

Definition s_client_activating_entry : M st BmErr :=
  _ ← env bm_dfu_client_set_pending_and_reset; mret BmOK.

Definition s_client_reboot_req_entry : M st BmErr :=
  _ ← set_c_retry 0;
  _ ← bm_dfu_client_send_reboot_request;
  chunk_timer_set true.

Definition s_client_reboot_req_run : M st BmErr :=
  evt ← bm_dfu_get_current_event;
  match ev_type evt with
  | DfuEventReboot =>
      match ev_buf evt with
      | Some _ =>
          err ← chunk_timer_set false;
          _ ← bm_dfu_set_pending_state_change BmDfuStateClientActivating;
          mret err
      | None => mret BmENODATA
      end
  | DfuEventChunkTimeout =>
      n ← count_retry;
      if bm_dfu_max_chunk_retries <=? n then
        _ ← bm_dfu_client_abort BmDfuErrAborted;
        _ ← bm_dfu_client_transition_to_error BmDfuErrTimeout;
        mret BmOK
      else
        _ ← bm_dfu_client_send_reboot_request;
        chunk_timer_set true
  | _ => mret BmOK
  end.

Definition s_client_update_done_entry : M st BmErr :=
  info ← gets client_update_reboot_info;
  _ ← set_c_host_node_id (ri_host_node_id info);
  _ ← set_c_retry 0;
  if git_sha =? ri_gitSHA info then
    enabled ← bm_dfu_client_confirm_is_enabled;
    if enabled : bool then
      _ ← bm_dfu_client_send_boot_complete (ri_host_node_id info);
      chunk_timer_set true
    else
      _ ← modify (set_reboot_info reboot_info_zero);
      _ ← env bm_dfu_client_set_confirmed;
      _ ← bm_dfu_client_confirm_enable true;
      mret BmOK
  else
    _ ← bm_dfu_update_end (ri_host_node_id info) 0 BmDfuErrWrongVer;
    _ ← bm_dfu_client_fail_update_and_reboot;
    mret BmOK.

Definition s_client_update_done_run : M st BmErr :=
  evt ← bm_dfu_get_current_event;
  info ← gets client_update_reboot_info;
  match ev_type evt with
  | DfuEventUpdateEnd =>
      match ev_buf evt with
      | Some _ =>
          err ← chunk_timer_set false;
          _ ← env bm_dfu_client_set_confirmed;
          _ ← bm_dfu_update_end (ri_host_node_id info) 1 BmDfuErrNone;
          _ ← bm_dfu_set_pending_state_change BmDfuStateIdle;
          mret err
      | None => mret BmENODATA
      end
  | DfuEventChunkTimeout =>
      n ← count_retry;
      if bm_dfu_max_chunk_retries <=? n then
        _ ← bm_dfu_client_abort BmDfuErrConfirmationAbort;
        _ ← bm_dfu_client_fail_update_and_reboot;
        mret BmOK
      else
        _ ← bm_dfu_client_send_boot_complete (ri_host_node_id info);
        chunk_timer_set true
  | _ => mret BmOK
  end.

(** [timer_ok] tells whether the chunk timer is created. *)
Definition bm_dfu_client_init (timer_ok : bool) : M st unit :=
  modify (set_client (fun c => MkDfuClient (c_image_size c) (c_num_chunks c) (c_crc16 c)
    (c_running_crc16 c) (c_chunk_length c) (c_fa c) (c_img_page_byte_counter c)
    (c_img_flash_offset c) (c_img_page_buf c) (c_chunk_retry_num c) (c_current_chunk c)
    (if timer_ok then Some false else None) dfu_node_id (c_host_node_id c))).

Definition bm_dfu_client_host_node_valid (host_node_id : Z) : M st bool :=
  c ← client; mret (c_host_node_id c =? host_node_id).
End client.
