(* ===== verification/DfuHost.v ===== *)
(** * Firmware updates, the host: src/bcmp/dfu_host.c

    The functions of the host's states, which offer an image to a client and send
    the chunks that it asks for. *)
From S2P Require Import Prelude Util LinkedList Os Packet LibSm Dfu.

Definition bm_dfu_max_ack_retries : Z := 2.
Definition flash_read_timeout_ms : Z := 5 * 1000.

Section host.
Context {E : Type} `{Platform} `{DfuPlatform E}.
#[local] Abbreviation st := (dfu_state E).

Definition host : M st dfu_host_ctx_t := gets host_ctx.

(** Updates of fields of [host_ctx]. *)
Definition set_h_timers (ack heartbeat update : BmTimer) : M st unit :=
  modify (set_host (fun h => MkDfuHost ack (h_ack_retry_num h) heartbeat (h_img_info h)
    (h_self_node_id h) (h_client_node_id h) (h_bytes_remaining h) (h_update_complete_callback h)
    update (h_host_timeout_ms h) (h_data_queue h))).
Definition set_h_retry (n : Z) : M st unit :=
  modify (set_host (fun h => MkDfuHost (h_ack_timer h) n (h_heartbeat_timer h) (h_img_info h)
    (h_self_node_id h) (h_client_node_id h) (h_bytes_remaining h) (h_update_complete_callback h)
    (h_update_timer h) (h_host_timeout_ms h) (h_data_queue h))).
Definition set_h_image (i : BmDfuImgInfo) (client : Z) : M st unit :=
  modify (set_host (fun h => MkDfuHost (h_ack_timer h) (h_ack_retry_num h) (h_heartbeat_timer h) i
    (h_self_node_id h) client (ii_image_size i) (h_update_complete_callback h)
    (h_update_timer h) (h_host_timeout_ms h) (h_data_queue h))).
Definition set_h_remaining (n : Z) : M st unit :=
  modify (set_host (fun h => MkDfuHost (h_ack_timer h) (h_ack_retry_num h) (h_heartbeat_timer h)
    (h_img_info h) (h_self_node_id h) (h_client_node_id h) n (h_update_complete_callback h)
    (h_update_timer h) (h_host_timeout_ms h) (h_data_queue h))).
Definition set_h_data_queue (q : option loc) : M st unit :=
  modify (set_host (fun h => MkDfuHost (h_ack_timer h) (h_ack_retry_num h) (h_heartbeat_timer h)
    (h_img_info h) (h_self_node_id h) (h_client_node_id h) (h_bytes_remaining h)
    (h_update_complete_callback h) (h_update_timer h) (h_host_timeout_ms h) q)).

(** Starting and stopping the three timers. *)
Definition ack_timer_set (running : bool) : M st BmErr :=
  h ← host;
  '(err, t) ← timer_set running (h_ack_timer h);
  _ ← set_h_timers t (h_heartbeat_timer h) (h_update_timer h);
  mret err.
Definition heartbeat_timer_set (running : bool) : M st BmErr :=
  h ← host;
  '(err, t) ← timer_set running (h_heartbeat_timer h);
  _ ← set_h_timers (h_ack_timer h) t (h_update_timer h);
  mret err.
Definition update_timer_set (running : bool) : M st BmErr :=
  h ← host;
  '(err, t) ← timer_set running (h_update_timer h);
  _ ← set_h_timers (h_ack_timer h) (h_heartbeat_timer h) t;
  mret err.

(** ** Timer handlers *)

Definition ack_timer_handler : M st unit :=
  _ ← bm_queue_send (MkDfuEvent DfuEventAckTimeout None 0); mret tt.

Definition send_hb_timer_cb : M st unit := h ← host; bm_dfu_send_heartbeat (h_client_node_id h).

Definition dfu_heartbeat_timer_handler : M st unit := _ ← env dfu_timer_cb_send; mret tt.

Definition update_timer_handler : M st unit :=
  _ ← bm_queue_send (MkDfuEvent DfuEventAbort None 0); mret tt.

(** ** Messages and errors *)

(** [a && b && c ? BmOK : BmETIMEDOUT] *)
Fixpoint all_ok (ms : list (M st BmErr)) : M st BmErr :=
  match ms with
  | [] => mret BmOK
  | m :: ms => err ← m; if is_ok err then all_ok ms else mret BmETIMEDOUT
  end.

Definition bm_dfu_host_transition_to_error (dfu_err : Z) : M st unit :=
  _ ← all_ok [update_timer_set false; heartbeat_timer_set false; ack_timer_set false];
  _ ← bm_dfu_set_error dfu_err;
  bm_dfu_set_pending_state_change BmDfuStateError.

Definition bm_dfu_host_start_update_timer : M st BmErr :=
  all_ok [update_timer_set false; update_timer_set true; update_timer_set true].

(** The macro of the same name, as in [DfuClient]. *)
Definition host_timer_check (m : M st BmErr) (k : M st BmErr) : M st BmErr :=
  err ← m;
  if is_ok err then k
  else _ ← bm_dfu_host_transition_to_error BmDfuErrAborted; mret err.

Definition bm_dfu_host_req_update : M st unit :=
  h ← host;
  _ ← dfu_send BcmpDFUStartMessage
        (dfu_start (h_self_node_id h) (h_client_node_id h) (h_img_info h));
  mret tt.

(** What is read of the image, in a new buffer of [n] bytes. *)
Definition filled (n : nat) (read : bytes) : bytes :=
  take n (read ++ (dfu_uninit <$> seq (length read) n)).

(** The bytes of the next chunk, and how many were read. *)
Definition get_chunk (payload_len : Z) : M st (BmErr * bytes * Z) :=
  h ← host;
  internal ← bm_dfu_internal;
  if internal : bool then
    '(err, d) ← env (bm_dfu_host_get_chunk
      (u32 (DFU_IMG_START_OFFSET_BYTES + ii_image_size (h_img_info h) - h_bytes_remaining h))
      payload_len flash_read_timeout_ms);
    mret (err, d, payload_len)
  else
    match h_data_queue h with
    | Some q =>
        '(err, d) ← env (dfu_stream_receive q payload_len (h_host_timeout_ms h));
        mret (err, d, Z.of_nat (length d))
    | None => mret (BmENOMEM, [], payload_len)
    end.

(** The number of the chunk in the request does not matter. *)
Definition bm_dfu_host_send_chunk : M st BmErr :=
  h ← host;
  let chunk_size := ii_chunk_size (h_img_info h) in
  let payload_len := if chunk_size <=? h_bytes_remaining h then chunk_size
                     else h_bytes_remaining h in
  buf ← dfu_malloc (MkDfuBuf [] None 0);
  match buf with
  | None => mret BmENOMEM
  | Some p =>
      '(err, d, payload_len') ← get_chunk payload_len;
      err ← (if is_ok err then
               err ← dfu_send BcmpDFUPayloadMessage
                       (dfu_payload (h_self_node_id h) (h_client_node_id h)
                          (filled (Z.to_nat payload_len) d));
               _ ← (if is_ok err then set_h_remaining (u32 (h_bytes_remaining h - payload_len'))
                    else bm_dfu_host_transition_to_error BmDfuErrImgChunkAccess);
               mret err
             else
               _ ← bm_dfu_host_transition_to_error BmDfuErrFlashAccess;
               mret err);
      _ ← dfu_free p;
      mret (err : BmErr)
  end.

Definition bm_dfu_host_send_reboot : M st unit :=
  h ← host;
  _ ← dfu_send BcmpDFURebootMessage
        (dfu_header BcmpDFURebootMessage (h_self_node_id h) (h_client_node_id h));
  mret tt.

(** ** The states *)

Definition s_host_req_update_entry : M st BmErr :=
  evt ← bm_dfu_get_current_event;
  match ev_buf evt with
  | None => mret BmENODATA
  | Some p =>
      b ← deref_buf p;
      info ← lift (read_at fields_offset sizeof_BmDfuImgInfo (db_frame b));
      dst ← lift (field dst_node_id_offset 8 (db_frame b));
      _ ← set_h_image (img_info_load info) dst;
      _ ← set_h_retry 0;
      _ ← bm_dfu_host_req_update;
      internal ← bm_dfu_internal;
      _ ← (if internal : bool then mret tt
           else
             q ← env (dfu_stream_create (ii_chunk_size (img_info_load info)));
             set_h_data_queue q);
      ack_timer_set true
  end.

(** The error that an abort brings along. *)
Definition abort_error (evt : BmDfuEvent) : M st Z :=
  match ev_buf evt with
  | None => mret BmDfuErrAborted
  | Some p => b ← deref_buf p; lift (field (fields_offset + 1) 1 (db_frame b))
  end.

Definition s_host_req_update_run : M st BmErr :=
  evt ← bm_dfu_get_current_event;
  match ev_type evt with
  | DfuEventAckReceived =>
      host_timer_check (ack_timer_set false)
        match ev_buf evt with
        | None => mret BmEINVAL
        | Some p =>
            b ← deref_buf p;
            success ← lift (field fields_offset 1 (db_frame b));
            _ ← (if success =? 0 then
                   err_code ← lift (field (fields_offset + 1) 1 (db_frame b));
                   bm_dfu_host_transition_to_error err_code
                 else bm_dfu_set_pending_state_change BmDfuStateHostUpdate);
            mret BmOK
        end
  | DfuEventAckTimeout =>
      h ← host;
      _ ← set_h_retry (u8 (h_ack_retry_num h + 1));
      if bm_dfu_max_ack_retries <=? u8 (h_ack_retry_num h + 1) then
        _ ← bm_dfu_host_transition_to_error BmDfuErrTimeout;
        mret BmOK
      else
        _ ← bm_dfu_host_req_update;
        host_timer_check (ack_timer_set true) (mret BmOK)
  | DfuEventAbort =>
      dfu_err ← abort_error evt;
      _ ← bm_dfu_host_transition_to_error dfu_err;
      mret BmOK
  | _ => mret BmOK
  end.

Definition s_host_update_entry : M st BmErr := bm_dfu_host_start_update_timer.

Definition s_host_update_run : M st BmErr :=
  evt ← bm_dfu_get_current_event;
  match ev_type evt with
  | DfuEventChunkRequest =>
      match ev_buf evt with
      | None => mret BmENODATA
      | Some _ =>
          host_timer_check (heartbeat_timer_set true)
            (_ ← bm_dfu_host_send_chunk;
             host_timer_check (heartbeat_timer_set false) (mret BmOK))
      end
  | DfuEventRebootRequest => _ ← bm_dfu_host_send_reboot; mret BmOK
  | DfuEventBootComplete =>
      match ev_buf evt with
      | None => mret BmENODATA
      | Some _ => h ← host; _ ← bm_dfu_update_end (h_client_node_id h) 1 BmDfuErrNone; mret BmOK
      end
  | DfuEventUpdateEnd =>
      host_timer_check (update_timer_set false)
        match ev_buf evt with
        | None => mret BmENODATA
        | Some p =>
            b ← deref_buf p;
            success ← lift (field fields_offset 1 (db_frame b));
            h ← host;
            _ ← match h_update_complete_callback h with
                | Some cb =>
                    err_code ← lift (field (fields_offset + 1) 1 (db_frame b));
                    env (dfu_update_finish cb (negb (success =? 0)) err_code (h_client_node_id h))
                | None => mret tt
                end;
            _ ← bm_dfu_set_pending_state_change BmDfuStateIdle;
            mret BmOK
        end
  | DfuEventAbort =>
      dfu_err ← abort_error evt;
      _ ← bm_dfu_host_transition_to_error dfu_err;
      mret BmOK
  | _ => mret BmOK
  end.

Definition s_host_update_exit : M st BmErr :=
  h ← host;
  _ ← match h_data_queue h with
      | Some q => _ ← env (dfu_stream_delete q); set_h_data_queue None
      | None => mret tt
      end;
  mret BmOK.

(** The three flags tell whether the timers are created. *)
Definition bm_dfu_host_init (ack_ok heartbeat_ok update_ok : bool) : M st unit :=
  let timer ok : BmTimer := if ok : bool then Some false else None in
  modify (set_host (fun h => MkDfuHost (timer ack_ok) (h_ack_retry_num h) (timer heartbeat_ok)
    (h_img_info h) dfu_node_id (h_client_node_id h) (h_bytes_remaining h)
    (h_update_complete_callback h) (timer update_ok) (h_host_timeout_ms h) None)).

Definition bm_dfu_host_set_params (cb : option nat) (host_timeout_ms : Z) : M st unit :=
  modify (set_host (fun h => MkDfuHost (h_ack_timer h) (h_ack_retry_num h) (h_heartbeat_timer h)
    (h_img_info h) (h_self_node_id h) (h_client_node_id h) (h_bytes_remaining h) cb
    (h_update_timer h) host_timeout_ms (h_data_queue h))).

Definition bm_dfu_host_client_node_valid (client_node_id : Z) : M st bool :=
  h ← host; mret (h_client_node_id h =? client_node_id).

Definition bm_dfu_host_queue_data (data : option bytes) : M st BmErr :=
  h ← host;
  match data, h_data_queue h with
  | Some d, Some q => env (dfu_stream_send q d (h_host_timeout_ms h))
  | _, _ => mret BmEINVAL
  end.
End host.
