(* ===== verification/DfuCore.v ===== *)
(** * Firmware updates, the state machine: src/bcmp/dfu_core.c

    The table of states, the transitions, the messages that come in and the task
    that handles the events. *)
From S2P Require Import Prelude Util LinkedList Os Packet LibSm Dfu DfuClient DfuHost.

Definition state_number (p : BmDfuHfsmStates) : Z :=
  match p with
  | BmDfuStateInit => 0 | BmDfuStateIdle => 1 | BmDfuStateError => 2
  | BmDfuStateClientReceiving => 3 | BmDfuStateClientValidating => 4
  | BmDfuStateClientRebootReq => 5 | BmDfuStateClientRebootDone => 6
  | BmDfuStateClientActivating => 7 | BmDfuStateHostReqUpdate => 8 | BmDfuStateHostUpdate => 9
  end.

(** [&dfu_states[n]] *)
Definition state_of_number (n : Z) : option BmDfuHfsmStates :=
  match n with
  | 0 => Some BmDfuStateInit | 1 => Some BmDfuStateIdle | 2 => Some BmDfuStateError
  | 3 => Some BmDfuStateClientReceiving | 4 => Some BmDfuStateClientValidating
  | 5 => Some BmDfuStateClientRebootReq | 6 => Some BmDfuStateClientRebootDone
  | 7 => Some BmDfuStateClientActivating
  | 8 => Some BmDfuStateHostReqUpdate | 9 => Some BmDfuStateHostUpdate
  | _ => None
  end.

Section core.
Context {E : Type} `{Platform} `{DfuPlatform E}.
#[local] Abbreviation st := (dfu_state E).

Definition dfu_sm (s : st) : LibSmContext BmDfuHfsmStates unit := sm_ctx (dfu_ctx s).
Definition set_dfu_sm (c : LibSmContext BmDfuHfsmStates unit) : st -> st :=
  set_core (fun k => MkDfuCore c (current_event k) (pending_state_change k) (new_state k)
    (error k) (self_node_id k) (client_node_id k) (update_finish_callback k) (internal k)).
Definition set_current_event (e : BmDfuEvent) : M st unit :=
  modify (set_core (fun k => MkDfuCore (sm_ctx k) e (pending_state_change k) (new_state k)
    (error k) (self_node_id k) (client_node_id k) (update_finish_callback k) (internal k))).
Definition set_pending (b : bool) : M st unit :=
  modify (set_core (fun k => MkDfuCore (sm_ctx k) (current_event k) b (new_state k)
    (error k) (self_node_id k) (client_node_id k) (update_finish_callback k) (internal k))).
Definition set_finish (cb : option nat) (client : Z) : M st unit :=
  modify (set_core (fun k => MkDfuCore (sm_ctx k) (current_event k) (pending_state_change k)
    (new_state k) (error k) (self_node_id k) client cb (internal k))).
Definition set_internal (b : bool) : M st unit :=
  modify (set_core (fun k => MkDfuCore (sm_ctx k) (current_event k) (pending_state_change k)
    (new_state k) (error k) (self_node_id k) (client_node_id k) (update_finish_callback k) b)).

Definition bm_dfu_check_transitions (current_state : Z) : M st (option BmDfuHfsmStates) :=
  s ← get;
  if pending_state_change (dfu_ctx s) then
    _ ← set_pending false;
    mret (Some (new_state (dfu_ctx s)))
  else mret (state_of_number current_state).

(** ** The states of the core *)

Definition s_init_run : M st BmErr :=
  s ← get;
  match ev_type (current_event (dfu_ctx s)) with
  | DfuEventInitSuccess =>
      _ ← bm_dfu_set_pending_state_change
            (if ri_magic (client_update_reboot_info s) =? DFU_REBOOT_MAGIC
             then BmDfuStateClientRebootDone else BmDfuStateIdle);
      mret BmOK
  | _ => mret BmOK
  end.

Definition s_idle_entry : M st BmErr :=
  _ ← env bm_dfu_core_lpm_peripheral_inactive;
  _ ← modify (set_reboot_info reboot_info_zero);
  mret BmOK.

Definition s_idle_run : M st BmErr :=
  evt ← bm_dfu_get_current_event;
  match ev_type evt with
  | DfuEventReceivedUpdateRequest => _ ← bm_dfu_client_process_update_request; mret BmOK
  | DfuEventBeginHost =>
      p ← lift (ev_buf evt);
      b ← deref_buf p;
      dst ← lift (field dst_node_id_offset 8 (db_frame b));
      _ ← set_finish (db_finish_cb b) dst;
      _ ← bm_dfu_host_set_params (db_finish_cb b) (db_timeout_ms b);
      _ ← bm_dfu_set_pending_state_change BmDfuStateHostReqUpdate;
      mret BmOK
  | _ => mret BmOK
  end.

Definition s_idle_exit : M st BmErr := _ ← env bm_dfu_core_lpm_peripheral_active; mret BmOK.

Definition s_error_run : M st BmErr := mret BmOK.

Definition s_error_entry : M st BmErr :=
  _ ← env bm_dfu_core_lpm_peripheral_inactive;
  c ← gets dfu_ctx;
  _ ← match update_finish_callback c with
      | Some cb => env (dfu_update_finish cb false (error c) (client_node_id c))
      | None => mret tt
      end;
  err ← gets (fun s => error (dfu_ctx s));
  _ ← (if err <? BmDfuErrFlashAccess then bm_dfu_set_pending_state_change BmDfuStateIdle
       else mret tt);
  mret BmOK.

Definition dfu_states (p : BmDfuHfsmStates) : option (LibSmState st) :=
  Some match p with
  | BmDfuStateInit => MkSmState (state_number p) (Some s_init_run) None None
  | BmDfuStateIdle =>
      MkSmState (state_number p) (Some s_idle_run) (Some s_idle_exit) (Some s_idle_entry)
  | BmDfuStateError => MkSmState (state_number p) (Some s_error_run) None (Some s_error_entry)
  | BmDfuStateClientReceiving =>
      MkSmState (state_number p) (Some s_client_receiving_run) None (Some s_client_receiving_entry)
  | BmDfuStateClientValidating =>
      MkSmState (state_number p) (Some s_client_validating_run) None
        (Some s_client_validating_entry)
  | BmDfuStateClientRebootReq =>
      MkSmState (state_number p) (Some s_client_reboot_req_run) None
        (Some s_client_reboot_req_entry)
  | BmDfuStateClientRebootDone =>
      MkSmState (state_number p) (Some s_client_update_done_run) None
        (Some s_client_update_done_entry)
  | BmDfuStateClientActivating =>
      MkSmState (state_number p) (Some s_client_activating_run) None
        (Some s_client_activating_entry)
  | BmDfuStateHostReqUpdate =>
      MkSmState (state_number p) (Some s_host_req_update_run) None (Some s_host_req_update_entry)
  | BmDfuStateHostUpdate =>
      MkSmState (state_number p) (Some s_host_update_run) (Some s_host_update_exit)
        (Some s_host_update_entry)
  end.

(** [lib_sm_run(&dfu_ctx.sm_ctx)] *)
Definition dfu_sm_run : M st BmErr :=
  lib_sm_run dfu_sm set_dfu_sm dfu_states (fun _ => bm_dfu_check_transitions).

Definition dfu_current_state : M st (option BmDfuHfsmStates) :=
  gets (fun s => current_state (dfu_sm s)).

(** ** Messages that come in *)

(** The event of a frame's type; [None]: an invalid one. *)
Definition event_of_frame (frame_type : Z) : option BmDfuEvtType :=
  match frame_type with
  | 0xD0 => Some DfuEventReceivedUpdateRequest
  | 0xD2 => Some DfuEventImageChunk
  | 0xD3 => Some DfuEventUpdateEnd
  | 0xD4 => Some DfuEventAckReceived
  | 0xD5 => Some DfuEventAbort
  | 0xD6 => Some DfuEventHeartbeat
  | 0xD1 => Some DfuEventChunkRequest
  | 0xD7 => Some DfuEventRebootRequest
  | 0xD8 => Some DfuEventReboot
  | 0xD9 => Some DfuEventBootComplete
  | _ => None
  end.

(** Does the frame come from the other side of the update? *)
Definition dfu_valid_packet (src : Z) : M st bool :=
  p ← dfu_current_state;
  match p with
  | Some (BmDfuStateClientReceiving | BmDfuStateClientValidating | BmDfuStateClientRebootReq
         | BmDfuStateClientRebootDone | BmDfuStateClientActivating) =>
      bm_dfu_client_host_node_valid src
  | Some (BmDfuStateHostReqUpdate | BmDfuStateHostUpdate) => bm_dfu_host_client_node_valid src
  | Some _ => mret true
  | None => ub
  end.

(** [buf] is a message in a buffer of its own, which an event takes over. *)
Definition bm_dfu_process_message (buf : option loc) (len : Z) : M st unit :=
  match buf with
  | None => mret tt
  | Some p =>
      b ← deref_buf p;
      self ← gets (fun s => self_node_id (dfu_ctx s));
      dst ← lift (field dst_node_id_offset 8 (db_frame b));
      if negb (self =? dst) then dfu_free p
      else
        src ← lift (field src_node_id_offset 8 (db_frame b));
        valid_packet ← dfu_valid_packet src;
        if negb valid_packet then dfu_free p
        else
          frame_type ← lift (field frame_type_offset 1 (db_frame b));
          match event_of_frame frame_type with
          | Some t =>
              err ← bm_queue_send (MkDfuEvent t (Some p) len);
              if is_ok err then mret tt else dfu_free p
          | None => mret tt
          end
  end.

Definition dfu_copy_and_process_message (data : BcmpProcessData) : M st BmErr :=
  dst ← lift (field dst_node_id_offset 8 (pd_payload data));
  if dst =? dfu_node_id then
    message ← lift (read_at 0 (Z.to_nat (pd_size data)) (pd_payload data));
    buf ← dfu_malloc (MkDfuBuf message None 0);
    match buf with
    | Some p => _ ← bm_dfu_process_message (Some p) (pd_size data); mret BmOK
    | None => mret BmENOTINTREC
    end
  else if is_link_local_multicast (Some (pd_dst data)) then
    env (dfu_ll_forward (Some (pd_header data)) (Some (pd_payload data)) (pd_size data)
           (pd_ingress_port data))
  else mret BmENOTINTREC.

(** An iteration of [bm_dfu_event_thread]; with an empty queue it waits, for ever.
    The event that is received overwrites the type that the iteration resets. *)
Definition bm_dfu_event_thread_step : M st unit :=
  s ← get;
  match dfu_event_queue s with
  | Some (evt :: q) =>
      _ ← modify (set_dfu_queue (Some q));
      _ ← set_current_event evt;
      _ ← dfu_sm_run;
      evt ← bm_dfu_get_current_event;
      match ev_buf evt with Some p => dfu_free p | None => mret tt end
  | _ => mret tt
  end.

(** ** The start *)

(** The flags tell whether the queue and the four timers are created. *)
Definition bm_dfu_init (queue_ok chunk_ok ack_ok heartbeat_ok update_ok : bool)
    (packet_add : Z -> M E BmErr) : M st BmErr :=
  _ ← modify (set_core (fun k => MkDfuCore (sm_ctx k) (MkDfuEvent DfuEventNone None 0)
        (pending_state_change k) (new_state k) (error k) dfu_node_id (client_node_id k)
        (update_finish_callback k) (internal k)));
  s ← get;
  sm ← lift (snd (lib_sm_init (Some (dfu_sm s)) (Some BmDfuStateInit) (Some tt)
               (Some [100; 102; 117; 95; 115; 109])));
  _ ← modify (set_dfu_sm sm);
  _ ← modify (set_dfu_queue (if queue_ok then Some [] else None));
  _ ← bm_dfu_client_init chunk_ok;
  _ ← bm_dfu_host_init ack_ok heartbeat_ok update_ok;
  _ ← bm_queue_send (MkDfuEvent DfuEventInitSuccess None 0);
  foldl (fun m type => err ← m; unless_err err (env (packet_add type))) (mret BmOK)
    [BcmpDFUStartMessage; BcmpDFUPayloadReqMessage; BcmpDFUPayloadMessage; BcmpDFUEndMessage;
     BcmpDFUAckMessage; BcmpDFUAbortMessage; BcmpDFUHeartbeatMessage; BcmpDFURebootReqMessage;
     BcmpDFURebootMessage; BcmpDFUBootCompleteMessage; BcmpDFULastMessageMessage].

Definition refuse_update (cb : option nat) (dest_node_id : Z) : M st bool :=
  _ ← match cb with
      | Some cb => env (dfu_update_finish cb false BmDfuErrInProgress dest_node_id)
      | None => mret tt
      end;
  mret false.

Definition bm_dfu_initiate_update (info : BmDfuImgInfo) (dest_node_id : Z) (cb : option nat)
    (timeoutMs : Z) (internal : bool) : M st bool :=
  if bm_dfu_max_chunk_size <? ii_chunk_size info then mret false
  else
    p ← dfu_current_state;
    p ← lift p;
    if decide (p <> BmDfuStateIdle) then refuse_update cb dest_node_id
    else
      self ← gets (fun s => self_node_id (dfu_ctx s));
      let frame := dfu_start self dest_node_id info in
      buf ← dfu_malloc (MkDfuBuf frame cb timeoutMs);
      match buf with
      | None => mret false
      | Some p =>
          (* the structure ends with the callback's pointer and the time-out *)
          err ← bm_queue_send (MkDfuEvent DfuEventBeginHost (Some p)
                  (Z.of_nat (length frame) + size_t_bits / 8 + 4));
          if is_ok err then _ ← set_internal internal; mret true
          else _ ← dfu_free p; refuse_update cb dest_node_id
      end.

Definition bm_dfu_get_error : M st Z := gets (fun s => error (dfu_ctx s)).

(** ** Everything that can happen

    An iteration of the task, a message, the timers, the callback of the heartbeat
    timer on its task, and the calls of the application. *)
Inductive dfu_action : Type :=
| ActThread
| ActMessage (data : BcmpProcessData)
| ActChunkTimer | ActAckTimer | ActUpdateTimer | ActHeartbeatTimer | ActHeartbeatCb
| ActInitiate (info : BmDfuImgInfo) (dest : Z) (cb : option nat) (timeout_ms : Z) (internal : bool)
| ActQueueData (data : option bytes).

Definition dfu_act (a : dfu_action) : M st unit :=
  match a with
  | ActThread => bm_dfu_event_thread_step
  | ActMessage data => _ ← dfu_copy_and_process_message data; mret tt
  | ActChunkTimer => chunk_timer_handler
  | ActAckTimer => ack_timer_handler
  | ActUpdateTimer => update_timer_handler
  | ActHeartbeatTimer => dfu_heartbeat_timer_handler
  | ActHeartbeatCb => send_hb_timer_cb
  | ActInitiate info dest cb t i => _ ← bm_dfu_initiate_update info dest cb t i; mret tt
  | ActQueueData d => _ ← bm_dfu_host_queue_data d; mret tt
  end.
End core.
