(* ===== verification/DfuSafe.v ===== *)
(** * Firmware updates: only a checked image is activated

    An invariant of the whole update component under every sequence of events: the
    messages of other nodes, the timers, the application's calls.  In the states
    that ask for the reboot and that activate the image, the flash holds as many
    bytes as the host announced and their checksum is the announced one, unless a
    write to the flash has failed. *)
From S2P Require Import Prelude Util LinkedList Crc Os Packet LibSm Dfu DfuClient DfuHost DfuCore.

(** ** The flash

    [contents] is what the image's area holds, and whether a write to it has failed
    since it was erased.  Writing changes the bytes that it is given, or fails, and
    then any bytes can have changed; only writing and erasing change the contents. *)
Record memory : Type := MkMemory { mem_at : Z -> Z; mem_failed : bool }.

Definition mem_store (off : Z) (d : bytes) (m : memory) : memory := MkMemory (fun i =>
  if (off <=? i) && (i <? off + Z.of_nat (length d)) then nth (Z.to_nat (i - off)) d 0 else mem_at m i)
  (mem_failed m).

Definition env_keeps {E A} (contents : E -> memory) (m : M E A) : Prop :=
  forall e, post m (fun _ e' => contents e' = contents e) e.

Class DfuFlash (E : Type) `{DfuPlatform E} : Type := {
  contents : E -> memory;
  fl_write fa off d e : post (bm_dfu_client_flash_area_write fa off d)
    (fun err e' => err = BmOK /\ contents e' = mem_store off d (contents e)
                   \/ err <> BmOK /\ mem_failed (contents e') = true) e;
  fl_close fa : env_keeps contents (bm_dfu_client_flash_area_close fa);
  fl_tx dst type data size seq cb : env_keeps contents (dfu_bcmp_tx dst type data size seq cb);
  fl_forward h d n p : env_keeps contents (dfu_ll_forward h d n p);
  fl_activate : env_keeps contents bm_dfu_client_set_pending_and_reset;
  fl_confirm : env_keeps contents bm_dfu_client_set_confirmed;
  fl_fail : env_keeps contents bm_dfu_client_fail_update_and_reset;
  fl_get_chunk o n t : env_keeps contents (bm_dfu_host_get_chunk o n t);
  fl_active : env_keeps contents bm_dfu_core_lpm_peripheral_active;
  fl_inactive : env_keeps contents bm_dfu_core_lpm_peripheral_inactive;
  fl_confirm_get : env_keeps contents dfu_confirm_get;
  fl_confirm_set v : env_keeps contents (dfu_confirm_set v);
  fl_finish cb ok e n : env_keeps contents (dfu_update_finish cb ok e n);
  fl_stream_create n : env_keeps contents (dfu_stream_create n);
  fl_stream_delete q : env_keeps contents (dfu_stream_delete q);
  fl_stream_receive q n t : env_keeps contents (dfu_stream_receive q n t);
  fl_stream_send q d t : env_keeps contents (dfu_stream_send q d t);
  fl_timer_cb : env_keeps contents dfu_timer_cb_send
}.

Create HintDb dfu_env.
#[export] Hint Resolve fl_close fl_tx fl_forward fl_activate fl_confirm fl_fail fl_get_chunk
  fl_active fl_inactive fl_confirm_get fl_confirm_set fl_finish fl_stream_create fl_stream_delete
  fl_stream_receive fl_stream_send fl_timer_cb : dfu_env.

(** ** What the invariant is about *)

Record view : Type := MkView {
  v_image_size : Z; v_num_chunks : Z; v_crc16 : Z; v_running : Z;
  v_counter : Z; v_offset : Z; v_page : bytes; v_chunk : Z; v_flash : memory
}.

(** The page buffer is an array, and the number of chunks has sixteen bits. *)
Definition page_ok (v : view) : Prop :=
  length (v_page v) = Z.to_nat bm_img_page_length /\ v_num_chunks v < 65536.

(** [d] is in the flash from [off] on. *)
Definition mem_holds (m : memory) (off : Z) (d : bytes) : Prop :=
  forall i, (i < length d)%nat -> mem_at m (off + Z.of_nat i) = nth i d 0.

Section safe.
Context {E : Type} `{Platform} `{DfuFlash E}.
#[local] Abbreviation st := (dfu_state E).

Definition view_of (s : st) : view :=
  let c := CLIENT_CTX s in
  MkView (c_image_size c) (c_num_chunks c) (c_crc16 c) (c_running_crc16 c)
    (c_img_page_byte_counter c) (c_img_flash_offset c) (c_img_page_buf c) (c_current_chunk c)
    (contents (dfu_env s)).

(** The pending change of state. *)
Definition pend (s : st) : option BmDfuHfsmStates :=
  if pending_state_change (dfu_ctx s) then Some (new_state (dfu_ctx s)) else None.

Definition sm_state (s : st) : option BmDfuHfsmStates := current_state (dfu_sm s).

(** ** Operations that do not matter

    [keeps m]: [m] changes nothing that the invariant is about; [moves m n]: it
    changes the pending state to [n] only. *)
Definition same (s s' : st) : Prop :=
  view_of s' = view_of s /\ sm_state s' = sm_state s.

Definition keeps {A} (m : M st A) : Prop :=
  forall s, post m (fun _ s' => same s s' /\ pend s' = pend s) s.

Definition moves {A} (m : M st A) (n : BmDfuHfsmStates) : Prop :=
  forall s, post m (fun _ s' => same s s' /\ pend s' = Some n) s.

Lemma same_refl s : same s s.
Proof. done. Qed.

Lemma same_trans s1 s2 s3 : same s1 s2 -> same s2 s3 -> same s1 s3.
Proof. intros [V1 C1] [V2 C2]. split; congruence. Qed.

Lemma keeps_bind {A B} (m : M st A) (k : A -> M st B) :
  keeps m -> (forall a, keeps (k a)) -> keeps (m ≫= k).
Proof.
  intros Hm Hk s. apply post_bind. eapply post_mono; [apply Hm|]. intros a s1 [S1 P1].
  eapply post_mono; [apply Hk|]. intros b s2 [S2 P2]. split; [by eapply same_trans|congruence].
Qed.

Lemma keeps_ret {A} (a : A) : keeps (mret a).
Proof. intros s. by apply post_ret. Qed.
Lemma keeps_get : keeps get.
Proof. intros s. by apply post_get. Qed.
Lemma keeps_gets {A} (f : st -> A) : keeps (gets f).
Proof. intros s. by apply post_gets. Qed.
Lemma keeps_lift {A} (o : option A) : keeps (lift o).
Proof. intros s. by apply post_lift. Qed.
Lemma keeps_env {A} (m : M E A) : env_keeps contents m -> keeps (env m).
Proof.
  intros Hm s. apply post_zoom. eapply post_mono; [apply Hm|]. intros a e Ee.
  split; [|done]. split; [|done]. unfold view_of. cbn. by rewrite Ee.
Qed.

Lemma moves_bind_l {A B} (m : M st A) (k : A -> M st B) n :
  moves m n -> (forall a, keeps (k a)) -> moves (m ≫= k) n.
Proof.
  intros Hm Hk s. apply post_bind. eapply post_mono; [apply Hm|]. intros a s1 [S1 P1].
  eapply post_mono; [apply Hk|]. intros b s2 [S2 P2]. split; [by eapply same_trans|congruence].
Qed.

Lemma moves_bind_r {A B} (m : M st A) (k : A -> M st B) n :
  keeps m -> (forall a, moves (k a) n) -> moves (m ≫= k) n.
Proof.
  intros Hm Hk s. apply post_bind. eapply post_mono; [apply Hm|]. intros a s1 [S1 P1].
  eapply post_mono; [apply Hk|]. intros b s2 [S2 P2]. split; [by eapply same_trans|done].
Qed.

(** Updates of parts that the invariant is not about. *)
Lemma keeps_modify (f : st -> st) :
  (forall s, same s (f s) /\ pend (f s) = pend s) -> keeps (modify f).
Proof. intros Hf s. by apply post_modify. Qed.
End safe.

Create HintDb dfu.
#[export] Hint Resolve keeps_ret keeps_get keeps_gets keeps_lift keeps_env : dfu.

(** Goes through a computation that does not matter. *)
Ltac keeps_step :=
  match goal with
  | |- keeps (mbind _ _) => apply keeps_bind; [|intros]
  | |- keeps (env _) => apply keeps_env; auto with dfu_env
  | |- keeps (modify _) => apply keeps_modify; intros ?; done
  | |- keeps (let '(_, _) := ?p in _) => destruct p
  | |- keeps (match ?x with _ => _ end) => destruct x
  | |- keeps _ => solve [auto with dfu]
  end.
Ltac keeps_tac := intros; repeat keeps_step.
Ltac keeps_list := repeat (apply List.Forall_cons; [auto with dfu|]); apply List.Forall_nil.

Section neutral.
Context {E : Type} `{Platform} `{DfuFlash E}.
#[local] Abbreviation st := (dfu_state E).

Lemma keeps_timer_set b t : keeps (timer_set (E := E) b t).
Proof.
  intros s a s' Ea. unfold timer_set in Ea. destruct t; [|by injection Ea as <- <-].
  destruct (do_timer (dfu_os s)); cbn in Ea; by injection Ea as <- <-.
Qed.
Lemma keeps_malloc b : keeps (dfu_malloc (E := E) b).
Proof.
  intros s a s' Ea. unfold dfu_malloc, next_answer in Ea.
  destruct (do_alloc (dfu_os s)) as [|[] l]; cbn in Ea; by injection Ea as <- <-.
Qed.
Lemma keeps_free p : keeps (dfu_free (E := E) p).
Proof. intros s a s' Ea. unfold dfu_free in Ea. case_match; by simplify_eq. Qed.
Lemma keeps_send ev : keeps (bm_queue_send (E := E) ev).
Proof. intros s a s' Ea. unfold bm_queue_send in Ea. repeat case_match; by simplify_eq. Qed.
Lemma keeps_deref p : keeps (deref_buf (E := E) p).
Proof. unfold deref_buf. keeps_tac. Qed.
#[local] Hint Resolve keeps_timer_set keeps_malloc keeps_free keeps_send keeps_deref : dfu.

Lemma keeps_nop : keeps (bm_dfu_send_nop_event (E := E)).
Proof. unfold bm_dfu_send_nop_event. keeps_tac. Qed.
Lemma keeps_dfu_send t m : keeps (dfu_send (E := E) t m).
Proof. unfold dfu_send. keeps_tac. Qed.
#[local] Hint Resolve keeps_nop keeps_dfu_send : dfu.

Lemma moves_set_pending n : moves (bm_dfu_set_pending_state_change (E := E) n) n.
Proof. intros s. unfold bm_dfu_set_pending_state_change. repeat post_step. apply keeps_nop. Qed.

Lemma keeps_set_error n : keeps (bm_dfu_set_error (E := E) n).
Proof. unfold bm_dfu_set_error. keeps_tac. Qed.
#[local] Hint Resolve keeps_set_error : dfu.

(** *** The client *)

Lemma keeps_chunk_timer b : keeps (chunk_timer_set (E := E) b).
Proof. unfold chunk_timer_set, client, set_c_chunk_timer. keeps_tac. Qed.
#[local] Hint Resolve keeps_chunk_timer : dfu.

Lemma keeps_ack n ok e : keeps (bm_dfu_send_ack (E := E) n ok e).
Proof. unfold bm_dfu_send_ack. keeps_tac. Qed.
Lemma keeps_req n c : keeps (bm_dfu_req_next_chunk (E := E) n c).
Proof. unfold bm_dfu_req_next_chunk. keeps_tac. Qed.
Lemma keeps_end n ok e : keeps (bm_dfu_update_end (E := E) n ok e).
Proof. unfold bm_dfu_update_end. keeps_tac. Qed.
Lemma keeps_abort e : keeps (bm_dfu_client_abort (E := E) e).
Proof. unfold bm_dfu_client_abort, client. keeps_tac. Qed.
Lemma keeps_reboot_request : keeps (bm_dfu_client_send_reboot_request (E := E)).
Proof. unfold bm_dfu_client_send_reboot_request, client. keeps_tac. Qed.
Lemma keeps_boot_complete n : keeps (bm_dfu_client_send_boot_complete (E := E) n).
Proof. unfold bm_dfu_client_send_boot_complete, client. keeps_tac. Qed.
Lemma keeps_count_retry : keeps (count_retry (E := E)).
Proof. unfold count_retry, client, set_c_retry. keeps_tac. Qed.
Lemma keeps_confirm_enabled : keeps (bm_dfu_client_confirm_is_enabled (E := E)).
Proof. unfold bm_dfu_client_confirm_is_enabled. keeps_tac. Qed.
Lemma keeps_confirm_enable b : keeps (bm_dfu_client_confirm_enable (E := E) b).
Proof. unfold bm_dfu_client_confirm_enable. keeps_tac. Qed.
Lemma keeps_fail_reboot : keeps (bm_dfu_client_fail_update_and_reboot (E := E)).
Proof. unfold bm_dfu_client_fail_update_and_reboot. keeps_tac. Qed.

Lemma moves_client_error e : moves (bm_dfu_client_transition_to_error (E := E) e) BmDfuStateError.
Proof.
  unfold bm_dfu_client_transition_to_error. do 2 (apply moves_bind_r; [keeps_tac|intros]).
  apply moves_set_pending.
Qed.

(** *** The host *)

Lemma keeps_set_h_timers a h u : keeps (set_h_timers (E := E) a h u).
Proof. unfold set_h_timers. keeps_tac. Qed.
#[local] Hint Resolve keeps_set_h_timers : dfu.
Lemma keeps_ack_timer b : keeps (ack_timer_set (E := E) b).
Proof. unfold ack_timer_set, host. keeps_tac. Qed.
Lemma keeps_heartbeat_timer b : keeps (heartbeat_timer_set (E := E) b).
Proof. unfold heartbeat_timer_set, host. keeps_tac. Qed.
Lemma keeps_update_timer b : keeps (update_timer_set (E := E) b).
Proof. unfold update_timer_set, host. keeps_tac. Qed.
#[local] Hint Resolve keeps_ack_timer keeps_heartbeat_timer keeps_update_timer : dfu.

Lemma keeps_all_ok ms : Forall keeps ms -> keeps (all_ok (E := E) ms).
Proof.
  induction 1 as [|m ms Hm _ IH]; [apply keeps_ret|]. cbn [all_ok].
  apply keeps_bind; [done|]. intros err. destruct (is_ok err); [done|apply keeps_ret].
Qed.

Lemma moves_host_error e : moves (bm_dfu_host_transition_to_error (E := E) e) BmDfuStateError.
Proof.
  unfold bm_dfu_host_transition_to_error.
  apply moves_bind_r; [apply keeps_all_ok; keeps_list|intros].
  apply moves_bind_r; [keeps_tac|intros]. apply moves_set_pending.
Qed.

Lemma keeps_start_update_timer : keeps (bm_dfu_host_start_update_timer (E := E)).
Proof.
  unfold bm_dfu_host_start_update_timer. apply keeps_all_ok. keeps_list.
Qed.
Lemma keeps_req_update : keeps (bm_dfu_host_req_update (E := E)).
Proof. unfold bm_dfu_host_req_update, host. keeps_tac. Qed.
Lemma keeps_get_chunk n : keeps (get_chunk (E := E) n).
Proof. unfold get_chunk, host, bm_dfu_internal. keeps_tac. Qed.
Lemma keeps_send_reboot : keeps (bm_dfu_host_send_reboot (E := E)).
Proof. unfold bm_dfu_host_send_reboot, host. keeps_tac. Qed.
Lemma keeps_set_remaining n : keeps (set_h_remaining (E := E) n).
Proof. unfold set_h_remaining. keeps_tac. Qed.
Lemma keeps_set_image i n : keeps (set_h_image (E := E) i n).
Proof. unfold set_h_image. keeps_tac. Qed.
Lemma keeps_h_retry n : keeps (set_h_retry (E := E) n).
Proof. unfold set_h_retry. keeps_tac. Qed.
Lemma keeps_data_queue q : keeps (set_h_data_queue (E := E) q).
Proof. unfold set_h_data_queue. keeps_tac. Qed.
Lemma keeps_abort_error ev : keeps (abort_error (E := E) ev).
Proof. unfold abort_error. keeps_tac. Qed.
Lemma keeps_heartbeat n : keeps (bm_dfu_send_heartbeat (E := E) n).
Proof. unfold bm_dfu_send_heartbeat. keeps_tac. Qed.

(** ** Operations that change the pending state only *)

(** To one of [L], if at all. *)
Definition changes (R : st -> st -> Prop) (L : list BmDfuHfsmStates) {A} (m : M st A) : Prop :=
  forall s, post m (fun _ s' => R s s' /\ (pend s' = pend s \/ exists n, n ∈ L /\ pend s' = Some n)) s.

(** Less than [same]: the image may be another one. *)
Definition same_page (s s' : st) : Prop :=
  (page_ok (view_of s) -> page_ok (view_of s')) /\ sm_state s' = sm_state s.

Class Tracks (R : st -> st -> Prop) : Prop := {
  tracks_same s s' : same s s' -> R s s';
  tracks_trans s1 s2 s3 : R s1 s2 -> R s2 s3 -> R s1 s3
}.
#[export] Instance tracks_same_same : Tracks same.
Proof. split; [done|apply same_trans]. Qed.
#[export] Instance tracks_same_page : Tracks same_page.
Proof.
  split; [intros s s' [V S]; split; [by rewrite V|done]|].
  intros s1 s2 s3 [L1 S1] [L2 S2]. split; [auto|congruence].
Qed.

Lemma changes_bind (R : st -> st -> Prop) `{!Tracks R} L {A B} (m : M st A) (k : A -> M st B) :
  changes R L m -> (forall a, changes R L (k a)) -> changes R L (m ≫= k).
Proof.
  intros Hm Hk s. apply post_bind. eapply post_mono; [apply Hm|]. intros a s1 [S1 P1].
  eapply post_mono; [apply Hk|]. intros b s2 [S2 P2].
  split; [by eapply tracks_trans|]. destruct P2 as [P2|P2]; [rewrite P2|right]; done.
Qed.

Lemma changes_lift (R : st -> st -> Prop) L {A B} (o : option A) (k : A -> M st B) :
  (forall a, o = Some a -> changes R L (k a)) -> changes R L (lift o ≫= k).
Proof. intros Hk s. apply post_bind, post_lift. intros a Ea. by apply Hk. Qed.

Lemma changes_weaken (R : st -> st -> Prop) (L L' : list BmDfuHfsmStates) {A} (m : M st A) :
  L ⊆ L' -> changes R L m -> changes R L' m.
Proof.
  intros HL Hm s. eapply post_mono; [apply Hm|]. intros a s' [S P]. split; [done|].
  destruct P as [P|(n & Hn & P)]; [by left|right; exists n; set_solver].
Qed.

Lemma changes_keeps R `{!Tracks R} L {A} (m : M st A) : keeps m -> changes R L m.
Proof.
  intros Hm s. eapply post_mono; [apply Hm|]. intros a s1 [S1 P1].
  split; [by apply tracks_same|by left].
Qed.

Lemma changes_moves R `{!Tracks R} L {A} (m : M st A) n : n ∈ L -> moves m n -> changes R L m.
Proof.
  intros Hn Hm s. eapply post_mono; [apply Hm|]. intros a s1 [S1 P1].
  split; [by apply tracks_same|right; by exists n].
Qed.
End neutral.

#[export] Hint Resolve keeps_timer_set keeps_malloc keeps_free keeps_send keeps_deref keeps_nop
  keeps_dfu_send keeps_set_error keeps_chunk_timer keeps_ack keeps_req keeps_end keeps_abort
  keeps_reboot_request keeps_boot_complete keeps_count_retry keeps_confirm_enabled
  keeps_confirm_enable keeps_fail_reboot keeps_ack_timer keeps_heartbeat_timer keeps_update_timer
  keeps_start_update_timer keeps_req_update keeps_get_chunk keeps_send_reboot keeps_set_remaining
  keeps_set_image keeps_h_retry keeps_data_queue keeps_abort_error keeps_heartbeat : dfu.
#[export] Hint Resolve moves_set_pending moves_client_error moves_host_error : dfu.

Ltac changes_step :=
  match goal with
  | |- changes _ _ (mbind _ (lift _)) => apply changes_lift; intros
  | |- changes _ _ (mbind _ _) => apply changes_bind; [apply _| |intros]
  | |- changes _ _ (let '(_, _) := ?p in _) => destruct p
  | |- changes _ _ (match ?x with _ => _ end) => destruct x
  | |- changes _ _ _ =>
      solve [apply changes_keeps; [apply _|keeps_tac]
            |eapply changes_moves; [apply _| |solve [auto with dfu]]; set_solver]
  end.
Ltac changes_tac := intros; repeat changes_step.

Section states.
Context {E : Type} `{Platform} `{DfuFlash E}.
#[local] Abbreviation st := (dfu_state E).
#[local] Abbreviation fine := (changes (E := E) same).
#[local] Abbreviation error_only := ([BmDfuStateError]).

Lemma fine_client_check L m k :
  BmDfuStateError ∈ L -> fine L m -> fine L k -> fine L (timer_err_check_and_return m k).
Proof.
  intros HL Hm Hk. unfold timer_err_check_and_return. apply changes_bind; [apply _|done|].
  intros err. destruct (is_ok err); [done|]. changes_tac.
Qed.

Lemma fine_host_check L m k :
  BmDfuStateError ∈ L -> fine L m -> fine L k -> fine L (host_timer_check m k).
Proof.
  intros HL Hm Hk. unfold host_timer_check. apply changes_bind; [apply _|done|].
  intros err. destruct (is_ok err); [done|]. changes_tac.
Qed.

End states.

Ltac fine_step :=
  match goal with
  | |- changes _ _ (timer_err_check_and_return _ _) => apply fine_client_check; [set_solver| |]
  | |- changes _ _ (host_timer_check _ _) => apply fine_host_check; [set_solver| |]
  | _ => changes_step
  end.
Ltac fine_tac := intros; repeat fine_step.

Section runs.
Context {E : Type} `{Platform} `{DfuFlash E}.
#[local] Abbreviation st := (dfu_state E).
#[local] Abbreviation fine := (changes (E := E) same).

(** *** The states of the host and of the core *)

Lemma fine_send_chunk : fine [BmDfuStateError] bm_dfu_host_send_chunk.
Proof. unfold bm_dfu_host_send_chunk, host. fine_tac. Qed.

Lemma fine_host_req_update_entry : fine [] s_host_req_update_entry.
Proof.
  unfold s_host_req_update_entry, bm_dfu_get_current_event, bm_dfu_internal. fine_tac.
Qed.

Lemma fine_host_req_update_run :
  fine [BmDfuStateError; BmDfuStateHostUpdate] s_host_req_update_run.
Proof. unfold s_host_req_update_run, bm_dfu_get_current_event, host. fine_tac. Qed.

Lemma fine_host_update_run : fine [BmDfuStateError; BmDfuStateIdle] s_host_update_run.
Proof.
  unfold s_host_update_run, bm_dfu_get_current_event, host. fine_tac.
  apply (changes_weaken _ [BmDfuStateError]); [set_solver|apply fine_send_chunk].
Qed.

Lemma fine_host_update_exit : fine [] s_host_update_exit.
Proof. unfold s_host_update_exit, host. fine_tac. Qed.

Lemma fine_init_run : fine [BmDfuStateIdle; BmDfuStateClientRebootDone] s_init_run.
Proof.
  unfold s_init_run. changes_step; [changes_tac|]. destruct (ev_type _); [fine_tac|case_match; fine_tac|fine_tac..].
Qed.

Lemma fine_idle_entry : fine [] s_idle_entry.
Proof. unfold s_idle_entry. fine_tac. Qed.

Lemma fine_error_entry : fine [BmDfuStateIdle] s_error_entry.
Proof. unfold s_error_entry. fine_tac. Qed.

(** *** The states of the client *)

Lemma fine_reboot_req_entry : fine [] s_client_reboot_req_entry.
Proof. unfold s_client_reboot_req_entry, set_c_retry. fine_tac. Qed.

Lemma fine_reboot_req_run :
  fine [BmDfuStateError; BmDfuStateClientActivating] s_client_reboot_req_run.
Proof. unfold s_client_reboot_req_run, bm_dfu_get_current_event. fine_tac. Qed.

Lemma fine_update_done_entry : fine [] s_client_update_done_entry.
Proof. unfold s_client_update_done_entry, set_c_host_node_id, set_c_retry. fine_tac. Qed.

Lemma fine_update_done_run : fine [BmDfuStateIdle] s_client_update_done_run.
Proof. unfold s_client_update_done_run, bm_dfu_get_current_event. fine_tac. Qed.

Lemma fine_activating_entry : fine [] s_client_activating_entry.
Proof. unfold s_client_activating_entry. fine_tac. Qed.
End runs.

(** ** The image in the page buffer and the flash *)

(** The bytes [r] have been received: the flash holds the full pages of them, the
    page buffer the rest. *)
Record stored (v : view) (r : bytes) : Prop := {
  sd_len : v_offset v + v_counter v = Z.of_nat (length r);
  sd_counter : 0 <= v_counter v < bm_img_page_length;
  sd_offset : 0 <= v_offset v;
  sd_page_len : length (v_page v) = Z.to_nat bm_img_page_length;
  sd_flash : mem_holds (v_flash v) 0 (take (Z.to_nat (v_offset v)) r);
  sd_page : take (Z.to_nat (v_counter v)) (v_page v) = drop (Z.to_nat (v_offset v)) r
}.

Definition with_page (counter offset : Z) (page : bytes) (flash : memory) (v : view) : view :=
  MkView (v_image_size v) (v_num_chunks v) (v_crc16 v) (v_running v) counter offset page
    (v_chunk v) flash.

Definition with_running (crc : Z) (v : view) : view :=
  MkView (v_image_size v) (v_num_chunks v) (v_crc16 v) crc (v_counter v) (v_offset v) (v_page v)
    (v_chunk v) (v_flash v).

Definition with_chunk (chunk : Z) (v : view) : view :=
  MkView (v_image_size v) (v_num_chunks v) (v_crc16 v) (v_running v) (v_counter v) (v_offset v)
    (v_page v) chunk (v_flash v).

(** *** Memory *)

Lemma mem_store_in off d m i :
  off <= i < off + Z.of_nat (length d) -> mem_at (mem_store off d m) i = nth (Z.to_nat (i - off)) d 0.
Proof. intros Hi. cbn. destruct (Z.leb_spec off i), (Z.ltb_spec i (off + Z.of_nat (length d))); lia || done. Qed.

Lemma mem_store_out off d m i :
  i < off \/ off + Z.of_nat (length d) <= i -> mem_at (mem_store off d m) i = mem_at m i.
Proof. intros Hi. cbn. destruct (Z.leb_spec off i), (Z.ltb_spec i (off + Z.of_nat (length d))); lia || done. Qed.

(** What is written behind what is there. *)
Lemma mem_holds_app m a d :
  mem_holds m 0 a -> mem_holds (mem_store (Z.of_nat (length a)) d m) 0 (a ++ d).
Proof.
  intros Ha i Hi. rewrite length_app in Hi.
  destruct (decide (i < length a)%nat) as [Hl|Hl].
  - rewrite app_nth1, mem_store_out by lia. by apply Ha.
  - rewrite app_nth2, mem_store_in by lia. f_equal. lia.
Qed.

Lemma crc16_app a b : crc16_ccitt (crc16_ccitt 0 a) b = crc16_ccitt 0 (a ++ b).
Proof. unfold crc16_ccitt. by rewrite fold_left_app. Qed.

(** A page that is filled. *)
Definition full_page (v : view) (d : bytes) : view :=
  with_page 0 (v_offset v + bm_img_page_length) (blit (Z.to_nat (v_counter v)) d (v_page v))
    (mem_store (v_offset v) (blit (Z.to_nat (v_counter v)) d (v_page v)) (v_flash v)) v.

Definition part_page (v : view) (d : bytes) : view :=
  with_page (v_counter v + Z.of_nat (length d)) (v_offset v)
    (blit (Z.to_nat (v_counter v)) d (v_page v)) (v_flash v) v.

(** How much of a page is free. *)
Definition page_room (v : view) : nat := Z.to_nat (bm_img_page_length - v_counter v).

(** What [bm_dfu_process_payload] makes of a chunk. *)
Definition payload_view (v : view) (d : bytes) : view :=
  match d with
  | [] => v
  | _ => if Z.of_nat (length d) + v_counter v <? bm_img_page_length then part_page v d
         else part_page (full_page v (take (page_room v) d)) (drop (page_room v) d)
  end.

(** A page that the bytes fill is written, and leaves an empty page behind. *)
Lemma stored_page v r d :
  stored v r -> v_counter v + Z.of_nat (length d) = bm_img_page_length ->
  stored (full_page v d) (r ++ d).
Proof.
  intros [Hl Hc Ho Hp Hf Hpg] Hd. unfold bm_img_page_length in *.
  assert (Hb : blit (Z.to_nat (v_counter v)) d (v_page v) = drop (Z.to_nat (v_offset v)) r ++ d).
  { unfold blit. rewrite Hpg, (drop_ge (v_page v)) by lia. by rewrite app_nil_r. }
  assert (Hr : take (Z.to_nat (v_offset v)) r ++ drop (Z.to_nat (v_offset v)) r = r)
    by apply take_drop.
  assert (Hlt : length (take (Z.to_nat (v_offset v)) r) = Z.to_nat (v_offset v))
    by (rewrite length_take; lia).
  assert (Hld : length (r ++ d) = Z.to_nat (v_offset v + 2048)) by (rewrite length_app; lia).
  split; cbn -[Z.to_nat]; unfold bm_img_page_length.
  - rewrite Hld. lia.
  - lia.
  - lia.
  - rewrite length_blit; lia.
  - rewrite firstn_all2 by lia. rewrite Hb.
    replace (r ++ d) with (take (Z.to_nat (v_offset v)) r ++ drop (Z.to_nat (v_offset v)) r ++ d)
      by (by rewrite app_assoc, Hr).
    replace (v_offset v) with (Z.of_nat (length (take (Z.to_nat (v_offset v)) r))) at 1 by lia.
    by apply mem_holds_app.
  - rewrite drop_ge by lia. done.
Qed.

(** Bytes that do not fill the page. *)
Lemma stored_more v r d :
  stored v r -> v_counter v + Z.of_nat (length d) < bm_img_page_length ->
  stored (part_page v d) (r ++ d).
Proof.
  intros [Hl Hc Ho Hp Hf Hpg] Hd. unfold bm_img_page_length in *.
  split; cbn -[Z.to_nat]; unfold bm_img_page_length.
  - rewrite length_app. lia.
  - lia.
  - lia.
  - rewrite length_blit; lia.
  - by rewrite take_app_le by lia.
  - unfold blit. rewrite drop_app_le by lia. rewrite Hpg, app_assoc.
    rewrite take_app_length'; [done|]. rewrite length_app, length_drop. lia.
Qed.

(** Only the page and the flash change. *)
Lemma payload_fields v d :
  payload_view v d
  = with_page (v_counter (payload_view v d)) (v_offset (payload_view v d))
      (v_page (payload_view v d)) (v_flash (payload_view v d)) v.
Proof. unfold payload_view. destruct d; [by destruct v|]. by case_match. Qed.

Lemma stored_payload v r d :
  stored v r -> Z.of_nat (length d) <= bm_dfu_max_chunk_size ->
  stored (payload_view v d) (r ++ d).
Proof.
  intros Hs Hd. pose proof Hs as [_ Hc _ _ _ _]. unfold bm_dfu_max_chunk_size in Hd.
  unfold payload_view. destruct d as [|b d']; [by rewrite app_nil_r|]. set (d := b :: d') in *.
  destruct (Z.ltb_spec (Z.of_nat (length d) + v_counter v) bm_img_page_length) as [Hlt|Hge].
  - apply stored_more; [done|lia].
  - unfold page_room. set (m := Z.to_nat _). unfold bm_img_page_length in *.
    replace (r ++ d) with ((r ++ take m d) ++ drop m d) by (by rewrite <- app_assoc, take_drop).
    apply stored_more; [apply stored_page; [done|]|cbn [v_counter full_page with_page]];
      unfold bm_img_page_length; rewrite ?length_take, ?length_drop; lia.
Qed.

(** What [bm_dfu_process_end] makes of the last page. *)
Definition end_view (v : view) : view :=
  if v_counter v =? 0 then v
  else with_page (v_counter v) (v_offset v + v_counter v) (v_page v)
         (mem_store (v_offset v) (take (Z.to_nat (v_counter v)) (v_page v)) (v_flash v)) v.

Lemma stored_end v r :
  stored v r ->
  v_offset (end_view v) = Z.of_nat (length r) /\ mem_holds (v_flash (end_view v)) 0 r
  /\ v_page (end_view v) = v_page v /\ v_running (end_view v) = v_running v
  /\ v_num_chunks (end_view v) = v_num_chunks v /\ v_image_size (end_view v) = v_image_size v
  /\ v_crc16 (end_view v) = v_crc16 v.
Proof.
  intros [Hl Hc Ho Hp Hf Hpg]. unfold end_view.
  destruct (Z.eqb_spec (v_counter v) 0) as [H0'|Hn].
  - split_and!; [lia| |done..]. by rewrite firstn_all2 in Hf by lia.
  - cbn. split_and!; [lia| |done..]. rewrite Hpg.
    pose proof (mem_holds_app _ _ (drop (Z.to_nat (v_offset v)) r) Hf) as Hm.
    rewrite take_drop, length_take in Hm. by replace (v_offset v) with
      (Z.of_nat (Z.to_nat (v_offset v) `min` length r)) at 1 by lia.
Qed.

Section image.
Context {E : Type} `{Platform} `{DfuFlash E}.
#[local] Abbreviation st := (dfu_state E).

(** The view is [v] afterwards, and the machine is where it was. *)
Definition views (v : view) (s s' : st) : Prop :=
  view_of s' = v /\ sm_state s' = sm_state s /\ pend s' = pend s.

Lemma page_append_view d (s : st) :
  post (page_append d) (fun _ s' =>
    (Z.to_nat (v_counter (view_of s)) + length d <= length (v_page (view_of s)))%nat
    /\ views (with_page (u16 (v_counter (view_of s) + Z.of_nat (length d))) (v_offset (view_of s))
           (blit (Z.to_nat (v_counter (view_of s))) d (v_page (view_of s)))
           (v_flash (view_of s)) (view_of s)) s s') s.
Proof.
  unfold page_append, client, set_c_page. repeat post_step.
  unfold write_at in *. case_match; [|done]. simplify_eq. bool_to_prop. split; [done|]. done.
Qed.

(** A write has failed. *)
Definition broken (v : view) : Prop := page_ok v /\ mem_failed (v_flash v) = true.

Definition breaks (s s' : st) : Prop :=
  (page_ok (view_of s) -> broken (view_of s')) /\ sm_state s' = sm_state s /\ pend s' = pend s.

Lemma write_page_view (s : st) :
  length (v_page (view_of s)) = Z.to_nat bm_img_page_length ->
  post write_page (fun failed s' => failed = true /\ breaks s s' \/ failed = false
    /\ views (with_page 0 (u32 (v_offset (view_of s) + bm_img_page_length)) (v_page (view_of s))
           (mem_store (v_offset (view_of s)) (v_page (view_of s)) (v_flash (view_of s)))
           (view_of s)) s s') s.
Proof.
  intros Hl. unfold write_page, client, set_c_page, env. repeat post_step. cbn [dfu_env set_client].
  eapply post_mono; [apply fl_write|]. intros err e' [[-> Ec]|[Hne Ef]].
  2: { rewrite (proj2 (is_ok_false err)) by done. post_step. left. split; [done|]. split; [|done]. by intros [Hp Hn]. }
  cbn [is_ok]. repeat post_step.
  right. split; [done|]. split; [|done]. unfold view_of, with_page. cbn. f_equal.
  rewrite firstn_all2 in Ec by (change (c_img_page_buf (CLIENT_CTX s)) with (v_page (view_of s)); lia).
  exact Ec.
Qed.

(** [bm_dfu_process_payload] adds the bytes to the image. *)
Lemma process_payload_view (s : st) r d :
  stored (view_of s) r -> Z.of_nat (length d) <= bm_dfu_max_chunk_size ->
  Z.of_nat (length r) < 2 ^ 31 ->
  post (bm_dfu_process_payload (Z.of_nat (length d)) d)
    (fun failed s' => failed = true /\ breaks s s' \/ views (payload_view (view_of s) d) s s') s.
Proof.
  intros [Hl Hc Ho Hp _ _] Hd Hr. unfold bm_dfu_max_chunk_size, bm_img_page_length in *.
  set (v := view_of s) in *. unfold bm_dfu_process_payload, payload_view.
  destruct d as [|b d']; [apply post_ret; by right|]. set (d := b :: d') in *.
  destruct (Z.eqb_spec (Z.of_nat (length d)) 0) as [H0'|_]; [done|].
  unfold client. repeat post_step. change (c_img_page_byte_counter (CLIENT_CTX s)) with (v_counter v).
  unfold bm_img_page_length.
  destruct (Z.ltb_spec (Z.of_nat (length d) + v_counter v) 2048) as [Hlt|Hge].
  - post_step. eapply post_mono; [apply page_append_view|]. intros _ s1 (_ & V1 & C1 & P1). fold v in V1.
    repeat post_step. change (c_img_page_byte_counter (CLIENT_CTX s1)) with (v_counter (view_of s1)).
    rewrite u16_small in V1 by lia. rewrite V1. cbn [v_counter with_page].
    destruct (Z.eqb_spec (v_counter v + Z.of_nat (length d)) 2048); [lia|]. apply post_ret. by right.
  - rewrite u16_small by lia. unfold page_room, bm_img_page_length. set (m := Z.to_nat (2048 - v_counter v)).
    assert (Hm : (m <= length d)%nat) by lia.
    apply post_bind, post_lift. intros d1 Ed. unfold read_at in Ed. cbn [Nat.add] in Ed.
    destruct (Nat.leb_spec m (length d)); [|lia]. injection Ed as <-.
    change (slice 0 m d) with (take m d).
    assert (Hlm : length (take m d) = m) by (rewrite length_take; lia).
    post_step. eapply post_mono; [apply page_append_view|]. intros _ s1 (_ & V1 & C1 & P1). fold v in V1.
    rewrite u16_small in V1 by lia.
    repeat post_step. change (c_img_page_byte_counter (CLIENT_CTX s1)) with (v_counter (view_of s1)).
    rewrite V1. cbn [v_counter with_page].
    replace (v_counter v + Z.of_nat (length (take m d))) with 2048 in * by lia. rewrite Z.eqb_refl.
    eapply post_mono; [apply write_page_view; rewrite V1; cbn [v_page with_page];
      rewrite length_blit by lia; exact Hp|].
    intros failed s2 [[-> (B2 & C2 & P2)]|(-> & V2 & C2 & P2)].
    { apply post_ret. left. split; [done|]. split; [|split; congruence]. intros [Hpg Hn]. apply B2. rewrite V1.
      split; cbn [v_page v_num_chunks with_page]; [by rewrite length_blit by lia|exact Hn]. }
    rewrite V1 in V2.
    cbn [v_offset v_page v_flash with_page] in V2.
    unfold bm_img_page_length in V2. rewrite u32_small in V2 by lia.
    assert (E2 : view_of s2 = full_page v (take m d)) by exact V2. clear V2.
    repeat post_step. eapply post_mono; [apply page_append_view|].
    intros _ s3 (_ & V3 & C3 & P3). rewrite E2 in V3. repeat post_step.
    rewrite u16_small in V3 by (cbn [v_counter full_page with_page]; rewrite length_drop; lia).
    right. split; [exact V3|]. split; congruence.
Qed.

(** [bm_dfu_process_end] writes the rest: the flash holds the image. *)
Lemma process_end_view (s : st) r :
  stored (view_of s) r -> Z.of_nat (length r) < 2 ^ 31 ->
  post bm_dfu_process_end (fun failed s' =>
    failed = true /\ breaks s s' \/ failed = false /\ views (end_view (view_of s)) s s') s.
Proof.
  intros [Hl Hc Ho Hp Hf Hpg] Hr. unfold bm_dfu_process_end, client, set_c_page, env, end_view.
  repeat post_step. change (c_img_page_byte_counter (CLIENT_CTX s)) with (v_counter (view_of s)).
  change (c_img_flash_offset (CLIENT_CTX s)) with (v_offset (view_of s)).
  change (c_img_page_buf (CLIENT_CTX s)) with (v_page (view_of s)).
  set (v := view_of s) in *. destruct (Z.eqb_spec (v_counter v) 0) as [H0'|Hn].
  - repeat post_step. eapply post_mono; [apply fl_close|]. intros u e Ee. repeat post_step.
    right. split; [done|]. split; [|done]. unfold v, view_of; cbn; by rewrite Ee.
  - repeat post_step. eapply post_mono; [apply fl_write|]. intros err e' [[-> Ec]|[Hne Ef]].
    2: { rewrite (proj2 (is_ok_false err)) by done. repeat post_step. eapply post_mono; [apply fl_close|].
      intros u e Ee. repeat post_step. left. split; [done|]. split; [|done]. intros [Hpl Hnc]. split; [by split|].
      cbn. by rewrite Ee. }
    cbn [is_ok].
    repeat post_step. eapply post_mono; [apply fl_close|]. intros u e Ee. repeat post_step.
    right. split; [done|]. split; [|done]. cbn in Ee. rewrite u32_small by lia.
    unfold view_of, with_page. cbn. f_equal. rewrite Ee. exact Ec.
Qed.

(** *** After a write that failed *)

Definition same_broken (s s' : st) : Prop :=
  (broken (view_of s) -> broken (view_of s')) /\ sm_state s' = sm_state s.

#[export] Instance tracks_same_broken : Tracks same_broken.
Proof.
  split; [intros s s' [V S]; split; [by rewrite V|done]|].
  intros s1 s2 s3 [L1 S1] [L2 S2]. split; [auto|congruence].
Qed.

#[local] Abbreviation worn := (changes (E := E) same_broken).

Lemma worn_page_append L d : worn L (page_append d).
Proof.
  intros s. unfold page_append, client, set_c_page. repeat post_step. split; [|by left]. split; [|done].
  intros [[Hp Hn] Hf]. split; [|done]. split; [|done]. cbn.
  unfold write_at in *. case_match; [|done]. simplify_eq. bool_to_prop. rewrite length_blit by done. exact Hp.
Qed.

Lemma worn_write_page L : worn L write_page.
Proof.
  intros s. unfold write_page, client, set_c_page, env. repeat post_step.
  eapply post_mono; [apply fl_write|]. intros err e' Hw.
  assert (Hf : mem_failed (contents (dfu_env s)) = true -> mem_failed (contents e') = true)
    by (intros Hf; destruct Hw as [[_ ->]|[_ ->]]; done).
  destruct (is_ok err); repeat post_step; (split; [split; [|done]|by left]); intros [Hp Hb];
    (split; [exact Hp|by apply Hf]).
Qed.

Lemma worn_process_payload L n d : worn L (bm_dfu_process_payload n d).
Proof.
  pose proof (worn_page_append L). pose proof (worn_write_page L).
  unfold bm_dfu_process_payload, client. repeat first [solve [auto]|changes_step].
Qed.

Lemma worn_process_end L : worn L bm_dfu_process_end.
Proof.
  intros s. unfold bm_dfu_process_end, client, set_c_page, env. repeat post_step. case_match; repeat post_step.
  - eapply post_mono; [apply fl_close|]. intros u e Ee. repeat post_step.
    split; [|by left]. split; [|done]. intros [Hp Hf]. split; [done|]. cbn. by rewrite Ee.
  - eapply post_mono; [apply fl_write|]. intros err e' Hw.
    assert (Hf : mem_failed (contents (dfu_env s)) = true -> mem_failed (contents e') = true)
      by (intros Hf; destruct Hw as [[_ ->]|[_ ->]]; done).
    destruct (is_ok err); repeat post_step; (eapply post_mono; [apply fl_close|]; intros u e Ee; repeat post_step);
      (split; [split; [|done]|by left]); intros [Hp Hb]; (split; [exact Hp|cbn; rewrite Ee; by apply Hf]).
Qed.

Lemma worn_client_check L m k :
  BmDfuStateError ∈ L -> worn L m -> worn L k -> worn L (timer_err_check_and_return m k).
Proof.
  intros HL Hm Hk. unfold timer_err_check_and_return. apply changes_bind; [apply _|done|].
  intros err. destruct (is_ok err); [done|]. changes_tac.
Qed.

Lemma worn_after_chunk : worn [BmDfuStateError; BmDfuStateClientValidating] after_chunk.
Proof.
  unfold after_chunk, client, set_c_chunk.
  repeat first [apply worn_process_end|apply worn_client_check; [set_solver| |]|changes_step].
  intros s. apply post_modify. split; [|by left]. by split.
Qed.

Lemma worn_receive_chunk f : worn [BmDfuStateError; BmDfuStateClientValidating] (receive_chunk f).
Proof.
  unfold receive_chunk, client, set_c_running.
  repeat first [apply worn_process_payload|apply worn_after_chunk|apply worn_client_check; [set_solver| |]|changes_step].
  all: intros s; apply post_modify; split; [|by left]; by split.
Qed.
End image.

(** ** The invariant *)

(** Reception is under way: the running checksum is that of the bytes that came. *)
Definition received (v : view) : Prop := mem_failed (v_flash v) = true \/
  exists r, stored v r /\ v_running v = crc16_ccitt 0 r
    /\ Z.of_nat (length r) <= bm_dfu_max_chunk_size * v_chunk v
    /\ 0 <= v_chunk v /\ (v_chunk v < v_num_chunks v \/ v_chunk v = 0).

(** The last chunk is in the flash. *)
Definition complete (v : view) : Prop := mem_failed (v_flash v) = true \/
  exists r, v_offset v = Z.of_nat (length r) /\ v_running v = crc16_ccitt 0 r
    /\ mem_holds (v_flash v) 0 r.

(** The image that was announced is in the flash. *)
Definition verified (v : view) : Prop := mem_failed (v_flash v) = true \/
  exists r, v_image_size v = Z.of_nat (length r) /\ v_crc16 v = crc16_ccitt 0 r
    /\ mem_holds (v_flash v) 0 r.

(** What a state needs to be entered, and what holds in it. *)
Definition target (n : BmDfuHfsmStates) (v : view) : Prop :=
  match n with
  | BmDfuStateClientValidating => complete v
  | BmDfuStateClientRebootReq | BmDfuStateClientActivating => verified v
  | _ => True
  end.

Definition body (p : BmDfuHfsmStates) (v : view) : Prop :=
  match p with
  | BmDfuStateClientReceiving => received v
  | _ => target p v
  end.

(** The states that are left in the step that makes another one pending. *)
Definition settled (p : BmDfuHfsmStates) : bool :=
  match p with BmDfuStateIdle | BmDfuStateClientReceiving => true | _ => false end.

Section invariant.
Context {E : Type} `{Platform} `{DfuFlash E}.
#[local] Abbreviation st := (dfu_state E).

Definition pend_ok (s : st) : Prop :=
  forall n, pend s = Some n -> target n (view_of s) /\ n <> BmDfuStateClientReceiving.

(** Between the events. *)
Record at_rest (p : BmDfuHfsmStates) (s : st) : Prop := {
  ar_state : sm_state s = Some p;
  ar_page : page_ok (view_of s);
  ar_body : body p (view_of s);
  ar_pend : pend_ok s;
  ar_settled : settled p = true -> pend s = None
}.

(** When the function of the state [p] has run. *)
Record after_run (p : BmDfuHfsmStates) (s : st) : Prop := {
  af_page : page_ok (view_of s);
  af_body : pend s = None -> body p (view_of s);
  af_pend n : pend s = Some n -> target n (view_of s);
  af_receiving : p = BmDfuStateClientReceiving -> pend s <> Some BmDfuStateClientReceiving
}.

(** When the machine goes to [n]. *)
Record leaving (n : BmDfuHfsmStates) (s : st) : Prop := {
  lv_page : page_ok (view_of s);
  lv_target : target n (view_of s);
  lv_pend : pend s = None
}.

#[local] Abbreviation fine := (changes (E := E) same).

Lemma after_run_fine L {A} (m : M st A) p s :
  fine L m -> at_rest p s ->
  (forall n, n ∈ L -> target n (view_of s) /\ n <> BmDfuStateClientReceiving) ->
  post m (fun _ s' => sm_state s' = Some p /\ after_run p s') s.
Proof.
  intros Hm [Hs Hp Hb Hpd Hr] HL. eapply post_mono; [apply Hm|]. intros a s' [[V S] P].
  split; [congruence|]. split; rewrite ?V; [done|done| |].
  - intros n Hn. destruct P as [P|(n' & Hn' & P)]; [apply Hpd; congruence|].
    assert (n' = n) by congruence. subst. by apply HL.
  - intros -> E2. destruct P as [P|(n' & Hn' & P)]; [rewrite Hr in P by done; congruence|].
    assert (n' = BmDfuStateClientReceiving) by congruence. subst. by apply (HL _ Hn').
Qed.

Lemma enter_fine L {A} (m : M st A) n s :
  fine L m -> leaving n s -> sm_state s = Some n -> n <> BmDfuStateClientReceiving ->
  (n = BmDfuStateIdle -> L = []) ->
  (forall n', n' ∈ L -> target n' (view_of s) /\ n' <> BmDfuStateClientReceiving) ->
  post m (fun _ => at_rest n) s.
Proof.
  intros Hm [Hp Ht Hpd] Hs Hn Hi HL. eapply post_mono; [apply Hm|]. intros a s' [[V S] P].
  split; rewrite ?V; [congruence|done|by destruct n| |].
  2: { intros Hn'. destruct n; try done. rewrite Hi in P by done.
       destruct P as [P|(n1 & Hn1 & _)]; [congruence|set_solver]. }
  intros n' Hn'. rewrite V. destruct P as [P|(n1 & Hn1 & P)]; [congruence|].
  assert (n1 = n') by congruence. subst. by apply HL.
Qed.

(** *** Reception *)

Lemma restart_view (s : st) :
  post restart_reception (fun _ s' =>
    views (with_running 0 (with_page 0 0 (v_page (view_of s)) (v_flash (view_of s))
             (with_chunk 0 (view_of s)))) s s') s.
Proof.
  unfold restart_reception, client, set_c_chunk, set_c_page, set_c_running. repeat post_step. done.
Qed.

Lemma received_restart v page :
  length page = Z.to_nat bm_img_page_length ->
  received (with_running 0 (with_page 0 0 page (v_flash v) (with_chunk 0 v))).
Proof.
  intros Hp. right. exists []. cbn -[Z.to_nat]. split_and!; try done; [|by right].
  split; [done|done|done|exact Hp| |done]. intros i Hi. rewrite take_nil in Hi. cbn in Hi. lia.
Qed.

Lemma receiving_entry (s : st) :
  leaving BmDfuStateClientReceiving s -> sm_state s = Some BmDfuStateClientReceiving ->
  post s_client_receiving_entry (fun _ => at_rest BmDfuStateClientReceiving) s.
Proof.
  intros [Hp Ht Hpd] Hs. unfold s_client_receiving_entry.
  apply post_bind. eapply post_mono; [apply restart_view|]. intros u s1 (V1 & S1 & P1).
  pose proof (received_restart (view_of s) _ (proj1 Hp)) as Hr. rewrite <- V1 in Hr.
  assert (Hk : keeps (E := E) (c ← client; _ ← bm_dfu_req_next_chunk (c_host_node_id c) (c_current_chunk c);
               chunk_timer_set true)) by (unfold client; keeps_tac).
  eapply post_mono; [apply Hk|]. intros err s2 [[V2 S2] P2].
  split; [congruence| |by rewrite V2| |congruence].
  - rewrite V2, V1. exact Hp.
  - intros n Hn. congruence.
Qed.

(** After [m], what concerns reception is as before, except for an error. *)
Lemma receiving_fine {A} (m : M st A) s :
  fine [BmDfuStateError] m -> received (view_of s) -> page_ok (view_of s) ->
  sm_state s = Some BmDfuStateClientReceiving ->
  pend s = None \/ pend s = Some BmDfuStateError ->
  post m (fun _ s' => sm_state s' = Some BmDfuStateClientReceiving
                      /\ after_run BmDfuStateClientReceiving s') s.
Proof.
  intros Hm Hr Hp Hs Hpd. eapply post_mono; [apply Hm|]. intros a s' [[V S] P].
  assert (Hpd' : pend s' = None \/ pend s' = Some BmDfuStateError).
  { destruct P as [P|(n & Hn & P)]; [by rewrite P|]. right. rewrite P. set_solver. }
  split; [congruence|]. split; rewrite ?V; [done|done| |].
  - intros n Hn. destruct Hpd' as [P'|P']; rewrite Hn in P'; [done|]. by injection P' as ->.
  - intros _ E1. by destruct Hpd' as [P'|P']; rewrite E1 in P'.
Qed.

(** After a write that failed, nothing is said of the flash. *)
Lemma target_broken n v : broken v -> target n v /\ body n v.
Proof. intros [_ Hf]. destruct n; (split; [try done|try done]); by left. Qed.

Lemma broken_after {A} L (m : M st A) s :
  changes same_broken L m -> BmDfuStateClientReceiving ∉ L -> broken (view_of s) ->
  sm_state s = Some BmDfuStateClientReceiving -> pend s <> Some BmDfuStateClientReceiving ->
  post m (fun _ s' => sm_state s' = Some BmDfuStateClientReceiving
                      /\ after_run BmDfuStateClientReceiving s') s.
Proof.
  intros Hm HL Hb Hs Hpd. eapply post_mono; [apply Hm|]. intros a s' [[B S] P]. specialize (B Hb).
  split; [congruence|]. split; [apply B| | |].
  - intros _. by apply target_broken.
  - intros n _. by apply target_broken.
  - intros _ E1. destruct P as [P|(n & Hn & P)]; [congruence|]. rewrite E1 in P. by injection P as <-.
Qed.

(** A chunk is in; the next is asked for, or the image is complete. *)
Lemma after_chunk_receives (s : st) r :
  stored (view_of s) r -> v_running (view_of s) = crc16_ccitt 0 r ->
  Z.of_nat (length r) <= bm_dfu_max_chunk_size * (v_chunk (view_of s) + 1) ->
  0 <= v_chunk (view_of s) < 65535 -> v_num_chunks (view_of s) < 65536 ->
  sm_state s = Some BmDfuStateClientReceiving ->
  pend s = None \/ pend s = Some BmDfuStateError ->
  post after_chunk (fun _ s' => sm_state s' = Some BmDfuStateClientReceiving
                                /\ after_run BmDfuStateClientReceiving s') s.
Proof.
  intros Hst Hrun Hlen Hch Hnum Hs Hpd. unfold after_chunk, client, set_c_chunk. repeat post_step.
  set (s1 := set_client _ s).
  assert (V1 : view_of s1 = with_chunk (u16 (v_chunk (view_of s) + 1)) (view_of s)) by done.
  rewrite u16_small in V1 by lia.
  assert (St1 : stored (view_of s1) r) by (rewrite V1; by destruct Hst).
  change (c_current_chunk (CLIENT_CTX s1)) with (v_chunk (view_of s1)).
  change (c_num_chunks (CLIENT_CTX s1)) with (v_num_chunks (view_of s1)). rewrite V1.
  cbn [v_chunk v_num_chunks with_chunk].
  destruct (Z.ltb_spec (v_chunk (view_of s) + 1) (v_num_chunks (view_of s))) as [Hlt|Hge].
  - apply receiving_fine; [fine_tac| |split; [apply St1|by rewrite V1]|done|done].
    right. exists r. rewrite V1 in *. cbn [v_chunk v_num_chunks v_running with_chunk].
    split_and!; [done|done|done|lia|by left].
  - assert (Hrl : Z.of_nat (length r) < 2 ^ 31)
      by (unfold bm_dfu_max_chunk_size in Hlen; lia).
    post_step. eapply post_mono; [by apply (process_end_view s1 r)|].
    intros failed s2 [(-> & B2 & S2 & P2)|(-> & (V2 & S2 & P2))].
    { specialize (B2 ltac:(split; [apply St1|by rewrite V1])).
      eapply (broken_after [BmDfuStateError]); [changes_tac|set_solver|exact B2|by rewrite S2|].
      rewrite P2. change (pend s1) with (pend s). by destruct Hpd as [->| ->]. }
    destruct (stored_end _ r St1) as (Eo & Hm & Epg & Erun & Enum & _). rewrite <- V2 in *. post_step.
    eapply post_mono; [apply moves_set_pending|]. intros u s3 [[V3 S3] P3]. apply post_ret.
    split; [by rewrite S3, S2|]. split.
    + rewrite V3. split; [rewrite Epg; apply St1|rewrite Enum, V1; done].
    + intros Hn. congruence.
    + intros n Hn. rewrite Hn in P3. injection P3 as ->. rewrite V3.
      right. exists r. split; [done|]. split; [by rewrite Erun, V1|]. exact Hm.
    + intros _ Hn. congruence.
Qed.

(** A timer's failure sends the machine to the error state; else it goes on. *)
Lemma receiving_check (m k : M st BmErr) s :
  keeps m -> received (view_of s) -> page_ok (view_of s) ->
  sm_state s = Some BmDfuStateClientReceiving -> pend s = None ->
  (forall s', same s s' -> pend s' = None ->
     post k (fun _ s' => sm_state s' = Some BmDfuStateClientReceiving
                         /\ after_run BmDfuStateClientReceiving s') s') ->
  post (timer_err_check_and_return m k)
    (fun _ s' => sm_state s' = Some BmDfuStateClientReceiving
                 /\ after_run BmDfuStateClientReceiving s') s.
Proof.
  intros Hm Hr Hp Hs Hpd Hk. unfold timer_err_check_and_return.
  apply post_bind. eapply post_mono; [apply Hm|]. intros err s1 [[V1 S1] P1].
  destruct (is_ok err); [apply Hk; [done|congruence]|].
  apply receiving_fine; [fine_tac|by rewrite V1|by rewrite V1|congruence|left; congruence].
Qed.

Lemma receive_chunk_receives f s :
  at_rest BmDfuStateClientReceiving s ->
  post (receive_chunk f) (fun _ s' => sm_state s' = Some BmDfuStateClientReceiving
                                      /\ after_run BmDfuStateClientReceiving s') s.
Proof.
  intros [Hs Hp Hb _ Hpd]. specialize (Hpd eq_refl). destruct Hb as [Hf|Hb].
  { apply (broken_after [BmDfuStateError; BmDfuStateClientValidating]); [apply worn_receive_chunk|set_solver|by split|done|congruence]. }
  assert (Hb' : received (view_of s)) by (by right).
  unfold receive_chunk. apply post_bind, post_lift. intros n En.
  destruct (Z.ltb_spec bm_dfu_max_chunk_size n) as [Hbig|Hn].
  { apply receiving_fine; [fine_tac|done|done|done|by left]. }
  apply receiving_check; [auto with dfu|done|done|done|done|]. intros s1 [V1 S1] P1.
  unfold client, set_c_running. post_step. post_step. apply post_bind, post_lift.
  change (fields_offset + 2)%nat with 19%nat. intros d Ed. unfold read_at in Ed. case_match; [|done]. injection Ed as <-. bool_to_prop.
    set (d := slice _ _ f). assert (Hd : length d = Z.to_nat n) by (apply length_slice; lia).
  assert (Hn0 : 0 <= n).
  { unfold field in En. destruct (read_at _ _ _); [|done]. injection En as <-. by apply wrap_range. }
  pose proof Hp as [_ Hnum].
  destruct Hb as (r & St & Hrun & Hlen & Hch & Hor).
  repeat post_step. set (s2 := set_client _ s1).
  assert (V2 : view_of s2 = with_running (crc16_ccitt (v_running (view_of s)) d) (view_of s))
    by (rewrite <- V1; done).
  replace n with (Z.of_nat (length d)) by lia.
  assert (St2 : stored (view_of s2) r) by (rewrite V2; by destruct St).
  eapply post_mono; [apply (process_payload_view s2 r d St2)|].
  - lia.
  - unfold bm_dfu_max_chunk_size in Hlen. lia.
  - intros failed s3 [(-> & B3 & S3 & P3)|(V3 & S3 & P3)].
    { apply (broken_after [BmDfuStateError; BmDfuStateClientValidating]).
      - changes_step; [changes_tac|apply worn_after_chunk].
      - set_solver.
      - apply B3. rewrite V2. exact Hp.
      - by rewrite S3, <- Hs, <- S1.
      - rewrite P3. change (pend s2) with (pend s1). by rewrite P1. }
    pose proof (stored_payload _ r d St2 ltac:(lia)) as St3. rewrite <- V3 in St3.
    post_step.
    assert (Hf : fine [BmDfuStateError] (if failed then bm_dfu_client_transition_to_error BmDfuErrBmFrame
                  else mret tt)) by (destruct failed; fine_tac).
    eapply post_mono; [apply Hf|]. intros u s4 [[V4 S4] P4].
    rewrite V2, payload_fields in V3. rewrite <- V4 in V3, St3. rewrite V3 in St3.
    apply (after_chunk_receives s4 (r ++ d)); rewrite ?V3;
      cbn [v_chunk v_num_chunks v_running with_page with_running].
    + done.
    + by rewrite Hrun, crc16_app.
    + rewrite length_app. lia.
    + lia.
    + done.
    + by rewrite S4, S3, <- Hs, <- S1.
    + destruct P4 as [P4|(n4 & Hn4 & P4)]; [left; by rewrite P4, P3, <- P1|].
      right. rewrite P4. set_solver.
Qed.
Lemma receiving_run (s : st) :
  at_rest BmDfuStateClientReceiving s ->
  post s_client_receiving_run (fun _ s' => sm_state s' = Some BmDfuStateClientReceiving
                                           /\ after_run BmDfuStateClientReceiving s') s.
Proof.
  intros Hr. pose proof Hr as [Hs Hp Hb _ Hpd]. specialize (Hpd eq_refl).
  assert (Hquiet : forall A (m : M st A), fine [BmDfuStateError] m ->
    post m (fun _ s' => sm_state s' = Some BmDfuStateClientReceiving
                        /\ after_run BmDfuStateClientReceiving s') s).
  { intros A m Hm. apply receiving_fine; [done|done|done|done|by left]. }
  unfold s_client_receiving_run, bm_dfu_get_current_event, client. do 2 post_step.
  destruct (ev_type _); try solve [apply Hquiet; fine_tac].
  - apply receiving_check; [auto with dfu|done|done|done|done|]. intros s1 [V1 S1] P1.
    repeat post_step. eapply post_mono; [apply keeps_ack|]. intros u s2 [[V2 S2] P2].
    post_step. eapply post_mono; [apply restart_view|]. intros u3 s3 (V3 & S3 & P3).
    assert (Hr3 : received (view_of s3)).
    { rewrite V3. apply received_restart. rewrite V2, V1. apply Hp. }
    apply receiving_fine; [fine_tac|done| |congruence|left; congruence].
    rewrite V3. unfold page_ok. cbn [v_page v_num_chunks with_running with_page with_chunk].
    by rewrite V2, V1.
  - destruct (ev_buf _); [|apply Hquiet; fine_tac].
    post_step. eapply post_mono; [apply keeps_deref|]. intros b s1 [[V1 S1] P1].
    apply receive_chunk_receives. split; rewrite ?V1; [congruence|done|done| |congruence].
    intros n Hn. congruence.
Qed.

Lemma validating_entry (s : st) :
  leaving BmDfuStateClientValidating s -> sm_state s = Some BmDfuStateClientValidating ->
  post s_client_validating_entry (fun _ => at_rest BmDfuStateClientValidating) s.
Proof.
  intros [Hp Hcomp Hpd] Hs. unfold s_client_validating_entry, client.
  repeat post_step. change (c_image_size (CLIENT_CTX s)) with (v_image_size (view_of s)).
  change (c_img_flash_offset (CLIENT_CTX s)) with (v_offset (view_of s)).
  change (c_crc16 (CLIENT_CTX s)) with (v_crc16 (view_of s)).
  change (c_running_crc16 (CLIENT_CTX s)) with (v_running (view_of s)).
  assert (Hgo : forall (m : M st unit) n, moves m n -> target n (view_of s) ->
    n <> BmDfuStateClientReceiving ->
    post m (fun _ s' => post (mret BmOK) (fun _ : BmErr => at_rest BmDfuStateClientValidating) s') s).
  { intros m n Hmv Ht Hn. eapply post_mono; [apply Hmv|]. intros u s' [[V S] P]. apply post_ret.
    split; rewrite ?V; [congruence|done|done| |done].
    intros n' Hn'. rewrite V. assert (n' = n) as -> by congruence. done. }
  destruct (Z.eqb_spec (v_image_size (view_of s)) (v_offset (view_of s))) as [El|El];
    [destruct (Z.eqb_spec (v_crc16 (view_of s)) (v_running (view_of s))) as [Ec|Ec]|].
  - apply (Hgo _ BmDfuStateClientRebootReq); [apply moves_set_pending| |done].
    destruct Hcomp as [Hf|(r & Hoff & Hrun & Hm)]; [by left|].
    right. exists r. split_and!; [congruence|congruence|done].
  - apply (Hgo _ BmDfuStateError); [|done|done].
    apply moves_bind_r; [keeps_tac|intros; auto with dfu].
  - apply (Hgo _ BmDfuStateError); [|done|done].
    apply moves_bind_r; [keeps_tac|intros; auto with dfu].
Qed.

(** *** The request for an update *)

#[local] Abbreviation rough := (changes (E := E) same_page).

Lemma rough_env {A} L (m : M E A) : rough L (env m).
Proof.
  intros s. apply post_zoom. intros a e Ee. split; [done|]. by left.
Qed.

Lemma rough_accept i : rough [BmDfuStateError; BmDfuStateClientReceiving] (accept_update i).
Proof.
  unfold accept_update, client.
  repeat first [apply rough_env | changes_step].
Qed.

Lemma rough_set_image n c d : c < 65536 -> rough [] (set_c_image (E := E) n c d).
Proof.
  intros Hc s. apply post_modify. split; [|by left]. split; [|done]. intros [Hp _]. by split.
Qed.

Lemma rough_update_request :
  rough [BmDfuStateError; BmDfuStateClientReceiving] bm_dfu_client_process_update_request.
Proof.
  unfold bm_dfu_client_process_update_request, bm_dfu_get_current_event, set_c_host_node_id, set_c_fa.
  repeat first [apply rough_env | apply rough_accept | changes_step].
  apply (changes_weaken _ []); [set_solver|]. apply rough_set_image.
  unfold number_of_chunks in *. case_match; [done|]. simplify_eq. apply u16_range.
Qed.

Lemma idle_run (s : st) :
  at_rest BmDfuStateIdle s ->
  post s_idle_run (fun _ s' => sm_state s' = Some BmDfuStateIdle /\ after_run BmDfuStateIdle s') s.
Proof.
  intros [Hs Hp _ _ Hpd]. specialize (Hpd eq_refl).
  assert (Hr : rough [BmDfuStateError; BmDfuStateClientReceiving; BmDfuStateHostReqUpdate] s_idle_run).
  { unfold s_idle_run, bm_dfu_get_current_event, set_finish, bm_dfu_host_set_params.
    changes_step; [changes_tac|]. destruct (ev_type _); repeat changes_step.
    apply (changes_weaken _ [BmDfuStateError; BmDfuStateClientReceiving]); [set_solver|].
    apply rough_update_request. }
  eapply post_mono; [apply Hr|]. intros err s' [[Hp' S] P]. split; [congruence|].
  split; [by apply Hp'|done| |done]. intros n Hn. destruct P as [P|(n' & Hn' & P)].
  - congruence.
  - assert (n' = n) as -> by congruence. by repeat (apply elem_of_cons in Hn' as [->|Hn'];
      [done|]); apply not_elem_of_nil in Hn'.
Qed.

(** *** The machine *)

Lemma check_transitions_after p (s : st) :
  after_run p s -> sm_state s = Some p ->
  post (bm_dfu_check_transitions (state_number p)) (fun n s => match n with
    | None => at_rest p s
    | Some n => if decide (p = n) then at_rest p s else sm_state s = Some p /\ leaving n s
    end) s.
Proof.
  intros [Hp Hb Hpd Hr] Hs. unfold bm_dfu_check_transitions, set_pending. post_step. post_step.
  destruct (pending_state_change (dfu_ctx s)) eqn:Epd.
  - assert (Ep : pend s = Some (new_state (dfu_ctx s))) by (unfold pend; by rewrite Epd).
    specialize (Hpd _ Ep). repeat post_step. set (s' := set_core _ s).
    assert (Ep' : pend s' = None) by done.
    destruct (decide (p = new_state (dfu_ctx s))) as [Ee|Hne]; [|split; [done|by split]].
    split; [done|done| |intros n Hn; congruence|done].
    rewrite <- Ee in Hpd. change (view_of s') with (view_of s).
    destruct p; try done. by destruct Hr; congruence.
  - assert (Ep : pend s = None) by (unfold pend; by rewrite Epd). apply post_ret.
    assert (Ei : state_of_number (state_number p) = Some p) by (by destruct p). rewrite Ei.
    rewrite decide_True by done. split; [done|done|auto| |done]. intros n Hn. congruence.
Qed.

Lemma run_after p s :
  at_rest p s ->
  match dfu_states p with
  | Some st' => match run st' with
                | Some f => post f (fun _ s' => sm_state s' = Some p /\ after_run p s') s
                | None => True
                end
  | None => True
  end.
Proof.
  intros Hr. destruct p; cbn [dfu_states run].
  - eapply after_run_fine; [apply fine_init_run|done|]. set_solver.
  - by apply idle_run.
  - eapply (after_run_fine []); [unfold s_error_run; fine_tac|done|]. set_solver.
  - by apply receiving_run.
  - eapply (after_run_fine []); [unfold s_client_validating_run; fine_tac|done|]. set_solver.
  - eapply after_run_fine; [apply fine_reboot_req_run|done|]. pose proof (ar_body _ _ Hr). set_solver.
  - eapply after_run_fine; [apply fine_update_done_run|done|]. set_solver.
  - eapply (after_run_fine []); [unfold s_client_activating_run; fine_tac|done|]. set_solver.
  - eapply after_run_fine; [apply fine_host_req_update_run|done|]. set_solver.
  - eapply after_run_fine; [apply fine_host_update_run|done|]. set_solver.
Qed.

Lemma enter_state n s :
  leaving n s -> sm_state s = Some n ->
  match dfu_states n with
  | Some st' => post (run_opt (on_state_entry st')) (fun _ => at_rest n) s
  | None => True
  end.
Proof.
  intros Hl Hs.
  assert (Hopt : forall L (m : M st BmErr), fine L m -> n <> BmDfuStateClientReceiving ->
    (n = BmDfuStateIdle -> L = []) ->
    (forall n', n' ∈ L -> target n' (view_of s) /\ n' <> BmDfuStateClientReceiving) ->
    post (run_opt (Some m)) (fun _ => at_rest n) s).
  { intros L m Hm Hn Hi HL. apply (enter_fine L); try done. cbn [run_opt].
    apply changes_bind; [apply _|done|intros; fine_tac]. }
  assert (Hnone : n <> BmDfuStateClientReceiving -> post (run_opt (None (A := M st BmErr)))
    (fun _ => at_rest n) s).
  { intros Hn. apply (enter_fine []); try done; [cbn [run_opt]; fine_tac|set_solver]. }
  assert (Hspecial : forall m : M st BmErr, post m (fun _ => at_rest n) s ->
    post (run_opt (Some m)) (fun _ => at_rest n) s).
  { intros m Hm. cbn [run_opt]. post_step. eapply post_mono; [exact Hm|]. intros e s' Hr.
    by apply post_ret. }
  destruct n; cbn [dfu_states on_state_entry].
  - by apply Hnone.
  - apply (Hopt []); [apply fine_idle_entry|done|done|set_solver].
  - apply (Hopt [BmDfuStateIdle]); [apply fine_error_entry|done|done|set_solver].
  - by apply Hspecial, receiving_entry.
  - by apply Hspecial, validating_entry.
  - apply (Hopt []); [apply fine_reboot_req_entry|done|done|set_solver].
  - apply (Hopt []); [apply fine_update_done_entry|done|done|set_solver].
  - apply (Hopt []); [apply fine_activating_entry|done|done|set_solver].
  - apply (Hopt []); [apply fine_host_req_update_entry|done|done|set_solver].
  - apply (Hopt []); [unfold s_host_update_entry; fine_tac|done|done|set_solver].
Qed.

Lemma exit_state p : 
  match dfu_states p with
  | Some st' => fine [] (run_opt (on_state_exit st'))
  | None => True
  end.
Proof.
  destruct p; cbn [dfu_states on_state_exit run_opt]; try solve [fine_tac].
  - apply changes_bind; [apply _| |intros; fine_tac]. unfold s_idle_exit. fine_tac.
  - apply changes_bind; [apply _|apply fine_host_update_exit|intros; fine_tac].
Qed.

Lemma dfu_sm_run_rests p s :
  at_rest p s -> post dfu_sm_run (fun _ s' => exists p', at_rest p' s') s.
Proof.
  intros Hr. unfold dfu_sm_run. apply (lib_sm_run_invariant _ _ _ _ at_rest after_run (fun _ => leaving)) with p; [| | | |done].
  - by intros p' s' [].
  - intros p' st' s' Hd Hr'. pose proof (run_after p' s' Hr') as Hra. by rewrite Hd in Hra.
  - intros p' st' c s' Hd Ha Hc.
    replace (state_enum st') with (state_number p'); [by apply check_transitions_after|].
    injection Hd as <-. by destruct p'.
  - intros p' n st' s' Hd Hl Hc. pose proof (exit_state p') as Hx. rewrite Hd in Hx.
    eapply post_mono; [apply Hx|]. intros u s1 [[V S] P]. split; [done|].
    intros st1 Hd1. set (s2 := set_dfu_sm _ s1).
    assert (Hl2 : leaving n s2).
    { destruct Hl as [Hp Ht Hpd]. change (view_of s2) with (view_of s1). split;
        change (view_of s2) with (view_of s1); rewrite ?V; [done|done|].
      change (pend s2) with (pend s1). destruct P as [P|(? & Hn & _)]; [congruence|set_solver]. }
    pose proof (enter_state n s2 Hl2 eq_refl) as He. by rewrite Hd1 in He.
Qed.

(** ** Everything that can happen *)

Definition safe (s : st) : Prop := exists p, at_rest p s.

(** A handler that keeps everything. *)
Lemma keeps_safe {A} (m : M st A) s : keeps m -> safe s -> post m (fun _ => safe) s.
Proof.
  intros Hm (p & [Hs Hp Hb Hpd Hr]). eapply post_mono; [apply Hm|]. intros a s' [[V S] P].
  exists p. split; rewrite ?V; [congruence|done|done| |rewrite P; done].
  intros n Hn. rewrite V. apply Hpd. congruence.
Qed.

Lemma event_thread_safe s : safe s -> post bm_dfu_event_thread_step (fun _ => safe) s.
Proof.
  intros Hs. unfold bm_dfu_event_thread_step, set_current_event, bm_dfu_get_current_event.
  do 2 post_step. destruct (dfu_event_queue s) as [[|evt q]|]; [by apply post_ret| |by apply post_ret].
  repeat post_step. set (s1 := set_core _ _).
  assert (Hs1 : safe s1).
  { destruct Hs as (p & [H1' H2' H3' H4' H5']). by exists p. }
  destruct Hs1 as (p & Hr). eapply post_mono; [by eapply dfu_sm_run_rests|]. intros err s2 Hs2.
  repeat post_step. apply keeps_safe; [|exact Hs2]. keeps_tac.
Qed.

Lemma keeps_process_message buf len : keeps (bm_dfu_process_message (E := E) buf len).
Proof.
  unfold bm_dfu_process_message, dfu_valid_packet, dfu_current_state, bm_dfu_client_host_node_valid,
    bm_dfu_host_client_node_valid, client, host.
  keeps_tac. intros s. apply post_ub.
Qed.

(** Only the task changes the state. *)
Lemma keeps_dfu_act a : a <> ActThread -> keeps (dfu_act (E := E) a).
Proof.
  intros Ha. destruct a; cbn [dfu_act]; [done|..].
  - unfold dfu_copy_and_process_message. pose proof keeps_process_message. keeps_tac.
  - unfold chunk_timer_handler; keeps_tac.
  - unfold ack_timer_handler; keeps_tac.
  - unfold update_timer_handler; keeps_tac.
  - unfold dfu_heartbeat_timer_handler; keeps_tac.
  - unfold send_hb_timer_cb, host; keeps_tac.
  - unfold bm_dfu_initiate_update, dfu_current_state, refuse_update, set_internal. keeps_tac.
  - unfold bm_dfu_host_queue_data, host; keeps_tac.
Qed.

Lemma dfu_act_safe a s : safe s -> post (dfu_act a) (fun _ => safe) s.
Proof.
  intros Hs. assert (Ha : a = ActThread \/ a <> ActThread) by (destruct a; by (left + right)).
  destruct Ha as [->|Ha]; [by apply event_thread_safe|].
  apply keeps_safe; [by apply keeps_dfu_act|done].
Qed.

Lemma dfu_run_safe l s : safe s -> post (for_each l dfu_act) (fun _ => safe) s.
Proof.
  revert s. induction l as [|a l IH]; intros s Hs; cbn [for_each]; [by apply post_ret|].
  post_step. eapply post_mono; [by apply dfu_act_safe|]. intros u s1 Hs1. by apply IH.
Qed.

(** The initialization registers the messages with the packet layer. *)
Lemma dfu_init_safe q c a h u packet_add s :
  (forall t, env_keeps contents (packet_add t)) ->
  page_ok (view_of s) -> pending_state_change (dfu_ctx s) = false ->
  post (bm_dfu_init q c a h u packet_add) (fun _ => safe) s.
Proof.
  intros Hadd Hp Hpd. unfold bm_dfu_init. do 8 post_step.
  match goal with E1 : snd _ = Some _ |- _ => injection E1 as <- end.
  set (s1 := set_dfu_sm _ _).
  assert (Hs1 : safe s1).
  { exists BmDfuStateInit. split; try done. intros n Hn. unfold pend in Hn. cbn in Hn.
    by rewrite Hpd in Hn. }
  apply keeps_safe; [|exact Hs1]. unfold bm_dfu_client_init, bm_dfu_host_init.
  do 4 (apply keeps_bind; [keeps_tac|intros ?]). cbn [foldl]. unfold unless_err. keeps_tac.
Qed.

(** The first [n] bytes of the flash. *)
Definition flash_bytes (m : memory) (n : Z) : bytes :=
  (fun i => mem_at m (Z.of_nat i)) <$> seq 0 (Z.to_nat n).

Lemma mem_holds_bytes m r : mem_holds m 0 r -> flash_bytes m (Z.of_nat (length r)) = r.
Proof.
  intros Hm. apply list_eq. intros i. unfold flash_bytes. rewrite list_lookup_fmap, Nat2Z.id.
  destruct (decide (i < length r)%nat) as [Hi|Hi].
  - rewrite lookup_seq_lt by done. cbn. pose proof (Hm i Hi) as Hmi.
    rewrite Z.add_0_l in Hmi. rewrite Hmi.
    destruct (lookup_lt_is_Some_2 r i Hi) as [x Hx]. by rewrite Hx, (nth_lookup_Some _ _ _ x Hx).
  - rewrite lookup_seq_ge, lookup_ge_None_2 by lia. done.
Qed.

(** C1: only a checked image is activated, unless a write to the flash has failed.  Start
    from the initialization, and let anything happen, in any order: messages of any
    content, timers, calls of the application, iterations of the task.  Whenever the
    client asks for the reboot into the new image, or activates it, and no write to the
    flash has failed since it was erased, the first [image_size] bytes of the flash have
    the checksum that the host announced for them.  The flash may hold anything before.
    After a write that failed the client can activate another image, since it goes on
    with the validation when the chunk was the last one: [failed_write_activated]. *)
Theorem dfu_activation_safe q c a h u packet_add s0 err s events s' :
  (forall t, env_keeps contents (packet_add t)) ->
  length (c_img_page_buf (CLIENT_CTX s0)) = Z.to_nat bm_img_page_length ->
  c_num_chunks (CLIENT_CTX s0) < 65536 -> pending_state_change (dfu_ctx s0) = false ->
  bm_dfu_init q c a h u packet_add s0 = Some (err, s) ->
  for_each events dfu_act s = Some (tt, s') ->
  sm_state s' = Some BmDfuStateClientRebootReq \/ sm_state s' = Some BmDfuStateClientActivating ->
  mem_failed (contents (dfu_env s')) = false ->
  let client := CLIENT_CTX s' in
  crc16_ccitt 0 (flash_bytes (contents (dfu_env s')) (c_image_size client)) = c_crc16 client.
Proof.
  intros Hadd Hp Hn Hpd Hinit Hrun Hstate Hwritten client.
  assert (Hs : safe s) by (eapply dfu_init_safe; [exact Hadd|split; [exact Hp|exact Hn]|exact Hpd|exact Hinit]).
  destruct (dfu_run_safe events s Hs _ _ Hrun) as (p & [Hst _ Hb _ _]).
  assert (Hv : verified (view_of s')).
  { destruct Hstate as [E1|E1]; rewrite E1 in Hst; injection Hst as <-; exact Hb. }
  destruct Hv as [Hf|(r & El & Ec & Hm)]; [cbn in Hf; congruence|]. change (c_image_size client) with (v_image_size (view_of s')).
  rewrite El. change (contents (dfu_env s')) with (v_flash (view_of s')).
  by rewrite (mem_holds_bytes _ r Hm), <- Ec.
Qed.

(** Nothing but the pending change leaves the error. *)
Definition stuck (s : st) : Prop := sm_state s = Some BmDfuStateError /\ pend s = None.

Lemma keeps_stuck {A} (m : M st A) s : keeps m -> stuck s -> post m (fun _ => stuck) s.
Proof.
  intros Hm [Hs Hp]. eapply post_mono; [apply Hm|]. intros a s' [[_ S] P]. split; congruence.
Qed.

Lemma sm_run_stuck s : stuck s -> post dfu_sm_run (fun _ => stuck) s.
Proof.
  intros Hs. unfold dfu_sm_run.
  eapply post_mono.
  { apply lib_sm_run_invariant with (R := fun p s => p = BmDfuStateError /\ stuck s)
      (Q := fun p s => p = BmDfuStateError /\ stuck s) (T := fun _ _ _ => False) (p := BmDfuStateError).
    - intros p s1 [-> [Hs1 _]]. exact Hs1.
    - intros p f s1 Hf [-> Hs1]. injection Hf as <-. cbn. unfold s_error_run. apply post_ret.
      split; [apply Hs1|done].
    - intros p f c s1 Hf [-> Hs1] Hc. injection Hf as <-. unfold bm_dfu_check_transitions.
      destruct Hs1 as [Hs1 Hp1]. unfold pend in Hp1. repeat post_step.
      destruct (pending_state_change _) eqn:Ep; [done|]. apply post_ret. cbn.
      split; [done|]. split; [done|]. unfold pend. by rewrite Ep.
    - done.
    - done. }
  intros e s' (p & _ & H'). exact H'.
Qed.

Lemma dfu_act_stuck a s : stuck s -> post (dfu_act a) (fun _ => stuck) s.
Proof.
  intros Hs. assert (Ha : a = ActThread \/ a <> ActThread) by (destruct a; by (left + right)).
  destruct Ha as [->|Ha]; [|apply keeps_stuck; [by apply keeps_dfu_act|done]].
  cbn [dfu_act]. unfold bm_dfu_event_thread_step, set_current_event, bm_dfu_get_current_event.
  do 2 post_step. destruct (dfu_event_queue s) as [[|evt q]|]; [by apply post_ret| |by apply post_ret].
  repeat post_step. eapply post_mono; [by apply sm_run_stuck|]. intros err s2 Hs2.
  repeat post_step. apply keeps_stuck; [|exact Hs2]. keeps_tac.
Qed.

(** An error that is not below [BmDfuErrFlashAccess] is for ever.  Once the
    machine is in its error state with no change of state pending, nothing that
    happens - messages, timers, the application's calls - has it leave. *)
Theorem dfu_error_forever events s s' :
  sm_state s = Some BmDfuStateError -> pending_state_change (dfu_ctx s) = false ->
  for_each events dfu_act s = Some (tt, s') ->
  sm_state s' = Some BmDfuStateError /\ pending_state_change (dfu_ctx s') = false.
Proof.
  intros Hs Hp Hrun. assert (Hst : stuck s) by (split; [done|unfold pend; by rewrite Hp]).
  assert (H' : post (for_each events dfu_act) (fun _ => stuck) s).
  { clear Hs Hp Hrun. revert s Hst. induction events as [|a l IH]; intros s Hst; cbn [for_each]; [by apply post_ret|].
    post_step. eapply post_mono; [by apply dfu_act_stuck|]. intros u s1 Hs1. by apply IH. }
  destruct (H' _ _ Hrun) as [Hs' Hp']. split; [done|]. unfold pend in Hp'. by case_match.
Qed.
End invariant.
