(* ===== verification/DfuTransfer.v ===== *)
(** * Firmware updates: an image gets through

    What a host sends and what a client makes of it, when the platform does its
    part: memory and timers are there, messages are sent, the flash takes what is
    written.  [DfuSimulation] has such a platform. *)
From S2P Require Import Prelude Util LinkedList Crc Os Packet LibSm Dfu DfuClient DfuHost DfuCore DfuSafe.

(** What was sent, and the image that a host has, which follows its header. *)
Class DfuWilling (E : Type) `{DfuFlash E} : Type := {
  sent : E -> list bytes;
  host_image : bytes;
  w_tx type d e :
    total (dfu_bcmp_tx (Some multicast_global_addr) type (Some d) (u16 (Z.of_nat (length d))) 0 None)
      (fun err e' => err = BmOK /\ sent e' = sent e ++ [d] /\ contents e' = contents e) e;
  w_write fa off d e :
    total (bm_dfu_client_flash_area_write fa off d)
      (fun err e' => err = BmOK /\ sent e' = sent e /\ contents e' = mem_store off d (contents e)) e;
  w_close fa e :
    total (bm_dfu_client_flash_area_close fa)
      (fun _ e' => sent e' = sent e /\ contents e' = contents e) e;
  flash_size : Z;
  erased_byte : Z;
  w_open e :
    total bm_dfu_client_flash_area_open
      (fun r e' => fst r = BmOK /\ sent e' = sent e /\ contents e' = contents e) e;
  w_size fa e :
    total (bm_dfu_client_flash_area_get_size fa)
      (fun n e' => n = flash_size /\ sent e' = sent e /\ contents e' = contents e) e;
  w_erase fa off n e :
    total (bm_dfu_client_flash_area_erase fa off n)
      (fun err e' => err = BmOK /\ sent e' = sent e
                     /\ contents e' = mem_store off (replicate (Z.to_nat n) erased_byte) (contents e)) e;
  w_active e :
    total bm_dfu_core_lpm_peripheral_active
      (fun _ e' => sent e' = sent e /\ contents e' = contents e) e;
  w_get_chunk off n t e :
    DFU_IMG_START_OFFSET_BYTES <= off -> 0 <= n ->
    off - DFU_IMG_START_OFFSET_BYTES + n <= Z.of_nat (length host_image) ->
    total (bm_dfu_host_get_chunk off n t)
      (fun r e' => r = (BmOK, slice (Z.to_nat (off - DFU_IMG_START_OFFSET_BYTES)) (Z.to_nat n)
                                 host_image)
                   /\ sent e' = sent e /\ contents e' = contents e) e
}.

(** ** The chunks of an image *)

Fixpoint chunks (fuel n : nat) (l : bytes) : list bytes :=
  match fuel, l with
  | S fuel, _ :: _ => take n l :: chunks fuel n (drop n l)
  | _, _ => []
  end.

(** [n] bytes each, the last one what is left. *)
Definition chunks_of (n : nat) (l : bytes) : list bytes := chunks (length l) n l.

Lemma chunks_concat fuel n l :
  (0 < n)%nat -> (length l <= fuel)%nat -> concat (chunks fuel n l) = l.
Proof.
  intros Hn. revert l. induction fuel as [|fuel IH]; intros [|b l] Hl; cbn [length] in Hl; try done; [lia|].
  cbn [chunks concat]. rewrite IH by (rewrite length_drop; cbn [length]; lia). apply take_drop.
Qed.

Lemma chunks_bounds fuel n l :
  (0 < n)%nat -> Forall (fun d => (0 < length d <= n)%nat) (chunks fuel n l).
Proof.
  intros Hn. revert l. induction fuel as [|fuel IH]; intros [|b l]; cbn [chunks]; try done.
  constructor; [|apply IH]. rewrite length_take. cbn [length]. lia.
Qed.

(** As many chunks as [number_of_chunks] tells. *)
Lemma chunks_number fuel n l :
  (0 < n)%nat -> (length l <= fuel)%nat ->
  Z.of_nat (length (chunks fuel n l))
  = Z.of_nat (length l) / Z.of_nat n + (if Z.of_nat (length l) mod Z.of_nat n =? 0 then 0 else 1).
Proof.
  intros Hn. revert l. induction fuel as [|fuel IH]; intros [|b l] Hl; cbn [length] in Hl;
    try done; try lia. cbn [chunks]. set (l' := b :: l) in *. cbn [length]. rewrite Nat2Z.inj_succ.
  assert (Hl' : length l' = S (length l)) by done.
  rewrite IH, length_drop by (rewrite ?length_drop; lia).
  destruct (decide (length l' <= n)%nat) as [Hle|Hgt].
  - replace (length l' - n)%nat with 0%nat by lia. cbn [Z.of_nat]. rewrite Zdiv_0_l, Zmod_0_l. cbn [Z.eqb].
    destruct (decide (length l' = n)) as [->|Hne].
    + rewrite Z_div_same_full, Z_mod_same_full by lia. done.
    + rewrite Z.div_small, Z.mod_small by lia. destruct (Z.eqb_spec (Z.of_nat (length l')) 0); lia.
  - replace (Z.of_nat (length l' - n)) with (Z.of_nat (length l') + (-1) * Z.of_nat n) by lia.
    rewrite Z.div_add, Z.mod_add by lia. lia.
Qed.

(** ** What is followed of a client *)

Record track : Type := MkTrack {
  t_view : view; t_state : option BmDfuHfsmStates; t_pend : option BmDfuHfsmStates;
  t_queue : list BmDfuEvent; t_heap : gmap loc DfuBuf; t_event : BmDfuEvent;
  t_host : Z; t_sent : list bytes;
  t_hctx : dfu_host_ctx_t; t_internal : bool
}.

Definition t_set_view (v : view) (t : track) : track :=
  MkTrack v (t_state t) (t_pend t) (t_queue t) (t_heap t) (t_event t) (t_host t) (t_sent t)
    (t_hctx t) (t_internal t).
Definition t_send (d : bytes) (t : track) : track :=
  MkTrack (t_view t) (t_state t) (t_pend t) (t_queue t) (t_heap t) (t_event t) (t_host t)
    (t_sent t ++ [d]) (t_hctx t) (t_internal t).
Definition t_set_event (q : list BmDfuEvent) (e : BmDfuEvent) (t : track) : track :=
  MkTrack (t_view t) (t_state t) (t_pend t) q (t_heap t) e (t_host t) (t_sent t)
    (t_hctx t) (t_internal t).
Definition t_set_heap (h : gmap loc DfuBuf) (t : track) : track :=
  MkTrack (t_view t) (t_state t) (t_pend t) (t_queue t) h (t_event t) (t_host t) (t_sent t)
    (t_hctx t) (t_internal t).
Definition t_enter (n : BmDfuHfsmStates) (t : track) : track :=
  MkTrack (t_view t) (Some n) (t_pend t) (t_queue t) (t_heap t) (t_event t) (t_host t) (t_sent t)
    (t_hctx t) (t_internal t).
Definition t_no_pend (t : track) : track :=
  MkTrack (t_view t) (t_state t) None (t_queue t) (t_heap t) (t_event t) (t_host t) (t_sent t)
    (t_hctx t) (t_internal t).

Definition nop_event : BmDfuEvent := MkDfuEvent DfuEventNone None 0.

(** A pending change, with the event that has it noticed. *)
Definition t_pending (n : BmDfuHfsmStates) (t : track) : track :=
  MkTrack (t_view t) (t_state t) (Some n) (t_queue t ++ [nop_event]) (t_heap t) (t_event t)
    (t_host t) (t_sent t)
    (t_hctx t) (t_internal t).

Section client.
Context {E : Type} `{Platform} `{DfuWilling E}.
#[local] Abbreviation st := (dfu_state E).

Definition track_of (s : st) : track :=
  MkTrack (view_of s) (sm_state s) (pend s) (default [] (dfu_event_queue s)) (dfu_heap s)
    (current_event (dfu_ctx s)) (c_host_node_id (CLIENT_CTX s)) (sent (dfu_env s))
    (host_ctx s) (internal (dfu_ctx s)).

(** The platform does its part. *)
Record working (s : st) : Prop := {
  wk_os : do_alloc (dfu_os s) = [] /\ do_timer (dfu_os s) = [];
  wk_timer : c_chunk_timer (CLIENT_CTX s) <> None;
  wk_self : self_node_id (dfu_ctx s) = dfu_node_id /\ c_self_node_id (CLIENT_CTX s) = dfu_node_id;
  wk_check : check_transitions_for_next_state (dfu_sm s) = Some tt;
  wk_queue : dfu_event_queue s <> None
}.

Definition tracks (t : track) (s : st) : Prop := working s /\ track_of s = t.

(** [m] goes from [t] to [t']. *)
Definition goes {A} (m : M st A) (t : track) (a : A) (t' : track) : Prop :=
  forall s, tracks t s -> total m (fun a' s' => a' = a /\ tracks t' s') s.

Lemma goes_bind {A B} (m : M st A) (k : A -> M st B) t a t1 b t2 :
  goes m t a t1 -> goes (k a) t1 b t2 -> goes (m ≫= k) t b t2.
Proof.
  intros Hm Hk s Hs. apply total_bind. eapply total_mono; [by apply Hm|].
  intros a' s1 [-> Hs1]. by apply Hk.
Qed.

Lemma goes_ret {A} (a : A) t : goes (mret a) t a t.
Proof. intros s Hs. by apply total_ret. Qed.

(** Reading the state, of which the track tells what matters. *)
Lemma goes_gets {A B} (f : st -> A) (k : A -> M st B) t b t' :
  (forall s, tracks t s -> goes (k (f s)) t b t') -> goes (gets f ≫= k) t b t'.
Proof. intros Hk s Hs. do 2 total_step. by apply (Hk s Hs s Hs). Qed.

Lemma goes_get {B} (k : st -> M st B) t b t' :
  (forall s, tracks t s -> goes (k s) t b t') -> goes (get ≫= k) t b t'.
Proof. intros Hk s Hs. do 2 total_step. by apply (Hk s Hs s Hs). Qed.

Lemma goes_lift {A} (o : option A) a t : o = Some a -> goes (lift o) t a t.
Proof. intros -> s Hs. by eapply total_lift. Qed.

Lemma goes_modify (f : st -> st) t t' :
  (forall s, tracks t s -> tracks t' (f s)) -> goes (modify f) t tt t'.
Proof. intros Hf s Hs. total_step. auto. Qed.

(** *** The platform *)

Lemma goes_send type m t : goes (dfu_send type m) t BmOK (t_send m t).
Proof.
  intros s [Hw <-]. unfold dfu_send, env. total_step. eapply total_mono; [apply w_tx|].
  intros err e' (-> & Hs & Hc). split; [done|]. split; [by destruct Hw|].
  unfold track_of, t_send, view_of. cbn. by rewrite Hs, Hc.
Qed.

Lemma timer_set_ok b tm (s : st) :
  do_timer (dfu_os s) = [] -> tm <> None -> timer_set b tm s = Some ((BmOK, Some b), s).
Proof.
  intros Ht Htm. unfold timer_set. destruct tm; [|done]. rewrite Ht. cbn. do 2 f_equal.
  unfold set_dfu_os. destruct s as [? ? ? ? ? ? [] ?]. cbn in Ht. by subst.
Qed.

Lemma goes_chunk_timer b t : goes (chunk_timer_set b) t BmOK t.
Proof.
  intros s [Hw <-]. pose proof Hw as [[Ha Ht] Htm Hself Hc Hq].
  unfold chunk_timer_set, client, set_c_chunk_timer. do 2 total_step.
  apply total_bind. exists (BmOK, Some b), s. split; [by apply timer_set_ok|].
  do 3 total_step. done.
Qed.

Lemma goes_queue_send ev t :
  (length (t_queue t) < dfu_event_queue_len)%nat ->
  goes (bm_queue_send ev) t BmOK (t_set_event (t_queue t ++ [ev]) (t_event t) t).
Proof.
  intros Hr s [Hw <-]. pose proof Hw as [_ _ _ _ Hq]. unfold total, bm_queue_send. cbn in Hr.
  destruct (dfu_event_queue s) as [q|] eqn:Eq; [|done]. cbn in Hr.
  destruct (Nat.ltb_spec (length q) dfu_event_queue_len); [|lia].
  eexists _, _. split; [reflexivity|]. split; [done|]. split; [by destruct Hw|].
  unfold track_of. cbn. by rewrite Eq.
Qed.

Lemma goes_set_pending n t :
  (length (t_queue t) < dfu_event_queue_len)%nat ->
  goes (bm_dfu_set_pending_state_change n) t tt (t_pending n t).
Proof.
  intros Hr. unfold bm_dfu_set_pending_state_change. eapply goes_bind.
  { apply (goes_modify _ _ (MkTrack (t_view t) (t_state t) (Some n) (t_queue t) (t_heap t)
      (t_event t) (t_host t) (t_sent t) (t_hctx t) (t_internal t))). intros s [Hw <-]. split; [by destruct Hw|done]. }
  unfold bm_dfu_send_nop_event. eapply goes_bind; [by apply goes_queue_send|]. apply goes_ret.
Qed.

(** *** Asking for a chunk *)

Definition chunk_request (t : track) (k : Z) : bytes := dfu_payload_req dfu_node_id (t_host t) k.

Lemma goes_req h k t :
  goes (bm_dfu_req_next_chunk h k) t tt (t_send (dfu_payload_req dfu_node_id h k) t).
Proof.
  unfold bm_dfu_req_next_chunk. apply goes_gets. intros s [[_ _ [Hself _] _ _] _]. rewrite Hself.
  eapply goes_bind; [apply goes_send|]. apply goes_ret.
Qed.

(** *** The image *)

Lemma goes_page_append d t :
  (Z.to_nat (v_counter (t_view t)) + length d <= length (v_page (t_view t)))%nat ->
  goes (page_append d) t tt
    (t_set_view (with_page (u16 (v_counter (t_view t) + Z.of_nat (length d))) (v_offset (t_view t))
       (blit (Z.to_nat (v_counter (t_view t))) d (v_page (t_view t))) (v_flash (t_view t))
       (t_view t)) t).
Proof.
  intros Hb s [Hw <-]. unfold page_append, client, set_c_page. cbn in Hb. repeat total_step.
  eapply total_lift.
  { unfold write_at.
    destruct (Nat.leb_spec (Z.to_nat (c_img_page_byte_counter (CLIENT_CTX s)) + length d)
      (length (c_img_page_buf (CLIENT_CTX s)))); [reflexivity|lia]. }
  total_step. split; [done|]. split; [by destruct Hw|]. reflexivity.
Qed.

Lemma goes_write_page t :
  length (v_page (t_view t)) = Z.to_nat bm_img_page_length ->
  goes write_page t false
    (t_set_view (with_page 0 (u32 (v_offset (t_view t) + bm_img_page_length)) (v_page (t_view t))
       (mem_store (v_offset (t_view t)) (v_page (t_view t)) (v_flash (t_view t))) (t_view t)) t).
Proof.
  intros Hl s [Hw <-]. unfold write_page, client, set_c_page, env. repeat total_step.
  eapply total_mono; [apply w_write|]. intros err e' (-> & Hs & Hc). cbn [is_ok].
  repeat total_step. split; [done|]. split; [by destruct Hw|].
  unfold track_of, t_set_view. cbn in Hs |- *. rewrite Hs. f_equal. unfold view_of, with_page. cbn.
  rewrite firstn_all2 in Hc by (change (c_img_page_buf (CLIENT_CTX s)) with (v_page (view_of s));
    cbn [t_view track_of] in Hl; lia).
  by rewrite Hc.
Qed.

Lemma tracks_counter t s : tracks t s -> c_img_page_byte_counter (CLIENT_CTX s) = v_counter (t_view t).
Proof. intros [_ <-]. done. Qed.

Lemma goes_process_payload d t r :
  stored (t_view t) r -> 0 < Z.of_nat (length d) <= bm_dfu_max_chunk_size ->
  Z.of_nat (length r) < 2 ^ 31 ->
  goes (bm_dfu_process_payload (Z.of_nat (length d)) d) t false
    (t_set_view (payload_view (t_view t) d) t).
Proof.
  intros [Hl Hc Ho Hp _ _] Hd Hr. unfold bm_dfu_max_chunk_size in *. set (v := t_view t) in *.
  unfold bm_dfu_process_payload, payload_view. destruct d as [|b d']; [cbn in Hd; lia|].
  set (d := b :: d') in *. destruct (Z.eqb_spec (Z.of_nat (length d)) 0) as [H0'|_]; [done|].
  unfold client. apply goes_gets. intros s Hs. rewrite (tracks_counter _ _ Hs). fold v.
  unfold bm_img_page_length in *.
  destruct (Z.ltb_spec (Z.of_nat (length d) + v_counter v) 2048) as [Hlt|Hge].
  - eapply goes_bind; [apply goes_page_append; fold v; lia|]. fold v. rewrite u16_small by lia.
    apply goes_gets. intros s1 Hs1. rewrite (tracks_counter _ _ Hs1). cbn [t_view t_set_view v_counter with_page].
    destruct (Z.eqb_spec (v_counter v + Z.of_nat (length d)) 2048); [lia|]. apply goes_ret.
  - rewrite u16_small by lia. unfold page_room, bm_img_page_length. set (m := Z.to_nat (2048 - v_counter v)).
    assert (Hm : (m <= length d)%nat) by lia.
    assert (Hlm : length (take m d) = m) by (rewrite length_take; lia).
    eapply goes_bind.
    { apply goes_lift. unfold read_at. cbn [Nat.add].
      destruct (Nat.leb_spec m (length d)); [reflexivity|lia]. }
    change (slice 0 m d) with (take m d).
    eapply goes_bind; [apply goes_page_append; fold v; lia|]. fold v. rewrite u16_small by lia.
    apply goes_gets. intros s1 Hs1. rewrite (tracks_counter _ _ Hs1). cbn [t_view t_set_view v_counter with_page].
    replace (v_counter v + Z.of_nat (length (take m d))) with 2048 in * by lia. rewrite Z.eqb_refl.
    eapply goes_bind.
    { apply goes_write_page. cbn [t_view t_set_view v_page with_page]. rewrite length_blit by lia. exact Hp. }
    cbn [t_view t_set_view v_page v_offset v_flash with_page].
    unfold bm_img_page_length. rewrite u32_small by lia.
    eapply goes_bind.
    { apply goes_page_append. cbn [t_view t_set_view v_page v_counter with_page].
      rewrite length_blit by lia. rewrite length_drop. lia. }
    cbn [t_view t_set_view v_page v_counter v_offset v_flash with_page].
    rewrite u16_small by (rewrite length_drop; lia). apply goes_ret.
Qed.

Lemma goes_process_end t r :
  stored (t_view t) r -> Z.of_nat (length r) < 2 ^ 31 ->
  goes bm_dfu_process_end t false (t_set_view (end_view (t_view t)) t).
Proof.
  intros [Hl Hc Ho Hp _ _] Hr s [Hw Et]. unfold bm_dfu_process_end, client, set_c_page, env, end_view.
  rewrite <- Et in *. cbn [t_view track_of] in *. repeat total_step.
  change (c_img_page_byte_counter (CLIENT_CTX s)) with (v_counter (view_of s)).
  change (c_img_flash_offset (CLIENT_CTX s)) with (v_offset (view_of s)).
  change (c_img_page_buf (CLIENT_CTX s)) with (v_page (view_of s)).
  set (v := view_of s) in *. destruct (Z.eqb_spec (v_counter v) 0) as [H0'|Hn].
  - repeat total_step. eapply total_mono; [apply w_close|]. intros u e [Es Ee]. repeat total_step.
    split; [done|]. split; [by destruct Hw|]. unfold track_of, view_of. cbn. by rewrite Es, Ee.
  - repeat total_step. eapply total_mono; [apply w_write|]. intros err e' (-> & Es & Ec). cbn [is_ok].
    repeat total_step. eapply total_mono; [apply w_close|]. intros u e [Es' Ee]. repeat total_step.
    split; [done|]. split; [by destruct Hw|]. cbn in Ee, Es'. rewrite u32_small by lia.
    unfold track_of, t_set_view, view_of, with_page. cbn. rewrite Es', Es, Ee. do 2 f_equal. exact Ec.
Qed.

(** *** Messages *)

Lemma length_dfu_header t src dst : length (dfu_header t src dst) = fields_offset.
Proof. unfold dfu_header. by rewrite !length_app, !length_native_store. Qed.

Lemma field_app off n a x b :
  length a = off -> (0 < n)%nat -> 0 <= x < 2 ^ (8 * Z.of_nat n) ->
  field off n (a ++ native_store n x ++ b) = Some x.
Proof.
  intros Ha Hn Hx. unfold field, read_at. rewrite !length_app, length_native_store.
  destruct (Nat.leb_spec (off + n) (length a + (n + length b))); [|lia]. cbn. f_equal.
  unfold slice. rewrite drop_app_length' by done.
  rewrite take_app_length' by (by rewrite length_native_store).
  rewrite native_load_store, Z.mod_small; [by apply wrap_small|].
  rewrite (Z.pow_mul_r 2 8) in Hx by lia. exact Hx.
Qed.

Lemma header_fields t src dst b :
  0 <= t < 256 -> 0 <= src < 2 ^ 64 -> 0 <= dst < 2 ^ 64 ->
  field frame_type_offset 1 (dfu_header t src dst ++ b) = Some t
  /\ field src_node_id_offset 8 (dfu_header t src dst ++ b) = Some src
  /\ field dst_node_id_offset 8 (dfu_header t src dst ++ b) = Some dst.
Proof.
  intros Ht Hs Hd. unfold dfu_header. rewrite <- !app_assoc. split_and!.
  - unfold field, read_at. cbn - [u8 Z.pow]. rewrite (u8_small t) by lia.
    unfold native_load. destruct little_endian; rewrite ?take_0; cbn - [Z.pow]; f_equal;
      rewrite ?Z.add_0_r;
      apply wrap_small; change (2 ^ (8 * Z.of_nat 1)) with 256; lia.
  - apply (field_app 1 8 [u8 t]); [done|lia|exact Hs].
  - rewrite app_assoc. apply (field_app 9 8); [|lia|done]. by rewrite length_app, length_native_store.
Qed.

Lemma payload_fields_read src dst d :
  Z.of_nat (length d) < 65536 ->
  field fields_offset 2 (dfu_payload src dst d) = Some (Z.of_nat (length d))
  /\ read_at (fields_offset + 2) (Z.to_nat (Z.of_nat (length d))) (dfu_payload src dst d) = Some d.
Proof.
  intros Hd. unfold dfu_payload. split.
  - apply field_app; [apply length_dfu_header|lia|lia].
  - unfold read_at. rewrite Nat2Z.id, !length_app, length_dfu_header, length_native_store.
    destruct (Nat.leb_spec (fields_offset + 2 + length d) (fields_offset + (2 + length d))); [|lia].
    f_equal. unfold slice. rewrite app_assoc, drop_app_length', firstn_all; [done|].
    by rewrite length_app, length_dfu_header, length_native_store.
Qed.

(** *** A chunk *)

Lemma goes_check m k t :
  goes m t BmOK t -> forall b t', goes k t b t' ->
  goes (timer_err_check_and_return (E := E) m k) t b t'.
Proof. intros Hm b t' Hk. unfold timer_err_check_and_return. by eapply goes_bind. Qed.

(** What a chunk makes of the view. *)
Definition chunk_view (v : view) (d : bytes) : view :=
  with_chunk (v_chunk v + 1)
    (payload_view (with_running (crc16_ccitt (v_running v) d) v) d).

Definition t_chunk (d : bytes) (t : track) : track := t_set_view (chunk_view (t_view t) d) t.

(** The next chunk is asked for, or the image is complete. *)
Definition t_next (t : track) : track :=
  if v_chunk (t_view t) <? v_num_chunks (t_view t)
  then t_send (chunk_request t (v_chunk (t_view t))) t
  else t_pending BmDfuStateClientValidating (t_set_view (end_view (t_view t)) t).

Lemma goes_set_chunk n r t :
  goes (set_c_chunk n r) t tt (t_set_view (with_chunk n (t_view t)) t).
Proof. apply goes_modify. intros s [Hw <-]. split; [by destruct Hw|done]. Qed.

Lemma goes_set_running x n t :
  goes (set_c_running x n) t tt (t_set_view (with_running x (t_view t)) t).
Proof. apply goes_modify. intros s [Hw <-]. split; [by destruct Hw|done]. Qed.

(** What the track tells of the client. *)
Lemma tracks_client t s : tracks t s ->
  c_current_chunk (CLIENT_CTX s) = v_chunk (t_view t)
  /\ c_num_chunks (CLIENT_CTX s) = v_num_chunks (t_view t)
  /\ c_running_crc16 (CLIENT_CTX s) = v_running (t_view t)
  /\ c_host_node_id (CLIENT_CTX s) = t_host t.
Proof. by intros [_ <-]. Qed.

Lemma goes_after_chunk t r :
  stored (t_view t) r -> Z.of_nat (length r) < 2 ^ 31 -> 0 <= v_chunk (t_view t) < 65535 ->
  (length (t_queue t) < dfu_event_queue_len)%nat ->
  goes after_chunk t BmOK (t_next (t_set_view (with_chunk (v_chunk (t_view t) + 1) (t_view t)) t)).
Proof.
  intros Hst Hr Hch Hq. unfold after_chunk, client, t_next.
  apply goes_gets. intros s Hs. destruct (tracks_client _ _ Hs) as (-> & _).
  rewrite u16_small by lia. eapply goes_bind; [apply goes_set_chunk|].
  apply goes_gets. intros s1 Hs1. destruct (tracks_client _ _ Hs1) as (-> & -> & _ & ->).
  destruct (_ <? _).
  - eapply goes_bind; [apply goes_req|]. apply goes_check; [apply goes_chunk_timer|apply goes_ret].
  - eapply goes_bind; [apply (goes_process_end _ r); [by destruct Hst|done]|].
    eapply goes_bind; [by apply goes_set_pending|]. apply goes_ret.
Qed.

Lemma goes_deref {A} p b (k : DfuBuf -> M st A) t a t' :
  t_heap t !! p = Some b -> goes (k b) t a t' -> goes (deref_buf p ≫= k) t a t'.
Proof.
  intros Hp Hk. eapply goes_bind; [|exact Hk]. unfold deref_buf. apply goes_get.
  intros s Hs. apply goes_lift. destruct Hs as [_ <-]. exact Hp.
Qed.

(** What the fields of the view are when a chunk has come. *)
Lemma chunk_fields v d :
  v_chunk (payload_view v d) = v_chunk v /\ v_num_chunks (payload_view v d) = v_num_chunks v
  /\ v_running (payload_view v d) = v_running v /\ v_crc16 (payload_view v d) = v_crc16 v
  /\ v_image_size (payload_view v d) = v_image_size v.
Proof. rewrite payload_fields. done. Qed.

Lemma stored_running v r x : stored v r -> stored (with_running x v) r.
Proof. by intros []. Qed.

Lemma stored_chunk_view v r d :
  stored v r -> Z.of_nat (length d) <= bm_dfu_max_chunk_size -> stored (chunk_view v d) (r ++ d).
Proof.
  intros Hst Hd. assert (Hp : stored (payload_view (with_running (crc16_ccitt (v_running v) d) v) d) (r ++ d))
    by (apply stored_payload; [by apply stored_running|done]).
  by destruct Hp.
Qed.

Lemma goes_receive_chunk t r src dst d :
  stored (t_view t) r -> 0 < Z.of_nat (length d) <= bm_dfu_max_chunk_size ->
  Z.of_nat (length (r ++ d)) < 2 ^ 31 -> 0 <= v_chunk (t_view t) < 65535 ->
  (length (t_queue t) < dfu_event_queue_len)%nat ->
  goes (receive_chunk (dfu_payload src dst d)) t BmOK (t_next (t_chunk d t)).
Proof.
  intros Hst Hd Hr Hch Hq. pose proof Hd as Hd'. unfold bm_dfu_max_chunk_size in Hd'.
  destruct (payload_fields_read src dst d) as [E1 E2]; [lia|].
  rewrite length_app in Hr. unfold receive_chunk. eapply goes_bind; [by apply goes_lift|].
  destruct (Z.ltb_spec bm_dfu_max_chunk_size (Z.of_nat (length d))); [lia|].
  apply goes_check; [apply goes_chunk_timer|]. unfold client. apply goes_gets. intros s Hs.
  eapply goes_bind; [apply goes_lift, E2|]. destruct (tracks_client _ _ Hs) as (_ & _ & -> & _).
  eapply goes_bind; [apply goes_set_running|].
  assert (Hst' : stored (with_running (crc16_ccitt (v_running (t_view t)) d) (t_view t)) r)
    by by apply stored_running.
  eapply goes_bind; [apply (goes_process_payload _ _ r); [exact Hst'|done|lia]|]. cbn [t_view t_set_view].
  eapply goes_bind; [apply goes_ret|].
  destruct (chunk_fields (with_running (crc16_ccitt (v_running (t_view t)) d) (t_view t)) d) as (Ec & _).
  match goal with |- goes after_chunk ?t1 _ _ =>
    replace (t_next (t_chunk d t)) with
      (t_next (t_set_view (with_chunk (v_chunk (t_view t1) + 1) (t_view t1)) t1)) end.
  - eapply (goes_after_chunk _ (r ++ d)); cbn [t_view t_set_view]; [|rewrite length_app; lia|by rewrite Ec|done].
    apply stored_payload; [done|lia].
  - cbn [t_view t_set_view]. by rewrite Ec.
Qed.

(** *** The machine, the messages and the task *)

Lemma goes_check_transitions n t :
  goes (bm_dfu_check_transitions n) t
    (match t_pend t with Some q => Some q | None => state_of_number n end) (t_no_pend t).
Proof.
  unfold bm_dfu_check_transitions. apply goes_get. intros s [Hw <-]. cbn. unfold pend.
  destruct (pending_state_change (dfu_ctx s)) eqn:Ep.
  - unfold set_pending. eapply goes_bind; [|apply goes_ret]. apply goes_modify.
    intros s1 [Hw1 E1]. split; [by destruct Hw1|]. rewrite <- E1. done.
  - intros s1 [Hw1 E1]. total_step. split; [done|]. split; [done|]. rewrite E1.
    unfold track_of, t_no_pend, pend. cbn. by rewrite Ep.
Qed.

Lemma state_of_states p f : dfu_states (E := E) p = Some f -> state_of_number (state_enum f) = Some p.
Proof. destruct p; intros [= <-]; done. Qed.

Lemma goes_current {A} p f (k : _ -> M st A) t a t' :
  t_state t = Some p -> dfu_states p = Some f -> goes (k (p, f)) t a t' ->
  goes (current dfu_sm dfu_states ≫= k) t a t'.
Proof.
  intros Hp Hf Hk. eapply goes_bind; [|exact Hk]. unfold current. apply goes_gets.
  intros s [_ <-]. eapply goes_bind; [apply goes_lift, Hp|].
  eapply goes_bind; [apply goes_lift, Hf|]. apply goes_ret.
Qed.

Definition entered (t1 : track) (p : BmDfuHfsmStates) (t2 : track) : Prop :=
  match t_pend t1 with
  | None => t2 = t1
  | Some q => p <> q /\ exists f x e, dfu_states (E := E) q = Some f /\ on_state_entry f = Some x
              /\ goes x (t_enter q (t_no_pend t1)) e t2 /\ t_state t2 = Some q
  end.

(** Functions that leave a state. *)
Definition leaves (m : M st BmErr) : Prop := forall t, exists e, goes m t e t.

(** A step of the machine: the state's function runs, and the machine enters the
    state that it asks for. *)
Lemma goes_sm_run p f x t t1 t2 e :
  t_state t = Some p -> dfu_states p = Some f -> run f = Some x -> goes x t e t1 ->
  t_state t1 = Some p -> (forall m, t_pend t1 <> None -> on_state_exit f = Some m -> leaves m) -> entered t1 p t2 ->
  goes dfu_sm_run t BmOK t2.
Proof.
  intros Hp Hf Hx Hg Hp1 Hexit Hn. unfold dfu_sm_run, lib_sm_run.
  apply goes_gets. intros s [_ Es]. rewrite <- Es in Hp. cbn in Hp. unfold sm_state in Hp.
  rewrite Hp. eapply goes_bind; [apply goes_lift, Hf|]. rewrite Hx.
  eapply goes_bind; [exact Hg|]. eapply goes_current; [exact Hp1|exact Hf|]. cbv beta iota.
  apply goes_gets. intros s1 [Hw1 _]. rewrite (wk_check _ Hw1).
  eapply goes_bind; [by apply goes_lift|]. eapply goes_bind; [apply goes_check_transitions|].
  rewrite (state_of_states _ _ Hf). unfold entered in Hn.
  assert (Ht1 : t_state (t_no_pend t1) = Some p) by exact Hp1.
  destruct (t_pend t1) as [q|] eqn:Eq.
  - destruct Hn as (Hpq & f' & x' & e' & Hf' & Hx' & Hg' & Hq').
    eapply goes_current; [exact Ht1|exact Hf|]. cbv beta iota. destruct (decide (p = q)); [done|].
    eapply goes_bind.
    { instantiate (1 := t_no_pend t1). destruct (on_state_exit f) as [m|]; [|apply goes_ret].
      destruct (Hexit m ltac:(done) eq_refl (t_no_pend t1)) as [e1 He1].
      eapply goes_bind; [exact He1|apply goes_ret]. }
    eapply goes_bind.
    { apply (goes_modify _ _ (t_enter q (t_no_pend t1))). intros s2 [[] E2].
      split; [by split|]. rewrite <- E2. done. }
    eapply goes_current; [done|exact Hf'|]. cbv beta iota. rewrite Hx'. cbn [run_opt].
    eapply goes_bind; [|apply goes_ret]. eapply goes_bind; [exact Hg'|apply goes_ret].
  - subst t2. assert (Ee : t_no_pend t1 = t1) by (destruct t1; cbn in *; by subst).
    rewrite Ee. eapply goes_current; [exact Hp1|exact Hf|]. cbv beta iota.
    destruct (decide (p = p)); [|done]. apply goes_ret.
Qed.

(** An iteration of the task. *)
Lemma goes_thread ev q t t1 :
  t_queue t = ev :: q ->
  goes dfu_sm_run (t_set_event q ev t) BmOK t1 -> t_event t1 = ev ->
  match ev_buf ev with Some p => is_Some (t_heap t1 !! p) | None => True end ->
  goes bm_dfu_event_thread_step t tt
    match ev_buf ev with Some p => t_set_heap (delete p (t_heap t1)) t1 | None => t1 end.
Proof.
  intros Hq Hrun Hev Hbuf. unfold bm_dfu_event_thread_step. apply goes_get. intros s [_ Es].
  rewrite <- Es in Hq. cbn in Hq. destruct (dfu_event_queue s) as [q0|] eqn:Eq; [|done].
  cbn in Hq. subst q0. eapply goes_bind.
  { apply (goes_modify _ _ (t_set_event q (t_event t) t)). intros s1 [[] <-]. by split. }
  eapply goes_bind.
  { unfold set_current_event. apply (goes_modify _ _ (t_set_event q ev t)).
    intros s1 [[] E1]. split; [by split|].
    transitivity (t_set_event (t_queue (track_of s1)) ev (track_of s1)); [done|by rewrite E1]. }
  eapply goes_bind; [exact Hrun|]. unfold bm_dfu_get_current_event.
  apply goes_gets. intros s1 [_ <-]. cbn in Hev, Hbuf. rewrite Hev.
  destruct (ev_buf ev) as [p|]; [|apply goes_ret].
  intros s2 [[] E2]. unfold total, dfu_free.
  assert (Eh : dfu_heap s2 = dfu_heap s1) by exact (f_equal t_heap E2). rewrite Eh.
  destruct Hbuf as [b Hb]. rewrite Hb. eexists _, _. split; [reflexivity|]. split; [done|].
  split; [by split|]. transitivity (t_set_heap (delete p (dfu_heap s1)) (track_of s2)); [done|].
  by rewrite E2.
Qed.

Lemma goes_malloc b t :
  goes (dfu_malloc b) t (Some (fresh (dom (t_heap t))))
    (t_set_heap (<[fresh (dom (t_heap t)) := b]> (t_heap t)) t).
Proof.
  intros s [[[Ha Ht]] <-]. unfold total, dfu_malloc. rewrite Ha. cbn.
  eexists _, _. split; [reflexivity|]. split; [reflexivity|]. split; [by split|done].
Qed.

(** A message of the host, which the task handles next. *)
Lemma goes_message data type ev t src f d :
  t_queue t = [] ->
  t_state t = Some BmDfuStateIdle \/ t_state t = Some BmDfuStateClientReceiving /\ t_host t = src
    \/ t_state t = Some BmDfuStateHostUpdate /\ h_client_node_id (t_hctx t) = src ->
  0 <= type < 256 -> 0 <= src < 2 ^ 64 -> 0 <= dfu_node_id < 2 ^ 64 ->
  f = dfu_header type src dfu_node_id ++ d ->
  pd_payload data = f -> pd_size data = Z.of_nat (length f) -> event_of_frame type = Some ev ->
  let p := fresh (dom (t_heap t)) in
  goes (dfu_copy_and_process_message data) t BmOK
    (t_set_heap (<[p := MkDfuBuf f None 0]> (t_heap t))
      (t_set_event [MkDfuEvent ev (Some p) (pd_size data)] (t_event t) t)).
Proof.
  intros Hq Hst Ht Hs Hn Hf Hp Hsz Hev p. unfold dfu_copy_and_process_message.
  destruct (header_fields type src dfu_node_id d) as (F1 & F2 & F3); [done..|].
  rewrite <- Hf in F1, F2, F3.
  rewrite Hp, Hsz. eapply goes_bind; [by apply goes_lift|]. rewrite Z.eqb_refl.
  eapply goes_bind.
  { apply (goes_lift _ f). unfold read_at. rewrite Nat2Z.id. cbn [Nat.add].
    rewrite Nat.leb_refl. unfold slice. by rewrite drop_0, firstn_all. }
  eapply goes_bind.
  { apply goes_malloc. }
  cbv beta iota. eapply goes_bind; [|apply goes_ret]. unfold bm_dfu_process_message.
  eapply goes_deref; [apply lookup_insert_eq|]. cbn [db_frame].
  apply goes_gets. intros s [[_ _ [Hself _] _ _] _]. rewrite Hself.
  eapply goes_bind; [by apply goes_lift|]. rewrite Z.eqb_refl. cbn [negb].
  eapply goes_bind; [by apply goes_lift|].
  eapply (goes_bind _ _ _ true).
  { unfold dfu_valid_packet, dfu_current_state. apply goes_gets. intros s1 [_ E1].
    replace (current_state (dfu_sm s1)) with (t_state t)
      by exact (eq_sym (f_equal t_state E1)).
    destruct Hst as [->|[[-> Hsrc]|[-> Hsrc]]]; [apply goes_ret| |].
    2: { unfold bm_dfu_host_client_node_valid, host. apply goes_gets. intros s2 [_ E2].
      replace (host_ctx s2) with (t_hctx t) by exact (eq_sym (f_equal t_hctx E2)).
      rewrite Hsrc, Z.eqb_refl. apply goes_ret. }
    unfold bm_dfu_client_host_node_valid, client. apply goes_gets. intros s2 Hs2.
    destruct (tracks_client _ _ Hs2) as (_ & _ & _ & ->). cbn. rewrite Hsrc, Z.eqb_refl. apply goes_ret. }
  cbn [negb]. eapply goes_bind; [by apply goes_lift|]. rewrite Hev.
  eapply goes_bind; [apply goes_queue_send; cbn; rewrite Hq; cbn; unfold dfu_event_queue_len; lia|].
  cbn [is_ok]. assert (Et : forall h q, t_set_event (t_queue (t_set_heap h t) ++ q) (t_event (t_set_heap h t)) (t_set_heap h t)
    = t_set_heap h (t_set_event q (t_event t) t)) by (intros; unfold t_set_event, t_set_heap; cbn; by rewrite Hq).
  rewrite Et. apply goes_ret.
Qed.

(** *** Rounds *)

(** A message arrives, and the task handles it. *)
Definition round1 (data : BcmpProcessData) : M st unit :=
  _ ← dfu_act (ActMessage data); dfu_act ActThread.

(** A message arrives, and the task runs until the queue is empty, after the event
    of the message at most two that have a change of state noticed. *)
Definition round (data : BcmpProcessData) : M st unit :=
  _ ← round1 data; _ ← dfu_act ActThread; dfu_act ActThread.

(** [data] is a chunk [d] from the host [src]. *)
Definition is_chunk (src : Z) (data : BcmpProcessData) (d : bytes) : Prop :=
  pd_payload data = dfu_payload src dfu_node_id d
  /\ pd_size data = Z.of_nat (length (pd_payload data)).

(** A client that receives: [r] has come. *)
Record receiving (t : track) (r : bytes) : Prop := {
  rc_state : t_state t = Some BmDfuStateClientReceiving;
  rc_pend : t_pend t = None;
  rc_queue : t_queue t = [];
  rc_stored : stored (t_view t) r;
  rc_running : v_running (t_view t) = crc16_ccitt 0 r;
  rc_chunk : 0 <= v_chunk (t_view t) < v_num_chunks (t_view t);
  rc_num : v_num_chunks (t_view t) < 65536
}.

Context (node_ok : 0 <= dfu_node_id < 2 ^ 64).

Lemma goes_receiving_run t r p src dst d n :
  t_event t = MkDfuEvent DfuEventImageChunk (Some p) n ->
  t_heap t !! p = Some (MkDfuBuf (dfu_payload src dst d) None 0) ->
  stored (t_view t) r -> 0 < Z.of_nat (length d) <= bm_dfu_max_chunk_size ->
  Z.of_nat (length (r ++ d)) < 2 ^ 31 -> 0 <= v_chunk (t_view t) < 65535 ->
  t_queue t = [] ->
  goes s_client_receiving_run t BmOK (t_next (t_chunk d t)).
Proof.
  intros Hev Hp Hst Hd Hr Hch Hq. unfold s_client_receiving_run, bm_dfu_get_current_event.
  apply goes_gets. intros s [_ <-]. cbn [t_event track_of] in Hev. rewrite Hev. cbn [ev_type ev_buf].
  eapply goes_deref; [exact Hp|]. apply (goes_receive_chunk _ r); [done..|].
  rewrite Hq. cbn. unfold dfu_event_queue_len. lia.
Qed.

Lemma t_next_state t : t_state (t_next t) = t_state t /\ t_heap (t_next t) = t_heap t
  /\ t_event (t_next t) = t_event t /\ t_host (t_next t) = t_host t.
Proof. unfold t_next. by case_match. Qed.

(** The message leaves an event whose buffer the task frees. *)
Lemma goes_round data d t r t2 :
  is_chunk (t_host t) data d -> receiving t r -> 0 <= t_host t < 2 ^ 64 ->
  0 < Z.of_nat (length d) <= bm_dfu_max_chunk_size -> Z.of_nat (length (r ++ d)) < 2 ^ 31 ->
  let p := fresh (dom (t_heap t)) in
  let ev := MkDfuEvent DfuEventImageChunk (Some p) (pd_size data) in
  let t1 := t_set_heap (<[p := MkDfuBuf (pd_payload data) None 0]> (t_heap t)) (t_set_event [] ev t) in
  entered (t_next (t_chunk d t1)) BmDfuStateClientReceiving t2 ->
  t_event t2 = ev -> t_heap t2 = t_heap t1 ->
  goes (round1 data) t tt (t_set_heap (t_heap t) t2).
Proof.
  intros [Hp Hsz] Hrc Hh Hd Hr p ev t1 Hent Hev Hheap. destruct Hrc as [Hst Hpd Hq Hsd _ Hc Hn].
  unfold round1, dfu_act. eapply goes_bind.
  { eapply goes_bind; [|apply goes_ret].
    apply (goes_message data BcmpDFUPayloadMessage DfuEventImageChunk t (t_host t)
      (dfu_payload (t_host t) dfu_node_id d) (native_store 2 (Z.of_nat (length d)) ++ d)); try done; [by right; left|].
    by rewrite Hsz, Hp. }
  rewrite <- Hp. fold p ev.
  assert (Hdel : delete p (t_heap t2) = t_heap t).
  { rewrite Hheap. apply delete_insert_id, not_elem_of_dom, is_fresh. }
  replace (t_set_heap (t_heap t) t2) with (t_set_heap (delete p (t_heap t2)) t2) by (by rewrite Hdel).
  apply (goes_thread ev []); [done| |done|].
  - eapply (goes_sm_run BmDfuStateClientReceiving _ s_client_receiving_run t1 (t_next (t_chunk d t1)) t2 BmOK);
      [exact Hst|reflexivity|reflexivity| | |by intros m|done].
    + apply (goes_receiving_run _ r p (t_host t) dfu_node_id d (pd_size data)); try done; [|cbn; lia].
      cbn. rewrite Hp. apply lookup_insert_eq.
    + destruct (t_next_state (t_chunk d t1)) as [-> _]. exact Hst.
  - cbn. rewrite Hheap. eexists. apply lookup_insert_eq.
Qed.

(** A chunk that is not the last one: the next one is asked for. *)
Lemma round_next data d t r :
  is_chunk (t_host t) data d -> receiving t r -> 0 <= t_host t < 2 ^ 64 ->
  0 < Z.of_nat (length d) <= bm_dfu_max_chunk_size -> Z.of_nat (length (r ++ d)) < 2 ^ 31 ->
  v_chunk (t_view t) + 1 < v_num_chunks (t_view t) ->
  exists t', goes (round1 data) t tt t' /\ receiving t' (r ++ d)
    /\ t_sent t' = t_sent t ++ [chunk_request t (v_chunk (t_view t) + 1)]
    /\ t_host t' = t_host t /\ t_heap t' = t_heap t /\ t_view t' = chunk_view (t_view t) d.
Proof.
  intros Hdata Hrc Hh Hd Hr Hc. pose proof Hrc as [Hst Hpd Hq Hsd Hrun Hc1 Hn].
  set (p := fresh (dom (t_heap t))). set (ev := MkDfuEvent DfuEventImageChunk (Some p) (pd_size data)).
  set (t1 := t_set_heap (<[p := MkDfuBuf (pd_payload data) None 0]> (t_heap t)) (t_set_event [] ev t)).
  destruct (chunk_fields (with_running (crc16_ccitt (v_running (t_view t)) d) (t_view t)) d)
    as (_ & En & Er & _).
  assert (En' : t_next (t_chunk d t1) = t_send (chunk_request t (v_chunk (t_view t) + 1)) (t_chunk d t1)).
  { unfold t_next. cbn. rewrite En. cbn. destruct (Z.ltb_spec (v_chunk (t_view t) + 1) (v_num_chunks (t_view t))); [done|lia]. }
  exists (t_set_heap (t_heap t) (t_send (chunk_request t (v_chunk (t_view t) + 1)) (t_chunk d t1))).
  split; [|split_and!; try done].
  - eapply goes_round; try done. fold p ev t1. rewrite En'. unfold entered. cbn. by rewrite Hpd.
  - split; cbn; try done; rewrite ?En, ?Er; cbn; [apply stored_chunk_view; [done|lia]| |lia|done].
    rewrite Hrun. apply crc16_app.
Qed.

(** The last chunk: the machine validates the image, and finds it good. *)
Lemma round_last data d t r :
  is_chunk (t_host t) data d -> receiving t r -> 0 <= t_host t < 2 ^ 64 ->
  0 < Z.of_nat (length d) <= bm_dfu_max_chunk_size -> Z.of_nat (length (r ++ d)) < 2 ^ 31 ->
  v_chunk (t_view t) + 1 = v_num_chunks (t_view t) ->
  v_image_size (t_view t) = Z.of_nat (length (r ++ d)) ->
  v_crc16 (t_view t) = crc16_ccitt 0 (r ++ d) ->
  exists t', goes (round1 data) t tt t' /\ t_state t' = Some BmDfuStateClientValidating
    /\ t_pend t' = Some BmDfuStateClientRebootReq /\ t_queue t' = [nop_event; nop_event]
    /\ t_sent t' = t_sent t /\ t_host t' = t_host t /\ t_heap t' = t_heap t
    /\ t_view t' = end_view (chunk_view (t_view t) d).
Proof.
  intros Hdata Hrc Hh Hd Hr Hc Hsize Hcrc. pose proof Hrc as [Hst Hpd Hq Hsd Hrun Hc1 Hn].
  set (p := fresh (dom (t_heap t))). set (ev := MkDfuEvent DfuEventImageChunk (Some p) (pd_size data)).
  set (t1 := t_set_heap (<[p := MkDfuBuf (pd_payload data) None 0]> (t_heap t)) (t_set_event [] ev t)).
  destruct (chunk_fields (with_running (crc16_ccitt (v_running (t_view t)) d) (t_view t)) d)
    as (_ & En & Er & Ec & Es).
  assert (Hview : stored (chunk_view (t_view t) d) (r ++ d)) by (apply stored_chunk_view; [done|lia]).
  destruct (stored_end _ _ Hview) as (Eo & _ & _ & Er' & _ & Es' & Ec').
  set (v2 := end_view (chunk_view (t_view t) d)) in *.
  assert (En' : t_next (t_chunk d t1) = t_pending BmDfuStateClientValidating (t_set_view v2 t1)).
  { unfold t_next. cbn. rewrite En. cbn.
    destruct (Z.ltb_spec (v_chunk (t_view t) + 1) (v_num_chunks (t_view t))); [lia|done]. }
  set (t2 := t_pending BmDfuStateClientRebootReq (t_enter BmDfuStateClientValidating
    (t_no_pend (t_pending BmDfuStateClientValidating (t_set_view v2 t1))))).
  exists (t_set_heap (t_heap t) t2). split; [|split_and!; done].
  eapply goes_round; try done. fold p ev t1. rewrite En'. unfold entered. cbn.
  split; [done|]. eexists _, _, BmOK. split; [reflexivity|]. split; [reflexivity|]. split; [|done].
  unfold s_client_validating_entry, client. apply goes_gets. intros s [_ E1].
  assert (Ev : view_of s = v2) by exact (f_equal t_view E1).
  change (c_image_size (CLIENT_CTX s)) with (v_image_size (view_of s)).
  change (c_img_flash_offset (CLIENT_CTX s)) with (v_offset (view_of s)).
  change (c_crc16 (CLIENT_CTX s)) with (v_crc16 (view_of s)).
  change (c_running_crc16 (CLIENT_CTX s)) with (v_running (view_of s)).
  rewrite Ev, Eo, Er', Es', Ec'. cbn. rewrite Ec, Er, Es. cbn.
  rewrite Hsize, Z.eqb_refl, Hcrc, Hrun, crc16_app, Z.eqb_refl.
  eapply goes_bind; [|apply goes_ret]. apply goes_set_pending. cbn. unfold dfu_event_queue_len. lia.
Qed.

(** The task handles the two events that have the changes noticed. *)
Lemma reboot_req t :
  t_state t = Some BmDfuStateClientValidating -> t_pend t = Some BmDfuStateClientRebootReq ->
  t_queue t = [nop_event; nop_event] ->
  exists t', goes (_ ← dfu_act ActThread; dfu_act ActThread) t tt t'
    /\ t_state t' = Some BmDfuStateClientRebootReq /\ t_pend t' = None /\ t_queue t' = []
    /\ t_sent t' = t_sent t ++ [dfu_header BcmpDFURebootReqMessage dfu_node_id (t_host t)]
    /\ t_heap t' = t_heap t /\ t_view t' = t_view t.
Proof.
  intros Hst Hpd Hq. unfold dfu_act.
  set (t1 := t_send (dfu_header BcmpDFURebootReqMessage dfu_node_id (t_host t))
    (t_enter BmDfuStateClientRebootReq (t_no_pend (t_set_event [nop_event] nop_event t)))).
  exists (t_set_event [] nop_event t1). split; [|split_and!; done]. eapply goes_bind.
  - apply (goes_thread nop_event [nop_event] t t1); [done| |done|done].
    eapply (goes_sm_run BmDfuStateClientValidating _ s_client_validating_run _
      (t_set_event [nop_event] nop_event t) _ BmOK); [done|reflexivity|reflexivity|apply goes_ret|done|by intros m|].
    unfold entered. cbn. rewrite Hpd. split; [done|].
    eexists _, _, BmOK. split; [reflexivity|]. split; [reflexivity|]. split; [|done].
    unfold s_client_reboot_req_entry. eapply goes_bind.
    { unfold set_c_retry. apply (goes_modify _ _ (t_enter BmDfuStateClientRebootReq
        (t_no_pend (t_set_event [nop_event] nop_event t)))). intros s [[] <-]. by split. }
    eapply goes_bind; [|apply goes_chunk_timer].
    unfold bm_dfu_client_send_reboot_request, client. apply goes_gets. intros s [[_ _ [_ Hself] _ _] Es].
    rewrite Hself. replace (c_host_node_id (CLIENT_CTX s)) with (t_host t) by exact (eq_sym (f_equal t_host Es)).
    eapply goes_bind; [apply goes_send|]. apply goes_ret.
  - apply (goes_thread nop_event [] t1 (t_set_event [] nop_event t1)); [done| |done|done].
    eapply (goes_sm_run BmDfuStateClientRebootReq _ s_client_reboot_req_run _
      (t_set_event [] nop_event t1) _ BmOK); [done|reflexivity|reflexivity| |done|by intros m|done].
    unfold s_client_reboot_req_run, bm_dfu_get_current_event. apply goes_gets. intros s [_ Es].
    replace (current_event (dfu_ctx s)) with nop_event by exact (eq_sym (f_equal t_event Es)).
    apply goes_ret.
Qed.

(** *** The request *)

Definition img_ok (i : BmDfuImgInfo) : Prop :=
  0 <= ii_image_size i < 2 ^ 32 /\ 0 <= ii_chunk_size i < 2 ^ 16 /\ 0 <= ii_crc16 i < 2 ^ 16
  /\ 0 <= ii_major_ver i < 256 /\ 0 <= ii_minor_ver i < 256 /\ 0 <= ii_filter_key i < 2 ^ 32
  /\ 0 <= ii_gitSHA i < 2 ^ 32.

Lemma slice_part n a x b :
  length a = n -> slice n (length x) (a ++ x ++ b) = x.
Proof. intros <-. unfold slice. by rewrite drop_app_length, take_app_length. Qed.

Lemma native_load_part n k x a b :
  length a = n -> 0 <= x < 2 ^ (8 * Z.of_nat k) ->
  native_load (slice n k (a ++ native_store k x ++ b)) = x.
Proof.
  intros Ha Hx. replace (slice n k _) with (native_store k x).
  - rewrite native_load_store. apply Z.mod_small. rewrite (Z.pow_mul_r 2 8) in Hx by lia. exact Hx.
  - rewrite <- (slice_part n a (native_store k x) b Ha) at 1. by rewrite length_native_store.
Qed.

Lemma img_info_round_trip i : img_ok i -> img_info_load (img_info_store i) = i.
Proof.
  destruct i as [i1 i2 i3 i4 i5 i6 i7]. unfold img_ok, img_info_store, img_info_load. cbn -[Z.pow].
  intros (H1' & H2' & H3' & H4' & H5' & H6' & H7').
  set (a := native_store 4 i1). set (b := native_store 2 i2). set (c := native_store 2 i3).
  set (e := native_store 4 i6). set (f := native_store 4 i7).
  change (u8 i4 :: u8 i5 :: e ++ f) with ([u8 i4; u8 i5] ++ e ++ f). set (d := [u8 i4; u8 i5]).
  assert (La : length a = 4%nat) by apply length_native_store.
  assert (Lb : length b = 2%nat) by apply length_native_store.
  assert (Lc : length c = 2%nat) by apply length_native_store.
  assert (Le : length e = 4%nat) by apply length_native_store.
  assert (E8 : a ++ b ++ c ++ d ++ e ++ f = (a ++ b ++ c) ++ d ++ e ++ f) by (by rewrite <- !app_assoc).
  assert (Labc : length (a ++ b ++ c) = 8%nat) by (by rewrite !length_app, La, Lb, Lc).
  assert (Labcd : length ((a ++ b ++ c) ++ d) = 10%nat) by (by rewrite length_app, Labc).
  f_equal.
  - by apply (native_load_part 0 4 i1 [] (b ++ c ++ d ++ e ++ f)).
  - by apply (native_load_part 4 2 i2 a (c ++ d ++ e ++ f)).
  - rewrite app_assoc. apply (native_load_part 6 2 i3 (a ++ b) (d ++ e ++ f)); [|done].
    by rewrite length_app, La, Lb.
  - rewrite E8, app_nth2, Labc by lia. by apply u8_small.
  - rewrite E8, app_nth2, Labc by lia. by apply u8_small.
  - rewrite E8, app_assoc. by apply (native_load_part 10 4 i6 ((a ++ b ++ c) ++ d) f).
  - rewrite E8, app_assoc, app_assoc. rewrite <- (app_nil_r f), app_assoc, <- app_assoc.
    apply (native_load_part 14 4 i7 (((a ++ b ++ c) ++ d) ++ e) []); [|done].
    by rewrite length_app, Labcd, Le.
Qed.

(** [data] asks [dfu_node_id] for the update [i]. *)
Definition is_request (src : Z) (i : BmDfuImgInfo) (data : BcmpProcessData) : Prop :=
  pd_payload data = dfu_start src dfu_node_id i
  /\ pd_size data = Z.of_nat (length (pd_payload data)).

Lemma start_info src dst i :
  read_at fields_offset sizeof_BmDfuImgInfo (dfu_start src dst i) = Some (img_info_store i).
Proof.
  unfold read_at, dfu_start.
  assert (Hl : length (img_info_store i) = sizeof_BmDfuImgInfo)
    by (unfold img_info_store; by rewrite !length_app, !length_native_store).
  rewrite length_app, length_dfu_header, Hl. cbn [Nat.leb]. f_equal.
  rewrite <- (app_nil_r (dfu_header _ _ _ ++ _)), <- app_assoc, <- Hl.
  apply slice_part, length_dfu_header.
Qed.

Definition t_set_host (h : Z) (t : track) : track :=
  MkTrack (t_view t) (t_state t) (t_pend t) (t_queue t) (t_heap t) (t_event t) h (t_sent t)
    (t_hctx t) (t_internal t).

(** The view when an image is announced, and when its reception starts. *)
Definition with_image (i : BmDfuImgInfo) (n : Z) (v : view) : view :=
  MkView (ii_image_size i) n (ii_crc16 i) (v_running v) (v_counter v) (v_offset v) (v_page v)
    (v_chunk v) (v_flash v).
Definition erased_view (v : view) : view :=
  MkView (v_image_size v) (v_num_chunks v) (v_crc16 v) (v_running v) (v_counter v) (v_offset v)
    (v_page v) (v_chunk v)
    (mem_store 0 (replicate (Z.to_nat flash_size) erased_byte) (v_flash v)).
Definition start_view (v : view) : view :=
  MkView (v_image_size v) (v_num_chunks v) (v_crc16 v) 0 0 0 (v_page v) 0 (v_flash v).

(** The image that is announced is new, or forced, and fits. *)
Definition acceptable (i : BmDfuImgInfo) : Prop :=
  (ii_gitSHA i <> git_sha \/ ii_filter_key i = BM_DFU_IMG_INFO_FORCE_UPDATE)
  /\ ii_chunk_size i <= bm_dfu_max_chunk_size /\ ii_image_size i < flash_size.

(** What the platform does that leaves its contents alone. *)
Lemma goes_env {A} (m : M E A) (P : A -> Prop) t a :
  (forall e, total m (fun b e' => P b /\ sent e' = sent e /\ contents e' = contents e) e) ->
  (forall b, P b -> b = a) -> goes (env m) t a t.
Proof.
  intros Hm Ha s [[] <-]. unfold env. total_step. eapply total_mono; [apply Hm|].
  intros b e' (Hb & Hs & Hc). split; [by apply Ha|]. split; [by split|].
  unfold track_of, view_of. cbn. by rewrite Hs, Hc.
Qed.

Lemma goes_bind_open {A} (k : BmErr * option loc -> M st A) t a t' :
  (forall fa, goes (k (BmOK, fa)) t a t') -> goes (env bm_dfu_client_flash_area_open ≫= k) t a t'.
Proof.
  intros Hk s [[] <-]. total_step. unfold env. total_step. eapply total_mono; [apply w_open|].
  intros [err fa] e' (Hb & Hs & Hc). cbn in Hb. subst err. apply Hk. split; [by split|].
  unfold track_of, view_of. cbn. by rewrite Hs, Hc.
Qed.

Lemma goes_ack dst ok err t :
  goes (bm_dfu_send_ack dst ok err) t tt
    (t_send (dfu_result BcmpDFUAckMessage dfu_node_id dst ok err) t).
Proof.
  unfold bm_dfu_send_ack. apply goes_gets. intros s [[_ _ [Hself _] _ _] _]. rewrite Hself.
  eapply goes_bind; [apply goes_send|]. apply goes_ret.
Qed.

Lemma goes_erase fa t :
  goes (env (bm_dfu_client_flash_area_erase fa 0 flash_size)) t BmOK
    (t_set_view (erased_view (t_view t)) t).
Proof.
  intros s [[] <-]. unfold env. total_step. eapply total_mono; [apply w_erase|].
  intros err e' (-> & Hs & Hc). split; [done|]. split; [by split|].
  unfold track_of, t_set_view, view_of, erased_view. cbn. by rewrite Hs, Hc.
Qed.

(** What an acceptable request makes of the client. *)
Definition t_requested (src : Z) (i : BmDfuImgInfo) (n : Z) (t : track) : track :=
  t_pending BmDfuStateClientReceiving
    (t_send (dfu_result BcmpDFUAckMessage dfu_node_id src 1 BmDfuErrNone)
      (t_set_view (erased_view (with_image i n (t_view t))) (t_set_host src t))).

Lemma goes_request t p src i n len :
  t_event t = MkDfuEvent DfuEventReceivedUpdateRequest (Some p) len ->
  t_heap t !! p = Some (MkDfuBuf (dfu_start src dfu_node_id i) None 0) ->
  0 <= src < 2 ^ 64 -> img_ok i -> acceptable i ->
  number_of_chunks (ii_image_size i) (ii_chunk_size i) = Some n ->
  (length (t_queue t) < dfu_event_queue_len)%nat ->
  goes bm_dfu_client_process_update_request t tt (t_requested src i n t).
Proof.
  intros Hev Hp Hs Hi (Hnew & Hcs & Hsz) Hn Hq.
  destruct (header_fields BcmpDFUStartMessage src dfu_node_id (img_info_store i)) as (_ & F & _); [done..|].
  unfold bm_dfu_client_process_update_request, bm_dfu_get_current_event.
  apply goes_gets. intros s [_ <-]. cbn in Hev. rewrite Hev. cbn [ev_buf].
  eapply goes_deref; [exact Hp|]. cbn [db_frame].
  eapply goes_bind; [apply goes_lift, start_info|]. rewrite img_info_round_trip by done.
  eapply goes_bind; [apply goes_lift, F|].
  eapply goes_bind.
  { unfold set_c_host_node_id. apply (goes_modify _ _ (t_set_host src (track_of s))).
    intros s1 [[] E1]. split; [by split|]. by rewrite <- E1. }
  assert (Hc : negb (ii_gitSHA i =? git_sha) || (ii_filter_key i =? BM_DFU_IMG_INFO_FORCE_UPDATE) = true).
  { destruct Hnew as [Hnew|Hnew].
    - apply Z.eqb_neq in Hnew. by rewrite Hnew.
    - apply Z.eqb_eq in Hnew. rewrite Hnew. apply orb_true_r. }
  rewrite Hc. destruct (Z.ltb_spec bm_dfu_max_chunk_size (ii_chunk_size i)); [lia|].
  eapply goes_bind; [apply goes_lift, Hn|].
  set (t1 := t_set_view (with_image i n (view_of s)) (t_set_host src (track_of s))).
  eapply goes_bind.
  { unfold set_c_image. apply (goes_modify _ _ t1).
    intros s1 [[] E1]. split; [by split|]. transitivity (t_set_view (with_image i n (view_of s1)) (track_of s1));
      [done|]. rewrite E1. by rewrite (f_equal t_view E1 : view_of s1 = view_of s). }
  apply goes_bind_open. intros fa. eapply goes_bind.
  { unfold set_c_fa. apply (goes_modify _ _ t1). intros s1 [[] E1]. split; [by split|]. by rewrite <- E1. }
  cbn [is_ok]. unfold accept_update, client. apply goes_gets. intros s2 Hs2.
  destruct (tracks_client _ _ Hs2) as (_ & _ & _ & Eh). rewrite Eh.
  eapply goes_bind; [eapply (goes_env _ (fun n => n = flash_size)); [apply w_size|done]|].
  destruct (Z.ltb_spec (ii_image_size i) flash_size); [|lia].
  eapply goes_bind; [eapply (goes_env _ (fun n => n = flash_size)); [apply w_size|done]|].
  eapply goes_bind; [apply goes_erase|]. cbn [is_ok].
  eapply goes_bind; [apply goes_ack|]. eapply goes_bind.
  { apply (goes_modify _ _ (t_send (dfu_result BcmpDFUAckMessage dfu_node_id src 1 BmDfuErrNone)
      (t_set_view (erased_view (t_view t1)) t1))). intros s3 [[] E3]. split; [by split|]. exact E3. }
  apply goes_set_pending. exact Hq.
Qed.

Lemma goes_receiving_entry t :
  goes s_client_receiving_entry t BmOK
    (t_send (chunk_request t 0) (t_set_view (start_view (t_view t)) t)).
Proof.
  unfold s_client_receiving_entry, restart_reception, client. eapply goes_bind.
  { apply goes_gets. intros s Hs. eapply goes_bind; [apply goes_set_chunk|].
    eapply goes_bind.
    { unfold set_c_page. apply (goes_modify _ _ (t_set_view (with_page 0 0 (v_page (t_view t))
        (v_flash (t_view t)) (with_chunk 0 (t_view t))) t)).
      intros s1 [[] E1]. split; [by split|].
      transitivity (t_set_view (with_page 0 0 (c_img_page_buf (CLIENT_CTX s))
        (v_flash (view_of s1)) (view_of s1)) (track_of s1)); [done|].
      destruct Hs as [_ <-]. rewrite E1. by rewrite (f_equal t_view E1 : view_of s1 = _). }
    apply goes_set_running. }
  apply goes_gets. intros s Hs. destruct (tracks_client _ _ Hs) as (-> & _ & _ & ->).
  eapply goes_bind; [apply goes_req|]. apply goes_chunk_timer.
Qed.

Lemma idle_exit_leaves : leaves s_idle_exit.
Proof.
  intros t. exists BmOK. unfold s_idle_exit. eapply goes_bind; [|apply goes_ret].
  eapply (goes_env _ (fun _ => True)); [|by intros []].
  intros e. eapply total_mono; [apply w_active|]. by intros [].
Qed.

(** A request finds the client idle. *)
Definition requested (src : Z) (i : BmDfuImgInfo) (n : Z) (t : track) : track :=
  let t1 := t_set_host src
    (t_set_view (start_view (erased_view (with_image i n (t_view t))))
      (t_no_pend (t_set_event [nop_event] nop_event t))) in
  t_enter BmDfuStateClientReceiving (t_send (chunk_request t1 0)
    (t_send (dfu_result BcmpDFUAckMessage dfu_node_id src 1 BmDfuErrNone) t1)).

Lemma goes_first_round data t src i n :
  is_request src i data -> t_state t = Some BmDfuStateIdle -> t_pend t = None -> t_queue t = [] ->
  0 <= src < 2 ^ 64 -> img_ok i -> acceptable i ->
  number_of_chunks (ii_image_size i) (ii_chunk_size i) = Some n ->
  exists ev, goes (round1 data) t tt
    (t_set_event [nop_event] ev (requested src i n t)).
Proof.
  intros [Hp Hsz] Hst Hpd Hq Hs Hi Hacc Hn. set (p := fresh (dom (t_heap t))).
  set (ev := MkDfuEvent DfuEventReceivedUpdateRequest (Some p) (pd_size data)). exists ev.
  set (t1 := t_set_heap (<[p := MkDfuBuf (pd_payload data) None 0]> (t_heap t)) (t_set_event [] ev t)).
  set (t2 := t_set_heap (<[p := MkDfuBuf (pd_payload data) None 0]> (t_heap t))
               (t_set_event [nop_event] ev (requested src i n t))).
  unfold round1, dfu_act. eapply goes_bind.
  { eapply goes_bind; [|apply goes_ret].
    apply (goes_message data BcmpDFUStartMessage DfuEventReceivedUpdateRequest t src
      (dfu_start src dfu_node_id i) (img_info_store i)); try done; [by left|].
    by rewrite Hsz, Hp. }
  rewrite <- Hp. fold p ev.
  assert (Hdel : delete p (t_heap t2) = t_heap t) by apply delete_insert_id, not_elem_of_dom, is_fresh.
  replace (t_set_event [nop_event] ev (requested src i n t)) with (t_set_heap (delete p (t_heap t2)) t2)
    by (rewrite Hdel; done).
  apply (goes_thread ev []); [done| |done|cbn; eexists; apply lookup_insert_eq].
  eapply (goes_sm_run BmDfuStateIdle _ s_idle_run t1 (t_requested src i n t1) t2 BmOK);
    [exact Hst|reflexivity|reflexivity| |exact Hst|intros m _ [= <-]; apply idle_exit_leaves|].
  - unfold s_idle_run, bm_dfu_get_current_event. apply goes_gets. intros s [_ Es].
    replace (current_event (dfu_ctx s)) with ev by exact (eq_sym (f_equal t_event Es)). cbn [ev_type ev].
    eapply goes_bind; [|apply goes_ret].
    apply (goes_request _ p _ _ _ (pd_size data)); try done; [|cbn; unfold dfu_event_queue_len; lia].
    cbn. rewrite Hp. apply lookup_insert_eq.
  - unfold entered. cbn. split; [done|]. eexists _, _, BmOK. split; [reflexivity|]. split; [reflexivity|].
    split; [|done]. apply (goes_receiving_entry
      (t_enter BmDfuStateClientReceiving (t_no_pend (t_requested src i n t1)))).
Qed.

(** The task takes an event that means nothing to the state, or waits. *)
Lemma goes_nop t :
  t_state t = Some BmDfuStateClientReceiving -> t_pend t = None -> t_queue t = [nop_event] ->
  goes (dfu_act ActThread) t tt (t_set_event [] nop_event t).
Proof.
  intros Hst Hpd Hq. apply (goes_thread nop_event [] t (t_set_event [] nop_event t)); [done| |done|done].
  eapply (goes_sm_run BmDfuStateClientReceiving _ s_client_receiving_run _
    (t_set_event [] nop_event t) _ BmEINVAL); [done|reflexivity|reflexivity| |done|by intros m|].
  - unfold s_client_receiving_run, bm_dfu_get_current_event. apply goes_gets. intros s [_ Es].
    replace (current_event (dfu_ctx s)) with nop_event by exact (eq_sym (f_equal t_event Es)).
    apply goes_ret.
  - unfold entered. change (t_pend (t_set_event _ _ _)) with (t_pend t). by rewrite Hpd.
Qed.

Lemma goes_wait t : t_queue t = [] -> goes (dfu_act ActThread) t tt t.
Proof.
  intros Hq. unfold dfu_act, bm_dfu_event_thread_step. apply goes_get. intros s [_ Es].
  rewrite <- Es in Hq. cbn in Hq. destruct (dfu_event_queue s) as [[|]|]; [|done|]; apply goes_ret.
Qed.

(** *** The whole image *)

Definition chunk_requests (src from : Z) (n : nat) : list bytes :=
  (fun k => dfu_payload_req dfu_node_id src (from + Z.of_nat k)) <$> seq 0 n.

Lemma chunk_requests_cons src from n :
  chunk_requests src from (S n) = dfu_payload_req dfu_node_id src from :: chunk_requests src (from + 1) n.
Proof.
  unfold chunk_requests. cbn [seq fmap list_fmap]. rewrite Z.add_0_r. f_equal. rewrite <- fmap_S_seq, <- list_fmap_compose.
  apply list_fmap_ext. intros k x _. unfold compose.
  by replace (from + 1 + Z.of_nat x) with (from + Z.of_nat (S x)) by lia.
Qed.

Lemma rounds_receive ds datas t r src :
  ds <> [] -> Forall2 (is_chunk src) datas ds -> t_host t = src -> 0 <= src < 2 ^ 64 ->
  receiving t r -> Forall (fun d => 0 < Z.of_nat (length d) <= bm_dfu_max_chunk_size) ds ->
  Z.of_nat (length (r ++ concat ds)) < 2 ^ 31 ->
  v_chunk (t_view t) + Z.of_nat (length ds) = v_num_chunks (t_view t) ->
  v_image_size (t_view t) = Z.of_nat (length (r ++ concat ds)) ->
  v_crc16 (t_view t) = crc16_ccitt 0 (r ++ concat ds) ->
  exists t', goes (for_each datas round) t tt t'
    /\ t_state t' = Some BmDfuStateClientRebootReq /\ t_pend t' = None /\ t_queue t' = []
    /\ t_heap t' = t_heap t
    /\ t_sent t' = t_sent t ++ chunk_requests src (v_chunk (t_view t) + 1) (length ds - 1)
         ++ [dfu_header BcmpDFURebootReqMessage dfu_node_id src]
    /\ mem_holds (v_flash (t_view t')) 0 (r ++ concat ds).
Proof.
  intros Hne Hdatas. revert t r Hne. induction Hdatas as [|data d datas ds Hd Hds IH]; [done|].
  intros t r _ Hh Hsrc Hrc Hlen Hr Hc Hsize Hcrc. inversion_clear Hlen as [|? ? Hd1 Hds1].
  rewrite <- Hh in Hd. cbn [concat] in *. rewrite app_assoc in Hr, Hsize, Hcrc |- *.
  assert (Hrd : Z.of_nat (length (r ++ d)) < 2 ^ 31) by (rewrite length_app in Hr; lia).
  destruct ds as [|d2 ds'].
  - inversion Hds; subst datas. cbn [concat] in *. rewrite app_nil_r in *. cbn [length] in Hc.
    destruct (round_last data d t r) as (t1 & G1 & S1 & P1 & Q1 & O1 & HH1 & M1 & V1); try done;
      [by rewrite Hh|].
    destruct (reboot_req t1) as (t2 & G2 & S2 & P2 & Q2 & O2 & M2 & V2); [done..|].
    exists t2. split.
    { cbn [for_each]. eapply goes_bind; [|apply goes_ret]. unfold round.
      eapply goes_bind; [exact G1|exact G2]. }
    split_and!; [done..|congruence|rewrite O2, O1, HH1, Hh; done|].
    rewrite V2, V1, app_nil_r. apply stored_end, stored_chunk_view; [apply Hrc|lia].
  - destruct (round_next data d t r) as (t1 & G1 & R1 & O1 & HH1 & M1 & V1); try done;
      [by rewrite Hh|cbn [length] in Hc; lia|].
    destruct (IH t1 (r ++ d)) as (t2 & G2 & S2 & P2 & Q2 & M2 & O2 & F2); try done.
    + congruence.
    + rewrite V1. cbn [length] in Hc |- *. cbn.
      destruct (chunk_fields (with_running (crc16_ccitt (v_running (t_view t)) d) (t_view t)) d) as (_ & -> & _).
      cbn. lia.
    + rewrite V1. cbn. destruct (chunk_fields (with_running (crc16_ccitt (v_running (t_view t)) d) (t_view t)) d)
        as (_ & _ & _ & _ & ->). exact Hsize.
    + rewrite V1. cbn. destruct (chunk_fields (with_running (crc16_ccitt (v_running (t_view t)) d) (t_view t)) d)
        as (_ & _ & _ & -> & _). exact Hcrc.
    + exists t2. split.
      { cbn [for_each]. eapply goes_bind; [|exact G2]. unfold round. eapply goes_bind; [exact G1|].
        eapply goes_bind; apply goes_wait, R1. }
      split_and!; [done..|congruence| |by rewrite app_assoc].
      rewrite O2, O1, V1. cbn [chunk_view with_chunk v_chunk length Nat.sub].
      rewrite Nat.sub_0_r, chunk_requests_cons. unfold chunk_request. by rewrite Hh, <- !app_assoc.
Qed.

(** An idle client that can be updated. *)
Record idle_client (s : st) : Prop := {
  ic_working : working s;
  ic_state : sm_state s = Some BmDfuStateIdle;
  ic_pend : pending_state_change (dfu_ctx s) = false;
  ic_queue : dfu_event_queue s = Some [];
  ic_page : length (c_img_page_buf (CLIENT_CTX s)) = Z.to_nat bm_img_page_length
}.

(** [i] announces [image], which the client wants. *)
Record announces (i : BmDfuImgInfo) (image : bytes) : Prop := {
  an_ok : img_ok i;
  an_acceptable : acceptable i;
  an_size : ii_image_size i = Z.of_nat (length image);
  an_nonempty : image <> [];
  an_small : Z.of_nat (length image) < 2 ^ 31;
  an_crc : ii_crc16 i = crc16_ccitt 0 image;
  an_chunk : 0 < ii_chunk_size i;
  an_number : Z.of_nat (length image) <= 65535 * ii_chunk_size i
}.

Lemma announced_chunks i image :
  announces i image ->
  let ds := chunks_of (Z.to_nat (ii_chunk_size i)) image in
  concat ds = image /\ number_of_chunks (ii_image_size i) (ii_chunk_size i) = Some (Z.of_nat (length ds))
  /\ Forall (fun d => 0 < Z.of_nat (length d) <= bm_dfu_max_chunk_size) ds
  /\ ds <> [] /\ Z.of_nat (length ds) < 65536.
Proof.
  intros [Hok (_ & Hacc & _) Hsz Hne Hsm _ Hch Hnum] ds.
  assert (Hn : (0 < Z.to_nat (ii_chunk_size i))%nat) by lia.
  assert (Hc : concat ds = image) by by apply chunks_concat.
  pose proof (chunks_number (length image) (Z.to_nat (ii_chunk_size i)) image Hn ltac:(lia)) as Hl.
  change (chunks _ _ _) with ds in Hl. rewrite Z2Nat.id in Hl by lia.
  assert (Hlt : Z.of_nat (length ds) < 65536).
  { rewrite Hl. destruct (Z.eqb_spec (Z.of_nat (length image) mod ii_chunk_size i) 0) as [Em|Em].
    - assert (Z.of_nat (length image) / ii_chunk_size i <= 65535) by (apply Z.div_le_upper_bound; lia). lia.
    - assert (Z.of_nat (length image) / ii_chunk_size i < 65535); [|lia].
      apply Z.div_lt_upper_bound; [lia|].
      assert (Z.of_nat (length image) <> 65535 * ii_chunk_size i); [|lia].
      intros E1. apply Em. rewrite E1. apply Z_mod_mult. }
  split_and!; [done| | |intros Hd; rewrite Hd in Hc; by subst image|done].
  - unfold number_of_chunks. destruct (Z.eqb_spec (ii_chunk_size i) 0); [lia|]. rewrite Hsz, <- Hl.
    by rewrite u16_small by lia.
  - eapply Forall_impl; [apply (chunks_bounds _ _ _ Hn)|]. cbn. intros d Hd. lia.
Qed.

(** C4: an update gets through.  A client that is idle is asked for an update with
    an image that it wants and that fits, and then receives the chunks of the
    image, each message handled when it comes.  The client acknowledges the
    request, asks for one chunk after the other, finds the image good and asks for
    the reboot; the flash holds the image; and no buffer is left over. *)
Theorem client_receives_image s src i image request datas :
  idle_client s -> 0 <= src < 2 ^ 64 -> announces i image -> is_request src i request ->
  Forall2 (is_chunk src) datas (chunks_of (Z.to_nat (ii_chunk_size i)) image) ->
  exists s', for_each (request :: datas) round s = Some (tt, s')
    /\ sm_state s' = Some BmDfuStateClientRebootReq
    /\ flash_bytes (contents (dfu_env s')) (Z.of_nat (length image)) = image
    /\ sent (dfu_env s') = sent (dfu_env s)
         ++ [dfu_result BcmpDFUAckMessage dfu_node_id src 1 BmDfuErrNone]
         ++ chunk_requests src 0 (length datas)
         ++ [dfu_header BcmpDFURebootReqMessage dfu_node_id src]
    /\ dfu_heap s' = dfu_heap s /\ dfu_event_queue s' = Some [].
Proof.
  intros [Hw Hst Hpd Hq Hpg] Hsrc Han Hreq Hdatas. pose proof (announced_chunks _ _ Han) as (Hcat & Hn & Hlen & Hne & Hnum).
  set (ds := chunks_of _ image) in *. destruct Han as [Hok Hacc Hsz Hne' Hsm Hcrc Hch _].
  assert (Ht : tracks (track_of s) s) by done.
  destruct (goes_first_round request (track_of s) src i (Z.of_nat (length ds))) as [ev G1]; try done;
    [cbn; unfold pend; by rewrite Hpd|cbn; by rewrite Hq|].
  set (t1 := requested src i (Z.of_nat (length ds)) (track_of s)) in *.
  assert (Hrc : receiving (t_set_event [] nop_event t1) []).
  { split; cbn; try done; [|split; [done|]]; [|destruct ds; [done|cbn [length]; lia]].
    split; cbn; unfold bm_img_page_length; try done.
    intros k Hk. rewrite take_nil in Hk. cbn in Hk. lia. }
  destruct (rounds_receive ds datas (t_set_event [] nop_event t1) [] src) as (t2 & G2 & S2 & P2 & Q2 & M2 & O2 & F2);
    try done; cbn [app]; rewrite ?Hcat; try done.
  assert (G : goes (for_each (request :: datas) round) (track_of s) tt t2).
  { cbn [for_each]. eapply goes_bind; [|exact G2]. unfold round. eapply goes_bind; [exact G1|].
    eapply goes_bind; [by apply goes_nop|by apply goes_wait]. }
  destruct (G s Ht) as ([] & s' & E1 & _ & [[] Et]). exists s'. split; [exact E1|].
  assert (Eo : t_sent (t_set_event [] nop_event t1)
    = (sent (dfu_env s) ++ [dfu_result BcmpDFUAckMessage dfu_node_id src 1 BmDfuErrNone])
      ++ [dfu_payload_req dfu_node_id src 0]) by done.
  rewrite Eo, <- Et in O2. rewrite <- Et in S2, Q2, M2, F2. cbn in S2, Q2, M2. split_and!; [exact S2| | |exact M2|].
  - apply mem_holds_bytes. cbn [app] in F2. by rewrite Hcat in F2.
  - change (sent (dfu_env s')) with (t_sent (track_of s')). rewrite O2.
    rewrite (Forall2_length _ _ _ Hdatas). destruct ds as [|d ds']; [done|].
    cbn [length]. rewrite chunk_requests_cons. cbn [Nat.sub]. rewrite Nat.sub_0_r, <- !app_assoc. done.
  - destruct (dfu_event_queue s') as [q|]; [|done]. cbn in Q2. by rewrite Q2.
Qed.

(** ** The host

    The fields of [host_ctx] that sending changes. *)
Definition t_set_hctx (h : dfu_host_ctx_t) (t : track) : track :=
  MkTrack (t_view t) (t_state t) (t_pend t) (t_queue t) (t_heap t) (t_event t) (t_host t) (t_sent t)
    h (t_internal t).
Definition with_heartbeat (b : bool) (h : dfu_host_ctx_t) : dfu_host_ctx_t :=
  MkDfuHost (h_ack_timer h) (h_ack_retry_num h) (Some b) (h_img_info h)
    (h_self_node_id h) (h_client_node_id h) (h_bytes_remaining h)
    (h_update_complete_callback h) (h_update_timer h) (h_host_timeout_ms h) (h_data_queue h).
Definition with_remaining (n : Z) (h : dfu_host_ctx_t) : dfu_host_ctx_t :=
  MkDfuHost (h_ack_timer h) (h_ack_retry_num h) (h_heartbeat_timer h) (h_img_info h)
    (h_self_node_id h) (h_client_node_id h) n
    (h_update_complete_callback h) (h_update_timer h) (h_host_timeout_ms h) (h_data_queue h).

Lemma goes_host {A} (k : dfu_host_ctx_t -> M st A) t a t' :
  goes (k (t_hctx t)) t a t' -> goes (host ≫= k) t a t'.
Proof. intros Hk. unfold host. apply goes_gets. intros s [_ Es]. by rewrite <- Es in Hk |- *. Qed.

Lemma goes_heartbeat b t :
  h_heartbeat_timer (t_hctx t) <> None ->
  goes (heartbeat_timer_set b) t BmOK (t_set_hctx (with_heartbeat b (t_hctx t)) t).
Proof.
  intros Hb. unfold heartbeat_timer_set. apply goes_host. eapply (goes_bind _ _ _ (BmOK, Some b) t).
  { intros s [[[Ha Ht]] E1]. exists (BmOK, Some b), s. split; [by apply timer_set_ok|].
    split; [done|]. split; [by split|done]. }
  cbv beta iota. eapply goes_bind; [|apply goes_ret].
  apply goes_modify. intros s [[] <-]. by split.
Qed.

Lemma goes_remaining n t :
  goes (set_h_remaining n) t tt (t_set_hctx (with_remaining n (t_hctx t)) t).
Proof. apply goes_modify. intros s [[] <-]. by split. Qed.

Lemma goes_free p t :
  is_Some (t_heap t !! p) -> goes (dfu_free p) t tt (t_set_heap (delete p (t_heap t)) t).
Proof.
  intros [b Hb] s [[] E2]. unfold total, dfu_free.
  assert (Eh : dfu_heap s = t_heap t) by exact (f_equal t_heap E2). rewrite Eh, Hb.
  eexists _, _. split; [reflexivity|]. split; [done|]. split; [by split|]. by rewrite <- E2.
Qed.

(** A host of the image: [rest] is still to be sent. *)
Record sending (t : track) (i : BmDfuImgInfo) (rest : bytes) : Prop := {
  sg_info : h_img_info (t_hctx t) = i;
  sg_size : ii_image_size i = Z.of_nat (length host_image);
  sg_small : Z.of_nat (length host_image) < 2 ^ 31;
  sg_chunk : 0 < ii_chunk_size i <= bm_dfu_max_chunk_size;
  sg_rest : exists done, host_image = done ++ rest;
  sg_remaining : h_bytes_remaining (t_hctx t) = Z.of_nat (length rest);
  sg_internal : t_internal t = true
}.

Lemma filled_all d : filled (length d) d = d.
Proof.
  unfold filled. by rewrite take_app_length.
Qed.

Lemma goes_send_chunk t i rest :
  sending t i rest -> rest <> [] ->
  let n := Z.to_nat (ii_chunk_size i) in
  goes bm_dfu_host_send_chunk t BmOK
    (t_set_hctx (with_remaining (Z.of_nat (length (drop n rest))) (t_hctx t))
      (t_send (dfu_payload (h_self_node_id (t_hctx t)) (h_client_node_id (t_hctx t)) (take n rest)) t)).
Proof.
  intros [Hi Hsz Hsm Hch [dn Himg] Hrem Hint] Hne n. unfold bm_dfu_max_chunk_size in Hch.
  unfold bm_dfu_host_send_chunk. apply goes_host. rewrite Hi, Hrem.
  assert (Hpl : (if ii_chunk_size i <=? Z.of_nat (length rest) then ii_chunk_size i else Z.of_nat (length rest))
    = Z.of_nat (length (take n rest))).
  { rewrite length_take. destruct (Z.leb_spec (ii_chunk_size i) (Z.of_nat (length rest))); lia. }
  rewrite Hpl. eapply goes_bind; [apply goes_malloc|]. cbv beta iota.
  set (p := fresh (dom (t_heap t))).
  set (t1 := t_set_heap _ t).
  assert (Hl : Z.of_nat (length host_image) = Z.of_nat (length dn) + Z.of_nat (length rest))
    by (rewrite Himg, length_app; lia).
  eapply (goes_bind _ _ _ (BmOK, take n rest, Z.of_nat (length (take n rest))) t1).
  { unfold get_chunk. apply goes_host. unfold bm_dfu_internal. apply goes_gets. intros s [_ Es].
    replace (internal (dfu_ctx s)) with true
      by (symmetry; etransitivity; [exact (f_equal t_internal Es)|exact Hint]).
    change (t_hctx t1) with (t_hctx t). rewrite Hi, Hrem, Hsz, Hl.
    assert (Ho : DFU_IMG_START_OFFSET_BYTES = 18) by done.
    rewrite u32_small by (rewrite Ho; lia).
    eapply (goes_bind _ _ _ (BmOK, take n rest)); [|apply goes_ret].
    intros s1 [[] E1]. unfold env. total_step.
    assert (Hle : (length (take n rest) <= length rest)%nat) by (rewrite length_take; lia).
    eapply total_mono; [apply w_get_chunk; rewrite ?Hl; lia|].
    intros r e' (-> & Hs & Hc). split; [|split; [by split|]].
    - do 2 f_equal. replace (Z.to_nat _) with (length dn) by lia.
      rewrite Nat2Z.id, Himg. unfold slice. rewrite drop_app_length, length_take, <- take_take.
      by rewrite firstn_all.
    - rewrite <- E1. unfold track_of, view_of. cbn. by rewrite Hs, Hc. }
  cbv beta iota. cbn [is_ok]. rewrite Nat2Z.id, filled_all.
  eapply goes_bind.
  { eapply goes_bind; [apply goes_send|]. cbn [is_ok].
    eapply goes_bind; [apply goes_remaining|]. apply goes_ret. }
  assert (Hdel : delete p (t_heap t1) = t_heap t) by apply delete_insert_id, not_elem_of_dom, is_fresh.
  eapply goes_bind; [apply goes_free; cbn; eexists; apply lookup_insert_eq|]. fold t1.
  assert (Er : u32 (Z.of_nat (length rest) - Z.of_nat (length (take n rest))) = Z.of_nat (length (drop n rest)))
    by (rewrite u32_small; rewrite length_take, ?length_drop; lia).
  rewrite Er. change (t_heap (t_set_hctx _ _)) with (t_heap t1). rewrite Hdel. apply goes_ret.
Qed.

(** [data] asks [dfu_node_id] for a chunk, whatever the number. *)
Definition is_chunk_request (src : Z) (data : BcmpProcessData) : Prop :=
  (exists seq_num, pd_payload data = dfu_payload_req src dfu_node_id seq_num)
  /\ pd_size data = Z.of_nat (length (pd_payload data)).

(** A host that sends. *)
Record hosting (t : track) (i : BmDfuImgInfo) (rest : bytes) : Prop := {
  hg_state : t_state t = Some BmDfuStateHostUpdate;
  hg_pend : t_pend t = None;
  hg_queue : t_queue t = [];
  hg_timer : h_heartbeat_timer (t_hctx t) <> None;
  hg_sending : sending t i rest
}.

Lemma goes_host_run t i rest p n :
  t_event t = MkDfuEvent DfuEventChunkRequest (Some p) n ->
  h_heartbeat_timer (t_hctx t) <> None -> sending t i rest -> rest <> [] ->
  let k := Z.to_nat (ii_chunk_size i) in
  goes s_host_update_run t BmOK
    (t_set_hctx (with_heartbeat false (with_remaining (Z.of_nat (length (drop k rest))) (t_hctx t)))
      (t_send (dfu_payload (h_self_node_id (t_hctx t)) (h_client_node_id (t_hctx t)) (take k rest)) t)).
Proof.
  intros Hev Htm Hs Hne k. unfold s_host_update_run, bm_dfu_get_current_event.
  apply goes_gets. intros s [_ Es].
  replace (current_event (dfu_ctx s)) with (t_event t) by exact (eq_sym (f_equal t_event Es)).
  rewrite Hev. cbn [ev_type ev_buf]. unfold host_timer_check.
  eapply goes_bind; [by apply goes_heartbeat|]. cbn [is_ok].
  eapply goes_bind; [apply (goes_send_chunk _ i rest); [|done]|].
  { by destruct Hs. }
  eapply goes_bind; [by apply goes_heartbeat|]. cbn [is_ok]. apply goes_ret.
Qed.

Lemma host_round data t i rest :
  is_chunk_request (h_client_node_id (t_hctx t)) data -> hosting t i rest -> rest <> [] ->
  0 <= h_client_node_id (t_hctx t) < 2 ^ 64 ->
  exists t', goes (round data) t tt t' /\ hosting t' i (drop (Z.to_nat (ii_chunk_size i)) rest)
    /\ t_sent t' = t_sent t ++ [dfu_payload (h_self_node_id (t_hctx t)) (h_client_node_id (t_hctx t))
                                  (take (Z.to_nat (ii_chunk_size i)) rest)]
    /\ h_self_node_id (t_hctx t') = h_self_node_id (t_hctx t)
    /\ h_client_node_id (t_hctx t') = h_client_node_id (t_hctx t) /\ t_heap t' = t_heap t.
Proof.
  intros [[k Hp] Hsz] [Hst Hpd Hq Htm Hs] Hne Hcl. set (p := fresh (dom (t_heap t))).
  set (ev := MkDfuEvent DfuEventChunkRequest (Some p) (pd_size data)).
  set (t1 := t_set_heap (<[p := MkDfuBuf (pd_payload data) None 0]> (t_heap t)) (t_set_event [] ev t)).
  set (n := Z.to_nat (ii_chunk_size i)). set (d := dfu_payload (h_self_node_id (t_hctx t)) (h_client_node_id (t_hctx t)) (take n rest)).
  set (t2 := t_set_hctx (with_heartbeat false (with_remaining (Z.of_nat (length (drop n rest))) (t_hctx t)))
    (t_send d t1)).
  assert (Hdel : delete p (t_heap t2) = t_heap t) by apply delete_insert_id, not_elem_of_dom, is_fresh.
  exists (t_set_heap (t_heap t) t2). split; [|split_and!; try done; split; try done].
  - unfold round. eapply (goes_bind _ _ _ tt (t_set_heap (t_heap t) t2)).
    2: { eapply goes_bind; by apply goes_wait. }
    unfold round1, dfu_act. eapply goes_bind.
    { eapply goes_bind; [|apply goes_ret].
      apply (goes_message data BcmpDFUPayloadReqMessage DfuEventChunkRequest t (h_client_node_id (t_hctx t))
        (dfu_payload_req (h_client_node_id (t_hctx t)) dfu_node_id k) (native_store 2 k)); try done; [by right; right|].
      by rewrite Hsz, Hp. }
    rewrite <- Hp. fold p ev.
    replace (t_set_heap (t_heap t) t2) with (t_set_heap (delete p (t_heap t2)) t2) by (by rewrite Hdel).
    apply (goes_thread ev []); [done| |done|cbn; eexists; apply lookup_insert_eq].
    eapply (goes_sm_run BmDfuStateHostUpdate _ s_host_update_run t1 t2 t2 BmOK);
      [exact Hst|reflexivity|reflexivity| |exact Hst| |].
    + apply (goes_host_run t1 i rest p (pd_size data)); try done. by destruct Hs.
    + intros m Hm. by destruct (Hm Hpd).
    + unfold entered. change (t_pend t2) with (t_pend t). by rewrite Hpd.
  - destruct Hs as [Hi Hsz' Hsm Hch [dn Himg] Hrem Hint]. split; try done.
    exists (dn ++ take n rest). by rewrite <- app_assoc, take_drop.
Qed.

Lemma rounds_host datas t i rest fuel :
  let n := Z.to_nat (ii_chunk_size i) in
  let ds := chunks fuel n rest in
  length datas = length ds -> Forall (is_chunk_request (h_client_node_id (t_hctx t))) datas ->
  hosting t i rest -> 0 <= h_client_node_id (t_hctx t) < 2 ^ 64 ->
  exists t', goes (for_each datas round) t tt t'
    /\ t_sent t' = t_sent t
         ++ (dfu_payload (h_self_node_id (t_hctx t)) (h_client_node_id (t_hctx t)) <$> ds)
    /\ t_heap t' = t_heap t /\ t_state t' = Some BmDfuStateHostUpdate.
Proof.
  intros n ds. subst ds. revert fuel t rest. induction datas as [|data datas IH]; intros fuel t rest Hl Hd Hh Hcl.
  - destruct (chunks fuel n rest); [|done]. exists t. split; [apply goes_ret|]. cbn. rewrite app_nil_r.
    by destruct Hh.
  - destruct fuel as [|fuel], rest as [|b rest']; try done. set (rest := b :: rest') in *.
    cbn [chunks] in *. fold rest in Hl |- *. inversion_clear Hd as [|? ? Hd1 Hd2].
    destruct (host_round data t i rest) as (t1 & G1 & H1' & O1 & S1 & C1 & M1); try done.
    destruct (IH fuel t1 (drop n rest)) as (t2 & G2 & O2 & M2 & St2); try done.
    + cbn in Hl. by injection Hl.
    + by rewrite C1.
    + by rewrite C1.
    + exists t2. split; [|split_and!; [|congruence|done]].
      * cbn [for_each]. eapply goes_bind; [exact G1|exact G2].
      * rewrite O2, O1, S1, C1, <- app_assoc. done.
Qed.

(** [data] asks [dfu_node_id] for the chunk [k]. *)
Definition asks_chunk (src : Z) (k : nat) (data : BcmpProcessData) : Prop :=
  pd_payload data = dfu_payload_req src dfu_node_id (Z.of_nat k)
  /\ pd_size data = Z.of_nat (length (pd_payload data)).

(** The chunks are asked for one after the other. *)
Lemma asks_in_order src n datas :
  Forall2 (asks_chunk src) (seq 0 n) datas -> length datas = n /\ Forall (is_chunk_request src) datas.
Proof.
  intros HF. split; [by rewrite <- (Forall2_length _ _ _ HF), length_seq|].
  eapply Forall2_Forall_r; [exact HF|]. apply Forall_true. intros k data [Hp Hs]. split; [by eexists|done].
Qed.

(** C24: the host sends an image of its own flash.  A host in its update state, whose
    image is not to come through the stream buffer of an application, and that a client asks
    for all chunks of the image, one after the other from the first, sends the image's bytes
    in order, the chunk that was asked for in answer to every request, and no buffer is left
    over.  (A request out of this order is answered with the next bytes of the image, although
    the code says that it sends a chunk again: [chunk_again].) *)
Theorem host_sends_image s i image datas :
  working s -> sm_state s = Some BmDfuStateHostUpdate ->
  pending_state_change (dfu_ctx s) = false -> dfu_event_queue s = Some [] ->
  h_heartbeat_timer (host_ctx s) <> None -> internal (dfu_ctx s) = true ->
  image = host_image -> Z.of_nat (length image) < 2 ^ 31 ->
  h_img_info (host_ctx s) = i -> ii_image_size i = Z.of_nat (length image) ->
  0 < ii_chunk_size i <= bm_dfu_max_chunk_size ->
  h_bytes_remaining (host_ctx s) = ii_image_size i ->
  0 <= h_client_node_id (host_ctx s) < 2 ^ 64 ->
  let ds := chunks_of (Z.to_nat (ii_chunk_size i)) image in
  Forall2 (asks_chunk (h_client_node_id (host_ctx s))) (seq 0 (length ds)) datas ->
  exists s', for_each datas round s = Some (tt, s')
    /\ concat ds = image
    /\ sent (dfu_env s') = sent (dfu_env s)
         ++ (dfu_payload (h_self_node_id (host_ctx s)) (h_client_node_id (host_ctx s)) <$> ds)
    /\ dfu_heap s' = dfu_heap s /\ sm_state s' = Some BmDfuStateHostUpdate.
Proof.
  intros Hw Hst Hpd Hq Htm Hint -> Hsm Hi Hsz Hch Hrem Hcl ds Hd. apply asks_in_order in Hd as [Hl Hd].
  destruct (rounds_host datas (track_of s) i host_image (length host_image)) as (t' & G & O & M & St); try done.
  - split; try done; cbn; [unfold pend; by rewrite Hpd|by rewrite Hq|].
    split; try done; [by exists []|]. cbn. by rewrite Hrem.
  - destruct (G s) as ([] & s' & E1 & _ & [_ <-]); [done|]. exists s'. split_and!; try done.
    apply chunks_concat; lia.
Qed.
End client.
