(* ===== verification/DfuSimulation.v ===== *)
(** * Firmware updates: a platform

    A node with memory for its flash, which keeps what it sends and what it is told
    to do.  The classes of [DfuSafe] and [DfuTransfer] hold of it, and it runs the
    examples. *)
From S2P Require Import Prelude Util LinkedList Crc Os Packet LibSm Dfu DfuClient DfuHost DfuCore DfuSafe DfuTransfer.

Inductive sim_call : Type :=
| CallConfirmed | CallReset | CallFail
| CallFinish (cb : nat) (success : bool) (err node : Z).

Record sim : Type := MkSim { sim_flash : memory; sim_sent : list bytes; sim_calls : list sim_call }.

Definition sim_zero : sim := MkSim (MkMemory (fun _ => 0) false) [] [].

Section sim.
(** Offsets at which writing fails; the image that a host has, behind its header, and the
    node. *)
Context (bad : Z -> bool) (image : bytes) (node sha : Z).

Definition sim_note (c : sim_call) : M sim unit :=
  modify (fun s => MkSim (sim_flash s) (sim_sent s) (sim_calls s ++ [c])).

Definition sim_send (d : option bytes) : M sim BmErr :=
  match d with
  | Some d => _ ← modify (fun s => MkSim (sim_flash s) (sim_sent s ++ [d]) (sim_calls s)); mret BmOK
  | None => mret BmEINVAL
  end.

Definition sim_store (off : Z) (d : bytes) : M sim BmErr :=
  if bad off then
    _ ← modify (fun s => MkSim (MkMemory (mem_at (sim_flash s)) true) (sim_sent s) (sim_calls s)); mret BmEINVAL
  else
  _ ← modify (fun s => MkSim (mem_store off d (sim_flash s)) (sim_sent s) (sim_calls s)); mret BmOK.

Definition sim_flash_size : Z := 4096.

Definition sim_platform_with : DfuPlatform sim := {|
  dfu_bcmp_tx _ _ d _ _ _ := sim_send d;
  dfu_ll_forward _ _ _ _ := mret BmOK;
  bm_dfu_client_set_confirmed := sim_note CallConfirmed;
  bm_dfu_client_set_pending_and_reset := sim_note CallReset;
  bm_dfu_client_fail_update_and_reset := sim_note CallFail;
  bm_dfu_client_flash_area_open := mret (BmOK, Some 1%positive);
  bm_dfu_client_flash_area_close _ := mret tt;
  bm_dfu_client_flash_area_write _ off d := sim_store off d;
  bm_dfu_client_flash_area_erase _ off n :=
    _ ← modify (fun s => MkSim (mem_store off (replicate (Z.to_nat n) 255) (sim_flash s)) (sim_sent s) (sim_calls s));
    mret BmOK;
  bm_dfu_client_flash_area_get_size _ := mret sim_flash_size;
  bm_dfu_host_get_chunk off n _ :=
    mret (BmOK, slice (Z.to_nat (off - DFU_IMG_START_OFFSET_BYTES)) (Z.to_nat n) image);
  bm_dfu_core_lpm_peripheral_active := mret tt;
  bm_dfu_core_lpm_peripheral_inactive := mret tt;
  dfu_confirm_get := mret None;
  dfu_confirm_set _ := mret tt;
  dfu_update_finish cb ok err n := sim_note (CallFinish cb ok err n);
  dfu_stream_create _ := mret None;
  dfu_stream_delete _ := mret tt;
  dfu_stream_receive _ _ _ := mret (BmETIMEDOUT, []);
  dfu_stream_send _ _ _ := mret BmOK;
  dfu_timer_cb_send := mret true;
  dfu_uninit _ := 0;
  git_sha := sha;
  dfu_node_id := node
|}.

#[local] Existing Instance sim_platform_with.

#[refine] Definition sim_flash_with : DfuFlash sim := {| contents := sim_flash |}.
Proof.
  all: unfold env_keeps; intros; cbn; unfold sim_note, sim_store, sim_send; repeat case_match; repeat post_step;
    first [done|right; split; [discriminate|reflexivity]|left; split; reflexivity].
Defined.
End sim.

(** Where writing does not fail. *)
Definition sim_platform : bytes -> Z -> Z -> DfuPlatform sim := sim_platform_with (fun _ => false).
Definition sim_flash_laws image node sha : @DfuFlash sim (sim_platform image node sha) :=
  sim_flash_with (fun _ => false) image node sha.

Section willing.
Context (image : bytes) (node sha : Z).
#[refine] Definition sim_willing : @DfuWilling sim (sim_platform image node sha) (sim_flash_laws image node sha) :=
  {| sent := sim_sent; host_image := image; flash_size := sim_flash_size; erased_byte := 255 |}.
Proof.
  all: intros; cbn; unfold sim_store, sim_send; by repeat total_step.
Defined.
End willing.

(** ** A node that starts *)

#[local] Existing Instance platform_linux.

Definition event_zero : BmDfuEvent := MkDfuEvent DfuEventNone None 0.
Definition img_zero : BmDfuImgInfo := MkImgInfo 0 0 0 0 0 0 0.

(** The variables of the three files before the initialization. *)
Definition dfu_zero : dfu_state sim :=
  MkDfu (MkDfuCore (MkSmContext None None None) event_zero false BmDfuStateInit 0 0 0 None false)
    (MkDfuClient 0 0 0 0 0 None 0 0 (replicate (Z.to_nat bm_img_page_length) 0) 0 0 None 0 0)
    (MkDfuHost None 0 None img_zero 0 0 0 None None 0 None)
    reboot_info_zero None ∅ (MkDfuOs [] []) sim_zero.

(** The state that an operation leaves. *)
Definition leave {A} (m : M (dfu_state sim) A) (s : dfu_state sim) : dfu_state sim :=
  match m s with Some (_, s') => s' | None => s end.

(** A message from one node to another. *)
Definition dfu_message (f : bytes) : BcmpProcessData :=
  MkProcessData (MkHeader 0 0 0 0 0 0 0 0) f (Z.of_nat (length f))
    multicast_global_addr multicast_global_addr 1.

Section nodes.
Context (image : bytes) (node sha : Z).
#[local] Instance node_platform : DfuPlatform sim := sim_platform image node sha.

Definition node_init : M (dfu_state sim) BmErr :=
  bm_dfu_init true true true true true (fun _ => mret BmOK).

(** The task handles the event of the initialization and enters the idle state. *)
Definition node_idle : dfu_state sim :=
  leave (_ ← node_init; _ ← dfu_act ActThread; dfu_act ActThread) dfu_zero.
End nodes.

(** ** A client *)

Definition small_image : bytes := [3; 1; 4; 1; 5].
Definition small_info : BmDfuImgInfo :=
  MkImgInfo 5 2 (crc16_ccitt 0 small_image) 1 2 0 77.

Definition host_node : Z := 11.
Definition client_node : Z := 22.

Definition small_request : BcmpProcessData :=
  dfu_message (dfu_start host_node client_node small_info).
Definition small_chunks : list BcmpProcessData :=
  (fun d => dfu_message (dfu_payload host_node client_node d)) <$> chunks_of 2 small_image.

Section client_node.
#[local] Instance client_platform : DfuPlatform sim := sim_platform [] client_node 5.
#[local] Instance client_flash : DfuFlash sim := sim_flash_laws [] client_node 5.
#[local] Instance client_willing : DfuWilling sim := sim_willing [] client_node 5.

Definition client_idle : dfu_state sim := node_idle [] client_node 5.

Lemma client_idle_ok : idle_client client_idle.
Proof.
  split; [split; [split|..]|..]; vm_compute; first [reflexivity|discriminate|split; reflexivity].
Qed.

Lemma small_announced : announces small_info small_image.
Proof.
  split; [decided| |reflexivity|discriminate|reflexivity|reflexivity|reflexivity|discriminate].
  split; [left; discriminate|]. split; [discriminate|reflexivity].
Qed.

Lemma client_receives_image_witness :
  exists s', for_each (small_request :: small_chunks) round client_idle = Some (tt, s')
    /\ flash_bytes (sim_flash (dfu_env s')) 5 = small_image.
Proof.
  destruct (client_receives_image ltac:(decided) client_idle host_node small_info small_image small_request small_chunks)
    as (s' & E1 & _ & E2 & _).
  - exact client_idle_ok.
  - decided.
  - exact small_announced.
  - by split.
  - repeat constructor.
  - exists s'. split; [exact E1|exact E2].
Defined.
End client_node.

Section client_runs.
#[local] Instance client_platform' : DfuPlatform sim := sim_platform [] client_node 5.
#[local] Instance client_flash' : DfuFlash sim := sim_flash_laws [] client_node 5.

(** The messages of an update, and the task's iterations between them. *)
Definition small_update : list dfu_action :=
  mjoin ((fun m => [ActMessage m; ActThread; ActThread; ActThread]) <$> small_request :: small_chunks).

Definition node_started : dfu_state sim := leave (node_init [] client_node 5) dfu_zero.

#[local] Abbreviation client_done :=
  (for_each ([ActThread; ActThread] ++ small_update) dfu_act node_started).

Lemma client_done_state : (fun r => (sm_state (snd r), mem_failed (sim_flash (dfu_env (snd r))))) <$> client_done
  = Some (Some BmDfuStateClientRebootReq, false).
Proof. by vm_compute. Qed.

Lemma adds_keep : forall t : Z, env_keeps contents ((fun _ => mret BmOK) t : M sim BmErr).
Proof. intros t e a e' [= <- <-]. reflexivity. Qed.
Lemma page_zero : length (c_img_page_buf (CLIENT_CTX dfu_zero)) = Z.to_nat bm_img_page_length.
Proof. by vm_compute. Qed.
Lemma chunks_zero : c_num_chunks (CLIENT_CTX dfu_zero) < 65536.
Proof. by vm_compute. Qed.
Lemma starts : bm_dfu_init true true true true true (fun _ => mret BmOK) dfu_zero = Some (BmOK, node_started).
Proof. vm_compute. reflexivity. Qed.

Lemma dfu_activation_safe_witness :
  exists s', client_done = Some (tt, s')
    /\ mem_failed (sim_flash (dfu_env s')) = false
    /\ crc16_ccitt 0 (flash_bytes (sim_flash (dfu_env s')) (c_image_size (CLIENT_CTX s')))
       = c_crc16 (CLIENT_CTX s').
Proof.
  pose proof client_done_state as Hst.
  destruct (for_each _ dfu_act node_started) as [[[] s']|] eqn:Erun; [|discriminate Hst].
  injection Hst as Hst Hfl. exists s'. split; [reflexivity|]. split; [exact Hfl|].
  apply (dfu_activation_safe true true true true true (fun _ => mret BmOK) dfu_zero BmOK node_started
    ([ActThread; ActThread] ++ small_update) s' adds_keep page_zero chunks_zero eq_refl starts Erun); [left; exact Hst|exact Hfl].
Defined.

(** An abort from the host whose code is none of [BmDfuErr] below
    [BmDfuErrFlashAccess]: the error state is not left. *)
Lemma dfu_error_forever_witness :
  let s := set_dfu_sm (MkSmContext (Some BmDfuStateError) (Some tt) None) node_started in
  exists s', for_each [ActThread; ActMessage small_request; ActThread] dfu_act s = Some (tt, s')
    /\ sm_state s' = Some BmDfuStateError.
Proof.
  intros s. destruct (for_each [ActThread; ActMessage small_request; ActThread] dfu_act s) as [[[] s']|] eqn:E1.
  - exists s'. split; [reflexivity|].
    refine (proj1 (dfu_error_forever [ActThread; ActMessage small_request; ActThread] s s' _ _ E1));
      vm_compute; reflexivity.
  - vm_compute in E1. discriminate E1.
Defined.

(** A message of an unknown type leaves its buffer behind. *)
Example unknown_type_leaks :
  let s := leave (dfu_act (ActMessage (dfu_message (dfu_header 0xDA host_node client_node)))) client_idle in
  size (dfu_heap s) = 1%nat /\ dfu_event_queue s = Some [].
Proof. by vm_compute. Qed.
End client_runs.

(** ** A flash that fails

    Four chunks are announced for 2,048 bytes, and longer ones come, whose checksum is the
    announced one.  The last chunk fills the second page, and writing it fails: the client
    goes on to the validation, as if it had not been received, and the length and the
    checksum are right. *)
Section failing_node.
#[local] Instance failing_platform : DfuPlatform sim := sim_platform_with (fun off => off =? 2048) [] client_node 5.

Definition long_chunks : list bytes := (fun b => replicate 1024 b) <$> [1; 2; 3; 4].
Definition long_info : BmDfuImgInfo := MkImgInfo 2048 512 (crc16_ccitt 0 (concat long_chunks)) 1 2 0 77.
Definition failing_update : list dfu_action :=
  mjoin ((fun m => [ActMessage m; ActThread; ActThread; ActThread]) <$>
    dfu_message (dfu_start host_node client_node long_info)
    :: ((fun d => dfu_message (dfu_payload host_node client_node d)) <$> long_chunks)).

Example failed_write_activated :
  let s := leave (for_each ([ActThread; ActThread] ++ failing_update) dfu_act) (leave (bm_dfu_init true true true true true (fun _ => mret BmOK)) dfu_zero) in
  sm_state s = Some BmDfuStateClientRebootReq /\ c_image_size (CLIENT_CTX s) = 2048
  /\ mem_failed (sim_flash (dfu_env s)) = true
  /\ crc16_ccitt 0 (flash_bytes (sim_flash (dfu_env s)) 2048) <> c_crc16 (CLIENT_CTX s).
Proof. vm_compute. repeat split. discriminate. Qed.
End failing_node.

(** ** A host *)

Section host_node.
#[local] Instance host_platform : DfuPlatform sim := sim_platform small_image host_node 5.
#[local] Instance host_flash : DfuFlash sim := sim_flash_laws small_image host_node 5.
#[local] Instance host_willing : DfuWilling sim := sim_willing small_image host_node 5.

(** The update has been asked for, and the client has acknowledged it. *)
Definition host_sending : dfu_state sim :=
  leave (for_each [ActInitiate small_info client_node None 1000 true; ActThread; ActThread;
                   ActMessage (dfu_message (dfu_result BcmpDFUAckMessage client_node host_node 1 0));
                   ActThread; ActThread] dfu_act) (node_idle small_image host_node 5).

Definition chunk_request_of (k : Z) : BcmpProcessData :=
  dfu_message (dfu_payload_req client_node host_node k).

Lemma host_sends_image_witness :
  exists s', for_each [chunk_request_of 0; chunk_request_of 1; chunk_request_of 2] round host_sending
      = Some (tt, s')
    /\ sim_sent (dfu_env s') = sim_sent (dfu_env host_sending)
         ++ [dfu_payload host_node client_node [3; 1]; dfu_payload host_node client_node [4; 1];
             dfu_payload host_node client_node [5]].
Proof.
  destruct (host_sends_image ltac:(decided) host_sending small_info small_image
    [chunk_request_of 0; chunk_request_of 1; chunk_request_of 2]) as (s' & E1 & _ & E2 & _).
  - split; [split|..]; vm_compute; first [reflexivity|discriminate|split; reflexivity].
  - vm_compute; reflexivity.
  - vm_compute; reflexivity.
  - vm_compute; reflexivity.
  - vm_compute; discriminate.
  - vm_compute; reflexivity.
  - reflexivity.
  - reflexivity.
  - vm_compute; reflexivity.
  - reflexivity.
  - decided.
  - vm_compute; reflexivity.
  - vm_compute. split; [discriminate|reflexivity].
  - repeat constructor.
  - exists s'. split; [exact E1|]. etransitivity; [exact E2|]. vm_compute. reflexivity.
Defined.

(** The client asks for the first chunk again, and gets the second one. *)
Example chunk_again :
  let s := leave (for_each [chunk_request_of 0; chunk_request_of 0] round) host_sending in
  drop (length (sim_sent (dfu_env host_sending))) (sim_sent (dfu_env s))
  = [dfu_payload host_node client_node [3; 1]; dfu_payload host_node client_node [4; 1]].
Proof. by vm_compute. Qed.
End host_node.
