(* ===== verification/L2.v ===== *)
(** * Layer 2: src/network/l2.c

    Transmission and reception of frames between the network device and the IP
    stack: the event queue, the port masks, the egress port in the source
    address with its checksum, link changes and the renegotiation timers.

    The IP stack above ([bm_l2_submit], [bm_l2_set_netif]) is a parameter, as are
    the results of the operating system's calls; the device is the record of its
    operations.  Debug prints are left out. *)
From S2P Require Import Prelude Util LinkedList L2Policy LinuxBuf.

Definition udp_checksum_offset : nat := 60.
(** The checksum field of the [BcmpHeader] behind the IPv6 header. *)
Definition bcmp_checksum_offset : nat := 56.

Inductive BmL2QueueType : Type := L2Tx | L2Rx | L2Irq.

Record L2QueueElement : Type := MkElement {
  el_type : BmL2QueueType;
  el_length : Z;
  el_buf : option loc;
  el_port_mask : Z
}.

Definition evt_queue_len : nat := 32.
Definition device_all_ports : Z := 0.

(** [NetworkDeviceTrait]: the results of the device's operations; the one of
    [send] is only printed. *)
Record NetworkDeviceTrait : Type := MkTrait {
  dev_enable : BmErr;
  dev_disable : BmErr;
  dev_enable_port : Z -> BmErr;
  dev_disable_port : Z -> BmErr;
  dev_retry_negotiation : option (Z -> BmErr * bool);
  dev_num_ports : Z
}.

(** What the outside sees of the layer, in order. *)
Inductive l2_event : Type :=
| EvSend (port : Z) (frame : bytes)
| EvPcap (frame : bytes)
| EvLink (cb : nat) (port : Z) (up : bool)
| EvTimerStart (port : Z)
| EvTimerDelete (port : Z)
| EvRetry (port : Z)
| EvInterrupt
| EvEnable | EvDisable | EvEnablePort (port : Z) | EvDisablePort (port : Z).

Record BmL2Ctx : Type := MkL2Ctx {
  network_device : option NetworkDeviceTrait;
  num_ports : Z;
  all_ports_mask : Z;
  enabled_ports_mask : Z;
  evt_queue : option (list L2QueueElement);
  task_handle : bool;
  routing_cb : option L2LinkLocalRoutingCb;
  pcap_cb : bool;
  link_change_callback_list : LL;
  renegotiate_timer_list : LL
}.

Definition ctx_zero : BmL2Ctx :=
  MkL2Ctx None 0 0 0 None false None false LL_empty LL_empty.

(** Timers are named by their port; link callbacks by a number. *)
Record l2_state (U : Type) : Type := MkL2State {
  l2_ctx : BmL2Ctx;
  l2_bufs : buf_heap;
  l2_timer_heap : item_heap Z;
  l2_cb_heap : item_heap nat;
  l2_trace : list l2_event;
  l2_upper : U
}.
Arguments MkL2State {U}. Arguments l2_ctx {U}. Arguments l2_bufs {U}.
Arguments l2_timer_heap {U}. Arguments l2_cb_heap {U}. Arguments l2_trace {U}.
Arguments l2_upper {U}.

(** The results of the operating system's calls. *)
Class L2Os : Type := {
  os_queue_create : bool;
  os_task_create : BmErr;
  os_timer_create : Z -> bool;
  os_timer_start : Z -> BmErr
}.

(** ** The egress port and the checksum, on the bytes of a frame *)

(** Loads and stores; [None] is an access outside the buffer. *)
Definition rd (i : nat) (f : bytes) : option Z := f !! i.
Definition wr (i : nat) (b : Z) (f : bytes) : option bytes :=
  if (i <? length f)%nat then Some (set_byte i b f) else None.

Definition get_type (f : bytes) : option Z :=
  if (14 <=? length f)%nat then Some (ethernet_get_type f) else None.

(** [payload[udp_checksum_offset] ^= 0xFFFF; ... op port_num; ... ^= 0xFFFF]
    on one byte. *)
Definition update_udp_checksum (op : Z -> Z) (f : bytes) : option bytes :=
  b ← rd udp_checksum_offset f;
  let b := u8 (Z.lxor b 0xFFFF) in
  let b := u8 (op b) in
  wr udp_checksum_offset (u8 (Z.lxor b 0xFFFF)) f.

(** The same on the 16-bit checksum field of the header. *)
Definition update_bcmp_checksum `{Platform} (op : Z -> Z) (f : bytes) : option bytes :=
  l ← read_at bcmp_checksum_offset 2 f;
  let c := Z.lxor (native_load l) 0xFFFF in
  let c := u16 (op c) in
  write_at bcmp_checksum_offset (native_store 2 (Z.lxor c 0xFFFF)) f.

Definition update_checksum `{Platform} (op : Z -> Z) (f : bytes) : option bytes :=
  t ← get_type f;
  if t =? ethernet_type_ipv6 then
    nh ← rd ipv6_next_header_offset f;
    if nh =? ip_proto_udp then update_udp_checksum op f
    else if nh =? ip_proto_bcmp then update_bcmp_checksum op f
    else Some f
  else Some f.

Definition network_revert_checksum `{Platform} (port_num : Z) (f : bytes) : option bytes :=
  update_checksum (fun c => c - port_num) f.

Definition add_egress_port (port : Z) (f : bytes) : option bytes :=
  b ← rd ipv6_ingress_egress_ports_offset f;
  wr ipv6_ingress_egress_ports_offset (u8 (Z.lor b port)) f.

Definition network_add_egress_port `{Platform} (port_num : Z) (f : bytes) : option bytes :=
  f ← add_egress_port port_num f;
  update_checksum (fun c => c + port_num) f.

Definition clear_ports (f : bytes) : option bytes := wr ipv6_ingress_egress_ports_offset 0 f.

(** The destination address at its offset. *)
Definition frame_dst (f : bytes) : option BmIpAddr :=
  read_at ipv6_destination_address_offset 16 f.

(** ** The layer *)

Section l2.
Context `{Platform} `{L2Os} {U : Type}.

(** The IP stack: [bm_l2_submit] works on the buffers and its own state. *)
Context (bm_l2_submit : option loc -> Z -> M (buf_heap * U) BmErr).
Context (bm_l2_set_netif : bool -> M U BmErr).

#[local] Abbreviation st := (l2_state U).

Definition set_ctx (f : BmL2Ctx -> BmL2Ctx) (s : st) : st :=
  MkL2State (f (l2_ctx s)) (l2_bufs s) (l2_timer_heap s) (l2_cb_heap s) (l2_trace s) (l2_upper s).
Definition set_l2_bufs (b : buf_heap) (s : st) : st :=
  MkL2State (l2_ctx s) b (l2_timer_heap s) (l2_cb_heap s) (l2_trace s) (l2_upper s).
Definition set_timers (ll : LL) (h : item_heap Z) (s : st) : st :=
  let c := l2_ctx s in
  MkL2State (MkL2Ctx (network_device c) (num_ports c) (all_ports_mask c) (enabled_ports_mask c)
               (evt_queue c) (task_handle c) (routing_cb c) (pcap_cb c)
               (link_change_callback_list c) ll)
            (l2_bufs s) h (l2_cb_heap s) (l2_trace s) (l2_upper s).
Definition set_link_cbs (ll : LL) (h : item_heap nat) (s : st) : st :=
  let c := l2_ctx s in
  MkL2State (MkL2Ctx (network_device c) (num_ports c) (all_ports_mask c) (enabled_ports_mask c)
               (evt_queue c) (task_handle c) (routing_cb c) (pcap_cb c)
               ll (renegotiate_timer_list c))
            (l2_bufs s) (l2_timer_heap s) h (l2_trace s) (l2_upper s).
Definition set_evt_queue (q : option (list L2QueueElement)) (c : BmL2Ctx) : BmL2Ctx :=
  MkL2Ctx (network_device c) (num_ports c) (all_ports_mask c) (enabled_ports_mask c) q
    (task_handle c) (routing_cb c) (pcap_cb c) (link_change_callback_list c)
    (renegotiate_timer_list c).
Definition set_enabled (m : Z) (c : BmL2Ctx) : BmL2Ctx :=
  MkL2Ctx (network_device c) (num_ports c) (all_ports_mask c) m (evt_queue c)
    (task_handle c) (routing_cb c) (pcap_cb c) (link_change_callback_list c)
    (renegotiate_timer_list c).
Definition emit (e : l2_event) : M st unit :=
  modify (fun s => MkL2State (l2_ctx s) (l2_bufs s) (l2_timer_heap s) (l2_cb_heap s)
                     (l2_trace s ++ [e]) (l2_upper s)).

Definition with_bufs {A} (m : M buf_heap A) : M st A := zoom l2_bufs set_l2_bufs m.
(** Allocations outside the buffers share the list of outcomes. *)
Definition next_ok : M st bool := with_bufs next_alloc.

Definition ctx {A} (f : BmL2Ctx -> A) : M st A := gets (fun s => f (l2_ctx s)).
(** [CTX.network_device.trait->...]: a null trait is undefined. *)
Definition trait : M st NetworkDeviceTrait :=
  d ← ctx network_device; lift d.

(** [bm_queue_send]: fails when the queue is full. *)
Definition evt_queue_send (front : bool) (e : L2QueueElement) : M st BmErr :=
  q ← ctx evt_queue;
  q ← lift q;
  if (length q <? evt_queue_len)%nat then
    _ ← modify (set_ctx (set_evt_queue (Some (if front : bool then e :: q else q ++ [e]))));
    mret BmOK
  else mret BmENOMEM.

(** [ll_create_item] with an allocator that may fail twice. *)
Definition create_item {D} (d : D) (i : Z) (h : item_heap D) : M st (option loc * item_heap D) :=
  ok1 ← next_ok;
  if ok1 : bool then
    ok2 ← next_ok;
    mret (ll_create_item (Some (fresh (dom h), (None, None))) ok2 (Some d) i h)
  else mret (None, h).

Definition bm_l2_renegotiate (port_num : Z) : M st unit :=
  t ← trait;
  match dev_retry_negotiation t with
  | None => ub
  | Some f => emit (EvRetry (u8 port_num))
  end.

Definition bm_l2_start_renegotiate_check (port_num : Z) : M st BmErr :=
  s ← get;
  '(err, _) ← lift (ll_get_item (Some (renegotiate_timer_list (l2_ctx s))) port_num (l2_timer_heap s));
  t ← trait;
  match dev_retry_negotiation t with
  | None => mret BmENODEV
  | Some _ =>
      if negb (bool_decide (err = BmENODEV)) then mret BmENODEV
      else if negb (os_timer_create port_num) then mret BmENOMEM
      else
        '(item, h) ← create_item port_num port_num (l2_timer_heap s);
        match item with
        | None =>
            _ ← emit (EvTimerDelete port_num);
            mret BmENOMEM
        | Some _ =>
            '(err, ll, h) ← lift (ll_item_add (Some (renegotiate_timer_list (l2_ctx s))) item h);
            ll ← lift ll;
            _ ← modify (set_timers ll h);
            if negb (is_ok err) || negb (is_ok (os_timer_start port_num)) then
              '(_, h) ← lift (ll_delete_item item h);
              _ ← modify (set_timers ll h);
              _ ← emit (EvTimerDelete port_num);
              mret BmECANCELED
            else
              _ ← emit (EvTimerStart port_num);
              mret BmOK
        end
  end.

Definition bm_l2_stop_renegotiate_check (port_num : Z) : M st BmErr :=
  t ← trait;
  match dev_retry_negotiation t with
  | None => mret BmENODEV
  | Some _ =>
      s ← get;
      '(err, timer_ptr) ← lift (ll_get_item (Some (renegotiate_timer_list (l2_ctx s))) port_num
                                  (l2_timer_heap s));
      match timer_ptr with
      | Some (Some timer) =>
          if negb (is_ok err) then mret BmENODATA
          else
            '(_, ll, h) ← lift (ll_remove (Some (renegotiate_timer_list (l2_ctx s))) port_num
                                  (l2_timer_heap s));
            ll ← lift ll;
            _ ← modify (set_timers ll h);
            _ ← emit (EvTimerDelete timer);
            mret BmOK
      | _ => mret BmENODATA
      end
  end.

Definition bm_l2_tx (buf : option loc) (length port_mask : Z) : M st BmErr :=
  enabled ← ctx enabled_ports_mask;
  err ← evt_queue_send false (MkElement L2Tx length buf (Z.land port_mask enabled));
  if is_ok err then mret BmOK
  else
    _ ← with_bufs (bm_l2_free buf);
    mret BmENOMEM.

(** [data] is what the driver received, of [length] bytes; null is [None]. *)
Definition bm_l2_rx (port_num : Z) (data : option bytes) : M st unit :=
  match data with
  | None => mret tt
  | Some d =>
      let length := Z.of_nat (length d) in
      let port_mask := u16 (Z.shiftl 1 (port_num - 1)) in
      pcap ← ctx pcap_cb;
      _ ← when pcap (emit (EvPcap d));
      buf ← with_bufs (bm_l2_new length);
      match buf with
      | None => mret tt
      | Some _ =>
          _ ← with_bufs (payload_store buf (write_at 0 d));
          err ← evt_queue_send false (MkElement L2Rx length buf port_mask);
          if is_ok err then mret tt else with_bufs (bm_l2_free buf)
      end
  end.

(** The first [length] bytes of the payload, as the device is given them. *)
Definition send_to_port (port_num : Z) (buf : option loc) (length : Z) : M st unit :=
  p ← with_bufs (bm_l2_get_payload buf);
  f ← lift (read_at 0 (Z.to_nat length) p);
  pcap ← ctx pcap_cb;
  _ ← when pcap (emit (EvPcap f));
  t ← trait;
  emit (EvSend port_num f).

(** The ports of a mask among the first [n], by index: the loop
    [for (port_idx = 0; port_idx < num_ports; port_idx++)] with its test. *)
Definition ports_of (n mask : Z) : list Z :=
  filter (fun i => Z.testbit mask i = true) (Z.of_nat <$> seq 0 (Z.to_nat n)).

Definition send_global_multicast_packet (buf : option loc) (length port_mask : Z) : M st unit :=
  c ← ctx (fun c => c);
  if port_mask =? all_ports_mask c then send_to_port device_all_ports buf length
  else for_each (ports_of (num_ports c) port_mask)
         (fun port_idx => send_to_port (port_idx + 1) buf length).

(** One iteration of the link-local loop of [bm_l2_process_tx_evt]. *)
Definition send_link_local (buf : option loc) (length port_num : Z) : M st unit :=
  _ ← with_bufs (payload_store buf (network_add_egress_port port_num));
  _ ← send_to_port port_num buf length;
  _ ← with_bufs (payload_store buf clear_ports);
  with_bufs (payload_store buf (network_revert_checksum port_num)).

Definition bm_l2_process_tx_evt (tx_evt : option L2QueueElement) : M st unit :=
  match tx_evt with
  | None => mret tt
  | Some e =>
      p ← with_bufs (bm_l2_get_payload (el_buf e));
      dst_ip ← lift (frame_dst p);
      n ← ctx num_ports;
      _ ← (if is_global_multicast (Some dst_ip)
           then send_global_multicast_packet (el_buf e) (el_length e) (el_port_mask e)
           else if is_link_local_multicast (Some dst_ip)
           then for_each (ports_of n (el_port_mask e))
                  (fun port_idx => send_link_local (el_buf e) (el_length e) (port_idx + 1))
           else mret tt);
      with_bufs (bm_l2_free (el_buf e))
  end.

Definition submit (buf : option loc) (length : Z) : M st BmErr :=
  zoom (fun s => (l2_bufs s, l2_upper s))
       (fun bu s => MkL2State (l2_ctx s) (fst bu) (l2_timer_heap s) (l2_cb_heap s) (l2_trace s)
                      (snd bu))
       (bm_l2_submit buf length).

(** The policy reads and writes the first [el_length e] bytes of the payload. *)
Definition bm_l2_process_rx_evt (rx_evt : option L2QueueElement) : M st unit :=
  match rx_evt with
  | None => mret tt
  | Some e =>
      match el_buf e with
      | None => mret tt
      | Some _ =>
          payload ← with_bufs (bm_l2_get_payload (el_buf e));
          c ← ctx (fun c => c);
          let '(policy, frame) :=
            bm_l2_policy_rx_apply (Some payload) (el_length e) (el_port_mask e)
              (all_ports_mask c) (routing_cb c) in
          _ ← with_bufs (payload_store (el_buf e) (fun _ => frame));
          _ ← (if egress_mask policy =? 0 then mret tt
               else
                 fwd ← with_bufs (bm_l2_new (el_length e));
                 match fwd with
                 | None => mret tt
                 | Some _ =>
                     payload ← with_bufs (bm_l2_get_payload (el_buf e));
                     copy ← lift (read_at 0 (Z.to_nat (el_length e)) payload);
                     _ ← with_bufs (payload_store fwd (write_at 0 copy));
                     _ ← with_bufs (payload_store fwd (fun f =>
                           bm_l2_policy_prepare_forwarded_copy (Some f) (el_length e)));
                     _ ← bm_l2_tx fwd (el_length e) (egress_mask policy);
                     mret tt
                 end);
          err ← (if should_submit policy then submit (el_buf e) (el_length e) else mret BmENODEV);
          if is_ok err then mret tt else with_bufs (bm_l2_free (el_buf e))
      end
  end.

(** The start of the thread, and one iteration of its loop; a receive on an empty
    queue waits, which is no step. *)
Definition bm_l2_thread_start : M st unit :=
  n ← ctx num_ports;
  for_each (Z.of_nat <$> seq 1 (Z.to_nat n)) (fun port_num =>
    _ ← bm_l2_start_renegotiate_check port_num; mret tt).

Definition bm_l2_thread_step : M st unit :=
  q ← ctx evt_queue;
  q ← lift q;
  match q with
  | [] => mret tt
  | event :: q =>
      _ ← modify (set_ctx (set_evt_queue (Some q)));
      match el_type event with
      | L2Tx => bm_l2_process_tx_evt (Some event)
      | L2Rx => bm_l2_process_rx_evt (Some event)
      | L2Irq => _ ← trait; emit EvInterrupt
      end
  end.

(** The callback [link_change_cbs] of the traversal, on the events it causes. *)
Definition link_change_cbs (port_num : Z) (is_up : bool) (data : option nat) (out : list l2_event)
    : BmErr * list l2_event :=
  match data with
  | None => (BmEINVAL, out)
  | Some cb => (BmOK, out ++ [EvLink cb port_num is_up])
  end.

Definition link_change (port_idx : Z) (is_up : bool) : M st unit :=
  let port_mask := u16 (Z.shiftl 1 port_idx) in
  let port_num := u8 (port_idx + 1) in
  c ← ctx (fun c => c);
  _ ← (if is_up then
         _ ← modify (set_ctx (set_enabled (Z.lor (enabled_ports_mask c) port_mask)));
         _ ← bm_l2_stop_renegotiate_check port_num; mret tt
       else
         _ ← modify (set_ctx (set_enabled
               (Z.land (enabled_ports_mask c) (u16 (Z.lnot port_mask)))));
         _ ← bm_l2_start_renegotiate_check port_num; mret tt);
  s ← get;
  '(_, ll, out) ← lift (ll_traverse (Some (link_change_callback_list (l2_ctx s)))
                          (Some (link_change_cbs port_num is_up)) [] (l2_cb_heap s));
  ll ← lift ll;
  _ ← modify (set_link_cbs ll (l2_cb_heap s));
  for_each out emit.

Definition bm_l2_handle_device_interrupt : M st BmErr :=
  q ← ctx evt_queue;
  match q with
  | Some _ => evt_queue_send true (MkElement L2Irq 0 None 0)
  | None => mret BmENOMEM
  end.

Definition bm_l2_deinit : M st unit :=
  n ← ctx num_ports;
  _ ← for_each (Z.of_nat <$> seq 1 (Z.to_nat n)) (fun port_num =>
        _ ← bm_l2_stop_renegotiate_check port_num; mret tt);
  modify (set_ctx (fun _ => ctx_zero)).

Definition bm_l2_init (dev : NetworkDeviceTrait) : M st BmErr :=
  let n := dev_num_ports dev in
  _ ← modify (set_ctx (fun c =>
        MkL2Ctx (Some dev) n (u16 (u32 (Z.shiftl 1 n) - 1)) (enabled_ports_mask c)
          (if os_queue_create then Some [] else None) (task_handle c) (routing_cb c) (pcap_cb c)
          (link_change_callback_list c) (renegotiate_timer_list c)));
  err ← (if os_queue_create then
           _ ← when (is_ok os_task_create) (modify (set_ctx (fun c =>
                 MkL2Ctx (network_device c) (num_ports c) (all_ports_mask c)
                   (enabled_ports_mask c) (evt_queue c) true (routing_cb c) (pcap_cb c)
                   (link_change_callback_list c) (renegotiate_timer_list c))));
           mret os_task_create
         else mret BmENOMEM);
  unless_err err (_ ← emit EvEnable; mret (dev_enable dev)).

Definition bm_l2_register_link_change_callback (cb : option nat) : M st BmErr :=
  match cb with
  | None => mret BmEINVAL
  | Some f =>
      s ← get;
      (* [cb_count] stays 0 *)
      '(item, h) ← create_item f 0 (l2_cb_heap s);
      err ← match item with
            | None => mret BmENOMEM
            | Some _ =>
                '(err, ll, h) ← lift (ll_item_add (Some (link_change_callback_list (l2_ctx s))) item h);
                ll ← lift ll;
                _ ← modify (set_link_cbs ll h);
                mret err
            end;
      _ ← when (is_ok err) (
        c ← ctx (fun c => c);
        for_each (ports_of (num_ports c) (enabled_ports_mask c))
          (fun port_idx => emit (EvLink f (u8 (port_idx + 1)) true)));
      mret err
  end.

(** The application marks the egress port in the byte 13 of the destination. *)
Definition egress_idx : nat := ipv6_destination_address_offset + 13.

Definition bm_l2_link_output (buf : option loc) (length : Z) : M st BmErr :=
  c ← ctx (fun c => c);
  eth_frame ← with_bufs (bm_l2_get_payload buf);
  egress_port ← lift (rd egress_idx eth_frame);
  let port_mask :=
    if (0 <? egress_port) && (egress_port <=? num_ports c)
    then u16 (Z.shiftl 1 (egress_port - 1)) else all_ports_mask c in
  _ ← with_bufs (payload_store buf (wr egress_idx 0));
  _ ← with_bufs (bm_l2_tx_prep buf length);
  bm_l2_tx buf length port_mask.

Definition bm_l2_get_port_state (port_idx : Z) : M st bool :=
  c ← ctx (fun c => c);
  mret (negb (Z.land (enabled_ports_mask c) (Z.shiftl 1 port_idx) =? 0)).

Definition bm_l2_get_port_count : M st Z := ctx num_ports.

Definition set_netif (up : bool) : M st BmErr :=
  zoom l2_upper (fun u s => MkL2State (l2_ctx s) (l2_bufs s) (l2_timer_heap s) (l2_cb_heap s)
                              (l2_trace s) u) (bm_l2_set_netif up).

Definition bm_l2_netif_set_power (on : bool) : M st BmErr :=
  t ← trait;
  if on then
    _ ← emit EvEnable;
    unless_err (dev_enable t) (set_netif true)
  else
    err ← set_netif false;
    unless_err err (_ ← emit EvDisable; mret (dev_disable t)).

Definition bm_l2_netif_enable_disable_port (port_num : Z) (enable : bool) : M st BmErr :=
  c ← ctx (fun c => c);
  if (port_num <=? num_ports c) && (0 <? port_num) then
    t ← trait;
    err ← (if enable then _ ← emit (EvEnablePort port_num); mret (dev_enable_port t port_num)
           else _ ← emit (EvDisablePort port_num); mret (dev_disable_port t port_num));
    _ ← link_change (port_num - 1) enable;
    mret err
  else mret BmEINVAL.

Definition bm_l2_register_link_local_routing_callback (cb : option L2LinkLocalRoutingCb) : M st BmErr :=
  match cb with
  | None => mret BmEINVAL
  | Some _ =>
      _ ← modify (set_ctx (fun c =>
            MkL2Ctx (network_device c) (num_ports c) (all_ports_mask c) (enabled_ports_mask c)
              (evt_queue c) (task_handle c) cb (pcap_cb c) (link_change_callback_list c)
              (renegotiate_timer_list c)));
      mret BmOK
  end.

Definition bm_l2_register_pcap_callback (cb : bool) : M st BmErr :=
  if cb then
    _ ← modify (set_ctx (fun c =>
          MkL2Ctx (network_device c) (num_ports c) (all_ports_mask c) (enabled_ports_mask c)
            (evt_queue c) (task_handle c) (routing_cb c) true (link_change_callback_list c)
            (renegotiate_timer_list c)));
    mret BmOK
  else mret BmEINVAL.
End l2.

(** ** The egress port of a frame *)

Section egress.
Context `{Platform}.

(** What [update_checksum] does to a frame that has the headers. *)
Definition checksum_op (op : Z -> Z) (f : bytes) : bytes :=
  if ethernet_get_type f =? ethernet_type_ipv6 then
    if nth 20 f 0 =? ip_proto_udp then
      set_byte 60 (255 - u8 (op (255 - nth 60 f 0))) f
    else if nth 20 f 0 =? ip_proto_bcmp then
      blit 56 (native_store 2 (65535 - u16 (op (65535 - native_load (slice 56 2 f))))) f
    else f
  else f.

(** The frame sent on a port: the port in the lower nibble, the checksum moved. *)
Definition with_egress (port : Z) (f : bytes) : bytes :=
  checksum_op (fun c => c + port) (set_byte 24 port f).

Lemma complement_byte b : byte_ok b -> u8 (Z.lxor b 0xFFFF) = 255 - b.
Proof.
  intros Hb. unfold byte_ok in Hb. change 0xFFFF with (Z.ones 16).
  rewrite lxor_ones_sub by lia. change (Z.ones 16) with 65535. unfold wrap. plia.
Qed.

Lemma native_load_range l : bytes_ok l -> length l = 2%nat -> 0 <= native_load l < 65536.
Proof.
  intros Hl Hn. unfold native_load. pose proof (le_dec_range l Hl). pose proof (be_dec_range l Hl).
  rewrite Hn in *. destruct little_endian; lia.
Qed.

Lemma rd_nth i f : (i < length f)%nat -> rd i f = Some (nth i f 0).
Proof.
  intros Hi. unfold rd. destruct (nth_lookup_or_length f i 0) as [E|E]; [done|lia].
Qed.

Lemma wr_ok i b f : (i < length f)%nat -> wr i b f = Some (set_byte i b f).
Proof. intros Hi. unfold wr. by destruct (Nat.ltb_spec i (length f)); [|lia]. Qed.

Lemma update_checksum_spec op f :
  bytes_ok f -> (61 <= length f)%nat -> update_checksum op f = Some (checksum_op op f).
Proof.
  intros Hf Hl. unfold update_checksum, checksum_op, get_type.
  destruct (Nat.leb_spec 14 (length f)); [|lia]. cbn [mbind option_bind].
  change ipv6_next_header_offset with 20%nat. rewrite rd_nth by lia. cbn [mbind option_bind].
  destruct (ethernet_get_type f =? ethernet_type_ipv6); [|done].
  destruct (nth 20 f 0 =? ip_proto_udp).
  - unfold update_udp_checksum. change udp_checksum_offset with 60%nat.
    rewrite rd_nth by lia. cbn [mbind option_bind].
    rewrite !complement_byte by (apply nth_byte_ok || apply u8_range; done). by rewrite wr_ok by lia.
  - destruct (nth 20 f 0 =? ip_proto_bcmp); [|done].
    unfold update_bcmp_checksum, read_at, write_at. change bcmp_checksum_offset with 56%nat.
    destruct (Nat.leb_spec (56 + 2) (length f)); [|lia]. cbn [mbind option_bind].
    rewrite length_native_store. destruct (Nat.leb_spec (56 + 2) (length f)); [|lia].
    change 0xFFFF with (Z.ones 16).
    rewrite !lxor_ones_sub; [done|lia| |lia|apply u16_range].
    apply native_load_range; [by apply bytes_ok_slice|by apply length_slice].
Qed.

Lemma nth_set_byte_ne i j b f : i <> j -> nth j (set_byte i b f) 0 = nth j f 0.
Proof. intros Hij. unfold set_byte. by rewrite !nth_lookup, list_lookup_insert_ne. Qed.

Lemma nth_set_byte_eq i b f : (i < length f)%nat -> nth i (set_byte i b f) 0 = b.
Proof. intros Hi. unfold set_byte. by rewrite nth_lookup, list_lookup_insert_eq. Qed.

Lemma set_byte_nth i f : (i < length f)%nat -> set_byte i (nth i f 0) f = f.
Proof.
  intros Hi. apply list_insert_id.
  destruct (nth_lookup_or_length f i 0) as [E|E]; [done|lia].
Qed.

Lemma nth_blit_ne off d f j :
  (off + length d <= length f)%nat -> (j < off \/ off + length d <= j)%nat ->
  nth j (blit off d f) 0 = nth j f 0.
Proof. intros Hl Hj. by rewrite !nth_lookup, lookup_blit_ne. Qed.

Lemma checksum_op_set24 op b f :
  (61 <= length f)%nat -> checksum_op op (set_byte 24 b f) = set_byte 24 b (checksum_op op f).
Proof.
  intros Hl. unfold checksum_op, ethernet_get_type. change ethernet_type_offset with 12%nat.
  rewrite !slice_set_byte, !nth_set_byte_ne by lia.
  destruct (_ =? ethernet_type_ipv6); [|done]. destruct (_ =? ip_proto_udp).
  - unfold set_byte. by rewrite list_insert_insert_ne by lia.
  - destruct (_ =? ip_proto_bcmp); [|done].
    apply blit_insert_ne; rewrite length_native_store; lia.
Qed.

Lemma bytes_ok_set_byte i b f : byte_ok b -> bytes_ok f -> bytes_ok (set_byte i b f).
Proof. intros Hb Hf. by apply Forall_insert. Qed.

Lemma length_checksum_op op f : (61 <= length f)%nat -> length (checksum_op op f) = length f.
Proof.
  intros Hl. unfold checksum_op. repeat case_match; try done.
  - apply length_set_byte.
  - apply length_blit. rewrite length_native_store. lia.
Qed.

Lemma checksum_op_ok op f : bytes_ok f -> bytes_ok (checksum_op op f).
Proof.
  intros Hf. unfold checksum_op. repeat case_match; try done.
  - apply bytes_ok_set_byte; [|done]. unfold byte_ok. wrap_ranges. lia.
  - auto with bm.
Qed.

Lemma checksum_op_inverse port f :
  bytes_ok f -> (61 <= length f)%nat ->
  checksum_op (fun c => c - port) (checksum_op (fun c => c + port) f) = f.
Proof.
  intros Hf Hl. unfold checksum_op at 2.
  destruct (ethernet_get_type f =? ethernet_type_ipv6) eqn:Et;
    [|unfold checksum_op; by rewrite Et].
  destruct (nth 20 f 0 =? ip_proto_udp) eqn:Eu.
  - unfold checksum_op, ethernet_get_type in *. change ethernet_type_offset with 12%nat in *.
    rewrite slice_set_byte, nth_set_byte_ne, Et, Eu by lia. rewrite nth_set_byte_eq by lia.
    unfold set_byte. rewrite list_insert_insert_eq.
    pose proof (nth_byte_ok f 60 Hf) as Hb. unfold byte_ok in Hb.
    match goal with |- context [255 - u8 ?x] =>
      replace (255 - u8 x) with (nth 60 f 0); [by apply set_byte_nth; lia|] end.
    clear -Hb. unfold wrap. plia.
  - destruct (nth 20 f 0 =? ip_proto_bcmp) eqn:Eb;
      [|unfold checksum_op; by rewrite Et, Eu, Eb].
    set (c := 65535 - u16 _).
    unfold checksum_op, ethernet_get_type in *. change ethernet_type_offset with 12%nat in *.
    rewrite slice_blit_ne, nth_blit_ne, Et, Eu, Eb by (rewrite length_native_store; lia).
    rewrite blit_blit by (rewrite !length_native_store; lia).
    pose proof (slice_blit_same 56 (native_store 2 c) f) as Hs.
    rewrite length_native_store in Hs. rewrite Hs, native_load_store by lia.
    assert (Hr : 0 <= native_load (slice 56 2 f) < 65536)
      by (apply native_load_range; [by apply bytes_ok_slice|apply length_slice; lia]).
    assert (Hc : 65535 - u16 (65535 - c mod 256 ^ Z.of_nat 2 - port) = native_load (slice 56 2 f)).
    { unfold c, wrap. change (256 ^ Z.of_nat 2) with 65536. clear -Hr. plia. }
    rewrite Hc. pose proof (native_store_load (slice 56 2 f)) as Hn.
    rewrite length_slice in Hn by lia. rewrite Hn by by apply bytes_ok_slice.
    apply blit_slice_id. lia.
Qed.

(** Adding the egress port, clearing it and reverting the checksum. *)
Lemma egress_round_trip port f :
  bytes_ok f -> (61 <= length f)%nat -> nth 24 f 0 = 0 -> 1 <= port <= 15 ->
  network_add_egress_port port f = Some (with_egress port f)
  /\ clear_ports (with_egress port f) = Some (set_byte 24 0 (with_egress port f))
  /\ network_revert_checksum port (set_byte 24 0 (with_egress port f)) = Some f.
Proof.
  intros Hf Hl H0 Hp. unfold with_egress.
  assert (Hf' : bytes_ok (set_byte 24 port f))
    by (apply bytes_ok_set_byte; [unfold byte_ok; lia|done]).
  split_and!.
  - unfold network_add_egress_port, add_egress_port.
    change ipv6_ingress_egress_ports_offset with 24%nat. rewrite rd_nth by lia. cbn [mbind option_bind].
    rewrite H0, Z.lor_0_l, u8_small, wr_ok by lia. cbn [mbind option_bind].
    apply update_checksum_spec; [done|by rewrite length_set_byte].
  - apply wr_ok. rewrite length_checksum_op; rewrite length_set_byte; unfold ipv6_ingress_egress_ports_offset, ipv6_source_address_offset; lia.
  - unfold network_revert_checksum.
    rewrite checksum_op_set24 by done. unfold set_byte at 1 2. rewrite list_insert_insert_eq.
    rewrite update_checksum_spec.
    + fold (set_byte 24 0 (checksum_op (fun c => c + port) f)).
      rewrite checksum_op_set24 by (by rewrite length_checksum_op).
      rewrite checksum_op_inverse by done. f_equal. rewrite <- H0 at 1. apply set_byte_nth. lia.
    + apply bytes_ok_set_byte; [unfold byte_ok; lia|by apply checksum_op_ok].
    + rewrite length_insert, length_checksum_op; lia.
Qed.
End egress.

(** ** Transmission *)

Section transmission.
Context `{Platform} `{L2Os} {U : Type}.
#[local] Abbreviation st := (l2_state U).

Definition add_trace (es : list l2_event) (s : st) : st :=
  MkL2State (l2_ctx s) (l2_bufs s) (l2_timer_heap s) (l2_cb_heap s) (l2_trace s ++ es) (l2_upper s).

Lemma add_trace_app es1 es2 s : add_trace es2 (add_trace es1 s) = add_trace (es1 ++ es2) s.
Proof. unfold add_trace. cbn. by rewrite app_assoc. Qed.

Lemma add_trace_nil s : add_trace [] s = s.
Proof. unfold add_trace. rewrite app_nil_r. by destruct s. Qed.

Lemma with_bufs_some {A} (m : M buf_heap A) (s : st) a h :
  m (l2_bufs s) = Some (a, h) -> with_bufs m s = Some (a, set_l2_bufs h s).
Proof. intros E. unfold with_bufs, zoom. by rewrite E. Qed.

Lemma set_l2_bufs_same (s : st) : set_l2_bufs (l2_bufs s) s = s.
Proof. by destruct s. Qed.

(** What one port sees: the capture callback, then the device. *)
Definition port_events (pcap : bool) (port : Z) (frame : bytes) : list l2_event :=
  (if pcap then [EvPcap frame] else []) ++ [EvSend port frame].

Lemma send_to_port_spec (s : st) l b port n :
  bufs (l2_bufs s) !! l = Some b -> 0 <= n <= Z.of_nat (length (payload b)) ->
  is_Some (network_device (l2_ctx s)) ->
  send_to_port port (Some l) n s
  = Some (tt, add_trace (port_events (pcap_cb (l2_ctx s)) port (take (Z.to_nat n) (payload b))) s).
Proof.
  intros Hb Hn [d Hd]. unfold send_to_port.
  erewrite bind_some by (apply with_bufs_some; by apply bm_l2_get_payload_some).
  rewrite set_l2_bufs_same. unfold lift, read_at.
  destruct (Nat.leb_spec (0 + Z.to_nat n) (length (payload b))); [|lia].
  unfold slice. rewrite drop_0. unfold mbind, M_bind. cbn [fmap option_fmap option_map].
  unfold ctx, gets, trait, when, emit, modify, mret, M_ret, mbind, M_bind, ctx, gets, lift.
  destruct (pcap_cb (l2_ctx s)); cbn; rewrite Hd; cbn; unfold add_trace, port_events; cbn;
    by rewrite <- ?app_assoc.
Qed.

(** One port of a link-local transmission leaves the payload as it was. *)
Lemma send_link_local_spec (s : st) l b port n :
  bufs (l2_bufs s) !! l = Some b -> bytes_ok (payload b) -> (61 <= length (payload b))%nat ->
  nth 24 (payload b) 0 = 0 -> 1 <= port <= 15 -> 0 <= n <= Z.of_nat (length (payload b)) ->
  is_Some (network_device (l2_ctx s)) ->
  send_link_local (Some l) n port s
  = Some (tt, add_trace (port_events (pcap_cb (l2_ctx s)) port
                           (take (Z.to_nat n) (with_egress port (payload b)))) s).
Proof.
  intros Hb Hok Hl Hz Hp Hn Hd.
  destruct (egress_round_trip port (payload b) Hok Hl Hz Hp) as (E1 & E2 & E3).
  set (f := payload b) in *. set (g := with_egress port f) in *.
  assert (Hg : length g = length f)
    by (unfold g, with_egress; rewrite length_checksum_op; rewrite length_set_byte; done).
  unfold send_link_local.
  erewrite bind_some by (apply with_bufs_some; by eapply payload_store_some).
  set (s1 := set_l2_bufs _ s).
  assert (Hb1 : bufs (l2_bufs s1) !! l = Some (set_payload g b))
    by (cbn; by rewrite lookup_insert_eq).
  erewrite bind_some by (apply (send_to_port_spec s1 l (set_payload g b)); [done|cbn; lia|done]).
  set (s2 := add_trace _ s1).
  erewrite bind_some.
  2: { apply with_bufs_some. eapply payload_store_some; [exact Hb1|exact E2]. }
  set (g' := set_byte 24 0 g) in *.
  erewrite with_bufs_some; cycle 1.
  { eapply payload_store_some; [cbn; by rewrite lookup_insert_eq|exact E3]. }
  unfold s2, s1, add_trace, set_l2_bufs, set_bufs, set_payload. cbn.
  do 2 f_equal. rewrite !insert_insert_eq.
  assert (Hid : <[l := MkLinuxBuf (ref b) (alloc_size b) (len b) f]> (bufs (l2_bufs s))
                = bufs (l2_bufs s)) by (apply insert_id; rewrite Hb; by destruct b).
  rewrite Hid. by destruct (l2_bufs s).
Qed.

Lemma send_link_local_ports (ports : list Z) (s : st) l b n :
  bufs (l2_bufs s) !! l = Some b -> bytes_ok (payload b) -> (61 <= length (payload b))%nat ->
  nth 24 (payload b) 0 = 0 -> Forall (fun i => 0 <= i < 15) ports ->
  0 <= n <= Z.of_nat (length (payload b)) -> is_Some (network_device (l2_ctx s)) ->
  for_each ports (fun i => send_link_local (Some l) n (i + 1)) s
  = Some (tt, add_trace (concat ((fun i => port_events (pcap_cb (l2_ctx s)) (i + 1)
                           (take (Z.to_nat n) (with_egress (i + 1) (payload b)))) <$> ports)) s).
Proof.
  intros Hb Hok Hl Hz Hps Hn Hd. revert s Hb Hd.
  induction Hps as [|i ports Hi _ IH]; intros s Hb Hd.
  - cbn. by rewrite add_trace_nil.
  - cbn [for_each]. erewrite bind_some by (apply send_link_local_spec; [done|done|done|done|lia|done|done]).
    rewrite IH by done. cbn [pcap_cb l2_ctx add_trace fmap list_fmap concat].
    f_equal. f_equal. apply add_trace_app.
Qed.

Lemma ports_of_range n mask : 0 <= n <= 15 -> Forall (fun i => 0 <= i < 15) (ports_of n mask).
Proof.
  intros Hn. unfold ports_of. apply Forall_forall. intros i Hi.
  apply list_elem_of_filter in Hi as [_ Hi]. apply list_elem_of_fmap in Hi as (k & -> & Hk).
  apply elem_of_seq in Hk. lia.
Qed.

(** The whole handling of a link-local frame. *)
Lemma process_tx_ports (s : st) l b dst n mask :
  bufs (l2_bufs s) !! l = Some b ->
  bytes_ok (payload b) -> (61 <= length (payload b))%nat -> nth 24 (payload b) 0 = 0 ->
  frame_dst (payload b) = Some dst ->
  is_global_multicast (Some dst) = false -> is_link_local_multicast (Some dst) = true ->
  0 <= n <= Z.of_nat (length (payload b)) -> 0 <= num_ports (l2_ctx s) <= 15 ->
  is_Some (network_device (l2_ctx s)) -> 0 < ref b < 2 ^ 32 ->
  exists h,
    bm_l2_free (Some l) (l2_bufs s) = Some (tt, h)
    /\ bm_l2_process_tx_evt (Some (MkElement L2Tx n (Some l) mask)) s
       = Some (tt, set_l2_bufs h (add_trace
           (concat ((fun i => port_events (pcap_cb (l2_ctx s)) (i + 1)
                        (take (Z.to_nat n) (with_egress (i + 1) (payload b))))
                      <$> ports_of (num_ports (l2_ctx s)) mask)) s)).
Proof.
  intros Hb Hok Hl Hz Hdst Hgl Hll Hn Hnp Hd Hr.
  assert (Hfree : exists h, bm_l2_free (Some l) (l2_bufs s) = Some (tt, h)).
  { destruct (Z.eq_dec (ref b) 1) as [E|E].
    - eexists. by apply bm_l2_free_last with b.
    - eexists. apply bm_l2_free_shared with (b := b); [done|lia]. }
  destruct Hfree as [h Hh]. exists h. split; [done|].
  unfold bm_l2_process_tx_evt. cbn [el_buf el_length el_port_mask].
  erewrite bind_some by (apply with_bufs_some; by apply bm_l2_get_payload_some).
  rewrite set_l2_bufs_same. unfold lift. rewrite Hdst. cbn [fmap option_fmap option_map].
  erewrite bind_some by reflexivity. unfold ctx. erewrite bind_some by reflexivity.
  rewrite Hgl, Hll.
  erewrite bind_some by (apply send_link_local_ports; [done..|by apply ports_of_range|done|done]).
  by rewrite (with_bufs_some _ _ tt h).
Qed.

(** C5: transmission to a link-local multicast group: every port of the event's
    mask is sent its own copy of the frame, in the order of the ports, with the
    port's number as the egress port and the checksum moved by it; between two
    ports the payload is restored exactly, so no port sees the number of
    another one, and one reference to the buffer is given back at the end. *)
Theorem process_tx_link_local (s : st) l b dst n mask :
  bufs (l2_bufs s) !! l = Some b ->
  bytes_ok (payload b) -> (61 <= length (payload b))%nat -> nth 24 (payload b) 0 = 0 ->
  frame_dst (payload b) = Some dst ->
  is_global_multicast (Some dst) = false -> is_link_local_multicast (Some dst) = true ->
  0 <= n <= Z.of_nat (length (payload b)) -> 0 <= num_ports (l2_ctx s) <= 15 ->
  is_Some (network_device (l2_ctx s)) -> 0 < ref b < 2 ^ 32 ->
  exists h,
    bm_l2_free (Some l) (l2_bufs s) = Some (tt, h)
    /\ bm_l2_process_tx_evt (Some (MkElement L2Tx n (Some l) mask)) s
       = Some (tt, set_l2_bufs h (add_trace
           (concat ((fun i => port_events (pcap_cb (l2_ctx s)) (i + 1)
                        (take (Z.to_nat n) (with_egress (i + 1) (payload b))))
                      <$> ports_of (num_ports (l2_ctx s)) mask)) s)).
Proof. intros. by eapply process_tx_ports. Qed.
End transmission.

(** ** Link changes *)

Section link_changes.
Context `{L2Os} {U : Type}.
#[local] Abbreviation st := (l2_state U).

(** The timers that run: at most one for each of the two ports. *)
Definition timers_ok (s : st) : Prop :=
  exists es, ll_inv (l2_timer_heap s) (renegotiate_timer_list (l2_ctx s)) es
    /\ NoDup es.*1 /\ Forall (fun e => (e.1 = 1 \/ e.1 = 2) /\ e.2 = Some e.1) es.

(** [cbs] are the registered link callbacks, oldest first. *)
Definition link_cbs (s : st) (cbs : list nat) : Prop :=
  ll_inv (l2_cb_heap s) (link_change_callback_list (l2_ctx s)) ((fun c => (0, Some c)) <$> cbs).

(** The same layer, but for its timers, its trace and the allocator. *)
Definition same_but_timers (s s' : st) : Prop :=
  num_ports (l2_ctx s') = num_ports (l2_ctx s)
  /\ all_ports_mask (l2_ctx s') = all_ports_mask (l2_ctx s)
  /\ enabled_ports_mask (l2_ctx s') = enabled_ports_mask (l2_ctx s)
  /\ evt_queue (l2_ctx s') = evt_queue (l2_ctx s)
  /\ network_device (l2_ctx s') = network_device (l2_ctx s)
  /\ link_change_callback_list (l2_ctx s') = link_change_callback_list (l2_ctx s)
  /\ l2_cb_heap s' = l2_cb_heap s /\ bufs (l2_bufs s') = bufs (l2_bufs s)
  /\ l2_upper s' = l2_upper s
  /\ exists es, l2_trace s' = l2_trace s ++ es
       /\ Forall (fun e => exists p, e = EvTimerStart p \/ e = EvTimerDelete p) es.

Lemma same_but_timers_refl s : same_but_timers s s.
Proof. repeat split. exists []. by rewrite app_nil_r. Qed.

Lemma two_ports es :
  NoDup es.*1 -> Forall (fun e : Z * option Z => (e.1 = 1 \/ e.1 = 2) /\ e.2 = Some e.1) es ->
  (length es <= 2)%nat.
Proof.
  intros Hn Hf. rewrite <- (length_fmap fst).
  apply (submseteq_length _ [1; 2]). apply NoDup_submseteq; [done|].
  intros x Hx. apply list_elem_of_fmap in Hx as (e & -> & He).
  rewrite Forall_forall in Hf. destruct (Hf e He) as [[->| ->] _];
    rewrite !elem_of_cons; auto.
Qed.

Lemma find_id_Some_elem {D} i (es : list (Z * option D)) d :
  find_id i es = Some d -> (i, d) ∈ es.
Proof.
  induction es as [|e es IH]; cbn; [done|]. destruct (Z.eqb_spec (fst e) i) as [<-|].
  - intros [= <-]. destruct e. by left.
  - intros E. right. by apply IH.
Qed.

Lemma find_id_None_elem {D} i (es : list (Z * option D)) : find_id i es = None -> i ∉ es.*1.
Proof.
  induction es as [|e es IH]; cbn; [set_solver|]. destruct (Z.eqb_spec (fst e) i); [done|].
  intros E. apply not_elem_of_cons. split; [congruence|by apply IH].
Qed.

Lemma remove_id_sublist {D} i (es : list (Z * option D)) : sublist (remove_id i es) es.
Proof.
  induction es as [|e es IH]; cbn; [done|]. destruct (fst e =? i); [by constructor|].
  by constructor.
Qed.

Lemma stop_renegotiate_total port (s : st) :
  timers_ok s -> is_Some (network_device (l2_ctx s)) ->
  exists err s', bm_l2_stop_renegotiate_check port s = Some (err, s')
    /\ same_but_timers s s' /\ timers_ok s'.
Proof.
  intros (es & Hinv & Hn & Hf) [t Ht]. unfold bm_l2_stop_renegotiate_check.
  unfold trait, ctx. erewrite bind_some
    by (erewrite bind_some by reflexivity; unfold lift; rewrite Ht; reflexivity).
  destruct (dev_retry_negotiation t).
  2: { do 2 eexists. split; [reflexivity|]. split; [apply same_but_timers_refl|]. by exists es. }
  erewrite bind_some by reflexivity. unfold lift. rewrite (ll_get_refines _ _ _ _ Hinv).
  destruct (find_id port es) as [d|] eqn:Efind.
  2: { erewrite bind_some by reflexivity. do 2 eexists. split; [reflexivity|].
       split; [apply same_but_timers_refl|]. by exists es. }
  erewrite bind_some by reflexivity. apply find_id_Some_elem in Efind as Hel.
  rewrite Forall_forall in Hf. destruct (Hf _ Hel) as [Hp Hd]. cbn in Hd, Hp. subst d. cbn [is_ok negb].
  destruct (ll_remove_refines _ _ _ port Hinv) as (ll' & h' & E & Hinv').
  { apply at_end_short. apply two_ports; [done|]. by apply Forall_forall. }
  rewrite E. rewrite Efind. erewrite bind_some by reflexivity.
  do 2 eexists. split; [reflexivity|].
  pose proof (remove_id_sublist port es) as Hsub. split.
  - unfold same_but_timers. cbn. split_and!; try done.
    exists [EvTimerDelete port]. split; [done|]. constructor; [|constructor]. eauto.
  - exists (remove_id port es). cbn. split_and!; [done| |].
    + eapply sublist_NoDup; [exact Hn|]. by apply fmap_sublist.
    + apply Forall_forall. intros e He. apply Hf. by eapply elem_of_sublist.
Qed.

(** [create_item] takes one or two results from the allocator. *)
Lemma create_item_cases {D} (d : D) i h (s : st) :
  exists s', bufs (l2_bufs s') = bufs (l2_bufs s) /\ l2_ctx s' = l2_ctx s
    /\ l2_timer_heap s' = l2_timer_heap s /\ l2_cb_heap s' = l2_cb_heap s
    /\ l2_trace s' = l2_trace s /\ l2_upper s' = l2_upper s
    /\ (create_item d i h s = Some ((None, h), s')
        \/ create_item d i h s
           = Some ((Some (fresh (dom h)),
                    <[fresh (dom h) := MkLLItem None None (Some d) i true]> h), s')).
Proof.
  unfold create_item, next_ok, with_bufs, zoom, next_alloc, mbind, M_bind.
  destruct s as [c [bs ok j] th ch tr u]. cbn.
  destruct ok as [|[] [|[] ok]]; cbn; eexists;
    (split_and!; [..|first [left; reflexivity|right; reflexivity]]); reflexivity.
Qed.

Lemma start_renegotiate_total port (s : st) :
  timers_ok s -> is_Some (network_device (l2_ctx s)) -> port = 1 \/ port = 2 ->
  os_timer_start port = BmOK ->
  exists err s', bm_l2_start_renegotiate_check port s = Some (err, s')
    /\ same_but_timers s s' /\ timers_ok s'.
Proof.
  intros (es & Hinv & Hn & Hf) [t Ht] Hp Hos. unfold bm_l2_start_renegotiate_check.
  erewrite bind_some by reflexivity. unfold lift. rewrite (ll_get_refines _ _ _ _ Hinv).
  assert (Hskip : timers_ok s) by (by exists es).
  destruct (find_id port es) as [d|] eqn:Efind; (erewrite bind_some by reflexivity;
    unfold trait, ctx; erewrite bind_some
      by (erewrite bind_some by reflexivity; unfold lift; rewrite Ht; reflexivity);
    destruct (dev_retry_negotiation t);
      [|do 2 eexists; split; [reflexivity|]; split; [apply same_but_timers_refl|done]]).
  { do 2 eexists. split; [reflexivity|]. split; [apply same_but_timers_refl|done]. }
  cbn [bool_decide decide_rel]. rewrite bool_decide_eq_true_2 by done. cbn [negb].
  destruct (os_timer_create port); cbn [negb].
  2: { do 2 eexists. split; [reflexivity|]. split; [apply same_but_timers_refl|done]. }
  destruct (create_item_cases port port (l2_timer_heap s) s)
    as (s1 & E1 & E2 & E3 & E4 & E5 & E6 & Hc).
  destruct Hc as [Hc|Hc]; (erewrite bind_some by exact Hc).
  - do 2 eexists. split; [reflexivity|]. split.
    + unfold same_but_timers. cbn. rewrite E1, E2, E4, E5, E6. split_and!; try done.
      exists [EvTimerDelete port]. split; [done|]. repeat constructor. eauto.
    + exists es. cbn. by rewrite E2, E3.
  - destruct (ll_create_add_refines _ _ es (fresh (dom (l2_timer_heap s))) None None (Some port)
                port Hinv) as (ll' & h' & E & Hinv'); [apply not_elem_of_dom, is_fresh|].
    rewrite E. erewrite bind_some by reflexivity. cbn [mbind M_bind fmap option_fmap option_map].
    rewrite Hos. do 2 eexists. split; [reflexivity|]. split.
    + unfold same_but_timers. cbn. rewrite E1, E2, E4, E5, E6. split_and!; try done.
      exists [EvTimerStart port]. split; [done|]. repeat constructor. eauto.
    + exists (es ++ [(port, Some port)]). cbn. split_and!; [done| |].
      * rewrite fmap_app. cbn. apply NoDup_app. split; [done|].
        split; [|apply NoDup_singleton]. intros x Hx Hx'.
        apply list_elem_of_singleton in Hx' as ->. by apply find_id_None_elem in Efind.
      * apply Forall_app. split; [done|]. constructor; [by split|constructor].
Qed.

Lemma link_change_cbs_all port up cbs out :
  traverse_data (link_change_cbs port up) (Some <$> cbs) out
  = (match cbs with [] => BmENODEV | _ => BmOK end,
     out ++ ((fun c => EvLink c port up) <$> cbs)).
Proof.
  revert out. induction cbs as [|c cbs IH]; intros out; [by rewrite app_nil_r|].
  destruct cbs as [|c' cbs]; [done|].
  change (traverse_data (link_change_cbs port up) (Some <$> c :: c' :: cbs) out)
    with (traverse_data (link_change_cbs port up) (Some <$> c' :: cbs) (out ++ [EvLink c port up])).
  rewrite IH. by rewrite <- app_assoc.
Qed.

Lemma for_each_emit es (s : st) : for_each es emit s = Some (tt, add_trace es s).
Proof.
  revert s. induction es as [|e es IH]; intros s; [by rewrite add_trace_nil|].
  cbn [for_each]. erewrite bind_some by reflexivity. rewrite IH. f_equal. f_equal.
  unfold add_trace. cbn. by rewrite <- app_assoc.
Qed.

(** The mask after a link change. *)
Definition mask_after (port_idx : Z) (is_up : bool) (mask : Z) : Z :=
  if is_up then Z.lor mask (u16 (Z.shiftl 1 port_idx))
  else Z.land mask (u16 (Z.lnot (u16 (Z.shiftl 1 port_idx)))).

Lemma mask_after_bits port_idx is_up mask j :
  0 <= port_idx < 16 -> 0 <= j < 16 ->
  Z.testbit (mask_after port_idx is_up mask) j
  = if j =? port_idx then is_up else Z.testbit mask j.
Proof.
  intros Hp Hj. unfold mask_after.
  assert (Hb : forall k, 0 <= k < 16 -> Z.testbit (u16 (Z.shiftl 1 port_idx)) k = (k =? port_idx)).
  { intros k Hk. unfold wrap. rewrite Z.mod_pow2_bits_low, Z.shiftl_1_l by lia.
    bcase; [subst; by rewrite Z.pow2_bits_true by lia|by rewrite Z.pow2_bits_false by lia]. }
  destruct is_up.
  - rewrite Z.lor_spec, Hb by lia. destruct (j =? port_idx); [apply orb_true_r|apply orb_false_r].
  - rewrite Z.land_spec. unfold wrap at 1. rewrite Z.mod_pow2_bits_low, Z.lnot_spec, Hb by lia.
    destruct (j =? port_idx); [apply andb_false_r|apply andb_true_r].
Qed.

(** The calls of link callbacks in a trace. *)
Definition link_calls (tr : list l2_event) : list (nat * Z * bool) :=
  omap (fun e => match e with EvLink c p u => Some (c, p, u) | _ => None end) tr.

(** A link change on a device of two ports sets the port's bit of the enabled
    mask to the new state and no other bit, calls every registered callback
    once, in the order of registration, with the port's number and state, and
    keeps the renegotiation timers consistent. *)
Theorem link_change_spec (s : st) port_idx is_up cbs :
  timers_ok s -> link_cbs s cbs -> is_Some (network_device (l2_ctx s)) ->
  0 <= port_idx < 2 -> os_timer_start (port_idx + 1) = BmOK ->
  exists s', link_change port_idx is_up s = Some (tt, s')
    /\ (forall j, 0 <= j < 16 ->
         Z.testbit (enabled_ports_mask (l2_ctx s')) j
         = if j =? port_idx then is_up else Z.testbit (enabled_ports_mask (l2_ctx s)) j)
    /\ link_calls (l2_trace s')
       = link_calls (l2_trace s) ++ ((fun c => (c, port_idx + 1, is_up)) <$> cbs)
    /\ timers_ok s' /\ link_cbs s' cbs
    /\ evt_queue (l2_ctx s') = evt_queue (l2_ctx s) /\ bufs (l2_bufs s') = bufs (l2_bufs s).
Proof.
  intros Ht Hcbs Hd Hp Hos. unfold link_change.
  set (port_num := u8 (port_idx + 1)).
  assert (Hpn : port_num = port_idx + 1) by (unfold port_num; rewrite u8_small; lia).
  unfold ctx at 1. erewrite bind_some by reflexivity.
  set (s1 := set_ctx (set_enabled (mask_after port_idx is_up (enabled_ports_mask (l2_ctx s)))) s).
  assert (Hstep : exists s2, (if is_up then
         _ ← modify (set_ctx (set_enabled (Z.lor (enabled_ports_mask (l2_ctx s))
                                            (u16 (Z.shiftl 1 port_idx)))));
         _ ← bm_l2_stop_renegotiate_check port_num; mret tt
       else
         _ ← modify (set_ctx (set_enabled (Z.land (enabled_ports_mask (l2_ctx s))
               (u16 (Z.lnot (u16 (Z.shiftl 1 port_idx)))))));
         _ ← bm_l2_start_renegotiate_check port_num; mret tt) s = Some (tt, s2)
       /\ same_but_timers s1 s2 /\ timers_ok s2).
  { destruct is_up; (erewrite bind_some by reflexivity).
    - destruct (stop_renegotiate_total port_num s1 Ht Hd)
        as (e & s2 & E & Hs & Ht2). erewrite bind_some by exact E. eauto.
    - destruct (start_renegotiate_total port_num s1 Ht Hd)
        as (e & s2 & E & Hs & Ht2); [lia|by rewrite Hpn|]. erewrite bind_some by exact E. eauto. }
  destruct Hstep as (s2 & E & Hsame & Ht2). erewrite bind_some by exact E.
  destruct Hsame as (_ & _ & Hen & Hq & _ & Hll & Hh & Hbufs & _ & es & Htr & Hes).
  erewrite bind_some by reflexivity. unfold lift.
  assert (Hinv2 : ll_inv (l2_cb_heap s2) (link_change_callback_list (l2_ctx s2))
                    ((fun c => (0, Some c)) <$> cbs)) by (by rewrite Hh, Hll).
  destruct (ll_traverse_refines (link_change_cbs port_num is_up) [] _ _ _ Hinv2)
    as (ll' & Etr & Hinv').
  rewrite Etr. erewrite bind_some by reflexivity. cbn [mbind M_bind fmap option_fmap option_map].
  erewrite bind_some by reflexivity.
  rewrite <- list_fmap_compose. change (snd ∘ (fun c => (0, Some c))) with (@Some nat).
  rewrite link_change_cbs_all. cbn [fst snd app].
  erewrite bind_some by reflexivity. rewrite for_each_emit.
  eexists. split; [reflexivity|]. cbn. rewrite Hen, Htr, Hq, Hbufs. cbn. split_and!; try done.
  - intros j Hj. apply mask_after_bits; lia.
  - unfold link_calls. rewrite !omap_app, <- app_assoc. f_equal.
    assert (Hnone : omap (fun e => match e with EvLink c p u => Some (c, p, u) | _ => None end) es
                    = []).
    { clear -Hes. induction Hes as [|e es [p [->| ->]] _ IH]; [done|apply IH|apply IH]. }
    rewrite Hnone, Hpn. cbn [app]. clear. induction cbs as [|c cbs IH]; [done|].
    cbn. by f_equal.
Qed.
End link_changes.

(** ** Reception *)

Section reception.
Context `{Platform} `{L2Os} {U : Type}.
Context (bm_l2_submit : option loc -> Z -> M (buf_heap * U) BmErr).
#[local] Abbreviation st := (l2_state U).

(** What is left to do once the copy is queued: submit the received buffer, and
    give it back when the IP stack refuses it. *)
Definition hand_over (buf : option loc) (n : Z) : M st unit :=
  err ← submit bm_l2_submit buf n;
  if is_ok err then mret tt else with_bufs (bm_l2_free buf).

(** The state once the copy of a flooded frame is queued. *)
Definition flooded (s : st) (l : loc) (b : LinuxBuf) (q : list L2QueueElement) (port : Z) : st :=
  let c := l2_ctx s in
  let h := l2_bufs s in
  let n := Z.of_nat (length (payload b)) in
  let bs := <[l := set_payload (marked port (payload b)) b]> (bufs h) in
  let l' := fresh (dom bs) in
  let fwd := MkElement L2Tx n (Some l')
               (Z.land (Z.land (all_ports_mask c) (u16 (Z.lnot (port_bit port))))
                       (enabled_ports_mask c)) in
  MkL2State (set_evt_queue (Some (q ++ [fwd])) c)
    (MkBufHeap (<[l' := MkLinuxBuf 1 n n (set_byte 24 0 (payload b))]> bs) [] (junk h))
    (l2_timer_heap s) (l2_cb_heap s) (l2_trace s) (l2_upper s).

(** Space in the event queue: the element goes to its end. *)
Lemma bm_l2_tx_room (s : st) q buf n mask :
  evt_queue (l2_ctx s) = Some q -> (length q < evt_queue_len)%nat ->
  bm_l2_tx buf n mask s
  = Some (BmOK, set_ctx (set_evt_queue (Some (q ++ [MkElement L2Tx n buf
                  (Z.land mask (enabled_ports_mask (l2_ctx s)))]))) s).
Proof.
  intros Hq Hl. unfold bm_l2_tx, evt_queue_send, ctx.
  erewrite bind_some by reflexivity. erewrite bind_some.
  2: { erewrite bind_some by reflexivity. unfold lift. rewrite Hq. erewrite bind_some by reflexivity.
       destruct (Nat.ltb_spec (length q) evt_queue_len); [reflexivity|lia]. }
  reflexivity.
Qed.

(** A received frame for the global multicast group is copied for the other
    ports: the copy has no ports in its source address, goes behind the events
    that wait, with the mask of the enabled ports other than the one it came
    from, and is owned by the queue alone; then the received buffer, with the
    ingress port in its source address, is submitted to the IP stack exactly
    once, and freed exactly when the stack refuses it. *)
Theorem process_rx_flood (s : st) l b q port :
  evt_queue (l2_ctx s) = Some q -> (length q < evt_queue_len)%nat ->
  bufs (l2_bufs s) !! l = Some b -> ref b = 1 -> LinuxBuf.alloc_ok (l2_bufs s) = [] ->
  ipv6_frame (payload b) (Z.of_nat (length (payload b))) ->
  is_global_multicast (Some (slice 38 16 (payload b))) = true -> 1 <= port <= 15 ->
  Z.land (all_ports_mask (l2_ctx s)) (u16 (Z.lnot (port_bit port))) <> 0 ->
  bm_l2_process_rx_evt bm_l2_submit
    (Some (MkElement L2Rx (Z.of_nat (length (payload b))) (Some l) (port_bit port))) s
  = hand_over (Some l) (Z.of_nat (length (payload b))) (flooded s l b q port).
Proof.
  intros Hq Hroom Hb Hr Hal Hipv6 Hg Hp Hmask. set (n := Z.of_nat (length (payload b))) in *.
  unfold bm_l2_process_rx_evt. cbn [el_buf el_length el_port_mask].
  erewrite bind_some by (apply with_bufs_some; by apply bm_l2_get_payload_some).
  rewrite set_l2_bufs_same. unfold ctx at 1. erewrite bind_some by reflexivity.
  rewrite rx_apply_ipv6 by done. cbn zeta. rewrite Hg. cbn [egress_mask should_submit].
  erewrite bind_some by (apply with_bufs_some; by eapply payload_store_some).
  destruct (Z.eqb_spec (Z.land (all_ports_mask (l2_ctx s)) (u16 (Z.lnot (port_bit port)))) 0); [done|].
  set (s1 := set_l2_bufs _ s). set (f' := marked port (payload b)) in *.
  set (bs := <[l := set_payload f' b]> (bufs (l2_bufs s))) in *.
  set (l' := fresh (dom bs)).
  assert (Hfresh : bs !! l' = None) by (apply not_elem_of_dom, is_fresh).
  assert (Hll' : l' <> l) by (intros E; rewrite E in Hfresh; unfold bs in Hfresh;
    by rewrite lookup_insert_eq in Hfresh).
  assert (Hlen : length f' = length (payload b)) by (unfold f', marked; apply length_set_byte).
  set (nb := MkLinuxBuf 1 n n (junk (l2_bufs s) <$> seq 0 (Z.to_nat n))).
  assert (Hnb : length (payload nb) = length (payload b))
    by (cbn; rewrite length_fmap, length_seq; unfold n; by rewrite Nat2Z.id).
  assert (Hfwd : exists mask,
    (fwd ← with_bufs (bm_l2_new n);
     match fwd with
     | None => mret tt
     | Some _ =>
         payload ← with_bufs (bm_l2_get_payload (Some l));
         copy ← lift (read_at 0 (Z.to_nat n) payload);
         _ ← with_bufs (payload_store fwd (write_at 0 copy));
         _ ← with_bufs (payload_store fwd (fun f =>
               bm_l2_policy_prepare_forwarded_copy (Some f) n));
         _ ← bm_l2_tx fwd n mask;
         mret tt
     end) s1 = Some (tt, flooded s l b q port)
    /\ mask = Z.land (all_ports_mask (l2_ctx s)) (u16 (Z.lnot (port_bit port)))).
  { eexists. split; [|reflexivity].
    assert (Hnew : with_bufs (bm_l2_new n) s1
      = Some (Some l', set_l2_bufs (set_bufs (<[l' := nb]> bs) (l2_bufs s)) s)).
    { unfold bm_l2_new, next_alloc, with_bufs, zoom, mbind, M_bind. cbn. rewrite Hal. done. }
    erewrite bind_some by exact Hnew. clear Hnew. cbv iota.
    erewrite bind_some.
    2: { apply with_bufs_some, bm_l2_get_payload_some. cbn. rewrite lookup_insert_ne by done.
         unfold bs. by rewrite lookup_insert_eq. }
    unfold lift, read_at. cbn [payload set_payload].
    destruct (Nat.leb_spec (0 + Z.to_nat n) (length f')); [|unfold n in *; lia].
    cbn [fmap option_fmap option_map]. erewrite bind_some by reflexivity.
    assert (Hslice : slice 0 (Z.to_nat n) f' = f').
    { unfold slice, n. rewrite drop_0, Nat2Z.id, <- Hlen. apply firstn_all. }
    rewrite Hslice. erewrite bind_some.
    2: { apply with_bufs_some. eapply payload_store_some; [cbn; by rewrite lookup_insert_eq|].
         unfold write_at. destruct (Nat.leb_spec (0 + length f') (length (payload nb))); [|lia].
         unfold blit. rewrite take_0, drop_ge by lia. by rewrite app_nil_r. }
    erewrite bind_some.
    2: { apply with_bufs_some. eapply payload_store_some; [cbn; by rewrite lookup_insert_eq|].
         cbn [payload set_payload app]. by apply forwarded_copy_marked. }
    erewrite bind_some by (by apply bm_l2_tx_room).
    unfold flooded, set_ctx, set_l2_bufs, set_bufs, set_payload. cbn. rewrite Hal.
    unfold nb. cbn. by rewrite !insert_insert_eq. }
  destruct Hfwd as (mask & E & ->). erewrite bind_some by exact E. done.
Qed.
End reception.

(** ** Concrete layers *)

Definition sample_os : L2Os :=
  {| os_queue_create := true; os_task_create := BmOK;
     os_timer_create := fun _ => true; os_timer_start := fun _ => BmOK |}.
Definition sample_trait (ports : Z) : NetworkDeviceTrait :=
  MkTrait BmOK BmOK (fun _ => BmOK) (fun _ => BmOK) (Some (fun _ => (BmOK, false))) ports.

(** A layer of [ports] ports with one buffer. *)
Definition sample_l2 (ports : Z) (f : bytes) : l2_state unit :=
  MkL2State
    (MkL2Ctx (Some (sample_trait ports)) ports (2 ^ ports - 1) 3 (Some []) true None true
       LL_empty LL_empty)
    (MkBufHeap {[1%positive := MkLinuxBuf 1 (Z.of_nat (length f)) (Z.of_nat (length f)) f]} []
       (fun _ => 170))
    ∅ ∅ [] tt.

(** A UDP frame to [dst]. *)
Definition udp_frame (dst : BmIpAddr) (rest : bytes) : bytes :=
  repeat 7 12 ++ [0x86; 0xDD] ++ repeat 1 6 ++ [17; 64] ++ [0xFE; 0x80; 0; 0] ++ repeat 2 12
  ++ dst ++ rest.

Definition ll_frame : bytes := udp_frame multicast_ll_addr [1; 2; 3; 4; 5; 6; 200; 9; 10].
Definition gl_frame : bytes := udp_frame multicast_global_addr [1; 2; 3; 4; 5; 6; 200; 9; 10].

Lemma process_tx_link_local_witness :
  exists h, @bm_l2_process_tx_evt platform_mcu unit
              (Some (MkElement L2Tx 63 (Some 1%positive) 3)) (sample_l2 2 ll_frame)
  = Some (tt, set_l2_bufs h (add_trace
      [EvPcap (@with_egress platform_mcu 1 ll_frame); EvSend 1 (@with_egress platform_mcu 1 ll_frame);
       EvPcap (@with_egress platform_mcu 2 ll_frame); EvSend 2 (@with_egress platform_mcu 2 ll_frame)]
      (sample_l2 2 ll_frame))).
Proof.
  destruct (@process_tx_link_local platform_mcu unit (sample_l2 2 ll_frame) 1%positive
              (MkLinuxBuf 1 63 63 ll_frame) multicast_ll_addr 63 3) as (h & _ & E).
  - reflexivity.
  - apply (bool_decide_unpack _). vm_compute. exact I.
  - vm_compute. lia.
  - reflexivity.
  - reflexivity.
  - reflexivity.
  - reflexivity.
  - vm_compute. split; congruence.
  - vm_compute. split; congruence.
  - vm_compute. eauto.
  - vm_compute. split; congruence.
  - exists h. exact E.
Defined.

Lemma process_rx_flood_witness :
  bm_l2_process_rx_evt (fun _ _ => mret BmOK)
    (Some (MkElement L2Rx 63 (Some 1%positive) (port_bit 2))) (sample_l2 2 gl_frame)
  = hand_over (fun _ _ => mret BmOK) (Some 1%positive) 63
      (flooded (sample_l2 2 gl_frame) 1%positive (MkLinuxBuf 1 63 63 gl_frame) [] 2).
Proof.
  apply (process_rx_flood (fun _ _ => mret BmOK) (sample_l2 2 gl_frame) 1%positive
           (MkLinuxBuf 1 63 63 gl_frame) [] 2).
  - reflexivity.
  - vm_compute. lia.
  - reflexivity.
  - reflexivity.
  - reflexivity.
  - split; [apply (bool_decide_unpack _); vm_compute; exact I|].
    split; [vm_compute; split; congruence|reflexivity].
  - reflexivity.
  - lia.
  - vm_compute. congruence.
Defined.

Lemma link_change_spec_witness :
  exists s', @link_change sample_os unit 1 false (sample_l2 2 ll_frame) = Some (tt, s')
    /\ Z.testbit (enabled_ports_mask (l2_ctx s')) 1 = false.
Proof.
  destruct (@link_change_spec sample_os unit (sample_l2 2 ll_frame) 1 false [])
    as (s' & E & Hb & _).
  - exists []. split; [|split; constructor].
    exists []. split_and!; [|done..]. by split; cbn; [|constructor|].
  - exists []. split_and!; [|done..]. by split; cbn; [|constructor|].
  - vm_compute. eauto.
  - lia.
  - reflexivity.
  - exists s'. split; [exact E|]. exact (Hb 1 ltac:(lia)).
Defined.

(** A short UDP frame to a link-local group: the policy's length check covers the
    addresses only, and the transmission writes to the checksum behind the end of
    the buffer. *)
Example process_tx_short_udp :
  @bm_l2_process_tx_evt platform_mcu unit
    (Some (MkElement L2Tx 54 (Some 1%positive) 3)) (sample_l2 2 (udp_frame multicast_ll_addr []))
  = None.
Proof. vm_compute. reflexivity. Qed.

(** Three ports whose timers run: when the second and the third port come up and
    the third one goes down again, the list of timers is written through a
    dangling tail: two steps later the timer list is corrupt. *)
Example three_port_timers :
  exists s l,
    (_ ← @bm_l2_thread_start sample_os unit;
     _ ← @link_change sample_os unit 1 true;
     @link_change sample_os unit 2 true) (sample_l2 3 ll_frame) = Some (tt, s)
    /\ is_Some (head (renegotiate_timer_list (l2_ctx s)))
    /\ tail (renegotiate_timer_list (l2_ctx s)) = Some l
    /\ l2_timer_heap s !! l = None.
Proof. do 2 eexists. split; [vm_compute; reflexivity|]. vm_compute. eauto. Qed.
