(* ===== verification/BmLinux.v ===== *)
(** * The Linux IP stack: src/network/bm_linux.c

    Addresses and checksums, the construction of BCMP and UDP frames and the
    dispatch of received frames, over the reference-counted buffers of
    [LinuxBuf] and the layer [L2].  The queue of BCMP events and the registered
    UDP callbacks are this component's state; a call of a UDP callback, which
    takes the buffer over, is recorded as an event. *)
From S2P Require Import Prelude Util LinkedList L2Policy Packet LinuxBuf L2.

(** ** Addresses *)

Definition nodeid_to_ip (prefix id : Z) : BmIpAddr :=
  let hi := u32 (Z.shiftr id 32) in
  let lo := u32 (Z.land id 0xFFFFFFFF) in
  [u8 (Z.shiftr prefix 24); u8 (Z.shiftr prefix 16); u8 (Z.shiftr prefix 8); u8 prefix;
   0; 0; 0; 0;
   u8 (Z.shiftr hi 24); u8 (Z.shiftr hi 16); u8 (Z.shiftr hi 8); u8 hi;
   u8 (Z.shiftr lo 24); u8 (Z.shiftr lo 16); u8 (Z.shiftr lo 8); u8 lo].

Definition ntohs `{Platform} (val : Z) : Z :=
  if little_endian then swap_16bit val else val.

(** ** [format_ipv6] *)

(** [w[i]], the sixteen-bit words of the address. *)
Definition ipv6_words (a : BmIpAddr) : list Z :=
  (fun i => Z.lor (Z.shiftl (addr_byte a (2 * i)) 8) (addr_byte a (2 * i + 1))) <$> seq 0 8.

(** The loop over the words from [i] on; [zs] and [cs] are [None] for -1. *)
Fixpoint zero_run_loop (ws : list Z) (i : nat) (zs cs : option nat) (zl cl : nat)
    : option nat * nat :=
  match ws with
  | [] => (zs, zl)
  | w :: ws =>
      if w =? 0 then
        let '(cs, cl) := match cs with None => (i, 0%nat) | Some c => (c, cl) end in
        let cl := S cl in
        let '(zs, zl) := if (zl <? cl)%nat then (Some cs, cl) else (zs, zl) in
        zero_run_loop ws (S i) zs (Some cs) zl cl
      else zero_run_loop ws (S i) zs None zl 0
  end.

Definition zero_run (ws : list Z) : option nat * nat :=
  let '(zs, zl) := zero_run_loop ws 0 None None 0 0 in
  (if (zl <? 2)%nat then None else zs, zl).

Definition ch_colon : Z := 58.

(** [sprintf("%x")] of a word: at most four digits. *)
Definition hex_digit (d : Z) : Z := if d <? 10 then 48 + d else 87 + d.
Definition hex_word (w : Z) : bytes :=
  let ds := [w / 4096; (w / 256) mod 16; (w / 16) mod 16] in
  let fix strip (ds : list Z) : list Z :=
    match ds with [] => [] | d :: ds' => if d =? 0 then strip ds' else ds end in
  hex_digit <$> (strip ds ++ [w mod 16]).

(** The output loop; [None]: out of fuel. *)
Fixpoint format_loop (fuel : nat) (ws : list Z) (zs : option nat) (zl i : nat) (need_colon : bool)
    : option bytes :=
  match fuel with
  | O => None
  | S fuel =>
      if (i <? 8)%nat then
        if bool_decide (zs = Some i) then
          out ← format_loop fuel ws zs zl (i + zl) false;
          Some ([ch_colon; ch_colon] ++ out)
        else
          out ← format_loop fuel ws zs zl (S i) true;
          Some ((if need_colon then [ch_colon] else []) ++ hex_word (nth i ws 0) ++ out)
      else Some []
  end.

(** The characters before the terminating zero. *)
Definition format_ipv6 (addr : BmIpAddr) : option bytes :=
  let ws := ipv6_words addr in
  let '(zs, zl) := zero_run ws in
  format_loop 9 ws zs zl 0 false.

(** ** The pseudo-header checksum *)

(** The sum over the pairs of bytes; an odd last byte is not added. *)
Fixpoint sum_pairs (l : bytes) (sum : Z) : Z :=
  match l with
  | a :: b :: l => sum_pairs l (u32 (sum + Z.lor (Z.shiftl a 8) b))
  | _ => sum
  end.

(** [while (sum >> 16) sum = (sum & 0xFFFF) + (sum >> 16)]; [None]: out of fuel. *)
Fixpoint fold_carry (fuel : nat) (sum : Z) : option Z :=
  match fuel with
  | O => None
  | S fuel =>
      if Z.shiftr sum 16 =? 0 then Some sum
      else fold_carry fuel (u32 (Z.land sum 0xFFFF + Z.shiftr sum 16))
  end.

Definition fold_fuel : nat := 4.

(** [data] are the [length] bytes summed. *)
Definition ipv6_pseudo_checksum `{Platform} (src dst : BmIpAddr) (next_header : Z) (data : bytes)
    : option Z :=
  let length := Z.of_nat (length data) in
  let sum := sum_pairs src 0 in
  let sum := sum_pairs dst sum in
  let sum := u32 (sum + Z.land (Z.shiftr length 16) 0xFFFF) in
  let sum := u32 (sum + Z.land length 0xFFFF) in
  let sum := u32 (sum + next_header) in
  let sum := sum_pairs data sum in
  let sum := if Z.odd length
             then u32 (sum + Z.shiftl (nth (List.length data - 1) data 0) 8) else sum in
  sum ← fold_carry fold_fuel sum;
  Some (ntohs (u16 (Z.lnot sum))).

Definition mac_from_nodeid (id : Z) : bytes :=
  [Z.land (Z.lor (u8 (Z.shiftr id 40)) 0x02) 0xFE;
   u8 (Z.shiftr id 32); u8 (Z.shiftr id 24); u8 (Z.shiftr id 16); u8 (Z.shiftr id 8); u8 id].

Definition multicast_mac_from_ipv6 (dst : BmIpAddr) : bytes :=
  [0x33; 0x33; addr_byte dst 12; addr_byte dst 13; addr_byte dst 14; addr_byte dst 15].

Definition is_multicast (addr : option BmIpAddr) : bool :=
  match addr with Some a => addr_byte a 0 =? 0xFF | None => false end.

(** ** Frames *)

Definition ETH_HDR_LEN : nat := 14.
Definition IPV6_HDR_LEN : nat := 40.
Definition FRAME_HDR_LEN : nat := 54.
Definition UDP_HDR_LEN : nat := 8.

(** The Ethernet header and the first eight bytes of the IPv6 header, as both
    transmit functions write them. *)
Definition frame_headers (node_id : Z) (dst : BmIpAddr) (payload_length next_header : Z)
    : list (nat * bytes) :=
  [(0%nat, if is_multicast (Some dst) then multicast_mac_from_ipv6 dst else repeat 0xFF 6);
   (6%nat, mac_from_nodeid node_id);
   (12%nat, [u8 (Z.shiftr ethernet_type_ipv6 8); u8 ethernet_type_ipv6]);
   (14%nat, [0x60; 0; 0; 0]);
   (18%nat, [u8 (Z.shiftr payload_length 8); u8 payload_length]);
   (20%nat, [next_header; 64])].

(** ** State *)

(** [BcmpQueueItem] of src/bcmp/bcmp.h. *)
Inductive BcmpQueueType : Type := BcmpEventRx | BcmpEventHeartbeat.
Record BcmpQueueItem : Type := MkBcmpItem {
  bi_type : BcmpQueueType; bi_data : option loc; bi_size : Z
}.
Definition bcmp_evt_queue_len : nat := 32.

(** A call of a UDP callback: the callback, source port, buffer, node and size. *)
Record udp_call : Type := MkUdpCall {
  uc_cb : nat; uc_src_port : Z; uc_buf : loc; uc_node_id : Z; uc_size : Z
}.

Record linux_ctx : Type := MkLinux {
  ll_addr : BmIpAddr;
  unicast_addr : BmIpAddr;
  multicast_addr : BmIpAddr;
  udp_list : LL;
  ip_str : bytes * bytes;
  link_up : bool;
  udp_heap : item_heap nat;
  bcmp_queue : list BcmpQueueItem;
  udp_calls : list udp_call
}.

Definition set_bcmp_queue (q : list BcmpQueueItem) (c : linux_ctx) : linux_ctx :=
  MkLinux (ll_addr c) (unicast_addr c) (multicast_addr c) (udp_list c) (ip_str c) (link_up c)
    (udp_heap c) q (udp_calls c).
Definition set_udp_list (ll : LL) (h : item_heap nat) (c : linux_ctx) : linux_ctx :=
  MkLinux (ll_addr c) (unicast_addr c) (multicast_addr c) ll (ip_str c) (link_up c)
    h (bcmp_queue c) (udp_calls c).
Definition add_udp_call (u : udp_call) (c : linux_ctx) : linux_ctx :=
  MkLinux (ll_addr c) (unicast_addr c) (multicast_addr c) (udp_list c) (ip_str c) (link_up c)
    (udp_heap c) (bcmp_queue c) (udp_calls c ++ [u]).

Section bm_linux.
Context `{Platform} `{L2Os}.
(** [node_id()] of the device. *)
Context (node_id : Z).

(** *** Accessors of a BCMP packet, for a buffer that has the headers *)

Definition message_get_data (f : bytes) : bytes := drop FRAME_HDR_LEN f.
Definition message_get_src_ip (f : bytes) : option BmIpAddr := read_at 22 16 f.
Definition message_get_dst_ip (f : bytes) : option BmIpAddr := read_at 38 16 f.

Definition message_get_checksum (f : bytes) (size : Z) : option Z :=
  src ← message_get_src_ip f;
  dst ← message_get_dst_ip f;
  data ← read_at 0 (Z.to_nat size) (message_get_data f);
  ipv6_pseudo_checksum src dst ip_proto_bcmp data.

(** [packet] is what [packet_init] returns. *)
Definition bm_ip_init (packet_init : BmErr) : M linux_ctx BmErr :=
  let ll := nodeid_to_ip 0xFE800000 node_id in
  let uc := nodeid_to_ip 0xFD000000 node_id in
  ll_str ← lift (format_ipv6 ll);
  uc_str ← lift (format_ipv6 uc);
  _ ← modify (fun c =>
        MkLinux ll uc (0xFF :: 0x03 :: repeat 0 13 ++ [0x01]) LL_empty
          (ll_str, uc_str) (link_up c) (udp_heap c) (bcmp_queue c) (udp_calls c));
  mret packet_init.

(** *** Reception *)

Definition bufs_of {A} (m : M buf_heap A) : M (buf_heap * linux_ctx) A :=
  zoom fst (fun h s => (h, snd s)) m.

(** [bm_queue_send(bcmp_get_queue(), &item, 0)] *)
Definition bcmp_queue_send (item : BcmpQueueItem) : M (buf_heap * linux_ctx) BmErr :=
  q ← gets (fun s => bcmp_queue (snd s));
  if (length q <? bcmp_evt_queue_len)%nat then
    _ ← modify (fun s => (fst s, set_bcmp_queue (q ++ [item]) (snd s)));
    mret BmOK
  else mret BmENOMEM.

Definition rd16 (i : nat) (f : bytes) : option Z := uint8_to_uint16 <$> read_at i 2 f.

Definition bm_l2_submit (buf : option loc) (size : Z) : M (buf_heap * linux_ctx) BmErr :=
  match buf with
  | None => mret BmEBADMSG
  | Some _ =>
      if size <? Z.of_nat FRAME_HDR_LEN then mret BmEBADMSG
      else
        frame ← bufs_of (bm_l2_get_payload buf);
        t ← lift (rd16 12 frame);
        if negb (t =? ethernet_type_ipv6) then mret BmEBADMSG
        else
          next_header ← lift (rd 20 frame);
          payload_length ← lift (rd16 18 frame);
          if size <? payload_length + Z.of_nat FRAME_HDR_LEN then mret BmEBADMSG
          else
            src_addr ← lift (read_at 22 16 frame);
            if next_header =? ip_proto_bcmp then
              if payload_length <? Z.of_nat sizeof_BcmpHeader then mret BmEBADMSG
              else
                err ← bcmp_queue_send (MkBcmpItem BcmpEventRx buf payload_length);
                mret (if is_ok err then BmOK else BmEAGAIN)
            else if next_header =? ip_proto_udp then
              if payload_length <? Z.of_nat UDP_HDR_LEN then mret BmEBADMSG
              else
                src_port ← lift (rd16 54 frame);
                dst_port ← lift (rd16 56 frame);
                udp_length ← lift (rd16 58 frame);
                if (udp_length <? Z.of_nat UDP_HDR_LEN) || (payload_length <? udp_length)
                then mret BmEBADMSG
                else
                  let udp_payload_len := udp_length - Z.of_nat UDP_HDR_LEN in
                  udp_buf ← bufs_of (bm_l2_new udp_payload_len);
                  match udp_buf with
                  | None => mret BmENOMEM
                  | Some ub =>
                      _ ← (if 0 <? udp_payload_len then
                             d ← lift (read_at (FRAME_HDR_LEN + UDP_HDR_LEN)
                                         (Z.to_nat udp_payload_len) frame);
                             bufs_of (payload_store udp_buf (write_at 0 d))
                           else mret tt);
                      s ← get;
                      '(err, cb) ← lift (ll_get_item (Some (udp_list (snd s))) dst_port
                                           (udp_heap (snd s)));
                      _ ← match cb with
                          | Some (Some f) =>
                              modify (fun s => (fst s, add_udp_call
                                (MkUdpCall f src_port ub (ip_to_nodeid (Some src_addr))
                                   udp_payload_len) (snd s)))
                          | _ => bufs_of (bm_l2_free udp_buf)
                          end;
                      _ ← bufs_of (bm_l2_free buf);
                      mret BmOK
                  end
            else mret BmEBADMSG
  end.

Definition bm_l2_set_netif (up : bool) : M linux_ctx BmErr :=
  _ ← modify (fun c =>
        MkLinux (ll_addr c) (unicast_addr c) (multicast_addr c) (udp_list c) (ip_str c) up
          (udp_heap c) (bcmp_queue c) (udp_calls c));
  mret BmOK.

Definition bm_ip_get_str (idx : Z) : M linux_ctx bytes :=
  gets (fun c => if idx =? 0 then fst (ip_str c) else if idx =? 1 then snd (ip_str c)
                 else [ch_colon; ch_colon]).

Definition bm_ip_get (idx : Z) : M linux_ctx (option BmIpAddr) :=
  gets (fun c => if idx =? 0 then Some (ll_addr c)
                 else if idx =? 1 then Some (unicast_addr c) else None).

(** *** Transmission, on the state of the layer with this stack above it *)

#[local] Abbreviation st := (l2_state linux_ctx).

Definition bm_ip_tx_new (dst : option BmIpAddr) (size : Z) : M st (option loc) :=
  match dst with
  | None => mret None
  | Some d =>
      let frame_size := u32 (Z.of_nat FRAME_HDR_LEN + size) in
      buf ← with_bufs (bm_l2_new frame_size);
      match buf with
      | None => mret None
      | Some _ =>
          src ← gets (fun s => ll_addr (l2_upper s));
          _ ← with_bufs (payload_store buf (store_all [(22%nat, src); (38%nat, d)]));
          mret buf
      end
  end.

Definition bm_ip_tx_copy (payload : option loc) (data : option bytes) (offset : Z) : M st BmErr :=
  match payload, data with
  | Some _, Some d =>
      _ ← with_bufs (payload_store payload (write_at (FRAME_HDR_LEN + Z.to_nat offset) d));
      mret BmOK
  | _, _ => mret BmEINVAL
  end.

Definition bm_ip_tx_perform (payload : option loc) (dst : option BmIpAddr) : M st BmErr :=
  match payload with
  | None => mret BmEINVAL
  | Some _ =>
      b ← with_bufs (get_buf payload);
      cur ← lift (message_get_dst_ip (LinuxBuf.payload b));
      let effective_dst := match dst with Some d => d | None => cur end in
      let data_size := u16 (len b - Z.of_nat FRAME_HDR_LEN) in
      _ ← with_bufs (payload_store payload (store_all
            (frame_headers node_id effective_dst data_size ip_proto_bcmp
             ++ match dst with Some d => [(38%nat, d)] | None => [] end)));
      err ← bm_l2_link_output payload (len b);
      _ ← when (negb (is_ok err)) (with_bufs (bm_l2_free payload));
      mret err
  end.

Definition ip_tx_cleanup (payload : option loc) : M st unit :=
  with_bufs (bm_ip_tx_cleanup payload).

(** The handle is the bound port; [pcb_ok] tells whether its allocation succeeds. *)
Definition bm_udp_bind_port (port : Z) (cb : option nat) (pcb_ok : bool) : M st (option Z) :=
  match cb with
  | None => mret None
  | Some f =>
      s ← get;
      '(item, h) ← create_item f port (udp_heap (l2_upper s));
      match item with
      | None => mret None
      | Some _ =>
          if pcb_ok then
            '(err, ll, h) ← lift (ll_item_add (Some (udp_list (l2_upper s))) item h);
            ll ← lift ll;
            _ ← modify (fun s => MkL2State (l2_ctx s) (l2_bufs s) (l2_timer_heap s)
                  (l2_cb_heap s) (l2_trace s) (set_udp_list ll h (l2_upper s)));
            mret (Some port)
          else
            '(_, h) ← lift (ll_delete_item item h);
            mret None
      end
  end.

(** [data] is [bm_udp_get_payload(buf)]; the first [size] bytes are sent. *)
Definition bm_udp_tx_perform (pcb : option Z) (buf : option loc) (size : Z)
    (dest_addr : option BmIpAddr) (port : Z) : M st BmErr :=
  match pcb, buf, dest_addr with
  | Some src_port, Some _, Some dst =>
      let udp_total := u32 (Z.of_nat UDP_HDR_LEN + size) in
      let frame_size := u32 (Z.of_nat FRAME_HDR_LEN + udp_total) in
      l2_buf ← with_bufs (bm_l2_new frame_size);
      match l2_buf with
      | None => mret BmENOMEM
      | Some _ =>
          src ← gets (fun s => ll_addr (l2_upper s));
          data ← (if 0 <? size then
                    p ← with_bufs (bm_udp_get_payload buf);
                    lift (read_at 0 (Z.to_nat size) p)
                  else mret []);
          _ ← with_bufs (payload_store l2_buf (store_all
                (frame_headers node_id dst udp_total ip_proto_udp
                 ++ [(22%nat, src); (38%nat, dst);
                     (54%nat, [u8 (Z.shiftr src_port 8); u8 src_port;
                               u8 (Z.shiftr port 8); u8 port;
                               u8 (Z.shiftr udp_total 8); u8 udp_total; 0; 0]);
                     (62%nat, data)])));
          frame ← with_bufs (bm_l2_get_payload l2_buf);
          udp ← lift (read_at FRAME_HDR_LEN (Z.to_nat udp_total) frame);
          cksum ← lift (ipv6_pseudo_checksum src dst ip_proto_udp udp);
          _ ← with_bufs (payload_store l2_buf
                (write_at 60 [u8 (Z.shiftr cksum 8); u8 cksum]));
          err ← bm_l2_link_output l2_buf frame_size;
          _ ← when (negb (is_ok err)) (with_bufs (bm_l2_free l2_buf));
          _ ← with_bufs (bm_l2_free l2_buf);
          mret err
      end
  | _, _, _ => mret BmEINVAL
  end.
End bm_linux.

(** ** Addresses and strings *)

Lemma nodeid_to_ip_bytes prefix id :
  0 <= prefix < 2 ^ 32 -> 0 <= id < 2 ^ 64 ->
  nodeid_to_ip prefix id = be_enc 4 prefix ++ [0; 0; 0; 0] ++ be_enc 8 id.
Proof.
  intros Hp Hi. unfold nodeid_to_ip, be_enc. cbn [le_enc rev app].
  change 0xFFFFFFFF with (2 ^ 32 - 1). rewrite land_ones_mod by lia.
  rewrite !Z.shiftr_div_pow2 by lia. unfold wrap.
  repeat (apply (f_equal2 (@cons Z)); [try done|]); try done; rewrite ?Z.div_div by lia; plia.
Qed.

Lemma length_zero_run_le ws :
  match zero_run ws with (zs, zl) => zs = None \/ (2 <= zl)%nat end.
Proof.
  unfold zero_run. destruct (zero_run_loop ws 0 None None 0 0) as [zs zl].
  destruct (Nat.ltb_spec zl 2); auto.
Qed.

Lemma length_hex_word w : (1 <= length (hex_word w) <= 4)%nat.
Proof.
  unfold hex_word. rewrite length_fmap, length_app. cbn [length].
  repeat case_match; cbn [length]; lia.
Qed.

Lemma format_loop_length fuel ws zs zl i nc :
  zs = None \/ (2 <= zl)%nat -> (0 < fuel)%nat -> (8 < i + fuel)%nat ->
  exists out, format_loop fuel ws zs zl i nc = Some out
    /\ (length out <= if (i <? 8)%nat then 5 * (8 - i) - (if nc then 0 else 1) else 0)%nat.
Proof.
  intros Hz. revert i nc. induction fuel as [|fuel IH]; intros i nc H0 Hf; [lia|].
  cbn [format_loop]. destruct (Nat.ltb_spec i 8) as [Hi|Hi]; [|by exists []].
  case_bool_decide as Ez.
  - destruct Hz as [->|Hz]; [done|].
    destruct (IH (i + zl)%nat false) as (out & -> & Hl); [lia..|].
    eexists. split; [reflexivity|]. rewrite length_app. cbn [length].
    destruct (Nat.ltb_spec (i + zl) 8), nc; lia.
  - destruct (IH (S i) true) as (out & -> & Hl); [lia..|].
    eexists. split; [reflexivity|]. rewrite !length_app.
    pose proof (length_hex_word (nth i ws 0)).
    destruct (Nat.ltb_spec (S i) 8), nc; cbn [length]; lia.
Qed.

(** [format_ipv6] terminates on every address and writes at most 39
    characters, so the text and its terminating zero fit the 40 bytes that
    [ip_str] has for it. *)
Theorem format_ipv6_fits a :
  exists out, format_ipv6 a = Some out /\ (length out + 1 <= 40)%nat.
Proof.
  unfold format_ipv6. pose proof (length_zero_run_le (ipv6_words a)) as Hz.
  destruct (zero_run (ipv6_words a)) as [zs zl].
  destruct (format_loop_length 9 (ipv6_words a) zs zl 0 false Hz) as (out & E & Hl); [lia..|].
  exists out. split; [done|]. cbn in Hl. lia.
Qed.

(** fe80::1:203:405:607 *)
Example format_ipv6_sample :
  format_ipv6 (nodeid_to_ip 0xFE800000 0x1020304050607)
  = Some [102; 101; 56; 48; 58; 58; 49; 58; 50; 48; 51; 58; 52; 48; 53; 58; 54; 48; 55].
Proof. vm_compute. reflexivity. Qed.

Lemma be_enc_nodeid_slice prefix id :
  slice 8 8 (be_enc 4 prefix ++ [0; 0; 0; 0] ++ be_enc 8 id) = be_enc 8 id.
Proof. unfold slice, be_enc. cbn [le_enc rev app drop take]. done. Qed.

(** A node's addresses carry its id: on a little-endian processor
    [ip_to_nodeid] reads it back from the address that [nodeid_to_ip] makes,
    whatever the prefix is, also when the egress and ingress nibbles (byte 2) are
    in use. *)
Theorem nodeid_round_trip (P : Platform) prefix id ports :
  little_endian = true -> 0 <= prefix < 2 ^ 32 -> 0 <= id < 2 ^ 64 -> byte_ok ports ->
  ip_to_nodeid (Some (nodeid_to_ip prefix id)) = id
  /\ ip_to_nodeid (Some (set_byte 2 ports (nodeid_to_ip prefix id))) = id.
Proof.
  intros HP Hp Hi Hb. rewrite nodeid_to_ip_bytes by done.
  set (a := be_enc 4 prefix ++ [0; 0; 0; 0] ++ be_enc 8 id).
  assert (Ha : bytes_ok a).
  { apply bytes_ok_app; [apply be_enc_ok|]. apply bytes_ok_app; [decided|apply be_enc_ok]. }
  assert (Hl : length a = 16%nat) by reflexivity.
  assert (Hid : be_dec (slice 8 8 a) = id).
  { unfold a. rewrite be_enc_nodeid_slice, be_dec_enc. apply Z.mod_small. lia. }
  split.
  - by rewrite (ip_to_nodeid_spec P).
  - rewrite (ip_to_nodeid_spec P) by
      (first [done | by apply bytes_ok_set_byte | by rewrite length_set_byte]).
    by rewrite slice_set_byte by lia.
Qed.

Lemma nodeid_round_trip_witness :
  @ip_to_nodeid platform_mcu (Some (nodeid_to_ip 0xFE800000 0xDEADBEEF12345678))
  = 0xDEADBEEF12345678.
Proof.
  apply (@nodeid_round_trip platform_mcu 0xFE800000 0xDEADBEEF12345678 0x21);
    first [reflexivity | lia | unfold byte_ok; lia].
Defined.

(** ** The checksum *)

(** The sum of the big-endian words, a last odd byte filled up with a zero. *)
Fixpoint word_sum (l : bytes) : Z :=
  match l with
  | a :: b :: l => 256 * a + b + word_sum l
  | [a] => 256 * a
  | [] => 0
  end.

(** The sum over the pseudo header and the packet of RFC 2460. *)
Definition pseudo_sum (src dst : BmIpAddr) (next_header : Z) (data : bytes) : Z :=
  word_sum src + word_sum dst + Z.of_nat (length data) + next_header + word_sum data.

Lemma pair_ind (P : bytes -> Prop) :
  P [] -> (forall a, P [a]) -> (forall a b l, P l -> P (a :: b :: l)) -> forall l, P l.
Proof.
  intros H0 H1 H2 l. assert (H : P l /\ forall a, P (a :: l)); [|apply H].
  induction l as [|b l [IH1 IH2]]; auto.
Qed.

Lemma word_sum_bounds l : bytes_ok l -> 0 <= word_sum l <= 65535 * ((Z.of_nat (length l) + 1) / 2).
Proof.
  induction l as [|a|a b l IH] using pair_ind; intros Hl.
  - split; vm_compute; congruence.
  - byte_bounds Hl. cbn [word_sum length]. change ((Z.of_nat 1 + 1) / 2) with 1. lia.
  - byte_bounds Hl. specialize (IH Hl). cbn [word_sum length].
    replace ((Z.of_nat (S (S (length l))) + 1) / 2) with ((Z.of_nat (length l) + 1) / 2 + 1)
      by (rewrite <- Z.div_add by lia; f_equal; lia). lia.
Qed.

(** The odd byte that [sum_pairs] leaves out. *)
Definition odd_part (l : bytes) : Z :=
  if Z.odd (Z.of_nat (length l)) then 256 * nth (length l - 1) l 0 else 0.

Lemma odd_part_cons2 a b l : odd_part (a :: b :: l) = odd_part l.
Proof.
  unfold odd_part. cbn [length].
  replace (Z.of_nat (S (S (length l)))) with (Z.of_nat (length l) + 2 * 1) by lia.
  rewrite Z.odd_add_mul_2. destruct (Z.odd (Z.of_nat (length l))) eqn:E; [|done].
  destruct l as [|c l]; [done|]. f_equal.
  cbn [length]. by replace (S (S (S (length l))) - 1)%nat with (S (S (S (length l) - 1))) by lia.
Qed.

Lemma sum_pairs_spec l s :
  bytes_ok l -> 0 <= s -> s + word_sum l < 2 ^ 32 ->
  sum_pairs l s = s + word_sum l - odd_part l.
Proof.
  revert s. induction l as [|a|a b l IH] using pair_ind; intros s Hl Hs Hb.
  - unfold odd_part. cbn [sum_pairs word_sum length]. change (Z.odd (Z.of_nat 0)) with false.
    cbn iota. lia.
  - unfold odd_part. cbn [sum_pairs word_sum length nth Nat.sub]. change (Z.odd (Z.of_nat 1)) with true.
    cbn iota. lia.
  - byte_bounds Hl. pose proof (word_sum_bounds l Hl) as [Hw _].
    rewrite odd_part_cons2. cbn [sum_pairs word_sum] in *.
    rewrite Z.lor_comm, lor_shift_add by lia. change (2 ^ 8) with 256.
    rewrite u32_small by lia. rewrite IH by (done || lia). lia.
Qed.

(** The fold keeps the sum modulo 65,535 and ends within its fuel; only a sum of
    zero folds to zero. *)
Lemma fold_carry_spec sum :
  0 <= sum < 2 ^ 32 ->
  exists r, fold_carry fold_fuel sum = Some r /\ 0 <= r < 65536 /\ r mod 65535 = sum mod 65535
    /\ (0 < sum -> 0 < r).
Proof.
  intros Hs. assert (Hstep : forall fuel s, 0 <= s < 2 ^ 32 ->
    fold_carry (S fuel) s = if s <? 65536 then Some s else fold_carry fuel (s mod 65536 + s / 65536)).
  { intros fuel s Hb. cbn [fold_carry]. rewrite Z.shiftr_div_pow2 by lia. change (2 ^ 16) with 65536.
    change 0xFFFF with (2 ^ 16 - 1). rewrite land_ones_mod by lia. change (2 ^ 16) with 65536.
    destruct (Z.ltb_spec s 65536).
    - rewrite Z.div_small by lia. done.
    - destruct (Z.eqb_spec (s / 65536) 0); [plia|]. rewrite u32_small by plia. done. }
  assert (Hpos : forall s, 0 < s -> 0 < s mod 65536 + s / 65536) by (intros; plia).
  assert (Hmod : forall s, (s mod 65536 + s / 65536) mod 65535 = s mod 65535).
  { intros s. rewrite (Z.div_mod s 65536) at 3 by lia.
    replace (65536 * (s / 65536) + s mod 65536)
      with (s mod 65536 + s / 65536 + (s / 65536) * 65535) by lia.
    by rewrite Z.mod_add by lia. }
  unfold fold_fuel. rewrite Hstep by done. destruct (Z.ltb_spec sum 65536); [exists sum; split_and!; (done || lia)|].
  pose proof (Hpos sum). set (s1 := sum mod 65536 + sum / 65536) in *. assert (0 <= s1 <= 131070) by (unfold s1; plia).
  rewrite Hstep by lia. rewrite <- (Hmod sum). fold s1.
  destruct (Z.ltb_spec s1 65536); [exists s1; split_and!; (done || lia)|].
  pose proof (Hpos s1). set (s2 := s1 mod 65536 + s1 / 65536) in *. assert (0 <= s2 <= 65536) by (unfold s2; plia).
  rewrite <- (Hmod s1). fold s2. rewrite Hstep by lia.
  destruct (Z.ltb_spec s2 65536); [exists s2; split_and!; (done || lia)|].
  assert (s2 = 65536) as -> by lia. exists 1. vm_compute. done.
Qed.

Lemma ntohs_native (P : Platform) v :
  0 <= v < 65536 -> native_store 2 (ntohs v) = be_enc 2 v /\ 0 <= ntohs v < 65536.
Proof.
  intros Hv. unfold native_store, ntohs. destruct little_endian; [|done].
  assert (Hs : swap_16bit v = be_dec (le_enc 2 v)).
  { rewrite <- swap_16bit_spec; [|apply le_enc_ok|done]. f_equal.
    rewrite le_dec_enc. symmetry. apply Z.mod_small. lia. }
  rewrite Hs. split.
  - unfold be_dec. change (le_enc 2 v) with (le_enc 2 v).
    replace 2%nat with (length (rev (le_enc 2 v))) at 1 by reflexivity.
    rewrite le_enc_dec; [done|]. apply Forall_rev, le_enc_ok.
  - pose proof (be_dec_range (le_enc 2 v) (le_enc_ok 2 v)) as Hr. by rewrite length_le_enc in Hr.
Qed.

(** The checksum is the complement of the folded sum, in network order. *)
Lemma ipv6_pseudo_checksum_fold (P : Platform) src dst nh data :
  bytes_ok src -> bytes_ok dst -> bytes_ok data ->
  length src = 16%nat -> length dst = 16%nat -> 0 <= nh < 256 ->
  Z.of_nat (length data) < 65536 ->
  exists r, ipv6_pseudo_checksum src dst nh data = Some (ntohs (65535 - r))
    /\ 0 <= r < 65536 /\ r mod 65535 = pseudo_sum src dst nh data mod 65535
    /\ (0 < pseudo_sum src dst nh data -> 0 < r).
Proof.
  intros Hs Hd Hdat Hls Hld Hnh Hl. unfold ipv6_pseudo_checksum.
  pose proof (word_sum_bounds src Hs) as Bs. pose proof (word_sum_bounds dst Hd) as Bd.
  pose proof (word_sum_bounds data Hdat) as Bdat. rewrite Hls in Bs. rewrite Hld in Bd.
  assert (Hd2 : (Z.of_nat (length data) + 1) / 2 <= 32768) by plia.
  change ((Z.of_nat 16 + 1) / 2) with 8 in *.
  rewrite (sum_pairs_spec src) by (done || lia).
  assert (Ho : odd_part src = 0 /\ odd_part dst = 0) by (unfold odd_part; by rewrite Hls, Hld).
  destruct Ho as [Hos Hod]. rewrite (sum_pairs_spec dst) by (done || lia).
  change 0xFFFF with (2 ^ 16 - 1). rewrite !land_ones_mod by lia. rewrite Z.shiftr_div_pow2 by lia.
  change (2 ^ 16) with 65536. rewrite (Z.div_small (Z.of_nat (length data))), Z.mod_0_l by lia.
  rewrite (Z.mod_small (Z.of_nat (length data))) by lia.
  rewrite Hos, Hod. rewrite (u32_small (_ + 0)), (u32_small (_ + Z.of_nat _)), (u32_small (_ + nh))
    by lia.
  rewrite (sum_pairs_spec data) by (done || lia).
  set (sum := _ + word_sum data - odd_part data).
  assert (Htot : (if Z.odd (Z.of_nat (length data))
                  then u32 (sum + Z.shiftl (nth (length data - 1) data 0) 8) else sum)
                 = pseudo_sum src dst nh data).
  { unfold sum, pseudo_sum, odd_part.
    destruct (Z.odd (Z.of_nat (length data))); [|lia]. rewrite Z.shiftl_mul_pow2 by lia.
    change (2 ^ 8) with 256. rewrite u32_small; lia. }
  rewrite Htot. destruct (fold_carry_spec (pseudo_sum src dst nh data)) as (r & -> & Hr & Hm & Hp).
  { unfold pseudo_sum. lia. }
  cbn [mbind option_bind].
  assert (Hn : u16 (Z.lnot r) = 65535 - r).
  { unfold wrap, Z.lnot. symmetry. apply (Z.mod_unique_pos _ _ (-1)); lia. }
  rewrite Hn. by exists r.
Qed.

Lemma ipv6_pseudo_checksum_spec (P : Platform) src dst nh data :
  bytes_ok src -> bytes_ok dst -> bytes_ok data ->
  length src = 16%nat -> length dst = 16%nat -> 0 <= nh < 256 ->
  Z.of_nat (length data) < 65536 ->
  exists c, ipv6_pseudo_checksum src dst nh data = Some c
    /\ 0 <= c < 65536
    /\ (pseudo_sum src dst nh data + be_dec (native_store 2 c)) mod 65535 = 0.
Proof.
  intros. destruct (ipv6_pseudo_checksum_fold P src dst nh data) as (r & E & Hr & Hm & _); [done..|].
  destruct (ntohs_native P (65535 - r)) as [Hst Hrg]; [lia|].
  eexists. split; [exact E|]. split; [done|]. rewrite Hst, be_dec_enc.
  change (256 ^ Z.of_nat 2) with 65536. rewrite (Z.mod_small (65535 - r)) by lia.
  rewrite <- (mod_add_congr _ _ _ _ Hm).
  replace (r + (65535 - r)) with 65535 by lia. done.
Qed.

Lemma word_sum_set_checksum a b r x y :
  word_sum (blit 2 [x; y] (a :: b :: 0 :: 0 :: r)) = word_sum (a :: b :: 0 :: 0 :: r) + be_dec [x; y].
Proof. unfold blit, be_dec. cbn [take drop app length Nat.add word_sum rev le_dec]. rewrite drop_0. lia. Qed.

(** The pseudo-header checksum terminates on every packet of up to 65,535
    bytes, and makes it verify: with the checksum stored natively in its zeroed
    field, on a processor of either byte order, the one's complement sum of the
    pseudo header and the packet is zero, as RFC 2460 demands. *)
Theorem pseudo_checksum_verifies (P : Platform) src dst nh a b r :
  bytes_ok src -> bytes_ok dst -> length src = 16%nat -> length dst = 16%nat -> 0 <= nh < 256 ->
  let data := a :: b :: 0 :: 0 :: r in
  bytes_ok data -> Z.of_nat (length data) < 65536 ->
  exists c, ipv6_pseudo_checksum src dst nh data = Some c
    /\ pseudo_sum src dst nh (blit 2 (native_store 2 c) data) mod 65535 = 0.
Proof.
  intros Hs Hd Hls Hld Hnh data Hdat Hl.
  destruct (ipv6_pseudo_checksum_spec P src dst nh data) as (c & E & _ & Hm); [done..|].
  exists c. split; [done|].
  pose proof (length_native_store 2 c) as Hc.
  revert Hm Hc. destruct (native_store 2 c) as [|x [|y [|]]]; try done. intros Hm _.
  unfold pseudo_sum in *. unfold data in *. rewrite word_sum_set_checksum.
  assert (Hlen : length (blit 2 [x; y] (a :: b :: 0 :: 0 :: r)) = length (a :: b :: 0 :: 0 :: r))
    by (apply length_blit; cbn; lia).
  rewrite Hlen. etransitivity; [|exact Hm]. f_equal. lia.
Qed.

Lemma pseudo_checksum_verifies_witness :
  exists c, @ipv6_pseudo_checksum platform_mcu (nodeid_to_ip 0xFE800000 7) multicast_ll_addr 0xBC
              [1; 0; 0; 0; 5; 6; 255] = Some c
    /\ pseudo_sum (nodeid_to_ip 0xFE800000 7) multicast_ll_addr 0xBC
         (blit 2 (@native_store platform_mcu 2 c) [1; 0; 0; 0; 5; 6; 255]) mod 65535 = 0.
Proof.
  apply (pseudo_checksum_verifies platform_mcu); first [decided | reflexivity | lia].
Defined.

(** *** The egress port and the checksum of a BCMP packet *)

Lemma swap_16bit_arith v : 0 <= v < 65536 -> swap_16bit v = 256 * (v mod 256) + v / 256.
Proof.
  intros Hv. assert (E : le_dec (le_enc 2 v) = v) by (rewrite le_dec_enc; by apply Z.mod_small).
  rewrite <- E at 1. rewrite swap_16bit_spec by (done || apply le_enc_ok).
  unfold be_dec. cbn [le_enc rev app le_dec]. unfold wrap. plia.
Qed.

Lemma swap_16bit_mod v : 0 <= v < 65536 -> swap_16bit v mod 65535 = (256 * v) mod 65535.
Proof.
  intros Hv. rewrite swap_16bit_arith by done.
  replace (256 * v) with (256 * (v mod 256) + v / 256 + (v / 256) * 65535) by plia.
  by rewrite Z.mod_add by lia.
Qed.

Lemma swap_16bit_complement v : 0 <= v < 65536 -> 65535 - swap_16bit (65535 - v) = swap_16bit v.
Proof. intros Hv. rewrite !swap_16bit_arith by lia. plia. Qed.

Lemma mod_65535_unique a b : 0 < a <= 65535 -> 0 < b <= 65535 -> a mod 65535 = b mod 65535 -> a = b.
Proof.
  intros Ha Hb. pose proof (Z.div_mod a 65535). pose proof (Z.div_mod b 65535). intros E.
  assert (0 <= a / 65535 <= 1) by plia. assert (0 <= b / 65535 <= 1) by plia.
  pose proof (Z.mod_pos_bound a 65535). pose proof (Z.mod_pos_bound b 65535). lia.
Qed.

Lemma word_sum_set_high i b l :
  Nat.even i = true -> (i < length l)%nat ->
  word_sum (set_byte i b l) = word_sum l + 256 * (b - nth i l 0).
Proof.
  revert i. induction l as [|a|a a2 l IH] using pair_ind; intros i He Hi.
  - cbn in Hi. lia.
  - assert (i = 0%nat) as -> by (cbn in Hi; lia). cbn. lia.
  - destruct i as [|[|i]]; [cbn; lia|done|].
    cbn [length] in Hi. specialize (IH i He ltac:(lia)).
    unfold set_byte in *. change (<[S (S i) := b]> (a :: a2 :: l)) with (a :: a2 :: <[i := b]> l).
    cbn [word_sum nth]. lia.
Qed.

Lemma slice_set_byte_in off len i b f :
  slice off len (set_byte (off + i) b f) = set_byte i b (slice off len f).
Proof.
  unfold slice, set_byte. apply list_eq. intros k.
  destruct (decide (k < len)%nat) as [Hk|Hk].
  - rewrite lookup_take_lt, lookup_drop by done.
    destruct (decide (i = k)) as [->|Hik].
    + destruct (decide (off + k < length f)%nat).
      * rewrite !list_lookup_insert_eq by (rewrite ?length_take, ?length_drop; lia). done.
      * rewrite !lookup_ge_None_2;
          [done|rewrite length_insert, length_take, length_drop; lia|rewrite length_insert; lia].
    + rewrite !list_lookup_insert_ne by lia. by rewrite lookup_take_lt, lookup_drop.
  - rewrite !lookup_ge_None_2; [done| |]; rewrite ?length_insert, length_take; lia.
Qed.

(** A BCMP packet with [m] bytes from its header on, whose checksum is right. *)
Record bcmp_packet `{Platform} (f : bytes) (m : nat) (c : Z) : Prop := {
  bp_ok : bytes_ok f;
  bp_length : length f = (54 + m)%nat;
  bp_size : (13 <= m)%nat /\ Z.of_nat m < 65536 - 54;
  bp_type : ethernet_get_type f = ethernet_type_ipv6;
  bp_next : nth 20 f 0 = ip_proto_bcmp;
  bp_checksum : message_get_checksum (blit 56 [0; 0] f) (Z.of_nat m) = Some c;
  bp_stored : slice 56 2 f = native_store 2 c
}.

Lemma message_get_checksum_eq (P : Platform) f m :
  (54 + m <= length f)%nat ->
  message_get_checksum f (Z.of_nat m)
  = ipv6_pseudo_checksum (slice 22 16 f) (slice 38 16 f) ip_proto_bcmp (slice 54 m f).
Proof.
  intros Hl. unfold message_get_checksum, message_get_src_ip, message_get_dst_ip, message_get_data,
    read_at. rewrite Nat2Z.id, length_drop.
  destruct (Nat.leb_spec (22 + 16) (length f)); [|lia].
  destruct (Nat.leb_spec (38 + 16) (length f)); [|lia]. change FRAME_HDR_LEN with 54%nat.
  destruct (Nat.leb_spec (0 + m) (length f - 54)); [|lia].
  unfold slice. by rewrite drop_0.
Qed.

(** The checksum of a packet before and after the egress port gets into its
    source address. *)
Lemma checksum_with_port (P : Platform) f m c port :
  little_endian = true -> bcmp_packet f m c -> nth 24 f 0 = 0 -> 0 <= port <= 15 ->
  exists r r', c = swap_16bit (65535 - r)
    /\ message_get_checksum (blit 56 [0; 0] (set_byte 24 port f)) (Z.of_nat m)
       = Some (swap_16bit (65535 - r'))
    /\ 0 < r <= 65535 /\ 0 < r' <= 65535 /\ r' mod 65535 = (r + 256 * port) mod 65535.
Proof.
  intros HP [Hok Hl [Hm1 Hm2] _ _ Hc _] Hz Hport.
  set (f0 := blit 56 [0; 0] f) in *.
  assert (Hl0 : length f0 = (54 + m)%nat) by (unfold f0; rewrite length_blit; cbn; lia).
  assert (Hok0 : bytes_ok f0) by (apply bytes_ok_blit; [decided|done]).
  assert (E0 : blit 56 [0; 0] (set_byte 24 port f) = set_byte 24 port f0)
    by (apply blit_insert_ne; cbn; lia).
  rewrite E0. rewrite message_get_checksum_eq in Hc |- * by (rewrite ?length_set_byte; lia).
  assert (Hb : byte_ok port) by (unfold byte_ok; lia).
  assert (Hsrc : slice 22 16 (set_byte 24 port f0) = set_byte 2 port (slice 22 16 f0))
    by apply (slice_set_byte_in 22).
  rewrite Hsrc, !slice_set_byte by lia.
  set (src := slice 22 16 f0) in *. set (dst := slice 38 16 f0) in *. set (d := slice 54 m f0) in *.
  assert (Hls : length src = 16%nat) by (apply length_slice; lia).
  assert (Hld : length dst = 16%nat) by (apply length_slice; lia).
  assert (Hlm : length d = m) by (apply length_slice; lia).
  assert (Hsok : bytes_ok src) by (by apply bytes_ok_slice).
  assert (Hdok : bytes_ok dst) by (by apply bytes_ok_slice).
  assert (Hmok : bytes_ok d) by (by apply bytes_ok_slice).
  assert (H2 : nth 2 src 0 = 0).
  { unfold src. rewrite nth_lookup, lookup_slice by lia. unfold f0.
    rewrite lookup_blit_ne by (cbn; lia). by rewrite <- nth_lookup. }
  destruct (ipv6_pseudo_checksum_fold P src dst ip_proto_bcmp d) as (r & E & Hr & Hmod & Hpos);
    [done|done|done|done|done|decided|lia|].
  destruct (ipv6_pseudo_checksum_fold P (set_byte 2 port src) dst ip_proto_bcmp d)
    as (r' & E' & Hr' & Hmod' & Hpos');
    [by apply bytes_ok_set_byte|done|done|by rewrite length_set_byte|done|decided|lia|].
  pose proof (word_sum_bounds src Hsok). pose proof (word_sum_bounds dst Hdok).
  pose proof (word_sum_bounds d Hmok).
  assert (Hps : pseudo_sum (set_byte 2 port src) dst ip_proto_bcmp d
                = pseudo_sum src dst ip_proto_bcmp d + 256 * port).
  { unfold pseudo_sum. rewrite word_sum_set_high, H2 by (done || lia). lia. }
  assert (Hpp : 0 < pseudo_sum src dst ip_proto_bcmp d).
  { unfold pseudo_sum. change ip_proto_bcmp with 188. lia. }
  exists r, r'. rewrite E in Hc. injection Hc as Hc. unfold ntohs in Hc, E'. rewrite HP in Hc, E'.
  split_and!; [done|done|lia|lia|lia|lia|].
  rewrite Hmod', Hps. by apply mod_add_congr.
Qed.

(** What [network_add_egress_port] makes of the stored checksum. *)
Lemma stored_with_egress (P : Platform) f m c port :
  little_endian = true -> bcmp_packet f m c -> 0 <= port <= 15 -> 0 <= c < 65536 ->
  native_load (slice 56 2 (with_egress port f)) = 65535 - u16 (65535 - c + port)
  /\ blit 56 [0; 0] (with_egress port f) = blit 56 [0; 0] (set_byte 24 port f).
Proof.
  intros HP [Hok Hl [Hm1 Hm2] Ht Hn _ Hst] Hport Hc. unfold with_egress.
  rewrite checksum_op_set24 by lia. unfold checksum_op. rewrite Ht, Z.eqb_refl, Hn.
  change (ip_proto_bcmp =? ip_proto_udp) with false. rewrite Z.eqb_refl, Hst.
  rewrite native_load_store. change (256 ^ Z.of_nat 2) with 65536. rewrite (Z.mod_small c) by done.
  set (c' := 65535 - u16 (65535 - c + port)).
  assert (Hc' : 0 <= c' < 65536) by (unfold c'; pose proof (u16_range (65535 - c + port)); lia).
  split.
  - rewrite slice_set_byte by lia.
    pose proof (slice_blit_same 56 (native_store 2 c') f) as Hs. rewrite length_native_store in Hs.
    rewrite Hs by lia. rewrite native_load_store. by apply Z.mod_small.
  - unfold set_byte. rewrite <- blit_insert_ne by (rewrite length_native_store; lia).
    apply blit_blit; rewrite length_native_store; [done|rewrite length_insert; lia].
Qed.

(** The checksum before and after the addition. *)
Lemma egress_checksum_of (P : Platform) f m c port :
  little_endian = true -> bcmp_packet f m c -> nth 24 f 0 = 0 -> 0 <= port <= 15 ->
  exists c', message_get_checksum (blit 56 [0; 0] (with_egress port f)) (Z.of_nat m) = Some c'
    /\ 0 <= c' < 65536
    /\ (native_load (slice 56 2 (with_egress port f)) = c' <-> port <= c).
Proof.
  intros HP Hp Hz Hport.
  destruct (checksum_with_port P f m c port HP Hp Hz Hport)
    as (r & r' & -> & Hc' & Hr & Hr' & Hmod).
  pose proof (swap_16bit_complement r ltac:(lia)) as Hcr.
  pose proof (swap_16bit_complement r' ltac:(lia)) as Hcr'.
  pose proof (swap_16bit_arith (65535 - r) ltac:(lia)) as Har.
  pose proof (swap_16bit_arith (65535 - r') ltac:(lia)) as Har'.
  pose proof (swap_16bit_mod r ltac:(lia)) as Hmr.
  pose proof (swap_16bit_mod r' ltac:(lia)) as Hmr'.
  pose proof (swap_16bit_arith r ltac:(lia)) as Hsr.
  pose proof (swap_16bit_arith r' ltac:(lia)) as Hsr'.
  set (v := swap_16bit (65535 - r)) in *. set (v' := swap_16bit (65535 - r')) in *.
  assert (Hv : 0 <= v < 65535) by (clear - Har Hr; plia).
  assert (Hv' : 0 <= v' < 65535) by (clear - Har' Hr'; plia).
  destruct (stored_with_egress P f m v port HP Hp Hport) as [Hst Hbl]; [lia|].
  exists v'. rewrite Hbl, Hst. split; [exact Hc'|]. split; [lia|].
  (* in the domain of the swapped sums the port is added as it is *)
  assert (Hsum : (65535 - v') mod 65535 = (65535 - v + port) mod 65535).
  { rewrite Hcr, Hcr', Hmr', (Z.add_mod (swap_16bit r)), Hmr, <- Z.add_mod by lia.
    rewrite Z.mul_mod, Hmod, <- Z.mul_mod by lia.
    replace (256 * (r + 256 * port)) with (256 * r + port + port * 65535) by lia.
    by rewrite Z.mod_add by lia. }
  split; intros Hx.
  - destruct (Z_le_gt_dec port v) as [|Hgt]; [done|]. exfalso.
    assert (Hu : u16 (65535 - v + port) = port - v - 1).
    { unfold wrap. symmetry. apply (Z.mod_unique_pos _ _ 1); lia. }
    rewrite Hu in Hx. replace (65535 - v') with (port - v - 1) in Hsum by lia.
    replace (65535 - v + port) with (port - v + 1 * 65535) in Hsum by lia.
    rewrite Z.mod_add, !Z.mod_small in Hsum by lia. lia.
  - rewrite u16_small by lia.
    assert (65535 - v' = 65535 - v + port); [|lia]. apply mod_65535_unique; lia.
Qed.

(** The egress port that a frame gets on its way out and its BCMP checksum,
    which [network_add_egress_port] adjusts by one addition: on a little-endian
    processor the checksum is what a receiver computes over the changed frame
    exactly when the addition does not leave sixteen bits.  Otherwise the carry
    that a one's complement sum would bring round is lost, and the receiver drops
    the packet: a port number of 15 does this to 15 of 65,535 checksums. *)
Theorem egress_checksum (P : Platform) f m c port :
  little_endian = true -> bcmp_packet f m c -> nth 24 f 0 = 0 -> 0 <= port <= 15 ->
  exists c', message_get_checksum (blit 56 [0; 0] (with_egress port f)) (Z.of_nat m) = Some c'
    /\ 0 <= c' < 65536
    /\ (native_load (slice 56 2 (with_egress port f)) = c' <-> port <= c).
Proof. intros. by apply egress_checksum_of. Qed.

(** ** Reception *)

(** How a received frame of [size] bytes is to be handled. *)
Inductive verdict : Type :=
| Reject
| Bcmp (payload_length : Z)
| Udp (src_port dst_port : Z) (data : bytes).

Definition be16 (i : nat) (f : bytes) : Z := uint8_to_uint16 (slice i 2 f).

Definition classify (f : bytes) (size : Z) : verdict :=
  let pl := be16 18 f in
  if (size <? 54) || negb (be16 12 f =? ethernet_type_ipv6) || (size <? pl + 54) then Reject
  else if nth 20 f 0 =? ip_proto_bcmp then
    if pl <? 13 then Reject else Bcmp pl
  else if nth 20 f 0 =? ip_proto_udp then
    if (pl <? 8) || (be16 58 f <? 8) || (pl <? be16 58 f) then Reject
    else Udp (be16 54 f) (be16 56 f) (slice 62 (Z.to_nat (be16 58 f - 8)) f)
  else Reject.

Lemma be16_range i f : 0 <= be16 i f < 65536.
Proof. apply u16_range. Qed.

Lemma rd16_some i f : (i + 2 <= length f)%nat -> rd16 i f = Some (be16 i f).
Proof.
  intros Hi. unfold rd16, read_at. by destruct (Nat.leb_spec (i + 2) (length f)); [|lia].
Qed.

Lemma bufs_of_some {A} (m : M buf_heap A) h c a h' :
  m h = Some (a, h') -> bufs_of m (h, c) = Some (a, (h', c)).
Proof. intros E. unfold bufs_of, zoom. cbn. by rewrite E. Qed.

Lemma bm_l2_new_some h size :
  LinuxBuf.alloc_ok h = [] ->
  bm_l2_new size h
  = Some (Some (fresh (dom (bufs h))),
          set_bufs (<[fresh (dom (bufs h)) :=
            MkLinuxBuf 1 size size (junk h <$> seq 0 (Z.to_nat size))]> (bufs h)) h).
Proof. intros Ha. unfold bm_l2_new, next_alloc, mbind, M_bind. by rewrite Ha. Qed.

Lemma lift_some {St A} (a : A) (s : St) : lift (Some a) s = Some (a, s).
Proof. done. Qed.

(** The copy of the UDP payload into a fresh buffer. *)
Lemma copy_payload f n h c l :
  bufs h !! l = Some (MkLinuxBuf 1 n n (junk h <$> seq 0 (Z.to_nat n))) ->
  0 <= n -> (62 + Z.to_nat n <= length f)%nat ->
  (if 0 <? n then
     d ← lift (read_at (FRAME_HDR_LEN + UDP_HDR_LEN) (Z.to_nat n) f);
     bufs_of (payload_store (Some l) (write_at 0 d))
   else mret tt) (h, c)
  = Some (tt, (set_bufs (<[l := MkLinuxBuf 1 n n (slice 62 (Z.to_nat n) f)]> (bufs h)) h, c)).
Proof.
  intros Hl Hn Hf. destruct (Z.ltb_spec 0 n).
  - unfold read_at. change (FRAME_HDR_LEN + UDP_HDR_LEN)%nat with 62%nat.
    destruct (Nat.leb_spec (62 + Z.to_nat n) (length f)); [|lia].
    erewrite bind_some by apply lift_some. erewrite bufs_of_some; [reflexivity|].
    rewrite (payload_store_some h l _ _ (slice 62 (Z.to_nat n) f) Hl); [reflexivity|].
    unfold write_at.
    pose proof (length_slice 62 (Z.to_nat n) f Hf) as Hs. cbn [payload].
    rewrite length_fmap, length_seq.
    destruct (Nat.leb_spec (0 + length (slice 62 (Z.to_nat n) f)) (Z.to_nat n)); [|lia].
    unfold blit. rewrite take_0, drop_ge by (rewrite length_fmap, length_seq; lia).
    by rewrite app_nil_r.
  - assert (n = 0) as -> by lia. cbn in Hl |- *.
    rewrite insert_id by done. by rewrite set_bufs_same.
Qed.

(** What [bm_l2_submit] does with a buffer that holds one reference. *)
Lemma submit_cases (P : Platform) h c l b size es :
  bufs h !! l = Some b -> ref b = 1 -> bytes_ok (payload b) ->
  0 <= size <= Z.of_nat (length (payload b)) -> LinuxBuf.alloc_ok h = [] ->
  ll_inv (udp_heap c) (udp_list c) es ->
  let f := payload b in
  bm_l2_submit (Some l) size (h, c)
  = match classify f size with
    | Reject => Some (BmEBADMSG, (h, c))
    | Bcmp n =>
        if (length (bcmp_queue c) <? bcmp_evt_queue_len)%nat then
          Some (BmOK, (h, set_bcmp_queue (bcmp_queue c ++ [MkBcmpItem BcmpEventRx (Some l) n]) c))
        else Some (BmEAGAIN, (h, c))
    | Udp src_port dst_port d =>
        match find_id dst_port es with
        | Some (Some cb) =>
            let u := fresh (dom (bufs h)) in
            let n := Z.of_nat (length d) in
            Some (BmOK, (set_bufs (delete l (<[u := MkLinuxBuf 1 n n d]> (bufs h))) h,
                         add_udp_call (MkUdpCall cb src_port u
                                         (ip_to_nodeid (Some (slice 22 16 f))) n) c))
        | _ => Some (BmOK, (set_bufs (delete l (bufs h)) h, c))
        end
    end.
Proof.
  intros Hb Hr Hok Hsz Hal Hinv f. unfold bm_l2_submit, classify.
  change (Z.of_nat FRAME_HDR_LEN) with 54. change (Z.of_nat UDP_HDR_LEN) with 8.
  change (Z.of_nat sizeof_BcmpHeader) with 13.
  destruct (Z.ltb_spec size 54) as [|H54]; [done|].
  erewrite bind_some by (apply bufs_of_some; by apply bm_l2_get_payload_some). fold f in Hsz, Hok |- *.
  rewrite (rd16_some 12) by lia. erewrite bind_some by apply lift_some.
  destruct (be16 12 f =? ethernet_type_ipv6); [|done]. cbn [orb negb].
  rewrite rd_nth by lia. erewrite bind_some by apply lift_some.
  rewrite (rd16_some 18) by lia. erewrite bind_some by apply lift_some.
  pose proof (be16_range 18 f). pose proof (be16_range 58 f).
  destruct (Z.ltb_spec size (be16 18 f + 54)) as [|Hpl]; [done|].
  unfold read_at. destruct (Nat.leb_spec (22 + 16) (length f)); [|lia].
  erewrite bind_some by apply lift_some.
  destruct (nth 20 f 0 =? ip_proto_bcmp).
  { destruct (Z.ltb_spec (be16 18 f) 13); [done|]. unfold bcmp_queue_send.
    unfold mbind, M_bind, gets. cbn [snd].
    destruct (length (bcmp_queue c) <? bcmp_evt_queue_len)%nat; done. }
  destruct (nth 20 f 0 =? ip_proto_udp); [|done].
  destruct (Z.ltb_spec (be16 18 f) 8); [done|]. cbn [orb].
  rewrite (rd16_some 54), (rd16_some 56), (rd16_some 58) by lia.
  do 3 (erewrite bind_some by apply lift_some).
  destruct (Z.ltb_spec (be16 58 f) 8) as [|H8]; [done|]. cbn [orb].
  destruct (Z.ltb_spec (be16 18 f) (be16 58 f)) as [|Hul]; [done|].
  set (n := be16 58 f - 8).
  erewrite bind_some by (apply bufs_of_some; by apply bm_l2_new_some).
  set (u := fresh (dom (bufs h))).
  assert (Hu : bufs h !! u = None) by (apply not_elem_of_dom, is_fresh).
  assert (Hul' : u <> l) by congruence.
  cbv iota. erewrite bind_some by (apply copy_payload; [cbn; by rewrite lookup_insert_eq|lia..]).
  rewrite set_bufs_twice. cbn [bufs set_bufs]. rewrite insert_insert_eq.
  assert (Hdl : Z.of_nat (length (slice 62 (Z.to_nat n) f)) = n)
    by (rewrite length_slice; lia).
  rewrite Hdl. set (d := slice 62 (Z.to_nat n) f) in *.
  unfold get. erewrite bind_some by reflexivity. cbn [snd].
  rewrite (ll_get_refines _ _ _ _ Hinv). erewrite bind_some by reflexivity.
  destruct (find_id (be16 56 f) es) as [[cb|]|].
  - erewrite bind_some by reflexivity. erewrite bind_some.
    2: { apply bufs_of_some. eapply bm_l2_free_last; [|exact Hr]. cbn.
         by rewrite lookup_insert_ne. }
    done.
  - erewrite bind_some.
    2: { apply bufs_of_some. eapply bm_l2_free_last; [cbn; by rewrite lookup_insert_eq|done]. }
    erewrite bind_some.
    2: { apply bufs_of_some. eapply bm_l2_free_last; [|exact Hr]. cbn.
         by rewrite lookup_delete_ne, lookup_insert_ne. }
    rewrite !set_bufs_twice. cbn. by rewrite delete_insert_id.
  - erewrite bind_some.
    2: { apply bufs_of_some. eapply bm_l2_free_last; [cbn; by rewrite lookup_insert_eq|done]. }
    erewrite bind_some.
    2: { apply bufs_of_some. eapply bm_l2_free_last; [|exact Hr]. cbn.
         by rewrite lookup_delete_ne, lookup_insert_ne. }
    rewrite !set_bufs_twice. cbn. by rewrite delete_insert_id.
Qed.

(** [bm_l2_submit] never reads outside the frame, whatever its bytes are.
    It refuses exactly the frames that are too short, not IPv6, shorter than
    their payload length or with a bad UDP length, and then the buffer stays
    with the caller, untouched; a BCMP packet goes to the BCMP queue with its
    buffer, or is refused when the queue is full; the payload of a UDP datagram
    is copied to a buffer that the listener of the port is called with, or
    dropped, and the received buffer is freed. *)
Theorem bm_l2_submit_spec (P : Platform) h c l b size es :
  bufs h !! l = Some b -> ref b = 1 -> bytes_ok (payload b) ->
  0 <= size <= Z.of_nat (length (payload b)) -> LinuxBuf.alloc_ok h = [] ->
  ll_inv (udp_heap c) (udp_list c) es ->
  let f := payload b in
  bm_l2_submit (Some l) size (h, c)
  = match classify f size with
    | Reject => Some (BmEBADMSG, (h, c))
    | Bcmp n =>
        if (length (bcmp_queue c) <? bcmp_evt_queue_len)%nat then
          Some (BmOK, (h, set_bcmp_queue (bcmp_queue c ++ [MkBcmpItem BcmpEventRx (Some l) n]) c))
        else Some (BmEAGAIN, (h, c))
    | Udp src_port dst_port d =>
        match find_id dst_port es with
        | Some (Some cb) =>
            let u := fresh (dom (bufs h)) in
            let n := Z.of_nat (length d) in
            Some (BmOK, (set_bufs (delete l (<[u := MkLinuxBuf 1 n n d]> (bufs h))) h,
                         add_udp_call (MkUdpCall cb src_port u
                                         (ip_to_nodeid (Some (slice 22 16 f))) n) c))
        | _ => Some (BmOK, (set_bufs (delete l (bufs h)) h, c))
        end
    end.
Proof. intros. by apply (submit_cases P). Qed.

(** ** Transmission of UDP datagrams *)

Lemma length_eth_dst dst :
  length (if is_multicast (Some dst) then multicast_mac_from_ipv6 dst else repeat 0xFF 6) = 6%nat.
Proof. by destruct (is_multicast (Some dst)). Qed.

(** The frame before its checksum. *)
Definition udp_chunks (node_id : Z) (src dst : BmIpAddr) (src_port port : Z) (data : bytes)
    : list bytes :=
  let total := 8 + Z.of_nat (length data) in
  [if is_multicast (Some dst) then multicast_mac_from_ipv6 dst else repeat 0xFF 6;
   mac_from_nodeid node_id; [0x86; 0xDD]; [0x60; 0; 0; 0];
   [u8 (Z.shiftr total 8); u8 total]; [ip_proto_udp; 64]; src; dst;
   [u8 (Z.shiftr src_port 8); u8 src_port; u8 (Z.shiftr port 8); u8 port;
    u8 (Z.shiftr total 8); u8 total; 0; 0]; data].

Definition udp_wire node_id src dst src_port port data : bytes :=
  concat (udp_chunks node_id src dst src_port port data).

Lemma udp_writes node_id src dst src_port port data :
  length src = 16%nat -> length dst = 16%nat ->
  frame_headers node_id dst (8 + Z.of_nat (length data)) ip_proto_udp
  ++ [(22%nat, src); (38%nat, dst);
      (54%nat, [u8 (Z.shiftr src_port 8); u8 src_port; u8 (Z.shiftr port 8); u8 port;
                u8 (Z.shiftr (8 + Z.of_nat (length data)) 8); u8 (8 + Z.of_nat (length data)); 0; 0]);
      (62%nat, data)]
  = at_offsets 0 (udp_chunks node_id src dst src_port port data).
Proof.
  intros Hs Hd. unfold udp_chunks, frame_headers. cbn [at_offsets app].
  rewrite length_eth_dst, Hs, Hd. reflexivity.
Qed.

Lemma length_udp_wire node_id src dst src_port port data :
  length src = 16%nat -> length dst = 16%nat ->
  length (udp_wire node_id src dst src_port port data) = (62 + length data)%nat.
Proof.
  intros Hs Hd. unfold udp_wire, udp_chunks. cbn [concat].
  rewrite !length_app, length_eth_dst, Hs, Hd. cbn. lia.
Qed.

(** A prefix of known length. *)
Lemma slice_app_r off len l1 l2 :
  (length l1 <= off)%nat -> slice off len (l1 ++ l2) = slice (off - length l1) len l2.
Proof. intros H. unfold slice. by rewrite drop_app_ge. Qed.

Lemma be16_bytes v : 0 <= v < 65536 -> uint8_to_uint16 [u8 (Z.shiftr v 8); u8 v] = v.
Proof.
  intros Hv. rewrite uint8_to_uint16_spec by apply u8_range.
  rewrite Z.shiftr_div_pow2 by lia. unfold wrap. plia.
Qed.

(** The fields of the frame that reception looks at. *)
Lemma udp_wire_fields node_id src dst src_port port data :
  length src = 16%nat -> length dst = 16%nat ->
  0 <= src_port < 65536 -> 0 <= port < 65536 -> Z.of_nat (length data) + 8 < 65536 ->
  let f := udp_wire node_id src dst src_port port data in
  be16 12 f = ethernet_type_ipv6 /\ be16 18 f = 8 + Z.of_nat (length data)
  /\ nth 20 f 0 = ip_proto_udp /\ slice 22 16 f = src /\ slice 38 16 f = dst
  /\ be16 54 f = src_port /\ be16 56 f = port /\ be16 58 f = 8 + Z.of_nat (length data)
  /\ drop 62 f = data.
Proof.
  intros Hs Hd Hsp Hp Hl f.
  set (e := if is_multicast (Some dst) then multicast_mac_from_ipv6 dst else repeat 0xFF 6).
  assert (He : length e = 6%nat) by apply length_eth_dst.
  set (total := 8 + Z.of_nat (length data)).
  set (hdr := (e ++ mac_from_nodeid node_id) ++ [0x86; 0xDD; 0x60; 0; 0; 0] ++
              [u8 (Z.shiftr total 8); u8 total; ip_proto_udp; 64]).
  set (udp := [u8 (Z.shiftr src_port 8); u8 src_port; u8 (Z.shiftr port 8); u8 port;
               u8 (Z.shiftr total 8); u8 total; 0; 0]).
  assert (Hf : f = hdr ++ src ++ dst ++ udp ++ data).
  { unfold f, udp_wire, udp_chunks, hdr, udp, total, e. cbn [concat app].
    by rewrite app_nil_r, <- !app_assoc. }
  assert (Hh : length hdr = 22%nat) by (unfold hdr; rewrite !length_app, He; done).
  assert (Hm : length (e ++ mac_from_nodeid node_id) = 12%nat) by (rewrite length_app, He; done).
  unfold be16. split_and!.
  - rewrite Hf. unfold hdr. rewrite <- app_assoc, slice_app_r, Hm by lia. done.
  - rewrite Hf. unfold hdr. rewrite <- app_assoc, slice_app_r, Hm by lia.
    change (slice (18 - 12) 2 _) with [u8 (Z.shiftr total 8); u8 total].
    apply be16_bytes. unfold total. lia.
  - rewrite Hf. unfold hdr. rewrite <- app_assoc, app_nth2, Hm by lia. done.
  - rewrite Hf, slice_app_r, Hh by lia. unfold slice. rewrite drop_0, <- Hs, take_app_length. done.
  - rewrite Hf, !slice_app_r, Hh, Hs by lia. unfold slice. rewrite drop_0, <- Hd, take_app_length. done.
  - rewrite Hf, !slice_app_r, Hh, Hs, Hd by lia. by apply be16_bytes.
  - rewrite Hf, !slice_app_r, Hh, Hs, Hd by lia. by apply be16_bytes.
  - rewrite Hf, !slice_app_r, Hh, Hs, Hd by lia. apply be16_bytes. unfold total. lia.
  - rewrite Hf, !app_assoc, drop_app_length'; [done|]. rewrite !length_app, Hh, Hs, Hd. done.
Qed.

(** Two frames that reception treats alike: they may differ in the ports byte,
    the checksum and byte 13 of the destination. *)
Definition same_fields (f g : bytes) : Prop :=
  length f = length g /\ slice 12 2 f = slice 12 2 g /\ slice 18 2 f = slice 18 2 g
  /\ nth 20 f 0 = nth 20 g 0 /\ slice 54 2 f = slice 54 2 g /\ slice 56 2 f = slice 56 2 g
  /\ slice 58 2 f = slice 58 2 g /\ drop 62 f = drop 62 g.

Lemma same_fields_classify f g size : same_fields f g -> classify f size = classify g size.
Proof.
  intros (Hl & H12 & H18 & H20 & H54 & H56 & H58 & H62). unfold classify, be16, slice in *.
  by rewrite H12, H18, H20, H54, H56, H58, H62.
Qed.

Lemma drop_set_byte i b f n : (i < n)%nat -> drop n (set_byte i b f) = drop n f.
Proof. intros H. unfold set_byte. by rewrite drop_insert_lt. Qed.

Lemma same_fields_set_byte i b f :
  i = 24%nat \/ i = 51%nat \/ i = 60%nat \/ i = 61%nat -> same_fields (set_byte i b f) f.
Proof.
  intros Hi. unfold same_fields. rewrite length_set_byte, drop_set_byte by lia.
  rewrite !slice_set_byte, nth_set_byte_ne by lia. done.
Qed.

Lemma same_fields_trans f g k : same_fields f g -> same_fields g k -> same_fields f k.
Proof. unfold same_fields. intuition congruence. Qed.

Lemma same_fields_refl f : same_fields f f.
Proof. unfold same_fields. done. Qed.

Lemma blit60 x y f :
  (62 <= length f)%nat -> blit 60 [x; y] f = set_byte 61 y (set_byte 60 x f).
Proof.
  intros Hl. apply list_eq. intros i.
  destruct (decide (60 <= i < 62)%nat) as [Hi|Hi].
  - assert (i = 60 \/ i = 61)%nat as [->| ->] by lia.
    + etransitivity; [apply (lookup_blit_eq 60 [x; y] f 0); cbn; lia|]. unfold set_byte.
      by rewrite list_lookup_insert_ne, list_lookup_insert_eq by lia.
    + etransitivity; [apply (lookup_blit_eq 60 [x; y] f 1); cbn; lia|]. unfold set_byte.
      by rewrite list_lookup_insert_eq by (rewrite length_insert; lia).
  - rewrite lookup_blit_ne by (cbn; lia). unfold set_byte.
    by rewrite !list_lookup_insert_ne by lia.
Qed.

Lemma frame_chunks_ok node_id src dst src_port port data :
  bytes_ok src -> bytes_ok dst -> bytes_ok data ->
  length dst = 16%nat -> bytes_ok (udp_wire node_id src dst src_port port data).
Proof.
  intros Hs Hd Hdat Hl. unfold udp_wire, udp_chunks. cbn [concat].
  assert (Hn : forall i, byte_ok (addr_byte dst i)) by (intros i; by apply nth_byte_ok).
  assert (Hu : forall z, byte_ok (u8 z)) by (intros z; apply u8_range).
  assert (Hmac : bytes_ok (mac_from_nodeid node_id)).
  { unfold mac_from_nodeid. repeat (apply Forall_cons; split; [|]); auto.
    apply (land_range 8); lia. }
  repeat (apply Forall_app; split); try done.
  - case_match; [|decided]. unfold multicast_mac_from_ipv6.
    repeat (apply Forall_cons; split; [try apply Hn; unfold byte_ok; lia|]). done.
  - decided.
  - decided.
  - repeat (apply Forall_cons; split; [apply Hu|]). done.
  - decided.
  - repeat (apply Forall_cons; split; [first [apply Hu|unfold byte_ok; lia]|]). done.
Qed.

Section udp.
Context `{Platform} (node_id : Z).
#[local] Abbreviation st := (l2_state linux_ctx).

(** The ports that a frame with its egress octet leaves by. *)
Definition link_mask (c : BmL2Ctx) (f : bytes) : Z :=
  Z.land (if (0 <? nth 51 f 0) && (nth 51 f 0 <=? num_ports c)
          then u16 (Z.shiftl 1 (nth 51 f 0 - 1)) else all_ports_mask c) (enabled_ports_mask c).

(** [bm_l2_link_output] of a buffer with one reference, with room in the queue:
    the frame is queued without the application's egress port, and the caller
    keeps a reference. *)
Lemma link_output_room (s : st) l b q n :
  bufs (l2_bufs s) !! l = Some b -> 0 <= ref b < 2 ^ 32 - 1 -> (52 <= length (payload b))%nat ->
  evt_queue (l2_ctx s) = Some q -> (length q < evt_queue_len)%nat ->
  bm_l2_link_output (Some l) n s
    = Some (BmOK, set_ctx (set_evt_queue (Some (q ++ [MkElement L2Tx n (Some l)
                                                        (link_mask (l2_ctx s) (payload b))])))
        (set_l2_bufs (set_bufs (<[l := MkLinuxBuf (ref b + 1) (alloc_size b) (len b)
                                         (set_byte 51 0 (payload b))]> (bufs (l2_bufs s)))
                        (l2_bufs s)) s)).
Proof.
  intros Hb Hr Hl Hq Hroom. unfold bm_l2_link_output, ctx.
  erewrite bind_some by reflexivity.
  erewrite bind_some by (apply with_bufs_some; by apply bm_l2_get_payload_some).
  rewrite set_l2_bufs_same. change egress_idx with 51%nat.
  rewrite rd_nth by lia. erewrite bind_some by apply lift_some. cbn zeta.
  erewrite bind_some.
  2: { apply with_bufs_some. eapply payload_store_some; [exact Hb|]. by apply wr_ok. }
  erewrite bind_some.
  2: { apply with_bufs_some. apply bm_l2_tx_prep_shared; [cbn; by rewrite lookup_insert_eq|done]. }
  unfold link_mask. generalize (if (0 <? nth 51 (payload b) 0)
    && (nth 51 (payload b) 0 <=? num_ports (l2_ctx s)) then u16 (Z.shiftl 1 (nth 51 (payload b) 0 - 1))
    else all_ports_mask (l2_ctx s)). intros mask. rewrite (bm_l2_tx_room _ q) by done.
  unfold set_ctx, set_l2_bufs, set_bufs, set_payload. cbn. by rewrite insert_insert_eq.
Qed.

Lemma udp_tx_spec (s : st) ub bd n q src_port dst port :
  bufs (l2_bufs s) !! ub = Some bd -> bytes_ok (payload bd) ->
  0 <= n <= Z.of_nat (length (payload bd)) -> n < 65000 ->
  evt_queue (l2_ctx s) = Some q -> (length q < evt_queue_len)%nat ->
  LinuxBuf.alloc_ok (l2_bufs s) = [] ->
  bytes_ok (ll_addr (l2_upper s)) -> length (ll_addr (l2_upper s)) = 16%nat ->
  bytes_ok dst -> length dst = 16%nat ->
  0 <= src_port < 65536 -> 0 <= port < 65536 ->
  exists s' f mask,
    bm_udp_tx_perform node_id (Some src_port) (Some ub) n (Some dst) port s = Some (BmOK, s')
    /\ evt_queue (l2_ctx s')
       = Some (q ++ [MkElement L2Tx (62 + n) (Some (fresh (dom (bufs (l2_bufs s))))) mask])
    /\ bufs (l2_bufs s') = <[fresh (dom (bufs (l2_bufs s))) := MkLinuxBuf 1 (62 + n) (62 + n) f]>
                             (bufs (l2_bufs s))
    /\ l2_trace s' = l2_trace s
    /\ same_fields f (udp_wire node_id (ll_addr (l2_upper s)) dst src_port port
                        (take (Z.to_nat n) (payload bd)))
    /\ slice 22 16 f = ll_addr (l2_upper s) /\ bytes_ok f.
Proof.
  intros Hub Hok Hn Hn2 Hq Hroom Hal Hsok Hsl Hdok Hdl Hp1 Hp2.
  set (src := ll_addr (l2_upper s)) in *. set (data := take (Z.to_nat n) (payload bd)).
  assert (Hdata : length data = Z.to_nat n) by (unfold data; rewrite length_take; lia).
  assert (Hdatok : bytes_ok data) by (by apply Forall_take).
  set (l := fresh (dom (bufs (l2_bufs s)))).
  assert (Hl : bufs (l2_bufs s) !! l = None) by (apply not_elem_of_dom, is_fresh).
  assert (Hlu : l <> ub) by congruence.
  unfold bm_udp_tx_perform. change (Z.of_nat UDP_HDR_LEN) with 8. change (Z.of_nat FRAME_HDR_LEN) with 54.
  rewrite (u32_small (8 + n)), (u32_small (54 + _)) by lia.
  replace (54 + (8 + n)) with (62 + n) by lia.
  erewrite bind_some by (apply with_bufs_some; by apply bm_l2_new_some). fold l. cbv iota.
  erewrite bind_some by reflexivity. cbn [l2_upper set_l2_bufs]. fold src.
  set (nb := MkLinuxBuf 1 (62 + n) (62 + n) _).
  assert (Hnb : length (payload nb) = (62 + length data)%nat)
    by (cbn; rewrite length_fmap, length_seq; lia).
  set (s1 := set_l2_bufs _ s).
  assert (Hread : (if 0 <? n then
       p ← with_bufs (bm_udp_get_payload (Some ub)); lift (read_at 0 (Z.to_nat n) p)
     else mret []) s1 = Some (data, s1)).
  { destruct (Z.ltb_spec 0 n).
    - erewrite bind_some.
      2: { apply with_bufs_some, bm_l2_get_payload_some. cbn. by rewrite lookup_insert_ne. }
      unfold read_at. destruct (Nat.leb_spec (0 + Z.to_nat n) (length (payload bd))); [|lia].
      unfold slice. rewrite drop_0. done.
    - unfold data. replace (Z.to_nat n) with 0%nat by lia. done. }
  erewrite bind_some by exact Hread.
  assert (Hw : length (udp_wire node_id src dst src_port port data) = (62 + length data)%nat)
    by (by apply length_udp_wire).
  assert (Hwok : bytes_ok (udp_wire node_id src dst src_port port data))
    by (by apply frame_chunks_ok).
  destruct (udp_wire_fields node_id src dst src_port port data Hsl Hdl)
    as (_ & _ & _ & E22 & _); [lia..|].
  pose proof (store_chunks (udp_chunks node_id src dst src_port port data) [] (payload nb)) as Hst.
  cbn [length app] in Hst. fold (udp_wire node_id src dst src_port port data) in Hst.
  rewrite drop_ge, app_nil_r in Hst by lia. specialize (Hst ltac:(lia)).
  pose proof (udp_writes node_id src dst src_port port data) as Hwr.
  remember (udp_wire node_id src dst src_port port data) as w eqn:Ew.
  replace (8 + n) with (8 + Z.of_nat (length data)) by lia.
  erewrite bind_some.
  2: { apply with_bufs_some. eapply payload_store_some; [cbn; by rewrite lookup_insert_eq|].
       rewrite <- (Hwr Hsl Hdl) in Hst. exact Hst. }
  erewrite bind_some.
  2: { apply with_bufs_some, bm_l2_get_payload_some. cbn. by rewrite lookup_insert_eq. }
  cbn [payload set_payload]. change FRAME_HDR_LEN with 54%nat. unfold read_at.
  destruct (Nat.leb_spec (54 + Z.to_nat (8 + Z.of_nat (length data))) (length w)); [|lia].
  erewrite bind_some by apply lift_some.
  destruct (ipv6_pseudo_checksum_spec _ src dst ip_proto_udp
              (slice 54 (Z.to_nat (8 + Z.of_nat (length data))) w)) as (c & Hc & _);
    [done|done|by apply bytes_ok_slice|done|done|done|rewrite length_slice; lia|].
  rewrite Hc. erewrite bind_some by apply lift_some.
  erewrite bind_some.
  2: { apply with_bufs_some. eapply payload_store_some; [cbn; by rewrite lookup_insert_eq|].
       cbn [payload set_payload]. unfold write_at.
       destruct (Nat.leb_spec (60 + length [u8 (Z.shiftr c 8); u8 c]) (length w));
         [reflexivity|cbn in *; lia]. }
  rewrite blit60 by lia. set (f := set_byte 61 _ (set_byte 60 _ w)).
  set (s2 := set_l2_bufs _ _).
  assert (Hs2 : bufs (l2_bufs s2) !! l = Some (MkLinuxBuf 1 (62 + n) (62 + n) f))
    by (cbn; by rewrite lookup_insert_eq).
  assert (Hf : length f = length w) by (unfold f; by rewrite !length_set_byte).
  pose proof (link_output_room s2 l _ q (62 + n) Hs2 ltac:(cbn; lia) ltac:(cbn; lia) Hq Hroom) as E.
  erewrite bind_some by exact E. cbn [is_ok negb when].
  erewrite bind_some by reflexivity. erewrite bind_some.
  2: { apply with_bufs_some. apply bm_l2_free_shared; [cbn; by rewrite lookup_insert_eq|cbn; lia]. }
  do 3 eexists. split; [reflexivity|]. split; [reflexivity|]. split; [|split; [reflexivity|split; [|split]]].
  - cbn. by rewrite !insert_insert_eq.
  - eapply same_fields_trans; [apply same_fields_set_byte; lia|].
    eapply same_fields_trans; [apply same_fields_set_byte; lia|apply same_fields_set_byte; lia].
  - unfold f. by rewrite !slice_set_byte by lia.
  - unfold f. by repeat (apply bytes_ok_set_byte; [first [apply u8_range|decided]|]).
Qed.
End udp.

(** ** From the sender to the listener *)

(** What may change between the sender's queue and the receiver's
    [bm_l2_submit]: the ports byte, the application's egress port and the UDP
    checksum. *)
Definition in_transit (f g : bytes) : Prop :=
  length g = length f /\ bytes_ok g
  /\ forall i, ~ (i = 24 \/ i = 51 \/ i = 60 \/ i = 61)%nat -> g !! i = f !! i.

Lemma in_transit_slice f g off len :
  in_transit f g ->
  (forall i, (off <= i < off + len)%nat -> ~ (i = 24 \/ i = 51 \/ i = 60 \/ i = 61)%nat) ->
  slice off len g = slice off len f.
Proof.
  intros (_ & _ & H) Hi. apply list_eq. intros i.
  destruct (decide (i < len)%nat) as [Hl|Hl].
  - rewrite !lookup_slice by done. apply H, Hi. lia.
  - unfold slice. by rewrite !lookup_take_ge by lia.
Qed.

Lemma in_transit_same f g : in_transit f g -> same_fields g f.
Proof.
  intros H. pose proof H as (Hl & _ & Hi). unfold same_fields.
  rewrite !(in_transit_slice f g) by (done || lia). split_and!; try done.
  - by rewrite !nth_lookup, Hi by lia.
  - apply list_eq. intros i. rewrite !lookup_drop. apply Hi. lia.
Qed.

Lemma nodeid_of_transit (P : Platform) f g prefix id :
  little_endian = true -> 0 <= prefix < 2 ^ 32 -> 0 <= id < 2 ^ 64 ->
  in_transit f g -> slice 22 16 f = nodeid_to_ip prefix id -> (38 <= length f)%nat ->
  ip_to_nodeid (Some (slice 22 16 g)) = id.
Proof.
  intros HP Hp Hid Hg Hf Hl. pose proof Hg as (Hlg & Hok & _).
  rewrite (ip_to_nodeid_spec P) by
    (first [done | by apply bytes_ok_slice | rewrite length_slice; lia]).
  assert (Hs : forall h, slice 8 8 (slice 22 16 h) = slice 30 8 h).
  { intros h. unfold slice. rewrite skipn_firstn_comm, drop_drop. by rewrite take_take. }
  rewrite Hs, (in_transit_slice f g 30 8 Hg), <- Hs, Hf, nodeid_to_ip_bytes by (done || lia).
  rewrite be_enc_nodeid_slice, be_dec_enc. apply Z.mod_small. lia.
Qed.

(** A frame that [classify] takes for a datagram of these fields. *)
Lemma classify_udp_wire node_id src dst src_port port data :
  length src = 16%nat -> length dst = 16%nat ->
  0 <= src_port < 65536 -> 0 <= port < 65536 -> Z.of_nat (length data) + 8 < 65536 ->
  classify (udp_wire node_id src dst src_port port data) (62 + Z.of_nat (length data))
  = Udp src_port port data.
Proof.
  intros Hs Hd Hsp Hp Hl.
  destruct (udp_wire_fields node_id src dst src_port port data Hs Hd Hsp Hp Hl)
    as (E12 & E18 & E20 & _ & _ & E54 & E56 & E58 & E62).
  unfold classify. rewrite E12, E18, E20, E54, E56, E58. unfold slice. rewrite E62.
  destruct (Z.ltb_spec (62 + Z.of_nat (length data)) 54); [lia|].
  destruct (Z.ltb_spec (62 + Z.of_nat (length data)) (8 + Z.of_nat (length data) + 54)); [lia|].
  rewrite Z.eqb_refl. cbn [orb negb].
  change (ip_proto_udp =? ip_proto_bcmp) with false. rewrite Z.eqb_refl. cbn iota.
  destruct (Z.ltb_spec (8 + Z.of_nat (length data)) 8); [lia|].
  rewrite Z.ltb_irrefl. cbn [orb].
  replace (Z.to_nat (8 + Z.of_nat (length data) - 8)) with (length data) by lia.
  by rewrite firstn_all.
Qed.

(** What the receiver of a datagram does with its frame. *)
Lemma udp_receive (P : Platform) node_id prefix dst src_port port data f g h c l es cb :
  little_endian = true -> 0 <= prefix < 2 ^ 32 -> 0 <= node_id < 2 ^ 64 ->
  length dst = 16%nat -> 0 <= src_port < 65536 -> 0 <= port < 65536 ->
  Z.of_nat (length data) < 65000 ->
  let n := Z.of_nat (length data) in
  same_fields f (udp_wire node_id (nodeid_to_ip prefix node_id) dst src_port port data) ->
  slice 22 16 f = nodeid_to_ip prefix node_id -> in_transit f g ->
  bufs h !! l = Some (MkLinuxBuf 1 (62 + n) (62 + n) g) -> LinuxBuf.alloc_ok h = [] ->
  ll_inv (udp_heap c) (udp_list c) es -> find_id port es = Some (Some cb) ->
  let u := fresh (dom (bufs h)) in
  bm_l2_submit (Some l) (62 + n) (h, c)
  = Some (BmOK, (set_bufs (delete l (<[u := MkLinuxBuf 1 n n data]> (bufs h))) h,
                 add_udp_call (MkUdpCall cb src_port u node_id n) c)).
Proof.
  intros HP Hp Hid Hdl Hsp Hpo Hn n Hsame Haddr Hg Hbl Halh Hinv Hcb u.
  assert (Hsl : length (nodeid_to_ip prefix node_id) = 16%nat) by (by rewrite nodeid_to_ip_bytes).
  pose proof (in_transit_same f g Hg) as Hgs.
  pose proof Hsame as (Hfl & _). rewrite length_udp_wire in Hfl by done.
  pose proof Hg as (Hgl & Hgok & _).
  pose proof (submit_cases P h c l _ (62 + n) es Hbl eq_refl Hgok) as Es. cbn [payload] in Es.
  rewrite Es by (done || lia). clear Es.
  rewrite (same_fields_classify g f _ Hgs), (same_fields_classify f _ _ Hsame).
  unfold n. rewrite classify_udp_wire by (done || lia). rewrite Hcb.
  by rewrite (nodeid_of_transit P f g prefix node_id) by (first [done|lia|congruence]).
Qed.

(** C7: a UDP datagram goes through.  When the queue has room,
    [bm_udp_tx_perform] queues one frame for the ports and gives back the buffers
    that it took; the application keeps its own.  Whatever the layer 2 does to the
    ports byte, to the application's egress port and to the checksum on the way,
    a node whose application has bound the destination port hands the listener a
    buffer with the sender's bytes, the sender's port and the sender's node id. *)
Theorem udp_end_to_end (P : Platform) (node_id prefix : Z) (s : l2_state linux_ctx)
    ub bd n q src_port dst port :
  little_endian = true -> 0 <= prefix < 2 ^ 32 -> 0 <= node_id < 2 ^ 64 ->
  ll_addr (l2_upper s) = nodeid_to_ip prefix node_id ->
  bufs (l2_bufs s) !! ub = Some bd -> bytes_ok (payload bd) ->
  0 <= n <= Z.of_nat (length (payload bd)) -> n < 65000 ->
  evt_queue (l2_ctx s) = Some q -> (length q < evt_queue_len)%nat ->
  LinuxBuf.alloc_ok (l2_bufs s) = [] ->
  bytes_ok dst -> length dst = 16%nat ->
  0 <= src_port < 65536 -> 0 <= port < 65536 ->
  let t := fresh (dom (bufs (l2_bufs s))) in
  exists s' f mask,
    bm_udp_tx_perform node_id (Some src_port) (Some ub) n (Some dst) port s = Some (BmOK, s')
    /\ evt_queue (l2_ctx s') = Some (q ++ [MkElement L2Tx (62 + n) (Some t) mask])
    /\ bufs (l2_bufs s') = <[t := MkLinuxBuf 1 (62 + n) (62 + n) f]> (bufs (l2_bufs s))
    /\ bytes_ok f
    /\ forall g h c l es cb,
         in_transit f g ->
         bufs h !! l = Some (MkLinuxBuf 1 (62 + n) (62 + n) g) -> LinuxBuf.alloc_ok h = [] ->
         ll_inv (udp_heap c) (udp_list c) es -> find_id port es = Some (Some cb) ->
         let u := fresh (dom (bufs h)) in
         bm_l2_submit (Some l) (62 + n) (h, c)
         = Some (BmOK,
             (set_bufs (delete l (<[u := MkLinuxBuf 1 n n (take (Z.to_nat n) (payload bd))]>
                                    (bufs h))) h,
              add_udp_call (MkUdpCall cb src_port u node_id n) c)).
Proof.
  intros HP Hp Hid Hsrc Hub Hok Hn Hn2 Hq Hroom Hal Hd Hdl Hsp Hpo t.
  assert (Hso : bytes_ok (ll_addr (l2_upper s)) /\ length (ll_addr (l2_upper s)) = 16%nat).
  { rewrite Hsrc, nodeid_to_ip_bytes by done. split; [|done].
    apply bytes_ok_app; [apply be_enc_ok|]. apply bytes_ok_app; [decided|apply be_enc_ok]. }
  destruct Hso as [Hso Hsl].
  destruct (udp_tx_spec node_id s ub bd n q src_port dst port)
    as (s' & f & mask & E & Eq & Eb & _ & Hsame & Haddr & Hfok); try done.
  exists s', f, mask. split_and!; [done..|].
  intros g h c l es cb Hg Hbl Halh Hinv Hcb u.
  assert (Hdata : Z.of_nat (length (take (Z.to_nat n) (payload bd))) = n) by (rewrite length_take; lia).
  rewrite Hsrc in Hsame, Haddr. rewrite <- Hdata in Hbl |- * at 1.
  rewrite (udp_receive P node_id prefix dst src_port port _ f g h c l es cb) by (done || lia).
  by rewrite Hdata.
Qed.

(** ** Concrete stacks *)

Definition sample_ll : BmIpAddr := nodeid_to_ip 0xFE800000 0xBEEF12345678.

(** A node with one buffer and [full] events in its queue. *)
Definition sample_stack (full : nat) (f : bytes) : l2_state linux_ctx :=
  MkL2State
    (MkL2Ctx (Some (sample_trait 2)) 2 3 3 (Some (repeat (MkElement L2Irq 0 None 0) full)) true None
       true LL_empty LL_empty)
    (MkBufHeap {[1%positive := MkLinuxBuf 1 (Z.of_nat (length f)) (Z.of_nat (length f)) f]} []
       (fun _ => 170))
    ∅ ∅ []
    (MkLinux sample_ll sample_ll sample_ll LL_empty ([], []) true ∅ [] []).

Definition sample_bound : linux_ctx :=
  match bm_udp_bind_port 2222 (Some 7%nat) true (sample_stack 0 []) with
  | Some (_, s) => l2_upper s
  | None => l2_upper (sample_stack 0 [])
  end.

Definition sample_received (f : bytes) : buf_heap :=
  MkBufHeap {[5%positive := MkLinuxBuf 1 65 65 f]} [] (fun _ => 0).

Definition sample_datagram (port : Z) : bytes :=
  udp_wire 0xBEEF12345678 sample_ll multicast_global_addr 4000 port [10; 20; 30].

(** What the buffers and the calls of the listeners look like afterwards. *)
Definition received (r : option (BmErr * (buf_heap * linux_ctx)))
    : option (BmErr * list (loc * LinuxBuf) * list udp_call) :=
  '(e, (h, c)) ← r; Some (e, map_to_list (bufs h), udp_calls c).

Lemma sample_bound_inv : ll_inv (udp_heap sample_bound) (udp_list sample_bound) [(2222, Some 7%nat)].
Proof.
  exists [xH]. split_and!; [|by repeat eexists|reflexivity].
  split; [split; [reflexivity|]; eexists; split; [reflexivity|done]|constructor; [set_solver|constructor]|done].
Qed.

Lemma bm_l2_submit_spec_witness :
  let f := sample_datagram 2222 in
  received (@bm_l2_submit platform_mcu (Some 5%positive) 65 (sample_received f, sample_bound))
  = Some (BmOK, [(6%positive, MkLinuxBuf 1 3 3 [10; 20; 30])],
      [MkUdpCall 7 4000 6%positive 0xBEEF12345678 3]).
Proof.
  cbv zeta. rewrite (bm_l2_submit_spec platform_mcu (sample_received (sample_datagram 2222)) sample_bound
    5%positive (MkLinuxBuf 1 65 65 (sample_datagram 2222)) 65 [(2222, Some 7%nat)]).
  - vm_compute. reflexivity.
  - vm_compute. reflexivity.
  - reflexivity.
  - decided.
  - vm_compute. split; congruence.
  - reflexivity.
  - apply sample_bound_inv.
Defined.

Lemma udp_end_to_end_witness :
  exists f,
    received (@bm_l2_submit platform_mcu (Some 5%positive) 65 (sample_received f, sample_bound))
    = Some (BmOK, [(6%positive, MkLinuxBuf 1 3 3 [10; 20; 30])],
        [MkUdpCall 7 4000 6%positive 0xBEEF12345678 3])
    /\ option_map (fun '(e, s) => (e, map_to_list (bufs (l2_bufs s))))
         (@bm_udp_tx_perform platform_mcu 0xBEEF12345678 (Some 4000) (Some 1%positive) 3
            (Some multicast_global_addr) 2222 (sample_stack 0 [10; 20; 30; 40]))
       = Some (BmOK, [(2%positive, MkLinuxBuf 1 65 65 f);
                      (1%positive, MkLinuxBuf 1 4 4 [10; 20; 30; 40])]).
Proof.
  destruct (@udp_end_to_end platform_mcu 0xBEEF12345678 0xFE800000
      (sample_stack 0 [10; 20; 30; 40]) 1%positive (MkLinuxBuf 1 4 4 [10; 20; 30; 40])
      3 [] 4000 multicast_global_addr 2222)
    as (s' & f & mask & E & _ & Eb & Hok & Hrx);
    [reflexivity|lia|lia|reflexivity|reflexivity|decided|vm_compute; split; congruence|lia
    |reflexivity|apply Nat.ltb_lt; reflexivity|reflexivity|decided|reflexivity|lia|lia|].
  exists f. split.
  - change 65 with (62 + 3).
    rewrite (Hrx f (sample_received f) sample_bound 5%positive [(2222, Some 7%nat)] 7%nat);
      [vm_compute; reflexivity|by split_and!|reflexivity|reflexivity|apply sample_bound_inv|reflexivity].
  - etransitivity; [exact (f_equal (option_map _) E)|]. cbn [option_map]. rewrite Eb. reflexivity.
Defined.

(** A full event queue: [bm_l2_tx] gives its reference back, then
    [bm_udp_tx_perform] frees the buffer twice as if it had kept two references,
    so that the second call works on freed memory. *)
Example udp_tx_queue_full :
  @bm_udp_tx_perform platform_mcu 0xBEEF12345678 (Some 4000) (Some 1%positive) 3
    (Some multicast_global_addr) 2222 (sample_stack evt_queue_len [10; 20; 30; 40]) = None.
Proof. vm_compute. reflexivity. Qed.

(** What the node puts on the wire has its UDP checksum the wrong way round on a
    little-endian processor: the packet does not verify, but does with the two
    bytes swapped. *)
Definition sent_udp : bytes :=
  match @bm_udp_tx_perform platform_mcu 0xBEEF12345678 (Some 4000) (Some 1%positive) 3
          (Some multicast_global_addr) 2222 (sample_stack 0 [10; 20; 30; 40]) with
  | Some (_, s) => match bufs (l2_bufs s) !! 2%positive with
                   | Some b => drop FRAME_HDR_LEN (payload b) | None => [] end
  | None => []
  end.

Example udp_checksum_swapped :
  length sent_udp = 11%nat
  /\ pseudo_sum sample_ll multicast_global_addr ip_proto_udp sent_udp mod 65535 <> 0
  /\ pseudo_sum sample_ll multicast_global_addr ip_proto_udp
       (blit 6 (rev (slice 6 2 sent_udp)) sent_udp) mod 65535 = 0.
Proof. split_and!; [reflexivity|by vm_compute|reflexivity]. Qed.

(** A heartbeat-sized BCMP packet with its checksum, two of whose bytes vary. *)
Definition sample_bcmp (x y : Z) : bytes :=
  let f := repeat 7 12 ++ [0x86; 0xDD; 0x60; 0; 0; 0; 0; 15; ip_proto_bcmp; 64]
           ++ sample_ll ++ multicast_ll_addr ++ [1; 0; 0; 0; 0; 0; 0; 0; 0; 0; 0; 0; 0; x; y] in
  match @message_get_checksum platform_mcu f 15 with
  | Some c => blit 56 (@native_store platform_mcu 2 c) f
  | None => f
  end.

Lemma sample_bcmp_packet :
  @bcmp_packet platform_mcu (sample_bcmp 5 6) 15
    (@native_load platform_mcu (slice 56 2 (sample_bcmp 5 6))).
Proof.
  split; [decided|reflexivity|split; [lia|vm_compute; reflexivity]|reflexivity|reflexivity|
          vm_compute; reflexivity|vm_compute; reflexivity].
Qed.

Lemma egress_checksum_witness :
  @message_get_checksum platform_mcu
    (blit 56 [0; 0] (@with_egress platform_mcu 15 (sample_bcmp 5 6))) 15
  = Some (@native_load platform_mcu (slice 56 2 (@with_egress platform_mcu 15 (sample_bcmp 5 6)))).
Proof.
  destruct (egress_checksum platform_mcu (sample_bcmp 5 6) 15 _ 15 eq_refl sample_bcmp_packet eq_refl
              ltac:(lia)) as (c' & E & _ & Hiff).
  etransitivity; [exact E|]. f_equal. symmetry. apply Hiff. vm_compute. congruence.
Defined.

(** A packet that is dropped after it is sent on port 5, but not on port 3. *)
Example egress_checksum_lost :
  let f := sample_bcmp 19 214 in
  let received port := @with_egress platform_mcu port f in
  let accepted port :=
    bool_decide (@message_get_checksum platform_mcu (blit 56 [0; 0] (received port)) 15
                 = Some (@native_load platform_mcu (slice 56 2 (received port)))) in
  accepted 3 = true /\ accepted 5 = false.
Proof. split; vm_compute; reflexivity. Qed.
