(* ===== verification/Bcmp.v ===== *)
(** * The BCMP task: src/bcmp/bcmp.c and src/bcmp/heartbeat.c

    Transmission of messages, the task that handles the events of the BCMP queue,
    link-local forwarding and the heartbeat.  This is where the packet layer
    ([Packet]) and the IP stack ([BmLinux]) meet: the state of the handlers of
    packets contains the network.  The other parts of the node, whose
    initialization and neighbor check the task calls, are parameters. *)
From S2P Require Import Prelude Util LinkedList Os L2Policy Packet LinuxBuf L2 BmLinux.

(** The accessors of the Linux stack, as [bm_ip_init] gives them to
    [packet_init]. *)
Definition linux_cb `{Platform} : PacketCb :=
  MkPacketCb (fun _ => Some 22%nat) (fun _ => Some 38%nat) (fun _ => Some FRAME_HDR_LEN)
    message_get_checksum.

Definition bcmp_heartbeat_s : Z := 10.
Definition bcmp_max_payload_size_bytes : Z := 1500.
Definition ipv6_header_length : Z := 40.
Definition max_payload_len : Z := bcmp_max_payload_size_bytes - ipv6_header_length.
Definition sizeof_BcmpHeartbeat : Z := 12.

(** The queue of [CTX] is [bcmp_queue] of [BmLinux.linux_ctx]. *)
Record BcmpContext : Type := MkBcmpContext {
  heartbeat_timer : bool;        (** the timer exists *)
  heartbeat_started : bool;
  bc_num_ports : Z
}.

Record node (R : Type) : Type := MkNode {
  net : l2_state linux_ctx; bctx : BcmpContext; rest : R
}.
Arguments MkNode {R}. Arguments net {R}. Arguments bctx {R}. Arguments rest {R}.

Section bcmp.
Context {R : Type} `{Platform} `{L2Os} (node_id : Z).
#[local] Abbreviation st := (packet_state (node R)).
Context (call_process : nat -> BcmpProcessData -> M st BmErr).
Context (call_reply : nat -> option bytes -> M st BmErr).

Definition with_net {A} (m : M (l2_state linux_ctx) A) : M st A :=
  zoom (fun s => net (world s))
       (fun n s => set_world (MkNode n (bctx (world s)) (rest (world s))) s) m.
Definition set_bctx (c : BcmpContext) (s : st) : st :=
  set_world (MkNode (net (world s)) c (rest (world s))) s.

Definition buffer_bytes (buf : option loc) : M st bytes :=
  with_net (with_bufs (bm_l2_get_payload buf)).
Definition set_buffer_bytes (buf : option loc) (f : bytes) : M st unit :=
  with_net (with_bufs (payload_store buf (fun _ => Some f))).

Definition heartbeat_timer_handler : M st unit :=
  _ ← with_net (zoom (fun s => (l2_bufs s, l2_upper s))
        (fun bu s => MkL2State (l2_ctx s) (fst bu) (l2_timer_heap s) (l2_cb_heap s) (l2_trace s)
                       (snd bu))
        (bcmp_queue_send (MkBcmpItem BcmpEventHeartbeat None 0)));
  mret tt.

Definition bcmp_tx (dst : option BmIpAddr) (type : Z) (data : option bytes) (size seq_num : Z)
    (reply_cb : option nat) : M st BmErr :=
  match dst with
  | None => mret BmEINVAL
  | Some _ =>
      if u32 (size + sizeof_BcmpHeartbeat) <=? max_payload_len then
        buf ← with_net (bm_ip_tx_new dst (size + Z.of_nat sizeof_BcmpHeader));
        match buf with
        | None => mret BmENOMEM
        | Some _ =>
            f ← buffer_bytes buf;
            '(err, f, _) ← serialize (Some f) data size type seq_num reply_cb;
            f ← lift f;
            _ ← set_buffer_bytes buf f;
            err ← (if is_ok err then with_net (bm_ip_tx_perform node_id buf None) else mret err);
            _ ← with_net (ip_tx_cleanup buf);
            mret err
        end
      else mret BmEINVAL
  end.

(** The heartbeat's time and lease, as the packed struct holds them. *)
Definition heartbeat_bytes (time_since_boot_us lease : Z) : bytes :=
  native_store 8 time_since_boot_us ++ native_store 4 lease.

(** The ticks are multiplied as thirty-two bit integers. *)
Definition bcmp_send_heartbeat (lease_duration_s : Z) : M st BmErr :=
  now ← gets (fun s => os_ticks_ms (pk_os s));
  bcmp_tx (Some multicast_ll_addr) BcmpHeartbeatMessage
    (Some (heartbeat_bytes (u32 (now * 1000)) lease_duration_s)) sizeof_BcmpHeartbeat 0 None.

Context (bcmp_check_neighbors : M st unit).

(** An event taken off the queue. *)
Definition bcmp_handle (item : BcmpQueueItem) : M st unit :=
  _ ← match bi_type item with
      | BcmpEventRx =>
          f ← (match bi_data item with
               | None => mret None
               | Some _ => f ← buffer_bytes (bi_data item); mret (Some f)
               end);
          _ ← process_received_message call_process call_reply f
                (u32 (bi_size item - Z.of_nat sizeof_BcmpHeader));
          mret tt
      | BcmpEventHeartbeat =>
          _ ← bcmp_check_neighbors;
          _ ← bcmp_send_heartbeat bcmp_heartbeat_s;
          mret tt
      end;
  with_net (with_bufs (bm_ip_rx_cleanup (bi_data item))).

(** An iteration of [bcmp_thread]; with an empty queue it waits. *)
Definition bcmp_thread_step : M st unit :=
  s ← get;
  match bcmp_queue (l2_upper (net (world s))) with
  | [] => mret tt
  | item :: q =>
      _ ← with_net (modify (fun n => MkL2State (l2_ctx n) (l2_bufs n) (l2_timer_heap n)
            (l2_cb_heap n) (l2_trace n) (set_bcmp_queue q (l2_upper n))));
      bcmp_handle item
  end.

Definition bcmp_link_change (port : Z) (state : bool) : M st unit :=
  if state then
    _ ← bcmp_send_heartbeat bcmp_heartbeat_s;
    modify (fun s => set_bctx (MkBcmpContext (heartbeat_timer (bctx (world s)))
              (heartbeat_timer (bctx (world s))) (bc_num_ports (bctx (world s)))) s)
  else mret tt.

(** [port_specific_dst]: the egress port in the byte 13 of the group, on a
    little-endian processor. *)
Definition port_specific_dst (egress_port : Z) : BmIpAddr :=
  blit 12 (native_store 4 (Z.lor 0x1000000 (Z.shiftl egress_port 8))) multicast_ll_addr.

(** One round of the loop; [None] is the return for want of memory. *)
Definition forward_on (header : BcmpHeader) (payload : bytes) (size egress_port : Z) (err : BmErr)
    : M st (option BmErr) :=
  forward ← with_net (bm_ip_tx_new (Some multicast_ll_addr) (size + Z.of_nat sizeof_BcmpHeader));
  match forward with
  | None => mret None
  | Some _ =>
      let with_checksum c := MkHeader (h_type header) c (h_flags header) (h_reserved header)
        (h_seq_num header) (h_frag_total header) (h_frag_id header) (h_next_header header) in
      body ← lift (read_at 0 (Z.to_nat size) payload);
      _ ← with_net (bm_ip_tx_copy forward (Some (header_store (with_checksum 0))) 0);
      _ ← with_net (bm_ip_tx_copy forward (Some body) (Z.of_nat sizeof_BcmpHeader));
      f ← buffer_bytes forward;
      checksum ← packet_checksum (Some f) (u32 (size + Z.of_nat sizeof_BcmpHeader));
      _ ← with_net (bm_ip_tx_copy forward (Some (header_store (with_checksum checksum))) 0);
      tx_err ← with_net (bm_ip_tx_perform node_id forward (Some (port_specific_dst egress_port)));
      _ ← with_net (ip_tx_cleanup forward);
      mret (Some (if is_ok tx_err then BmOK else if is_ok err then err else tx_err))
  end.

Fixpoint forward_loop (header : BcmpHeader) (payload : bytes) (size ingress_port : Z)
    (ports : list Z) (err : BmErr) : M st BmErr :=
  match ports with
  | [] => mret err
  | p :: ports =>
      if p =? ingress_port then forward_loop header payload size ingress_port ports err
      else
        r ← forward_on header payload size p err;
        match r with
        | None => mret BmENOMEM
        | Some err => forward_loop header payload size ingress_port ports err
        end
  end.

Definition bcmp_ll_forward (header : option BcmpHeader) (payload : option bytes)
    (size ingress_port : Z) : M st BmErr :=
  match header, payload with
  | Some h, Some p =>
      num_ports ← gets (fun s => bc_num_ports (bctx (world s)));
      forward_loop h p size ingress_port ((fun i => Z.of_nat i + 1) <$> seq 0 (Z.to_nat num_ports))
        BmEINVAL
  | _, _ => mret BmEINVAL
  end.

(** [bcmp_process_heartbeat] and [bcmp_link_change] are registered by number. *)
Context (bcmp_process_heartbeat bcmp_link_change_cb : nat).

Definition bcmp_heartbeat_init : M st BmErr :=
  packet_add (Some (MkCfg false false (Some bcmp_process_heartbeat))) BcmpHeartbeatMessage.

Context (ping_init time_init bm_dfu_init bcmp_config_init : M st BmErr).
Context (bcmp_neighbor_init : Z -> M st BmErr).
Context (bcmp_device_info_init bcmp_resource_discovery_init : M st BmErr).

(** [timer_ok] tells whether the heartbeat timer is created; the queue is. *)
Definition bcmp_init (timer_ok : bool) (num_ports : Z) : M st BmErr :=
  _ ← with_net (modify (fun n => MkL2State (l2_ctx n) (l2_bufs n) (l2_timer_heap n)
        (l2_cb_heap n) (l2_trace n) (set_bcmp_queue [] (l2_upper n))));
  _ ← modify (set_bctx (MkBcmpContext timer_ok false num_ports));
  err ← bcmp_heartbeat_init;
  err ← unless_err err ping_init;
  err ← unless_err err time_init;
  err ← unless_err err bm_dfu_init;
  err ← unless_err err bcmp_config_init;
  err ← unless_err err (bcmp_neighbor_init num_ports);
  err ← unless_err err bcmp_device_info_init;
  err ← unless_err err bcmp_resource_discovery_init;
  err ← unless_err err (mret os_task_create);
  unless_err err (with_net (bm_l2_register_link_change_callback (Some bcmp_link_change_cb))).
End bcmp.

(** ** The layout of a frame *)

Lemma linux_layout (P : Platform) : layout linux_cb 22 38 54.
Proof.
  split; try done; intros f n Hok Hn Hl. cbn [cb_checksum linux_cb].
  rewrite <- (Z2Nat.id n) by lia. rewrite message_get_checksum_eq by lia.
  destruct (ipv6_pseudo_checksum_spec P (slice 22 16 f) (slice 38 16 f) ip_proto_bcmp
              (slice 54 (Z.to_nat n) f)) as (c & E & Hc & _);
    try first [by apply bytes_ok_slice | rewrite length_slice; lia | decided].
  exists c. split; [exact E|lia].
Qed.

(** The bytes in front of the BCMP header, as sent. *)
Definition bcmp_chunks (node_id : Z) (dst : BmIpAddr) (n : Z) : list bytes :=
  [if is_multicast (Some dst) then multicast_mac_from_ipv6 dst else repeat 0xFF 6;
   mac_from_nodeid node_id; [0x86; 0xDD]; [0x60; 0; 0; 0];
   [u8 (Z.shiftr n 8); u8 n]; [ip_proto_bcmp; 64]].

Definition bcmp_pre (node_id : Z) (src dst : BmIpAddr) (n : Z) : bytes :=
  concat (bcmp_chunks node_id dst n) ++ src ++ dst.

Lemma length_bcmp_chunks node_id dst n : length (concat (bcmp_chunks node_id dst n)) = 22%nat.
Proof. unfold bcmp_chunks. cbn [concat]. by rewrite !length_app, length_eth_dst. Qed.

Lemma length_bcmp_pre node_id src dst n :
  length src = 16%nat -> length dst = 16%nat -> length (bcmp_pre node_id src dst n) = 54%nat.
Proof. intros Hs Hd. unfold bcmp_pre. by rewrite !length_app, length_bcmp_chunks, Hs, Hd. Qed.

Lemma bcmp_headers_chunks node_id dst n :
  frame_headers node_id dst n ip_proto_bcmp = at_offsets 0 (bcmp_chunks node_id dst n).
Proof.
  unfold bcmp_chunks, frame_headers. cbn [at_offsets app]. by rewrite length_eth_dst.
Qed.

Lemma bcmp_chunks_ok node_id dst n : bytes_ok dst -> bytes_ok (concat (bcmp_chunks node_id dst n)).
Proof.
  intros Hd. unfold bcmp_chunks. cbn [concat].
  assert (Hn : forall i, byte_ok (addr_byte dst i)) by (intros i; by apply nth_byte_ok).
  assert (Hu : forall z, byte_ok (u8 z)) by (intros z; apply u8_range).
  assert (Hmac : bytes_ok (mac_from_nodeid node_id)).
  { unfold mac_from_nodeid. repeat (apply Forall_cons; split; [|]); auto. apply (land_range 8); lia. }
  repeat (apply Forall_app; split); try done; try decided.
  - case_match; [|decided]. unfold multicast_mac_from_ipv6.
    repeat (apply Forall_cons; split; [try apply Hn; unfold byte_ok; lia|]). done.
  - repeat (apply Forall_cons; split; [apply Hu|]). done.
Qed.

Lemma bcmp_pre_ok node_id src dst n :
  bytes_ok src -> bytes_ok dst -> bytes_ok (bcmp_pre node_id src dst n).
Proof. intros. apply bytes_ok_app; [by apply bcmp_chunks_ok|by apply bytes_ok_app]. Qed.

(** The parts of a frame that begins with [h ++ src ++ dst]. *)
Lemma frame_parts h src dst rest :
  length h = 22%nat -> length src = 16%nat -> length dst = 16%nat ->
  let f := h ++ src ++ dst ++ rest in
  slice 22 16 f = src /\ slice 38 16 f = dst /\ drop 54 f = rest /\ take 54 f = h ++ src ++ dst.
Proof.
  intros Hh Hs Hd f. unfold f. split_and!.
  - rewrite slice_app_r, Hh by lia. unfold slice. rewrite drop_0, <- Hs. apply take_app_length.
  - rewrite !slice_app_r, Hh, Hs by lia. unfold slice. rewrite drop_0, <- Hd. apply take_app_length.
  - rewrite !app_assoc, drop_app_length'; [done|]. rewrite !length_app. lia.
  - rewrite !app_assoc, take_app_length'; [done|]. rewrite !length_app. lia.
Qed.

(** The checksum sees the addresses and the packet only. *)
Lemma checksum_of_frame (P : Platform) h src dst b :
  length h = 22%nat -> length src = 16%nat -> length dst = 16%nat ->
  message_get_checksum (h ++ src ++ dst ++ b) (Z.of_nat (length b))
  = ipv6_pseudo_checksum src dst ip_proto_bcmp b.
Proof.
  intros Hh Hs Hd. destruct (frame_parts h src dst b Hh Hs Hd) as (E1 & E2 & E3 & _).
  rewrite message_get_checksum_eq by (rewrite !length_app; lia). rewrite E1, E2.
  unfold slice. rewrite E3. by rewrite firstn_all.
Qed.

Section specs.
Context {R : Type} `{Platform} `{L2Os} (node_id : Z).
#[local] Abbreviation net_st := (l2_state linux_ctx).
#[local] Abbreviation st := (packet_state (node R)).

(** A new frame has its addresses. *)
Lemma tx_new_room (s : net_st) dst n :
  LinuxBuf.alloc_ok (l2_bufs s) = [] -> (forall i, byte_ok (junk (l2_bufs s) i)) ->
  0 <= n < 65000 -> length (ll_addr (l2_upper s)) = 16%nat -> length dst = 16%nat ->
  exists h b,
    bm_ip_tx_new (Some dst) n s
    = Some (Some (fresh (dom (bufs (l2_bufs s)))),
        set_l2_bufs (set_bufs (<[fresh (dom (bufs (l2_bufs s))) :=
            MkLinuxBuf 1 (54 + n) (54 + n) (h ++ ll_addr (l2_upper s) ++ dst ++ b)]>
            (bufs (l2_bufs s))) (l2_bufs s)) s)
    /\ length h = 22%nat /\ length b = Z.to_nat n /\ bytes_ok h /\ bytes_ok b.
Proof.
  intros Hal Hjunk Hn Hs Hd. unfold bm_ip_tx_new. change (Z.of_nat FRAME_HDR_LEN) with 54.
  rewrite u32_small by lia. set (src := ll_addr (l2_upper s)) in *. set (t := fresh _).
  set (j := junk (l2_bufs s) <$> seq 0 (Z.to_nat (54 + n))).
  assert (Hj : length j = (54 + Z.to_nat n)%nat) by (unfold j; rewrite length_fmap, length_seq; lia).
  assert (Hjok : bytes_ok j) by (apply Forall_fmap, Forall_forall; intros; apply Hjunk).
  exists (take 22 j), (drop 54 j).
  assert (Ht : length (take 22 j) = 22%nat) by (rewrite length_take; lia).
  split_and!; [|done|rewrite length_drop; lia|by apply Forall_take|by apply Forall_drop].
  erewrite bind_some by (apply with_bufs_some; by apply bm_l2_new_some). fold t j. cbv iota.
  erewrite bind_some by reflexivity. cbn [l2_upper set_l2_bufs]. fold src.
  erewrite bind_some.
  2: { apply with_bufs_some. eapply payload_store_some; [cbn; by rewrite lookup_insert_eq|].
       cbn [payload]. pose proof (store_chunks [src; dst] (take 22 j) (drop 22 j)) as Hst.
       cbn [at_offsets concat] in Hst. rewrite Ht, Hs, app_nil_r, take_drop in Hst.
       apply Hst. rewrite length_app, length_drop. lia. }
  unfold mret, M_ret. do 2 f_equal. unfold set_l2_bufs, set_bufs, set_payload. cbn.
  rewrite insert_insert_eq. do 4 f_equal. rewrite length_app, Hs, Hd, drop_drop, <- app_assoc. done.
Qed.

(** Sending to the address that the frame has. *)
Lemma tx_perform_room (s : net_st) t h src dst b q :
  bufs (l2_bufs s) !! t
    = Some (MkLinuxBuf 1 (54 + Z.of_nat (length b)) (54 + Z.of_nat (length b)) (h ++ src ++ dst ++ b)) ->
  length h = 22%nat -> length src = 16%nat -> length dst = 16%nat -> nth 13 dst 0 = 0 ->
  Z.of_nat (length b) < 65000 ->
  evt_queue (l2_ctx s) = Some q -> (length q < evt_queue_len)%nat ->
  let f := bcmp_pre node_id src dst (Z.of_nat (length b)) ++ b in
  bm_ip_tx_perform node_id (Some t) None s
  = Some (BmOK,
      set_ctx (set_evt_queue (Some (q ++ [MkElement L2Tx (54 + Z.of_nat (length b)) (Some t)
                 (Z.land (all_ports_mask (l2_ctx s)) (enabled_ports_mask (l2_ctx s)))])))
        (set_l2_bufs (set_bufs (<[t := MkLinuxBuf 2 (54 + Z.of_nat (length b))
                                          (54 + Z.of_nat (length b)) f]> (bufs (l2_bufs s)))
                        (l2_bufs s)) s)).
Proof.
  intros Hb Hh Hs Hd H13 Hlen Hq Hroom f.
  destruct (frame_parts h src dst b Hh Hs Hd) as (E1 & E2 & E3 & E4).
  set (g := h ++ src ++ dst ++ b) in *.
  assert (Hgl : length g = (54 + length b)%nat) by (unfold g; rewrite !length_app; lia).
  unfold bm_ip_tx_perform. erewrite bind_some.
  2: { apply with_bufs_some. by apply get_buf_some. }
  cbn [payload len]. unfold message_get_dst_ip, read_at.
  destruct (Nat.leb_spec (38 + 16) (length g)); [|lia]. rewrite E2.
  erewrite bind_some by reflexivity. change (Z.of_nat FRAME_HDR_LEN) with 54.
  replace (54 + Z.of_nat (length b) - 54) with (Z.of_nat (length b)) by lia.
  rewrite u16_small by lia. rewrite app_nil_r, bcmp_headers_chunks.
  rewrite set_l2_bufs_same.
  erewrite bind_some.
  2: { apply with_bufs_some. eapply payload_store_some; [exact Hb|]. cbn [payload].
       pose proof (store_chunks (bcmp_chunks node_id dst (Z.of_nat (length b))) [] g) as Hst.
       cbn [length app] in Hst. rewrite Hst by (rewrite length_bcmp_chunks; lia).
       rewrite length_bcmp_chunks. reflexivity. }
  assert (Ef : concat (bcmp_chunks node_id dst (Z.of_nat (length b))) ++ drop 22 g = f).
  { unfold f, bcmp_pre, g. rewrite <- Hh, drop_app_length. by rewrite <- !app_assoc. }
  cbn [payload set_payload]. rewrite Ef.
  assert (Hfl : length f = (54 + length b)%nat)
    by (unfold f; rewrite length_app, length_bcmp_pre by done; done).
  assert (H51 : nth 51 f 0 = 0).
  { unfold f, bcmp_pre. rewrite <- !app_assoc, app_nth2; rewrite length_bcmp_chunks; [|lia].
    rewrite app_nth2; rewrite Hs; [|lia]. rewrite app_nth1; [|lia]. exact H13. }
  set (s1 := set_l2_bufs _ s).
  set (bt := MkLinuxBuf 1 (54 + Z.of_nat (length b)) (54 + Z.of_nat (length b)) f).
  assert (Hb1 : bufs (l2_bufs s1) !! t = Some bt) by (cbn; by rewrite lookup_insert_eq).
  pose proof (link_output_room s1 t bt q (54 + Z.of_nat (length b)) Hb1
    ltac:(unfold bt; cbn [ref]; lia) ltac:(unfold bt; cbn [payload]; lia) Hq Hroom) as E. cbn [len payload bt ref alloc_size] in E.
  erewrite bind_some by exact E. cbn [is_ok negb when]. erewrite bind_some by reflexivity.
  unfold link_mask. rewrite H51. cbn [Z.ltb Z.compare andb].
  assert (E51 : set_byte 51 0 f = f) by (rewrite <- H51; apply set_byte_nth; lia).
  rewrite E51. unfold mret, M_ret. do 2 f_equal. unfold s1, set_ctx, set_l2_bufs, set_bufs. cbn.
  by rewrite insert_insert_eq.
Qed.

Lemma with_net_some {A} (m : M net_st A) (s : st) a n :
  m (net (world s)) = Some (a, n) ->
  with_net m s = Some (a, set_world (MkNode n (bctx (world s)) (rest (world s))) s).
Proof. intros E. unfold with_net, zoom. by rewrite E. Qed.

Lemma blit_checksum pre type seq ck ck' body :
  length pre = 54%nat -> length ck = 2%nat -> length ck' = 2%nat ->
  blit 56 ck' (packet_frame pre type seq ck body) = packet_frame pre type seq ck' body.
Proof.
  intros Hp Hc Hc'. pose proof (write_checksum pre type seq ck ck' body Hc Hc') as E.
  rewrite Hp in E. unfold write_at in E. by case_match; [injection E|].
Qed.

Lemma slice_checksum pre type seq ck body :
  length pre = 54%nat -> length ck = 2%nat -> slice 56 2 (packet_frame pre type seq ck body) = ck.
Proof.
  intros Hp Hc. pose proof (read_checksum pre type seq ck body Hc) as E. rewrite Hp in E.
  unfold read_at in E. by case_match; [injection E|].
Qed.

(** The fields of the prefix. *)
Lemma bcmp_pre_fields src dst n b :
  length src = 16%nat -> length dst = 16%nat -> 0 <= n < 65536 ->
  let f := bcmp_pre node_id src dst n ++ b in
  ethernet_get_type f = ethernet_type_ipv6 /\ be16 18 f = n /\ nth 20 f 0 = ip_proto_bcmp
  /\ slice 22 16 f = src /\ slice 38 16 f = dst /\ drop 54 f = b.
Proof.
  intros Hs Hd Hn f. set (h := concat (bcmp_chunks node_id dst n)).
  assert (Hh : length h = 22%nat) by apply length_bcmp_chunks.
  assert (Ef : f = h ++ src ++ dst ++ b) by (unfold f, bcmp_pre; by rewrite <- !app_assoc).
  destruct (frame_parts h src dst b Hh Hs Hd) as (E22 & E38 & E54 & _). rewrite <- Ef in *.
  set (e := if is_multicast (Some dst) then multicast_mac_from_ipv6 dst else repeat 0xFF 6).
  assert (He : length e = 6%nat) by apply length_eth_dst.
  assert (Eh : h = (e ++ mac_from_nodeid node_id)
    ++ [0x86; 0xDD; 0x60; 0; 0; 0] ++ [u8 (Z.shiftr n 8); u8 n; ip_proto_bcmp; 64]).
  { unfold h, bcmp_chunks, e. cbn [concat]. by rewrite app_nil_r, <- !app_assoc. }
  assert (Hm : length (e ++ mac_from_nodeid node_id) = 12%nat) by (rewrite length_app, He; done).
  split_and!; [| | |done..].
  - unfold ethernet_get_type. change ethernet_type_offset with 12%nat. rewrite Ef, Eh, <- app_assoc, slice_app_r, Hm by lia. done.
  - unfold be16. rewrite Ef, Eh, <- app_assoc, slice_app_r, Hm by lia.
    change (slice (18 - 12) 2 _) with [u8 (Z.shiftr n 8); u8 n]. by apply be16_bytes.
  - rewrite Ef, Eh, <- app_assoc, app_nth2, Hm by lia. done.
Qed.

(** The addresses of a node and of a group of nodes. *)
Record addresses_ok (src dst : BmIpAddr) : Prop := {
  ao_src : bytes_ok src /\ length src = 16%nat;
  ao_dst : bytes_ok dst /\ length dst = 16%nat;
  ao_plain : nth 2 src 0 = 0 /\ slice 4 4 src = [0; 0; 0; 0];
  ao_group : nth 13 dst 0 = 0
}.

(** A network that can send. *)
Record net_ready (n : net_st) (q : list L2QueueElement) : Prop := {
  nr_alloc : LinuxBuf.alloc_ok (l2_bufs n) = [];
  nr_junk : forall i, byte_ok (junk (l2_bufs n) i);
  nr_queue : evt_queue (l2_ctx n) = Some q /\ (length q < evt_queue_len)%nat
}.

(** The frame of a BCMP message. *)
Definition bcmp_frame (src dst : BmIpAddr) (type seq c : Z) (body : bytes) : bytes :=
  packet_frame (bcmp_pre node_id src dst (13 + Z.of_nat (length body))) type seq
    (native_store 2 c) body.

Lemma bcmp_frame_packet src dst type seq c body :
  addresses_ok src dst -> bytes_ok body -> Z.of_nat (length body) < 65000 ->
  ipv6_pseudo_checksum src dst ip_proto_bcmp (wire_header type seq [0; 0] ++ body) = Some c ->
  bcmp_packet (bcmp_frame src dst type seq c body) (13 + length body) c.
Proof.
  intros [[Hs Hsl] [Hd Hdl] _ _] Hb Hl Hc. unfold bcmp_frame.
  set (pre := bcmp_pre _ _ _ _).
  assert (Hp : length pre = 54%nat) by (by apply length_bcmp_pre).
  assert (Hn : length (native_store 2 c) = 2%nat) by apply length_native_store.
  unfold packet_frame.
  destruct (bcmp_pre_fields src dst (13 + Z.of_nat (length body))
    (wire_header type seq (native_store 2 c) ++ body) Hsl Hdl ltac:(lia)) as (Et & _ & En & _).
  fold pre in Et, En. split.
  - apply bytes_ok_app; [by apply bcmp_pre_ok|]. apply bytes_ok_app; [|done].
    apply wire_header_ok, native_store_ok.
  - rewrite !length_app, length_wire_header, Hp by done. lia.
  - lia.
  - exact Et.
  - exact En.
  - change (pre ++ _) with (packet_frame pre type seq (native_store 2 c) body).
    rewrite blit_checksum by done. unfold packet_frame, pre, bcmp_pre. rewrite <- !app_assoc.
    replace (Z.of_nat (13 + length body)) with (Z.of_nat (length (wire_header type seq [0; 0] ++ body)))
      by (rewrite length_app, length_wire_header by done; lia).
    rewrite checksum_of_frame; [done|apply length_bcmp_chunks|done|done].
  - by apply slice_checksum.
Qed.

Lemma can_send_net (s : st) c es type cfg n :
  can_send s c es type cfg ->
  can_send (set_world (MkNode n (bctx (world s)) (rest (world s))) s) c es type cfg.
Proof. apply can_send_world. Qed.

Lemma next_seq_world (s : st) es cfg type seq_num cb :
  ready s -> requests_are s es ->
  exists s', next_seq_num cfg type seq_num cb s = Some (seq_of cfg seq_num s, s')
    /\ world s' = world s.
Proof.
  intros Hr He. destruct (next_seq_num_ready s es cfg type seq_num cb Hr He) as (ll & h & E & _).
  eexists. split; [exact E|]. by destruct (negb _ && _).
Qed.

(** The ports that a frame for all of them leaves by: those that are up. *)
Definition out_mask (n : net_st) : Z :=
  Z.land (all_ports_mask (l2_ctx n)) (enabled_ports_mask (l2_ctx n)).

(** [bcmp_tx] on a node that has the memory and the room for it. *)
Lemma bcmp_tx_room (s : st) es type cfg d0 dst q seq_num cb :
  let src := ll_addr (l2_upper (net (world s))) in
  can_send s linux_cb es type cfg -> net_ready (net (world s)) q -> addresses_ok src dst ->
  0 <= type < 2 ^ 16 -> type <> BcmpEchoRequestMessage ->
  bytes_ok d0 -> (swapped_size type <= length d0)%nat -> Z.of_nat (length d0) <= 1448 ->
  let t := fresh (dom (bufs (l2_bufs (net (world s))))) in
  exists c d1 s',
    bcmp_tx node_id (Some dst) type (Some d0) (Z.of_nat (length d0)) seq_num cb s = Some (BmOK, s')
    /\ check_endianness type d1 = Some d0 /\ length d1 = length d0 /\ bytes_ok d1
    /\ 0 <= c < 65536
    /\ ipv6_pseudo_checksum src dst ip_proto_bcmp
         (wire_header type (seq_of cfg seq_num s) [0; 0] ++ d1) = Some c
    /\ l2_ctx (net (world s'))
       = set_evt_queue (Some (q ++ [MkElement L2Tx (67 + Z.of_nat (length d0)) (Some t)
           (out_mask (net (world s)))])) (l2_ctx (net (world s)))
    /\ l2_trace (net (world s')) = l2_trace (net (world s))
    /\ bufs (l2_bufs (net (world s')))
       = <[t := MkLinuxBuf 1 (67 + Z.of_nat (length d0)) (67 + Z.of_nat (length d0))
                  (bcmp_frame src dst type (seq_of cfg seq_num s) c d1)]>
           (bufs (l2_bufs (net (world s)))).
Proof.
  intros src Hs [Hal Hjunk [Hq Hroom]] Hao Ht Hne Hdok Hds Hdl t.
  pose proof Hao as [[Hso Hsl] [Hdo Hdl'] _ H13].
  destruct (check_endianness_inverse _ type d0 Hne Hdok Hds) as (d1 & E1 & L1 & O1 & E0).
  destruct (tx_new_room (net (world s)) dst (Z.of_nat (length d0) + 13) Hal Hjunk ltac:(lia) Hsl Hdl')
    as (h & b & Enew & Hh & Hb & Hhok & Hbok). fold src in Hsl.
  set (f0 := h ++ src ++ dst ++ b).
  destruct (frame_parts h src dst b Hh Hsl Hdl') as (_ & _ & _ & E54). fold f0 in E54.
  assert (Hf0 : length f0 = (54 + 13 + length d1)%nat) by (unfold f0; rewrite !length_app; lia).
  assert (Hf0ok : bytes_ok f0) by (unfold f0; repeat apply bytes_ok_app; done).
  set (n1 := set_l2_bufs _ (net (world s))) in Enew.
  set (s1 := set_world (MkNode n1 (bctx (world s)) (rest (world s))) s).
  pose proof (can_send_net s _ es type cfg n1 Hs) as Hs1. fold s1 in Hs1.
  destruct Hs1 as [Hr1 Hi1 Hc1 He1 (ps & Hp1 & Hcfg1)].
  destruct (serialize_known s1 es ps linux_cb 22 38 54 f0 d0 d1 type cfg seq_num cb)
    as (c & s2 & Hck & Hcr & Hseq & Eser); try done; [apply linux_layout|lia|].
  destruct (next_seq_world s1 es cfg type seq_num cb Hr1 He1) as (s2' & Hseq' & Hw2).
  rewrite Hseq in Hseq'. injection Hseq' as <-.
  change (seq_of cfg seq_num s1) with (seq_of cfg seq_num s) in *.
  set (seq := seq_of cfg seq_num s) in *.
  rewrite E54 in Hck, Eser. cbn [cb_checksum linux_cb] in Hck.
  set (body ck := wire_header type seq ck ++ d1).
  assert (Eg : forall ck, packet_frame (h ++ src ++ dst) type seq ck d1 = h ++ src ++ dst ++ body ck)
    by (intros ck; unfold packet_frame; by rewrite <- !app_assoc).
  assert (Hbl : forall ck, length ck = 2%nat -> length (body ck) = (13 + length d1)%nat)
    by (intros ck Hk; unfold body; rewrite length_app, length_wire_header by done; done).
  rewrite Eg in Hck. replace (Z.of_nat (length d1) + 13) with (Z.of_nat (length (body [0; 0])))
    in Hck by (rewrite Hbl by done; lia).
  rewrite checksum_of_frame in Hck by done. rewrite Eg in Eser.
  set (ck := native_store 2 c) in *. assert (Hckl : length ck = 2%nat) by apply length_native_store.
  set (bt := MkLinuxBuf 1 (54 + (Z.of_nat (length d0) + 13)) (54 + (Z.of_nat (length d0) + 13))).
  assert (Hb2 : bufs (l2_bufs (net (world s2))) !! t = Some (bt f0)).
  { rewrite Hw2. cbn. by rewrite lookup_insert_eq. }
  set (n2 := set_l2_bufs (set_bufs (<[t := bt (h ++ src ++ dst ++ body ck)]>
    (bufs (l2_bufs (net (world s2))))) (l2_bufs (net (world s2)))) (net (world s2))).
  assert (Ebt : bt = MkLinuxBuf 1 (54 + Z.of_nat (length (body ck))) (54 + Z.of_nat (length (body ck))))
    by (unfold bt; rewrite Hbl by done; do 2 f_equal; lia).
  pose proof (tx_perform_room n2 t h src dst (body ck) q) as Eperf. cbv zeta in Eperf.
  rewrite <- Ebt in Eperf. specialize (Eperf ltac:(cbn; by rewrite lookup_insert_eq) Hh Hsl Hdl' H13
    ltac:(rewrite Hbl by done; lia)).
  assert (Hqn2 : evt_queue (l2_ctx n2) = Some q) by (cbn; by rewrite Hw2).
  specialize (Eperf Hqn2 Hroom).
  set (fr := bcmp_pre node_id src dst (Z.of_nat (length (body ck))) ++ body ck) in Eperf.
  assert (Efr : fr = bcmp_frame src dst type seq c d1).
  { unfold fr, bcmp_frame, packet_frame. rewrite Hbl by done. do 3 f_equal. lia. }
  set (n3 := set_ctx _ _) in Eperf.
  assert (Hb3 : bufs (l2_bufs n3) !! t = Some (MkLinuxBuf 2 (54 + Z.of_nat (length (body ck)))
    (54 + Z.of_nat (length (body ck))) fr)) by (cbn; by rewrite lookup_insert_eq).
  exists c, d1. eexists. split; [|split; [done|split; [done|split; [done|split; [done|split]]]]].
  - unfold bcmp_tx. change sizeof_BcmpHeartbeat with 12. change max_payload_len with 1460.
    rewrite u32_small by lia. destruct (Z.leb_spec (Z.of_nat (length d0) + 12) 1460); [|lia].
    change (Z.of_nat sizeof_BcmpHeader) with 13.
    erewrite bind_some by (by apply with_net_some). cbv iota. fold s1.
    unfold buffer_bytes. erewrite bind_some.
    2: { apply with_net_some, with_bufs_some, (bm_l2_get_payload_some _ _ (bt f0)).
         cbn. by rewrite lookup_insert_eq. }
    cbn [payload bt]. rewrite set_l2_bufs_same.
    change (set_world (MkNode (net (world s1)) (bctx (world s1)) (rest (world s1))) s1) with s1.
    rewrite <- L1. erewrite bind_some by exact Eser. cbv beta iota. cbn [is_ok].
    erewrite bind_some by reflexivity.
    unfold set_buffer_bytes. erewrite bind_some.
    2: { apply with_net_some, with_bufs_some. eapply payload_store_some; [exact Hb2|reflexivity]. }
    erewrite bind_some by (apply with_net_some; exact Eperf).
    erewrite bind_some.
    2: { apply with_net_some. unfold ip_tx_cleanup. apply with_bufs_some. unfold bm_ip_tx_cleanup.
         eapply bm_l2_free_shared; [exact Hb3|cbn; lia]. }
    reflexivity.
  - exact Hck.
  - assert (Hlen : 54 + Z.of_nat (length (body ck)) = 67 + Z.of_nat (length d0))
      by (rewrite Hbl by done; lia).
    assert (Hq3 : l2_ctx n3 = set_evt_queue (Some (q ++ [MkElement L2Tx
      (54 + Z.of_nat (length (body ck))) (Some t) (out_mask (net (world s)))]))
      (l2_ctx (net (world s))) /\ l2_trace n3 = l2_trace (net (world s)))
      by (unfold n3, n2, out_mask; cbn; by rewrite Hw2).
    assert (Hbn : bufs (l2_bufs (net (world s2)))
      = <[t := bt f0]> (bufs (l2_bufs (net (world s))))) by (by rewrite Hw2).
    rewrite Hlen in Hq3, Hb3. split; [exact (proj1 Hq3)|]. split; [exact (proj2 Hq3)|].
    rewrite <- Efr, <- Hlen.
    etransitivity; [cbn [world set_world net l2_bufs set_l2_bufs bufs set_bufs]; reflexivity|].
    change (bufs (l2_bufs n3)) with (<[t := MkLinuxBuf 2 (54 + Z.of_nat (length (body ck)))
      (54 + Z.of_nat (length (body ck))) fr]> (<[t := bt (h ++ src ++ dst ++ body ck)]>
        (bufs (l2_bufs (net (world s2)))))).
    rewrite Hbn, !insert_insert_eq. reflexivity.
Qed.

(** What arrives: the frame with the sender's egress port and the receiver's
    ingress port in its source address, and its checksum moved by the former. *)
Definition arrived (port ingress : Z) (f : bytes) : bytes :=
  set_byte 24 (16 * ingress + port) (with_egress port f).

Lemma set24_pre (b : Z) pre rest : length pre = 54%nat -> set_byte 24 b (pre ++ rest) = set_byte 24 b pre ++ rest.
Proof. intros Hp. apply insert_app_l. lia. Qed.

Lemma with_egress_frame src dst type seq c body port :
  little_endian = true -> addresses_ok src dst -> bytes_ok body -> Z.of_nat (length body) < 65000 ->
  0 <= port <= 15 -> port <= c < 65536 ->
  ipv6_pseudo_checksum src dst ip_proto_bcmp (wire_header type seq [0; 0] ++ body) = Some c ->
  let pre := set_byte 24 port (bcmp_pre node_id src dst (13 + Z.of_nat (length body))) in
  with_egress port (bcmp_frame src dst type seq c body)
  = packet_frame pre type seq (native_store 2 (c - port)) body
  /\ cb_checksum linux_cb (packet_frame pre type seq [0; 0] body) (Z.of_nat (length body) + 13)
     = Some (c - port).
Proof.
  intros HP Hao Hb Hl Hport Hc Hck pre.
  pose proof (bcmp_frame_packet src dst type seq c body Hao Hb Hl Hck) as Hpk.
  pose proof Hao as [[Hs Hsl] [Hd Hdl] [H2 _] _].
  assert (Hpre : length pre = 54%nat) by (unfold pre; by rewrite length_set_byte, length_bcmp_pre).
  assert (Hn : forall v, length (native_store 2 v) = 2%nat) by (intros; apply length_native_store).
  set (f := bcmp_frame src dst type seq c body) in *.
  assert (Hf24 : set_byte 24 port f = packet_frame pre type seq (native_store 2 c) body).
  { unfold f, bcmp_frame, packet_frame, pre. rewrite set24_pre by (by apply length_bcmp_pre). done. }
  assert (Hz : nth 24 f 0 = 0).
  { destruct (bcmp_pre_fields src dst (13 + Z.of_nat (length body))
      (wire_header type seq (native_store 2 c) ++ body) Hsl Hdl ltac:(lia)) as (_ & _ & _ & E22 & _).
    change (_ ++ wire_header _ _ _ ++ body) with f in E22. rewrite <- E22 in H2.
    rewrite nth_lookup, lookup_slice in H2 by lia. by rewrite nth_lookup. }
  destruct (egress_checksum_of _ f (13 + length body) c port HP Hpk Hz Hport) as (c' & Ec' & _ & Hiff).
  destruct (stored_with_egress _ f (13 + length body) c port HP Hpk Hport ltac:(lia)) as [Hst Hbl].
  rewrite u16_small in Hst by lia. replace (65535 - (65535 - c + port)) with (c - port) in Hst by lia.
  assert (Heq : c' = c - port) by (rewrite <- Hst; symmetry; apply Hiff; lia). subst c'.
  assert (Hw : with_egress port f = packet_frame pre type seq (native_store 2 (c - port)) body).
  { destruct Hpk as [Hok Hlf _ Ht Hnx _ Hs56]. unfold with_egress.
    rewrite checksum_op_set24 by lia. unfold checksum_op. rewrite Ht, Z.eqb_refl, Hnx.
    change (ip_proto_bcmp =? ip_proto_udp) with false. rewrite Z.eqb_refl, Hs56.
    rewrite native_load_store. change (256 ^ Z.of_nat 2) with 65536. rewrite (Z.mod_small c) by lia.
    rewrite u16_small by lia. replace (65535 - (65535 - c + port)) with (c - port) by lia.
    unfold set_byte. rewrite <- blit_insert_ne by (rewrite Hn; lia).
    change (<[24%nat := port]> f) with (set_byte 24 port f). rewrite Hf24. by apply blit_checksum. }
  split; [done|]. rewrite Hbl, Hf24, blit_checksum in Ec' by done.
  cbn [cb_checksum linux_cb]. by replace (Z.of_nat (length body) + 13) with (Z.of_nat (13 + length body)) by lia.
Qed.

Context (call_process : nat -> BcmpProcessData -> M st BmErr).
Context (call_reply : nat -> option bytes -> M st BmErr).
Context (bcmp_check_neighbors : M st unit).

Lemma classify_arrived src dst type seq c body port ingress :
  addresses_ok src dst -> Z.of_nat (length body) < 65000 ->
  let pre := set_byte 24 port (bcmp_pre node_id src dst (13 + Z.of_nat (length body))) in
  let g := set_byte 24 (16 * ingress + port) (packet_frame pre type seq (native_store 2 c) body) in
  classify g (67 + Z.of_nat (length body)) = Bcmp (13 + Z.of_nat (length body)).
Proof.
  intros [[Hs Hsl] [Hd Hdl] _ _] Hl pre g.
  destruct (bcmp_pre_fields src dst (13 + Z.of_nat (length body))
    (wire_header type seq (native_store 2 c) ++ body) Hsl Hdl ltac:(lia)) as (Et & E18 & En & _).
  set (f := bcmp_pre _ _ _ _ ++ _) in *.
  assert (Hp : length (bcmp_pre node_id src dst (13 + Z.of_nat (length body))) = 54%nat)
    by (by apply length_bcmp_pre).
  assert (Eg : g = set_byte 24 (16 * ingress + port) f).
  { unfold g, f, packet_frame, pre. rewrite !set24_pre by (rewrite ?length_set_byte; done).
    f_equal. unfold set_byte. by rewrite list_insert_insert_eq. }
  unfold classify. unfold ethernet_get_type in Et. unfold be16 in *.
  change ethernet_type_offset with 12%nat in Et.
  rewrite Eg, !slice_set_byte, !nth_set_byte_ne by lia. rewrite Et, E18, En.
  destruct (Z.ltb_spec (67 + Z.of_nat (length body)) 54); [lia|].
  destruct (Z.ltb_spec (67 + Z.of_nat (length body)) (13 + Z.of_nat (length body) + 54)); [lia|].
  rewrite !Z.eqb_refl. cbn [orb negb]. destruct (Z.ltb_spec (13 + Z.of_nat (length body)) 13); [lia|].
  done.
Qed.

(** The BCMP task with a frame that has arrived: the handler of its type is called
    with the sender's bytes, and the buffer given back. *)
Lemma handle_arrived src dst type seq c d0 d1 port ingress (r : st) r_id es cfg p l b :
  let n := Z.of_nat (length d0) in
  little_endian = true -> addresses_ok src dst -> 0 <= type < 2 ^ 16 -> 0 <= seq < 2 ^ 32 ->
  bytes_ok d1 -> length d1 = length d0 -> n <= 1448 -> check_endianness type d1 = Some d0 ->
  0 <= port <= 15 -> port <= c < 65536 -> 0 <= ingress < 16 ->
  ipv6_pseudo_checksum src dst ip_proto_bcmp (wire_header type seq [0; 0] ++ d1) = Some c ->
  can_send r linux_cb es type cfg -> process cfg = Some p ->
  sequenced_reply cfg && negb (sequenced_request cfg) = false \/ find_id seq es = None ->
  bufs (l2_bufs (net (world r))) !! l = Some b ->
  payload b = arrived port ingress (bcmp_frame src dst type seq c d1) ->
  bcmp_handle r_id call_process call_reply bcmp_check_neighbors
    (MkBcmpItem BcmpEventRx (Some l) (13 + n)) r
  = (_ ← call_process p
           (MkProcessData (MkHeader type (c - port) 0 0 seq 0 0 0) d0 n
              (set_byte 2 port src) dst ingress);
     with_net (with_bufs (bm_ip_rx_cleanup (Some l)))) r.
Proof.
  intros n HP Hao Ht Hseq O1 L1 Hdl E0 Hport Hc Hin Hck Hr Hp Hor Hbl Hpay.
  assert (Hl1 : Z.of_nat (length d1) < 65000) by lia.
  destruct (with_egress_frame src dst type seq c d1 port HP Hao O1 Hl1 Hport Hc Hck) as [Hw Hcs].
  cbv zeta in Hw, Hcs. set (pre := set_byte 24 port _) in *.
  unfold arrived in Hpay. set (g := set_byte 24 _ _) in Hpay.
  pose proof Hao as [[Hso Hsl] [Hdo Hdl'] [H2 Hz4] _].
  pose proof Hr as [Hrr Hri Hrc Hre (ps & Hps & Hcfg)].
  assert (Hpl : length pre = 54%nat) by (unfold pre; by rewrite length_set_byte, length_bcmp_pre).
  assert (Hsrc : slice 22 16 pre = set_byte 2 port src /\ slice 38 16 pre = dst).
  { unfold pre, bcmp_pre. set (h := concat _).
    assert (Hh : length h = 22%nat) by apply length_bcmp_chunks.
    destruct (frame_parts h src dst [] Hh Hsl Hdl') as (E22 & E38 & _). rewrite app_nil_r in *.
    split; [rewrite (slice_set_byte_in 22 16 2); by rewrite E22|by rewrite slice_set_byte by lia]. }
  destruct Hsrc as [Esrc Edst].
  assert (Hplain : plain_source 22 port pre).
  { split; [unfold pre, set_byte; apply list_lookup_insert_eq; rewrite length_bcmp_pre by done; lia|].
    rewrite <- Hz4. unfold pre. rewrite slice_set_byte by lia. unfold bcmp_pre. set (h := concat _).
    assert (Hh : length h = 22%nat) by apply length_bcmp_chunks.
    rewrite slice_app_r, Hh by lia. by rewrite slice_app_l by lia. }
  assert (Hprm : process_received_message call_process call_reply (Some g) n r
    = call_process p (MkProcessData (MkHeader type (c - port) 0 0 seq 0 0 0) d0 n
        (set_byte 2 port src) dst ingress) r).
  { pose proof (process_frame call_process call_reply r linux_cb 22 38 54 pre type seq
      (native_store 2 (c - port)) d1 port ingress (c - port) Hri Hrc (linux_layout _) Hpl Hplain
      ltac:(lia) Hin Ht Hseq (length_native_store _ _) (native_store_ok _ _) ltac:(lia) Hcs ltac:(lia))
      as Hpf. cbv zeta in Hpf. rewrite <- Hw, L1 in Hpf. fold n in Hpf.
    etransitivity; [exact Hpf|]. rewrite native_load_store, Z.mod_small, Z.eqb_refl
      by (change (256 ^ Z.of_nat 2) with 65536; lia).
    rewrite (dispatch_known call_process call_reply r ps _ cfg d0) by done.
    cbn [pd_header h_seq_num pd_size pd_src pd_dst pd_ingress_port].
    erewrite bind_some by (eapply take_reply_cb_none; [exact Hrr|exact Hre|done]).
    rewrite Hp, Esrc, Edst. f_equal. f_equal. unfold native_store. rewrite HP, le_dec_enc.
    f_equal. apply Z.mod_small. change (256 ^ Z.of_nat 2) with 65536. lia. }
  unfold bcmp_handle, buffer_bytes. cbn [bi_type bi_data bi_size].
  change (Z.of_nat sizeof_BcmpHeader) with 13. replace (13 + n - 13) with n by lia.
  rewrite u32_small by lia. unfold mbind, M_bind.
  rewrite (with_net_some _ r (payload b) (net (world r))).
  2: { etransitivity; [by apply with_bufs_some, bm_l2_get_payload_some|].
       by rewrite set_l2_bufs_same. }
  replace (set_world (MkNode (net (world r)) (bctx (world r)) (rest (world r))) r) with r
    by (destruct r as [? ? ? ? ? []]; done).
  rewrite Hpay. cbn [mret M_ret]. unfold mret, M_ret. rewrite Hprm.
  by destruct (call_process p _ r) as [[[] ?]|].
Qed.

(** A network whose tasks wait: their queues are empty. *)
Record net_waits (n : net_st) : Prop := {
  nw_ready : net_ready n [];
  nw_bcmp : bcmp_queue (l2_upper n) = [];
  nw_udp : exists es, ll_inv (udp_heap (l2_upper n)) (udp_list (l2_upper n)) es
}.

(** The network once the frame [w] that came by the port [ingress] has a buffer
    and is with the BCMP task: the queue of the BCMP task is [items]. *)
Definition with_frame (ingress : Z) (w : bytes) (items : loc -> list BcmpQueueItem) (n : net_st)
    : net_st :=
  let l := fresh (dom (bufs (l2_bufs n))) in
  let k := Z.of_nat (length w) in
  MkL2State (l2_ctx n)
    (set_bufs (<[l := MkLinuxBuf 1 k k (marked ingress w)]> (bufs (l2_bufs n))) (l2_bufs n))
    (l2_timer_heap n) (l2_cb_heap n)
    (l2_trace n ++ if pcap_cb (l2_ctx n) then [EvPcap w] else [])
    (set_bcmp_queue (items l) (l2_upper n)).

(** Reception of a frame for the neighbors' group, from the driver to the queue of
    the BCMP task. *)
Lemma rx_neighbor (n : net_st) w ingress k :
  net_waits n -> ipv6_frame w (Z.of_nat (length w)) ->
  slice 38 16 w = multicast_ll_addr -> 1 <= ingress <= 15 ->
  classify (marked ingress w) (Z.of_nat (length w)) = Bcmp k ->
  exists n1, bm_l2_rx ingress (Some w) n = Some (tt, n1)
    /\ bm_l2_thread_step bm_l2_submit n1
       = Some (tt, with_frame ingress w (fun l => [MkBcmpItem BcmpEventRx (Some l) k]) n).
Proof.
  intros [[Hal Hjunk [Hq Hroom]] Hbq (us & Hus)] Hipv6 Hdst Hin Hcl.
  pose proof Hipv6 as [Hok _].
  set (len := Z.of_nat (length w)) in *. set (l := fresh (dom (bufs (l2_bufs n)))).
  assert (Hmask : u16 (Z.shiftl 1 (ingress - 1)) = port_bit ingress).
  { unfold port_bit. apply u16_small. rewrite Z.shiftl_1_l.
    split; [apply Z.pow_nonneg; lia|]. apply (Z.pow_lt_mono_r 2 (ingress - 1) 16); lia. }
  set (n0 := add_trace (if pcap_cb (l2_ctx n) then [EvPcap w] else []) n).
  set (b0 := MkLinuxBuf 1 len len w).
  set (n1 := set_ctx (set_evt_queue (Some [MkElement L2Rx len (Some l) (port_bit ingress)]))
               (set_l2_bufs (set_bufs (<[l := b0]> (bufs (l2_bufs n))) (l2_bufs n)) n0)).
  exists n1. split.
  - unfold bm_l2_rx. fold len. rewrite Hmask. unfold ctx at 1. erewrite bind_some by reflexivity.
    assert (E0 : when (pcap_cb (l2_ctx n)) (emit (EvPcap w)) n = Some (tt, n0)).
    { unfold n0. destruct (pcap_cb (l2_ctx n)); [done|]. by rewrite add_trace_nil. }
    erewrite bind_some by exact E0.
    erewrite bind_some by (apply with_bufs_some; by apply bm_l2_new_some).
    change (l2_bufs n0) with (l2_bufs n). fold l. cbv iota.
    erewrite bind_some.
    2: { apply with_bufs_some. eapply payload_store_some; [cbn; by rewrite lookup_insert_eq|].
         unfold write_at. cbn [payload]. rewrite length_fmap, length_seq.
         destruct (Nat.leb_spec (0 + length w) (Z.to_nat len)); [|unfold len in *; lia].
         unfold blit. rewrite take_0, drop_ge by (rewrite length_fmap, length_seq; unfold len; lia).
         by rewrite app_nil_r. }
    unfold evt_queue_send, ctx. cbn [l2_ctx set_l2_bufs n0 add_trace].
    erewrite bind_some.
    2: { erewrite bind_some by reflexivity. unfold lift. cbn. rewrite Hq.
         erewrite bind_some by reflexivity. reflexivity. }
    cbn [is_ok]. unfold n1, set_ctx, set_l2_bufs, set_bufs, set_payload, n0, add_trace, mret, M_ret.
    cbn. by rewrite insert_insert_eq.
  - unfold bm_l2_thread_step. unfold ctx at 1. erewrite bind_some by reflexivity.
    cbn [l2_ctx n1 set_ctx evt_queue set_evt_queue]. erewrite bind_some by apply lift_some.
    cbn [el_type]. erewrite bind_some by reflexivity.
    unfold bm_l2_process_rx_evt. cbn [el_buf el_length el_port_mask].
    set (n2 := set_ctx (set_evt_queue (Some [])) n1).
    assert (Hb2 : bufs (l2_bufs n2) !! l = Some b0) by (cbn; by rewrite lookup_insert_eq).
    erewrite bind_some by (apply with_bufs_some; by apply bm_l2_get_payload_some).
    rewrite set_l2_bufs_same. unfold ctx at 1. erewrite bind_some by reflexivity.
    assert (Epol : bm_l2_policy_rx_apply (Some (payload b0)) len (port_bit ingress)
      (all_ports_mask (l2_ctx n2)) (routing_cb (l2_ctx n2))
      = (MkRxResult true 0 ingress, Some (marked ingress w))).
    { rewrite rx_apply_ipv6 by done. cbn zeta. cbn [payload b0]. rewrite Hdst.
      by destruct (routing_cb (l2_ctx n2)). }
    rewrite Epol. erewrite bind_some by (apply with_bufs_some; by eapply payload_store_some).
    cbn [egress_mask should_submit Z.eqb]. erewrite bind_some by reflexivity.
    set (n3 := set_l2_bufs _ n2). unfold submit, zoom.
    erewrite bind_some.
    2: { rewrite (submit_cases _ (l2_bufs n3) (l2_upper n3) l (set_payload (marked ingress w) b0)
           len us); [| |reflexivity| | |exact Hal|exact Hus].
         - cbn [payload set_payload]. rewrite Hcl. cbn. rewrite Hbq. reflexivity.
         - cbn. by rewrite lookup_insert_eq.
         - cbn. unfold marked. apply bytes_ok_set_byte; [|done]. unfold byte_ok. plia.
         - cbn. unfold marked. rewrite length_set_byte. unfold len. lia. }
    cbn [is_ok]. unfold n3, n2, n1, n0, with_frame, add_trace, set_ctx, set_l2_bufs, set_bufs,
      set_payload, mret, M_ret. cbn. fold l. rewrite !insert_insert_eq.
    do 2 f_equal. clear -Hq. destruct n as [[] bu th ch tr up]. cbn in *. by rewrite Hq.
Qed.

(** The pass of the layer 2 task that sends a frame to the neighbors. *)
Lemma tx_neighbors (n0 n : net_st) t f k mask :
  l2_ctx n = set_evt_queue (Some [MkElement L2Tx k (Some t) mask]) (l2_ctx n0) ->
  l2_trace n = l2_trace n0 ->
  bufs (l2_bufs n) = <[t := MkLinuxBuf 1 k k f]> (bufs (l2_bufs n0)) ->
  bufs (l2_bufs n0) !! t = None ->
  bytes_ok f -> (61 <= length f)%nat -> k = Z.of_nat (length f) -> nth 24 f 0 = 0 ->
  slice 38 16 f = multicast_ll_addr -> 0 <= num_ports (l2_ctx n0) <= 15 ->
  is_Some (network_device (l2_ctx n0)) ->
  exists n2, bm_l2_thread_step bm_l2_submit n = Some (tt, n2)
    /\ evt_queue (l2_ctx n2) = Some [] /\ bufs (l2_bufs n2) = bufs (l2_bufs n0)
    /\ l2_trace n2 = l2_trace n0
         ++ concat ((fun i => port_events (pcap_cb (l2_ctx n0)) (i + 1) (with_egress (i + 1) f))
                      <$> ports_of (num_ports (l2_ctx n0)) mask).
Proof.
  intros Hc Htr Hb Hfr Hok Hl Hk Hz Hdst Hnp Hd. set (bt := MkLinuxBuf 1 k k f) in *.
  set (n1 := set_ctx (set_evt_queue (Some [])) n).
  assert (Hb1 : bufs (l2_bufs n1) !! t = Some bt) by (cbn; by rewrite Hb, lookup_insert_eq).
  destruct (process_tx_ports n1 t bt multicast_ll_addr k mask) as (h & Hh & E); try done.
  - unfold frame_dst, read_at. cbn [payload bt]. change ipv6_destination_address_offset with 38%nat.
    destruct (Nat.leb_spec (38 + 16) (length f)); [by rewrite Hdst|lia].
  - cbn [payload bt]. lia.
  - cbn. by rewrite Hc.
  - cbn. by rewrite Hc.
  - eexists. split; [|split; [|split]].
    + unfold bm_l2_thread_step. unfold ctx at 1. erewrite bind_some by reflexivity. rewrite Hc.
      cbn [evt_queue set_evt_queue]. erewrite bind_some by apply lift_some.
      cbn [el_type]. erewrite bind_some by reflexivity. exact E.
    + done.
    + rewrite (bm_l2_free_last _ t bt Hb1 eq_refl) in Hh. injection Hh as <-. cbn. rewrite Hb.
      by apply delete_insert_id.
    + cbn. rewrite Hc, Htr. cbn. do 2 f_equal. apply list_fmap_ext. intros ? i _.
      rewrite firstn_all2; [done|]. unfold with_egress.
      rewrite length_checksum_op; rewrite length_set_byte; lia.
Qed.

(** The frame of a message, whatever its checksum field is. *)
Lemma bcmp_frame_fields src dst type seq c body :
  addresses_ok src dst -> bytes_ok body -> Z.of_nat (length body) < 65000 ->
  let f := bcmp_frame src dst type seq c body in
  bytes_ok f /\ length f = (67 + length body)%nat /\ nth 24 f 0 = 0
  /\ ethernet_get_type f = ethernet_type_ipv6 /\ slice 38 16 f = dst.
Proof.
  intros [[Hs Hsl] [Hd Hdl] [H2 _] _] Hb Hl f.
  assert (Hn : length (native_store 2 c) = 2%nat) by apply length_native_store.
  assert (Hlf : length f = (67 + length body)%nat).
  { unfold f, bcmp_frame, packet_frame.
    rewrite !length_app, length_bcmp_pre, length_wire_header by done. lia. }
  destruct (bcmp_pre_fields src dst (13 + Z.of_nat (length body))
    (wire_header type seq (native_store 2 c) ++ body) Hsl Hdl ltac:(lia))
    as (Et & _ & _ & E22 & E38 & _).
  change (_ ++ wire_header _ _ _ ++ body) with f in Et, E22, E38. split_and!; try done.
  - unfold f, bcmp_frame, packet_frame. apply bytes_ok_app; [by apply bcmp_pre_ok|].
    apply bytes_ok_app; [|done]. apply wire_header_ok, native_store_ok.
  - rewrite <- E22 in H2. rewrite nth_lookup, lookup_slice in H2 by lia. by rewrite nth_lookup.
Qed.

(** A copy of the frame on the wire, and once it has arrived. *)
Lemma on_the_wire src dst type seq c d1 port :
  little_endian = true -> addresses_ok src dst -> bytes_ok d1 ->
  Z.of_nat (length d1) < 65000 -> 0 <= port <= 15 -> port <= c < 65536 ->
  ipv6_pseudo_checksum src dst ip_proto_bcmp (wire_header type seq [0; 0] ++ d1) = Some c ->
  let f := bcmp_frame src dst type seq c d1 in
  let w := with_egress port f in
  ipv6_frame w (Z.of_nat (length w)) /\ length w = (67 + length d1)%nat /\ slice 38 16 w = dst
  /\ forall ingress, marked ingress w = arrived port ingress f
       /\ classify (marked ingress w) (Z.of_nat (length w)) = Bcmp (13 + Z.of_nat (length d1)).
Proof.
  intros HP Hao O1 Hl Hport Hc Hck f w.
  destruct (with_egress_frame src dst type seq c d1 port HP Hao O1 Hl Hport Hc Hck) as [Hw _].
  fold f w in Hw. cbv zeta in Hw.
  assert (Hpl : length (bcmp_pre node_id src dst (13 + Z.of_nat (length d1))) = 54%nat)
    by (apply length_bcmp_pre; apply Hao).
  destruct (bcmp_frame_fields src dst type seq (c - port) d1 Hao O1 Hl) as (Gok & Gl & _ & Gt & G38).
  set (g := bcmp_frame src dst type seq (c - port) d1) in *.
  assert (Hwg : w = set_byte 24 port g)
    by (rewrite Hw; unfold g, bcmp_frame, packet_frame; by rewrite set24_pre).
  assert (Hlw : length w = (67 + length d1)%nat) by (by rewrite Hwg, length_set_byte).
  assert (Hm : forall i, marked i w = arrived port i f).
  { intros i. unfold marked, arrived. fold w. rewrite Hwg at 1. rewrite nth_set_byte_eq by lia.
    by rewrite Z.mod_small by lia. }
  split_and!.
  - split; [rewrite Hwg; apply bytes_ok_set_byte; [unfold byte_ok; lia|done]|]. split; [lia|].
    unfold ethernet_get_type. rewrite Hwg, slice_set_byte by (right; vm_compute; lia). exact Gt.
  - done.
  - rewrite Hwg, slice_set_byte by lia. done.
  - intros i. split; [apply Hm|]. rewrite Hm, Hlw.
    pose proof (classify_arrived src dst type seq (c - port) d1 port i Hao Hl) as Hcl.
    cbv zeta in Hcl. rewrite <- Hw in Hcl. fold w in Hcl.
    replace (Z.of_nat (67 + length d1)) with (67 + Z.of_nat (length d1)) by lia. exact Hcl.
Qed.

(** C2: a BCMP message goes from a node to its neighbors.  On a little-endian node
    that has the memory and whose layer 2 has nothing else to send, [bcmp_tx] to
    the neighbors' group queues a frame, and the next pass of the layer 2 task
    sends it by each port that is up, with the number of the port in its source
    address and its checksum moved by it, and gives the buffer back.  When a
    neighbor whose tasks wait gets one of these copies from its driver, by any of
    its ports, a pass of its layer 2 task and a pass of its BCMP task later the
    handler of the type is called, with the sender's bytes, its sequence number
    and the two ports, and after the handler the buffer is given back.  The one
    case that is left out is the lost carry of [egress_checksum]: a frame whose
    checksum is below the number of the port it leaves by. *)
Theorem bcmp_end_to_end (s : st) es type cfg d0 seq_num cb :
  let dst := multicast_ll_addr in
  let ns := net (world s) in
  let src := ll_addr (l2_upper ns) in
  let n := Z.of_nat (length d0) in
  let seq := seq_of cfg seq_num s in
  let t := fresh (dom (bufs (l2_bufs ns))) in
  little_endian = true ->
  can_send s linux_cb es type cfg -> net_ready ns [] -> addresses_ok src dst ->
  0 <= num_ports (l2_ctx ns) <= 15 -> is_Some (network_device (l2_ctx ns)) ->
  0 <= type < 2 ^ 16 -> type <> BcmpEchoRequestMessage -> 0 <= seq < 2 ^ 32 ->
  bytes_ok d0 -> (swapped_size type <= length d0)%nat -> n <= 1448 ->
  exists f c s1 n2,
    bcmp_tx node_id (Some dst) type (Some d0) n seq_num cb s = Some (BmOK, s1)
    /\ evt_queue (l2_ctx (net (world s1))) = Some [MkElement L2Tx (67 + n) (Some t) (out_mask ns)]
    /\ bufs (l2_bufs (net (world s1))) = <[t := MkLinuxBuf 1 (67 + n) (67 + n) f]> (bufs (l2_bufs ns))
    /\ bm_l2_thread_step bm_l2_submit (net (world s1)) = Some (tt, n2)
    /\ l2_trace n2 = l2_trace ns
         ++ concat ((fun i => port_events (pcap_cb (l2_ctx ns)) (i + 1) (with_egress (i + 1) f))
                      <$> ports_of (num_ports (l2_ctx ns)) (out_mask ns))
    /\ bufs (l2_bufs n2) = bufs (l2_bufs ns) /\ evt_queue (l2_ctx n2) = Some []
    /\ c = native_load (slice 56 2 f)
    /\ forall port ingress (r : st) r_id es' cfg' p,
         let w := with_egress port f in
         let nr := net (world r) in
         let at_task items := set_world (MkNode (with_frame ingress w items nr) (bctx (world r))
                                           (rest (world r))) r in
         1 <= port <= 15 -> port <= c -> 1 <= ingress <= 15 ->
         net_waits nr -> can_send r linux_cb es' type cfg' -> process cfg' = Some p ->
         sequenced_reply cfg' && negb (sequenced_request cfg') = false
           \/ find_id seq es' = None ->
         let item l := MkBcmpItem BcmpEventRx (Some l) (13 + n) in
         exists nr1,
           bm_l2_rx ingress (Some w) nr = Some (tt, nr1)
           /\ bm_l2_thread_step bm_l2_submit nr1
              = Some (tt, with_frame ingress w (fun l => [item l]) nr)
           /\ bcmp_thread_step r_id call_process call_reply bcmp_check_neighbors
                (at_task (fun l => [item l]))
              = (_ ← call_process p
                       (MkProcessData (MkHeader type (c - port) 0 0 seq 0 0 0) d0 n
                          (set_byte 2 port src) dst ingress);
                 with_net (with_bufs (bm_ip_rx_cleanup
                   (Some (fresh (dom (bufs (l2_bufs nr)))))))) (at_task (fun _ => [])).
Proof.
  intros dst ns src n seq t HP Hs Hn Hao Hnp Hd Ht Hne Hseq Hdok Hds Hdl.
  destruct (bcmp_tx_room s es type cfg d0 dst [] seq_num cb Hs Hn Hao Ht Hne Hdok Hds Hdl)
    as (c & d1 & s1 & E & E0 & L1 & O1 & Hc & Hck & Hctx & Htr & Hb).
  fold ns src seq in Hck, Hb, Hctx, Htr. fold n in E, Hb, Hctx.
  assert (Hl1 : Z.of_nat (length d1) < 65000) by lia.
  destruct (bcmp_frame_fields src dst type seq c d1 Hao O1 Hl1) as (Fok & Fl & F24 & _ & F38).
  set (f := bcmp_frame src dst type seq c d1) in *.
  destruct (tx_neighbors ns (net (world s1)) (fresh (dom (bufs (l2_bufs ns)))) f (67 + n)
    (out_mask ns)) as (n2 & E2 & Hq2 & Hb2 & Htr2); try done;
    [apply not_elem_of_dom, is_fresh|lia|lia|].
  exists f, c, s1, n2. split; [done|]. split; [by rewrite Hctx|]. do 5 (split; [done|]). split.
  { unfold f, bcmp_frame. rewrite slice_checksum
      by first [by apply length_native_store | apply length_bcmp_pre; apply Hao].
    rewrite native_load_store, Z.mod_small; [done|change (256 ^ Z.of_nat 2) with 65536; lia]. }
  intros port ingress r r_id es' cfg' p w nr at_task Hport Hpc Hin Hw Hr Hp Hor item.
  destruct (on_the_wire src dst type seq c d1 port HP Hao O1 Hl1 ltac:(lia) ltac:(lia) Hck)
    as (Wf & Wl & W38 & Hm). fold f w in Wf, Wl, W38, Hm. destruct (Hm ingress) as [Em Ecl].
  rewrite L1 in Ecl. fold n in Ecl.
  destruct (rx_neighbor nr w ingress (13 + n) Hw Wf W38 Hin Ecl) as (nr1 & Erx & Estep).
  exists nr1. do 2 (split; [done|]).
  unfold bcmp_thread_step, get. erewrite bind_some by reflexivity.
  cbn [at_task world set_world net with_frame l2_upper bcmp_queue set_bcmp_queue].
  erewrite bind_some by (apply with_net_some; reflexivity).
  transitivity (bcmp_handle r_id call_process call_reply bcmp_check_neighbors
    (item (fresh (dom (bufs (l2_bufs nr))))) (at_task (fun _ => []))); [reflexivity|].
  eapply (handle_arrived src dst type seq c d0 d1 port ingress (at_task (fun _ => [])));
    try done; [lia|lia|lia|by apply can_send_net|cbn; by rewrite lookup_insert_eq|done].
Qed.
End specs.

(** ** Refusals *)

Section refusals.
Context {R : Type} `{Platform} `{L2Os} (node_id : Z).
#[local] Abbreviation st := (packet_state (node R)).

(** C26: what [bcmp_tx] does when it cannot send.  Without a destination, and for
    a message of more than 1,448 bytes, it is [BmEINVAL]; without memory for the
    frame it is [BmENOMEM]; for a type of message that nobody has registered it
    is [BmENODEV].  In each case nothing is queued, and the buffers are those of
    before. *)
Theorem bcmp_tx_refused (s : st) dst type d0 size seq_num cb ps l :
  0 <= size < 65536 ->
  (dst = None \/ 1448 < size ->
   bcmp_tx node_id dst type (Some d0) size seq_num cb s = Some (BmEINVAL, s))
  /\ (dst <> None -> size <= 1448 -> LinuxBuf.alloc_ok (l2_bufs (net (world s))) = false :: l ->
      exists s', bcmp_tx node_id dst type (Some d0) size seq_num cb s = Some (BmENOMEM, s')
        /\ bufs (l2_bufs (net (world s'))) = bufs (l2_bufs (net (world s)))
        /\ l2_ctx (net (world s')) = l2_ctx (net (world s)))
  /\ (forall d, dst = Some d -> length d = 16%nat ->
      length (ll_addr (l2_upper (net (world s)))) = 16%nat ->
      size <= 1448 -> LinuxBuf.alloc_ok (l2_bufs (net (world s))) = [] ->
      (forall i, byte_ok (junk (l2_bufs (net (world s))) i)) ->
      initialized (pk s) = true -> packets_are s ps -> find_id type ps = None ->
      type <> BcmpEchoRequestMessage -> bytes_ok d0 -> (swapped_size type <= length d0)%nat ->
      exists s', bcmp_tx node_id dst type (Some d0) size seq_num cb s = Some (BmENODEV, s')
        /\ bufs (l2_bufs (net (world s'))) = bufs (l2_bufs (net (world s)))
        /\ l2_ctx (net (world s')) = l2_ctx (net (world s))).
Proof.
  intros Hsz. unfold bcmp_tx. change sizeof_BcmpHeartbeat with 12. change max_payload_len with 1460.
  rewrite u32_small by lia. split_and!.
  - intros [->|Hbig]; [done|]. destruct dst; [|done].
    destruct (Z.leb_spec (size + 12) 1460); [lia|done].
  - intros Hd Hs Hal. destruct dst as [d|]; [|done].
    destruct (Z.leb_spec (size + 12) 1460); [|lia].
    eexists. split; [|split].
    + erewrite bind_some.
      2: { apply with_net_some. unfold bm_ip_tx_new. erewrite bind_some.
           2: { apply with_bufs_some. unfold bm_l2_new, next_alloc, mbind, M_bind.
                rewrite Hal. reflexivity. }
           reflexivity. }
      reflexivity.
    + done.
    + done.
  - intros d -> Hdl Hsl Hs Hal Hj Hi Hps Hf Hne Hdok Hds.
    destruct (Z.leb_spec (size + 12) 1460); [|lia].
    destruct (tx_new_room (net (world s)) d (size + Z.of_nat sizeof_BcmpHeader) Hal Hj
      ltac:(change (Z.of_nat sizeof_BcmpHeader) with 13; lia) Hsl Hdl)
      as (h & b & Enew & _ & _ & _ & _).
    set (t := fresh _) in *. set (f := h ++ _) in *. set (bt := MkLinuxBuf 1 _ _ f) in *.
    set (n1 := set_l2_bufs _ _) in *.
    assert (Hb1 : bufs (l2_bufs n1) !! t = Some bt) by (cbn; by rewrite lookup_insert_eq).
    destruct (check_endianness_inverse _ type d0 Hne Hdok Hds) as (d1 & E1 & _ & _ & _).
    set (s1 := set_world (MkNode n1 (bctx (world s)) (rest (world s))) s).
    eexists. split; [|].
    + erewrite bind_some by (by apply with_net_some). cbv iota. fold s1. unfold buffer_bytes.
      erewrite bind_some.
      2: { apply with_net_some, with_bufs_some, bm_l2_get_payload_some. exact Hb1. }
      rewrite set_l2_bufs_same.
      change (set_world (MkNode (net (world s1)) (bctx (world s1)) (rest (world s1))) s1) with s1.
      erewrite bind_some.
      2: { unfold serialize, get. erewrite bind_some by reflexivity.
           change (initialized (pk s1)) with (initialized (pk s)). rewrite Hi, E1.
           erewrite bind_some by reflexivity.
           erewrite bind_some; [|].
           2: { unfold packet_cfg, get. erewrite bind_some by reflexivity.
                change (packets s1) with (packets s). change (packet_list (pk s1)) with (packet_list (pk s)).
                rewrite (ll_get_refines _ _ _ _ Hps), Hf. reflexivity. }
           reflexivity. }
      cbv beta iota. erewrite bind_some by reflexivity. unfold set_buffer_bytes.
      erewrite bind_some.
      2: { apply with_net_some, with_bufs_some. eapply payload_store_some; [exact Hb1|reflexivity]. }
      cbn [is_ok]. erewrite bind_some by reflexivity. erewrite bind_some.
      2: { apply with_net_some. unfold ip_tx_cleanup. apply with_bufs_some. unfold bm_ip_tx_cleanup.
           eapply bm_l2_free_last; [cbn; by rewrite lookup_insert_eq|done]. }
      reflexivity.
    + split; [|done]. cbn. rewrite ?insert_insert_eq. apply delete_insert_id.
      apply not_elem_of_dom, is_fresh.
Qed.
End refusals.

(** ** A concrete node *)

#[local] Abbreviation log_node := (packet_state (node log)).

Definition node_log (e : nat * option bytes) (s : log_node) : log_node :=
  set_world (MkNode (net (world s)) (bctx (world s)) (rest (world s) ++ [e])) s.
Definition node_process (p : nat) (d : BcmpProcessData) : M log_node BmErr := fun s =>
  Some (BmOK, node_log (p, Some (pd_payload d)) s).
Definition node_reply (k : nat) (b : option bytes) : M log_node BmErr := fun s =>
  Some (BmOK, node_log (k, b) s).

(** Heartbeats are handled by the handler 1; the frame [f] has been received. *)
Definition sample_bcmp_node (f : bytes) : log_node :=
  state_of (_ ← packet_init (Some (@linux_cb platform_mcu)) true (Some BmOK);
            bcmp_heartbeat_init 1)
    (MkPacketState PACKET_zero 7 ∅ ∅ (MkOs [] [] 1000)
       (MkNode (sample_stack 0 f) (MkBcmpContext true false 2) [])).

Definition heartbeat_cfg : BcmpPacketCfg := MkCfg false false (Some 1%nat).

Lemma sample_node_packets f :
  packets_are (sample_bcmp_node f) [(BcmpHeartbeatMessage, Some heartbeat_cfg)].
Proof.
  exists [1%positive]. split_and!; [|by repeat eexists|reflexivity].
  split; [split; [reflexivity|]; eexists; split; [reflexivity|done]|apply NoDup_singleton|done].
Qed.

Lemma sample_node_can_send f :
  can_send (sample_bcmp_node f) (@linux_cb platform_mcu) [] BcmpHeartbeatMessage heartbeat_cfg.
Proof.
  split.
  - by split.
  - done.
  - done.
  - exists []. split_and!; [|done..]. split; cbn; [done|constructor|done].
  - exists [(BcmpHeartbeatMessage, Some heartbeat_cfg)]. split; [apply sample_node_packets|done].
Qed.

Definition sample_heartbeat : bytes := @heartbeat_bytes platform_mcu 1000000 10.

(** A heartbeat from the port 2 of [sample_bcmp_node] to the port 1 of a neighbor. *)
Lemma bcmp_end_to_end_witness :
  let s := sample_bcmp_node [] in
  exists s1 n2 w nr1 nr2 r3,
    @bcmp_tx log platform_mcu 0xBEEF12345678 (Some multicast_ll_addr) BcmpHeartbeatMessage
      (Some sample_heartbeat) 12 0 None s = Some (BmOK, s1)
    /\ @bm_l2_thread_step platform_mcu linux_ctx (@bm_l2_submit platform_mcu) (net (world s1)) = Some (tt, n2)
    /\ last (l2_trace n2) = Some (EvSend 2 w)
    /\ bm_l2_rx 1 (Some w) (net (world s)) = Some (tt, nr1)
    /\ @bm_l2_thread_step platform_mcu linux_ctx (@bm_l2_submit platform_mcu) nr1 = Some (tt, nr2)
    /\ @bcmp_thread_step log platform_mcu 0x21 node_process node_reply (mret tt)
         (set_world (MkNode nr2 (bctx (world s)) []) s) = Some (tt, r3)
    /\ rest (world r3) = [(1%nat, Some sample_heartbeat)].
Proof.
  intros s. destruct (@bcmp_end_to_end log platform_mcu 0xBEEF12345678 node_process node_reply
    (mret tt) s [] BcmpHeartbeatMessage heartbeat_cfg sample_heartbeat 0 None)
    as (f & c & s1 & n2 & E & _ & Eb & E2 & Etr & _ & _ & Ec & Hrx).
  - done.
  - apply sample_node_can_send.
  - split; [done|intros i; change (byte_ok 170); decided|].
    split; [done|apply Nat.ltb_lt; reflexivity].
  - split; [split; [decided|done]|split; [decided|done]|done|done].
  - change (num_ports _) with 2. lia.
  - eexists. reflexivity.
  - done.
  - done.
  - cbn. lia.
  - decided.
  - vm_compute. lia.
  - done.
  - change (Z.of_nat (length sample_heartbeat)) with 12 in *.
    assert (Ef : f = payload (default (MkLinuxBuf 0 0 0 [])
      (bufs (l2_bufs (net (world (state_of (@bcmp_tx log platform_mcu 0xBEEF12345678
         (Some multicast_ll_addr) BcmpHeartbeatMessage (Some sample_heartbeat) 12 0 None)
         s)))) !! 2%positive))).
    { unfold state_of. rewrite E. cbn [snd]. rewrite Eb. by rewrite lookup_insert_eq. }
    destruct (Hrx 2 1 s 0x21 [] heartbeat_cfg 1%nat) as (nr1 & R1 & R2 & R3);
      [lia|rewrite Ec, Ef; vm_compute; congruence|lia| |apply sample_node_can_send|done|by left|].
    { split; [|done|]. 2: { exists [], []. split_and!; [|done..]. by split; cbn; [|constructor|]. }
      split; [done|intros i; change (byte_ok 170); decided|].
      split; [done|apply Nat.ltb_lt; reflexivity]. }
    do 6 eexists. split; [exact E|]. split; [exact E2|]. split.
    { rewrite Etr. change (ports_of _ _) with [0; 1]. reflexivity. }
    split; [exact R1|]. split; [exact R2|]. split; [etransitivity; [exact R3|reflexivity]|].
    reflexivity.
Defined.

Lemma bcmp_tx_refused_witness :
  let s := sample_bcmp_node [] in
  let tx dst size := @bcmp_tx log platform_mcu 0x21 dst BcmpDeviceInfoRequestMessage
                       (Some (repeat 7 8)) size 0 None s in
  tx None 8 = Some (BmEINVAL, s) /\ tx (Some multicast_ll_addr) 1449 = Some (BmEINVAL, s)
  /\ exists s', tx (Some multicast_ll_addr) 8 = Some (BmENODEV, s')
       /\ bufs (l2_bufs (net (world s'))) = bufs (l2_bufs (net (world s))).
Proof.
  intros s tx. split; [|split].
  - apply (@bcmp_tx_refused log platform_mcu 0x21 s None BcmpDeviceInfoRequestMessage
      (repeat 7 8) 8 0 None [] []); [lia|by left].
  - apply (@bcmp_tx_refused log platform_mcu 0x21 s (Some multicast_ll_addr)
      BcmpDeviceInfoRequestMessage (repeat 7 8) 1449 0 None [] []); [lia|right; lia].
  - destruct (@bcmp_tx_refused log platform_mcu 0x21 s (Some multicast_ll_addr)
      BcmpDeviceInfoRequestMessage (repeat 7 8) 8 0 None
      [(BcmpHeartbeatMessage, Some heartbeat_cfg)] [] ltac:(lia)) as (_ & _ & Hr).
    destruct (Hr multicast_ll_addr) as (s' & E & Eb & _);
      [reflexivity..|lia|reflexivity|intros i; change (byte_ok 170); decided|reflexivity| | |done
      |decided|vm_compute; lia|].
    + apply sample_node_packets.
    + reflexivity.
    + exists s'. split; [exact E|exact Eb].
Defined.
