(* ===== verification/Lwip.v ===== *)
(** * The IP stack on a microcontroller: src/network/bm_lwip.c

    The interface of bm_ip.h on lwIP, a library that is not part of the repository and an
    interface here: its packets, which are counted by references, and its protocol
    control blocks.  This file keeps a layout for each message, with the packet and the
    addresses, and a list of the callbacks of UDP ports. *)
From S2P Require Import Prelude Util LinkedList SList L2Policy Os Parts Device Packet LinuxBuf L2 BmLinux.

(** As lwIP has it for IPv6. *)
Definition PBUF_IP_HLEN : Z := 40.
Inductive pbuf_layer : Type := PBUF_TRANSPORT | PBUF_IP | PBUF_RAW.

(** A pointer to an address: in memory that was allocated, in the network interface, or
    of the caller. *)
Inductive ip_ptr : Type := IpHeap (l : loc) | IpNetif (idx : Z) | IpCaller (a : BmIpAddr).

(** The functions of lwIP; [true] is [ERR_OK].  A packet is the location of its [struct
    pbuf], a protocol control block the value of its pointer, an [ip_addr_t] a list of four
    words. *)
Class LwipApi (St : Type) : Type := {
  NETIF_FLAG_BROADCAST : Z;
  NETIF_FLAG_ETHARP : Z;
  NETIF_FLAG_LINK_UP : Z;
  pbuf_alloc : pbuf_layer -> Z -> M St (option loc);
  pbuf_free : option loc -> M St unit;
  pbuf_ref : loc -> M St unit;
  pbuf_realloc : option loc -> Z -> M St unit;
  pbuf_remove_header : loc -> Z -> M St bool;
  pbuf_add_header : loc -> Z -> M St bool;
  pbuf_payload : loc -> M St bytes;
  pbuf_store : loc -> nat -> bytes -> M St unit;
  pbuf_len : loc -> M St Z;
  pbuf_tot_len : loc -> M St Z;
  ip6_chksum_pseudo : loc -> Z -> Z -> BmIpAddr -> BmIpAddr -> M St Z;
  netif_ip6_addr : Z -> M St BmIpAddr;
  ip6addr_ntoa : BmIpAddr -> bytes;
  inet6_aton : bytes -> list Z;
  tcpip_init : M St unit;
  netif_add : M St unit -> M St unit;
  netif_ip6_addr_set : Z -> list Z -> M St unit;
  netif_ip6_addr_set_valid : Z -> M St unit;
  netif_set_up : M St unit;
  netif_set_down : M St unit;
  netif_set_link_up : M St unit;
  netif_set_link_down : M St unit;
  netif_input : loc -> M St bool;
  mld6_joingroup_netif : list Z -> M St bool;
  mld6_lookfor_group : list Z -> M St bool;
  raw_new : Z -> M St (option Z);
  raw_recv : Z -> M St unit;
  raw_bind : Z -> M St bool;
  raw_sendto_if_src : option Z -> option loc -> list Z -> list Z -> M St bool;
  udp_new_ip_type : M St (option Z);
  udp_remove : Z -> M St unit;
  udp_bind : Z -> Z -> M St bool;
  udp_recv : Z -> M St unit;
  udp_sendto_if : Z -> loc -> list Z -> Z -> M St bool
}.

Record LwipLayout : Type := MkLayout { ly_pbuf : option loc; ly_src : option ip_ptr; ly_dst : option ip_ptr }.

(** [netif]: what this file sets in the network interface. *)
Record netif_fields : Type := MkNetif { nf_hwaddr : bytes; nf_name : bytes; nf_mtu : Z; nf_flags : Z }.

(** [lw_queue]: the queue of BCMP, [None] before it is made. *)
Record lwip : Type := MkLwip {
  lw_netif : netif_fields;
  lw_raw_pcb : option Z;
  lw_udp_list : LL;
  lw_udp_items : item_heap nat;
  lw_layouts : gmap loc LwipLayout;
  lw_ips : gmap loc BmIpAddr;
  lw_queue : option (list BcmpQueueItem);
  lw_udp_calls : list udp_call;
  lw_os : Os
}.

Definition set_lw_netif (n : netif_fields) (s : lwip) : lwip :=
  MkLwip n (lw_raw_pcb s) (lw_udp_list s) (lw_udp_items s) (lw_layouts s) (lw_ips s) (lw_queue s) (lw_udp_calls s) (lw_os s).
Definition set_lw_raw_pcb (p : option Z) (s : lwip) : lwip :=
  MkLwip (lw_netif s) p (lw_udp_list s) (lw_udp_items s) (lw_layouts s) (lw_ips s) (lw_queue s) (lw_udp_calls s) (lw_os s).
Definition set_lw_udp (ll : LL) (h : item_heap nat) (s : lwip) : lwip :=
  MkLwip (lw_netif s) (lw_raw_pcb s) ll h (lw_layouts s) (lw_ips s) (lw_queue s) (lw_udp_calls s) (lw_os s).
Definition set_lw_layouts (m : gmap loc LwipLayout) (s : lwip) : lwip :=
  MkLwip (lw_netif s) (lw_raw_pcb s) (lw_udp_list s) (lw_udp_items s) m (lw_ips s) (lw_queue s) (lw_udp_calls s) (lw_os s).
Definition set_lw_ips (m : gmap loc BmIpAddr) (s : lwip) : lwip :=
  MkLwip (lw_netif s) (lw_raw_pcb s) (lw_udp_list s) (lw_udp_items s) (lw_layouts s) m (lw_queue s) (lw_udp_calls s) (lw_os s).
Definition set_lw_queue (q : option (list BcmpQueueItem)) (s : lwip) : lwip :=
  MkLwip (lw_netif s) (lw_raw_pcb s) (lw_udp_list s) (lw_udp_items s) (lw_layouts s) (lw_ips s) q (lw_udp_calls s) (lw_os s).
Definition add_lw_udp_call (u : udp_call) (s : lwip) : lwip :=
  MkLwip (lw_netif s) (lw_raw_pcb s) (lw_udp_list s) (lw_udp_items s) (lw_layouts s) (lw_ips s) (lw_queue s)
    (lw_udp_calls s ++ [u]) (lw_os s).
Definition set_lw_os (o : Os) (s : lwip) : lwip :=
  MkLwip (lw_netif s) (lw_raw_pcb s) (lw_udp_list s) (lw_udp_items s) (lw_layouts s) (lw_ips s) (lw_queue s)
    (lw_udp_calls s) o.
Definition with_lw_os {A} (m : M Os A) : M lwip A := zoom lw_os set_lw_os m.

(** ** Memory *)

Definition new_ip : M lwip (option loc) :=
  ok ← with_lw_os malloc_ok;
  s ← get;
  if ok : bool then
    let l := fresh (dom (lw_ips s)) in
    _ ← modify (set_lw_ips (<[l := replicate 16 0]> (lw_ips s))); mret (Some l)
  else mret None.

(** [memcpy(p, a, sizeof(BmIpAddr))]: a null pointer is undefined. *)
Definition store_ip (p : option loc) (a : BmIpAddr) : M lwip unit :=
  l ← lift p;
  s ← get;
  _ ← lift (lw_ips s !! l);
  modify (set_lw_ips (<[l := a]> (lw_ips s))).

Definition free_ip (l : loc) : M lwip unit :=
  s ← get;
  _ ← lift (lw_ips s !! l);
  modify (set_lw_ips (delete l (lw_ips s))).

Definition new_layout : M lwip (option loc) :=
  ok ← with_lw_os malloc_ok;
  s ← get;
  if ok : bool then
    let l := fresh (dom (lw_layouts s)) in
    _ ← modify (set_lw_layouts (<[l := MkLayout None None None]> (lw_layouts s))); mret (Some l)
  else mret None.

Definition get_layout (p : option loc) : M lwip LwipLayout :=
  l ← lift p;
  s ← get;
  lift (lw_layouts s !! l).

Definition store_layout (p : option loc) (x : LwipLayout) : M lwip unit :=
  _ ← get_layout p;
  l ← lift p;
  modify (fun s => set_lw_layouts (<[l := x]> (lw_layouts s)) s).

Definition free_layout (p : option loc) : M lwip unit :=
  _ ← get_layout p;
  l ← lift p;
  modify (fun s => set_lw_layouts (delete l (lw_layouts s)) s).

(** [bm_free(p)]: only memory that was allocated can be freed. *)
Definition free_ip_ptr (p : option ip_ptr) : M lwip unit :=
  match p with
  | Some (IpHeap l) => free_ip l
  | Some _ => ub
  | None => mret tt
  end.

(** [bm_queue_send(bcmp_get_queue(), &item, 0)] *)
Definition lwip_queue_send (item : BcmpQueueItem) : M lwip BmErr :=
  s ← get;
  match lw_queue s with
  | Some q =>
      if (length q <? bcmp_evt_queue_len)%nat then
        _ ← modify (set_lw_queue (Some (q ++ [item]))); mret BmOK
      else mret BmENOMEM
  | None => mret BmENOMEM
  end.

Section lwip.
Context `{Platform}.
Context {St : Type} `{Part lwip St} `{LwipApi St} (CFG : DeviceCfg).

(** ** Addresses *)

Definition ip_uint8_to_uint32 (buf : bytes) : Z :=
  u32 (Z.lor (Z.lor (Z.lor (nth 0 buf 0) (Z.shiftl (nth 1 buf 0) 8)) (Z.shiftl (nth 2 buf 0) 16))
         (Z.shiftl (nth 3 buf 0) 24)).

Definition bm_ip_to_lwip_ip (ip : BmIpAddr) : list Z :=
  (fun i => ip_uint8_to_uint32 (slice i 4 ip)) <$> [0; 4; 8; 12]%nat.

(** The words in memory. *)
Definition words_bytes (ws : list Z) : bytes := concat (native_store 4 <$> ws).

(** [IPADDR6_INIT_HOST] *)
Definition lwip_htonl (z : Z) : Z := if little_endian then swap_32bit z else z.
Definition IPADDR6_INIT_HOST (a b c d : Z) : list Z := lwip_htonl <$> [a; b; c; d].

Definition read_ip (p : ip_ptr) : M St BmIpAddr :=
  match p with
  | IpHeap l => on_part (s ← get; lift (lw_ips s !! l))
  | IpNetif idx => netif_ip6_addr idx
  | IpCaller a => mret a
  end.

(** ** What BCMP asks of a message *)

Definition message_get_data (payload : option loc) : M St bytes :=
  y ← on_part (get_layout payload);
  p ← lift (ly_pbuf y);
  pbuf_payload p.

Definition message_get_src_ip (payload : option loc) : M St BmIpAddr :=
  y ← on_part (get_layout payload);
  p ← lift (ly_src y);
  read_ip p.

Definition message_get_dst_ip (payload : option loc) : M St BmIpAddr :=
  y ← on_part (get_layout payload);
  p ← lift (ly_dst y);
  read_ip p.

Definition message_get_checksum (payload : option loc) (size : Z) : M St Z :=
  y ← on_part (get_layout payload);
  p ← lift (ly_pbuf y);
  src ← message_get_src_ip payload;
  dst ← message_get_dst_ip payload;
  ip6_chksum_pseudo p ip_proto_bcmp size src dst.

(** ** Reception *)

(** [true]: the packet was taken. *)
Definition ip_recv (pbuf : loc) (src : BmIpAddr) : M St bool :=
  tot_len ← pbuf_tot_len pbuf;
  if PBUF_IP_HLEN + Z.of_nat sizeof_BcmpHeader <=? tot_len then
    ip6_hdr ← pbuf_payload pbuf;
    removed ← pbuf_remove_header pbuf PBUF_IP_HLEN;
    _ ← (if removed : bool then mret true else pbuf_add_header pbuf PBUF_IP_HLEN);
    src_ref ← on_part new_ip;
    dst_ref ← on_part new_ip;
    layout ← on_part new_layout;
    dest ← lift (read_at 24 16 ip6_hdr);
    _ ← on_part (store_ip dst_ref dest);
    _ ← on_part (store_ip src_ref src);
    _ ← on_part (store_layout layout (MkLayout (Some pbuf) (IpHeap <$> src_ref) (IpHeap <$> dst_ref)));
    len ← pbuf_len pbuf;
    err ← on_part (lwip_queue_send (MkBcmpItem BcmpEventRx layout len));
    _ ← when (negb (is_ok err))
      (_ ← pbuf_free (Some pbuf);
       _ ← on_part (free_ip_ptr (IpHeap <$> src_ref));
       _ ← on_part (free_ip_ptr (IpHeap <$> dst_ref));
       on_part (free_layout layout));
    mret true
  else mret false.

Definition bm_ip_rx_cleanup (payload : option loc) : M St unit :=
  match payload with
  | Some _ =>
      y ← on_part (get_layout payload);
      _ ← match ly_pbuf y with Some _ => pbuf_free (ly_pbuf y) | None => mret tt end;
      _ ← on_part (free_ip_ptr (ly_dst y));
      _ ← on_part (free_ip_ptr (ly_src y));
      on_part (free_layout payload)
  | None => mret tt
  end.

(** A datagram for the control block [pcb]; the callbacks are numbers, and their calls are
    noted. *)
Definition udp_recv_cb (pcb : Z) (pbuf : loc) (addr : BmIpAddr) (port : Z) : M St unit :=
  s ← gets part;
  '(err, cb) ← lift (ll_get_item (Some (lw_udp_list s)) (u32 pcb) (lw_udp_items s));
  match is_ok err, cb with
  | true, Some (Some f) =>
      len ← pbuf_len pbuf;
      on_part (modify (add_lw_udp_call (MkUdpCall f port pbuf (ip_to_nodeid (Some addr)) len)))
  | _, _ => mret tt
  end.

(** ** The layer 2 *)

Definition link_output (bm_l2_link_output : loc -> Z -> M St BmErr) (pbuf : loc) : M St bool :=
  len ← pbuf_len pbuf;
  err ← bm_l2_link_output pbuf len;
  mret (is_ok err).

Definition bm_l2_new (size : Z) : M St (option loc) := pbuf_alloc PBUF_RAW size.

Definition bm_l2_get_payload (buf : option loc) : M St (option bytes) :=
  match buf with Some p => d ← pbuf_payload p; mret (Some d) | None => mret None end.

Definition bm_l2_tx_prep (buf : option loc) (size : Z) : M St unit :=
  match buf with Some p => pbuf_ref p | None => mret tt end.

Definition bm_l2_free (buf : option loc) : M St unit := pbuf_free buf.

Definition bm_l2_submit (buf : loc) (size : Z) : M St BmErr :=
  ok ← netif_input buf;
  mret (if ok : bool then BmOK else BmEBADMSG).

Definition bm_l2_set_netif (up : bool) : M St BmErr :=
  _ ← (if up then _ ← netif_set_link_up; netif_set_up else _ ← netif_set_link_down; netif_set_down);
  mret BmOK.

(** ** The start *)

Definition bm_l2_netif_init : M St unit :=
  on_part (modify (fun s => set_lw_netif (MkNetif (nf_hwaddr (lw_netif s)) [98; 109] 1500
    (Z.lor (Z.lor NETIF_FLAG_BROADCAST NETIF_FLAG_ETHARP) NETIF_FLAG_LINK_UP)) s)).

(** [packet_init]: what it returns. *)
Definition bm_ip_init (packet_init : BmErr) : M St BmErr :=
  _ ← tcpip_init;
  _ ← on_part (modify (fun s => set_lw_netif (MkNetif (snd (mac_address CFG (nf_hwaddr (lw_netif s)) 6))
    (nf_name (lw_netif s)) (nf_mtu (lw_netif s)) (nf_flags (lw_netif s))) s));
  let multicast_glob_addr := inet6_aton [102; 102; 48; 51; 58; 58; 49; 0] in
  _ ← netif_add bm_l2_netif_init;
  let id := node_id CFG in
  let hi := Z.land (Z.shiftr id 32) 0xFFFFFFFF in
  let lo := Z.land id 0xFFFFFFFF in
  _ ← netif_ip6_addr_set 0 (IPADDR6_INIT_HOST 0xFE800000 0 hi lo);
  _ ← netif_ip6_addr_set 1 (IPADDR6_INIT_HOST 0xFD000000 0 hi lo);
  _ ← netif_set_up;
  _ ← netif_ip6_addr_set_valid 0;
  _ ← netif_ip6_addr_set_valid 1;
  _ ← netif_set_link_up;
  _ ← mld6_joingroup_netif multicast_glob_addr;
  pcb ← raw_new ip_proto_bcmp;
  _ ← on_part (modify (set_lw_raw_pcb pcb));
  match pcb with
  | Some p =>
      _ ← raw_recv p;
      ok ← raw_bind p;
      mret (if ok : bool then packet_init else BmEACCES)
  | None => mret BmENOMEM
  end.

Definition bm_ip_get_str (idx : Z) : M St bytes := a ← netif_ip6_addr idx; mret (ip6addr_ntoa a).
Definition bm_ip_get (idx : Z) : M St BmIpAddr := netif_ip6_addr idx.

(** ** Sending for BCMP *)

Definition bm_ip_tx_new (dst : option BmIpAddr) (size : Z) : M St (option loc) :=
  match dst with
  | Some d =>
      pbuf ← pbuf_alloc PBUF_IP size;
      layout ← on_part new_layout;
      _ ← on_part (store_layout layout (MkLayout pbuf (Some (IpNetif 0)) (Some (IpCaller d))));
      mret layout
  | None => mret None
  end.

Definition bm_ip_tx_copy (payload : option loc) (data : option bytes) (offset : Z) : M St BmErr :=
  match payload, data with
  | Some _, Some d =>
      y ← on_part (get_layout payload);
      p ← lift (ly_pbuf y);
      _ ← pbuf_store p (Z.to_nat offset) d;
      mret BmOK
  | _, _ => mret BmEINVAL
  end.

Definition bm_ip_tx_perform (payload : option loc) (dst : option BmIpAddr) : M St BmErr :=
  match payload with
  | Some _ =>
      y ← on_part (get_layout payload);
      d ← match dst with Some d => mret d | None => p ← lift (ly_dst y); read_ip p end;
      p ← lift (ly_src y);
      src ← read_ip p;
      s ← gets part;
      ok ← raw_sendto_if_src (lw_raw_pcb s) (ly_pbuf y) (bm_ip_to_lwip_ip d) (bm_ip_to_lwip_ip src);
      mret (if ok : bool then BmOK else BmEBADMSG)
  | None => mret BmEINVAL
  end.

Definition bm_ip_tx_cleanup (payload : option loc) : M St unit :=
  match payload with
  | Some _ =>
      y ← on_part (get_layout payload);
      _ ← pbuf_free (ly_pbuf y);
      on_part (free_layout payload)
  | None => mret tt
  end.

(** ** UDP *)

(** [ll_create_item(item, &udp_cb, sizeof(udp_cb), (uint32_t)pcb)] *)
Definition new_udp_item (cb : nat) (pcb : option Z) : M lwip (option loc) :=
  s ← get;
  '(item, h) ← with_lw_os (Os.create_item cb (u32 (default 0 pcb)) (lw_udp_items s));
  _ ← modify (fun s => set_lw_udp (lw_udp_list s) h s);
  mret item.

Definition add_udp_item (item : option loc) : M lwip BmErr :=
  s ← get;
  '(err, ll, h) ← lift (ll_item_add (Some (lw_udp_list s)) item (lw_udp_items s));
  ll ← lift ll;
  _ ← modify (set_lw_udp ll h);
  mret err.

Definition bm_udp_bind_port (addr : option BmIpAddr) (port : Z) (cb : nat) : M St (option Z) :=
  pcb ← udp_new_ip_type;
  item ← on_part (new_udp_item cb pcb);
  err ← match pcb, item with
        | Some _, Some _ => on_part (add_udp_item item)
        | _, _ => mret BmEINVAL
        end;
  match pcb, is_ok err with
  | Some p, true =>
      _ ← udp_bind p port;
      a ← lift addr;
      let multicast_addr := bm_ip_to_lwip_ip a in
      known ← mld6_lookfor_group multicast_addr;
      _ ← (if known : bool then mret true else mld6_joingroup_netif multicast_addr);
      _ ← udp_recv p;
      mret pcb
  | _, _ =>
      _ ← match pcb with Some p => udp_remove p | None => mret tt end;
      _ ← match item with
          | Some _ =>
              on_part (s ← get;
                       '(_, h) ← lift (ll_delete_item item (lw_udp_items s));
                       modify (set_lw_udp (lw_udp_list s) h))
          | None => mret tt
          end;
      mret None
  end.

Definition bm_udp_new (size : Z) : M St (option loc) := pbuf_alloc PBUF_TRANSPORT size.
Definition bm_udp_get_payload (buf : option loc) : M St (option bytes) := bm_l2_get_payload buf.

Definition bm_udp_reference_update (buf : option loc) : M St BmErr :=
  match buf with Some p => _ ← pbuf_ref p; mret BmOK | None => mret BmEINVAL end.

Definition bm_udp_cleanup (buf : option loc) : M St unit :=
  match buf with Some _ => pbuf_free buf | None => mret tt end.

Definition bm_udp_tx_perform (pcb : option Z) (buf : option loc) (size : Z) (dest_addr : option BmIpAddr) (port : Z)
    : M St BmErr :=
  match buf, pcb, dest_addr with
  | Some b, Some p, Some d =>
      ok ← udp_sendto_if p b (bm_ip_to_lwip_ip d) port;
      mret (if ok : bool then BmOK else BmEBADMSG)
  | _, _, _ => mret BmEINVAL
  end.

Definition bm_ip_buf_shrink (buf : option loc) (size : Z) : M St unit := pbuf_realloc buf size.
End lwip.
