(* ===== verification/LwipBuffers.v ===== *)
(** * Who holds the packets of lwIP

    The stack of src/network/bm_lwip.c between lwIP and BCMP: packets that come in wait in
    the queue of BCMP, in their order and with the addresses of their headers, until they are
    handled; no packet, layout or address is lost or used after it was freed, while there
    is memory.  What happens without memory is in the examples. *)
From S2P Require Import Prelude Util LinkedList SList L2Policy Os Parts Device Packet LinuxBuf L2 BmLinux Lwip.

(** A packet: how often it is referenced, how many of these references are those of layers
    below (layer 2 takes one for every frame that it is given to send, and gives it back when
    the frame has been sent), and the bytes from its payload on. *)
Record lwip_packet : Type := MkLwipPacket { pk_refs : Z; pk_lower : nat; pk_bytes : bytes }.

(** What is documented of lwIP.  [pbufs]: the packets that exist.  [incoming]: a packet of
    BCMP that came in, with its source, for which lwIP calls [ip_recv]; its first buffer has
    the IP header.  A packet that is sent gets headers in front of its bytes, and the layers
    below may keep references to it.  [l2_done]: a packet of which they no longer need one. *)
Class LwipLaws (St : Type) `{Part lwip St} `{LwipApi St} : Type := {
  pbufs : St -> gmap loc lwip_packet;
  incoming : M St (loc * BmIpAddr);
  l2_done : M St (option loc);
  pbufs_part p s : pbufs (set_part p s) = pbufs s;
  incoming_spec s :
    total incoming (fun r s' => part s' = part s /\ pbufs s !! fst r = None /\ length (snd r) = 16%nat
      /\ exists f, pbufs s' = <[fst r := MkLwipPacket 1 0 f]> (pbufs s) /\ (40 <= length f)%nat) s;
  alloc_spec layer n s :
    total (pbuf_alloc layer n) (fun r s' => part s' = part s
      /\ match r with
         | Some l => pbufs s !! l = None
             /\ exists d, pbufs s' = <[l := MkLwipPacket 1 0 d]> (pbufs s) /\ length d = Z.to_nat n
         | None => pbufs s' = pbufs s
         end) s;
  free_spec l r k d s :
    pbufs s !! l = Some (MkLwipPacket r k d) ->
    total (pbuf_free (Some l)) (fun _ s' => part s' = part s
      /\ pbufs s' = if r =? 1 then delete l (pbufs s) else <[l := MkLwipPacket (r - 1) k d]> (pbufs s)) s;
  payload_spec l r k d s :
    pbufs s !! l = Some (MkLwipPacket r k d) ->
    total (pbuf_payload l) (fun b s' => b = d /\ part s' = part s /\ pbufs s' = pbufs s) s;
  len_spec l r k d s :
    pbufs s !! l = Some (MkLwipPacket r k d) ->
    total (pbuf_len l) (fun n s' => n = Z.of_nat (length d) /\ part s' = part s /\ pbufs s' = pbufs s) s;
  tot_len_spec l r k d s :
    pbufs s !! l = Some (MkLwipPacket r k d) ->
    total (pbuf_tot_len l) (fun n s' => Z.of_nat (length d) <= n /\ part s' = part s /\ pbufs s' = pbufs s) s;
  store_spec l r k d off x s :
    pbufs s !! l = Some (MkLwipPacket r k d) -> (off + length x <= length d)%nat ->
    total (pbuf_store l off x) (fun _ s' => part s' = part s
      /\ pbufs s' = <[l := MkLwipPacket r k (blit off x d)]> (pbufs s)) s;
  remove_header_spec l r k d n s :
    pbufs s !! l = Some (MkLwipPacket r k d) -> 0 <= n <= Z.of_nat (length d) ->
    total (pbuf_remove_header l n) (fun ok s' => ok = true /\ part s' = part s
      /\ pbufs s' = <[l := MkLwipPacket r k (drop (Z.to_nat n) d)]> (pbufs s)) s;
  ip6_addr_spec idx s :
    total (netif_ip6_addr idx) (fun _ s' => part s' = part s /\ pbufs s' = pbufs s) s;
  raw_sendto_spec pcb l dst src r k d s :
    pbufs s !! l = Some (MkLwipPacket r k d) ->
    total (raw_sendto_if_src pcb (Some l) dst src) (fun _ s' => part s' = part s
      /\ exists n d', pbufs s' = <[l := MkLwipPacket (r + Z.of_nat n) (n + k) d']> (pbufs s) /\ (length d <= length d')%nat) s;
  l2_done_spec s :
    total l2_done (fun o s' => part s' = part s
      /\ match o with
         | Some l => exists r k d, pbufs s !! l = Some (MkLwipPacket r (S k) d)
                                 /\ pbufs s' = <[l := MkLwipPacket r k d]> (pbufs s)
         | None => pbufs s' = pbufs s
         end) s
}.

(** A message: source, destination and data. *)
Definition message : Type := BmIpAddr * BmIpAddr * bytes.

(** What happens, and what is seen of it. *)
Inductive lwip_op : Type :=
| OpReceive
| OpHandle
| OpSentOut
| OpSend (dst : BmIpAddr) (size : Z) (ds : list (bytes * Z)) (dsts : list (option BmIpAddr)).

Inductive lwip_out : Type :=
| OutCame (src : BmIpAddr) (frame : bytes) (taken : bool)
| OutHandled (m : option message)
| OutReleased
| OutSent.

Definition lwip_op_ok (o : lwip_op) : Prop :=
  match o with
  | OpSend _ size ds _ =>
      0 <= size /\ Forall (fun x => 0 <= snd x /\ snd x + Z.of_nat (length (fst x)) <= size) ds
  | _ => True
  end.

(** BCMP, as far as it matters here: the messages that wait, after what is seen.  [None]: it
    cannot be seen. *)
Definition lwip_seen (o : lwip_out) (ms : list message) : option (list message) :=
  match o with
  | OutCame src f true =>
      Some (if (length ms <? bcmp_evt_queue_len)%nat then ms ++ [(src, slice 24 16 f, drop 40 f)] else ms)
  | OutCame _ f false => if decide (Z.of_nat (length f) < PBUF_IP_HLEN + Z.of_nat sizeof_BcmpHeader) then Some ms else None
  | OutReleased | OutSent => Some ms
  | OutHandled None => if decide (ms = []) then Some ms else None
  | OutHandled (Some m) => match ms with m' :: ms => if decide (m' = m) then Some ms else None | [] => None end
  end.

Fixpoint lwip_seen_all (os : list lwip_out) (ms : list message) : option (list message) :=
  match os with
  | [] => Some ms
  | o :: os => ms ← lwip_seen o ms; lwip_seen_all os ms
  end.

Section runs.
Context `{Platform}.
Context {St : Type} `{PartLaws lwip St} `{!LwipApi St} `{!LwipLaws St}.

(** A packet that is not taken goes on inside of lwIP, which frees it. *)
Definition receive : M St lwip_out :=
  '(p, src) ← incoming;
  f ← pbuf_payload p;
  taken ← ip_recv p src;
  _ ← (if taken : bool then mret tt else pbuf_free (Some p));
  mret (OutCame src f taken).

(** The task of BCMP takes the next event. *)
Definition handle : M St lwip_out :=
  s ← gets part;
  match lw_queue s with
  | Some (item :: q) =>
      _ ← on_part (modify (set_lw_queue (Some q)));
      src ← message_get_src_ip (bi_data item);
      dst ← message_get_dst_ip (bi_data item);
      d ← message_get_data (bi_data item);
      _ ← bm_ip_rx_cleanup (bi_data item);
      mret (OutHandled (Some (src, dst, d)))
  | _ => mret (OutHandled None)
  end.

(** Layer 2 is done with a frame. *)
Definition sent_out : M St lwip_out :=
  o ← l2_done;
  _ ← match o with Some l => bm_l2_free (Some l) | None => mret tt end;
  mret OutReleased.

(** As [bcmp_tx] does: the header and the message are copied, and it is sent. *)
Definition send (dst : BmIpAddr) (size : Z) (ds : list (bytes * Z)) (dsts : list (option BmIpAddr)) : M St lwip_out :=
  m ← bm_ip_tx_new (Some dst) size;
  _ ← for_each ds (fun x => _ ← bm_ip_tx_copy m (Some (fst x)) (snd x); mret tt);
  _ ← for_each dsts (fun d => _ ← bm_ip_tx_perform m d; mret tt);
  _ ← bm_ip_tx_cleanup m;
  mret OutSent.

Definition lwip_step (o : lwip_op) : M St lwip_out :=
  match o with
  | OpReceive => receive
  | OpHandle => handle
  | OpSentOut => sent_out
  | OpSend dst size ds dsts => send dst size ds dsts
  end.

Fixpoint lwip_run (ops : list lwip_op) : M St (list lwip_out) :=
  match ops with
  | [] => mret []
  | o :: ops => x ← lwip_step o; xs ← lwip_run ops; mret (x :: xs)
  end.

(** ** Who holds what

    A message that waits has a layout, a packet and two addresses. *)
Record holding : Type := MkHolding { h_layout : loc; h_pbuf : loc; h_src : loc; h_dst : loc; h_message : message }.

Definition item_of (h : holding) : BcmpQueueItem :=
  MkBcmpItem BcmpEventRx (Some (h_layout h)) (Z.of_nat (length (snd (h_message h)))).
Definition layout_of (h : holding) : loc * LwipLayout :=
  (h_layout h, MkLayout (Some (h_pbuf h)) (Some (IpHeap (h_src h))) (Some (IpHeap (h_dst h)))).
Definition ips_of (h : holding) : list (loc * BmIpAddr) :=
  [(h_src h, fst (fst (h_message h))); (h_dst h, snd (fst (h_message h)))].
Definition pbuf_of (h : holding) : loc * lwip_packet := (h_pbuf h, MkLwipPacket 1 0 (snd (h_message h))).
Definition all_ips (hs : list holding) : list (loc * BmIpAddr) := concat (ips_of <$> hs).

(** Nothing is held but for the messages that wait, and [base]. *)
Record holds (hs : list holding) (base : gmap loc lwip_packet) (t : lwip) (ps : gmap loc lwip_packet) : Prop := MkHolds {
  holds_queue : lw_queue t = Some (item_of <$> hs);
  holds_layouts : lw_layouts t = list_to_map (layout_of <$> hs) /\ NoDup (h_layout <$> hs);
  holds_ips : lw_ips t = list_to_map (all_ips hs) /\ NoDup (fst <$> all_ips hs);
  holds_pbufs : ps = list_to_map (pbuf_of <$> hs) ∪ base /\ NoDup (h_pbuf <$> hs)
    /\ Forall (fun h => base !! h_pbuf h = None) hs;
  holds_memory : os_alloc (lw_os t) = []
}.

(** [b] has the packets of [base], of which the layers below have nothing, and packets that
    only the layers below still reference. *)
Definition only_below (base b : gmap loc lwip_packet) : Prop :=
  forall l, match base !! l with
            | Some x => b !! l = Some x /\ pk_lower x = 0%nat
            | None => forall x, b !! l = Some x -> pk_refs x = Z.of_nat (pk_lower x) /\ (0 < pk_lower x)%nat
            end.

Definition lwip_rep (ms : list message) (base : gmap loc lwip_packet) (s : St) : Prop :=
  exists hs b, holds hs b (part s) (pbufs s) /\ only_below base b /\ h_message <$> hs = ms.

(** ** Steps

    [at_state s t ps]: this file's state and the packets. *)
Definition at_state (s : St) (t : lwip) (ps : gmap loc lwip_packet) : Prop := part s = t /\ pbufs s = ps.

Lemma total_then {A B} (m : M St A) (k : A -> M St B) P Q s :
  total m P s -> (forall a s', P a s' -> total (k a) Q s') -> total (m ≫= k) Q s.
Proof. intros Hm Hk. apply total_bind. eapply total_mono; [exact Hm|exact Hk]. Qed.

Lemma part_then {A B} (m : M lwip A) (k : A -> M St B) Q s t t' ps a :
  at_state s t ps -> m t = Some (a, t') ->
  (forall s', at_state s' t' ps -> total (k a) Q s') -> total (on_part m ≫= k) Q s.
Proof.
  intros [Hp Hb] E Hk. apply (total_then _ _ (fun x s' => x = a /\ at_state s' t' ps)).
  - exists a, (set_part t' s). split; [apply on_part_some; by rewrite Hp|]. split; [done|].
    split; [apply part_set|]. by rewrite pbufs_part.
  - intros x s' [-> Hs]. by apply Hk.
Qed.

Lemma part_last {A} (m : M lwip A) Q s t t' ps a :
  at_state s t ps -> m t = Some (a, t') -> (forall s', at_state s' t' ps -> Q a s') -> total (on_part m) Q s.
Proof.
  intros [Hp Hb] E Hk. exists a, (set_part t' s). split; [apply on_part_some; by rewrite Hp|].
  apply Hk. split; [apply part_set|]. by rewrite pbufs_part.
Qed.

Lemma at_of s t ps s' ps' : at_state s t ps -> part s' = part s -> pbufs s' = ps' -> at_state s' t ps'.
Proof. intros [Hp Hb] E1 E2. split; congruence. Qed.

(** *** This file's memory *)

Lemma malloc_lw t : os_alloc (lw_os t) = [] -> with_lw_os malloc_ok t = Some (true, t).
Proof. destruct t as [? ? ? ? ? ? ? ? [a w c]]. cbn. by intros ->. Qed.

Lemma new_ip_some t :
  os_alloc (lw_os t) = [] ->
  new_ip t = Some (Some (fresh (dom (lw_ips t))), set_lw_ips (<[fresh (dom (lw_ips t)) := replicate 16 0]> (lw_ips t)) t).
Proof. intros E. unfold new_ip. by erewrite bind_some by (by apply malloc_lw). Qed.

Lemma new_layout_some t :
  os_alloc (lw_os t) = [] ->
  new_layout t
  = Some (Some (fresh (dom (lw_layouts t))),
          set_lw_layouts (<[fresh (dom (lw_layouts t)) := MkLayout None None None]> (lw_layouts t)) t).
Proof. intros E. unfold new_layout. by erewrite bind_some by (by apply malloc_lw). Qed.

Lemma store_ip_some l a t :
  is_Some (lw_ips t !! l) -> store_ip (Some l) a t = Some (tt, set_lw_ips (<[l := a]> (lw_ips t)) t).
Proof. intros [x E]. unfold store_ip, lift, mbind, M_bind, get. cbn. by rewrite E. Qed.

Lemma free_ip_some l t :
  is_Some (lw_ips t !! l) -> free_ip_ptr (Some (IpHeap l)) t = Some (tt, set_lw_ips (delete l (lw_ips t)) t).
Proof. intros [x E]. unfold free_ip_ptr, free_ip, lift, mbind, M_bind, get. cbn. by rewrite E. Qed.

Lemma get_layout_some l y t : lw_layouts t !! l = Some y -> get_layout (Some l) t = Some (y, t).
Proof. intros E. unfold get_layout, lift, mbind, M_bind, get. cbn. by rewrite E. Qed.

Lemma store_layout_some l y t :
  is_Some (lw_layouts t !! l) ->
  store_layout (Some l) y t = Some (tt, set_lw_layouts (<[l := y]> (lw_layouts t)) t).
Proof. intros [x E]. unfold store_layout. by erewrite bind_some by (by apply get_layout_some). Qed.

Lemma free_layout_some l t :
  is_Some (lw_layouts t !! l) -> free_layout (Some l) t = Some (tt, set_lw_layouts (delete l (lw_layouts t)) t).
Proof. intros [x E]. unfold free_layout. by erewrite bind_some by (by apply get_layout_some). Qed.

Lemma read_heap_ip l a t ps s :
  at_state s t ps -> lw_ips t !! l = Some a -> total (read_ip (IpHeap l)) (fun r s' => r = a /\ at_state s' t ps) s.
Proof.
  intros Hs E. unfold read_ip. eapply part_last; [exact Hs| |intros s' Hs'; by split].
  unfold lift, mbind, M_bind, get. by rewrite E.
Qed.

(** ** Reception *)

#[local] Arguments Nat.ltb : simpl never.

(** The fields of a state. *)
Ltac cbn_lw := cbn [lw_netif lw_raw_pcb lw_udp_list lw_udp_items lw_layouts lw_ips lw_queue lw_udp_calls lw_os
  set_lw_layouts set_lw_ips set_lw_queue].

(** The memory of a message: three allocations that succeed. *)
Definition took (t : lwip) (h : holding) (q : list BcmpQueueItem) : lwip :=
  set_lw_queue (Some (q ++ [item_of h]))
    (set_lw_layouts (<[h_layout h := snd (layout_of h)]> (lw_layouts t))
      (set_lw_ips (<[h_src h := fst (fst (h_message h))]> (<[h_dst h := snd (fst (h_message h))]> (lw_ips t))) t)).

Definition unused (h : holding) (t : lwip) : Prop :=
  lw_layouts t !! h_layout h = None /\ lw_ips t !! h_src h = None /\ lw_ips t !! h_dst h = None /\ h_src h <> h_dst h.

Lemma fresh_lookup {A} (m : gmap loc A) : m !! fresh (dom m) = None.
Proof. apply not_elem_of_dom, is_fresh. Qed.

(** The memory of the message is filled. *)
Definition filled (t : lwip) (h : holding) : lwip :=
  set_lw_layouts (<[h_layout h := snd (layout_of h)]> (lw_layouts t))
    (set_lw_ips (<[h_src h := fst (fst (h_message h))]> (<[h_dst h := snd (fst (h_message h))]> (lw_ips t))) t).

Lemma queue_send_some item t q :
  lw_queue t = Some q ->
  lwip_queue_send item t
  = Some (if (length q <? bcmp_evt_queue_len)%nat then (BmOK, set_lw_queue (Some (q ++ [item])) t) else (BmENOMEM, t)).
Proof.
  intros E. unfold lwip_queue_send, mbind, M_bind, get. rewrite E. by destruct (length q <? bcmp_evt_queue_len)%nat.
Qed.

(** The end of [ip_recv], when the memory is filled: the message is queued, or all is freed. *)
Lemma recv_queued h d s t ps q :
  at_state s (filled t h) ps -> ps !! h_pbuf h = Some (MkLwipPacket 1 0 d) -> d = snd (h_message h) ->
  unused h t -> lw_queue t = Some q ->
  total (len ← pbuf_len (h_pbuf h);
         err ← on_part (lwip_queue_send (MkBcmpItem BcmpEventRx (Some (h_layout h)) len));
         _ ← when (negb (is_ok err))
           (_ ← pbuf_free (Some (h_pbuf h));
            _ ← on_part (free_ip_ptr (IpHeap <$> Some (h_src h)));
            _ ← on_part (free_ip_ptr (IpHeap <$> Some (h_dst h)));
            on_part (free_layout (Some (h_layout h))));
         mret true) (fun taken s' => taken = true
           /\ if (length q <? bcmp_evt_queue_len)%nat then at_state s' (took t h q) ps
              else at_state s' t (delete (h_pbuf h) ps)) s.
Proof.
  intros Hs Hp -> (Uy & Us & Ud & Hne) Hq.
  eapply total_then; [eapply len_spec; by rewrite (proj2 Hs)|]. intros n s1 (-> & E1 & E1').
  pose proof (at_of _ _ _ s1 ps Hs E1 ltac:(rewrite E1'; apply Hs)) as Hs1. clear Hs E1 E1' s.
  destruct t as [nf raw ll items lys ips qu calls os]. cbn in Hq, Uy, Us, Ud. subst qu.
  unfold filled, took in *. cbn [lw_netif lw_raw_pcb lw_udp_list lw_udp_items lw_layouts lw_ips lw_queue lw_udp_calls lw_os
    set_lw_layouts set_lw_ips set_lw_queue] in *.
  destruct (length q <? bcmp_evt_queue_len)%nat eqn:El;
    (eapply part_then; [exact Hs1|rewrite (queue_send_some _ _ q) by done; rewrite El; reflexivity|]).
  - intros s2 Hs2. cbn [fst is_ok negb when]. apply total_bind, total_ret, total_ret. split; [done|exact Hs2].
  - intros s2 Hs2. cbn [fst is_ok negb when].
    apply total_bind. eapply total_then; [eapply free_spec; by rewrite (proj2 Hs2)|]. intros _ s3 [E3 E3'].
    pose proof (at_of _ _ _ s3 (delete (h_pbuf h) ps) Hs2 E3 ltac:(rewrite E3', (proj2 Hs2); done)) as Hs3.
    eapply part_then; [exact Hs3|apply free_ip_some; cbn; rewrite lookup_insert_eq; eauto|]. intros s4 Hs4. cbn in Hs4.
    rewrite delete_insert_id in Hs4 by (by rewrite lookup_insert_ne).
    eapply part_then; [exact Hs4|apply free_ip_some; cbn; rewrite lookup_insert_eq; eauto|]. intros s5 Hs5. cbn in Hs5.
    rewrite delete_insert_id in Hs5 by done.
    eapply part_last; [exact Hs5|apply free_layout_some; cbn; rewrite lookup_insert_eq; eauto|]. intros s6 Hs6. cbn in Hs6.
    rewrite delete_insert_id in Hs6 by done. by apply total_ret.
Qed.

Lemma ip_recv_spec p src f s t ps q :
  at_state s t ps -> ps !! p = Some (MkLwipPacket 1 0 f) -> (40 <= length f)%nat ->
  os_alloc (lw_os t) = [] -> lw_queue t = Some q ->
  total (ip_recv p src) (fun taken s' =>
    if taken : bool then
      if (length q <? bcmp_evt_queue_len)%nat then
        exists h, h_pbuf h = p /\ h_message h = (src, slice 24 16 f, drop 40 f) /\ unused h t
          /\ at_state s' (took t h q) (<[p := MkLwipPacket 1 0 (drop 40 f)]> ps)
      else at_state s' t (delete p ps)
    else Z.of_nat (length f) < PBUF_IP_HLEN + Z.of_nat sizeof_BcmpHeader /\ at_state s' t ps) s.
Proof.
  intros Hs Hp Hf Hos Hq. unfold ip_recv.
  eapply total_then; [eapply tot_len_spec; by rewrite (proj2 Hs)|]. intros tot s1 (Htot & E1 & E1').
  pose proof (at_of _ _ _ s1 ps Hs E1 ltac:(rewrite E1'; apply Hs)) as Hs1. clear Hs E1 E1' s.
  destruct (Z.leb_spec (PBUF_IP_HLEN + Z.of_nat sizeof_BcmpHeader) tot); [|apply total_ret; split; [lia|done]].
  eapply total_then; [eapply payload_spec; by rewrite (proj2 Hs1)|]. intros hdr s2 (-> & E2 & E2').
  pose proof (at_of _ _ _ s2 ps Hs1 E2 ltac:(rewrite E2'; apply Hs1)) as Hs2. clear Hs1 E2 E2' s1.
  eapply total_then; [eapply (remove_header_spec p 1 0 f); [by rewrite (proj2 Hs2)|unfold PBUF_IP_HLEN; lia]|].
  intros ok s3 (-> & E3 & E3'). set (ps1 := <[p := MkLwipPacket 1 0 (drop 40 f)]> ps).
  pose proof (at_of _ _ _ s3 ps1 Hs2 E3 ltac:(rewrite E3', (proj2 Hs2); done)) as Hs3. clear Hs2 E3 E3' s2.
  eapply total_then; [apply (total_ret true (fun _ s' => s' = s3)); done|]. intros _ s' ->.
  destruct t as [nf raw ll items lys ips qu calls os]. cbn in Hos, Hq. subst qu.
  set (t := MkLwip nf raw ll items lys ips (Some q) calls os) in *.
  eapply part_then; [exact Hs3|by apply new_ip_some|]. cbn_lw. intros s4 Hs4. set (ls := fresh (dom ips)) in *.
  eapply part_then; [exact Hs4|by apply new_ip_some|]. cbn_lw. intros s5 Hs5. set (ips1 := <[ls := replicate 16 0]> ips) in *.
  set (ld := fresh (dom ips1)) in *. assert (Hld : ips1 !! ld = None) by apply fresh_lookup.
  assert (Hls : ips !! ls = None) by apply fresh_lookup.
  assert (Hne : ls <> ld) by (intros E; unfold ips1 in Hld; rewrite E, lookup_insert_eq in Hld; done).
  eapply part_then; [exact Hs5|by apply new_layout_some|]. cbn_lw. intros s6 Hs6. set (ly := fresh (dom lys)) in *.
  assert (Hly : lys !! ly = None) by apply fresh_lookup.
  assert (Hd : read_at 24 16 f = Some (slice 24 16 f)) by (unfold read_at; by rewrite (proj2 (Nat.leb_le _ _)) by lia).
  rewrite Hd. apply total_bind. total_step.
  eapply part_then; [exact Hs6|apply store_ip_some; cbn_lw; rewrite lookup_insert_eq; eauto|]. cbn_lw. intros s7 Hs7.
  rewrite insert_insert_eq in Hs7.
  eapply part_then; [exact Hs7|apply store_ip_some; cbn_lw; rewrite lookup_insert_ne by done; unfold ips1; rewrite lookup_insert_eq; eauto|].
  cbn_lw. intros s8 Hs8. unfold ips1 in Hs8. rewrite (insert_insert_ne _ ld ls), insert_insert_eq in Hs8 by done.
  eapply part_then; [exact Hs8|apply store_layout_some; cbn_lw; rewrite lookup_insert_eq; eauto|]. cbn_lw. intros s9 Hs9.
  rewrite insert_insert_eq in Hs9.
  set (h := MkHolding ly p ls ld (src, slice 24 16 f, drop 40 f)).
  assert (Hu : unused h t).
  { split; [done|]. split; [done|]. split; [|done]. cbn. unfold ips1 in Hld. by rewrite lookup_insert_ne in Hld. }
  assert (Hp1 : ps1 !! h_pbuf h = Some (MkLwipPacket 1 0 (drop 40 f))) by apply lookup_insert_eq.
  eapply total_mono; [exact (recv_queued h (drop 40 f) s9 t ps1 q Hs9 Hp1 eq_refl Hu eq_refl)|].
  intros taken s' [-> Hend]. cbv beta iota in *. destruct (length q <? bcmp_evt_queue_len)%nat.
  - exists h. by repeat (split; [done|]).
  - unfold ps1 in Hend. cbn [h_pbuf h] in Hend. by rewrite delete_insert_eq in Hend.
Qed.

(** *** The lists behind the maps *)

Lemma keys_layout (hs : list holding) : fst <$> (layout_of <$> hs) = h_layout <$> hs.
Proof. by rewrite <- list_fmap_compose. Qed.
Lemma keys_pbuf (hs : list holding) : fst <$> (pbuf_of <$> hs) = h_pbuf <$> hs.
Proof. by rewrite <- list_fmap_compose. Qed.

Lemma all_ips_snoc hs h : all_ips (hs ++ [h]) = all_ips hs ++ ips_of h.
Proof. unfold all_ips. by rewrite fmap_app, concat_app. Qed.

Lemma not_key {A} (l : list (loc * A)) (m : gmap loc A) k : m = list_to_map l -> m !! k = None -> k ∉ fst <$> l.
Proof. intros ->. apply not_elem_of_list_to_map. Qed.

Lemma NoDup_snoc {A} (l : list A) x : NoDup l -> x ∉ l -> NoDup (l ++ [x]).
Proof.
  intros Hl Hx. apply NoDup_app. split; [done|]. split; [|apply NoDup_singleton].
  intros y Hy ->%list_elem_of_singleton. done.
Qed.

Lemma map_snoc {A} (l : list (loc * A)) k x :
  k ∉ fst <$> l -> list_to_map (l ++ [(k, x)]) =@{gmap loc A} <[k := x]> (list_to_map l).
Proof. intros Hk. apply list_to_map_snoc. done. Qed.

(** A message more. *)
Lemma holds_more hs base t ps h :
  holds hs base t ps -> unused h t -> ps !! h_pbuf h = None ->
  holds (hs ++ [h]) base (took t h (item_of <$> hs)) (<[h_pbuf h := MkLwipPacket 1 0 (snd (h_message h))]> ps).
Proof.
  intros [Hq [Hy Ny] [Hi Ni] (Hp & Np & Hb) Ho] (Uy & Us & Ud & Hne) Hn.
  pose proof (not_key _ _ _ Hy Uy) as Ky. rewrite keys_layout in Ky.
  pose proof (not_key _ _ _ Hi Us) as Ks. pose proof (not_key _ _ _ Hi Ud) as Kd.
  assert (Kp : h_pbuf h ∉ h_pbuf <$> hs).
  { intros E. rewrite Hp in Hn. apply lookup_union_None in Hn as [Hn _].
    apply (not_elem_of_list_to_map_2 (M := gmap loc)) in Hn. by rewrite keys_pbuf in Hn. }
  split; unfold took; cbn_lw.
  - by rewrite fmap_app.
  - rewrite !fmap_app. split; [|by apply NoDup_snoc]. rewrite Hy. symmetry. apply map_snoc. by rewrite keys_layout.
  - rewrite all_ips_snoc, fmap_app. split.
    + rewrite Hi. unfold ips_of. change [?a; ?b] with ([a] ++ [b]). rewrite app_assoc, !map_snoc; [|done|].
      * by apply insert_insert_ne.
      * rewrite fmap_app. intros [?|E]%elem_of_app; [done|]. by apply list_elem_of_singleton in E; cbn in E.
    + cbn [ips_of fmap list_fmap fst]. change [?a; ?b] with ([a] ++ [b]). rewrite app_assoc. apply NoDup_snoc; [by apply NoDup_snoc|].
      intros [?|E]%elem_of_app; [done|]. by apply list_elem_of_singleton in E.
  - rewrite !fmap_app. split; [|split; [by apply NoDup_snoc|]].
    + rewrite Hp. change (pbuf_of <$> [h]) with [(h_pbuf h, MkLwipPacket 1 0 (snd (h_message h)))]. rewrite map_snoc by (by rewrite keys_pbuf). by rewrite insert_union_l.
    + apply Forall_app. split; [done|]. constructor; [|done]. rewrite Hp in Hn. by apply lookup_union_None in Hn as [_ Hn].
  - done.
Qed.

Lemma rep_same ms base s s' : lwip_rep ms base s -> part s' = part s -> pbufs s' = pbufs s -> lwip_rep ms base s'.
Proof. intros (hs & b & Hh & Hb & E) E1 E2. exists hs, b. by rewrite E1, E2. Qed.

Lemma receive_step ms base s :
  lwip_rep ms base s -> total receive (fun o s' => exists ms', lwip_seen o ms = Some ms' /\ lwip_rep ms' base s') s.
Proof.
  intros (hs & b & Hh & Hb & Em). unfold receive. eapply total_then; [apply incoming_spec|].
  intros [p src] s1 (E1 & Hn & _ & f & E1' & Hf). cbn [fst] in *.
  set (t := part s) in *. set (ps := pbufs s) in *.
  assert (Hs1 : at_state s1 t (<[p := MkLwipPacket 1 0 f]> ps)) by done.
  eapply total_then; [eapply payload_spec; rewrite E1'; apply lookup_insert_eq|]. intros d s2 (-> & E2 & E2').
  pose proof (at_of _ _ _ s2 _ Hs1 E2 E2') as Hs2. rewrite E1' in Hs2.
  eapply total_then; [eapply (ip_recv_spec p src f); [exact Hs2|apply lookup_insert_eq|done|apply (holds_memory _ _ _ _ Hh)|apply (holds_queue _ _ _ _ Hh)]|].
  intros [|] s3; cbv beta iota.
  - rewrite length_fmap. intros H3. apply total_bind, total_ret, total_ret. cbn [lwip_seen].
    assert (El : length ms = length hs) by (by rewrite <- Em, length_fmap). rewrite El.
    destruct (length hs <? bcmp_evt_queue_len)%nat.
    + destruct H3 as (h & Hp & Hm & Hu & [E3 E3']). eexists. split; [done|]. exists (hs ++ [h]), b. split; [|split; [done|]].
      * rewrite E3, E3', insert_insert_eq. subst p. replace (drop 40 f) with (snd (h_message h)) by (by rewrite Hm).
        by apply holds_more.
      * by rewrite fmap_app, Em, <- Hm.
    + destruct H3 as [E3 E3']. eexists. split; [done|]. exists hs, b. rewrite E3, E3', delete_insert_id by done. done.
  - intros [Hlt [E3 E3']]. apply total_bind. eapply total_mono; [eapply free_spec; rewrite E3'; apply lookup_insert_eq|].
    intros _ s4 [E4 E4']. apply total_ret. exists ms. split; [cbn [lwip_seen]; by rewrite decide_True by exact Hlt|]. exists hs, b.
    rewrite E4, E4', E3, E3'. cbn. by rewrite delete_insert_id by done.
Qed.

(** ** Handling *)

(** A message less. *)
Definition left (t : lwip) (h : holding) (q : list BcmpQueueItem) : lwip :=
  set_lw_layouts (delete (h_layout h) (lw_layouts t))
    (set_lw_ips (delete (h_src h) (delete (h_dst h) (lw_ips t))) (set_lw_queue (Some q) t)).

Lemma holds_first h hs base t ps :
  holds (h :: hs) base t ps ->
  lw_layouts t !! h_layout h = Some (snd (layout_of h))
  /\ lw_ips t !! h_src h = Some (fst (fst (h_message h))) /\ lw_ips t !! h_dst h = Some (snd (fst (h_message h)))
  /\ h_src h <> h_dst h /\ ps !! h_pbuf h = Some (MkLwipPacket 1 0 (snd (h_message h))).
Proof.
  intros [_ [Hy _] [Hi Ni] (Hp & _ & _) _]. cbn [fmap list_fmap] in *. unfold all_ips in *.
  cbn [fmap list_fmap concat ips_of app fst] in *. apply NoDup_cons in Ni as [Hne _]. apply not_elem_of_cons in Hne as [Hne _].
  rewrite Hy, Hi, Hp. cbn. rewrite !lookup_insert_eq, lookup_insert_ne, lookup_insert_eq by done.
  do 4 (split; [done|]). apply lookup_union_Some_l. apply lookup_insert_eq.
Qed.

Lemma holds_less h hs base t ps :
  holds (h :: hs) base t ps -> holds hs base (left t h (item_of <$> hs)) (delete (h_pbuf h) ps).
Proof.
  intros [_ [Hy Ny] [Hi Ni] (Hp & Np & Hb) Ho]. cbn [fmap list_fmap] in *. unfold all_ips in *.
  cbn [fmap list_fmap concat ips_of app fst] in *.
  apply NoDup_cons in Ny as [Ky Ny]. apply NoDup_cons in Np as [Kp Np]. apply Forall_cons in Hb as [Hbh Hb].
  apply NoDup_cons in Ni as [Ks Ni]. apply NoDup_cons in Ni as [Kd Ni]. apply not_elem_of_cons in Ks as [Hne Ks].
  split; unfold left; cbn_lw.
  - done.
  - split; [|done]. rewrite Hy. cbn. apply delete_insert_id. apply not_elem_of_list_to_map_1. by rewrite keys_layout.
  - split; [|done]. rewrite Hi. cbn. rewrite delete_insert_ne by done.
    rewrite (delete_insert_id _ (h_dst h)), delete_insert_id; [done|by apply not_elem_of_list_to_map_1..].
  - split; [|done]. rewrite Hp, delete_union. cbn. rewrite delete_insert_id, (delete_id base) by (try done; apply not_elem_of_list_to_map_1; by rewrite keys_pbuf).
    done.
  - done.
Qed.

(** What BCMP reads of a message. *)
Lemma get_layout_then {B} l y (k : LwipLayout -> M St B) Q s t ps :
  at_state s t ps -> lw_layouts t !! l = Some y ->
  (forall s', at_state s' t ps -> total (k y) Q s') -> total (on_part (get_layout (Some l)) ≫= k) Q s.
Proof. intros Hs E Hk. eapply part_then; [exact Hs|by apply get_layout_some|exact Hk]. Qed.

Lemma src_ip_spec l y a x s t ps :
  at_state s t ps -> lw_layouts t !! l = Some y -> ly_src y = Some (IpHeap a) -> lw_ips t !! a = Some x ->
  total (message_get_src_ip (Some l)) (fun r s' => r = x /\ at_state s' t ps) s.
Proof.
  intros Hs Ey Ea Ex. eapply get_layout_then; [exact Hs|exact Ey|]. intros s1 Hs1. rewrite Ea. apply total_bind. total_step.
  by apply read_heap_ip.
Qed.

Lemma dst_ip_spec l y a x s t ps :
  at_state s t ps -> lw_layouts t !! l = Some y -> ly_dst y = Some (IpHeap a) -> lw_ips t !! a = Some x ->
  total (message_get_dst_ip (Some l)) (fun r s' => r = x /\ at_state s' t ps) s.
Proof.
  intros Hs Ey Ea Ex. eapply get_layout_then; [exact Hs|exact Ey|]. intros s1 Hs1. rewrite Ea. apply total_bind. total_step.
  by apply read_heap_ip.
Qed.

Lemma data_spec l y p r k d s t ps :
  at_state s t ps -> lw_layouts t !! l = Some y -> ly_pbuf y = Some p -> ps !! p = Some (MkLwipPacket r k d) ->
  total (message_get_data (Some l)) (fun b s' => b = d /\ at_state s' t ps) s.
Proof.
  intros Hs Ey Ea Ex. eapply get_layout_then; [exact Hs|exact Ey|]. intros s1 Hs1. rewrite Ea. apply total_bind. total_step.
  eapply total_mono; [eapply payload_spec; rewrite (proj2 Hs1); exact Ex|]. intros b s2 (-> & E & E'). split; [done|].
  eapply at_of; [exact Hs1|done|]. rewrite E'. apply Hs1.
Qed.

Lemma rx_cleanup_spec h hs base q s t ps :
  at_state s (set_lw_queue (Some q) t) ps -> holds (h :: hs) base t ps ->
  total (bm_ip_rx_cleanup (Some (h_layout h))) (fun _ s' => at_state s' (left t h q) (delete (h_pbuf h) ps)) s.
Proof.
  intros Hs Hh. destruct (holds_first _ _ _ _ _ Hh) as (Ey & Es & Ed & Hne & Ep).
  unfold bm_ip_rx_cleanup. eapply get_layout_then; [exact Hs|exact Ey|]. intros s1 Hs1.
  cbn [layout_of snd ly_pbuf ly_dst ly_src].
  eapply total_then; [eapply free_spec; rewrite (proj2 Hs1); exact Ep|]. intros _ s2 [E2 E2'].
  pose proof (at_of _ _ _ s2 (delete (h_pbuf h) ps) Hs1 E2 ltac:(rewrite E2', (proj2 Hs1); done)) as Hs2.
  destruct t as [nf raw ll items lys ips qu calls os]. unfold left. cbn_lw. cbn [lw_layouts lw_ips] in Ey, Es, Ed.
  eapply part_then; [exact Hs2|apply free_ip_some; cbn_lw; eauto|]. cbn_lw. intros s3 Hs3.
  eapply part_then; [exact Hs3|apply free_ip_some; cbn_lw; rewrite lookup_delete_ne by done; eauto|]. cbn_lw. intros s4 Hs4.
  eapply part_last; [exact Hs4|apply free_layout_some; cbn_lw; eauto|]. cbn_lw. auto.
Qed.

Lemma handle_step ms base s :
  lwip_rep ms base s -> total handle (fun o s' => exists ms', lwip_seen o ms = Some ms' /\ lwip_rep ms' base s') s.
Proof.
  intros (hs & b & Hh & Hb & Em). unfold handle. apply total_bind, total_gets. rewrite (holds_queue _ _ _ _ Hh).
  destruct hs as [|h hs]; cbn [fmap list_fmap].
  { apply total_ret. exists ms. subst ms. split; [done|]. by exists [], b. }
  set (t := part s) in *. set (ps := pbufs s) in *. assert (Hs : at_state s t ps) by done.
  destruct (holds_first _ _ _ _ _ Hh) as (Ey & Es & Ed & _ & Ep).
  eapply part_then; [exact Hs|reflexivity|]. intros s1 Hs1. cbn [item_of bi_data].
  eapply total_then; [by eapply src_ip_spec|]. intros src s2 [-> Hs2].
  eapply total_then; [by eapply dst_ip_spec|]. intros dst s3 [-> Hs3].
  eapply total_then; [by eapply data_spec|]. intros d s4 [-> Hs4].
  eapply total_then; [by eapply (rx_cleanup_spec h hs b)|]. intros _ s5 [E5 E5']. apply total_ret.
  subst ms. cbn [fmap list_fmap lwip_seen]. destruct (h_message h) as [[a a'] m] eqn:E. cbn [fst snd].
  rewrite decide_True by done. eexists. split; [done|]. exists hs, b. split; [|done]. rewrite E5, E5'. by apply (holds_less h).
Qed.

(** ** Sending *)

(** A loop whose steps keep an invariant. *)
Lemma for_each_keeps {A} (l : list A) (f : A -> M St unit) (I : St -> Prop) s :
  I s -> (forall a s, a ∈ l -> I s -> total (f a) (fun _ s' => I s') s) -> total (for_each l f) (fun _ s' => I s') s.
Proof.
  intros HI Hf. revert s HI. induction l as [|a l IH]; intros s HI; cbn [for_each]; [by apply total_ret|].
  apply (total_then _ _ (fun _ s' => I s')); [apply Hf; [by apply list_elem_of_here|done]|]. intros x s1 HI1. apply IH; [|done].
  intros a' s' Ha. apply Hf. by apply list_elem_of_further.
Qed.

(** A message that is sent, in memory. *)
Definition sending (t : lwip) (ps : gmap loc lwip_packet) (l p : loc) (dst : BmIpAddr) (size : Z) (s : St) : Prop :=
  exists n d, at_state s (set_lw_layouts (<[l := MkLayout (Some p) (Some (IpNetif 0)) (Some (IpCaller dst))]> (lw_layouts t)) t)
                (<[p := MkLwipPacket (1 + Z.of_nat n) n d]> ps)
              /\ (Z.to_nat size <= length d)%nat.

Lemma tx_copy_keeps t ps l p dst size s x off :
  sending t ps l p dst size s -> 0 <= off -> off + Z.of_nat (length x) <= size ->
  total (bm_ip_tx_copy (Some l) (Some x) off) (fun _ s' => sending t ps l p dst size s') s.
Proof.
  intros (n & d & Hs & Hd) Ho Hx. eapply get_layout_then; [exact Hs|cbn_lw; apply lookup_insert_eq|]. intros s1 Hs1.
  apply total_bind. total_step. eapply total_then; [eapply store_spec; [rewrite (proj2 Hs1); apply lookup_insert_eq|lia]|].
  intros _ s2 [E E']. apply total_ret. exists n, (blit (Z.to_nat off) x d). split; [|rewrite length_blit; lia].
  eapply at_of; [exact Hs1|done|]. by rewrite E', (proj2 Hs1), insert_insert_eq.
Qed.

Lemma tx_perform_keeps t ps l p dst size s d :
  sending t ps l p dst size s -> total (bm_ip_tx_perform (Some l) d) (fun _ s' => sending t ps l p dst size s') s.
Proof.
  intros (n & b & Hs & Hb). eapply get_layout_then; [exact Hs|cbn_lw; apply lookup_insert_eq|]. intros s1 Hs1. cbn [ly_dst ly_src ly_pbuf].
  eapply (total_then _ _ (fun _ s' => s' = s1)).
  { destruct d as [d|]; [by apply total_ret|]. apply total_bind. total_step. by apply total_ret. }
  intros a s' ->. apply total_bind. total_step. eapply total_then; [apply ip6_addr_spec|]. intros src s2 [E2 E2'].
  apply total_bind, total_gets. eapply total_then; [eapply raw_sendto_spec; rewrite E2', (proj2 Hs1); apply lookup_insert_eq|].
  intros ok s3 (E3 & n' & d' & E3' & Hd'). apply total_ret. exists (n' + n)%nat, d'. split; [|lia].
  eapply at_of; [exact Hs1|congruence|]. rewrite E3', E2', (proj2 Hs1), insert_insert_eq. f_equal. f_equal. lia.
Qed.

(** As long as lwIP has packets to give. *)
Context (packets_left : forall layer n s, post (pbuf_alloc layer n) (fun r _ => is_Some r) s).

(** The packet of a message that was sent. *)
Lemma holds_below hs base b t ps p n d :
  holds hs b t ps -> only_below base b -> ps !! p = None ->
  exists b', holds hs b' t (if 1 + Z.of_nat n =? 1 then delete p (<[p := MkLwipPacket (1 + Z.of_nat n) n d]> ps)
                            else <[p := MkLwipPacket (1 + Z.of_nat n - 1) n d]> (<[p := MkLwipPacket (1 + Z.of_nat n) n d]> ps))
             /\ only_below base b'.
Proof.
  intros [Hq Hy Hi (Hp & Np & Hb) Ho] Hu Hn. destruct (Z.eqb_spec (1 + Z.of_nat n) 1).
  { exists b. by rewrite delete_insert_id. }
  rewrite insert_insert_eq. rewrite Hp in Hn. apply lookup_union_None in Hn as [Hn Hnb].
  exists (<[p := MkLwipPacket (1 + Z.of_nat n - 1) n d]> b). split.
  - split; try done. rewrite Hp. split; [by apply insert_union_r|]. split; [done|]. rewrite Forall_forall in Hb |- *.
    intros h Hh. rewrite lookup_insert_ne; [by apply Hb|]. intros ->.
    apply (not_elem_of_list_to_map_2 (M := gmap loc)) in Hn. rewrite keys_pbuf in Hn. apply Hn. by apply list_elem_of_fmap_2.
  - intros l. specialize (Hu l). destruct (base !! l) as [x|] eqn:E.
    + rewrite lookup_insert_ne; [done|]. intros ->. destruct Hu. congruence.
    + intros x. destruct (decide (l = p)) as [->|]; [|by rewrite lookup_insert_ne; auto].
      rewrite lookup_insert_eq. intros [= <-]. cbn. split; lia.
Qed.

(** Layer 2 gives back a reference. *)
Lemma sent_out_step ms base s :
  lwip_rep ms base s -> total sent_out (fun o s' => o = OutReleased /\ lwip_rep ms base s') s.
Proof.
  intros (hs & b & [Hq Hy Hi (Hp & Np & Hb) Ho] & Hu & Em). unfold sent_out. eapply total_then; [apply l2_done_spec|].
  intros [l|] s1 [E1 Hd].
  2: { apply total_bind. total_step. apply total_ret. split; [done|]. eapply rep_same; [|exact E1|exact Hd]. by exists hs, b. }
  destruct Hd as (r & k & d & El & E1'). rewrite Hp in El.
  assert (Hl : (list_to_map (pbuf_of <$> hs) : gmap loc lwip_packet) !! l = None).
  { destruct ((list_to_map (pbuf_of <$> hs) : gmap loc lwip_packet) !! l) as [x|] eqn:E; [|done]. rewrite (lookup_union_Some_l _ _ _ _ E) in El. injection El as ->.
    apply elem_of_list_to_map_2, list_elem_of_fmap in E as (h & [=] & _). }
  rewrite lookup_union_r in El by done. pose proof (Hu l) as Hul.
  destruct (base !! l) as [x|] eqn:Eb; [destruct Hul as [E E0]; rewrite E in El; injection El as ->; by cbn in E0|].
  destruct (Hul _ El) as [Er _]. cbn in Er. subst r.
  apply total_bind. eapply total_mono; [eapply free_spec; rewrite E1'; apply lookup_insert_eq|].
  intros _ s2 [E2 E2']. apply total_ret. split; [done|].
  assert (Hnew : forall b', (forall l', l' <> l -> b' !! l' = b !! l') ->
            (forall x, b' !! l = Some x -> pk_refs x = Z.of_nat (pk_lower x) /\ (0 < pk_lower x)%nat) ->
            pbufs s2 = list_to_map (pbuf_of <$> hs) ∪ b' -> lwip_rep ms base s2).
  { intros b' Hb1 Hb2 Hb3. exists hs, b'. rewrite E2, E1. split; [|split; [|done]].
    - split; try done. split; [done|]. split; [done|]. rewrite Forall_forall in Hb |- *. intros h Hh. rewrite Hb1; [by apply Hb|].
      intros <-. apply (not_elem_of_list_to_map_2 (M := gmap loc)) in Hl. rewrite keys_pbuf in Hl. apply Hl. by apply list_elem_of_fmap_2.
    - intros l'. destruct (decide (l' = l)) as [->|Hne]; [by rewrite Eb|]. rewrite Hb1 by done. apply Hu. }
  destruct (Z.eqb_spec (Z.of_nat (S k)) 1).
  - apply (Hnew (delete l b)); [intros; by apply lookup_delete_ne|by intros x; rewrite lookup_delete_eq|].
    rewrite E2', E1', Hp, delete_insert_eq, delete_union. by rewrite (delete_id (list_to_map _)) by done.
  - apply (Hnew (<[l := MkLwipPacket (Z.of_nat (S k) - 1) k d]> b)); [intros; by apply lookup_insert_ne| |].
    + intros x. rewrite lookup_insert_eq. intros [= <-]. cbn. split; lia.
    + rewrite E2', E1', Hp, insert_insert_eq. by apply insert_union_r.
Qed.

Lemma send_step ms base dst size ds dsts s :
  lwip_op_ok (OpSend dst size ds dsts) -> lwip_rep ms base s ->
  total (send dst size ds dsts) (fun o s' => o = OutSent /\ lwip_rep ms base s') s.
Proof.
  intros [Hsz Hds] (hs & b & Hh & Hb & Em). set (t := part s) in *. set (ps := pbufs s) in *.
  assert (Hs : at_state s t ps) by done. unfold send, bm_ip_tx_new. apply total_bind.
  eapply total_then; [apply total_post; [apply alloc_spec|apply packets_left]|].
  intros [p|] s1 [[E1 Hp] Hsome]; [|by destruct Hsome]. destruct Hp as (Hn & d & E1' & Hd).
  pose proof (at_of _ _ _ s1 _ Hs E1 E1') as Hs1.
  eapply part_then; [exact Hs1|apply new_layout_some, (holds_memory _ _ _ _ Hh)|]. intros s2 Hs2.
  set (l := fresh (dom (lw_layouts t))) in *. assert (Hl : lw_layouts t !! l = None) by apply fresh_lookup.
  eapply part_then; [exact Hs2|apply store_layout_some; cbn_lw; rewrite lookup_insert_eq; eauto|]. intros s3 Hs3.
  cbn_lw. cbn [lw_layouts set_lw_layouts] in Hs3. rewrite insert_insert_eq in Hs3.
  assert (HI : sending t ps l p dst size s3) by (exists 0%nat, d; split; [done|lia]).
  apply total_ret.
  eapply total_then; [apply (for_each_keeps _ _ (sending t ps l p dst size)); [exact HI|]|].
  { intros [x off] s' Hx HI'. rewrite Forall_forall in Hds. destruct (Hds _ Hx). cbn [fst snd] in *.
    apply total_bind. eapply total_mono; [by apply tx_copy_keeps|]. intros ? s4 HI4. by apply total_ret. }
  intros ? s4 HI4. eapply total_then; [apply (for_each_keeps _ _ (sending t ps l p dst size)); [exact HI4|]|].
  { intros x s' Hx HI'. apply total_bind. eapply total_mono; [by apply tx_perform_keeps|]. intros ? s5 HI5. by apply total_ret. }
  intros ? s5 (n & d' & Hs5 & Hd'). unfold bm_ip_tx_cleanup. apply total_bind.
  eapply get_layout_then; [exact Hs5|cbn_lw; apply lookup_insert_eq|]. intros s6 Hs6. cbn [ly_pbuf].
  eapply total_then; [eapply free_spec; rewrite (proj2 Hs6); apply lookup_insert_eq|]. intros _ s7 [E7 E7'].
  destruct (holds_below hs base b t ps p n d' Hh Hb Hn) as (b' & Hh' & Hb').
  pose proof (at_of _ _ _ s7 _ Hs6 E7 ltac:(rewrite E7', (proj2 Hs6); reflexivity)) as Hs7.
  eapply part_last; [exact Hs7|apply free_layout_some; cbn_lw; rewrite lookup_insert_eq; eauto|]. intros s8 Hs8.
  apply total_ret. split; [done|]. exists hs, b'. destruct Hs8 as [E8 E8']. rewrite E8, E8'. split; [|done].
  cbn [lw_layouts set_lw_layouts]. rewrite delete_insert_id by done. by destruct t.
Qed.

Lemma step_seen o ms base s :
  lwip_op_ok o -> lwip_rep ms base s ->
  total (lwip_step o) (fun x s' => exists ms', lwip_seen x ms = Some ms' /\ lwip_rep ms' base s') s.
Proof.
  intros Ho Hr. destruct o as [| | |dst size ds dsts]; cbn [lwip_step]; [by apply receive_step|by apply handle_step|..].
  { eapply total_mono; [by apply sent_out_step|]. intros x s' [-> H']. by exists ms. }
  eapply total_mono; [by apply send_step|]. intros x s' [-> H']. by exists ms.
Qed.

(** C38: BCMP gets the messages that came in and that there was room for, in their order,
    and no memory is lost.  Packets come in, are handled, are sent, and layer 2 is done with
    frames, in any order.  While there is memory, all of this runs without undefined
    behaviour.  What is seen of it is a queue of up to 32 messages: a packet that is long
    enough for the IP header and one of BCMP, and that finds room in the queue, is queued
    with the source that lwIP gave, the destination of the IP header and the bytes behind
    that header; one that finds no room is dropped and freed; and a shorter one is left to
    lwIP.  At any time a packet, a layout and two addresses are held for each message that
    waits, and of the packets that were sent those to which the layers below still have
    references, and only those references; so when no message waits, and they are done with
    all frames, exactly the memory that others had to begin with is left. *)
Theorem lwip_traffic ops ms base s :
  lwip_rep ms base s -> Forall lwip_op_ok ops ->
  total (lwip_run ops) (fun os s' => length os = length ops /\ exists ms',
    lwip_seen_all os ms = Some ms' /\ lwip_rep ms' base s'
    /\ (ms' = [] -> only_below base (pbufs s') /\ lw_layouts (part s') = ∅ /\ lw_ips (part s') = ∅
        /\ (map_Forall (fun _ x => pk_lower x = 0%nat) (pbufs s') -> pbufs s' = base))) s.
Proof.
  revert ms s. induction ops as [|o ops IH]; intros ms s Hr Hok; cbn [lwip_run].
  - apply total_ret. split; [done|]. exists ms. split; [done|]. split; [done|]. intros ->.
    destruct Hr as (hs & b & [_ [Hy _] [Hi _] (Hp & _ & _) _] & Hb & ->%fmap_nil_inv). cbn in *.
    rewrite (left_id_L ∅ (∪)) in Hp. rewrite Hp. do 3 (split; [done|]). intros Hz. apply map_eq. intros l. specialize (Hb l).
    destruct (base !! l) as [x|]; [by destruct Hb|]. destruct (b !! l) as [x|] eqn:E; [|done].
    destruct (Hb x eq_refl). specialize (Hz l x E). cbn in Hz. lia.
  - apply Forall_cons in Hok as [Ho Hok]. eapply total_then; [by apply step_seen|].
    intros x s1 (ms1 & Ex & Hr1). eapply total_then; [by apply IH|]. intros xs s2 (El & ms2 & Exs & Hr2). apply total_ret.
    split; [cbn; by f_equal|]. exists ms2. cbn [lwip_seen_all]. by rewrite Ex.
Qed.
End runs.

(** ** Addresses *)

Section addresses.
Context `{Platform}.

Lemma le_enc_8 z : 0 <= z < 2 ^ 64 -> le_enc 8 z = le_enc 4 (Z.land z 0xFFFFFFFF) ++ le_enc 4 (Z.land (Z.shiftr z 32) 0xFFFFFFFF).
Proof.
  intros Hz. change 0xFFFFFFFF with (2 ^ 32 - 1). rewrite !land_ones_mod, Z.shiftr_div_pow2 by lia.
  set (lo := z mod 2 ^ 32). set (hi := (z / 2 ^ 32) mod 2 ^ 32).
  assert (Eh : hi = z / 2 ^ 32) by (apply Z.mod_small; split; [apply Z.div_pos; lia|apply Z.div_lt_upper_bound; lia]).
  set (l := le_enc 4 lo ++ le_enc 4 hi).
  assert (El : le_dec l = z).
  { unfold l. rewrite le_dec_app, !le_dec_enc, length_le_enc. change (256 ^ Z.of_nat 4) with (2 ^ 32).
    pose proof (Z.mod_pos_bound z (2 ^ 32) ltac:(lia)). pose proof (Z.mod_pos_bound (z / 2 ^ 32) (2 ^ 32) ltac:(lia)).
    rewrite (Z.mod_small lo), (Z.mod_small hi), Eh by done. unfold lo. pose proof (Z.div_mod z (2 ^ 32) ltac:(lia)). lia. }
  rewrite <- El. change 8%nat with (length l). apply le_enc_dec. unfold l. apply bytes_ok_app; apply le_enc_ok.
Qed.

Lemma htonl_bytes z : 0 <= z < 2 ^ 32 -> native_store 4 (lwip_htonl z) = be_enc 4 z.
Proof.
  intros Hz. unfold native_store, lwip_htonl. destruct little_endian; [|done].
  set (l := le_enc 4 z). assert (Hl : bytes_ok l) by apply le_enc_ok.
  replace z with (le_dec l) by (unfold l; rewrite le_dec_enc; by apply Z.mod_small).
  rewrite swap_32bit_spec by (done || apply length_le_enc).
  rewrite <- (rev_involutive (le_enc 4 (be_dec l))). change (rev (le_enc 4 (be_dec l))) with (be_enc 4 (be_dec l)).
  change 4%nat with (length l) at 1. rewrite be_enc_dec by done.
  change (rev l = rev (le_enc (length l) (le_dec l))). by rewrite le_enc_dec.
Qed.

(** The addresses of the node are the same as on Linux, on every processor. *)
Lemma same_address prefix id :
  0 <= prefix < 2 ^ 32 -> 0 <= id < 2 ^ 64 ->
  words_bytes (IPADDR6_INIT_HOST prefix 0 (Z.land (Z.shiftr id 32) 0xFFFFFFFF) (Z.land id 0xFFFFFFFF)) = nodeid_to_ip prefix id.
Proof.
  intros Hp Hi. rewrite nodeid_to_ip_bytes by done. unfold words_bytes, IPADDR6_INIT_HOST. cbn [fmap list_fmap concat].
  rewrite !htonl_bytes by (done || apply land_range; lia). rewrite app_nil_r. f_equal. f_equal.
  unfold be_enc. by rewrite le_enc_8, rev_app_distr by done.
Qed.

Lemma word_bytes x y z w :
  byte_ok x -> byte_ok y -> byte_ok z -> byte_ok w -> le_enc 4 (ip_uint8_to_uint32 [x; y; z; w]) = [x; y; z; w].
Proof.
  intros Hx Hy Hz Hw. change (ip_uint8_to_uint32 [x; y; z; w]) with (uint8_to_uint32 [w; z; y; x]).
  rewrite uint8_to_uint32_spec by done. apply (le_enc_dec [x; y; z; w]).
  repeat (apply Forall_cons_2; [done|]). apply Forall_nil_2.
Qed.

(** The words of an address that is sent to are its bytes, on a little-endian processor. *)
Lemma words_of_address a :
  little_endian = true -> bytes_ok a -> length a = 16%nat -> words_bytes (bm_ip_to_lwip_ip a) = a.
Proof.
  intros HP Ha Hl. unfold words_bytes, bm_ip_to_lwip_ip, native_store. rewrite HP.
  do 17 (destruct a as [|? a]; try done). clear Hl.
  repeat match goal with H : bytes_ok (_ :: _) |- _ => apply Forall_cons in H as [? H] end.
  cbn [fmap list_fmap slice take drop concat]. by rewrite !word_bytes by done.
Qed.
End addresses.

(** ** Examples

    A simulation of lwIP: the packets that exist, and the ones that will come in.  A packet
    that is sent gets its headers and waits in layer 2.  [more]: there are packets to
    give. *)
Definition lwip_node : Type := lwip * (gmap loc lwip_packet * list bytes).

Definition sim_get (l : loc) : M lwip_node lwip_packet := s ← get; lift (fst (snd s) !! l).
Definition sim_put (l : loc) (p : lwip_packet) : M lwip_node unit :=
  modify (fun s => (fst s, (<[l := p]> (fst (snd s)), snd (snd s)))).
Definition sim_new (d : bytes) : M lwip_node loc :=
  s ← get; let l := fresh (dom (fst (snd s))) in _ ← sim_put l (MkLwipPacket 1 0 d); mret l.
Definition sim_free (p : option loc) : M lwip_node unit :=
  match p with
  | Some l =>
      x ← sim_get l;
      if pk_refs x =? 1 then modify (fun s => (fst s, (delete l (fst (snd s)), snd (snd s))))
      else sim_put l (MkLwipPacket (pk_refs x - 1) (pk_lower x) (pk_bytes x))
  | None => mret tt
  end.

#[local] Instance sim_lwip (more : bool) : LwipApi lwip_node := {
  NETIF_FLAG_BROADCAST := 2; NETIF_FLAG_ETHARP := 8; NETIF_FLAG_LINK_UP := 4;
  pbuf_alloc _ n := if more then l ← sim_new (replicate (Z.to_nat n) 0); mret (Some l) else mret None;
  pbuf_free := sim_free;
  pbuf_ref l := x ← sim_get l; sim_put l (MkLwipPacket (pk_refs x + 1) (pk_lower x) (pk_bytes x));
  pbuf_realloc p n := match p with
                      | Some l => x ← sim_get l; sim_put l (MkLwipPacket (pk_refs x) (pk_lower x) (take (Z.to_nat n) (pk_bytes x)))
                      | None => mret tt
                      end;
  pbuf_remove_header l n := x ← sim_get l; _ ← sim_put l (MkLwipPacket (pk_refs x) (pk_lower x) (drop (Z.to_nat n) (pk_bytes x))); mret true;
  pbuf_add_header _ _ := mret false;
  pbuf_payload l := x ← sim_get l; mret (pk_bytes x);
  pbuf_store l off d := x ← sim_get l; b ← lift (write_at off d (pk_bytes x)); sim_put l (MkLwipPacket (pk_refs x) (pk_lower x) b);
  pbuf_len l := x ← sim_get l; mret (Z.of_nat (length (pk_bytes x)));
  pbuf_tot_len l := x ← sim_get l; mret (Z.of_nat (length (pk_bytes x)));
  ip6_chksum_pseudo _ _ _ _ _ := mret 0;
  netif_ip6_addr _ := mret (replicate 16 0);
  ip6addr_ntoa _ := []; inet6_aton _ := [];
  tcpip_init := mret tt; netif_add m := m; netif_ip6_addr_set _ _ := mret tt; netif_ip6_addr_set_valid _ := mret tt;
  netif_set_up := mret tt; netif_set_down := mret tt; netif_set_link_up := mret tt; netif_set_link_down := mret tt;
  netif_input _ := mret true; mld6_joingroup_netif _ := mret true; mld6_lookfor_group _ := mret false;
  raw_new _ := mret (Some 1); raw_recv _ := mret tt; raw_bind _ := mret true;
  raw_sendto_if_src _ p _ _ :=
    match p with
    | Some l => x ← sim_get l; _ ← sim_put l (MkLwipPacket (pk_refs x + 1) (S (pk_lower x)) (replicate 54 0 ++ pk_bytes x)); mret true
    | None => ub
    end;
  udp_new_ip_type := mret (Some 0x20001000); udp_remove _ := mret tt; udp_bind _ _ := mret true; udp_recv _ := mret tt;
  udp_sendto_if _ l _ _ := _ ← sim_get l; mret true
}.

Definition sample_source : BmIpAddr := 254 :: replicate 14 0 ++ [1].
Definition sim_incoming : M lwip_node (loc * BmIpAddr) :=
  s ← get;
  let f := match snd (snd s) with f :: _ => if (40 <=? length f)%nat then f else replicate 40 0 | [] => replicate 40 0 end in
  _ ← modify (fun s => (fst s, (fst (snd s), tl (snd (snd s)))));
  l ← sim_new f; mret (l, sample_source).

Definition sim_done : M lwip_node (option loc) :=
  s ← get;
  match filter (fun x => pk_lower (snd x) <> 0%nat) (map_to_list (fst (snd s))) with
  | (l, x) :: _ => _ ← sim_put l (MkLwipPacket (pk_refs x) (Nat.pred (pk_lower x)) (pk_bytes x)); mret (Some l)
  | [] => mret None
  end.

Lemma sim_get_some l x (s : lwip_node) : fst (snd s) !! l = Some x -> sim_get l s = Some (x, s).
Proof. intros E. unfold sim_get, lift, mbind, M_bind, get. by rewrite E. Qed.

#[local] Instance sim_laws more : @LwipLaws lwip_node _ (sim_lwip more).
Proof.
  refine {| pbufs := fun s : lwip_node => fst (snd s); incoming := sim_incoming; l2_done := sim_done |}.
  - done.
  - intros [t [m fs]]. unfold sim_incoming, sim_new, sim_put. do 2 eexists. split; [reflexivity|]. cbn -[replicate fresh Nat.leb].
    split; [done|]. split; [apply fresh_lookup|]. split; [done|]. eexists. split; [reflexivity|].
    destruct fs as [|f fs]; [rewrite length_replicate; lia|]. destruct (Nat.leb_spec 40 (length f)); [lia|rewrite length_replicate; lia].
  - intros layer n [t [m fs]]. cbn [pbuf_alloc sim_lwip]. destruct more.
    + unfold sim_new, sim_put. do 2 eexists. split; [reflexivity|]. cbn -[replicate fresh Nat.leb].
      split; [done|]. split; [apply fresh_lookup|]. eexists. split; [reflexivity|]. by rewrite length_replicate.
    + by apply total_ret.
  - intros l r k d s E. cbn [pbuf_free sim_lwip]. unfold sim_free. apply total_bind. exists (MkLwipPacket r k d), s.
    split; [by apply sim_get_some|]. cbn [pk_refs]. destruct s as [t [m fs]]. destruct (r =? 1); by do 2 eexists.
  - intros l r k d s E. apply total_bind. exists (MkLwipPacket r k d), s. split; [by apply sim_get_some|]. by apply total_ret.
  - intros l r k d s E. apply total_bind. exists (MkLwipPacket r k d), s. split; [by apply sim_get_some|]. by apply total_ret.
  - intros l r k d s E. apply total_bind. exists (MkLwipPacket r k d), s. split; [by apply sim_get_some|]. apply total_ret. cbn. split; [lia|done].
  - intros l r k d off x s E Hx. apply total_bind. exists (MkLwipPacket r k d), s. split; [by apply sim_get_some|].
    apply total_bind. cbn [pk_bytes pk_refs]. unfold write_at. rewrite (proj2 (Nat.leb_le _ _)) by done. total_step.
    destruct s as [t [m fs]]. by do 2 eexists.
  - intros l r k d n s E Hn. apply total_bind. exists (MkLwipPacket r k d), s. split; [by apply sim_get_some|].
    apply total_bind. destruct s as [t [m fs]]. do 2 eexists. split; [reflexivity|]. by apply total_ret.
  - intros idx s. by apply total_ret.
  - intros pcb l dst src r k d s E. apply total_bind. exists (MkLwipPacket r k d), s. split; [by apply sim_get_some|].
    destruct s as [t [m fs]]. do 2 eexists. split; [reflexivity|]. split; [done|]. exists 1%nat, (replicate 54 0 ++ d).
    split; [done|]. rewrite length_app. lia.
  - intros [t [m fs]]. unfold sim_done. apply total_bind, total_get. cbn [fst snd].
    destruct (filter _ (map_to_list m)) as [|[l [r k d]] rest] eqn:E; [by apply total_ret|].
    assert (Hl : (l, MkLwipPacket r k d) ∈ filter (fun x : loc * lwip_packet => pk_lower (snd x) <> 0%nat) (map_to_list m))
      by (rewrite E; apply list_elem_of_here).
    apply list_elem_of_filter in Hl as [Hk Hl%elem_of_map_to_list]. cbn in Hk. destruct k as [|k]; [done|].
    do 2 eexists. split; [reflexivity|]. split; [done|]. by exists r, k, d.
Defined.

(** A frame for the given destination, and nodes: one to which frames come, one without
    memory. *)
Definition sample_bcmp_frame (last : Z) (d : bytes) : bytes := replicate 24 0 ++ (255 :: 2 :: replicate 13 0 ++ [last]) ++ d.
Definition lwip_start (os : Os) : lwip :=
  MkLwip (MkNetif [] [] 0 0) (Some 1) LL_empty ∅ ∅ ∅ (Some []) [] os.
Definition sample_lwip (fs : list bytes) : lwip_node := (lwip_start (MkOs [] [] 0), (∅, fs)).
Definition no_memory : lwip_node := (lwip_start (MkOs [true; false] [] 0), (∅, [])).

Definition lwip_ops : list lwip_op :=
  [OpReceive; OpReceive; OpSend sample_source 20 [([1; 2; 3], 0); ([4; 5], 18)] [None; Some sample_source];
   OpReceive; OpSentOut; OpHandle; OpHandle; OpSentOut; OpHandle].

Definition lwip_sample : lwip_node :=
  sample_lwip [sample_bcmp_frame 1 (replicate 13 7); replicate 45 0; sample_bcmp_frame 2 (replicate 14 8)].

Lemma lwip_traffic_witness :
  lwip_rep (LwipLaws0 := sim_laws true) [] ∅ lwip_sample
  /\ total (lwip_run (LwipLaws0 := sim_laws true) lwip_ops) (fun os s' => length os = 9%nat /\ exists ms',
       lwip_seen_all os [] = Some ms' /\ lwip_rep (LwipLaws0 := sim_laws true) ms' ∅ s'
       /\ (ms' = [] -> only_below ∅ (fst (snd s')) /\ lw_layouts (fst s') = ∅ /\ lw_ips (fst s') = ∅
           /\ (map_Forall (fun _ x => pk_lower x = 0%nat) (fst (snd s')) -> fst (snd s') = ∅))) lwip_sample.
Proof.
  assert (Hr : lwip_rep (LwipLaws0 := sim_laws true) [] ∅ lwip_sample).
  { exists [], ∅. split; [|split; [|reflexivity]].
    - split; [reflexivity|..|reflexivity].
      + split; [reflexivity|constructor].
      + split; [reflexivity|constructor].
      + split; [reflexivity|]. split; constructor.
    - intros l. by rewrite lookup_empty. }
  split; [exact Hr|].
  apply (lwip_traffic (LwipLaws0 := sim_laws true)).
  - intros layer n s o s' E. unfold pbuf_alloc, sim_lwip, sim_new, mbind, M_bind, get, mret, M_ret in E. cbn in E.
    injection E as <- _. by eexists.
  - exact Hr.
  - unfold lwip_ops. repeat constructor; cbn; lia.
Defined.

(** What is seen of that run. *)
Example lwip_seen_sample :
  option_map (fun r => (fst r, fst (snd (snd r)))) (lwip_run (LwipLaws0 := sim_laws true) lwip_ops lwip_sample)
  = Some ([OutCame sample_source (sample_bcmp_frame 1 (replicate 13 7)) true; OutCame sample_source (replicate 45 0) false;
           OutSent; OutCame sample_source (sample_bcmp_frame 2 (replicate 14 8)) true; OutReleased;
           OutHandled (Some (sample_source, 255 :: 2 :: replicate 13 0 ++ [1], replicate 13 7));
           OutHandled (Some (sample_source, 255 :: 2 :: replicate 13 0 ++ [2], replicate 14 8)); OutReleased; OutHandled None],
          ∅).
Proof. vm_compute. reflexivity. Qed.

(** [ip_recv] does not look whether its three allocations succeed. *)
Example recv_without_memory :
  ip_recv (H1 := sim_lwip true) 1%positive sample_source
    (lwip_start (MkOs [true; false] [] 0), ({[1%positive := MkLwipPacket 1 0 (sample_bcmp_frame 1 (replicate 13 7))]}, [])) = None.
Proof. vm_compute. reflexivity. Qed.

(** Without a packet [bm_ip_tx_new] gives a message all the same, and the first copy goes
    through a null pointer; without memory for the layout it does so itself. *)
Example tx_without_packet :
  let new := bm_ip_tx_new (H1 := sim_lwip false) (Some sample_source) 20 in
  match new (sample_lwip []) with
  | Some (Some l, s) => bm_ip_tx_copy (H1 := sim_lwip false) (Some l) (Some [1]) 0 s = None
  | _ => False
  end
  /\ bm_ip_tx_new (H1 := sim_lwip true) (Some sample_source) 20 (lwip_start (MkOs [false] [] 0), (∅, [])) = None.
Proof. vm_compute. by split. Qed.

(** A datagram for which no callback is found is not freed. *)
Example datagram_leaks :
  let s := (lwip_start (MkOs [] [] 0), ({[1%positive := MkLwipPacket 1 0 [7]]}, [])) : lwip_node in
  udp_recv_cb (H := platform_mcu) (H1 := sim_lwip true) 0x20001000 1%positive sample_source 4321 s = Some (tt, s).
Proof. vm_compute. reflexivity. Qed.

(** The callbacks are found by the low 32 bits of the pointer of the control block.  Where
    pointers are longer, the datagrams of one block can go to the callback of another. *)
Example wrong_callback :
  match bm_udp_bind_port (H1 := sim_lwip true) (Some sample_source) 4321 9 (sample_lwip []) with
  | Some (Some pcb, (t, (m, fs))) =>
      option_map (fun r => uc_cb <$> lw_udp_calls (fst (snd r)))
        (udp_recv_cb (H := platform_linux) (H1 := sim_lwip true) (pcb + 2 ^ 32) 1%positive sample_source 4321
          (t, ({[1%positive := MkLwipPacket 1 0 [7]]}, fs))) = Some [9%nat]
  | _ => False
  end.
Proof. vm_compute. reflexivity. Qed.
