(* ===== verification/Middleware.v ===== *)
(** * The middleware: src/middleware/middleware.c

    Applications are bound to UDP ports.  What arrives is queued, and a task hands
    it to the application of its port.  The functions of the applications are
    numbers, whose meaning is a parameter. *)
From S2P Require Import Prelude Util LinkedList Os LinuxBuf L2Policy L2 BmLinux Bcmp Parts.

Definition net_queue_len : nat := 64.
Definition udp_header_size : Z := 8.
Definition max_payload_len_udp : Z := max_payload_len - udp_header_size.

Record MiddlewareApplication : Type := MkApplication {
  app_pcb : Z; app_port : Z; app_rx_cb : nat; app_routing_cb : option nat; app_dest : BmIpAddr
}.

Record NetQueueItem : Type := MkNetItem {
  nq_buf : option loc; nq_node_id : Z; nq_size : Z; nq_port : Z
}.

(** The variable [CTX], with the network that it uses. *)
Record middleware : Type := MkMiddleware {
  applications : LL;
  mw_heap : gmap loc (LLItem MiddlewareApplication);
  net_queue : option (list NetQueueItem);
  mw_net : l2_state linux_ctx;
  mw_os : Os
}.

Definition set_mw_net (n : l2_state linux_ctx) (m : middleware) : middleware :=
  MkMiddleware (applications m) (mw_heap m) (net_queue m) n (mw_os m).
Definition set_net_queue (q : option (list NetQueueItem)) (m : middleware) : middleware :=
  MkMiddleware (applications m) (mw_heap m) q (mw_net m) (mw_os m).
Definition set_applications (ll : LL) (h : gmap loc (LLItem MiddlewareApplication)) (m : middleware)
    : middleware := MkMiddleware ll h (net_queue m) (mw_net m) (mw_os m).

(** The network as a part of whatever has a middleware. *)
Definition with_mw_net {A} (m : M (l2_state linux_ctx) A) : M middleware A := zoom mw_net set_mw_net m.
Definition with_mw_os {A} (m : M Os A) : M middleware A :=
  zoom mw_os (fun o m => MkMiddleware (applications m) (mw_heap m) (net_queue m) (mw_net m) o) m.
Definition udp_bufs {A} (m : M buf_heap A) : M middleware A := with_mw_net (with_bufs m).

(** The applications' routing functions: from the port of entry and the source
    whether the frame is handled, the ports of exit and the source. *)
Section routing.
Context (routing : nat -> L2LinkLocalRoutingCb).

(** The loop; it leaves [CTX.applications.cursor] behind. *)
Fixpoint routing_loop (fuel : nat) (h : gmap loc (LLItem MiddlewareApplication)) (cursor : option loc)
    (ingress_port : Z) (src dest : BmIpAddr) : option (bool * Z * BmIpAddr * option loc) :=
  match fuel, cursor with
  | O, _ => None
  | S _, None => Some (true, 0, src, cursor)
  | S fuel, Some l =>
      i ← h !! l; application ← data i;
      if bool_decide (app_dest application = dest) then
        match app_routing_cb application with
        | Some cb => let '(ok, egress, src) := routing cb ingress_port src dest in
                     Some (ok, egress, src, cursor)
        | None => Some (true, 0, src, cursor)
        end
      else routing_loop fuel h (next i) ingress_port src dest
  end.

(** [*egress_ports] is 0 when the layer 2 calls. *)
Definition handle_middleware_routing (ingress_port : Z) (src dest : BmIpAddr)
    : M middleware (bool * Z * BmIpAddr) := fun m =>
  '(ok, egress, src, c) ← routing_loop (ll_fuel (mw_heap m)) (mw_heap m) (head (applications m))
      ingress_port src dest;
  Some ((ok, egress, src),
        set_applications (MkLL (head (applications m)) (tail (applications m)) c) (mw_heap m) m).
End routing.

Definition net_queue_send (item : NetQueueItem) : M middleware BmErr :=
  q ← gets net_queue;
  match q with
  | None => mret BmEINVAL
  | Some q =>
      if (length q <? net_queue_len)%nat then
        _ ← modify (set_net_queue (Some (q ++ [item]))); mret BmOK
      else mret BmENOMEM
  end.

Definition bm_middleware_rx (port : Z) (buf : option loc) (node_id size : Z) : M middleware BmErr :=
  match buf with
  | Some _ =>
      err ← net_queue_send (MkNetItem buf node_id size port);
      _ ← when (negb (is_ok err)) (udp_bufs (bm_udp_cleanup buf));
      mret err
  | None => mret BmEINVAL
  end.

(** One item that the task takes off its queue; the buffer is given back at the
    head of the next iteration.  [rx_cb] is what the applications do with it. *)
Definition middleware_net_task_step {St} `{Part middleware St}
    (rx_cb : nat -> Z -> option loc -> Z -> M St unit) : M St unit :=
  m ← gets part;
  match net_queue m with
  | Some (item :: q) =>
      _ ← on_part (modify (set_net_queue (Some q)));
      match nq_buf item with
      | None => mret tt
      | Some _ =>
          '(err, application) ← lift (ll_get_item (Some (applications m)) (nq_port item) (mw_heap m));
          _ ← match application with
              | Some a => a ← lift a; rx_cb (app_rx_cb a) (nq_node_id item) (nq_buf item) (nq_size item)
              | None => mret tt
              end;
          on_part (udp_bufs (bm_udp_cleanup (nq_buf item)))
      end
  | _ => mret tt
  end.

(** [routing] is the function that the layer 2 is given; the flags tell whether
    there is memory for the queue, and a task. *)
Definition bm_middleware_init (routing : option L2LinkLocalRoutingCb) (queue_ok : bool) (task : BmErr)
    : M middleware BmErr :=
  err ← with_mw_net (bm_l2_register_link_local_routing_callback routing);
  if is_ok err then
    _ ← modify (set_net_queue (if queue_ok then Some [] else None));
    mret (if queue_ok then task else BmENOMEM)
  else mret err.

(** [bm_middleware_rx] among the functions that are bound to UDP ports. *)
Definition udp_middleware_rx : nat := 0.

Definition bm_middleware_add_application (port : Z) (dest : BmIpAddr) (rx_cb : nat)
    (routing_cb : option nat) (pcb_ok : bool) : M middleware BmErr :=
  pcb ← with_mw_net (bm_udp_bind_port port (Some udp_middleware_rx) pcb_ok);
  match pcb with
  | None => mret BmENOMEM
  | Some pcb =>
      m ← get;
      '(item, h) ← with_mw_os (Os.create_item (MkApplication pcb port rx_cb routing_cb dest) port (mw_heap m));
      match item with
      | None => mret BmENOMEM
      | Some _ =>
          '(err, ll, h) ← lift (ll_item_add (Some (applications m)) item h);
          ll ← lift ll;
          _ ← modify (set_applications ll h);
          mret err
      end
  end.

Definition bm_middleware_net_tx `{Platform} `{L2Os} (node_id port : Z) (buf : option loc) (size : Z)
    : M middleware BmErr :=
  m ← get;
  '(err, application) ← lift (ll_get_item (Some (applications m)) port (mw_heap m));
  match application with
  | None => mret err
  | Some a =>
      a ← lift a;
      match buf with
      | Some _ =>
          if size <=? max_payload_len_udp then
            with_mw_net (bm_udp_tx_perform node_id (Some (app_pcb a)) buf size (Some (app_dest a)) (app_port a))
          else mret BmEINVAL
      | None => mret BmEINVAL
      end
  end.
