(* ===== verification/PubSub.v ===== *)
(** * Publish and subscribe: src/middleware/pubsub.c

    The subscriptions are a chain of topics, each with a chain of callbacks.  A
    callback is a number, and its calls are recorded; callbacks do not subscribe
    or unsubscribe while they are called. *)
From S2P Require Import Prelude Util Wildcard LinkedList SList Os LinuxBuf L2 BmLinux Parts Resources Middleware.

Definition BM_TOPIC_MAX_LEN : Z := 255.
Definition max_sub_str_len : nat := 256.
Definition resource_port : Z := 4321.

Record BmPubSubNode : Type := MkPubSubNode { cb_next : option loc; callback_fn : nat }.

(** The topic is the bytes before the terminator. *)
Record BmSub : Type := MkSub { sub_topic : bytes; sub_topic_len : Z; sub_callbacks : option loc }.
Record BmSubNode : Type := MkSubNode { sub : BmSub; sub_next : option loc }.

(** A call of a callback.  The data are [None] when the pointer and the length do
    not stay inside of the buffer. *)
Record sub_call : Type := MkSubCall {
  sc_cb : nat; sc_node_id : Z; sc_topic : bytes; sc_topic_len : Z; sc_data : option bytes;
  sc_data_len : Z; sc_type : Z; sc_version : Z
}.

(** [subscription_list] is [CTX.subscription_list.next]. *)
Record pubsub : Type := MkPubSub {
  subscription_list : option loc;
  ps_subs : gmap loc BmSubNode;
  ps_cbs : gmap loc BmPubSubNode;
  ps_os : Os;
  ps_calls : list sub_call;
  ps_mw : middleware;
  ps_res : resources
}.

Definition set_subs (p : option loc) (h : gmap loc BmSubNode) (s : pubsub) : pubsub :=
  MkPubSub p h (ps_cbs s) (ps_os s) (ps_calls s) (ps_mw s) (ps_res s).
Definition set_cbs (h : gmap loc BmPubSubNode) (s : pubsub) : pubsub :=
  MkPubSub (subscription_list s) (ps_subs s) h (ps_os s) (ps_calls s) (ps_mw s) (ps_res s).
Definition set_ps_os (o : Os) (s : pubsub) : pubsub :=
  MkPubSub (subscription_list s) (ps_subs s) (ps_cbs s) o (ps_calls s) (ps_mw s) (ps_res s).
Definition add_calls (l : list sub_call) (s : pubsub) : pubsub :=
  MkPubSub (subscription_list s) (ps_subs s) (ps_cbs s) (ps_os s) (ps_calls s ++ l) (ps_mw s) (ps_res s).

#[export] Instance pubsub_middleware : Part middleware pubsub := {
  part := ps_mw;
  set_part m s := MkPubSub (subscription_list s) (ps_subs s) (ps_cbs s) (ps_os s) (ps_calls s) m (ps_res s)
}.
#[export] Instance pubsub_middleware_laws : PartLaws middleware pubsub.
Proof. split; [done|by intros []|done]. Qed.
#[export] Instance pubsub_resources : Part resources pubsub := {
  part := ps_res;
  set_part r s := MkPubSub (subscription_list s) (ps_subs s) (ps_cbs s) (ps_os s) (ps_calls s) (ps_mw s) r
}.
#[export] Instance pubsub_resources_laws : PartLaws resources pubsub.
Proof. split; [done|by intros []|done]. Qed.

Definition with_ps_os {A} (m : M Os A) : M pubsub A := zoom ps_os set_ps_os m.

(** ** Subscriptions *)

Definition same_topic (topic : bytes) (topic_len : Z) (n : BmSubNode) : option bool :=
  if topic_len =? sub_topic_len (sub n) then memcmp_eq (Z.to_nat topic_len) topic (sub_topic (sub n))
  else Some false.

(** The node before the one that is found comes with it. *)
Definition get_sub (topic : bytes) (topic_len : Z) (wildcard_search : bool) (s : pubsub)
    : option (option loc * option loc) :=
  find_node sub_next (ps_subs s)
    (fun n => if wildcard_search
              then t ← read_at 0 (Z.to_nat topic_len) topic; bm_wildcard_match t (sub_topic (sub n))
              else same_topic topic topic_len n)
    (subscription_list s).

Definition get_last_sub (s : pubsub) : option (option loc) :=
  ns ← nodes sub_next (ps_subs s) (subscription_list s); Some (last ns.*1).

(** [prev->next = l], where no node stands for the head of the list. *)
Definition set_next_sub (prev l : option loc) (s : pubsub) : option pubsub :=
  match prev with
  | None => Some (set_subs l (ps_subs s) s)
  | Some p =>
      n ← ps_subs s !! p;
      Some (set_subs (subscription_list s)
              (<[p := MkSubNode (sub n) l]> (ps_subs s)) s)
  end.

Definition set_callbacks (l : loc) (cbs : option loc) (s : pubsub) : option pubsub :=
  n ← ps_subs s !! l;
  Some (set_subs (subscription_list s)
          (<[l := MkSubNode (MkSub (sub_topic (sub n)) (sub_topic_len (sub n)) cbs) (sub_next n)]>
             (ps_subs s)) s).

(** The node after which a callback is added: the loop looks at the callback of the
    first node only. *)
Fixpoint last_cb_loop (fuel : nat) (h : gmap loc BmPubSubNode) (first callback : nat) (cur : loc)
    : option loc :=
  match fuel with
  | O => None
  | S fuel =>
      n ← h !! cur;
      match cb_next n with
      | Some nx => if negb (first =? callback)%nat then last_cb_loop fuel h first callback nx else Some cur
      | None => Some cur
      end
  end.

(** Appends a callback to a subscription that exists. *)
Definition add_callback (l : loc) (callback : nat) : M pubsub BmErr :=
  s ← get;
  n ← lift (ps_subs s !! l);
  c0 ← lift (sub_callbacks (sub n));
  f ← lift (ps_cbs s !! c0);
  last ← lift (last_cb_loop (walk_fuel (ps_cbs s)) (ps_cbs s) (callback_fn f) callback c0);
  if (callback_fn f =? callback)%nat then mret BmOK
  else
    ok ← with_ps_os malloc_ok;
    if ok : bool then
      let c := fresh (dom (ps_cbs s)) in
      n ← lift (ps_cbs s !! last);
      _ ← modify (set_cbs (<[last := MkPubSubNode (Some c) (callback_fn n)]>
                             (<[c := MkPubSubNode None callback]> (ps_cbs s))));
      mret BmOK
    else mret BmENOMEM.

(** A subscription of its own.  When there is no memory for the topic, the node is
    freed, but the list goes on to it. *)
Definition new_subscription (topic : bytes) (topic_len : Z) (callback : nat) : M pubsub BmErr :=
  s ← get;
  prev ← lift (get_last_sub s);
  node_ok ← with_ps_os malloc_ok;
  if negb node_ok then
    s ← get; s ← lift (set_next_sub prev None s); _ ← modify (fun _ => s); mret BmENOMEM
  else
    let l := fresh (dom (ps_subs s)) in
    s ← get; s ← lift (set_next_sub prev (Some l) s); _ ← modify (fun _ => s);
    topic_ok ← with_ps_os malloc_ok;
    if negb topic_ok then mret BmENOMEM
    else
      t ← lift (read_at 0 (Z.to_nat topic_len) topic);
      _ ← modify (fun s => set_subs (subscription_list s)
                             (<[l := MkSubNode (MkSub t topic_len None) None]> (ps_subs s)) s);
      cb_ok ← with_ps_os malloc_ok;
      if cb_ok : bool then
        s ← get;
        let c := fresh (dom (ps_cbs s)) in
        s ← lift (set_callbacks l (Some c) (set_cbs (<[c := MkPubSubNode None callback]> (ps_cbs s)) s));
        _ ← modify (fun _ => s);
        mret BmOK
      else mret BmENOMEM.

Definition bm_sub_wl (topic : option bytes) (topic_len : Z) (callback : option nat) : M pubsub BmErr :=
  match topic, callback with
  | Some t, Some cb =>
      if topic_len =? 0 then mret BmEINVAL
      else if BM_TOPIC_MAX_LEN <=? topic_len then mret BmEMSGSIZE
      else
        s ← get;
        '(_, ptr) ← lift (get_sub t topic_len false s);
        err ← match ptr with
              | Some l => add_callback l cb
              | None => new_subscription t topic_len cb
              end;
        if is_ok err then
          err ← on_part (bcmp_resource_discovery_add_resource t topic_len SUB);
          mret (if bool_decide (err = BmEAGAIN) then BmOK else err)
        else mret err
  | _, _ => mret BmEINVAL
  end.

(** The topic with its terminator, when it is not null. *)
Definition topic_length (topic : option bytes) : option Z :=
  n ← bm_strnlen topic (Z.to_nat BM_TOPIC_MAX_LEN); Some (Z.of_nat n).

Definition bm_sub (topic : option bytes) (callback : option nat) : M pubsub BmErr :=
  topic_len ← lift (topic_length topic);
  if negb (topic_len =? 0) && (topic_len <? BM_TOPIC_MAX_LEN)
  then bm_sub_wl topic topic_len callback else mret BmEINVAL.

(** The callback that is looked for, or the last one, and the node before it. *)
Fixpoint unsub_loop (fuel : nat) (h : gmap loc BmPubSubNode) (callback : nat) (prev : option loc) (cur : loc)
    : option (option loc * loc) :=
  match fuel with
  | O => None
  | S fuel =>
      n ← h !! cur;
      match cb_next n with
      | Some nx => if negb (callback_fn n =? callback)%nat then unsub_loop fuel h callback (Some cur) nx
                   else Some (prev, cur)
      | None => Some (prev, cur)
      end
  end.

(** The callbacks that are left are freed with their subscription. *)
Definition delete_sub (topic : bytes) (topic_len : Z) : M pubsub unit :=
  s ← get;
  '(prev, node) ← lift (get_sub topic topic_len false s);
  match node with
  | None => mret tt
  | Some l =>
      n ← lift (ps_subs s !! l);
      s ← lift (set_next_sub prev (sub_next n) s);
      cbs ← lift (nodes cb_next (ps_cbs s) (sub_callbacks (sub n)));
      modify (fun _ => set_subs (subscription_list s) (delete l (ps_subs s))
                         (set_cbs (foldl (fun h c => delete c h) (ps_cbs s) cbs.*1) s))
  end.

(** The second half of [bm_unsub_wl], for a subscription that exists. *)
Definition unsub_from (topic : bytes) (topic_len : Z) (callback : nat) (l : loc) : M pubsub BmErr :=
  s ← get;
  n ← lift (ps_subs s !! l);
  c0 ← lift (sub_callbacks (sub n));
  '(prev, c) ← lift (unsub_loop (walk_fuel (ps_cbs s)) (ps_cbs s) callback None c0);
  f ← lift (ps_cbs s !! c);
  if negb (callback_fn f =? callback)%nat then mret BmENOENT
  else
    s ← lift (match prev with
              | Some p =>
                  n ← ps_cbs s !! p;
                  Some (set_cbs (<[p := MkPubSubNode (cb_next f) (callback_fn n)]> (ps_cbs s)) s)
              | None => set_callbacks l (cb_next f) s
              end);
    _ ← modify (fun _ => set_cbs (delete c (ps_cbs s)) s);
    n ← lift (ps_subs s !! l);
    _ ← match sub_callbacks (sub n) with None => delete_sub topic topic_len | Some _ => mret tt end;
    mret BmOK.

Definition bm_unsub_wl (topic : option bytes) (topic_len : Z) (callback : option nat) : M pubsub BmErr :=
  match topic, callback with
  | Some t, Some cb =>
      if topic_len =? 0 then mret BmEINVAL
      else if BM_TOPIC_MAX_LEN <=? topic_len then mret BmEMSGSIZE
      else
        s ← get;
        '(_, ptr) ← lift (get_sub t topic_len false s);
        match ptr with
        | None => mret BmEINVAL
        | Some l => unsub_from t topic_len cb l
        end
  | _, _ => mret BmEINVAL
  end.

Definition bm_unsub (topic : option bytes) (callback : option nat) : M pubsub BmErr :=
  topic_len ← lift (topic_length topic);
  if negb (topic_len =? 0) && (topic_len <? BM_TOPIC_MAX_LEN)
  then bm_unsub_wl topic topic_len callback else mret BmEINVAL.

(** ** Messages *)

Definition sizeof_BmPubSubData : Z := 5.

(** [data_len] is computed in sixteen bits. *)
Definition bm_handle_msg (node_id : Z) (buf : option loc) (size : Z) : M pubsub unit :=
  p ← on_part (udp_bufs (bm_udp_get_payload buf));
  topic_len ← lift (rd 2 p);
  let data_len := u16 (size - sizeof_BmPubSubData - topic_len) in
  s ← get;
  ns ← lift (nodes sub_next (ps_subs s) (subscription_list s));
  for_each ns (fun x =>
    let n := snd x in
    topic ← lift (read_at 5 (Z.to_nat topic_len) p);
    matches ← lift (bm_wildcard_match topic (sub_topic (sub n)));
    if matches : bool then
      cbs ← lift (nodes cb_next (ps_cbs s) (sub_callbacks (sub n)));
      for_each cbs (fun c =>
        type ← lift (rd 3 p);
        version ← lift (rd 4 p);
        modify (add_calls [MkSubCall (callback_fn (snd c)) node_id topic topic_len
          (read_at (5 + Z.to_nat topic_len) (Z.to_nat data_len) p) data_len type version]))
    else mret tt).

(** A new buffer with the message in it; [required] tells that the data are copied
    without looking whether the pointer is null. *)
Definition message_buf (required : bool) (topic : bytes) (topic_len : Z) (dat : option bytes)
    (len type version message_size : Z) : M pubsub (option loc) :=
  buf ← on_part (udp_bufs (bm_udp_new message_size));
  match buf with
  | None => mret None
  | Some _ =>
      t ← lift (read_at 0 (Z.to_nat topic_len) topic);
      d ← match dat with
          | Some d => lift (read_at 0 (Z.to_nat len) d)
          | None => if required && negb (len =? 0) then ub else mret []
          end;
      _ ← on_part (udp_bufs (payload_store buf (store_all
            [(0%nat, [0; 0; topic_len; type; version]); (5%nat, t);
             ((5 + Z.to_nat topic_len)%nat, d)])));
      mret buf
  end.

Definition publish_data_locally (buf : option loc) (size : Z) `{Platform} : M pubsub BmErr :=
  err ← on_part (udp_bufs (bm_udp_reference_update buf));
  if is_ok err then
    addr ← gets (fun s => unicast_addr (l2_upper (mw_net (ps_mw s))));
    _ ← on_part (bm_middleware_rx resource_port buf (ip_to_nodeid (Some addr)) size);
    mret err
  else mret err.

Definition bm_pub_wl `{Platform} `{L2Os} (node_id : Z) (topic : option bytes) (topic_len : Z)
    (dat : option bytes) (len type version : Z) : M pubsub BmErr :=
  match topic with
  | Some t =>
      if topic_len =? 0 then mret BmEINVAL
      else if BM_TOPIC_MAX_LEN <=? topic_len then mret BmEMSGSIZE
      else
        let message_size := u16 (sizeof_BmPubSubData + topic_len + len) in
        buf ← message_buf false t topic_len dat len type version message_size;
        match buf with
        | None => mret BmENOMEM
        | Some _ =>
            s ← get;
            '(_, sub) ← lift (get_sub t topic_len true s);
            _ ← match sub with
                | Some _ =>
                    buf_local ← message_buf true t topic_len dat len type version message_size;
                    match buf_local with
                    | None => mret tt
                    | Some _ =>
                        _ ← publish_data_locally buf_local message_size;
                        on_part (udp_bufs (bm_udp_cleanup buf_local))
                    end
                | None => mret tt
                end;
            err ← on_part (bm_middleware_net_tx node_id resource_port buf message_size);
            _ ← on_part (udp_bufs (bm_udp_cleanup buf));
            if is_ok err then
              _ ← on_part (bcmp_resource_discovery_add_resource t topic_len PUB);
              mret err
            else mret err
        end
  | None => mret BmEINVAL
  end.

Definition bm_pub `{Platform} `{L2Os} (node_id : Z) (topic dat : option bytes) (len type version : Z)
    : M pubsub BmErr :=
  topic_len ← lift (topic_length topic);
  if negb (topic_len =? 0) && (topic_len <? BM_TOPIC_MAX_LEN)
  then bm_pub_wl node_id topic topic_len dat len type version else mret BmEINVAL.

(** [bm_handle_msg] among the applications' functions. *)
Definition app_handle_msg : nat := 0.

Definition bm_pubsub_init (pcb_ok : bool) : M pubsub BmErr :=
  on_part (bm_middleware_add_application resource_port multicast_global_addr app_handle_msg None pcb_ok).

(** ** The list of subscriptions as a string *)

(** What [strncat] takes of a topic. *)
Fixpoint before_nul (t : bytes) : bytes :=
  match t with [] => [] | b :: t => if b =? 0 then [] else b :: before_nul t end.

(** The loop; [ptr] moves on by the topic's length. *)
Fixpoint get_subs_loop (ns : list (loc * BmSubNode)) (first : bool) (ptr : nat) (buf : bytes)
    : option (nat * bytes) :=
  match ns with
  | [] => Some (ptr, buf)
  | (_, n) :: ns =>
      '(ptr, buf) ← (if first then Some (ptr, buf)
                     else buf ← write_at ptr [32; 124; 32; 0] buf; Some ((ptr + 3)%nat, buf));
      buf ← write_at ptr (before_nul (sub_topic (sub n)) ++ [0]) buf;
      get_subs_loop ns false (ptr + Z.to_nat (sub_topic_len (sub n))) buf
  end.

Definition bm_get_subs : M pubsub (option bytes) :=
  ok ← with_ps_os malloc_ok;
  if ok : bool then
    s ← get;
    ns ← lift (nodes sub_next (ps_subs s) (subscription_list s));
    '(ptr, buf) ← lift (get_subs_loop ns true 0 (replicate max_sub_str_len 0));
    buf ← lift (write_at ptr [0] buf);
    mret (Some buf)
  else mret None.

(** ** Delivery *)

(** The calls of UDP callbacks that the stack has made are those of
    [bm_middleware_rx]. *)
Definition udp_callback (u : udp_call) : M middleware unit :=
  when (uc_cb u =? udp_middleware_rx)%nat
    (_ ← bm_middleware_rx (uc_src_port u) (Some (uc_buf u)) (uc_node_id u) (uc_size u); mret tt).

(** The applications' functions; [others] are those of other applications. *)
Definition application_rx (others : nat -> Z -> option loc -> Z -> M pubsub unit)
    (cb : nat) (node_id : Z) (buf : option loc) (size : Z) : M pubsub unit :=
  if (cb =? app_handle_msg)%nat then bm_handle_msg node_id buf size else others cb node_id buf size.
