(* ===== verification/Subscriptions.v ===== *)
(** * Subscriptions: what the lists of src/middleware/pubsub.c stand for

    A sequence of topics, each with the callbacks in the order in which they were
    added; and what any run of subscriptions, cancellations and messages does. *)
From S2P Require Import Prelude Util Wildcard LinkedList SList Os LinuxBuf L2 BmLinux Parts Resources Middleware PubSub.

(** Subscriptions with the nodes of their callbacks. *)
Abbreviation sub_entry := (BmSub * list (loc * BmPubSubNode))%type.

Definition chain_locs (zs : list sub_entry) : list loc := concat ((fun z => (snd z).*1) <$> zs).

Definition topic_len_ok (b : BmSub) : Prop := sub_topic_len b = Z.of_nat (length (sub_topic b)).

(** The chains of callbacks. *)
Record cbs_at (C : gmap loc BmPubSubNode) (zs : list sub_entry) : Prop := {
  ca_chain b cs : (b, cs) ∈ zs -> slist cb_next C (sub_callbacks b) cs /\ cs <> [];
  ca_disjoint : NoDup (chain_locs zs);
  ca_len b cs : (b, cs) ∈ zs -> topic_len_ok b
}.

(** The chain of subscriptions. *)
Record subs_at (H : gmap loc BmSubNode) (C : gmap loc BmPubSubNode) (p : option loc)
    (xs : list (loc * BmSubNode)) (zs : list sub_entry) : Prop := {
  sa_list : slist sub_next H p xs;
  sa_subs : sub <$> xs.*2 = zs.*1;
  sa_cbs : cbs_at C zs
}.

(** The topic and its callbacks. *)
Definition entry_of (z : sub_entry) : bytes * list nat :=
  (sub_topic (fst z), callback_fn <$> (snd z).*2).

(** ** Searching *)

Lemma same_topic_spec t n :
  topic_len_ok (sub n) ->
  same_topic t (Z.of_nat (length t)) n = Some (bool_decide (t = sub_topic (sub n))).
Proof.
  intros Hn. unfold same_topic. rewrite Hn. destruct (Z.eqb_spec (Z.of_nat (length t))
    (Z.of_nat (length (sub_topic (sub n))))) as [He|He].
  - assert (Hp : forall a b : bytes, length a = length b -> a `prefix_of` b -> a = b).
    { intros a b E [k ->]. rewrite length_app in E. destruct k; [by rewrite app_nil_r|cbn in E; lia]. }
    rewrite Nat2Z.id, memcmp_eq_spec. case_bool_decide as Ht.
    + by rewrite decide_True by (by rewrite Ht).
    + rewrite !decide_False; [done|..]; intros Hpre; apply Ht; [symmetry|]; apply Hp; done || lia.
  - by case_bool_decide; subst.
Qed.

Section searching.
Context (t : bytes) (h : gmap loc BmSubNode) (p : option loc).

Definition other_topics (xs : list (loc * BmSubNode)) : Prop :=
  forall l n, (l, n) ∈ xs -> topic_len_ok (sub n) /\ sub_topic (sub n) <> t.

Lemma get_sub_exact topic_len s :
  get_sub t topic_len false s
  = find_node sub_next (ps_subs s) (same_topic t topic_len) (subscription_list s).
Proof. done. Qed.

Lemma get_sub_miss xs :
  slist sub_next h p xs -> other_topics xs ->
  find_node sub_next h (same_topic t (Z.of_nat (length t))) p = Some (last xs.*1, None).
Proof.
  intros Hs Hx. apply find_node_miss; [done|]. intros l n Hn. destruct (Hx l n Hn).
  rewrite same_topic_spec by done. by rewrite bool_decide_eq_false_2.
Qed.

Lemma get_sub_hit xs l n ys :
  slist sub_next h p (xs ++ (l, n) :: ys) -> other_topics xs -> topic_len_ok (sub n) ->
  sub_topic (sub n) = t ->
  find_node sub_next h (same_topic t (Z.of_nat (length t))) p = Some (last xs.*1, Some l).
Proof.
  intros Hs Hx Hl Ht. eapply find_node_hit; [done| |].
  - intros l' n' Hn. destruct (Hx l' n' Hn). rewrite same_topic_spec by done.
    by rewrite bool_decide_eq_false_2.
  - rewrite same_topic_spec by done. by rewrite bool_decide_eq_true_2.
Qed.
End searching.

(** A topic is not there, or is at one place. *)
Lemma topic_split t H C p xs zs :
  subs_at H C p xs zs ->
  (other_topics t xs /\ t ∉ (entry_of <$> zs).*1)
  \/ exists xs1 l n xs2 zs1 cs zs2, xs = xs1 ++ (l, n) :: xs2 /\ zs = zs1 ++ (sub n, cs) :: zs2
       /\ sub <$> xs1.*2 = zs1.*1 /\ sub <$> xs2.*2 = zs2.*1
       /\ other_topics t xs1 /\ t ∉ (entry_of <$> zs1).*1 /\ topic_len_ok (sub n) /\ sub_topic (sub n) = t.
Proof.
  intros [_ Hsub Hc]. pose proof (ca_len _ _ Hc) as Hlen. clear Hc H C p.
  revert zs Hsub Hlen. induction xs as [|[l n] xs IH]; intros [|[b cs] zs] Hsub Hlen; try done.
  { left. split; [by intros l n ?%not_elem_of_nil|by intros ?%not_elem_of_nil]. }
  injection Hsub as Hb Hsub. cbn in Hb. subst b.
  assert (Hn : topic_len_ok (sub n)) by (apply (Hlen _ cs); by left).
  destruct (decide (sub_topic (sub n) = t)) as [E|E].
  { right. exists [], l, n, xs, [], cs, zs. split_and!; try done;
      [by intros l' n' ?%not_elem_of_nil|by intros ?%not_elem_of_nil]. }
  assert (Hcons : forall ys, other_topics t ys -> other_topics t ((l, n) :: ys)).
  { intros ys Hys l' n' [[= -> ->]|H]%elem_of_cons; [done|eauto]. }
  destruct (IH zs Hsub) as [[H1 H2]|(xs1 & l' & n' & xs2 & zs1 & cs' & zs2 & -> & -> & H1 & H2 & H3 & H4 & H5 & H6)].
  { intros b ds Hb. apply (Hlen b ds). by right. }
  - left. split; [by apply Hcons|]. cbn. rewrite not_elem_of_cons. naive_solver.
  - right. exists ((l, n) :: xs1), l', n', xs2, ((sub n, cs) :: zs1), cs', zs2.
    split_and!; try done; [cbn; by rewrite H1|by apply Hcons|].
    cbn. rewrite not_elem_of_cons. naive_solver.
Qed.

(** ** Changing entries *)

Lemma chain_locs_app zs1 zs2 : chain_locs (zs1 ++ zs2) = chain_locs zs1 ++ chain_locs zs2.
Proof. unfold chain_locs. by rewrite fmap_app, concat_app. Qed.

Lemma elem_of_chain_locs c zs : c ∈ chain_locs zs <-> exists b cs, (b, cs) ∈ zs /\ c ∈ cs.*1.
Proof.
  unfold chain_locs. induction zs as [|[b cs] zs IH]; cbn.
  - split; [by intros ?%not_elem_of_nil|]. intros (b & cs & H & _). by apply not_elem_of_nil in H.
  - rewrite elem_of_app, IH. split.
    + intros [Hc|(b' & cs' & Hx & Hc)]; [exists b, cs|exists b', cs']; rewrite elem_of_cons; auto.
    + intros (b' & cs' & [[= -> ->]|Hx]%elem_of_cons & Hc); [by left|right; eauto].
Qed.

Lemma chain_locs_alive C zs c : cbs_at C zs -> c ∈ chain_locs zs -> is_Some (C !! c).
Proof.
  intros Hs (b & cs & Hx & Hc)%elem_of_chain_locs. destruct (ca_chain _ _ Hs _ _ Hx) as [Hcs _].
  apply list_elem_of_fmap in Hc as ([c' f] & -> & Hc). eexists. by eapply slist_lookup.
Qed.

(** Some entries are replaced by others, whose nodes are theirs or new. *)
Lemma cbs_replace C C' zs1 old new zs2 :
  cbs_at C (zs1 ++ old ++ zs2) -> cbs_at C' new ->
  (forall c, c ∈ chain_locs zs1 \/ c ∈ chain_locs zs2 -> C' !! c = C !! c) ->
  (forall c, c ∈ chain_locs new -> c ∈ chain_locs old \/ C !! c = None) ->
  cbs_at C' (zs1 ++ new ++ zs2).
Proof.
  intros Hs Hn Hframe Hlocs.
  assert (Halive : forall c, c ∈ chain_locs zs1 \/ c ∈ chain_locs zs2 -> is_Some (C !! c)).
  { intros c Hc. eapply chain_locs_alive; [exact Hs|]. rewrite !chain_locs_app, !elem_of_app. tauto. }
  destruct Hs as [Hch Hd Hlen]. rewrite !chain_locs_app in Hd.
  apply NoDup_app in Hd as (D1 & D2 & D3). apply NoDup_app in D3 as (D3 & D4 & D5).
  assert (Hnew : forall c, c ∈ chain_locs new -> c ∉ chain_locs zs1 /\ c ∉ chain_locs zs2).
  { intros c Hc. destruct (Hlocs c Hc) as [Ho|Hnone].
    - split; [|by apply D4]. intros H1. apply (D2 c H1), elem_of_app. by left.
    - split; intros H1; [destruct (Halive c (or_introl H1))|destruct (Halive c (or_intror H1))]; congruence. }
  split.
  - intros b cs [Hx|[Hx|Hx]%elem_of_app]%elem_of_app; [|by apply Hn|].
    all: destruct (Hch b cs) as [Hsl Hnil]; [rewrite !elem_of_app; tauto|]; split; [|done].
    all: eapply slist_frame; [done|]; intros c Hc; apply Hframe.
    all: first [left; apply elem_of_chain_locs; by eauto|right; apply elem_of_chain_locs; by eauto].
  - rewrite !chain_locs_app. apply NoDup_app. split_and!; [done| |].
    + intros c Hc [Hc'|Hc']%elem_of_app; [by destruct (Hnew c Hc')|].
      apply (D2 c Hc), elem_of_app. by right.
    + apply NoDup_app. split_and!; [apply Hn| |done]. intros c Hc. apply Hnew, Hc.
  - intros b cs [Hx|[Hx|Hx]%elem_of_app]%elem_of_app; [|by apply (ca_len _ _ Hn b cs)|];
      apply (Hlen b cs); rewrite !elem_of_app; tauto.
Qed.

Lemma cbs_at_one C b cs :
  slist cb_next C (sub_callbacks b) cs -> cs <> [] -> topic_len_ok b -> cbs_at C [(b, cs)].
Proof.
  intros Hs Hn Hl. split.
  - by intros b' cs' [= -> ->]%list_elem_of_singleton.
  - unfold chain_locs. cbn. rewrite app_nil_r. apply Hs.
  - by intros b' cs' [= -> ->]%list_elem_of_singleton.
Qed.

Lemma cbs_at_nil C : cbs_at C [].
Proof. split; [by intros b cs ?%not_elem_of_nil|apply NoDup_nil_2|by intros b cs ?%not_elem_of_nil]. Qed.

(** One entry is changed. *)
Lemma subs_update H C p xs1 l n xs2 zs1 cs zs2 b' C' cs' :
  subs_at H C p (xs1 ++ (l, n) :: xs2) (zs1 ++ (sub n, cs) :: zs2) ->
  sub <$> xs1.*2 = zs1.*1 -> sub <$> xs2.*2 = zs2.*1 ->
  slist cb_next C' (sub_callbacks b') cs' -> cs' <> [] -> topic_len_ok b' ->
  (forall c, c ∈ chain_locs zs1 \/ c ∈ chain_locs zs2 -> C' !! c = C !! c) ->
  (forall c, c ∈ cs'.*1 -> c ∈ cs.*1 \/ C !! c = None) ->
  subs_at (<[l := MkSubNode b' (sub_next n)]> H) C' p (xs1 ++ (l, MkSubNode b' (sub_next n)) :: xs2)
    (zs1 ++ (b', cs') :: zs2).
Proof.
  intros [Hl _ Hc] E1 E2 Hs Hn Ht Hf Hlocs. split.
  - by eapply slist_update.
  - rewrite !fmap_app. cbn. by rewrite E1, E2.
  - apply (cbs_replace C C' zs1 [(sub n, cs)] [(b', cs')] zs2); [done|by apply cbs_at_one|done|].
    unfold chain_locs. cbn. by rewrite !app_nil_r.
Qed.

(** One entry goes. *)
Lemma cbs_remove C C' zs1 e zs2 :
  cbs_at C (zs1 ++ e :: zs2) ->
  (forall c, c ∈ chain_locs zs1 \/ c ∈ chain_locs zs2 -> C' !! c = C !! c) -> cbs_at C' (zs1 ++ zs2).
Proof.
  intros Hs Hf. apply (cbs_replace C C' zs1 [e] [] zs2); [done|apply cbs_at_nil|done|].
  by intros c ?%not_elem_of_nil.
Qed.

(** One is added. *)
Lemma cbs_snoc C zs b c f :
  cbs_at C zs -> C !! c = None -> sub_callbacks b = Some c -> cb_next f = None -> topic_len_ok b ->
  cbs_at (<[c := f]> C) (zs ++ [(b, [(c, f)])]).
Proof.
  intros Hs Hc Hb Hf Ht. rewrite <- (app_nil_r [_]).
  apply (cbs_replace C _ zs [] [(b, [(c, f)])] []).
  - by rewrite !app_nil_r.
  - apply cbs_at_one; [rewrite Hb; by apply slist_one|done|done].
  - intros d [Hd|Hd%not_elem_of_nil]; [|done]. rewrite lookup_insert_ne; [done|]. intros <-.
    destruct (chain_locs_alive _ _ _ Hs Hd). congruence.
  - unfold chain_locs. cbn. intros d ->%list_elem_of_singleton. by right.
Qed.

(** ** What subscriptions stand for *)

Record ps_inv (s : pubsub) (subs : list (bytes * list nat)) (nm : ResourceType -> list bytes) : Prop := {
  pi_subs : exists xs zs, subs_at (ps_subs s) (ps_cbs s) (subscription_list s) xs zs
    /\ entry_of <$> zs = subs;
  pi_topics : NoDup subs.*1;
  pi_os : willing (ps_os s);
  pi_res : exists ys, res_inv (ps_res s) nm ys
}.

(** What the code does with a callback: it is added to a topic, unless it is the
    topic's first one. *)
Definition add_cb (c : nat) (cs : list nat) : list nat :=
  match cs with d :: _ => if (d =? c)%nat then cs else cs ++ [c] | [] => [c] end.

Fixpoint subs_add (t : bytes) (c : nat) (subs : list (bytes * list nat)) : list (bytes * list nat) :=
  match subs with
  | [] => [(t, [c])]
  | (u, cs) :: subs => if decide (u = t) then (u, add_cb c cs) :: subs else (u, cs) :: subs_add t c subs
  end.

(** The first one of these callbacks is taken away from a topic; a topic without
    callbacks goes. *)
Fixpoint remove_cb (c : nat) (cs : list nat) : option (list nat) :=
  match cs with
  | [] => None
  | d :: cs => if (d =? c)%nat then Some cs else ds ← remove_cb c cs; Some (d :: ds)
  end.

Fixpoint subs_remove (t : bytes) (c : nat) (subs : list (bytes * list nat))
    : BmErr * list (bytes * list nat) :=
  match subs with
  | [] => (BmEINVAL, [])
  | (u, cs) :: subs =>
      if decide (u = t) then
        match remove_cb c cs with
        | None => (BmENOENT, (u, cs) :: subs)
        | Some [] => (BmOK, subs)
        | Some ds => (BmOK, (u, ds) :: subs)
        end
      else let '(e, subs) := subs_remove t c subs in (e, (u, cs) :: subs)
  end.

Lemma subs_add_miss t c subs : t ∉ subs.*1 -> subs_add t c subs = subs ++ [(t, [c])].
Proof.
  induction subs as [|[u cs] subs IH]; cbn; [done|]. rewrite not_elem_of_cons. intros [H1 H2].
  rewrite decide_False by done. by rewrite IH.
Qed.

Lemma subs_add_hit t c subs1 cs subs2 :
  t ∉ subs1.*1 -> subs_add t c (subs1 ++ (t, cs) :: subs2) = subs1 ++ (t, add_cb c cs) :: subs2.
Proof.
  induction subs1 as [|[u ds] subs1 IH]; cbn; [by rewrite decide_True|].
  rewrite not_elem_of_cons. intros [H1 H2]. rewrite decide_False by done. by rewrite IH.
Qed.

Lemma subs_remove_miss t c subs : t ∉ subs.*1 -> subs_remove t c subs = (BmEINVAL, subs).
Proof.
  induction subs as [|[u cs] subs IH]; cbn; [done|]. rewrite not_elem_of_cons. intros [H1 H2].
  rewrite decide_False by done. by rewrite IH.
Qed.

Lemma subs_remove_hit t c subs1 cs subs2 :
  t ∉ subs1.*1 ->
  subs_remove t c (subs1 ++ (t, cs) :: subs2)
  = match remove_cb c cs with
    | None => (BmENOENT, subs1 ++ (t, cs) :: subs2)
    | Some [] => (BmOK, subs1 ++ subs2)
    | Some ds => (BmOK, subs1 ++ (t, ds) :: subs2)
    end.
Proof.
  induction subs1 as [|[u ds] subs1 IH]; cbn.
  - rewrite decide_True by done. by destruct (remove_cb c cs) as [[]|].
  - rewrite not_elem_of_cons. intros [H1 H2]. rewrite decide_False, IH by done.
    by destruct (remove_cb c cs) as [[]|].
Qed.

(** *** Adding a callback *)

Lemma last_cb_loop_spec h first callback cs e f c0 fuel :
  segment cb_next h (Some c0) None (cs ++ [(e, f)]) -> first <> callback -> (length cs < fuel)%nat ->
  last_cb_loop fuel h first callback c0 = Some e.
Proof.
  intros Hs Hne. revert c0 fuel Hs.
  induction cs as [|[c g] cs IH]; intros c0 [|fuel] Hs Hf; cbn in Hf; try lia;
    destruct Hs as ([= ->] & Hl & Hs); cbn; rewrite Hl; cbn.
  - cbn in Hs. by rewrite Hs.
  - destruct (Nat.eqb_spec first callback); [done|]. cbn.
    destruct (cb_next g) as [nx|] eqn:Enx.
    + apply IH; [done|lia].
    + by destruct cs as [|[]]; destruct Hs.
Qed.

Lemma last_cb_loop_total h callback c0 f xs fuel :
  slist cb_next h (Some c0) ((c0, f) :: xs) -> (0 < fuel)%nat ->
  last_cb_loop fuel h callback callback c0 = Some c0.
Proof.
  intros Hs Hf. destruct fuel as [|fuel]; [lia|]. cbn.
  rewrite (slist_lookup _ _ _ _ _ f Hs) by (by left). cbn. rewrite Nat.eqb_refl. cbn.
  by destruct (cb_next f).
Qed.

Lemma ps_malloc s : willing (ps_os s) -> with_ps_os malloc_ok s = Some (true, s).
Proof.
  intros [Ha _]. unfold with_ps_os, zoom, malloc_ok. rewrite Ha.
  destruct s as [? ? ? [a b c] ? ? ?]; cbn in Ha; by subst.
Qed.

Lemma add_callback_spec s xs1 l n xs2 zs1 cs zs2 cb :
  subs_at (ps_subs s) (ps_cbs s) (subscription_list s) (xs1 ++ (l, n) :: xs2) (zs1 ++ (sub n, cs) :: zs2) ->
  sub <$> xs1.*2 = zs1.*1 -> sub <$> xs2.*2 = zs2.*1 -> willing (ps_os s) ->
  exists C' cs', add_callback l cb s = Some (BmOK, set_cbs C' s)
    /\ subs_at (ps_subs s) C' (subscription_list s) (xs1 ++ (l, n) :: xs2) (zs1 ++ (sub n, cs') :: zs2)
    /\ callback_fn <$> cs'.*2 = add_cb cb (callback_fn <$> cs.*2).
Proof.
  intros Hs E1 E2 Hw. pose proof (sa_cbs _ _ _ _ _ Hs) as Hc.
  destruct (ca_chain _ _ Hc (sub n) cs) as [Hcs Hne]; [rewrite elem_of_app, elem_of_cons; tauto|].
  assert (Hl : ps_subs s !! l = Some n).
  { eapply slist_lookup; [apply Hs|]. rewrite elem_of_app, elem_of_cons. tauto. }
  unfold add_callback. erewrite bind_some by reflexivity. rewrite bind_lift, Hl. cbn [mbind option_bind].
  destruct cs as [|[c0 f] cs]; [done|]. pose proof (slist_head _ _ _ _ _ _ Hcs) as Hc0.
  rewrite bind_lift, Hc0. cbn [mbind option_bind].
  pose proof (slist_lookup _ _ _ _ c0 f Hcs ltac:(by left)) as Hf. rewrite bind_lift, Hf.
  cbn [mbind option_bind]. rewrite Hc0 in Hcs.
  destruct (decide (callback_fn f = cb)) as [Hcb|Hcb].
  - rewrite bind_lift, Hcb, (last_cb_loop_total _ _ _ f cs) by (done || unfold walk_fuel; lia).
    cbn [mbind option_bind]. rewrite (proj2 (Nat.eqb_eq cb cb) eq_refl).
    exists (ps_cbs s), ((c0, f) :: cs). split; [by destruct s|]. split; [done|].
    cbn. by rewrite Hcb, (proj2 (Nat.eqb_eq cb cb) eq_refl).
  - destruct (exists_last (l := (c0, f) :: cs)) as (cs0 & [e g] & Elast); [done|].
    rewrite Elast in Hcs. pose proof (slist_size _ _ _ _ Hcs) as Hsz. rewrite length_app in Hsz.
    rewrite bind_lift, (last_cb_loop_spec _ _ _ cs0 e g) by (apply Hcs || done || unfold walk_fuel; cbn in Hsz; lia).
    cbn [mbind option_bind]. destruct (Nat.eqb_spec (callback_fn f) cb); [done|].
    erewrite bind_some by (by apply ps_malloc). cbv iota zeta.
    pose proof (slist_lookup _ _ _ _ e g Hcs ltac:(rewrite elem_of_app; right; by left)) as Hg.
    rewrite bind_lift, Hg. cbn [mbind option_bind].
    set (c := fresh (dom (ps_cbs s))). assert (Hcn : ps_cbs s !! c = None) by apply not_elem_of_dom, is_fresh.
    eexists _, (cs0 ++ [(e, MkPubSubNode (Some c) (callback_fn g)); (c, MkPubSubNode None cb)]).
    split; [reflexivity|]. split.
    + replace (ps_subs s) with (<[l := MkSubNode (sub n) (sub_next n)]> (ps_subs s)) at 1
        by (rewrite insert_id; [done|by destruct n]).
      replace (l, n) with (l, MkSubNode (sub n) (sub_next n)) by (by destruct n).
      eapply subs_update; [exact Hs|done|done| |by destruct cs0| |..].
      * rewrite Hc0. by eapply slist_snoc.
      * eapply (ca_len _ _ Hc). rewrite elem_of_app, elem_of_cons. by eauto.
      * intros d Hd. assert (Hdc : d ∈ chain_locs (zs1 ++ (sub n, (c0, f) :: cs) :: zs2) /\ d <> e).
        { pose proof (ca_disjoint _ _ Hc) as Hdis. rewrite chain_locs_app in *.
          change (chain_locs (?z :: zs2)) with ((snd z).*1 ++ chain_locs zs2) in *. cbn [snd] in *.
          rewrite Elast, fmap_app in *. cbn in *. split; [rewrite !elem_of_app; tauto|].
          intros ->. apply NoDup_app in Hdis as (_ & D1 & D2). apply NoDup_app in D2 as (_ & D2 & _).
          destruct Hd as [Hd|Hd]; [apply (D1 e Hd); rewrite !elem_of_app|apply (D2 e)]; 
            rewrite ?elem_of_app, ?list_elem_of_singleton; tauto. }
        destruct Hdc as [Hdc Hde]. rewrite !lookup_insert_ne; [done| |done].
        intros <-. destruct (chain_locs_alive _ _ _ Hc Hdc). congruence.
      * intros d. rewrite Elast, !fmap_app. cbn. rewrite !elem_of_app, elem_of_cons, !list_elem_of_singleton.
        intros [?|[?|?]]; subst; auto.
    + assert (Hadd : forall cs' : list nat, add_cb cb (callback_fn f :: cs') = (callback_fn f :: cs') ++ [cb])
        by (intros; cbn; by destruct (Nat.eqb_spec (callback_fn f) cb)).
      transitivity ((callback_fn <$> ((c0, f) :: cs).*2) ++ [cb]); [|symmetry; apply Hadd].
      rewrite Elast, !fmap_app, <- app_assoc. done.
Qed.

(** *** A new topic *)

Lemma read_topic (t : bytes) : read_at 0 (Z.to_nat (Z.of_nat (length t))) t = Some t.
Proof. rewrite <- (app_nil_r t) at 2. apply read_at_head. by rewrite Nat2Z.id. Qed.

(** The link from the last subscription. *)
Lemma link_sub H C p xs zs l n :
  subs_at H C p xs zs -> H !! l = None -> sub_next n = None ->
  exists H0 p' xs',
    (match last xs.*1 with
     | None => Some (Some l, H)
     | Some e => m ← H !! e; Some (p, <[e := MkSubNode (sub m) (Some l)]> H)
     end) = Some (p', H0)
    /\ slist sub_next (<[l := n]> H0) p' (xs' ++ [(l, n)]) /\ sub <$> xs'.*2 = zs.*1 /\ H0 !! l = None.
Proof.
  intros [Hs Hsub _] Hl Hn. destruct xs as [|[e m] xs _] using rev_ind.
  - exists H, (Some l), []. split_and!; [done|by apply slist_one|done|done].
  - assert (last (xs ++ [(e, m)]).*1 = Some e) as -> by (rewrite fmap_app; apply last_snoc).
    pose proof (slist_lookup _ _ _ _ e m Hs ltac:(rewrite elem_of_app; right; by left)) as He.
    assert (Hel : e <> l) by congruence. rewrite He. cbn [mbind option_bind].
    eexists _, p, (xs ++ [(e, MkSubNode (sub m) (Some l))]). split; [reflexivity|]. split_and!.
    + rewrite insert_insert_ne, <- app_assoc by done. by eapply slist_snoc.
    + rewrite <- Hsub. by rewrite !fmap_app.
    + by rewrite lookup_insert_ne.
Qed.

Lemma new_subscription_spec s xs zs t cb :
  subs_at (ps_subs s) (ps_cbs s) (subscription_list s) xs zs -> willing (ps_os s) ->
  exists p' H' C' xs' b c f, new_subscription t (Z.of_nat (length t)) cb s
      = Some (BmOK, set_subs p' H' (set_cbs C' s))
    /\ subs_at H' C' p' xs' (zs ++ [(b, [(c, f)])]) /\ entry_of (b, [(c, f)]) = (t, [cb]).
Proof.
  intros Hs Hw. pose proof (sa_cbs _ _ _ _ _ Hs) as Hc.
  set (l := fresh (dom (ps_subs s))). assert (Hl : ps_subs s !! l = None) by apply not_elem_of_dom, is_fresh.
  set (c := fresh (dom (ps_cbs s))). assert (Hcn : ps_cbs s !! c = None) by apply not_elem_of_dom, is_fresh.
  set (b := MkSub t (Z.of_nat (length t)) (Some c)).
  destruct (link_sub _ _ _ _ _ l (MkSubNode b None) Hs Hl eq_refl) as (H0 & p' & xs' & E & Hsl & Hsub & Hl0).
  exists p', (<[l := MkSubNode b None]> H0), (<[c := MkPubSubNode None cb]> (ps_cbs s)),
    (xs' ++ [(l, MkSubNode b None)]), b, c, (MkPubSubNode None cb). split_and!; [|split|done].
  - unfold new_subscription. erewrite bind_some by reflexivity. rewrite bind_lift. unfold get_last_sub.
    rewrite (nodes_spec _ _ _ _ (sa_list _ _ _ _ _ Hs)). cbn [mbind option_bind].
    erewrite bind_some by (by apply ps_malloc). cbn [negb]. cbv zeta. fold l.
    erewrite bind_some by reflexivity. rewrite bind_lift.
    assert (Elink : set_next_sub (last xs.*1) (Some l) s = Some (set_subs p' H0 s)).
    { unfold set_next_sub. destruct (last xs.*1) as [e|]; [|by injection E as <- <-].
      destruct (ps_subs s !! e); cbn in *; [|done]. by injection E as <- <-. }
    rewrite Elink. cbn [mbind option_bind]. erewrite bind_some by reflexivity.
    erewrite bind_some by (by apply ps_malloc). cbn [negb].
    rewrite bind_lift, read_topic. cbn [mbind option_bind].
    erewrite bind_some by reflexivity. erewrite bind_some by (by apply ps_malloc). cbv iota.
    erewrite bind_some by reflexivity. rewrite bind_lift. unfold set_callbacks.
    cbn [ps_subs set_subs set_cbs ps_cbs]. rewrite lookup_insert_eq. cbn [mbind option_bind].
    erewrite bind_some by reflexivity. cbn [sub sub_topic sub_topic_len sub_next].
    by rewrite insert_insert_eq.
  - exact Hsl.
  - rewrite !fmap_app. cbn. by rewrite Hsub.
  - by apply cbs_snoc.
Qed.

(** *** Removing a callback *)

Lemma unsub_loop_hit h callback cs1 c f cs2 prev c0 fuel :
  segment cb_next h (Some c0) None (cs1 ++ (c, f) :: cs2) -> callback_fn f = callback ->
  callback ∉ callback_fn <$> cs1.*2 -> (length cs1 < fuel)%nat ->
  unsub_loop fuel h callback prev c0 = Some (last (option_list prev ++ cs1.*1), c).
Proof.
  intros Hs Hf. revert prev c0 fuel Hs.
  induction cs1 as [|[c1 g] cs1 IH]; intros prev c0 [|fuel] Hs Hn Hfu; cbn in Hfu; try lia;
    destruct Hs as ([= ->] & Hl & Hs); cbn; rewrite Hl; cbn.
  - rewrite Hf, Nat.eqb_refl. cbn. by destruct (cb_next f), prev.
  - rewrite !fmap_cons, not_elem_of_cons in Hn. cbn [snd] in Hn. destruct Hn as [Hn1 Hn2].
    destruct (Nat.eqb_spec (callback_fn g) callback); [congruence|]. cbn.
    destruct (cb_next g) as [nx|] eqn:Enx; [|by destruct cs1 as [|[]]; destruct Hs].
    rewrite (IH (Some c1) nx) by (done || lia). by destruct prev.
Qed.

Lemma unsub_loop_miss h callback cs prev c0 fuel :
  segment cb_next h (Some c0) None cs -> cs <> [] -> callback ∉ callback_fn <$> cs.*2 ->
  (length cs < fuel)%nat ->
  exists prev' c f, unsub_loop fuel h callback prev c0 = Some (prev', c) /\ h !! c = Some f
    /\ callback_fn f <> callback.
Proof.
  revert prev c0 fuel. induction cs as [|[c1 g] cs IH]; intros prev c0 [|fuel] Hs Hnil Hn Hfu;
    cbn in Hfu; try lia; try done.
  destruct Hs as ([= ->] & Hl & Hs). cbn. rewrite Hl. cbn.
  rewrite !fmap_cons, not_elem_of_cons in Hn. cbn [snd] in Hn. destruct Hn as [Hn1 Hn2].
  destruct (cb_next g) as [nx|] eqn:Enx; [|by exists prev, c1, g].
  destruct (Nat.eqb_spec (callback_fn g) callback); [congruence|]. cbn.
  apply IH; [done| |done|lia]. by destruct cs.
Qed.

(** Where the first one of the callbacks is. *)
Lemma remove_cb_split cb (cs : list (loc * BmPubSubNode)) :
  match remove_cb cb (callback_fn <$> cs.*2) with
  | None => cb ∉ callback_fn <$> cs.*2
  | Some ds => exists cs1 c f cs2, cs = cs1 ++ (c, f) :: cs2 /\ callback_fn f = cb
      /\ cb ∉ callback_fn <$> cs1.*2 /\ ds = (callback_fn <$> cs1.*2) ++ (callback_fn <$> cs2.*2)
  end.
Proof.
  induction cs as [|[c f] cs IH]; cbn; [by intros ?%not_elem_of_nil|].
  destruct (Nat.eqb_spec (callback_fn f) cb) as [E|E].
  - exists [], c, f, cs. split_and!; [done|done|by intros ?%not_elem_of_nil|done].
  - destruct (remove_cb cb (callback_fn <$> cs.*2)) as [ds|] eqn:Er; cbn.
    + destruct IH as (cs1 & c' & f' & cs2 & -> & E1 & E2 & ->).
      exists ((c, f) :: cs1), c', f', cs2. split_and!; [done|done| |done].
      rewrite !fmap_cons, not_elem_of_cons. cbn. auto.
    + rewrite not_elem_of_cons. auto.
Qed.

Lemma others_disjoint C zs1 b cs zs2 d :
  cbs_at C (zs1 ++ (b, cs) :: zs2) -> d ∈ chain_locs zs1 \/ d ∈ chain_locs zs2 -> d ∉ cs.*1.
Proof.
  intros Hc Hd Hin. pose proof (ca_disjoint _ _ Hc) as Hdis. rewrite chain_locs_app in Hdis.
  change (chain_locs (?z :: zs2)) with ((snd z).*1 ++ chain_locs zs2) in Hdis. cbn [snd] in Hdis.
  apply NoDup_app in Hdis as (_ & D1 & D2). apply NoDup_app in D2 as (_ & D2 & _).
  destruct Hd as [Hd|Hd]; [apply (D1 d Hd), elem_of_app; by left|by apply (D2 d)].
Qed.

(** A subscription without callbacks is deleted. *)
Lemma delete_sub_spec s t xs1 l n xs2 :
  slist sub_next (ps_subs s) (subscription_list s) (xs1 ++ (l, n) :: xs2) -> other_topics t xs1 ->
  topic_len_ok (sub n) -> sub_topic (sub n) = t -> sub_callbacks (sub n) = None ->
  exists p' H' xs1', delete_sub t (Z.of_nat (length t)) s = Some (tt, set_subs p' H' s)
    /\ slist sub_next H' p' (xs1' ++ xs2) /\ sub <$> xs1'.*2 = sub <$> xs1.*2.
Proof.
  intros Hs Ho Hl Ht Hcb. unfold delete_sub. erewrite bind_some by reflexivity.
  rewrite bind_lift, get_sub_exact. rewrite (get_sub_hit t _ _ xs1 l n xs2 Hs Ho Hl Ht).
  cbn [mbind option_bind].
  assert (Hln : ps_subs s !! l = Some n).
  { eapply slist_lookup; [exact Hs|]. rewrite elem_of_app, elem_of_cons. tauto. }
  rewrite bind_lift, Hln. cbn [mbind option_bind]. rewrite bind_lift.
  assert (Hlink : exists p' H' xs1', set_next_sub (last xs1.*1) (sub_next n) s = Some (set_subs p' H' s)
    /\ slist sub_next (delete l H') p' (xs1' ++ xs2) /\ sub <$> xs1'.*2 = sub <$> xs1.*2).
  { destruct xs1 as [|[e m] xs1 _] using rev_ind.
    - pose proof (slist_head _ _ _ _ _ _ Hs) as Hp. cbn [app] in Hs. rewrite Hp in Hs.
      exists (sub_next n), (ps_subs s), []. split_and!; [by destruct s|by apply slist_delete_head|done].
    - assert (last (xs1 ++ [(e, m)]).*1 = Some e) as -> by (rewrite fmap_app; apply last_snoc).
      unfold set_next_sub. rewrite <- app_assoc in Hs. cbn [app] in Hs.
      rewrite (slist_lookup _ _ _ _ e m Hs) by (rewrite elem_of_app; right; by left). cbn [mbind option_bind].
      eexists _, _, (xs1 ++ [(e, MkSubNode (sub m) (sub_next n))]). split; [reflexivity|].
      rewrite <- app_assoc. split; [by eapply slist_delete|]. by rewrite !fmap_app. }
  destruct Hlink as (p' & H' & xs1' & -> & Hs' & Hsub). cbn [mbind option_bind]. rewrite Hcb, bind_lift.
  unfold nodes, walk_fuel. cbn [nodes_loop mbind option_bind fmap list_fmap foldl].
  exists p', (delete l H'), xs1'. split_and!; [by destruct s|done|done].
Qed.

(** What stays the same. *)
Definition same_world (s s' : pubsub) : Prop :=
  ps_os s' = ps_os s /\ ps_calls s' = ps_calls s /\ ps_mw s' = ps_mw s /\ ps_res s' = ps_res s.

(** Taking a callback out of its chain. *)
Lemma remove_callback_spec s xs1 l n xs2 zs1 cs1 c f cs2 zs2 :
  subs_at (ps_subs s) (ps_cbs s) (subscription_list s) (xs1 ++ (l, n) :: xs2)
    (zs1 ++ (sub n, cs1 ++ (c, f) :: cs2) :: zs2) ->
  sub <$> xs1.*2 = zs1.*1 -> sub <$> xs2.*2 = zs2.*1 -> topic_len_ok (sub n) ->
  exists s1 b cs', (match last cs1.*1 with
       | Some p => n ← ps_cbs s !! p;
                   Some (set_cbs (<[p := MkPubSubNode (cb_next f) (callback_fn n)]> (ps_cbs s)) s)
       | None => set_callbacks l (cb_next f) s
       end) = Some s1
    /\ same_world s s1 /\ subscription_list s1 = subscription_list s
    /\ sub_topic b = sub_topic (sub n) /\ topic_len_ok b
    /\ callback_fn <$> cs'.*2 = callback_fn <$> (cs1 ++ cs2).*2
    /\ slist sub_next (ps_subs s1) (subscription_list s) (xs1 ++ (l, MkSubNode b (sub_next n)) :: xs2)
    /\ (cs1 ++ cs2 = [] -> sub_callbacks b = None /\ cbs_at (delete c (ps_cbs s1)) (zs1 ++ zs2))
    /\ (cs1 ++ cs2 <> [] -> sub_callbacks b <> None
         /\ subs_at (ps_subs s1) (delete c (ps_cbs s1)) (subscription_list s)
              (xs1 ++ (l, MkSubNode b (sub_next n)) :: xs2) (zs1 ++ (b, cs') :: zs2)).
Proof.
  intros Hs E1 E2 Hlen. pose proof (sa_cbs _ _ _ _ _ Hs) as Hc.
  destruct (ca_chain _ _ Hc (sub n) (cs1 ++ (c, f) :: cs2)) as [Hcs _];
    [rewrite elem_of_app, elem_of_cons; tauto|].
  assert (Hoth : forall d, d ∈ chain_locs zs1 \/ d ∈ chain_locs zs2 -> d ∉ cs1.*1 /\ d <> c).
  { intros d Hd. pose proof (others_disjoint _ _ _ _ _ d Hc Hd) as Hn. rewrite fmap_app in Hn. cbn in Hn.
    rewrite elem_of_app, elem_of_cons in Hn. tauto. }
  destruct cs1 as [|[e m] cs1 _] using rev_ind.
  - assert (Hln : ps_subs s !! l = Some n).
    { eapply slist_lookup; [apply Hs|]. rewrite elem_of_app, elem_of_cons. tauto. }
    cbn [last fmap list_fmap]. unfold set_callbacks. rewrite Hln. cbn [mbind option_bind app].
    cbn [app] in Hcs. pose proof (slist_head _ _ _ _ _ _ Hcs) as Hc0. rewrite Hc0 in Hcs.
    apply slist_delete_head in Hcs.
    assert (Hframe : forall d, d ∈ chain_locs zs1 \/ d ∈ chain_locs zs2 ->
              delete c (ps_cbs s) !! d = ps_cbs s !! d).
    { intros d Hd. rewrite lookup_delete_ne; [done|]. intros <-. by destruct (Hoth c Hd). }
    eexists _, (MkSub (sub_topic (sub n)) (sub_topic_len (sub n)) (cb_next f)), cs2.
    split; [reflexivity|]. split_and!; try done.
    + eapply slist_update; [apply Hs|done].
    + intros ->. split; [exact (sl_segment _ _ _ _ Hcs)|]. by eapply cbs_remove.
    + intros Hne. split.
      * destruct cs2 as [|[c2 g] cs2]; [done|]. cbn. by rewrite (slist_head _ _ _ _ _ _ Hcs).
      * eapply subs_update; try done. cbn. intros d Hd. left. by right.
  - assert (last (cs1 ++ [(e, m)]).*1 = Some e) as -> by (rewrite fmap_app; apply last_snoc).
    rewrite <- app_assoc in Hcs. cbn [app] in Hcs.
    rewrite (slist_lookup _ _ _ _ e m Hcs) by (rewrite elem_of_app; right; by left). cbn [mbind option_bind].
    eexists _, (sub n), (cs1 ++ (e, MkPubSubNode (cb_next f) (callback_fn m)) :: cs2).
    assert (Hn : MkSubNode (sub n) (sub_next n) = n) by (by destruct n).
    split; [reflexivity|]. split_and!; try done.
    + rewrite <- app_assoc, !fmap_app. done.
    + rewrite Hn. apply Hs.
    + by destruct cs1.
    + intros _. split.
      * intros E. rewrite E in Hcs. apply sl_segment in Hcs. by destruct cs1 as [|[]]; destruct Hcs.
      * cbn [ps_subs ps_cbs set_cbs].
        replace (ps_subs s) with (<[l := MkSubNode (sub n) (sub_next n)]> (ps_subs s)) at 1.
        2: { rewrite Hn. apply insert_id. eapply slist_lookup; [apply Hs|]. rewrite elem_of_app, elem_of_cons. tauto. }
        eapply subs_update; [exact Hs|done|done| |by destruct cs1|done|..].
        -- by eapply slist_delete.
        -- intros d Hd. destruct (Hoth d Hd) as [Hd1 Hd2]. rewrite lookup_delete_ne, lookup_insert_ne; [done| |done].
           intros <-. apply Hd1. rewrite fmap_app. apply elem_of_app. right. by left.
        -- intros d. rewrite !fmap_app. cbn.
           rewrite !elem_of_app, !elem_of_cons, elem_of_nil. tauto.
Qed.

(** *** The operations *)

Lemma unsub_from_missing s t cb l n cs :
  ps_subs s !! l = Some n -> slist cb_next (ps_cbs s) (sub_callbacks (sub n)) cs -> cs <> [] ->
  cb ∉ callback_fn <$> cs.*2 -> unsub_from t (Z.of_nat (length t)) cb l s = Some (BmENOENT, s).
Proof.
  intros Hln Hcs Hne Hrm. destruct cs as [|[c0 f0] cs]; [done|].
  pose proof (slist_head _ _ _ _ _ _ Hcs) as Hc0. rewrite Hc0 in Hcs.
  pose proof (slist_size _ _ _ _ Hcs) as Hsz. unfold unsub_from.
  erewrite bind_some by reflexivity. rewrite bind_lift, Hln. cbn [mbind option_bind].
  rewrite bind_lift, Hc0. cbn [mbind option_bind]. rewrite bind_lift.
  destruct (unsub_loop_miss _ cb _ None c0 (walk_fuel (ps_cbs s)) (sl_segment _ _ _ _ Hcs) Hne Hrm)
    as (prev & c & f & -> & Hcf & Hf); [unfold walk_fuel; lia|].
  cbn [mbind option_bind]. rewrite bind_lift, Hcf. cbn [mbind option_bind].
  by destruct (Nat.eqb_spec (callback_fn f) cb).
Qed.

Lemma unsub_from_found s t cb xs1 l n xs2 zs1 cs1 c f cs2 zs2 :
  subs_at (ps_subs s) (ps_cbs s) (subscription_list s) (xs1 ++ (l, n) :: xs2)
    (zs1 ++ (sub n, cs1 ++ (c, f) :: cs2) :: zs2) ->
  sub <$> xs1.*2 = zs1.*1 -> sub <$> xs2.*2 = zs2.*1 -> other_topics t xs1 ->
  topic_len_ok (sub n) -> sub_topic (sub n) = t -> callback_fn f = cb -> cb ∉ callback_fn <$> cs1.*2 ->
  exists s' xs' zs', unsub_from t (Z.of_nat (length t)) cb l s = Some (BmOK, s') /\ same_world s s'
    /\ subs_at (ps_subs s') (ps_cbs s') (subscription_list s') xs' (zs1 ++ zs' ++ zs2)
    /\ entry_of <$> zs' = match callback_fn <$> (cs1 ++ cs2).*2 with [] => [] | ds => [(t, ds)] end.
Proof.
  intros Hs E1 E2 Ho Hlen Htn Hf Hnin. pose proof (sa_cbs _ _ _ _ _ Hs) as Hc.
  assert (Hln : ps_subs s !! l = Some n).
  { eapply slist_lookup; [apply Hs|]. rewrite elem_of_app, elem_of_cons. tauto. }
  destruct (ca_chain _ _ Hc (sub n) (cs1 ++ (c, f) :: cs2)) as [Hcs _];
    [rewrite elem_of_app, elem_of_cons; tauto|].
  destruct (sub_callbacks (sub n)) as [c0|] eqn:Ec0;
    [|apply sl_segment in Hcs; by destruct cs1 as [|[]]; destruct Hcs].
  pose proof (slist_size _ _ _ _ Hcs) as Hsz. rewrite length_app in Hsz. cbn in Hsz.
  unfold unsub_from. erewrite bind_some by reflexivity. rewrite bind_lift, Hln. cbn [mbind option_bind].
  rewrite bind_lift, Ec0. cbn [mbind option_bind]. rewrite bind_lift.
  rewrite (unsub_loop_hit _ cb cs1 c f cs2 None c0 _ (sl_segment _ _ _ _ Hcs) Hf Hnin)
    by (unfold walk_fuel; lia).
  change (option_list None ++ cs1.*1) with (cs1.*1). cbn [mbind option_bind].
  rewrite bind_lift, (slist_lookup _ _ _ _ c f Hcs) by (rewrite elem_of_app; right; by left).
  cbn [mbind option_bind]. destruct (Nat.eqb_spec (callback_fn f) cb); [|done]. cbn [negb].
  rewrite bind_lift.
  destruct (remove_callback_spec s xs1 l n xs2 zs1 cs1 c f cs2 zs2 Hs E1 E2 Hlen)
    as (s1 & b & cs' & -> & Hw & Hhd & Hbt & Hbl & Hfn & Hsl & Hempty & Hmore).
  cbn [mbind option_bind]. erewrite bind_some by reflexivity. rewrite bind_lift.
  replace (ps_subs s1 !! l) with (Some (MkSubNode b (sub_next n)))
    by (symmetry; eapply slist_lookup; [exact Hsl|rewrite elem_of_app, elem_of_cons; tauto]).
  cbn [mbind option_bind sub]. destruct (decide (cs1 ++ cs2 = [])) as [Enil|Enil].
  - destruct (Hempty Enil) as [Hb Hc']. rewrite Hb, Enil.
    destruct (delete_sub_spec (set_cbs (delete c (ps_cbs s1)) s1) t xs1 l (MkSubNode b (sub_next n)) xs2)
      as (p' & H' & xs1' & Ed & Hsl' & Hsub'); [cbn; by rewrite Hhd|done|done|cbn; congruence|done|].
    rewrite (bind_some _ _ _ _ _ Ed). eexists _, (xs1' ++ xs2), []. split; [reflexivity|].
    split; [exact Hw|]. split; [|done]. split; [exact Hsl'| |exact Hc'].
    rewrite !fmap_app. by rewrite Hsub', E1, E2.
  - destruct (Hmore Enil) as [Hb Hs']. destruct (sub_callbacks b) as [q|] eqn:Eb; [|done].
    erewrite bind_some by reflexivity. eexists _, _, [(b, cs')]. split; [reflexivity|].
    split; [exact Hw|]. split; [cbn; rewrite Hhd; exact Hs'|].
    cbn. unfold entry_of. cbn [fst snd]. rewrite Hfn, Hbt, Htn.
    by destruct (cs1 ++ cs2) as [|[]].
Qed.

Lemma bm_unsub_wl_spec s subs nm t cb :
  ps_inv s subs nm -> (0 < length t < 255)%nat ->
  exists s', bm_unsub_wl (Some t) (Z.of_nat (length t)) (Some cb) s
             = Some (fst (subs_remove t cb subs), s')
    /\ ps_inv s' (snd (subs_remove t cb subs)) nm /\ same_world s s'.
Proof.
  intros [(xs & zs & Hs & <-) Htop Hos Hres] Ht. unfold bm_unsub_wl, BM_TOPIC_MAX_LEN.
  destruct (Z.eqb_spec (Z.of_nat (length t)) 0) as [?|_]; [lia|].
  destruct (Z.leb_spec 255 (Z.of_nat (length t))) as [?|_]; [lia|].
  erewrite bind_some by reflexivity. rewrite bind_lift, get_sub_exact.
  destruct (topic_split t _ _ _ _ _ Hs) as [[Ho Hn]|(xs1 & l & n & xs2 & zs1 & cs & zs2 & -> & -> & E1 & E2 & Ho & Hn & Hlen & Htn)].
  { rewrite (get_sub_miss t _ _ xs (sa_list _ _ _ _ _ Hs) Ho), subs_remove_miss by done.
    exists s. split; [done|]. split; [|done]. split; [by exists xs, zs|done..]. }
  rewrite (get_sub_hit t _ _ xs1 l n xs2 (sa_list _ _ _ _ _ Hs) Ho Hlen Htn). cbn [mbind option_bind].
  assert (Hent : entry_of (sub n, cs) = (t, callback_fn <$> cs.*2)) by (unfold entry_of; cbn; by rewrite Htn).
  pose proof Htop as Htop'. rewrite fmap_app, fmap_cons, Hent in *. rewrite subs_remove_hit by done.
  destruct (ca_chain _ _ (sa_cbs _ _ _ _ _ Hs) (sub n) cs) as [Hcs Hne];
    [rewrite elem_of_app, elem_of_cons; tauto|].
  pose proof (remove_cb_split cb cs) as Hrm. destruct (remove_cb cb _) as [ds|] eqn:Erm.
  - destruct Hrm as (cs1 & c & f & cs2 & -> & Hf & Hnin & ->).
    destruct (unsub_from_found s t cb xs1 l n xs2 zs1 cs1 c f cs2 zs2 Hs E1 E2 Ho Hlen Htn Hf Hnin)
      as (s' & xs' & zs' & E & Hw & Hs' & Hent').
    exists s'. rewrite fmap_app, fmap_app in Hent'. pose proof Hw as (W1 & W2 & W3 & W4).
    assert (Hsubs : entry_of <$> zs1 ++ zs' ++ zs2 =
      (entry_of <$> zs1) ++ (match (callback_fn <$> cs1.*2) ++ (callback_fn <$> cs2.*2) with
         | [] => [] | ds => [(t, ds)] end) ++ (entry_of <$> zs2)) by (by rewrite !fmap_app, Hent').
    destruct (_ ++ _ : list nat) as [|d ds] eqn:Ed; cbn [fst snd]; (split; [exact E|]; split; [|exact Hw]);
      (split; [by exists xs', (zs1 ++ zs' ++ zs2)| |by rewrite W1|by rewrite W4]).
    + rewrite fmap_app in *. apply (NoDup_app _ (_ :: _)) in Htop as (T1 & T2 & T3).
      apply NoDup_cons in T3 as [_ T3]. apply NoDup_app. split_and!; [done| |done].
      intros u Hu Hu'. apply (T2 u Hu). by right.
    + rewrite fmap_app in *. exact Htop.
  - assert (Hln : ps_subs s !! l = Some n)
      by (eapply slist_lookup; [apply Hs|rewrite elem_of_app, elem_of_cons; tauto]).
    exists s. rewrite (unsub_from_missing s t cb l n cs Hln Hcs Hne Hrm).
    split; [done|]. split; [|done].
    split; [exists (xs1 ++ (l, n) :: xs2), (zs1 ++ (sub n, cs) :: zs2)|done..].
    split; [done|]. by rewrite fmap_app, fmap_cons, Hent.
Qed.

Lemma add_new_topic (subs : list (bytes * list nat)) t (cs : list nat) :
  NoDup subs.*1 -> t ∉ subs.*1 -> NoDup (subs ++ [(t, cs)]).*1.
Proof.
  intros Hn Ht. rewrite fmap_app. apply NoDup_app. split_and!; [done| |apply NoDup_singleton].
  by intros u Hu ->%list_elem_of_singleton.
Qed.

(** The first half of [bm_sub_wl]. *)
Lemma sub_lists_spec s subs nm t cb :
  ps_inv s subs nm ->
  exists s', (s ← get;
              '(_, ptr) ← lift (get_sub t (Z.of_nat (length t)) false s);
              match ptr with
              | Some l => add_callback l cb
              | None => new_subscription t (Z.of_nat (length t)) cb
              end) s = Some (BmOK, s')
    /\ ps_inv s' (subs_add t cb subs) nm /\ same_world s s'.
Proof.
  intros [(xs & zs & Hs & <-) Htop Hos Hres].
  erewrite bind_some by reflexivity. rewrite bind_lift, get_sub_exact.
  destruct (topic_split t _ _ _ _ _ Hs) as [[Ho Hn]|(xs1 & l & n & xs2 & zs1 & cs & zs2 & -> & -> & E1 & E2 & Ho & Hn & Hlen & Htn)].
  - rewrite (get_sub_miss t _ _ xs (sa_list _ _ _ _ _ Hs) Ho), subs_add_miss by done.
    cbn [mbind option_bind].
    destruct (new_subscription_spec s xs zs t cb Hs Hos) as (p' & H' & C' & xs' & b & c & f & E & Hs' & He).
    eexists. split; [exact E|]. split; [|done].
    split; [exists xs', (zs ++ [(b, [(c, f)])])|by apply add_new_topic|done|done].
    split; [done|]. by rewrite fmap_app, <- He.
  - rewrite (get_sub_hit t _ _ xs1 l n xs2 (sa_list _ _ _ _ _ Hs) Ho Hlen Htn). cbn [mbind option_bind].
    assert (Hent : forall cs, entry_of (sub n, cs) = (t, callback_fn <$> cs.*2))
      by (intros; unfold entry_of; cbn; by rewrite Htn).
    rewrite fmap_app, fmap_cons, Hent, subs_add_hit in * by done.
    destruct (add_callback_spec s xs1 l n xs2 zs1 cs zs2 cb Hs E1 E2 Hos) as (C' & cs' & E & Hs' & Hfn).
    eexists. split; [exact E|]. split; [|done].
    split; [eexists _, (zs1 ++ (sub n, cs') :: zs2); split; [exact Hs'|]|..]; try done.
    + by rewrite fmap_app, fmap_cons, Hent, Hfn.
    + rewrite fmap_app in *. exact Htop.
Qed.

(** A topic that is new to the table of subscriptions is added to it. *)
Definition names_add (t : bytes) (found : bool) (type : ResourceType) (nm : ResourceType -> list bytes)
    : ResourceType -> list bytes := if found then nm else upd type (nm type ++ [t]) nm.

Lemma add_resource_part s subs nm t type :
  ps_inv s subs nm ->
  match topic_find t (nm type) with
  | None => on_part (St := pubsub) (bcmp_resource_discovery_add_resource t (Z.of_nat (length t)) type) s = None
  | Some found => exists s',
      on_part (St := pubsub) (bcmp_resource_discovery_add_resource t (Z.of_nat (length t)) type) s
      = Some (if found : bool then BmEAGAIN else BmOK, s')
      /\ ps_inv s' subs (names_add t found type nm) /\ ps_calls s' = ps_calls s /\ ps_mw s' = ps_mw s
  end.
Proof.
  intros [Hs Htop Hos (ys & Hr)]. pose proof (add_resource_spec type t (ps_res s) nm ys Hr) as Ha.
  destruct (topic_find t (nm type)) as [[]|].
  - exists s. split; [by apply (on_part_pure (T := resources))|]. split; [|done]. by split; eauto.
  - destruct Ha as (r' & ys' & E & Hr'). eexists. split; [by apply (on_part_some (T := resources))|].
    split; [|done]. by split; eauto.
  - unfold on_part, zoom. change (part s) with (ps_res s). by rewrite Ha.
Qed.

Lemma bm_sub_wl_spec s subs nm t cb :
  ps_inv s subs nm -> (0 < length t < 255)%nat ->
  match topic_find t (nm SUB) with
  | None => bm_sub_wl (Some t) (Z.of_nat (length t)) (Some cb) s = None
  | Some found => exists s', bm_sub_wl (Some t) (Z.of_nat (length t)) (Some cb) s = Some (BmOK, s')
      /\ ps_inv s' (subs_add t cb subs) (names_add t found SUB nm)
      /\ ps_calls s' = ps_calls s /\ ps_mw s' = ps_mw s
  end.
Proof.
  intros Hs Ht. unfold bm_sub_wl, BM_TOPIC_MAX_LEN.
  destruct (Z.eqb_spec (Z.of_nat (length t)) 0) as [?|_]; [lia|].
  destruct (Z.leb_spec 255 (Z.of_nat (length t))) as [?|_]; [lia|].
  destruct (sub_lists_spec s subs nm t cb Hs) as (s1 & E1 & Hs1 & (W1 & W2 & W3 & W4)).
  pose proof (add_resource_part s1 _ nm t SUB Hs1) as Ha.
  erewrite bind_some in E1 by reflexivity. rewrite bind_lift in E1.
  erewrite bind_some by reflexivity. rewrite bind_lift.
  destruct (get_sub t (Z.of_nat (length t)) false s) as [[prev ptr]|]; [|done]. cbn [mbind option_bind] in *.
  rewrite (bind_some _ _ _ _ _ E1). cbn [is_ok].
  destruct (topic_find t (nm SUB)) as [found|].
  - destruct Ha as (s' & E & Hs' & Hc & Hm). exists s'. rewrite (bind_some _ _ _ _ _ E).
    split; [by destruct found|]. split; [done|]. split; congruence.
  - by apply bind_none.
Qed.

(** ** Messages *)

(** A [BmPubSubData]. *)
Definition pub_message (t d : bytes) (type version : Z) : bytes :=
  [0; 0; Z.of_nat (length t); type; version] ++ t ++ d.

Definition matches (t pattern : bytes) : bool := bool_decide (bm_wildcard_match t pattern = Some true).

(** The calls that a message makes: every callback of every topic that it matches,
    in order. *)
Definition deliver (t d : bytes) (type version node_id : Z) (subs : list (bytes * list nat))
    : list sub_call :=
  concat ((fun e => if matches t (fst e)
    then (fun c => MkSubCall c node_id t (Z.of_nat (length t)) (Some d) (Z.of_nat (length d)) type version)
           <$> snd e
    else []) <$> subs).

Lemma add_calls_add l1 l2 s : add_calls l2 (add_calls l1 s) = add_calls (l1 ++ l2) s.
Proof. unfold add_calls. cbn. by rewrite app_assoc. Qed.
Lemma add_calls_nil s : add_calls [] s = s.
Proof. unfold add_calls. rewrite app_nil_r. by destruct s. Qed.

Lemma for_each_calls {A} (l : list A) (f : A -> M pubsub unit) (g : A -> list sub_call) s :
  (forall a s, a ∈ l -> f a s = Some (tt, add_calls (g a) s)) ->
  for_each l f s = Some (tt, add_calls (concat (g <$> l)) s).
Proof.
  revert s. induction l as [|a l IH]; intros s Hf; cbn; [by rewrite add_calls_nil|].
  erewrite bind_some by (apply Hf; by left). rewrite IH by (intros; apply Hf; by right).
  by rewrite add_calls_add.
Qed.

(** The calls for one node of the chain of subscriptions. *)
Definition node_calls (C : gmap loc BmPubSubNode) (t d : bytes) (type version node_id : Z)
    (x : loc * BmSubNode) : list sub_call :=
  if matches t (sub_topic (sub (snd x))) then
    match nodes cb_next C (sub_callbacks (sub (snd x))) with
    | Some cs => (fun c => MkSubCall (callback_fn (snd c)) node_id t (Z.of_nat (length t)) (Some d)
                             (Z.of_nat (length d)) type version) <$> cs
    | None => []
    end
  else [].

Lemma deliver_nodes C t d type version node_id xs zs :
  sub <$> xs.*2 = zs.*1 -> (forall b cs, (b, cs) ∈ zs -> slist cb_next C (sub_callbacks b) cs) ->
  concat (node_calls C t d type version node_id <$> xs)
  = deliver t d type version node_id (entry_of <$> zs).
Proof.
  revert zs. induction xs as [|[l n] xs IH]; intros [|[b cs] zs] H Hc; try done.
  injection H as Hb H. cbn in Hb. subst b. unfold deliver in *. cbn. rewrite (IH zs H).
  2: { intros b ds Hb. apply Hc. by right. }
  f_equal. unfold node_calls, entry_of. cbn [fst snd]. destruct (matches _ _); [|done].
  rewrite (nodes_spec _ _ _ _ (Hc (sub n) cs ltac:(by left))). by rewrite <- !list_fmap_compose.
Qed.

Section message.
Context (t d : bytes) (type version node_id : Z) (t_ok : (length t < 255)%nat) (t_star : ch_star ∉ t)
  (d_ok : Z.of_nat (length d) < 65536 - 260).

Lemma message_reads :
  let p := pub_message t d type version in
  rd 2 p = Some (Z.of_nat (length t)) /\ rd 3 p = Some type /\ rd 4 p = Some version
  /\ read_at 5 (Z.to_nat (Z.of_nat (length t))) p = Some t
  /\ read_at (5 + Z.to_nat (Z.of_nat (length t))) (Z.to_nat (Z.of_nat (length d))) p = Some d.
Proof.
  unfold pub_message. rewrite !Nat2Z.id. split_and!; try done.
  - by apply (read_at_app [0; 0; Z.of_nat (length t); type; version]).
  - rewrite app_assoc. rewrite <- (app_nil_r d) at 2. apply read_at_app; [|done]. by rewrite length_app.
Qed.

Lemma node_message_spec s C x s' :
  ps_cbs s = C -> is_Some (nodes cb_next C (sub_callbacks (sub (snd x)))) ->
  (topic ← lift (read_at 5 (Z.to_nat (Z.of_nat (length t))) (pub_message t d type version));
   matches ← lift (bm_wildcard_match topic (sub_topic (sub (snd x))));
   if matches : bool then
     cbs ← lift (nodes cb_next (ps_cbs s) (sub_callbacks (sub (snd x))));
     for_each cbs (fun c =>
       ty ← lift (rd 3 (pub_message t d type version));
       ver ← lift (rd 4 (pub_message t d type version));
       modify (add_calls [MkSubCall (callback_fn (snd c)) node_id topic (Z.of_nat (length t))
         (read_at (5 + Z.to_nat (Z.of_nat (length t))) (Z.to_nat (Z.of_nat (length d)))
            (pub_message t d type version)) (Z.of_nat (length d)) ty ver]))
   else mret tt) s'
  = Some (tt, add_calls (node_calls C t d type version node_id x) s').
Proof.
  intros <- [cs Hcs]. destruct message_reads as (_ & R3 & R4 & R5 & R6).
  set (p := pub_message t d type version) in *.
  rewrite bind_lift, R5. cbn [mbind option_bind]. rewrite bind_lift.
  destruct (bm_wildcard_match_means t (sub_topic (sub (snd x))) t_star) as (b & Eb & _).
  unfold node_calls, matches. rewrite Eb. cbn [mbind option_bind].
  destruct b; [|by rewrite bool_decide_eq_false_2, add_calls_nil].
  rewrite bool_decide_eq_true_2, bind_lift, Hcs by done. cbn [mbind option_bind].
  erewrite (for_each_calls _ _ (fun c => [MkSubCall (callback_fn (snd c)) node_id t (Z.of_nat (length t))
    (Some d) (Z.of_nat (length d)) type version])).
  - do 3 f_equal. clear. induction cs as [|c cs IH]; cbn; [done|]. by rewrite IH.
  - intros c s1 _. rewrite bind_lift, R3. cbn [mbind option_bind]. rewrite bind_lift, R4.
    cbn [mbind option_bind]. by rewrite R6.
Qed.

Lemma bm_handle_msg_spec s subs nm l b :
  ps_inv s subs nm -> bufs (l2_bufs (mw_net (ps_mw s))) !! l = Some b ->
  payload b = pub_message t d type version ->
  bm_handle_msg node_id (Some l) (5 + Z.of_nat (length t) + Z.of_nat (length d)) s
  = Some (tt, add_calls (deliver t d type version node_id subs) s).
Proof.
  intros [(xs & zs & Hs & <-) _ _ _] Hl Hp. unfold bm_handle_msg.
  destruct message_reads as (R2 & _). unfold sizeof_BmPubSubData.
  erewrite bind_some.
  2: { apply on_part_pure. unfold udp_bufs, with_mw_net, with_bufs, zoom. change (part s) with (ps_mw s).
       unfold bm_udp_get_payload. rewrite (bm_l2_get_payload_some _ _ _ Hl).
       destruct (ps_mw s) as [? ? ? [] ?]. done. }
  rewrite Hp, bind_lift, R2. cbn [mbind option_bind].
  replace (u16 _) with (Z.of_nat (length d)) by (rewrite u16_small; lia).
  erewrite bind_some by reflexivity.
  rewrite bind_lift, (nodes_spec _ _ _ _ (sa_list _ _ _ _ _ Hs)). cbn [mbind option_bind].
  rewrite <- (deliver_nodes (ps_cbs s) t d type version node_id xs zs (sa_subs _ _ _ _ _ Hs)).
  2: { intros b' cs Hb. by apply (ca_chain _ _ (sa_cbs _ _ _ _ _ Hs)). }
  apply for_each_calls. intros [l' n] s' Hx. apply node_message_spec; [done|].
  assert (Hz : sub n ∈ zs.*1).
  { rewrite <- (sa_subs _ _ _ _ _ Hs). apply list_elem_of_fmap. exists n. split; [done|].
    apply list_elem_of_fmap. by exists (l', n). }
  apply list_elem_of_fmap in Hz as ([b' cs] & Eb & Hz). cbn in Eb. cbn. rewrite Eb.
  eexists. apply nodes_spec, (ca_chain _ _ (sa_cbs _ _ _ _ _ Hs) _ _ Hz).
Qed.
End message.

(** ** Runs *)

Inductive ps_op : Type :=
  | OpSub (t : bytes) (cb : nat)
  | OpUnsub (t : bytes) (cb : nat)
  | OpMessage (buf : loc) (node_id : Z) (t d : bytes) (type version : Z).

Definition ps_run_op (o : ps_op) : M pubsub BmErr :=
  match o with
  | OpSub t cb => bm_sub_wl (Some t) (Z.of_nat (length t)) (Some cb)
  | OpUnsub t cb => bm_unsub_wl (Some t) (Z.of_nat (length t)) (Some cb)
  | OpMessage l node_id t d _ _ =>
      _ ← bm_handle_msg node_id (Some l) (5 + Z.of_nat (length t) + Z.of_nat (length d)); mret BmOK
  end.

Fixpoint ps_run (ops : list ps_op) : M pubsub (list BmErr) :=
  match ops with
  | [] => mret []
  | o :: ops => e ← ps_run_op o; es ← ps_run ops; mret (e :: es)
  end.

(** What a run should do, on topics with callbacks and on the table of topics that
    the node has ever subscribed to: a callback is in the list of a topic or not. *)
Fixpoint topics_add (t : bytes) (c : nat) (subs : list (bytes * list nat)) : list (bytes * list nat) :=
  match subs with
  | [] => [(t, [c])]
  | (u, cs) :: subs =>
      if decide (u = t) then (u, if decide (c ∈ cs) then cs else cs ++ [c]) :: subs
      else (u, cs) :: topics_add t c subs
  end.

Fixpoint topics_cancel (t : bytes) (c : nat) (subs : list (bytes * list nat))
    : BmErr * list (bytes * list nat) :=
  match subs with
  | [] => (BmEINVAL, [])
  | (u, cs) :: subs =>
      if decide (u = t) then
        if decide (c ∈ cs) then
          (BmOK, match filter (fun d => d <> c) cs with [] => subs | ds => (u, ds) :: subs end)
        else (BmENOENT, (u, cs) :: subs)
      else let '(e, subs) := topics_cancel t c subs in (e, (u, cs) :: subs)
  end.

Record ps_spec : Type := MkPsSpec {
  spec_subs : list (bytes * list nat);
  spec_names : ResourceType -> list bytes;
  spec_calls : list sub_call
}.

Definition spec_op (o : ps_op) (a : ps_spec) : BmErr * ps_spec :=
  match o with
  | OpSub t cb =>
      (BmOK, MkPsSpec (topics_add t cb (spec_subs a))
               (names_add t (bool_decide (t ∈ spec_names a SUB)) SUB (spec_names a)) (spec_calls a))
  | OpUnsub t cb =>
      let '(e, subs) := topics_cancel t cb (spec_subs a) in
      (e, MkPsSpec subs (spec_names a) (spec_calls a))
  | OpMessage _ node_id t d type version =>
      (BmOK, MkPsSpec (spec_subs a) (spec_names a)
               (spec_calls a ++ deliver t d type version node_id (spec_subs a)))
  end.

Fixpoint spec_run (ops : list ps_op) (a : ps_spec) : list BmErr * ps_spec :=
  match ops with
  | [] => ([], a)
  | o :: ops =>
      let '(e, a) := spec_op o a in
      let '(es, a) := spec_run ops a in
      (e :: es, a)
  end.

(** The runs that the code is right about: a callback that a topic has already is
    subscribed to it again only when it is the topic's first one, and no topic is a
    proper beginning of one that the node has subscribed to. *)
Definition op_fits (o : ps_op) (a : ps_spec) : Prop :=
  match o with
  | OpSub t cb =>
      Forall (fun e => fst e = t -> cb ∈ snd e -> snd e !! 0%nat = Some cb) (spec_subs a)
      /\ apart_from t (spec_names a SUB)
  | _ => True
  end.

Fixpoint run_fits (ops : list ps_op) (a : ps_spec) : Prop :=
  match ops with
  | [] => True
  | o :: ops => op_fits o a /\ run_fits ops (snd (spec_op o a))
  end.

#[export] Instance op_fits_dec o a : Decision (op_fits o a).
Proof. destruct o; cbn; apply _. Defined.
#[export] Instance run_fits_dec ops a : Decision (run_fits ops a).
Proof. revert a. induction ops; intros; cbn; apply _. Defined.

(** Every callback is in its topic's list once. *)
Definition once (subs : list (bytes * list nat)) : Prop := Forall (fun e => NoDup (snd e)) subs.

Lemma subs_add_once t c subs :
  Forall (fun e => fst e = t -> c ∈ snd e -> snd e !! 0%nat = Some c) subs ->
  subs_add t c subs = topics_add t c subs.
Proof.
  induction 1 as [|[u cs] subs H _ IH]; cbn; [done|]. cbn in H. case_decide as Hu; [|by rewrite IH].
  do 2 f_equal. unfold add_cb. destruct cs as [|d cs]; [by rewrite decide_False by apply not_elem_of_nil|].
  destruct (Nat.eqb_spec d c) as [->|Hd]; [by rewrite decide_True by left|].
  case_decide as Hc; [|done]. specialize (H Hu Hc). cbn in H. congruence.
Qed.

Lemma topics_add_once t c subs : once subs -> once (topics_add t c subs).
Proof.
  induction 1 as [|[u cs] subs H Hs IH]; cbn.
  { apply Forall_singleton, NoDup_singleton. }
  case_decide; [|by constructor]. constructor; [|done]. cbn in *. case_decide; [done|].
  apply NoDup_app. split_and!; [done| |apply NoDup_singleton]. by intros x Hx ->%list_elem_of_singleton.
Qed.

Lemma filter_other (c : nat) (cs : list nat) : c ∉ cs -> filter (fun d => d <> c) cs = cs.
Proof.
  induction cs as [|d cs IH]; [done|]. rewrite not_elem_of_cons. intros [Hd Hc].
  rewrite filter_cons_True by congruence. by rewrite IH.
Qed.

Lemma remove_cb_once (c : nat) (cs : list nat) :
  NoDup cs -> remove_cb c cs = if decide (c ∈ cs) then Some (filter (fun d => d <> c) cs) else None.
Proof.
  induction 1 as [|d cs Hd Hn IH]; cbn [remove_cb]; [by rewrite decide_False by apply not_elem_of_nil|].
  destruct (Nat.eqb_spec d c) as [->|Hne].
  - rewrite decide_True by left. by rewrite filter_cons_False, filter_other by tauto.
  - rewrite IH, filter_cons_True by done.
    destruct (decide (c ∈ cs)) as [Hc|Hc]; [by rewrite decide_True by (by right)|].
    rewrite decide_False; [done|]. rewrite elem_of_cons. naive_solver.
Qed.

Lemma subs_remove_once t c subs : once subs -> subs_remove t c subs = topics_cancel t c subs.
Proof.
  induction 1 as [|[u cs] subs H _ IH]; cbn; [done|]. case_decide; [|by rewrite IH].
  rewrite remove_cb_once by done. case_decide; [|done]. by destruct (filter _ cs).
Qed.

Lemma topics_cancel_once t c subs : once subs -> once (snd (topics_cancel t c subs)).
Proof.
  induction 1 as [|[u cs] subs H Hs IH]; cbn; [constructor|]. case_decide as Hu.
  - case_decide; [|by constructor]. cbn. destruct (filter _ cs) eqn:E; [done|].
    constructor; [|done]. cbn. rewrite <- E. by apply NoDup_filter.
  - destruct (topics_cancel t c subs). by constructor.
Qed.

(** Topics that the length checks let pass; the messages are in buffers of these. *)
Definition op_ok (bs : gmap loc LinuxBuf) (o : ps_op) : Prop :=
  match o with
  | OpSub t _ | OpUnsub t _ => (0 < length t < 255)%nat
  | OpMessage l _ t d type version =>
      (length t < 255)%nat /\ ch_star ∉ t /\ Z.of_nat (length d) < 65536 - 260
      /\ exists b, bs !! l = Some b /\ payload b = pub_message t d type version
  end.

Definition represents (s : pubsub) (a : ps_spec) : Prop :=
  ps_inv s (spec_subs a) (spec_names a) /\ ps_calls s = spec_calls a /\ once (spec_subs a).

Lemma spec_op_refined o s a :
  represents s a -> op_ok (bufs (l2_bufs (mw_net (ps_mw s)))) o -> op_fits o a ->
  exists s', ps_run_op o s = Some (fst (spec_op o a), s') /\ represents s' (snd (spec_op o a))
    /\ ps_mw s' = ps_mw s.
Proof.
  intros (Hs & Hc & Hon) Ho Hf. destruct o as [t cb|t cb|l id t d ty ve];
    cbn [spec_op op_ok ps_run_op fst snd] in *.
  - destruct Hf as [Hf Ha]. pose proof (bm_sub_wl_spec s _ _ t cb Hs Ho) as H.
    rewrite (topic_find_apart t _ Ha) in H. rewrite (subs_add_once _ _ _ Hf) in H.
    destruct H as (s' & E & Hs' & Hc' & Hm). exists s'. split; [done|]. split; [|done].
    split; [done|]. cbn. split; [congruence|by apply topics_add_once].
  - destruct (bm_unsub_wl_spec s _ _ t cb Hs Ho) as (s' & E & Hs' & _ & Hc' & Hm & _).
    rewrite (subs_remove_once _ _ _ Hon) in E, Hs'. pose proof (topics_cancel_once t cb _ Hon) as Hon'.
    destruct (topics_cancel t cb (spec_subs a)) as [e subs]. exists s'. split; [done|]. split; [|done].
    split; [done|]. cbn. split; [congruence|done].
  - destruct Ho as (Ht & Hstar & Hd & b & Hl & Hp).
    rewrite (bind_some _ _ _ _ _ (bm_handle_msg_spec t d ty ve id Ht Hstar Hd s _ _ l b Hs Hl Hp)).
    eexists. split; [done|]. split; [|done]. split; [|cbn; by rewrite Hc].
    destruct Hs as [? ? ? ?]. by split.
Qed.

Lemma spec_run_refined ops s a :
  represents s a -> Forall (op_ok (bufs (l2_bufs (mw_net (ps_mw s))))) ops -> run_fits ops a ->
  exists s', ps_run ops s = Some (fst (spec_run ops a), s') /\ represents s' (snd (spec_run ops a)).
Proof.
  revert s a. induction ops as [|o ops IH]; intros s a Hs Ho Hf; cbn; [by exists s|].
  apply Forall_cons in Ho as [Ho Hos]. destruct Hf as [Hf Hfs].
  destruct (spec_op_refined o s a Hs Ho Hf) as (s1 & E1 & Hs1 & Hm). rewrite <- Hm in Hos.
  destruct (IH s1 _ Hs1 Hos Hfs) as (s2 & E2 & Hs2).
  rewrite (bind_some _ _ _ _ _ E1), (bind_some _ _ _ _ _ E2).
  destruct (spec_op o a) as [e a1]. cbn [fst snd] in *. destruct (spec_run ops a1) as [es a2]. by exists s2.
Qed.

(** A node that has just started. *)
Record fresh_pubsub (s : pubsub) : Prop := {
  fp_list : subscription_list s = None;
  fp_calls : ps_calls s = [];
  fp_os : willing (ps_os s);
  fp_res : exists r, willing (rs_os r) /\ ps_res s = init_lists true true r
}.

Definition ps_spec_start : ps_spec := MkPsSpec [] (fun _ => []) [].

Lemma fresh_represents s : fresh_pubsub s -> represents s ps_spec_start.
Proof.
  intros [Hl Hc Ho (r & Hr & E)]. split; [|split; [done|constructor]]. split.
  - exists [], []. split; [|done]. split; [|done|apply cbs_at_nil]. rewrite Hl. by split; [|apply NoDup_nil_2].
  - apply NoDup_nil_2.
  - done.
  - rewrite E. exists (fun _ => []). by apply init_lists_inv.
Qed.

(** C9: publish and subscribe, on one node.  From the start, and while there is
    memory, a sequence of subscriptions, cancellations and arriving messages
    succeeds, and does on the chains of nodes in memory what it should do on a list
    of distinct topics, each with distinct callbacks in the order in which they
    came: the same error codes; a subscription adds the callback to the topic, if it
    is not there, and the topic to the table of resources; a cancellation takes the
    callback away, and with the last one the topic; a message calls every callback
    of every topic whose pattern it matches, in order, with its own topic, data,
    type and version and the sender's node id; and nothing else is called.  Two
    kinds of runs are left out, where the code goes wrong: a callback that a topic
    has already, but not as its first one, is subscribed to it again
    ([callback_added_twice]), and a topic is a proper beginning of another one that
    the node has subscribed to ([Resources.prefix_topic_not_added],
    [Resources.longer_topic_read_behind]). *)
Theorem pubsub_refines s ops :
  fresh_pubsub s -> Forall (op_ok (bufs (l2_bufs (mw_net (ps_mw s))))) ops ->
  run_fits ops ps_spec_start ->
  let '(es, a) := spec_run ops ps_spec_start in
  NoDup (spec_subs a).*1 /\ Forall (fun e => NoDup (snd e)) (spec_subs a)
  /\ exists s', ps_run ops s = Some (es, s') /\ ps_calls s' = spec_calls a
       /\ ps_inv s' (spec_subs a) (spec_names a).
Proof.
  intros Hs Ho Hf.
  destruct (spec_run_refined ops s _ (fresh_represents s Hs) Ho Hf) as (s' & E & Hi & Hc & Hon).
  destruct (spec_run ops ps_spec_start) as [es a]. cbn [fst snd] in *. split; [by apply Hi|].
  split; [done|]. by exists s'.
Qed.

(** ** Concrete runs *)

(** A node that has just started, with one buffer, and these answers to the first
    requests for memory. *)
Definition sample_pubsub (allocs : list bool) (payload : bytes) : pubsub :=
  MkPubSub None ∅ ∅ (MkOs allocs [] 0) []
    (MkMiddleware LL_empty ∅ (Some []) (sample_stack 0 payload) willing_os)
    (init_lists true true resources_zero).

Definition topic_ab : bytes := [97; 47; 98].
Definition topic_cd : bytes := [99; 47; 100].

(** Two topics, a pattern, a message, a cancellation and the message again. *)
Definition sample_ps_run : list ps_op :=
  [OpSub topic_ab 1; OpSub topic_cd 2; OpSub topic_ab 3; OpMessage 1 7 topic_ab [5; 6] 1 2;
   OpSub topic_ab 1; OpUnsub topic_ab 1; OpMessage 1 8 topic_ab [5; 6] 1 2; OpUnsub topic_cd 1; OpUnsub topic_cd 2;
   OpUnsub topic_cd 2].

Lemma pubsub_refines_witness :
  fresh_pubsub (sample_pubsub [] (pub_message topic_ab [5; 6] 1 2))
  /\ exists s', ps_run sample_ps_run (sample_pubsub [] (pub_message topic_ab [5; 6] 1 2))
    = Some ([BmOK; BmOK; BmOK; BmOK; BmOK; BmOK; BmOK; BmENOENT; BmOK; BmEINVAL], s')
  /\ (fun c => (sc_cb c, sc_node_id c)) <$> ps_calls s' = [(1%nat, 7); (3%nat, 7); (3%nat, 8)].
Proof.
  assert (Hf : fresh_pubsub (sample_pubsub [] (pub_message topic_ab [5; 6] 1 2)))
    by (split; try done; by exists resources_zero).
  split; [exact Hf|]. pose proof (pubsub_refines _ sample_ps_run Hf) as H.
  destruct (spec_run sample_ps_run ps_spec_start) as [es a] eqn:E.
  destruct H as (_ & _ & s' & Er & Ec & _).
  - assert (Hm : forall id, op_ok (bufs (l2_bufs (mw_net (ps_mw (sample_pubsub []
        (pub_message topic_ab [5; 6] 1 2)))))) (OpMessage 1 id topic_ab [5; 6] 1 2)).
    { intros id. split; [cbn; lia|]. split; [by apply (bool_decide_unpack _)|]. split; [cbn; lia|].
      eexists. split; [apply lookup_insert_eq|reflexivity]. }
    repeat apply Forall_cons_2; first [apply Hm|apply Forall_nil_2|split; cbn; lia].
  - apply (bool_decide_unpack _). vm_compute. exact I.
  - exists s'. vm_compute in E. injection E as <- <-. split; [exact Er|]. rewrite Ec. reflexivity.
Defined.

(** A callback that is not the topic's first one can be added twice, and is then
    called twice. *)
Example callback_added_twice :
  (fun r => (fst r, sc_cb <$> ps_calls (snd r)))
  <$> ps_run [OpSub topic_ab 1; OpSub topic_ab 2; OpSub topic_ab 2; OpMessage 1 7 topic_ab [] 1 2]
        (sample_pubsub [] (pub_message topic_ab [] 1 2))
  = Some ([BmOK; BmOK; BmOK; BmOK], [1%nat; 2%nat; 2%nat]).
Proof. vm_compute. reflexivity. Qed.

(** Without memory for a topic, the list goes on to a node that is freed: the next
    subscription follows that pointer. *)
Example topic_without_memory :
  (fst <$> ps_run [OpSub topic_ab 1] (sample_pubsub [true; false] []),
   ps_run [OpSub topic_ab 1; OpSub topic_ab 1] (sample_pubsub [true; false] []))
  = (Some [BmENOMEM], None).
Proof. vm_compute. reflexivity. Qed.

(** Without memory for a callback, the topic is left in the list without one: the
    next subscription to it, or cancellation of it, goes through a null pointer. *)
Example callback_without_memory :
  (fst <$> ps_run [OpSub topic_ab 1] (sample_pubsub [true; true; false] []),
   ps_run [OpSub topic_ab 1; OpSub topic_ab 1] (sample_pubsub [true; true; false] []),
   ps_run [OpSub topic_ab 1; OpUnsub topic_ab 1] (sample_pubsub [true; true; false] []))
  = (Some [BmENOMEM], None, None).
Proof. vm_compute. reflexivity. Qed.

(** Two topics of 150 bytes overflow the string of [bm_get_subs]; two short ones
    are printed. *)
Example get_subs_overflows :
  (let big c := replicate 150 c in
   (_ ← ps_run [OpSub (big 97) 1; OpSub (big 98) 1]; bm_get_subs) (sample_pubsub [] []) = None)
  /\ (fun r : option bytes * pubsub => take 12 <$> fst r)
     <$> (_ ← ps_run [OpSub topic_ab 1; OpSub topic_cd 1]; bm_get_subs) (sample_pubsub [] [])
     = Some (Some (topic_ab ++ [32; 124; 32] ++ topic_cd ++ [0; 0; 0])).
Proof. vm_compute. done. Qed.

(** A message that ends before its topic does: the topic is read behind it. *)
Example topic_behind_message :
  (_ ← ps_run [OpSub topic_ab 1]; bm_handle_msg 7 (Some 1%positive) 5)
    (sample_pubsub [] [0; 0; 200; 1; 1]) = None.
Proof. vm_compute. reflexivity. Qed.

(** When there are not even five bytes, the length of the data wraps: the callback is
    told of 65534 bytes. *)
Example short_message_data_length :
  (fun r => (fun c => (sc_data c, sc_data_len c)) <$> ps_calls (snd r))
  <$> (_ ← ps_run [OpSub topic_ab 1]; bm_handle_msg 7 (Some 1%positive) 6)
        (sample_pubsub [] (pub_message topic_ab [] 1 1))
  = Some [(None, 65534)].
Proof. vm_compute. reflexivity. Qed.

(** The size of a message is computed in sixteen bits: the copy of the topic goes
    behind the buffer. *)
Example message_size_wraps :
  (let P := platform_linux in let O := sample_os in
   bm_pub_wl 7 (Some topic_ab) 3 (Some (replicate 65530 0)) 65530 1 1)
    (sample_pubsub [] []) = None.
Proof. vm_compute. reflexivity. Qed.

(** A message without data, whose length is not 0, is published; but when the node
    itself listens, the null pointer is read. *)
Example null_data_with_length :
  (let P := platform_linux in let O := sample_os in
   (fst <$> bm_pub_wl 7 (Some topic_ab) 3 None 2 1 1 (sample_pubsub [] []),
    (_ ← ps_run [OpSub topic_ab 1]; bm_pub_wl 7 (Some topic_ab) 3 None 2 1 1) (sample_pubsub [] [])))
  = (Some BmENODEV, None).
Proof. vm_compute. reflexivity. Qed.
