(* ===== verification/Publish.v ===== *)
(** * A message from its publisher to its subscribers

    [bm_pub_wl] of src/middleware/pubsub.c over the middleware, the stack and the
    frames of the layer 2; on the nodes that listen, [bm_l2_submit], the middleware's
    queue and task, and the callbacks. *)
From S2P Require Import Prelude Util Wildcard LinkedList SList Os LinuxBuf L2Policy L2 BmLinux Bcmp Parts Resources.
From S2P Require Import Middleware PubSub Subscriptions.

(** ** The network inside of a node *)

Definition ps_net (s : pubsub) : l2_state linux_ctx := mw_net (ps_mw s).
Definition ps_heap (s : pubsub) : buf_heap := l2_bufs (ps_net s).
Definition set_ps_net (n : l2_state linux_ctx) (s : pubsub) : pubsub :=
  set_part (set_mw_net n (ps_mw s)) s.
Definition set_ps_heap (h : buf_heap) (s : pubsub) : pubsub := set_ps_net (set_l2_bufs h (ps_net s)) s.

Lemma ps_net_some {A} (m : M (l2_state linux_ctx) A) s a n :
  m (ps_net s) = Some (a, n) -> on_part (with_mw_net m) s = Some (a, set_ps_net n s).
Proof.
  intros E. apply (on_part_some (T := middleware)). change (part s) with (ps_mw s). unfold with_mw_net, zoom.
  change (mw_net (ps_mw s)) with (ps_net s). by rewrite E.
Qed.

Lemma ps_heap_some {A} (m : M buf_heap A) s a h :
  m (ps_heap s) = Some (a, h) -> on_part (udp_bufs m) s = Some (a, set_ps_heap h s).
Proof. intros E. apply ps_net_some. by apply with_bufs_some. Qed.

(** ** Building a message *)

Lemma store_fields (t d : bytes) hd p :
  length hd = 5%nat -> length p = (5 + length t + length d)%nat ->
  store_all [(0%nat, hd); (5%nat, t); ((5 + length t)%nat, d)] p = Some (hd ++ t ++ d).
Proof.
  intros Hh Hp. pose proof (store_chunks [hd; t; d] [] p) as H. cbn [concat length app at_offsets] in H.
  rewrite app_nil_r, Hh in H. cbn [Nat.add] in H.
  change (5 + length t)%nat with (S (S (S (S (S (length t)))))). rewrite H; [|rewrite !length_app, Hh; lia].
  rewrite drop_ge, app_nil_r by (rewrite !length_app, Hh; lia). done.
Qed.

Lemma read_at_whole (t : bytes) : read_at 0 (length t) t = Some t.
Proof. unfold read_at. rewrite Nat.leb_refl. unfold slice. by rewrite drop_0, firstn_all. Qed.

Section message.
Context (t d : bytes) (type version : Z) (t_ok : (0 < length t < 255)%nat).

Definition message_len : Z := 5 + Z.of_nat (length t) + Z.of_nat (length d).

Lemma length_pub_message : Z.of_nat (length (pub_message t d type version)) = message_len.
Proof. unfold pub_message, message_len. rewrite !length_app. cbn [length]. lia. Qed.

Definition message_of : LinuxBuf := MkLinuxBuf 1 message_len message_len (pub_message t d type version).

Lemma message_buf_spec required s :
  LinuxBuf.alloc_ok (ps_heap s) = [] ->
  let h := ps_heap s in
  let l := fresh (dom (bufs h)) in
  message_buf required t (Z.of_nat (length t)) (Some d) (Z.of_nat (length d)) type version message_len s
  = Some (Some l, set_ps_heap (set_bufs (<[l := message_of]> (bufs h)) h) s).
Proof.
  intros Ha h l. unfold message_buf.
  rewrite (bind_some _ _ _ _ _ (ps_heap_some _ _ _ _ (bm_l2_new_some _ message_len Ha))). fold l h.
  rewrite !Nat2Z.id, !read_at_whole. rewrite !bind_lift. cbn [mbind option_bind]. rewrite bind_lift.
  cbn [mbind option_bind].
  erewrite bind_some.
  2: { apply ps_heap_some. eapply payload_store_some; [cbn; by rewrite lookup_insert_eq|].
       apply store_fields; [done|]. cbn [payload]. rewrite length_fmap, length_seq. unfold message_len. lia. }
  cbn. by rewrite insert_insert_eq.
Qed.
End message.

(** ** A node that takes part *)

(** [bm_handle_msg] is the application of its port. *)
Definition bound_app (s : pubsub) : Prop :=
  exists es, ll_inv (mw_heap (ps_mw s)) (applications (ps_mw s)) es
    /\ find_id resource_port es
       = Some (Some (MkApplication resource_port resource_port app_handle_msg None multicast_global_addr)).

(** Its subscriptions, its table of resources, and what [bm_pubsub_init] and the
    stack have set up; [id] is its node id. *)
Record pub_node `{Platform} (s : pubsub) (id prefix : Z) (subs : list (bytes * list nat))
    (nm : ResourceType -> list bytes) : Prop := {
  pn_inv : ps_inv s subs nm;
  pn_app : bound_app s;
  pn_udp : exists es, ll_inv (udp_heap (l2_upper (ps_net s))) (udp_list (l2_upper (ps_net s))) es
    /\ find_id resource_port es = Some (Some udp_middleware_rx);
  pn_ll : ll_addr (l2_upper (ps_net s)) = nodeid_to_ip prefix id;
  pn_prefix : 0 <= prefix < 2 ^ 32;
  pn_id : 0 <= id < 2 ^ 64;
  pn_unicast : ip_to_nodeid (Some (unicast_addr (l2_upper (ps_net s)))) = id;
  pn_alloc : LinuxBuf.alloc_ok (ps_heap s) = []
}.

(** ** A node that a frame arrives at *)

(** [bm_l2_submit], and the functions of the UDP ports that it calls. *)
Definition node_receives `{Platform} (buf : option loc) (size : Z) : M pubsub BmErr :=
  before ← gets (fun s => udp_calls (l2_upper (ps_net s)));
  err ← on_part (with_mw_net (submit bm_l2_submit buf size));
  after ← gets (fun s => udp_calls (l2_upper (ps_net s)));
  _ ← for_each (drop (length before) after) (fun u => on_part (udp_callback u));
  mret err.

(** ** Joining *)

Lemma ps_inv_mw s subs nm m : ps_inv s subs nm -> ps_inv (set_part (m : middleware) s) subs nm.
Proof. intros [? ? ? ?]. by split. Qed.

Lemma bm_udp_bind_port_spec port f (n : l2_state linux_ctx) es :
  LinuxBuf.alloc_ok (l2_bufs n) = [] -> ll_inv (udp_heap (l2_upper n)) (udp_list (l2_upper n)) es ->
  exists ll h,
    bm_udp_bind_port port (Some f) true n
    = Some (Some port, MkL2State (l2_ctx n) (l2_bufs n) (l2_timer_heap n) (l2_cb_heap n) (l2_trace n)
                         (set_udp_list ll h (l2_upper n)))
    /\ ll_inv h ll (es ++ [(port, Some f)]).
Proof.
  intros Ha Hes. destruct (ll_create_add_refines _ _ _ (fresh (dom (udp_heap (l2_upper n)))) None None (Some f) port Hes)
    as (ll & h & E & Hinv); [apply not_elem_of_dom, is_fresh|].
  exists ll, h. split; [|exact Hinv]. unfold bm_udp_bind_port. erewrite bind_some by reflexivity.
  assert (Hok : next_ok n = Some (true, n)).
  { unfold next_ok, with_bufs, zoom, next_alloc. rewrite Ha. by destruct n. }
  erewrite bind_some by (unfold L2.create_item; rewrite !(bind_some _ _ _ _ _ Hok); reflexivity).
  rewrite ll_create_item_fresh; cbn iota. rewrite bind_lift, E. cbn [mbind option_bind]. reflexivity.
Qed.

(** [bm_pubsub_init], on a node whose port is free, makes the node join. *)
Lemma bm_pubsub_init_spec `{Platform} s id prefix subs nm es es' :
  ps_inv s subs nm -> willing (mw_os (ps_mw s)) -> LinuxBuf.alloc_ok (ps_heap s) = [] ->
  ll_inv (mw_heap (ps_mw s)) (applications (ps_mw s)) es -> find_id resource_port es = None ->
  ll_inv (udp_heap (l2_upper (ps_net s))) (udp_list (l2_upper (ps_net s))) es' -> find_id resource_port es' = None ->
  ll_addr (l2_upper (ps_net s)) = nodeid_to_ip prefix id -> 0 <= prefix < 2 ^ 32 -> 0 <= id < 2 ^ 64 ->
  ip_to_nodeid (Some (unicast_addr (l2_upper (ps_net s)))) = id ->
  exists s', bm_pubsub_init true s = Some (BmOK, s') /\ pub_node s' id prefix subs nm
    /\ net_queue (ps_mw s') = net_queue (ps_mw s) /\ l2_ctx (ps_net s') = l2_ctx (ps_net s)
    /\ ps_heap s' = ps_heap s /\ ps_calls s' = ps_calls s.
Proof.
  intros Hinv Hos Ha Hes Hn Hes' Hn' Hll Hpre Hid Huni.
  destruct (bm_udp_bind_port_spec resource_port udp_middleware_rx (ps_net s) es' Ha Hes') as (ll & h & E & Hu).
  set (app := MkApplication resource_port resource_port app_handle_msg None multicast_global_addr).
  destruct (ll_create_add_refines _ _ _ (fresh (dom (mw_heap (ps_mw s)))) None None (Some app) resource_port Hes)
    as (ll2 & h2 & E2 & Hu2); [apply not_elem_of_dom, is_fresh|].
  set (n' := MkL2State (l2_ctx (ps_net s)) (l2_bufs (ps_net s)) (l2_timer_heap (ps_net s))
    (l2_cb_heap (ps_net s)) (l2_trace (ps_net s)) (set_udp_list ll h (l2_upper (ps_net s)))) in *.
  exists (set_part (set_applications ll2 h2 (set_mw_net n' (ps_mw s))) s). split.
  - unfold bm_pubsub_init. apply (on_part_some (T := middleware)). change (part s) with (ps_mw s).
    unfold bm_middleware_add_application. erewrite bind_some.
    2: { unfold with_mw_net, zoom. change (mw_net (ps_mw s)) with (ps_net s). rewrite E. reflexivity. }
    cbn iota. erewrite bind_some by reflexivity. erewrite bind_some.
    2: { unfold with_mw_os, zoom. cbn [mw_os set_mw_net mw_heap]. fold app.
         rewrite (create_item_willing app _ _ _ Hos). reflexivity. }
    cbn iota. rewrite bind_lift. cbn [applications set_mw_net].
    rewrite E2. cbn [mbind option_bind]. rewrite bind_lift. cbn [mbind option_bind]. reflexivity.
  - split; [|done]. split; try done.
    + by apply ps_inv_mw.
    + eexists. split; [exact Hu2|]. by apply find_id_snoc.
    + eexists. split; [exact Hu|]. by apply find_id_snoc.
Qed.

Section publishing.
Context (P : Platform) (O : L2Os) (le : little_endian = true) (t d : bytes) (type version : Z)
  (t_ok : (0 < length t < 255)%nat) (t_star : ch_star ∉ t) (t_bytes : bytes_ok t) (d_bytes : bytes_ok d)
  (type_ok : byte_ok type) (version_ok : byte_ok version)
  (fits : message_len t d <= max_payload_len_udp).

Lemma len_fits : 5 + Z.of_nat (length t) + Z.of_nat (length d) <= 1452.
Proof. exact fits. Qed.

Lemma pub_message_ok : bytes_ok (pub_message t d type version).
Proof.
  unfold pub_message. apply bytes_ok_app; [|by apply bytes_ok_app].
  repeat apply Forall_cons_2; first [done|unfold byte_ok; lia|apply Forall_nil_2].
Qed.

Lemma deliver_none node_id zs :
  (forall b cs, (b, cs) ∈ zs -> matches t (sub_topic b) = false) ->
  deliver t d type version node_id (entry_of <$> zs) = [].
Proof.
  induction zs as [|[b cs] zs IH]; intros Hz; [done|]. unfold deliver in *. cbn.
  rewrite (Hz b cs) by (by left). apply IH. intros b' cs' Hx. apply (Hz b' cs'). by right.
Qed.

(** The search for a subscription of the node itself. *)
Lemma get_sub_wild s subs nm :
  ps_inv s subs nm ->
  exists prev ptr, get_sub t (Z.of_nat (length t)) true s = Some (prev, ptr)
    /\ (ptr = None -> forall node_id, deliver t d type version node_id subs = []).
Proof.
  intros [(xs & zs & Hs & <-) _ _ _]. unfold get_sub. rewrite Nat2Z.id, read_at_whole. cbn [mbind option_bind].
  destruct (find_node_total sub_next (ps_subs s) (fun n => bm_wildcard_match t (sub_topic (sub n)))
    (fun n => matches t (sub_topic (sub n))) _ xs (sa_list _ _ _ _ _ Hs)) as (prev & ptr & E & Hn).
  { intros l n _. unfold matches. destruct (bm_wildcard_match_means t (sub_topic (sub n)) t_star) as (b & -> & _).
    by destruct b. }
  exists prev, ptr. split; [exact E|]. intros Hp node_id. apply deliver_none. intros b cs Hz.
  assert (Hb : b ∈ zs.*1) by (by apply (list_elem_of_fmap_2 fst _ (b, cs))).
  rewrite <- (sa_subs _ _ _ _ _ Hs) in Hb. apply list_elem_of_fmap in Hb as (n & -> & Hb).
  apply list_elem_of_fmap in Hb as ([l n'] & -> & Hx). by apply (Hn Hp l).
Qed.

(** A buffer that the node puts into its own queue. *)
Definition queue_item (buf : loc) (node_id : Z) (s : pubsub) : pubsub :=
  set_part (set_net_queue (q ← net_queue (ps_mw s);
    Some (q ++ [MkNetItem (Some buf) node_id (message_len t d) resource_port])) (ps_mw s)) s.

Lemma put_back h l b b' : bufs h !! l = Some b -> set_bufs (<[l := b]> (<[l := b']> (bufs h))) h = h.
Proof. intros Hl. rewrite insert_insert_eq, insert_id by done. apply set_bufs_same. Qed.

Lemma set_queue_item h l node_id h' s :
  set_ps_heap h (queue_item l node_id (set_ps_heap h' s)) = queue_item l node_id (set_ps_heap h s).
Proof. done. Qed.

Lemma set_ps_heap_same s : set_ps_heap (ps_heap s) s = s.
Proof. by destruct s as [? ? ? ? ? [? ? ? [] ?] ?]. Qed.

Lemma net_queue_send_some s q item :
  net_queue (ps_mw s) = Some q -> (length q < net_queue_len)%nat ->
  net_queue_send item (ps_mw s) = Some (BmOK, set_net_queue (Some (q ++ [item])) (ps_mw s)).
Proof.
  intros Hq Hl. unfold net_queue_send. erewrite bind_some by reflexivity. rewrite Hq.
  by destruct (Nat.ltb_spec (length q) net_queue_len); [|lia].
Qed.

Lemma bm_middleware_rx_some s q l node_id :
  net_queue (ps_mw s) = Some q -> (length q < net_queue_len)%nat ->
  on_part (bm_middleware_rx resource_port (Some l) node_id (message_len t d)) s
  = Some (BmOK, queue_item l node_id s).
Proof.
  intros Hq Hl. unfold queue_item. rewrite Hq. cbn [mbind option_bind].
  apply (on_part_some (T := middleware)). change (part s) with (ps_mw s). unfold bm_middleware_rx.
  by rewrite (bind_some _ _ _ _ _ (net_queue_send_some s q _ Hq Hl)).
Qed.

Lemma publish_data_locally_spec s q l id :
  bufs (ps_heap s) !! l = Some (message_of t d type version) ->
  net_queue (ps_mw s) = Some q -> (length q < net_queue_len)%nat ->
  ip_to_nodeid (Some (unicast_addr (l2_upper (ps_net s)))) = id ->
  (_ ← publish_data_locally (Some l) (message_len t d);
   on_part (udp_bufs (bm_udp_cleanup (Some l)))) s
  = Some (tt, queue_item l id s).
Proof.
  intros Hl Hq Hlen Hid. unfold publish_data_locally, bm_udp_reference_update.
  erewrite bind_some.
  2: { erewrite bind_some.
       2: { apply ps_heap_some. erewrite bind_some by (eapply bm_l2_tx_prep_shared; [exact Hl|done]). reflexivity. }
       cbn [is_ok]. erewrite bind_some by reflexivity.
       erewrite bind_some by (eapply bm_middleware_rx_some; [exact Hq|exact Hlen]). reflexivity. }
  erewrite ps_heap_some.
  2: { eapply bm_l2_free_shared; [cbn; apply lookup_insert_eq|done]. }
  change (ip_to_nodeid _) with (ip_to_nodeid (Some (unicast_addr (l2_upper (ps_net s))))); rewrite Hid.
  change (ps_heap (queue_item _ _ ?s')) with (ps_heap s').
  rewrite set_queue_item. change (ps_heap (set_ps_heap ?h s)) with h.
  rewrite set_bufs_twice. cbn [bufs set_bufs]. rewrite put_back by done. by rewrite set_ps_heap_same.
Qed.

(** ** The task of the middleware *)

(** The node after its task has handled the message in the buffer [l]. *)
Definition handled (l : loc) (node_id : Z) (q : list NetQueueItem) (subs : list (bytes * list nat))
    (s : pubsub) : pubsub :=
  set_ps_heap (set_bufs (delete l (bufs (ps_heap s))) (ps_heap s))
    (add_calls (deliver t d type version node_id subs)
       (set_part (set_net_queue (Some q) (ps_mw s)) s)).


Lemma task_step_message others s subs nm l node_id q :
  ps_inv s subs nm -> bound_app s ->
  bufs (ps_heap s) !! l = Some (message_of t d type version) ->
  net_queue (ps_mw s) = Some (MkNetItem (Some l) node_id (message_len t d) resource_port :: q) ->
  middleware_net_task_step (application_rx others) s = Some (tt, handled l node_id q subs s).
Proof.
  intros Hs (es & Hes & Hf) Hl Hq. pose proof len_fits. unfold middleware_net_task_step.
  erewrite bind_some by reflexivity. change (part s) with (ps_mw s). rewrite Hq.
  erewrite bind_some by (by apply (on_part_some (T := middleware))).
  cbn [nq_buf nq_port nq_node_id nq_size]. rewrite bind_lift, (ll_get_refines _ _ _ _ Hes), Hf.
  cbn [mbind option_bind]. erewrite bind_some.
  2: { rewrite bind_lift. cbn [mbind option_bind app_rx_cb]. unfold application_rx. rewrite Nat.eqb_refl.
       eapply bm_handle_msg_spec; [lia|done|lia|by apply ps_inv_mw, Hs|exact Hl|done]. }
  erewrite ps_heap_some by (eapply bm_l2_free_last; [exact Hl|done]). done.
Qed.

Lemma task_step_idle others s :
  net_queue (ps_mw s) = Some [] -> middleware_net_task_step (application_rx others) s = Some (tt, s).
Proof.
  intros Hq. unfold middleware_net_task_step. erewrite bind_some by reflexivity.
  change (part s) with (ps_mw s). by rewrite Hq.
Qed.

(** ** Publishing *)

(** The frame of the message, at the location [fl] of a node's memory. *)
Record queued_frame (s : pubsub) (q : list L2QueueElement) (id prefix : Z) (n : l2_state linux_ctx)
    (f : bytes) (mask : Z) : Prop := {
  qf_evt : evt_queue (l2_ctx n)
    = Some (q ++ [MkElement L2Tx (62 + message_len t d) (Some (fresh (dom (bufs (ps_heap s))))) mask]);
  qf_bufs : bufs (l2_bufs n)
    = <[fresh (dom (bufs (ps_heap s)))
        := MkLinuxBuf 1 (62 + message_len t d) (62 + message_len t d) f]> (bufs (ps_heap s));
  qf_fields : same_fields f (udp_wire id (nodeid_to_ip prefix id) multicast_global_addr resource_port
    resource_port (pub_message t d type version));
  qf_src : slice 22 16 f = nodeid_to_ip prefix id;
  qf_bytes : bytes_ok f
}.

Lemma net_tx_spec s l id prefix q :
  bound_app s -> bufs (ps_heap s) !! l = Some (message_of t d type version) ->
  evt_queue (l2_ctx (ps_net s)) = Some q -> (length q < evt_queue_len)%nat ->
  LinuxBuf.alloc_ok (ps_heap s) = [] ->
  ll_addr (l2_upper (ps_net s)) = nodeid_to_ip prefix id -> 0 <= prefix < 2 ^ 32 -> 0 <= id < 2 ^ 64 ->
  exists n f mask,
    on_part (bm_middleware_net_tx id resource_port (Some l) (message_len t d)) s
    = Some (BmOK, set_ps_net n s) /\ queued_frame s q id prefix n f mask.
Proof.
  intros (es & Hes & Hf) Hl Hq Hlen Hal Hll Hpre Hid. pose proof len_fits.
  pose proof (length_pub_message t d type version) as Hm.
  assert (Hn : 0 <= message_len t d <= 1452) by (split; [unfold message_len; lia|done]).
  assert (Hsrc : bytes_ok (ll_addr (l2_upper (ps_net s))) /\ length (ll_addr (l2_upper (ps_net s))) = 16%nat).
  { rewrite Hll, nodeid_to_ip_bytes by done. split; [|done].
    apply bytes_ok_app; [apply be_enc_ok|]. apply bytes_ok_app; [decided|apply be_enc_ok]. }
  destruct Hsrc as [Hsrc Hsrcl].
  destruct (udp_tx_spec id (ps_net s) l _ (message_len t d) q resource_port multicast_global_addr resource_port Hl)
    as (n & f & mask & E & Eq & Eb & _ & Hsame & Hslice & Hok);
    [by apply pub_message_ok|cbn [payload message_of]; lia|lia|done..|decided|done|done|done|].
  exists n, f, mask. split.
  - apply (on_part_some (T := middleware)). change (part s) with (ps_mw s). unfold bm_middleware_net_tx.
    erewrite bind_some by reflexivity. rewrite bind_lift, (ll_get_refines _ _ _ _ Hes), Hf.
    cbn [mbind option_bind]. rewrite bind_lift. cbn [mbind option_bind app_pcb app_dest app_port].
    destruct (Z.leb_spec (message_len t d) max_payload_len_udp) as [_|?]; [|lia].
    unfold with_mw_net, zoom. change (mw_net (ps_mw s)) with (ps_net s).
    change (@Some BmIpAddr) with (@Some bytes). by rewrite E.
  - split; try done; [|congruence]. rewrite <- Hll. revert Hsame. cbn [payload message_of].
    by rewrite take_ge by lia.
Qed.

(** What the search for subscribers on the node itself has led to. *)
Definition local_copy (id : Z) (subs : list (bytes * list nat)) (s s' : pubsub) : Prop :=
  (s' = s /\ forall node_id, deliver t d type version node_id subs = [])
  \/ (let l := fresh (dom (bufs (ps_heap s))) in
      s' = queue_item l id (set_ps_heap
             (set_bufs (<[l := message_of t d type version]> (bufs (ps_heap s))) (ps_heap s)) s)).

Lemma local_copy_spec s id subs (ptr : option loc) q :
  LinuxBuf.alloc_ok (ps_heap s) = [] -> net_queue (ps_mw s) = Some q -> (length q < net_queue_len)%nat ->
  ip_to_nodeid (Some (unicast_addr (l2_upper (ps_net s)))) = id ->
  (ptr = None -> forall node_id, deliver t d type version node_id subs = []) ->
  exists s', (match ptr with
     | Some _ =>
         buf_local ← message_buf true t (Z.of_nat (length t)) (Some d) (Z.of_nat (length d)) type version
                       (message_len t d);
         match buf_local with
         | None => mret tt
         | Some _ =>
             _ ← publish_data_locally buf_local (message_len t d);
             on_part (udp_bufs (bm_udp_cleanup buf_local))
         end
     | None => mret tt
     end) s = Some (tt, s') /\ local_copy id subs s s'.
Proof.
  intros Ha Hq Hl Hid Hp. destruct ptr as [p|]; [|exists s; split; [done|left; by split; [|apply Hp]]].
  eexists. split; [|right; reflexivity].
  rewrite (bind_some _ _ _ _ _ (message_buf_spec t d type version t_ok true s Ha)).
  eapply publish_data_locally_spec; [apply lookup_insert_eq|exact Hq|done|done].
Qed.

Lemma local_copy_keeps id subs s s' :
  local_copy id subs s s' ->
  l2_ctx (ps_net s') = l2_ctx (ps_net s) /\ l2_upper (ps_net s') = l2_upper (ps_net s)
  /\ LinuxBuf.alloc_ok (ps_heap s') = LinuxBuf.alloc_ok (ps_heap s) /\ (bound_app s -> bound_app s')
  /\ ps_calls s' = ps_calls s /\ (forall us nm, ps_inv s us nm -> ps_inv s' us nm)
  /\ forall l b, bufs (ps_heap s) !! l = Some b -> bufs (ps_heap s') !! l = Some b.
Proof.
  intros [[-> _]| ->]; [done|]. split_and!; try done.
  - intros us nm Hs. unfold queue_item, set_ps_heap, set_ps_net. by do 2 apply ps_inv_mw.
  - intros l b Hl. cbn. rewrite lookup_insert_ne; [done|]. intros <-.
    pose proof (is_fresh (dom (bufs (ps_heap s)))) as Hfr. apply Hfr, elem_of_dom. by eexists.
Qed.

(** The buffer of the message for the network, and the node with it. *)
Definition net_buf (s : pubsub) : loc := fresh (dom (bufs (ps_heap s))).
Definition with_net_buf (s : pubsub) : pubsub :=
  set_ps_heap (set_bufs (<[net_buf s := message_of t d type version]> (bufs (ps_heap s))) (ps_heap s)) s.

Lemma bm_pub_wl_spec s id prefix subs nm found nq q :
  pub_node s id prefix subs nm -> topic_find t (nm PUB) = Some found ->
  net_queue (ps_mw s) = Some nq -> (length nq < net_queue_len)%nat ->
  evt_queue (l2_ctx (ps_net s)) = Some q -> (length q < evt_queue_len)%nat ->
  exists s2 n f mask s',
    local_copy id subs (with_net_buf s) s2 /\ queued_frame s2 q id prefix n f mask
    /\ bm_pub_wl id (Some t) (Z.of_nat (length t)) (Some d) (Z.of_nat (length d)) type version s = Some (BmOK, s')
    /\ ps_mw s' = ps_mw (set_ps_heap (set_bufs (delete (net_buf s) (bufs (l2_bufs n))) (l2_bufs n))
                           (set_ps_net n s2))
    /\ ps_inv s' subs (names_add t found PUB nm) /\ ps_calls s' = ps_calls s.
Proof.
  intros [Hinv Happ _ Hll Hpre Hid Huni Hal] Hfound Hnq Hnql Hq Hql. pose proof len_fits.
  set (s1 := with_net_buf s). assert (Hinv1 : ps_inv s1 subs nm) by (by apply ps_inv_mw).
  destruct (get_sub_wild s1 subs nm Hinv1) as (prev & ptr & Eg & Hp).
  destruct (local_copy_spec s1 id subs ptr nq) as (s2 & E2 & Hc); try done.
  destruct (local_copy_keeps _ _ _ _ Hc) as (K1 & K2 & K3 & K4 & K5 & K6 & K7).
  assert (Hl2 : bufs (ps_heap s2) !! net_buf s = Some (message_of t d type version))
    by (apply K7; cbn; apply lookup_insert_eq).
  destruct (net_tx_spec s2 (net_buf s) id prefix q) as (n & f & mask & E3 & Hf);
    [by apply K4|done|by rewrite K1|done|by rewrite K3|by rewrite K2|done|done|].
  set (s3 := set_ps_heap (set_bufs (delete (net_buf s) (bufs (l2_bufs n))) (l2_bufs n)) (set_ps_net n s2)).
  assert (Hinv3 : ps_inv s3 subs nm) by (do 2 apply ps_inv_mw; by apply K6).
  pose proof (add_resource_part s3 subs nm t PUB Hinv3) as Hr. rewrite Hfound in Hr.
  destruct Hr as (s' & E4 & Hinv' & Hcalls & Hmw).
  exists s2, n, f, mask, s'. split; [exact Hc|]. split; [exact Hf|]. split; [|split; [exact Hmw|]].
  2: { split; [exact Hinv'|]. rewrite Hcalls. exact K5. }
  unfold bm_pub_wl, BM_TOPIC_MAX_LEN, sizeof_BmPubSubData.
  destruct (Z.eqb_spec (Z.of_nat (length t)) 0) as [?|_]; [lia|].
  destruct (Z.leb_spec 255 (Z.of_nat (length t))) as [?|_]; [lia|].
  rewrite u16_small by lia. fold (message_len t d).
  rewrite (bind_some _ _ _ _ _ (message_buf_spec t d type version t_ok false s Hal)).
  change (set_ps_heap _ s) with s1. erewrite bind_some by reflexivity. rewrite bind_lift, Eg.
  cbn [mbind option_bind]. rewrite (bind_some _ _ _ _ _ E2), (bind_some _ _ _ _ _ E3).
  erewrite bind_some.
  2: { apply ps_heap_some. apply (bm_l2_free_last _ _ (message_of t d type version)); [|done]. change (ps_heap (set_ps_net n s2)) with (l2_bufs n). rewrite (qf_bufs _ _ _ _ _ _ _ Hf).
       rewrite lookup_insert_ne; [exact Hl2|]. intros Hx. apply (is_fresh (dom (bufs (ps_heap s2)))).
       rewrite Hx. apply elem_of_dom. by eexists. }
  cbn [is_ok]. change (set_ps_heap _ _) with s3. rewrite (bind_some _ _ _ _ _ E4). done.
Qed.

Lemma node_receives_spec s id prefix subs nm q :
  pub_node s id prefix subs nm -> net_queue (ps_mw s) = Some q -> (length q < net_queue_len)%nat ->
  forall sender prefix' f g l, 0 <= prefix' < 2 ^ 32 -> 0 <= sender < 2 ^ 64 ->
    same_fields f (udp_wire sender (nodeid_to_ip prefix' sender) multicast_global_addr resource_port
      resource_port (pub_message t d type version)) ->
    slice 22 16 f = nodeid_to_ip prefix' sender -> in_transit f g ->
    bufs (ps_heap s) !! l = Some (MkLinuxBuf 1 (62 + message_len t d) (62 + message_len t d) g) ->
  let u := fresh (dom (bufs (ps_heap s))) in
  exists s1, node_receives (Some l) (62 + message_len t d) s = Some (BmOK, queue_item u sender s1)
    /\ ps_heap s1 = set_bufs (delete l (<[u := message_of t d type version]> (bufs (ps_heap s)))) (ps_heap s)
    /\ net_queue (ps_mw s1) = net_queue (ps_mw s) /\ bound_app s1 /\ ps_inv s1 subs nm
    /\ ps_calls s1 = ps_calls s.
Proof.
  intros [Hinv Happ (es & Hes & Hf) _ _ _ _ Hal] Hq Hql sender prefix' f g l Hpre Hid Hsame Hsrc Hg Hl u.
  pose proof len_fits. pose proof (length_pub_message t d type version t_ok) as Hm.
  rewrite <- Hm in Hl. pose proof (udp_receive P sender prefix' multicast_global_addr resource_port resource_port
    (pub_message t d type version) f g (ps_heap s) (l2_upper (ps_net s)) l es udp_middleware_rx) as E.
  cbv zeta in E. rewrite Hm in Hl, E. specialize (E le Hpre Hid eq_refl).
  set (c' := add_udp_call (MkUdpCall udp_middleware_rx resource_port u sender (message_len t d))
               (l2_upper (ps_net s))).
  set (h' := set_bufs (delete l (<[u := message_of t d type version]> (bufs (ps_heap s)))) (ps_heap s)).
  set (s1 := set_ps_net (MkL2State (l2_ctx (ps_net s)) h' (l2_timer_heap (ps_net s)) (l2_cb_heap (ps_net s))
                           (l2_trace (ps_net s)) c') s).
  exists s1. split; [|split_and!; try done; by apply ps_inv_mw].
  assert (Esub : submit bm_l2_submit (Some l) (62 + message_len t d) (ps_net s) = Some (BmOK, ps_net s1)).
  { unfold submit, zoom. change (l2_bufs (ps_net s)) with (ps_heap s).
    rewrite E; [done|..]; (done || unfold message_len; lia). }
  unfold node_receives. erewrite bind_some by reflexivity.
  rewrite (bind_some _ _ _ _ _ (ps_net_some _ _ _ _ Esub)).
  erewrite bind_some by reflexivity.
  change (udp_calls (l2_upper (ps_net (set_ps_net (ps_net s1) s)))) with (udp_calls c').
  unfold c' at 1, add_udp_call. cbn [udp_calls]. rewrite drop_app_length. cbn [for_each].
  erewrite bind_some; [reflexivity|]. erewrite bind_some; [reflexivity|].
  apply (on_part_some (T := middleware)). unfold udp_callback, when.
  cbn [uc_cb uc_src_port uc_buf uc_node_id uc_size Nat.eqb udp_middleware_rx]. erewrite bind_some; [reflexivity|].
  unfold bm_middleware_rx. change (part (set_ps_net (ps_net s1) s)) with (ps_mw s1).
  erewrite bind_some by (by apply net_queue_send_some with (q := q)).
  change (net_queue (ps_mw s1)) with (net_queue (ps_mw s)). by rewrite Hq.
Qed.

(** ** From end to end *)

(** The frame in a buffer. *)
Definition frame_of (f : bytes) : LinuxBuf :=
  MkLinuxBuf 1 (62 + message_len t d) (62 + message_len t d) f.

(** The task of the publisher's own middleware. *)
Lemma own_task_step others s s' s2 id prefix subs nm q n f mask :
  local_copy id subs (with_net_buf s) s2 -> queued_frame s2 q id prefix n f mask ->
  ps_mw s' = ps_mw (set_ps_heap (set_bufs (delete (net_buf s) (bufs (l2_bufs n))) (l2_bufs n)) (set_ps_net n s2)) ->
  ps_inv s' subs nm -> bound_app s2 -> net_queue (ps_mw s) = Some [] ->
  exists s'', middleware_net_task_step (application_rx others) s' = Some (tt, s'')
    /\ ps_calls s'' = ps_calls s' ++ deliver t d type version id subs
    /\ bufs (ps_heap s'')
       = <[fresh (dom (bufs (ps_heap s2))) := frame_of f]> (bufs (ps_heap s)).
Proof.
  intros Hc Hf Hmw Hinv Happ Hq. pose proof (qf_bufs _ _ _ _ _ _ _ Hf) as Hb.
  set (h := bufs (ps_heap s)) in *. set (fl := fresh (dom (bufs (ps_heap s2)))) in *.
  assert (Hnb : h !! net_buf s = None) by (unfold net_buf; apply not_elem_of_dom, is_fresh).
  assert (Hfl : bufs (ps_heap s2) !! fl = None) by (apply not_elem_of_dom, is_fresh).
  assert (Hheap : bufs (ps_heap s') = delete (net_buf s) (<[fl := frame_of f]> (bufs (ps_heap s2)))).
  { unfold ps_heap, ps_net. rewrite Hmw. cbn. by rewrite Hb. }
  assert (Happ' : bound_app s') by (unfold bound_app; rewrite Hmw; exact Happ).
  destruct Hc as [[-> Hnone]|Hs2].
  - exists s'. split; [apply task_step_idle; rewrite Hmw; exact Hq|].
    split; [by rewrite Hnone, app_nil_r|]. rewrite Hheap.
    change (bufs (ps_heap (with_net_buf s))) with (<[net_buf s := message_of t d type version]> h) in Hfl |- *.
    rewrite delete_insert_ne; [by rewrite delete_insert_id|]. intros E. by rewrite <- E, lookup_insert_eq in Hfl.
  - set (s1 := with_net_buf s) in *. set (l2 := fresh (dom (bufs (ps_heap s1)))) in *. cbv zeta in Hs2.
    assert (Hl2 : (<[net_buf s := message_of t d type version]> h) !! l2 = None)
      by (change (bufs (ps_heap s1) !! l2 = None); apply not_elem_of_dom, is_fresh).
    assert (Hb2 : bufs (ps_heap s2) = <[l2 := message_of t d type version]> (<[net_buf s := message_of t d type version]> h))
      by (by rewrite Hs2).
    rewrite Hb2 in Hfl, Hheap.
    assert (Hne : net_buf s <> l2) by (intros E; by rewrite <- E, lookup_insert_eq in Hl2).
    assert (Hfl1 : fl <> l2) by (intros E; by rewrite E, lookup_insert_eq in Hfl).
    assert (Hfl2 : fl <> net_buf s) by (intros E; rewrite E in Hfl; by rewrite lookup_insert_ne, lookup_insert_eq in Hfl).
    eexists. split; [|split].
    + eapply task_step_message; [exact Hinv|exact Happ'| |].
      * rewrite Hheap, lookup_delete_ne, lookup_insert_ne, lookup_insert_eq by done. reflexivity.
      * rewrite Hmw, Hs2. cbn. rewrite Hq. reflexivity.
    + done.
    + change (bufs (ps_heap (handled _ _ _ _ _))) with (delete l2 (bufs (ps_heap s'))). rewrite Hheap.
      rewrite lookup_insert_ne in Hl2 by done.
      rewrite delete_insert_ne, delete_insert_ne by done. rewrite delete_insert_ne by done.
      by rewrite (delete_insert_id h), delete_insert_id by done.
Qed.

Lemma length_queued s q id prefix n f mask :
  queued_frame s q id prefix n f mask -> Z.of_nat (length f) = 62 + message_len t d.
Proof.
  intros Hf. destruct (qf_fields _ _ _ _ _ _ _ Hf) as [Hlen _].
  pose proof (length_pub_message t d type version t_ok). rewrite Hlen, length_udp_wire by done. lia.
Qed.

(** C3: a message reaches its subscribers.  On a node that has joined, with room in
    its queues, [bm_pub_wl] queues one frame for the network.  When the node's own
    middleware task has run, every callback of the node whose topic matches has been
    called with the message, in the order of the subscriptions, and no other; and of
    the buffers that were used only the frame is left.  Any other node that has
    joined, and that receives the frame as the layer 2 changes it on its way, calls
    every callback of its own whose topic matches with the same topic, data, type
    and version and the sender's node id; and of the buffers nothing is left. *)
Theorem publish_end_to_end others s id prefix subs nm found q :
  pub_node s id prefix subs nm -> topic_find t (nm PUB) = Some found ->
  net_queue (ps_mw s) = Some [] ->
  evt_queue (l2_ctx (ps_net s)) = Some q -> (length q < evt_queue_len)%nat ->
  exists s' s'' f mask fl,
    bm_pub_wl id (Some t) (Z.of_nat (length t)) (Some d) (Z.of_nat (length d)) type version s = Some (BmOK, s')
    /\ evt_queue (l2_ctx (ps_net s')) = Some (q ++ [MkElement L2Tx (62 + message_len t d) (Some fl) mask])
    /\ middleware_net_task_step (application_rx others) s' = Some (tt, s'')
    /\ ps_calls s'' = ps_calls s ++ deliver t d type version id subs
    /\ bufs (ps_heap s'') = <[fl := frame_of f]> (bufs (ps_heap s))
    /\ Z.of_nat (length f) = 62 + message_len t d /\ bytes_ok f
    /\ forall r id2 prefix2 subs2 nm2 g l,
         pub_node r id2 prefix2 subs2 nm2 -> net_queue (ps_mw r) = Some [] -> in_transit f g ->
         bufs (ps_heap r) !! l = Some (frame_of g) ->
         exists r' r'',
           node_receives (Some l) (62 + message_len t d) r = Some (BmOK, r')
           /\ middleware_net_task_step (application_rx others) r' = Some (tt, r'')
           /\ ps_calls r'' = ps_calls r ++ deliver t d type version id subs2
           /\ bufs (ps_heap r'') = delete l (bufs (ps_heap r)).
Proof.
  intros Hs Hfound Hnq Hq Hql.
  destruct (bm_pub_wl_spec s id prefix subs nm found [] q) as (s2 & n & f & mask & s' & Hc & Hf & E & Hmw & Hinv & Hcalls);
    [done..|unfold net_queue_len; cbn; lia|done|done|].
  destruct (local_copy_keeps _ _ _ _ Hc) as (_ & _ & _ & Happ & _).
  destruct (own_task_step others s s' s2 id prefix subs _ q n f mask Hc Hf Hmw Hinv) as (s'' & E2 & Hcalls2 & Hbufs);
    [apply Happ; exact (pn_app _ _ _ _ _ Hs)|done|].
  exists s', s'', f, mask, (fresh (dom (bufs (ps_heap s2)))).
  split; [exact E|]. split; [unfold ps_net; rewrite Hmw; exact (qf_evt _ _ _ _ _ _ _ Hf)|].
  split; [exact E2|]. split; [by rewrite Hcalls2, Hcalls|]. split; [exact Hbufs|].
  split; [by eapply length_queued|]. split; [exact (qf_bytes _ _ _ _ _ _ _ Hf)|].
  intros r id2 prefix2 subs2 nm2 g l Hr Hrq Hg Hl.
  destruct (node_receives_spec r id2 prefix2 subs2 nm2 [] Hr Hrq ltac:(unfold net_queue_len; cbn; lia) id prefix f g l
    (pn_prefix _ _ _ _ _ Hs) (pn_id _ _ _ _ _ Hs) (qf_fields _ _ _ _ _ _ _ Hf) (qf_src _ _ _ _ _ _ _ Hf) Hg Hl)
    as (r1 & E3 & Hheap & Hq1 & Happ1 & Hinv1 & Hcalls1).
  set (u := fresh (dom (bufs (ps_heap r)))) in *.
  assert (Hu : bufs (ps_heap r) !! u = None) by (apply not_elem_of_dom, is_fresh).
  assert (Hul : l <> u) by (intros Eu; rewrite Eu in Hl; congruence).
  eexists _, _. split; [exact E3|]. split; [|split].
  - eapply task_step_message; [apply ps_inv_mw, Hinv1|exact Happ1| |].
    + change (ps_heap (queue_item u id r1)) with (ps_heap r1). rewrite Hheap. cbn.
      by rewrite lookup_delete_ne, lookup_insert_eq.
    + cbn. rewrite Hq1, Hrq. reflexivity.
  - cbn. by rewrite Hcalls1.
  - change (bufs (ps_heap (handled _ _ _ _ _))) with (delete u (bufs (ps_heap r1))). rewrite Hheap. cbn.
    rewrite delete_delete. by rewrite delete_insert_id.
Qed.
End publishing.

(** ** A concrete run *)

(** Two nodes: both have joined, and have one subscription each. *)
Definition sample_topic_sub : bytes := [97; 47; 42].
Definition sample_join (t : bytes) (cb : nat) : M pubsub BmErr :=
  _ ← bm_pubsub_init true; bm_sub_wl (Some t) (Z.of_nat (length t)) (Some cb).

Lemma pub_node_sub `{Platform} s id prefix subs nm t cb found :
  pub_node s id prefix subs nm -> (0 < length t < 255)%nat -> topic_find t (nm SUB) = Some found ->
  exists s', bm_sub_wl (Some t) (Z.of_nat (length t)) (Some cb) s = Some (BmOK, s')
    /\ pub_node s' id prefix (subs_add t cb subs) (names_add t found SUB nm)
    /\ ps_calls s' = ps_calls s /\ ps_mw s' = ps_mw s.
Proof.
  intros [Hinv ? ? ? ? ? ? ?] Ht Hf. pose proof (bm_sub_wl_spec s subs nm t cb Hinv Ht) as Hs. rewrite Hf in Hs.
  destruct Hs as (s' & E & Hinv' & Hc & Hm). exists s'. split; [exact E|]. split; [|done].
  split; unfold bound_app, ps_heap, ps_net; rewrite ?Hm; done.
Qed.

Lemma sample_join_spec payload t cb :
  (0 < length t < 255)%nat ->
  exists s nm, @sample_join t cb (sample_pubsub [] payload) = Some (BmOK, s)
    /\ @pub_node platform_linux s 0xBEEF12345678 0xFE800000 [(t, [cb])] nm /\ nm PUB = []
    /\ ps_calls s = [] /\ ps_heap s = ps_heap (sample_pubsub [] payload)
    /\ net_queue (ps_mw s) = Some [] /\ evt_queue (l2_ctx (ps_net s)) = Some [].
Proof.
  intros Ht.
  assert (Hinv : ps_inv (sample_pubsub [] payload) [] (fun _ => [])).
  { apply (fresh_represents (sample_pubsub [] payload)). split; try done. by exists resources_zero. }
  destruct (@bm_pubsub_init_spec platform_linux _ 0xBEEF12345678 0xFE800000 _ _ [] [] Hinv)
    as (s & E & Hnode & Hq & Hctx & Hh & Hc); [done|done|apply ll_inv_empty|done|apply ll_inv_empty|done
    |reflexivity|lia|lia|reflexivity|].
  destruct (@pub_node_sub platform_linux s _ _ _ _ t cb false Hnode Ht eq_refl) as (s' & E' & Hnode' & Hc' & Hm).
  eexists s', _. split; [unfold sample_join; by rewrite (bind_some _ _ _ _ _ E)|].
  split; [exact Hnode'|]. unfold ps_heap, ps_net. rewrite Hm. split; [done|]. split; [by rewrite Hc', Hc|].
  split; [exact Hh|]. split; [by rewrite Hq|]. unfold ps_net in Hctx. by rewrite Hctx.
Qed.

Lemma publish_end_to_end_witness :
  exists s s' s'' f r r' r'',
    sample_join topic_ab 1 (sample_pubsub [] []) = Some (BmOK, s)
    /\ sample_join sample_topic_sub 2 (sample_pubsub [] f) = Some (BmOK, r)
    /\ @bm_pub_wl platform_linux sample_os 0xBEEF12345678 (Some topic_ab) 3 (Some [5; 6]) 2 1 2 s = Some (BmOK, s')
    /\ middleware_net_task_step (application_rx (fun _ _ _ _ => mret tt)) s' = Some (tt, s'')
    /\ sc_cb <$> ps_calls s'' = [1%nat]
    /\ @node_receives platform_linux (Some 1%positive) 72 r = Some (BmOK, r')
    /\ middleware_net_task_step (application_rx (fun _ _ _ _ => mret tt)) r' = Some (tt, r'')
    /\ ps_calls r'' = [MkSubCall 2 0xBEEF12345678 topic_ab 3 (Some [5; 6]) 2 1 2].
Proof.
  destruct (sample_join_spec [] topic_ab 1 ltac:(cbn; lia)) as (s & nm & E & Hs & Hnm & Hc & Hh & Hq & He).
  destruct (@publish_end_to_end platform_linux sample_os eq_refl topic_ab [5; 6] 1 2 ltac:(cbn; lia)
    ltac:(by apply (bool_decide_unpack _)) ltac:(decided) ltac:(decided) ltac:(unfold byte_ok; lia)
    ltac:(unfold byte_ok; lia) ltac:(vm_compute; congruence) (fun _ _ _ _ => mret tt) s _ _ _ nm false [] Hs)
    as (s' & s'' & f & mask & fl & E1 & _ & E2 & Hc2 & _ & Hlen & Hok & Hr);
    [by rewrite Hnm|exact Hq|exact He|unfold evt_queue_len; cbn; lia|].
  destruct (sample_join_spec f sample_topic_sub 2 ltac:(cbn; lia)) as (r & nm' & E' & Hr' & _ & Hcr & Hhr & Hqr & _).
  destruct (Hr r _ _ _ _ f 1%positive Hr' Hqr) as (r' & r'' & E3 & E4 & Hc4 & _).
  - by split_and!.
  - rewrite Hhr. cbn. unfold frame_of. rewrite Hlen. reflexivity.
  - exists s, s', s'', f, r, r', r''. split; [exact E|]. split; [exact E'|]. split; [exact E1|].
    split; [exact E2|]. split; [rewrite Hc2, Hc; vm_compute; reflexivity|]. split; [exact E3|].
    split; [exact E4|]. rewrite Hc4, Hcr. vm_compute. reflexivity.
Defined.
