(* ===== verification/Services.v ===== *)
(** * Services: src/middleware/bm_service.c and bm_service_request.c

    A node offers a service under a name: it answers the messages of the topic
    name/req with messages of the topic name/rep.  A node that wants one sends a
    request and keeps it until the reply comes or its time is over.

    The name of a service stays in the memory of the application that registers
    it; [sv_strings] is that memory.  The handlers of services are numbers, whose
    meaning is a parameter; what the callbacks of requests are called with is
    recorded. *)
From S2P Require Import Prelude Util LinkedList SList Os Parts Device TimerHandler.

(** What the services call of src/middleware/pubsub.c. *)
Class PubSubApi (St : Type) : Type := {
  sub_wl : bytes -> Z -> nat -> M St BmErr;
  unsub_wl : bytes -> Z -> nat -> M St BmErr;
  pub_wl : bytes -> Z -> bytes -> Z -> Z -> Z -> M St BmErr
}.

Definition BM_SERVICE_REQ_STR : bytes := [47; 114; 101; 113].
Definition BM_SERVICE_REP_STR : bytes := [47; 114; 101; 112].
Definition MAX_BM_SERVICE_DATA_SIZE : Z := 1024.
Definition BM_COMMON_PUB_SUB_VERSION : Z := 2.
Definition sizeof_BmServiceRequestDataHeader : Z := 8.
Definition sizeof_BmServiceReplyDataHeader : Z := 16.

Record BmServiceListElem : Type := MkElem {
  service : loc; service_strlen : Z; service_handler : nat; sv_next : option loc
}.

(** The service's name is memory of the request's own. *)
Record BmServiceRequestNode : Type := MkRequestNode {
  rq_service : bytes; rq_service_strlen : Z; reply_cb : option nat; timeout_ms : Z;
  request_start_ms : Z; rq_id : Z; rq_next : option loc
}.

(** A call of a callback.  The data are [None] for a null pointer, and when they do
    not stay inside of the message. *)
Record reply_call : Type := MkReplyCall {
  rc_cb : nat; rc_ack : bool; rc_id : Z; rc_service_strlen : Z; rc_service : bytes;
  rc_len : Z; rc_data : option bytes
}.

(** [expiry_timer]: whether the timer runs, when there is one. *)
Record services : Type := MkServices {
  service_list : option loc;
  sv_elems : gmap loc BmServiceListElem;
  sv_lock : BmSemaphore;
  sv_strings : gmap loc bytes;
  service_request_list : option loc;
  sv_requests : gmap loc BmServiceRequestNode;
  request_count : Z;
  rq_lock : BmSemaphore;
  expiry_timer : option bool;
  sv_calls : list reply_call;
  sv_os : Os
}.

Definition set_elems (p : option loc) (h : gmap loc BmServiceListElem) (s : services) : services :=
  MkServices p h (sv_lock s) (sv_strings s) (service_request_list s) (sv_requests s) (request_count s)
    (rq_lock s) (expiry_timer s) (sv_calls s) (sv_os s).
Definition set_sv_lock (l : BmSemaphore) (s : services) : services :=
  MkServices (service_list s) (sv_elems s) l (sv_strings s) (service_request_list s) (sv_requests s)
    (request_count s) (rq_lock s) (expiry_timer s) (sv_calls s) (sv_os s).
Definition set_requests (p : option loc) (h : gmap loc BmServiceRequestNode) (s : services) : services :=
  MkServices (service_list s) (sv_elems s) (sv_lock s) (sv_strings s) p h (request_count s)
    (rq_lock s) (expiry_timer s) (sv_calls s) (sv_os s).
Definition set_request_count (n : Z) (s : services) : services :=
  MkServices (service_list s) (sv_elems s) (sv_lock s) (sv_strings s) (service_request_list s) (sv_requests s) n
    (rq_lock s) (expiry_timer s) (sv_calls s) (sv_os s).
Definition set_rq_lock (l : BmSemaphore) (s : services) : services :=
  MkServices (service_list s) (sv_elems s) (sv_lock s) (sv_strings s) (service_request_list s) (sv_requests s)
    (request_count s) l (expiry_timer s) (sv_calls s) (sv_os s).
Definition set_expiry_timer (t : option bool) (s : services) : services :=
  MkServices (service_list s) (sv_elems s) (sv_lock s) (sv_strings s) (service_request_list s) (sv_requests s)
    (request_count s) (rq_lock s) t (sv_calls s) (sv_os s).
Definition add_reply_call (c : reply_call) (s : services) : services :=
  MkServices (service_list s) (sv_elems s) (sv_lock s) (sv_strings s) (service_request_list s) (sv_requests s)
    (request_count s) (rq_lock s) (expiry_timer s) (sv_calls s ++ [c]) (sv_os s).
Definition set_sv_os (o : Os) (s : services) : services :=
  MkServices (service_list s) (sv_elems s) (sv_lock s) (sv_strings s) (service_request_list s) (sv_requests s)
    (request_count s) (rq_lock s) (expiry_timer s) (sv_calls s) o.

Definition with_sv_os {A} (m : M Os A) : M services A := zoom sv_os set_sv_os m.

Definition take_sv_lock : M services BmErr :=
  s ← get; '(err, l) ← with_sv_os (bm_semaphore_take (sv_lock s)); _ ← modify (set_sv_lock l); mret err.
Definition give_sv_lock : M services unit :=
  modify (fun s => set_sv_lock (snd (bm_semaphore_give (sv_lock s))) s).
Definition take_rq_lock : M services BmErr :=
  s ← get; '(err, l) ← with_sv_os (bm_semaphore_take (rq_lock s)); _ ← modify (set_rq_lock l); mret err.
Definition give_rq_lock : M services unit :=
  modify (fun s => set_rq_lock (snd (bm_semaphore_give (rq_lock s))) s).

(** The memory at the pointer of a service. *)
Definition service_string (s : services) (e : BmServiceListElem) : option bytes := sv_strings s !! service e.

(** ** The list of services *)

Definition _service_create_list_elem (strlen : Z) (str : loc) (handler : nat) : M services (option loc) :=
  ok ← with_sv_os malloc_ok;
  if ok : bool then
    s ← get;
    let l := fresh (dom (sv_elems s)) in
    _ ← modify (set_elems (service_list s) (<[l := MkElem str strlen handler None]> (sv_elems s)));
    mret (Some l)
  else mret None.

(** The end of the list is looked for behind its first element. *)
Definition _service_list_add_service (list_elem : option loc) : M services unit :=
  match list_elem with
  | None => mret tt
  | Some l =>
      s ← get;
      match service_list s with
      | None => modify (set_elems (Some l) (sv_elems s))
      | Some _ =>
          ns ← lift (nodes sv_next (sv_elems s) (service_list s));
          '(e, n) ← lift (last ns);
          modify (set_elems (service_list s)
            (<[e := MkElem (service n) (service_strlen n) (service_handler n) (Some l)]> (sv_elems s)))
      end
  end.

(** The first service that has the first [strlen] characters of [str] is removed. *)
Definition _service_list_remove_service (str : option loc) (strlen : Z) : M services bool :=
  match str with
  | None => mret false
  | Some p =>
      s ← get;
      '(prev, current) ← lift (find_node sv_next (sv_elems s)
        (fun e => a ← service_string s e; b ← sv_strings s !! p; strncmp_eq (Z.to_nat strlen) a b)
        (service_list s));
      match current with
      | None => mret false
      | Some l =>
          e ← lift (sv_elems s !! l);
          _ ← match prev with
              | None => modify (set_elems (sv_next e) (delete l (sv_elems s)))
              | Some q =>
                  n ← lift (sv_elems s !! q);
                  modify (set_elems (service_list s) (delete l
                    (<[q := MkElem (service n) (service_strlen n) (service_handler n) (sv_next e)]> (sv_elems s))))
              end;
          mret true
      end
  end.

(** ** Requests that are kept *)

Definition _request_list_add_request (node : option loc) : M services bool :=
  match node with
  | None => mret false
  | Some l =>
      err ← take_rq_lock;
      if is_ok err then
        s ← get;
        _ ← match service_request_list s with
            | None => modify (set_requests (Some l) (sv_requests s))
            | Some _ =>
                ns ← lift (nodes rq_next (sv_requests s) (service_request_list s));
                '(e, n) ← lift (last ns);
                modify (set_requests (service_request_list s)
                  (<[e := MkRequestNode (rq_service n) (rq_service_strlen n) (reply_cb n) (timeout_ms n)
                            (request_start_ms n) (rq_id n) (Some l)]> (sv_requests s)))
            end;
        _ ← give_rq_lock;
        mret true
      else mret false
  end.

Definition _request_list_remove_request (node : option loc) : M services bool :=
  match node with
  | None => mret false
  | Some l =>
      s ← get;
      if bool_decide (service_request_list s = Some l) then
        n ← lift (sv_requests s !! l);
        _ ← modify (set_requests (rq_next n) (delete l (sv_requests s)));
        mret true
      else
        '(_, current) ← lift (find_node rq_next (sv_requests s)
          (fun n => Some (bool_decide (rq_next n = Some l))) (service_request_list s));
        match current with
        | None => mret false
        | Some q =>
            n ← lift (sv_requests s !! l);
            m ← lift (sv_requests s !! q);
            _ ← modify (set_requests (service_request_list s) (delete l
                  (<[q := MkRequestNode (rq_service m) (rq_service_strlen m) (reply_cb m) (timeout_ms m)
                            (request_start_ms m) (rq_id m) (rq_next n)]> (sv_requests s))));
            mret true
        end
  end.

(** [str] is the memory at the pointer. *)
Definition _create_node (strlen : Z) (str : bytes) (cb : option nat) (timeout : Z) : M services (option loc) :=
  node_ok ← with_sv_os malloc_ok;
  if node_ok : bool then
    name_ok ← with_sv_os malloc_ok;
    if name_ok : bool then
      name ← lift (read_at 0 (Z.to_nat strlen) str);
      s ← get;
      let l := fresh (dom (sv_requests s)) in
      _ ← modify (fun s => set_request_count (u32 (request_count s + 1))
            (set_requests (service_request_list s)
              (<[l := MkRequestNode name strlen cb timeout (os_ticks_ms (sv_os s)) (request_count s) None]>
                 (sv_requests s)) s));
      mret (Some l)
    else mret None
  else mret None.

Definition _service_request_list_get_node_by_id (id : Z) (s : services) : option (option loc) :=
  '(_, node) ← find_node rq_next (sv_requests s) (fun n => Some (rq_id n =? id)) (service_request_list s);
  Some node.

(** The end of a request's time: its callback is called, and it is removed. *)
Definition expire_request (l : loc) (n : BmServiceRequestNode) : M services unit :=
  _ ← match reply_cb n with
      | Some cb => modify (add_reply_call (MkReplyCall cb false (rq_id n) (rq_service_strlen n) (rq_service n) 0 None))
      | None => mret tt
      end;
  _ ← _request_list_remove_request (Some l);
  mret tt.

(** The loop; behind a request that is removed it starts again. *)
Fixpoint expiry_loop (fuel : nat) (current : option loc) : M services unit :=
  match fuel, current with
  | O, _ => ub
  | S _, None => mret tt
  | S fuel, Some l =>
      s ← get;
      n ← lift (sv_requests s !! l);
      if time_remaining (request_start_ms n) (os_ticks_ms (sv_os s)) (timeout_ms n) =? 0 then
        _ ← expire_request l n;
        s ← get;
        expiry_loop fuel (service_request_list s)
      else expiry_loop fuel (rq_next n)
  end.

Definition expiry_fuel (s : services) : nat := (walk_fuel (sv_requests s) * walk_fuel (sv_requests s))%nat.

Definition _service_request_timer_expiry_cb : M services unit :=
  err ← take_rq_lock;
  if is_ok err then
    s ← get;
    _ ← expiry_loop (expiry_fuel s) (service_request_list s);
    give_rq_lock
  else mret tt.

(** The mutex, the timer and the command that starts it. *)
Definition bm_service_request_init : M services BmErr :=
  lock_ok ← with_sv_os malloc_ok;
  _ ← modify (set_rq_lock (if lock_ok : bool then Some true else None));
  timer_ok ← with_sv_os malloc_ok;
  _ ← modify (set_expiry_timer (if timer_ok : bool then Some false else None));
  if timer_ok && lock_ok then
    started ← with_sv_os wait_ok;
    if started : bool then _ ← modify (set_expiry_timer (Some true)); mret BmOK else mret BmETIMEDOUT
  else mret BmENOMEM.

Definition bm_service_init : M services BmErr :=
  ok ← with_sv_os malloc_ok;
  _ ← modify (set_sv_lock (if ok : bool then Some true else None));
  if ok : bool then bm_service_request_init else mret BmENOMEM.

Section messages.
Context {St : Type} `{Part services St} `{PubSubApi St} `{Platform} (CFG : DeviceCfg).

(** What a service does: from its name, with its length, the length of the request's
    data and the memory where they are, and the size of the buffer for the reply,
    whether it is done, the length of the reply and what it writes. *)
Context (call_handler : nat -> Z -> bytes -> Z -> bytes -> Z -> M St (bool * Z * bytes)).

(** The numbers of [_service_request_received_cb] and [_service_request_cb] among the
    callbacks of subscriptions, and of [_service_request_timer_expiry_cb] among those
    of timers. *)
Context (service_request_received_id service_request_id timer_expiry_id : nat).

(** A topic: the name, of [strlen] characters of [str], and a suffix. *)
Definition service_topic (str : bytes) (strlen : Z) (suffix : bytes) : option bytes :=
  name ← read_at 0 (Z.to_nat strlen) str;
  store_all [(0%nat, name); (Z.to_nat strlen, suffix)] (replicate (Z.to_nat (usize (strlen + 4))) 0).

(** ** Services that are offered *)

Definition _service_sub_unsub_to_req_topic (strlen : Z) (str : bytes) (subscribe : bool) : M St bool :=
  ok ← on_part (with_sv_os malloc_ok);
  if ok : bool then
    topic ← lift (service_topic str strlen BM_SERVICE_REQ_STR);
    err ← (if subscribe then sub_wl topic (u16 (usize (strlen + 4))) service_request_received_id
           else unsub_wl topic (u16 (usize (strlen + 4))) service_request_received_id);
    mret (is_ok err)
  else mret false.

(** The memory of the application at a pointer. *)
Definition app_string (p : loc) : M St bytes := s ← gets part; lift (sv_strings s !! p).

Definition bm_service_register (strlen : Z) (str : option loc) (handler : option nat) : M St bool :=
  match str, handler with
  | Some p, Some f =>
      err ← on_part take_sv_lock;
      if is_ok err then
        list_elem ← on_part (_service_create_list_elem strlen p f);
        rval ← match list_elem with
               | None => mret false
               | Some _ =>
                   _ ← on_part (_service_list_add_service list_elem);
                   name ← app_string p;
                   _service_sub_unsub_to_req_topic strlen name true
               end;
        _ ← on_part give_sv_lock;
        mret rval
      else mret false
  | _, _ => mret false
  end.

Definition bm_service_unregister (strlen : Z) (str : option loc) : M St bool :=
  match str with
  | Some p =>
      err ← on_part take_sv_lock;
      if is_ok err then
        name ← app_string p;
        unsubscribed ← _service_sub_unsub_to_req_topic strlen name false;
        rval ← (if unsubscribed : bool then on_part (_service_list_remove_service str strlen) else mret false);
        _ ← on_part give_sv_lock;
        mret rval
      else mret false
  | None => mret false
  end.

(** The reply of a service is published; [reply] has its data behind the header. *)
Definition publish_reply (e : BmServiceListElem) (node_id : Z) (id reply : bytes) (reply_len : Z) : M St unit :=
  reply ← lift (write_at 0 (native_store 8 node_id ++ id ++ native_store 4 reply_len) reply);
  ok ← on_part (with_sv_os malloc_ok);
  if ok : bool then
    str ← app_string (service e);
    topic ← lift (service_topic str (service_strlen e) BM_SERVICE_REP_STR);
    _ ← pub_wl topic (u16 (usize (service_strlen e + 4))) reply
          (u16 (usize (reply_len + sizeof_BmServiceReplyDataHeader))) 0 BM_COMMON_PUB_SUB_VERSION;
    mret tt
  else mret tt.

(** A request for a service.  The memory for the reply is cleared without a look
    whether there is any. *)
Definition serve_request (e : BmServiceListElem) (node_id topic_len : Z) (data : bytes) (data_len : Z) : M St unit :=
  size ← lift (read_at 4 4 data);
  let data_size := native_load size in
  if negb (data_len =? usize (sizeof_BmServiceRequestDataHeader + data_size)) then mret tt
  else if negb (topic_len =? usize (service_strlen e + 4)) then mret tt
  else
    ok ← on_part (with_sv_os malloc_ok);
    if ok : bool then
      str ← app_string (service e);
      '(handled, reply_len, reply) ← call_handler (service_handler e) (service_strlen e) str data_size (drop 8 data)
        (MAX_BM_SERVICE_DATA_SIZE - sizeof_BmServiceReplyDataHeader);
      reply ← lift (write_at 16 reply (replicate (Z.to_nat MAX_BM_SERVICE_DATA_SIZE) 0));
      if handled : bool then
        id ← lift (read_at 0 4 data);
        publish_reply e node_id id reply reply_len
      else mret tt
    else ub.

(** [topic] and [data] are the memory from the pointers on. *)
Definition _service_request_received_cb (node_id : Z) (topic : bytes) (topic_len : Z) (data : bytes)
    (data_len type version : Z) : M St unit :=
  err ← on_part take_sv_lock;
  if is_ok err then
    s ← gets part;
    '(_, current) ← lift (find_node sv_next (sv_elems s)
      (fun e => str ← service_string s e; strncmp_eq (Z.to_nat (service_strlen e)) str topic) (service_list s));
    _ ← match current with
        | Some l => e ← lift (sv_elems s !! l); serve_request e node_id topic_len data data_len
        | None => mret tt
        end;
    on_part give_sv_lock
  else mret tt.

(** ** Requests *)

(** The data are copied without a look at the pointer. *)
Definition _service_request_send_request (msg_id : Z) (str : bytes) (strlen data_len : Z) (data : option bytes)
    : M St bool :=
  topic_ok ← on_part (with_sv_os malloc_ok);
  if topic_ok : bool then
    topic ← lift (service_topic str strlen BM_SERVICE_REQ_STR);
    let req_len := data_len + sizeof_BmServiceRequestDataHeader in
    req_ok ← on_part (with_sv_os malloc_ok);
    if req_ok : bool then
      d ← match data with
          | Some d => lift (read_at 0 (Z.to_nat data_len) d)
          | None => if data_len =? 0 then mret [] else ub
          end;
      req ← lift (store_all [(0%nat, native_store 4 msg_id ++ native_store 4 data_len); (8%nat, d)]
                    (replicate (Z.to_nat req_len) 0));
      err ← pub_wl topic (u16 (usize (strlen + 4))) req (u16 req_len) 0 BM_COMMON_PUB_SUB_VERSION;
      mret (is_ok err)
    else mret false
  else mret false.

Definition _service_request_sub_to_reply_topic (str : bytes) (strlen : Z) : M St bool :=
  ok ← on_part (with_sv_os malloc_ok);
  if ok : bool then
    topic ← lift (service_topic str strlen BM_SERVICE_REP_STR);
    err ← sub_wl topic (u16 (usize (strlen + 4))) service_request_id;
    mret (is_ok err)
  else mret false.

(** The node of a request that is not sent stays: what is freed is the variable of
    the same name outside of the loop, which is null. *)
Definition bm_service_request (strlen : Z) (str : option bytes) (data_len : Z) (data : option bytes)
    (cb : option nat) (timeout_s : Z) : M St bool :=
  match str with
  | None => mret false
  | Some str =>
      if negb (data_len =? 0) && bool_decide (data = None) then mret false
      else if MAX_BM_SERVICE_DATA_SIZE <? data_len then mret false
      else
        node ← on_part (_create_node strlen str cb (u32 (timeout_s * 1000)));
        match node with
        | None => mret false
        | Some l =>
            added ← on_part (_request_list_add_request node);
            if negb added then mret false
            else
              subscribed ← _service_request_sub_to_reply_topic str strlen;
              if negb subscribed then mret false
              else
                s ← gets part;
                n ← lift (sv_requests s !! l);
                _service_request_send_request (rq_id n) str strlen data_len data
        end
  end.

(** The request is removed whether it has a callback or not.  The length of the data
    is the one of the header. *)
Definition _service_request_cb (data : bytes) : M St unit :=
  target ← lift (read_at 0 8 data);
  if native_load target =? node_id CFG then
    err ← on_part take_rq_lock;
    if is_ok err then
      id ← lift (read_at 8 4 data);
      let id := native_load id in
      s ← gets part;
      node ← lift (_service_request_list_get_node_by_id id s);
      _ ← match node with
          | Some l =>
              n ← lift (sv_requests s !! l);
              _ ← match reply_cb n with
                  | Some cb =>
                      size ← lift (read_at 12 4 data);
                      let size := native_load size in
                      on_part (modify (add_reply_call (MkReplyCall cb true id (rq_service_strlen n)
                        (rq_service n) size (read_at 16 (Z.to_nat size) data))))
                  | None => mret tt
                  end;
              _ ← on_part (_request_list_remove_request (Some l));
              mret tt
          | None => mret tt
          end;
      on_part give_rq_lock
    else mret tt
  else mret tt.

Definition _service_request_timer_callback `{Part timer_handler St} : M St unit :=
  _ ← on_part (timer_callback_handler_send_cb (Some timer_expiry_id) 0);
  mret tt.
End messages.
