(* ===== verification/ServiceRegistry.v ===== *)
(** * What the list of services stands for

    Names and handlers in the order of their registration.  A service is looked for
    by comparing as many characters as its name has, and one is removed by comparing
    as many as the name that is given has; so this holds for names of which none
    begins with another.  The subscriptions are those of an interface, which
    src/middleware/pubsub.c is proved to have in [ServiceNode]. *)
From S2P Require Import Prelude Util LinkedList SList Os Parts Device TimerHandler Services.

(** What the registry relies on: subscriptions stand for a state, in which a topic
    and a callback are subscribed or not; the calls change it as they should, for
    the subscriptions that the state admits. *)
Class SubscribeLaws (St : Type) `{Part services St} `{PubSubApi St} : Type := {
  sub_state : Type;
  sub_rep : St -> sub_state -> Prop;
  subscribed : sub_state -> bytes -> nat -> bool;
  sub_fits : sub_state -> bytes -> nat -> Prop;
  sub_add : bytes -> nat -> sub_state -> sub_state;
  sub_remove : bytes -> nat -> sub_state -> sub_state;
  sub_rep_part p s a : sub_rep s a -> sub_rep (set_part p s) a;
  sub_wl_law s a t cb :
    sub_rep s a -> (0 < length t < 255)%nat -> sub_fits a t cb ->
    exists s', sub_wl t (Z.of_nat (length t)) cb s = Some (BmOK, s') /\ sub_rep s' (sub_add t cb a)
      /\ part s' = part s;
  unsub_wl_law s a t cb :
    sub_rep s a -> (0 < length t < 255)%nat ->
    exists e s', unsub_wl t (Z.of_nat (length t)) cb s = Some (e, s') /\ is_ok e = subscribed a t cb
      /\ sub_rep s' (sub_remove t cb a) /\ part s' = part s;
  sub_add_law a t cb u k :
    subscribed (sub_add t cb a) u k = bool_decide (u = t /\ k = cb) || subscribed a u k;
  sub_remove_law s a t cb u k :
    sub_rep s a ->
    subscribed (sub_remove t cb a) u k = subscribed a u k && negb (bool_decide (u = t /\ k = cb))
}.

(** ** Names *)

Definition name_ok (n : bytes) : Prop := (0 < length n < 250)%nat /\ 0 ∉ n.

Record names_ok (names : list bytes) : Prop := {
  no_each : forall n, n ∈ names -> name_ok n;
  no_prefix : forall n m, n ∈ names -> m ∈ names -> n `prefix_of` m -> n = m
}.

Abbreviation offers := (list (bytes * nat)).

Fixpoint find_offer (n : bytes) (off : offers) : option nat :=
  match off with
  | [] => None
  | (m, h) :: off => if decide (m = n) then Some h else find_offer n off
  end.

Fixpoint remove_offer (n : bytes) (off : offers) : option offers :=
  match off with
  | [] => None
  | (m, h) :: off => if decide (m = n) then Some off else cons (m, h) <$> remove_offer n off
  end.

Lemma offer_split n off :
  (n ∉ off.*1 /\ find_offer n off = None /\ remove_offer n off = None)
  \/ exists off1 h off2, off = off1 ++ (n, h) :: off2 /\ n ∉ off1.*1
       /\ find_offer n off = Some h /\ remove_offer n off = Some (off1 ++ off2).
Proof.
  induction off as [|[m h] off IH]; [left; split; [apply not_elem_of_nil|done]|].
  cbn. destruct (decide (m = n)) as [->|Hne].
  - right. exists [], h, off. split; [done|]. split; [apply not_elem_of_nil|done].
  - destruct IH as [(Hn & -> & ->)|(off1 & h' & off2 & -> & Hn & -> & ->)].
    + left. rewrite not_elem_of_cons. done.
    + right. exists ((m, h) :: off1), h', off2. cbn. by rewrite not_elem_of_cons.
Qed.

Lemma strncmp_sym n a b : strncmp_eq n a b = strncmp_eq n b a.
Proof.
  revert a b. induction n as [|n IH]; intros [|x a] [|y b]; cbn; try done.
  rewrite (Z.eqb_sym y x). destruct (Z.eqb_spec x y) as [->|]; [|done]. by rewrite IH.
Qed.

(** Of names in memory, as many characters as one of them has are the same only for
    the same name. *)
Lemma strncmp_names names n m r r' :
  names_ok names -> n ∈ names -> m ∈ names ->
  strncmp_eq (length n) (n ++ r) (m ++ r') = Some (bool_decide (m = n)).
Proof.
  intros Hok Hn Hm. rewrite strncmp_prefix.
  - f_equal. apply bool_decide_ext. split; [|intros ->; by apply prefix_app_r].
    intros Hp. destruct (prefix_weak_total n m (m ++ r') Hp ltac:(by apply prefix_app_r)) as [Hx|Hx].
    + symmetry. by apply (no_prefix _ Hok).
    + by apply (no_prefix _ Hok).
  - apply (no_each _ Hok _ Hn).
  - intros Hp. assert (m = n) as ->.
    { apply (no_prefix _ Hok); [done|done|]. by apply (prefix_app_l _ _ r'). }
    destruct Hp as [k Hk]. rewrite <- (app_nil_r n) in Hk at 1. rewrite <- app_assoc in Hk.
    apply app_inv_head in Hk. by destruct r'; [rewrite app_nil_r|].
Qed.

(** ** The list *)

Definition offer_at (strs : gmap loc bytes) (x : loc * BmServiceListElem) (a : bytes * nat) : Prop :=
  (exists r, strs !! service (snd x) = Some (fst a ++ r))
  /\ service_strlen (snd x) = Z.of_nat (length (fst a)) /\ service_handler (snd x) = snd a.

Record lists_offers (names : list bytes) (s : services) (off : offers) : Prop := {
  lo_list : exists xs, slist sv_next (sv_elems s) (service_list s) xs /\ Forall2 (offer_at (sv_strings s)) xs off;
  lo_names : forall a, a ∈ off -> fst a ∈ names
}.

Record sv_ready (s : services) : Prop := { sr_lock : sv_lock s = Some true; sr_os : willing (sv_os s) }.

Lemma sv_malloc s : willing (sv_os s) -> with_sv_os malloc_ok s = Some (true, s).
Proof. destruct s as [? ? ? ? ? ? ? ? ? ? [a w t]]. intros [Ha Hw]. cbn in Ha, Hw. by subst. Qed.

Lemma take_sv_lock_free s : sv_ready s -> take_sv_lock s = Some (BmOK, set_sv_lock (Some false) s).
Proof.
  destruct s as [? ? lk ? ? ? ? ? ? ? [a w t]]. intros [Hl [Ha Hw]]. cbn in Hl, Ha, Hw. by subst.
Qed.

Lemma lists_offers_set names s off p h :
  lists_offers names s off -> (exists xs, slist sv_next h p xs /\ Forall2 (offer_at (sv_strings s)) xs off) ->
  lists_offers names (set_elems p h s) off.
Proof. intros [_ Hn] H. by split. Qed.

(** The element that the link of another one is changed to. *)
Definition relink (l : option loc) (e : BmServiceListElem) : BmServiceListElem :=
  MkElem (service e) (service_strlen e) (service_handler e) l.

Lemma relinked_offers strs l xs ys off :
  relinked (relink l) xs ys -> Forall2 (offer_at strs) xs off -> Forall2 (offer_at strs) ys off.
Proof. intros Hr. by apply (relinked_Forall2 (offer_at strs) _ _ _ _ Hr). Qed.

Lemma add_offer names s off p n r h :
  lists_offers names s off -> n ∈ names -> sv_strings s !! p = Some (n ++ r) -> willing (sv_os s) ->
  exists l s1 q h', _service_create_list_elem (Z.of_nat (length n)) p h s = Some (Some l, s1)
    /\ _service_list_add_service (Some l) s1 = Some (tt, set_elems q h' s)
    /\ lists_offers names (set_elems q h' s) (off ++ [(n, h)]).
Proof.
  intros [(xs & Hs & Ho) Hn] Hnm Hp Hos.
  set (l := fresh (dom (sv_elems s))). set (m := MkElem p (Z.of_nat (length n)) h None).
  assert (Hl : sv_elems s !! l = None) by (apply not_elem_of_dom, is_fresh).
  destruct (slist_append _ _ _ _ l m (relink (Some l)) Hs Hl) as (q & h' & ys & Hs' & Hr & Hc); [done..|].
  exists l, (set_elems (service_list s) (<[l := m]> (sv_elems s)) s), q, h'. split; [|split].
  - unfold _service_create_list_elem. by rewrite (bind_some _ _ _ _ _ (sv_malloc s Hos)).
  - unfold _service_list_add_service. erewrite bind_some by reflexivity.
    cbn [service_list sv_elems set_elems].
    destruct (service_list s) as [f|].
    + destruct Hc as (-> & e & k & En & El & ->). rewrite bind_lift, En. cbn [mbind option_bind].
      by rewrite bind_lift, El.
    + by destruct Hc as [-> ->].
  - split.
    + exists (ys ++ [(l, m)]). split; [exact Hs'|]. apply Forall2_app; [by eapply relinked_offers|].
      constructor; [|constructor]. split; [by exists r|done].
    + intros a. cbn. rewrite elem_of_app, list_elem_of_singleton. intros [Ha| ->]; [by apply Hn|done].
Qed.

(** A walk with a test for a name. *)
Lemma walk_offers (names : list bytes) s off n xs test :
  slist sv_next (sv_elems s) (service_list s) xs -> Forall2 (offer_at (sv_strings s)) xs off ->
  (forall a, a ∈ off -> fst a ∈ names) ->
  (forall x a, offer_at (sv_strings s) x a -> fst a ∈ names -> test (snd x) = Some (bool_decide (fst a = n))) ->
  (n ∉ off.*1 /\ exists prev, find_node sv_next (sv_elems s) test (service_list s) = Some (prev, None))
  \/ exists xs1 l e xs2 off1 h off2, xs = xs1 ++ (l, e) :: xs2 /\ off = off1 ++ (n, h) :: off2
      /\ n ∉ off1.*1 /\ Forall2 (offer_at (sv_strings s)) xs1 off1 /\ offer_at (sv_strings s) (l, e) (n, h)
      /\ Forall2 (offer_at (sv_strings s)) xs2 off2
      /\ find_node sv_next (sv_elems s) test (service_list s) = Some (last xs1.*1, Some l).
Proof.
  intros Hs Ho Hnm Ht.
  assert (Hother : forall xs off, Forall2 (offer_at (sv_strings s)) xs off -> (forall a, a ∈ off -> fst a ∈ names) ->
    n ∉ off.*1 -> forall l e, (l, e) ∈ xs -> test e = Some false).
  { clear xs off Hs Ho Hnm. intros xs off Ho Hnm Hn l e Hx. apply list_elem_of_lookup in Hx as [i Hi].
    destruct (Forall2_lookup_l _ _ _ _ _ Ho Hi) as (a & Ha & Hxa).
    pose proof (list_elem_of_lookup_2 _ _ _ Ha) as Hin.
    pose proof (Ht (l, e) a Hxa (Hnm a Hin)) as E. cbn in E. rewrite E. rewrite bool_decide_eq_false_2; [done|].
    intros <-. by apply Hn, list_elem_of_fmap_2. }
  destruct (offer_split n off) as [(Hn & _)|(off1 & h & off2 & -> & Hn & _)].
  - left. split; [done|]. eexists. eapply find_node_miss; [exact Hs|]. by eapply Hother.
  - right. apply Forall2_app_inv_r in Ho as (xs1 & xs2' & Ho1 & Ho2 & ->).
    apply Forall2_cons_inv_r in Ho2 as ([l e] & xs2 & Hx & Ho2 & ->).
    exists xs1, l, e, xs2, off1, h, off2. split; [done|]. split; [done|]. split; [done|].
    split; [done|]. split; [done|]. split; [done|]. eapply find_node_hit; [exact Hs| |].
    + eapply Hother; [done| |done]. intros a Ha. apply Hnm. rewrite elem_of_app. by left.
    + pose proof (Ht (l, e) (n, h) Hx) as E. cbn in E. rewrite E; [by rewrite bool_decide_eq_true_2|].
      apply (Hnm (n, h)). rewrite elem_of_app, elem_of_cons. tauto.
Qed.

Lemma remove_offer_at off1 n h off2 : n ∉ off1.*1 -> remove_offer n (off1 ++ (n, h) :: off2) = Some (off1 ++ off2).
Proof.
  induction off1 as [|[m k] off1 IH]; cbn; [by destruct (decide (n = n))|].
  rewrite not_elem_of_cons. intros [Hne Hn]. destruct (decide (m = n)); [naive_solver|]. by rewrite IH.
Qed.

Lemma find_offer_at off1 n h off2 : n ∉ off1.*1 -> find_offer n (off1 ++ (n, h) :: off2) = Some h.
Proof.
  induction off1 as [|[m k] off1 IH]; cbn; [by destruct (decide (n = n))|].
  rewrite not_elem_of_cons. intros [Hne Hn]. destruct (decide (m = n)); [naive_solver|]. by rewrite IH.
Qed.

Lemma offer_missing n off : n ∉ off.*1 -> find_offer n off = None /\ remove_offer n off = None.
Proof. intros Hn. destruct (offer_split n off) as [(_ & H)|(o1 & h & o2 & -> & _)]; [done|].
  destruct Hn. rewrite fmap_app, elem_of_app, fmap_cons, elem_of_cons. tauto.
Qed.

Lemma remove_service_spec names s off p n r :
  names_ok names -> lists_offers names s off -> n ∈ names -> sv_strings s !! p = Some (n ++ r) ->
  match remove_offer n off with
  | None => _service_list_remove_service (Some p) (Z.of_nat (length n)) s = Some (false, s)
  | Some off' => exists q h, _service_list_remove_service (Some p) (Z.of_nat (length n)) s
                             = Some (true, set_elems q h s) /\ lists_offers names (set_elems q h s) off'
  end.
Proof.
  intros Hok [(xs & Hs & Ho) Hnm] Hn Hp. unfold _service_list_remove_service.
  erewrite bind_some by reflexivity. rewrite bind_lift, Nat2Z.id.
  destruct (walk_offers names s off n xs (fun e => a ← service_string s e; b ← sv_strings s !! p;
    strncmp_eq (length n) a b) Hs Ho Hnm) as [(Hno & prev & ->)|(xs1 & l & e & xs2 & off1 & h & off2 & -> & -> & Hno & Ho1 & Hx & Ho2 & ->)].
  - intros x [m h] [[r' Hr] _] Hm. unfold service_string. rewrite Hr, Hp. cbn [mbind option_bind fst].
    rewrite strncmp_sym. by apply (strncmp_names names).
  - rewrite (proj2 (offer_missing _ _ Hno)). done.
  - rewrite remove_offer_at by done. cbn [mbind option_bind].
    destruct (slist_unlink _ _ _ _ _ _ _ (relink (sv_next e)) Hs ltac:(done)) as (Hl & q & h' & zs & Hs' & Hr & _ & Hc).
    exists q, h'. rewrite bind_lift, Hl. cbn [mbind option_bind]. split.
    + destruct (last xs1.*1) as [pr|].
      * destruct Hc as (_ & -> & k & Hk & _ & ->). rewrite Hk. reflexivity.
      * destruct Hc as (_ & -> & ->). reflexivity.
    + split.
      * exists (zs ++ xs2). split; [exact Hs'|]. apply Forall2_app; [by eapply relinked_offers|done].
      * intros a Ha. apply Hnm. revert Ha. cbn. rewrite !elem_of_app, elem_of_cons. tauto.
Qed.

(** ** Registering, unregistering and finding *)

Inductive registry_op : Type :=
| Register (p : loc) (n : bytes) (h : nat)
| Unregister (p : loc) (n : bytes).

(** The name is in the application's memory, with anything behind it. *)
Definition op_name_ok (names : list bytes) (strs : gmap loc bytes) (o : registry_op) : Prop :=
  match o with Register p n _ | Unregister p n => n ∈ names /\ exists r, strs !! p = Some (n ++ r) end.

Section registry.
Context {St : Type} `{PartLaws services St} `{PubSubApi St} `{Platform}.
Context (received : nat) (Hbits : 32 <= size_t_bits).

Definition run_registry_op (o : registry_op) : M St bool :=
  match o with
  | Register p n h => bm_service_register received (Z.of_nat (length n)) (Some p) (Some h)
  | Unregister p n => bm_service_unregister received (Z.of_nat (length n)) (Some p)
  end.

Fixpoint run_registry (ops : list registry_op) : M St (list bool) :=
  match ops with
  | [] => mret []
  | o :: ops => b ← run_registry_op o; bs ← run_registry ops; mret (b :: bs)
  end.

Lemma service_topic_spec n r suffix :
  name_ok n -> length suffix = 4%nat -> service_topic (n ++ r) (Z.of_nat (length n)) suffix = Some (n ++ suffix).
Proof.
  intros [Hl _] Hsuf. unfold service_topic. rewrite Nat2Z.id, read_at_head by done. cbn [mbind option_bind].
  rewrite usize_small by lia.
  refine (eq_trans (store_chunks [n; suffix] [] (replicate (Z.to_nat (Z.of_nat (length n) + 4)) 0) _) _);
    cbn [concat app]; rewrite app_nil_r, length_app, Hsuf.
  - rewrite length_replicate. lia.
  - rewrite drop_ge, app_nil_r; [done|]. rewrite length_replicate. lia.
Qed.

Lemma topic_args n : name_ok n ->
  u16 (usize (Z.of_nat (length n) + 4)) = Z.of_nat (length n + 4)%nat.
Proof. intros [Hl _]. rewrite usize_small, u16_small by lia. lia. Qed.

(** The lock is held: what the handlers work on. *)
Definition sv_locked (s : services) : services := set_sv_lock (Some false) s.

Lemma give_sv_lock_spec s : sv_lock s = Some false -> give_sv_lock s = Some (tt, set_sv_lock (Some true) s).
Proof. intros E. unfold give_sv_lock, modify. by rewrite E. Qed.

Lemma unlocked s : sv_lock s = Some true -> set_sv_lock (Some true) (sv_locked s) = s.
Proof. destruct s. cbn. by intros ->. Qed.

Lemma unlock v (t : St) :
  part t = sv_locked v -> sv_lock v = Some true -> on_part give_sv_lock t = Some (tt, set_part v t).
Proof.
  intros Ht Hv. erewrite on_part_some by (rewrite Ht; by apply give_sv_lock_spec). by rewrite unlocked.
Qed.

Context (call_handler : nat -> Z -> bytes -> Z -> bytes -> Z -> M St (bool * Z * bytes)).

(** A message of the topic of [n] is handed to the first service of that name. *)
Lemma received_dispatch names (s : St) off n node more topic_len data data_len ty ve :
  names_ok names -> lists_offers names (part s) off -> sv_ready (part s) -> n ∈ names ->
  let received := _service_request_received_cb call_handler node (n ++ BM_SERVICE_REQ_STR ++ more) topic_len
                    data data_len ty ve s in
  match find_offer n off with
  | None => received = Some (tt, s)
  | Some h => exists e r, service_handler e = h /\ service_strlen e = Z.of_nat (length n)
      /\ sv_strings (part s) !! service e = Some (n ++ r)
      /\ received = (_ ← serve_request call_handler e node topic_len data data_len; on_part give_sv_lock)
                       (set_part (sv_locked (part s)) s)
  end.
Proof.
  intros Hok Ho Hr Hn rec. unfold rec, _service_request_received_cb.
  rewrite (bind_some _ _ _ _ _ (on_part_some _ _ _ _ (take_sv_lock_free _ Hr))). cbn [is_ok].
  fold (sv_locked (part s)). set (s1 := set_part (sv_locked (part s)) s : St).
  assert (Hp1 : part s1 = sv_locked (part s)) by (unfold s1; by rewrite part_set).
  erewrite bind_some by reflexivity. rewrite Hp1, bind_lift.
  destruct Ho as [(xs & Hl & Hxs) Hnm].
  destruct (walk_offers names (sv_locked (part s)) off n xs
    (fun e => str ← service_string (sv_locked (part s)) e;
              strncmp_eq (Z.to_nat (service_strlen e)) str (n ++ BM_SERVICE_REQ_STR ++ more)) Hl Hxs Hnm)
    as [(Hno & prev & ->)|(xs1 & l & e & xs2 & off1 & h & off2 & -> & -> & Hno & _ & Hx & _ & ->)].
  - intros x [m h] [[r' Hr'] [Hlen _]] Hm. cbn [fst] in *. unfold service_string. rewrite Hr'. cbn [mbind option_bind].
    rewrite Hlen, Nat2Z.id, (strncmp_names names) by done. f_equal. apply bool_decide_ext. naive_solver.
  - rewrite (proj1 (offer_missing _ _ Hno)). cbn [mbind option_bind].
    erewrite (bind_some (mret tt)) by reflexivity.
    rewrite (unlock _ s1 Hp1 (sr_lock _ Hr)). unfold s1. by rewrite set_part_twice, set_part_same.
  - rewrite find_offer_at by done. destruct Hx as [[r Hx] [Hlen Hh]]. exists e, r.
    split; [done|]. split; [done|]. split; [exact Hx|]. cbn [mbind option_bind].
    assert (El : sv_elems (sv_locked (part s)) !! l = Some e)
      by (eapply slist_lookup; [exact Hl|]; rewrite elem_of_app, elem_of_cons; tauto).
    by rewrite bind_assoc, bind_lift, El.
Qed.

Section subscriptions.
Context `{!SubscribeLaws St}.

(** What the operations should do to the services and the subscriptions. *)
Definition registry_spec_op (o : registry_op) (a : offers * sub_state) : bool * (offers * sub_state) :=
  let '(off, subs) := a in
  match o with
  | Register p n h => (true, (off ++ [(n, h)], sub_add (n ++ BM_SERVICE_REQ_STR) received subs))
  | Unregister p n =>
      (bool_decide (n ∈ off.*1),
       (filter (fun x => fst x <> n) off, sub_remove (n ++ BM_SERVICE_REQ_STR) received subs))
  end.

Fixpoint registry_spec (ops : list registry_op) (a : offers * sub_state) : list bool * (offers * sub_state) :=
  match ops with
  | [] => ([], a)
  | o :: ops =>
      let '(b, a) := registry_spec_op o a in
      let '(bs, a) := registry_spec ops a in
      (b :: bs, a)
  end.

(** A name is registered only while it is not, and when its topic can be subscribed
    to. *)
Fixpoint registry_fits (ops : list registry_op) (a : offers * sub_state) : Prop :=
  match ops with
  | [] => True
  | o :: ops =>
      match o with
      | Register p n h => n ∉ (fst a).*1 /\ sub_fits (snd a) (n ++ BM_SERVICE_REQ_STR) received
      | Unregister p n => True
      end /\ registry_fits ops (snd (registry_spec_op o a))
  end.

(** Exactly the topics of the services are subscribed. *)
Record registry_rep (names : list bytes) (strs : gmap loc bytes) (s : St) (a : offers * sub_state)
    : Prop := {
  rr_list : lists_offers names (part s) (fst a);
  rr_ready : sv_ready (part s);
  rr_strings : sv_strings (part s) = strs;
  rr_subs : sub_rep s (snd a);
  rr_once : NoDup (fst a).*1;
  rr_topics n : n ∈ names ->
    subscribed (snd a) (n ++ BM_SERVICE_REQ_STR) received = bool_decide (n ∈ (fst a).*1)
}.

Lemma req_topic_length n : name_ok n -> (0 < length (n ++ BM_SERVICE_REQ_STR) < 255)%nat.
Proof. intros [? _]. rewrite length_app. cbn. lia. Qed.

Lemma sub_topic_spec n r (s : St) subs :
  name_ok n -> willing (sv_os (part s)) -> sub_rep s subs ->
  sub_fits subs (n ++ BM_SERVICE_REQ_STR) received ->
  exists s', _service_sub_unsub_to_req_topic received (Z.of_nat (length n)) (n ++ r) true s = Some (true, s')
    /\ sub_rep s' (sub_add (n ++ BM_SERVICE_REQ_STR) received subs) /\ part s' = part s.
Proof.
  intros Hn Hos Hr Hf. unfold _service_sub_unsub_to_req_topic.
  rewrite (bind_some _ _ _ _ _ (on_part_pure _ _ _ (sv_malloc _ Hos))), bind_lift.
  rewrite service_topic_spec, topic_args by done. cbn [mbind option_bind].
  rewrite <- (length_app n BM_SERVICE_REQ_STR : _ = (length n + 4)%nat).
  destruct (sub_wl_law s subs _ received Hr (req_topic_length n Hn) Hf) as (s' & E & Hr' & Hp).
  exists s'. by rewrite (bind_some _ _ _ _ _ E).
Qed.

Lemma unsub_topic_spec n r (s : St) subs :
  name_ok n -> willing (sv_os (part s)) -> sub_rep s subs ->
  exists s', _service_sub_unsub_to_req_topic received (Z.of_nat (length n)) (n ++ r) false s
             = Some (subscribed subs (n ++ BM_SERVICE_REQ_STR) received, s')
    /\ sub_rep s' (sub_remove (n ++ BM_SERVICE_REQ_STR) received subs) /\ part s' = part s.
Proof.
  intros Hn Hos Hr. unfold _service_sub_unsub_to_req_topic.
  rewrite (bind_some _ _ _ _ _ (on_part_pure _ _ _ (sv_malloc _ Hos))), bind_lift.
  rewrite service_topic_spec, topic_args by done. cbn [mbind option_bind].
  rewrite <- (length_app n BM_SERVICE_REQ_STR : _ = (length n + 4)%nat).
  destruct (unsub_wl_law s subs _ received Hr (req_topic_length n Hn)) as (e & s' & E & <- & Hr' & Hp).
  exists s'. by rewrite (bind_some _ _ _ _ _ E).
Qed.

Lemma app_string_spec p m (s : St) : sv_strings (part s) !! p = Some m -> app_string p s = Some (m, s).
Proof. intros E. unfold app_string. erewrite bind_some by reflexivity. unfold lift. by rewrite E. Qed.

Lemma lists_offers_lock names s off l : lists_offers names s off -> lists_offers names (set_sv_lock l s) off.
Proof. intros [Hl Hn]. by split. Qed.

Lemma give_back q h v (t : St) :
  part t = set_elems q h (sv_locked v) -> sv_lock v = Some true ->
  on_part give_sv_lock t = Some (tt, set_part (set_elems q h v) t).
Proof. apply (unlock (set_elems q h v)). Qed.

Lemma rep_after names s off subs (t : St) q h :
  lists_offers names (set_elems q h (sv_locked s)) off -> sv_ready s -> sub_rep t subs -> NoDup off.*1 ->
  (forall n, n ∈ names -> subscribed subs (n ++ BM_SERVICE_REQ_STR) received = bool_decide (n ∈ off.*1)) ->
  registry_rep names (sv_strings s) (set_part (set_elems q h s) t) (off, subs).
Proof.
  intros [Hl Hn] [] Hs Hd Hm. split; rewrite ?part_set; cbn [fst snd]; [by split|by split|done|by apply sub_rep_part|done|done].
Qed.

Lemma req_topic_inj n m : n ++ BM_SERVICE_REQ_STR = m ++ BM_SERVICE_REQ_STR <-> n = m.
Proof. split; [apply app_inj_2; done|by intros ->]. Qed.

Lemma register_refined names strs (s : St) off subs p n h :
  names_ok names -> registry_rep names strs s (off, subs) -> op_name_ok names strs (Register p n h) ->
  n ∉ off.*1 -> sub_fits subs (n ++ BM_SERVICE_REQ_STR) received ->
  exists s', run_registry_op (Register p n h) s = Some (true, s')
    /\ registry_rep names strs s' (snd (registry_spec_op (Register p n h) (off, subs))).
Proof.
  intros Hok [Ho Hr <- Hs Hd Hm] [Hn [r Hp]] Hnew Hfit. cbn [run_registry_op registry_spec_op fst snd] in *.
  unfold bm_service_register.
  rewrite (bind_some _ _ _ _ _ (on_part_some _ _ _ _ (take_sv_lock_free _ Hr))). cbn [is_ok].
  destruct (add_offer names (sv_locked (part s)) off p n r h) as (l & s1 & q & h' & E1 & E2 & Ho');
    [by apply lists_offers_lock|done|exact Hp|exact (sr_os _ Hr)|].
  erewrite bind_some by (apply on_part_some; rewrite part_set; exact E1).
  set (s2 := set_part (set_elems q h' (sv_locked (part s))) s).
  assert (E3 : on_part (_service_list_add_service (Some l)) (set_part s1 (set_part (sv_locked (part s)) s)) = Some (tt, s2)).
  { erewrite on_part_some by (rewrite part_set; exact E2). by rewrite !set_part_twice. }
  cbv iota. rewrite bind_assoc, (bind_some _ _ _ _ _ E3), bind_assoc.
  rewrite (bind_some _ _ _ _ _ (app_string_spec p (n ++ r) s2 ltac:(unfold s2; by rewrite part_set))).
  destruct (sub_topic_spec n r s2 subs (no_each _ Hok _ Hn) ltac:(unfold s2; rewrite part_set; exact (sr_os _ Hr))
    ltac:(by apply sub_rep_part) Hfit) as (s3 & E & Hs3 & Hp3). rewrite (bind_some _ _ _ _ _ E).
  unfold s2 in Hp3. rewrite part_set in Hp3.
  assert (E4 : on_part give_sv_lock s3 = Some (tt, set_part (set_elems q h' (part s)) s3)).
  { apply give_back; [exact Hp3|exact (sr_lock _ Hr)]. }
  rewrite (bind_some _ _ _ _ _ E4). eexists. split; [reflexivity|].
  apply rep_after; [exact Ho'|done|done| |].
  - rewrite fmap_app. apply NoDup_app. split_and!; [done| |apply NoDup_singleton].
    by intros x Hx ->%list_elem_of_singleton.
  - intros m Hmn. rewrite sub_add_law, Hm by done. rewrite <- bool_decide_or. apply bool_decide_ext.
    rewrite fmap_app, elem_of_app, req_topic_inj. cbn. rewrite list_elem_of_singleton. tauto.
Qed.

Lemma filter_missing n (off : offers) : n ∉ off.*1 -> filter (fun x => fst x <> n) off = off.
Proof.
  induction off as [|[k g] off IH]; [done|]. cbn [fmap list_fmap fst]. rewrite not_elem_of_cons.
  intros [Hk Hks]. rewrite filter_cons_True by (cbn; congruence). by rewrite IH.
Qed.

Lemma remove_offer_once n off :
  NoDup off.*1 -> n ∈ off.*1 -> remove_offer n off = Some (filter (fun x => fst x <> n) off).
Proof.
  induction off as [|[m h] off IH]; cbn [fmap list_fmap fst remove_offer]; [by intros _ ?%not_elem_of_nil|].
  intros [Hm Hd]%NoDup_cons Hn. destruct (decide (m = n)) as [->|Hne].
  - rewrite filter_cons_False by (cbn; tauto). by rewrite filter_missing.
  - apply elem_of_cons in Hn as [->|Hn]; [done|]. by rewrite IH, filter_cons_True.
Qed.

Lemma filter_names n m (off : offers) : m ∈ (filter (fun x => fst x <> n) off).*1 <-> m ∈ off.*1 /\ m <> n.
Proof.
  rewrite !list_elem_of_fmap. setoid_rewrite list_elem_of_filter. naive_solver.
Qed.

Lemma filter_once n (off : offers) : NoDup off.*1 -> NoDup (filter (fun x => fst x <> n) off).*1.
Proof.
  intros Hd. eapply sublist_NoDup; [exact Hd|]. apply fmap_sublist, sublist_filter.
Qed.

Lemma unregister_refined names strs (s : St) off subs p n :
  names_ok names -> registry_rep names strs s (off, subs) -> op_name_ok names strs (Unregister p n) ->
  exists s', run_registry_op (Unregister p n) s = Some (bool_decide (n ∈ off.*1), s')
    /\ registry_rep names strs s' (snd (registry_spec_op (Unregister p n) (off, subs))).
Proof.
  intros Hok [Ho Hr <- Hs Hd Hm] [Hn [r Hp]]. cbn [run_registry_op registry_spec_op fst snd] in *.
  unfold bm_service_unregister.
  rewrite (bind_some _ _ _ _ _ (on_part_some _ _ _ _ (take_sv_lock_free _ Hr))). cbn [is_ok].
  set (s1 := set_part (sv_locked (part s)) s : St).
  assert (Hp1 : part s1 = sv_locked (part s)) by (unfold s1; by rewrite part_set).
  assert (Hs1 : sub_rep s1 subs) by (by apply sub_rep_part).
  rewrite (bind_some _ _ _ _ _ (app_string_spec p (n ++ r) s1 ltac:(by rewrite Hp1))).
  destruct (unsub_topic_spec n r s1 subs (no_each _ Hok _ Hn) ltac:(rewrite Hp1; exact (sr_os _ Hr)) Hs1)
    as (s3 & E & Hs3 & Hp3). rewrite (bind_some _ _ _ _ _ E), (Hm n Hn). rewrite Hp1 in Hp3.
  assert (Hsame : forall v, v = set_elems (service_list v) (sv_elems v) v) by (by intros []).
  assert (Hafter : forall m, m ∈ names ->
    subscribed (sub_remove (n ++ BM_SERVICE_REQ_STR) received subs) (m ++ BM_SERVICE_REQ_STR) received
    = bool_decide (m ∈ (filter (fun x => fst x <> n) off).*1)).
  { intros m Hmn. rewrite (sub_remove_law s1), Hm by done. rewrite <- bool_decide_not, <- bool_decide_and.
    apply bool_decide_ext. rewrite filter_names, req_topic_inj. tauto. }
  case_bool_decide as Hin.
  2: { erewrite (bind_some (mret false)) by reflexivity.
    erewrite bind_some by (eapply give_back; [rewrite Hp3; apply (Hsame (sv_locked (part s)))|exact (sr_lock _ Hr)]).
    eexists. split; [reflexivity|].
    apply rep_after; [rewrite filter_missing by done; destruct Ho; by split|done|done|by apply filter_once|done]. }
  pose proof (remove_service_spec names (sv_locked (part s)) off p n r Hok ltac:(by apply lists_offers_lock) Hn Hp) as E2.
  rewrite (remove_offer_once n off Hd Hin) in E2. destruct E2 as (q & h & E2 & Ho').
  erewrite bind_some by (apply on_part_some; rewrite Hp3; exact E2).
  erewrite bind_some by (eapply give_back; [rewrite part_set; reflexivity|exact (sr_lock _ Hr)]).
  eexists. split; [reflexivity|]. rewrite set_part_twice.
  apply rep_after; [exact Ho'|done|done|by apply filter_once|done].
Qed.

Lemma registry_refined names strs ops (s : St) a :
  names_ok names -> Forall (op_name_ok names strs) ops -> registry_rep names strs s a ->
  registry_fits ops a ->
  exists s', run_registry ops s = Some (fst (registry_spec ops a), s')
    /\ registry_rep names strs s' (snd (registry_spec ops a)).
Proof.
  intros Hok Hops. revert s a. induction Hops as [|o ops Ho _ IH]; intros s [off subs] Hr Hf; [by exists s|].
  destruct Hf as [Hf Hfs]. cbn [registry_spec run_registry].
  assert (E : exists s', run_registry_op o s = Some (fst (registry_spec_op o (off, subs)), s')
    /\ registry_rep names strs s' (snd (registry_spec_op o (off, subs)))).
  { destruct o; [destruct Hf; by eapply register_refined|by eapply unregister_refined]. }
  destruct E as (s1 & E & Hr1). rewrite (bind_some _ _ _ _ _ E).
  destruct (IH s1 _ Hr1 Hfs) as (s2 & E2 & Hr2). rewrite (bind_some _ _ _ _ _ E2).
  destruct (registry_spec_op o (off, subs)) as [b a1]. cbn [fst snd] in *.
  destruct (registry_spec ops a1) as [bs a2]. by exists s2.
Qed.

(** C12: the services of a node are a list of distinct names with handlers.  For names
    of which none begins with another, a sequence of registering and unregistering in
    which a name is registered only while it is not registered, and while its topic
    name/req can be subscribed to, succeeds on every platform: registering appends
    the name and is true; unregistering takes the name away, with its subscription,
    and is true exactly when it was registered; and the topics of exactly the names
    in the list are subscribed.  Afterwards a message of the topic of a name is
    handed to the handler of that name, whose own memory the name is read from, and
    is ignored when the name is not registered.  Outside of this the code goes
    wrong: a service whose registration fails stays in the list
    ([ServiceCall.failed_registration_stays]), and a name that another one begins
    with hides it ([ServiceCall.service_hidden]) or is removed in its place
    ([ServiceCall.longer_service_removed]). *)
Theorem service_registry names strs ops (s : St) a :
  names_ok names -> Forall (op_name_ok names strs) ops -> registry_rep names strs s a ->
  registry_fits ops a ->
  exists s', let '(bs, a') := registry_spec ops a in
    run_registry ops s = Some (bs, s') /\ registry_rep names strs s' a'
    /\ forall n node more topic_len data data_len ty ve, n ∈ names ->
         let received := _service_request_received_cb call_handler node (n ++ BM_SERVICE_REQ_STR ++ more)
                           topic_len data data_len ty ve s' in
         match find_offer n (fst a') with
         | None => received = Some (tt, s')
         | Some h => exists e r, service_handler e = h /\ service_strlen e = Z.of_nat (length n)
             /\ strs !! service e = Some (n ++ r)
             /\ received = (_ ← serve_request call_handler e node topic_len data data_len; on_part give_sv_lock)
                              (set_part (sv_locked (part s')) s')
         end.
Proof.
  intros Hok Hops Hr Hf. destruct (registry_refined names strs ops s a Hok Hops Hr Hf) as (s' & E & Hr').
  exists s'. destruct (registry_spec ops a) as [bs [off subs]]. cbn [fst snd] in *.
  split; [exact E|]. split; [exact Hr'|]. destruct Hr' as [Ho Hrd <- _ _ _].
  intros n node more topic_len data data_len ty ve Hn. by eapply received_dispatch.
Qed.
End subscriptions.
End registry.
