(* ===== verification/ServiceNode.v ===== *)
(** * Services over publish and subscribe

    A node with both components: the calls of the services are those of
    src/middleware/pubsub.c, which keeps what the registry relies on. *)
From S2P Require Import Prelude Util LinkedList SList Os LinuxBuf L2 BmLinux Parts Device TimerHandler Resources Middleware PubSub Subscriptions Services ServiceRegistry.

Definition service_node : Type := pubsub * services.

#[export] Instance service_node_services : Part services service_node :=
  { part s := snd s; set_part t s := (fst s, t) }.
#[export] Instance service_node_services_laws : PartLaws services service_node.
Proof. by split; intros; repeat match goal with x : service_node |- _ => destruct x end. Qed.

Section node.
Context `{Platform} `{L2Os} (own_id : Z).

#[export] Instance service_node_pubsub : PubSubApi service_node := {
  sub_wl t n cb := on_part (bm_sub_wl (Some t) n (Some cb));
  unsub_wl t n cb := on_part (bm_unsub_wl (Some t) n (Some cb));
  pub_wl t n d len type version := on_part (bm_pub_wl own_id (Some t) n (Some d) len type version)
}.

(** The topics with their callbacks, and the names in the tables of resources. *)
Definition node_subs : Type := list (bytes * list nat) * (ResourceType -> list bytes).

Definition node_subscribed (a : node_subs) (t : bytes) (cb : nat) : bool :=
  bool_decide (Exists (fun e => fst e = t /\ cb ∈ snd e) (fst a)).

Definition node_sub_add (t : bytes) (cb : nat) (a : node_subs) : node_subs :=
  (topics_add t cb (fst a), names_add t (bool_decide (t ∈ snd a SUB)) SUB (snd a)).

(** What [Subscriptions.op_fits] asks of a subscription. *)
Definition node_sub_fits (a : node_subs) (t : bytes) (cb : nat) : Prop :=
  op_fits (OpSub t cb) (MkPsSpec (fst a) (snd a) []).

Lemma exists_add t c subs u k :
  Exists (fun e => fst e = u /\ k ∈ snd e) (topics_add t c subs)
  <-> (u = t /\ k = c) \/ Exists (fun e => fst e = u /\ k ∈ snd e) subs.
Proof.
  induction subs as [|[v cs] subs IH]; cbn [topics_add].
  - rewrite Exists_cons, Exists_nil. cbn. rewrite list_elem_of_singleton. naive_solver.
  - case_decide as Hv; rewrite !Exists_cons; cbn [fst snd]; [|rewrite IH; tauto].
    case_decide; [naive_solver|]. rewrite elem_of_app, list_elem_of_singleton. naive_solver.
Qed.

Lemma exists_topic (subs : list (bytes * list nat)) t k :
  Exists (fun e => fst e = t /\ k ∈ snd e) subs -> t ∈ subs.*1.
Proof. intros ([u cs] & He & <- & _)%Exists_exists. by apply list_elem_of_fmap_2' with (u, cs). Qed.

Lemma exists_cancel t c subs u k :
  NoDup subs.*1 ->
  Exists (fun e => fst e = u /\ k ∈ snd e) (snd (topics_cancel t c subs))
  <-> Exists (fun e => fst e = u /\ k ∈ snd e) subs /\ ~ (u = t /\ k = c).
Proof.
  induction subs as [|[v cs] subs IH]; cbn [topics_cancel fmap list_fmap fst].
  { cbn [snd]. rewrite !Exists_nil. tauto. }
  intros [Hv Hd]%NoDup_cons. specialize (IH Hd).
  assert (Hout : u = v -> ~ Exists (fun e => fst e = u /\ k ∈ snd e) subs).
  { intros -> He. by apply exists_topic in He. }
  case_decide as Ht.
  - subst v. case_decide as Hc.
    + assert (Hf : k ∈ filter (fun d => d <> c) cs <-> k ∈ cs /\ k <> c)
        by (rewrite list_elem_of_filter; tauto).
      cbn [snd]. destruct (filter _ cs) as [|d ds];
        rewrite ?Exists_cons; cbn [fst snd]; [|rewrite Hf; naive_solver].
      assert (Hnil : ~ (k ∈ cs /\ k <> c)) by (intros Hx%Hf; by apply not_elem_of_nil in Hx).
      naive_solver.
    + cbn [snd]. rewrite !Exists_cons. cbn [fst snd]. naive_solver.
  - destruct (topics_cancel t c subs) as [e subs']. cbn [snd] in *. rewrite !Exists_cons, IH. cbn [fst snd].
    naive_solver.
Qed.

Lemma cancel_ok t c subs :
  NoDup subs.*1 ->
  is_ok (fst (topics_cancel t c subs)) = bool_decide (Exists (fun e => fst e = t /\ c ∈ snd e) subs).
Proof.
  induction subs as [|[v cs] subs IH]; cbn [topics_cancel fmap list_fmap fst].
  { intros _. symmetry. apply bool_decide_eq_false_2. rewrite Exists_nil. tauto. }
  intros [Hv Hd]%NoDup_cons. specialize (IH Hd). case_decide as Ht.
  - subst v. case_decide as Hc; cbn [fst is_ok]; symmetry.
    + apply bool_decide_eq_true_2. by left.
    + apply bool_decide_eq_false_2. rewrite Exists_cons. cbn. intros [[_ ?]|He]; [done|].
      by apply exists_topic in He.
  - destruct (topics_cancel t c subs) as [e subs']. cbn [fst] in *. rewrite IH. apply bool_decide_ext.
    rewrite Exists_cons. cbn [fst snd]. naive_solver.
Qed.

#[export] Instance service_node_laws : SubscribeLaws service_node.
Proof.
  refine {| sub_state := node_subs;
            sub_rep s a := ps_inv (fst s) (fst a) (snd a) /\ once (fst a);
            subscribed := node_subscribed; sub_fits := node_sub_fits; sub_add := node_sub_add;
            sub_remove t cb a := (snd (topics_cancel t cb (fst a)), snd a) |}.
  - done.
  - intros [ps sv] [subs nm] t cb [Hs Hon] Ht [Hf Ha]. cbn [fst snd spec_subs spec_names] in *.
    pose proof (bm_sub_wl_spec ps subs nm t cb Hs Ht) as E.
    rewrite (topic_find_apart t _ Ha), (subs_add_once _ _ _ Hf) in E. destruct E as (ps' & E & Hs' & _).
    exists (ps', sv). split; [exact (on_part_some _ _ _ _ E)|]. split; [|done].
    split; [done|by apply topics_add_once].
  - intros [ps sv] [subs nm] t cb [Hs Hon] Ht. cbn [fst snd] in *.
    destruct (bm_unsub_wl_spec ps subs nm t cb Hs Ht) as (ps' & E & Hs' & _).
    rewrite (subs_remove_once _ _ _ Hon) in E, Hs'. eexists _, (ps', sv).
    split; [exact (on_part_some _ _ _ _ E)|]. split; [apply cancel_ok, (pi_topics _ _ _ Hs)|].
    split; [|done]. split; [done|by apply topics_cancel_once].
  - intros [subs nm] t cb u k. unfold node_subscribed. cbn [fst node_sub_add].
    rewrite <- bool_decide_or. apply bool_decide_ext, exists_add.
  - intros s [subs nm] t cb u k [Hs _]. unfold node_subscribed. cbn [fst snd] in *.
    rewrite <- bool_decide_not, <- bool_decide_and. apply bool_decide_ext, exists_cancel, (pi_topics _ _ _ Hs).
Defined.
End node.

(** ** A concrete run *)

(** The strings of an application: "ab" and "cd". *)
Definition sample_services : services :=
  MkServices None ∅ (Some true) (<[1%positive := [97; 98; 0]]> (<[2%positive := [99; 100]]> ∅)) None ∅ 0
    (Some true) (Some true) [] (MkOs [] [] 0).
Definition sample_service_node : service_node := (sample_pubsub [] [], sample_services).

Definition sample_registry_ops : list registry_op :=
  [Register 1%positive [97; 98] 5; Register 2%positive [99; 100] 6; Unregister 1%positive [97; 98];
   Unregister 1%positive [97; 98]].

Definition silent (_ : nat) (_ : Z) (_ : bytes) (_ : Z) (_ : bytes) (_ : Z) : M service_node (bool * Z * bytes) :=
  mret (false, 0, []).

Definition ab_req : bytes := [97; 98; 47; 114; 101; 113].
Definition cd_req : bytes := [99; 100; 47; 114; 101; 113].

Lemma service_registry_witness :
  let P := platform_linux in let O := sample_os in let A := service_node_pubsub 7 in
  exists s', run_registry 3 sample_registry_ops sample_service_node = Some ([true; true; true; false], s')
    /\ (forall data, _service_request_received_cb silent 9 ab_req 6 data 8 0 2 s' = Some (tt, s'))
    /\ (forall data, exists e, service_handler e = 6%nat
          /\ _service_request_received_cb silent 9 cd_req 6 data 8 0 2 s'
             = (_ ← serve_request silent e 9 6 data 8; on_part give_sv_lock) (set_part (sv_locked (part s')) s')).
Proof.
  intros P O A.
  assert (Hok : names_ok [[97; 98]; [99; 100]]).
  { split.
    - intros n Hn. rewrite !elem_of_cons in Hn. destruct Hn as [->|[->|Hn]]; [split; [cbn; lia|]..|].
      + by apply (bool_decide_unpack _).
      + by apply (bool_decide_unpack _).
      + by apply not_elem_of_nil in Hn.
    - intros n m Hn Hm Hp. rewrite !elem_of_cons in Hn, Hm.
      destruct Hn as [->|[->|Hn]], Hm as [->|[->|Hm]]; try done;
        try (by apply not_elem_of_nil in Hn); try (by apply not_elem_of_nil in Hm);
        apply prefix_cons_inv_1 in Hp; done. }
  pose proof (service_registry 3 (ltac:(done) : 32 <= @size_t_bits platform_linux) silent [[97; 98]; [99; 100]] (sv_strings sample_services)
    sample_registry_ops sample_service_node ([], ([], fun _ => [])) Hok) as H.
  destruct H as (s' & H).
  - repeat constructor; cbn; by first [eexists [0]; reflexivity|eexists []; reflexivity].
  - split.
    + split; [|by intros a0 ?%not_elem_of_nil]. exists []. split; [|constructor]. split; [done|apply NoDup_nil_2].
    + by split.
    + done.
    + split; [|constructor]. apply (fresh_represents (sample_pubsub [] [])). by split; [..|exists resources_zero].
    + apply NoDup_nil_2.
    + intros n _. symmetry. by apply bool_decide_eq_false_2, not_elem_of_nil.
  - repeat split; try done; apply (bool_decide_unpack _); vm_compute; exact I.
  - exists s'. match type of H with match ?r with _ => _ end => destruct r as [bs a1] eqn:E end.
    destruct H as (Er & _ & Hd). vm_compute in E. injection E as <- <-. split; [exact Er|]. split.
    + intros data. by apply (Hd [97; 98] 9 []); left.
    + intros data. destruct (Hd [99; 100] 9 [] 6 data 8 0 2) as (e & r & He & _ & _ & E'); [by right; left|].
      exists e. split; [exact He|exact E'].
Defined.
