(* ===== verification/ServiceRequests.v ===== *)
(** * The requests that wait for an answer

    What the list of src/middleware/bm_service_request.c stands for: the requests in
    the order in which they were made.  Each is answered once, by a reply or by the
    timer, when its time is over. *)
From S2P Require Import Prelude Util LinkedList SList Os Parts Device TimerHandler Services.

(** A request without its link. *)
Definition set_rq_next (p : option loc) (n : BmServiceRequestNode) : BmServiceRequestNode :=
  MkRequestNode (rq_service n) (rq_service_strlen n) (reply_cb n) (timeout_ms n) (request_start_ms n) (rq_id n) p.

Record pending : Type := MkPending {
  sp_requests : list BmServiceRequestNode; sp_count : Z; sp_now : Z; sp_calls : list reply_call
}.

Record rq_ready (s : services) : Prop := { rr_lock : rq_lock s = Some true; rr_os : willing (sv_os s) }.

Record lists_requests (s : services) (a : pending) : Prop := {
  lr_list : exists xs, slist rq_next (sv_requests s) (service_request_list s) xs
    /\ set_rq_next None <$> xs.*2 = sp_requests a;
  lr_count : request_count s = sp_count a;
  lr_now : os_ticks_ms (sv_os s) = sp_now a;
  lr_calls : sv_calls s = sp_calls a
}.

(** ** What the operations do to the requests *)

(** The first element that passes, and the others. *)
Fixpoint take_first {A} (f : A -> bool) (l : list A) : option (A * list A) :=
  match l with
  | [] => None
  | x :: l => if f x then Some (x, l) else '(y, l) ← take_first f l; Some (y, x :: l)
  end.

Lemma take_first_split {A} (f : A -> bool) l :
  (take_first f l = None /\ forall x, x ∈ l -> f x = false)
  \/ exists l1 x l2, l = l1 ++ x :: l2 /\ (forall y, y ∈ l1 -> f y = false) /\ f x = true
       /\ take_first f l = Some (x, l1 ++ l2).
Proof.
  induction l as [|x l IH]; [left; split; [done|by intros x ?%not_elem_of_nil]|].
  cbn. destruct (f x) eqn:Ex.
  - right. exists [], x, l. split; [done|]. split; [by intros y ?%not_elem_of_nil|done].
  - destruct IH as [[-> Hl]|(l1 & y & l2 & -> & Hl & Hy & ->)].
    + left. split; [done|]. intros y [->|Hy]%elem_of_cons; auto.
    + right. exists (x :: l1), y, l2. split; [done|]. split; [|done].
      intros z [->|Hz]%elem_of_cons; auto.
Qed.

(** The call of a request's callback. *)
Definition answer (ack : bool) (len : Z) (data : option bytes) (p : BmServiceRequestNode) : list reply_call :=
  match reply_cb p with
  | Some cb => [MkReplyCall cb ack (rq_id p) (rq_service_strlen p) (rq_service p) len data]
  | None => []
  end.

Definition due (now : Z) (p : BmServiceRequestNode) : Prop :=
  time_remaining (request_start_ms p) now (timeout_ms p) = 0.
#[export] Instance due_dec now p : Decision (due now p).
Proof. unfold due. apply _. Defined.

Definition keep_request (n : bytes) (cb : option nat) (timeout : Z) (a : pending) : pending :=
  MkPending (sp_requests a ++ [MkRequestNode n (Z.of_nat (length n)) cb timeout (sp_now a) (sp_count a) None])
    (u32 (sp_count a + 1)) (sp_now a) (sp_calls a).

Definition take_reply (id : Z) (d : bytes) (a : pending) : pending :=
  match take_first (fun p => rq_id p =? id) (sp_requests a) with
  | Some (p, rest) =>
      MkPending rest (sp_count a) (sp_now a) (sp_calls a ++ answer true (Z.of_nat (length d)) (Some d) p)
  | None => a
  end.

Definition expire (a : pending) : pending :=
  MkPending (filter (fun p => ~ due (sp_now a) p) (sp_requests a)) (sp_count a) (sp_now a)
    (sp_calls a ++ concat (answer false 0 None <$> filter (due (sp_now a)) (sp_requests a))).

(** ** That the operations do this *)

Lemma rq_malloc s : willing (sv_os s) -> with_sv_os malloc_ok s = Some (true, s).
Proof. destruct s as [? ? ? ? ? ? ? ? ? ? [al w t]]. intros [Ha Hw]. cbn in Ha, Hw. by subst. Qed.

Definition rq_locked (s : services) : services := set_rq_lock (Some false) s.

Lemma take_rq_lock_free s : rq_ready s -> take_rq_lock s = Some (BmOK, rq_locked s).
Proof.
  destruct s as [? ? ? ? ? ? ? lk ? ? [al w t]]. intros [Hl [Ha Hw]]. cbn in Hl, Ha, Hw. by subst.
Qed.

Lemma give_rq_lock_spec s : rq_lock s = Some false -> give_rq_lock s = Some (tt, set_rq_lock (Some true) s).
Proof. intros E. unfold give_rq_lock, modify. by rewrite E. Qed.

Lemma create_node_spec s n r cb timeout :
  willing (sv_os s) ->
  let l := fresh (dom (sv_requests s)) in
  _create_node (Z.of_nat (length n)) (n ++ r) cb timeout s
  = Some (Some l, set_request_count (u32 (request_count s + 1)) (set_requests (service_request_list s)
      (<[l := MkRequestNode n (Z.of_nat (length n)) cb timeout (os_ticks_ms (sv_os s)) (request_count s) None]>
         (sv_requests s)) s)).
Proof.
  intros Hos l. unfold _create_node. rewrite (bind_some _ _ _ _ _ (rq_malloc s Hos)). cbv iota.
  rewrite (bind_some _ _ _ _ _ (rq_malloc s Hos)), bind_lift, Nat2Z.id, read_at_head by done. reflexivity.
Qed.

(** A request that is made is the last one. *)
Lemma keep_request_spec s a n r cb timeout :
  lists_requests s a -> rq_ready s ->
  exists l s1 s2, _create_node (Z.of_nat (length n)) (n ++ r) cb timeout s = Some (Some l, s1)
    /\ _request_list_add_request (Some l) s1 = Some (true, s2)
    /\ lists_requests s2 (keep_request n cb timeout a) /\ rq_ready s2
    /\ (exists m, sv_requests s2 !! l = Some m /\ rq_id m = sp_count a)
    /\ (exists c p h, s2 = set_request_count c (set_requests p h s)).
Proof.
  intros [(xs & Hs & Hx) Hc Hn Hca] [Hl Hos]. set (l := fresh (dom (sv_requests s))).
  set (m := MkRequestNode n (Z.of_nat (length n)) cb timeout (os_ticks_ms (sv_os s)) (request_count s) None).
  assert (Hfr : sv_requests s !! l = None) by (apply not_elem_of_dom, is_fresh).
  destruct (slist_append _ _ _ _ l m (set_rq_next (Some l)) Hs Hfr) as (p & h & ys & Hs' & Hr & Hcase); [done..|].
  set (s1 := set_request_count (u32 (request_count s + 1)) (set_requests (service_request_list s)
    (<[l := m]> (sv_requests s)) s)).
  exists l, s1, (set_request_count (u32 (request_count s + 1)) (set_requests p h s)).
  split; [exact (create_node_spec s n r cb timeout Hos)|]. split; [|split; [|split; [|split]]].
  - unfold _request_list_add_request.
    erewrite bind_some by (by apply take_rq_lock_free). cbn [is_ok]. erewrite bind_some by reflexivity.
    rewrite (bind_some _ _ _ tt (rq_locked (set_request_count (u32 (request_count s + 1)) (set_requests p h s)))).
    + erewrite bind_some by (by apply give_rq_lock_spec). do 2 f_equal. destruct s. cbn in *. by rewrite Hl.
    + change (service_request_list (rq_locked s1)) with (service_request_list s).
      destruct (service_request_list s) as [f|].
      * destruct Hcase as (-> & e & k & En & El & ->). rewrite bind_lift.
        change (sv_requests (rq_locked s1)) with (<[l := m]> (sv_requests s)). rewrite En. cbn [mbind option_bind].
        rewrite bind_lift, El. reflexivity.
      * destruct Hcase as [-> ->]. reflexivity.
  - unfold keep_request. split; cbn; [|by rewrite Hc|done|done].
    exists (ys ++ [(l, m)]). split; [exact Hs'|]. rewrite !fmap_app, <- Hx. f_equal.
    + by apply (relinked_fmap _ (set_rq_next (Some l))).
    + unfold m. cbn. by rewrite Hn, Hc.
  - by split.
  - exists m. split; [|cbn; congruence]. cbn. eapply slist_lookup; [exact Hs'|]. rewrite elem_of_app. right. by left.
  - by eexists _, p, h.
Qed.

Lemma remove_request_spec s xs l n ys :
  slist rq_next (sv_requests s) (service_request_list s) (xs ++ (l, n) :: ys) ->
  exists p h zs, _request_list_remove_request (Some l) s = Some (true, set_requests p h s)
    /\ slist rq_next h p (zs ++ ys) /\ set_rq_next None <$> zs.*2 = set_rq_next None <$> xs.*2.
Proof.
  intros Hs. unfold _request_list_remove_request. erewrite bind_some by reflexivity.
  destruct (slist_unlink _ _ _ _ _ _ _ (set_rq_next (rq_next n)) Hs ltac:(done)) as (Hl & p & h & zs & Hs' & Hr & _ & Hc).
  exists p, h, zs. split; [|split; [exact Hs'|by apply (relinked_fmap _ (set_rq_next (rq_next n)))]].
  destruct xs as [|[q k] xs _] using rev_ind.
  - destruct Hc as (Hp & -> & ->). rewrite bool_decide_eq_true_2 by done. by rewrite bind_lift, Hl.
  - rewrite fmap_app in Hc. cbn [fmap list_fmap] in Hc. rewrite last_snoc in Hc. cbn [fst] in Hc.
    destruct Hc as (Hp & -> & m & Hm & _ & ->). rewrite bool_decide_eq_false_2 by done.
    rewrite <- app_assoc in Hs. cbn [app] in Hs. rewrite bind_lift, (slist_find_prev _ _ _ _ _ _ _ _ _ Hs).
    cbn [mbind option_bind]. rewrite bind_lift, Hl. cbn [mbind option_bind]. rewrite bind_lift, Hm. reflexivity.
Qed.

(** What stands at a place of the list. *)
Lemma requests_split xs l1 (p : BmServiceRequestNode) l2 :
  set_rq_next None <$> (xs : list (loc * BmServiceRequestNode)).*2 = l1 ++ p :: l2 ->
  exists xs1 l n xs2, xs = xs1 ++ (l, n) :: xs2 /\ set_rq_next None n = p
    /\ set_rq_next None <$> xs1.*2 = l1 /\ set_rq_next None <$> xs2.*2 = l2.
Proof.
  intros E. apply fmap_app_inv in E as (ys1 & ys2 & -> & E2 & Hx).
  symmetry in E2. apply fmap_cons_inv in E2 as (n & ys3 & -> & -> & ->).
  apply fmap_app_inv in Hx as (xs1 & xs2 & -> & E3 & ->).
  symmetry in E3. apply fmap_cons_inv in E3 as ([l n'] & xs3 & -> & -> & ->).
  by exists xs1, l, n', xs3.
Qed.

Lemma answer_strip ack len d n : answer ack len d (set_rq_next None n) = answer ack len d n.
Proof. done. Qed.

Lemma elem_request xs l n : (l, n) ∈ (xs : list (loc * BmServiceRequestNode)) ->
  set_rq_next None n ∈ set_rq_next None <$> xs.*2.
Proof. intros Hx. apply list_elem_of_fmap_2, list_elem_of_fmap. by exists (l, n). Qed.

Lemma get_by_id_miss s a id :
  lists_requests s a -> (forall x, x ∈ sp_requests a -> (rq_id x =? id) = false) ->
  _service_request_list_get_node_by_id id s = Some None.
Proof.
  intros [(xs & Hs & Hx) _ _ _] Hno. unfold _service_request_list_get_node_by_id.
  erewrite find_node_miss; [reflexivity|exact Hs|]. intros l n Hin.
  rewrite <- (Hno (set_rq_next None n)); [done|]. rewrite <- Hx. by eapply elem_request.
Qed.

Lemma get_by_id_hit s xs1 l n xs2 id :
  slist rq_next (sv_requests s) (service_request_list s) (xs1 ++ (l, n) :: xs2) ->
  (forall x, x ∈ set_rq_next None <$> xs1.*2 -> (rq_id x =? id) = false) -> rq_id n = id ->
  _service_request_list_get_node_by_id id s = Some (Some l) /\ sv_requests s !! l = Some n.
Proof.
  intros Hs Hno Hn. split; [|eapply slist_lookup; [exact Hs|]; rewrite elem_of_app, elem_of_cons; tauto].
  unfold _service_request_list_get_node_by_id. erewrite find_node_hit; [reflexivity|exact Hs| |].
  - intros l' n' Hin. rewrite <- (Hno (set_rq_next None n')); [done|]. by eapply elem_request.
  - cbn. by rewrite Hn, Z.eqb_refl.
Qed.

(** *** The end of requests *)

(** The call and the removal of a request. *)
Lemma answered s a xs1 l n xs2 calls :
  slist rq_next (sv_requests s) (service_request_list s) (xs1 ++ (l, n) :: xs2) ->
  lists_requests s a -> sp_requests a = set_rq_next None <$> (xs1 ++ (l, n) :: xs2).*2 ->
  let s1 := foldl (fun s c => add_reply_call c s) s calls in
  exists p h, _request_list_remove_request (Some l) s1 = Some (true, set_requests p h s1)
    /\ lists_requests (set_requests p h s1)
         (MkPending (set_rq_next None <$> (xs1 ++ xs2).*2) (sp_count a) (sp_now a) (sp_calls a ++ calls))
    /\ exists zs, slist rq_next h p (zs ++ xs2) /\ set_rq_next None <$> zs.*2 = set_rq_next None <$> xs1.*2.
Proof.
  intros Hs [_ Hc Hn Hca] Hx s1.
  assert (Hf : sv_requests s1 = sv_requests s /\ service_request_list s1 = service_request_list s
    /\ request_count s1 = request_count s /\ sv_os s1 = sv_os s /\ sv_calls s1 = sv_calls s ++ calls).
  { unfold s1. clear. revert s. induction calls as [|c calls IH]; intros s; [by rewrite app_nil_r|].
    cbn [foldl]. destruct (IH (add_reply_call c s)) as (-> & -> & -> & -> & ->). by rewrite (cons_middle c), app_assoc. }
  destruct Hf as (F1 & F2 & F3 & F4 & F5). rewrite <- F1, <- F2 in Hs.
  destruct (remove_request_spec s1 xs1 l n xs2 Hs) as (p & h & zs & E & Hs' & Hz).
  exists p, h. split; [exact E|]. split; [|by exists zs].
  split; cbn; [|congruence..]. exists (zs ++ xs2). split; [exact Hs'|]. by rewrite !fmap_app, Hz.
Qed.

Lemma expire_request_spec s l n :
  expire_request l n s
  = (_ ← _request_list_remove_request (Some l); mret tt) (foldl (fun s c => add_reply_call c s) s (answer false 0 None n)).
Proof. unfold expire_request, answer. by destruct (reply_cb n). Qed.

(** None of the first requests is due. *)
Lemma expire_none now l : Forall (fun p => ~ due now p) l ->
  filter (due now) l = [] /\ filter (fun p => ~ due now p) l = l.
Proof.
  induction 1 as [|p l Hp _ [IH1 IH2]]; [done|]. rewrite filter_cons_False by done.
  rewrite (filter_cons_True (fun p => ~ due now p)) by done. by rewrite IH1, IH2.
Qed.

Lemma expire_step l1 p l2 c now calls :
  Forall (fun p => ~ due now p) l1 -> due now p ->
  expire (MkPending (l1 ++ l2) c now (calls ++ answer false 0 None p)) = expire (MkPending (l1 ++ p :: l2) c now calls).
Proof.
  intros H1 Hp. destruct (expire_none _ _ H1) as [E1 E2]. unfold expire. cbn [sp_requests sp_count sp_now sp_calls].
  rewrite !filter_app, E1, E2, (filter_cons_True (due now)), filter_cons_False by (done || naive_solver).
  cbn. by rewrite app_assoc.
Qed.

Lemma expire_done l c now calls :
  Forall (fun p => ~ due now p) l -> expire (MkPending l c now calls) = MkPending l c now calls.
Proof.
  intros H1. destruct (expire_none _ _ H1) as [E1 E2]. unfold expire. cbn [sp_requests sp_count sp_now sp_calls].
  rewrite E1, E2. cbn. by rewrite app_nil_r.
Qed.

Lemma foldl_calls s calls :
  rq_lock (foldl (fun s c => add_reply_call c s) s calls) = rq_lock s
  /\ sv_os (foldl (fun s c => add_reply_call c s) s calls) = sv_os s
  /\ sv_requests (foldl (fun s c => add_reply_call c s) s calls) = sv_requests s.
Proof. revert s. induction calls as [|c calls IH]; intros s; [done|]. cbn [foldl]. apply (IH (add_reply_call c s)). Qed.

(** The loop at a place of the list before which nothing is due. *)
Lemma expiry_loop_spec fuel s a xs1 xs2 :
  slist rq_next (sv_requests s) (service_request_list s) (xs1 ++ xs2) ->
  lists_requests s a -> sp_requests a = set_rq_next None <$> (xs1 ++ xs2).*2 ->
  Forall (fun p => ~ due (sp_now a) p) (set_rq_next None <$> xs1.*2) ->
  (length (filter (due (sp_now a)) (set_rq_next None <$> xs2.*2)) * S (length (xs1 ++ xs2)) + length xs2 < fuel)%nat ->
  exists s', expiry_loop fuel (fst <$> hd_error xs2) s = Some (tt, s') /\ lists_requests s' (expire a)
    /\ rq_lock s' = rq_lock s /\ sv_os s' = sv_os s.
Proof.
  revert s a xs1 xs2. induction fuel as [|fuel IH]; intros s a xs1 xs2 Hs Ha Hx Hno Hf; [lia|].
  destruct xs2 as [|[l n] xs2].
  { cbn. exists s. split; [done|]. split; [|done]. rewrite app_nil_r in Hx. rewrite <- Hx in Hno.
    destruct a as [rs c now calls]. cbn in *. by rewrite expire_done. }
  assert (Hl : sv_requests s !! l = Some n)
    by (eapply slist_lookup; [exact Hs|]; rewrite elem_of_app, elem_of_cons; tauto).
  cbn [hd_error fmap option_fmap option_map fst expiry_loop].
  erewrite bind_some by reflexivity. rewrite bind_lift, Hl. cbn [mbind option_bind].
  rewrite (lr_now _ _ Ha). rewrite !fmap_app, !fmap_cons in Hx. cbn [fmap snd] in Hx.
  destruct (Z.eqb_spec (time_remaining (request_start_ms n) (sp_now a) (timeout_ms n)) 0) as [Hd|Hd].
  - destruct (answered s a xs1 l n xs2 (answer false 0 None n) Hs Ha) as (p & h & E & Ha' & zs & Hs' & Hz);
      [by rewrite !fmap_app, !fmap_cons|].
    set (s1 := set_requests p h (foldl (fun s c => add_reply_call c s) s (answer false 0 None n))) in *.
    rewrite (bind_some _ _ _ tt s1) by (rewrite expire_request_spec; by rewrite (bind_some _ _ _ _ _ E)).
    erewrite bind_some by reflexivity.
    destruct (foldl_calls s (answer false 0 None n)) as (K1 & K2 & _).
    rewrite !fmap_app, <- Hz, <- !fmap_app in Ha'.
    pose proof (slist_start _ _ _ _ Hs') as Hst. change (service_request_list s1) with p. rewrite Hst.
    assert (Hlen : length zs = length xs1)
      by (apply (f_equal length) in Hz; by rewrite !length_fmap in Hz).
    destruct (IH s1 _ [] (zs ++ xs2) Hs' Ha' eq_refl) as (s' & E' & Ha2 & K3 & K4); [constructor| |].
    + cbn [sp_now app]. rewrite !fmap_app, Hz, filter_app, (proj1 (expire_none _ _ Hno)). cbn [app].
      rewrite !fmap_cons in Hf. cbn [snd] in Hf. rewrite filter_cons_True in Hf by exact Hd.
      rewrite !length_app in *. cbn in Hf. nia.
    + exists s'. split; [exact E'|]. split; [|split; [by rewrite K3|by rewrite K4]].
      rewrite !fmap_app, Hz, <- answer_strip, (expire_step _ (set_rq_next None n) _ _ _ _ Hno Hd) in Ha2.
      destruct a as [rs c now calls]. cbn [sp_requests] in Hx. subst rs. exact Ha2.
  - rewrite (slist_next _ _ _ _ _ _ _ Hs). change (xs1 ++ (l, n) :: xs2) with (xs1 ++ [(l, n)] ++ xs2) in *.
    rewrite app_assoc in Hs.
    apply (IH s a (xs1 ++ [(l, n)]) xs2 Hs Ha).
    + rewrite Hx. by rewrite !fmap_app, <- !app_assoc.
    + rewrite !fmap_app. apply Forall_app. split; [done|]. constructor; [exact Hd|constructor].
    + rewrite !fmap_cons in Hf. cbn [snd] in Hf.
      rewrite filter_cons_False in Hf by exact Hd. rewrite !length_app in *. cbn in *. lia.
Qed.

Lemma expiry_spec s a :
  lists_requests s a -> rq_ready s ->
  exists s', _service_request_timer_expiry_cb s = Some (tt, s') /\ lists_requests s' (expire a) /\ rq_ready s'.
Proof.
  intros Ha Hr. unfold _service_request_timer_expiry_cb.
  rewrite (bind_some _ _ _ _ _ (take_rq_lock_free _ Hr)). cbn [is_ok]. erewrite bind_some by reflexivity.
  destruct Ha as [(xs & Hs & Hx) Hc Hn Hca].
  assert (Ha : lists_requests (rq_locked s) a) by (split; [by exists xs|done..]).
  pose proof (slist_size _ _ _ _ Hs) as Hsz.
  change (service_request_list (rq_locked s)) with (service_request_list s).
  rewrite (slist_start _ _ _ _ Hs).
  destruct (expiry_loop_spec (expiry_fuel (rq_locked s)) (rq_locked s) a [] xs Hs Ha (eq_sym Hx)) as (s' & E & Ha' & K1 & K2);
    [constructor| |].
  - unfold expiry_fuel, walk_fuel. cbn [app].
    change (sv_requests (rq_locked s)) with (sv_requests s).
    pose proof (length_filter (due (sp_now a)) (set_rq_next None <$> xs.*2)) as Hf. rewrite !length_fmap in Hf. nia.
  - rewrite (bind_some _ _ _ _ _ E). eexists. split; [by apply give_rq_lock_spec; rewrite K1|].
    destruct Ha' as [? ? ? ?], Hr. split; [by split|]. split; [done|]. cbn. by rewrite K2.
Qed.

(** *** Replies *)

Definition reply_message `{Platform} (target id : Z) (d : bytes) : bytes :=
  native_store 8 target ++ native_store 4 id ++ native_store 4 (Z.of_nat (length d)) ++ d.

Section replies.
Context {St : Type} `{PartLaws services St} `{Platform} (CFG : DeviceCfg).

Definition accept_reply (target id : Z) (d : bytes) (a : pending) : pending :=
  if decide (target = node_id CFG) then take_reply id d a else a.

Lemma reply_fields target id d more :
  read_at 0 8 (reply_message target id d ++ more) = Some (native_store 8 target)
  /\ read_at 8 4 (reply_message target id d ++ more) = Some (native_store 4 id)
  /\ read_at 12 4 (reply_message target id d ++ more) = Some (native_store 4 (Z.of_nat (length d)))
  /\ read_at 16 (length d) (reply_message target id d ++ more) = Some d.
Proof.
  unfold reply_message. rewrite <- !app_assoc. split; [apply read_at_head; by rewrite length_native_store|].
  split; [apply read_behind; by rewrite length_native_store|].
  rewrite app_assoc. split; [apply read_behind; by rewrite ?length_app, !length_native_store|].
  rewrite app_assoc. apply read_behind; by rewrite ?length_app, ?length_native_store.
Qed.

Lemma give_rq_back v (t : St) :
  part t = rq_locked v -> rq_lock v = Some true -> on_part give_rq_lock t = Some (tt, set_part v t).
Proof.
  intros Ht Hv. erewrite on_part_some by (rewrite Ht; by apply give_rq_lock_spec).
  do 3 f_equal. destruct v. cbn in *. by rewrite Hv.
Qed.

(** The callback of a request that is found, and its removal. *)
Lemma deliver_reply_spec (t : St) v a xs1 l n xs2 (id : Z) (d data : bytes) :
  part t = rq_locked v -> rq_ready v ->
  slist rq_next (sv_requests v) (service_request_list v) (xs1 ++ (l, n) :: xs2) ->
  lists_requests v a -> sp_requests a = set_rq_next None <$> (xs1 ++ (l, n) :: xs2).*2 -> rq_id n = id ->
  read_at 12 4 data = Some (native_store 4 (Z.of_nat (length d))) -> read_at 16 (length d) data = Some d ->
  Z.of_nat (length d) < 2 ^ 32 ->
  exists v', (_ ← match reply_cb n with
                  | Some cb =>
                      size ← lift (read_at 12 4 data);
                      let size := native_load size in
                      on_part (modify (add_reply_call (MkReplyCall cb true id (rq_service_strlen n)
                        (rq_service n) size (read_at 16 (Z.to_nat size) data))))
                  | None => mret tt
                  end;
              _ ← on_part (_request_list_remove_request (Some l));
              mret tt) t = Some (tt, set_part (rq_locked v') t)
    /\ lists_requests v' (MkPending (set_rq_next None <$> (xs1 ++ xs2).*2) (sp_count a) (sp_now a)
                            (sp_calls a ++ answer true (Z.of_nat (length d)) (Some d) n))
    /\ rq_ready v'.
Proof.
  intros Ht Hv Hs Ha Hx Hid Hlen Hd Hsz.
  assert (Ha' : lists_requests (rq_locked v) a) by (destruct Ha as [? ? ? ?]; by split).
  destruct (answered (rq_locked v) a xs1 l n xs2 (answer true (Z.of_nat (length d)) (Some d) n) Hs Ha' Hx)
    as (p & h & E & Ha2 & _).
  exists (set_requests p h (foldl (fun s c => add_reply_call c s) v (answer true (Z.of_nat (length d)) (Some d) n))).
  split; [|split].
  - unfold answer in *. destruct (reply_cb n) as [cb|].
    + rewrite bind_assoc, bind_lift, Hlen. cbn [mbind option_bind]. rewrite native_load_store, Z.mod_small, Nat2Z.id, Hd by lia.
      erewrite bind_some by (apply on_part_some; rewrite Ht; reflexivity).
      rewrite Hid in E. erewrite bind_some by (apply on_part_some; rewrite part_set; exact E).
      rewrite set_part_twice, <- Hid. reflexivity.
    + erewrite (bind_some (mret tt)) by reflexivity.
      erewrite bind_some by (apply on_part_some; rewrite Ht; exact E). reflexivity.
  - destruct Ha2 as [Hl Hc Hn Hca]. destruct (foldl_calls v (answer true (Z.of_nat (length d)) (Some d) n)) as (_ & K & _).
    unfold answer in *. destruct (reply_cb n); by split.
  - destruct (foldl_calls v (answer true (Z.of_nat (length d)) (Some d) n)) as (K1 & K2 & _), Hv.
    split; cbn; congruence.
Qed.

Lemma request_cb_spec (s : St) a target id d more :
  lists_requests (part s) a -> rq_ready (part s) -> 0 <= id < 2 ^ 32 -> 0 <= target < 2 ^ 64 ->
  Z.of_nat (length d) < 2 ^ 32 ->
  exists v, _service_request_cb CFG (reply_message target id d ++ more) s = Some (tt, set_part v s)
    /\ lists_requests v (accept_reply target id d a) /\ rq_ready v.
Proof.
  intros Ha Hr Hid Ht Hd. destruct (reply_fields target id d more) as (F1 & F2 & F3 & F4).
  unfold _service_request_cb, accept_reply. rewrite bind_lift, F1. cbn [mbind option_bind].
  rewrite native_load_store, Z.mod_small by done.
  destruct (Z.eqb_spec target (node_id CFG)) as [Ht'|Ht']; [rewrite decide_True by done|rewrite decide_False by done].
  2: { exists (part s). by rewrite set_part_same. }
  rewrite (bind_some _ _ _ _ _ (on_part_some _ _ _ _ (take_rq_lock_free _ Hr))). cbn [is_ok].
  set (t := set_part (rq_locked (part s)) s : St).
  assert (Hp : part t = rq_locked (part s)) by (unfold t; by rewrite part_set).
  rewrite bind_lift, F2. cbn [mbind option_bind]. rewrite native_load_store, Z.mod_small by done.
  erewrite bind_some by reflexivity. rewrite Hp, bind_lift.
  assert (Ha' : lists_requests (rq_locked (part s)) a) by (destruct Ha as [? ? ? ?]; by split).
  unfold take_reply. destruct (take_first_split (fun p => rq_id p =? id) (sp_requests a))
    as [[-> Hno]|(l1 & p & l2 & E & Hno & Hp' & ->)].
  - rewrite (get_by_id_miss _ a) by done. cbn [mbind option_bind].
    erewrite (bind_some (mret tt)) by reflexivity. rewrite (give_rq_back _ t Hp (rr_lock _ Hr)).
    exists (part s). by unfold t; rewrite set_part_twice.
  - destruct (lr_list _ _ Ha) as (xs & Hs & Hx). pose proof E as E'. rewrite <- Hx in E.
    destruct (requests_split xs l1 p l2 E) as (xs1 & l & n & xs2 & -> & <- & <- & <-).
    apply Z.eqb_eq in Hp'. change (rq_id n = id) in Hp'.
    destruct (get_by_id_hit (rq_locked (part s)) xs1 l n xs2 id Hs Hno Hp') as [G1 G2].
    rewrite G1. cbn [mbind option_bind]. rewrite bind_assoc, bind_lift, G2. cbn [mbind option_bind].
    destruct (deliver_reply_spec t (part s) a xs1 l n xs2 id d (reply_message target id d ++ more) Hp Hr Hs Ha
      (eq_sym Hx) Hp' F3 F4 Hd) as (v & Ev & Hv & Hrv).
    rewrite (bind_some _ _ _ _ _ Ev).
    rewrite (give_rq_back v) by (by rewrite part_set || exact (rr_lock _ Hrv)). exists v.
    unfold t. rewrite !set_part_twice. split; [done|]. rewrite answer_strip. by rewrite <- fmap_app, <- fmap_app.
Qed.
End replies.

(** ** Every request is answered once *)

Inductive rq_op : Type :=
| KeepRequest (n rest : bytes) (cb : nat) (timeout : Z)
| ReplyArrives (target id : Z) (d more : bytes)
| TimerFires
| TimePasses (ms : Z).

Section requests.
Context `{Platform} (CFG : DeviceCfg).

(** [rest] is the memory behind the name. *)
Definition rq_step (o : rq_op) : M services unit :=
  match o with
  | KeepRequest n rest cb timeout =>
      node ← _create_node (Z.of_nat (length n)) (n ++ rest) (Some cb) timeout;
      _ ← _request_list_add_request node; mret tt
  | ReplyArrives target id d more => _service_request_cb CFG (reply_message target id d ++ more)
  | TimerFires => _service_request_timer_expiry_cb
  | TimePasses ms => modify (fun s => set_sv_os (MkOs (os_alloc (sv_os s)) (os_wait (sv_os s)) ms) s)
  end.

Definition rq_spec (o : rq_op) (a : pending) : pending :=
  match o with
  | KeepRequest n _ cb timeout => keep_request n (Some cb) timeout a
  | ReplyArrives target id d _ => accept_reply CFG target id d a
  | TimerFires => expire a
  | TimePasses ms => MkPending (sp_requests a) (sp_count a) ms (sp_calls a)
  end.

Definition rq_op_ok (o : rq_op) : Prop :=
  match o with
  | ReplyArrives target id d _ => 0 <= id < 2 ^ 32 /\ 0 <= target < 2 ^ 64 /\ Z.of_nat (length d) < 2 ^ 32
  | _ => True
  end.

Fixpoint rq_run (ops : list rq_op) : M services unit :=
  match ops with [] => mret tt | o :: ops => _ ← rq_step o; rq_run ops end.

Definition rq_spec_run (ops : list rq_op) (a : pending) : pending := foldl (fun a o => rq_spec o a) a ops.

(** The number of the requests that are made, and their ids from a count on. *)
Fixpoint made (ops : list rq_op) : nat :=
  match ops with [] => O | KeepRequest _ _ _ _ :: ops => S (made ops) | _ :: ops => made ops end.

Definition ids_from (c : Z) (k : nat) : list Z := (fun i => u32 (c + Z.of_nat i)) <$> seq 0 k.

(** The requests that were answered and those that wait. *)
Definition ids_of (a : pending) : list Z := (rc_id <$> sp_calls a) ++ (rq_id <$> sp_requests a).

Definition with_callbacks (a : pending) : Prop := Forall (fun p => is_Some (reply_cb p)) (sp_requests a).

Lemma ids_from_S c k : 0 <= c < 2 ^ 32 -> ids_from c (S k) = c :: ids_from (u32 (c + 1)) k.
Proof.
  intros Hc. unfold ids_from. cbn [seq fmap list_fmap]. rewrite Z.add_0_r, u32_small by done. f_equal.
  rewrite <- fmap_S_seq, <- list_fmap_compose. apply list_fmap_ext. intros i x _. unfold compose, wrap.
  rewrite Zplus_mod_idemp_l. f_equal. lia.
Qed.

Lemma ids_from_nodup c k : (Z.of_nat k <= 2 ^ 32) -> NoDup (ids_from c k).
Proof.
  intros Hk. apply NoDup_fmap_2_strong; [|apply NoDup_seq]. intros i j Hi Hj E.
  apply elem_of_seq in Hi, Hj. unfold wrap in E.
  assert (Hd : (Z.of_nat i - Z.of_nat j) mod 2 ^ 32 = 0).
  { replace (Z.of_nat i - Z.of_nat j) with ((c + Z.of_nat i) - (c + Z.of_nat j)) by lia.
    by rewrite Zminus_mod, E, Z.sub_diag. }
  apply Z.mod_divide in Hd as [q Hq]; [|lia]. assert (q = 0) by nia. lia.
Qed.

Lemma answer_ids ack len d p : is_Some (reply_cb p) -> rc_id <$> answer ack len d p = [rq_id p].
Proof. intros [cb E]. unfold answer. by rewrite E. Qed.

Lemma Forall_filter {A} (P Q : A -> Prop) `{!forall x, Decision (Q x)} l : Forall P l -> Forall P (filter Q l).
Proof. rewrite !Forall_forall. intros Hl x [_ Hx]%list_elem_of_filter. by apply Hl. Qed.

Lemma expired_ids l :
  Forall (fun p => is_Some (reply_cb p)) l -> rc_id <$> concat (answer false 0 None <$> l) = rq_id <$> l.
Proof.
  induction 1 as [|p l Hp _ IH]; [done|]. cbn [fmap list_fmap concat]. rewrite fmap_app, answer_ids by done.
  cbn. by rewrite <- IH.
Qed.

Lemma rq_spec_ids o a :
  with_callbacks a -> 0 <= sp_count a < 2 ^ 32 ->
  ids_of (rq_spec o a) ≡ₚ ids_of a ++ ids_from (sp_count a) (made [o])
  /\ with_callbacks (rq_spec o a) /\ sp_count (rq_spec o a) = u32 (sp_count a + Z.of_nat (made [o])).
Proof.
  intros Hcb Hc. assert (H0 : sp_count a = u32 (sp_count a + Z.of_nat 0)) by (rewrite Z.add_0_r, u32_small by done; done).
  unfold ids_of. destruct o as [n r cb t|target id d more| |ms]; cbn [rq_spec made]; cbn [ids_from seq fmap list_fmap]; rewrite ?app_nil_r.
  - unfold keep_request. cbn [sp_calls sp_requests sp_count]. split; [|split; [|done]].
    + rewrite fmap_app, Z.add_0_r, u32_small, app_assoc by done. done.
    + apply Forall_app. split; [done|]. constructor; [by eexists|constructor].
  - unfold accept_reply. destruct (decide _) as [Ht|Ht]; [|done]. unfold take_reply.
    destruct (take_first_split (fun p => rq_id p =? id) (sp_requests a)) as [[-> _]|(l1 & p & l2 & E & _ & _ & ->)]; [done|].
    unfold with_callbacks in *. rewrite E in Hcb |- *. apply Forall_app in Hcb as [Hcb1 Hcb2]. apply Forall_cons in Hcb2 as [Hp Hcb2].
    cbn [sp_calls sp_requests sp_count]. split; [|split; [by apply Forall_app|done]].
    rewrite !fmap_app, answer_ids, <- app_assoc by done. apply Permutation_app_head. rewrite fmap_cons.
    cbn [app]. apply Permutation_middle.
  - unfold expire. cbn [sp_calls sp_requests sp_count]. split; [|split; [|done]].
    + rewrite fmap_app, expired_ids, <- app_assoc by (by apply Forall_filter). apply Permutation_app_head.
      rewrite <- fmap_app. apply fmap_Permutation. apply filter_app_complement.
    + by apply Forall_filter.
  - done.
Qed.

Lemma made_cons o ops : made (o :: ops) = (made [o] + made ops)%nat.
Proof. by destruct o. Qed.

Lemma rq_run_ids ops a :
  with_callbacks a -> 0 <= sp_count a < 2 ^ 32 ->
  ids_of (rq_spec_run ops a) ≡ₚ ids_of a ++ ids_from (sp_count a) (made ops).
Proof.
  revert a. induction ops as [|o ops IH]; intros a Hcb Hc; [by rewrite app_nil_r|].
  destruct (rq_spec_ids o a Hcb Hc) as (Hp & Hcb' & Hc'). cbn [rq_spec_run foldl].
  fold (rq_spec_run ops (rq_spec o a)). rewrite (IH (rq_spec o a) Hcb' ltac:(rewrite Hc'; apply u32_range)).
  rewrite Hp, Hc', (made_cons o ops), <- app_assoc. apply Permutation_app_head.
  assert (Hm : made [o] = 0%nat \/ made [o] = 1%nat) by (destruct o; auto).
  destruct Hm as [-> | ->].
  - rewrite Z.add_0_r, u32_small by done. reflexivity.
  - rewrite (ids_from_S _ (made ops)) by done. unfold ids_from at 1. cbn [seq fmap list_fmap app].
    by rewrite Z.add_0_r, u32_small by done.
Qed.

Lemma rq_step_refined o s a :
  rq_op_ok o -> lists_requests s a -> rq_ready s ->
  exists s', rq_step o s = Some (tt, s') /\ lists_requests s' (rq_spec o a) /\ rq_ready s'.
Proof.
  intros Ho Ha Hr. destruct o as [n r cb t|target id d more| |ms]; cbn [rq_step rq_spec rq_op_ok] in *.
  - destruct (keep_request_spec s a n r (Some cb) t Ha Hr) as (l & s1 & s2 & E1 & E2 & Ha' & Hr' & _).
    exists s2. rewrite (bind_some _ _ _ _ _ E1). by rewrite (bind_some _ _ _ _ _ E2).
  - destruct Ho as (Hid & Ht & Hd).
    destruct (request_cb_spec (St := services) CFG s a target id d more) as (v & E & Hv & Hrv); [exact Ha|exact Hr|done..|by exists v].
  - by apply expiry_spec.
  - eexists. split; [reflexivity|]. destruct Ha as [? ? ? ?], Hr as [? []]. by repeat split.
Qed.

Lemma rq_run_refined ops s a :
  Forall rq_op_ok ops -> lists_requests s a -> rq_ready s ->
  exists s', rq_run ops s = Some (tt, s') /\ lists_requests s' (rq_spec_run ops a) /\ rq_ready s'.
Proof.
  intros Hops. revert s a. induction Hops as [|o ops Ho _ IH]; intros s a Ha Hr; [by exists s|].
  destruct (rq_step_refined o s a Ho Ha Hr) as (s1 & E & Ha1 & Hr1).
  destruct (IH s1 _ Ha1 Hr1) as (s2 & E2 & Ha2 & Hr2). exists s2. cbn [rq_run].
  by rewrite (bind_some _ _ _ _ _ E).
Qed.

(** A node without requests; [c] were made before. *)
Record no_requests (s : services) (c : Z) : Prop := {
  nr_list : service_request_list s = None;
  nr_count : request_count s = c;
  nr_calls : sv_calls s = [];
  nr_ready : rq_ready s
}.

(** C13: a request is answered once, or waits.  While there is memory, requests that
    are made, replies that arrive with any target, id and data, expiries of the timer
    and the time that passes do on the list in memory what they do on a list of
    requests: a reply for this node calls the callback of the first request with its
    id, with its data, and takes it off; the timer calls that of every request whose
    time is over, in order, without data, and takes those off; nothing else is called,
    and nothing goes wrong.  So the ids of the calls and of the requests that wait are
    those that were given out, and among at most 2^32 requests no callback is called
    for the same request twice. *)
Theorem service_requests_answered ops s c :
  no_requests s c -> 0 <= c < 2 ^ 32 -> Forall rq_op_ok ops ->
  let a := rq_spec_run ops (MkPending [] c (os_ticks_ms (sv_os s)) []) in
  exists s', rq_run ops s = Some (tt, s') /\ lists_requests s' a
    /\ (rc_id <$> sv_calls s') ++ (rq_id <$> sp_requests a) ≡ₚ ids_from c (made ops)
    /\ (Z.of_nat (made ops) <= 2 ^ 32 -> NoDup (rc_id <$> sv_calls s')).
Proof.
  intros [Hl Hcnt Hca Hr] Hc Hops a.
  assert (Ha : lists_requests s (MkPending [] c (os_ticks_ms (sv_os s)) [])).
  { split; [|done..]. exists []. split; [|done]. rewrite Hl. split; [done|apply NoDup_nil_2]. }
  destruct (rq_run_refined ops s _ Hops Ha Hr) as (s' & E & Ha' & _).
  pose proof (rq_run_ids ops (MkPending [] c (os_ticks_ms (sv_os s)) []) ltac:(constructor) Hc) as Hp.
  unfold ids_of in Hp. fold a in Ha', Hp. cbn [sp_calls sp_requests sp_count fmap list_fmap app] in Hp.
  rewrite <- (lr_calls _ _ Ha') in Hp.
  exists s'. split; [exact E|]. split; [exact Ha'|]. split; [exact Hp|]. intros Hk.
  pose proof (ids_from_nodup c (made ops) Hk) as Hnd. rewrite <- Hp in Hnd. by apply NoDup_app in Hnd as [Hnd _].
Qed.
End requests.

(** ** A concrete run *)

Definition requests_zero : services :=
  MkServices None ∅ (Some true) ∅ None ∅ 0 (Some true) (Some true) [] (MkOs [] [] 0).
Definition rq_sample_cfg : DeviceCfg := MkDeviceCfg 5 0 None None 0 0 0 0 0 0 (replicate 16 0).

(** Three requests; a reply to the second, one for another node, one that comes again;
    then the time of the first one is over. *)
Definition sample_rq_run : list rq_op :=
  [KeepRequest [97] [] 1 100; KeepRequest [98; 99] [0] 2 5000; TimePasses 50; KeepRequest [97] [] 3 400;
   ReplyArrives 5 1 [7; 8] []; ReplyArrives 6 0 [9] []; ReplyArrives 5 1 [7; 8] []; TimePasses 150; TimerFires].

Lemma service_requests_answered_witness :
  let P := platform_linux in
  exists s', rq_run rq_sample_cfg sample_rq_run requests_zero = Some (tt, s')
    /\ sv_calls s' = [MkReplyCall 2 true 1 2 [98; 99] 2 (Some [7; 8]); MkReplyCall 1 false 0 1 [97] 0 None]
    /\ NoDup (rc_id <$> sv_calls s').
Proof.
  intros P.
  destruct (service_requests_answered rq_sample_cfg sample_rq_run requests_zero 0) as (s' & E & Ha & _ & Hn).
  - by split.
  - done.
  - repeat constructor; vm_compute; done.
  - exists s'. split; [exact E|]. split; [|by apply Hn].
    rewrite (lr_calls _ _ Ha). vm_compute. reflexivity.
Defined.
