(* ===== verification/ServiceCall.v ===== *)
(** * A service that is asked and answers

    A request from one node, the service on another one, and the reply, over any
    publishing that leaves the services' own variables alone. *)
From S2P Require Import Prelude Util LinkedList SList Os LinuxBuf L2 BmLinux Parts Device TimerHandler Resources Middleware PubSub Subscriptions Services ServiceRegistry ServiceNode ServiceRequests.

Class KeepsServices (St : Type) `{Part services St} `{PubSubApi St} : Prop := {
  sub_keeps t n cb (s : St) : post (sub_wl t n cb) (fun _ s' => part s' = part s) s;
  pub_keeps t n d len ty ve (s : St) : post (pub_wl t n d len ty ve) (fun _ s' => part s' = part s) s
}.

(** The services next to publish and subscribe. *)
#[export] Instance service_node_keeps `{Platform} `{L2Os} own_id :
  KeepsServices service_node (H0 := service_node_pubsub own_id).
Proof.
  split; intros; intros a s' E.
  - unfold sub_wl, service_node_pubsub, on_part, zoom in E. destruct (bm_sub_wl _ _ _ _) as [[e p]|]; [|done].
    by injection E as <- <-.
  - unfold pub_wl, service_node_pubsub, on_part, zoom in E. destruct (bm_pub_wl _ _ _ _ _ _ _ _) as [[e p]|]; [|done].
    by injection E as <- <-.
Qed.

Definition request_message `{Platform} (id : Z) (d : bytes) : bytes :=
  native_store 4 id ++ native_store 4 (Z.of_nat (length d)) ++ d.

Section call.
Context {St : Type} `{PartLaws services St} `{PubSubApi St} `{!KeepsServices St} `{Platform}.
Context (Hbits : 32 <= size_t_bits) (received replied : nat).
Context (call_handler : nat -> Z -> bytes -> Z -> bytes -> Z -> M St (bool * Z * bytes)).

Lemma request_fields id d more :
  read_at 0 4 (request_message id d ++ more) = Some (native_store 4 id)
  /\ read_at 4 4 (request_message id d ++ more) = Some (native_store 4 (Z.of_nat (length d)))
  /\ drop 8 (request_message id d ++ more) = d ++ more.
Proof.
  unfold request_message. rewrite <- !app_assoc. split; [apply read_at_head; by rewrite length_native_store|].
  split; [apply read_behind; by rewrite length_native_store|].
  rewrite app_assoc. apply drop_app_length'. by rewrite length_app, !length_native_store.
Qed.

Lemma chunks_exactly ds m :
  m = length (concat ds) -> store_all (at_offsets 0 ds) (replicate m 0) = Some (concat ds).
Proof.
  intros ->. pose proof (store_chunks ds [] (replicate (length (concat ds)) 0)) as E. cbn [app length] in E.
  rewrite E by (by rewrite length_replicate). by rewrite drop_ge, app_nil_r by (by rewrite length_replicate).
Qed.

(** *** The client *)

Lemma send_request_spec id n r d r' (s : St) :
  name_ok n -> (length d <= 1024)%nat -> willing (sv_os (part s)) ->
  _service_request_send_request id (n ++ r) (Z.of_nat (length n)) (Z.of_nat (length d)) (Some (d ++ r')) s
  = (e ← pub_wl (n ++ BM_SERVICE_REQ_STR) (Z.of_nat (length n + 4)) (request_message id d)
           (8 + Z.of_nat (length d)) 0 BM_COMMON_PUB_SUB_VERSION; mret (is_ok e)) s.
Proof.
  intros Hn Hd Hos. unfold _service_request_send_request.
  rewrite (bind_some _ _ _ _ _ (on_part_pure _ _ _ (sv_malloc _ Hos))), bind_lift, service_topic_spec by done.
  cbn [mbind option_bind].
  rewrite (bind_some _ _ _ _ _ (on_part_pure _ _ _ (sv_malloc _ Hos))), bind_lift, Nat2Z.id, read_at_head by done.
  cbn [mbind option_bind]. rewrite bind_lift.
  assert (E : store_all [(0%nat, native_store 4 id ++ native_store 4 (Z.of_nat (length d))); (8%nat, d)]
      (replicate (Z.to_nat (Z.of_nat (length d) + sizeof_BmServiceRequestDataHeader)) 0)
    = Some (request_message id d)).
  { pose proof (chunks_exactly [native_store 4 id ++ native_store 4 (Z.of_nat (length d)); d]
      (Z.to_nat (Z.of_nat (length d) + sizeof_BmServiceRequestDataHeader))) as E.
    cbn [at_offsets concat] in E. rewrite app_nil_r, !length_app, !length_native_store, <- app_assoc in E. apply E.
    unfold sizeof_BmServiceRequestDataHeader. lia. }
  rewrite E. cbn [mbind option_bind]. rewrite topic_args by done.
  unfold sizeof_BmServiceRequestDataHeader. rewrite u16_small by lia. by rewrite (Z.add_comm _ 8).
Qed.

(** The request is kept, the topic of the replies is subscribed to, and the request
    is published; when this fails, it is kept all the same. *)
Lemma service_request_spec n r d r' cb timeout_s (s : St) a :
  name_ok n -> (length d <= 1024)%nat -> lists_requests (part s) a -> rq_ready (part s) ->
  exists s0, lists_requests (part s0) (keep_request n cb (u32 (timeout_s * 1000)) a) /\ rq_ready (part s0)
    /\ bm_service_request replied (Z.of_nat (length n)) (Some (n ++ r)) (Z.of_nat (length d)) (Some (d ++ r')) cb timeout_s s
       = (e ← sub_wl (n ++ BM_SERVICE_REP_STR) (Z.of_nat (length n + 4)) replied;
          if is_ok e then
            e ← pub_wl (n ++ BM_SERVICE_REQ_STR) (Z.of_nat (length n + 4)) (request_message (sp_count a) d)
                  (8 + Z.of_nat (length d)) 0 BM_COMMON_PUB_SUB_VERSION;
            mret (is_ok e)
          else mret false) s0.
Proof.
  intros Hn Hd Ha Hr.
  destruct (keep_request_spec (part s) a n r cb (u32 (timeout_s * 1000)) Ha Hr)
    as (l & v1 & v2 & E1 & E2 & Ha' & Hr' & (m & Hm & Hid) & _).
  set (s0 := set_part v2 s : St). assert (Hp : part s0 = v2) by (unfold s0; by rewrite part_set).
  exists s0. rewrite Hp. split; [done|]. split; [done|]. unfold bm_service_request.
  rewrite bool_decide_eq_false_2 by done. rewrite andb_false_r.
  destruct (Z.ltb_spec MAX_BM_SERVICE_DATA_SIZE (Z.of_nat (length d))) as [Hbig|_];
    [unfold MAX_BM_SERVICE_DATA_SIZE in Hbig; lia|].
  rewrite (bind_some _ _ _ _ _ (on_part_some _ _ _ _ E1)). cbv iota.
  erewrite bind_some by (apply on_part_some; rewrite part_set; exact E2). rewrite set_part_twice. cbn [negb].
  fold s0. unfold _service_request_sub_to_reply_topic. rewrite bind_assoc.
  assert (Hos : willing (sv_os (part s0))) by (rewrite Hp; exact (rr_os _ Hr')).
  rewrite (bind_some _ _ _ _ _ (on_part_pure _ _ _ (sv_malloc _ Hos))), bind_assoc, bind_lift.
  rewrite service_topic_spec, topic_args by done. cbn [mbind option_bind]. rewrite bind_assoc.
  unfold mbind at 1 5, M_bind at 1 5.
  destruct (sub_wl _ _ _ s0) as [[e s1]|] eqn:Es; [|done]. erewrite bind_some by reflexivity.
  destruct (is_ok e); cbn [negb]; [|done]. erewrite bind_some by reflexivity.
  pose proof (sub_keeps _ _ _ _ _ _ Es) as Hk. cbn in Hk. rewrite Hk, Hp, bind_lift, Hm. cbn [mbind option_bind].
  rewrite Hid. apply send_request_spec; [done|done|]. by rewrite Hk.
Qed.

(** *** The service *)

Lemma publish_reply_spec e n r0 node id r (t t2 : St) err :
  name_ok n -> service_strlen e = Z.of_nat (length n) -> sv_strings (part t) !! service e = Some (n ++ r0) ->
  (length r <= 1008)%nat -> willing (sv_os (part t)) ->
  pub_wl (n ++ BM_SERVICE_REP_STR) (Z.of_nat (length n + 4)) (reply_message node id r ++ replicate (1008 - length r) 0)
    (16 + Z.of_nat (length r)) 0 BM_COMMON_PUB_SUB_VERSION t = Some (err, t2) ->
  publish_reply e node (native_store 4 id) (replicate 16 0 ++ r ++ replicate (1008 - length r) 0) (Z.of_nat (length r)) t
  = Some (tt, t2).
Proof.
  intros Hn Hlen Hstr Hr Hos E. unfold publish_reply. rewrite bind_lift. unfold write_at.
  rewrite !length_app, !length_native_store, !length_replicate.
  destruct (Nat.leb_spec (0 + (8 + (4 + 4))) (16 + (length r + (1008 - length r)))) as [_|?]; [|lia].
  cbn [mbind option_bind]. rewrite (bind_some _ _ _ _ _ (on_part_pure _ _ _ (sv_malloc _ Hos))).
  erewrite bind_some by (apply app_string_spec; exact Hstr).
  rewrite bind_lift, Hlen, service_topic_spec, topic_args by done. cbn [mbind option_bind].
  unfold sizeof_BmServiceReplyDataHeader. rewrite usize_small, u16_small by lia.
  unfold blit. rewrite take_0, !length_app, !length_native_store. cbn [app].
  rewrite drop_app_length' by (by rewrite length_replicate).
  replace ((native_store 8 node ++ native_store 4 id ++ native_store 4 (Z.of_nat (length r)))
      ++ r ++ replicate (1008 - length r) 0)
    with (reply_message node id r ++ replicate (1008 - length r) 0)
    by (unfold reply_message; by rewrite <- !app_assoc).
  rewrite (Z.add_comm _ 16). by rewrite (bind_some _ _ _ _ _ E).
Qed.

(** The first service of the name is asked, and its answer is published. *)
Lemma service_answers names (t t1 t2 : St) off n h node id d more r err ty ve :
  names_ok names -> lists_offers names (part t) off -> sv_ready (part t) -> n ∈ names -> find_offer n off = Some h ->
  0 <= id < 2 ^ 32 -> Z.of_nat (length d) < 65528 -> (length r <= 1008)%nat ->
  (forall r0, call_handler h (Z.of_nat (length n)) (n ++ r0) (Z.of_nat (length d)) (d ++ more) 1008
                (set_part (sv_locked (part t)) t) = Some ((true, Z.of_nat (length r), r), t1)) ->
  part t1 = sv_locked (part t) ->
  pub_wl (n ++ BM_SERVICE_REP_STR) (Z.of_nat (length n + 4)) (reply_message node id r ++ replicate (1008 - length r) 0)
    (16 + Z.of_nat (length r)) 0 BM_COMMON_PUB_SUB_VERSION t1 = Some (err, t2) ->
  _service_request_received_cb call_handler node (n ++ BM_SERVICE_REQ_STR ++ request_message id d ++ more)
    (Z.of_nat (length n + 4)) (request_message id d ++ more) (8 + Z.of_nat (length d)) ty ve t
  = Some (tt, set_part (part t) t2).
Proof.
  intros Hok Ho Hrd Hn Hfind Hid Hd Hr Hh Hp1 Hpub. pose proof (no_each _ Hok _ Hn) as Hname.
  pose proof (received_dispatch call_handler names t off n node (request_message id d ++ more)
    (Z.of_nat (length n + 4)) (request_message id d ++ more) (8 + Z.of_nat (length d)) ty ve Hok Ho Hrd Hn) as E.
  cbv zeta in E. rewrite Hfind in E. destruct E as (e & r0 & He & Hlen & Hstr & ->).
  pose proof (pub_keeps _ _ _ _ _ _ _ _ _ Hpub) as Hk. cbn in Hk. rewrite Hp1 in Hk.
  set (t0 := set_part (sv_locked (part t)) t : St).
  assert (Hp0 : part t0 = sv_locked (part t)) by (unfold t0; by rewrite part_set).
  rewrite (bind_some _ _ _ tt t2).
  { by rewrite (unlock (part t) t2 Hk (sr_lock _ Hrd)). }
  destruct (request_fields id d more) as (F1 & F2 & F3). unfold serve_request.
  rewrite bind_lift, F2. cbn [mbind option_bind]. rewrite native_load_store, Z.mod_small by lia.
  unfold sizeof_BmServiceRequestDataHeader. rewrite usize_small, Z.eqb_refl by lia. cbn [negb].
  rewrite Hlen. destruct Hname as [Hnl Hn0]. rewrite usize_small by lia.
  rewrite Nat2Z.inj_add, Z.eqb_refl. cbn [negb].
  assert (Hos0 : willing (sv_os (part t0))) by (rewrite Hp0; exact (sr_os _ Hrd)).
  rewrite (bind_some _ _ _ _ _ (on_part_pure _ _ _ (sv_malloc _ Hos0))).
  erewrite bind_some by (apply app_string_spec; rewrite Hp0; exact Hstr).
  rewrite He, F3. rewrite (bind_some _ _ _ _ _ (Hh r0)). rewrite bind_lift.
  assert (Ew : write_at 16 r (replicate (Z.to_nat MAX_BM_SERVICE_DATA_SIZE) 0)
    = Some (replicate 16 0 ++ r ++ replicate (1008 - length r) 0)).
  { unfold write_at. rewrite length_replicate. change (Z.to_nat MAX_BM_SERVICE_DATA_SIZE) with 1024%nat.
    destruct (Nat.leb_spec (16 + length r) 1024) as [_|?]; [|lia]. unfold blit.
    rewrite take_replicate, drop_replicate. by do 4 f_equal. }
  rewrite Ew. cbn [mbind option_bind]. rewrite bind_lift, F1. cbn [mbind option_bind].
  eapply publish_reply_spec; [by split|done|by rewrite Hp1|done|rewrite Hp1; exact (sr_os _ Hrd)|].
  exact Hpub.
Qed.

(** C11: a service is called over the network.  A node asks: the request is kept under
    the next id, the topic of the replies is subscribed to, and the id and the data
    are published to the topic name/req; it is true exactly when both are taken, and
    the request waits in any case.  A node that offers a service of that name, and
    gets this message, calls its handler with the data, and publishes what the handler
    answers, to the topic name/rep, with the asking node's id and the id of the
    request; its services are as before.  When the reply arrives at the node that has
    asked, the request's callback gets the answer, byte for byte, and the request is
    gone; at every other node it changes nothing. *)
Theorem service_call CFG n rest d rest' cb timeout_s (s : St) a :
  name_ok n -> (length d <= 1024)%nat -> 0 <= node_id CFG < 2 ^ 64 -> 0 <= sp_count a < 2 ^ 32 ->
  lists_requests (part s) a -> rq_ready (part s) -> Forall (fun p => rq_id p <> sp_count a) (sp_requests a) ->
  let id := sp_count a in
  let kept := keep_request n (Some cb) (u32 (timeout_s * 1000)) a in
  (exists s0, lists_requests (part s0) kept
     /\ bm_service_request replied (Z.of_nat (length n)) (Some (n ++ rest)) (Z.of_nat (length d)) (Some (d ++ rest'))
          (Some cb) timeout_s s
        = (e ← sub_wl (n ++ BM_SERVICE_REP_STR) (Z.of_nat (length n + 4)) replied;
           if is_ok e then
             e ← pub_wl (n ++ BM_SERVICE_REQ_STR) (Z.of_nat (length n + 4)) (request_message id d)
                   (8 + Z.of_nat (length d)) 0 BM_COMMON_PUB_SUB_VERSION;
             mret (is_ok e)
           else mret false) s0)
  /\ (forall names (t t1 t2 : St) off h r err ty ve,
       names_ok names -> lists_offers names (part t) off -> sv_ready (part t) -> n ∈ names ->
       find_offer n off = Some h -> (length r <= 1008)%nat ->
       (forall r0, call_handler h (Z.of_nat (length n)) (n ++ r0) (Z.of_nat (length d)) d 1008
                     (set_part (sv_locked (part t)) t) = Some ((true, Z.of_nat (length r), r), t1)) ->
       part t1 = sv_locked (part t) ->
       pub_wl (n ++ BM_SERVICE_REP_STR) (Z.of_nat (length n + 4))
         (reply_message (node_id CFG) id r ++ replicate (1008 - length r) 0)
         (16 + Z.of_nat (length r)) 0 BM_COMMON_PUB_SUB_VERSION t1 = Some (err, t2) ->
       _service_request_received_cb call_handler (node_id CFG) (n ++ BM_SERVICE_REQ_STR ++ request_message id d)
         (Z.of_nat (length n + 4)) (request_message id d) (8 + Z.of_nat (length d)) ty ve t
       = Some (tt, set_part (part t) t2))
  /\ (forall r (u : St), (length r <= 1008)%nat -> lists_requests (part u) kept -> rq_ready (part u) ->
       exists v, _service_request_cb CFG (reply_message (node_id CFG) id r) u = Some (tt, set_part v u)
         /\ lists_requests v (MkPending (sp_requests a) (u32 (id + 1)) (sp_now a)
              (sp_calls a ++ [MkReplyCall cb true id (Z.of_nat (length n)) n (Z.of_nat (length r)) (Some r)])))
  /\ (forall CFG' r (u : St), node_id CFG' <> node_id CFG ->
       _service_request_cb CFG' (reply_message (node_id CFG) id r) u = Some (tt, u)).
Proof.
  intros Hn Hd Hnode Hid Ha Hr Hfresh id kept. split; [|split; [|split]].
  - destruct (service_request_spec n rest d rest' (Some cb) timeout_s s a Hn Hd Ha Hr) as (s0 & Ha0 & _ & E).
    by exists s0.
  - intros names t t1 t2 off h r err ty ve Hok Ho Hrd Hin Hfind Hlen Hh Hp1 Hpub.
    rewrite <- (app_nil_r (request_message id d)).
    eapply service_answers; try done; [lia|]. rewrite app_nil_r. exact Hh.
  - intros r u Hlen Hu Hru. rewrite <- (app_nil_r (reply_message (node_id CFG) id r)).
    destruct (request_cb_spec CFG u kept (node_id CFG) id r [] Hu Hru) as (v & E & Hv & _); [done|done|lia|].
    exists v. split; [exact E|]. unfold accept_reply, take_reply in Hv. rewrite decide_True in Hv by done.
    assert (Et : take_first (fun p => rq_id p =? id) (sp_requests kept)
      = Some (MkRequestNode n (Z.of_nat (length n)) (Some cb) (u32 (timeout_s * 1000)) (sp_now a) id None, sp_requests a)).
    { unfold kept, keep_request. cbn [sp_requests]. clear -Hfresh. induction Hfresh as [|p l Hp _ IH]; cbn.
      - by rewrite Z.eqb_refl.
      - destruct (Z.eqb_spec (rq_id p) id); [done|]. by rewrite IH. }
    rewrite Et in Hv. exact Hv.
  - intros CFG' r u Hne. unfold _service_request_cb.
    rewrite <- (app_nil_r (reply_message (node_id CFG) id r)), bind_lift, (proj1 (reply_fields _ _ _ _)).
    cbn [mbind option_bind]. rewrite native_load_store, Z.mod_small by done.
    by destruct (Z.eqb_spec (node_id CFG) (node_id CFG')).
Qed.
End call.

(** ** Concrete runs *)

(** A node that records what it publishes, and whose subscriptions succeed. *)
Definition posting_node : Type := services * list (bytes * bytes).

#[local] Instance posting_pubsub : PubSubApi posting_node := {
  sub_wl _ _ _ := mret BmOK;
  unsub_wl _ _ _ := mret BmOK;
  pub_wl t _ d len _ _ := fun s => Some (BmOK, (fst s, snd s ++ [(t, take (Z.to_nat len) d)]))
}.
#[local] Instance posting_keeps : KeepsServices posting_node.
Proof. split; intros; by intros a s' [= <- <-]. Qed.

(** A service that turns the data round. *)
Definition turn_round (_ : nat) (_ : Z) (_ : bytes) (size : Z) (d : bytes) (_ : Z) : M posting_node (bool * Z * bytes) :=
  mret (true, size, rev (take (Z.to_nat size) d)).

Definition offering (allocs : list bool) (strs : list bytes) : services :=
  set_sv_os (MkOs allocs [] 0)
    (MkServices (Some 1%positive)
      (list_to_map (imap (fun i n => (Pos.of_succ_nat i, MkElem (Pos.of_succ_nat i) (Z.of_nat (length n)) i
         (if (S i =? length strs)%nat then None else Some (Pos.succ (Pos.of_succ_nat i))))) strs))
      (Some true) (list_to_map (imap (fun i n => (Pos.of_succ_nat i, n ++ [0])) strs)) None ∅ 0
      (Some true) (Some true) [] (MkOs [] [] 0)).

Definition asking_node : posting_node := (requests_zero, []).

(** The node that has asked. *)
Definition asked_node `{Platform} : posting_node :=
  (set_request_count 1 (set_requests (Some 1%positive)
     (<[1%positive := MkRequestNode [97; 98] 2 (Some 9%nat) 1000 0 0 None]> ∅) requests_zero),
   [(ab_req, request_message 0 [1; 2; 3])]).

Definition ab_rep : bytes := [97; 98; 47; 114; 101; 112].

Lemma service_call_witness :
  let P := platform_linux in
  bm_service_request 4 2 (Some [97; 98; 0]) 3 (Some [1; 2; 3]) (Some 9%nat) 1 asking_node = Some (true, asked_node)
  /\ _service_request_received_cb turn_round 5 ([97; 98] ++ BM_SERVICE_REQ_STR ++ request_message 0 [1; 2; 3]) 6
       (request_message 0 [1; 2; 3]) 11 0 2 (offering [] [[97; 98]], [])
     = Some (tt, (offering [] [[97; 98]], [(ab_rep, reply_message 5 0 [3; 2; 1])]))
  /\ exists v, _service_request_cb rq_sample_cfg (reply_message 5 0 [3; 2; 1]) asked_node = Some (tt, (v, snd asked_node))
     /\ sv_calls v = [MkReplyCall 9 true 0 2 [97; 98] 3 (Some [3; 2; 1])].
Proof.
  intros P. assert (Hok : names_ok [[97; 98]]).
  { split; [intros n ->%list_elem_of_singleton|by intros n m ->%list_elem_of_singleton ->%list_elem_of_singleton].
    split; [cbn; lia|by apply (bool_decide_unpack _)]. }
  destruct (service_call (ltac:(done) : 32 <= @size_t_bits platform_linux) 4 turn_round rq_sample_cfg [97; 98] [0]
    [1; 2; 3] [] 9 1 asking_node (MkPending [] 0 0 [])) as (_ & Hserve & Hreply & _).
  - apply (no_each _ Hok). by left.
  - cbn. lia.
  - done.
  - done.
  - split; [|done..]. exists []. split; [|done]. split; [done|apply NoDup_nil_2].
  - by split.
  - constructor.
  - split; [vm_compute; reflexivity|]. split.
    + refine (Hserve [[97; 98]] (offering [] [[97; 98]], []) (sv_locked (offering [] [[97; 98]]), [])
        (sv_locked (offering [] [[97; 98]]), [(ab_rep, reply_message 5 0 [3; 2; 1])]) [([97; 98], 0%nat)] 0%nat [3; 2; 1] BmOK 0 2 Hok _ _ _ _ _ _ _ _); try done.
      * split; [|by intros a ->%list_elem_of_singleton; left].
        exists [(1%positive, MkElem 1%positive 2 0 None)]. split; [by split; [|apply NoDup_singleton]|].
        constructor; [|constructor]. split; [by exists [0]|done].
      * by left.
      * cbn. lia.
    + destruct (Hreply [3; 2; 1] asked_node) as (v & E & Hv); [cbn; lia| |by split|].
      * split; [|done..]. exists [(1%positive, MkRequestNode [97; 98] 2 (Some 9%nat) 1000 0 0 None)].
        split; [by split; [|apply NoDup_singleton]|done].
      * exists v. split; [exact E|exact (lr_calls _ _ Hv)].
Defined.

(** A registration that fails, since there is no memory for the topic, leaves its
    element in the list. *)
Example failed_registration_stays :
  (let P := platform_linux in
   (fun r => (fst r, service_list (fst (snd r))))
   <$> bm_service_register 3 2 (Some 1%positive) (Some 7%nat)
         (set_elems None ∅ (offering [true; false] [[97; 98]]), []) : option (bool * option loc))
  = Some (false, Some 1%positive).
Proof. vm_compute. reflexivity. Qed.

(** Unregistering "a" removes "ab", which stands before it. *)
Example longer_service_removed :
  (let P := platform_linux in
   (fun r => (fst r, sv_elems (fst (snd r)) !! 1%positive, service_handler <$> sv_elems (fst (snd r)) !! 2%positive))
   <$> bm_service_unregister 3 1 (Some 2%positive) (offering [] [[97; 98]; [97]], []))
  = Some (true, None, Some 1%nat).
Proof. vm_compute. reflexivity. Qed.

(** A request for "ab" does not reach it behind "a". *)
Example service_hidden :
  (let P := platform_linux in
   snd ∘ snd <$> _service_request_received_cb turn_round 5 (ab_req ++ request_message 0 [1; 2; 3]) 6
     (request_message 0 [1; 2; 3]) 11 0 2 (offering [] [[97]; [97; 98]], [])) = Some [].
Proof. vm_compute. reflexivity. Qed.

(** Without memory for the reply, the null pointer is cleared. *)
Example reply_without_memory :
  (let P := platform_linux in
   _service_request_received_cb turn_round 5 (ab_req ++ request_message 0 [1; 2; 3]) 6
     (request_message 0 [1; 2; 3]) 11 0 2 (offering [false] [[97; 98]], [])) = None.
Proof. vm_compute. reflexivity. Qed.

(** A request without data is read behind its end. *)
Example request_without_header :
  (let P := platform_linux in
   _service_request_received_cb turn_round 5 ab_req 6 [] 0 0 2 (offering [] [[97; 98]], [])) = None.
Proof. vm_compute. reflexivity. Qed.

(** A request that is not sent, since there is no memory for the topic of the replies,
    waits for its time to be over. *)
Example failed_request_waits :
  (let P := platform_linux in
   (fun r => (fst r, service_request_list (fst (snd r))))
   <$> bm_service_request 4 2 (Some [97; 98; 0]) 0 None (Some 9%nat) 1
         (set_sv_os (MkOs [true; true; false] [] 0) requests_zero, []) : option (bool * option loc))
  = Some (false, Some 1%positive).
Proof. vm_compute. reflexivity. Qed.

(** The callback of a reply that is cut gets a length that is not there. *)
Example reply_length_unchecked :
  (let P := platform_linux in
   (fun c => (rc_len c, rc_data c)) <$> (sv_calls ∘ fst ∘ snd <$>
     _service_request_cb rq_sample_cfg (take 17 (reply_message 5 0 [3; 2; 1])) asked_node) ≫= hd_error)
  = Some (3, None).
Proof. vm_compute. reflexivity. Qed.
