(* ===== verification/SettingsMap.v ===== *)
(** * The settings as one map: src/middleware/cbor_service_helper.c

    All settings of a partition in one CBOR map, in a buffer that is made larger until
    the map fits, and the checksum of that map.  The encoder of the CBOR library is a
    class, as its parser is in [Configuration]. *)
From S2P Require Import Prelude Util Crc Os Parts Configuration.

Definition MAX_STR_LEN_BYTES : nat := 50.

Inductive CborError : Type := CborNoError | CborErrorOutOfMemory | CborErrorOther.

(** An encoder has the bytes that it has written, the buffer's room behind them, and the
    items that a container still misses.  Two of the operations are what this file does to
    the encoder's fields: [encoder_room] is [map.end - map.data.ptr], [None] when there is
    no end any more since the buffer is full, and [encoder_copy] copies to [map.data.ptr]
    and moves it. *)
Class CborEncoderApi : Type := {
  CborEncoder : Type;
  cbor_encoder_init : Z -> CborEncoder;
  cbor_encoder_create_map : CborEncoder -> Z -> CborError * CborEncoder;
  encoder_uint : CborEncoder -> Z -> CborError * CborEncoder;
  encoder_int : CborEncoder -> Z -> CborError * CborEncoder;
  encoder_float : CborEncoder -> Z -> CborError * CborEncoder;
  encoder_text_string : CborEncoder -> bytes -> CborError * CborEncoder;
  encoder_byte_string : CborEncoder -> bytes -> CborError * CborEncoder;
  cbor_encoder_close_container : CborEncoder -> CborEncoder -> CborError * CborEncoder;
  cbor_encoder_get_extra_bytes_needed : CborEncoder -> Z;
  encoder_bytes : CborEncoder -> bytes;
  encoder_room : CborEncoder -> option Z;
  encoder_copy : CborEncoder -> bytes -> CborEncoder
}.

(** [err != CborNoError && err != CborErrorOutOfMemory] *)
Definition gives_up (e : CborError) : bool := match e with CborErrorOther => true | _ => false end.

Section settings_map.
Context `{CborApi} `{CborEncoderApi}.

(** The string in the buffer of the code, when it can be read and is short enough. *)
Definition string_value (copied : bool * bytes * Z) : option bytes :=
  let '(ok, buf, size) := copied in
  if ok && (size <? Z.of_nat MAX_CONFIG_BUFFER_SIZE_BYTES) then Some (take (Z.to_nat size) buf) else None.

(** The value of a key; [value] is what [get_config_cbor] has copied.  [err] stays when
    nothing is encoded, and [false] is that the value cannot be read. *)
Definition encode_value (type : Z) (it : CborValue) (value : bytes) (err : CborError) (map : CborEncoder)
    : bool * CborError * CborEncoder :=
  let of_option (r : option (CborError * CborEncoder)) :=
    match r with Some (err, map) => (true, err, map) | None => (false, err, map) end in
  let or_same (r : option (CborError * CborEncoder)) :=
    match r with Some (err, map) => (true, err, map) | None => (true, err, map) end in
  if type =? config_type_num UINT32 then of_option ((fun t => encoder_uint map (u32 t)) <$> cbor_value_get_uint64 it)
  else if type =? config_type_num INT32 then of_option ((fun t => encoder_int map (s32 t)) <$> cbor_value_get_int64 it)
  else if type =? config_type_num FLOAT then of_option (encoder_float map <$> cbor_value_get_float it)
  else if type =? config_type_num STR then
    or_same (encoder_text_string map <$> string_value (cbor_value_copy_text_string it
      (replicate MAX_STR_LEN_BYTES 0) (Z.of_nat MAX_STR_LEN_BYTES)))
  else if type =? config_type_num BYTES then
    or_same (encoder_byte_string map <$> string_value (cbor_value_copy_byte_string it
      (replicate MAX_STR_LEN_BYTES 0) (Z.of_nat MAX_STR_LEN_BYTES)))
  else if type =? config_type_num ARRAY then
    (true, err, match encoder_room map with
                | Some room => if Z.of_nat (length value) <? room then encoder_copy map value else map
                | None => map
                end)
  else (true, err, map).

(** One key: whether the loop goes on, the last error, the map and the value that was
    parsed, which is [None] as long as none was. *)
Definition map_key (type : Z) (key : ConfigKey) (map : CborEncoder) (it : option CborValue)
    : M configs (bool * CborError * CborEncoder * option CborValue) :=
  name ← lift (read_at 0 (Z.to_nat (key_len key)) (key_buf key));
  let '(err, map) := encoder_text_string map name in
  if gives_up err then mret (false, err, map, it)
  else
    '(found, value, len) ← get_config_cbor type (Some (key_buf key)) (key_len key)
      (Some (replicate MAX_STR_LEN_BYTES 0)) (Z.of_nat MAX_STR_LEN_BYTES);
    let value := take (Z.to_nat len) value in
    let parsed := cbor_parser_init value in
    if found && bool_decide (parsed = None) then mret (false, err, map, it)
    else
      let it := if found : bool then parsed else it in
      v ← lift it;
      if cbor_value_is_valid v then
        let '(ok, err, map) := encode_value (value_type key) v value err map in
        mret (ok && negb (gives_up err), err, map, it)
      else mret (false, err, map, it).

(** The loop over [n] keys from the [i]th on. *)
Fixpoint map_keys (type : Z) (ks : list ConfigKey) (n i : nat) (err : CborError) (map : CborEncoder)
    (it : option CborValue) : M configs (CborError * CborEncoder * option CborValue) :=
  match n with
  | O => mret (err, map, it)
  | S n =>
      key ← lift (ks !! i);
      '(next, err, map, it) ← map_key type key map it;
      if next : bool then map_keys type ks n (S i) err map it else mret (err, map, it)
  end.

(** The buffers of one size after the other; [None] is [NULL].  When the map cannot even
    be begun, the buffer is returned with a length of 0. *)
Fixpoint map_rounds (fuel : nat) (type : Z) (allocated : Z) (it : option CborValue) : M configs (option bytes) :=
  match fuel with
  | O => ub
  | S fuel =>
      '(ks, num_keys) ← get_stored_keys type;
      let encoder := cbor_encoder_init allocated in
      let '(err, map) := cbor_encoder_create_map encoder num_keys in
      if gives_up err then mret (Some [])
      else
        '(err, map, it) ← map_keys type ks (Z.to_nat num_keys) 0 err map it;
        let '(err, encoder) := if gives_up err then (err, encoder) else cbor_encoder_close_container encoder map in
        match err with
        | CborErrorOutOfMemory =>
            let allocated := allocated + cbor_encoder_get_extra_bytes_needed encoder in
            ok ← with_cf_os malloc_ok;
            if ok : bool then map_rounds fuel type allocated it else mret None
        | CborNoError => mret (Some (encoder_bytes encoder))
        | CborErrorOther => mret None
        end
  end.

(** How many buffers there are at most; two are enough where the encoder knows what it
    misses. *)
Definition map_fuel : nat := 4.

Definition services_cbor_as_map (type : Z) : M configs (option bytes) :=
  ok ← with_cf_os malloc_ok;
  if ok : bool then map_rounds map_fuel type 512 None else mret None.

Definition services_cbor_encoded_as_crc32 (type : Z) : M configs Z :=
  buffer ← services_cbor_as_map type;
  mret (match buffer with Some b => crc32_ieee b | None => 0 end).
End settings_map.
