(* ===== verification/SettingsEncoded.v ===== *)
(** * What the map of the settings holds

    For every encoder that keeps [CborEncoderLaws], the map of src/middleware/
    cbor_service_helper.c has every setting of the partition, in their order, and at most
    two buffers are needed for it. *)
From S2P Require Import Prelude Util Crc Os Parts Configuration ConfigStore ConfigTypes ConfigRemote SettingsMap.

(** What is documented of the encoder.  [enc_all]: all that it was given, whether there was
    room for it or not; [enc_size]: the size of the buffer; [enc_missing]: how many items
    the container still misses. *)
Class CborEncoderLaws `{CborEncoderApi} : Type := {
  enc_all : CborEncoder -> bytes;
  enc_size : CborEncoder -> Z;
  enc_missing : CborEncoder -> Z;
  map_head : Z -> bytes;
  item_bytes : cbor_item -> bytes;
  enc_status e := if Z.of_nat (length (enc_all e)) <=? enc_size e then CborNoError else CborErrorOutOfMemory;
  init_law n : enc_all (cbor_encoder_init n) = [] /\ enc_size (cbor_encoder_init n) = n;
  create_map_law e n :
    0 <= n -> exists map, cbor_encoder_create_map e n = (enc_status map, map)
      /\ enc_all map = enc_all e ++ map_head n /\ enc_size map = enc_size e /\ enc_missing map = 2 * n;
  appends (f : CborEncoder -> CborError * CborEncoder) i := forall e, exists e',
    f e = (enc_status e', e') /\ enc_all e' = enc_all e ++ item_bytes i /\ enc_size e' = enc_size e
    /\ enc_missing e' = enc_missing e - 1;
  uint_law z : 0 <= z < 2 ^ 32 -> appends (fun e => encoder_uint e z) (CborInt z);
  int_law z : - 2 ^ 31 <= z < 2 ^ 31 -> appends (fun e => encoder_int e z) (CborInt z);
  float_law f : 0 <= f < 2 ^ 32 -> appends (fun e => encoder_float e f) (CborFloat f);
  text_law s : appends (fun e => encoder_text_string e s) (CborText s);
  bytes_law s : appends (fun e => encoder_byte_string e s) (CborBytes s);
  close_law e map :
    enc_missing map = 0 -> exists e', cbor_encoder_close_container e map = (enc_status map, e')
      /\ enc_all e' = enc_all map /\ enc_size e' = enc_size map;
  extra_law e :
    enc_size e < Z.of_nat (length (enc_all e)) ->
    cbor_encoder_get_extra_bytes_needed e = Z.of_nat (length (enc_all e)) - enc_size e;
  written_law e : Z.of_nat (length (enc_all e)) <= enc_size e -> encoder_bytes e = enc_all e
}.

Section encoded.
Context `{CborApi} `{!CborLaws} `{CborEncoderApi} `{!CborEncoderLaws}.

(** The settings of [es], and the whole map. *)
Definition settings_bytes (es : list entry) : bytes :=
  concat ((fun e => item_bytes (CborText (fst e)) ++ item_bytes (snd e)) <$> es).
Definition map_bytes (es : list entry) : bytes := map_head (Z.of_nat (length es)) ++ settings_bytes es.

Lemma status_goes_on e : gives_up (enc_status e) = false.
Proof. unfold enc_status. by destruct (_ <=? _). Qed.

Lemma copied_string copy s :
  copies copy s -> (length s < 50)%nat ->
  string_value (copy (replicate MAX_STR_LEN_BYTES 0) (Z.of_nat MAX_STR_LEN_BYTES)) = Some s.
Proof.
  intros Hc Hs. destruct (Hc (replicate MAX_STR_LEN_BYTES 0)) as (b & E & Ht & _).
  { rewrite length_replicate. unfold MAX_STR_LEN_BYTES. lia. }
  rewrite length_replicate in E. rewrite E. unfold string_value, MAX_CONFIG_BUFFER_SIZE_BYTES.
  destruct (Z.ltb_spec (Z.of_nat (length s)) (Z.of_nat 50)); [|lia]. cbn [andb]. by rewrite Nat2Z.id, Ht.
Qed.

Lemma encode_value_spec t i v value err map :
  typed t i -> reads v i ->
  exists map', encode_value t v value err map = (true, enc_status map', map')
    /\ enc_all map' = enc_all map ++ item_bytes i /\ enc_size map' = enc_size map
    /\ enc_missing map' = enc_missing map - 1.
Proof.
  intros Ht Hr. unfold encode_value, config_type_num. destruct i as [z|f|s|s]; cbn in Ht, Hr.
  - destruct Ht as [[-> Hz]|[-> Hz]]; cbn [Z.eqb Pos.eqb].
    + rewrite (proj1 Hr) by lia. cbn. rewrite u32_small by lia.
      destruct (uint_law z Hz map) as (m & -> & Hm). eauto.
    + rewrite (proj2 Hr). cbn. assert (E : s32 z = z) by (unfold s32; rewrite Z.mod_small; lia). rewrite E.
      destruct (int_law z Hz map) as (m & -> & Hm). eauto.
  - destruct Ht as [-> Hf]. cbn [Z.eqb Pos.eqb]. rewrite Hr. cbn.
    destruct (float_law f Hf map) as (m & -> & Hm). eauto.
  - destruct Ht as [-> Hs]. cbn [Z.eqb Pos.eqb]. rewrite (copied_string _ s) by done. cbn.
    destruct (text_law s map) as (m & -> & Hm). eauto.
  - destruct Ht as [-> Hs]. cbn [Z.eqb Pos.eqb]. rewrite (copied_string _ s) by done. cbn.
    destruct (bytes_law s map) as (m & -> & Hm). eauto.
Qed.

(** One setting is added to the map. *)
Lemma map_key_spec type i es j e key map it c :
  info_at type c = Some i -> partition_ok (ram_buffer i) es -> types_ok (ram_buffer i) es -> es !! j = Some e ->
  keys (ram_buffer i) !! j = Some key ->
  exists map' it', map_key type key map it c = Some ((true, enc_status map', map', it'), c)
    /\ enc_all map' = enc_all map ++ item_bytes (CborText (fst e)) ++ item_bytes (snd e)
    /\ enc_size map' = enc_size map /\ enc_missing map' = enc_missing map - 2.
Proof.
  intros Hi Hp Ht Hj Hkey. destruct (po_slots _ _ Hp _ _ Hj) as (key' & v & E & _ & Hok & Hlen & (rest & Hbuf) & _).
  destruct (Ht _ _ Hj) as (key2 & E2 & Hty). rewrite Hkey in E, E2. injection E as <-. injection E2 as <-.
  unfold map_key. rewrite bind_lift, Hlen, Nat2Z.id, Hbuf, read_at_head by done. cbn [mbind option_bind].
  destruct (text_law (fst e) map) as (m1 & -> & A1 & S1 & M1). rewrite status_goes_on.
  pose proof (get_cbor_spec type i es (fst e) rest c Hi Hp Hok) as Hg.
  rewrite (item_at_nodup es j e (po_nodup _ _ Hp) Hj) in Hg. destruct Hg as (w & Hw & (cv & Ec & Hv & Hs) & Eg).
  unfold MAX_STR_LEN_BYTES at 1 2. change (Z.of_nat 50) with 50. rewrite (bind_some _ _ _ _ _ Eg). cbv iota beta.
  change (Z.to_nat 50) with 50%nat. rewrite take_ge by (rewrite Hw; unfold MAX_CONFIG_BUFFER_SIZE_BYTES; lia).
  rewrite Ec. rewrite (bool_decide_eq_false_2 (Some cv = None)) by done. cbn [andb]. rewrite bind_lift. cbn [mbind option_bind].
  rewrite Hv. destruct (encode_value_spec (value_type key) (snd e) cv w (enc_status m1) m1) as (m2 & -> & A2 & S2 & M2);
    [done|apply Hs|].
  rewrite status_goes_on. exists m2, (Some cv). split; [done|].
  rewrite A2, A1, <- app_assoc, S2, S1, M2, M1. split; [done|]. split; [done|]. lia.
Qed.

Lemma map_keys_spec type i es n j err map it c :
  info_at type c = Some i -> partition_ok (ram_buffer i) es -> types_ok (ram_buffer i) es ->
  (j + n)%nat = length es -> err = enc_status map ->
  exists map' it', map_keys type (keys (ram_buffer i)) n j err map it c = Some ((enc_status map', map', it'), c)
    /\ enc_all map' = enc_all map ++ settings_bytes (drop j es)
    /\ enc_size map' = enc_size map /\ enc_missing map' = enc_missing map - 2 * Z.of_nat n.
Proof.
  intros Hi Hp Ht. revert j err map it. induction n as [|n IH]; intros j err map it Hn ->; cbn [map_keys].
  { exists map, it. split; [done|]. rewrite drop_ge by lia. unfold settings_bytes. cbn. rewrite app_nil_r.
    split; [done|]. split; [done|]. lia. }
  destruct (lookup_lt_is_Some_2 es j) as [e He]; [lia|].
  destruct (Ht _ _ He) as (key & Hkey & _). rewrite bind_lift, Hkey. cbn [mbind option_bind].
  destruct (map_key_spec type i es j e key map it c) as (m1 & it1 & E1 & A1 & S1 & M1); [done..|].
  erewrite bind_some by exact E1. cbv iota beta.
  destruct (IH (S j) _ m1 it1 ltac:(lia) eq_refl) as (m2 & it2 & E2 & A2 & S2 & M2).
  exists m2, it2. split; [exact E2|]. rewrite A2, A1, S2, S1, M2, M1, (drop_S _ _ _ He).
  unfold settings_bytes. cbn [fmap list_fmap concat]. rewrite <- !app_assoc. split; [done|]. split; [done|]. lia.
Qed.

(** One buffer: the map when there is room for it, and otherwise a buffer of its size. *)
Lemma round_spec type i es fuel allocated it c :
  info_at type c = Some i -> partition_ok (ram_buffer i) es -> types_ok (ram_buffer i) es ->
  exists it',
  map_rounds (S fuel) type allocated it c
  = if Z.of_nat (length (map_bytes es)) <=? allocated then Some (Some (map_bytes es), c)
    else (ok ← with_cf_os malloc_ok;
          if ok : bool then map_rounds fuel type (Z.of_nat (length (map_bytes es))) it' else mret None) c.
Proof.
  intros Hi Hp Ht. cbn [map_rounds]. unfold get_stored_keys. rewrite bind_assoc.
  rewrite (bind_some _ _ _ _ _ (get_partition_at _ _ _ Hi)). erewrite (bind_some (mret _)) by reflexivity. cbv iota beta.
  destruct (init_law allocated) as [A0 S0].
  destruct (create_map_law (cbor_encoder_init allocated) (numKeys (ram_buffer i))) as (m & -> & A1 & S1 & M1).
  { rewrite (po_num _ _ Hp). lia. }
  rewrite status_goes_on. rewrite A0 in A1. cbn [app] in A1.
  rewrite (po_num _ _ Hp) in A1, M1 |- *. rewrite Nat2Z.id.
  destruct (map_keys_spec type i es (length es) 0 _ m it c Hi Hp Ht eq_refl eq_refl) as (m2 & it2 & E2 & A2 & S2 & M2).
  erewrite bind_some by exact E2. cbv iota beta. rewrite status_goes_on.
  destruct (close_law (cbor_encoder_init allocated) m2) as (e & -> & A3 & S3); [lia|].
  rewrite A1, drop_0 in A2. fold (map_bytes es) in A2. rewrite S1, S0 in S2. exists it2.
  unfold enc_status. rewrite A2, S2. destruct (Z.leb_spec (Z.of_nat (length (map_bytes es))) allocated) as [Hl|Hl].
  - rewrite written_law by (rewrite A3, S3, A2, S2; done). by rewrite A3, A2.
  - rewrite extra_law by (rewrite A3, S3, A2, S2; lia). rewrite A3, A2, S3, S2.
    by replace (allocated + (Z.of_nat (length (map_bytes es)) - allocated)) with (Z.of_nat (length (map_bytes es))) by lia.
Qed.

Lemma info_at_os type c o : info_at type (set_cf_os o c) = info_at type c.
Proof. done. Qed.

Lemma map_complete type i es c :
  info_at type c = Some i -> partition_ok (ram_buffer i) es -> types_ok (ram_buffer i) es ->
  total (services_cbor_as_map type) (fun r c' =>
    CONFIGS c' = CONFIGS c
    /\ (r = Some (map_bytes es) \/ r = None /\ os_alloc (cf_os c) <> [])) c.
Proof.
  intros Hi Hp Ht. destruct c as [cs [al w t]]. unfold services_cbor_as_map, map_fuel.
  assert (Hm : forall a, with_cf_os malloc_ok (MkConfigs cs (MkOs a w t))
     = Some (fst (next_answer a), MkConfigs cs (MkOs (snd (next_answer a)) w t))) by (by intros [|]).
  assert (Hi' : forall a, info_at type (MkConfigs cs (MkOs a w t)) = Some i) by done.
  unfold total. rewrite (bind_some _ _ _ _ _ (Hm al)). destruct al as [|[] al]; cbn [next_answer fst snd].
  - destruct (round_spec type i es 3 512 None _ (Hi' []) Hp Ht) as (it & ->).
    destruct (_ <=? 512); [eauto 6|]. rewrite (bind_some _ _ _ _ _ (Hm [])). cbn [next_answer fst snd].
    destruct (round_spec type i es 2 (Z.of_nat (length (map_bytes es))) it _ (Hi' []) Hp Ht) as (it' & ->).
    rewrite Z.leb_refl. eauto 6.
  - destruct (round_spec type i es 3 512 None _ (Hi' al) Hp Ht) as (it & ->).
    destruct (_ <=? 512); [eauto 6|]. rewrite (bind_some _ _ _ _ _ (Hm al)).
    destruct (next_answer al) as [[] al']; cbn [fst snd]; [|eexists _, _; split; [reflexivity|]; split; [done|by right]].
    destruct (round_spec type i es 2 (Z.of_nat (length (map_bytes es))) it _ (Hi' al') Hp Ht) as (it' & ->).
    rewrite Z.leb_refl. eauto 6.
  - eexists _, _. split; [reflexivity|]. split; [done|by right].
Qed.

(** C35: the map of a partition of numbers, floats, strings and buffers is complete.
    Whichever of these the partition holds under the types that its keys have, and however
    long the map gets, [services_cbor_as_map] runs without undefined behaviour, changes
    no setting and needs two buffers at most; it gives the encoding of the map of all keys
    with their values, in their order, or nothing at all when there is no memory for a
    buffer, and with memory for both it gives the map.  The checksum that the node reports
    of its settings is that of this map, or 0 when there was no memory.  A partition with
    an array among its values, which the code means to support, is left out: it gets no
    map ([array_fails_map]), and its checksum is 0 ([array_checksum]). *)
Theorem settings_map type i es c :
  info_at type c = Some i -> partition_ok (ram_buffer i) es -> types_ok (ram_buffer i) es ->
  total (services_cbor_as_map type) (fun r c' =>
    CONFIGS c' = CONFIGS c
    /\ (r = Some (map_bytes es) \/ r = None /\ os_alloc (cf_os c) <> [])) c
  /\ total (services_cbor_encoded_as_crc32 type) (fun crc c' =>
       CONFIGS c' = CONFIGS c
       /\ (crc = crc32_ieee (map_bytes es) \/ crc = 0 /\ os_alloc (cf_os c) <> [])) c.
Proof.
  intros Hi Hp Ht. pose proof (map_complete _ _ _ _ Hi Hp Ht) as Hm. split; [done|].
  unfold services_cbor_encoded_as_crc32. total_step. eapply total_mono; [exact Hm|].
  intros r c' [Hc [-> |[-> Hn]]]; total_step; auto.
Qed.
End encoded.

(** ** Concrete runs *)

(** An encoder of three fields: what it was given, the size, the items that are missing.
    The items are those of [plain_cbor]. *)
Definition plain_encoder : Type := bytes * Z * Z.
Definition plain_status (e : plain_encoder) : CborError :=
  if Z.of_nat (length e.1.1) <=? e.1.2 then CborNoError else CborErrorOutOfMemory.
Definition plain_append (b : bytes) (items : Z) (e : plain_encoder) : CborError * plain_encoder :=
  let e := (e.1.1 ++ b, e.1.2, e.2 + items) in (plain_status e, e).
Definition plain_head (n : Z) : bytes := if n <? 24 then [160 + n] else [184; n].

#[local] Instance plain_encoder_api : CborEncoderApi := {
  CborEncoder := plain_encoder;
  cbor_encoder_init n := ([], n, 1);
  cbor_encoder_create_map e n := plain_append (plain_head n) (2 * n - e.2) e;
  encoder_uint e z := plain_append (plain_encode (CborInt z)) (-1) e;
  encoder_int e z := plain_append (plain_encode (CborInt z)) (-1) e;
  encoder_float e f := plain_append (plain_encode (CborFloat f)) (-1) e;
  encoder_text_string e s := plain_append (plain_encode (CborText s)) (-1) e;
  encoder_byte_string e s := plain_append (plain_encode (CborBytes s)) (-1) e;
  cbor_encoder_close_container e map := (if map.2 =? 0 then plain_status map else CborErrorOther, map);
  cbor_encoder_get_extra_bytes_needed e := Z.of_nat (length e.1.1) - e.1.2;
  encoder_bytes e := e.1.1;
  encoder_room e := if Z.of_nat (length e.1.1) <=? e.1.2 then Some (e.1.2 - Z.of_nat (length e.1.1)) else None;
  encoder_copy e b := (e.1.1 ++ b, e.1.2, e.2)
}.

#[local] Instance plain_encoder_laws : CborEncoderLaws.
Proof.
  refine {| enc_all e := e.1.1; enc_size e := e.1.2; enc_missing e := e.2; map_head := plain_head;
            item_bytes := plain_encode |}; try done.
  1: intros [[a n0] m] n Hn; eexists; split; [reflexivity|]; cbn; split; [done|split; [done|lia]].
  6: intros e [[a n] m] Hm; cbn in Hm; subst m; eexists; split; [reflexivity|]; done.
  all: intros; eexists; split; [reflexivity|]; done.
Defined.

(** A partition with a number and a string. *)
Definition two_settings : list entry := [([97], CborInt 7); ([98], CborText [120; 121])].
Definition two_partition : ConfigPartition :=
  MkConfigPartition 0 0 2
    (MkConfigKey (97 :: replicate 31 0) 1 0 :: MkConfigKey (98 :: replicate 31 0) 1 3
       :: replicate 48 (MkConfigKey (replicate 32 0) 0 0))
    ((plain_encode (CborInt 7) ++ replicate 41 0) :: (plain_encode (CborText [120; 121]) ++ replicate 46 0)
       :: replicate 48 (replicate 50 0)).
Definition two_configs : configs :=
  MkConfigs [MkConfigInfo two_partition false; MkConfigInfo zero_partition false; MkConfigInfo zero_partition false]
    (MkOs [true; false] [] 0).

Lemma two_slot i e : two_settings !! i = Some e -> exists k v, keys two_partition !! i = Some k
  /\ values two_partition !! i = Some v /\ @slot_ok plain_cbor k v e /\ typed (value_type k) (snd e).
Proof.
  destruct i as [|[|i]]; [intros [= <-]..|done].
  - eexists _, _. split; [reflexivity|]. split; [reflexivity|]. split; [|left; cbn; lia].
    split; [split; [cbn; unfold MAX_KEY_LEN_BYTES; lia|by repeat constructor]|]. split; [done|]. split; [by eexists|].
    split; [by apply plain_reads|done].
  - eexists _, _. split; [reflexivity|]. split; [reflexivity|]. split; [|split; cbn; [done|lia]].
    split; [split; [cbn; unfold MAX_KEY_LEN_BYTES; lia|by repeat constructor]|]. split; [done|]. split; [by eexists|].
    split; [by apply plain_reads|cbn; unfold MAX_CONFIG_BUFFER_SIZE_BYTES; lia].
Qed.

Lemma two_ok : @partition_ok plain_cbor two_partition two_settings /\ types_ok two_partition two_settings.
Proof.
  split; [split|]; try done.
  - by apply (bool_decide_unpack _).
  - by apply (bool_decide_unpack _).
  - cbn. unfold MAX_NUM_KV. lia.
  - by apply (bool_decide_unpack _).
  - intros i e He. destruct (two_slot i e He) as (k & v & ? & ? & ? & _). eauto.
  - intros i e He. destruct (two_slot i e He) as (k & v & ? & ? & ? & ?). eauto.
Qed.

Lemma settings_map_witness :
  let C := plain_cbor in
  info_at 0 two_configs = Some (MkConfigInfo two_partition false)
  /\ total (services_cbor_as_map 0) (fun r c' =>
       CONFIGS c' = CONFIGS two_configs
       /\ (r = Some (map_bytes two_settings) \/ r = None /\ os_alloc (cf_os two_configs) <> [])) two_configs
  /\ total (services_cbor_encoded_as_crc32 0) (fun crc c' =>
       CONFIGS c' = CONFIGS two_configs
       /\ (crc = crc32_ieee (map_bytes two_settings) \/ crc = 0 /\ os_alloc (cf_os two_configs) <> [])) two_configs.
Proof.
  intros C. pose (L := plain_laws : @CborLaws C). split; [reflexivity|].
  apply (settings_map 0 (MkConfigInfo two_partition false) two_settings two_configs);
    [reflexivity|exact (proj1 two_ok)|exact (proj2 two_ok)].
Defined.

(** More than the first buffer has room for: fifteen strings of forty bytes. *)
Definition long_strings : M configs unit :=
  for_each (seq 0 15) (fun i =>
    _ ← @set_config_string plain_cbor 0 (Some [97 + Z.of_nat i; 0]) 1 (replicate 40 120) 40; mret tt).

Example larger_buffer :
  (let C := plain_cbor in
   '(_, c) ← long_strings zero_configs; '(r, _) ← services_cbor_as_map 0 c; length <$> r) = Some 676%nat.
Proof. by vm_compute. Qed.

(** ** Defects *)

(** An array is copied into the map behind the encoder's back: the encoder still misses
    the value, and the whole map fails.  The checksum of such a partition is 0. *)
Definition array_partition : ConfigPartition :=
  MkConfigPartition 0 0 1 (MkConfigKey (97 :: replicate 31 0) 1 5 :: replicate 49 (MkConfigKey (replicate 32 0) 0 0))
    ((plain_encode (CborInt 7) ++ replicate 41 0) :: replicate 49 (replicate 50 0)).
Definition array_configs : configs := MkConfigs [MkConfigInfo array_partition false] (MkOs [] [] 0).

Example array_fails_map :
  (let C := plain_cbor in (fun r => r.1) <$> services_cbor_as_map 0 array_configs) = Some None.
Proof. by vm_compute. Qed.

Example array_checksum :
  (let C := plain_cbor in (fun r => r.1) <$> services_cbor_encoded_as_crc32 0 array_configs) = Some 0.
Proof. by vm_compute. Qed.
