(* ===== verification/NodeServices.v ===== *)
(** * The services of every node: echo_service.c, sys_info_service.c and
    config_cbor_map_service.c of src/middleware

    A node offers them under its number: the name is the number in sixteen hexadecimal
    digits and what is offered.  The encodings of the messages are not part of the
    repository; they are a class. *)
From S2P Require Import Prelude Util LinkedList SList Os Parts Device Configuration SettingsMap Services.

(** ** Names *)

Definition BM_SERVICE_MAX_SERVICE_STRLEN : nat := 251.
Definition hex_digit (d : Z) : Z := if d <? 10 then 48 + d else 87 + d.

(** [%016" PRIx64 "]: the last [n] digits. *)
Fixpoint hex_digits (n : nat) (z : Z) : bytes :=
  match n with O => [] | S n => hex_digits n (z / 16) ++ [hex_digit (z mod 16)] end.

Definition service_name (id : Z) (suffix : bytes) : bytes := hex_digits 16 id ++ suffix.

Definition echo_service_suffix : bytes := [47; 101; 99; 104; 111].
Definition sys_info_service_suffix : bytes := [47; 115; 121; 115; 95; 105; 110; 102; 111].
Definition config_map_suffix : bytes := [47; 99; 111; 110; 102; 105; 103; 95; 109; 97; 112].

(** The static memory of a name. *)
Definition name_memory (name : bytes) : bytes := name ++ replicate (BM_SERVICE_MAX_SERVICE_STRLEN - length name) 0.

Definition set_sv_string (p : loc) (b : bytes) (s : services) : services :=
  MkServices (service_list s) (sv_elems s) (sv_lock s) (<[p := b]> (sv_strings s)) (service_request_list s)
    (sv_requests s) (request_count s) (rq_lock s) (expiry_timer s) (sv_calls s) (sv_os s).

(** ** Messages *)

Record SysInfoReplyData : Type := MkSysInfo {
  si_app_name : bytes; si_app_name_strlen : Z; si_git_sha : Z; si_node_id : Z; si_sys_config_crc : Z
}.
Record ConfigCborMapReplyData : Type := MkMapReply {
  mr_node_id : Z; mr_partition_id : Z; mr_success : bool; mr_cbor_encoded_map_len : Z; mr_cbor_data : option bytes
}.

(** To a buffer of the given size; [None] is an error. *)
Class NodeCodec : Type := {
  sys_info_reply_encode : SysInfoReplyData -> Z -> option bytes;
  sizeof_ConfigCborMapRequestData : Z;
  config_cbor_map_request_encode : Z -> Z -> option bytes;
  config_cbor_map_request_decode : bytes -> option Z;
  config_cbor_map_reply_encode : ConfigCborMapReplyData -> Z -> option bytes
}.

Definition CONFIG_CBOR_MAP_PARTITION_ID_SYS : Z := 1.
Definition CONFIG_CBOR_MAP_PARTITION_ID_HW : Z := 2.
Definition CONFIG_CBOR_MAP_PARTITION_ID_USER : Z := 3.
Definition BM_CFG_PARTITION_USER : Z := 0.
Definition BM_CFG_PARTITION_SYSTEM : Z := 1.
Definition BM_CFG_PARTITION_HARDWARE : Z := 2.

(** The partition of a request; [None] is [0xFF]. *)
Definition requested_partition (id : Z) : option Z :=
  if id =? CONFIG_CBOR_MAP_PARTITION_ID_SYS then Some BM_CFG_PARTITION_SYSTEM
  else if id =? CONFIG_CBOR_MAP_PARTITION_ID_HW then Some BM_CFG_PARTITION_HARDWARE
  else if id =? CONFIG_CBOR_MAP_PARTITION_ID_USER then Some BM_CFG_PARTITION_USER
  else None.

Section node_services.
Context {St : Type} `{Part services St} `{Part configs St} `{PubSubApi St} `{Platform} (CFG : DeviceCfg).
Context `{CborApi} `{CborEncoderApi} `{NodeCodec}.

(** [bm_app_name] of the application's configuration, the callbacks of subscriptions, the
    handlers' numbers and where the names are. *)
Context (bm_app_name : bytes) (service_request_received_id service_request_id : nat).

(** An encoded reply. *)
Definition encoded_reply (r : option bytes) (buffer_len : Z) : bool * Z * bytes :=
  match r with Some b => (true, Z.of_nat (length b), b) | None => (false, buffer_len, []) end.

(** ** Handlers

    As [call_handler] of [Services]. *)

Definition echo_service_handler (service_strlen : Z) (service : bytes) (req_data_len : Z) (req_data : bytes)
    (buffer_len : Z) : M St (bool * Z * bytes) :=
  if buffer_len <=? MAX_BM_SERVICE_DATA_SIZE then
    d ← lift (read_at 0 (Z.to_nat req_data_len) req_data);
    mret (true, req_data_len, d)
  else mret (false, 0, []).

Definition sys_info_service_handler (service_strlen : Z) (service : bytes) (req_data_len : Z) (req_data : bytes)
    (buffer_len : Z) : M St (bool * Z * bytes) :=
  if negb (req_data_len =? 0) then mret (false, buffer_len, [])
  else
    crc ← on_part (T := configs) (services_cbor_encoded_as_crc32 BM_CFG_PARTITION_SYSTEM);
    let d := MkSysInfo bm_app_name (Z.of_nat (length bm_app_name)) (git_sha CFG) (node_id CFG) crc in
    mret (encoded_reply (sys_info_reply_encode d buffer_len) buffer_len).

Definition config_map_service_handler (service_strlen : Z) (service : bytes) (req_data_len : Z) (req_data : bytes)
    (buffer_len : Z) : M St (bool * Z * bytes) :=
  req ← lift (read_at 0 (Z.to_nat req_data_len) req_data);
  match config_cbor_map_request_decode req with
  | None => mret (false, buffer_len, [])
  | Some partition_id =>
      cbor_map ← match requested_partition partition_id with
                 | Some config => on_part (T := configs) (services_cbor_as_map config)
                 | None => mret None
                 end;
      let reply := MkMapReply (node_id CFG) partition_id (bool_decide (is_Some cbor_map))
                     (match cbor_map with Some b => Z.of_nat (length b) | None => 0 end) cbor_map in
      mret (encoded_reply (config_cbor_map_reply_encode reply buffer_len) buffer_len)
  end.

(** ** Initializations

    [str] is the static memory of the name, and [handler] the number of the handler. *)

Definition init_service (suffix : bytes) (str : loc) (handler : nat) : M St unit :=
  let name := service_name (node_id CFG) suffix in
  _ ← on_part (modify (set_sv_string str (name_memory name)));
  _ ← bm_service_register service_request_received_id (Z.of_nat (length name)) (Some str) (Some handler);
  mret tt.

Definition echo_service_init : loc -> nat -> M St unit := init_service echo_service_suffix.
Definition sys_info_service_init : loc -> nat -> M St unit := init_service sys_info_service_suffix.
Definition config_cbor_map_service_init : loc -> nat -> M St unit := init_service config_map_suffix.

(** ** Requests *)

Definition sys_info_service_request (target_node_id : Z) (reply_cb : option nat) (timeout_s : Z) : M St bool :=
  ok ← on_part (with_sv_os malloc_ok);
  if ok : bool then
    let name := service_name target_node_id sys_info_service_suffix in
    bm_service_request service_request_id (Z.of_nat (length name)) (Some (name ++ [0])) 0 None reply_cb timeout_s
  else mret false.

Definition config_cbor_map_service_request (target_node_id partition_id : Z) (reply_cb : option nat) (timeout_s : Z)
    : M St bool :=
  ok ← on_part (with_sv_os malloc_ok);
  if ok : bool then
    let name := service_name target_node_id config_map_suffix in
    buffer_ok ← on_part (with_sv_os malloc_ok);
    if buffer_ok : bool then
      match config_cbor_map_request_encode partition_id (sizeof_ConfigCborMapRequestData + 25) with
      | Some req =>
          bm_service_request service_request_id (Z.of_nat (length name)) (Some (name ++ [0]))
            (Z.of_nat (length req)) (Some req) reply_cb timeout_s
      | None => mret false
      end
    else mret false
  else mret false.
End node_services.
