(* ===== verification/NodeServicesSpec.v ===== *)
(** * What the services of every node answer

    The names of the services of all nodes are different, so that the registry of
    [ServiceRegistry] keeps them apart; the echo service gives the data of a request back,
    and what it does with more data than a reply has room for. *)
From S2P Require Import Prelude Util LinkedList SList Os LinuxBuf L2 BmLinux Parts Device TimerHandler Resources Middleware PubSub Subscriptions Configuration SettingsMap Services ServiceRegistry ServiceNode ServiceRequests ServiceCall NodeServices.

(** ** Names *)

Lemma length_hex n z : length (hex_digits n z) = n.
Proof. revert z. induction n as [|n IH]; intros z; cbn [hex_digits]; [done|]. rewrite length_app, IH. cbn. lia. Qed.

Lemma hex_digit_range d : 0 <= d < 16 -> 48 <= hex_digit d <= 102.
Proof. unfold hex_digit. destruct (Z.ltb_spec d 10); lia. Qed.

Lemma hex_digit_inj d d' : 0 <= d < 16 -> 0 <= d' < 16 -> hex_digit d = hex_digit d' -> d = d'.
Proof. unfold hex_digit. destruct (Z.ltb_spec d 10), (Z.ltb_spec d' 10); lia. Qed.

Lemma hex_no_zero n z : 0 ∉ hex_digits n z.
Proof.
  revert z. induction n as [|n IH]; intros z; cbn [hex_digits]; [apply not_elem_of_nil|].
  rewrite elem_of_app, list_elem_of_singleton. intros [Hd|E]; [by eapply IH|].
  pose proof (hex_digit_range (z mod 16) ltac:(apply Z.mod_pos_bound; lia)). lia.
Qed.

Lemma hex_inj n z z' :
  0 <= z < 16 ^ Z.of_nat n -> 0 <= z' < 16 ^ Z.of_nat n -> hex_digits n z = hex_digits n z' -> z = z'.
Proof.
  revert z z'. induction n as [|n IH]; intros z z' Hz Hz' E; [cbn in *; lia|].
  cbn [hex_digits] in E. apply app_inj_2 in E as [E1 E2]; [|done]. injection E2 as E2.
  rewrite Nat2Z.inj_succ, Z.pow_succ_r in Hz, Hz' by lia.
  apply hex_digit_inj in E2; [|apply Z.mod_pos_bound; lia..].
  apply IH in E1; [|split; [apply Z.div_pos|apply Z.div_lt_upper_bound]; lia..].
  rewrite (Z.div_mod z 16), (Z.div_mod z' 16) by lia. congruence.
Qed.

(** A number and what is offered under it. *)
Definition offered_name (x : Z * bytes) : bytes := service_name (fst x) (snd x).
Definition node_suffixes : list bytes := [echo_service_suffix; sys_info_service_suffix; config_map_suffix].

Lemma suffix_cases a :
  a ∈ node_suffixes -> a = echo_service_suffix \/ a = sys_info_service_suffix \/ a = config_map_suffix.
Proof. unfold node_suffixes. rewrite !elem_of_cons, elem_of_nil. tauto. Qed.

Lemma suffix_ok a : a ∈ node_suffixes -> (length a <= 11)%nat /\ 0 ∉ a.
Proof. intros [->|[->| ->]]%suffix_cases; (split; [cbn; lia|by apply (bool_decide_unpack _)]). Qed.

Lemma suffix_prefix a b : a ∈ node_suffixes -> b ∈ node_suffixes -> a `prefix_of` b -> a = b.
Proof.
  intros [->|[->| ->]]%suffix_cases [->|[->| ->]]%suffix_cases [r E]; try done; cbn in E; discriminate E.
Qed.

Lemma offered_prefix id id' a b :
  0 <= id < 2 ^ 64 -> 0 <= id' < 2 ^ 64 ->
  service_name id a `prefix_of` service_name id' b -> id = id' /\ a `prefix_of` b.
Proof.
  intros Hi Hi' [r E]. unfold service_name in E. rewrite <- app_assoc in E.
  apply app_inj_1 in E as [E1 E2]; [|by rewrite !length_hex].
  split; [symmetry; by apply (hex_inj 16)|by exists r].
Qed.

(** The names of any nodes' services can be offered next to each other. *)
Lemma node_names_ok (xs : list (Z * bytes)) :
  Forall (fun x => 0 <= fst x < 2 ^ 64 /\ snd x ∈ node_suffixes) xs -> names_ok (offered_name <$> xs).
Proof.
  rewrite Forall_forall. intros Hx. split.
  - intros n ([id a] & -> & Hin)%list_elem_of_fmap. destruct (Hx _ Hin) as [_ Ha]. cbn [snd] in Ha.
    apply suffix_ok in Ha as [Hl H0]. unfold offered_name, service_name. cbn [fst snd]. split.
    + rewrite length_app, length_hex. lia.
    + rewrite elem_of_app. intros [Hz|Hz]; [by apply hex_no_zero in Hz|done].
  - intros n m ([id a] & -> & Hin)%list_elem_of_fmap ([id' b] & -> & Hin')%list_elem_of_fmap Hpre.
    destruct (Hx _ Hin) as [Hi Ha], (Hx _ Hin') as [Hi' Hb]. cbn [fst snd] in *.
    change (service_name id a `prefix_of` service_name id' b) in Hpre.
    destruct (offered_prefix id id' a b Hi Hi' Hpre) as [-> Hab]. unfold offered_name. cbn [fst snd].
    by rewrite (suffix_prefix a b Ha Hb Hab).
Qed.

(** ** The echo service *)

Section echo.
Context {St : Type} `{PartLaws services St} `{PubSubApi St} `{!KeepsServices St} `{Platform}.
Context (Hbits : 32 <= size_t_bits).
Context (call_handler : nat -> Z -> bytes -> Z -> bytes -> Z -> M St (bool * Z * bytes)) (echo : nat).
Context (Hecho : forall strlen str len d room,
  call_handler echo strlen str len d room = echo_service_handler strlen str len d room).

Lemma echo_handler_spec strlen str d more (s : St) :
  echo_service_handler strlen str (Z.of_nat (length d)) (d ++ more) 1008 s = Some ((true, Z.of_nat (length d), d), s).
Proof.
  unfold echo_service_handler. change (1008 <=? MAX_BM_SERVICE_DATA_SIZE) with true. cbv iota.
  rewrite bind_lift, Nat2Z.id, read_at_head by done. done.
Qed.

(** An echo comes back as it was sent, if it is not too long.  Any nodes may offer
    their services; the node [me] has its echo service registered, and a request of that
    service with the data [d] arrives.  Up to 1,008 bytes, which is what a reply has room
    for, the node publishes the reply with the number of the request and the same data,
    and its services are as before.  With more bytes, of which [bm_service_request] sends
    up to 1,024, the handler writes behind the end of the reply's memory. *)
Theorem echo_service (xs : list (Z * bytes)) (t : St) off me node id d more ty ve :
  Forall (fun x => 0 <= fst x < 2 ^ 64 /\ snd x ∈ node_suffixes) xs ->
  lists_offers (offered_name <$> xs) (part t) off -> sv_ready (part t) ->
  (me, echo_service_suffix) ∈ xs -> find_offer (service_name me echo_service_suffix) off = Some echo ->
  0 <= id < 2 ^ 32 -> Z.of_nat (length d) < 65528 ->
  let n := service_name me echo_service_suffix in
  let receive := _service_request_received_cb call_handler node (n ++ BM_SERVICE_REQ_STR ++ request_message id d ++ more)
    (Z.of_nat (length n + 4)) (request_message id d ++ more) (8 + Z.of_nat (length d)) ty ve in
  ((length d <= 1008)%nat -> forall err t2,
     pub_wl (n ++ BM_SERVICE_REP_STR) (Z.of_nat (length n + 4)) (reply_message node id d ++ replicate (1008 - length d) 0)
       (16 + Z.of_nat (length d)) 0 BM_COMMON_PUB_SUB_VERSION (set_part (sv_locked (part t)) t) = Some (err, t2) ->
     receive t = Some (tt, set_part (part t) t2))
  /\ ((1008 < length d)%nat -> receive t = None).
Proof.
  intros Hxs Ho Hr Hme Hfind Hid Hd n receive. pose proof (node_names_ok xs Hxs) as Hok.
  assert (Hn : n ∈ offered_name <$> xs) by (apply (list_elem_of_fmap_2 offered_name) in Hme; exact Hme).
  split.
  - intros Hl err t2 Hpub. unfold receive.
    eapply (service_answers Hbits call_handler); [exact Hok|exact Ho|exact Hr|exact Hn|exact Hfind|done|done|done| | |exact Hpub].
    + intros r0. rewrite Hecho. apply echo_handler_spec.
    + by rewrite part_set.
  - intros Hl. unfold receive.
    pose proof (received_dispatch call_handler _ t off n node (request_message id d ++ more)
      (Z.of_nat (length n + 4)) (request_message id d ++ more) (8 + Z.of_nat (length d)) ty ve Hok Ho Hr Hn) as E.
    cbv zeta in E. change (find_offer n off = Some echo) in Hfind. rewrite Hfind in E. destruct E as (e & r0 & He & Hlen & Hstr & ->).
    apply bind_none. set (t0 := set_part (sv_locked (part t)) t).
    assert (Hp0 : part t0 = sv_locked (part t)) by (unfold t0; by rewrite part_set).
    destruct (request_fields id d more) as (F1 & F2 & F3). unfold serve_request.
    rewrite bind_lift, F2. cbn [mbind option_bind]. rewrite native_load_store, Z.mod_small by lia.
    unfold sizeof_BmServiceRequestDataHeader. rewrite usize_small, Z.eqb_refl by lia. cbn [negb].
    destruct (no_each _ Hok _ Hn) as [Hnl _]. rewrite Hlen, usize_small, Nat2Z.inj_add, Z.eqb_refl by lia. cbn [negb].
    assert (Hos0 : willing (sv_os (part t0))) by (rewrite Hp0; exact (sr_os _ Hr)).
    rewrite (bind_some _ _ _ _ _ (on_part_pure _ _ _ (sv_malloc _ Hos0))).
    erewrite bind_some by (apply app_string_spec; rewrite Hp0; exact Hstr).
    rewrite He, F3, Hecho. erewrite bind_some by apply echo_handler_spec. cbv beta iota. rewrite bind_lift.
    unfold write_at. rewrite length_replicate. change (Z.to_nat MAX_BM_SERVICE_DATA_SIZE) with 1024%nat.
    by destruct (Nat.leb_spec (16 + length d) 1024); [lia|].
Qed.
End echo.

(** ** A concrete run *)

Definition echo_node_strings : bytes := name_memory (service_name 5 echo_service_suffix).
Definition echo_services : services :=
  MkServices (Some 1%positive) {[ 1%positive := MkElem 1%positive 21 7 None ]} (Some true)
    {[ 1%positive := echo_node_strings ]} None ∅ 0 (Some true) (Some true) [] (MkOs [] [] 0).
Definition echo_node : Type := services * list (bytes * bytes).

#[local] Instance echo_pubsub : PubSubApi echo_node := {
  sub_wl _ _ _ := mret BmOK;
  unsub_wl _ _ _ := mret BmOK;
  pub_wl t _ d len _ _ := fun s => Some (BmOK, (s.1, s.2 ++ [(t, take (Z.to_nat len) d)]))
}.
#[local] Instance echo_keeps : KeepsServices echo_node.
Proof. split; intros; by intros a s' [= <- <-]. Qed.

Definition echo_handlers (h : nat) : Z -> bytes -> Z -> bytes -> Z -> M echo_node (bool * Z * bytes) := echo_service_handler.

Lemma echo_service_witness :
  let P := platform_linux in
  let n := service_name 5 echo_service_suffix in
  _service_request_received_cb echo_handlers 9 (n ++ BM_SERVICE_REQ_STR ++ request_message 3 [1; 2] ++ []) 25
    (request_message 3 [1; 2] ++ []) 10 0 2 (echo_services, [])
  = Some (tt, (echo_services, [(n ++ BM_SERVICE_REP_STR, reply_message 9 3 [1; 2])])).
Proof.
  intros P n.
  assert (Hoff : lists_offers (offered_name <$> [(5, echo_service_suffix)]) echo_services [(n, 7%nat)]).
  { split; [|intros a ->%list_elem_of_singleton; by left].
    exists [(1%positive, MkElem 1%positive 21 7 None)]. split; [by split; [|apply NoDup_singleton]|].
    constructor; [|constructor]. split; [|done]. by exists (replicate 230 0). }
  destruct (echo_service (ltac:(done) : 32 <= @size_t_bits platform_linux) echo_handlers 7 (fun _ _ _ _ _ => eq_refl)
    [(5, echo_service_suffix)] (echo_services, []) [(n, 7%nat)] 5 9 3 [1; 2] [] 0 2) as [E _].
  - constructor; [|constructor]. split; [by split|]. by left.
  - exact Hoff.
  - by split.
  - by left.
  - vm_compute. reflexivity.
  - done.
  - done.
  - apply (E ltac:(cbn; lia) BmOK (sv_locked echo_services, [(n ++ BM_SERVICE_REP_STR, reply_message 9 3 [1; 2])])).
    vm_compute. reflexivity.
Defined.
