(* ===== verification/Metrics.v ===== *)
(** * The service of measurements: src/middleware/metrics_service.c

    Components register under a key with a function that gives a table of fields; a
    request is answered with the tables of all components.  A table is memory that the
    encoding of the reply, which is not part of the repository, reads; [T] are the
    pointers to them. *)
From S2P Require Import Prelude Util LinkedList SList Os Parts Device Services NodeServices.

Definition metrics_service_suffix : bytes := [47; 109; 101; 116; 114; 105; 99; 115].

Record MetricComponentEntry : Type := MkMetricEntry { me_key : bytes; me_cb : nat; me_fields_count : Z }.

Record metrics : Type := MkMetrics {
  metrics_components : LL;
  mt_items : item_heap MetricComponentEntry;
  metrics_component_count : Z;
  mt_os : Os
}.

Definition metrics_zero : metrics := MkMetrics LL_empty ∅ 0 (MkOs [] [] 0).

Definition set_mt_list (ll : LL) (h : item_heap MetricComponentEntry) (n : Z) (s : metrics) : metrics :=
  MkMetrics ll h n (mt_os s).
Definition set_mt_os (o : Os) (s : metrics) : metrics :=
  MkMetrics (metrics_components s) (mt_items s) (metrics_component_count s) o.
Definition with_mt_os {A} (m : M Os A) : M metrics A := zoom mt_os set_mt_os m.

(** The key and the function are [None] for null pointers. *)
Definition metrics_service_add_component (metric_key : option bytes) (cb : option nat) (fields_count : Z)
    : M metrics BmErr :=
  match metric_key, cb with
  | Some key, Some f =>
      s ← get;
      '(item, h) ← with_mt_os (create_item (MkMetricEntry key f fields_count) (metrics_component_count s) (mt_items s));
      match item with
      | None => _ ← modify (set_mt_list (metrics_components s) h (metrics_component_count s)); mret BmENOMEM
      | Some _ =>
          '(err, ll, h) ← lift (ll_item_add (Some (metrics_components s)) item h);
          ll ← lift ll;
          _ ← modify (set_mt_list ll h (if is_ok err then u32 (metrics_component_count s + 1)
                                        else metrics_component_count s));
          mret err
      end
  | _, _ => mret BmEINVAL
  end.

Record MetricsComponent (T : Type) : Type := MkComponent { mc_key : bytes; mc_fields : T; mc_num_fields : Z }.
Arguments MkComponent {T}. Arguments mc_key {T}. Arguments mc_fields {T}. Arguments mc_num_fields {T}.

Record MetricsReplyData (T : Type) : Type := MkMetricsReply {
  mrd_version : Z; mrd_node_id : Z; mrd_uptime_ms : Z; mrd_components : list (MetricsComponent T)
}.
Arguments MkMetricsReply {T}. Arguments mrd_version {T}. Arguments mrd_node_id {T}. Arguments mrd_uptime_ms {T}.
Arguments mrd_components {T}.

Section service.
Context {St T : Type} `{Part metrics St} (CFG : DeviceCfg).

(** The functions of the components: an error, the table and the number of its fields. *)
Context (component_data : nat -> bytes -> M St (BmErr * option T * Z)).

(** The encoding of a reply to a buffer of the given size, which reads the tables;
    [None] is an error. *)
Context (METRICS_REPLY_VERSION : Z) (metrics_reply_encode : MetricsReplyData T -> St -> Z -> option bytes).

(** The components so far and the rest of the node; [None]: undefined behaviour. *)
Definition collect_ctx : Type := option (list (MetricsComponent T) * St).

Definition metrics_collect_component (capacity : Z) (data : option MetricComponentEntry) (arg : collect_ctx)
    : BmErr * collect_ctx :=
  match data, arg with
  | Some entry, Some (cs, s) =>
      if capacity <=? Z.of_nat (length cs) then (BmOK, arg)
      else
        match component_data (me_cb entry) (me_key entry) s with
        | None => (BmOK, None)
        | Some ((err, lut, num_fields), s) =>
            (BmOK, Some (match lut with
                         | Some t => if is_ok err then cs ++ [MkComponent (me_key entry) t num_fields] else cs
                         | None => cs
                         end, s))
        end
  | _, _ => (BmOK, None)
  end.

Definition metrics_service_handler (service_strlen : Z) (service : bytes) (req_data_len : Z) (req_data : bytes)
    (buffer_len : Z) : M St (bool * Z * bytes) :=
  s ← gets part;
  ok ← (if 0 <? metrics_component_count s then on_part (with_mt_os malloc_ok) else mret true);
  if ok : bool then
    s0 ← get;
    '(_, ll, ctx) ← lift (ll_traverse (Some (metrics_components s))
      (Some (metrics_collect_component (metrics_component_count s))) (Some ([], s0)) (mt_items s));
    ll ← lift ll;
    '(components, s1) ← lift ctx;
    _ ← modify (fun _ => s1);
    _ ← on_part (modify (fun m => set_mt_list ll (mt_items m) (metrics_component_count m) m));
    now ← gets (fun s => os_ticks_ms (mt_os (part s)));
    s2 ← get;
    mret (encoded_reply
            (metrics_reply_encode (MkMetricsReply METRICS_REPLY_VERSION (node_id CFG) now components) s2 buffer_len)
            buffer_len)
  else mret (false, buffer_len, []).

(** The topic's name is registered; [BmEINVAL] when that fails. *)
Definition metrics_service_init `{Part services St} `{PubSubApi St} `{Platform} (service_request_received_id : nat)
    (str : loc) (handler : nat) : M St BmErr :=
  let name := service_name (node_id CFG) metrics_service_suffix in
  _ ← on_part (modify (set_sv_string str (name_memory name)));
  ok ← bm_service_register service_request_received_id (Z.of_nat (length name)) (Some str) (Some handler);
  mret (if ok : bool then BmOK else BmEINVAL).

Definition metrics_service_request `{Part services St} `{PubSubApi St} `{Platform} (service_request_id : nat)
    (target_node_id : Z) (reply_cb : option nat) (timeout_s : Z) : M St bool :=
  ok ← on_part (with_sv_os malloc_ok);
  if ok : bool then
    let name := service_name target_node_id metrics_service_suffix in
    bm_service_request service_request_id (Z.of_nat (length name)) (Some (name ++ [0])) 0 None reply_cb timeout_s
  else mret false.
End service.
