(* ===== verification/AdinMetrics.v ===== *)
(** * The measurements of the network device:
    src/drivers/adin2111/adin2111_network_metrics.c

    Each port is a component of the service of measurements.  Its table points to the
    values of the port, which are read anew for every reply. *)
From S2P Require Import Prelude Util LinkedList Os Parts Adin Metrics.

Definition ADIN_NET_MAX_PORTS : Z := 2.

(** "adin_port_stats_1" and "adin_port_stats_2" *)
Definition port_component_key (p : nat) : bytes :=
  [97; 100; 105; 110; 95; 112; 111; 114; 116; 95; 115; 116; 97; 116; 115; 95; 49 + Z.of_nat p].

Record AdinPortValues : Type := MkPortValues {
  v_sqi : Z; v_mse : Z; v_lq : Z; v_rxe : Z; v_sye : Z; v_fc : Z; v_len : Z; v_algn : Z; v_fcfrm : Z; v_link : Z;
  v_rxfrm : Z; v_txfrm : Z; v_rxbc : Z; v_txbc : Z; v_rxmc : Z; v_txmc : Z;
  v_dropfull : Z; v_dropfilt : Z; v_crc : Z; v_lserr : Z; v_phye : Z
}.
Definition port_values_zero : AdinPortValues := MkPortValues 0 0 0 0 0 0 0 0 0 0 0 0 0 0 0 0 0 0 0 0 0.

Inductive BmField : Type := BM_FIELD_UINT8 | BM_FIELD_UINT16 | BM_FIELD_UINT32.

(** A field's name, type and place, which is what is read of the values. *)
Record AdinFieldDesc : Type := MkField { fd_name : bytes; fd_type : BmField; fd_value : AdinPortValues -> Z }.

Definition net_fields : list AdinFieldDesc := [
  MkField [115; 113; 105] BM_FIELD_UINT8 v_sqi;
  MkField [109; 115; 101] BM_FIELD_UINT16 v_mse;
  MkField [108; 113] BM_FIELD_UINT8 v_lq;
  MkField [114; 120; 101] BM_FIELD_UINT16 v_rxe;
  MkField [115; 121; 101] BM_FIELD_UINT16 v_sye;
  MkField [102; 99] BM_FIELD_UINT16 v_fc;
  MkField [108; 101; 110] BM_FIELD_UINT16 v_len;
  MkField [97; 108; 103; 110] BM_FIELD_UINT16 v_algn;
  MkField [102; 99; 102; 114; 109] BM_FIELD_UINT32 v_fcfrm;
  MkField [108; 105; 110; 107] BM_FIELD_UINT8 v_link;
  MkField [114; 120; 102; 114; 109] BM_FIELD_UINT32 v_rxfrm;
  MkField [116; 120; 102; 114; 109] BM_FIELD_UINT32 v_txfrm;
  MkField [114; 120; 98; 99] BM_FIELD_UINT32 v_rxbc;
  MkField [116; 120; 98; 99] BM_FIELD_UINT32 v_txbc;
  MkField [114; 120; 109; 99] BM_FIELD_UINT32 v_rxmc;
  MkField [116; 120; 109; 99] BM_FIELD_UINT32 v_txmc;
  MkField [100; 114; 111; 112; 102; 117; 108; 108] BM_FIELD_UINT32 v_dropfull;
  MkField [100; 114; 111; 112; 102; 105; 108; 116] BM_FIELD_UINT32 v_dropfilt;
  MkField [99; 114; 99] BM_FIELD_UINT32 v_crc;
  MkField [108; 115; 101; 114; 114] BM_FIELD_UINT32 v_lserr;
  MkField [112; 104; 121; 101] BM_FIELD_UINT32 v_phye ].

Definition ADIN_NET_FIELDS_PER_PORT : Z := Z.of_nat (length net_fields).

(** [net_lut]: the tables, which are empty before the initialization; the entries of the
    table [p] point into the values [p]. *)
Record adin_metrics : Type := MkAdinMetrics {
  net_num_ports : Z;
  net_values : list AdinPortValues;
  net_lut : list (list AdinFieldDesc)
}.
Definition adin_metrics_zero : adin_metrics := MkAdinMetrics 0 [port_values_zero; port_values_zero] [[]; []].

(** The values are stored in their width. *)
Definition refresh_port (st : Adin2111PortStats) : AdinPortValues :=
  let q := mse_link_quality st in
  let e := frame_check_error_counters st in
  let m := mac_stats st in
  MkPortValues (u8 (sqi q)) (u16 (mseVal q)) (u8 (linkQuality q)) (u16 (frame_check_rx_error_count st))
    (u16 (SYMB_ERR_CNT e)) (u16 (FALSE_CARRIER_CNT e)) (u16 (LEN_ERR_CNT e)) (u16 (ALGN_ERR_CNT e))
    (u32 (frame_check_frame_count st)) (u8 (link_status st))
    (u32 (RX_FRM_CNT m)) (u32 (TX_FRM_CNT m)) (u32 (RX_BCAST_CNT m)) (u32 (TX_BCAST_CNT m))
    (u32 (RX_MCAST_CNT m)) (u32 (TX_MCAST_CNT m)) (u32 (RX_DROP_FULL_CNT m)) (u32 (RX_DROP_FILT_CNT m))
    (u32 (RX_CRC_ERR_CNT m)) (u32 (RX_LS_ERR_CNT m)) (u32 (RX_PHY_ERR_CNT m)).

(** The first port with the key. *)
Definition port_from_key (metric_key : bytes) (num_ports : Z) : option nat :=
  List.hd_error (filter (fun p => metric_key = port_component_key p) (seq 0 (Z.to_nat num_ports))).

(** What the encoder reads of a table. *)
Definition table_values (p : nat) (a : adin_metrics) : option (list (bytes * BmField * Z)) :=
  match net_lut a !! p, net_values a !! p with
  | Some lut, Some v => Some ((fun f => (fd_name f, fd_type f, fd_value f v)) <$> lut)
  | _, _ => None
  end.

Section metrics.
Context {St : Type} `{Part adin St} `{Part adin_metrics St} `{Part metrics St} `{AdinDriver St}.

Definition set_port_values (p : nat) (v : AdinPortValues) (a : adin_metrics) : adin_metrics :=
  MkAdinMetrics (net_num_ports a) (<[p := v]> (net_values a)) (net_lut a).

(** The device is the ADIN2111, whose trait is complete. *)
Definition adin2111_network_metrics_data (metric_key : bytes) : M St (BmErr * option nat * Z) :=
  n ← gets (fun s => net_num_ports (part s));
  match port_from_key metric_key n with
  | None => mret (BmEINVAL, None, 0)
  | Some p =>
      '(err, st) ← adin2111_port_stats (Z.of_nat p) true;
      v ← (if is_ok err then st ← lift st; mret (refresh_port st) else mret port_values_zero);
      _ ← on_part (modify (set_port_values p v));
      mret (BmOK, Some p, ADIN_NET_FIELDS_PER_PORT)
  end.

(** The ports from [p] on; the first error stays, and nothing is registered behind it. *)
Fixpoint register_ports (ports : list nat) (data_cb : nat) (err : BmErr) : M St BmErr :=
  match ports with
  | [] => mret err
  | p :: ports =>
      _ ← on_part (modify (fun a => MkAdinMetrics (net_num_ports a) (net_values a) (<[p := net_fields]> (net_lut a))));
      err ← unless_err err (on_part (metrics_service_add_component (Some (port_component_key p)) (Some data_cb)
                                       ADIN_NET_FIELDS_PER_PORT));
      register_ports ports data_cb err
  end.

(** [data_cb] is the number of [adin2111_network_metrics_data]. *)
Definition adin2111_network_metrics_init (data_cb : nat) : M St BmErr :=
  let nports := adin2111_num_ports in
  if nports =? 0 then mret BmOK
  else
    let nports := Z.min nports ADIN_NET_MAX_PORTS in
    _ ← on_part (modify (fun a => MkAdinMetrics nports (net_values a) (net_lut a)));
    register_ports (seq 0 (Z.to_nat nports)) data_cb BmOK.
End metrics.
