(* ===== verification/MetricsReport.v ===== *)
(** * What the service of measurements reports

    The components are a list, and a reply has those of them that give a table, in the
    order in which they were added; the ports of the network device are two of them. *)
From S2P Require Import Prelude Util LinkedList SList Os Parts Device Adin AdinBuffers Services NodeServices Metrics AdinMetrics.

(** The list stands for the components [es]. *)
Definition numbered_entries (es : list MetricComponentEntry) : list (Z * option MetricComponentEntry) :=
  imap (fun i e => (Z.of_nat i, Some e)) es.

Record metrics_ok (m : metrics) (es : list MetricComponentEntry) : Prop := {
  mo_list : ll_inv (mt_items m) (metrics_components m) (numbered_entries es);
  mo_count : metrics_component_count m = Z.of_nat (length es)
}.

Lemma create_entry_cases {D} (d : D) i h (o : Os) :
  exists r o', create_item d i h o = Some (r, o')
    /\ (r = (None, h) \/ r = (Some (fresh (dom h)), <[fresh (dom h) := MkLLItem None None (Some d) i true]> h)).
Proof.
  unfold create_item, malloc_ok, mbind, M_bind. destruct (next_answer (os_alloc o)) as [[] l].
  - cbn [os_alloc]. destruct (next_answer l) as [[] l']; cbn; eauto.
  - eexists _, _. split; [reflexivity|]. by left.
Qed.

(** A component is added at the end, or there is no memory for it. *)
Lemma add_component_spec m es k f n :
  metrics_ok m es -> Z.of_nat (length es) + 1 < 2 ^ 32 ->
  total (metrics_service_add_component (Some k) (Some f) n) (fun err m' =>
    err = BmOK /\ metrics_ok m' (es ++ [MkMetricEntry k f n]) \/ err = BmENOMEM /\ metrics_ok m' es) m.
Proof.
  intros [Hl Hc] Hn. unfold metrics_service_add_component. repeat total_step.
  destruct (create_entry_cases (MkMetricEntry k f n) (metrics_component_count m) (mt_items m) (mt_os m))
    as ([p h] & o & E & Hr). apply total_zoom. exists (p, h), o. split; [exact E|]. cbv beta iota.
  destruct Hr as [[= -> ->]|[= -> ->]]; repeat total_step.
  - right. by split.
  - destruct (ll_create_add_refines (mt_items m) (metrics_components m) (numbered_entries es) (fresh (dom (mt_items m)))
      None None (Some (MkMetricEntry k f n)) (metrics_component_count m) Hl) as (ll' & h' & Ea & Hinv);
      [apply not_elem_of_dom, is_fresh|].
    eapply total_lift; [exact Ea|]. cbv beta iota. repeat total_step. left. split; [done|].
    split; cbn.
    + unfold numbered_entries. rewrite imap_app. cbn. rewrite Nat.add_0_r, <- Hc. exact Hinv.
    + rewrite Hc, length_app. cbn. rewrite u32_small by lia. lia.
Qed.

Section report.
Context {St T : Type} `{PartLaws metrics St} (CFG : DeviceCfg).
Context (component_data : nat -> bytes -> M St (BmErr * option T * Z)).
Context (METRICS_REPLY_VERSION : Z) (metrics_reply_encode : MetricsReplyData T -> St -> Z -> option bytes).

(** The components of a reply: the tables of [es], read one after the other. *)
Fixpoint reported (es : list MetricComponentEntry) : M St (list (MetricsComponent T)) :=
  match es with
  | [] => mret []
  | e :: es =>
      '(err, lut, n) ← component_data (me_cb e) (me_key e);
      cs ← reported es;
      mret (match lut with
            | Some t => if is_ok err then MkComponent (me_key e) t n :: cs else cs
            | None => cs
            end)
  end.

Lemma collect_loop cap es cs (s : St) :
  Z.of_nat (length cs + length es) <= cap ->
  snd (traverse_data (metrics_collect_component component_data cap) (Some <$> es) (Some (cs, s)))
  = match reported es s with Some (cs', s') => Some (cs ++ cs', s') | None => None end.
Proof.
  revert cs s. induction es as [|e es IH]; intros cs s Hc; [cbn; by rewrite app_nil_r|].
  assert (Hone : metrics_collect_component component_data cap (Some e) (Some (cs, s))
    = (BmOK, match component_data (me_cb e) (me_key e) s with
             | None => None
             | Some ((err, lut, n), s') =>
                 Some (match lut with
                       | Some t => if is_ok err then cs ++ [MkComponent (me_key e) t n] else cs
                       | None => cs
                       end, s')
             end)).
  { unfold metrics_collect_component. destruct (Z.leb_spec cap (Z.of_nat (length cs))); [cbn [length] in Hc; lia|].
    by destruct (component_data _ _ s) as [[[[err lut] n] s']|]. }
  assert (Hstep : snd (traverse_data (metrics_collect_component component_data cap) (Some <$> e :: es) (Some (cs, s)))
    = snd (traverse_data (metrics_collect_component component_data cap) (Some <$> es)
        (snd (metrics_collect_component component_data cap (Some e) (Some (cs, s)))))).
  { destruct es; cbn [fmap list_fmap traverse_data]; rewrite Hone; [by destruct (component_data _ _ s)|done]. }
  rewrite Hstep, Hone. cbn [snd reported]. unfold mbind, M_bind.
  destruct (component_data (me_cb e) (me_key e) s) as [[[[err lut] n] s']|].
  - set (cs1 := match lut with Some t => if is_ok err then cs ++ [MkComponent (me_key e) t n] else cs | None => cs end).
    assert (Hl : Z.of_nat (length cs1 + length es) <= cap).
    { unfold cs1. cbn [length] in Hc. destruct lut as [t|]; [destruct (is_ok err)|]; rewrite ?length_app; cbn [length]; lia. }
    rewrite (IH cs1 s' Hl). destruct (reported es s') as [[cs' s'']|]; [|done].
    unfold cs1. destruct lut as [t|]; [destruct (is_ok err)|]; by rewrite <- ?app_assoc.
  - clear. induction es as [|e' es IH]; [done|]. destruct es; [done|]. exact IH.
Qed.

Lemma entries_data es : (snd <$> numbered_entries es) = Some <$> es.
Proof.
  unfold numbered_entries. rewrite fmap_imap. apply list_eq. intros i. rewrite list_lookup_imap, list_lookup_fmap.
  by destruct (es !! i).
Qed.

(** What happens when the service is asked. *)
Lemma handler_spec es strlen str len d room (s : St) :
  metrics_ok (part s) es -> willing (mt_os (part s)) ->
  exists ll, ll_inv (mt_items (part s)) ll (numbered_entries es)
    /\ metrics_service_handler CFG component_data METRICS_REPLY_VERSION metrics_reply_encode strlen str len d room s
       = match reported es s with
         | None => None
         | Some (cs, s1) =>
             let m := part s1 in
             let s2 := set_part (set_mt_list ll (mt_items m) (metrics_component_count m) m) s1 in
             Some (encoded_reply (metrics_reply_encode
                     (MkMetricsReply METRICS_REPLY_VERSION (node_id CFG) (os_ticks_ms (mt_os m)) cs) s2 room) room, s2)
         end.
Proof.
  intros [Hl Hc] Hos. unfold metrics_service_handler. erewrite bind_some by reflexivity.
  assert (Hmal : (if 0 <? metrics_component_count (part s) then on_part (with_mt_os malloc_ok) else mret true) s = Some (true, s)).
  { destruct (0 <? _); [|done]. apply on_part_pure. destruct (part s) as [a b c [al w t]]. destruct Hos as [Ha Hw].
    cbn in Ha, Hw. by subst. }
  rewrite (bind_some _ _ _ _ _ Hmal). cbv iota. erewrite bind_some by reflexivity.
  destruct (ll_traverse_refines (metrics_collect_component component_data (metrics_component_count (part s)))
    (Some ([], s)) _ _ _ Hl) as (ll & E & Hinv).
  exists ll. split; [exact Hinv|]. rewrite bind_lift, E. cbn [mbind option_bind]. rewrite entries_data.
  rewrite bind_lift. cbn [mbind option_bind]. rewrite bind_lift.
  rewrite (collect_loop _ es [] s) by (rewrite Hc; cbn; lia).
  destruct (reported es s) as [[cs s1]|]; [|done]. cbn [mbind option_bind app]. cbv beta iota zeta.
  erewrite bind_some by reflexivity. erewrite bind_some by (by apply on_part_some). cbv beta.
  erewrite bind_some by reflexivity. erewrite bind_some by reflexivity. by rewrite part_set.
Qed.

(** Components are added one after the other. *)
Fixpoint add_all (ks : list (bytes * nat * Z)) : M St (list BmErr) :=
  match ks with
  | [] => mret []
  | (k, f, n) :: ks =>
      err ← on_part (metrics_service_add_component (Some k) (Some f) n);
      errs ← add_all ks;
      mret (err :: errs)
  end.
Fixpoint added (ks : list (bytes * nat * Z)) (errs : list BmErr) : list MetricComponentEntry :=
  match ks, errs with
  | (k, f, n) :: ks, err :: errs => if is_ok err then MkMetricEntry k f n :: added ks errs else added ks errs
  | _, _ => []
  end.

Lemma add_all_spec ks es (s : St) :
  metrics_ok (part s) es -> Z.of_nat (length es + length ks) < 2 ^ 32 ->
  total (add_all ks) (fun errs s' => metrics_ok (part s') (es ++ added ks errs) /\ length errs = length ks) s.
Proof.
  revert es s. induction ks as [|[[k f] n] ks IH]; intros es s Hm Hn; cbn [add_all].
  { total_step. rewrite app_nil_r. by split. }
  cbn [length] in Hn. total_step. apply total_zoom.
  eapply total_mono; [by apply (add_component_spec _ es); [|lia]|]. intros err m Hm'. total_step.
  destruct Hm' as [[-> Hm']|[-> Hm']].
  - eapply total_mono; [apply (IH (es ++ [MkMetricEntry k f n])); [by rewrite part_set|rewrite length_app; cbn; lia]|].
    intros errs s' [Ho Hl]. total_step. cbn. rewrite <- app_assoc in Ho. split; [exact Ho|by rewrite Hl].
  - eapply total_mono; [apply (IH es); [by rewrite part_set|lia]|].
    intros errs s' [Ho Hl]. total_step. cbn. split; [exact Ho|by rewrite Hl].
Qed.

(** A reply of the service of measurements reports every component once.  Components
    are added to the empty list, whichever allocations fail; each one is added or refused
    for lack of memory.  When the service is then asked, and has memory for its list, it
    calls the function of each component that was added, in the order of adding, and
    encodes the number of the node, the time and the tables of those that give one; it
    runs without undefined behaviour exactly when their functions do. *)
Theorem metrics_reported ks strlen str len d room (s : St) :
  part s = set_mt_os (mt_os (part s)) metrics_zero -> Z.of_nat (length ks) < 2 ^ 32 ->
  total (add_all ks) (fun errs s1 =>
    length errs = length ks
    /\ (willing (mt_os (part s1)) ->
        exists ll, ll_inv (mt_items (part s1)) ll (numbered_entries (added ks errs))
        /\ metrics_service_handler CFG component_data METRICS_REPLY_VERSION metrics_reply_encode strlen str len d room s1
           = match reported (added ks errs) s1 with
             | None => None
             | Some (cs, s2) =>
                 let m := part s2 in
                 let s3 := set_part (set_mt_list ll (mt_items m) (metrics_component_count m) m) s2 in
                 Some (encoded_reply (metrics_reply_encode
                         (MkMetricsReply METRICS_REPLY_VERSION (node_id CFG) (os_ticks_ms (mt_os m)) cs) s3 room) room, s3)
             end)) s.
Proof.
  intros Hz Hn. eapply total_mono; [apply (add_all_spec ks [])|].
  - rewrite Hz. split; [apply ll_inv_empty|done].
  - done.
  - intros errs s1 [Hm Hl]. split; [done|]. intros Hos. by apply handler_spec.
Qed.
End report.

(** ** Concrete runs *)

(** Two components, of which the second one gives no table. *)
Definition sample_component (f : nat) (key : bytes) : M metrics (BmErr * option nat * Z) :=
  mret (match f with O => (BmOK, Some 7%nat, 3) | _ => (BmEINVAL, None, 0) end).
Definition sample_meter_cfg : DeviceCfg := MkDeviceCfg 5 0 None None 0 0 0 0 0 0 [].

(** The keys of the components in a reply, as its encoding. *)
Definition encode_keys {T} (d : MetricsReplyData T) (s : metrics) (size : Z) : option bytes :=
  Some (concat (mc_key <$> mrd_components d)).

Definition two_components : list (bytes * nat * Z) := [([97], 0%nat, 3); ([98], 1%nat, 2); ([99], 0%nat, 3)].

Lemma metrics_reported_witness :
  part metrics_zero = set_mt_os (mt_os (part metrics_zero)) metrics_zero
  /\ total (add_all two_components) (fun errs s1 =>
       length errs = length two_components
       /\ (willing (mt_os (part s1)) ->
           exists ll, ll_inv (mt_items (part s1)) ll (numbered_entries (added two_components errs))
           /\ metrics_service_handler sample_meter_cfg sample_component 1 encode_keys 0 [] 0 [] 1008 s1
              = match reported sample_component (added two_components errs) s1 with
                | None => None
                | Some (cs, s2) =>
                    let m := part s2 in
                    let s3 := set_part (set_mt_list ll (mt_items m) (metrics_component_count m) m) s2 in
                    Some (encoded_reply (encode_keys
                            (MkMetricsReply 1 (node_id sample_meter_cfg) (os_ticks_ms (mt_os m)) cs) s3 1008) 1008, s3)
                end)) metrics_zero.
Proof.
  split; [reflexivity|].
  apply (metrics_reported sample_meter_cfg sample_component 1 encode_keys two_components 0 [] 0 [] 1008 metrics_zero);
    [reflexivity|done].
Defined.

Example two_components_reply :
  (fun r => r.1) <$> (_ ← add_all two_components;
                      metrics_service_handler sample_meter_cfg sample_component 1 encode_keys 0 [] 0 [] 1008) metrics_zero
  = Some (true, 2, [97; 99]).
Proof. by vm_compute. Qed.

(** A node with a network device, and the measurements of its ports. *)
Definition meter_node : Type := chip_node * adin_metrics * metrics.

#[local] Instance meter_adin : Part adin meter_node :=
  { part s := s.1.1.1; set_part t s := ((t, s.1.1.2), s.1.2, s.2) }.
#[local] Instance meter_values : Part adin_metrics meter_node :=
  { part s := s.1.2; set_part t s := (s.1.1, t, s.2) }.
#[local] Instance meter_metrics : Part metrics meter_node :=
  { part s := s.2; set_part t s := (s.1, t) }.

(** Each port has received as many frames as its number says, and 300 of them were in
    error. *)
#[local] Instance meter_driver : AdinDriver meter_node := {
  adin2111_Init := mret true; adin2111_RegisterCallback := mret true; adin2111_SubmitRxBuffer _ := mret true;
  adin2111_SyncConfig := mret true; adin2111_EnablePort _ := mret true; adin2111_DisablePort _ := mret true;
  adin2111_SubmitTxBuffer _ _ _ := mret true;
  phy_GetAnStatus _ := mret (true, MkAnStatus true 0 ADI_PHY_AN_MS_RESOLUTION_FAULT 0);
  phy_Renegotiate _ := mret true;
  adin2111_GetLinkStatus port := mret (true, 1);
  adin2111_GetMseLinkQuality _ := mret (true, MkQuality 0 2 7);
  adin2111_FrameChkReadRxErrCnt _ := mret (true, 300);
  adin2111_FrameChkReadErrorCnt _ := mret (true, error_counters_zero);
  adin2111_FrameChkReadFrameCnt port := mret (port =? 0, 1000);
  adin2111_GetStatCounters port := mret (true, MkMacCounters (port + 1) 0 0 0 0 0 0 0 0 0 0 0 0 0);
  driver_interrupt := mret O;
  driver_next := mret None
}.

(** The tables as the encoding reads them: the fields that are not 0. *)
Definition read_tables (d : MetricsReplyData nat) (s : meter_node) : list (bytes * list (bytes * Z)) :=
  (fun c => (mc_key c, filter (fun x => x.2 <> 0)
                         ((fun x => (x.1.1, x.2)) <$> default [] (table_values (mc_fields c) (part s)))))
  <$> mrd_components d.

Definition meter_start : meter_node := ((adin_zero, chip_up [] []), adin_metrics_zero, metrics_zero).

(** Both ports are reported; the counters of the second one cannot be read. *)
Example ports_reported :
  (fun r => r.1)
  <$> (err ← adin2111_network_metrics_init 0;
       cs ← reported (fun _ => adin2111_network_metrics_data)
              [MkMetricEntry (port_component_key 0) 0 21; MkMetricEntry (port_component_key 1) 0 21];
       s ← get;
       mret (err, metrics_component_count (part s), read_tables (MkMetricsReply 1 5 0 cs) s)) meter_start
  = Some (BmOK, 2,
      [(port_component_key 0,
        [([115; 113; 105], 7); ([108; 113], 2); ([114; 120; 101], 300); ([102; 99; 102; 114; 109], 1000);
         ([108; 105; 110; 107], 1); ([114; 120; 102; 114; 109], 1)]);
       (port_component_key 1, [])]).
Proof. by vm_compute. Qed.
