(* ===== verification/PowerInfo.v ===== *)
(** * The service for the times of the bus power: src/middleware/power_info_service.c

    One node knows when the power of the bus goes on and off and offers it as a service;
    others ask for it with a callback.  The callbacks wait in a queue, which the replies
    take them from in turn.  Functions of the application are numbers; the encodings are
    not part of the repository. *)
From S2P Require Import Prelude Util LinkedList SList CbQueue Os Parts Services NodeServices.

(** "bus_power_controller/timing" *)
Definition power_info_service : bytes :=
  [98; 117; 115; 95; 112; 111; 119; 101; 114; 95; 99; 111; 110; 116; 114; 111; 108; 108; 101; 114;
   47; 116; 105; 109; 105; 110; 103].

Record PowerInfoReplyData : Type := MkPowerInfo { total_on_s : Z; remaining_on_s : Z; upcoming_off_s : Z }.

(** [power_cb]: the function with its argument.  [pi_calls]: what the callbacks of
    requests were called with. *)
Record power_info : Type := MkPowerInfoCtx {
  service_queue : BmCbQueue;
  pi_items : item_heap (option nat);
  power_cb : option (nat * nat);
  pi_calls : list (nat * PowerInfoReplyData);
  pi_os : Os
}.

Definition power_info_zero : power_info := MkPowerInfoCtx (MkBmCbQueue LL_empty 0 0) ∅ None [] (MkOs [] [] 0).

Definition set_pi_queue (q : BmCbQueue) (h : item_heap (option nat)) (calls : list (nat * PowerInfoReplyData))
    (s : power_info) : power_info := MkPowerInfoCtx q h (power_cb s) calls (pi_os s).
Definition set_power_cb (cb : option (nat * nat)) (s : power_info) : power_info :=
  MkPowerInfoCtx (service_queue s) (pi_items s) cb (pi_calls s) (pi_os s).
Definition set_pi_os (o : Os) (s : power_info) : power_info :=
  MkPowerInfoCtx (service_queue s) (pi_items s) (power_cb s) (pi_calls s) o.
Definition with_pi_os {A} (m : M Os A) : M power_info A := zoom pi_os set_pi_os m.

(** The two allocations of an item. *)
Definition alloc_item_of (h : item_heap (option nat)) : M Os alloc_result :=
  ok1 ← malloc_ok;
  if ok1 : bool then
    ok2 ← malloc_ok;
    mret (MkAlloc (Some (fresh (dom h), (None, None))) ok2)
  else mret (MkAlloc None false).

Section power.
(** What the callback [f] of a request answers. *)
Context (reply_result : nat -> PowerInfoReplyData -> BmErr).
Context (power_info_reply_encode : PowerInfoReplyData -> Z -> option bytes).
Context (power_info_reply_decode : bytes -> Z -> option PowerInfoReplyData).

(** The function of an application, called by the queue. *)
Definition call_reply (d : PowerInfoReplyData) (f : nat) (calls : list (nat * PowerInfoReplyData))
    : BmErr * list (nat * PowerInfoReplyData) := (reply_result f d, calls ++ [(f, d)]).

Definition enqueue_callback (cb : option nat) : M power_info BmErr :=
  s ← get;
  al ← with_pi_os (alloc_item_of (pi_items s));
  '(err, q, h) ← lift (queue_cb_enqueue (Some (service_queue s)) cb al (pi_items s));
  q ← lift q;
  _ ← modify (set_pi_queue q h (pi_calls s));
  mret err.

(** [reply]: the data as far as they lie inside of the message. *)
Definition power_info_reply_cb (ack : bool) (msg_id : Z) (service_strlen : Z) (service : bytes) (reply_len : Z)
    (reply : option bytes) : M power_info bool :=
  d ← (if ack then r ← lift reply; mret (power_info_reply_decode r reply_len) else mret None);
  s ← get;
  '(err, q, calls, h) ← lift (queue_cb_dequeue (call_reply (default (MkPowerInfo 0 0 0) d)) (Some (service_queue s))
    (pi_calls s) (bool_decide (is_Some d)) (pi_items s));
  q ← lift q;
  _ ← modify (set_pi_queue q h calls);
  mret (is_ok err).

Section requests.
Context {St : Type} `{Part power_info St}.

(** The function that knows the times. *)
Context (call_power_cb : nat -> nat -> M St PowerInfoReplyData).

Definition power_info_request_cb (service_strlen : Z) (service : bytes) (req_data_len : Z) (req_data : bytes)
    (buffer_len : Z) : M St (bool * Z * bytes) :=
  if req_data_len =? 0 then
    s ← gets part;
    match power_cb s with
    | Some (f, arg) =>
        d ← call_power_cb f arg;
        mret (encoded_reply (power_info_reply_encode d buffer_len) buffer_len)
    | None => mret (false, buffer_len, [])
    end
  else mret (false, buffer_len, []).

(** [str] is the static memory of the name; it may be that the function is kept although
    the service is not registered. *)
Definition power_info_service_init `{Part services St} `{PubSubApi St} `{Platform} (service_request_received_id : nat)
    (str : loc) (handler : nat) (cb : option nat) (arg : nat) : M St BmErr :=
  match cb with
  | Some f =>
      _ ← on_part (modify (set_sv_string str (power_info_service ++ [0])));
      ok ← bm_service_register service_request_received_id (Z.of_nat (length power_info_service)) (Some str) (Some handler);
      _ ← on_part (modify (set_power_cb (Some (f, arg))));
      mret (if ok : bool then BmOK else BmECANCELED)
  | None => mret BmEINVAL
  end.

(** [bm_service_request] with the name, without data and with [power_info_reply_cb], for
    a time. *)
Context (request : Z -> M St bool).

Definition power_info_service_request (reply_cb : option nat) (timeout_s : Z) : M St BmErr :=
  err ← on_part (enqueue_callback reply_cb);
  unless_err err
    (ok ← request timeout_s;
     mret (if ok : bool then BmOK else BmEBADMSG)).
End requests.
End power.

(** The request over the services. *)
Definition power_request {St} `{Part services St} `{PubSubApi St} `{Platform} (service_request_id reply_cb_id : nat)
    (timeout_s : Z) : M St bool :=
  bm_service_request service_request_id (Z.of_nat (length power_info_service)) (Some (power_info_service ++ [0])) 0 None
    (Some reply_cb_id) timeout_s.

(** ** The callbacks wait in a queue *)

(** What happens at a node that asks: a request with a callback, and the answer to a
    request, which is [None] when its time is over: its data and its length as the message
    gives it. *)
Inductive power_op : Type :=
| AskPower (cb : option nat) (timeout_s : Z)
| AnswerPower (reply : option (bytes * Z)).

Section queue.
Context (reply_result : nat -> PowerInfoReplyData -> BmErr).
Context (power_info_reply_decode : bytes -> Z -> option PowerInfoReplyData).
Context {St : Type} `{PartLaws power_info St}.

(** The request succeeds or not, and does not touch the queue. *)
Context (request : Z -> M St bool).
Context (request_keeps : forall t s, total (request t) (fun _ s' => part s' = part s) s).

Definition power_step (o : power_op) : M St BmErr :=
  match o with
  | AskPower cb t => power_info_service_request request cb t
  | AnswerPower r =>
      ok ← on_part (power_info_reply_cb reply_result power_info_reply_decode (bool_decide (is_Some r)) 0 0 []
                      (default 0 (snd <$> r)) (fst <$> r));
      mret (if ok : bool then BmOK else BmEBADMSG)
  end.

Fixpoint power_run (ops : list power_op) : M St (list BmErr) :=
  match ops with
  | [] => mret []
  | o :: ops => e ← power_step o; es ← power_run ops; mret (e :: es)
  end.

(** The callbacks that wait, and the calls.  A request that was refused for lack of
    memory does not wait; one that could not be sent does. *)
Definition power_spec (o : power_op) (e : BmErr) (waiting : list (option nat)) (calls : list (nat * PowerInfoReplyData))
    : list (option nat) * list (nat * PowerInfoReplyData) :=
  match o with
  | AskPower cb _ => (if decide (e = BmENOMEM) then waiting else waiting ++ [cb], calls)
  | AnswerPower r =>
      (drop 1 waiting,
       match waiting, r ≫= uncurry power_info_reply_decode with
       | Some f :: _, Some d => calls ++ [(f, d)]
       | _, _ => calls
       end)
  end.

Fixpoint power_spec_run (ops : list power_op) (es : list BmErr) (waiting : list (option nat))
    (calls : list (nat * PowerInfoReplyData)) : list (option nat) * list (nat * PowerInfoReplyData) :=
  match ops, es with
  | o :: ops, e :: es => let '(w, c) := power_spec o e waiting calls in power_spec_run ops es w c
  | _, _ => (waiting, calls)
  end.

Definition power_rep (s : St) (waiting : list (option nat)) (calls : list (nat * PowerInfoReplyData)) : Prop :=
  cbq_repr (pi_items (part s)) (service_queue (part s)) waiting /\ pi_calls (part s) = calls.

Lemma enqueue_spec cb w (p : power_info) :
  cbq_repr (pi_items p) (service_queue p) w -> Z.of_nat (length w) + 1 < 2 ^ 32 ->
  total (enqueue_callback cb) (fun err p' =>
    cbq_repr (pi_items p') (service_queue p') (if decide (err = BmENOMEM) then w else w ++ [cb])
    /\ pi_calls p' = pi_calls p /\ (err = BmOK \/ err = BmENOMEM)) p.
Proof.
  intros Hq Hn. unfold enqueue_callback. repeat total_step.
  assert (Hal : exists al o, alloc_item_of (pi_items p) (pi_os p) = Some (al, o) /\ alloc_ok al (pi_items p)).
  { unfold alloc_item_of, malloc_ok, mbind, M_bind. destruct (next_answer (os_alloc (pi_os p))) as [[] l].
    - cbn [os_alloc]. destruct (next_answer l) as [b l']. eexists _, _. split; [reflexivity|].
      unfold alloc_ok. cbn. apply not_elem_of_dom, is_fresh.
    - by eexists _, _. }
  destruct Hal as (al & o & Eal & Hok). apply total_zoom. exists al, o. split; [exact Eal|]. total_step.
  destruct (queue_cb_enqueue_spec (service_queue p) w cb al (pi_items p) Hq Hok Hn) as (q' & h' & E & Hr).
  eapply total_lift; [exact E|]. cbv beta iota. repeat total_step. cbn.
  destruct (bool_decide (is_Some (alloc_item al)) && alloc_data al); cbn in Hr |- *; auto.
Qed.

Lemma answer_spec ack r w (p : power_info) id sl str :
  cbq_repr (pi_items p) (service_queue p) w -> ack = bool_decide (is_Some r) ->
  total (power_info_reply_cb reply_result power_info_reply_decode ack id sl str (default 0 (snd <$> r)) (fst <$> r)) (fun _ p' =>
    cbq_repr (pi_items p') (service_queue p') (drop 1 w)
    /\ pi_calls p' = match w, r ≫= uncurry power_info_reply_decode with
                     | Some f :: _, Some d => pi_calls p ++ [(f, d)]
                     | _, _ => pi_calls p
                     end) p.
Proof.
  intros Hq ->. unfold power_info_reply_cb. total_step.
  apply (total_mono _ (fun d p' => p' = p /\ d = (r ≫= uncurry power_info_reply_decode))).
  { destruct r as [[b n]|]; [|by apply total_ret]. rewrite bool_decide_eq_true_2 by eauto.
    total_step. eapply total_lift; [reflexivity|]. by total_step. }
  intros d p' [-> ->]. repeat total_step. set (d := r ≫= uncurry power_info_reply_decode).
  destruct w as [|cb w].
  - rewrite queue_cb_dequeue_empty by done. eapply total_lift; [reflexivity|]. cbv beta iota. repeat total_step. by split.
  - destruct (queue_cb_dequeue_front (call_reply reply_result (default (MkPowerInfo 0 0 0) d)) (service_queue p) cb w
      (pi_calls p) (bool_decide (is_Some d)) (pi_items p) Hq) as (q' & h' & E & Hr).
    eapply total_lift; [exact E|]. cbv beta iota. repeat total_step. split; [exact Hr|]. cbn.
    destruct cb as [f|], d as [d|]; done.
Qed.

(** C36: replies are handed out in turn.  Whatever is asked, answered or not answered in
    time, in whatever order, and whichever allocations and requests fail, the node runs
    without undefined behaviour, and the callbacks wait in a queue: every request that
    there is memory for adds its callback at the end, also if it then cannot be sent;
    every answer, or the end of a request's time, takes the first callback off the queue,
    and calls it with the answer's data when there are any and they can be decoded. *)
Theorem power_info_in_turn ops w c (s : St) :
  power_rep s w c -> Z.of_nat (length w + length ops) + 1 < 2 ^ 32 ->
  total (power_run ops) (fun es s' =>
    length es = length ops
    /\ power_rep s' (fst (power_spec_run ops es w c)) (snd (power_spec_run ops es w c))) s.
Proof.
  revert w c s. induction ops as [|o ops IH]; intros w c s [Hq Hc] Hn; cbn [power_run].
  { total_step. by split. }
  cbn [length] in Hn. total_step.
  apply (total_mono _ (fun e s' => power_rep s' (fst (power_spec o e w c)) (snd (power_spec o e w c)))).
  - destruct o as [cb t|r]; cbn [power_step].
    + unfold power_info_service_request. total_step. apply total_zoom.
      eapply total_mono; [by apply (enqueue_spec cb w); [|lia]|]. intros err p' (Hq' & Hc' & [-> | ->]); cbn [unless_err is_ok].
      * total_step. eapply total_mono; [apply request_keeps|]. intros ok s' Hp. total_step.
        unfold power_rep. rewrite Hp, part_set. by destruct ok; cbn; rewrite <- Hc.
      * total_step. unfold power_rep. rewrite part_set. by cbn; rewrite <- Hc.
    + total_step. apply total_zoom. eapply total_mono; [by apply (answer_spec _ r w)|]. intros ok p' [Hq' Hc']. total_step.
      unfold power_rep. rewrite part_set. cbn. split; [done|]. by rewrite <- Hc.
  - intros e s' Hr. total_step. cbn [power_spec_run]. destruct (power_spec o e w c) as [w' c'] eqn:E. cbn [fst snd] in Hr.
    assert (Hl : (length w' <= S (length w))%nat).
    { destruct o as [cb t|r]; cbn in E; injection E as <- _; [destruct (decide (e = BmENOMEM))|];
        rewrite ?length_app, ?length_drop; cbn; lia. }
    eapply total_mono; [apply (IH w' c' s' Hr); lia|]. intros es s'' [Hle Hr']. total_step. cbn. rewrite E.
    split; [by rewrite Hle|done].
Qed.
End queue.

(** ** Concrete runs *)

(** Three bytes, one for each time. *)
Definition decode_three (b : bytes) (n : Z) : option PowerInfoReplyData :=
  match b with [x; y; z] => if n =? 3 then Some (MkPowerInfo x y z) else None | _ => None end.
Definition content (_ : nat) (_ : PowerInfoReplyData) : BmErr := BmOK.

(** Requests with a time of 0 cannot be sent. *)
Definition request_but_0 (t : Z) : M power_info bool := mret (negb (t =? 0)).

Definition power_ops : list power_op :=
  [AskPower (Some 1%nat) 5; AskPower (Some 2%nat) 5; AnswerPower (Some ([1; 2; 3], 3)); AnswerPower None;
   AnswerPower (Some ([4; 5; 6], 3))].

Lemma power_info_in_turn_witness :
  power_rep (power_info_zero : power_info) [] []
  /\ total (power_run content decode_three request_but_0 power_ops) (fun es s' =>
       length es = length power_ops
       /\ power_rep s' (fst (power_spec_run decode_three power_ops es [] []))
            (snd (power_spec_run decode_three power_ops es [] []))) power_info_zero.
Proof.
  assert (Hr : power_rep (power_info_zero : power_info) [] []).
  { split; [|done]. split; [apply ll_inv_empty|cbn; lia|done|done]. }
  split; [exact Hr|].
  apply (power_info_in_turn content decode_three request_but_0); [|exact Hr|done].
  intros t s. by apply total_ret.
Defined.

Example power_calls :
  (fun r => pi_calls r.2) <$> power_run content decode_three request_but_0 power_ops power_info_zero
  = Some [(1%nat, MkPowerInfo 1 2 3)].
Proof. by vm_compute. Qed.

(** The callback of a request that could not be sent gets the answer of the next one,
    whose own callback waits for ever. *)
Example failed_request_called :
  (fun r => (r.1, pi_calls r.2))
  <$> power_run content decode_three request_but_0
        [AskPower (Some 1%nat) 0; AskPower (Some 2%nat) 5; AnswerPower (Some ([1; 2; 3], 3))] power_info_zero
  = Some ([BmEBADMSG; BmOK; BmOK], [(1%nat, MkPowerInfo 1 2 3)]).
Proof. by vm_compute. Qed.

(** The end of the first request's time comes after the second one's answer: the first
    callback gets it, and the second one is never called.  The number of the request,
    which tells them apart, is not looked at. *)
Example late_first_request :
  (fun r => pi_calls r.2)
  <$> power_run content decode_three request_but_0
        [AskPower (Some 1%nat) 9; AskPower (Some 2%nat) 5; AnswerPower (Some ([1; 2; 3], 3)); AnswerPower None] power_info_zero
  = Some [(1%nat, MkPowerInfo 1 2 3)].
Proof. by vm_compute. Qed.
