(* ===== verification/Spotter.v ===== *)
(** * Messages for a buoy and for files: src/integrations/spotter.c and file_ops.c

    A node prints to the console or to a file of another node, and sends data to the
    shore, by publishing messages.  The structure at the head of a message that is printed
    is not part of the repository; the stores to its fields are a class.  What
    [vsnprintf] makes of the arguments is given: [None] is an error. *)
From S2P Require Import Prelude Util Os Parts Bcmp Services.

(** [bm_print_publication_t]: stores to the fields, in memory. *)
Class PrintPublication : Type := {
  sizeof_print_publication : nat;
  store_target_node_id : Z -> bytes -> bytes;
  store_fname_len : Z -> bytes -> bytes;
  store_data_len : Z -> bytes -> bytes;
  store_print_time : Z -> bytes -> bytes
}.

Definition max_file_name_len : nat := 64.
Definition spotter_tx_max_iridium_payload_bytes : Z := 311.
Definition spotter_tx_max_cellular_payload_bytes : Z := 1000.

(** The names end with a zero. *)
Definition SPOTTER_TRANSMIT_DATA_TOPIC : bytes :=
  [115; 112; 111; 116; 116; 101; 114; 47; 116; 114; 97; 110; 115; 109; 105; 116; 45; 100; 97; 116; 97; 0].
Definition SPOTTER_PRINTF_TOPIC : bytes := [115; 112; 111; 116; 116; 101; 114; 47; 112; 114; 105; 110; 116; 102; 0].
Definition SPOTTER_FPRINTF_TOPIC : bytes :=
  [115; 112; 111; 116; 116; 101; 114; 47; 102; 112; 114; 105; 110; 116; 102; 0].
Definition FAPPEND_TOPIC : bytes := [102; 97; 112; 112; 101; 110; 100; 0].

Inductive BmSerialNetworkType : Type := BmNetworkTypeCellularIriFallback | BmNetworkTypeCellularOnly.
Definition network_type_num (t : BmSerialNetworkType) : Z :=
  match t with BmNetworkTypeCellularIriFallback => 1 | BmNetworkTypeCellularOnly => 2 end.

(** [vsnprintf(&buf[off], size, format, va)], where [text] is what the arguments give: the
    result, and the bytes that are written, which are cut to the size. *)
Definition vsnprintf (text : option bytes) (off : nat) (size : Z) (buf : bytes) : option (Z * bytes) :=
  match text with
  | Some t =>
      if size <=? 0 then Some (Z.of_nat (length t), buf)
      else b ← write_at off (take (Z.to_nat (size - 1)) t ++ [0]) buf; Some (Z.of_nat (length t), b)
  | None => Some (-1, buf)
  end.

Section spotter.
Context `{Platform} `{PrintPublication}.
Context {St : Type} `{Part Os St}.

(** [bm_pub]: topic, data, length, type and version. *)
Context (bm_pub : option bytes -> option bytes -> Z -> Z -> Z -> M St BmErr).

(** The size of the type in memory, and what [bm_malloc] gives. *)
Context (sizeof_network_type : nat) (junk : nat -> Z).

Definition malloc (n : Z) : M St (option bytes) :=
  ok ← on_part malloc_ok;
  mret (if ok : bool then Some (junk <$> seq 0 (Z.to_nat n)) else None).

Definition sizeof_pp : Z := Z.of_nat sizeof_print_publication.
Definition max_str_len (fname_len : Z) : Z := s32 (usize (max_payload_len - sizeof_pp - fname_len)).

(** The length of the name, or the error. *)
Definition log_name_len (file_name : option bytes) : M St (option Z) :=
  match file_name with
  | Some _ =>
      n ← lift (bm_strnlen file_name max_file_name_len);
      mret (if (n <? max_file_name_len)%nat then Some (Z.of_nat n) else None)
  | None => mret (Some 0)
  end.

(** The message of [spotter_log] without its text, in memory that was set to zero. *)
Definition log_message (target_node_id : Z) (file_name : option bytes) (print_time fname_len data_len n : Z)
    : option bytes :=
  let m := store_print_time (u8 print_time) (store_data_len data_len (store_fname_len fname_len
             (store_target_node_id (u64 target_node_id) (replicate (Z.to_nat n) 0)))) in
  match file_name with
  | Some f => d ← read_at 0 (Z.to_nat fname_len) f; write_at sizeof_print_publication d m
  | None => Some m
  end.

Definition log_topic (file_name : option bytes) : bytes :=
  match file_name with Some _ => SPOTTER_FPRINTF_TOPIC | None => SPOTTER_PRINTF_TOPIC end.

(** [measured] and [printed]: what the arguments give in the first and in the second call. *)
Definition spotter_log (target_node_id : Z) (file_name : option bytes) (print_time : Z)
    (measured printed : option bytes) : M St BmErr :=
  '(data_len, _) ← lift (vsnprintf measured 0 0 []);
  if data_len =? 0 then mret BmENODATA else
  name_len ← log_name_len file_name;
  match name_len with
  | None => mret BmEMSGSIZE
  | Some fname_len =>
      if max_str_len fname_len <? data_len then mret BmEMSGSIZE else
      let n := usize (sizeof_pp + data_len + fname_len + 1) in
      buf ← malloc n;
      match buf with
      | None => mret BmENOMEM
      | Some _ =>
          m ← lift (log_message target_node_id file_name print_time fname_len data_len n);
          let data_len := data_len + 1 in
          '(res, m) ← lift (vsnprintf printed (sizeof_print_publication + Z.to_nat fname_len) data_len m);
          if (res <? 0) || negb (res =? data_len - 1) then mret BmEBADMSG
          else
            err ← bm_pub (Some (log_topic file_name)) (Some m) n 1 BM_COMMON_PUB_SUB_VERSION;
            mret (if is_ok err then BmOK else BmENETDOWN)
      end
  end.

(** [data]: the memory behind the pointer. *)
Definition spotter_tx_data (data : option bytes) (data_len : Z) (type : BmSerialNetworkType) : M St BmErr :=
  let max := match type with
             | BmNetworkTypeCellularOnly => spotter_tx_max_cellular_payload_bytes
             | _ => spotter_tx_max_iridium_payload_bytes
             end in
  if max <? data_len then mret BmEMSGSIZE
  else
    let msg_len := usize (Z.of_nat sizeof_network_type + data_len) in
    buf ← malloc msg_len;
    match buf with
    | None => mret BmENOMEM
    | Some b =>
        m ← lift (write_at 0 (native_store sizeof_network_type (network_type_num type)) b);
        d ← (if data_len =? 0 then mret [] else b ← lift data; lift (read_at 0 (Z.to_nat data_len) b));
        m ← lift (write_at sizeof_network_type d m);
        bm_pub (Some SPOTTER_TRANSMIT_DATA_TOPIC) (Some m) msg_len 1 BM_COMMON_PUB_SUB_VERSION
    end.

(** The message of [bm_file_append]; [print_time] is not set. *)
Definition append_message (target_node_id fname_len data_len : Z) (file_name buf m : bytes) : option bytes :=
  let m := store_data_len data_len (store_fname_len fname_len (store_target_node_id (u64 target_node_id) m)) in
  f ← read_at 0 (Z.to_nat fname_len) file_name;
  m ← write_at sizeof_print_publication f m;
  d ← read_at 0 (Z.to_nat data_len) buf;
  write_at (sizeof_print_publication + Z.to_nat fname_len) d m.

Definition bm_file_append (target_node_id : Z) (file_name buf : option bytes) (len : Z) : M St BmErr :=
  match file_name, buf with
  | Some f, Some b =>
      n ← lift (bm_strnlen file_name max_file_name_len);
      let fname_len := Z.of_nat n in
      let file_append_pub_len := usize (sizeof_pp + len + fname_len) in
      mem ← malloc file_append_pub_len;
      match mem with
      | None => mret BmENOMEM
      | Some m =>
          m ← lift (append_message target_node_id fname_len len f b m);
          bm_pub (Some FAPPEND_TOPIC) (Some m) file_append_pub_len 1 BM_COMMON_PUB_SUB_VERSION
      end
  | _, _ => mret BmEINVAL
  end.
End spotter.

(** ** What a reader finds *)

(** The fields that are read, from the head of the message. *)
Class PrintPublicationLaws `{PrintPublication} : Type := {
  head_fields : bytes -> Z * Z * Z * Z;
  store_target_law z m t f d p :
    (sizeof_print_publication <= length m)%nat -> 0 <= z < 2 ^ 64 -> head_fields m = (t, f, d, p) ->
    head_fields (store_target_node_id z m) = (z, f, d, p);
  store_fname_law z m t f d p :
    (sizeof_print_publication <= length m)%nat -> 0 <= z < 2 ^ 16 -> head_fields m = (t, f, d, p) ->
    head_fields (store_fname_len z m) = (t, z, d, p);
  store_data_law z m t f d p :
    (sizeof_print_publication <= length m)%nat -> 0 <= z < 2 ^ 16 -> head_fields m = (t, f, d, p) ->
    head_fields (store_data_len z m) = (t, f, z, p);
  store_time_law z m t f d p :
    (sizeof_print_publication <= length m)%nat -> 0 <= z < 2 ^ 8 -> head_fields m = (t, f, d, p) ->
    head_fields (store_print_time z m) = (t, f, d, z);
  store_lengths z m :
    length (store_target_node_id z m) = length m /\ length (store_fname_len z m) = length m
    /\ length (store_data_len z m) = length m /\ length (store_print_time z m) = length m;
  head_only m m' : take sizeof_print_publication m = take sizeof_print_publication m' -> head_fields m = head_fields m';
  head_small : (sizeof_print_publication <= 1024)%nat
}.

(** Target, name, text and whether the time is printed. *)
Definition read_print `{PrintPublicationLaws} (m : bytes) : Z * bytes * bytes * Z :=
  let '(target, fname_len, data_len, print_time) := head_fields m in
  let f := Z.to_nat fname_len in
  (target, slice sizeof_print_publication f m, slice (sizeof_print_publication + f) (Z.to_nat data_len) m, print_time).

(** A name in memory. *)
Definition names (file_name : option bytes) (name : bytes) : Prop :=
  match file_name with Some f => 0 ∉ name /\ exists rest, f = name ++ 0 :: rest | None => name = [] end.

Section reader.
Context `{Platform} `{PrintPublication} `{!PrintPublicationLaws}.

Lemma strnlen_name name rest max n :
  0 ∉ name -> strnlen_loop (name ++ 0 :: rest) max n = Some (n + min max (length name))%nat.
Proof.
  revert max n. induction name as [|c name IH]; intros [|max] n Hn; cbn; try (f_equal; lia).
  apply not_elem_of_cons in Hn as [Hc Hn]. destruct (Z.eqb_spec c 0); [congruence|]. rewrite IH by done. f_equal. lia.
Qed.

(** A message with the given head, followed by a name and a text. *)
Lemma read_print_parts h name text rest t p :
  length h = sizeof_print_publication ->
  head_fields h = (t, Z.of_nat (length name), Z.of_nat (length text), p) ->
  read_print (h ++ name ++ text ++ rest) = (t, name, text, p).
Proof.
  intros Hl Hh. unfold read_print. rewrite (head_only _ h) by (by rewrite take_app_length', take_ge by lia).
  rewrite Hh, !Nat2Z.id. unfold slice.
  rewrite <- drop_drop, (drop_app_length' h) by done. by rewrite drop_app_length, !take_app_length.
Qed.

Lemma write_nothing n (m : bytes) : (n <= length m)%nat -> write_at n [] m = Some m.
Proof.
  intros Hn. rewrite <- (take_drop n m) at 1. rewrite (write_at_app _ []) by (rewrite ?length_take; cbn; lia).
  cbn. by rewrite drop_0, take_drop.
Qed.

(** The name and the text behind the head, and what is written behind the text. *)
Lemma body_written m name text extra t p :
  (sizeof_print_publication + length name + length (text ++ extra) <= length m)%nat ->
  head_fields m = (t, Z.of_nat (length name), Z.of_nat (length text), p) ->
  exists m1 m2, write_at sizeof_print_publication name m = Some m1 /\ length m1 = length m
    /\ write_at (sizeof_print_publication + length name) (text ++ extra) m1 = Some m2
    /\ length m2 = length m /\ read_print m2 = (t, name, text, p).
Proof.
  intros Hl Hh. set (h := take sizeof_print_publication m). set (tail := drop sizeof_print_publication m).
  assert (Hlh : length h = sizeof_print_publication) by (unfold h; rewrite length_take; lia).
  assert (Hlt : length tail = (length m - sizeof_print_publication)%nat) by (unfold tail; by rewrite length_drop).
  assert (Hm : m = h ++ tail) by (symmetry; apply take_drop).
  set (rest := drop (length (text ++ extra)) (drop (length name) tail)).
  exists (h ++ name ++ drop (length name) tail), (h ++ name ++ (text ++ extra) ++ rest).
  split; [rewrite Hm at 1; apply write_at_app; lia|].
  split; [rewrite !length_app, length_drop; lia|].
  split; [rewrite (app_assoc h name), write_at_app by (rewrite ?length_app, ?length_drop in *; lia); by rewrite <- app_assoc|].
  split; [unfold rest; rewrite !length_app, !length_drop in *; lia|].
  rewrite <- (app_assoc text). apply read_print_parts; [done|]. rewrite <- Hh. apply head_only.
  unfold h. by rewrite take_take, Nat.min_id.
Qed.

(** The head after the stores of [spotter_log]. *)
Lemma log_head target pt fl dl n :
  0 <= target < 2 ^ 64 -> 0 <= pt < 2 ^ 8 -> 0 <= fl < 2 ^ 16 -> 0 <= dl < 2 ^ 16 -> (sizeof_print_publication <= n)%nat ->
  let m := store_print_time pt (store_data_len dl (store_fname_len fl (store_target_node_id target (replicate n 0)))) in
  length m = n /\ head_fields m = (target, fl, dl, pt).
Proof.
  intros Ht Hp Hf Hd Hn m. pose proof (store_lengths target (replicate n 0)) as (L1 & _).
  rewrite length_replicate in L1. pose proof (store_lengths fl (store_target_node_id target (replicate n 0))) as (_ & L2 & _).
  pose proof (store_lengths dl (store_fname_len fl (store_target_node_id target (replicate n 0)))) as (_ & _ & L3 & _).
  pose proof (store_lengths pt (store_data_len dl (store_fname_len fl (store_target_node_id target (replicate n 0))))) as (_ & _ & _ & L4).
  split; [unfold m; congruence|]. destruct (head_fields (replicate n 0)) as [[[t0 f0] d0] p0] eqn:E.
  unfold m. eapply store_time_law; [lia|done|]. eapply store_data_law; [lia|done|]. eapply store_fname_law; [lia|done|].
  eapply store_target_law; [rewrite length_replicate; lia|done|exact E].
Qed.
End reader.

Section printed.
Context `{Platform} `{PrintPublication} `{!PrintPublicationLaws}.
Context {St : Type} `{Part Os St}.
Context (bm_pub : option bytes -> option bytes -> Z -> Z -> Z -> M St BmErr).
Context (junk : nat -> Z) (size_t_32 : 32 <= size_t_bits).

Lemma name_strnlen file_name name :
  names file_name name -> bm_strnlen file_name max_file_name_len = Some (min max_file_name_len (length name)).
Proof. destruct file_name as [f|]; unfold names, bm_strnlen; [intros [Hn [rest ->]]; by apply (strnlen_name name rest _ 0)|by intros ->]. Qed.

Lemma log_name_spec file_name name (s : St) :
  names file_name name -> (length name < max_file_name_len)%nat ->
  log_name_len file_name s = Some (Some (Z.of_nat (length name)), s).
Proof.
  intros Hn Hl. unfold log_name_len. destruct file_name as [f|]; [|by rewrite Hn].
  rewrite (name_strnlen _ _ Hn), Nat.min_r by lia. unfold lift, mbind, M_bind. cbn [fmap option_fmap option_map].
  by rewrite (proj2 (Nat.ltb_lt _ _) Hl).
Qed.

Lemma size_value n : 0 <= n < 2 ^ 32 -> usize n = n.
Proof. apply usize_small, size_t_32. Qed.

Lemma max_str_len_value fl :
  0 <= fl < 64 -> max_str_len fl = max_payload_len - Z.of_nat sizeof_print_publication - fl.
Proof.
  intros Hf. pose proof head_small. unfold max_str_len, sizeof_pp. change max_payload_len with 1460.
  rewrite size_value by lia. unfold s32. rewrite Z.mod_small; lia.
Qed.

(** The second call of [vsnprintf] stays inside of the message. *)
Lemma printed_inside t off n m :
  (off + n + 1 <= length m)%nat ->
  exists m', vsnprintf (Some t) off (Z.of_nat n + 1) m = Some (Z.of_nat (length t), m').
Proof.
  intros Hl. unfold vsnprintf. destruct (Z.leb_spec (Z.of_nat n + 1) 0); [lia|].
  unfold write_at. rewrite length_app, length_take. cbn [length].
  rewrite (proj2 (Nat.leb_le _ _)) by lia. cbn. eauto.
Qed.

(** What happens if there is memory. *)
Definition with_memory (m : M St BmErr) : M St BmErr :=
  ok ← on_part malloc_ok; if ok : bool then m else mret BmENOMEM.

Lemma malloc_then n (k : M St BmErr) s :
  (buf ← malloc junk n; match buf with None => mret BmENOMEM | Some _ => k end) s = with_memory k s.
Proof.
  unfold malloc, with_memory, mbind, M_bind.
  by destruct (on_part malloc_ok s) as [[[|] s1]|].
Qed.

(** The message before and after the second call of [vsnprintf]. *)
Lemma log_message_written target file_name name pt (text other : bytes) :
  0 <= target < 2 ^ 64 -> 0 <= pt < 2 ^ 8 -> names file_name name -> (length name < 64)%nat ->
  Z.of_nat (length text) < 2 ^ 16 ->
  let n := (sizeof_print_publication + length name + length text + 1)%nat in
  exists m, log_message target file_name pt (Z.of_nat (length name)) (Z.of_nat (length text)) (Z.of_nat n) = Some m
    /\ length m = n
    /\ (length other = length text -> exists m2,
          vsnprintf (Some other) (sizeof_print_publication + length name) (Z.of_nat (length text) + 1) m
          = Some (Z.of_nat (length text), m2)
          /\ length m2 = n /\ read_print m2 = (target, name, other, pt)).
Proof.
  intros Ht Hp Hn Hl Hx n. pose proof (log_head target pt (Z.of_nat (length name)) (Z.of_nat (length text)) n Ht Hp) as Hm.
  destruct Hm as [Hm Hh]; [lia..|]. set (m := store_print_time pt _) in Hm, Hh.
  assert (Hw : exists m1, write_at sizeof_print_publication name m = Some m1).
  { unfold write_at. rewrite Hm, (proj2 (Nat.leb_le _ _)) by lia. eauto. }
  destruct Hw as [m1 E1]. exists m1.
  assert (L1 : length m1 = n).
  { revert E1. unfold write_at. rewrite Hm, (proj2 (Nat.leb_le _ _)) by lia. intros [= <-]. rewrite length_blit; lia. }
  split; [|split; [done|]].
  - unfold log_message. rewrite (u8_small pt), (wrap_small 64), !Nat2Z.id by done. fold m.
    destruct file_name as [f|]; [|by rewrite Hn in E1; rewrite write_nothing in E1 by lia].
    destruct Hn as [_ [rest ->]]. by rewrite read_at_head.
  - intros Ho. destruct (body_written m name other [0] target pt) as (m1' & m2 & E1' & _ & E2 & L2 & R).
    { rewrite length_app, Hm. cbn. lia. } { by rewrite Ho. }
    assert (m1' = m1) as -> by congruence. exists m2. split; [|split; [congruence|done]].
    unfold vsnprintf. destruct (Z.leb_spec (Z.of_nat (length text) + 1) 0); [lia|].
    rewrite take_ge, E2, Ho by lia. done.
Qed.

(** [spotter_log] up to the second call of [vsnprintf]. *)
Lemma log_reaches target file_name name pt (text : bytes) printed m s :
  names file_name name -> (length name < 64)%nat -> text <> [] ->
  Z.of_nat (sizeof_print_publication + length name + length text) <= 1460 ->
  let n := (sizeof_print_publication + length name + length text + 1)%nat in
  log_message target file_name pt (Z.of_nat (length name)) (Z.of_nat (length text)) (Z.of_nat n) = Some m ->
  spotter_log bm_pub junk target file_name pt (Some text) printed s
  = with_memory (
      '(res, m) ← lift (vsnprintf printed (sizeof_print_publication + length name) (Z.of_nat (length text) + 1) m);
      if (res <? 0) || negb (res =? Z.of_nat (length text)) then mret BmEBADMSG
      else err ← bm_pub (Some (log_topic file_name)) (Some m) (Z.of_nat n) 1 BM_COMMON_PUB_SUB_VERSION;
           mret (if is_ok err then BmOK else BmENETDOWN)) s.
Proof.
  intros Hn Hl Hne Hx n Em. assert (Hlen : 0 < Z.of_nat (length text)) by (destruct text; [done|cbn; lia]).
  unfold spotter_log. erewrite bind_some by done. cbv beta iota. destruct (Z.eqb_spec (Z.of_nat (length text)) 0); [lia|].
  erewrite bind_some by (by apply (log_name_spec _ name)). cbv beta iota.
  rewrite max_str_len_value by lia. change max_payload_len with 1460.
  destruct (Z.ltb_spec (1460 - Z.of_nat sizeof_print_publication - Z.of_nat (length name)) (Z.of_nat (length text))); [lia|].
  cbn zeta. unfold sizeof_pp.
  replace (usize (Z.of_nat sizeof_print_publication + Z.of_nat (length text) + Z.of_nat (length name) + 1)) with (Z.of_nat n)
    by (rewrite size_value; lia).
  rewrite malloc_then. unfold with_memory, mbind, M_bind. destruct (on_part malloc_ok s) as [[[|] s1]|]; [|done..].
  rewrite Em. cbn [lift fmap option_fmap option_map]. rewrite Nat2Z.id.
  by replace (Z.of_nat (length text) + 1 - 1) with (Z.of_nat (length text)) by lia.
Qed.

(** What is logged is what is read.  The name of a file has less than 64 bytes, and name and
    text fit into a message.  [spotter_log] runs without undefined behaviour whatever
    the two calls of [vsnprintf] give: without text it publishes nothing; when both give as
    many bytes it publishes one message, from which a reader gets the target, the name, the
    text of the second call and the flag for the time, on the topic for files if there is a
    name and on the one for the console if there is none; when they differ, or there is no
    memory, it says so and publishes nothing. *)
Theorem spotter_log_read target file_name name pt (text : bytes) (printed : option bytes) s :
  0 <= target < 2 ^ 64 -> 0 <= pt < 2 ^ 8 -> names file_name name -> (length name < 64)%nat ->
  Z.of_nat (sizeof_print_publication + length name + length text) <= max_payload_len ->
  let log := spotter_log bm_pub junk target file_name pt (Some text) printed in
  let n := (sizeof_print_publication + length name + length text + 1)%nat in
  (text = [] -> log s = Some (BmENODATA, s))
  /\ (text <> [] -> forall other, printed = Some other -> length other = length text ->
      exists m, read_print m = (target, name, other, pt) /\ length m = n
        /\ log s = with_memory (
             err ← bm_pub (Some (log_topic file_name)) (Some m) (Z.of_nat n) 1 BM_COMMON_PUB_SUB_VERSION;
             mret (if is_ok err then BmOK else BmENETDOWN)) s)
  /\ (text <> [] -> length <$> printed <> Some (length text) -> log s = with_memory (mret BmEBADMSG) s).
Proof.
  intros Ht Hp Hn Hl Hx log n. change max_payload_len with 1460 in Hx.
  split; [|split].
  - intros ->. reflexivity.
  - intros Hne other -> Ho.
    destruct (log_message_written target file_name name pt text other) as (m & Em & Lm & Hw); [done..|lia|].
    destruct (Hw Ho) as (m2 & E2 & L2 & R2). exists m2. split; [done|]. split; [done|].
    unfold log. erewrite log_reaches by (done || lia || exact Em). unfold with_memory, mbind, M_bind.
    destruct (on_part malloc_ok s) as [[[|] s1]|]; [|done..]. rewrite E2. cbn [lift fmap option_fmap option_map].
    destruct (Z.ltb_spec (Z.of_nat (length text)) 0); [lia|]. by rewrite Z.eqb_refl.
  - intros Hne Ho.
    destruct (log_message_written target file_name name pt text []) as (m & Em & Lm & _); [done..|lia|].
    unfold log. erewrite log_reaches by (done || lia || exact Em). unfold with_memory, mbind, M_bind.
    destruct (on_part malloc_ok s) as [[[|] s1]|]; [|done..]. destruct printed as [other|]; [|reflexivity].
    destruct (printed_inside other (sizeof_print_publication + length name) (length text) m) as [m2 E2]; [lia|].
    rewrite E2. cbn [lift fmap option_fmap option_map]. cbn in Ho.
    destruct (Z.ltb_spec (Z.of_nat (length other)) 0); [lia|].
    destruct (Z.eqb_spec (Z.of_nat (length other)) (Z.of_nat (length text))); [|done]. by destruct Ho; f_equal; lia.
Qed.

(** The head after the stores of [bm_file_append]. *)
Lemma append_head target fl dl m t0 f0 d0 p :
  0 <= target < 2 ^ 64 -> 0 <= fl < 2 ^ 16 -> 0 <= dl < 2 ^ 16 -> (sizeof_print_publication <= length m)%nat ->
  head_fields m = (t0, f0, d0, p) ->
  let m' := store_data_len dl (store_fname_len fl (store_target_node_id target m)) in
  length m' = length m /\ head_fields m' = (target, fl, dl, p).
Proof.
  intros Ht Hf Hd Hm E m'. pose proof (store_lengths target m) as (L1 & _).
  pose proof (store_lengths fl (store_target_node_id target m)) as (_ & L2 & _).
  pose proof (store_lengths dl (store_fname_len fl (store_target_node_id target m))) as (_ & _ & L3 & _).
  split; [unfold m'; congruence|].
  unfold m'. eapply store_data_law; [lia|done|]. eapply store_fname_law; [lia|done|].
  eapply store_target_law; [lia|done|exact E].
Qed.

(** What is appended to a file is what is read: with memory, one message is published from
    which a reader gets the target, the first 64 bytes of the name, and the data.  The flag for
    the time is what was in that memory before. *)
Lemma file_append_read target f name buf len t0 f0 d0 p s :
  0 <= target < 2 ^ 64 -> names (Some f) name -> 0 <= len <= Z.of_nat (length buf) -> len < 2 ^ 16 ->
  let fl := min max_file_name_len (length name) in
  let n := (sizeof_print_publication + fl + Z.to_nat len)%nat in
  head_fields (junk <$> seq 0 n) = (t0, f0, d0, p) ->
  exists m, read_print m = (target, take max_file_name_len name, take (Z.to_nat len) buf, p) /\ length m = n
    /\ bm_file_append bm_pub junk target (Some f) (Some buf) len s
       = with_memory (bm_pub (Some FAPPEND_TOPIC) (Some m) (Z.of_nat n) 1 BM_COMMON_PUB_SUB_VERSION) s.
Proof.
  intros Ht Hn Hlen Hlen' fl n E. pose proof (name_strnlen _ _ Hn) as El. fold fl in El.
  assert (Hfl : (fl <= 64)%nat) by (unfold fl, max_file_name_len; lia). pose proof head_small.
  assert (Lj : length (junk <$> seq 0 n) = n) by (by rewrite length_fmap, length_seq).
  destruct (append_head target (Z.of_nat fl) len (junk <$> seq 0 n) t0 f0 d0 p Ht) as [Lm Hh]; [lia..|exact E|]. rewrite Lj in Lm.
  set (m := store_data_len _ _) in Lm, Hh.
  assert (Ltn : length (take max_file_name_len name) = fl) by (by rewrite length_take).
  assert (Lb : length (take (Z.to_nat len) buf) = Z.to_nat len) by (rewrite length_take; lia).
  destruct (body_written m (take max_file_name_len name) (take (Z.to_nat len) buf) [] target p)
    as (m1 & m2 & E1 & _ & E2 & L2 & R); [rewrite app_nil_r, Ltn, Lb; lia| |].
  { by rewrite Ltn, Lb, Z2Nat.id by lia. }
  rewrite app_nil_r, Ltn in E2. exists m2. split; [done|]. split; [congruence|].
  unfold bm_file_append. rewrite El. erewrite bind_some by done. cbv beta iota zeta. unfold sizeof_pp.
  rewrite size_value by lia. replace (Z.of_nat sizeof_print_publication + len + Z.of_nat fl) with (Z.of_nat n) by lia.
  unfold malloc, with_memory, mbind, M_bind. destruct (on_part malloc_ok s) as [[[|] s1]|]; [|done..].
  cbn [mret M_ret]. rewrite Nat2Z.id. unfold append_message. rewrite (wrap_small 64) by done. fold m.
  assert (Ef : read_at 0 fl f = Some (take max_file_name_len name)).
  { destruct Hn as [_ [rest ->]]. rewrite <- (take_drop max_file_name_len name) at 1. rewrite <- app_assoc.
    by apply read_at_head. }
  rewrite !Nat2Z.id, Ef. cbn [mbind option_bind]. rewrite E1. cbn [mbind option_bind].
  unfold read_at at 1. rewrite (proj2 (Nat.leb_le _ _)) by lia. cbn [mbind option_bind]. unfold slice. rewrite drop_0, E2.
  reflexivity.
Qed.

(** What is sent to the shore is the type of the network and the data, up to the most that
    goes over that network. *)
Lemma transmit_read k data len type s :
  (k <= 8)%nat -> 0 <= len <= Z.of_nat (length data) ->
  spotter_tx_data bm_pub k junk (Some data) len type s
  = if (match type with BmNetworkTypeCellularOnly => 1000 | _ => 311 end) <? len then Some (BmEMSGSIZE, s)
    else with_memory (bm_pub (Some SPOTTER_TRANSMIT_DATA_TOPIC)
                        (Some (native_store k (network_type_num type) ++ take (Z.to_nat len) data))
                        (Z.of_nat k + len) 1 BM_COMMON_PUB_SUB_VERSION) s.
Proof.
  intros Hk Hl. unfold spotter_tx_data, spotter_tx_max_cellular_payload_bytes, spotter_tx_max_iridium_payload_bytes.
  set (max := match type with BmNetworkTypeCellularOnly => 1000 | _ => 311 end).
  destruct (Z.ltb_spec max len); [done|].
  assert (Hm : len <= 1000) by (unfold max in *; destruct type; lia).
  rewrite size_value by lia. unfold malloc, with_memory, mbind, M_bind.
  destruct (on_part malloc_ok s) as [[[|] s1]|]; [|done..]. cbn [mret M_ret].
  set (mem := junk <$> seq 0 (Z.to_nat (Z.of_nat k + len))).
  assert (Lm : length mem = (k + Z.to_nat len)%nat) by (unfold mem; rewrite length_fmap, length_seq; lia).
  assert (E1 : write_at 0 (native_store k (network_type_num type)) mem
               = Some (native_store k (network_type_num type) ++ drop k mem)).
  { rewrite (write_at_app [] _ mem 0) by (rewrite ?length_native_store; cbn; lia). by rewrite length_native_store. }
  assert (E2 : write_at k (take (Z.to_nat len) data) (native_store k (network_type_num type) ++ drop k mem)
               = Some (native_store k (network_type_num type) ++ take (Z.to_nat len) data)).
  { assert (Hd : length (take (Z.to_nat len) data) = Z.to_nat len) by (rewrite length_take; lia).
    rewrite write_at_app by (rewrite ?length_native_store, ?length_drop; lia).
    by rewrite (drop_ge (drop k mem)), app_nil_r by (rewrite length_drop; lia). }
  rewrite E1. cbn [lift fmap option_fmap option_map].
  destruct (Z.eqb_spec len 0) as [->|Hne].
  - change (take (Z.to_nat 0) data) with (@nil Z) in *. cbn [mret M_ret]. by rewrite E2.
  - unfold read_at. rewrite (proj2 (Nat.leb_le _ _)) by lia. unfold slice. rewrite drop_0.
    cbn [lift fmap option_fmap option_map]. by rewrite E2.
Qed.
End printed.

(** ** Examples *)

(** A layout of the structure: the target in eight bytes, the lengths in two, and one. *)
Definition put (off n : nat) (z : Z) (m : bytes) : bytes := blit off (le_enc n z) m.

#[local] Instance packed_publication : PrintPublication := {
  sizeof_print_publication := 13;
  store_target_node_id z m := if (length m <? 13)%nat then m else put 0 8 z m;
  store_fname_len z m := if (length m <? 13)%nat then m else put 8 2 z m;
  store_data_len z m := if (length m <? 13)%nat then m else put 10 2 z m;
  store_print_time z m := if (length m <? 13)%nat then m else put 12 1 z m
}.

Definition packed_fields (m : bytes) : Z * Z * Z * Z :=
  (le_dec (slice 0 8 m), le_dec (slice 8 2 m), le_dec (slice 10 2 m), le_dec (slice 12 1 m)).

Lemma slice_put off n z m :
  (off + n <= length m)%nat -> 0 <= z < 256 ^ Z.of_nat n -> le_dec (slice off n (put off n z m)) = z.
Proof.
  intros Hl Hz. unfold put. pose proof (slice_blit_same off (le_enc n z) m) as E. rewrite length_le_enc in E.
  rewrite E by lia. rewrite le_dec_enc. by apply Z.mod_small.
Qed.

#[local] Instance packed_laws : PrintPublicationLaws.
Proof.
  refine {| head_fields := packed_fields |}; cbn [sizeof_print_publication packed_publication].
  1-4: intros z m t f d p Hl Hz [= <- <- <- <-]; cbn [store_target_node_id store_fname_len store_data_len store_print_time packed_publication]; rewrite (proj2 (Nat.ltb_ge _ _)) by lia;
    unfold packed_fields; rewrite slice_put by (done || lia); unfold put;
    rewrite !slice_blit_ne by (rewrite ?length_le_enc; lia); reflexivity.
  - intros z m. cbn [store_target_node_id store_fname_len store_data_len store_print_time packed_publication]. destruct (Nat.ltb_spec (length m) 13); [done|].
    unfold put. rewrite !length_blit by (rewrite length_le_enc; lia). done.
  - intros m m' E. unfold packed_fields.
    assert (Hs : forall o n, (o + n <= 13)%nat -> slice o n m = slice o n m').
    { intros o n Hn. unfold slice. rewrite !take_drop_commute. f_equal.
      rewrite <- (Nat.min_l (o + n) 13) by lia. by rewrite <- !take_take, E. }
    by rewrite !Hs by lia.
  - lia.
Defined.

(** A network that notes what is published. *)
Definition posted : Type := Os * list (bytes * bytes).
Definition post_message (topic dat : option bytes) (len type version : Z) : M posted BmErr := fun s =>
  match topic, dat with
  | Some t, Some d => Some (BmOK, (fst s, snd s ++ [(t, d)]))
  | _, _ => None
  end.
Definition quiet : posted := (MkOs [] [] 0, []).

Definition file_x : bytes := [120; 0; 7; 7].
Definition text_hi : bytes := [104; 105].

Lemma spotter_log_read_witness :
  exists m, read_print m = (5, [120], text_hi, 1) /\ length m = 17%nat
    /\ @spotter_log platform_linux _ posted _ post_message (fun _ => 0xA5) 5 (Some file_x) 1 (Some text_hi) (Some text_hi) quiet
       = Some (BmOK, (MkOs [] [] 0, [(SPOTTER_FPRINTF_TOPIC, m)])).
Proof.
  destruct (@spotter_log_read platform_linux packed_publication packed_laws posted _ post_message (fun _ => 0xA5)
    ltac:(by vm_compute) 5 (Some file_x) [120] 1 text_hi (Some text_hi) quiet) as (_ & Hlog & _).
  - lia.
  - lia.
  - split; [by rewrite list_elem_of_singleton|]. by exists [7; 7].
  - cbn; lia.
  - by vm_compute.
  - destruct (Hlog ltac:(done) text_hi eq_refl eq_refl) as (m & R & L & E). exists m. split; [exact R|]. split; [exact L|].
    rewrite E. reflexivity.
Defined.

(** What a reader gets. *)
Definition reads_posted (r : option (BmErr * posted)) : option (BmErr * list (Z * bytes * bytes * Z)) :=
  match r with Some (err, s) => Some (err, map (fun p => read_print (snd p)) (snd s)) | None => None end.

Definition sample_append (junk : Z) (name : bytes) : option (BmErr * posted) :=
  @bm_file_append platform_linux _ posted _ post_message (fun _ => junk) 5 (Some name) (Some text_hi) 2 quiet.

(** The flag for the time of data that are appended to a file is never set: it is what was
    in the memory before. *)
Example append_time_undefined :
  reads_posted (sample_append 0 file_x) = Some (BmOK, [(5, [120], text_hi, 0)])
  /\ reads_posted (sample_append 1 file_x) = Some (BmOK, [(5, [120], text_hi, 1)]).
Proof. vm_compute. by split. Qed.

(** Data for a file with a long name are appended to another file, without an error;
    [spotter_log] refuses such names. *)
Example long_name_cut :
  reads_posted (sample_append 0 (replicate 70 120 ++ [0])) = Some (BmOK, [(5, replicate 64 120, text_hi, 0)])
  /\ @spotter_log platform_linux _ posted _ post_message (fun _ => 0) 5 (Some (replicate 70 120 ++ [0])) 1 (Some text_hi)
       (Some text_hi) quiet
     = Some (BmEMSGSIZE, quiet).
Proof. vm_compute. by split. Qed.
