(* ===== verification/Mavlink.v ===== *)
(** * MAVLink messages: src/middleware/bm_mavlink.c

    An application of the middleware: messages of the MAVLink protocol go to a multicast
    address of their own, which every node forwards to its other ports, and each node hands
    a message to the function of its kind; a timer sends a heartbeat.  The library of
    MAVLink is a submodule that is not part of the repository, and a class here. *)
From S2P Require Import Prelude Util LinkedList SList Os LinuxBuf L2Policy L2 BmLinux Bcmp Parts Middleware TimerHandler.

(** Packing and parsing.  [mavlink_parse_char] is given the state of the channel and a byte;
    [mavlink_reset] is [mavlink_reset_channel_status]. *)
Class MavlinkApi : Type := {
  mavlink_message_t : Type;
  mavlink_status_t : Type;
  mavlink_channel : Type;
  msgid : mavlink_message_t -> Z;
  mavlink_parse_char : mavlink_channel -> Z -> option (mavlink_message_t * mavlink_status_t) * mavlink_channel;
  mavlink_reset : mavlink_channel -> mavlink_channel;
  mavlink_msg_to_send_buffer : mavlink_message_t -> bytes;
  mavlink_msg_heartbeat_pack : Z -> Z -> Z -> Z -> Z -> Z -> Z -> mavlink_message_t;
  MAV_AUTOPILOT_INVALID : Z;
  MAVLINK_MAX_PACKET_LEN : Z
}.

Definition mavlink_port : Z := 14540.
Definition mavlink_heartbeat_period_ms : Z := 1000.
Definition link_local_mavlink_addr : BmIpAddr := [0xFF; 0x02; 0; 0; 0; 0; 0; 0; 0; 0; 0; 0; 0; 0; 0; 0x03].

Record BmMavLinkRxEntry : Type := MkRxEntry { mv_rx_cb : option nat; mv_msg_id : Z }.
Record BmMavLinkInfo : Type := MkMavInfo { mi_sys_id : Z; mi_comp_id : Z; mi_type : Z }.

Section types.
Context `{MavlinkApi}.

(** A call of a function of the table. *)
Record mavlink_call : Type := MkMavCall {
  mc_cb : nat; mc_node_id : Z; mc_msg : mavlink_message_t; mc_status : mavlink_status_t
}.

(** The variable [ctx], the channel that is parsed, and the calls.  [mv_timers]: how many
    timers run. *)
Record mavlink : Type := MkMavlink {
  rx_lut : list BmMavLinkRxEntry;
  mv_heartbeat_timer : bool;
  rx_lut_len : Z;
  mv_sys_id : Z;
  mv_comp_id : Z;
  mv_type : Z;
  mv_state : Z;
  mv_channel : mavlink_channel;
  mv_calls : list mavlink_call;
  mv_timers : nat;
  mv_os : Os
}.
End types.

Section mavlink.
Context `{MavlinkApi}.

Definition set_mv_channel (c : mavlink_channel) (s : mavlink) : mavlink :=
  MkMavlink (rx_lut s) (mv_heartbeat_timer s) (rx_lut_len s) (mv_sys_id s) (mv_comp_id s) (mv_type s) (mv_state s) c
    (mv_calls s) (mv_timers s) (mv_os s).
Definition add_mv_call (c : mavlink_call) (s : mavlink) : mavlink :=
  MkMavlink (rx_lut s) (mv_heartbeat_timer s) (rx_lut_len s) (mv_sys_id s) (mv_comp_id s) (mv_type s) (mv_state s)
    (mv_channel s) (mv_calls s ++ [c]) (mv_timers s) (mv_os s).
Definition set_mv_timer (b : bool) (n : nat) (s : mavlink) : mavlink :=
  MkMavlink (rx_lut s) b (rx_lut_len s) (mv_sys_id s) (mv_comp_id s) (mv_type s) (mv_state s)
    (mv_channel s) (mv_calls s) n (mv_os s).
Definition set_mv_os (o : Os) (s : mavlink) : mavlink :=
  MkMavlink (rx_lut s) (mv_heartbeat_timer s) (rx_lut_len s) (mv_sys_id s) (mv_comp_id s) (mv_type s) (mv_state s)
    (mv_channel s) (mv_calls s) (mv_timers s) o.

(** ** Routing *)

(** The loop over the ports, on the mask that is passed. *)
Fixpoint egress_loop (c : BmL2Ctx) (ingress_port : Z) (ports : list Z) (mask : Z) : Z :=
  match ports with
  | [] => mask
  | i :: ports =>
      let port_state := negb (Z.land (enabled_ports_mask c) (Z.shiftl 1 i) =? 0) in
      let mask := if port_state && negb (i =? ingress_port - 1) then u16 (Z.lor mask (Z.shiftl 1 i)) else mask in
      egress_loop c ingress_port ports mask
  end.

(** [c]: the layer 2 at the time of the call. *)
Definition mavlink_routing_cb (c : BmL2Ctx) : L2LinkLocalRoutingCb := fun ingress_port src _ =>
  (true, egress_loop c ingress_port (Z.of_nat <$> seq 0 (Z.to_nat (num_ports c))) 0, src).

(** ** Reception *)

(** The bytes up to the end of the first message; [None]: behind the memory. *)
Fixpoint parse_loop (size : nat) (mem : bytes) (c : mavlink_channel)
    : option (option (mavlink_message_t * mavlink_status_t) * mavlink_channel) :=
  match size with
  | O => Some (None, c)
  | S size =>
      match mem with
      | [] => None
      | b :: mem =>
          match mavlink_parse_char c b with
          | (Some r, c) => Some (Some r, c)
          | (None, c) => parse_loop size mem c
          end
      end
  end.

(** The first entry of the message's kind. *)
Fixpoint find_entry (id : Z) (n : nat) (lut : list BmMavLinkRxEntry) : option (option BmMavLinkRxEntry) :=
  match n with
  | O => Some None
  | S n =>
      match lut with
      | [] => None
      | e :: lut => if id =? mv_msg_id e then Some (Some e) else find_entry id n lut
      end
  end.

(** [buf]: the bytes of the payload. *)
Definition handle_mavlink (node_id : Z) (buf : bytes) (size : Z) : M mavlink unit :=
  s ← get;
  '(found, c) ← lift (parse_loop (Z.to_nat size) buf (mv_channel s));
  match found with
  | None => modify (set_mv_channel (mavlink_reset c))
  | Some (msg, status) =>
      _ ← modify (set_mv_channel c);
      e ← lift (find_entry (msgid msg) (Z.to_nat (rx_lut_len s)) (rx_lut s));
      match e with
      | Some (MkRxEntry (Some cb) _) => modify (add_mv_call (MkMavCall cb node_id msg status))
      | _ => mret tt
      end
  end.

Section node.
Context {St : Type} `{Part mavlink St} `{Part middleware St} `{Part timer_handler St} `{Platform} `{L2Os} (node_id : Z).

Definition mavlink_rx_cb (from : Z) (buf : option loc) (size : Z) : M St unit :=
  mavlink_buf ← on_part (udp_bufs (bm_udp_get_payload buf));
  on_part (handle_mavlink from mavlink_buf size).

(** ** Transmission *)

Definition bm_mavlink_transmit (msg : option mavlink_message_t) : M St BmErr :=
  match msg with
  | None => mret BmEINVAL
  | Some m =>
      udp_buf ← on_part (udp_bufs (bm_udp_new MAVLINK_MAX_PACKET_LEN));
      match udp_buf with
      | None => mret BmENOMEM
      | Some _ =>
          let data := mavlink_msg_to_send_buffer m in
          let mavlink_buf_len := u16 (Z.of_nat (length data)) in
          _ ← on_part (udp_bufs (payload_store udp_buf (write_at 0 data)));
          _ ← on_part (udp_bufs (bm_ip_buf_shrink udp_buf mavlink_buf_len));
          err ← on_part (bm_middleware_net_tx node_id mavlink_port udp_buf mavlink_buf_len);
          _ ← on_part (udp_bufs (bm_udp_cleanup udp_buf));
          mret err
      end
  end.

Definition mavlink_send_heartbeat : M St unit :=
  s ← gets (part (T := mavlink));
  _ ← bm_mavlink_transmit (Some (mavlink_msg_heartbeat_pack (mv_sys_id s) (mv_comp_id s) (mv_type s)
        MAV_AUTOPILOT_INVALID 0 0 (mv_state s)));
  mret tt.

(** [send_heartbeat]: the number of [mavlink_send_heartbeat]. *)
Definition mavlink_heartbeat_cb (send_heartbeat : nat) : M St unit :=
  _ ← on_part (timer_callback_handler_send_cb (Some send_heartbeat) 0); mret tt.

(** ** The start *)

Definition start_heartbeat : M mavlink BmErr :=
  ok ← zoom mv_os set_mv_os malloc_ok;
  s ← get;
  _ ← modify (set_mv_timer ok (mv_timers s));
  if ok : bool then
    started ← zoom mv_os set_mv_os malloc_ok;
    s ← get;
    if started : bool then _ ← modify (set_mv_timer true (S (mv_timers s))); mret BmOK else mret BmETIMEDOUT
  else mret BmENOMEM.

(** [rx_cb] and [routing_cb]: the numbers of the two functions above; [pcb_ok] is memory for
    the port. *)
Definition bm_mavlink_init (rx_cb routing_cb : nat) (pcb_ok : bool) (info : BmMavLinkInfo) (init_state : Z)
    (lut : option (list BmMavLinkRxEntry)) (lut_len : Z) : M St BmErr :=
  match lut with
  | Some l =>
      if (mi_sys_id info =? 0) || (mi_comp_id info =? 0) || (lut_len =? 0) then mret BmEINVAL
      else
        _ ← on_part (modify (fun s : mavlink => MkMavlink l (mv_heartbeat_timer s) lut_len (mi_sys_id info)
              (mi_comp_id info) (u8 (mi_type info)) (u8 init_state) (mv_channel s) (mv_calls s) (mv_timers s) (mv_os s)));
        err ← on_part start_heartbeat;
        if is_ok err then
          on_part (bm_middleware_add_application mavlink_port link_local_mavlink_addr rx_cb (Some routing_cb) pcb_ok)
        else mret err
  | None => mret BmEINVAL
  end.

Definition bm_mavlink_set_state (state : Z) : M St unit :=
  on_part (modify (fun s : mavlink => MkMavlink (rx_lut s) (mv_heartbeat_timer s) (rx_lut_len s) (mv_sys_id s) (mv_comp_id s)
    (mv_type s) (u8 state) (mv_channel s) (mv_calls s) (mv_timers s) (mv_os s))).

Definition bm_mavlink_get_sys_id : M St Z := gets (fun s => mv_sys_id (part s)).
Definition bm_mavlink_get_comp_id : M St Z := gets (fun s => mv_comp_id (part s)).
End node.
End mavlink.
