(* ===== verification/MavlinkSpec.v ===== *)
(** * What becomes of MAVLink messages

    The message of a datagram goes to the first function of its kind, the rest of the
    datagram is dropped; what is sent has exactly the packed message; and a node forwards
    it to every other port that is up. *)
From S2P Require Import Prelude Util LinkedList SList Os LinuxBuf L2Policy L2 BmLinux Bcmp Parts Middleware TimerHandler Mavlink.

Section feeding.
Context `{MavlinkApi}.

(** The channel after bytes that complete no message. *)
Fixpoint quiet_feed (c : mavlink_channel) (d : bytes) : option mavlink_channel :=
  match d with
  | [] => Some c
  | b :: d => match mavlink_parse_char c b with (None, c) => quiet_feed c d | (Some _, _) => None end
  end.
End feeding.

(** What is documented of the library.  [idle]: the channel is not inside of a message. *)
Class MavlinkLaws `{MavlinkApi} : Type := {
  idle : mavlink_channel -> Prop;
  idle_reset c : idle (mavlink_reset c);
  parses_packed m c : idle c -> exists d b c1 status c2,
    mavlink_msg_to_send_buffer m = d ++ [b] /\ quiet_feed c d = Some c1
    /\ mavlink_parse_char c1 b = (Some (m, status), c2) /\ idle c2;
  packed_size m : Z.of_nat (length (mavlink_msg_to_send_buffer m)) <= MAVLINK_MAX_PACKET_LEN;
  packed_bytes m : bytes_ok (mavlink_msg_to_send_buffer m);
  max_packet : 0 <= MAVLINK_MAX_PACKET_LEN <= max_payload_len_udp
}.

(** ** Routing *)

Lemma port_bit_set m i : 0 <= i -> negb (Z.land m (Z.shiftl 1 i) =? 0) = Z.testbit m i.
Proof.
  intros Hi. rewrite Z.shiftl_1_l. destruct (Z.testbit m i) eqn:E.
  - apply negb_true_iff, Z.eqb_neq. intros E0. apply (f_equal (fun z => Z.testbit z i)) in E0.
    rewrite Z.land_spec, E, Z.pow2_bits_true, Z.bits_0 in E0 by done. done.
  - apply negb_false_iff, Z.eqb_eq, Z.bits_inj. intros j. rewrite Z.land_spec, Z.pow2_bits_eqb, Z.bits_0 by done.
    destruct (Z.eqb_spec i j) as [->|]; [by rewrite E|by rewrite andb_false_r].
Qed.

Lemma egress_loop_spec c ingress ports mask j :
  Forall (fun i => 0 <= i < 16) ports -> 0 <= mask < 2 ^ 16 ->
  Z.testbit (egress_loop c ingress ports mask) j
  = Z.testbit mask j || (bool_decide (j ∈ ports) && Z.testbit (enabled_ports_mask c) j && negb (j =? ingress - 1)).
Proof.
  revert mask. induction ports as [|i ports IH]; intros mask Hp Hm; cbn [egress_loop].
  { rewrite bool_decide_false by apply not_elem_of_nil. by rewrite orb_false_r. }
  apply Forall_cons in Hp as [Hi Hp]. rewrite port_bit_set by lia.
  assert (Hs : 0 <= Z.lor mask (Z.shiftl 1 i) < 2 ^ 16).
  { rewrite Z.shiftl_1_l. pose proof (Z.pow_pos_nonneg 2 i ltac:(lia) ltac:(lia)).
    assert (H0 : 0 <= Z.lor mask (2 ^ i)) by (apply Z.lor_nonneg; lia). split; [done|].
    apply Z.log2_lt_pow2; [|]. { destruct (Z.eq_dec (Z.lor mask (2 ^ i)) 0) as [[_ E]%Z.lor_eq_0_iff|]; lia. }
    rewrite Z.log2_lor, Z.log2_pow2 by lia. apply Z.max_lub_lt; [|lia].
    destruct (Z.eq_dec mask 0) as [->|]; [done|]. apply Z.log2_lt_pow2; lia. }
  set (b := Z.testbit (enabled_ports_mask c) i && negb (i =? ingress - 1)).
  assert (Hm' : 0 <= (if b then u16 (Z.lor mask (Z.shiftl 1 i)) else mask) < 2 ^ 16).
  { destruct b; [by rewrite u16_small by lia|done]. }
  rewrite IH by done.
  assert (Eb : Z.testbit (if b then u16 (Z.lor mask (Z.shiftl 1 i)) else mask) j
               = Z.testbit mask j || (b && (i =? j))).
  { destruct b; [|by rewrite andb_false_l, orb_false_r]. rewrite u16_small by lia.
    by rewrite Z.lor_spec, Z.shiftl_1_l, Z.pow2_bits_eqb by lia. }
  rewrite Eb. unfold b. destruct (Z.eqb_spec i j) as [<-|Hne].
  - rewrite (bool_decide_true (i ∈ i :: ports)) by apply list_elem_of_here.
    destruct (Z.testbit mask i), (Z.testbit (enabled_ports_mask c) i), (i =? ingress - 1), (bool_decide (i ∈ ports)); done.
  - rewrite andb_false_r, orb_false_r. f_equal. do 2 f_equal. apply bool_decide_ext.
    rewrite elem_of_cons. split; [by right|by intros [->|?]].
Qed.

(** A frame goes to the ports of the node that are up, but for the one it came from. *)
Lemma mavlink_floods c ingress src dst j :
  0 <= num_ports c <= 16 -> 
  let '(submit, mask, src') := mavlink_routing_cb c ingress src dst in
  submit = true /\ src' = src
  /\ Z.testbit mask j = (0 <=? j) && (j <? num_ports c) && Z.testbit (enabled_ports_mask c) j && negb (j =? ingress - 1).
Proof.
  intros Hn. unfold mavlink_routing_cb. split; [done|]. split; [done|].
  rewrite egress_loop_spec; [|apply Forall_forall; intros i (k & -> & Hk%elem_of_seq)%list_elem_of_fmap; lia|lia].
  rewrite Z.bits_0, orb_false_l. do 2 f_equal.
  destruct (Z.leb_spec 0 j), (Z.ltb_spec j (num_ports c)); cbn [andb];
    [apply bool_decide_true|apply bool_decide_false..]; rewrite list_elem_of_fmap;
    [exists (Z.to_nat j); rewrite elem_of_seq; lia|intros (k & -> & Hk%elem_of_seq); lia..].
Qed.

(** ** Reception *)

Section delivery.
Context `{MavlinkApi} `{!MavlinkLaws}.

(** A datagram: a packed message with bytes before it and more bytes, whatever they are,
    behind it, or bytes without a message. *)
Inductive mavlink_datagram : Type :=
| Packed (before : bytes) (m : mavlink_message_t) (more : bytes)
| Noise (d : bytes).

Definition datagram_bytes (d : mavlink_datagram) : bytes :=
  match d with Packed before m more => before ++ mavlink_msg_to_send_buffer m ++ more | Noise d => d end.

(** Bytes without a message complete none when the parser begins with them, and those before
    a packed message begin none either. *)
Definition datagram_ok (d : mavlink_datagram) : Prop :=
  match d with
  | Packed before _ _ => forall c, idle c -> exists c', quiet_feed c before = Some c' /\ idle c'
  | Noise d => forall c, idle c -> is_Some (quiet_feed c d)
  end.

(** The function of a message's kind: the first entry, if it has one. *)
Definition handler_of (lut : list BmMavLinkRxEntry) (m : mavlink_message_t) : option nat :=
  match find (fun e => msgid m =? mv_msg_id e) lut with Some e => mv_rx_cb e | None => None end.

Definition expected_call (lut : list BmMavLinkRxEntry) (x : Z * mavlink_datagram) : option (nat * Z * mavlink_message_t) :=
  match snd x with
  | Packed _ m _ => (fun cb => (cb, fst x, m)) <$> handler_of lut m
  | Noise _ => None
  end.

(** A call without the parser's status. *)
Definition seen_call (c : mavlink_call) : nat * Z * mavlink_message_t := (mc_cb c, mc_node_id c, mc_msg c).

Lemma parse_quiet d rest c c' n :
  quiet_feed c d = Some c' -> parse_loop (length d + n) (d ++ rest) c = parse_loop n rest c'.
Proof.
  revert c. induction d as [|b d IH]; intros c Hc; cbn in *; [by injection Hc as ->|].
  destruct (mavlink_parse_char c b) as [[r|] c1]; [done|]. by apply IH.
Qed.

Lemma parse_packed before m more c :
  idle c -> datagram_ok (Packed before m more) -> exists status c2, idle c2
    /\ parse_loop (length (datagram_bytes (Packed before m more))) (datagram_bytes (Packed before m more)) c
       = Some (Some (m, status), c2).
Proof.
  intros Hc0 Hb. destruct (Hb c Hc0) as (c' & Eb & Hc). cbn [datagram_bytes]. rewrite length_app, (parse_quiet _ _ _ _ _ Eb).
  clear c Hc0 Hb Eb. rename c' into c. destruct (parses_packed m c Hc) as (d & b & c1 & status & c2 & E & Eq & Ep & Hc2).
  exists status, c2. split; [done|]. rewrite E, <- app_assoc, length_app, (parse_quiet _ _ _ _ _ Eq). cbn. by rewrite Ep.
Qed.

Lemma parse_noise d c : idle c -> is_Some (quiet_feed c d) -> exists c', parse_loop (length d) d c = Some (None, c').
Proof.
  intros _ [c' E]. exists c'. pose proof (parse_quiet d [] c c' 0 E) as H'. by rewrite app_nil_r, Nat.add_0_r in H'.
Qed.

Lemma find_entry_all id lut : find_entry id (length lut) lut = Some (find (fun e => id =? mv_msg_id e) lut).
Proof. induction lut as [|e lut IH]; [done|]. cbn. by destruct (id =? mv_msg_id e). Qed.

(** The table is the one that was given, and no message is begun. *)
Definition mavlink_ready (lut : list BmMavLinkRxEntry) (s : mavlink) : Prop :=
  rx_lut s = lut /\ rx_lut_len s = Z.of_nat (length lut) /\ idle (mv_channel s).

Lemma handle_datagram from d lut s :
  mavlink_ready lut s -> datagram_ok d ->
  total (handle_mavlink from (datagram_bytes d) (Z.of_nat (length (datagram_bytes d)))) (fun _ s' =>
    mavlink_ready lut s'
    /\ (seen_call <$> mv_calls s') = (seen_call <$> mv_calls s) ++ option_list (expected_call lut (from, d))) s.
Proof.
  intros (Hl & Hn & Hi) Hd. unfold handle_mavlink. apply total_bind, total_get. rewrite Nat2Z.id. destruct d as [before m more|d].
  - destruct (parse_packed before m more (mv_channel s) Hi Hd) as (status & c2 & Hc2 & E).
    apply total_bind. apply (total_lift _ _ _ _ E). apply total_bind, total_modify, total_bind.
    rewrite Hl, Hn, Nat2Z.id. apply (total_lift _ _ _ _ (find_entry_all _ _)).
    unfold expected_call, handler_of. cbn [fst snd].
    destruct (find _ lut) as [[[cb|] id]|]; [apply total_modify|apply total_ret..]; (split; [by split|]).
    + cbn. by rewrite fmap_app.
    + cbn. by rewrite app_nil_r.
    + cbn. by rewrite app_nil_r.
  - destruct (parse_noise d (mv_channel s) Hi (Hd _ Hi)) as [c' E]. cbn [datagram_bytes].
    apply total_bind. apply (total_lift _ _ _ _ E). apply total_modify.
    split; [split; [done|split; [done|apply idle_reset]]|]. cbn. by rewrite app_nil_r.
Qed.

(** C39: the first message of each datagram is handled once, by the first function of its
    kind.  Datagrams arrive in any order: some have a packed message, at the start or behind
    bytes that the parser skips, some hold no message.  The node runs without undefined
    behaviour, and its functions are called with exactly the first message of each datagram
    that has one, in the order of the datagrams, with the number of its sender; what is
    behind that message, be it other messages, is dropped ([mavlink_noise]); a datagram
    without a message, or one that ends inside of a message, does not disturb the next
    one. *)
Theorem mavlink_delivered ds lut s :
  mavlink_ready lut s -> Forall (fun x => datagram_ok (snd x)) ds ->
  total (for_each ds (fun x => handle_mavlink (fst x) (datagram_bytes (snd x)) (Z.of_nat (length (datagram_bytes (snd x))))))
    (fun _ s' => mavlink_ready lut s'
      /\ (seen_call <$> mv_calls s') = (seen_call <$> mv_calls s) ++ omap (expected_call lut) ds) s.
Proof.
  revert s. induction ds as [|[from d] ds IH]; intros s Hs Hd; cbn [for_each].
  { apply total_ret. split; [done|]. by rewrite app_nil_r. }
  apply Forall_cons in Hd as [Hd Hds]. apply total_bind. eapply total_mono; [by apply handle_datagram|].
  intros x s1 [Hs1 E1]. eapply total_mono; [by apply IH|]. intros y s2 [Hs2 E2]. split; [done|].
  rewrite E2, E1, <- app_assoc. f_equal. cbn. by destruct (expected_call lut (from, d)).
Qed.
End delivery.

(** ** Transmission *)

Section transmission.
Context `{MavlinkApi} `{!MavlinkLaws}.
Context {St : Type} `{Part mavlink St} `{PartLaws middleware St} `{Part timer_handler St}.
Context (P : Platform) (O : L2Os) (le : little_endian = true) (id prefix : Z).

(** The middleware's memory for buffers. *)
Definition mw_bufs (m : middleware) : buf_heap := l2_bufs (mw_net m).
Definition set_mw_bufs (h : buf_heap) (m : middleware) : middleware := set_mw_net (set_l2_bufs h (mw_net m)) m.

(** The application is bound, there is memory, and room for a frame. *)
Record mavlink_sends (m : middleware) (q : list L2QueueElement) : Prop := {
  ms_app : exists es rx route, ll_inv (mw_heap m) (applications m) es
    /\ find_id mavlink_port es = Some (Some (MkApplication mavlink_port mavlink_port rx route link_local_mavlink_addr));
  ms_queue : evt_queue (l2_ctx (mw_net m)) = Some q;
  ms_room : (length q < evt_queue_len)%nat;
  ms_alloc : LinuxBuf.alloc_ok (mw_bufs m) = [];
  ms_junk : forall n, byte_ok (junk (mw_bufs m) n);
  ms_addr : ll_addr (l2_upper (mw_net m)) = nodeid_to_ip prefix id;
  ms_prefix : 0 <= prefix < 2 ^ 32;
  ms_id : 0 <= id < 2 ^ 64
}.

Lemma mw_step {A B} (m : M middleware A) (k : A -> M St B) Q t t' a s :
  m t = Some (a, t') -> total (k a) Q (set_part t' s) -> total (on_part m ≫= k) Q (set_part t s).
Proof.
  intros E Hk. apply total_bind. exists a, (set_part t' s). split; [|done].
  rewrite (on_part_some m (set_part t s) a t') by (by rewrite part_set). by rewrite set_part_twice.
Qed.

Lemma mw_bufs_some {A} (m : M buf_heap A) t a h : m (mw_bufs t) = Some (a, h) -> udp_bufs m t = Some (a, set_mw_bufs h t).
Proof.
  intros E. unfold udp_bufs, with_mw_net, zoom. rewrite (with_bufs_some m (mw_net t) a h) by exact E. done.
Qed.

(** The buffer with the packed message. *)
Lemma packed_buffer d n (j : nat -> Z) :
  Z.of_nat (length d) <= n -> bytes_ok d -> (forall k, byte_ok (j k)) -> exists rest,
    write_at 0 d (j <$> seq 0 (Z.to_nat n)) = Some (d ++ rest) /\ bytes_ok (d ++ rest).
Proof.
  intros Hl Hd Hj. exists (drop (length d) (j <$> seq 0 (Z.to_nat n))). split.
  - pose proof (write_at_app [] d (j <$> seq 0 (Z.to_nat n)) 0 eq_refl) as E. rewrite length_fmap, length_seq in E.
    apply E. lia.
  - apply bytes_ok_app; [done|]. apply Forall_drop, Forall_fmap, Forall_true. intros k. apply Hj.
Qed.

Lemma set_mw_bufs_twice h1 h2 m : set_mw_bufs h2 (set_mw_bufs h1 m) = set_mw_bufs h2 m.
Proof. done. Qed.

(** [bm_middleware_net_tx] of a buffer whose first bytes are the message. *)
Lemma mavlink_net_tx m q l b d rest :
  mavlink_sends m q -> bufs (mw_bufs m) !! l = None -> bytes_ok (d ++ rest) -> Z.of_nat (length d) <= 1452 ->
  payload b = d ++ rest ->
  let n := Z.of_nat (length d) in
  let m1 := set_mw_bufs (set_bufs (<[l := b]> (bufs (mw_bufs m))) (mw_bufs m)) m in
  let fl := fresh (dom (bufs (mw_bufs m1))) in
  exists n' f mask,
    bm_middleware_net_tx id mavlink_port (Some l) n m1 = Some (BmOK, set_mw_net n' m1)
    /\ evt_queue (l2_ctx n') = Some (q ++ [MkElement L2Tx (62 + n) (Some fl) mask])
    /\ bufs (l2_bufs n') = <[fl := MkLinuxBuf 1 (62 + n) (62 + n) f]> (bufs (mw_bufs m1))
    /\ same_fields f (udp_wire id (nodeid_to_ip prefix id) link_local_mavlink_addr mavlink_port mavlink_port d).
Proof.
  intros [(es & rx & route & Hes & Hf) Hq Hroom Hal Hj Haddr Hpre Hid] Hl Hok Hd Hb n m1 fl.
  assert (Hsrc : bytes_ok (ll_addr (l2_upper (mw_net m))) /\ length (ll_addr (l2_upper (mw_net m))) = 16%nat).
  { rewrite Haddr, nodeid_to_ip_bytes by done. split; [|done].
    apply bytes_ok_app; [apply be_enc_ok|]. apply bytes_ok_app; [decided|apply be_enc_ok]. }
  destruct Hsrc as [Hsrc Hsrcl].
  destruct (udp_tx_spec id (mw_net m1) l b n q mavlink_port link_local_mavlink_addr mavlink_port)
    as (n' & f & mask & E & Eq & Eb & _ & Hsame & _); [apply lookup_insert_eq|by rewrite Hb|rewrite Hb, length_app; lia|lia|
    done|done|done|done|done|decided|done|done|done|].
  exists n', f, mask. split; [|split; [exact Eq|split; [exact Eb|]]].
  - unfold bm_middleware_net_tx. erewrite bind_some by reflexivity. rewrite bind_lift.
    change (applications m1) with (applications m). change (mw_heap m1) with (mw_heap m).
    rewrite (ll_get_refines _ _ _ _ Hes), Hf. cbn [mbind option_bind]. rewrite bind_lift. cbn [mbind option_bind app_pcb app_dest app_port].
    destruct (Z.leb_spec n max_payload_len_udp) as [_|Hx]; [|change max_payload_len_udp with 1452 in Hx; lia].
    unfold with_mw_net, zoom. change (@Some BmIpAddr) with (@Some bytes). by rewrite E.
  - revert Hsame. rewrite Hb. change (ll_addr (l2_upper (mw_net m1))) with (ll_addr (l2_upper (mw_net m))). rewrite Haddr.
    unfold n. by rewrite Nat2Z.id, take_app_length.
Qed.

(** A message is sent in a datagram of exactly its bytes, from the link-local address of the
    node to the group of MAVLink; the buffer in which it was packed is given back. *)
Lemma mavlink_transmitted msg q s :
  mavlink_sends (part s) q ->
  let h := mw_bufs (part s) in
  let d := mavlink_msg_to_send_buffer msg in
  let n := Z.of_nat (length d) in
  total (bm_mavlink_transmit id (Some msg)) (fun err s' => err = BmOK /\ exists m' fl f mask, s' = set_part m' s
    /\ evt_queue (l2_ctx (mw_net m')) = Some (q ++ [MkElement L2Tx (62 + n) (Some fl) mask])
    /\ bufs h !! fl = None /\ bufs (mw_bufs m') = <[fl := MkLinuxBuf 1 (62 + n) (62 + n) f]> (bufs h)
    /\ same_fields f (udp_wire id (nodeid_to_ip prefix id) link_local_mavlink_addr mavlink_port mavlink_port d)) s.
Proof.
  intros Hs h d n. destruct Hs as [(es & rx & route & Hes & Hf) Hq Hroom Hal Hj Haddr Hpre Hid].
  set (m := part s) in *. rewrite <- (set_part_same s). fold m. unfold bm_mavlink_transmit. fold d.
  pose proof max_packet as Hmax. change max_payload_len_udp with 1452 in Hmax.
  pose proof (packed_size msg) as Hd. fold d n in Hd. assert (Hn : 0 <= n) by (unfold n; lia).
  rewrite u16_small by lia.
  eapply mw_step; [apply mw_bufs_some, bm_l2_new_some, Hal|]. cbv beta iota. fold h.
  set (l := fresh (dom (bufs h))). assert (Hl : bufs h !! l = None) by apply not_elem_of_dom, is_fresh.
  destruct (packed_buffer d MAVLINK_MAX_PACKET_LEN (junk h)) as (rest & Ew & Hok); [lia|apply packed_bytes|exact Hj|].
  eapply mw_step; [apply mw_bufs_some; eapply payload_store_some; [cbn; apply lookup_insert_eq|exact Ew]|].
  eapply mw_step; [apply mw_bufs_some; unfold bm_ip_buf_shrink; erewrite bind_some by (apply get_buf_some; cbn; apply lookup_insert_eq); reflexivity|].
  set (b := MkLinuxBuf 1 MAVLINK_MAX_PACKET_LEN n (d ++ rest)).
  set (m1 := set_mw_bufs (set_bufs (<[l := b]> (bufs h)) h) m).
  match goal with |- total _ _ (set_part ?t s) => replace t with m1 by (unfold m1; cbn; by rewrite !insert_insert_eq) end.
  destruct (mavlink_net_tx m q l b d rest) as (n' & f & mask & E & Eq & Eb & Hsame); [by split; eauto|done|done|lia|done|].
  eapply mw_step; [exact E|]. set (fl := fresh (dom (bufs (mw_bufs m1)))) in *.
  change (bufs (l2_bufs n') = <[fl := MkLinuxBuf 1 (62 + n) (62 + n) f]> (<[l := b]> (bufs h))) in Eb.
  assert (Hfl : <[l := b]> (bufs h) !! fl = None) by (apply not_elem_of_dom, is_fresh).
  assert (Hne : fl <> l) by (intros E0; rewrite E0, lookup_insert_eq in Hfl; done).
  assert (Hl' : bufs (l2_bufs n') !! l = Some b) by (rewrite Eb, lookup_insert_ne by done; apply lookup_insert_eq).
  eapply mw_step; [apply mw_bufs_some; eapply bm_l2_free_last; [exact Hl'|done]|].
  apply total_ret. split; [done|]. do 4 eexists. split; [by rewrite set_part_twice|]. split; [exact Eq|].
  split; [by rewrite lookup_insert_ne in Hfl|]. split; [|exact Hsame].
  change (delete l (bufs (l2_bufs n')) = <[fl := MkLinuxBuf 1 (62 + n) (62 + n) f]> (bufs h)).
  rewrite Eb, delete_insert_ne by done.
  rewrite delete_insert_id by done. done.
Qed.
End transmission.

(** ** Examples

    A library with two kinds of messages of two bytes. *)
#[local] Instance two_messages : MavlinkApi := {
  mavlink_message_t := bool;
  mavlink_status_t := unit;
  mavlink_channel := bool;
  msgid m := if m then 30 else 0;
  mavlink_parse_char c b := if c then (Some (b =? 1, tt), false) else (None, b =? 0xFD);
  mavlink_reset _ := false;
  mavlink_msg_to_send_buffer m := [0xFD; if m then 1 else 0];
  mavlink_msg_heartbeat_pack _ _ _ _ _ _ _ := false;
  MAV_AUTOPILOT_INVALID := 8;
  MAVLINK_MAX_PACKET_LEN := 280
}.

#[local] Instance two_laws : MavlinkLaws.
Proof.
  refine {| idle := fun c : mavlink_channel => c = false |}.
  - done.
  - intros m c ->. exists [0xFD], (if m then 1 else 0), true, tt, false. by destruct m.
  - intros m. cbn. lia.
  - intros m. cbn. apply Forall_cons_2; [unfold byte_ok; lia|]. apply Forall_cons_2; [destruct m; unfold byte_ok; lia|done].
  - split; [cbn; lia|by vm_compute].
Defined.

Definition mavlink_lut : list BmMavLinkRxEntry := [MkRxEntry (Some 4%nat) 30; MkRxEntry None 0; MkRxEntry (Some 5%nat) 30].
Definition mavlink_sample : mavlink := MkMavlink mavlink_lut true 3 1 1 0 0 (false : mavlink_channel) [] 1 (MkOs [] [] 0).
Definition mavlink_arrivals : list (Z * mavlink_datagram) :=
  [(7, Packed [] true [0xFD; 1]); (8, Noise [1; 2]); (9, Packed [] false []); (7, Packed [0; 3] true [])].

Lemma mavlink_delivered_witness :
  omap (expected_call mavlink_lut) mavlink_arrivals = [(4%nat, 7, true); (4%nat, 7, true)]
  /\ total (for_each mavlink_arrivals
       (fun x => handle_mavlink (fst x) (datagram_bytes (snd x)) (Z.of_nat (length (datagram_bytes (snd x))))))
     (fun _ s' => mavlink_ready mavlink_lut s'
       /\ (seen_call <$> mv_calls s') = (seen_call <$> mv_calls mavlink_sample) ++ omap (expected_call mavlink_lut) mavlink_arrivals)
     mavlink_sample.
Proof.
  split; [reflexivity|]. apply (mavlink_delivered mavlink_arrivals mavlink_lut mavlink_sample).
  - split; [reflexivity|]. by split.
  - repeat apply Forall_cons_2; [..|apply Forall_nil_2]; intros c Hc; cbn in Hc; subst c; by eexists.
Defined.

(** A datagram that ends inside of a message, and a second message in the same datagram. *)
Example mavlink_noise :
  (fun r => seen_call <$> mv_calls (snd r)) <$>
    for_each [(1, [0xFD]); (2, [1; 0xFD; 1; 0xFD; 1])] (fun x => handle_mavlink (fst x) (snd x) (Z.of_nat (length (snd x)))) mavlink_sample
  = Some [(4%nat, 2, true)].
Proof. vm_compute. reflexivity. Qed.

(** Every call of [bm_mavlink_init] makes one more timer for heartbeats, and none is ever
    stopped: not the one of an earlier call, and not this one when the port cannot be bound. *)
Definition mavlink_host : Type := mavlink * (middleware * timer_handler).
#[local] Instance host_mavlink : Part mavlink mavlink_host := { part := fst; set_part m s := (m, snd s) }.
#[local] Instance host_middleware : Part middleware mavlink_host :=
  { part s := fst (snd s); set_part m s := (fst s, (m, snd (snd s))) }.
#[local] Instance host_timers : Part timer_handler mavlink_host :=
  { part s := snd (snd s); set_part m s := (fst s, (fst (snd s), m)) }.

Definition mavlink_unset : mavlink := MkMavlink [] false 0 0 0 0 0 (false : mavlink_channel) [] 0 (MkOs [] [] 0).
Definition start_mavlink (pcb_ok : bool) : M mavlink_host BmErr :=
  bm_mavlink_init 1 2 pcb_ok (MkMavInfo 1 1 0) 0 (Some mavlink_lut) 3.

Example timers_never_stop net :
  let host : mavlink_host := (mavlink_unset, (MkMiddleware LL_empty ∅ None net (MkOs [] [] 0), MkTimerHandler None (MkOs [] [] 0))) in
  udp_list (l2_upper net) = LL_empty -> udp_heap (l2_upper net) = ∅ -> LinuxBuf.alloc_ok (l2_bufs net) = [] ->
  (fun r => (fst r, mv_timers (fst (snd r)))) <$> start_mavlink false host = Some (BmENOMEM, 1%nat)
  /\ (fun r => (fst r, mv_timers (fst (snd r)))) <$> (_ ← start_mavlink true; start_mavlink true) host = Some (BmOK, 2%nat).
Proof.
  destruct net as [c [b al j] th ch tr [la ua ma ul istr lu uh bq uc]]. cbn. intros -> -> ->. vm_compute. by split.
Qed.
