(* ===== verification/Bristlemouth.v ===== *)
(** * The start of a node: src/middleware/bristlemouth.c

    The parts of the node are started one after the other, and not beyond one that fails.
    The functions that start them are those of the other files, on the state of a whole
    node. *)
From S2P Require Import Prelude.

Section start.
Context {St : Type}.

(** [bm_err_check] of each function in turn. *)
Fixpoint start_all (fs : list (M St BmErr)) (err : BmErr) : M St BmErr :=
  match fs with
  | [] => mret err
  | f :: fs => err ← unless_err err f; start_all fs err
  end.

Context (adin2111_network_device : M St unit) (set_power_callback : option nat -> M St unit) (num_ports : M St Z).
Context (adin2111_init bm_l2_init bm_ip_init bcmp_init : M St BmErr) (topology_init : Z -> M St BmErr).
Context (bm_service_init bm_pubsub_init bm_middleware_init metrics_service_init : M St BmErr).
(** [bm_metrics_enabled] of the configuration. *)
Context (bm_metrics_enabled : bool).

Definition bristlemouth_init (net_power_cb : option nat) : M St BmErr :=
  _ ← adin2111_network_device;
  _ ← set_power_callback net_power_cb;
  start_all
    ([adin2111_init; bm_l2_init; bm_ip_init; bcmp_init; n ← num_ports; topology_init n; bm_service_init; bm_pubsub_init;
      bm_middleware_init]
     ++ if bm_metrics_enabled then [metrics_service_init] else []) BmOK.
End start.

(** ** The order *)

(** [fs] were started, all but the last without an error. *)
Inductive started {St} : list (M St BmErr) -> BmErr -> St -> St -> Prop :=
| started_none s : started [] BmOK s s
| started_fails f e s s' : f s = Some (e, s') -> e <> BmOK -> started [f] e s s'
| started_ok f fs e s s1 s2 : f s = Some (BmOK, s1) -> started fs e s1 s2 -> started (f :: fs) e s s2.

(** What is started is the beginning of the list: all of it when there is no error, and up
    to the first part that fails when there is one. *)
Lemma start_all_order {St} (fs : list (M St BmErr)) s e s' :
  start_all fs BmOK s = Some (e, s') ->
  exists begun rest, fs = begun ++ rest /\ started begun e s s' /\ (e = BmOK -> rest = []).
Proof.
  revert s. induction fs as [|f fs IH]; intros s E; cbn [start_all] in E.
  { injection E as <- <-. exists [], []. split; [done|]. split; [constructor|done]. }
  apply bind_inv in E as (e1 & s1 & E1 & E2). cbn in E1. destruct (decide (e1 = BmOK)) as [->|Hne].
  - destruct (IH _ E2) as (d & r & -> & Hs & Hr). exists (f :: d), r. split; [done|]. split; [|done]. by eapply started_ok.
  - assert (Hk : forall (gs : list (M St BmErr)) s0, start_all gs e1 s0 = Some (e1, s0)).
    { induction gs as [|g gs IHg]; intros s0; [done|]. cbn. unfold unless_err. rewrite (proj2 (is_ok_false e1) Hne). apply IHg. }
    rewrite Hk in E2. injection E2 as <- <-. exists [f], fs. split; [done|]. split; [by constructor|]. by intros ->.
Qed.
